(* ===== verification/_CoqProject ===== *)
-Q . S2P
Prelude.v
PyFloat.v
PyStr.v
Domain.v
Database.v
Json.v
Utf8.v
Evaluator.v
Storage.v
StorageSpec.v
Config.v
Sessions.v
Canonical.v
Chunking.v
ChunkingSpec.v
IngestionQueue.v
IngestionWorker.v
IngestionQueueSpec.v
IngestionWorkerSpec.v
Ownership.v
EvaluationQueue.v
EvaluationQueueFacts.v
EvaluationQueueSpec.v
Catalog.v
CatalogSpec.v
Submissions.v
SubmissionsSpec.v
Runtime.v
RuntimeSpec.v
Progressive.v
ProgressiveSpec.v
ExecutionContract.v
JobObject.v
Executor.v
ExecutorSpec.v
ProcessTree.v
Workloads.v
WorkloadsSpec.v
EvaluationWorker.v
EvaluationWorkerSpec.v
Coalescing.v
EvaluationViews.v
EvaluationViewsSpec.v
InteractiveMetrics.v
Retrieval.v
Http.v
HttpSpec.v
UploadSpec.v
Schema.v
Migrations.v
MigrationsSpec.v
Mapping.v
MappingSpec.v
RuntimeStatus.v
RequestProfile.v
Middleware.v
System.v
Measurements.v
Experiments.v
Integrity.v
Quality.v
LexicalQuality.v
FailureInjection.v
