(* ===== verification/Prelude.v ===== *)
(** * ChallengeForge: a verification development

    ChallengeForge is a hackathon platform in Python.  Organizers publish
    challenges and participants submit work over an HTTP interface; accepted
    submissions are evaluated and uploaded artifacts are ingested by worker
    processes.  The parts share one PostgreSQL database, which is authoritative,
    and one artifact store on the local file system.  This library translates the
    program into executable Rocq definitions and proves what makes its parts
    correct, each alone and all together.

    ** How the code is modelled

    - A Python call that may raise is a computation [M exn S A] over a state [S]:
      it returns or raises, and what it changed before it raised stays changed.
      Undoing is an explicit [rollback].  [preserves] and [triple] in this file
      are the program logic of such computations.
    - A [str] is a list of code points (PyStr), a [float] an IEEE binary64 number
      with the rounding of each operation (PyFloat), an [int] a [Z]; JSON values
      keep the order of their keys (Domain, Json), bytes are lists of [Z], and
      UTF-8 is decoded strictly (Utf8).
    - A database is a record of finite maps from identifiers to rows (Database).
      A row is the entity of the same name; Mapping and MappingSpec show that rows
      and entities correspond.  INSERT and UPDATE check the constraints of the
      schema.  A session has its own view of the database, publishes it by
      [commit], and is given the fate of its commits in advance, so that the
      theorems hold for every pattern of failing commits.
    - Clocks, fresh identifiers, and what the operating system answers are
      arguments.  Nothing is assumed of a fresh identifier: one in use makes the
      INSERT fail.
    - One transaction is one step.  Between two transactions of a request or of a
      worker, and between the unlocked read and the write of one transaction, other
      processes act: they appear as arguments ([others], [rn_others], [we_other],
      [during]) or as the interleavings of a step relation.  The services that
      check a row without locking it and write it later (publish_hackathon,
      publish_challenge, create, update_created, attach_incoming) commit on what the
      others left; the rest lock what they check, or check what never changes.

    ** Files

    - Prelude: the monad, slices, counting, record updates, tactics and hints.
      PyFloat, PyStr, Json, Utf8: the parts of Python's library the program uses.
    - Domain, Config: src/challengeforge/domain, identity, evaluation/plan.py,
      config.py.
    - Sessions: the engine of persistence/session.py.
    - Database: the tables of persistence/models.py as the repositories write
      them.  Schema: the same tables as declared, with [create_all] and
      retrieval/schema.py.  Migrations, MigrationsSpec: src/alembic/versions.
      Mapping, MappingSpec: persistence/mapping.py.
    - Catalog, CatalogSpec: application/hackathons.py, application/challenges.py
      and their repositories.  Submissions, SubmissionsSpec:
      application/submissions.py, application/idempotency.py and their
      repository.  EvaluationViews, EvaluationViewsSpec:
      application/evaluations.py.  Evaluator: application/evaluator.py.
    - Storage, StorageSpec: storage/, application/artifacts.py,
      application/uploads.py.
    - EvaluationQueue (EvaluationRepository of persistence/repositories.py),
      EvaluationQueueFacts, EvaluationQueueSpec: the durable evaluation queue with
      its bounded bypass and its recovery.  Ownership: execution/ownership.py.
    - Runtime, RuntimeSpec: runtime/ (budgets, pressure, the interactive signal,
      the adaptive controller, admission, the tick).  RuntimeStatus: the status of
      runtime/runtime.py, and runtime/expensive_work.py.  Coalescing:
      runtime/coalescing.py.  InteractiveMetrics: api/interactive_metrics.py with
      the recording of api/middleware.py.
    - Progressive, ProgressiveSpec: evaluation/.  ExecutionContract, Executor,
      ExecutorSpec: execution/contract.py, limits.py, execution_environment.py,
      process_executor.py and evaluation/synthetic_execution.py.  ProcessTree: how
      the executor ends a tree of processes and removes its workspace.  JobObject:
      execution/job_object.py and its use by the executor.  Workloads,
      WorkloadsSpec: execution/workloads.py, what the children write and return.
    - EvaluationWorker, EvaluationWorkerSpec: worker/__init__.py.
    - Canonical, Chunking, ChunkingSpec, IngestionQueue, IngestionQueueSpec,
      IngestionWorker, IngestionWorkerSpec: ingestion/ with its two repositories.
    - Retrieval: retrieval/lexical.py and retrieval/metrics.py.
    - Http, HttpSpec, UploadSpec: api/errors.py, deps.py, schemas.py, routes/ and
      persistence/seed.py.
    - RequestProfile: request_profile.py.  Middleware: the middleware of
      api/middleware.py around a request, the life of the server (main.py) and the
      pages (web/routes.py).
    - System: everything that writes the database, interleaved; a request may
      complete on a later state than the one it began with ([history]).
    - Measurements, Experiments, Integrity, Quality, LexicalQuality,
      FailureInjection: what the experiments of src/scripts compute about the system:
      order statistics, mixes of workloads and summaries; runs of single components;
      the audits of a database; the judgement of progressive evaluation and of
      lexical retrieval; crashes injected into the ingestion pipeline.

    A definition that translates code names its lines in its comment, in the form
    [path.py:first-last symbol] below src/challengeforge (or alembic/ for the
    migrations, scripts/ for the experiments).

    ** What the theorems show

    - The system (System): in every state that requests, evaluation workers and
      ingestion workers reach from the seeded database, in any interleaving and
      with any commit failures, the database is well-formed
      ([database_well_formed]), and nothing is lost, reassigned or taken back
      ([nothing_is_lost]).  One thing can be: a publication does not lock the
      challenge it checks, and one that is overtaken by a publication and a close
      opens the closed challenge again ([reopening_history]); later requests never
      do.
    - The evaluation queue refines a four-phase job lifecycle; claims follow a FIFO
      policy with a bounded bypass, bounded concurrency, and a recovery that never
      restarts an execution that is still alive; a lone worker drains it in order.
      The worker stays within its budget and settles what it claims; deferring and
      resuming a progressive evaluation changes nothing of its outcome.
    - The runtime's tick follows its policy after any history; progressive
      evaluation terminates and decides what the always-expensive evaluation
      decides; an execution ends by its deadline and a success is a real one.  Every
      workload of the trusted corpus has the outcome the contract declares
      ([corpus_outcomes]), a refused resource the outcome of its limit
      ([refusals_reported]); an execution closes the handles it opened and owns
      what it reports as owned ([job_session_safe]); a process that outlives the
      termination of its tree is reported ([leaks_are_reported]), and the result of a
      process that ran tells whether its workspace is gone
      ([result_reports_cleanup]).
    - Ingestion refines its transition table, its chunk sets are atomic, a pass is
      durable on success and leaves nothing on failure; chunks are slices of the
      canonical text that cover it.  [late_settlement_erases_chunks] states a
      defect of the code.
    - Submissions: idempotent creation, accepted if and only if evaluated.  The
      catalogue refines its contract, whose publications are decided on the row they
      read and written on the row they find.  Views say what is stored, and to whom
      it may be said.  Requests act for their caller only, whatever others commit in
      their middle; uploads are all or nothing.
    - Storage: keys stay below the root, what is stored is read back, referenced
      blobs survive reconciliation.
    - The schema: migrations are reversible, lead to the schema of the models but
      for one default, and backfill the fingerprints of the service; rows and
      entities correspond.
    - Retrieval returns the best matching chunks of succeeded jobs; coalescing is
      single flight.
    - The middleware passes on what the application sends and raises, and counts a
      request as in flight exactly while it runs ([middleware_transparent]); a life of the server seeds its users and leaves no
      engine behind ([server_life_is_clean]).
    - The experiments: their audits find nothing in any state the system reaches, and
      the evaluations they count are the submissions accepted
      ([audits_find_nothing]); every mix is judged right by every progressive mode
      ([mixes_are_judged_right]); a scenario submits exactly what it was asked for
      ([expand_mix_exact]); both chunking strategies pass their checks
      ([strategies_pass]); the gate of the executor follows from its contract
      ([gate_follows_contract]); the evaluation of retrieval always reports, and counts
      what it shows ([evaluation_reports]); every injected failure is survived
      ([failure_cells_pass]).

    ** Fuel and bounds

    The chunker's loops have a fuel of one step per line or character, which
    ChunkingSpec shows to be enough ([chunk_hybrid] succeeds on every canonical
    document); the stages of a progressive evaluation have the length of the plan
    ([run_progressive_total]); the executor's loop runs over the turns the
    operating system gives it and ends at the deadline
    ([executor_ends_by_deadline]); the loop of DISK_HEAVY has a turn for every
    mebibyte it was asked for ([disk_heavy_writes]).  Every other recursion is
    structural.  Integers are unbounded, as in Python, and have the width of the
    kernel's structures in JobObject; the width of an INTEGER column is not
    modelled.

    ** Assumptions

    SHA-256 ([Sha256]), the text of a float ([FloatRepr]), its parsing
    ([FloatParse]), [repr] of the other values ([PyRepr]) and the full-text
    functions of PostgreSQL ([FullText]) are parameters, about which nothing is
    assumed.  The answers of psutil, of subprocesses and of the host are inputs
    ([OsView], [StartView], [PollView], [EndView], [Host], [JobHost]), or the
    operations of a class ([ProcessOs], [WorkspaceOs]); process identifiers are not
    reused while a tree is ended ([EndedStaysEnded]).  Floats are
    summed as Python 3.11 sums them, from left to right.  Transactions are atomic and
    the locks of PostgreSQL serialise claims, as FOR UPDATE does.  The file system
    has no symbolic links, and nobody else writes below the storage root while a
    request uses it.  A JSONB
    column gives back the value that was stored.

    ** Not modelled

    The HTML of the templates, FastAPI's parsing and validation, logging
    (observability.py), signals and sleeping, and the tests.  Of the experiments of
    src/scripts: starting servers and worker processes, pacing requests, sampling
    PostgreSQL and the host, and writing reports.  The migrations are modelled on
    schemas; rows only for the backfill. *)
From Stdlib Require Import ZArith Lia.
From stdpp Require Export prelude gmap strings list sorting.

#[global] Set Default Proof Using "Type".

(** Notations of the development live in a scope of their own. *)
Declare Scope cf_scope.
Delimit Scope cf_scope with cf.
#[global] Open Scope Z_scope.

(** * Results and the state-and-exception monad

    A Python call either returns a value or raises.  The state it has changed
    by then stays changed: an exception does not undo the writes made before
    it, a database [rollback] is an explicit call. *)
Inductive result (E A : Type) : Type :=
| Ok (a : A)
| Raise (e : E).
Arguments Ok {E A} a.
Arguments Raise {E A} e.

(** [M E S A]: a computation over the state [S] that may raise an [E]. *)
Definition M (E S A : Type) : Type := S -> result E A * S.

#[export] Instance M_ret E S : MRet (M E S) := fun A a s => (Ok a, s).
#[export] Instance M_bind E S : MBind (M E S) := fun A B k c s =>
  match c s with
  | (Ok a, s') => k a s'
  | (Raise e, s') => (Raise e, s')
  end.

Definition raise {E S A} (e : E) : M E S A := fun s => (Raise e, s).
Definition get_st {E S} : M E S S := fun s => (Ok s, s).
Definition put_st {E S} (s : S) : M E S unit := fun _ => (Ok tt, s).
Definition modify_st {E S} (f : S -> S) : M E S unit := fun s => (Ok tt, f s).
Definition gets_st {E S A} (f : S -> A) : M E S A := fun s => (Ok (f s), s).

(** [try: c except: h e] with the state as [c] left it. *)
Definition catch {E S A} (c : M E S A) (h : E -> M E S A) : M E S A := fun s =>
  match c s with
  | (Ok a, s') => (Ok a, s')
  | (Raise e, s') => h e s'
  end.

(** The statement [if not b: raise e]. *)
Definition guard_or {E S} (b : bool) (e : E) : M E S unit :=
  if b then mret tt else raise e.

(** Running a computation on a part of the state, seen through a lens. *)
Definition zoom {E S T A} (get : S -> T) (set : T -> S -> S) (c : M E T A) : M E S A :=
  fun s => let (r, t) := c (get s) in (r, set t s).

Definition is_ok {E A} (r : result E A) : bool :=
  match r with Ok _ => true | Raise _ => false end.

(** * Monad laws and run equations *)
Section MonadLaws.
Context {E S A B C : Type}.

Lemma run_ret (a : A) (s : S) : (mret a : M E S A) s = (Ok a, s).
Proof. reflexivity. Qed.

Lemma run_bind (c : M E S A) (k : A -> M E S B) s :
  (c ≫= k) s = match c s with
               | (Ok a, s') => k a s'
               | (Raise e, s') => (Raise e, s')
               end.
Proof. reflexivity. Qed.

Lemma bind_ret_l (a : A) (k : A -> M E S B) s : ((mret a : M E S A) ≫= k) s = k a s.
Proof. reflexivity. Qed.

Lemma bind_assoc (c : M E S A) (k : A -> M E S B) (h : B -> M E S C) s :
  ((c ≫= k) ≫= h) s = (c ≫= (fun a => k a ≫= h)) s.
Proof. unfold mbind, M_bind. by destruct (c s) as [[a|e] s']. Qed.

(** Every successful run of a [bind] is a successful run of both parts. *)
Lemma bind_Ok_inv (c : M E S A) (k : A -> M E S B) s b s' :
  (c ≫= k) s = (Ok b, s') ->
  exists a s1, c s = (Ok a, s1) /\ k a s1 = (Ok b, s').
Proof. rewrite run_bind. destruct (c s) as [[a|e] s1]; naive_solver. Qed.

Lemma guard_or_Ok (b : bool) (e : E) (s s' : S) u :
  guard_or b e s = (Ok u, s') -> b = true /\ s' = s.
Proof. destruct b; cbv; naive_solver. Qed.
End MonadLaws.

(** * Invariants of computations

    [preserves P c]: whether [c] returns or raises, it keeps [P]. *)
Definition preserves {E S A} (P : S -> Prop) (c : M E S A) : Prop :=
  forall s, P s -> P (snd (c s)).

Section Preserves.
Context {E S : Type} (P : S -> Prop).

Lemma preserves_ret {A} (a : A) : preserves P (mret a : M E S A).
Proof. by intros s. Qed.
Lemma preserves_raise {A} (e : E) : preserves P (raise e : M E S A).
Proof. by intros s. Qed.
Lemma preserves_get : preserves P (get_st : M E S S).
Proof. by intros s. Qed.
Lemma preserves_gets {A} (f : S -> A) : preserves P (gets_st f : M E S A).
Proof. by intros s. Qed.
Lemma preserves_guard (b : bool) (e : E) : preserves P (guard_or b e : M E S unit).
Proof. intros s. by destruct b. Qed.
Lemma preserves_bind {A B} (c : M E S A) (k : A -> M E S B) :
  preserves P c -> (forall a, preserves P (k a)) -> preserves P (c ≫= k).
Proof.
  intros Hc Hk s Hs. rewrite run_bind. specialize (Hc s Hs).
  destruct (c s) as [[a|e] s']; [by apply Hk|done].
Qed.
Lemma preserves_catch {A} (c : M E S A) (h : E -> M E S A) :
  preserves P c -> (forall e, preserves P (h e)) -> preserves P (catch c h).
Proof.
  intros Hc Hh s Hs. unfold catch. specialize (Hc s Hs).
  destruct (c s) as [[a|e] s']; [done|by apply Hh].
Qed.
Lemma preserves_modify (f : S -> S) :
  (forall s, P s -> P (f s)) -> preserves P (modify_st f : M E S unit).
Proof. intros Hf s Hs. by apply Hf. Qed.
End Preserves.

(** * Triples

    [triple P c Q X]: from a state in [P] the computation returns a value and a
    state in [Q], or raises in [X]. *)
Definition triple {E S A} (P : S -> Prop) (c : M E S A) (Q : A -> S -> Prop)
    (X : E -> S -> Prop) : Prop :=
  forall s, P s -> match c s with
                   | (Ok a, s') => Q a s'
                   | (Raise e, s') => X e s'
                   end.

Section Triples.
Context {E S : Type} (X : E -> S -> Prop).

Lemma triple_ret {A} (a : A) (P : S -> Prop) (Q : A -> S -> Prop) :
  (forall s, P s -> Q a s) -> triple P (mret a) Q X.
Proof. intros H s Hs. by apply H. Qed.
Lemma triple_raise {A} (e : E) (P : S -> Prop) (Q : A -> S -> Prop) :
  (forall s, P s -> X e s) -> triple P (raise e) Q X.
Proof. intros H s Hs. by apply H. Qed.
Lemma triple_bind {A B} (c : M E S A) (k : A -> M E S B) (P : S -> Prop) R Q :
  triple P c R X -> (forall a, triple (R a) (k a) Q X) -> triple P (c ≫= k) Q X.
Proof.
  intros Hc Hk s Hs. rewrite run_bind. specialize (Hc s Hs).
  destruct (c s) as [[a|e] s']; [by apply Hk|done].
Qed.
Lemma triple_seq {A B} (c : M E S A) (k : M E S B) (P R : S -> Prop) Q :
  triple P c (fun _ => R) X -> triple R k Q X -> triple P (c ;; k) Q X.
Proof. intros Hc Hk. by eapply triple_bind. Qed.
Lemma triple_modify (f : S -> S) (P : S -> Prop) (Q : unit -> S -> Prop) :
  (forall s, P s -> Q tt (f s)) -> triple P (modify_st f) Q X.
Proof. intros H s Hs. by apply H. Qed.
Lemma triple_gets {A} (f : S -> A) (P : S -> Prop) (Q : A -> S -> Prop) :
  (forall s, P s -> Q (f s) s) -> triple P (gets_st f) Q X.
Proof. intros H s Hs. by apply H. Qed.
Lemma triple_conseq {A} (c : M E S A) (P P' : S -> Prop) (Q Q' : A -> S -> Prop) X' :
  triple P' c Q' X' -> (forall s, P s -> P' s) -> (forall a s, Q' a s -> Q a s) ->
  (forall e s, X' e s -> X e s) -> triple P c Q X.
Proof.
  intros Hc HP HQ HX s Hs. specialize (Hc s (HP s Hs)).
  destruct (c s) as [[a|e] s']; auto.
Qed.
End Triples.

Create HintDb cf discriminated.
#[export] Hint Resolve preserves_ret preserves_raise preserves_get preserves_gets
  preserves_guard : cf.

(** * Tactics *)

(** Runs the monadic binds of a hypothesis [H : c s = (Ok b, s')]. *)
Ltac inv_bind H :=
  let a := fresh "a" in let s1 := fresh "s" in
  let H1 := fresh "Hc" in let H2 := fresh "Hk" in
  apply bind_Ok_inv in H as (a & s1 & H1 & H2).

(** Splits every [match] and [if] of the goal and of the hypotheses. *)
Ltac split_matches :=
  repeat (case_match; simplify_eq/=; try done).

(** Turns boolean comparisons on [Z] into propositions [lia] understands. *)
#[export] Hint Rewrite andb_true_iff andb_false_iff orb_true_iff orb_false_iff negb_true_iff
  negb_false_iff Z.leb_le Z.leb_gt Z.ltb_lt Z.ltb_ge Z.eqb_eq Z.eqb_neq : cfbool.

Ltac zify_bool := autorewrite with cfbool in *.

(** Proves a decidable closed proposition by evaluating its decision. *)
Ltac decide_closed := apply (bool_decide_unpack _); vm_compute; exact I.

(** * Options *)

(** Python's [a or b] on optional values that are truthy when present. *)
Definition or_else {A} (o : option A) (d : A) : A := default d o.

Definition opt_eqb {A} `{EqDecision A} (a b : option A) : bool := bool_decide (a = b).

(** * Integers *)

(** Python's [max(lo, min(hi, v))]. *)
Definition clampZ (lo hi v : Z) : Z := Z.max lo (Z.min hi v).

Lemma clampZ_bounds lo hi v : lo <= hi -> lo <= clampZ lo hi v <= hi.
Proof. unfold clampZ. lia. Qed.

Lemma clampZ_id lo hi v : lo <= v <= hi -> clampZ lo hi v = v.
Proof. unfold clampZ. lia. Qed.

(** * Python slices

    [slice l a b] is [l[a:b]]: negative bounds count from the end, bounds past
    the end are cut. *)
Section Slices.
Context {A : Type}.
Implicit Types l : list A.

Definition zlen (l : list A) : Z := Z.of_nat (length l).

Definition norm_index (n i : Z) : Z :=
  if i <? 0 then Z.max 0 (i + n) else Z.min i n.

Definition slice (l : list A) (a b : Z) : list A :=
  let n := zlen l in
  let a' := norm_index n a in
  let b' := norm_index n b in
  take (Z.to_nat (b' - a')) (drop (Z.to_nat a') l).

Lemma zlen_nonneg l : 0 <= zlen l.
Proof. unfold zlen. lia. Qed.

Lemma zlen_nil : zlen [] = 0.
Proof. reflexivity. Qed.

Lemma zlen_cons x l : zlen (x :: l) = 1 + zlen l.
Proof. unfold zlen. cbn. lia. Qed.

Lemma zlen_app l k : zlen (l ++ k) = zlen l + zlen k.
Proof. unfold zlen. rewrite length_app. lia. Qed.

Lemma slice_in_range l a b :
  0 <= a -> 0 <= b -> slice l a b = take (Z.to_nat (b - a)) (drop (Z.to_nat a) l).
Proof.
  intros Ha Hb. unfold slice, norm_index, zlen.
  rewrite (proj2 (Z.ltb_ge a 0)), (proj2 (Z.ltb_ge b 0)) by lia.
  destruct (decide (a <= Z.of_nat (length l))).
  - rewrite (Z.min_l a) by lia. destruct (decide (b <= Z.of_nat (length l))).
    + by rewrite Z.min_l by lia.
    + rewrite Z.min_r by lia. rewrite !take_ge; [done|rewrite length_drop; lia..].
  - rewrite (Z.min_r a) by lia. rewrite !drop_ge by lia. by rewrite !take_nil.
Qed.

Lemma zlen_slice l a b :
  0 <= a -> a <= b -> b <= zlen l -> zlen (slice l a b) = b - a.
Proof.
  intros. rewrite slice_in_range by lia. unfold zlen in *.
  rewrite length_take, length_drop. lia.
Qed.

Lemma slice_full l : slice l 0 (zlen l) = l.
Proof.
  rewrite slice_in_range by (unfold zlen; lia). rewrite drop_0.
  apply take_ge. unfold zlen. lia.
Qed.

Lemma slice_app l a b c :
  0 <= a -> a <= b -> b <= c -> slice l a b ++ slice l b c = slice l a c.
Proof.
  intros. rewrite !slice_in_range by lia.
  replace (Z.to_nat (c - a)) with (Z.to_nat (b - a) + Z.to_nat (c - b))%nat by lia.
  rewrite <-take_take_drop, drop_drop.
  by replace (Z.to_nat a + Z.to_nat (b - a))%nat with (Z.to_nat b) by lia.
Qed.

(** A slice of a slice is a slice. *)
Lemma slice_slice l a b c d :
  0 <= a -> 0 <= c -> c <= d -> d <= b - a ->
  slice (slice l a b) c d = slice l (a + c) (a + d).
Proof.
  intros. rewrite !slice_in_range by lia.
  rewrite skipn_firstn_comm, take_take, drop_drop. f_equal; [lia|].
  f_equal. lia.
Qed.

Lemma slice_nil a b : slice ([] : list A) a b = [].
Proof. unfold slice. by rewrite drop_nil, take_nil. Qed.

Lemma slice_empty l a : 0 <= a -> slice l a a = [].
Proof. intros. rewrite slice_in_range by lia. by rewrite Z.sub_diag. Qed.

Lemma slice_lookup l a b i :
  0 <= a -> 0 <= b ->
  slice l a b !! i = if decide (Z.of_nat i < b - a) then l !! (Z.to_nat a + i)%nat else None.
Proof.
  intros. rewrite slice_in_range by lia. case_decide.
  - rewrite lookup_take_lt by lia. by rewrite lookup_drop.
  - apply lookup_take_ge. lia.
Qed.
End Slices.
Arguments zlen {A} l : simpl never.
#[export] Hint Resolve zlen_nonneg : cf.

(** * Filtering by a boolean test *)

#[export] Instance filterb_perm {A} (f : A -> bool) : Proper ((≡ₚ) ==> (≡ₚ)) (List.filter f).
Proof. induction 1; cbn; repeat case_match; try constructor; try done. by etrans. Qed.

Lemma elem_of_filterb {A} (f : A -> bool) l x : x ∈ List.filter f l <-> x ∈ l /\ f x = true.
Proof. by rewrite !list_elem_of_In, List.filter_In. Qed.

Lemma filterb_all {A} (f : A -> bool) l : (forall x, x ∈ l -> f x = true) -> List.filter f l = l.
Proof.
  induction l as [|x l IH]; intros Hl; [done|]. cbn. rewrite Hl by left.
  f_equal. apply IH. intros y Hy. apply Hl. by right.
Qed.

Lemma filterb_none {A} (f : A -> bool) l : (forall x, x ∈ l -> f x = false) -> List.filter f l = [].
Proof.
  induction l as [|x l IH]; intros Hl; [done|]. cbn. rewrite Hl by left.
  apply IH. intros y Hy. apply Hl. by right.
Qed.

Lemma filterb_andb {A} (f g : A -> bool) l :
  List.filter g (List.filter f l) = List.filter (fun x => f x && g x) l.
Proof.
  induction l as [|x l IH]; [done|]. cbn. destruct (f x); cbn; [|done].
  destruct (g x); by rewrite IH.
Qed.

(** * Counting rows of a table

    The queries [select count( * ) where ...] count the rows of a map that pass
    a test. *)
Section Count.
Context {K V : Type} `{Countable K}.
Implicit Types (m : gmap K V) (f : V -> bool).

Definition countb (f : V -> bool) (m : gmap K V) : Z :=
  Z.of_nat (size (filter (fun kv => f kv.2 = true) m)).

Lemma countb_nonneg f m : 0 <= countb f m.
Proof. unfold countb. lia. Qed.

Lemma countb_empty f : countb f ∅ = 0.
Proof. unfold countb. by rewrite map_filter_empty, map_size_empty. Qed.

Definition b2z (b : bool) : Z := if b then 1 else 0.

Lemma countb_insert_new f m k v :
  m !! k = None -> countb f (<[k := v]> m) = countb f m + b2z (f v).
Proof.
  intros Hk. unfold countb, b2z. rewrite map_filter_insert. cbn.
  case_decide as Hf.
  - rewrite Hf, map_size_insert_None; [lia|].
    apply map_lookup_filter_None. by left.
  - rewrite (delete_id m k Hk). destruct (f v); [done|lia].
Qed.

Lemma countb_delete f m k v :
  m !! k = Some v -> countb f (delete k m) = countb f m - b2z (f v).
Proof.
  intros Hk.
  assert (m = <[k := v]> (delete k m)) as -> by (by rewrite insert_delete_id).
  rewrite countb_insert_new by apply lookup_delete_eq.
  rewrite delete_insert_id by apply lookup_delete_eq. lia.
Qed.

Lemma countb_insert f m k v v' :
  m !! k = Some v -> countb f (<[k := v']> m) = countb f m - b2z (f v) + b2z (f v').
Proof.
  intros Hk. rewrite <-insert_delete_eq.
  rewrite countb_insert_new by apply lookup_delete_eq.
  by rewrite (countb_delete f m k v Hk).
Qed.

Lemma countb_pos f m k v : m !! k = Some v -> f v = true -> 0 < countb f m.
Proof.
  intros Hk Hf. pose proof (countb_delete f m k v Hk) as Hd.
  rewrite Hf in Hd. pose proof (countb_nonneg f (delete k m)). cbn in Hd. lia.
Qed.

Lemma countb_zero f m : countb f m = 0 <-> forall k v, m !! k = Some v -> f v = false.
Proof.
  split.
  - intros H0 k v Hk. destruct (f v) eqn:Hf; [|done].
    pose proof (countb_pos f m k v Hk Hf). lia.
  - intros Hall. unfold countb. enough (filter (fun kv => f kv.2 = true) m = ∅) as -> by by rewrite map_size_empty.
    apply map_empty. intros k. apply map_lookup_filter_None. right.
    intros v Hk Hf. cbn in Hf. by rewrite (Hall k v Hk) in Hf.
Qed.

Lemma countb_le f g m :
  (forall k v, m !! k = Some v -> f v = true -> g v = true) -> countb f m <= countb g m.
Proof.
  induction m as [|k v m Hk IH] using map_ind; intros Hfg.
  - by rewrite !countb_empty.
  - rewrite !countb_insert_new by done.
    assert (countb f m <= countb g m).
    { apply IH. intros k' v' Hk'. apply (Hfg k').
      rewrite lookup_insert_ne; [done|]. by intros ->; rewrite Hk in Hk'. }
    specialize (Hfg k v (lookup_insert_eq _ _ _)).
    destruct (f v), (g v); cbn; lia.
Qed.
End Count.
#[export] Hint Resolve countb_nonneg : cf.

(** * Updating one field of a record

    [Eta R] rebuilds a record from its projections; [r <| f := v |>] is [r] with
    the field [f] set to [v]. *)
Class Eta (R : Type) := eta : R -> R.
Class Setter {R T : Type} (proj : R -> T) := setf : (T -> T) -> R -> R.
Arguments setf {R T} proj {_} f r /.

Ltac derive_setter p :=
  lazymatch type of p with
  | ?R -> ?T =>
      let e := constr:(ltac:(typeclasses eauto) : Eta R) in
      let e := eval hnf in e in
      let e := eval pattern p in e in
      lazymatch e with
      | ?body _ => exact (fun (g : T -> T) => body (fun r : R => g (p r)))
      end
  end.
#[export] Hint Extern 0 (Setter ?p) => derive_setter p : typeclass_instances.

Notation "r <| f := v |>" := (setf f (fun _ => v) r)
  (at level 12, left associativity, f at level 9, v at level 200) : cf_scope.
#[global] Open Scope cf_scope.
