(* ===== verification/PyFloat.v ===== *)
(** Python's [float]: IEEE 754 binary64 numbers, as the Standard Library's
    executable [spec_float], with the operations the program uses: rounded
    arithmetic, comparisons (false on a NaN), [math.ceil], [int], [round] with
    digits, and the conversion of integers.  The order lemmas at the end are the
    ones the runtime controllers need. *)
From Stdlib Require Import ZArith Lia SpecFloat.
From stdpp Require Import prelude.
From S2P Require Import Prelude.

Definition float : Type := spec_float.

#[export] Instance float_eq_dec : EqDecision float.
Proof. solve_decision. Defined.

Definition prec64 : Z := 53.
Definition emax64 : Z := 1024.

Definition fadd : float -> float -> float := SFadd prec64 emax64.
Definition fsub : float -> float -> float := SFsub prec64 emax64.
Definition fmul : float -> float -> float := SFmul prec64 emax64.
Definition fdiv : float -> float -> float := SFdiv prec64 emax64.

(** [float(z)], rounded to nearest even. *)
Definition of_Z (z : Z) : float := binary_normalize prec64 emax64 z 0 false.

(** An integer as an unrounded [spec_float], to feed [SFdiv]. *)
Definition exact_Z (z : Z) : float :=
  match z with
  | Z0 => S754_zero false
  | Zpos p => S754_finite false p 0
  | Zneg p => S754_finite true p 0
  end.

(** [a / b] on two integers: the correctly rounded quotient ([b] nonzero, where
    Python raises [ZeroDivisionError]). *)
Definition int_truediv (a b : Z) : float := fdiv (exact_Z a) (exact_Z b).

(** Decimal literals such as [0.8], written [lit 8 10]. *)
Definition lit (n d : Z) : float := int_truediv n d.

Definition fzero : float := S754_zero false.

Definition is_nan (x : float) : bool :=
  match x with S754_nan => true | _ => false end.

(** [a < b], [a <= b], [a > b], [a >= b], [a == b]. *)
Definition flt (a b : float) : bool := SFltb a b.
Definition fle (a b : float) : bool := SFleb a b.
Definition fgt (a b : float) : bool := SFltb b a.
Definition fge (a b : float) : bool := SFleb b a.
Definition feqb (a b : float) : bool := SFeqb a b.

(** [max(a, b)] and [min(a, b)]: Python keeps the first on ties. *)
Definition fmax (a b : float) : float := if fgt b a then b else a.
Definition fmin (a b : float) : float := if flt b a then b else a.

(** [abs(x)] *)
Definition fabs (x : float) : float := SFabs x.

(** The value of a finite float as a fraction [num / 2 ^ k]. *)
Definition frac (m : positive) (e : Z) : Z * Z :=
  if 0 <=? e then (Zpos m * 2 ^ e, 1) else (Zpos m, 2 ^ (- e)).

(** [math.ceil(x)]; [None] where Python raises on an infinity or a NaN. *)
Definition fceil (x : float) : option Z :=
  match x with
  | S754_zero _ => Some 0
  | S754_finite s m e =>
      let (n, d) := frac m e in
      Some (- ((- (if s then - n else n)) / d))
  | _ => None
  end.

(** [int(x)], truncation towards zero. *)
Definition ftrunc (x : float) : option Z :=
  match x with
  | S754_zero _ => Some 0
  | S754_finite s m e =>
      let (n, d) := frac m e in
      Some (Z.quot (if s then - n else n) d)
  | _ => None
  end.

(** The integer nearest to [n / d], ties to even ([d] positive). *)
Definition round_half_even (n d : Z) : Z :=
  let q := n / d in
  match (2 * (n mod d)) ?= d with
  | Lt => q
  | Gt => q + 1
  | Eq => if Z.even q then q else q + 1
  end.

(** [round(x, k)]: the double nearest to [x] rounded to [k] decimals. *)
Definition fround (k : Z) (x : float) : float :=
  match x with
  | S754_finite s m e =>
      let (n, d) := frac m e in
      match round_half_even (n * 10 ^ k) d with
      | Zpos q => fdiv (S754_finite s q 0) (exact_Z (10 ^ k))
      | _ => S754_zero s
      end
  | _ => x
  end.

(** [timedelta.total_seconds()] of a difference in microseconds. *)
Definition total_seconds (us : Z) : float := int_truediv us 1000000.

Example lit_tenth : lit 1 10 = S754_finite false 7205759403792794 (-56).
Proof. reflexivity. Qed.
Example round_ex : fround 4 (fsub (of_Z 1) (int_truediv 4 13)) = lit 6923 10000.
Proof. vm_compute. reflexivity. Qed.
Example ceil_ex : fceil (fmul (of_Z 20) (lit 95 100)) = Some 19.
Proof. vm_compute. reflexivity. Qed.

(** * The order of floats

    A float that is not a NaN has a key, a triple of integers, and the
    comparisons compare keys lexicographically. *)
Definition fkey (x : float) : option (Z * Z * Z) :=
  match x with
  | S754_zero _ => Some (0, 0, 0)
  | S754_infinity s => Some (if s then -2 else 2, 0, 0)
  | S754_nan => None
  | S754_finite s m e =>
      Some (if s then (-1, - e, - Zpos m) else (1, e, Zpos m))
  end.

Definition key_lt (a b : Z * Z * Z) : Prop :=
  let '(x, y, z) := a in
  let '(x', y', z') := b in
  x < x' \/ x = x' /\ (y < y' \/ y = y' /\ z < z').

Definition key_cmp (a b : Z * Z * Z) : comparison :=
  let '(x, y, z) := a in
  let '(x', y', z') := b in
  match x ?= x' with Eq => match y ?= y' with Eq => z ?= z' | c => c end | c => c end.

Lemma SFcompare_key a b :
  SFcompare a b = match fkey a, fkey b with
                  | Some ka, Some kb => Some (key_cmp ka kb)
                  | _, _ => None
                  end.
Proof.
  destruct a as [s|s| |s m e], b as [s'|s'| |s' m' e']; try destruct s; try destruct s';
    try reflexivity; cbn; do 2 f_equal.
  rewrite Z.compare_opp, (Z.compare_antisym e e'). by destruct (e ?= e').
Qed.

Lemma key_cmp_spec a b :
  match key_cmp a b with
  | Lt => key_lt a b
  | Eq => a = b
  | Gt => key_lt b a
  end.
Proof.
  destruct a as [[x y] z], b as [[x' y'] z']. cbn.
  destruct (Z.compare_spec x x'); [|lia..].
  destruct (Z.compare_spec y y'); [|lia..].
  destruct (Z.compare_spec z z'); [by subst|lia..].
Qed.

Lemma key_lt_irrefl k : ~ key_lt k k.
Proof. destruct k as [[??]?]. cbn. lia. Qed.

Lemma key_lt_trans a b c : key_lt a b -> key_lt b c -> key_lt a c.
Proof. destruct a as [[??]?], b as [[??]?], c as [[??]?]. cbn. lia. Qed.

Lemma key_cmp_lt a b : key_cmp a b = Lt <-> key_lt a b.
Proof.
  pose proof (key_cmp_spec a b) as Hs. destruct (key_cmp a b); split; try done.
  - subst. by intros ?%key_lt_irrefl.
  - intros Hlt. by destruct (key_lt_irrefl a (key_lt_trans _ _ _ Hlt Hs)).
Qed.

Lemma flt_key a b :
  flt a b = true <-> exists ka kb, fkey a = Some ka /\ fkey b = Some kb /\ key_lt ka kb.
Proof.
  unfold flt, SFltb. rewrite SFcompare_key. split.
  - destruct (fkey a) as [ka|]; [|done]. destruct (fkey b) as [kb|]; [|done].
    intros H. exists ka, kb. split_and!; [done..|]. apply key_cmp_lt.
    by destruct (key_cmp ka kb).
  - intros (ka & kb & -> & -> & ->%key_cmp_lt). done.
Qed.

Lemma fle_key a b :
  fle a b = true <->
  exists ka kb, fkey a = Some ka /\ fkey b = Some kb /\ (key_lt ka kb \/ ka = kb).
Proof.
  unfold fle, SFleb. rewrite SFcompare_key. split.
  - destruct (fkey a) as [ka|]; [|done]. destruct (fkey b) as [kb|]; [|done].
    intros H. exists ka, kb. split_and!; [done..|].
    pose proof (key_cmp_spec ka kb). destruct (key_cmp ka kb); auto. done.
  - intros (ka & kb & -> & -> & [->%key_cmp_lt| ->]); [done|].
    pose proof (key_cmp_spec kb kb) as Hs. destruct (key_cmp kb kb); [done..|].
    by apply key_lt_irrefl in Hs.
Qed.

Lemma fkey_nan x : fkey x = None <-> is_nan x = true.
Proof. by destruct x. Qed.

(** Chains two comparisons through the keys of their arguments. *)
Ltac key_chain :=
  rewrite ?flt_key, ?fle_key;
  intros (ka & kb & Ha & Hb & H1) (kb' & kc & Hb' & Hc & H2);
  assert (kb' = kb) as -> by congruence;
  exists ka, kc; split_and!; [done..|];
  repeat match goal with
  | H : key_lt _ _ \/ _ = _ |- _ => destruct H as [H| ->]
  end; eauto using key_lt_trans.

Lemma fle_trans a b c : fle a b = true -> fle b c = true -> fle a c = true.
Proof. key_chain. Qed.

Lemma flt_le_trans a b c : flt a b = true -> fle b c = true -> flt a c = true.
Proof. key_chain. Qed.

Lemma fle_lt_trans a b c : fle a b = true -> flt b c = true -> flt a c = true.
Proof. key_chain. Qed.

Lemma flt_irrefl a : flt a a = false.
Proof.
  destruct (flt a a) eqn:H; [|done]. apply flt_key in H as (k & k' & H1 & H2 & H3).
  assert (k = k') as -> by congruence. by apply key_lt_irrefl in H3.
Qed.

Lemma flt_fle a b : flt a b = true -> fle a b = true.
Proof. rewrite flt_key, fle_key. intros (? & ? & ? & ? & ?). eauto 10. Qed.

Lemma flt_not_fle a b : flt a b = true -> fle b a = false.
Proof.
  intros H. destruct (fle b a) eqn:H'; [|done].
  pose proof (fle_lt_trans b a b H' H) as E. by rewrite flt_irrefl in E.
Qed.

(** On floats that are not NaNs one of [a < b] and [b <= a] holds. *)
Lemma fle_total a b : is_nan a = false -> is_nan b = false -> flt a b = false -> fle b a = true.
Proof.
  intros Ha Hb Hlt. destruct (fkey a) as [ka|] eqn:Ka; [|by apply fkey_nan in Ka; congruence].
  destruct (fkey b) as [kb|] eqn:Kb; [|by apply fkey_nan in Kb; congruence].
  apply fle_key. exists kb, ka. split_and!; [done..|].
  destruct (decide (key_cmp kb ka = Gt)) as [Hgt|Hn].
  - pose proof (key_cmp_spec kb ka) as Hs. rewrite Hgt in Hs.
    enough (flt a b = true) by congruence. apply flt_key. eauto.
  - pose proof (key_cmp_spec kb ka). destruct (key_cmp kb ka); auto. done.
Qed.

Lemma fle_refl a : is_nan a = false -> fle a a = true.
Proof. intros H. apply fle_total; [done..|]. apply flt_irrefl. Qed.

#[export] Hint Resolve flt_fle fle_trans flt_le_trans fle_lt_trans : cf.
