(* ===== verification/PyStr.v ===== *)
(** Python's [str]: sequences of Unicode code points, with the string methods
    the program calls.  White space and decimal digits are the sets of the
    interpreter (Unicode 14); [lower] and [upper] are exact on ASCII and on
    every code point whose image contains an ASCII character, and leave the
    other code points alone, which cannot change a comparison with an ASCII
    literal.  The lemmas are the laws the text-processing components use. *)
From Stdlib Require Import ZArith Lia Ascii String.
From stdpp Require Import prelude strings list.
From S2P Require Import Prelude.

Definition pystr : Type := list Z.

(** A literal of the source, [py "text"]. *)
Definition py (s : string) : pystr :=
  (fun a => Z.of_N (N_of_ascii a)) <$> list_ascii_of_string s.

Notation "'nl'" := 10%Z (only parsing) : cf_scope.
Definition newline : Z := 10.

(** * Character classes *)

(** [str.isspace] on one code point. *)
Definition is_space (c : Z) : bool :=
  ((9 <=? c) && (c <=? 13)) || ((28 <=? c) && (c <=? 32)) || (c =? 133) || (c =? 160)
  || (c =? 5760) || ((8192 <=? c) && (c <=? 8202)) || (c =? 8232) || (c =? 8233)
  || (c =? 8239) || (c =? 8287) || (c =? 12288).

(** The first code point of every run of ten decimal digits. *)
Definition digit_zeros : list Z :=
  [48; 1632; 1776; 1984; 2406; 2534; 2662; 2790; 2918; 3046; 3174; 3302; 3430;
   3558; 3664; 3792; 3872; 4160; 4240; 6112; 6160; 6470; 6608; 6784; 6800; 6992;
   7088; 7232; 7248; 42528; 43216; 43264; 43472; 43504; 43600; 44016; 65296; 66720;
   68912; 69734; 69872; 69942; 70096; 70384; 70736; 70864; 71248; 71360; 71472;
   71904; 72016; 72784; 73040; 73120; 92768; 92864; 93008; 120782; 120792; 120802;
   120812; 120822; 123200; 123632; 125264; 130032].

(** The class [\d] of the [re] module. *)
Definition is_digit (c : Z) : bool :=
  existsb (fun z => (z <=? c) && (c <=? z + 9)) digit_zeros.

Definition lower_cp (c : Z) : pystr :=
  if (65 <=? c) && (c <=? 90) then [c + 32]
  else if c =? 304 then [105; 775]
  else if c =? 8490 then [107]
  else [c].

Definition upper_cp (c : Z) : pystr :=
  if (97 <=? c) && (c <=? 122) then [c - 32]
  else if c =? 223 then py "SS"
  else if c =? 305 then py "I"
  else if c =? 329 then [700; 78]
  else if c =? 383 then py "S"
  else if c =? 496 then [74; 780]
  else if c =? 7830 then [72; 817]
  else if c =? 7831 then [84; 776]
  else if c =? 7832 then [87; 778]
  else if c =? 7833 then [89; 778]
  else if c =? 7834 then [65; 702]
  else if c =? 64256 then py "FF"
  else if c =? 64257 then py "FI"
  else if c =? 64258 then py "FL"
  else if c =? 64259 then py "FFI"
  else if c =? 64260 then py "FFL"
  else if (c =? 64261) || (c =? 64262) then py "ST"
  else [c].

(** [s.lower()], [s.upper()] *)
Definition lower (s : pystr) : pystr := mjoin (lower_cp <$> s).
Definition upper (s : pystr) : pystr := mjoin (upper_cp <$> s).

(** * Trimming *)
Fixpoint lstrip_by (p : Z -> bool) (s : pystr) : pystr :=
  match s with
  | [] => []
  | c :: s' => if p c then lstrip_by p s' else s
  end.

Definition rstrip_by (p : Z -> bool) (s : pystr) : pystr := reverse (lstrip_by p (reverse s)).

(** [s.lstrip()], [s.rstrip()], [s.strip()] *)
Definition lstrip (s : pystr) : pystr := lstrip_by is_space s.
Definition rstrip (s : pystr) : pystr := rstrip_by is_space s.
Definition strip (s : pystr) : pystr := rstrip (lstrip s).

(** [not s.strip()] and [bool(s)] *)
Definition nonempty {A} (s : list A) : bool := match s with [] => false | _ => true end.
Definition blank (s : pystr) : bool := forallb is_space s.

(** * Searching *)

(** [s.startswith(p)], [s.endswith(p)] *)
Fixpoint startswith (s p : pystr) : bool :=
  match p, s with
  | [], _ => true
  | _, [] => false
  | c :: p', d :: s' => (c =? d) && startswith s' p'
  end.
Definition endswith (s p : pystr) : bool := startswith (reverse s) (reverse p).

(** [p in s] *)
Fixpoint contains (s p : pystr) : bool :=
  startswith s p || match s with [] => false | _ :: s' => contains s' p end.

(** [s.find(c)] for one character: its first position, or [-1]. *)
Fixpoint find_char (s : pystr) (c : Z) : Z :=
  match s with
  | [] => -1
  | d :: s' => if d =? c then 0
               else let r := find_char s' c in if r <? 0 then -1 else 1 + r
  end.

(** [s.rfind(c)]: its last position, or [-1]. *)
Fixpoint rfind (s : pystr) (c : Z) : Z :=
  match s with
  | [] => -1
  | d :: s' => let r := rfind s' c in
               if r <? 0 then (if d =? c then 0 else -1) else 1 + r
  end.

(** * Splitting and joining *)

(** [s.split(c)] for one character. *)
Fixpoint split_on (c : Z) (s : pystr) : list pystr :=
  match s with
  | [] => [[]]
  | d :: s' =>
      if d =? c then [] :: split_on c s'
      else match split_on c s' with
           | [] => [[d]]
           | l :: ls => (d :: l) :: ls
           end
  end.

(** [sep.join(parts)] *)
Fixpoint join (sep : pystr) (parts : list pystr) : pystr :=
  match parts with
  | [] => []
  | [p] => p
  | p :: ps => p ++ sep ++ join sep ps
  end.

(** [s.split()]: the maximal runs of characters that are not white space. *)
Fixpoint words_acc (cur : pystr) (s : pystr) : list pystr :=
  match s with
  | [] => if nonempty cur then [reverse cur] else []
  | c :: s' =>
      if is_space c
      then (if nonempty cur then reverse cur :: words_acc [] s' else words_acc [] s')
      else words_acc (c :: cur) s'
  end.
Definition words (s : pystr) : list pystr := words_acc [] s.

(** [s.replace(old, new)] for an [old] of one or two characters. *)
Fixpoint replace_char (old : Z) (new s : pystr) : pystr :=
  match s with
  | [] => []
  | c :: s' => if c =? old then new ++ replace_char old new s' else c :: replace_char old new s'
  end.

Fixpoint replace_crlf (s : pystr) : pystr :=
  match s with
  | [] => []
  | c :: s' =>
      match s' with
      | d :: s'' => if (c =? 13) && (d =? 10) then 10 :: replace_crlf s'' else c :: replace_crlf s'
      | [] => [c]
      end
  end.

(** [s.rsplit(".", 1)[-1]] when [c] occurs in [s]: what follows its last [c]. *)
Definition after_last (c : Z) (s : pystr) : pystr := slice s (rfind s c + 1) (zlen s).

(** * Numbers and identifiers *)
Definition digit_char (d : Z) : Z := if d <? 10 then 48 + d else 87 + d.

Fixpoint hex_digits (n : nat) (v : Z) : pystr :=
  match n with
  | O => []
  | S n' => hex_digits n' (v / 16) ++ [digit_char (v mod 16)]
  end.

(** [str(uuid)]: 8-4-4-4-12 lower-case hexadecimal digits. *)
Definition uuid_str (u : Z) : pystr :=
  let h := hex_digits 32 u in
  slice h 0 8 ++ py "-" ++ slice h 8 12 ++ py "-" ++ slice h 12 16 ++ py "-"
  ++ slice h 16 20 ++ py "-" ++ slice h 20 32.

Fixpoint dec_digits (fuel : nat) (v : Z) : pystr :=
  match fuel with
  | O => []
  | S f => (if v <? 10 then [] else dec_digits f (v / 10)) ++ [48 + v mod 10]
  end.

(** [str(z)] of an integer: at most one digit per bit. *)
Definition int_str (z : Z) : pystr :=
  (if z <? 0 then py "-" else []) ++ dec_digits (Z.to_nat (Z.log2 (Z.abs z) + 1)) (Z.abs z).

Example uuid_str_ex :
  uuid_str 0x11111111111141118111111111111111 = py "11111111-1111-4111-8111-111111111111".
Proof. vm_compute. reflexivity. Qed.
Example int_str_ex : (int_str 0, int_str 1203, int_str (-7)) = (py "0", py "1203", py "-7").
Proof. vm_compute. reflexivity. Qed.
Example strip_ex : strip (py "  a b ") = py "a b".
Proof. vm_compute. reflexivity. Qed.
Example words_ex : words (py " find  me ") = [py "find"; py "me"].
Proof. vm_compute. reflexivity. Qed.
Example replace_crlf_ex : replace_crlf [97; 13; 10; 13; 98; 10] = [97; 10; 13; 98; 10].
Proof. reflexivity. Qed.

(** * Laws *)

Lemma nonempty_true {A} (s : list A) : nonempty s = true <-> s <> [].
Proof. by destruct s. Qed.

Lemma startswith_prefix s p : startswith s p = true <-> p `prefix_of` s.
Proof.
  revert s. induction p as [|c p IH]; intros s; cbn [startswith].
  - split; [intros _; apply prefix_nil|by destruct s].
  - destruct s as [|d s]; [split; [done|by intros ?%prefix_nil_inv]|].
    cbn [startswith]. rewrite andb_true_iff, Z.eqb_eq, IH. split.
    + intros [-> H]. by apply prefix_cons.
    + intros H. split; [by apply prefix_cons_inv_1 in H|by apply prefix_cons_inv_2 in H].
Qed.

Lemma startswith_app s t : startswith (s ++ t) s = true.
Proof. apply startswith_prefix. by exists t. Qed.

Lemma forallb_reverse {A} (p : A -> bool) l : forallb p (reverse l) = forallb p l.
Proof.
  induction l as [|x l IH]; [done|]. rewrite reverse_cons, forallb_app, IH. cbn.
  by rewrite andb_true_r, andb_comm.
Qed.

Section Trim.
Context (p : Z -> bool).

(** Trimming removes a prefix of characters of the class, and stops at the
    first one outside it. *)
Lemma lstrip_by_spec s :
  exists l, s = l ++ lstrip_by p s /\ forallb p l = true /\
            (forall c s', lstrip_by p s = c :: s' -> p c = false).
Proof.
  induction s as [|c s (l & Hs & Hl & Hc)]; cbn [lstrip_by].
  - by exists [].
  - destruct (p c) eqn:Hp.
    + exists (c :: l). cbn. rewrite Hp. split_and!; [by rewrite <-Hs|done..].
    + exists []. split_and!; [done..|]. by intros ? ? [= <- <-].
Qed.

Lemma lstrip_by_app l s : forallb p l = true -> lstrip_by p (l ++ s) = lstrip_by p s.
Proof. induction l as [|c l IH]; cbn; [done|]. destruct (p c); cbn; auto. done. Qed.

Lemma lstrip_by_id s : (forall c s', s = c :: s' -> p c = false) -> lstrip_by p s = s.
Proof. destruct s as [|c s]; cbn; [done|]. intros H. by rewrite (H c s). Qed.

Lemma lstrip_by_idemp s : lstrip_by p (lstrip_by p s) = lstrip_by p s.
Proof. apply lstrip_by_id. destruct (lstrip_by_spec s) as (? & ? & ? & H). exact H. Qed.

Lemma lstrip_by_nil s : lstrip_by p s = [] <-> forallb p s = true.
Proof.
  induction s as [|c s IH]; cbn; [done|]. by destruct (p c).
Qed.

Lemma rstrip_by_spec s :
  exists r, s = rstrip_by p s ++ r /\ forallb p r = true /\
            (forall c s', rstrip_by p s = s' ++ [c] -> p c = false).
Proof.
  destruct (lstrip_by_spec (reverse s)) as (l & Hs & Hl & Hc). exists (reverse l).
  unfold rstrip_by. split_and!.
  - by rewrite <-reverse_app, <-Hs, reverse_involutive.
  - by rewrite forallb_reverse.
  - intros c s' H. apply (Hc c (reverse s')).
    rewrite <-(reverse_involutive (lstrip_by p (reverse s))), H. by rewrite reverse_app.
Qed.

Lemma rstrip_by_idemp s : rstrip_by p (rstrip_by p s) = rstrip_by p s.
Proof. unfold rstrip_by. by rewrite reverse_involutive, lstrip_by_idemp. Qed.

Lemma rstrip_by_incl s c : c ∈ rstrip_by p s -> c ∈ s.
Proof.
  destruct (rstrip_by_spec s) as (r & Hs & _). rewrite Hs at 2. set_solver.
Qed.
End Trim.

Lemma blank_nil_strip s : strip s = [] <-> blank s = true.
Proof.
  unfold strip, lstrip, rstrip, blank, rstrip_by. rewrite <-(reverse_involutive []).
  rewrite (inj_iff reverse). cbn. rewrite lstrip_by_nil.
  rewrite <-(lstrip_by_nil is_space s).
  destruct (lstrip_by_spec is_space s) as (l & Hs & Hl & Hc).
  split; [|by intros ->]. intros H.
  destruct (lstrip_by is_space s) as [|c s'] eqn:E; [done|].
  specialize (Hc c s' eq_refl). exfalso.
  rewrite forallb_reverse in H. cbn in H. by rewrite Hc in H.
Qed.

Lemma strip_idemp_nonempty s : nonempty (strip s) = negb (blank s).
Proof.
  destruct (blank s) eqn:E.
  - by apply blank_nil_strip in E as ->.
  - destruct (strip s) eqn:E'; [|done]. apply blank_nil_strip in E'. congruence.
Qed.

Lemma blank_app s t : blank (s ++ t) = blank s && blank t.
Proof. apply forallb_app. Qed.

Lemma blank_false s : blank s = false <-> exists c, c ∈ s /\ is_space c = false.
Proof.
  unfold blank. induction s as [|c s IH]; cbn.
  - split; [done|]. intros (c & H & _). by apply elem_of_nil in H.
  - rewrite andb_false_iff, IH. split.
    + setoid_rewrite elem_of_cons. intros [H|(d & H1 & H2)]; eauto.
    + intros (d & [->|H1]%elem_of_cons & H2); [by left|right; eauto].
Qed.

(** * Lines *)

Lemma split_on_nonnil c s : split_on c s <> [].
Proof. destruct s; cbn; [done|]. destruct (_ =? _); [done|]. by destruct (split_on c s). Qed.

(** [sep.join(s.split(sep)) == s] *)
Lemma join_split_on c s : join [c] (split_on c s) = s.
Proof.
  induction s as [|d s IH]; cbn; [done|]. destruct (Z.eqb_spec d c) as [->|Hne].
  - destruct (split_on c s) as [|l ls] eqn:E; [by apply split_on_nonnil in E|].
    rewrite <-IH. done.
  - destruct (split_on c s) as [|l ls] eqn:E; [by apply split_on_nonnil in E|].
    rewrite <-IH. by destruct ls.
Qed.

Lemma split_on_no_sep c s l : l ∈ split_on c s -> c ∉ l.
Proof.
  revert l. induction s as [|d s IH]; intros l; cbn.
  - rewrite list_elem_of_singleton. intros ->. apply not_elem_of_nil.
  - destruct (Z.eqb_spec d c) as [->|Hne].
    + intros [->|H]%elem_of_cons; [apply not_elem_of_nil|by apply IH].
    + destruct (split_on c s) as [|l' ls] eqn:E; [by apply split_on_nonnil in E|].
      intros [->|H]%elem_of_cons; [|apply IH; set_solver].
      rewrite not_elem_of_cons. split; [congruence|]. apply IH. set_solver.
Qed.

Lemma split_on_app_sep c l s :
  c ∉ l -> split_on c (l ++ c :: s) = l :: split_on c s.
Proof.
  induction l as [|d l IH]; cbn; intros Hl.
  - by rewrite Z.eqb_refl.
  - apply not_elem_of_cons in Hl as [Hd Hl]. rewrite (proj2 (Z.eqb_neq d c)) by congruence.
    by rewrite (IH Hl).
Qed.

Lemma split_on_single c l : c ∉ l -> split_on c l = [l].
Proof.
  induction l as [|d l IH]; cbn; intros Hl; [done|].
  apply not_elem_of_cons in Hl as [Hd Hl]. rewrite (proj2 (Z.eqb_neq d c)) by congruence.
  by rewrite (IH Hl).
Qed.

(** [sep.join(ls).split(sep) == ls] for a non-empty list of lines without it. *)
Lemma split_on_join c ls :
  ls <> [] -> Forall (fun l => c ∉ l) ls -> split_on c (join [c] ls) = ls.
Proof.
  induction ls as [|l ls IH]; [done|]. intros _ [Hl Hls]%Forall_cons.
  destruct ls as [|l' ls]; [by apply split_on_single|].
  trans (split_on c (l ++ c :: join [c] (l' :: ls))); [done|].
  rewrite split_on_app_sep by done. f_equal. by apply IH.
Qed.

(** * Searching laws *)

Lemma rfind_bounds s c : -1 <= rfind s c < zlen s \/ rfind s c = -1.
Proof.
  induction s as [|d s IH]; cbn [rfind]; [by right|].
  rewrite zlen_cons. pose proof (zlen_nonneg s).
  destruct (Z.ltb_spec (rfind s c) 0); [destruct (d =? c)|]; lia.
Qed.

Lemma rfind_lookup s c : 0 <= rfind s c -> s !! Z.to_nat (rfind s c) = Some c.
Proof.
  induction s as [|d s IH]; cbn [rfind]; [done|].
  destruct (Z.ltb_spec (rfind s c) 0).
  - destruct (Z.eqb_spec d c) as [->|]; [done|lia].
  - intros _. rewrite Z2Nat.inj_add by lia. cbn. auto.
Qed.

Lemma rfind_notin s c : rfind s c = -1 <-> c ∉ s.
Proof.
  induction s as [|d s IH]; cbn [rfind].
  - split; [intros _; apply not_elem_of_nil|done].
  - rewrite not_elem_of_cons. pose proof (rfind_bounds s c).
    destruct (Z.ltb_spec (rfind s c) 0).
    + assert (rfind s c = -1) as Hr by lia. rewrite Hr in IH.
      destruct (Z.eqb_spec d c) as [->|Hne]; split.
      * done.
      * by intros [? _].
      * intros _. split; [congruence|by apply IH].
      * done.
    + split; [lia|]. intros [_ Hn]. apply IH in Hn. lia.
Qed.

Lemma rfind_last s c i : 0 <= rfind s c -> s !! i = Some c -> Z.of_nat i <= rfind s c.
Proof.
  revert i. induction s as [|d s IH]; intros i; cbn [rfind]; [done|].
  destruct (Z.ltb_spec (rfind s c) 0) as [Hneg|Hpos].
  - destruct (Z.eqb_spec d c) as [->|]; [|lia]. intros _.
    destruct i as [|i]; cbn; [lia|]. intros Hi. exfalso.
    assert (rfind s c = -1) as Hr by (pose proof (rfind_bounds s c); lia).
    apply rfind_notin in Hr. apply Hr. by eapply list_elem_of_lookup_2.
  - intros _. destruct i as [|i]; cbn; [lia|]. intros Hi.
    specialize (IH i Hpos Hi). lia.
Qed.

Lemma blank_strip s : blank (strip s) = blank s.
Proof.
  destruct (lstrip_by_spec is_space s) as (l & Hs & Hl & _).
  destruct (rstrip_by_spec is_space (lstrip s)) as (r & Hr & Hr' & _).
  assert (s = l ++ (strip s ++ r)) as Heq by (unfold strip, rstrip; by rewrite <-Hr).
  rewrite Heq at 2. rewrite !blank_app. unfold blank at 2 4. rewrite Hl, Hr'. cbn.
  by rewrite andb_true_r.
Qed.
