(* ===== verification/Domain.v ===== *)
(** The domain layer: enumerations, exceptions, the three transition tables,
    the entities and the caller's identity (src/challengeforge/domain,
    src/challengeforge/identity).  JSON values, which the entities carry as
    free-form metadata, are here as well. *)
From Stdlib Require Import ZArith Lia String.
From stdpp Require Import prelude strings gmap.
From S2P Require Import Prelude PyFloat PyStr.

(** * Enumerations

    A [StrEnum] class: its members with their text values.  [of_value] is the
    constructor call [Cls(text)], which raises [ValueError] (here [None]) when
    no member has that value. *)
Class StrEnum (A : Type) := {
  value : A -> string;
  members : list A;
}.
Definition of_value {A} `{StrEnum A} (s : string) : option A :=
  List.find (fun a => bool_decide (value a = s)) members.

(** The members are listed completely and their values differ. *)
Class StrEnumOk (A : Type) `{StrEnum A} : Prop := {
  members_complete : forall a : A, a ∈ members;
  value_inj : forall a b : A, value a = value b -> a = b;
}.

Lemma of_value_value {A} `{StrEnumOk A} (a : A) : of_value (value a) = Some a.
Proof.
  unfold of_value.
  destruct (List.find _ _) as [b|] eqn:E.
  - apply List.find_some in E as [_ E]. apply bool_decide_eq_true in E.
    f_equal. by apply value_inj.
  - eapply List.find_none in E.
    + rewrite bool_decide_eq_false in E. done.
    + apply list_elem_of_In, members_complete.
Qed.

(** [domain/enums.py:4-6 UserRole] *)
Inductive UserRole := ORGANIZER | PARTICIPANT.
#[export] Instance UserRole_eq_dec : EqDecision UserRole.
Proof. solve_decision. Defined.
#[export] Instance UserRole_enum : StrEnum UserRole := {|
  value r := match r with ORGANIZER => "organizer" | PARTICIPANT => "participant" end;
  members := [ORGANIZER; PARTICIPANT];
|}.
#[export] Instance UserRole_ok : StrEnumOk UserRole.
Proof. split; [by intros []; set_solver | by intros [] []]. Qed.

(** [domain/enums.py:9-12 HackathonStatus] *)
Inductive HackathonStatus := H_DRAFT | H_PUBLISHED | H_CLOSED.
#[export] Instance HackathonStatus_eq_dec : EqDecision HackathonStatus.
Proof. solve_decision. Defined.
#[export] Instance HackathonStatus_enum : StrEnum HackathonStatus := {|
  value s := match s with
             | H_DRAFT => "draft" | H_PUBLISHED => "published" | H_CLOSED => "closed"
             end;
  members := [H_DRAFT; H_PUBLISHED; H_CLOSED];
|}.
#[export] Instance HackathonStatus_ok : StrEnumOk HackathonStatus.
Proof. split; [by intros []; set_solver | by intros [] []]. Qed.

(** [domain/enums.py:15-18 ChallengeStatus] *)
Inductive ChallengeStatus := C_DRAFT | C_PUBLISHED | C_CLOSED.
#[export] Instance ChallengeStatus_eq_dec : EqDecision ChallengeStatus.
Proof. solve_decision. Defined.
#[export] Instance ChallengeStatus_enum : StrEnum ChallengeStatus := {|
  value s := match s with
             | C_DRAFT => "draft" | C_PUBLISHED => "published" | C_CLOSED => "closed"
             end;
  members := [C_DRAFT; C_PUBLISHED; C_CLOSED];
|}.
#[export] Instance ChallengeStatus_ok : StrEnumOk ChallengeStatus.
Proof. split; [by intros []; set_solver | by intros [] []]. Qed.

(** [domain/enums.py:21-25 SubmissionStatus] *)
Inductive SubmissionStatus := S_CREATED | S_SUBMITTED | S_CANCELLED | S_FAILED.
#[export] Instance SubmissionStatus_eq_dec : EqDecision SubmissionStatus.
Proof. solve_decision. Defined.
#[export] Instance SubmissionStatus_enum : StrEnum SubmissionStatus := {|
  value s := match s with
             | S_CREATED => "created" | S_SUBMITTED => "submitted"
             | S_CANCELLED => "cancelled" | S_FAILED => "failed"
             end;
  members := [S_CREATED; S_SUBMITTED; S_CANCELLED; S_FAILED];
|}.
#[export] Instance SubmissionStatus_ok : StrEnumOk SubmissionStatus.
Proof. split; [by intros []; set_solver | by intros [] []]. Qed.

(** [domain/enums.py:28-32 EvaluationStatus] *)
Inductive EvaluationStatus := E_QUEUED | E_RUNNING | E_SUCCEEDED | E_FAILED.
#[export] Instance EvaluationStatus_eq_dec : EqDecision EvaluationStatus.
Proof. solve_decision. Defined.
#[export] Instance EvaluationStatus_enum : StrEnum EvaluationStatus := {|
  value s := match s with
             | E_QUEUED => "queued" | E_RUNNING => "running"
             | E_SUCCEEDED => "succeeded" | E_FAILED => "failed"
             end;
  members := [E_QUEUED; E_RUNNING; E_SUCCEEDED; E_FAILED];
|}.
#[export] Instance EvaluationStatus_ok : StrEnumOk EvaluationStatus.
Proof. split; [by intros []; set_solver | by intros [] []]. Qed.

(** [domain/enums.py:35-39 IngestionStatus] *)
Inductive IngestionStatus := I_QUEUED | I_RUNNING | I_SUCCEEDED | I_FAILED.
#[export] Instance IngestionStatus_eq_dec : EqDecision IngestionStatus.
Proof. solve_decision. Defined.
#[export] Instance IngestionStatus_enum : StrEnum IngestionStatus := {|
  value s := match s with
             | I_QUEUED => "queued" | I_RUNNING => "running"
             | I_SUCCEEDED => "succeeded" | I_FAILED => "failed"
             end;
  members := [I_QUEUED; I_RUNNING; I_SUCCEEDED; I_FAILED];
|}.
#[export] Instance IngestionStatus_ok : StrEnumOk IngestionStatus.
Proof. split; [by intros []; set_solver | by intros [] []]. Qed.

(** [domain/enums.py:42-47 WorkloadClass] *)
Inductive WorkloadClass := W_LIGHT | W_MEDIUM | W_HEAVY.
#[export] Instance WorkloadClass_eq_dec : EqDecision WorkloadClass.
Proof. solve_decision. Defined.
#[export] Instance WorkloadClass_enum : StrEnum WorkloadClass := {|
  value s := match s with W_LIGHT => "light" | W_MEDIUM => "medium" | W_HEAVY => "heavy" end;
  members := [W_LIGHT; W_MEDIUM; W_HEAVY];
|}.
#[export] Instance WorkloadClass_ok : StrEnumOk WorkloadClass.
Proof. split; [by intros []; set_solver | by intros [] []]. Qed.

(** [evaluation/plan.py:11-19 EvaluationMode] *)
Inductive EvaluationMode :=
| M_LEGACY | M_ALWAYS_EXPENSIVE | M_FIXED_PROGRESSIVE | M_RESOURCE_AWARE_ADAPTIVE
| M_SYNTHETIC_EXECUTION.
#[export] Instance EvaluationMode_eq_dec : EqDecision EvaluationMode.
Proof. solve_decision. Defined.
#[export] Instance EvaluationMode_enum : StrEnum EvaluationMode := {|
  value s := match s with
             | M_LEGACY => "legacy"
             | M_ALWAYS_EXPENSIVE => "always_expensive"
             | M_FIXED_PROGRESSIVE => "fixed_progressive"
             | M_RESOURCE_AWARE_ADAPTIVE => "resource_aware_adaptive"
             | M_SYNTHETIC_EXECUTION => "synthetic_execution"
             end;
  members := [M_LEGACY; M_ALWAYS_EXPENSIVE; M_FIXED_PROGRESSIVE;
              M_RESOURCE_AWARE_ADAPTIVE; M_SYNTHETIC_EXECUTION];
|}.
#[export] Instance EvaluationMode_ok : StrEnumOk EvaluationMode.
Proof. split; [by intros []; set_solver | by intros [] []]. Qed.

(** * Exceptions *)

(** [domain/exceptions.py:1-37 DomainError] and its subclasses. *)
Inductive DomainErrorClass :=
| DomainError | NotFoundError | PermissionDenied | ValidationFailed
| InvalidStateTransition | ConflictError | Unauthenticated.
#[export] Instance DomainErrorClass_eq_dec : EqDecision DomainErrorClass.
Proof. solve_decision. Defined.

(** [domain/exceptions.py:1-37 DomainError.code] *)
Definition error_code (c : DomainErrorClass) : string :=
  match c with
  | DomainError => "domain_error"
  | NotFoundError => "not_found"
  | PermissionDenied => "permission_denied"
  | ValidationFailed => "validation_failed"
  | InvalidStateTransition => "invalid_state_transition"
  | ConflictError => "conflict"
  | Unauthenticated => "unauthenticated"
  end.

(** [domain/exceptions.py:1-37 DomainError.http_status] *)
Definition http_status (c : DomainErrorClass) : Z :=
  match c with
  | DomainError => 400
  | NotFoundError => 404
  | PermissionDenied => 403
  | ValidationFailed => 422
  | InvalidStateTransition => 409
  | ConflictError => 409
  | Unauthenticated => 401
  end.

(** The exceptions the program raises or handles: its own, the database's
    constraint violations, and those of the standard library it names.
    [OtherError] stands for any other failure of a driver or a disk. *)
Inductive exn :=
| DomainExn (c : DomainErrorClass) (message : string)
| IntegrityError (constraint : string)
| FileNotFoundError
| ValueError (message : string)
| AssertionError
| RuntimeError (message : string)
| OtherError (message : string).
#[export] Instance exn_eq_dec : EqDecision exn.
Proof. solve_decision. Defined.

(** * Transition tables *)

Section Transitions.
Context {A : Type} `{StrEnum A} `{EqDecision A}.

(** [target in ALLOWED_TRANSITIONS.get(current, frozenset())] *)
Definition allowed_by (table : A -> list A) (current target : A) : bool :=
  bool_decide (target ∈ table current).
End Transitions.

Module SubmissionState.
(** [domain/submission_state.py:4-15 ALLOWED_TRANSITIONS] *)
Definition ALLOWED_TRANSITIONS (s : SubmissionStatus) : list SubmissionStatus :=
  match s with
  | S_CREATED => [S_SUBMITTED; S_CANCELLED; S_FAILED]
  | S_SUBMITTED => []
  | S_CANCELLED => []
  | S_FAILED => []
  end.

(** [domain/submission_state.py:18-26 transition_submission] *)
Definition transition_submission (current target : SubmissionStatus)
    : result exn SubmissionStatus :=
  if allowed_by ALLOWED_TRANSITIONS current target then Ok target
  else Raise (DomainExn InvalidStateTransition
    ("Cannot transition submission from " +:+ value current +:+ " to "
     +:+ value target +:+ ".")).
End SubmissionState.

Module EvaluationState.
(** [domain/evaluation_state.py:4-15 ALLOWED_TRANSITIONS] *)
Definition ALLOWED_TRANSITIONS (s : EvaluationStatus) : list EvaluationStatus :=
  match s with
  | E_QUEUED => [E_RUNNING]
  | E_RUNNING => [E_SUCCEEDED; E_FAILED; E_QUEUED]
  | E_SUCCEEDED => []
  | E_FAILED => []
  end.

(** [domain/evaluation_state.py:18-26 transition_evaluation] *)
Definition transition_evaluation (current target : EvaluationStatus)
    : result exn EvaluationStatus :=
  if allowed_by ALLOWED_TRANSITIONS current target then Ok target
  else Raise (DomainExn InvalidStateTransition
    ("Cannot transition evaluation from " +:+ value current +:+ " to "
     +:+ value target +:+ ".")).
End EvaluationState.

Module IngestionState.
(** [domain/ingestion_state.py:3-14 ALLOWED_TRANSITIONS] *)
Definition ALLOWED_TRANSITIONS (s : IngestionStatus) : list IngestionStatus :=
  match s with
  | I_QUEUED => [I_RUNNING]
  | I_RUNNING => [I_SUCCEEDED; I_FAILED; I_QUEUED]
  | I_SUCCEEDED => []
  | I_FAILED => []
  end.

(** [domain/ingestion_state.py:17-23 assert_transition]; the arrow of the message is in
    UTF-8. *)
Definition assert_transition (current target : IngestionStatus)
    : result exn IngestionStatus :=
  if allowed_by ALLOWED_TRANSITIONS current target then Ok target
  else Raise (ValueError
    ("Illegal ingestion transition " +:+ value current +:+ " → " +:+ value target)).
End IngestionState.

(** * JSON values *)
Inductive json :=
| JNull
| JBool (b : bool)
| JInt (z : Z)
| JFloat (f : float)
| JStr (s : pystr)
| JList (l : list json)
| JObj (o : list (pystr * json)).

(** A Python [dict] with text keys, in insertion order. *)
Definition dict : Type := list (pystr * json).

(** [d.get(key)] *)
Fixpoint dget (d : dict) (key : pystr) : option json :=
  match d with
  | [] => None
  | (k, v) :: d' => if bool_decide (k = key) then Some v else dget d' key
  end.

(** [d[key] = v]: in place for a key the dict has, else at the end. *)
Fixpoint dset (d : dict) (key : pystr) (v : json) : dict :=
  match d with
  | [] => [(key, v)]
  | (k, w) :: d' => if bool_decide (k = key) then (k, v) :: d' else (k, w) :: dset d' key v
  end.

(** [bool(v)] *)
Definition truthy (v : json) : bool :=
  match v with
  | JNull => false
  | JBool b => b
  | JInt z => negb (z =? 0)
  | JFloat f => negb (feqb f fzero)
  | JStr s => nonempty s
  | JList l => nonempty l
  | JObj o => nonempty o
  end.

(** [d.get(key)] with [None] for a missing key. *)
Definition dget_null (d : dict) (key : pystr) : json := default JNull (dget d key).

(** [repr] of a float, a list or a dict: text the interpreter produces. *)
Class PyRepr := repr_value : json -> pystr.

(** [str(v)] *)
Definition json_str `{PyRepr} (v : json) : pystr :=
  match v with
  | JNull => py "None"
  | JBool b => if b then py "True" else py "False"
  | JInt z => int_str z
  | JStr s => s
  | JFloat _ | JList _ | JObj _ => repr_value v
  end.

Definition as_dict (v : json) : option dict :=
  match v with JObj o => Some o | _ => None end.

Lemma dget_dset d k v k' :
  dget (dset d k v) k' = if bool_decide (k = k') then Some v else dget d k'.
Proof.
  induction d as [|[k0 w] d IH]; cbn; [done|].
  repeat (case_bool_decide; cbn; simplify_eq; try done).
Qed.

(** * Entities

    Times are UTC instants in microseconds, identifiers are 128-bit integers. *)
Definition uuid : Type := Z.
Definition datetime : Type := Z.

(** [timedelta(seconds=n)] for an integer number of seconds. *)
Definition seconds (n : Z) : Z := n * 1000000.

(** [domain/models.py:19-24 User] *)
Record User := mkUser {
  u_id : uuid;
  u_display_name : pystr;
  u_role : UserRole;
  u_created_at : datetime;
}.

(** [domain/models.py:27-35 Hackathon] *)
Record Hackathon := mkHackathon {
  h_id : uuid;
  h_title : pystr;
  h_description : pystr;
  h_status : HackathonStatus;
  h_organizer_id : uuid;
  h_created_at : datetime;
  h_updated_at : datetime;
}.
#[export] Instance Hackathon_eta : Eta Hackathon := fun r =>
  mkHackathon (h_id r) (h_title r) (h_description r) (h_status r) (h_organizer_id r)
    (h_created_at r) (h_updated_at r).

(** [domain/models.py:38-42 ChallengeSpecification] *)
Record ChallengeSpecification := mkSpec {
  spec_body : pystr;
  spec_created_at : datetime;
  spec_updated_at : datetime;
}.

(** [domain/models.py:45-50 EvaluationCriterion] *)
Record EvaluationCriterion := mkCriterion {
  crit_id : uuid;
  crit_name : pystr;
  crit_description : pystr;
  crit_weight : Z;
}.

(** [domain/models.py:53-64 Challenge] *)
Record Challenge := mkChallenge {
  c_id : uuid;
  c_hackathon_id : uuid;
  c_title : pystr;
  c_description : pystr;
  c_constraints : pystr;
  c_status : ChallengeStatus;
  c_specification : ChallengeSpecification;
  c_evaluation_criteria : list EvaluationCriterion;
  c_created_at : datetime;
  c_updated_at : datetime;
}.

#[export] Instance Challenge_eta : Eta Challenge := fun r =>
  mkChallenge (c_id r) (c_hackathon_id r) (c_title r) (c_description r) (c_constraints r)
    (c_status r) (c_specification r) (c_evaluation_criteria r) (c_created_at r) (c_updated_at r).

(** [domain/models.py:66-67 Challenge.is_publishable] *)
Definition is_publishable (c : Challenge) : bool :=
  nonempty (strip (spec_body (c_specification c)))
  && (0 <? zlen (c_evaluation_criteria c)).

(** [domain/models.py:70-82 Submission] *)
Record Submission := mkSubmission {
  s_id : uuid;
  s_challenge_id : uuid;
  s_participant_id : uuid;
  s_status : SubmissionStatus;
  s_metadata : dict;
  s_artifact_key : option pystr;
  s_idempotency_key : option pystr;
  s_request_fingerprint : option pystr;
  s_created_at : datetime;
  s_updated_at : datetime;
  s_failure_reason : option pystr;
}.
#[export] Instance Submission_eta : Eta Submission := fun r =>
  mkSubmission (s_id r) (s_challenge_id r) (s_participant_id r) (s_status r) (s_metadata r)
    (s_artifact_key r) (s_idempotency_key r) (s_request_fingerprint r) (s_created_at r)
    (s_updated_at r) (s_failure_reason r).

(** [domain/models.py:85-101 Evaluation] *)
Record Evaluation := mkEvaluation {
  e_id : uuid;
  e_submission_id : uuid;
  e_status : EvaluationStatus;
  e_created_at : datetime;
  e_started_at : option datetime;
  e_completed_at : option datetime;
  e_attempt_count : Z;
  e_failure_reason : option pystr;
  e_score : option Z;
  e_result_metadata : dict;
  e_worker_id : option pystr;
  e_workload_class : WorkloadClass;
  e_current_stage : Z;
  e_evaluation_mode : EvaluationMode;
  e_deadline_at : option datetime;
}.
#[export] Instance Evaluation_eta : Eta Evaluation := fun r =>
  mkEvaluation (e_id r) (e_submission_id r) (e_status r) (e_created_at r) (e_started_at r)
    (e_completed_at r) (e_attempt_count r) (e_failure_reason r) (e_score r)
    (e_result_metadata r) (e_worker_id r) (e_workload_class r) (e_current_stage r)
    (e_evaluation_mode r) (e_deadline_at r).

(** [domain/models.py:104-119 IngestionJob] *)
Record IngestionJob := mkJob {
  j_id : uuid;
  j_submission_id : uuid;
  j_artifact_key : pystr;
  j_status : IngestionStatus;
  j_attempt_count : Z;
  j_available_at : datetime;
  j_created_at : datetime;
  j_updated_at : datetime;
  j_worker_id : option pystr;
  j_started_at : option datetime;
  j_completed_at : option datetime;
  j_error_code : option pystr;
  j_error_message : option pystr;
  j_result_key : option pystr;
}.
#[export] Instance IngestionJob_eta : Eta IngestionJob := fun r =>
  mkJob (j_id r) (j_submission_id r) (j_artifact_key r) (j_status r) (j_attempt_count r)
    (j_available_at r) (j_created_at r) (j_updated_at r) (j_worker_id r) (j_started_at r)
    (j_completed_at r) (j_error_code r) (j_error_message r) (j_result_key r).

(** [domain/models.py:122-140 DocumentChunk] *)
Record DocumentChunk := mkChunk {
  dc_id : uuid;
  dc_ingestion_job_id : uuid;
  dc_submission_id : uuid;
  dc_artifact_key : pystr;
  dc_parser_version : pystr;
  dc_chunker_version : pystr;
  dc_ordinal : Z;
  dc_content : pystr;
  dc_content_sha256 : pystr;
  dc_char_start : Z;
  dc_char_end : Z;
  dc_line_start : Z;
  dc_line_end : Z;
  dc_block_type : pystr;
  dc_heading_path : list pystr;
  dc_oversized_split : bool;
  dc_created_at : datetime;
}.

(** * The caller *)

(** [identity/__init__.py:28-32 CurrentUser] *)
Record CurrentUser := mkCurrentUser {
  cu_id : uuid;
  cu_display_name : pystr;
  cu_role : UserRole;
}.

(** [identity/__init__.py:34-36 CurrentUser.from_user] *)
Definition from_user (u : User) : CurrentUser :=
  mkCurrentUser (u_id u) (u_display_name u) (u_role u).

(** [identity/__init__.py:38-40 CurrentUser.is_organizer] *)
Definition is_organizer (u : CurrentUser) : bool := bool_decide (cu_role u = ORGANIZER).

(** [identity/__init__.py:42-44 CurrentUser.is_participant] *)
Definition is_participant (u : CurrentUser) : bool := bool_decide (cu_role u = PARTICIPANT).

(** [identity/__init__.py:17-17 ORGANIZER_ID] *)
Definition ORGANIZER_ID : uuid := 0x11111111111141118111111111111111.
(** [identity/__init__.py:18-18 PARTICIPANT_ID] *)
Definition PARTICIPANT_ID : uuid := 0x22222222222242228222222222222222.
(** [identity/__init__.py:19-19 PARTICIPANT_2_ID] *)
Definition PARTICIPANT_2_ID : uuid := 0x33333333333343338333333333333333.

(** [identity/__init__.py:21-25 SEEDED_USERS] *)
Definition SEEDED_USERS : list (uuid * pystr * UserRole) :=
  [(ORGANIZER_ID, py "Ada Organizer", ORGANIZER);
   (PARTICIPANT_ID, py "Pat Participant", PARTICIPANT);
   (PARTICIPANT_2_ID, py "Riley Participant", PARTICIPANT)].

(** [application/__init__.py:55-57 require_organizer] *)
Definition require_organizer {S} (user : CurrentUser) : M exn S unit :=
  guard_or (is_organizer user)
    (DomainExn PermissionDenied "Only organizers may perform this action.").

(** [application/__init__.py:60-62 require_participant] *)
Definition require_participant {S} (user : CurrentUser) : M exn S unit :=
  guard_or (is_participant user)
    (DomainExn PermissionDenied "Only participants may perform this action.").

(** [application/__init__.py:65-69 require_non_empty] *)
Definition require_non_empty {S} (v : pystr) (field : string) : M exn S pystr :=
  let cleaned := strip v in
  if nonempty cleaned then mret cleaned
  else raise (DomainExn ValidationFailed (field +:+ " must not be empty.")).

(** * Laws of the tables *)

Lemma evaluation_transition_ok a b :
  is_ok (EvaluationState.transition_evaluation a b)
  = allowed_by EvaluationState.ALLOWED_TRANSITIONS a b.
Proof. unfold EvaluationState.transition_evaluation. by destruct (allowed_by _ _ _). Qed.

(** A user has exactly one of the two roles. *)
Lemma role_dichotomy u : is_participant u = negb (is_organizer u).
Proof. unfold is_participant, is_organizer. by destruct (cu_role u). Qed.
