(* ===== verification/Database.v ===== *)
(** The database: its tables with the constraints of the schema
    (src/challengeforge/persistence/models.py), the SQL primitives the
    repositories are made of, and the session of a unit of work with its
    commit and rollback.

    A row of a table is the domain entity of the same name: the mappers of
    persistence/mapping.py copy the columns and turn the status texts, which
    the CHECK constraints confine to the enumerations, into their members. *)
From Stdlib Require Import ZArith Lia String.
From stdpp Require Import prelude strings gmap sorting.
From S2P Require Import Prelude PyFloat PyStr Domain.

(** [persistence/models.py:234-261 EvaluationSchedulerStateRow], the singleton row. *)
Record SchedulerState := mkSched {
  sch_blocked_heavy_id : option uuid;
  sch_light_bypass_count : Z;
  sch_pressure_state : string;
  sch_adaptive_max_workers : option Z;
  sch_interactive_p95_ms : option float;
  sch_interactive_sample_count : Z;
  sch_pool_wait_p95_ms : option float;
}.
#[export] Instance SchedulerState_eta : Eta SchedulerState := fun r =>
  mkSched (sch_blocked_heavy_id r) (sch_light_bypass_count r) (sch_pressure_state r)
    (sch_adaptive_max_workers r) (sch_interactive_p95_ms r)
    (sch_interactive_sample_count r) (sch_pool_wait_p95_ms r).

Record Db := mkDb {
  users : gmap uuid User;
  hackathons : gmap uuid Hackathon;
  challenges : gmap uuid Challenge;
  submissions : gmap uuid Submission;
  evaluations : gmap uuid Evaluation;
  scheduler_state : option SchedulerState;
  ingestion_jobs : gmap uuid IngestionJob;
  document_chunks : gmap uuid DocumentChunk;
}.
#[export] Instance Db_eta : Eta Db := fun d =>
  mkDb (users d) (hackathons d) (challenges d) (submissions d) (evaluations d)
    (scheduler_state d) (ingestion_jobs d) (document_chunks d).

Definition empty_db : Db := mkDb ∅ ∅ ∅ ∅ ∅ None ∅ ∅.

(** * CHECK constraints *)

(** [persistence/models.py:101-115 EvaluationCriterionRow] *)
Definition criterion_check (c : EvaluationCriterion) : bool := 1 <=? crit_weight c.

(** [persistence/models.py:118-164 SubmissionRow]: a key and a fingerprint come
    together or not at all. *)
Definition submission_check (r : Submission) : bool :=
  match s_idempotency_key r, s_request_fingerprint r with
  | None, None | Some _, Some _ => true
  | _, _ => false
  end.

(** [persistence/models.py:234-261 EvaluationSchedulerStateRow]: only the bypass
    counter is constrained, the single row has no key here. *)
Definition scheduler_check (r : SchedulerState) : bool := 0 <=? sch_light_bypass_count r.

(** [persistence/models.py:167-231 EvaluationRow] *)
Definition evaluation_check (r : Evaluation) : bool :=
  (0 <=? e_attempt_count r)
  && match e_score r with None => true | Some v => (0 <=? v) && (v <=? 100) end
  && (0 <=? e_current_stage r).

(** [persistence/models.py:264-299 IngestionJobRow] *)
Definition job_check (r : IngestionJob) : bool := 0 <=? j_attempt_count r.

(** [persistence/models.py:302-350 DocumentChunkRow] *)
Definition chunk_check (r : DocumentChunk) : bool :=
  (0 <=? dc_ordinal r)
  && ((0 <=? dc_char_start r) && (dc_char_start r <=? dc_char_end r))
  && ((1 <=? dc_line_start r) && (dc_line_start r <=? dc_line_end r)).

(** * SQL primitives *)

(** Rows of a table that satisfy a test, in no particular order. *)
Definition rows_where {V} (f : V -> bool) (t : gmap uuid V) : list V :=
  List.filter f (map_to_list t).*2.

(** [ORDER BY created_at ASC, id ASC] *)
Definition created_le {V} (created : V -> datetime) (id : V -> uuid) (a b : V) : Prop :=
  created a < created b \/ (created a = created b /\ id a <= id b).
#[export] Instance created_le_dec {V} (created : V -> datetime) (id : V -> uuid) a b :
  Decision (created_le created id a b).
Proof. unfold created_le. apply _. Defined.

Definition order_by_created {V} (created : V -> datetime) (id : V -> uuid) (l : list V) : list V :=
  merge_sort (created_le created id) l.

(** [INSERT]: the primary key must be free, then the CHECK, UNIQUE and FOREIGN
    KEY constraints given as [ok] must hold. *)
Definition insert_row {V} (get : Db -> gmap uuid V) (set : gmap uuid V -> Db -> Db)
    (id : uuid) (row : V) (ok : Db -> bool) (constraint : string) : M exn Db unit := fun db =>
  match get db !! id with
  | Some _ => (Raise (IntegrityError "pkey"), db)
  | None => if ok db then (Ok tt, set (<[id := row]> (get db)) db)
            else (Raise (IntegrityError constraint), db)
  end.

(** [UPDATE] of one row by its primary key. *)
Definition update_row {V} (get : Db -> gmap uuid V) (set : gmap uuid V -> Db -> Db)
    (id : uuid) (row : V) (ok : bool) (constraint : string) : M exn Db unit :=
  guard_or ok (IntegrityError constraint) ;; modify_st (fun db => set (<[id := row]> (get db)) db).

Definition set_hackathons t (d : Db) : Db := d <| hackathons := t |>.
Definition set_challenges t (d : Db) : Db := d <| challenges := t |>.
Definition set_submissions t (d : Db) : Db := d <| submissions := t |>.
Definition set_evaluations t (d : Db) : Db := d <| evaluations := t |>.
Definition set_ingestion_jobs t (d : Db) : Db := d <| ingestion_jobs := t |>.
Definition set_document_chunks t (d : Db) : Db := d <| document_chunks := t |>.
Definition set_scheduler_state t (d : Db) : Db := d <| scheduler_state := t |>.

(** [persistence/models.py:39-57 HackathonRow] *)
Definition insert_hackathon (r : Hackathon) : M exn Db unit :=
  insert_row hackathons set_hackathons (h_id r) r
    (fun db => bool_decide (is_Some (users db !! h_organizer_id r))) "hackathons".

(** [persistence/models.py:101-115 EvaluationCriterionRow], the primary key of the
    criteria: they are new, and differ from each other. *)
Definition criteria_fresh (r : Challenge) (db : Db) : bool :=
  let ids := crit_id <$> c_evaluation_criteria r in
  bool_decide (NoDup ids)
  && negb (nonempty (rows_where
       (fun c => existsb (fun k => bool_decide (crit_id k ∈ ids)) (c_evaluation_criteria c))
       (challenges db))).

(** [persistence/models.py:60-98 ChallengeRow] with its specification and criteria. *)
Definition insert_challenge (r : Challenge) : M exn Db unit :=
  insert_row challenges set_challenges (c_id r) r
    (fun db => forallb criterion_check (c_evaluation_criteria r) && criteria_fresh r db
               && bool_decide (is_Some (hackathons db !! c_hackathon_id r))) "challenges".

(** [uq_submissions_participant_idempotency], a partial unique index. *)
Definition idem_match (p : uuid) (k : pystr) (r : Submission) : bool :=
  bool_decide (s_participant_id r = p) && bool_decide (s_idempotency_key r = Some k).

Definition submission_unique (r : Submission) (db : Db) : bool :=
  match s_idempotency_key r with
  | None => true
  | Some k => negb (nonempty (rows_where (idem_match (s_participant_id r) k) (submissions db)))
  end.

Definition insert_submission (r : Submission) : M exn Db unit :=
  insert_row submissions set_submissions (s_id r) r
    (fun db => submission_check r && submission_unique r db
               && bool_decide (is_Some (challenges db !! s_challenge_id r))
               && bool_decide (is_Some (users db !! s_participant_id r)))
    "submissions".

(** [submission_id] is UNIQUE and references a submission. *)
Definition insert_evaluation (r : Evaluation) : M exn Db unit :=
  insert_row evaluations set_evaluations (e_id r) r
    (fun db => evaluation_check r
               && negb (nonempty (rows_where
                    (fun r' => bool_decide (e_submission_id r' = e_submission_id r))
                    (evaluations db)))
               && bool_decide (is_Some (submissions db !! e_submission_id r)))
    "evaluations".

Definition update_evaluation (id : uuid) (r : Evaluation) : M exn Db unit :=
  update_row evaluations set_evaluations id r (evaluation_check r) "evaluations".

Definition insert_job (r : IngestionJob) : M exn Db unit :=
  insert_row ingestion_jobs set_ingestion_jobs (j_id r) r
    (fun db => job_check r && bool_decide (is_Some (submissions db !! j_submission_id r)))
    "ingestion_jobs".

Definition update_job (id : uuid) (r : IngestionJob) : M exn Db unit :=
  update_row ingestion_jobs set_ingestion_jobs id r (job_check r) "ingestion_jobs".

(** [uq_document_chunks_job_ordinal], and the references to the job and to the
    submission. *)
Definition insert_chunk (r : DocumentChunk) : M exn Db unit :=
  insert_row document_chunks set_document_chunks (dc_id r) r
    (fun db => chunk_check r
               && negb (nonempty (rows_where
                    (fun r' => bool_decide (dc_ingestion_job_id r' = dc_ingestion_job_id r)
                               && bool_decide (dc_ordinal r' = dc_ordinal r))
                    (document_chunks db)))
               && bool_decide (is_Some (ingestion_jobs db !! dc_ingestion_job_id r))
               && bool_decide (is_Some (submissions db !! dc_submission_id r)))
    "document_chunks".

(** * Sessions

    A session works on its own view of the database; [commit] publishes the
    view, [rollback] drops it.  [commits] is the fate of the commits to come:
    [Some e] makes the next commit fail with [e], an empty list lets every
    commit succeed. *)
Record Session := mkSession {
  committed : Db;
  working : Db;
  commits : list (option exn);
}.
#[export] Instance Session_eta : Eta Session := fun s =>
  mkSession (committed s) (working s) (commits s).

(** [async with factory() as session] *)
Definition begin (db : Db) (plan : list (option exn)) : Session := mkSession db db plan.

Definition in_db {A} (c : M exn Db A) : M exn Session A :=
  zoom working (fun d s => s <| working := d |>) c.

Definition commit : M exn Session unit := fun s =>
  match commits s with
  | Some e :: plan => (Raise e, s <| commits := plan |>)
  | None :: plan => (Ok tt, mkSession (working s) (working s) plan)
  | [] => (Ok tt, mkSession (working s) (working s) [])
  end.

Definition rollback : M exn Session unit :=
  modify_st (fun s => s <| working := committed s |>).

(** Other transactions commit; this one has written nothing yet, so its next
    statements read, and write on, what they left. *)
Definition others_commit (others : Db -> Db) : M exn Session unit :=
  modify_st (fun s => mkSession (others (committed s)) (others (working s)) (commits s)).

(** * Laws *)

(** The rows a query returns are as many as its [count] says. *)
Lemma zlen_rows_where {V} (f : V -> bool) (t : gmap uuid V) :
  zlen (rows_where f t) = countb f t.
Proof.
  induction t as [|k v t Hk IH] using map_ind; [done|].
  rewrite countb_insert_new, <-IH by done. unfold zlen, rows_where.
  rewrite (Permutation_length (l' := List.filter f (v :: (map_to_list t).*2))).
  - cbn. destruct (f v); cbn; lia.
  - enough ((map_to_list (<[k:=v]> t)).*2 ≡ₚ v :: (map_to_list t).*2) as ->; [done|].
    by rewrite map_to_list_insert.
Qed.

Section Order.
Context {V : Type} (created : V -> datetime) (id : V -> uuid).
Notation R := (created_le created id).

#[export] Instance created_le_trans : Transitive R.
Proof. unfold created_le. intros a b c. lia. Qed.
#[export] Instance created_le_total : Total R.
Proof. unfold created_le. intros a b. lia. Qed.

Lemma order_by_created_perm l : order_by_created created id l ≡ₚ l.
Proof. apply merge_sort_Permutation. Qed.

Lemma order_by_created_sorted l : StronglySorted R (order_by_created created id l).
Proof. apply StronglySorted_merge_sort; apply _. Qed.

Lemma elem_of_order_by_created l x : x ∈ order_by_created created id l <-> x ∈ l.
Proof. by rewrite order_by_created_perm. Qed.
End Order.

Lemma elem_of_rows_where {V} (f : V -> bool) (t : gmap uuid V) r :
  r ∈ rows_where f t <-> (exists k, t !! k = Some r) /\ f r = true.
Proof.
  unfold rows_where. rewrite list_elem_of_In, List.filter_In, <-list_elem_of_In.
  rewrite list_elem_of_fmap. split.
  - intros [([k v] & -> & Hkv%elem_of_map_to_list) Hf]. eauto.
  - intros [(k & Hk) Hf]. split; [|done]. exists (k, r). split; [done|].
    by apply elem_of_map_to_list.
Qed.

Lemma rows_where_empty {V} (f : V -> bool) (t : gmap uuid V) :
  nonempty (rows_where f t) = false <-> forall k r, t !! k = Some r -> f r = false.
Proof.
  destruct (rows_where f t) as [|r l] eqn:E; cbn; split; try done.
  - intros _ k r Hk. destruct (f r) eqn:Hf; [|done].
    assert (r ∈ rows_where f t) as Hin by (apply elem_of_rows_where; eauto).
    rewrite E in Hin. by apply elem_of_nil in Hin.
  - intros Hall. assert (r ∈ rows_where f t) as [[k Hk] Hf]%elem_of_rows_where
      by (rewrite E; left).
    rewrite (Hall k r Hk) in Hf. done.
Qed.

(** A query that one row satisfies. *)
Lemma rows_where_singleton {V} (f : V -> bool) (t : gmap uuid V) k r :
  t !! k = Some r -> f r = true -> (forall k' r', t !! k' = Some r' -> f r' = true -> k' = k) ->
  rows_where f t = [r].
Proof.
  intros Hk Hf Hone. apply Permutation_singleton_r. unfold rows_where.
  assert ((map_to_list t).*2 ≡ₚ r :: (map_to_list (delete k t)).*2) as ->.
  { rewrite <-(insert_delete_id t k r Hk) at 1. rewrite map_to_list_insert by apply lookup_delete_eq. done. }
  cbn. rewrite Hf, filterb_none; [done|]. intros r' Hr'.
  apply list_elem_of_fmap in Hr' as ([k' v] & -> & Hin%elem_of_map_to_list).
  apply lookup_delete_Some in Hin as [Hne Hin]. cbn. destruct (f v) eqn:Hfv; [|done].
  by destruct Hne; symmetry; apply (Hone k' v).
Qed.

(** A successful [INSERT] found the key free and the constraints satisfied. *)
Lemma insert_row_Ok {V} (get : Db -> gmap uuid V) set id row ok c db u db' :
  insert_row get set id row ok c db = (Ok u, db') ->
  get db !! id = None /\ ok db = true /\ db' = set (<[id := row]> (get db)) db.
Proof. unfold insert_row. repeat case_match; naive_solver. Qed.

Lemma insert_row_Raise {V} (get : Db -> gmap uuid V) set id row ok c db e db' :
  insert_row get set id row ok c db = (Raise e, db') -> db' = db.
Proof. unfold insert_row. repeat case_match; naive_solver. Qed.

Lemma update_row_run {V} (get : Db -> gmap uuid V) set id row ok c db :
  update_row get set id row ok c db =
  if ok then (Ok tt, set (<[id := row]> (get db)) db)
  else (Raise (IntegrityError c), db).
Proof. unfold update_row. by destruct ok. Qed.

Lemma in_db_run {A} (c : M exn Db A) s :
  in_db c s = let (r, d) := c (working s) in (r, s <| working := d |>).
Proof. reflexivity. Qed.

Lemma run_commit_ok s : commits s = [] -> commit s = (Ok tt, mkSession (working s) (working s) []).
Proof. unfold commit. by intros ->. Qed.

Lemma filterb_sublist {A} (f : A -> bool) l : sublist (List.filter f l) l.
Proof. induction l as [|x l IH]; cbn; [constructor|]. destruct (f x); by constructor. Qed.

(** In a table keyed by its identifiers a query returns each of them once. *)
Lemma rows_where_ids_NoDup {V} (idf : V -> uuid) (f : V -> bool) (t : gmap uuid V) :
  (forall k r, t !! k = Some r -> idf r = k) -> NoDup (idf <$> rows_where f t).
Proof.
  intros Hkey. eapply sublist_NoDup; [|apply fmap_sublist, filterb_sublist].
  rewrite <-list_fmap_compose.
  rewrite (list_fmap_ext _ fst); [apply NoDup_fst_map_to_list|].
  intros i [k r] Hi. apply Hkey. by eapply elem_of_map_to_list, list_elem_of_lookup_2.
Qed.

(** Counting is monotone when every counted row of one table is counted in the other. *)
Lemma countb_mono {V} (f g : V -> bool) (t t' : gmap uuid V) :
  (forall k r, t !! k = Some r -> f r = true -> exists r', t' !! k = Some r' /\ g r' = true) ->
  countb f t <= countb g t'.
Proof.
  intros Hsub. unfold countb. rewrite <-!size_dom. apply Nat2Z.inj_le, subseteq_size.
  intros k (r & Hr)%elem_of_dom. apply map_lookup_filter_Some in Hr as [Hk Hf].
  destruct (Hsub k r Hk Hf) as (r' & Hk' & Hg).
  apply elem_of_dom. exists r'. by apply map_lookup_filter_Some.
Qed.

(** * Updating the rows of a query *)

Section ReplaceRows.
Context {V : Type} (idf : V -> uuid) (f : V -> V).

(** Replacing the rows of a list by new versions of themselves. *)
Definition replace_rows (l : list V) (t : gmap uuid V) : gmap uuid V :=
  foldl (fun t r => <[idf r := f r]> t) t l.

Lemma replace_rows_notin l t k : k ∉ idf <$> l -> replace_rows l t !! k = t !! k.
Proof.
  revert t. induction l as [|r l IH]; intros t Hk; [done|].
  apply not_elem_of_cons in Hk as [Hne Hk].
  change (replace_rows (r :: l) t) with (replace_rows l (<[idf r := f r]> t)).
  rewrite IH by done. by apply lookup_insert_ne.
Qed.

Lemma replace_rows_in l t r :
  NoDup (idf <$> l) -> r ∈ l -> replace_rows l t !! idf r = Some (f r).
Proof.
  revert t. induction l as [|r0 l IH]; intros t Hnd Hr; [by apply elem_of_nil in Hr|].
  change (replace_rows (r0 :: l) t) with (replace_rows l (<[idf r0 := f r0]> t)).
  apply NoDup_cons in Hnd as [Hr0 Hnd]. apply elem_of_cons in Hr as [->|Hr]; [|by apply IH].
  rewrite replace_rows_notin by done. apply lookup_insert_eq.
Qed.

Lemma mapM_cons_run {A B} (g : A -> M exn Db B) x l db :
  mapM g (x :: l) db = (y ← g x; k ← mapM g l; mret (y :: k)) db.
Proof. done. Qed.

(** A loop of updates, each of one row. *)
Lemma mapM_update_rows (get : Db -> gmap uuid V) (set : gmap uuid V -> Db -> Db)
    (ok : V -> bool) c l db :
  (forall db, set (get db) db = db) -> (forall t db, get (set t db) = t) ->
  (forall t t' db, set t (set t' db) = set t db) ->
  (forall r, r ∈ l -> ok (f r) = true) ->
  mapM (fun row => update_row get set (idf row) (f row) (ok (f row)) c ;; mret (f row)) l db
  = (Ok (f <$> l), set (replace_rows l (get db)) db).
Proof.
  intros Hsame Hget Hset. revert db. induction l as [|r l IH]; intros db Hck.
  { change (replace_rows [] (get db)) with (get db). by rewrite Hsame. }
  rewrite mapM_cons_run, !run_bind, update_row_run, Hck by left.
  rewrite run_ret, run_bind, IH by (intros r' Hr'; apply Hck; by right).
  by rewrite Hget, Hset.
Qed.
End ReplaceRows.
