(* ===== verification/Json.v ===== *)
(** [json.dumps] and [timedelta(seconds=..)] of the standard library, as the
    services use them, and the equivalence of JSON values that differ in the
    order of their keys only.  The text of a float ([repr]) and SHA-256 are
    parameters. *)
From Stdlib Require Import ZArith Lia String SpecFloat.
From stdpp Require Import prelude strings sorting.
From S2P Require Import Prelude PyFloat PyStr Domain.

(** [float.__repr__] of a finite float. *)
Class FloatRepr := float_repr : float -> pystr.
(** [hashlib.sha256(data).hexdigest()] of a byte string. *)
Class Sha256 := sha256_hex : list Z -> pystr.

(** * Text of strings *)

Definition hex_digit (d : Z) : Z := if d <? 10 then 48 + d else 87 + d.
Definition hex4 (z : Z) : pystr :=
  [hex_digit (z / 4096 mod 16); hex_digit (z / 256 mod 16); hex_digit (z / 16 mod 16);
   hex_digit (z mod 16)].

Definition u_escape (z : Z) : pystr := py "\u" ++ hex4 z.

(** One character between the quotes of a JSON string. *)
Definition escape (ensure_ascii : bool) (c : Z) : pystr :=
  if c =? 34 then [92; 34]
  else if c =? 92 then [92; 92]
  else if c =? 10 then py "\n"
  else if c =? 13 then py "\r"
  else if c =? 9 then py "\t"
  else if c =? 12 then py "\f"
  else if c =? 8 then py "\b"
  else if c <? 32 then u_escape c
  else if negb ensure_ascii || (c <? 127) then [c]
  else if c <? 65536 then u_escape c
  else u_escape (55296 + (c - 65536) / 1024) ++ u_escape (56320 + (c - 65536) mod 1024).

Definition quote (ensure_ascii : bool) (s : pystr) : pystr :=
  [34] ++ mjoin (escape ensure_ascii <$> s) ++ [34].

(** * Values *)

(** [a <= b] on strings: lexicographic by code points. *)
Fixpoint str_leb (a b : pystr) : bool :=
  match a, b with
  | [], _ => true
  | _, [] => false
  | x :: a', y :: b' => (x <? y) || ((x =? y) && str_leb a' b')
  end.

Definition key_le {V} (a b : pystr * V) : Prop := str_leb a.1 b.1 = true.
#[export] Instance key_le_dec {V} (a b : pystr * V) : Decision (key_le a b).
Proof. unfold key_le. apply _. Defined.

(** [sorted(d.items())], the keys of a dict being distinct. *)
Definition sort_items {V} (l : list (pystr * V)) : list (pystr * V) := merge_sort key_le l.

Section Dumps.
Context `{FloatRepr}.

Definition float_text (f : float) : pystr :=
  match f with
  | S754_nan => py "NaN"
  | S754_infinity s => if s then py "-Infinity" else py "Infinity"
  | _ => float_repr f
  end.

(** [json.dumps(v, sort_keys=.., ensure_ascii=.., separators=(item_sep, key_sep))] *)
Fixpoint dumps_with (item_sep key_sep : pystr) (ensure_ascii sort_keys : bool) (v : json) : pystr :=
  match v with
  | JNull => py "null"
  | JBool b => if b then py "true" else py "false"
  | JInt z => int_str z
  | JFloat f => float_text f
  | JStr s => quote ensure_ascii s
  | JList l =>
      py "[" ++ join item_sep (dumps_with item_sep key_sep ensure_ascii sort_keys <$> l) ++ py "]"
  | JObj o =>
      let items := (fun kv => (kv.1, dumps_with item_sep key_sep ensure_ascii sort_keys kv.2)) <$> o in
      let items := if sort_keys then sort_items items else items in
      py "{" ++ join item_sep ((fun kv => quote ensure_ascii kv.1 ++ key_sep ++ kv.2) <$> items)
      ++ py "}"
  end.

(** The compact separators, and the default ones. *)
Definition dumps : bool -> bool -> json -> pystr := dumps_with (py ",") (py ":").
Definition dumps_spaced : bool -> bool -> json -> pystr := dumps_with (py ", ") (py ": ").
End Dumps.

(** [allow_nan=False] raises [ValueError] on these. *)
Fixpoint has_nan (v : json) : bool :=
  match v with
  | JFloat f => match f with S754_nan | S754_infinity _ => true | _ => false end
  | JList l => existsb has_nan l
  | JObj o => existsb (fun kv => has_nan kv.2) o
  | _ => false
  end.

(** * Bytes *)

(** [s.encode("utf-8")]; a surrogate cannot be encoded. *)
Definition utf8_char (c : Z) : option (list Z) :=
  if c <? 128 then Some [c]
  else if c <? 2048 then Some [192 + c / 64; 128 + c mod 64]
  else if (55296 <=? c) && (c <=? 57343) then None
  else if c <? 65536 then Some [224 + c / 4096; 128 + c / 64 mod 64; 128 + c mod 64]
  else Some [240 + c / 262144; 128 + c / 4096 mod 64; 128 + c / 64 mod 64; 128 + c mod 64].

Definition utf8 (s : pystr) : option (list Z) := mjoin <$> mapM utf8_char s.

(** * Durations *)

(** [timedelta(seconds=x)] in microseconds: [None] is [ValueError] (a NaN),
    [Some None] is [OverflowError] (an infinity, or more than 999999999 days). *)
Definition timedelta_seconds (x : float) : option (option Z) :=
  match x with
  | S754_nan => None
  | S754_infinity _ => Some None
  | _ =>
      match ftrunc x with
      | None => Some None
      | Some t =>
          let us := match fmul (fsub x (of_Z t)) (of_Z 1000000) with
                    | S754_finite s m e =>
                        let (n, d) := frac m e in round_half_even (if s then - n else n) d
                    | _ => 0
                    end in
          let total := t * 1000000 + us in
          let days := total / 86400000000 in
          if (days <? -999999999) || (999999999 <? days) then Some None else Some (Some total)
      end
  end.

(** The last instant a [datetime] can represent, the end of the year 9999. *)
Definition DATETIME_MAX : datetime := 253402300799999999.
Definition DATETIME_MIN : datetime := -62135596800000000.

(** [datetime + timedelta]; [None] is [OverflowError]. *)
Definition datetime_add (t : datetime) (d : Z) : option datetime :=
  if (t + d <? DATETIME_MIN) || (DATETIME_MAX <? t + d) then None else Some (t + d).

(** * JSON values up to the order of keys *)

(** The value with the keys of every object sorted. *)
Fixpoint norm (v : json) : json :=
  match v with
  | JList l => JList (norm <$> l)
  | JObj o => JObj (sort_items ((fun kv => (kv.1, norm kv.2)) <$> o))
  | _ => v
  end.

Definition json_equiv (a b : json) : Prop := norm a = norm b.
#[export] Instance json_equiv_equivalence : Equivalence json_equiv.
Proof. unfold json_equiv. split; [done|intros a b; congruence|intros a b c; congruence]. Qed.

Lemma str_leb_total a b : str_leb a b = true \/ str_leb b a = true.
Proof.
  revert b. induction a as [|x a IH]; intros [|y b]; cbn; try (by auto).
  zify_bool. destruct (IH b); destruct (Z.lt_trichotomy x y) as [?|[?|?]]; auto.
Qed.

Lemma str_leb_trans a b c : str_leb a b = true -> str_leb b c = true -> str_leb a c = true.
Proof.
  revert b c. induction a as [|x a IH]; intros [|y b] [|z c]; cbn; try done.
  zify_bool. intros [?|[-> ?]] [?|[-> ?]]; [left; lia|auto|auto|right; split; [done|]].
  by eapply IH.
Qed.

Lemma str_leb_antisymm a b : str_leb a b = true -> str_leb b a = true -> a = b.
Proof.
  revert b. induction a as [|x a IH]; intros [|y b]; cbn; try done.
  zify_bool. intros [?|[-> ?]] [?|[? ?]]; try lia. f_equal. by apply IH.
Qed.

#[export] Instance key_le_trans {V} : Transitive (@key_le V).
Proof. intros a b c. unfold key_le. apply str_leb_trans. Qed.
#[export] Instance key_le_total {V} : Total (@key_le V).
Proof. intros a b. unfold key_le. apply str_leb_total. Qed.

Lemma sort_items_perm {V} (l : list (pystr * V)) : sort_items l ≡ₚ l.
Proof. apply merge_sort_Permutation. Qed.

(** Sorting by distinct keys does not depend on the order of the items. *)
Lemma sort_items_unique {V} (l k : list (pystr * V)) :
  NoDup l.*1 -> l ≡ₚ k -> sort_items l = sort_items k.
Proof.
  intros Hnd Hp. apply (StronglySorted_unique_strong key_le).
  - intros [k1 v1] [k2 v2] H1 H2 Hle Hle'. rewrite sort_items_perm in H1.
    rewrite sort_items_perm, <-Hp in H2. unfold key_le in *; cbn in *.
    assert (k1 = k2) as -> by (by apply str_leb_antisymm). f_equal.
    apply list_elem_of_lookup in H1 as [i Hi], H2 as [j Hj].
    assert (i = j) as ->.
    { eapply NoDup_lookup; [exact Hnd| |]; rewrite list_lookup_fmap; [by rewrite Hi|by rewrite Hj]. }
    congruence.
  - apply StronglySorted_merge_sort; apply _.
  - apply StronglySorted_merge_sort; apply _.
  - by rewrite !sort_items_perm.
Qed.

(** Mapping the values commutes with sorting the items. *)
Lemma sort_items_fmap {V W} (f : V -> W) (l : list (pystr * V)) :
  NoDup l.*1 ->
  sort_items ((fun kv => (kv.1, f kv.2)) <$> l) = (fun kv => (kv.1, f kv.2)) <$> sort_items l.
Proof.
  intros Hnd. apply (StronglySorted_unique_strong key_le).
  - intros [k1 v1] [k2 v2] H1 H2 Hle Hle'. rewrite sort_items_perm in H1.
    rewrite sort_items_perm in H2. unfold key_le in *; cbn in *.
    assert (k1 = k2) as -> by (by apply str_leb_antisymm).
    apply list_elem_of_fmap in H1 as ([? a] & [= -> ->] & H1).
    apply list_elem_of_fmap in H2 as ([? b] & [= -> ->] & H2).
    apply list_elem_of_lookup in H1 as [i Hi], H2 as [j Hj].
    assert (i = j) as ->.
    { eapply NoDup_lookup; [exact Hnd| |]; rewrite list_lookup_fmap; [by rewrite Hi|by rewrite Hj]. }
    congruence.
  - apply StronglySorted_merge_sort; apply _.
  - apply StronglySorted_fmap with (R1 := key_le); [done|].
    apply StronglySorted_merge_sort; apply _.
  - by rewrite !sort_items_perm.
Qed.

(** The keys of every object of the value are distinct, as in a Python dict. *)
Fixpoint dict_ok (v : json) : Prop :=
  match v with
  | JList l => Forall id (dict_ok <$> l)
  | JObj o => NoDup o.*1 /\ Forall id ((fun kv => dict_ok kv.2) <$> o)
  | _ => True
  end.

(** Induction on JSON values with hypotheses for the members. *)
Section JsonInd.
Context (P : json -> Prop)
        (Hatom : forall v, (forall l, v <> JList l) -> (forall o, v <> JObj o) -> P v)
        (Hlist : forall l, Forall P l -> P (JList l))
        (Hobj : forall o, Forall (fun kv => P kv.2) o -> P (JObj o)).

Fixpoint json_ind' (v : json) : P v :=
  match v as v return P v with
  | JList l => Hlist l ((fix go (l : list json) : Forall P l :=
      match l with [] => Forall_nil_2 P | x :: l' => Forall_cons_2 P x l' (json_ind' x) (go l') end) l)
  | JObj o => Hobj o ((fix go (o : list (pystr * json)) : Forall (fun kv => P kv.2) o :=
      match o with
      | [] => Forall_nil_2 _
      | kv :: o' => Forall_cons_2 (fun kv => P kv.2) kv o' (json_ind' kv.2) (go o')
      end) o)
  | v => Hatom v ltac:(discriminate) ltac:(discriminate)
  end.
End JsonInd.

Section DumpsNorm.
Context `{FloatRepr}.

(** The text with sorted keys is the text of the value with its keys sorted:
    the order the keys were written in does not show. *)
Lemma dumps_norm isep ksep ea v :
  dict_ok v -> dumps_with isep ksep ea true v = dumps_with isep ksep ea false (norm v).
Proof.
  induction v as [v Hl Ho|l IH|o IH] using json_ind'; [by destruct v; naive_solver| |]; cbn.
  - intros Hok. do 2 f_equal. f_equal. rewrite <-list_fmap_compose.
    apply Forall_fmap_ext_1, Forall_forall. intros x Hx. rewrite Forall_fmap in Hok.
    rewrite Forall_forall in IH, Hok. by apply (IH _ Hx), (Hok _ Hx).
  - intros [Hnd Hok]. do 2 f_equal. f_equal.
    rewrite (sort_items_fmap norm o Hnd), <-!list_fmap_compose.
    rewrite (sort_items_fmap (dumps_with isep ksep ea true) o Hnd), <-!list_fmap_compose.
    apply Forall_fmap_ext_1. rewrite Forall_fmap in Hok.
    apply Forall_forall. intros [k w] Hkw. rewrite sort_items_perm in Hkw. cbn.
    rewrite Forall_forall in IH, Hok. pose proof (IH _ Hkw (Hok _ Hkw)) as Heq. cbn in Heq.
    by rewrite Heq.
Qed.

Lemma dumps_equiv ea v v' :
  dict_ok v -> dict_ok v' -> json_equiv v v' -> dumps ea true v = dumps ea true v'.
Proof. intros H1 H2 He. unfold dumps. by rewrite !dumps_norm, He by done. Qed.
End DumpsNorm.

(** Reordering the keys of an object gives an equivalent value. *)
Lemma json_equiv_perm o o' : NoDup o.*1 -> o ≡ₚ o' -> json_equiv (JObj o) (JObj o').
Proof.
  intros Hnd Hp. unfold json_equiv; cbn. f_equal. apply sort_items_unique.
  - rewrite <-list_fmap_compose. done.
  - by rewrite Hp.
Qed.

(** Equivalence reaches into lists and objects. *)
#[export] Instance JList_proper : Proper (Forall2 json_equiv ==> json_equiv) JList.
Proof.
  intros l l' Hl. unfold json_equiv; cbn. f_equal.
  induction Hl as [|x y l l' Hx Hl IH]; cbn; [done|]. unfold json_equiv in Hx. by rewrite Hx, IH.
Qed.

#[export] Instance JObj_proper :
  Proper (Forall2 (fun kv kv' => kv.1 = kv'.1 /\ json_equiv kv.2 kv'.2) ==> json_equiv) JObj.
Proof.
  intros o o' Ho. unfold json_equiv; cbn. do 2 f_equal.
  induction Ho as [|[k v] [k' v'] o o' [Hk Hv] Ho IH]; cbn in *; [done|].
  unfold json_equiv in Hv. by rewrite Hk, Hv, IH.
Qed.
