(* ===== verification/Utf8.v ===== *)
(** The strict UTF-8 decoder of [bytes.decode("utf-8")] and its round trip with
    the encoder.  Overlong forms, surrogates, code points past U+10FFFF and
    truncated sequences are rejected. *)
From Stdlib Require Import ZArith Lia String.
From stdpp Require Import prelude strings list.
From S2P Require Import Prelude PyFloat PyStr Domain Json.

Definition is_cont (b : Z) : bool := (128 <=? b) && (b <? 192).

(** The first character and the bytes after it; [None] is [UnicodeDecodeError]. *)
Definition utf8_first (s : list Z) : option (Z * list Z) :=
  match s with
  | [] => None
  | b0 :: s1 =>
      if b0 <? 128 then if 0 <=? b0 then Some (b0, s1) else None
      else if b0 <? 194 then None
      else if b0 <? 224 then
        match s1 with
        | b1 :: s2 => if is_cont b1 then Some ((b0 - 192) * 64 + (b1 - 128), s2) else None
        | _ => None
        end
      else if b0 <? 240 then
        match s1 with
        | b1 :: b2 :: s3 =>
            let c := (b0 - 224) * 4096 + (b1 - 128) * 64 + (b2 - 128) in
            if is_cont b1 && is_cont b2 && (2048 <=? c) && negb ((55296 <=? c) && (c <=? 57343))
            then Some (c, s3) else None
        | _ => None
        end
      else if b0 <? 245 then
        match s1 with
        | b1 :: b2 :: b3 :: s4 =>
            let c := (b0 - 240) * 262144 + (b1 - 128) * 4096 + (b2 - 128) * 64 + (b3 - 128) in
            if is_cont b1 && is_cont b2 && is_cont b3 && (65536 <=? c) && (c <=? 1114111)
            then Some (c, s4) else None
        | _ => None
        end
      else None
  end.

(** Every character takes at least one byte: one step per byte is enough fuel. *)
Fixpoint utf8_decode_loop (fuel : nat) (s : list Z) : option pystr :=
  match s, fuel with
  | [], _ => Some []
  | _, O => None
  | _, S f =>
      match utf8_first s with
      | Some (c, s') => cons c <$> utf8_decode_loop f s'
      | None => None
      end
  end.

Definition utf8_decode (s : list Z) : option pystr := utf8_decode_loop (length s) s.

(** A Unicode scalar value. *)
Definition scalar (c : Z) : Prop := 0 <= c <= 1114111 /\ ~ (55296 <= c <= 57343).

Lemma utf8_first_scalar s c s' : utf8_first s = Some (c, s') -> scalar c.
Proof.
  unfold utf8_first, scalar, is_cont. intros H. repeat case_match; try done; injection H as <- <-;
    zify_bool; lia.
Qed.

Lemma utf8_first_shorter s c s' : utf8_first s = Some (c, s') -> (length s' < length s)%nat.
Proof. unfold utf8_first. intros H. repeat case_match; try done; injection H as <- <-; cbn; lia. Qed.

Lemma utf8_decode_loop_scalar fuel s t : utf8_decode_loop fuel s = Some t -> Forall scalar t.
Proof.
  revert s t. induction fuel as [|fuel IH]; intros s t; destruct s as [|b s]; cbn [utf8_decode_loop];
    try done; try (intros [= <-]; constructor).
  destruct (utf8_first (b :: s)) as [[c s']|] eqn:E; [|done].
  destruct (utf8_decode_loop fuel s') as [t'|] eqn:E'; [|done]. intros [= <-].
  constructor; [by eapply utf8_first_scalar|by eapply IH].
Qed.

Lemma utf8_char_scalar c : scalar c -> exists l, utf8_char c = Some l /\ (1 <= length l)%nat.
Proof.
  unfold scalar, utf8_char. intros [Hr Hs].
  repeat case_match; zify_bool; try lia; eexists; (split; [done|cbn; lia]).
Qed.

(** Encoding fails on surrogates only. *)
Lemma utf8_total t : Forall scalar t -> exists b, utf8 t = Some b.
Proof.
  unfold utf8. intros Ht. induction Ht as [|c t Hc Ht [b Hb]]; [by eexists|].
  destruct (utf8_char_scalar c Hc) as (l & Hl & _). cbn in *. rewrite Hl.
  destruct (mapM utf8_char t); [|done]. by eexists.
Qed.

Lemma sixty_four c : exists q r, c / 64 = q /\ c mod 64 = r /\ c = 64 * q + r /\ 0 <= r < 64.
Proof.
  exists (c / 64), (c mod 64). pose proof (Z.div_mod c 64 ltac:(lia)).
  pose proof (Z.mod_pos_bound c 64 ltac:(lia)). done.
Qed.

Ltac decide_tests :=
  repeat match goal with
  | |- context [(?a <? ?b)] => first [rewrite (proj2 (Z.ltb_lt a b)) by lia | rewrite (proj2 (Z.ltb_ge a b)) by lia]
  | |- context [(?a <=? ?b)] => first [rewrite (proj2 (Z.leb_le a b)) by lia | rewrite (proj2 (Z.leb_gt a b)) by lia]
  end; cbn [andb negb].

Lemma utf8_first_encode c l r :
  scalar c -> utf8_char c = Some l -> utf8_first (l ++ r) = Some (c, r).
Proof.
  intros [Hr Hs]. unfold utf8_char.
  assert (c / 4096 = c / 64 / 64) as -> by (by rewrite Z.div_div).
  assert (c / 262144 = c / 64 / 64 / 64) as -> by (by rewrite !Z.div_div).
  destruct (sixty_four c) as (q1 & r1 & -> & -> & D1 & M1).
  destruct (sixty_four q1) as (q2 & r2 & -> & -> & D2 & M2).
  destruct (sixty_four q2) as (q3 & r3 & -> & -> & D3 & M3).
  destruct (Z.ltb_spec c 128); [|destruct (Z.ltb_spec c 2048)];
    [| |destruct (_ && _) eqn:Hsur; [done|destruct (Z.ltb_spec c 65536)]];
    intros [= <-]; unfold utf8_first, is_cont; cbn [app]; decide_tests.
  - done.
  - do 2 f_equal. lia.
  - replace ((224 + q2 - 224) * 4096 + (128 + r2 - 128) * 64 + (128 + r1 - 128)) with c by lia.
    by rewrite Hsur.
  - replace ((240 + q3 - 240) * 262144 + (128 + r3 - 128) * 4096 + (128 + r2 - 128) * 64 + (128 + r1 - 128))
      with c by lia.
    decide_tests. done.
Qed.

Lemma utf8_decode_encode t b fuel :
  Forall scalar t -> utf8 t = Some b -> (length b <= fuel)%nat -> utf8_decode_loop fuel b = Some t.
Proof.
  unfold utf8. intros Ht. revert b fuel. induction Ht as [|c t Hc Ht IH]; intros b fuel.
  { intros [= <-] _. by destruct fuel. }
  destruct (utf8_char_scalar c Hc) as (l & Hl & Hlen). cbn. rewrite Hl. cbn.
  destruct (mapM utf8_char t) as [ls|] eqn:E; [|done]. intros [= <-] Hfuel.
  change (length (l ++ mjoin ls) <= fuel)%nat in Hfuel. rewrite length_app in Hfuel. destruct fuel as [|fuel]; [lia|].
  assert (exists x y, l ++ mjoin ls = x :: y) as (x & y & Hxy).
  { destruct l as [|x l]; [cbn in Hlen; lia|]. by eexists _, _. }
  change (utf8_decode_loop (S fuel) (l ++ mjoin ls) = Some (c :: t)).
  rewrite Hxy. cbn [utf8_decode_loop]. rewrite <-Hxy.
  rewrite (utf8_first_encode c l _ Hc Hl). rewrite (IH _ fuel eq_refl); [done|].
  lia.
Qed.

(** Decoding the UTF-8 encoding of a text without surrogates gives the text
    back, and whatever the decoder accepts it decodes to Unicode scalar values,
    which can be encoded again. *)
Lemma utf8_roundtrip (t : pystr) (Ht : Forall scalar t) :
  exists b, utf8 t = Some b /\ utf8_decode b = Some t
  /\ forall b' t', utf8_decode b' = Some t' -> Forall scalar t'.
Proof.
  destruct (utf8_total t Ht) as [b Hb]. exists b. split; [done|]. split.
  - by apply utf8_decode_encode.
  - intros b' t'. apply utf8_decode_loop_scalar.
Qed.

Example utf8_sample :
  utf8_decode [104; 195; 169; 240; 159; 154; 128] = Some [104; 233; 128640]
  /\ utf8_decode [237; 160; 128] = None /\ utf8_decode [192; 128] = None.
Proof. vm_compute. done. Qed.

(** * JSON texts are ASCII *)

Definition ascii (c : Z) : Prop := 0 <= c < 128.

Lemma ascii_scalar t : Forall ascii t -> Forall scalar t.
Proof. intros Ht. eapply Forall_impl; [exact Ht|]. unfold ascii, scalar. intros c. lia. Qed.

Lemma py_ascii s : Forall ascii (py s) <-> forallb (fun c => (0 <=? c) && (c <? 128)) (py s) = true.
Proof.
  rewrite forallb_forall, Forall_forall. setoid_rewrite list_elem_of_In. unfold ascii.
  split; intros H c Hc; specialize (H c Hc); zify_bool; lia.
Qed.

Lemma hex_digit_ascii d : 0 <= d < 16 -> ascii (hex_digit d).
Proof. unfold hex_digit, ascii. intros. case_match; lia. Qed.

Lemma u_escape_ascii z : Forall ascii (u_escape z).
Proof.
  unfold u_escape. apply Forall_app. split; [apply py_ascii; reflexivity|].
  unfold hex4. repeat constructor; apply hex_digit_ascii; apply Z.mod_pos_bound; lia.
Qed.

Lemma escape_ascii c : Forall ascii (escape true c).
Proof.
  unfold escape. repeat case_match; zify_bool; try apply u_escape_ascii;
    try (apply Forall_app; split; apply u_escape_ascii);
    try (apply py_ascii; reflexivity); repeat constructor; unfold ascii; try lia.
Qed.

Lemma quote_ascii s : Forall ascii (quote true s).
Proof.
  unfold quote. rewrite !Forall_app. split_and!; try (repeat constructor; unfold ascii; lia).
  apply Forall_join, Forall_fmap, Forall_forall. intros c _. apply escape_ascii.
Qed.

Lemma dec_digits_ascii fuel v : 0 <= v -> Forall ascii (dec_digits fuel v).
Proof.
  revert v. induction fuel as [|fuel IH]; intros v Hv; [constructor|]. cbn.
  apply Forall_app. split.
  - case_match; [constructor|]. apply IH. apply Z.div_pos; lia.
  - repeat constructor; unfold ascii; pose proof (Z.mod_pos_bound v 10 ltac:(lia)); lia.
Qed.

Lemma int_str_ascii z : Forall ascii (int_str z).
Proof.
  unfold int_str. apply Forall_app. split; [|apply dec_digits_ascii; lia].
  case_match; [apply py_ascii; reflexivity|constructor].
Qed.

Lemma join_ascii sep ls : Forall ascii sep -> Forall (Forall ascii) ls -> Forall ascii (join sep ls).
Proof.
  intros Hs. induction 1 as [|l ls Hl Hls IH]; [constructor|]. destruct ls as [|l' ls]; [done|].
  change (join sep (l :: l' :: ls)) with (l ++ sep ++ join sep (l' :: ls)).
  rewrite !Forall_app. by split_and!.
Qed.

Fixpoint float_free (v : json) : bool :=
  match v with
  | JFloat _ => false
  | JList l => forallb float_free l
  | JObj o => forallb (fun kv => float_free kv.2) o
  | _ => true
  end.

(** [ensure_ascii]: the text of a value is ASCII, that of its floats apart. *)
Lemma dumps_ascii `{FloatRepr} isep ksep sk v :
  Forall ascii isep -> Forall ascii ksep -> float_free v = true ->
  Forall ascii (dumps_with isep ksep true sk v).
Proof.
  intros Hi Hk. induction v as [v Hl Ho|l IH|o IH] using json_ind'; intros Hf.
  - destruct v as [|b|z|f|s|l|o]; cbn in *; try done.
    + repeat constructor; unfold ascii; lia.
    + destruct b; repeat constructor; unfold ascii; lia.
    + apply int_str_ascii.
    + apply quote_ascii.
    + by destruct (Hl l).
    + by destruct (Ho o).
  - cbn in *. rewrite forallb_forall in Hf. apply Forall_cons; split; [unfold ascii; lia|].
    apply Forall_app; split; [|repeat constructor; unfold ascii; lia].
    apply join_ascii; [done|]. apply Forall_fmap, Forall_forall. intros x Hx.
    rewrite Forall_forall in IH. apply (IH x Hx), Hf. by apply list_elem_of_In.
  - cbn in *. rewrite forallb_forall in Hf. apply Forall_cons; split; [unfold ascii; lia|].
    apply Forall_app; split; [|repeat constructor; unfold ascii; lia].
    apply join_ascii; [done|]. apply Forall_fmap, Forall_forall. intros [k t] Hkt.
    change (Forall ascii (quote true k ++ ksep ++ t)). rewrite !Forall_app. split_and!; [apply quote_ascii|done|].
    assert ((k, t) ∈ (fun kv => (kv.1, dumps_with isep ksep true sk kv.2)) <$> o) as Hin.
    { destruct sk; [by rewrite sort_items_perm in Hkt|done]. }
    apply list_elem_of_fmap in Hin as ([k0 v0] & [= -> ->] & Hin).
    rewrite Forall_forall in IH. apply (IH _ Hin), (Hf (k0, v0)). by apply list_elem_of_In.
Qed.

Lemma dumps_encodes `{FloatRepr} sk v :
  float_free v = true -> exists d, utf8 (dumps_spaced true sk v) = Some d.
Proof.
  intros Hf. apply utf8_total, ascii_scalar. apply dumps_ascii; [repeat constructor; unfold ascii; lia..|done].
Qed.

(** * Decoding with replacement

    [bytes.decode("utf-8", errors="replace")]: a maximal ill-formed prefix
    becomes one U+FFFD. *)
Definition second_ok (b0 b1 : Z) : bool :=
  is_cont b1
  && (if b0 =? 224 then 160 <=? b1 else if b0 =? 237 then b1 <? 160
      else if b0 =? 240 then 144 <=? b1 else if b0 =? 244 then b1 <? 144 else true).

(** How many bytes one replacement character stands for. *)
Definition bad_prefix (s : list Z) : nat :=
  match s with
  | b0 :: b1 :: b2 :: _ =>
      if (224 <=? b0) && (b0 <? 245) && second_ok b0 b1 then
        if (240 <=? b0) && is_cont b2 then 3%nat else 2%nat
      else 1%nat
  | [b0; b1] => if (224 <=? b0) && (b0 <? 245) && second_ok b0 b1 then 2%nat else 1%nat
  | _ => 1%nat
  end.

Fixpoint decode_replace_loop (fuel : nat) (s : list Z) : pystr :=
  match s, fuel with
  | [], _ | _, O => []
  | _, S f =>
      match utf8_first s with
      | Some (c, s') => c :: decode_replace_loop f s'
      | None => 65533 :: decode_replace_loop f (drop (bad_prefix s) s)
      end
  end.

Definition decode_replace (s : list Z) : pystr := decode_replace_loop (length s) s.

Example replace_ex :
  decode_replace [97; 226; 130; 98; 255; 240; 159; 152; 195] = [97; 65533; 98; 65533; 65533; 65533].
Proof. reflexivity. Qed.

Lemma bad_prefix_pos s : (1 <= bad_prefix s)%nat.
Proof. unfold bad_prefix. repeat case_match; lia. Qed.

(** On well-formed input the two decoders agree. *)
Lemma decode_replace_strict s t : utf8_decode s = Some t -> decode_replace s = t.
Proof.
  unfold utf8_decode, decode_replace. generalize (length s). intros n. revert s t.
  induction n as [|n IH]; intros [|b s] t; cbn [utf8_decode_loop decode_replace_loop]; try congruence.
  destruct (utf8_first (b :: s)) as [[c s']|]; [|done].
  destruct (utf8_decode_loop n s') as [t'|] eqn:E; [|done]. cbn. intros [= <-].
  f_equal. by apply IH.
Qed.
