(* ===== verification/Evaluator.v ===== *)
(** The deterministic placeholder evaluator (src/challengeforge/application/
    evaluator.py): workload profiles, its bounded CPU and memory work, and the
    score of a submission.  The elapsed time is an argument; sleeping and the
    memory block have no other effect than the time. *)
From Stdlib Require Import ZArith Lia String.
From stdpp Require Import prelude strings.
From S2P Require Import Prelude PyFloat PyStr Domain Json.

(** [Cls(text)] for a text computed at run time. *)
Definition of_text {A} `{StrEnum A} (s : pystr) : option A :=
  List.find (fun a => bool_decide (py (value a) = s)) members.

(** [application/evaluator.py:69-78 parse_workload_class], on a JSON value. *)
Definition parse_workload_class `{PyRepr} (raw : json) : WorkloadClass :=
  match raw with
  | JNull => W_LIGHT
  | _ => default W_LIGHT (of_text (lower (strip (json_str raw))))
  end.

(** [application/evaluator.py:19-24 EvaluationFailed], beside the exceptions that
    the evaluators do not handle. *)
Inductive eval_exn :=
| EvaluationFailed (reason : pystr)
| EvalRaised (e : exn).

(** * Work *)

(** [application/evaluator.py:27-33 WorkloadProfile] *)
Record WorkloadProfile := mkProfile {
  cpu_iterations : Z;
  memory_bytes : Z;
  min_duration_ms : Z;
}.

(** [application/evaluator.py:37-53 WORKLOAD_PROFILES] *)
Definition WORKLOAD_PROFILES (c : WorkloadClass) : WorkloadProfile :=
  match c with
  | W_LIGHT => mkProfile 25000 (1 * 1024 * 1024) 20
  | W_MEDIUM => mkProfile 120000 (8 * 1024 * 1024) 80
  | W_HEAVY => mkProfile 350000 (32 * 1024 * 1024) 200
  end.

(** [application/evaluator.py:56-56 MAX_MEMORY_BYTES] *)
Definition MAX_MEMORY_BYTES : Z := 48 * 1024 * 1024.
(** [application/evaluator.py:57-57 MAX_CPU_ITERATIONS] *)
Definition MAX_CPU_ITERATIONS : Z := 500000.

(** The value of one hexadecimal digit of [hexdigest()]. *)
Definition hex_value (c : Z) : Z :=
  if (48 <=? c) && (c <=? 57) then c - 48
  else if (97 <=? c) && (c <=? 102) then c - 87
  else 0.

(** [int(text, 16)] of hexadecimal digits. *)
Definition int16 (s : pystr) : Z := foldl (fun acc c => acc * 16 + hex_value c) 0 s.

(** [digest()] from [hexdigest()]. *)
Fixpoint unhex (s : pystr) : list Z :=
  match s with
  | a :: b :: s' => hex_value a * 16 + hex_value b :: unhex s'
  | _ => []
  end.

(** [i.to_bytes(4, "little")] *)
Definition to_bytes4 (i : Z) : list Z :=
  [i mod 256; i / 256 mod 256; i / 65536 mod 256; i / 16777216 mod 256].

(** The hexadecimal text of a byte string. *)
Definition hex_of (d : list Z) : pystr := d ≫= hex_digits 2.

Section Work.
Context `{Sha256}.

Definition digest (d : list Z) : list Z := unhex (sha256_hex d).

(** [for i in range(n)], the last [k] rounds of it. *)
Fixpoint hash_rounds (k : nat) (i : Z) (d : list Z) : list Z :=
  match k with
  | O => d
  | S k' => hash_rounds k' (i + 1) (digest (d ++ to_bytes4 i))
  end.

(** [application/evaluator.py:81-86 _bounded_cpu_work] *)
Definition bounded_cpu_work (iterations : Z) (seed : list Z) : pystr :=
  let n := Z.min (Z.max iterations 1) MAX_CPU_ITERATIONS in
  hex_of (hash_rounds (Z.to_nat n) 0 (digest seed)).
End Work.

(** [application/evaluator.py:89-99 _bounded_memory_work] *)
Definition bounded_memory_work (nbytes : Z) : Z :=
  let size := Z.min (Z.max nbytes 0) MAX_MEMORY_BYTES in
  if size <=? 0 then 0 else size.

(** The work is bounded whatever is asked for. *)
Lemma bounded_memory_work_bounds n : 0 <= bounded_memory_work n <= MAX_MEMORY_BYTES.
Proof. unfold bounded_memory_work, MAX_MEMORY_BYTES. destruct (_ <=? _) eqn:E; zify_bool; lia. Qed.

(** * The evaluator *)

(** [application/evaluator.py:60-66 EvaluationOutcome] *)
Record EvaluationOutcome := mkOutcome {
  ev_score : Z;
  ev_result_metadata : dict;
  ev_workload_class : WorkloadClass;
  ev_execution_cpu_ms : float;
  ev_peak_alloc_bytes : Z;
}.

(** [value is True] *)
Definition is_true (v : option json) : bool :=
  match v with Some (JBool b) => b | _ => false end.

(** [json.dumps(v, sort_keys=True, separators=(",", ":"), ensure_ascii=False,
    allow_nan=False).encode("utf-8")] *)
Definition canonical_bytes `{FloatRepr} (v : json) : result eval_exn (list Z) :=
  if has_nan v then Raise (EvalRaised (ValueError "Out of range float values are not JSON compliant"))
  else match utf8 (dumps false true v) with
       | Some d => Ok d
       | None => Raise (EvalRaised (ValueError "surrogates not allowed"))
       end.

Definition json_of_text (t : option pystr) : json :=
  match t with Some s => JStr s | None => JNull end.

Section Evaluate.
Context `{Sha256} `{FloatRepr} `{PyRepr}.

(** [application/evaluator.py:102-168 evaluate_submission], the elapsed time in
    milliseconds given. *)
Definition evaluate_submission (cpu_ms : float) (submission_id : uuid) (metadata : dict)
    (artifact_key : option pystr) (workload_class : option WorkloadClass)
    : result eval_exn EvaluationOutcome :=
  if is_true (dget metadata (py "force_evaluation_failure")) then
    Raise (EvaluationFailed (py "Forced evaluation failure via submission metadata."))
  else
    let cls := match workload_class with
               | Some c => c
               | None => parse_workload_class (dget_null metadata (py "workload_class"))
               end in
    let profile := WORKLOAD_PROFILES cls in
    let peak_alloc := bounded_memory_work (memory_bytes profile) in
    let cpu_token := bounded_cpu_work (cpu_iterations profile)
                       (uuid_str submission_id ++ py ":" ++ py (value cls)) in
    match canonical_bytes (JObj [(py "submission_id", JStr (uuid_str submission_id));
                                 (py "metadata", JObj metadata);
                                 (py "artifact_key", json_of_text artifact_key);
                                 (py "workload_class", JStr (py (value cls)))]) with
    | Raise e => Raise e
    | Ok canonical =>
        let hex := sha256_hex (canonical ++ cpu_token) in
        Ok (mkOutcome (int16 (slice hex 0 8) mod 101)
              [(py "evaluator", JStr (py "deterministic_placeholder_v2"));
               (py "fingerprint", JStr (slice hex 0 16));
               (py "has_artifact", JBool (bool_decide (is_Some artifact_key)));
               (py "metadata_keys", JList (JStr <$> (sort_items metadata).*1));
               (py "workload_class", JStr (py (value cls)));
               (py "cpu_iterations", JInt (cpu_iterations profile));
               (py "memory_bytes", JInt (memory_bytes profile));
               (py "execution_cpu_ms", JFloat (fround 3 cpu_ms));
               (py "peak_alloc_bytes", JInt peak_alloc)]
              cls (fround 3 cpu_ms) peak_alloc)
    end.

(** A score is a percentage. *)
Lemma evaluate_score cpu_ms id meta key c o :
  evaluate_submission cpu_ms id meta key c = Ok o -> 0 <= ev_score o <= 100.
Proof.
  unfold evaluate_submission. destruct (is_true _); [done|].
  destruct (canonical_bytes _); [|done]. intros [= <-].
  cbn [ev_score]. match goal with |- 0 <= ?x mod 101 <= _ => pose proof (Z.mod_pos_bound x 101) end.
  lia.
Qed.
End Evaluate.
