(* ===== verification/Storage.v ===== *)
(** Artifact storage: the protocol the services depend on
    (src/challengeforge/storage/base.py) as a class with its laws, its local
    file system implementation (storage/filesystem.py), the blob-first
    consistency helpers (application/artifacts.py) and the staging of streamed
    uploads (application/uploads.py).

    The file system is the part of it below the storage root, without symbolic
    links: a map from component lists to files, directories being the proper
    prefixes.  The order in which a directory is listed is the map's. *)
From Stdlib Require Import ZArith Lia String.
From stdpp Require Import prelude strings gmap.
From S2P Require Import Prelude PyFloat PyStr Domain Json.

Definition bytes : Type := list Z.

(** * The protocol *)

(** [storage/base.py:5-29 ArtifactStorage]: the operations, and what a state
    stores under a key. *)
Class ArtifactStorage (St : Type) := {
  put : float -> pystr -> bytes -> pystr -> M exn St pystr;
  get : pystr -> M exn St bytes;
  exists_ : pystr -> M exn St bool;
  delete_blob : pystr -> M exn St bool;
  blob : St -> pystr -> option bytes;
  (** Writing or deleting the first key cannot touch the second one. *)
  apart : pystr -> pystr -> Prop;
}.

(** What the services rely on. *)
Class ArtifactStorageLaws (St : Type) `{ArtifactStorage St} : Prop := {
  put_stores : forall now k d c s k' s',
    put now k d c s = (Ok k', s') -> k' = k /\ blob s' k = Some d;
  put_frame : forall now k d c s r s' k2,
    put now k d c s = (r, s') -> apart k k2 -> blob s' k2 = blob s k2;
  delete_removes : forall k s b s', delete_blob k s = (Ok b, s') -> blob s' k = None;
  delete_frame : forall k s r s' k2,
    delete_blob k s = (r, s') -> apart k k2 -> blob s' k2 = blob s k2;
  exists_blob : forall k s b s', exists_ k s = (Ok b, s') -> s' = s /\ (b = true <-> is_Some (blob s k));
  get_blob : forall k s d s', get k s = (Ok d, s') -> s' = s /\ blob s k = Some d;
}.

(** [application/artifacts.py:68-75 compensate_delete] *)
Definition compensate_delete {St} `{ArtifactStorage St} (key : option pystr) : M exn St bool :=
  match key with
  | None | Some [] => mret false
  | Some k => catch (delete_blob k) (fun _ => mret false)
  end.

(** * The local file system *)

Definition path : Type := list pystr.
Record File := mkFile { f_bytes : bytes; f_mtime : float }.

(** [storage/filesystem.py:10-12 LocalFilesystemStorage.__init__]: the files below
    the root. *)
Record Fs := mkFs { files : gmap path File }.

Definition slash : Z := 47.
Definition dot : pystr := py ".".
Definition dotdot : pystr := py "..".

(** The components of a path text, as [pathlib] splits it. *)
Definition components (key : pystr) : path :=
  List.filter (fun c => nonempty c && negb (bool_decide (c = dot))) (split_on slash key).

(** [storage/filesystem.py:14-23 LocalFilesystemStorage._resolve] *)
Definition resolve (key : pystr) : result exn path :=
  if negb (nonempty key) || startswith key (py "/") || bool_decide (dotdot ∈ components key)
  then Raise (ValueError "Invalid artifact key.")
  else Ok (components key).

Definition resolved {A} (key : pystr) (k : path -> M exn Fs A) : M exn Fs A :=
  match resolve key with Ok p => k p | Raise e => raise e end.

(** [path.with_suffix(path.suffix + ext)]: the extension after the name. *)
Definition add_suffix (p : path) (ext : string) : path :=
  match p with
  | [] => []
  | _ => take (length p - 1) p ++ [default [] (last p) ++ py ext]
  end.

(** [storage/filesystem.py:25-26 LocalFilesystemStorage._sidecar] *)
Definition sidecar (p : path) : path := add_suffix p ".content_type".

Definition is_file (fs : Fs) (p : path) : bool := bool_decide (is_Some (files fs !! p)).
Definition is_dir (fs : Fs) (p : path) : bool :=
  existsb (fun kv => bool_decide (p `prefix_of` kv.1) && (length p <? length kv.1)%nat)
    (map_to_list (files fs)).

(** [path.parent.mkdir(parents=True, exist_ok=True)] fails on a file in the way. *)
Definition parents_ok (fs : Fs) (p : path) : bool :=
  forallb (fun n => negb (is_file fs (take n p))) (seq 1 (length p - 1)).

Definition write_file (now : float) (p : path) (d : bytes) (fs : Fs) : Fs :=
  mkFs (<[p := mkFile d now]> (files fs)).
Definition unlink (p : path) (fs : Fs) : Fs := mkFs (delete p (files fs)).

(** [meta.write_text(content_type or ..., encoding="utf-8")] *)
Definition write_sidecar (now : float) (p : path) (content_type : pystr) : M exn Fs unit :=
  let text := if nonempty content_type then content_type else py "application/octet-stream" in
  match utf8 text with
  | Some d => modify_st (write_file now (sidecar p) d)
  | None => modify_st (write_file now (sidecar p) []) ;; raise (ValueError "surrogates not allowed")
  end.

(** [tmp.replace(path)] for a temporary file just written next to the target. *)
Definition publish (now : float) (p : path) (d : bytes) : M exn Fs unit :=
  fs ← get_st;
  let tmp := add_suffix p ".tmp" in
  if negb (nonempty p) then raise (OtherError "the storage root is a directory")
  else if negb (parents_ok fs p) then raise (OtherError "not a directory")
  else if is_dir fs tmp then raise (OtherError "is a directory")
  else if is_dir fs p then
    modify_st (write_file now tmp d) ;; raise (OtherError "is a directory")
  else modify_st (fun fs => write_file now p d (unlink tmp fs)).

(** [storage/filesystem.py:28-37 LocalFilesystemStorage.put] *)
Definition fs_put (now : float) (key : pystr) (data : bytes) (content_type : pystr)
    : M exn Fs pystr :=
  resolved key (fun p =>
    publish now p data ;;
    write_sidecar now p content_type ;;
    mret key).

(** [os.replace(src, dst)] of a file below the root, with its modification time. *)
Definition replace_file (src dst : path) : M exn Fs unit :=
  fs ← get_st;
  match files fs !! src with
  | None => raise FileNotFoundError
  | Some f => put_st (mkFs (<[dst := f]> (delete src (files fs))))
  end.

(** [storage/filesystem.py:39-60 LocalFilesystemStorage.put_from_path]: the
    source is a file below the root, which is moved only after the directories of
    the key are made and the temporary name is free. *)
Definition fs_put_from_path (now : float) (key : pystr) (source : path) (content_type : pystr)
    : M exn Fs pystr :=
  resolved key (fun p =>
    fs ← get_st;
    let tmp := add_suffix p ".tmp" in
    if negb (parents_ok fs p) then raise (OtherError "not a directory")
    else if negb (is_file fs source) then raise FileNotFoundError
    else if negb (nonempty p) then
      modify_st (unlink source) ;; raise (OtherError "the storage root is a directory")
    else if is_dir fs tmp then raise (OtherError "is a directory")
    else
      modify_st (unlink tmp) ;;
      replace_file source tmp ;;
      guard_or (negb (is_dir fs p)) (OtherError "is a directory") ;;
      replace_file tmp p ;;
      write_sidecar now p content_type ;;
      mret key).

(** [storage/filesystem.py:62-65 LocalFilesystemStorage.incoming_root] *)
Definition incoming_root : path := [py ".incoming"].

(** [storage/filesystem.py:68-72 LocalFilesystemStorage.get] *)
Definition fs_get (key : pystr) : M exn Fs bytes :=
  resolved key (fun p =>
    fs ← get_st;
    match files fs !! p with
    | Some f => mret (f_bytes f)
    | None => raise FileNotFoundError
    end).

(** [storage/filesystem.py:74-75 LocalFilesystemStorage.exists] *)
Definition fs_exists (key : pystr) : M exn Fs bool :=
  resolved key (fun p => gets_st (fun fs => is_file fs p)).

(** [storage/filesystem.py:77-96 LocalFilesystemStorage.delete]: directories that
    become empty cease to be prefixes. *)
Definition fs_delete (key : pystr) : M exn Fs bool :=
  resolved key (fun p =>
    fs ← get_st;
    let removed := is_file fs p || is_file fs (sidecar p) in
    modify_st (fun fs => unlink (sidecar p) (unlink p fs)) ;;
    mret removed).

Definition key_of_path (p : path) : pystr := join [slash] p.

Definition hidden_name (name : pystr) : bool :=
  endswith name (py ".content_type") || endswith name (py ".tmp").

(** [storage/filesystem.py:98-128 LocalFilesystemStorage.iter_keys] *)
Definition fs_iter_keys (prefix : pystr) : M exn Fs (list pystr) :=
  if startswith prefix (py "/") || bool_decide (dotdot ∈ components prefix)
  then raise (ValueError "Invalid prefix.")
  else
    let base := components prefix in
    gets_st (fun fs =>
      key_of_path <$> List.filter
        (fun p => bool_decide (base `prefix_of` p) && (length base <? length p)%nat
                  && negb (hidden_name (default [] (last p))))
        (map_to_list (files fs)).*1).

(** [storage/filesystem.py:130-134 LocalFilesystemStorage.mtime] *)
Definition fs_mtime (key : pystr) : M exn Fs (option float) :=
  resolved key (fun p => gets_st (fun fs => f_mtime <$> files fs !! p)).

(** * Orphan reconciliation *)

(** [application/artifacts.py:46-54 ReconcileReport] *)
Record ReconcileReport := mkReconcile {
  rr_scanned : Z;
  rr_referenced : Z;
  rr_orphan_candidates : Z;
  rr_deleted : list pystr;
  rr_missing_referenced : list pystr;
  rr_skipped_young : list pystr;
  rr_errors : list pystr;
}.
#[export] Instance ReconcileReport_eta : Eta ReconcileReport := fun r =>
  mkReconcile (rr_scanned r) (rr_referenced r) (rr_orphan_candidates r) (rr_deleted r)
    (rr_missing_referenced r) (rr_skipped_young r) (rr_errors r).

(** [str(exc)] *)
Definition exn_text (e : exn) : pystr :=
  match e with
  | DomainExn _ m | ValueError m | RuntimeError m | OtherError m => py m
  | _ => []
  end.

Definition error_text (what : string) (key : pystr) (e : exn) : pystr :=
  py what ++ py "(" ++ key ++ py "): " ++ exn_text e.

(** The loop over the referenced keys. *)
Definition check_referenced (key : pystr) (r : ReconcileReport) : M exn Fs ReconcileReport :=
  catch (b ← fs_exists key;
         mret (if b : bool then r
               else r <| rr_missing_referenced := rr_missing_referenced r ++ [key] |>))
    (fun e => mret (r <| rr_errors := rr_errors r ++ [error_text "exists" key e] |>)).

(** [(clock - mtime) < grace_seconds] *)
Definition young (clock grace mtime : float) : bool := flt (fsub clock mtime) grace.

(** The loop over the stored keys. *)
Definition sweep_key (refs : gset pystr) (clock grace : float) (do_delete : bool) (key : pystr)
    (r : ReconcileReport) : M exn Fs ReconcileReport :=
  let r := r <| rr_scanned := rr_scanned r + 1 |> in
  if bool_decide (key ∈ refs) then mret r else
  let r := r <| rr_orphan_candidates := rr_orphan_candidates r + 1 |> in
  mtime ← fs_mtime key;
  if match mtime with Some m => young clock grace m | None => false end
  then mret (r <| rr_skipped_young := rr_skipped_young r ++ [key] |>)
  else if negb do_delete then mret r
  else
    catch (b ← fs_delete key;
           mret (if b : bool then r <| rr_deleted := rr_deleted r ++ [key] |> else r))
      (fun e => mret (r <| rr_errors := rr_errors r ++ [error_text "delete" key e] |>)).

Fixpoint for_each {A R} (f : A -> R -> M exn Fs R) (l : list A) (r : R) : M exn Fs R :=
  match l with
  | [] => mret r
  | x :: l' => r' ← f x r; for_each f l' r'
  end.

(** [application/uploads.py:178-210 cleanup_incoming] *)
Definition cleanup_incoming (clock grace : float) : M exn Fs (list pystr) :=
  fs ← get_st;
  let staged := List.filter
    (fun kv => bool_decide (take 1 kv.1 = incoming_root) && (length kv.1 =? 2)%nat
               && negb (endswith (default [] (last kv.1)) (py ".meta"))
               && negb (young clock grace (f_mtime kv.2)))
    (map_to_list (files fs)) in
  modify_st (fun fs => foldl (fun fs kv => unlink (add_suffix kv.1 ".meta") (unlink kv.1 fs)) fs staged) ;;
  mret ((fun kv => default [] (last kv.1)) <$> staged).

(** [application/artifacts.py:78-132 reconcile_orphans], the storage being the
    file system, with the clock given. *)
Definition reconcile_orphans (referenced_keys : list (option pystr)) (prefix : pystr)
    (grace_seconds clock : float) (do_delete : bool) : M exn Fs ReconcileReport :=
  let refs : gset pystr := list_to_set (List.filter nonempty (omap id referenced_keys)) in
  let report := mkReconcile 0 (Z.of_nat (size refs)) 0 [] [] [] [] in
  report ← for_each check_referenced (elements refs) report;
  keys ← fs_iter_keys prefix;
  report ← for_each (sweep_key refs clock grace_seconds do_delete) keys report;
  if do_delete then
    names ← cleanup_incoming clock grace_seconds;
    mret (report <| rr_deleted := rr_deleted report ++ ((fun n => py ".incoming/" ++ n) <$> names) |>)
  else mret report.

(** [application/artifacts.py:135-136 is_sidecar_name] *)
Definition is_sidecar_name (name : pystr) : bool := endswith name (py ".content_type").

(** * Staged uploads *)

(** [application/uploads.py:25-33 IncomingUpload] *)
Record IncomingUpload := mkIncoming {
  iu_staging_path : path;
  iu_size : Z;
  iu_sha256 : pystr;
  iu_content_type : pystr;
  iu_finalized : bool;
}.
#[export] Instance IncomingUpload_eta : Eta IncomingUpload := fun u =>
  mkIncoming (iu_staging_path u) (iu_size u) (iu_sha256 u) (iu_content_type u) (iu_finalized u).

(** [application/uploads.py:39-40 IncomingUpload.mark_finalized] *)
Definition mark_finalized (u : IncomingUpload) : IncomingUpload := u <| iu_finalized := true |>.

(** [application/uploads.py:42-59 IncomingUpload.abort] *)
Definition abort (u : IncomingUpload) : M exn Fs unit :=
  if iu_finalized u then mret tt
  else modify_st (fun fs => unlink (add_suffix (iu_staging_path u) ".meta")
                              (unlink (iu_staging_path u) fs)).

(** The loop over the chunks: the bytes accepted, or the size error at the first
    chunk that goes over the limit. *)
Fixpoint accept_chunks (max_bytes size : Z) (acc : bytes) (chunks : list bytes)
    : result exn (Z * bytes) :=
  match chunks with
  | [] => Ok (size, acc)
  | c :: cs =>
      if negb (nonempty c) then accept_chunks max_bytes size acc cs
      else
        let size := size + zlen c in
        if max_bytes <? size
        then Raise (DomainExn ValidationFailed "Artifact exceeds the size limit.")
        else accept_chunks max_bytes size (acc ++ c) cs
  end.

Section Staging.
Context `{Sha256}.

(** [application/uploads.py:73-117 stream_to_incoming], given the fresh upload
    identifier.  A failed upload leaves no staging file. *)
Definition stream_to_incoming (now : float) (fresh : uuid) (chunks : list bytes) (max_bytes : Z)
    (content_type : pystr) (expected_sha256 : option pystr) : M exn Fs IncomingUpload :=
  let staging := incoming_root ++ [uuid_str fresh] in
  let body :=
    match accept_chunks max_bytes 0 [] chunks with
    | Raise e => raise e
    | Ok (size, data) =>
        modify_st (write_file now staging data) ;;
        let digest := sha256_hex data in
        let mismatch := match expected_sha256 with
                        | Some x => nonempty x && negb (bool_decide (lower x = digest))
                        | None => false
                        end in
        guard_or (negb mismatch) (DomainExn ValidationFailed "Artifact checksum mismatch.") ;;
        mret (mkIncoming staging size digest
                (if nonempty content_type then content_type else py "application/octet-stream")
                false)
    end in
  catch body (fun e => modify_st (unlink staging) ;; raise e).

(** [application/uploads.py:120-126 iter_upload_file]: reads until the first empty
    block. *)
Fixpoint iter_upload_file (blocks : list bytes) : list bytes :=
  match blocks with
  | [] => []
  | b :: bs => if nonempty b then b :: iter_upload_file bs else []
  end.

(** [application/uploads.py:129-170 sync_stream_to_incoming] *)
Definition sync_stream_to_incoming (now : float) (fresh : uuid) (blocks : list bytes)
    (max_bytes : Z) (content_type : pystr) (expected_sha256 : option pystr)
    : M exn Fs IncomingUpload :=
  stream_to_incoming now fresh (iter_upload_file blocks) max_bytes content_type expected_sha256.
End Staging.

(** * The file system implements the protocol *)

Lemma last_add_suffix p ext : p <> [] -> last (add_suffix p ext) = Some (default [] (last p) ++ py ext).
Proof. intros Hp. destruct p; [done|]. unfold add_suffix. by rewrite last_snoc. Qed.

Lemma add_suffix_ne p ext : p <> [] -> py ext <> [] -> add_suffix p ext <> p.
Proof.
  intros Hp He Heq. pose proof (last_add_suffix p ext Hp) as Hl. rewrite Heq in Hl.
  destruct (last p) as [n|]; cbn in Hl; [|done]. injection Hl as Hl.
  rewrite <-(app_nil_r n) in Hl at 1. apply app_inv_head in Hl. by symmetry in Hl.
Qed.

Definition fs_blob (fs : Fs) (key : pystr) : option bytes :=
  match resolve key with
  | Ok p => f_bytes <$> files fs !! p
  | Raise _ => None
  end.

Definition fs_apart (k k2 : pystr) : Prop :=
  match resolve k, resolve k2 with
  | Ok p, Ok p2 => p2 <> p /\ p2 <> sidecar p /\ p2 <> add_suffix p ".tmp"
  | _, _ => True
  end.

#[export] Instance LocalFilesystemStorage : ArtifactStorage Fs := {|
  put := fs_put; get := fs_get; exists_ := fs_exists; delete_blob := fs_delete;
  blob := fs_blob; apart := fs_apart;
|}.

(** The paths an operation on [p] may write. *)
Definition touches (p : path) (fs fs' : Fs) : Prop :=
  forall q, q <> p -> q <> sidecar p -> q <> add_suffix p ".tmp" -> files fs' !! q = files fs !! q.

Lemma publish_run now p d fs r fs' :
  publish now p d fs = (r, fs') ->
  touches p fs fs' /\ (is_ok r = true -> p <> [] /\ files fs' !! p = Some (mkFile d now)).
Proof.
  unfold publish. rewrite run_bind. cbn. destruct p as [|c p0] eqn:Hp; cbn [nonempty negb].
  { intros [= <- <-]. by split. }
  rewrite <-Hp. assert (p <> []) as Hne by congruence.
  repeat case_match; intros [= <- <-]; (split; [intros q Hq Hs Ht; cbn|try done]).
  - done.
  - done.
  - by rewrite lookup_insert_ne.
  - by rewrite lookup_insert_ne, lookup_delete_ne.
  - intros _. split; [done|]. cbn. apply lookup_insert_eq.
Qed.

Lemma write_sidecar_run now p ct fs r fs' :
  write_sidecar now p ct fs = (r, fs') -> forall q, q <> sidecar p -> files fs' !! q = files fs !! q.
Proof.
  unfold write_sidecar. destruct (utf8 _); intros [= <- <-] q Hq; cbn; by rewrite lookup_insert_ne.
Qed.

Lemma fs_put_run now key d ct fs r fs' p :
  resolve key = Ok p -> fs_put now key d ct fs = (r, fs') ->
  touches p fs fs'
  /\ (is_ok r = true -> r = Ok key /\ files fs' !! p = Some (mkFile d now)).
Proof.
  intros Hp. unfold fs_put, resolved. rewrite Hp, run_bind.
  destruct (publish now p d fs) as [[u|e] fs1] eqn:E1; apply publish_run in E1 as [Ht Hok].
  2: { intros [= <- <-]. by split. }
  destruct (Hok eq_refl) as [Hne Hd]. rewrite run_bind.
  destruct (write_sidecar now p ct fs1) as [[u2|e] fs2] eqn:E2;
    pose proof (write_sidecar_run _ _ _ _ _ _ E2) as Hs; intros [= <- <-].
  - split; [intros q H1 H2 H3; rewrite Hs by done; by apply Ht|].
    intros _. split; [done|]. rewrite Hs; [done|]. intros Heq. symmetry in Heq.
    by apply add_suffix_ne in Heq.
  - split; [|done]. intros q H1 H2 H3. rewrite Hs by done. by apply Ht.
Qed.

(** A staged file that has become the blob of a key. *)
Definition moved (source p : path) (f : File) (fs : Fs) : Fs :=
  mkFs (<[p := f]> (delete (add_suffix p ".tmp") (delete source (files fs)))).

Lemma moved_other source p f fs q :
  q <> source -> q <> p -> q <> add_suffix p ".tmp" -> files (moved source p f fs) !! q = files fs !! q.
Proof. intros. cbn. by rewrite lookup_insert_ne, !lookup_delete_ne. Qed.

Lemma moved_source source p f fs : source <> p -> files (moved source p f fs) !! source = None.
Proof. intros. cbn. rewrite lookup_insert_ne, lookup_delete_None by done. right. apply lookup_delete_eq. Qed.

Lemma replace_file_run src dst f fs :
  files fs !! src = Some f -> replace_file src dst fs = (Ok tt, mkFs (<[dst := f]> (delete src (files fs)))).
Proof. intros Hf. unfold replace_file, get_st. rewrite run_bind, Hf. done. Qed.

(** Moving a file: where each failure stops, and what a move leaves. *)
Lemma fs_put_from_path_run now key source ct fs p f :
  resolve key = Ok p -> p <> [] -> source <> add_suffix p ".tmp" -> files fs !! source = Some f ->
  let tmp := add_suffix p ".tmp" in
  fs_put_from_path now key source ct fs =
  if negb (parents_ok fs p) then (Raise (OtherError "not a directory"), fs)
  else if is_dir fs tmp then (Raise (OtherError "is a directory"), fs)
  else if is_dir fs p
  then (Raise (OtherError "is a directory"), mkFs (<[tmp := f]> (delete source (delete tmp (files fs)))))
  else match write_sidecar now p ct (moved source p f fs) with
       | (Ok _, fs') => (Ok key, fs')
       | (Raise e, fs') => (Raise e, fs')
       end.
Proof.
  intros Hp Hne Hsrc Hf tmp. unfold fs_put_from_path, resolved. rewrite Hp. unfold get_st at 1. rewrite run_bind.
  destruct (negb (parents_ok fs p)); [done|].
  assert (is_file fs source = true) as -> by (apply bool_decide_eq_true_2; by exists f).
  assert (nonempty p = true) as -> by (by destruct p). cbn [negb]. fold tmp.
  destruct (is_dir fs tmp); [done|]. unfold modify_st at 1. rewrite run_bind.
  rewrite run_bind, (replace_file_run _ _ f) by (cbn; by rewrite lookup_delete_ne).
  rewrite run_bind. destruct (is_dir fs p); cbn [negb guard_or]; [done|]. unfold mret at 1, M_ret at 1.
  cbv beta iota. rewrite run_bind, (replace_file_run _ _ f) by apply lookup_insert_eq. rewrite run_bind.
  cbn [files unlink].
  assert (mkFs (<[p := f]> (delete tmp (<[tmp := f]> (delete source (delete tmp (files fs)))))) = moved source p f fs)
    as ->.
  { unfold moved. fold tmp. f_equal. f_equal. rewrite delete_insert_eq, (delete_delete _ source tmp).
    by rewrite delete_delete_eq. }
  by destruct (write_sidecar now p ct (moved source p f fs)) as [[[]|e] fs'].
Qed.

Lemma fs_delete_run key fs r fs' p :
  resolve key = Ok p -> fs_delete key fs = (r, fs') ->
  r = Ok (is_file fs p || is_file fs (sidecar p))
  /\ files fs' = delete (sidecar p) (delete p (files fs)).
Proof. intros Hp. unfold fs_delete, resolved. rewrite Hp. cbn. by intros [= <- <-]. Qed.

Lemma touches_blob key k2 p fs fs' :
  resolve key = Ok p -> touches p fs fs' -> fs_apart key k2 -> fs_blob fs' k2 = fs_blob fs k2.
Proof.
  intros Hp Ht. unfold fs_apart, fs_blob. rewrite Hp.
  destruct (resolve k2) as [p2|]; [|done]. intros (H1 & H2 & H3). by rewrite Ht.
Qed.

#[export] Instance LocalFilesystemStorage_laws : ArtifactStorageLaws Fs.
Proof.
  split; cbn.
  - intros now k d c s k' s' E. destruct (resolve k) as [p|e] eqn:Hp.
    + destruct (fs_put_run _ _ _ _ _ _ _ p Hp E) as [_ Hok].
      destruct (Hok eq_refl) as [[= ->] Hd]. split; [done|]. unfold fs_blob. by rewrite Hp, Hd.
    + unfold fs_put, resolved in E. by rewrite Hp in E.
  - intros now k d c s r s' k2 E Ha. destruct (resolve k) as [p|e] eqn:Hp.
    + destruct (fs_put_run _ _ _ _ _ _ _ p Hp E) as [Ht _]. by eapply touches_blob.
    + unfold fs_put, resolved in E. rewrite Hp in E. by injection E as <- <-.
  - intros k s b s' E. unfold fs_blob. destruct (resolve k) as [p|e] eqn:Hp; [|done].
    destruct (fs_delete_run _ _ _ _ p Hp E) as [_ ->].
    destruct (decide (sidecar p = p)) as [->|Hne]; [by rewrite lookup_delete_eq|].
    by rewrite lookup_delete_ne, lookup_delete_eq.
  - intros k s r s' k2 E Ha. destruct (resolve k) as [p|e] eqn:Hp.
    + destruct (fs_delete_run _ _ _ _ p Hp E) as [_ Hf]. eapply touches_blob; [done| |done].
      intros q H1 H2 _. by rewrite Hf, !lookup_delete_ne.
    + unfold fs_delete, resolved in E. rewrite Hp in E. by injection E as <- <-.
  - intros k s b s' E. unfold fs_exists, resolved, fs_blob in *.
    destruct (resolve k) as [p|e]; [|done]. injection E as <- <-. split; [done|].
    unfold is_file. rewrite bool_decide_eq_true. by rewrite fmap_is_Some.
  - intros k s d s' E. unfold fs_get, resolved, fs_blob in *.
    destruct (resolve k) as [p|e]; [|done]. rewrite run_bind in E. cbn in E.
    destruct (files s !! p) as [f|]; [|done]. injection E as <- <-. done.
Qed.
