(* ===== verification/StorageSpec.v ===== *)
(** The properties of artifact storage: keys stay below the root, stored bytes
    are read back, reconciliation keeps what is referenced and reclaims what is
    not, staged uploads are complete or absent. *)
From Stdlib Require Import ZArith Lia String.
From stdpp Require Import prelude strings gmap.
From S2P Require Import Prelude PyFloat PyStr Domain Json Storage.

(** A component that a path below the root can have. *)
Definition good_component (c : pystr) : Prop := c <> [] /\ (slash ∉ c) /\ c <> dot /\ c <> dotdot.
Definition good_path (p : path) : Prop := p <> [] /\ Forall good_component p.
Definition fs_wf (fs : Fs) : Prop := forall p f, files fs !! p = Some f -> good_path p.

(** [as_posix] of a normalised relative path. *)
Definition canonical (key : pystr) : Prop := key_of_path (components key) = key /\ components key <> [].

Lemma elem_of_components c key :
  c ∈ components key <-> c ∈ split_on slash key /\ c <> [] /\ c <> dot.
Proof.
  unfold components. rewrite elem_of_filterb, andb_true_iff, negb_true_iff, bool_decide_eq_false.
  by rewrite nonempty_true.
Qed.

Lemma components_of_path p : Forall good_component p -> p <> [] -> components (key_of_path p) = p.
Proof.
  intros Hp Hne. unfold components, key_of_path. rewrite split_on_join; [|done|].
  - clear Hne. induction Hp as [|c p (H1 & _ & H3 & _) Hp IH]; [done|]. cbn.
    rewrite (proj2 (nonempty_true c) H1), (bool_decide_eq_false_2 _ H3). cbn. f_equal. exact IH.
  - eapply Forall_impl; [exact Hp|]. by intros c (_ & ? & _).
Qed.

Lemma key_of_path_cons c p : exists t, key_of_path (c :: p) = c ++ t.
Proof. destruct p; cbn; [exists []; by rewrite app_nil_r|eexists; done]. Qed.

Lemma resolve_key_of_path p : good_path p -> resolve (key_of_path p) = Ok p.
Proof.
  intros [Hne Hp]. unfold resolve. rewrite components_of_path by done.
  destruct p as [|c p]; [done|]. destruct (key_of_path_cons c p) as [t ->].
  inversion Hp as [|? ? (H1 & H2 & _) Hp']; subst. destruct c as [|x c]; [done|].
  assert (startswith ((x :: c) ++ t) (py "/") = false) as ->.
  { change (startswith ((x :: c) ++ t) (py "/")) with ((47 =? x) && startswith (c ++ t) []).
    destruct (Z.eqb_spec 47 x) as [<-|]; [|done]. destruct H2. left. }
  rewrite bool_decide_eq_false_2; [done|]. intros Hin.
  rewrite Forall_forall in Hp. by destruct (Hp _ Hin) as (_ & _ & _ & ?).
Qed.

(** Keys cannot escape the storage root: the path a key resolves to has only
    proper names as components, never a parent reference, an absolute prefix or
    an empty one; every other key is refused before the file system is touched. *)
Theorem resolved_keys_stay_below_root (key : pystr) :
  match resolve key with
  | Ok p => Forall good_component p /\ p = components key
  | Raise e => e = ValueError "Invalid artifact key."
  end.
Proof.
  unfold resolve. destruct (_ || bool_decide _) eqn:E; [done|]. split; [|done].
  apply Forall_forall. intros c Hc. pose proof Hc as (Hs & H1 & H2)%elem_of_components.
  split_and!; [done|by eapply split_on_no_sep|done|]. intros ->.
  apply orb_false_iff in E as [_ E]. by rewrite bool_decide_eq_false in E.
Qed.

(** C27 What is stored is read back: a [put] that returns stores exactly the bytes
    given under the key it returns, and leaves every key whose path is neither
    that of the key nor of its sidecar or temporary file as it was. *)
Theorem put_get_roundtrip now key data ct (fs fs' : Fs) key' :
  fs_put now key data ct fs = (Ok key', fs') ->
  key' = key /\ fs_get key fs' = (Ok data, fs')
  /\ forall k2, fs_apart key k2 -> fst (fs_get k2 fs') = fst (fs_get k2 fs).
Proof.
  intros E. destruct (@put_stores Fs LocalFilesystemStorage _ now key data ct fs key' fs' E) as [-> Hb]. split; [done|].
  assert (forall k s, fst (fs_get k s) = match resolve k with
            | Ok _ => match fs_blob s k with Some d => Ok d | None => Raise FileNotFoundError end
            | Raise e => Raise e end
          /\ snd (fs_get k s) = s) as Hget.
  { intros k s. unfold fs_get, resolved, fs_blob. destruct (resolve k) as [p|]; [|done].
    rewrite run_bind; cbn. by destruct (files s !! p). }
  split.
  - rewrite (surjective_pairing (fs_get key fs')). destruct (Hget key fs') as [-> ->].
    cbn in Hb. rewrite Hb. unfold fs_blob in Hb. by destruct (resolve key).
  - intros k2 Ha. rewrite !(proj1 (Hget _ _)).
    pose proof (@put_frame Fs LocalFilesystemStorage _ now key data ct fs _ fs' k2 E Ha) as Hk2. cbn in Hk2. by rewrite Hk2.
Qed.

(** * Reconciliation *)

Lemma hidden_sidecar p : p <> [] -> hidden_name (default [] (last (sidecar p))) = true.
Proof.
  intros Hp. unfold sidecar. rewrite last_add_suffix by done. cbn [default from_option id].
  unfold hidden_name, endswith. rewrite reverse_app, startswith_app. done.
Qed.

Lemma for_each_inv {A R} (I : Fs -> R -> Prop) (f : A -> R -> M exn Fs R) l r fs :
  (forall x r fs, x ∈ l -> I fs r -> exists r' fs', f x r fs = (Ok r', fs') /\ I fs' r') ->
  I fs r -> exists r' fs', for_each f l r fs = (Ok r', fs') /\ I fs' r'.
Proof.
  revert r fs. induction l as [|x l IH]; intros r fs Hf HI; [by exists r, fs|].
  destruct (Hf x r fs) as (r1 & fs1 & E1 & HI1); [left|done|].
  destruct (IH r1 fs1) as (r2 & fs2 & E2 & HI2); [|done|].
  { intros y r' fs' Hy. apply Hf. by right. }
  exists r2, fs2. split; [|done]. cbn [for_each]. by rewrite run_bind, E1.
Qed.

Lemma check_referenced_run key r fs :
  exists r', check_referenced key r fs = (Ok r', fs).
Proof.
  unfold check_referenced, catch, fs_exists, resolved. destruct (resolve key) as [p|e]; cbn; eauto.
Qed.

Lemma sweep_key_run refs clock grace del p r fs :
  good_path p ->
  exists r', sweep_key refs clock grace del (key_of_path p) r fs
  = (Ok r', if bool_decide (key_of_path p ∈ refs)
               || match files fs !! p with Some f => young clock grace (f_mtime f) | None => false end
               || negb del
            then fs else mkFs (delete (sidecar p) (delete p (files fs)))).
Proof.
  intros Hp. unfold sweep_key. destruct (bool_decide _); [eauto|]. cbn [orb].
  rewrite run_bind. unfold fs_mtime, resolved. rewrite (resolve_key_of_path p Hp). unfold gets_st.
  destruct (files fs !! p) as [f|] eqn:Hf; cbn [fmap option_fmap option_map].
  - destruct (young _ _ _); [eauto|]. cbn [orb]. destruct del; [|eauto]. cbn [negb].
    unfold catch. rewrite run_bind.
    destruct (fs_delete (key_of_path p) fs) as [r1 fs1] eqn:E.
    destruct (fs_delete_run _ _ _ _ p (resolve_key_of_path p Hp) E) as [-> Hfs].
    destruct fs1 as [t]; cbn in Hfs; subst. eauto.
  - cbn [orb]. destruct del; [|eauto]. cbn [negb]. unfold catch. rewrite run_bind.
    destruct (fs_delete (key_of_path p) fs) as [r1 fs1] eqn:E.
    destruct (fs_delete_run _ _ _ _ p (resolve_key_of_path p Hp) E) as [-> Hfs].
    destruct fs1 as [t]; cbn in Hfs; subst. eauto.
Qed.

(** Deleting a listed key is deleting its path and its sidecar. *)
Definition drop_path (fs : Fs) (p : path) : Fs := mkFs (delete (sidecar p) (delete p (files fs))).

Definition listed (prefix : pystr) (fs : Fs) : list path :=
  List.filter (fun p => bool_decide (components prefix `prefix_of` p)
                        && (length (components prefix) <? length p)%nat
                        && negb (hidden_name (default [] (last p))))
    (map_to_list (files fs)).*1.

Lemma elem_of_listed prefix fs p :
  p ∈ listed prefix fs <->
  is_Some (files fs !! p) /\ components prefix `prefix_of` p
  /\ (length (components prefix) < length p)%nat /\ hidden_name (default [] (last p)) = false.
Proof.
  unfold listed. rewrite elem_of_filterb, !andb_true_iff, negb_true_iff, bool_decide_eq_true, Nat.ltb_lt.
  rewrite list_elem_of_fmap. split.
  - intros [([q f] & -> & Hq%elem_of_map_to_list) ((? & ?) & ?)]. cbn. split; [by exists f|done].
  - intros ([f Hf] & ? & ? & ?). split; [|done]. exists (p, f). split; [done|].
    by apply elem_of_map_to_list.
Qed.

Section Reconcile.
Context (referenced : list (option pystr)) (prefix : pystr) (grace clock : float) (del : bool).
Let refs : gset pystr := list_to_set (List.filter nonempty (omap id referenced)).

Lemma elem_of_refs k : k <> [] -> Some k ∈ referenced -> k ∈ refs.
Proof.
  intros Hk Hin. apply elem_of_list_to_set, elem_of_filterb. split; [|by apply nonempty_true].
  apply list_elem_of_omap. by exists (Some k).
Qed.

(** The sweep as a fold over the paths listed at its start. *)
Definition swept (fs : Fs) : Fs :=
  foldl (fun fs p => if bool_decide (key_of_path p ∈ refs)
                        || match files fs !! p with
                           | Some f => young clock grace (f_mtime f)
                           | None => false
                           end || negb del
                     then fs else drop_path fs p) fs (listed prefix fs).

Lemma sweep_fold l r fs :
  Forall good_path l ->
  exists r', for_each (sweep_key refs clock grace del) (key_of_path <$> l) r fs
  = (Ok r', foldl (fun fs p => if bool_decide (key_of_path p ∈ refs)
                        || match files fs !! p with
                           | Some f => young clock grace (f_mtime f)
                           | None => false
                           end || negb del
                     then fs else drop_path fs p) fs l).
Proof.
  revert r fs. induction l as [|p l IH]; intros r fs Hl; [by exists r|].
  apply Forall_cons in Hl as [Hp Hl]. cbn [fmap list_fmap for_each foldl]. rewrite run_bind.
  destruct (sweep_key_run refs clock grace del p r fs Hp) as [r1 ->]. by apply IH.
Qed.

(** Reconciliation always returns a report; it sweeps the listed keys and then,
    when deleting, the abandoned staging files. *)
Lemma reconcile_run fs :
  fs_wf fs -> startswith prefix (py "/") = false -> dotdot ∉ components prefix ->
  exists report, reconcile_orphans referenced prefix grace clock del fs
  = (Ok report, if del then snd (cleanup_incoming clock grace (swept fs)) else swept fs).
Proof.
  intros Hwf Hpre Hdd. unfold reconcile_orphans. fold refs. rewrite run_bind.
  assert (exists r, for_each check_referenced (elements refs)
      (mkReconcile 0 (Z.of_nat (size refs)) 0 [] [] [] []) fs = (Ok r, fs)) as [r0 ->].
  { edestruct (for_each_inv (fun fs' _ => fs' = fs) check_referenced (elements refs))
      as (r' & fs' & E & ->); [|done|by exists r'].
    intros x r fs' _ ->. destruct (check_referenced_run x r fs) as [r' ->]. eauto. }
  rewrite run_bind. unfold fs_iter_keys. rewrite Hpre, (bool_decide_eq_false_2 _ Hdd). cbn [orb].
  unfold gets_st. fold (listed prefix fs). rewrite run_bind.
  destruct (sweep_fold (listed prefix fs) r0 fs) as [r1 ->].
  { apply Forall_forall. intros p ([f Hf] & _)%elem_of_listed. by eapply Hwf. }
  fold (swept fs). destruct del; [|eauto]. rewrite run_bind.
  unfold cleanup_incoming. rewrite run_bind. cbn. eauto.
Qed.

(** A path survives a fold that drops only other paths. *)
Lemma fold_drop_keeps (g : Fs -> path -> bool) l fs q :
  (forall p fs, p ∈ l -> g fs p = false -> q <> p /\ q <> sidecar p) ->
  files (foldl (fun fs p => if g fs p then fs else drop_path fs p) fs l) !! q = files fs !! q.
Proof.
  revert fs. induction l as [|p l IH]; intros fs Hg; [done|]. cbn. rewrite IH.
  - destruct (g fs p) eqn:E; [done|]. destruct (Hg p fs) as [H1 H2]; [left|done|].
    cbn. by rewrite !lookup_delete_ne.
  - intros p' fs' Hp'. apply Hg. by right.
Qed.

(** A path the fold visits without a reason to keep it is dropped. *)
Lemma fold_drop_none (g : Fs -> path -> bool) l fs q :
  files fs !! q = None ->
  files (foldl (fun fs p => if g fs p then fs else drop_path fs p) fs l) !! q = None.
Proof.
  revert fs. induction l as [|p l IH]; intros fs Hq; [done|]. cbn. apply IH.
  destruct (g fs p); [done|]. cbn. rewrite !lookup_delete_None. auto.
Qed.

Lemma fold_drop_removes (g : Fs -> path -> bool) l fs q :
  q ∈ l -> (forall fs', files fs' !! q = files fs !! q \/ files fs' !! q = None -> g fs' q = false) ->
  files (foldl (fun fs p => if g fs p then fs else drop_path fs p) fs l) !! q = None.
Proof.
  intros Hq Hg.
  assert (forall fs', files fs' !! q = files fs !! q \/ files fs' !! q = None ->
    files (foldl (fun fs p => if g fs p then fs else drop_path fs p) fs' l) !! q = None) as H.
  2: { apply H. by left. }
  induction l as [|p l IH]; intros fs' Hfs'; [by apply elem_of_nil in Hq|]. cbn.
  apply elem_of_cons in Hq as [<-|Hq].
  - rewrite (Hg fs' Hfs'). apply fold_drop_none. cbn.
    rewrite lookup_delete_None. right. apply lookup_delete_eq.
  - apply IH; [done|]. destruct (g fs' p); [done|]. cbn.
    destruct (decide (q = sidecar p)) as [->|H1]; [right; apply lookup_delete_eq|].
    rewrite lookup_delete_ne by done.
    destruct (decide (q = p)) as [->|H2]; [right; apply lookup_delete_eq|].
    by rewrite lookup_delete_ne.
Qed.

Lemma elem_of_refs_inv k : k ∈ refs -> exists k', k' = k /\ Some k' ∈ referenced.
Proof.
  intros [Hk _]%elem_of_list_to_set%elem_of_filterb.
  apply list_elem_of_omap in Hk as (o & Ho & Heq). cbn in Heq. exists k. split; [done|].
  unfold id in Heq. by rewrite <-Heq.
Qed.

Lemma cleanup_none fs q :
  files fs !! q = None -> files (snd (cleanup_incoming clock grace fs)) !! q = None.
Proof.
  intros Hq. unfold cleanup_incoming. rewrite run_bind. cbn. set (staged := List.filter _ _).
  change (files (foldl (fun fs kv => unlink (add_suffix kv.1 ".meta") (unlink kv.1 fs)) fs staged) !! q
          = None).
  clearbody staged. revert fs Hq. induction staged as [|kv l IH]; intros fs Hq; [done|]. cbn.
  apply IH. cbn. rewrite !lookup_delete_None. auto.
Qed.

Lemma cleanup_keeps fs q :
  take 1 q <> incoming_root ->
  files (snd (cleanup_incoming clock grace fs)) !! q = files fs !! q.
Proof.
  intros Hq. unfold cleanup_incoming. rewrite run_bind. cbn.
  set (staged := List.filter _ _).
  assert (forall kv, kv ∈ staged -> exists c, kv.1 = incoming_root ++ [c]) as Hst.
  { intros [p f] [_ Hkv]%elem_of_filterb. cbn [fst snd] in Hkv.
    rewrite !andb_true_iff, bool_decide_eq_true, Nat.eqb_eq in Hkv. destruct Hkv as (((H1 & H2) & _) & _).
    destruct p as [|c [|c2 [|? ?]]]; try done.
    exists c2. by rewrite <-H1. }
  change (files (foldl (fun fs kv => unlink (add_suffix kv.1 ".meta") (unlink kv.1 fs)) fs staged) !! q
          = files fs !! q).
  clearbody staged. revert fs. induction staged as [|kv l IH]; intros fs; [done|]. cbn [foldl].
  destruct (Hst kv) as [c Hc]; [left|]. destruct kv as [p f]. cbn [fst] in Hc |- *. subst p.
  rewrite IH by (intros kv' Hkv'; apply Hst; by right). cbn.
  rewrite !lookup_delete_ne; [done| |]; intros <-; by apply Hq.
Qed.
End Reconcile.

(** C28 Reconciliation keeps what is referenced: whatever the clock, the grace
    period and the prefix, a blob whose key a durable row references, in the
    normal form the store lists it under, is still there afterwards with its
    bytes, sidecar and staging names apart. *)
Theorem reconcile_keeps_referenced (referenced : list (option pystr)) prefix grace clock del
    (fs fs' : Fs) r key :
  fs_wf fs -> canonical key -> Some key ∈ referenced ->
  hidden_name (default [] (last (components key))) = false ->
  take 1 (components key) <> incoming_root ->
  reconcile_orphans referenced prefix grace clock del fs = (r, fs') ->
  files fs' !! components key = files fs !! components key.
Proof.
  intros Hwf [Hcan Hne] Hin Hvis Hinc Hrun.
  assert (key <> []) as Hk by (intros ->; by apply Hne).
  destruct (decide (startswith prefix (py "/") = false /\ dotdot ∉ components prefix)) as [[H1 H2]|Hbad].
  2: { unfold reconcile_orphans in Hrun. rewrite run_bind in Hrun.
       edestruct (for_each_inv (fun fs' _ => fs' = fs) check_referenced) as (r' & fs1 & E & ->);
         [|done|rewrite E in Hrun].
       { intros x r' fs1 _ ->. destruct (check_referenced_run x r' fs) as [r1 ->]. eauto. }
       rewrite run_bind in Hrun. unfold fs_iter_keys in Hrun.
       destruct (startswith prefix (py "/")); [by injection Hrun as <- <-|].
       rewrite bool_decide_eq_true_2 in Hrun by (destruct (decide (dotdot ∈ components prefix)); tauto).
       by injection Hrun as <- <-. }
  destruct (reconcile_run referenced prefix grace clock del fs Hwf H1 H2) as [report E].
  rewrite E in Hrun. injection Hrun as <- <-.
  assert (files (swept referenced prefix grace clock del fs) !! components key
          = files fs !! components key) as Hs.
  { unfold swept. apply (fold_drop_keeps (fun fs p => _ || _ || _)). intros p fs' Hp Hg.
    apply elem_of_listed in Hp as ([f Hf] & _ & _ & Hhid).
    apply orb_false_iff in Hg as [Hg _]. apply orb_false_iff in Hg as [Hg _].
    apply bool_decide_eq_false in Hg. split.
    - intros <-. rewrite Hcan in Hg. apply Hg. by apply elem_of_refs.
    - intros Heq. rewrite Heq, hidden_sidecar in Hvis; [done|].
      destruct (Hwf _ _ Hf) as [? _]. done. }
  destruct del; [|done]. cbv iota.
  etrans; [exact (cleanup_keeps grace clock _ _ Hinc)|exact Hs].
Qed.

(** Reconciliation reclaims what is not referenced: when deleting, it returns
    a report, and a blob below the prefix that no row references and that is
    older than the grace period at the given clock is gone afterwards. *)
Theorem reconcile_reclaims_orphans (referenced : list (option pystr)) prefix grace clock
    (fs : Fs) (p : path) (f : File) :
  fs_wf fs -> startswith prefix (py "/") = false -> dotdot ∉ components prefix ->
  files fs !! p = Some f -> components prefix `prefix_of` p ->
  (length (components prefix) < length p)%nat -> hidden_name (default [] (last p)) = false ->
  Some (key_of_path p) ∉ referenced -> young clock grace (f_mtime f) = false ->
  exists report fs', reconcile_orphans referenced prefix grace clock true fs = (Ok report, fs')
  /\ files fs' !! p = None.
Proof.
  intros Hwf H1 H2 Hf Hpre Hlen Hvis Hno Hold.
  destruct (reconcile_run referenced prefix grace clock true fs Hwf H1 H2) as [report E].
  rewrite E. eexists _, _. split; [done|].
  assert (files (swept referenced prefix grace clock true fs) !! p = None) as Hs.
  { unfold swept. apply fold_drop_removes; [by apply elem_of_listed|].
    intros fs'. rewrite (bool_decide_eq_false_2 (key_of_path p ∈ _)).
    - cbn [orb negb]. rewrite orb_false_r. intros [Hp|Hp]; [by rewrite Hp, Hf|by rewrite Hp].
    - intros (k & Hk & Hin)%elem_of_refs_inv. congruence. }
  cbv iota. by apply cleanup_none.
Qed.

(** * Staged uploads *)

Lemma accept_chunks_spec max_bytes size acc chunks :
  size = zlen acc ->
  match accept_chunks max_bytes size acc chunks with
  | Ok (n, d) => d = acc ++ mjoin chunks /\ n = zlen d
  | Raise e => e = DomainExn ValidationFailed "Artifact exceeds the size limit."
               /\ max_bytes < zlen (acc ++ mjoin chunks)
  end.
Proof.
  revert size acc. induction chunks as [|c cs IH]; intros size acc Hs.
  { cbn. by rewrite app_nil_r. }
  cbn [accept_chunks]. destruct c as [|b c].
  { cbn [nonempty negb]. by apply IH. }
  cbn [nonempty negb]. destruct (Z.ltb_spec max_bytes (size + zlen (b :: c))) as [Hlt|Hle].
  - split; [done|]. change (mjoin ((b :: c) :: cs)) with ((b :: c) ++ mjoin cs).
    rewrite !zlen_app. pose proof (zlen_nonneg (mjoin cs : bytes)). lia.
  - specialize (IH (size + zlen (b :: c)) (acc ++ b :: c)).
    rewrite <-app_assoc in IH. apply IH. rewrite zlen_app. lia.
Qed.

Lemma accept_chunks_max max_bytes size acc chunks n d :
  size <= max_bytes -> accept_chunks max_bytes size acc chunks = Ok (n, d) -> n <= max_bytes.
Proof.
  revert size acc. induction chunks as [|c cs IH]; intros size acc Hs; cbn [accept_chunks].
  - by intros [= <- <-].
  - destruct (nonempty c); cbn [negb]; [|by apply IH].
    destruct (Z.ltb_spec max_bytes (size + zlen c)); [done|]. by apply IH.
Qed.

(** A staged upload is complete or absent: when streaming returns, the staging
    file holds exactly the bytes of all chunks, its size is theirs and within
    the limit, and its digest matches the expected one when one was given; when
    it raises, for size or checksum, no staging file is left; no other file
    changes. *)
Theorem stream_to_incoming_complete `{Sha256} now fresh chunks max_bytes ct expected (fs fs' : Fs) r :
  0 <= max_bytes ->
  stream_to_incoming now fresh chunks max_bytes ct expected fs = (r, fs') ->
  let staging := incoming_root ++ [uuid_str fresh] in
  (forall p, p <> staging -> files fs' !! p = files fs !! p)
  /\ match r with
     | Ok u => iu_staging_path u = staging /\ iu_finalized u = false
               /\ files fs' !! staging = Some (mkFile (mjoin chunks) now)
               /\ iu_size u = zlen (mjoin chunks : bytes) /\ iu_size u <= max_bytes
               /\ iu_sha256 u = sha256_hex (mjoin chunks)
               /\ forall x, expected = Some x -> x <> [] -> lower x = iu_sha256 u
     | Raise e => files fs' !! staging = None
                  /\ (e = DomainExn ValidationFailed "Artifact exceeds the size limit."
                      \/ e = DomainExn ValidationFailed "Artifact checksum mismatch.")
     end.
Proof.
  intros Hmax. unfold stream_to_incoming, catch. cbv zeta.
  set (staging := incoming_root ++ [uuid_str fresh]).
  pose proof (accept_chunks_spec max_bytes 0 [] chunks eq_refl) as Hspec.
  destruct (accept_chunks max_bytes 0 [] chunks) as [[n d]|e] eqn:Hacc; cycle 1.
  { intros [= <- <-]. cbn. split; [intros p Hp; by rewrite lookup_delete_ne|].
    split; [apply lookup_delete_eq|left; apply Hspec]. }
  apply accept_chunks_max in Hacc; [|done]. destruct Hspec as [-> ->]. cbn [app] in *.
  rewrite run_bind. unfold modify_st at 1.
  set (bad := match expected with Some x => _ | None => _ end).
  destruct bad eqn:Hbad; intros [= <- <-]; cbn.
  - split; [intros p Hp; by rewrite lookup_delete_ne, lookup_insert_ne|].
    split; [apply lookup_delete_eq|by right].
  - split; [intros p Hp; by rewrite lookup_insert_ne|].
    split_and!; try done; [apply lookup_insert_eq|].
    intros x -> Hx. unfold bad in Hbad.
    rewrite (proj2 (nonempty_true x) Hx) in Hbad. apply negb_false_iff, bool_decide_eq_true in Hbad.
    done.
Qed.

(** * Concrete stores *)
Module StorageSample.
Definition t0 : float := of_Z 1000.
Definition blob_path : path := [py "submissions"; py "c"; py "u.pdf"].
Definition store : Fs := write_file t0 blob_path [1; 2; 3] (mkFs ∅).
Definition key : pystr := py "submissions/c/u.pdf".

Lemma store_wf : fs_wf store.
Proof.
  intros p f Hp. cbn in Hp. destruct (decide (p = blob_path)) as [->|Hne].
  - split; [done|]. repeat constructor; try done; unfold slash; cbn; set_solver.
  - rewrite lookup_insert_ne, lookup_empty in Hp by done. done.
Qed.

Lemma put_get_roundtrip_witness :
  fs_get key (snd (fs_put t0 key [1; 2] [] (mkFs ∅))) = (Ok [1; 2], snd (fs_put t0 key [1; 2] [] (mkFs ∅))).
Proof.
  destruct (put_get_roundtrip t0 key [1; 2] [] (mkFs ∅) (snd (fs_put t0 key [1; 2] [] (mkFs ∅))) key)
    as (_ & Hg & _); [vm_compute; reflexivity|exact Hg].
Defined.

Lemma reconcile_keeps_referenced_witness :
  files (snd (reconcile_orphans [Some key] (py "submissions/") (of_Z 60) (of_Z 9000) true store))
    !! components key = files store !! components key.
Proof.
  eapply (reconcile_keeps_referenced [Some key] (py "submissions/") (of_Z 60) (of_Z 9000) true store).
  - apply store_wf.
  - split; [vm_compute; reflexivity|done].
  - left.
  - vm_compute; reflexivity.
  - vm_compute; congruence.
  - apply surjective_pairing.
Defined.

Lemma reconcile_reclaims_orphans_witness :
  exists report fs', reconcile_orphans [None] (py "submissions/") (of_Z 60) (of_Z 9000) true store
                     = (Ok report, fs')
  /\ files fs' !! blob_path = None.
Proof.
  apply (reconcile_reclaims_orphans [None] (py "submissions/") (of_Z 60) (of_Z 9000) store blob_path
           (mkFile [1; 2; 3] t0)).
  - apply store_wf.
  - reflexivity.
  - vm_compute. set_solver.
  - vm_compute; reflexivity.
  - exists [py "c"; py "u.pdf"]. reflexivity.
  - vm_compute; lia.
  - vm_compute; reflexivity.
  - set_solver.
  - vm_compute; reflexivity.
Defined.

Lemma stream_to_incoming_complete_witness :
  let sha : Sha256 := fun _ => py "abc" in
  let out := stream_to_incoming t0 7 [[1]; []; [2; 3]] 10 [] (Some (py "ABC")) (mkFs ∅) in
  is_ok (fst out) = true
  /\ files (snd out) !! (incoming_root ++ [uuid_str 7]) = Some (mkFile [1; 2; 3] t0).
Proof.
  intros sha out.
  assert (is_ok (fst out) = true) as Hok by (vm_compute; reflexivity). split; [done|].
  pose proof (stream_to_incoming_complete t0 7 [[1]; []; [2; 3]] 10 [] (Some (py "ABC")) (mkFs ∅)
    (snd out) (fst out)) as H. destruct H as [_ H]; [lia|apply surjective_pairing|].
  destruct (fst out) as [u|e]; [|done]. apply H.
Defined.
End StorageSample.
