(* ===== verification/Sessions.v ===== *)
(** The engine and the session factory of the process
    (src/challengeforge/persistence/session.py): two module variables, created on
    first use and dropped at shutdown.  Creating and disposing of an engine is the
    library's; it is seen here as the engines that hold connections. *)
From Stdlib Require Import ZArith Lia String.
From stdpp Require Import prelude strings.
From S2P Require Import Prelude PyFloat PyStr Domain Config.

(** An engine: its number, what it was made with, and the flag of
    [install_sqlalchemy_events]. *)
Record Engine := mkEngine {
  eg_id : nat;
  eg_url : pystr;
  eg_pool_size : Z;
  eg_max_overflow : Z;
  eg_profiled : bool;
}.

(** The variables of the module, the engines not disposed of, and the
    number of the next one. *)
Record ModuleState := mkModule {
  ms_engine : option Engine;
  ms_session_factory : option Engine;
  ms_open : list Engine;
  ms_next : nat;
}.
#[export] Instance ModuleState_eta : Eta ModuleState := fun m =>
  mkModule (ms_engine m) (ms_session_factory m) (ms_open m) (ms_next m).

(** [persistence/session.py:12-13 _engine] *)
Definition module_start : ModuleState := mkModule None None [] 0.

Section Engines.
(** [get_settings()], cached. *)
Variable get_settings : Settings.

(** [persistence/session.py:16-24 create_engine] *)
Definition create_engine (settings : option Settings) : M exn ModuleState Engine := fun m =>
  let cfg := default get_settings settings in
  let e := mkEngine (ms_next m) (database_url cfg) (db_pool_size cfg) (db_max_overflow cfg) false in
  (Ok e, m <| ms_open := e :: ms_open m |> <| ms_next := S (ms_next m) |>).

(** [request_profile.py:141-179 install_sqlalchemy_events], once per engine. *)
Definition install_events (e : Engine) : Engine :=
  mkEngine (eg_id e) (eg_url e) (eg_pool_size e) (eg_max_overflow e) true.

(** [persistence/session.py:27-36 init_engine] *)
Definition init_engine (settings : option Settings) : M exn ModuleState Engine :=
  let cfg := default get_settings settings in
  e ← create_engine (Some cfg);
  let e := if request_profiling_enabled cfg then install_events e else e in
  modify_st (fun m => m <| ms_engine := Some e |> <| ms_session_factory := Some e |>) ;;
  mret e.

(** [persistence/session.py:39-44 dispose_engine] *)
Definition dispose_engine : M exn ModuleState unit :=
  modify_st (fun m =>
    let open_ := match ms_engine m with
                 | Some e => List.filter (fun x => negb (eg_id x =? eg_id e)%nat) (ms_open m)
                 | None => ms_open m
                 end in
    m <| ms_open := open_ |> <| ms_engine := None |> <| ms_session_factory := None |>).

(** [persistence/session.py:47-51 get_session_factory] *)
Definition get_session_factory : M exn ModuleState Engine :=
  m ← get_st;
  (match ms_session_factory m with
   | None => _ ← init_engine None; mret tt
   | Some _ => mret tt
   end) ;;
  m ← get_st;
  match ms_session_factory m with
  | Some f => mret f
  | None => raise AssertionError
  end.

(** * Properties *)

(** What the rest of the program does with the module. *)
Inductive ModuleCall := CallInit (settings : option Settings) | CallDispose | CallFactory.

Definition module_call (c : ModuleCall) (m : ModuleState) : ModuleState :=
  match c with
  | CallInit s => snd (init_engine s m)
  | CallDispose => snd (dispose_engine m)
  | CallFactory => snd (get_session_factory m)
  end.

(** The factory makes sessions of the engine. *)
Definition coupled (m : ModuleState) : Prop := ms_session_factory m = ms_engine m.

Lemma module_call_coupled c m : coupled m -> coupled (module_call c m).
Proof.
  unfold coupled. destruct c as [s| |]; [done..|]. intros Hc. unfold module_call, get_session_factory.
  unfold mbind, M_bind, get_st. destruct (ms_session_factory m) as [f|] eqn:E; cbn; [|done].
  rewrite E. cbn. congruence.
Qed.

(** A session can always be had: after any calls the factory belongs to the current
    engine, asking for it never fails, two requests in a row share one engine, and
    the first one opens an engine with the configured pool, profiled exactly when
    the settings say so. *)
Theorem factory_available (l : list ModuleCall) :
  let m := foldl (fun m c => module_call c m) module_start l in
  coupled m
  /\ exists f m', get_session_factory m = (Ok f, m') /\ ms_engine m' = Some f
     /\ get_session_factory m' = (Ok f, m')
     /\ (ms_engine m = None ->
         eg_url f = database_url get_settings /\ eg_pool_size f = db_pool_size get_settings
         /\ eg_max_overflow f = db_max_overflow get_settings
         /\ eg_profiled f = request_profiling_enabled get_settings).
Proof.
  intros m. assert (coupled m) as Hc.
  { unfold m. clear m. assert (coupled module_start) as H0 by done. revert H0. generalize module_start.
    induction l as [|c l IH]; intros m Hm; [done|]. by apply IH, module_call_coupled. }
  split; [done|]. unfold coupled in Hc. unfold get_session_factory, mbind, M_bind, get_st.
  destruct (ms_session_factory m) as [f|] eqn:E; cbn.
  - exists f, m. rewrite E. cbn. rewrite E. split_and!; [done|done|done|congruence].
  - eexists _, _. split; [reflexivity|]. cbn. split; [done|]. split; [done|]. intros _.
    by destruct (request_profiling_enabled get_settings).
Qed.
End Engines.

(** Initialising twice forgets the first engine, which stays open. *)
Example reinit_leaks :
  let m := foldl (fun m c => module_call default_settings c m) module_start
             [CallInit None; CallInit None; CallDispose] in
  eg_id <$> ms_open m = [0%nat].
Proof. reflexivity. Qed.
