(* ===== verification/Canonical.v ===== *)
(** The canonical document: structure-preserving normalization of an artifact's
    text (src/challengeforge/ingestion/canonical.py). *)
From Stdlib Require Import ZArith Lia String.
From stdpp Require Import prelude strings list.
From S2P Require Import Prelude PyFloat PyStr Domain Json.

(** [ingestion/canonical.py:18-18 PARSER_VERSION] *)
Definition PARSER_VERSION : pystr := py "cf-parse-2".

(** [ingestion/canonical.py:21-25 ContentKind] *)
Inductive ContentKind := K_MARKDOWN | K_CODE | K_PROSE | K_EMPTY.
#[export] Instance ContentKind_eq_dec : EqDecision ContentKind.
Proof. solve_decision. Defined.
#[export] Instance ContentKind_enum : StrEnum ContentKind := {|
  value k := match k with
             | K_MARKDOWN => "markdown" | K_CODE => "code" | K_PROSE => "prose" | K_EMPTY => "empty"
             end;
  members := [K_MARKDOWN; K_CODE; K_PROSE; K_EMPTY];
|}.
#[export] Instance ContentKind_ok : StrEnumOk ContentKind.
Proof. split; [by intros []; set_solver | by intros [] []]. Qed.

(** [ingestion/canonical.py:28-40 CanonicalDocument] *)
Record CanonicalDocument := mkDoc {
  doc_text : pystr;
  doc_kind : ContentKind;
  doc_parser_version : pystr;
  doc_content_sha256 : pystr;
  doc_line_count : Z;
}.

(** [ingestion/canonical.py:42-44 CanonicalDocument.char_count] *)
Definition char_count (d : CanonicalDocument) : Z := zlen (doc_text d).

(** [sum(1 for ln in lines if f(ln))] *)
Definition hits (f : pystr -> bool) (lines : list pystr) : Z := zlen (List.filter f lines).

Definition starts_with_any (s : pystr) (ps : list string) : bool :=
  existsb (fun p => startswith s (py p)) ps.

(** A line that looks like code. *)
Definition codey_line (ln : pystr) : bool :=
  starts_with_any ln ["def "; "class "; "import "; "from "; "function "; "package "]%string
  || endswith (rstrip ln) (py "{")
  || starts_with_any (strip ln) ["public "; "private "; "static "]%string.

(** [ingestion/canonical.py:47-64 _detect_kind] *)
Definition detect_kind (text : pystr) : ContentKind :=
  if negb (nonempty (strip text)) then K_EMPTY else
  let lines := split_on newline text in
  let heading_hits := hits (fun ln => startswith (lstrip ln) (py "#")) lines in
  let fence_hits := hits (fun ln => startswith (strip ln) (py "```")) lines in
  let codey := hits codey_line lines in
  if (1 <=? fence_hits) || (2 <=? heading_hits) then K_MARKDOWN
  else if (2 <=? codey) && (heading_hits =? 0) then K_CODE
  else K_PROSE.

(** [ln.rstrip(" \t")] *)
Definition is_blank_char (c : Z) : bool := (c =? 32) || (c =? 9).
Definition rstrip_line (ln : pystr) : pystr := rstrip_by is_blank_char ln.

(** [while lines and lines[0] == "": lines.pop(0)], and from the end. *)
Fixpoint drop_empty (lines : list pystr) : list pystr :=
  match lines with
  | [] :: ls => drop_empty ls
  | _ => lines
  end.
Definition drop_empty_end (lines : list pystr) : list pystr := reverse (drop_empty (reverse lines)).

Definition count_char (c : Z) (s : pystr) : Z := zlen (List.filter (fun d => d =? c) s).

Section Normalize.
Context `{Sha256}.

(** [hashlib.sha256(text.encode("utf-8")).hexdigest()]; text decoded from UTF-8
    has no surrogates and encodes. *)
Definition sha_text (text : pystr) : pystr := sha256_hex (default [] (utf8 text)).

Definition canonical_text (raw_text : pystr) : pystr :=
  let unified := replace_char 13 [10] (replace_crlf raw_text) in
  let lines := rstrip_line <$> split_on newline unified in
  join [newline] (drop_empty_end (drop_empty lines)).

(** [ingestion/canonical.py:67-92 normalize_to_canonical] *)
Definition normalize_to_canonical (raw_text : pystr) : CanonicalDocument :=
  let text := canonical_text raw_text in
  mkDoc text (detect_kind text) PARSER_VERSION (sha_text text)
    (if nonempty text then count_char newline text + 1 else 0).
End Normalize.

(** * Properties *)

(** A line of a canonical text. *)
Definition clean_line (ln : pystr) : Prop :=
  (newline ∉ ln) /\ (13 ∉ ln) /\ forall c s, ln = s ++ [c] -> is_blank_char c = false.

(** The lines of a canonical text: clean, and neither the first nor the last is
    empty. *)
Definition clean_lines (lines : list pystr) : Prop :=
  Forall clean_line lines /\ head lines <> Some [] /\ last lines <> Some [].

Lemma drop_empty_suffix (lines : list pystr) : exists n, drop_empty lines = drop n lines /\ Forall (eq []) (take n lines).
Proof.
  induction lines as [|[|c l] ls (n & Hn & Hf)]; [by exists O| |by exists O].
  exists (S n). cbn. split; [done|]. by constructor.
Qed.

Lemma drop_empty_head (lines : list pystr) : head (drop_empty lines) <> Some [].
Proof. by induction lines as [|[|c l] ls IH]. Qed.

Lemma drop_empty_id (lines : list pystr) : head lines <> Some [] -> drop_empty lines = lines.
Proof. by destruct lines as [|[|c l] ls]. Qed.

Lemma drop_empty_incl (lines : list pystr) l : l ∈ drop_empty lines -> l ∈ lines.
Proof.
  destruct (drop_empty_suffix lines) as (n & -> & _). intros Hl.
  rewrite <-(take_drop n lines). apply elem_of_app. by right.
Qed.

Lemma head_reverse {A} (l : list A) : head (reverse l) = last l.
Proof. induction l as [|x l IH] using rev_ind; [done|]. by rewrite reverse_snoc, last_snoc. Qed.

Lemma last_reverse' {A} (l : list A) : last (reverse l) = head l.
Proof. destruct l as [|x l]; [done|]. by rewrite reverse_cons, last_snoc. Qed.

Lemma drop_empty_last (lines : list pystr) : drop_empty lines <> [] -> last (drop_empty lines) = last lines.
Proof.
  destruct (drop_empty_suffix lines) as (n & -> & _). intros Hne.
  destruct (decide (n < length lines)%nat); [|by rewrite drop_ge in Hne by lia].
  rewrite !last_lookup, lookup_drop, length_drop. f_equal. lia.
Qed.

Lemma drop_empty_end_head (lines : list pystr) :
  head lines <> Some [] -> head (drop_empty_end lines) <> Some [].
Proof.
  intros Hh. unfold drop_empty_end. rewrite head_reverse.
  destruct (drop_empty (reverse lines)) as [|x l] eqn:E; [done|]. rewrite <-E.
  rewrite drop_empty_last by congruence. by rewrite last_reverse'.
Qed.

Lemma drop_empty_end_last (lines : list pystr) : last (drop_empty_end lines) <> Some [].
Proof. unfold drop_empty_end. rewrite last_reverse'. apply drop_empty_head. Qed.

Lemma drop_empty_end_id (lines : list pystr) : last lines <> Some [] -> drop_empty_end lines = lines.
Proof.
  intros Hl. unfold drop_empty_end. rewrite drop_empty_id by (by rewrite head_reverse).
  apply reverse_involutive.
Qed.

Lemma drop_empty_end_incl (lines : list pystr) l : l ∈ drop_empty_end lines -> l ∈ lines.
Proof.
  unfold drop_empty_end. rewrite elem_of_reverse. intros Hl%drop_empty_incl.
  by rewrite elem_of_reverse in Hl.
Qed.

Lemma rstrip_line_clean ln : newline ∉ ln -> 13 ∉ ln -> clean_line (rstrip_line ln).
Proof.
  intros H1 H2. unfold rstrip_line. split_and!.
  - intros Hin. apply H1. by eapply rstrip_by_incl.
  - intros Hin. apply H2. by eapply rstrip_by_incl.
  - destruct (rstrip_by_spec is_blank_char ln) as (r & _ & _ & Hc). intros c s Hs. by eapply Hc.
Qed.

Lemma rstrip_line_id ln : clean_line ln -> rstrip_line ln = ln.
Proof.
  intros (_ & _ & Hc). unfold rstrip_line, rstrip_by.
  rewrite lstrip_by_id; [apply reverse_involutive|].
  intros c s Hs. apply (Hc c (reverse s)). rewrite <-(reverse_involutive ln), Hs. apply reverse_cons.
Qed.

Lemma replace_cr_gone s : 13 ∉ replace_char 13 [10] s.
Proof.
  induction s as [|c s IH]; cbn; [by intros ?%elem_of_nil|].
  destruct (Z.eqb_spec c 13); cbn; intros [?|?]%elem_of_cons; try done; congruence.
Qed.

Lemma replace_char_id o n s : o ∉ s -> replace_char o n s = s.
Proof.
  induction s as [|c s IH]; cbn; [done|]. intros [Hne Hs]%not_elem_of_cons.
  rewrite IH by done. destruct (Z.eqb_spec c o); [congruence|done].
Qed.

Lemma replace_crlf_id s : 13 ∉ s -> replace_crlf s = s.
Proof.
  induction s as [|c s IH]; [done|]. intros [Hne Hs]%not_elem_of_cons.
  specialize (IH Hs). destruct s as [|d s]; [done|].
  change (replace_crlf (c :: d :: s))
    with (if (c =? 13) && (d =? 10) then 10 :: replace_crlf s else c :: replace_crlf (d :: s)).
  destruct (Z.eqb_spec c 13); [congruence|]. cbn [andb]. by rewrite IH.
Qed.

Definition canonical_lines (raw_text : pystr) : list pystr :=
  drop_empty_end (drop_empty (rstrip_line <$>
    split_on newline (replace_char 13 [10] (replace_crlf raw_text)))).

Lemma join_elem c ls x : x ∈ join [c] ls -> x = c \/ exists l, l ∈ ls /\ x ∈ l.
Proof.
  induction ls as [|l ls IH]; cbn; [by intros ?%elem_of_nil|].
  destruct ls as [|l' ls].
  - intros Hx. right. exists l. split; [left|done].
  - intros [Hx|[->|Hx]%elem_of_cons]%elem_of_app; [right; exists l; split; [left|done]|by left|].
    destruct (IH Hx) as [->|(l2 & Hl2 & Hx2)]; [by left|right].
    exists l2. split; [by right|done].
Qed.

Lemma split_elem c s l x : l ∈ split_on c s -> x ∈ l -> x ∈ s.
Proof.
  revert l. induction s as [|d s IH]; intros l; cbn.
  { intros Hl%list_elem_of_singleton. subst l. done. }
  destruct (Z.eqb_spec d c) as [->|Hne].
  - intros [->|Hl]%elem_of_cons; [by intros ?%elem_of_nil|]. intros Hx. right. by eapply IH.
  - destruct (split_on c s) as [|l0 ls] eqn:E.
    + intros ->%list_elem_of_singleton ->%list_elem_of_singleton. left.
    + intros [->|Hl]%elem_of_cons.
      * intros [->|Hx]%elem_of_cons; [left|]. right. apply (IH l0); [left|done].
      * intros Hx. right. apply (IH l); [by right|done].
Qed.

Lemma canonical_lines_clean raw : clean_lines (canonical_lines raw).
Proof.
  unfold clean_lines, canonical_lines. split_and!.
  - apply Forall_forall. intros l Hl%drop_empty_end_incl%drop_empty_incl.
    apply list_elem_of_fmap in Hl as (l0 & -> & Hl0). apply rstrip_line_clean.
    + by eapply split_on_no_sep.
    + intros H13. by apply (split_elem _ _ _ _ Hl0), replace_cr_gone in H13.
  - apply drop_empty_end_head, drop_empty_head.
  - apply drop_empty_end_last.
Qed.

(** The text of clean lines has these lines. *)
Lemma clean_text_lines lines :
  clean_lines lines -> lines <> [] -> split_on newline (join [newline] lines) = lines.
Proof.
  intros (Hc & _ & _) Hne. apply split_on_join; [done|].
  eapply Forall_impl; [exact Hc|]. by intros l (? & _).
Qed.

Lemma canonical_text_of_clean lines :
  clean_lines lines -> canonical_text (join [newline] lines) = join [newline] lines.
Proof.
  intros Hcl. pose proof Hcl as (Hc & Hh & Hl).
  assert (13 ∉ join [newline] lines) as H13.
  { intros [?|(l & Hin & Hx)]%join_elem; [done|]. rewrite Forall_forall in Hc.
    by destruct (Hc l Hin) as (_ & ? & _). }
  unfold canonical_text. rewrite (replace_crlf_id _ H13), (replace_char_id _ _ _ H13).
  destruct (decide (lines = [])) as [->|Hne]; [done|].
  rewrite clean_text_lines by done.
  assert (rstrip_line <$> lines = lines) as ->.
  { clear -Hc. induction Hc as [|l lines H1 Hc IH]; [done|]. cbn. rewrite rstrip_line_id by done.
    f_equal. exact IH. }
  rewrite (drop_empty_id _ Hh), (drop_empty_end_id _ Hl). done.
Qed.

Section CanonicalFacts.
Context `{Sha256}.

Lemma split_on_count c s : zlen (split_on c s) = count_char c s + 1.
Proof.
  induction s as [|d s IH]; [done|]. unfold count_char in *. cbn [split_on List.filter].
  destruct (Z.eqb_spec d c) as [->|Hne].
  - rewrite !zlen_cons. lia.
  - rewrite <-IH. pose proof (split_on_nonnil c s). by destruct (split_on c s).
Qed.

(** Normalization is idempotent, and what it produces is canonical: the lines
    of the text have no carriage return and no trailing blank, the first and
    the last are not empty, the line count is their number, and normalizing the
    text again gives the same document. *)
Theorem normalize_idempotent (raw : pystr) :
  let doc := normalize_to_canonical raw in
  normalize_to_canonical (doc_text doc) = doc
  /\ (doc_text doc <> [] -> clean_lines (split_on newline (doc_text doc))
      /\ doc_line_count doc = zlen (split_on newline (doc_text doc))).
Proof.
  intros doc. pose proof (canonical_lines_clean raw) as Hcl.
  change (doc_line_count doc) with
    (if nonempty (doc_text doc) then count_char newline (doc_text doc) + 1 else 0).
  assert (doc = normalize_to_canonical raw) as Hdoc by done.
  assert (doc_text doc = join [newline] (canonical_lines raw)) as Htext by done.
  clearbody doc. rewrite Htext, Hdoc. split.
  - unfold normalize_to_canonical. rewrite canonical_text_of_clean by done. done.
  - intros Hne. assert (canonical_lines raw <> []) as Hl by (intros Hl; by rewrite Hl in Hne).
    rewrite (proj2 (nonempty_true _) Hne), split_on_count.
    by rewrite clean_text_lines.
Qed.
End CanonicalFacts.

Example normalize_example :
  let sha : Sha256 := fun _ => py "00" in
  doc_text (normalize_to_canonical [10; 97; 32; 13; 10; 13; 98; 10]) = [97; 10; 10; 98].
Proof. vm_compute. reflexivity. Qed.

Lemma normalize_idempotent_witness :
  let sha : Sha256 := fun _ => py "00" in
  clean_lines [[97]; []; [98]].
Proof.
  intros sha.
  destruct (normalize_idempotent [10; 97; 32; 13; 10; 13; 98; 10]) as [_ H].
  apply H. vm_compute. discriminate.
Defined.
