(* ===== verification/Chunking.v ===== *)
(** The chunker: logical units of a canonical document, hard splits of oversized
    units, packing under a character budget, provenance
    (src/challengeforge/ingestion/chunking.py).  Offsets count code points; line
    indexes of the code's loops are [nat], offsets and published line numbers
    [Z].  Loops that advance an index run with a fuel of one step per line or
    per character, which is as many as they can take. *)
From Stdlib Require Import ZArith Lia String.
From stdpp Require Import prelude strings list.
From S2P Require Import Prelude PyFloat PyStr Domain Json Canonical.

(** [ingestion/chunking.py:25-25 CHUNKER_VERSION] *)
Definition CHUNKER_VERSION : pystr := py "cf-chunk-hybrid-1".
(** [ingestion/chunking.py:26-26 DEFAULT_MAX_CHARS] *)
Definition DEFAULT_MAX_CHARS : Z := 1200.

(** [ingestion/chunking.py:29-37 BlockType] *)
Inductive BlockType :=
| B_HEADING | B_PARAGRAPH | B_CODE_FENCE | B_CODE | B_LIST | B_HARD_SPLIT | B_MIXED | B_FIXED.
#[export] Instance BlockType_eq_dec : EqDecision BlockType.
Proof. solve_decision. Defined.
#[export] Instance BlockType_enum : StrEnum BlockType := {|
  value b := match b with
             | B_HEADING => "heading" | B_PARAGRAPH => "paragraph" | B_CODE_FENCE => "code_fence"
             | B_CODE => "code" | B_LIST => "list" | B_HARD_SPLIT => "hard_split"
             | B_MIXED => "mixed" | B_FIXED => "fixed"
             end;
  members := [B_HEADING; B_PARAGRAPH; B_CODE_FENCE; B_CODE; B_LIST; B_HARD_SPLIT; B_MIXED; B_FIXED];
|}.

(** [ingestion/chunking.py:40-48 LogicalUnit] *)
Record LogicalUnit := mkUnit {
  u_text : pystr;
  u_char_start : Z;
  u_char_end : Z;
  u_line_start : Z;
  u_line_end : Z;
  u_block_type : BlockType;
  u_heading_path : list pystr;
}.
#[export] Instance LogicalUnit_eta : Eta LogicalUnit := fun u =>
  mkUnit (u_text u) (u_char_start u) (u_char_end u) (u_line_start u) (u_line_end u)
    (u_block_type u) (u_heading_path u).

(** [ingestion/chunking.py:51-62 ChunkDraft] *)
Record ChunkDraft := mkDraft {
  d_ordinal : Z;
  d_content : pystr;
  d_content_sha256 : pystr;
  d_char_start : Z;
  d_char_end : Z;
  d_line_start : Z;
  d_line_end : Z;
  d_block_type : BlockType;
  d_heading_path : list pystr;
  d_oversized_split : bool;
}.

(** * Patterns *)

(** The length of the longest prefix in the class. *)
Fixpoint run_length (p : Z -> bool) (s : pystr) : nat :=
  match s with
  | c :: s' => if p c then S (run_length p s') else O
  | [] => O
  end.

(** [ingestion/chunking.py:65-65 _HEADING_RE]: [^(#{1,6})\s+(.+)$] on one line.
    The class of [#] and white space are disjoint, so the only backtracking is
    the white space giving back its last character to the second group. *)
Definition heading_match (line : pystr) : option (Z * pystr) :=
  let k := run_length (fun c => c =? 35) line in
  let rest := drop k line in
  let w := run_length is_space rest in
  if ((1 <=? k) && (k <=? 6))%nat then
    match drop w rest with
    | _ :: _ => if (1 <=? w)%nat then Some (Z.of_nat k, drop w rest) else None
    | [] => if (2 <=? w)%nat then Some (Z.of_nat k, drop (w - 1) rest) else None
    end
  else None.

(** [ingestion/chunking.py:66-66 _LIST_RE]: [^(\s*([-*+]|\d+\.)\s+)]. *)
Definition list_match (line : pystr) : bool :=
  let rest := lstrip line in
  let after :=
    match rest with
    | c :: rest' =>
        if (c =? 45) || (c =? 42) || (c =? 43) then Some rest'
        else
          let d := run_length is_digit rest in
          match drop d rest with
          | dot :: r => if (1 <=? d)%nat && (dot =? 46) then Some r else None
          | [] => None
          end
    | [] => None
    end in
  match after with
  | Some (c :: _) => is_space c
  | _ => false
  end.

(** * Offsets and lines *)

(** The offsets after the newlines of [text], which starts at [i], the last
    character apart. *)
Fixpoint newline_offsets (text : pystr) (i : Z) : list Z :=
  match text with
  | c :: ((_ :: _) as text') =>
      if c =? newline then (i + 1) :: newline_offsets text' (i + 1) else newline_offsets text' (i + 1)
  | _ => []
  end.

(** [ingestion/chunking.py:73-79 _line_starts] *)
Definition line_starts (text : pystr) : list Z := 0 :: 0 :: newline_offsets text 0.

Definition starts_at (starts : list Z) (i : Z) : Z := nth (Z.to_nat i) starts 0.

(** The loop of the binary search. *)
Fixpoint line_search (fuel : nat) (starts : list Z) (offset lo hi ans : Z) : Z :=
  match fuel with
  | O => ans
  | S f =>
      if lo <=? hi then
        let mid := (lo + hi) / 2 in
        if starts_at starts mid <=? offset
        then line_search f starts offset (mid + 1) hi mid
        else line_search f starts offset lo (mid - 1) ans
      else ans
  end.

(** [ingestion/chunking.py:82-93 _line_of] *)
Definition line_of (starts : list Z) (offset : Z) : Z :=
  if offset <? 0 then 1
  else line_search (length starts) starts offset 1 (zlen starts - 1) 1.

(** [ingestion/chunking.py:96-111 _span] *)
Definition span (text : pystr) (starts : list Z) (line0 line1_exclusive : nat)
    : Z * Z * pystr :=
  if negb (nonempty text) || (line1_exclusive <=? line0)%nat then (0, 0, [])
  else
    let cs := nth (line0 + 1) starts 0 in
    let next_1based := (line1_exclusive + 1)%nat in
    let ce :=
      if (next_1based <? length starts)%nat then
        let ce := nth next_1based starts 0 in
        if (cs <? ce) && bool_decide (text !! Z.to_nat (ce - 1) = Some newline) then ce - 1 else ce
      else zlen text in
    (cs, ce, slice text cs ce).

(** * Hard splits *)

(** Where the next piece of an oversized unit ends, relative to [pos]. *)
Definition next_cut (text : pystr) (max_chars pos : Z) : Z :=
  let remaining := zlen text - pos in
  if remaining <=? max_chars then remaining
  else
    let window := slice text pos (pos + max_chars) in
    let cut := rfind window newline in
    let cut := if cut <? max_chars / 4 then rfind window 32 else cut in
    if cut <? max_chars / 4 then max_chars else cut + 1.

Fixpoint split_loop (fuel : nat) (u : LogicalUnit) (max_chars pos : Z) : list LogicalUnit :=
  match fuel with
  | O => []
  | S f =>
      if pos <? zlen (u_text u) then
        let cut := next_cut (u_text u) max_chars pos in
        let piece := slice (u_text u) pos (pos + cut) in
        if negb (nonempty piece) then []
        else
          let abs_start := u_char_start u + pos in
          mkUnit piece abs_start (abs_start + zlen piece) (u_line_start u) (u_line_end u)
            B_HARD_SPLIT (u_heading_path u)
          :: split_loop f u max_chars (pos + cut)
      else []
  end.

(** [ingestion/chunking.py:114-151 _split_oversized] *)
Definition split_oversized (u : LogicalUnit) (max_chars : Z) : list LogicalUnit :=
  if zlen (u_text u) <=? max_chars then [u]
  else split_loop (length (u_text u)) u max_chars 0.

(** * Units *)

Definition fence (line : pystr) : bool := startswith line (py "```").

(** How many of the lines, from the first, the loop takes. *)
Fixpoint count_while (p : pystr -> bool) (lines : list pystr) : nat :=
  match lines with
  | l :: ls => if p l then S (count_while p ls) else O
  | [] => O
  end.

(** The headings above the current line, the deepest first. *)
Definition HeadingStack : Type := list (Z * pystr).

Definition stack_path (stack : HeadingStack) : list pystr := reverse stack.*2.

Fixpoint pop_headings (level : Z) (stack : HeadingStack) : HeadingStack :=
  match stack with
  | (l, t) :: rest => if level <=? l then pop_headings level rest else stack
  | [] => []
  end.

(** The test of the block loop: the line at [j] continues the block. *)
Definition continues (code_mode is_list : bool) (line : pystr) : bool :=
  negb (blank line)
  && (code_mode
      || (negb (fence line)
          && negb (bool_decide (is_Some (heading_match line)))
          && (if is_list then list_match line || startswith line (py " ") || startswith line [9]
              else negb (list_match line)))).

(** One unit for the lines [i..j), when its text is not blank. *)
Definition unit_of_lines (text : pystr) (starts : list Z) (i j : nat) (b : BlockType)
    (path : list pystr) : list LogicalUnit :=
  let '(cs, ce, body) := span text starts i j in
  if blank body then []
  else [mkUnit body cs ce (Z.of_nat i + 1) (Z.of_nat j) b path].

(** The loop of [_unitize_structured] from line [i] on. *)
Fixpoint unitize_loop (fuel : nat) (text : pystr) (code_mode : bool) (starts : list Z)
    (lines : list pystr) (i : nat) (stack : HeadingStack) : list LogicalUnit :=
  match fuel with
  | O => []
  | S f =>
      match lines !! i with
      | None => []
      | Some line =>
          if negb code_mode && fence line then
            let j := (i + 1 + count_while (fun l => negb (fence l)) (drop (i + 1) lines))%nat in
            let j := if (j <? length lines)%nat then (j + 1)%nat else j in
            unit_of_lines text starts i j B_CODE_FENCE (stack_path stack)
            ++ unitize_loop f text code_mode starts lines j stack
          else
            match (if code_mode then None else heading_match line) with
            | Some (level, raw_title) =>
                let stack := (level, strip raw_title) :: pop_headings level stack in
                let '(cs, ce, body) := span text starts i (i + 1) in
                mkUnit body cs ce (Z.of_nat i + 1) (Z.of_nat i + 1) B_HEADING (stack_path stack)
                :: unitize_loop f text code_mode starts lines (i + 1) stack
            | None =>
                if blank line then unitize_loop f text code_mode starts lines (i + 1) stack
                else
                  let is_list := negb code_mode && list_match line in
                  let j := (i + count_while (continues code_mode is_list) (drop i lines))%nat in
                  let btype := if code_mode then B_CODE else if is_list then B_LIST else B_PARAGRAPH in
                  unit_of_lines text starts i j btype (stack_path stack)
                  ++ unitize_loop f text code_mode starts lines j stack
            end
      end
  end.

(** [ingestion/chunking.py:154-254 _unitize_structured] *)
Definition unitize_structured (text : pystr) (code_mode : bool) : list LogicalUnit :=
  if negb (nonempty text) then []
  else
    let lines := split_on newline text in
    unitize_loop (length lines) text code_mode (line_starts text) lines 0 [].

(** [ingestion/chunking.py:257-262 unitize] *)
Definition unitize (doc : CanonicalDocument) : list LogicalUnit :=
  if bool_decide (doc_kind doc = K_EMPTY) || blank (doc_text doc) then []
  else unitize_structured (doc_text doc) (bool_decide (doc_kind doc = K_CODE)).

(** [ingestion/chunking.py:265-285 _fix_lines] *)
Definition fix_lines (text : pystr) (units : list LogicalUnit) : list LogicalUnit :=
  let starts := line_starts text in
  (fun u =>
     let ls := if nonempty text then line_of starts (u_char_start u) else 1 in
     let le := if nonempty text then line_of starts (Z.max (u_char_start u) (u_char_end u - 1)) else 1 in
     u <| u_line_start := ls |> <| u_line_end := le |>) <$> units.

(** * Packing *)

(** The groups, from the current one on; a group is kept in document order. *)
Fixpoint pack_loop (max_chars : Z) (current : list LogicalUnit) (units : list LogicalUnit)
    : list (list LogicalUnit) :=
  match units with
  | [] => match current with [] => [] | _ => [current] end
  | u :: rest =>
      match current, last current with
      | first :: _, Some lst =>
          if (u_char_end u - u_char_start first <=? max_chars) && (u_char_start lst <=? u_char_start u)
          then pack_loop max_chars (current ++ [u]) rest
          else current :: pack_loop max_chars [u] rest
      | _, _ => pack_loop max_chars [u] rest
      end
  end.

(** [ingestion/chunking.py:288-319 _pack] *)
Definition pack (units : list LogicalUnit) (max_chars : Z) : list (list LogicalUnit) :=
  pack_loop max_chars [] units.

Section Chunks.
Context `{Sha256}.

(** The heading path of a group: the deepest one that extends the first. *)
Definition group_heading (group : list LogicalUnit) (first : LogicalUnit) : list pystr :=
  foldl (fun heading u =>
           if bool_decide (take (length heading) (u_heading_path u) = heading)
              && (length heading <? length (u_heading_path u))%nat
           then u_heading_path u
           else if nonempty heading then heading else u_heading_path u)
    (u_heading_path first) group.

Definition group_type (group : list LogicalUnit) (first : LogicalUnit) : BlockType :=
  if forallb (fun u => bool_decide (u_block_type u = u_block_type first)) group
  then u_block_type first
  else if existsb (fun u => bool_decide (u_block_type u = B_HARD_SPLIT)) group then B_HARD_SPLIT
  else B_MIXED.

(** The loop of [chunk_hybrid] over the groups; [ordinal] is [len(chunks)]. *)
Fixpoint draft_loop (text : pystr) (max_chars ordinal : Z) (groups : list (list LogicalUnit))
    : list ChunkDraft :=
  match groups with
  | [] => []
  | [] :: rest => draft_loop text max_chars ordinal rest
  | ((first :: _) as group) :: rest =>
      let char_start := u_char_start first in
      let char_end := u_char_end (default first (last group)) in
      let content := slice text char_start char_end in
      if blank content then draft_loop text max_chars ordinal rest
      else
        let over := max_chars <? zlen content in
        let content := if over then slice content 0 max_chars else content in
        let char_end := if over then char_start + zlen content else char_end in
        let starts := line_starts text in
        let line_start := if nonempty text then line_of starts char_start else 1 in
        let line_end := if nonempty text
                        then line_of starts (Z.max char_start (char_end - 1)) else 1 in
        mkDraft ordinal content (sha_text content) char_start char_end line_start line_end
          (group_type group first) (group_heading group first)
          (existsb (fun u => bool_decide (u_block_type u = B_HARD_SPLIT)) group)
        :: draft_loop text max_chars (ordinal + 1) rest
  end.

(** The loop that repairs the text of the units. *)
Definition repair (text : pystr) (units : list LogicalUnit) : list LogicalUnit :=
  (fun u => u <| u_text := slice text (u_char_start u) (u_char_end u) |>) <$> units.

Definition expanded_units (doc : CanonicalDocument) (max_chars : Z) : list LogicalUnit :=
  let expanded := mjoin ((fun u => split_oversized u max_chars) <$> unitize doc) in
  let expanded := fix_lines (doc_text doc) expanded in
  fix_lines (doc_text doc) (repair (doc_text doc) expanded).

(** [ingestion/chunking.py:322-394 chunk_hybrid] *)
Definition chunk_hybrid (doc : CanonicalDocument) (max_chars : Z) : result exn (list ChunkDraft) :=
  if max_chars <? 1 then Raise (ValueError "max_chars must be >= 1")
  else Ok (draft_loop (doc_text doc) max_chars 0 (pack (expanded_units doc max_chars) max_chars)).

(** The loop of [chunk_fixed_chars]. *)
Fixpoint fixed_loop (fuel : nat) (text : pystr) (max_chars step pos ordinal : Z) : list ChunkDraft :=
  match fuel with
  | O => []
  | S f =>
      if pos <? zlen text then
        let end_ := Z.min (zlen text) (pos + max_chars) in
        let content := slice text pos end_ in
        let starts := line_starts text in
        let more o := if zlen text <=? end_ then [] else fixed_loop f text max_chars step (pos + step) o in
        if blank content then more ordinal
        else
          mkDraft ordinal content (sha_text content) pos end_ (line_of starts pos)
            (line_of starts (Z.max pos (end_ - 1))) B_FIXED [] false
          :: more (ordinal + 1)
      else []
  end.

(** [ingestion/chunking.py:397-434 chunk_fixed_chars] *)
Definition chunk_fixed_chars (doc : CanonicalDocument) (max_chars overlap : Z)
    : result exn (list ChunkDraft) :=
  let text := doc_text doc in
  if blank text then Ok []
  else if (overlap <? 0) || (max_chars <=? overlap)
  then Raise (ValueError "overlap must be >= 0 and < max_chars")
  else Ok (fixed_loop (length text) text max_chars (Z.max 1 (max_chars - overlap)) 0 0).
End Chunks.
