(* ===== verification/ChunkingSpec.v ===== *)
(** The properties of the chunker: provenance, bounds, order and coverage of the
    chunks, and the correctness of the line lookup. *)
From Stdlib Require Import ZArith Lia String.
From stdpp Require Import prelude strings list.
From S2P Require Import Prelude PyFloat PyStr Domain Json Canonical Chunking.

(** * Lines and offsets *)

Definition no_trailing_newline (text : pystr) : Prop := last text <> Some newline.

Lemma newline_offsets_cons c d text i :
  newline_offsets (c :: d :: text) i
  = if c =? newline then (i + 1) :: newline_offsets (d :: text) (i + 1)
    else newline_offsets (d :: text) (i + 1).
Proof. done. Qed.

(** The layout of a text: where each line of [split] starts, its characters, and
    the newline after it. *)
Lemma line_layout text : forall i k l,
  no_trailing_newline text -> text <> [] -> split_on newline text !! k = Some l ->
  exists s, (i :: newline_offsets text i) !! k = Some s /\ i <= s
  /\ (forall q, (q < length l)%nat -> text !! (Z.to_nat (s - i) + q)%nat = l !! q)
  /\ match (i :: newline_offsets text i) !! S k with
     | Some s' => s + zlen l + 1 = s' /\ text !! Z.to_nat (s + zlen l - i) = Some newline
     | None => s + zlen l = i + zlen text
     end.
Proof.
  induction text as [|c text IH]; intros i k l Hnt Hne Hk; [done|].
  destruct text as [|d text].
  { cbn in Hk. assert (c <> newline) as Hc by (intros ->; by apply Hnt).
    destruct (Z.eqb_spec c newline); [done|]. destruct k as [|k]; [|done]. cbn in Hk.
    injection Hk as <-. exists i. split; [done|]. split; [lia|]. split; [|cbn; rewrite !zlen_cons, zlen_nil; lia].
    intros [|q] Hq; cbn in Hq; [|lia]. by rewrite Z.sub_diag. }
  assert (no_trailing_newline (d :: text)) as Hnt' by done.
  rewrite newline_offsets_cons. remember (d :: text) as text' eqn:Ht.
  assert (text' <> []) as Hne' by (by subst).
  cbn [split_on] in Hk. destruct (Z.eqb_spec c newline) as [->|Hc].
  - destruct k as [|k]; cbn in Hk.
    + injection Hk as <-. exists i. split; [done|]. split; [lia|]. split; [intros q Hq; cbn in Hq; lia|].
      cbn. rewrite zlen_nil. split; [lia|]. by rewrite Z.add_0_r, Z.sub_diag.
    + destruct (IH (i + 1) k l Hnt' Hne' Hk) as (s & Hs & Hle & Hchars & Hnext).
      exists s. split; [exact Hs|]. split; [lia|]. split.
      * intros q Hq. rewrite <-(Hchars q Hq).
        replace (Z.to_nat (s - i) + q)%nat with (S (Z.to_nat (s - (i + 1)) + q)) by lia. done.
      * change ((i :: i + 1 :: newline_offsets text' (i + 1)) !! S (S k))
          with ((i + 1 :: newline_offsets text' (i + 1)) !! S k).
        destruct ((i + 1 :: newline_offsets text' (i + 1)) !! S k) as [s'|].
        -- destruct Hnext as [H1 H2]. split; [done|]. rewrite <-H2.
           pose proof (zlen_nonneg l).
           replace (Z.to_nat (s + zlen l - i)) with (S (Z.to_nat (s + zlen l - (i + 1)))) by lia. done.
        -- rewrite zlen_cons. lia.
  - destruct (split_on newline text') as [|l0 ls] eqn:Hsp; [by apply split_on_nonnil in Hsp|].
    destruct k as [|k]; cbn in Hk.
    + injection Hk as <-. destruct (IH (i + 1) 0%nat l0 Hnt' Hne' eq_refl) as (s & Hs & Hle & Hchars & Hnext).
      cbn in Hs. injection Hs as <-. exists i. split; [done|]. split; [lia|]. split.
      * intros [|q] Hq; [by rewrite Z.sub_diag|].
        replace (Z.to_nat (i - i) + S q)%nat with (S q) by lia.
        change (text' !! q = l0 !! q). cbn in Hq. specialize (Hchars q ltac:(lia)).
        by replace (Z.to_nat (i + 1 - (i + 1)) + q)%nat with q in Hchars by lia.
      * cbn [lookup list_lookup] in Hnext |- *.
        destruct (newline_offsets text' (i + 1) !! 0%nat) as [s'|].
        -- destruct Hnext as [H1 H2]. rewrite zlen_cons. split; [lia|]. rewrite <-H2.
           pose proof (zlen_nonneg l0).
           replace (Z.to_nat (i + (1 + zlen l0) - i)) with (S (Z.to_nat (i + 1 + zlen l0 - (i + 1)))) by lia.
           done.
        -- rewrite !zlen_cons. lia.
    + destruct (IH (i + 1) (S k) l Hnt' Hne' Hk) as (s & Hs & Hle & Hchars & Hnext).
      exists s. split; [exact Hs|]. split; [lia|]. split.
      * intros q Hq. rewrite <-(Hchars q Hq).
        replace (Z.to_nat (s - i) + q)%nat with (S (Z.to_nat (s - (i + 1)) + q)) by lia. done.
      * change ((i :: newline_offsets text' (i + 1)) !! S (S k))
          with ((i + 1 :: newline_offsets text' (i + 1)) !! S (S k)).
        destruct ((i + 1 :: newline_offsets text' (i + 1)) !! S (S k)) as [s'|].
        -- destruct Hnext as [H1 H2]. split; [done|]. rewrite <-H2.
           pose proof (zlen_nonneg l).
           replace (Z.to_nat (s + zlen l - i)) with (S (Z.to_nat (s + zlen l - (i + 1)))) by lia. done.
        -- rewrite zlen_cons. lia.
Qed.

Lemma newline_offsets_length text i :
  no_trailing_newline text -> text <> [] ->
  S (length (newline_offsets text i)) = length (split_on newline text).
Proof.
  revert i. induction text as [|c text IH]; intros i Hnt Hne; [done|].
  destruct text as [|d text].
  { cbn. destruct (Z.eqb_spec c newline) as [->|]; [by destruct Hnt|done]. }
  rewrite newline_offsets_cons. specialize (IH (i + 1) Hnt ltac:(done)).
  remember (d :: text) as text' eqn:Ht. cbn [split_on].
  destruct (c =? newline); [cbn [length]; by rewrite IH|].
  destruct (split_on newline text'); [by cbn in IH|]. cbn in *. done.
Qed.

Lemma newline_offsets_bounds text i x :
  x ∈ newline_offsets text i -> i < x < i + zlen text.
Proof.
  revert i. induction text as [|c text IH]; intros i; [by intros ?%elem_of_nil|].
  destruct text as [|d text]; [by intros ?%elem_of_nil|].
  rewrite newline_offsets_cons. pose proof (zlen_nonneg text). rewrite zlen_cons in IH. rewrite !zlen_cons.
  destruct (c =? newline).
  - intros [->|Hx%IH]%elem_of_cons; lia.
  - intros Hx%IH. lia.
Qed.

Lemma newline_offsets_sorted text i : StronglySorted Z.lt (i :: newline_offsets text i).
Proof.
  revert i. induction text as [|c text IH]; intros i; [repeat constructor|].
  destruct text as [|d text]; [repeat constructor|].
  rewrite newline_offsets_cons. remember (d :: text) as text' eqn:Ht.
  specialize (IH (i + 1)). apply StronglySorted_cons in IH as IH'. destruct IH' as [Hall Hs].
  destruct (c =? newline).
  - constructor; [done|]. constructor; [lia|]. eapply Forall_impl; [exact Hall|]. cbn. lia.
  - constructor; [done|]. eapply Forall_impl; [exact Hall|]. cbn. lia.
Qed.

(** Where line [k] starts; the end of the text past the last line. *)
Definition st (text : pystr) (k : nat) : Z := default (zlen text) ((0%Z :: newline_offsets text 0) !! k).

Section Layout.
Context (text : pystr) (Hnt : no_trailing_newline text) (Hne : text <> []).
Local Abbreviation lines := (split_on newline text).
Local Abbreviation starts := (line_starts text).

Lemma starts_length : length starts = S (length lines).
Proof using Hnt Hne. cbn. by rewrite newline_offsets_length. Qed.

Lemma starts_nth k : (k < length lines)%nat -> nth (k + 1) starts 0 = st text k.
Proof using Hnt Hne.
  intros Hk. rewrite Nat.add_1_r. unfold st.
  change (nth (S k) starts 0) with (nth k (0%Z :: newline_offsets text 0) 0).
  assert (k < length (0%Z :: newline_offsets text 0))%nat as Hlt.
  { cbn [length]. by rewrite newline_offsets_length. }
  apply lookup_lt_is_Some in Hlt as [s Hs]. rewrite Hs. cbn.
  apply nth_lookup_Some with (d := 0) in Hs. done.
Qed.

Lemma text_pos : 0 < zlen text.
Proof using Hne.
  unfold zlen. enough (length text <> 0%nat) by lia. by intros H%length_zero_iff_nil.
Qed.

Lemma st_bounds k : 0 <= st text k <= zlen text.
Proof using Hne.
  pose proof text_pos. unfold st. destruct ((0%Z :: newline_offsets text 0) !! k) as [s|] eqn:Hs; cbn; [|lia].
  apply list_elem_of_lookup_2, elem_of_cons in Hs as [->|Hs]; [lia|].
  apply newline_offsets_bounds in Hs. lia.
Qed.

Lemma st_lt_len k : (k < length lines)%nat -> st text k < zlen text.
Proof using Hnt Hne.
  intros Hk. pose proof text_pos. unfold st.
  destruct ((0%Z :: newline_offsets text 0) !! k) as [s|] eqn:Hs; cbn.
  - apply list_elem_of_lookup_2, elem_of_cons in Hs as [->|Hs]; [lia|].
    apply newline_offsets_bounds in Hs. lia.
  - apply lookup_ge_None in Hs. cbn [length] in Hs. rewrite newline_offsets_length in Hs by done. lia.
Qed.

Lemma st_end k : (length lines <= k)%nat -> st text k = zlen text.
Proof using Hnt Hne.
  intros Hk. unfold st. rewrite lookup_ge_None_2; [done|]. cbn [length].
  by rewrite newline_offsets_length.
Qed.

Lemma sorted_lookup_lt (l : list Z) i j x y :
  StronglySorted Z.lt l -> (i < j)%nat -> l !! i = Some x -> l !! j = Some y -> x < y.
Proof using.
  intros Hs. revert i j. induction Hs as [|z l Hs IH Hall]; intros i j Hij Hi Hj; [done|].
  destruct j as [|j]; [lia|]. destruct i as [|i]; cbn in *.
  - injection Hi as <-. rewrite Forall_forall in Hall. by apply Hall, (list_elem_of_lookup_2 _ j).
  - eapply IH; [|done..]. lia.
Qed.

Lemma st_mono i j : (i < j)%nat -> (i < length lines)%nat -> st text i < st text j.
Proof using Hnt Hne.
  intros Hij Hi. destruct (decide (j < length lines)%nat) as [Hj|Hj].
  2: { rewrite (st_end j) by lia. by apply st_lt_len. }
  unfold st.
  assert (i < length (0%Z :: newline_offsets text 0))%nat as [x Hx]%lookup_lt_is_Some
    by (cbn [length]; by rewrite newline_offsets_length).
  assert (j < length (0%Z :: newline_offsets text 0))%nat as [y Hy]%lookup_lt_is_Some
    by (cbn [length]; by rewrite newline_offsets_length).
  rewrite Hx, Hy. cbn.
  by apply (sorted_lookup_lt _ i j x y (newline_offsets_sorted text 0)).
Qed.

Lemma st_mono_le i j : (i <= j)%nat -> st text i <= st text j.
Proof using Hnt Hne.
  intros Hij. destruct (decide (i < length lines)%nat) as [Hi|Hi].
  - destruct (decide (i = j)) as [->|]; [lia|]. pose proof (st_mono i j). lia.
  - rewrite (st_end i), (st_end j) by lia. lia.
Qed.

(** A line between its offsets. *)
Lemma line_at k l :
  lines !! k = Some l ->
  (forall q, (q < length l)%nat -> text !! (Z.to_nat (st text k) + q)%nat = l !! q)
  /\ if (S k <? length lines)%nat
     then st text k + zlen l + 1 = st text (S k) /\ text !! Z.to_nat (st text k + zlen l) = Some newline
     else st text k + zlen l = zlen text.
Proof using Hnt Hne.
  intros Hk. destruct (line_layout text 0 k l Hnt Hne Hk) as (s & Hs & _ & Hc & Hn).
  unfold st. rewrite Hs. cbn [default from_option id].
  rewrite Z.sub_0_r in Hc. split; [exact Hc|].
  destruct ((0%Z :: newline_offsets text 0) !! S k) as [s'|] eqn:Hs'.
  - assert (S k < length lines)%nat as Hlt.
    { apply lookup_lt_Some in Hs'. cbn [length] in Hs'. by rewrite newline_offsets_length in Hs'. }
    rewrite (proj2 (Nat.ltb_lt _ _) Hlt). cbn. by rewrite Z.sub_0_r in Hn.
  - apply lookup_ge_None in Hs'. cbn [length] in Hs'. rewrite newline_offsets_length in Hs' by done.
    rewrite (proj2 (Nat.ltb_ge _ _)) by lia. lia.
Qed.

(** The character before the start of a later line is a newline. *)
Lemma before_line k :
  (0 < k < length lines)%nat -> text !! Z.to_nat (st text k - 1) = Some newline.
Proof using Hnt Hne.
  intros Hk. destruct k as [|k]; [lia|].
  destruct (lookup_lt_is_Some_2 lines k) as [l Hl]; [lia|].
  destruct (line_at k l Hl) as [_ Hn]. rewrite (proj2 (Nat.ltb_lt _ _)) in Hn by lia.
  destruct Hn as [H1 H2]. rewrite <-H1. by replace (st text k + zlen l + 1 - 1) with (st text k + zlen l) by lia.
Qed.

(** The end of a span of lines. *)
Definition span_end (j : nat) : Z :=
  if (j <? length lines)%nat then st text j - 1 else zlen text.

Lemma span_run i j :
  (i < j <= length lines)%nat ->
  span text starts i j = (st text i, span_end j, slice text (st text i) (span_end j))
  /\ 0 <= st text i <= span_end j /\ span_end j <= st text j <= zlen text.
Proof using Hnt Hne.
  intros Hij. unfold span. rewrite (proj2 (nonempty_true text) Hne).
  rewrite (proj2 (Nat.leb_gt _ _)) by lia. cbn [negb orb].
  rewrite starts_nth by lia. rewrite starts_length. unfold span_end.
  pose proof (st_bounds i). pose proof (st_bounds j). pose proof (st_mono i j).
  destruct (Nat.ltb_spec j (length lines)) as [Hj|Hj].
  - rewrite (proj2 (Nat.ltb_lt _ _)) by lia. rewrite starts_nth by lia.
    rewrite (proj2 (Z.ltb_lt _ _)) by lia. rewrite before_line by lia.
    rewrite bool_decide_eq_true_2 by done. cbn [andb]. split; [done|]. lia.
  - rewrite (proj2 (Nat.ltb_ge _ _)) by lia. split; [done|].
    pose proof (st_lt_len i). rewrite (st_end j) by lia. lia.
Qed.
End Layout.

(** * Chains of units

    Units in document order between two offsets, each the slice of the text it
    says it is. *)
Definition unit_ok (text : pystr) (u : LogicalUnit) : Prop :=
  0 <= u_char_start u <= u_char_end u /\ u_char_end u <= zlen text
  /\ u_text u = slice text (u_char_start u) (u_char_end u).

Fixpoint chain (text : pystr) (b e : Z) (us : list LogicalUnit) : Prop :=
  match us with
  | [] => b <= e
  | u :: us' => b <= u_char_start u /\ unit_ok text u /\ chain text (u_char_end u) e us'
  end.

(** Every character from [b] to [e] that is not white space lies in a unit. *)
Definition covers (text : pystr) (b e : Z) (us : list LogicalUnit) : Prop :=
  forall p c, b <= p < e -> text !! Z.to_nat p = Some c -> is_space c = false ->
  exists u, u ∈ us /\ u_char_start u <= p < u_char_end u.

Lemma chain_app text b m e l1 l2 :
  chain text b m l1 -> chain text m e l2 -> chain text b e (l1 ++ l2).
Proof.
  revert b. induction l1 as [|u l1 IH]; intros b; cbn.
  - intros Hb H2. destruct l2 as [|u2 l2]; cbn in *; [lia|]. destruct H2 as (? & ? & ?).
    split_and!; try done; try apply H0; lia.
  - intros (? & ? & ?) H2. split_and!; try done; try apply H0. by apply IH.
Qed.

Lemma chain_weaken text b b' e e' us : b' <= b -> e <= e' -> chain text b e us -> chain text b' e' us.
Proof.
  revert b b'. induction us as [|u us IH]; intros b b' Hb He; cbn; [lia|].
  intros (H1 & H2 & H3). split; [lia|]. split; [done|]. by apply (IH (u_char_end u)).
Qed.

Lemma covers_app text b m e l1 l2 :
  covers text b m l1 -> covers text m e l2 -> covers text b e (l1 ++ l2).
Proof.
  intros H1 H2 p c Hp Hc Hs. destruct (decide (p < m)).
  - destruct (H1 p c) as (u & Hu & ?); [lia|done..|]. exists u. split; [|done]. apply elem_of_app. by left.
  - destruct (H2 p c) as (u & Hu & ?); [lia|done..|]. exists u. split; [|done]. apply elem_of_app. by right.
Qed.

Lemma slice_char (text : pystr) a b p c :
  0 <= a <= p -> p < b -> text !! Z.to_nat p = Some c -> c ∈ slice text a b.
Proof.
  intros Ha Hp Hc. apply (list_elem_of_lookup_2 _ (Z.to_nat (p - a))).
  rewrite slice_lookup by lia. rewrite decide_True by lia.
  by replace (Z.to_nat a + Z.to_nat (p - a))%nat with (Z.to_nat p) by lia.
Qed.

Lemma blank_char s c : blank s = true -> c ∈ s -> is_space c = true.
Proof. unfold blank. rewrite forallb_forall. intros H Hc. apply H. by apply list_elem_of_In. Qed.

Section Units.
Context (text : pystr) (Hnt : no_trailing_newline text) (Hne : text <> []).
Local Abbreviation lines := (split_on newline text).
Local Abbreviation starts := (line_starts text).

(** The unit of the lines [i..j), and the newline after them. *)
Lemma lines_covered i j us :
  (i < j <= length lines)%nat ->
  (forall p, st text i <= p < span_end text j ->
     (exists u, u ∈ us /\ u_char_start u <= p < u_char_end u)
     \/ forall c, text !! Z.to_nat p = Some c -> is_space c = true) ->
  covers text (st text i) (st text j) us.
Proof using Hnt Hne.
  intros Hij Hin p c Hp Hc Hs. destruct (span_run text Hnt Hne i j Hij) as (_ & Hb1 & Hb2).
  destruct (decide (p < span_end text j)) as [Hlt|Hge].
  - destruct (Hin p) as [?|Hsp]; [lia|done|]. by rewrite (Hsp c Hc) in Hs.
  - unfold span_end in Hge, Hb1, Hb2. destruct (Nat.ltb_spec j (length lines)) as [Hj|Hj].
    + pose proof (before_line text Hnt Hne j) as Hnl.
      replace p with (st text j - 1) in Hc by lia. rewrite Hnl in Hc by lia. by simplify_eq.
    + rewrite (st_end text Hnt Hne j) in Hp by lia. lia.
Qed.

Lemma single_unit i j l1 l2 b path :
  (i < j <= length lines)%nat ->
  let us := [mkUnit (slice text (st text i) (span_end text j)) (st text i) (span_end text j)
               l1 l2 b path] in
  chain text (st text i) (st text j) us /\ covers text (st text i) (st text j) us.
Proof using Hnt Hne.
  intros Hij us. destruct (span_run text Hnt Hne i j Hij) as (_ & Hb1 & Hb2).
  split; [cbn; unfold unit_ok; cbn; split_and!; try done; lia|].
  apply lines_covered; [done|]. intros p Hp. left. eexists. split; [left|]. cbn. lia.
Qed.

Lemma unit_of_lines_spec i j b path :
  (i < j <= length lines)%nat ->
  chain text (st text i) (st text j) (unit_of_lines text starts i j b path)
  /\ covers text (st text i) (st text j) (unit_of_lines text starts i j b path).
Proof using Hnt Hne.
  intros Hij. unfold unit_of_lines. destruct (span_run text Hnt Hne i j Hij) as (-> & Hb1 & Hb2).
  destruct (blank _) eqn:Hbl; [|by apply single_unit].
  split; [cbn; lia|]. apply lines_covered; [done|]. intros p Hp. right. intros c Hc.
  eapply blank_char; [exact Hbl|]. eapply slice_char; [|apply Hp|done]. lia.
Qed.

Lemma blank_line_spec i l :
  lines !! i = Some l -> blank l = true ->
  chain text (st text i) (st text (S i)) [] /\ covers text (st text i) (st text (S i)) [].
Proof using Hnt Hne.
  intros Hl Hbl. pose proof (st_mono_le text Hnt Hne i (S i) ltac:(lia)) as Hle. split; [exact Hle|].
  intros p c Hp Hc Hs. exfalso. destruct (line_at text Hnt Hne i l Hl) as [Hch Hn].
  pose proof (st_bounds text Hne i).
  destruct (decide (p < st text i + zlen l)) as [Hlt|Hge].
  - specialize (Hch (Z.to_nat (p - st text i))). unfold zlen in Hlt.
    replace (Z.to_nat (st text i) + Z.to_nat (p - st text i))%nat with (Z.to_nat p) in Hch by lia.
    rewrite Hc in Hch. specialize (Hch ltac:(lia)). symmetry in Hch.
    apply list_elem_of_lookup_2 in Hch.
    by rewrite (blank_char l c Hbl Hch) in Hs.
  - destruct (Nat.ltb_spec (S i) (length lines)) as [Hj|Hj].
    + destruct Hn as [H1 H2]. replace p with (st text i + zlen l) in Hc by lia.
      rewrite H2 in Hc. by simplify_eq.
    + rewrite (st_end text Hnt Hne (S i)) in Hp by lia. lia.
Qed.

Lemma count_while_le p ls : (count_while p ls <= length ls)%nat.
Proof using. induction ls as [|l ls IH]; cbn; [lia|]. destruct (p l); cbn; lia. Qed.

Lemma count_while_head p l ls : p l = true -> (1 <= count_while p (l :: ls))%nat.
Proof using. intros Hp. cbn. rewrite Hp. lia. Qed.

Lemma continues_first code_mode line :
  blank line = false -> negb code_mode && fence line = false ->
  (if code_mode then None else heading_match line) = None ->
  continues code_mode (negb code_mode && list_match line) line = true.
Proof using.
  intros Hb Hf Hh. unfold continues. rewrite Hb. destruct code_mode; [done|]. cbn in *.
  rewrite Hf, Hh. by destruct (list_match line).
Qed.

(** The loop covers the rest of the text in order. *)
Lemma unitize_loop_spec code_mode fuel : forall i stack,
  (i <= length lines)%nat -> (length lines - i <= fuel)%nat ->
  let us := unitize_loop fuel text code_mode starts lines i stack in
  chain text (st text i) (zlen text) us /\ covers text (st text i) (zlen text) us.
Proof using Hnt Hne.
  induction fuel as [|fuel IH]; intros i stack Hi Hfuel us; unfold us; cbn [unitize_loop].
  { rewrite (st_end text Hnt Hne i) by lia. split; [cbn; lia|]. intros p c Hp. lia. }
  destruct (lines !! i) as [line|] eqn:Hline.
  2: { apply lookup_ge_None in Hline. rewrite (st_end text Hnt Hne i) by lia.
       split; [cbn; lia|]. intros p c Hp. lia. }
  assert (i < length lines)%nat as Hlt by (by eapply lookup_lt_Some).
  assert (forall j us1 stack', (i < j <= length lines)%nat ->
    chain text (st text i) (st text j) us1 /\ covers text (st text i) (st text j) us1 ->
    chain text (st text i) (zlen text) (us1 ++ unitize_loop fuel text code_mode starts lines j stack')
    /\ covers text (st text i) (zlen text) (us1 ++ unitize_loop fuel text code_mode starts lines j stack'))
    as Hstep.
  { intros j us1 stack' Hj [H1 H2]. destruct (IH j stack') as [H3 H4]; [lia|lia|].
    split; [by eapply chain_app|by eapply covers_app]. }
  destruct (negb code_mode && fence line) eqn:Hfence.
  { set (j0 := (i + 1 + count_while _ _)%nat).
    assert (i < j0 <= length lines)%nat as Hj0.
    { unfold j0. pose proof (count_while_le (fun l => negb (fence l)) (drop (i + 1) lines)) as Hc.
      rewrite length_drop in Hc. lia. }
    set (j := if (j0 <? length lines)%nat then (j0 + 1)%nat else j0).
    assert (i < j <= length lines)%nat as Hj.
    { unfold j. destruct (Nat.ltb_spec j0 (length lines)); lia. }
    apply Hstep; [done|]. by apply unit_of_lines_spec. }
  destruct (if code_mode then None else heading_match line) as [[level raw]|] eqn:Hhead.
  { destruct (span_run text Hnt Hne i (i + 1)) as (-> & _); [lia|].
    apply (Hstep (i + 1)%nat [_]); [lia|]. apply single_unit. lia. }
  destruct (blank line) eqn:Hblank.
  { apply (Hstep (i + 1)%nat []); [lia|]. rewrite Nat.add_1_r. by eapply blank_line_spec. }
  set (j := (i + count_while _ _)%nat).
  assert (i < j <= length lines)%nat as Hj.
  { unfold j. rewrite (drop_S _ _ _ Hline).
    pose proof (count_while_head (continues code_mode (negb code_mode && list_match line)) line
      (drop (S i) lines) (continues_first code_mode line Hblank Hfence Hhead)).
    pose proof (count_while_le (continues code_mode (negb code_mode && list_match line))
      (line :: drop (S i) lines)) as Hle. cbn [length] in Hle. rewrite length_drop in Hle. lia. }
  apply Hstep; [done|]. by apply unit_of_lines_spec.
Qed.
End Units.

Lemma unitize_spec doc :
  no_trailing_newline (doc_text doc) -> (doc_kind doc = K_EMPTY -> blank (doc_text doc) = true) ->
  chain (doc_text doc) 0 (zlen (doc_text doc)) (unitize doc)
  /\ covers (doc_text doc) 0 (zlen (doc_text doc)) (unitize doc).
Proof.
  intros Hnt Hkind. unfold unitize. pose proof (zlen_nonneg (doc_text doc)) as H0.
  destruct (bool_decide _ || blank _) eqn:Hb.
  { assert (blank (doc_text doc) = true) as Hbl.
    { apply orb_true_iff in Hb as [Hb|Hb]; [|done]. apply bool_decide_eq_true in Hb. by apply Hkind. }
    split; [done|]. intros p c Hp Hc Hs. apply list_elem_of_lookup_2 in Hc.
    by rewrite (blank_char _ _ Hbl Hc) in Hs. }
  apply orb_false_iff in Hb as [_ Hb].
  assert (doc_text doc <> []) as Hne by (intros Heq; by rewrite Heq in Hb).
  unfold unitize_structured. rewrite (proj2 (nonempty_true _) Hne). cbn [negb].
  apply (unitize_loop_spec (doc_text doc) Hnt Hne _ _ 0%nat []); lia.
Qed.

(** * Hard splits *)

Lemma next_cut_bounds text m pos :
  1 <= m -> 0 <= pos < zlen text ->
  1 <= next_cut text m pos <= m /\ next_cut text m pos <= zlen text - pos.
Proof.
  intros Hm Hpos. unfold next_cut. destruct (Z.leb_spec (zlen text - pos) m) as [|Hlt]; [lia|].
  assert (zlen (slice text pos (pos + m)) = m) as Hw by (rewrite zlen_slice; lia).
  assert (0 <= m / 4 <= m) as Hq by (split; [apply Z.div_pos; lia|apply Z.div_le_upper_bound; lia]).
  assert (forall c, rfind (slice text pos (pos + m)) c < m) as Hr.
  { intros c. destruct (rfind_bounds (slice text pos (pos + m)) c) as [Hb|Hb]; lia. }
  pose proof (Hr newline). pose proof (Hr 32).
  destruct (Z.ltb_spec (rfind (slice text pos (pos + m)) newline) (m / 4));
    [destruct (Z.ltb_spec (rfind (slice text pos (pos + m)) 32) (m / 4))
    |rewrite (proj2 (Z.ltb_ge _ _)) by lia]; lia.
Qed.

Section Split.
Context (text : pystr) (u : LogicalUnit) (m : Z) (Hu : unit_ok text u) (Hm : 1 <= m).

Lemma unit_len : zlen (u_text u) = u_char_end u - u_char_start u.
Proof using Hu. destruct Hu as (H1 & H2 & ->). rewrite zlen_slice; lia. Qed.

Definition in_budget (v : LogicalUnit) : Prop := zlen (u_text v) <= m.

Lemma split_loop_spec fuel : forall pos,
  0 <= pos <= zlen (u_text u) -> zlen (u_text u) - pos <= Z.of_nat fuel ->
  let us := split_loop fuel u m pos in
  chain text (u_char_start u + pos) (u_char_end u) us
  /\ covers text (u_char_start u + pos) (u_char_end u) us /\ Forall in_budget us.
Proof using Hu Hm.
  pose proof unit_len as Hlen. pose proof Hu as (Hb1 & Hb2 & Htext).
  induction fuel as [|fuel IH]; intros pos Hpos Hfuel us; unfold us; cbn [split_loop].
  { split_and!; [cbn; lia|intros p c Hp; lia|constructor]. }
  destruct (Z.ltb_spec pos (zlen (u_text u))) as [Hlt|Hge].
  2: { split_and!; [cbn; lia|intros p c Hp; lia|constructor]. }
  destruct (next_cut_bounds (u_text u) m pos Hm) as [Hc1 Hc2]; [lia|].
  set (cut := next_cut (u_text u) m pos) in *.
  set (piece := slice (u_text u) pos (pos + cut)).
  assert (zlen piece = cut) as Hp by (unfold piece; rewrite zlen_slice; lia).
  destruct (nonempty piece) eqn:Hne; cbn [negb].
  2: { destruct piece; [rewrite zlen_nil in Hp; lia|done]. }
  rewrite Hp. destruct (IH (pos + cut)) as (H1 & H2 & H3); [lia|lia|].
  assert (unit_ok text (mkUnit piece (u_char_start u + pos) (u_char_start u + pos + cut)
      (u_line_start u) (u_line_end u) B_HARD_SPLIT (u_heading_path u))) as Hok.
  { unfold unit_ok; cbn. split; [lia|]. split; [lia|]. unfold piece. rewrite Htext.
    rewrite slice_slice by lia. f_equal; lia. }
  rewrite Z.add_assoc in H1, H2. split_and!.
  - cbn [chain]. split; [cbn; lia|]. split; [done|]. exact H1.
  - intros p c Hpr Hc Hs. destruct (decide (p < u_char_start u + pos + cut)).
    + eexists. split; [left|]. cbn. lia.
    + destruct (H2 p c) as (v & Hv & ?); [lia|done..|]. exists v. split; [by right|done].
  - constructor; [|done]. unfold in_budget; cbn. lia.
Qed.

Lemma split_oversized_spec :
  let us := split_oversized u m in
  chain text (u_char_start u) (u_char_end u) us
  /\ covers text (u_char_start u) (u_char_end u) us /\ Forall in_budget us.
Proof using Hu Hm.
  unfold split_oversized. destruct (Z.leb_spec (zlen (u_text u)) m) as [Hle|Hgt].
  - split_and!.
    + cbn. pose proof Hu as (? & ? & ?). split_and!; try done; lia.
    + intros p c Hp _ _. exists u. split; [left|lia].
    + by repeat constructor.
  - pose proof (zlen_nonneg (u_text u)).
    destruct (split_loop_spec (length (u_text u)) 0) as (H1 & H2 & H3); [lia|unfold zlen; lia|].
    by rewrite Z.add_0_r in H1, H2.
Qed.
End Split.

Lemma split_all_spec text m us : forall b e,
  1 <= m -> chain text b e us -> covers text b e us ->
  let us' := mjoin ((fun u => split_oversized u m) <$> us) in
  chain text b e us' /\ covers text b e us' /\ Forall (in_budget m) us'.
Proof.
  intros b e Hm Hch Hcov us'.
  assert (chain text b e us' /\ Forall (in_budget m) us'
    /\ forall u, u ∈ us -> covers text (u_char_start u) (u_char_end u) us') as (H1 & H2 & H3).
  { unfold us'. clear Hcov us'. revert b Hch. induction us as [|u us IH]; intros b Hch.
    { split_and!; [done|constructor|]. by intros u ?%elem_of_nil. }
    destruct Hch as (Hb & Hok & Hch). destruct (IH _ Hch) as (I1 & I2 & I3).
    destruct (split_oversized_spec text u m Hok Hm) as (S1 & S2 & S3). cbn. split_and!.
    - apply (chain_app text b (u_char_end u)); [|done]. by apply (chain_weaken text (u_char_start u) b (u_char_end u)).
    - by apply Forall_app.
    - intros v [->|Hv]%elem_of_cons p c Hp Hc Hs.
      + destruct (S2 p c Hp Hc Hs) as (w & Hw & ?). exists w. split; [apply elem_of_app; by left|done].
      + destruct (I3 v Hv p c Hp Hc Hs) as (w & Hw & ?). exists w. split; [apply elem_of_app; by right|done]. }
  split_and!; [done| |done]. intros p c Hp Hc Hs.
  destruct (Hcov p c Hp Hc Hs) as (u & Hu & Hpu). exact (H3 u Hu p c Hpu Hc Hs).
Qed.

(** Passes that keep the offsets keep chains and coverage. *)
Lemma map_units_spec text m (f : LogicalUnit -> LogicalUnit) us b e :
  (forall u, u_char_start (f u) = u_char_start u /\ u_char_end (f u) = u_char_end u
             /\ (u_text u = slice text (u_char_start u) (u_char_end u) -> u_text (f u) = u_text u)) ->
  chain text b e us -> covers text b e us -> Forall (in_budget m) us ->
  chain text b e (f <$> us) /\ covers text b e (f <$> us) /\ Forall (in_budget m) (f <$> us).
Proof.
  intros Hf Hch Hcov Hbud. split_and!.
  - clear Hcov Hbud. revert b Hch. induction us as [|u us IH]; intros b; cbn; [done|].
    intros (H1 & (O1 & O2 & O3) & H3). destruct (Hf u) as (-> & -> & F3).
    split_and!; [done| |by apply IH]. unfold unit_ok. destruct (Hf u) as (-> & -> & _).
    rewrite F3 by done. done.
  - intros p c Hp Hc Hs. destruct (Hcov p c Hp Hc Hs) as (u & Hu & Hpu).
    exists (f u). split; [by apply list_elem_of_fmap_2|]. destruct (Hf u) as (-> & -> & _). done.
  - clear Hcov. revert b Hch. induction us as [|u us IH]; intros b; [constructor|].
    intros (_ & (O1 & O2 & O3) & H3). apply Forall_cons in Hbud as [Hu Hbud]. cbn. constructor.
    + unfold in_budget. destruct (Hf u) as (_ & _ & ->); done.
    + by apply (IH Hbud (u_char_end u)).
Qed.

Lemma expanded_units_spec doc m :
  no_trailing_newline (doc_text doc) -> (doc_kind doc = K_EMPTY -> blank (doc_text doc) = true) ->
  1 <= m ->
  let us := expanded_units doc m in
  chain (doc_text doc) 0 (zlen (doc_text doc)) us
  /\ covers (doc_text doc) 0 (zlen (doc_text doc)) us /\ Forall (in_budget m) us.
Proof.
  intros Hnt Hkind Hm. destruct (unitize_spec doc Hnt Hkind) as [H1 H2].
  destruct (split_all_spec _ m _ _ _ Hm H1 H2) as (S1 & S2 & S3).
  assert (forall us, chain (doc_text doc) 0 (zlen (doc_text doc)) us /\
    covers (doc_text doc) 0 (zlen (doc_text doc)) us /\ Forall (in_budget m) us ->
    chain (doc_text doc) 0 (zlen (doc_text doc)) (fix_lines (doc_text doc) us) /\
    covers (doc_text doc) 0 (zlen (doc_text doc)) (fix_lines (doc_text doc) us)
    /\ Forall (in_budget m) (fix_lines (doc_text doc) us)) as Hfix.
  { intros us (? & ? & ?). by apply map_units_spec. }
  unfold expanded_units. apply Hfix. destruct (Hfix _ (conj S1 (conj S2 S3))) as (F1 & F2 & F3).
  by apply map_units_spec.
Qed.

(** * Packing *)

Definition group_ok (m : Z) (g : list LogicalUnit) : Prop :=
  exists f l, head g = Some f /\ last g = Some l /\ u_char_end l - u_char_start f <= m.

Lemma pack_loop_spec m us : forall current,
  Forall (fun u => u_char_end u - u_char_start u <= m) us ->
  (current <> [] -> group_ok m current) ->
  mjoin (pack_loop m current us) = current ++ us /\ Forall (group_ok m) (pack_loop m current us).
Proof.
  induction us as [|u us IH]; intros current Hall Hcur; cbn [pack_loop].
  - rewrite app_nil_r. destruct current as [|f c]; [by split; [|constructor]|].
    cbn. rewrite app_nil_r. split; [done|]. constructor; [by apply Hcur|constructor].
  - apply Forall_cons in Hall as [Hu Hall].
    assert (group_ok m [u]) as Hone by (exists u, u; done).
    destruct current as [|f c].
    { by apply (IH [u]). }
    destruct (Hcur ltac:(done)) as (f' & l & [= <-] & Hl & Hspan). rewrite Hl.
    destruct (_ && _) eqn:Hfit.
    + apply andb_true_iff in Hfit as [Hfit _]. apply Z.leb_le in Hfit.
      destruct (IH ((f :: c) ++ [u]) Hall) as [H1 H2].
      { intros _. exists f, u. split; [done|]. split; [by rewrite last_snoc|done]. }
      by rewrite <-app_assoc in H1.
    + destruct (IH [u] Hall ltac:(done)) as [H1 H2]. split; [|by constructor; [apply Hcur|]].
      cbn [mjoin list_join]. unfold mjoin in H1. cbn. f_equal. f_equal. exact H1.
Qed.

(** * Chunks *)

Definition newlines_before (text : pystr) (off : Z) : Z := count_char newline (take (Z.to_nat off) text).

(** What a chunk states about its document. *)
Definition draft_ok `{Sha256} (text : pystr) (m : Z) (d : ChunkDraft) : Prop :=
  0 <= d_char_start d < d_char_end d /\ d_char_end d <= zlen text
  /\ d_content d = slice text (d_char_start d) (d_char_end d)
  /\ zlen (d_content d) <= m /\ blank (d_content d) = false
  /\ d_content_sha256 d = sha_text (d_content d)
  /\ d_line_start d = 1 + newlines_before text (d_char_start d)
  /\ d_line_end d = 1 + newlines_before text (d_char_end d - 1).

(** The chunks follow each other without overlap, numbered from [n]. *)
Fixpoint drafts_ordered (b n : Z) (ds : list ChunkDraft) : Prop :=
  match ds with
  | [] => True
  | d :: ds' => b <= d_char_start d /\ d_ordinal d = n /\ drafts_ordered (d_char_end d) (n + 1) ds'
  end.

Lemma drafts_ordered_weaken b b' n ds : b' <= b -> drafts_ordered b n ds -> drafts_ordered b' n ds.
Proof. destruct ds; cbn; [done|]. intros ? (? & ? & ?). split_and!; [lia|done..]. Qed.

(** The line lookup. *)
Lemma offsets_before text : forall i off,
  0 <= off < zlen text ->
  zlen (List.filter (fun s => s <=? i + off) (newline_offsets text i)) = newlines_before text off.
Proof.
  induction text as [|c text IH]; intros i off [Hoff Hlen]; [change (off < 0) in Hlen; lia|].
  destruct text as [|d text].
  { change (off < 1) in Hlen. assert (off = 0) as -> by lia. done. }
  rewrite newline_offsets_cons. rewrite zlen_cons in Hlen.
  set (text' := d :: text) in *.
  unfold newlines_before in *. destruct (decide (off = 0)) as [->|Hne].
  - assert (forall j, i < j -> List.filter (fun s => s <=? i + 0) (newline_offsets text' j) = []) as Hnone.
    { intros j Hj. apply filterb_none. intros x Hx%newline_offsets_bounds. apply Z.leb_gt. lia. }
    destruct (c =? newline); cbn [List.filter];
      [rewrite (proj2 (Z.leb_gt (i + 1) (i + 0))) by lia|]; rewrite Hnone by lia; done.
  - specialize (IH (i + 1) (off - 1) ltac:(lia)).
    replace (i + 1 + (off - 1)) with (i + off) in IH by lia.
    replace (Z.to_nat off) with (S (Z.to_nat (off - 1))) by lia. cbn [take].
    unfold count_char in *. cbn [List.filter]. destruct (Z.eqb_spec c newline) as [->|Hc].
    + cbn [List.filter]. rewrite (proj2 (Z.leb_le _ _)) by lia. rewrite !zlen_cons, IH. done.
    + exact IH.
Qed.

(** The binary search returns the last index whose start is not past the offset. *)
Lemma line_search_spec starts off : forall fuel lo hi ans,
  (forall i j, 1 <= i <= j -> j < zlen starts -> starts_at starts i <= starts_at starts j) ->
  1 <= lo -> hi < zlen starts -> hi - lo < Z.of_nat fuel ->
  (lo <= hi + 1) -> (1 < lo /\ ans = lo - 1) \/ (lo = 1 /\ ans = 1) ->
  (forall k, 1 <= k < lo -> starts_at starts k <= off) ->
  (forall k, hi < k < zlen starts -> off < starts_at starts k) ->
  starts_at starts 1 <= off -> 1 < zlen starts ->
  let r := line_search fuel starts off lo hi ans in
  1 <= r < zlen starts /\ (forall k, 1 <= k <= r -> starts_at starts k <= off)
  /\ (forall k, r < k < zlen starts -> off < starts_at starts k).
Proof.
  induction fuel as [|fuel IH]; intros lo hi ans Hsorted Hlo Hhi Hfuel Hgap Hans Hlow Hhigh H1 Hlen r;
    unfold r; cbn [line_search].
  { assert (lo = hi + 1) as -> by lia. split; [lia|split].
    - intros k Hk. destruct (decide (k = 1)) as [->|]; [done|]. apply Hlow. lia.
    - intros k Hk. destruct (decide (hi < k)); [apply Hhigh; lia|]. lia. }
  destruct (Z.leb_spec lo hi) as [Hle|Hgt].
  2: { split; [lia|split].
    - intros k Hk. destruct (decide (k = 1)) as [->|]; [done|]. apply Hlow. lia.
    - intros k Hk. apply Hhigh. lia. }
  assert (lo <= (lo + hi) / 2 <= hi) as Hmid by (split; [apply Z.div_le_lower_bound|apply Z.div_le_upper_bound]; lia).
  set (mid := (lo + hi) / 2) in *.
  destruct (Z.leb_spec (starts_at starts mid) off) as [Hm|Hm].
  - apply IH; try done; try lia. intros k Hk. etrans; [|exact Hm]. apply Hsorted; lia.
  - apply IH; try done; try lia. intros k Hk. eapply Z.lt_le_trans; [exact Hm|]. apply Hsorted; lia.
Qed.

(** Two prefixes of an increasing list that are cut at the same value are equal. *)
Lemma count_below (l : list Z) off (r : nat) :
  (r <= length l)%nat ->
  (forall k x, (k < r)%nat -> l !! k = Some x -> x <= off) ->
  (forall k x, (r <= k)%nat -> l !! k = Some x -> off < x) ->
  zlen (List.filter (fun s => s <=? off) l) = Z.of_nat r.
Proof.
  revert r. induction l as [|a l IH]; intros r Hr Hlow Hhigh; [cbn in Hr; by destruct r; [|lia]|].
  cbn [List.filter]. destruct r as [|r].
  - rewrite (proj2 (Z.leb_gt a off)) by (by apply (Hhigh 0%nat); [lia|]).
    apply (IH 0%nat); [lia|intros; lia|]. intros k x Hk Hx. by apply (Hhigh (S k)); [lia|].
  - rewrite (proj2 (Z.leb_le a off)) by (by apply (Hlow 0%nat); [lia|]). rewrite zlen_cons.
    rewrite (IH r); [lia|cbn in Hr; lia| |].
    + intros k x Hk Hx. by apply (Hlow (S k)); [lia|].
    + intros k x Hk Hx. by apply (Hhigh (S k)); [lia|].
Qed.

Lemma line_of_spec text off :
  0 <= off < zlen text -> line_of (line_starts text) off = 1 + newlines_before text off.
Proof.
  intros Hoff. unfold line_of. rewrite (proj2 (Z.ltb_ge off 0)) by lia.
  set (ofs := 0 :: newline_offsets text 0).
  assert (line_starts text = 0 :: ofs) as -> by done.
  assert (forall k : nat, starts_at (0 :: ofs) (Z.of_nat k + 1) = default 0 (ofs !! k)) as Hat.
  { intros k. unfold starts_at. replace (Z.to_nat (Z.of_nat k + 1)) with (S k) by lia.
    cbn [nth]. by rewrite nth_lookup. }
  assert (StronglySorted Z.lt ofs) as Hsorted by apply newline_offsets_sorted.
  assert (zlen (0 :: ofs) = Z.of_nat (length ofs) + 1) as Hlen by (rewrite zlen_cons; unfold zlen; lia).
  edestruct (line_search_spec (0 :: ofs) off (length (0 :: ofs)) 1 (zlen (0 :: ofs) - 1) 1)
    as (Hr1 & Hlow & Hhigh); try (cbn [length]; lia);
    [|change 1 with (Z.of_nat 0 + 1); rewrite Hat; cbn; lia|unfold ofs in *; cbn [length] in *; lia|].
  { intros i j Hi Hj.
    replace i with (Z.of_nat (Z.to_nat (i - 1)) + 1) by lia.
    replace j with (Z.of_nat (Z.to_nat (j - 1)) + 1) by lia. rewrite !Hat.
    destruct (lookup_lt_is_Some_2 ofs (Z.to_nat (i - 1))) as [x Hx]; [lia|].
    destruct (lookup_lt_is_Some_2 ofs (Z.to_nat (j - 1))) as [y Hy]; [lia|].
    rewrite Hx, Hy. cbn. destruct (decide (i = j)) as [->|]; [simplify_eq; lia|].
    apply Z.lt_le_incl. eapply (sorted_lookup_lt ofs (Z.to_nat (i - 1)) (Z.to_nat (j - 1))); eauto. lia. }
  set (r := line_search _ _ _ _ _ _) in *.
  enough (newlines_before text off = r - 1) by lia. rewrite <-(offsets_before text 0 off Hoff).
  change (fun s => s <=? 0 + off) with (fun s => s <=? off).
  rewrite (count_below _ off (Z.to_nat (r - 1))); [lia|..].
  - unfold ofs in *. cbn [length] in *. lia.
  - intros k x Hk Hx. specialize (Hlow (Z.of_nat (S k) + 1) ltac:(lia)). rewrite Hat in Hlow.
    change (ofs !! S k) with (newline_offsets text 0 !! k) in Hlow. by rewrite Hx in Hlow.
  - intros k x Hk Hx. pose proof (lookup_lt_Some _ _ _ Hx) as Hklen.
    specialize (Hhigh (Z.of_nat (S k) + 1)). rewrite Hat in Hhigh.
    change (ofs !! S k) with (newline_offsets text 0 !! k) in Hhigh. rewrite Hx in Hhigh. apply Hhigh. unfold ofs in *. cbn [length] in *. lia.
Qed.

(** A group of consecutive units spans a contiguous piece of the text. *)
Lemma chain_group text g f l rest : forall b e,
  chain text b e (g ++ rest) -> head g = Some f -> last g = Some l ->
  b <= u_char_start f /\ 0 <= u_char_start f <= u_char_end l /\ u_char_end l <= zlen text
  /\ (forall u, u ∈ g -> u_char_start f <= u_char_start u /\ u_char_end u <= u_char_end l)
  /\ chain text (u_char_end l) e rest.
Proof.
  revert f l. induction g as [|f' g IH]; intros f l b e Hch Hf Hl; [done|]. injection Hf as ->.
  destruct Hch as (H1 & (O1 & O2 & O3) & H3). destruct g as [|f2 g].
  - injection Hl as ->. cbn in H3. split_and!; try done; try lia.
    intros u ->%list_elem_of_singleton. lia.
  - destruct (IH f2 l _ _ H3 eq_refl Hl) as (G1 & G2 & G3 & G4 & G5). split_and!; try done; try lia.
    intros u [->|Hu]%elem_of_cons.
    + destruct (G4 f2); [by left|]. destruct H3 as (_ & (? & _) & _). lia.
    + destruct (G4 u Hu). lia.
Qed.

Section Drafts.
Context `{Sha256}.

(** The draft made of a group that spans [cs..ce). *)
Lemma draft_loop_step text m n f g' l rest cs ce :
  last (f :: g') = Some l -> u_char_start f = cs -> u_char_end l = ce ->
  0 <= cs <= ce -> ce <= zlen text -> ce - cs <= m ->
  (blank (slice text cs ce) = true /\ draft_loop text m n ((f :: g') :: rest) = draft_loop text m n rest)
  \/ exists d, draft_loop text m n ((f :: g') :: rest) = d :: draft_loop text m (n + 1) rest
     /\ draft_ok text m d /\ d_ordinal d = n /\ d_char_start d = cs /\ d_char_end d = ce.
Proof.
  intros Hl <- <- Hcs Hce Hm. cbn [draft_loop]. rewrite Hl. cbn [default from_option]. unfold id.
  set (cs := u_char_start f) in *. set (ce := u_char_end l) in *.
  destruct (blank (slice text cs ce)) eqn:Hb; [left; split; reflexivity|]. right.
  pose proof (zlen_slice text cs ce ltac:(lia) ltac:(lia) ltac:(lia)) as Hz.
  rewrite (proj2 (Z.ltb_ge m (zlen (slice text cs ce)))) by lia.
  assert (cs < ce) as Hlt.
  { destruct (decide (cs = ce)) as [He|]; [|lia]. by rewrite He, slice_empty in Hb by lia. }
  assert (text <> []) as Hne by (intros ->; change (zlen []) with 0 in Hce; lia).
  rewrite (proj2 (nonempty_true _) Hne).
  eexists. split; [reflexivity|]. split; [|done]. unfold draft_ok. cbn.
  rewrite (Z.max_r cs (ce - 1)) by lia.
  rewrite !line_of_spec by lia. split_and!; try done; lia.
Qed.

Lemma draft_loop_spec text m groups : forall b n,
  chain text b (zlen text) (mjoin groups) -> Forall (group_ok m) groups ->
  let ds := draft_loop text m n groups in
  Forall (draft_ok text m) ds /\ drafts_ordered b n ds
  /\ forall p c, text !! Z.to_nat p = Some c -> is_space c = false ->
     (exists u, u ∈ mjoin groups /\ u_char_start u <= p < u_char_end u) ->
     exists d, d ∈ ds /\ d_char_start d <= p < d_char_end d.
Proof.
  induction groups as [|g groups IH]; intros b n Hch Hok; cbn zeta.
  { split; [constructor|]. split; [done|]. intros p c _ _ (u & Hu & _). by apply elem_of_nil in Hu. }
  apply Forall_cons in Hok as [(f & l & Hf & Hl & Hm) Hok].
  change (mjoin (g :: groups)) with (g ++ mjoin groups) in *.
  destruct (chain_group _ _ _ _ _ _ _ Hch Hf Hl) as (G1 & G2 & G3 & G4 & G5).
  destruct g as [|f' g]; [done|]. injection Hf as ->.
  destruct (draft_loop_step text m n f g l groups _ _ Hl eq_refl eq_refl G2 G3 Hm)
    as [[Hb ->]|(d & -> & Hd & Hn & Hcs & Hce)].
  - destruct (IH _ n G5 Hok) as (I1 & I2 & I3). split; [done|].
    split; [eapply drafts_ordered_weaken; [|exact I2]; lia|].
    intros p c Hc Hsp (u & [Hu|Hu]%elem_of_app & Hp); [exfalso|by apply (I3 p c); eauto].
    destruct (G4 u Hu) as [? ?].
    assert (c ∈ slice text (u_char_start f) (u_char_end l)) as Hin by (eapply slice_char; [| |exact Hc]; lia).
    by rewrite (blank_char _ _ Hb Hin) in Hsp.
  - destruct (IH _ (n + 1) G5 Hok) as (I1 & I2 & I3). split; [by constructor|].
    split; [cbn; split_and!; [lia|done|by rewrite Hce]|].
    intros p c Hc Hsp (u & [Hu|Hu]%elem_of_app & Hp).
    + destruct (G4 u Hu) as [? ?]. exists d. split; [by left|]. lia.
    + destruct (I3 p c) as (d' & Hd' & Hin); [eauto..|]. exists d'. split; [by right|done].
Qed.

Lemma chunk_hybrid_spec doc m :
  no_trailing_newline (doc_text doc) -> (doc_kind doc = K_EMPTY -> blank (doc_text doc) = true) ->
  1 <= m ->
  exists ds, chunk_hybrid doc m = Ok ds /\ Forall (draft_ok (doc_text doc) m) ds /\ drafts_ordered 0 0 ds
  /\ forall p c, 0 <= p -> doc_text doc !! Z.to_nat p = Some c -> is_space c = false ->
     exists d, d ∈ ds /\ d_char_start d <= p < d_char_end d.
Proof.
  intros Hnt Hkind Hm. unfold chunk_hybrid. rewrite (proj2 (Z.ltb_ge m 1)) by lia.
  destruct (expanded_units_spec doc m Hnt Hkind Hm) as (Hch & Hcov & Hbud).
  assert (Forall (fun u => u_char_end u - u_char_start u <= m) (expanded_units doc m)) as Hbud'.
  { clear Hcov. revert Hch Hbud. generalize 0 at 1. induction (expanded_units doc m) as [|u us IH];
      intros b Hch Hbud; [constructor|].
    destruct Hch as (? & (O1 & O2 & O3) & Hch). apply Forall_cons in Hbud as [Hu Hbud].
    constructor; [|by apply (IH (u_char_end u))]. unfold in_budget in Hu. rewrite O3, zlen_slice in Hu by lia. lia. }
  destruct (pack_loop_spec m (expanded_units doc m) [] Hbud' ltac:(done)) as [Hjoin Hgroups].
  fold (pack (expanded_units doc m) m) in Hjoin, Hgroups. cbn [app] in Hjoin.
  rewrite <-Hjoin in Hch, Hcov.
  destruct (draft_loop_spec (doc_text doc) m _ 0 0 Hch Hgroups) as (D1 & D2 & D3).
  eexists. split; [done|]. split; [done|]. split; [done|].
  intros p c Hp Hc Hs. apply (D3 p c Hc Hs). apply (Hcov p c); [|done..].
  apply lookup_lt_Some in Hc. unfold zlen. lia.
Qed.
End Drafts.

(** * Canonical documents *)

Section CanonicalDocuments.
Context `{Sha256}.

Lemma last_join (lines : list pystr) l c s :
  last lines = Some l -> l = s ++ [c] -> last (join [newline] lines) = Some c.
Proof.
  intros Hlast ->. induction lines as [|l0 lines IH]; [done|].
  destruct lines as [|l1 lines].
  - injection Hlast as ->. cbn. by rewrite last_snoc.
  - assert (join [newline] (l0 :: l1 :: lines) = l0 ++ newline :: join [newline] (l1 :: lines)) as -> by done.
    rewrite last_app, last_cons. by rewrite (IH Hlast).
Qed.

Lemma canonical_no_trailing raw : no_trailing_newline (doc_text (normalize_to_canonical raw)).
Proof.
  change (no_trailing_newline (join [newline] (canonical_lines raw))). unfold no_trailing_newline.
  pose proof (canonical_lines_clean raw) as (Hc & _ & Hl). destruct (last (canonical_lines raw)) as [l|] eqn:E.
  - destruct (exists_last (l := l)) as (s & c & Hs); [by intros ->|].
    rewrite (last_join _ _ c s E Hs). intros [= ->].
    rewrite Forall_forall in Hc. destruct (Hc l) as (Hnl & _); [by apply last_Some_elem_of|].
    apply Hnl. rewrite Hs. apply elem_of_app. right. by left.
  - apply last_None in E. by rewrite E.
Qed.

Lemma canonical_empty_blank raw :
  doc_kind (normalize_to_canonical raw) = K_EMPTY ->
  blank (doc_text (normalize_to_canonical raw)) = true.
Proof.
  change (detect_kind (canonical_text raw) = K_EMPTY -> blank (canonical_text raw) = true).
  unfold detect_kind. destruct (nonempty (strip (canonical_text raw))) eqn:E; cbn [negb].
  - by repeat case_match.
  - intros _. rewrite <-blank_strip. by destruct (strip (canonical_text raw)).
Qed.

(** C29 Provenance of the chunks of a canonical document: for every budget of at
    least one character [chunk_hybrid] succeeds, and each chunk is literally the
    slice of the document between its offsets, is within the budget, is not
    blank, carries the digest of its content, and its first and last line are
    the lines of its first and last character; the chunks are numbered from 0
    and follow each other without overlap. *)
Theorem chunk_provenance (raw : pystr) (max_chars : Z) (Hmax : 1 <= max_chars) :
  let doc := normalize_to_canonical raw in
  exists chunks, chunk_hybrid doc max_chars = Ok chunks
  /\ Forall (draft_ok (doc_text doc) max_chars) chunks /\ drafts_ordered 0 0 chunks.
Proof.
  destruct (chunk_hybrid_spec (normalize_to_canonical raw) max_chars
              (canonical_no_trailing raw) (canonical_empty_blank raw) Hmax) as (ds & ? & ? & ? & _).
  by exists ds.
Qed.

(** C30 Coverage: every character of a canonical document that is not white space
    is in a chunk, whatever the headings, fences, lists and oversized blocks. *)
Theorem chunk_coverage (raw : pystr) (max_chars : Z) (chunks : list ChunkDraft) (p c : Z) :
  let doc := normalize_to_canonical raw in
  chunk_hybrid doc max_chars = Ok chunks -> 0 <= p ->
  doc_text doc !! Z.to_nat p = Some c -> is_space c = false ->
  exists d, d ∈ chunks /\ d_char_start d <= p < d_char_end d.
Proof.
  intros doc Hrun Hp Hc Hs. destruct (decide (1 <= max_chars)) as [Hm|Hm].
  - destruct (chunk_hybrid_spec doc max_chars (canonical_no_trailing raw) (canonical_empty_blank raw) Hm)
      as (ds & Hds & _ & _ & Hcov). rewrite Hds in Hrun. injection Hrun as ->. by apply (Hcov p c).
  - unfold chunk_hybrid in Hrun. by rewrite (proj2 (Z.ltb_lt max_chars 1)) in Hrun by lia.
Qed.

(** The row check of the table accepts every chunk. *)
Lemma draft_check text m d n :
  draft_ok text m d -> d_ordinal d = n -> 0 <= n ->
  (0 <=? d_ordinal d) && ((0 <=? d_char_start d) && (d_char_start d <=? d_char_end d))
  && ((1 <=? d_line_start d) && (d_line_start d <=? d_line_end d)) = true.
Proof.
  intros (H1 & H2 & _ & _ & _ & _ & -> & ->) -> Hn.
  assert (0 <= newlines_before text (d_char_start d)) by apply zlen_nonneg.
  assert (newlines_before text (d_char_start d) <= newlines_before text (d_char_end d - 1)).
  { unfold newlines_before, count_char.
    replace (Z.to_nat (d_char_end d - 1))
      with (Z.to_nat (d_char_start d) + Z.to_nat (d_char_end d - 1 - d_char_start d))%nat by lia.
    rewrite <-take_take_drop, List.filter_app, zlen_app. pose proof (zlen_nonneg (List.filter (fun x => x =? newline)
      (take (Z.to_nat (d_char_end d - 1 - d_char_start d)) (drop (Z.to_nat (d_char_start d)) text)))). lia. }
  rewrite !andb_true_iff, !Z.leb_le. lia.
Qed.

Lemma drafts_ordinals b n ds d : drafts_ordered b n ds -> d ∈ ds -> n <= d_ordinal d < n + zlen ds.
Proof.
  revert b n. induction ds as [|d0 ds IH]; intros b n Hds Hd; [by apply elem_of_nil in Hd|].
  destruct Hds as (_ & Hn & Hds). rewrite zlen_cons. pose proof (zlen_nonneg ds).
  apply elem_of_cons in Hd as [->|Hd]; [lia|]. specialize (IH _ _ Hds Hd). lia.
Qed.
End CanonicalDocuments.

Module ChunkSample.
Definition sha : Sha256 := fun b => py "00".
(** A document with a heading, a paragraph, a list and an indented item. *)
Definition raw : pystr :=
  py "# T" ++ [10; 10] ++ py "para one" ++ [10] ++ py "para two" ++ [10; 10] ++ py "- item"
  ++ [10] ++ py "  more" ++ [10].
Definition chunks (m : Z) : list ChunkDraft :=
  match chunk_hybrid (H := sha) (normalize_to_canonical (H := sha) raw) m with Ok ds => ds | Raise _ => [] end.

Example chunks_of_20 :
  (fun d => (d_char_start d, d_char_end d, d_line_start d, d_line_end d, d_heading_path d)) <$> chunks 20
  = [(0, 3, 1, 1, [py "T"]); (5, 22, 3, 4, [py "T"]); (24, 37, 6, 7, [py "T"])].
Proof. vm_compute. reflexivity. Qed.

Example hard_split_of_7 : zlen (chunks 7) = 7.
Proof. vm_compute. reflexivity. Qed.
End ChunkSample.

Lemma chunk_provenance_witness :
  exists ds, chunk_hybrid (H := ChunkSample.sha) (normalize_to_canonical (H := ChunkSample.sha) ChunkSample.raw) 20 = Ok ds
  /\ Forall (draft_ok (H := ChunkSample.sha) (doc_text (normalize_to_canonical (H := ChunkSample.sha) ChunkSample.raw)) 20) ds
  /\ drafts_ordered 0 0 ds.
Proof. apply (chunk_provenance (H := ChunkSample.sha) ChunkSample.raw 20). lia. Defined.

Lemma chunk_coverage_witness :
  exists d, d ∈ ChunkSample.chunks 20 /\ d_char_start d <= 24 < d_char_end d.
Proof.
  apply (chunk_coverage (H := ChunkSample.sha) ChunkSample.raw 20 _ 24 45);
    [vm_compute; reflexivity|lia|vm_compute; reflexivity|vm_compute; reflexivity].
Defined.
