(* ===== verification/IngestionQueue.v ===== *)
(** The ingestion queue: IngestionJobRepository and DocumentChunkRepository of
    src/challengeforge/persistence/repositories.py.

    Every operation is a computation over the database; the current time and
    fresh identifiers are arguments, and [claim_next] is given the rows other
    transactions hold locked, which SKIP LOCKED passes over. *)
From Stdlib Require Import ZArith Lia String.
From stdpp Require Import prelude strings gmap sorting.
From S2P Require Import Prelude PyFloat PyStr Domain Database Json Canonical Chunking.

Module IngestionJobRepository.

Definition job_status (st : IngestionStatus) (r : IngestionJob) : bool :=
  bool_decide (j_status r = st).

(** [persistence/repositories.py:967-989 IngestionJobRepository.enqueue] *)
Definition enqueue (fresh : uuid) (now : datetime) (submission_id : uuid) (artifact_key : pystr)
    : M exn Db IngestionJob :=
  let row := mkJob fresh submission_id artifact_key I_QUEUED 0 now now now None None None None
               None None in
  insert_job row ;;
  mret row.

(** [persistence/repositories.py:991-993 IngestionJobRepository.get] *)
Definition get_job (job_id : uuid) : M exn Db (option IngestionJob) :=
  gets_st (fun db => ingestion_jobs db !! job_id).

Definition claimable (now : datetime) (r : IngestionJob) : bool :=
  job_status I_QUEUED r && (j_available_at r <=? now).

(** [select where status = 'queued' and available_at <= now order by created_at, id] *)
Definition claimable_fifo (now : datetime) (db : Db) : list IngestionJob :=
  order_by_created j_created_at j_id (rows_where (claimable now) (ingestion_jobs db)).

(** The values the claim writes. *)
Definition claimed_job (now : datetime) (worker_id : pystr) (row : IngestionJob) : IngestionJob :=
  row <| j_status := I_RUNNING |> <| j_attempt_count := j_attempt_count row + 1 |>
      <| j_worker_id := Some worker_id |> <| j_started_at := Some now |>
      <| j_updated_at := now |> <| j_error_code := None |> <| j_error_message := None |>.

(** [persistence/repositories.py:995-1019 IngestionJobRepository.claim_next] *)
Definition claim_next_job (locked : gset uuid) (now : datetime) (worker_id : pystr)
    : M exn Db (option IngestionJob) :=
  rows ← gets_st (claimable_fifo now);
  match List.filter (fun r => bool_decide (j_id r ∉ locked)) rows with
  | [] => mret None
  | row :: _ =>
      let row' := claimed_job now worker_id row in
      update_job (j_id row) row' ;;
      mret (Some row')
  end.

(** [UPDATE ... WHERE id = .. AND status = 'running' AND worker_id = .. RETURNING] *)
Definition update_owned_job (job_id : uuid) (worker_id : pystr)
    (values : IngestionJob -> IngestionJob) : M exn Db (option IngestionJob) :=
  found ← get_job job_id;
  match found with
  | Some r =>
      if job_status I_RUNNING r && bool_decide (j_worker_id r = Some worker_id) then
        update_job job_id (values r) ;;
        mret (Some (values r))
      else mret None
  | None => mret None
  end.

(** [persistence/repositories.py:1021-1047 IngestionJobRepository.mark_succeeded] *)
Definition mark_job_succeeded (now : datetime) (job_id : uuid) (worker_id result_key : pystr)
    : M exn Db (option IngestionJob) :=
  update_owned_job job_id worker_id (fun r =>
    r <| j_status := I_SUCCEEDED |> <| j_result_key := Some result_key |>
      <| j_completed_at := Some now |> <| j_updated_at := now |>
      <| j_error_code := None |> <| j_error_message := None |>).

(** [persistence/repositories.py:1049-1079 IngestionJobRepository.mark_failed] *)
Definition mark_job_failed (now : datetime) (job_id : uuid) (worker_id error_code error_message : pystr)
    : M exn Db (option IngestionJob) :=
  update_owned_job job_id worker_id (fun r =>
    r <| j_status := I_FAILED |> <| j_completed_at := Some now |> <| j_updated_at := now |>
      <| j_error_code := Some error_code |>
      <| j_error_message := Some (slice error_message 0 2000) |>).

(** [now + timedelta(seconds=max(0.0, delay_seconds))] *)
Definition available_after (now : datetime) (delay_seconds : float) : option datetime :=
  match timedelta_seconds (fmax fzero delay_seconds) with
  | Some (Some d) => datetime_add now d
  | _ => None
  end.

(** [persistence/repositories.py:1081-1116 IngestionJobRepository.release_for_retry] *)
Definition release_job_for_retry (now : datetime) (job_id : uuid)
    (worker_id error_code error_message : pystr) (delay_seconds : float)
    : M exn Db (option IngestionJob) :=
  match available_after now delay_seconds with
  | None => raise (OtherError "OverflowError")
  | Some available =>
      update_owned_job job_id worker_id (fun r =>
        r <| j_status := I_QUEUED |> <| j_worker_id := None |> <| j_started_at := None |>
          <| j_available_at := available |> <| j_updated_at := now |>
          <| j_error_code := Some error_code |>
          <| j_error_message := Some (slice error_message 0 2000) |>)
  end.

Definition stale_job (stale_before : datetime) (r : IngestionJob) : bool :=
  job_status I_RUNNING r
  && match j_started_at r with Some t => t <? stale_before | None => false end.

Definition started_le (a b : IngestionJob) : Prop :=
  default 0 (j_started_at a) <= default 0 (j_started_at b).
#[export] Instance started_le_dec a b : Decision (started_le a b).
Proof. unfold started_le. apply _. Defined.

(** The body of the recovery loop. *)
Definition recover_job (now : datetime) (max_attempts : Z) (row : IngestionJob) : IngestionJob :=
  if max_attempts <=? j_attempt_count row then
    row <| j_status := I_FAILED |> <| j_completed_at := Some now |> <| j_updated_at := now |>
        <| j_error_code := Some (py "stale_exhausted") |>
        <| j_error_message := Some (py
             "Stale RUNNING ingestion job exhausted attempts (worker crash recovery).") |>
        <| j_worker_id := None |>
  else
    row <| j_status := I_QUEUED |> <| j_worker_id := None |> <| j_started_at := None |>
        <| j_available_at := now |> <| j_updated_at := now |>
        <| j_error_code := Some (py "stale_requeued") |>
        <| j_error_message := Some (py "Requeued after stale RUNNING (worker crash).") |>.

(** [persistence/repositories.py:1118-1156 IngestionJobRepository.recover_stale_running] *)
Definition recover_stale_jobs (now stale_before : datetime) (max_attempts : Z)
    : M exn Db (list IngestionJob) :=
  rows ← gets_st (fun db => merge_sort started_le (rows_where (stale_job stale_before) (ingestion_jobs db)));
  mapM (fun row =>
          let row' := recover_job now max_attempts row in
          update_job (j_id row) row' ;;
          mret row') rows.

(** [persistence/repositories.py:1158-1163 IngestionJobRepository.count_by_status]: a
    status without rows has no entry. *)
Definition count_jobs_by_status (db : Db) (st : IngestionStatus) : option Z :=
  let n := countb (job_status st) (ingestion_jobs db) in
  if n =? 0 then None else Some n.
End IngestionJobRepository.

Module DocumentChunkRepository.

Definition of_job (job_id : uuid) (r : DocumentChunk) : bool :=
  bool_decide (dc_ingestion_job_id r = job_id).

(** [DELETE FROM document_chunks WHERE ingestion_job_id = ..] *)
Definition without_job (job_id : uuid) (t : gmap uuid DocumentChunk) : gmap uuid DocumentChunk :=
  filter (fun kv => of_job job_id kv.2 = false) t.

(** [persistence/repositories.py:1215-1221 DocumentChunkRepository.delete_for_job] *)
Definition delete_for_job (job_id : uuid) : M exn Db Z :=
  db ← get_st;
  modify_st (set_document_chunks (without_job job_id (document_chunks db))) ;;
  mret (countb (of_job job_id) (document_chunks db)).

(** The row of one draft. *)
Definition chunk_row (fresh : uuid) (now : datetime) (job_id submission_id : uuid)
    (artifact_key parser_version chunker_version : pystr) (d : ChunkDraft) : DocumentChunk :=
  mkChunk fresh job_id submission_id artifact_key parser_version chunker_version
    (d_ordinal d) (d_content d) (d_content_sha256 d) (d_char_start d) (d_char_end d)
    (d_line_start d) (d_line_end d) (py (value (d_block_type d))) (d_heading_path d)
    (d_oversized_split d) now.

(** [persistence/repositories.py:1172-1213 DocumentChunkRepository.replace_for_job],
    with the identifiers of the new rows in the order of the chunks. *)
Definition replace_for_job (fresh : nat -> uuid) (now : datetime) (job_id submission_id : uuid)
    (artifact_key parser_version chunker_version : pystr) (chunks : list ChunkDraft)
    : M exn Db (list DocumentChunk) :=
  delete_for_job job_id ;;
  mapM (fun row => insert_chunk row ;; mret row)
    (imap (fun i d => chunk_row (fresh i) now job_id submission_id artifact_key parser_version
                        chunker_version d) chunks).

Definition ordinal_le (a b : DocumentChunk) : Prop := dc_ordinal a <= dc_ordinal b.
#[export] Instance ordinal_le_dec a b : Decision (ordinal_le a b).
Proof. unfold ordinal_le. apply _. Defined.

(** [persistence/repositories.py:1223-1231 DocumentChunkRepository.list_for_job] *)
Definition list_for_job (job_id : uuid) : M exn Db (list DocumentChunk) :=
  gets_st (fun db => merge_sort ordinal_le (rows_where (of_job job_id) (document_chunks db))).

(** [persistence/repositories.py:1233-1239 DocumentChunkRepository.count_for_job] *)
Definition count_for_job (job_id : uuid) : M exn Db Z :=
  gets_st (fun db => countb (of_job job_id) (document_chunks db)).
End DocumentChunkRepository.

(** * The transactions of the system *)

Section Transactions.
Import IngestionJobRepository DocumentChunkRepository.

(** [ingestion/worker.py:138-159 IngestionWorker.run_once], its last transaction. *)
Definition succeed_txn (fresh : nat -> uuid) (now : datetime) (claimed : IngestionJob)
    (worker_id parser_version chunker_version : pystr) (chunks : list ChunkDraft)
    (result_key : pystr) : M exn Db (option IngestionJob) :=
  replace_for_job fresh now (j_id claimed) (j_submission_id claimed) (j_artifact_key claimed)
    parser_version chunker_version chunks ;;
  mark_job_succeeded now (j_id claimed) worker_id result_key.

(** [ingestion/worker.py:114-123 IngestionWorker.run_once], its failure transaction. *)
Definition fail_txn (now : datetime) (job_id : uuid) (worker_id code message : pystr)
    : M exn Db (option IngestionJob) :=
  delete_for_job job_id ;;
  mark_job_failed now job_id worker_id code message.

(** [ingestion/worker.py:178-187 IngestionWorker._handle_retryable], its retry transaction. *)
Definition retry_txn (now : datetime) (job_id : uuid) (worker_id code message : pystr)
    (delay : float) : M exn Db (option IngestionJob) :=
  delete_for_job job_id ;;
  release_job_for_retry now job_id worker_id code message delay.

(** One transaction on the ingestion tables, by a request that enqueues or by any
    worker, with what the environment supplies. *)
Inductive IngestAction :=
| IEnqueue (fresh : uuid) (now : datetime) (submission_id : uuid) (artifact_key : pystr)
| IClaim (locked : gset uuid) (now : datetime) (worker_id : pystr)
| ISucceed (fresh : nat -> uuid) (now : datetime) (claimed : IngestionJob)
    (worker_id parser_version chunker_version : pystr) (chunks : list ChunkDraft) (result_key : pystr)
| IPersist (fresh : nat -> uuid) (now : datetime) (claimed : IngestionJob)
    (parser_version chunker_version : pystr) (chunks : list ChunkDraft)
| IFail (now : datetime) (job_id : uuid) (worker_id code message : pystr)
| IRetry (now : datetime) (job_id : uuid) (worker_id code message : pystr) (delay : float)
| IRecover (now stale_before : datetime) (max_attempts : Z)
| ICleanup (job_id : uuid).

(** The transaction, up to its commit. *)
Definition perform_ingest (a : IngestAction) : M exn Db unit :=
  match a with
  | IEnqueue f now s k => enqueue f now s k ;; mret tt
  | IClaim locked now w => claim_next_job locked now w ;; mret tt
  | ISucceed f now j w pv cv cs rk => succeed_txn f now j w pv cv cs rk ;; mret tt
  | IPersist f now j pv cv cs =>
      replace_for_job f now (j_id j) (j_submission_id j) (j_artifact_key j) pv cv cs ;; mret tt
  | IFail now j w c m => fail_txn now j w c m ;; mret tt
  | IRetry now j w c m d => retry_txn now j w c m d ;; mret tt
  | IRecover now sb ma => recover_stale_jobs now sb ma ;; mret tt
  | ICleanup j => delete_for_job j ;; mret tt
  end.

(** Committed when it returns, undone when it raises. *)
Definition ingest_step (db : Db) (a : IngestAction) : Db :=
  match perform_ingest a db with
  | (Ok _, db') => db'
  | (Raise _, _) => db
  end.
Definition ingest_steps (db : Db) (l : list IngestAction) : Db := foldl ingest_step db l.
End Transactions.
