(* ===== verification/IngestionWorker.v ===== *)
(** Ingestion: the stages of one artifact (src/challengeforge/ingestion/processor.py)
    and the worker that claims jobs, runs the stages and settles the job
    (src/challengeforge/ingestion/worker.py).

    The worker acts on a world of a database and a file store.  Each
    [async with session_factory()] block is one transaction, which is undone
    when it raises before its commit.  Times and fresh identifiers are given by
    an environment; the three crash switches of the worker are part of its
    configuration. *)
From Stdlib Require Import ZArith Lia String.
From stdpp Require Import prelude strings gmap.
From S2P Require Import Prelude PyFloat PyStr Domain Database Json Utf8 Storage Canonical Chunking.
From S2P Require Import IngestionQueue.
Import IngestionJobRepository DocumentChunkRepository.

(** * Stages *)

(** [ingestion/processor.py:31-31 POISON_PREFIX] *)
Definition POISON_PREFIX : bytes := py "cf_ingest_poison".
(** [ingestion/processor.py:32-32 TRANSIENT_PREFIX] *)
Definition TRANSIENT_PREFIX : bytes := py "cf_ingest_transient".

(** [ingestion/processor.py:35-46 DeterministicIngestError], TransientIngestError,
    and any other exception of a stage. *)
Inductive ingest_exn :=
| DeterministicIngestError (code message : pystr)
| TransientIngestError (code message : pystr)
| UnexpectedError (e : exn).

(** [ingestion/processor.py:49-60 IngestResult] *)
Record IngestResult := mkIngest {
  ir_result_key : pystr;
  ir_canonical_key : pystr;
  ir_parser_version : pystr;
  ir_chunker_version : pystr;
  ir_canonical_chars : Z;
  ir_canonical_sha256 : pystr;
  ir_content_kind : pystr;
  ir_chunk_count : Z;
  ir_max_chunk_chars : Z;
  ir_chunks : list ChunkDraft;
}.

(** [ingestion/processor.py:63-64 result_key_for] *)
Definition result_key_for (job_id : uuid) : pystr :=
  py "ingestion/" ++ uuid_str job_id ++ py "/result.json".

(** [ingestion/processor.py:67-68 canonical_key_for] *)
Definition canonical_key_for (job_id : uuid) : pystr :=
  py "ingestion/" ++ uuid_str job_id ++ py "/canonical.txt".

(** A storage call inside the stages: its exceptions are unexpected ones. *)
Definition lift_io {A} (c : M exn Fs A) : M ingest_exn Fs A := fun fs =>
  match c fs with
  | (Ok a, fs') => (Ok a, fs')
  | (Raise e, fs') => (Raise (UnexpectedError e), fs')
  end.

Section Stages.
Context `{Sha256} `{FloatRepr}.

(** [path.write_text(text, encoding="utf-8")] of a file below the incoming root:
    the file is opened, hence emptied, before the text is encoded. *)
Definition write_text (now : float) (p : path) (text : pystr) : M exn Fs unit :=
  match utf8 text with
  | Some d => modify_st (write_file now p d)
  | None => modify_st (write_file now p []) ;; raise (ValueError "surrogates not allowed")
  end.

(** The manifest of a job. *)
Definition manifest (job_id : uuid) (artifact_key : pystr) (attempt_count max_chunk_chars : Z)
    (chunker_version : pystr) (doc : CanonicalDocument) (chunks : list ChunkDraft) : json :=
  JObj [(py "stage", JStr (py "CHUNKED"));
        (py "job_id", JStr (uuid_str job_id));
        (py "artifact_key", JStr artifact_key);
        (py "parser_version", JStr PARSER_VERSION);
        (py "chunker_version", JStr chunker_version);
        (py "content_kind", JStr (py (value (doc_kind doc))));
        (py "canonical_key", JStr (canonical_key_for job_id));
        (py "canonical_chars", JInt (char_count doc));
        (py "canonical_sha256", JStr (doc_content_sha256 doc));
        (py "canonical_line_count", JInt (doc_line_count doc));
        (py "chunk_count", JInt (zlen chunks));
        (py "max_chunk_chars", JInt max_chunk_chars);
        (py "attempt_count", JInt attempt_count);
        (py "chunk_ordinals", JList ((fun c => JInt (d_ordinal c)) <$> chunks));
        (py "chunk_content_sha256", JList ((fun c => JStr (d_content_sha256 c)) <$> chunks))].

Definition incoming_canonical (job_id : uuid) : path :=
  incoming_root ++ [py "ingest-canonical-" ++ uuid_str job_id].
Definition incoming_result (job_id : uuid) : path :=
  incoming_root ++ [py "ingest-result-" ++ uuid_str job_id].

(** What the stages compute from the bytes of the artifact. *)
Definition parse_artifact (raw : bytes) (attempt_count max_chunk_chars : Z)
    : result ingest_exn (CanonicalDocument * list ChunkDraft) :=
  if startswith raw POISON_PREFIX then
    Raise (DeterministicIngestError (py "malformed_artifact")
             (py "Synthetic poison artifact (deterministic)."))
  else if startswith raw TRANSIENT_PREFIX && (attempt_count <? 2) then
    Raise (TransientIngestError (py "transient_backend")
             (py "Synthetic transient failure (retryable until attempt>=2)."))
  else
    match utf8_decode raw with
    | None => Raise (DeterministicIngestError (py "invalid_encoding")
                       (py "Artifact is not valid UTF-8."))
    | Some text =>
        let canonical := normalize_to_canonical text in
        match chunk_hybrid canonical max_chunk_chars with
        | Raise e => Raise (UnexpectedError e)
        | Ok chunks => Ok (canonical, chunks)
        end
    end.

(** [storage.get(artifact_key)] with its [except FileNotFoundError]. *)
Definition read_artifact (artifact_key : pystr) : M ingest_exn Fs bytes := fun fs =>
  match fs_get artifact_key fs with
  | (Ok d, fs') => (Ok d, fs')
  | (Raise FileNotFoundError, fs') =>
      (Raise (DeterministicIngestError (py "missing_artifact")
                (py "Artifact blob missing: " ++ artifact_key)), fs')
  | (Raise e, fs') => (Raise (UnexpectedError e), fs')
  end.

(** [ingestion/processor.py:71-150 process_artifact] *)
Definition process_artifact (now : float) (job_id : uuid) (artifact_key : pystr)
    (attempt_count max_chunk_chars : Z) (chunker_version : pystr) : M ingest_exn Fs IngestResult :=
  raw ← read_artifact artifact_key;
  match parse_artifact raw attempt_count max_chunk_chars with
  | Raise e => raise e
  | Ok (canonical, chunks) =>
      lift_io (write_text now (incoming_canonical job_id) (doc_text canonical)) ;;
      lift_io (fs_put_from_path now (canonical_key_for job_id) (incoming_canonical job_id)
                 (py "text/plain; charset=utf-8")) ;;
      let payload := manifest job_id artifact_key attempt_count max_chunk_chars chunker_version
                       canonical chunks in
      lift_io (write_text now (incoming_result job_id) (dumps_spaced true true payload)) ;;
      lift_io (fs_put_from_path now (result_key_for job_id) (incoming_result job_id)
                 (py "application/json")) ;;
      mret (mkIngest (result_key_for job_id) (canonical_key_for job_id) PARSER_VERSION
              chunker_version (char_count canonical) (doc_content_sha256 canonical)
              (py (value (doc_kind canonical))) (zlen chunks) max_chunk_chars chunks)
  end.

(** [try: storage.delete(key) except Exception: pass] *)
Definition try_delete (key : pystr) : M exn Fs unit := catch (fs_delete key ;; mret tt) (fun _ => mret tt).

(** [ingestion/processor.py:153-166 cleanup_partial_result] *)
Definition cleanup_partial_result (job_id : uuid) : M exn Fs unit :=
  try_delete (result_key_for job_id) ;;
  try_delete (canonical_key_for job_id) ;;
  modify_st (unlink (incoming_result job_id)) ;;
  modify_st (unlink (incoming_canonical job_id)) ;;
  modify_st (unlink (incoming_root ++ [py "ingest-" ++ uuid_str job_id])).
End Stages.

(** * The worker *)

(** The settings and switches of one worker. *)
Record WorkerConfig := mkWorkerConfig {
  wc_worker_id : pystr;
  wc_max_attempts : Z;
  wc_retry_delay : float;
  wc_stale_after : Z;
  wc_chunk_max_chars : Z;
  wc_crash_after_claim : bool;
  wc_crash_after_process : bool;
  wc_crash_after_chunk_persist : bool;
}.

(** [ingestion/worker.py:39-60 IngestionWorker.__init__]: the counters, with the
    database and the store the worker acts on. *)
Record World := mkWorld {
  w_db : Db;
  w_fs : Fs;
  w_claims : Z;
  w_succeeded : Z;
  w_failed : Z;
  w_retried : Z;
}.
#[export] Instance World_eta : Eta World := fun w =>
  mkWorld (w_db w) (w_fs w) (w_claims w) (w_succeeded w) (w_failed w) (w_retried w).

(** One transaction: its changes are kept when its body reaches the commit. *)
Definition txn {A} (c : M exn Db A) : M exn World A := fun w =>
  match c (w_db w) with
  | (Ok a, d) => (Ok a, w <| w_db := d |>)
  | (Raise e, _) => (Raise e, w)
  end.

(** A call on the store. *)
Definition on_store {E A} (c : M E Fs A) : M E World A :=
  zoom w_fs (fun f w => w <| w_fs := f |>) c.

(** The clocks and the fresh identifiers of one pass of the worker; [ev_locked] are
    the rows other transactions hold locked at the claim. *)
Record WorkerEnv := mkEnv {
  ev_locked : gset uuid;
  ev_claim_now : datetime;
  ev_settle_now : datetime;
  ev_mtime : float;
  ev_fresh : nat -> uuid;
}.

Section Worker.
Context `{Sha256} `{FloatRepr} (cfg : WorkerConfig).

(** [ingestion/worker.py:65-69 IngestionWorker._cleanup_job_outputs] *)
Definition cleanup_job_outputs (job_id : uuid) : M exn World unit :=
  on_store (cleanup_partial_result job_id) ;;
  txn (delete_for_job job_id) ;;
  mret tt.

Fixpoint cleanup_requeued (jobs : list IngestionJob) : M exn World unit :=
  match jobs with
  | [] => mret tt
  | job :: rest =>
      (if bool_decide (j_status job = I_QUEUED) then cleanup_job_outputs (j_id job) else mret tt) ;;
      cleanup_requeued rest
  end.

(** [ingestion/worker.py:71-85 IngestionWorker.recover_stale]; [now] is read once
    more by the repository. *)
Definition recover_stale (now now' : datetime) : M exn World Z :=
  recovered ← txn (recover_stale_jobs now' (now - seconds (wc_stale_after cfg)) (wc_max_attempts cfg));
  cleanup_requeued recovered ;;
  mret (zlen recovered).

Definition count_claim (w : World) : World := w <| w_claims := w_claims w + 1 |>.
Definition count_success (w : World) : World := w <| w_succeeded := w_succeeded w + 1 |>.
Definition count_failure (w : World) : World := w <| w_failed := w_failed w + 1 |>.
Definition count_retry (w : World) : World := w <| w_retried := w_retried w + 1 |>.

(** The failure transaction: the chunks are deleted whoever owns the job. *)
Definition settle_failed (now : datetime) (job_id : uuid) (code message : pystr) : M exn World unit :=
  txn (fail_txn now job_id (wc_worker_id cfg) code message) ;;
  on_store (cleanup_partial_result job_id) ;;
  modify_st count_failure.

(** [ingestion/worker.py:164-189 IngestionWorker._handle_retryable] *)
Definition handle_retryable (now : datetime) (claimed : IngestionJob) (code message : pystr)
    : M exn World unit :=
  if wc_max_attempts cfg <=? j_attempt_count claimed then
    settle_failed now (j_id claimed) code (message ++ py " (attempts exhausted)")
  else
    txn (retry_txn now (j_id claimed) (wc_worker_id cfg) code message (wc_retry_delay cfg)) ;;
    on_store (cleanup_partial_result (j_id claimed)) ;;
    modify_st count_retry.

(** The last transaction of a pass: chunks and success together. *)
Definition settle_succeeded (env : WorkerEnv) (claimed : IngestionJob) (r : IngestResult)
    : M exn World (option IngestionJob) :=
  if wc_crash_after_chunk_persist cfg then
    txn (replace_for_job (ev_fresh env) (ev_settle_now env) (j_id claimed) (j_submission_id claimed)
           (j_artifact_key claimed) (ir_parser_version r) (ir_chunker_version r) (ir_chunks r)) ;;
    raise (RuntimeError "simulated crash after chunk persist before succeed")
  else
    txn (succeed_txn (ev_fresh env) (ev_settle_now env) claimed (wc_worker_id cfg)
           (ir_parser_version r) (ir_chunker_version r) (ir_chunks r) (ir_result_key r)).

(** What the worker does with a job it has claimed. *)
Definition process_claimed (env : WorkerEnv) (claimed : IngestionJob) : M exn World bool := fun w =>
  match on_store (process_artifact (ev_mtime env) (j_id claimed) (j_artifact_key claimed)
                    (j_attempt_count claimed) (wc_chunk_max_chars cfg) CHUNKER_VERSION) w with
  | (Raise (DeterministicIngestError code message), w) =>
      (settle_failed (ev_settle_now env) (j_id claimed) code message ;; mret true) w
  | (Raise (TransientIngestError code message), w) =>
      (handle_retryable (ev_settle_now env) claimed code message ;; mret true) w
  | (Raise (UnexpectedError e), w) =>
      (handle_retryable (ev_settle_now env) claimed (py "executor_error") (exn_text e) ;; mret true) w
  | (Ok r, w) =>
      (guard_or (negb (wc_crash_after_process cfg))
         (RuntimeError "simulated crash after process before ack") ;;
       done_ ← settle_succeeded env claimed r;
       match done_ with
       | None => mret true
       | Some _ => modify_st count_success ;; mret true
       end) w
  end.

(** [ingestion/worker.py:87-162 IngestionWorker.run_once] *)
Definition run_once (env : WorkerEnv) : M exn World bool :=
  claimed ← txn (claim_next_job (ev_locked env) (ev_claim_now env) (wc_worker_id cfg));
  match claimed with
  | None => mret false
  | Some job =>
      modify_st count_claim ;;
      guard_or (negb (wc_crash_after_claim cfg)) (RuntimeError "simulated crash after claim") ;;
      process_claimed env job
  end.

(** [ingestion/worker.py:191-202 IngestionWorker.run_forever]: its body, once per
    environment, until an exception ends the worker. *)
Fixpoint run_passes (envs : list (datetime * datetime * WorkerEnv)) : M exn World unit :=
  match envs with
  | [] => mret tt
  | (now, now', env) :: rest =>
      recover_stale now now' ;; run_once env ;; run_passes rest
  end.
End Worker.
