(* ===== verification/IngestionQueueSpec.v ===== *)
(** The properties of the ingestion queue: the job lifecycle, the claim policy,
    ownership, retry bounds, and the chunk sets the transactions leave. *)
From Stdlib Require Import ZArith Lia String.
From stdpp Require Import prelude strings gmap sorting.
From S2P Require Import Prelude PyFloat PyStr Domain Database Json Canonical Chunking ChunkingSpec IngestionQueue.
Import IngestionJobRepository DocumentChunkRepository.

(** * The job invariant *)

(** The columns a status determines. *)
Definition job_columns (r : IngestionJob) : Prop :=
  match j_status r with
  | I_QUEUED => j_worker_id r = None /\ j_started_at r = None /\ j_completed_at r = None
                /\ j_result_key r = None
  | I_RUNNING => is_Some (j_worker_id r) /\ is_Some (j_started_at r) /\ j_completed_at r = None
                 /\ j_result_key r = None /\ 1 <= j_attempt_count r
  | I_SUCCEEDED => is_Some (j_completed_at r) /\ is_Some (j_result_key r)
                   /\ j_error_code r = None /\ 1 <= j_attempt_count r
  | I_FAILED => is_Some (j_completed_at r) /\ j_result_key r = None
                /\ is_Some (j_error_code r) /\ 1 <= j_attempt_count r
  end.

Definition job_wf (k : uuid) (r : IngestionJob) : Prop :=
  j_id r = k /\ job_check r = true /\ job_columns r.

Definition jobs_wf (db : Db) : Prop := forall k r, ingestion_jobs db !! k = Some r -> job_wf k r.

(** What a transaction may do to a job: an allowed transition that keeps the
    identity of the job and counts attempts at the claim only. *)
Definition job_change (r r' : IngestionJob) : Prop :=
  j_id r' = j_id r /\ j_submission_id r' = j_submission_id r
  /\ j_artifact_key r' = j_artifact_key r /\ j_created_at r' = j_created_at r
  /\ is_ok (IngestionState.assert_transition (j_status r) (j_status r')) = true
  /\ j_attempt_count r' = j_attempt_count r + (if bool_decide (j_status r' = I_RUNNING) then 1 else 0)
  /\ job_columns r'.

Definition new_job (k : uuid) (r : IngestionJob) : Prop :=
  job_wf k r /\ j_status r = I_QUEUED /\ j_attempt_count r = 0.

Definition jobs_evolve (old new : gmap uuid IngestionJob) : Prop :=
  forall k, match old !! k, new !! k with
            | Some r, Some r' => r' = r \/ job_change r r'
            | None, Some r' => new_job k r'
            | None, None => True
            | Some _, None => False
            end.

Lemma jobs_evolve_refl t : jobs_evolve t t.
Proof. intros k. destruct (t !! k); auto. Qed.

Lemma jobs_evolve_insert t k r r' :
  t !! k = Some r -> job_change r r' -> jobs_evolve t (<[k := r']> t).
Proof.
  intros Hk Hc k2. destruct (decide (k2 = k)) as [->|Hne].
  - rewrite Hk, lookup_insert_eq. auto.
  - rewrite lookup_insert_ne by done. apply jobs_evolve_refl.
Qed.

Lemma jobs_evolve_new t k r' : t !! k = None -> new_job k r' -> jobs_evolve t (<[k := r']> t).
Proof.
  intros Hk Hc k2. destruct (decide (k2 = k)) as [->|Hne].
  - by rewrite Hk, lookup_insert_eq.
  - rewrite lookup_insert_ne by done. apply jobs_evolve_refl.
Qed.

Lemma job_status_true st r : job_status st r = true <-> j_status r = st.
Proof. unfold job_status. by rewrite bool_decide_eq_true. Qed.

Lemma job_change_wf k r r' : job_wf k r -> job_change r r' -> job_wf k r'.
Proof.
  intros (Hid & Hck & _) (H1 & _ & _ & _ & _ & Ha & Hcol). split; [congruence|]. split; [|done].
  unfold job_check in *. zify_bool. case_bool_decide; lia.
Qed.

Lemma jobs_evolve_wf old new :
  jobs_evolve old new -> (forall k r, old !! k = Some r -> job_wf k r) ->
  forall k r, new !! k = Some r -> job_wf k r.
Proof.
  intros Hev Hold k r Hr. specialize (Hev k). rewrite Hr in Hev.
  destruct (old !! k) as [r0|] eqn:Hk; [|apply Hev].
  destruct Hev as [->|Hc]; [by apply Hold|]. eapply job_change_wf; [by apply Hold|done].
Qed.

(** * Runs of the commands *)

(** The two parts of the database the ingestion transactions write. *)
Definition keeps_rest (db db' : Db) : Prop :=
  db' = db <| ingestion_jobs := ingestion_jobs db' |> <| document_chunks := document_chunks db' |>.

Lemma set_jobs_fields t db :
  ingestion_jobs (set_ingestion_jobs t db) = t
  /\ document_chunks (set_ingestion_jobs t db) = document_chunks db.
Proof. done. Qed.

Lemma update_owned_job_run id w f db :
  (exists r, ingestion_jobs db !! id = Some r /\ j_status r = I_RUNNING /\ j_worker_id r = Some w
     /\ update_owned_job id w f db
        = if job_check (f r)
          then (Ok (Some (f r)), set_ingestion_jobs (<[id := f r]> (ingestion_jobs db)) db)
          else (Raise (IntegrityError "ingestion_jobs"), db))
  \/ update_owned_job id w f db = (Ok None, db)
     /\ forall r, ingestion_jobs db !! id = Some r -> ~ (j_status r = I_RUNNING /\ j_worker_id r = Some w).
Proof.
  unfold update_owned_job, get_job, gets_st. rewrite run_bind.
  destruct (ingestion_jobs db !! id) as [r|] eqn:Hid; [|right; naive_solver].
  destruct (job_status I_RUNNING r) eqn:Hst; cbn [andb]; cycle 1.
  { right. split; [done|]. intros r' [= <-] [H1 _]. apply job_status_true in H1. congruence. }
  case_bool_decide as Hw; cycle 1.
  { right. split; [done|]. naive_solver. }
  apply job_status_true in Hst. left. exists r. split_and!; try done.
  rewrite run_bind. unfold update_job. rewrite update_row_run. by destruct (job_check (f r)).
Qed.

(** A completion by the owner is a change of its job; by anyone else it does
    nothing. *)
Definition completion (w : pystr) (f : IngestionJob -> IngestionJob) : Prop :=
  forall k r, job_wf k r -> j_status r = I_RUNNING -> j_worker_id r = Some w -> job_change r (f r).

Lemma completion_evolves id w f db o db' :
  completion w f -> jobs_wf db -> update_owned_job id w f db = (o, db') ->
  jobs_evolve (ingestion_jobs db) (ingestion_jobs db') /\ keeps_rest db db'
  /\ document_chunks db' = document_chunks db.
Proof.
  intros Hf Hwf E. destruct (update_owned_job_run id w f db) as [(r & Hk & Hst & Hw & Hrun)|[Hrun _]];
    rewrite Hrun in E.
  - destruct (job_check (f r)); injection E as <- <-.
    + split; [|by destruct db]. eapply jobs_evolve_insert; [done|]. apply (Hf id); auto.
    + split; [apply jobs_evolve_refl|by destruct db].
  - injection E as <- <-. split; [apply jobs_evolve_refl|by destruct db].
Qed.

Ltac solve_completion :=
  intros k r (_ & _ & Hcol) Hst Hw; unfold job_columns in Hcol; rewrite Hst in Hcol;
  destruct Hcol as (_ & _ & ? & ? & ?);
  unfold job_change, job_columns; cbn; rewrite Hst; split_and!;
  first [done | lia | by eexists | case_bool_decide; [done | lia]].

Lemma succeed_completion w now rk : completion w (fun r =>
    r <| j_status := I_SUCCEEDED |> <| j_result_key := Some rk |>
      <| j_completed_at := Some now |> <| j_updated_at := now |>
      <| j_error_code := None |> <| j_error_message := None |>).
Proof. solve_completion. Qed.

Lemma fail_completion w now c m : completion w (fun r =>
    r <| j_status := I_FAILED |> <| j_completed_at := Some now |> <| j_updated_at := now |>
      <| j_error_code := Some c |> <| j_error_message := Some m |>).
Proof. solve_completion. Qed.

Lemma retry_completion w now av c m : completion w (fun r =>
    r <| j_status := I_QUEUED |> <| j_worker_id := None |> <| j_started_at := None |>
      <| j_available_at := av |> <| j_updated_at := now |>
      <| j_error_code := Some c |> <| j_error_message := Some m |>).
Proof. solve_completion. Qed.

(** * Claims *)

Lemma elem_of_claimable_fifo now db r :
  r ∈ claimable_fifo now db <->
  (exists k, ingestion_jobs db !! k = Some r) /\ j_status r = I_QUEUED /\ j_available_at r <= now.
Proof.
  unfold claimable_fifo. rewrite elem_of_order_by_created, elem_of_rows_where. unfold claimable.
  by rewrite andb_true_iff, job_status_true, Z.leb_le.
Qed.

(** What a claim does: nothing when no unlocked job is due, else it takes the
    first one in the order of creation. *)
Lemma claim_next_job_run locked now w db :
  jobs_wf db ->
  (claim_next_job locked now w db = (Ok None, db)
   /\ forall k r, ingestion_jobs db !! k = Some r -> j_status r = I_QUEUED ->
        j_available_at r <= now -> k ∈ locked)
  \/ exists r, ingestion_jobs db !! j_id r = Some r /\ j_status r = I_QUEUED
     /\ j_available_at r <= now /\ (j_id r ∉ locked)
     /\ claim_next_job locked now w db
        = (Ok (Some (claimed_job now w r)),
           set_ingestion_jobs (<[j_id r := claimed_job now w r]> (ingestion_jobs db)) db)
     /\ forall k r', ingestion_jobs db !! k = Some r' -> j_status r' = I_QUEUED ->
          j_available_at r' <= now -> (k ∉ locked) -> created_le j_created_at j_id r r'.
Proof.
  intros Hwf. unfold claim_next_job, gets_st. rewrite run_bind.
  set (rows := List.filter _ _).
  assert (forall r, r ∈ rows <-> (exists k, ingestion_jobs db !! k = Some r) /\ j_status r = I_QUEUED
            /\ j_available_at r <= now /\ (j_id r ∉ locked)) as Hrows.
  { intros r. unfold rows. rewrite elem_of_filterb, elem_of_claimable_fifo, bool_decide_eq_true. tauto. }
  assert (StronglySorted (created_le j_created_at j_id) rows) as Hsorted.
  { unfold rows. pose proof (order_by_created_sorted j_created_at j_id
      (rows_where (claimable now) (ingestion_jobs db))) as Hs.
    unfold claimable_fifo. induction Hs as [|x l Hs IH Hx]; cbn; [constructor|].
    destruct (bool_decide _); [|exact IH]. constructor; [exact IH|]. apply Forall_forall.
    intros y [Hy _]%elem_of_filterb. rewrite Forall_forall in Hx. by apply Hx. }
  clearbody rows. destruct rows as [|r rows].
  - left. split; [done|]. intros k r Hk Hst Hav. destruct (decide (k ∈ locked)); [done|].
    destruct (Hwf k r Hk) as (Hid & _). assert (r ∈ []) as []%elem_of_nil. apply Hrows. rewrite Hid. eauto.
  - right. exists r. destruct (proj1 (Hrows r)) as ((k & Hk) & Hst & Hav & Hl); [by left|].
    destruct (Hwf k r Hk) as (Hid & Hck & _). rewrite Hid in Hl |- *. split_and!; try done.
    + rewrite run_bind. unfold update_job. rewrite update_row_run.
      assert (job_check (claimed_job now w r) = true) as -> by (unfold job_check in *; cbn; zify_bool; lia).
      done.
    + intros k' r' Hk' Hst' Hav' Hl'. destruct (Hwf k' r' Hk') as (Hid' & _).
      assert (r' ∈ r :: rows) as [->|Hr']%elem_of_cons by (apply Hrows; rewrite Hid'; eauto).
      * right. lia.
      * apply StronglySorted_inv in Hsorted as [_ Hall]. rewrite Forall_forall in Hall. by apply Hall.
Qed.

Lemma claimed_change now w r : j_status r = I_QUEUED -> job_columns r -> 0 <= j_attempt_count r ->
  job_change r (claimed_job now w r).
Proof.
  intros Hst Hcol Hn. unfold job_columns in Hcol. rewrite Hst in Hcol. destruct Hcol as (_ & _ & Hc & Hr).
  unfold job_change, job_columns. cbn. rewrite Hst, bool_decide_eq_true_2 by done.
  split_and!; try done; try lia; by eexists.
Qed.

(** * Recovery *)

Lemma recover_job_change now ma k r :
  job_wf k r -> j_status r = I_RUNNING -> job_change r (recover_job now ma r).
Proof.
  intros (_ & _ & Hcol) Hst. unfold job_columns in Hcol. rewrite Hst in Hcol.
  destruct Hcol as (_ & _ & ? & ? & ?). unfold recover_job. case_match;
    unfold job_change, job_columns; cbn; rewrite Hst; split_and!;
    first [done | lia | by eexists | case_bool_decide; [done | lia]].
Qed.

Lemma elem_of_stale sb db r :
  r ∈ merge_sort started_le (rows_where (stale_job sb) (ingestion_jobs db)) <->
  (exists k, ingestion_jobs db !! k = Some r) /\ j_status r = I_RUNNING
  /\ exists t, j_started_at r = Some t /\ t < sb.
Proof.
  rewrite (merge_sort_Permutation started_le), elem_of_rows_where. unfold stale_job.
  rewrite andb_true_iff, job_status_true. destruct (j_started_at r) as [t|]; [|naive_solver].
  rewrite Z.ltb_lt. naive_solver.
Qed.

Lemma recover_stale_jobs_run now sb ma db :
  jobs_wf db ->
  let l := merge_sort started_le (rows_where (stale_job sb) (ingestion_jobs db)) in
  recover_stale_jobs now sb ma db
  = (Ok (recover_job now ma <$> l),
     set_ingestion_jobs (replace_rows j_id (recover_job now ma) l (ingestion_jobs db)) db)
  /\ NoDup (j_id <$> l).
Proof.
  intros Hwf l. split.
  - unfold recover_stale_jobs. rewrite run_bind. unfold gets_st at 1.
    apply (mapM_update_rows j_id (recover_job now ma) ingestion_jobs set_ingestion_jobs job_check);
      [by intros []|done|by intros ?? []|].
    intros r ((k & Hk) & _)%elem_of_stale. destruct (Hwf k r Hk) as (_ & Hck & _).
    unfold recover_job, job_check in *. case_match; done.
  - unfold l. rewrite (merge_sort_Permutation started_le).
    apply rows_where_ids_NoDup. intros k r Hk. apply (Hwf k r Hk).
Qed.

Lemma recover_stale_jobs_lookup now sb ma db k r :
  jobs_wf db -> ingestion_jobs db !! k = Some r ->
  ingestion_jobs (snd (recover_stale_jobs now sb ma db)) !! k
  = Some (if stale_job sb r then recover_job now ma r else r).
Proof.
  intros Hwf Hk. destruct (recover_stale_jobs_run now sb ma db Hwf) as [-> Hnd]. cbn [snd].
  rewrite (proj1 (set_jobs_fields _ _)). destruct (Hwf k r Hk) as (Hid & _).
  assert (r ∈ merge_sort started_le (rows_where (stale_job sb) (ingestion_jobs db)) <-> stale_job sb r = true) as Hin.
  { rewrite (merge_sort_Permutation started_le), elem_of_rows_where. naive_solver. }
  destruct (stale_job sb r); rewrite <-Hid.
  - apply replace_rows_in; [done|]. by apply Hin.
  - rewrite replace_rows_notin, Hid; [done|]. rewrite list_elem_of_fmap. intros (r2 & Heq & Hr2).
    pose proof Hr2 as ((k2 & Hk2) & _)%elem_of_stale. destruct (Hwf k2 r2 Hk2) as (Hid2 & _).
    assert (k2 = k) as -> by congruence. simplify_eq. by apply Hin in Hr2.
Qed.

Lemma recover_evolves now sb ma db :
  jobs_wf db -> jobs_evolve (ingestion_jobs db) (ingestion_jobs (snd (recover_stale_jobs now sb ma db))).
Proof.
  intros Hwf k. destruct (ingestion_jobs db !! k) as [r|] eqn:Hk.
  - rewrite (recover_stale_jobs_lookup now sb ma db k r Hwf Hk).
    destruct (stale_job sb r) eqn:Hst; [|by left]. right. apply (recover_job_change now ma k); [by apply Hwf|].
    apply andb_true_iff in Hst as [Hst _]. by apply job_status_true.
  - destruct (recover_stale_jobs_run now sb ma db Hwf) as [-> _]. cbn [snd].
    rewrite (proj1 (set_jobs_fields _ _)), replace_rows_notin; [by rewrite Hk|].
    rewrite list_elem_of_fmap. intros (r & -> & ((k2 & Hk2) & _)%elem_of_stale).
    destruct (Hwf k2 r Hk2) as (Hid & _). congruence.
Qed.

(** * Chunk sets *)

Definition job_chunks (db : Db) (job_id : uuid) : gmap uuid DocumentChunk :=
  filter (fun kv => of_job job_id kv.2 = true) (document_chunks db).

Lemma of_job_true j r : of_job j r = true <-> dc_ingestion_job_id r = j.
Proof. unfold of_job. by rewrite bool_decide_eq_true. Qed.

Lemma delete_for_job_run j db :
  delete_for_job j db
  = (Ok (countb (of_job j) (document_chunks db)), set_document_chunks (without_job j (document_chunks db)) db).
Proof. done. Qed.

Lemma without_job_lookup j t k r :
  without_job j t !! k = Some r <-> t !! k = Some r /\ of_job j r = false.
Proof. unfold without_job. by rewrite map_lookup_filter_Some. Qed.

(** The rows a sequence of inserts adds. *)
Definition add_chunks (rows : list DocumentChunk) (t : gmap uuid DocumentChunk) : gmap uuid DocumentChunk :=
  foldl (fun t r => <[dc_id r := r]> t) t rows.

Lemma add_chunks_lookup rows t k r :
  NoDup (dc_id <$> rows) -> (forall r, r ∈ rows -> t !! dc_id r = None) ->
  add_chunks rows t !! k = Some r <-> (r ∈ rows /\ dc_id r = k) \/ t !! k = Some r.
Proof.
  revert t. induction rows as [|r0 rows IH]; intros t Hnd Hfree.
  { cbn. split; [auto|]. intros [[[]%elem_of_nil _]|?]; done. }
  apply NoDup_cons in Hnd as [Hr0 Hnd].
  change (add_chunks (r0 :: rows) t) with (add_chunks rows (<[dc_id r0 := r0]> t)).
  rewrite IH; [|done|].
  - rewrite lookup_insert_Some, elem_of_cons. pose proof (Hfree r0 ltac:(left)) as Hf. split.
    + intros [[? ?]|[[? ?]|[? ?]]]; subst; auto.
    + intros [[[->|Hr] <-]|Ht]; auto. right. right. split; [congruence|done].
  - intros r' Hr'. rewrite lookup_insert_ne; [apply Hfree; by right|].
    intros Heq. apply Hr0. rewrite Heq. by apply list_elem_of_fmap_2.
Qed.

Lemma insert_chunks_run rows db :
  (mapM (fun row => insert_chunk row ;; mret row) rows db
     = (Ok rows, set_document_chunks (add_chunks rows (document_chunks db)) db)
   /\ NoDup (dc_id <$> rows) /\ forall r, r ∈ rows -> document_chunks db !! dc_id r = None)
  \/ exists e db', mapM (fun row => insert_chunk row ;; mret row) rows db = (Raise e, db').
Proof.
  revert db. induction rows as [|r rows IH]; intros db.
  { left. split; [by destruct db|]. split; [constructor|]. by intros r ?%elem_of_nil. }
  rewrite mapM_cons_run, !run_bind.
  destruct (insert_chunk r db) as [[[]|e] db1] eqn:E; [|right; eauto].
  apply insert_row_Ok in E as (Hfree & _ & ->). rewrite run_ret, run_bind.
  destruct (IH (set_document_chunks (<[dc_id r:=r]> (document_chunks db)) db))
    as [(-> & Hnd & Hall)|(e & db' & ->)]; [left|right; eauto].
  cbn in Hall. split; [done|]. split.
  - apply NoDup_cons. split; [|done]. intros (r' & Hid & Hr')%list_elem_of_fmap.
    specialize (Hall r' Hr'). by rewrite <-Hid, lookup_insert_eq in Hall.
  - intros r' [->|Hr']%elem_of_cons; [done|]. specialize (Hall r' Hr').
    by apply lookup_insert_None in Hall as [? _].
Qed.

(** The rows a replacement writes. *)
Definition rows_of (fresh : nat -> uuid) (now : datetime) (j : IngestionJob) (pv cv : pystr)
    (cs : list ChunkDraft) : list DocumentChunk :=
  imap (fun i d => chunk_row (fresh i) now (j_id j) (j_submission_id j) (j_artifact_key j) pv cv d) cs.

Lemma rows_of_job fresh now j pv cv cs r : r ∈ rows_of fresh now j pv cv cs -> dc_ingestion_job_id r = j_id j.
Proof. intros (i & d & -> & _)%elem_of_lookup_imap_1. done. Qed.

(** The chunk rows of a job are the given ones. *)
Definition chunk_set (db : Db) (j : uuid) (rows : list DocumentChunk) : Prop :=
  forall k r, document_chunks db !! k = Some r /\ dc_ingestion_job_id r = j <-> r ∈ rows /\ dc_id r = k.

Lemma replace_for_job_run fresh now j pv cv cs db :
  (replace_for_job fresh now (j_id j) (j_submission_id j) (j_artifact_key j) pv cv cs db
   = (Ok (rows_of fresh now j pv cv cs),
      set_document_chunks (add_chunks (rows_of fresh now j pv cv cs)
                             (without_job (j_id j) (document_chunks db))) db)
   /\ forall k r, add_chunks (rows_of fresh now j pv cv cs)
        (without_job (j_id j) (document_chunks db)) !! k = Some r <->
        (r ∈ rows_of fresh now j pv cv cs /\ dc_id r = k)
        \/ (document_chunks db !! k = Some r /\ dc_ingestion_job_id r <> j_id j))
  \/ exists e db', replace_for_job fresh now (j_id j) (j_submission_id j) (j_artifact_key j) pv cv cs db
                   = (Raise e, db').
Proof.
  unfold replace_for_job. rewrite run_bind, delete_for_job_run. fold (rows_of fresh now j pv cv cs).
  destruct (insert_chunks_run (rows_of fresh now j pv cv cs)
    (set_document_chunks (without_job (j_id j) (document_chunks db)) db))
    as [(Hrun & Hnd & Hfree)|(e & db' & Hrun)]; [left|right; eauto].
  split; [rewrite Hrun; by destruct db|]. intros k r. rewrite add_chunks_lookup by done.
  rewrite without_job_lookup. unfold of_job. by rewrite bool_decide_eq_false.
Qed.

Lemma delete_keeps j db :
  keeps_rest db (set_document_chunks (without_job j (document_chunks db)) db).
Proof. by destruct db. Qed.

Lemma keeps_rest_trans a b c : keeps_rest a b -> keeps_rest b c -> keeps_rest a c.
Proof. unfold keeps_rest. intros -> ->. by destruct a. Qed.

Lemma keeps_rest_refl db : keeps_rest db db.
Proof. by destruct db. Qed.

(** * The step of the system *)

Lemma txn_delete_completion j w f (c : M exn Db (option IngestionJob)) db :
  jobs_wf db -> completion w f -> (forall db, c db = update_owned_job j w f db) ->
  forall o db', (delete_for_job j ;; c) db = (o, db') ->
  jobs_evolve (ingestion_jobs db) (ingestion_jobs db') /\ keeps_rest db db'
  /\ document_chunks db' = without_job j (document_chunks db).
Proof.
  intros Hwf Hf Hc o db' E. rewrite run_bind, delete_for_job_run, Hc in E.
  apply completion_evolves in E as (H1 & H2 & H3); [|done|done].
  split; [exact H1|]. split; [|exact H3]. eapply keeps_rest_trans; [apply delete_keeps|done].
Qed.

(** The chunk set a transaction writes, when it writes one. *)
Definition written (a : IngestAction) : option (uuid * list DocumentChunk) :=
  match a with
  | ISucceed f now j _ pv cv cs _ | IPersist f now j pv cv cs => Some (j_id j, rows_of f now j pv cv cs)
  | _ => None
  end.

(** What a step does to the chunk table. *)
Inductive chunks_step (a : IngestAction) (t t' : gmap uuid DocumentChunk) : Prop :=
| chunks_same : t' = t -> chunks_step a t t'
| chunks_deleted j : t' = without_job j t -> chunks_step a t t'
| chunks_written j rows :
    written a = Some (j, rows) -> (forall r, r ∈ rows -> dc_ingestion_job_id r = j) ->
    (forall k r, t' !! k = Some r <-> (r ∈ rows /\ dc_id r = k)
                                    \/ (t !! k = Some r /\ dc_ingestion_job_id r <> j)) ->
    chunks_step a t t'.

Definition step_ok (a : IngestAction) (db db' : Db) : Prop :=
  jobs_evolve (ingestion_jobs db) (ingestion_jobs db') /\ keeps_rest db db'
  /\ chunks_step a (document_chunks db) (document_chunks db').

Lemma step_ok_refl a db : step_ok a db db.
Proof. split; [apply jobs_evolve_refl|]. split; [apply keeps_rest_refl|by apply chunks_same]. Qed.

Lemma enqueue_run f now s k db :
  (exists r, enqueue f now s k db = (Ok r, set_ingestion_jobs (<[f := r]> (ingestion_jobs db)) db)
     /\ ingestion_jobs db !! f = None /\ new_job f r /\ is_Some (submissions db !! j_submission_id r))
  \/ exists e, enqueue f now s k db = (Raise e, db).
Proof.
  unfold enqueue. rewrite run_bind. destruct (insert_job _ db) as [[[]|e] db'] eqn:E.
  - apply insert_row_Ok in E as (Hk & Hok & ->). apply andb_true_iff in Hok as [_ Hs%bool_decide_eq_true].
    left. eexists. split; [done|]. split; [done|]. split; [done|exact Hs].
  - apply insert_row_Raise in E as ->. eauto.
Qed.

Lemma succeed_txn_ok f now j w pv cv cs rk o db db' :
  jobs_wf db -> succeed_txn f now j w pv cv cs rk db = (Ok o, db') ->
  jobs_evolve (ingestion_jobs db) (ingestion_jobs db') /\ keeps_rest db db'
  /\ forall k r, document_chunks db' !! k = Some r <->
       (r ∈ rows_of f now j pv cv cs /\ dc_id r = k)
       \/ (document_chunks db !! k = Some r /\ dc_ingestion_job_id r <> j_id j).
Proof.
  intros Hwf E. unfold succeed_txn in E. rewrite run_bind in E.
  destruct (replace_for_job_run f now j pv cv cs db) as [[Hrun Hl]|(e & db1 & Hrun)];
    rewrite Hrun in E; [|done].
  apply (completion_evolves (j_id j) w _ (set_document_chunks (add_chunks (rows_of f now j pv cv cs)
    (without_job (j_id j) (document_chunks db))) db)) in E as (H1 & H2 & H3);
    [|apply succeed_completion|done].
  split; [exact H1|]. split; [by eapply keeps_rest_trans; [|exact H2]; destruct db|].
  intros k r. rewrite H3. apply Hl.
Qed.

Lemma ingest_step_ok a db : jobs_wf db -> step_ok a db (ingest_step db a).
Proof.
  intros Hwf. unfold ingest_step. destruct (perform_ingest a db) as [[[]|e] db'] eqn:E;
    [|apply step_ok_refl].
  destruct a; cbn [perform_ingest] in E; apply bind_Ok_inv in E as (o & s1 & E & [= <-]).
  - destruct (enqueue_run fresh now submission_id artifact_key db) as [(r & Hrun & Hf & Hn & _)|(e & Hrun)];
      rewrite Hrun in E; [|done]. injection E as <- <-.
    split; [by apply jobs_evolve_new|]. split; [by destruct db|by apply chunks_same].
  - destruct (claim_next_job_run locked now worker_id db Hwf) as [[Hrun _]|(r & Hk & Hst & _ & _ & Hrun & _)];
      rewrite Hrun in E; injection E as <- <-; [apply step_ok_refl|].
    split; [|split; [by destruct db|by apply chunks_same]].
    eapply jobs_evolve_insert; [done|]. destruct (Hwf _ _ Hk) as (_ & Hck & Hcol).
    apply claimed_change; [done..|]. unfold job_check in Hck. zify_bool. lia.
  - apply succeed_txn_ok in E as (H1 & H2 & H3); [|done]. split; [done|]. split; [done|].
    eapply chunks_written; [done|apply rows_of_job|done].
  - destruct (replace_for_job_run fresh now claimed parser_version chunker_version chunks db)
      as [[Hrun Hl]|(e & db1 & Hrun)]; rewrite Hrun in E; [|done]. injection E as <- <-.
    split; [apply jobs_evolve_refl|]. split; [by destruct db|].
    eapply chunks_written; [done|apply rows_of_job|done].
  - eapply txn_delete_completion in E as (H1 & H2 & H3); [|done|apply fail_completion|done].
    split; [done|]. split; [done|by eapply chunks_deleted].
  - unfold retry_txn, release_job_for_retry in E. destruct (available_after now delay) as [av|]; [|done].
    eapply txn_delete_completion in E as (H1 & H2 & H3); [|done|apply retry_completion|done].
    split; [done|]. split; [done|by eapply chunks_deleted].
  - pose proof (recover_evolves now stale_before max_attempts db Hwf) as Hev.
    destruct (recover_stale_jobs_run now stale_before max_attempts db Hwf) as [Hrun _].
    rewrite Hrun in E, Hev. injection E as <- <-.
    split; [exact Hev|]. split; [by destruct db|by apply chunks_same].
  - rewrite delete_for_job_run in E. injection E as <- <-.
    split; [apply jobs_evolve_refl|]. split; [by destruct db|by eapply chunks_deleted].
Qed.

Lemma ingest_step_wf a db : jobs_wf db -> jobs_wf (ingest_step db a).
Proof. intros Hwf. exact (jobs_evolve_wf _ _ (proj1 (ingest_step_ok a db Hwf)) Hwf). Qed.

Lemma ingest_steps_wf l db : jobs_wf db -> jobs_wf (ingest_steps db l).
Proof. revert db. induction l as [|a l IH]; intros db Hwf; [done|]. by apply IH, ingest_step_wf. Qed.

(** * Properties *)

(** C20 Every transaction of the ingestion queue, whatever worker sends it and
    however stale its knowledge is, refines the lifecycle of the transition
    table: no job disappears, a new one is queued without attempts, and a job
    that changes keeps its identity, moves along an allowed transition and
    counts an attempt exactly when it is claimed; nothing but jobs and chunks is
    written, and the status columns stay consistent. *)
Theorem ingestion_lifecycle (a : IngestAction) (db : Db) (id : uuid) :
  jobs_wf db ->
  let db' := ingest_step db a in
  match ingestion_jobs db !! id, ingestion_jobs db' !! id with
  | Some r, Some r' => r' = r \/ job_change r r'
  | None, Some r' => j_status r' = I_QUEUED /\ j_attempt_count r' = 0
  | None, None => True
  | Some _, None => False
  end
  /\ jobs_wf db' /\ keeps_rest db db'.
Proof.
  intros Hwf db'. destruct (ingest_step_ok a db Hwf) as (Hev & Hrest & _).
  split; [|by split; [apply ingest_step_wf|]]. specialize (Hev id). fold db' in Hev.
  destruct (ingestion_jobs db !! id), (ingestion_jobs db' !! id); try done. apply Hev.
Qed.

(** C21 The chunk rows of a job are never partial: after any interleaving of
    transactions by any number of workers they are none, or all the rows one
    success or persist transaction wrote, in that transaction's order. *)
Theorem chunk_sets_atomic (l : list IngestAction) (db : Db) (j : uuid) :
  jobs_wf db -> document_chunks db = ∅ ->
  exists rows, chunk_set (ingest_steps db l) j rows
  /\ (rows = [] \/ exists a, a ∈ l /\ written a = Some (j, rows)).
Proof.
  intros Hwf H0. enough (forall past, (exists rows, chunk_set db j rows
      /\ (rows = [] \/ exists a, a ∈ past /\ written a = Some (j, rows))) ->
    exists rows, chunk_set (ingest_steps db l) j rows
      /\ (rows = [] \/ exists a, a ∈ past ++ l /\ written a = Some (j, rows))) as Hgen.
  { apply (Hgen []). exists []. split; [|by left]. intros k r. rewrite H0, lookup_empty. set_solver. }
  clear H0. revert db Hwf. induction l as [|a l IH]; intros db Hwf past (rows & Hset & Hpast).
  { exists rows. by rewrite app_nil_r. }
  rewrite (cons_middle a past l), app_assoc. apply (IH (ingest_step db a)); [by apply ingest_step_wf|].
  destruct (ingest_step_ok a db Hwf) as (_ & _ & [Heq|j' Heq|j' rows' Hw Hj Hl]).
  - exists rows. split; [by unfold chunk_set; rewrite Heq|]. set_solver.
  - destruct (decide (j' = j)) as [->|Hne].
    + exists []. split; [|by left]. intros k r. rewrite Heq, without_job_lookup. unfold of_job.
      rewrite bool_decide_eq_false. set_solver.
    + exists rows. split; [|set_solver]. intros k r. rewrite <-(Hset k r), Heq, without_job_lookup.
      unfold of_job. rewrite bool_decide_eq_false. naive_solver congruence.
  - destruct (decide (j' = j)) as [->|Hne].
    + exists rows'. split; [|right; exists a; set_solver]. intros k r. rewrite Hl. naive_solver.
    + exists rows. split; [|set_solver]. intros k r. rewrite <-(Hset k r), Hl. naive_solver.
Qed.

(** The claim of the ingestion queue takes the first job, in the order of
    creation, that is queued, due and not locked by another claim, and only
    that job; it returns nothing exactly when there is no such job. *)
Theorem ingestion_claim_policy locked now w db :
  jobs_wf db ->
  match claim_next_job locked now w db with
  | (Ok (Some r'), db') =>
      exists r, ingestion_jobs db !! j_id r = Some r /\ j_status r = I_QUEUED
      /\ j_available_at r <= now /\ (j_id r ∉ locked) /\ r' = claimed_job now w r
      /\ db' = set_ingestion_jobs (<[j_id r := r']> (ingestion_jobs db)) db
      /\ forall k r2, ingestion_jobs db !! k = Some r2 -> j_status r2 = I_QUEUED ->
           j_available_at r2 <= now -> (k ∉ locked) ->
           j_created_at r < j_created_at r2 \/ (j_created_at r = j_created_at r2 /\ j_id r <= j_id r2)
  | (Ok None, db') =>
      db' = db /\ forall k r, ingestion_jobs db !! k = Some r -> j_status r = I_QUEUED ->
        j_available_at r <= now -> k ∈ locked
  | (Raise _, _) => False
  end.
Proof.
  intros Hwf. destruct (claim_next_job_run locked now w db Hwf) as [[-> H]|(r & Hk & H1 & H2 & H3 & -> & H4)];
    [done|]. exists r. by split_and!.
Qed.

(** Only the current owner settles a running job: a success, failure or retry
    reported under another worker's name, or after the job stopped running,
    leaves every job as it was. *)
Theorem ingestion_ownership (a : IngestAction) (db : Db) (id : uuid) (w : pystr) (r : IngestionJob) :
  match a with
  | ISucceed _ _ j w' _ _ _ _ => j_id j = id /\ w' = w
  | IFail _ j w' _ _ | IRetry _ j w' _ _ _ => j = id /\ w' = w
  | _ => False
  end ->
  ingestion_jobs db !! id = Some r -> ~ (j_status r = I_RUNNING /\ j_worker_id r = Some w) ->
  ingestion_jobs (ingest_step db a) = ingestion_jobs db.
Proof.
  intros Ha Hk Hno.
  assert (forall f db', ingestion_jobs db' = ingestion_jobs db -> update_owned_job id w f db' = (Ok None, db')) as Hnone.
  { intros f db' Heq. destruct (update_owned_job_run id w f db') as [(r' & Hk' & Hst & Hw & _)|[-> _]]; [|done].
    rewrite Heq, Hk in Hk'. simplify_eq. tauto. }
  unfold ingest_step. destruct (perform_ingest a db) as [[[]|e] db'] eqn:E; [|done].
  destruct a; try done; cbn [perform_ingest] in E; apply bind_Ok_inv in E as (o & s1 & E & [= <-]);
    destruct Ha as [<- <-].
  - unfold succeed_txn in E. rewrite run_bind in E.
    destruct (replace_for_job_run fresh now claimed parser_version chunker_version chunks db)
      as [[Hrun _]|(e & db1 & Hrun)]; rewrite Hrun in E; [|done].
    unfold mark_job_succeeded in E. rewrite Hnone in E by done. by injection E as <- <-.
  - unfold fail_txn, mark_job_failed in E. rewrite run_bind, delete_for_job_run, Hnone in E by done.
    by injection E as <- <-.
  - unfold retry_txn, release_job_for_retry in E. destruct (available_after now delay); [|done].
    rewrite run_bind, delete_for_job_run, Hnone in E by done. by injection E as <- <-.
Qed.

Module IngestionSample.
Definition job (st : IngestionStatus) (worker : option pystr) (started : option datetime) (n : Z) : IngestionJob :=
  mkJob 1 9 (py "submissions/a") st n 5 5 5 worker started None None None None.
Definition with_job (j : IngestionJob) : Db :=
  set_ingestion_jobs {[1 := j]}
    (set_submissions {[9 := mkSubmission 9 3 2 S_CREATED [] (Some (py "submissions/a")) None None 5 5 None]} empty_db).
Definition queued_db : Db := with_job (job I_QUEUED None None 0).
Definition running_db : Db := with_job (job I_RUNNING (Some (py "w1")) (Some 10) 1).

Lemma with_job_wf j : job_wf (j_id j) j -> j_id j = 1 -> jobs_wf (with_job j).
Proof.
  intros Hj Hid k r Hk. change (({[1 := j]} : gmap uuid IngestionJob) !! k = Some r) in Hk.
  apply lookup_singleton_Some in Hk as [<- <-]. by rewrite Hid in Hj.
Qed.
Lemma sample_queued_wf : jobs_wf queued_db.
Proof. apply with_job_wf; [|done]. by split_and!. Qed.
Lemma sample_running_wf : jobs_wf running_db.
Proof. apply with_job_wf; [|done]. split_and!; try done; by eexists. Qed.

Definition draft : ChunkDraft := mkDraft 0 (py "hi") (py "00") 0 2 1 1 B_PARAGRAPH [] false.
Definition history : list IngestAction :=
  [IClaim ∅ 10 (py "w1");
   ISucceed (fun i => 100 + Z.of_nat i) 11 (job I_RUNNING (Some (py "w1")) (Some 10) 1) (py "w1")
     PARSER_VERSION CHUNKER_VERSION [draft] (py "ingestion/1/result.json")].
End IngestionSample.

Lemma ingestion_lifecycle_witness :
  j_status <$> ingestion_jobs (ingest_step IngestionSample.queued_db (IClaim ∅ 10 (py "w1"))) !! 1 = Some I_RUNNING
  /\ jobs_wf (ingest_step IngestionSample.queued_db (IClaim ∅ 10 (py "w1"))).
Proof.
  split; [vm_compute; reflexivity|].
  apply (ingestion_lifecycle (IClaim ∅ 10 (py "w1")) IngestionSample.queued_db 1 IngestionSample.sample_queued_wf).
Defined.

Lemma chunk_sets_atomic_witness :
  exists rows, chunk_set (ingest_steps IngestionSample.queued_db IngestionSample.history) 1 rows
  /\ (rows = [] \/ exists a, a ∈ IngestionSample.history /\ written a = Some (1, rows)).
Proof. apply (chunk_sets_atomic IngestionSample.history IngestionSample.queued_db 1 IngestionSample.sample_queued_wf). reflexivity. Defined.

Lemma ingestion_claim_policy_witness :
  fst (claim_next_job ∅ 10 (py "w1") IngestionSample.queued_db)
    = Ok (Some (claimed_job 10 (py "w1") (IngestionSample.job I_QUEUED None None 0)))
  /\ exists r, ingestion_jobs IngestionSample.queued_db !! j_id r = Some r /\ j_status r = I_QUEUED.
Proof.
  split; [vm_compute; reflexivity|].
  pose proof (ingestion_claim_policy ∅ 10 (py "w1") IngestionSample.queued_db IngestionSample.sample_queued_wf) as H.
  assert (claim_next_job ∅ 10 (py "w1") IngestionSample.queued_db
    = (Ok (Some (claimed_job 10 (py "w1") (IngestionSample.job I_QUEUED None None 0))),
       snd (claim_next_job ∅ 10 (py "w1") IngestionSample.queued_db))) as E by (vm_compute; reflexivity).
  rewrite E in H. destruct H as (r & H1 & H2 & _). by exists r.
Defined.

Lemma ingestion_ownership_witness :
  ingestion_jobs (ingest_step IngestionSample.running_db (IFail 20 1 (py "w2") (py "c") (py "m")))
  = ingestion_jobs IngestionSample.running_db.
Proof.
  apply (ingestion_ownership (IFail 20 1 (py "w2") (py "c") (py "m")) IngestionSample.running_db 1 (py "w2")
           (IngestionSample.job I_RUNNING (Some (py "w1")) (Some 10) 1)).
  - by split.
  - reflexivity.
  - intros [_ H]. discriminate H.
Defined.
