(* ===== verification/IngestionWorkerSpec.v ===== *)
(** The properties of the ingestion worker: durable success, the outcome of
    every kind of failure, the bound on attempts, and what a late worker can
    still do to a job it has lost. *)
From Stdlib Require Import ZArith Lia String.
From stdpp Require Import prelude strings gmap.
From S2P Require Import Prelude PyFloat PyStr Domain Database Json Utf8 Storage StorageSpec Canonical.
From S2P Require Import Chunking ChunkingSpec IngestionQueue IngestionQueueSpec IngestionWorker.
Import IngestionJobRepository DocumentChunkRepository.

(** * Keys *)

Definition hex_char (c : Z) : Prop := c = 45 \/ 48 <= c <= 57 \/ 97 <= c <= 102.

Lemma hex_digits_chars n v : Forall hex_char (hex_digits n v).
Proof.
  revert v. induction n as [|n IH]; intros v; [constructor|]. cbn. apply Forall_app. split; [apply IH|].
  constructor; [|constructor]. unfold digit_char, hex_char. pose proof (Z.mod_pos_bound v 16 ltac:(lia)).
  case_match; zify_bool; lia.
Qed.

Lemma slice_Forall {A} (P : A -> Prop) l a b : Forall P l -> Forall P (slice l a b).
Proof. intros Hl. unfold slice. by apply Forall_take, Forall_drop. Qed.

Lemma uuid_str_chars u : Forall hex_char (uuid_str u).
Proof.
  pose proof (hex_digits_chars 32 u). unfold uuid_str.
  assert (Forall hex_char (py "-")) by (constructor; [by left|constructor]).
  rewrite !Forall_app. split_and!; try done; by apply slice_Forall.
Qed.

Lemma good_component_chars c :
  Forall hex_char c -> 45 ∈ c -> good_component c.
Proof.
  rewrite Forall_forall. intros Hc Hd. split_and!.
  - intros ->. by apply elem_of_nil in Hd.
  - intros Hs%Hc. unfold hex_char, slash in Hs. lia.
  - intros ->. vm_compute in Hd. apply list_elem_of_singleton in Hd. done.
  - intros ->. assert (hex_char 46) as Hx by (apply Hc; by left). unfold hex_char in Hx. lia.
Qed.

Lemma uuid_good u : good_component (uuid_str u).
Proof.
  apply good_component_chars; [apply uuid_str_chars|]. unfold uuid_str.
  apply elem_of_app. right. apply elem_of_app. left. by left.
Qed.

(** The directory of the outputs. *)
Definition ingestion_dir : pystr := py "ingestion".
Definition output_path (job_id : uuid) (name : string) : path := [ingestion_dir; uuid_str job_id; py name].

#[export] Instance good_component_dec c : Decision (good_component c).
Proof. unfold good_component. apply _. Defined.

Ltac decide_goal := apply (bool_decide_unpack _); vm_compute; exact I.

Lemma output_key job_id name :
  good_component (py name) ->
  resolve (py "ingestion/" ++ uuid_str job_id ++ py "/" ++ py name) = Ok (output_path job_id name).
Proof.
  intros Hn. rewrite <-(resolve_key_of_path (output_path job_id name)).
  - f_equal.
  - split; [done|]. repeat (apply Forall_cons; split); try done; [decide_goal|apply uuid_good].
Qed.

Lemma canonical_key_path job_id :
  resolve (canonical_key_for job_id) = Ok (output_path job_id "canonical.txt").
Proof. apply output_key. decide_goal. Qed.

Lemma result_key_path job_id :
  resolve (result_key_for job_id) = Ok (output_path job_id "result.json").
Proof. apply output_key. decide_goal. Qed.

(** * The output files *)

(** Files below the outputs' directory are in the directories of jobs, and the
    staging files are directly in the incoming directory. *)
Definition layout_ok (fs : Fs) : Prop :=
  forall q f, files fs !! q = Some f -> head q = Some ingestion_dir -> length q = 3%nat.

Lemma layout_parents fs job_id name : layout_ok fs -> parents_ok fs (output_path job_id name) = true.
Proof.
  intros Hl. unfold parents_ok. apply forallb_forall. intros n Hn%in_seq.
  unfold is_file. rewrite negb_true_iff, bool_decide_eq_false. intros [f Hf].
  assert (n = 1 \/ n = 2)%nat as [->| ->] by (cbn in Hn; lia);
    by specialize (Hl _ _ Hf eq_refl).
Qed.

Lemma layout_not_dir fs a b : layout_ok fs -> is_dir fs [ingestion_dir; a; b] = false.
Proof.
  intros Hl. unfold is_dir. destruct (existsb _ _) eqn:E; [|done].
  apply existsb_exists in E as ([q f] & Hin%list_elem_of_In%elem_of_map_to_list & Ht).
  apply andb_true_iff in Ht as [Hp Hlen]. apply bool_decide_eq_true in Hp as [k Hk].
  cbn [fst] in Hk, Hlen. subst q. specialize (Hl _ _ Hin eq_refl). apply Nat.ltb_lt in Hlen.
  cbn [app length] in Hl, Hlen. lia.
Qed.

Lemma layout_write fs now q d :
  layout_ok fs -> (head q = Some ingestion_dir -> length q = 3%nat) -> layout_ok (write_file now q d fs).
Proof. intros Hl Hq p f Hp. cbn in Hp. apply lookup_insert_Some in Hp as [[<- _]|[_ Hp]]; [done|by eapply Hl]. Qed.

Lemma layout_unlink fs q : layout_ok fs -> layout_ok (unlink q fs).
Proof. intros Hl p f Hp. cbn in Hp. apply lookup_delete_Some in Hp as [_ Hp]. by eapply Hl. Qed.

Lemma write_text_run now p text d fs :
  utf8 text = Some d -> write_text now p text fs = (Ok tt, write_file now p d fs).
Proof. intros Hd. unfold write_text. by rewrite Hd. Qed.

(** Staging a file and moving it to the key of an output. *)
Lemma put_output now job_id name key src ct d fs dct :
  layout_ok fs -> resolve key = Ok (output_path job_id name) -> head src = Some (py ".incoming") ->
  utf8 (if nonempty ct then ct else py "application/octet-stream") = Some dct ->
  exists fs', fs_put_from_path now key src ct (write_file now src d fs) = (Ok key, fs')
  /\ layout_ok fs' /\ files fs' !! output_path job_id name = Some (mkFile d now)
  /\ forall q, q <> src -> q <> output_path job_id name -> q <> sidecar (output_path job_id name) ->
      q <> add_suffix (output_path job_id name) ".tmp" -> files fs' !! q = files fs !! q.
Proof.
  intros Hl Hkey Hsrc Hct.
  set (p := output_path job_id name). assert (src <> p) as Hne by (intros ->; done).
  assert (src <> add_suffix p ".tmp") as Htmp by (intros ->; done).
  set (fs1 := write_file now src d fs).
  assert (layout_ok fs1) as Hl1.
  { apply layout_write; [done|]. intros Hh. rewrite Hsrc in Hh. done. }
  rewrite (fs_put_from_path_run now key src ct fs1 p (mkFile d now) Hkey) by (done || apply lookup_insert_eq).
  rewrite (layout_parents fs1 job_id name Hl1 : parents_ok fs1 p = true). cbn [negb].
  rewrite (layout_not_dir fs1 _ _ Hl1 : is_dir fs1 (add_suffix p ".tmp") = false).
  rewrite (layout_not_dir fs1 _ _ Hl1 : is_dir fs1 p = false).
  unfold write_sidecar. rewrite Hct. unfold modify_st.
  eexists. split; [done|]. split.
  { apply layout_write; [|done]. intros q f. unfold moved. cbn [files].
    intros [[<- _]|[_ [_ [_ Hq]%lookup_delete_Some]%lookup_delete_Some]]%lookup_insert_Some; [done|by eapply Hl1]. }
  assert (p <> sidecar p) as Hsc by (intros Heq; by apply (add_suffix_ne p ".content_type")).
  split.
  - cbn. rewrite lookup_insert_ne, lookup_insert_eq by done. done.
  - intros q H1 H2 H3 H4. unfold write_file. cbn [files]. rewrite lookup_insert_ne, moved_other by done.
    cbn. by rewrite lookup_insert_ne.
Qed.

(** * Texts *)

(** The characters of a canonical text are characters of the raw text, or
    newlines. *)
Lemma replace_crlf_incl n s x : (length s <= n)%nat -> x ∈ replace_crlf s -> x ∈ s \/ x = newline.
Proof.
  revert s. induction n as [|n IH]; intros s Hn; [destruct s; [auto|cbn in Hn; lia]|].
  destruct s as [|c [|d s]]; [auto|auto|].
  change (replace_crlf (c :: d :: s))
    with (if (c =? 13) && (d =? 10) then 10 :: replace_crlf s else c :: replace_crlf (d :: s)).
  cbn [length] in Hn. destruct (_ && _); intros [->|Hx]%elem_of_cons; auto.
  - destruct (IH s ltac:(lia) Hx); [left; set_solver|auto].
  - left. by left.
  - destruct (IH (d :: s) ltac:(cbn; lia) Hx); [left; by right|auto].
Qed.

Lemma replace_char_incl o n s x : x ∈ replace_char o n s -> x ∈ s \/ x ∈ n.
Proof.
  induction s as [|c s IH]; cbn; [auto|]. destruct (c =? o); cbn.
  - intros [?|?]%elem_of_app; [auto|]. destruct IH; [done|left; by right|auto].
  - intros [->|?]%elem_of_cons; [left; by left|]. destruct IH; [done|left; by right|auto].
Qed.

Lemma canonical_text_incl raw x : x ∈ canonical_text raw -> x ∈ raw \/ x = newline.
Proof.
  unfold canonical_text. intros [->|(l & Hl & Hx)]%join_elem; [auto|].
  apply drop_empty_end_incl, drop_empty_incl, list_elem_of_fmap in Hl as (l0 & -> & Hl0).
  apply rstrip_by_incl, (split_elem _ _ _ _ Hl0), replace_char_incl in Hx as [Hx| ->%list_elem_of_singleton];
    [|auto]. by eapply replace_crlf_incl.
Qed.

Lemma canonical_encodes text : Forall scalar text -> exists d, utf8 (canonical_text text) = Some d.
Proof.
  intros Ht. apply utf8_total, Forall_forall. intros x [Hx| ->]%canonical_text_incl.
  - rewrite Forall_forall in Ht. by apply Ht.
  - unfold scalar, newline. lia.
Qed.

(** * The stages *)

Section Stages.
Context `{Sha256} `{FloatRepr}.

Lemma manifest_float_free id k n m cv doc cs : float_free (manifest id k n m cv doc cs) = true.
Proof.
  unfold manifest. cbn. rewrite !andb_true_iff. split_and!; try done;
    (induction cs as [|c cs IH]; [done|exact IH]).
Qed.

Lemma lift_io_ok {A} (c : M exn Fs A) fs a fs' : c fs = (Ok a, fs') -> lift_io c fs = (Ok a, fs').
Proof. unfold lift_io. by intros ->. Qed.

Lemma sidecar_output id name : sidecar (output_path id name) = [ingestion_dir; uuid_str id; py name ++ py ".content_type"].
Proof. done. Qed.
Lemma tmp_output id name : add_suffix (output_path id name) ".tmp" = [ingestion_dir; uuid_str id; py name ++ py ".tmp"].
Proof. done. Qed.

(** An artifact that the stages accept leaves both outputs in the store. *)
Lemma process_artifact_ok now id key n m raw doc chunks fs :
  layout_ok fs -> fs_get key fs = (Ok raw, fs) -> parse_artifact raw n m = Ok (doc, chunks) ->
  exists fs' dtext dres,
    process_artifact now id key n m CHUNKER_VERSION fs
    = (Ok (mkIngest (result_key_for id) (canonical_key_for id) PARSER_VERSION CHUNKER_VERSION
             (char_count doc) (doc_content_sha256 doc) (py (value (doc_kind doc))) (zlen chunks) m chunks), fs')
    /\ layout_ok fs'
    /\ utf8 (doc_text doc) = Some dtext
    /\ utf8 (dumps_spaced true true (manifest id key n m CHUNKER_VERSION doc chunks)) = Some dres
    /\ files fs' !! output_path id "canonical.txt" = Some (mkFile dtext now)
    /\ files fs' !! output_path id "result.json" = Some (mkFile dres now).
Proof.
  intros Hl Hget Hparse.
  assert (exists text, utf8_decode raw = Some text /\ doc = normalize_to_canonical text) as (text & Hdec & Hdoc).
  { unfold parse_artifact in Hparse. repeat case_match; simplify_eq. eauto. }
  destruct (canonical_encodes text (utf8_decode_loop_scalar _ _ _ Hdec)) as [dtext Hdtext].
  assert (utf8 (doc_text doc) = Some dtext) as Hdt by (by rewrite Hdoc).
  destruct (dumps_encodes true _ (manifest_float_free id key n m CHUNKER_VERSION doc chunks)) as [dres Hdres].
  destruct (put_output now id "canonical.txt" (canonical_key_for id) (incoming_canonical id)
    (py "text/plain; charset=utf-8") dtext fs (py "text/plain; charset=utf-8")) as (fs1 & R1 & L1 & F1 & _);
    [done|apply canonical_key_path|done|vm_compute; reflexivity|].
  destruct (put_output now id "result.json" (result_key_for id) (incoming_result id)
    (py "application/json") dres fs1 (py "application/json")) as (fs2 & R2 & L2 & F2 & K2);
    [done|apply result_key_path|done|vm_compute; reflexivity|].
  exists fs2, dtext, dres. split; [|split_and!; try done].
  - unfold process_artifact. rewrite run_bind. unfold read_artifact. rewrite Hget, Hparse.
    rewrite run_bind, (lift_io_ok _ _ _ _ (write_text_run now _ _ _ _ Hdt)).
    rewrite run_bind, (lift_io_ok _ _ _ _ R1), run_bind, (lift_io_ok _ _ _ _ (write_text_run now _ _ _ _ Hdres)).
    rewrite run_bind, (lift_io_ok _ _ _ _ R2). done.
  - rewrite K2; [done| | | |]; intros Heq; try (by apply (f_equal head) in Heq);
      rewrite ?sidecar_output, ?tmp_output in Heq; unfold output_path in Heq; injection Heq; discriminate.
Qed.
End Stages.

(** * The chunk transaction *)

Lemma chunk_set_filter db j rows : chunk_set db j rows -> forall k r,
  document_chunks db !! k = Some r -> dc_ingestion_job_id r = j -> r ∈ rows.
Proof. intros Hs k r Hk Hj. by destruct (proj1 (Hs k r) (conj Hk Hj)). Qed.

(** Inserting rows succeeds when each is valid, its key free, and the ordinals
    of the job distinct. *)
Lemma insert_chunks_succeed j rows db :
  is_Some (ingestion_jobs db !! j) -> NoDup (dc_id <$> rows) -> NoDup (dc_ordinal <$> rows) ->
  (forall r, r ∈ rows -> chunk_check r = true /\ dc_ingestion_job_id r = j
                         /\ document_chunks db !! dc_id r = None
                         /\ is_Some (submissions db !! dc_submission_id r)) ->
  (forall k r' r, r ∈ rows -> document_chunks db !! k = Some r' -> dc_ingestion_job_id r' = j ->
     dc_ordinal r' <> dc_ordinal r) ->
  exists db', mapM (fun row => insert_chunk row ;; mret row) rows db = (Ok rows, db').
Proof.
  revert db. induction rows as [|r rows IH]; intros db Hj Hids Hords Hrows Hother; [by eexists|].
  rewrite mapM_cons_run, !run_bind. destruct (Hrows r ltac:(by left)) as (Hck & Hrj & Hfree & Hsub).
  apply NoDup_cons in Hids as [Hid Hids], Hords as [Hord Hords].
  assert (insert_chunk r db = (Ok tt, set_document_chunks (<[dc_id r := r]> (document_chunks db)) db)) as ->.
  { unfold insert_chunk, insert_row. rewrite Hfree, Hck, Hrj. rewrite !(bool_decide_eq_true_2 (is_Some _)) by done.
    rewrite (proj2 (rows_where_empty _ _)); [done|]. intros k r' Hk.
    apply andb_false_iff. rewrite !bool_decide_eq_false. destruct (decide (dc_ingestion_job_id r' = j)); [|auto].
    right. eapply Hother; eauto. by left. }
  rewrite run_ret, run_bind.
  destruct (IH (set_document_chunks (<[dc_id r := r]> (document_chunks db)) db)) as (db' & Hrun);
    [done|done|done| | |].
  - intros r' Hr'. destruct (Hrows r' ltac:(by right)) as (? & ? & Hf & ?). split_and!; try done. cbn.
    rewrite lookup_insert_ne; [done|]. intros Heq. apply Hid. rewrite Heq. by apply list_elem_of_fmap_2.
  - intros k r0 r' Hr' Hk Hj0. cbn in Hk. apply lookup_insert_Some in Hk as [[_ <-]|[_ Hk]].
    + intros Heq. apply Hord. rewrite Heq. by apply list_elem_of_fmap_2.
    + eapply Hother; eauto. by right.
  - rewrite Hrun. by eexists.
Qed.

Section Worker.
Context `{Sha256} `{FloatRepr}.

Lemma drafts_ordinals_NoDup b n ds : drafts_ordered b n ds -> NoDup (d_ordinal <$> ds).
Proof.
  revert b n. induction ds as [|d ds IH]; intros b n Hds; [constructor|].
  destruct Hds as (_ & Hn & Hds). apply NoDup_cons. split; [|by eapply IH].
  intros (d' & Heq & Hd')%list_elem_of_fmap. pose proof (drafts_ordinals _ _ _ _ Hds Hd'). lia.
Qed.

(** The chunks of a document replace those of the job. *)
Lemma replace_chunks_succeed text m fresh now j pv cv ds db :
  Forall (draft_ok text m) ds -> drafts_ordered 0 0 ds ->
  is_Some (ingestion_jobs db !! j_id j) -> is_Some (submissions db !! j_submission_id j) ->
  (forall i, document_chunks db !! fresh i = None) -> (forall i k, fresh i = fresh k -> i = k) ->
  replace_for_job fresh now (j_id j) (j_submission_id j) (j_artifact_key j) pv cv ds db
  = (Ok (rows_of fresh now j pv cv ds),
     set_document_chunks (add_chunks (rows_of fresh now j pv cv ds)
                            (without_job (j_id j) (document_chunks db))) db).
Proof.
  intros Hok Hord Hj Hsub Hfree Hinj.
  destruct (replace_for_job_run fresh now j pv cv ds db) as [[Hrun _]|(e & db' & Hrun)]; [done|exfalso].
  unfold replace_for_job in Hrun. rewrite run_bind, delete_for_job_run in Hrun.
  fold (rows_of fresh now j pv cv ds) in Hrun.
  destruct (insert_chunks_succeed (j_id j) (rows_of fresh now j pv cv ds)
    (set_document_chunks (without_job (j_id j) (document_chunks db)) db)) as (db2 & Hrun2); [done|..].
  - apply NoDup_alt. intros i k x Hi Hk. unfold rows_of in Hi, Hk.
    rewrite list_lookup_fmap, list_lookup_imap, <-option_fmap_compose in Hi, Hk. cbn in Hi, Hk.
    destruct (ds !! i), (ds !! k); try done. cbn in Hi, Hk. apply Hinj. congruence.
  - assert (dc_ordinal <$> rows_of fresh now j pv cv ds = d_ordinal <$> ds) as ->.
    { apply list_eq. intros i. unfold rows_of. rewrite !list_lookup_fmap, list_lookup_imap.
      by destruct (ds !! i). }
    by eapply drafts_ordinals_NoDup.
  - intros r (i & d & -> & Hd)%elem_of_lookup_imap_1. split_and!; [|done| |done].
    + apply list_elem_of_lookup_2 in Hd. rewrite Forall_forall in Hok.
      unfold chunk_check. cbn. apply (draft_check text m d (d_ordinal d)); [by apply Hok|done|].
      pose proof (drafts_ordinals _ _ _ _ Hord Hd). lia.
    + cbn. destruct (without_job (j_id j) (document_chunks db) !! fresh i) eqn:E; [|done].
      apply without_job_lookup in E as [E _]. by rewrite Hfree in E.
  - intros k r' r _ Hk Hj'. cbn in Hk. apply without_job_lookup in Hk as [_ Hno].
    unfold of_job in Hno. by rewrite bool_decide_eq_false in Hno.
  - by rewrite Hrun2 in Hrun.
Qed.

(** What a job's success promises: chunks of the canonical text of its artifact,
    and the two outputs in the store. *)
Definition durable_success (w : World) (j : IngestionJob) (env : WorkerEnv) (text : pystr) (m : Z) : Prop :=
  let doc := normalize_to_canonical text in
  exists chunks dtext dres r,
    chunk_hybrid doc m = Ok chunks
    /\ ingestion_jobs (w_db w) !! j_id j = Some r
    /\ j_status r = I_SUCCEEDED /\ j_result_key r = Some (result_key_for (j_id j))
    /\ chunk_set (w_db w) (j_id j)
         (rows_of (ev_fresh env) (ev_settle_now env) j PARSER_VERSION CHUNKER_VERSION chunks)
    /\ utf8 (doc_text doc) = Some dtext
    /\ fs_get (canonical_key_for (j_id j)) (w_fs w) = (Ok dtext, w_fs w)
    /\ utf8 (dumps_spaced true true
         (manifest (j_id j) (j_artifact_key j) (j_attempt_count j) m CHUNKER_VERSION doc chunks)) = Some dres
    /\ fs_get (result_key_for (j_id j)) (w_fs w) = (Ok dres, w_fs w).

(** The environment gives identifiers that are new and distinct. *)
Definition fresh_ok (env : WorkerEnv) (db : Db) : Prop :=
  (forall i, document_chunks db !! ev_fresh env i = None)
  /\ forall i k, ev_fresh env i = ev_fresh env k -> i = k.

Lemma fs_get_file key p fs f : resolve key = Ok p -> files fs !! p = Some f -> fs_get key fs = (Ok (f_bytes f), fs).
Proof. intros Hk Hf. unfold fs_get, resolved. rewrite Hk, run_bind. cbn. by rewrite Hf. Qed.

Lemma process_claimed_ok cfg env c w r raw text :
  ingestion_jobs (w_db w) !! j_id c = Some c -> j_status c = I_RUNNING ->
  j_worker_id c = Some (wc_worker_id cfg) -> job_check c = true ->
  wc_crash_after_process cfg = false -> wc_crash_after_chunk_persist cfg = false ->
  is_Some (submissions (w_db w) !! j_submission_id c) ->
  layout_ok (w_fs w) -> fresh_ok env (w_db w) -> 1 <= wc_chunk_max_chars cfg ->
  fs_get (j_artifact_key c) (w_fs w) = (Ok raw, w_fs w) -> utf8_decode raw = Some text ->
  parse_artifact raw (j_attempt_count c) (wc_chunk_max_chars cfg) = Ok r ->
  exists w', process_claimed cfg env c w = (Ok true, w')
  /\ durable_success w' c env text (wc_chunk_max_chars cfg)
  /\ w_succeeded w' = w_succeeded w + 1 /\ w_claims w' = w_claims w.
Proof.
  intros Hk Hst Hw Hck Hc2 Hc3 Hsub Hl [Hf1 Hf2] Hm Hget Hdec Hparse. destruct r as [doc chunks].
  assert (doc = normalize_to_canonical text /\ chunk_hybrid (normalize_to_canonical text) (wc_chunk_max_chars cfg) = Ok chunks)
    as [-> Hchunks] by (unfold parse_artifact in Hparse; repeat case_match; by simplify_eq).
  destruct (chunk_hybrid_spec _ _ (canonical_no_trailing text) (canonical_empty_blank text) Hm)
    as (ds & Hds & Hok & Hord & _). rewrite Hds in Hchunks. injection Hchunks as ->.
  destruct (process_artifact_ok (ev_mtime env) (j_id c) _ _ _ _ _ _ _ Hl Hget Hparse)
    as (fs' & dtext & dres & Hrun & _ & Hdt & Hdres & F1 & F2).
  unfold process_claimed, on_store, zoom. rewrite Hrun, run_bind, Hc2. cbn [negb guard_or mret M_ret].
  set (w1 := w <| w_fs := fs' |>). rewrite run_bind. unfold settle_succeeded, txn. rewrite Hc3.
  unfold succeed_txn. rewrite run_bind. cbn [ir_parser_version ir_chunker_version ir_chunks ir_result_key].
  change (w_db w1) with (w_db w).
  rewrite (replace_chunks_succeed (doc_text (normalize_to_canonical text)) (wc_chunk_max_chars cfg)) by eauto.
  set (db1 := set_document_chunks _ (w_db w)). unfold mark_job_succeeded.
  destruct (update_owned_job_run (j_id c) (wc_worker_id cfg) (fun r =>
    r <| j_status := I_SUCCEEDED |> <| j_result_key := Some (result_key_for (j_id c)) |>
      <| j_completed_at := Some (ev_settle_now env) |> <| j_updated_at := ev_settle_now env |>
      <| j_error_code := None |> <| j_error_message := None |>) db1)
    as [(r & Hr & _ & _ & ->)|[_ Hno]].
  2: { exfalso. eapply (Hno c); [exact Hk|done]. }
  change (ingestion_jobs db1) with (ingestion_jobs (w_db w)) in *. rewrite Hk in Hr. injection Hr as <-.
  assert (job_check (c <| j_status := I_SUCCEEDED |> <| j_result_key := Some (result_key_for (j_id c)) |>
    <| j_completed_at := Some (ev_settle_now env) |> <| j_updated_at := ev_settle_now env |>
    <| j_error_code := None |> <| j_error_message := None |>) = true) as -> by done.
  eexists. split; [reflexivity|]. split; [|done].
  destruct (replace_for_job_run (ev_fresh env) (ev_settle_now env) c PARSER_VERSION CHUNKER_VERSION chunks (w_db w))
    as [[_ Hset]|(e & db' & Hno)].
  2: { erewrite replace_chunks_succeed in Hno by eauto. done. }
  eexists chunks, dtext, dres, _. split_and!; try done.
  - cbn. apply lookup_insert_eq.
  - done.
  - done.
  - intros k r. cbn. rewrite Hset. pose proof (rows_of_job (ev_fresh env) (ev_settle_now env) c
      PARSER_VERSION CHUNKER_VERSION chunks r). naive_solver.
  - eapply (fs_get_file _ _ _ (mkFile dtext (ev_mtime env))); [apply canonical_key_path|exact F1].
  - eapply (fs_get_file _ _ _ (mkFile dres (ev_mtime env))); [apply result_key_path|exact F2].
Qed.

(** C18 Durable success: when the worker, none of its crash switches set, claims a job
    of an existing submission (a foreign key of the schema) whose artifact is valid
    text with neither of the synthetic failure prefixes, the pass ends with the job succeeded and, in the same committed
    state, exactly the chunks of the artifact's canonical text as the job's
    chunk rows, in order, and both outputs readable from the store with the
    canonical text and its manifest. *)
Theorem run_once_durable (cfg : WorkerConfig) (env : WorkerEnv) (w : World) (c : IngestionJob)
    (db1 : Db) (raw : bytes) (text : pystr) :
  jobs_wf (w_db w) -> layout_ok (w_fs w) -> fresh_ok env (w_db w) ->
  claim_next_job (ev_locked env) (ev_claim_now env) (wc_worker_id cfg) (w_db w) = (Ok (Some c), db1) ->
  is_Some (submissions (w_db w) !! j_submission_id c) ->
  wc_crash_after_claim cfg || wc_crash_after_process cfg || wc_crash_after_chunk_persist cfg = false ->
  fs_get (j_artifact_key c) (w_fs w) = (Ok raw, w_fs w) -> utf8_decode raw = Some text ->
  startswith raw POISON_PREFIX = false ->
  startswith raw TRANSIENT_PREFIX = false \/ 2 <= j_attempt_count c ->
  1 <= wc_chunk_max_chars cfg ->
  exists w', run_once cfg env w = (Ok true, w')
  /\ durable_success w' c env text (wc_chunk_max_chars cfg)
  /\ w_claims w' = w_claims w + 1 /\ w_succeeded w' = w_succeeded w + 1.
Proof.
  intros Hwf Hl Hfresh Hclaim Hsub Hcrash Hget Hdec Hpo Htr Hm.
  apply orb_false_iff in Hcrash as [[Hc1 Hc2]%orb_false_iff Hc3].
  destruct (claim_next_job_run (ev_locked env) (ev_claim_now env) (wc_worker_id cfg) (w_db w) Hwf)
    as [[Hrun _]|(r & Hk & Hst & _ & _ & Hrun & _)]; rewrite Hrun in Hclaim; [done|].
  injection Hclaim as <- <-. set (c := claimed_job _ _ r) in *.
  destruct (Hwf _ _ Hk) as (_ & Hck & _).
  assert (exists r, parse_artifact raw (j_attempt_count c) (wc_chunk_max_chars cfg) = Ok r) as [pr Hparse].
  { unfold parse_artifact. rewrite Hpo, Hdec.
    assert (startswith raw TRANSIENT_PREFIX && (j_attempt_count c <? 2) = false) as ->
      by (apply andb_false_iff; rewrite Z.ltb_ge; tauto).
    destruct (chunk_hybrid_spec _ _ (canonical_no_trailing text) (canonical_empty_blank text) Hm)
      as (ds & -> & _). eauto. }
  set (w1 := count_claim (w <| w_db := set_ingestion_jobs (<[j_id r := c]> (ingestion_jobs (w_db w))) (w_db w) |>)).
  destruct (process_claimed_ok cfg env c w1 pr raw text) as (w' & Hrun' & Hdur & Hsucc & Hcl); try done.
  { cbn. apply lookup_insert_eq. }
  { unfold job_check in *. cbn. zify_bool. lia. }
  exists w'. split_and!; try done. unfold run_once. rewrite run_bind. unfold txn.
  rewrite Hrun, run_bind. unfold modify_st. rewrite run_bind, Hc1. exact Hrun'.
Qed.

(** * Failures *)

Lemma try_delete_run key p fs :
  resolve key = Ok p -> try_delete key fs = (Ok tt, unlink (sidecar p) (unlink p fs)).
Proof. intros Hk. unfold try_delete, catch, fs_delete, resolved. by rewrite Hk. Qed.

Lemma cleanup_run id fs :
  exists fs', cleanup_partial_result id fs = (Ok tt, fs')
  /\ files fs' !! output_path id "canonical.txt" = None
  /\ files fs' !! output_path id "result.json" = None.
Proof.
  unfold cleanup_partial_result. rewrite run_bind, (try_delete_run _ _ _ (result_key_path id)).
  rewrite run_bind, (try_delete_run _ _ _ (canonical_key_path id)). unfold modify_st. rewrite !run_bind.
  eexists. split; [reflexivity|]. cbn.
  split; rewrite !lookup_delete_None; auto 10.
Qed.

Lemma fs_get_missing key p fs : resolve key = Ok p -> files fs !! p = None -> fs_get key fs = (Raise FileNotFoundError, fs).
Proof. intros Hk Hf. unfold fs_get, resolved. rewrite Hk, run_bind. cbn. by rewrite Hf. Qed.

(** How a job is settled after an error of its stages. *)
Definition failed_with (r : IngestionJob) (code message : pystr) : Prop :=
  j_status r = I_FAILED /\ j_error_code r = Some code
  /\ j_error_message r = Some (slice message 0 2000).

Definition requeued_with (r : IngestionJob) (code message : pystr) (available : datetime) : Prop :=
  j_status r = I_QUEUED /\ j_worker_id r = None /\ j_started_at r = None
  /\ j_available_at r = available /\ j_error_code r = Some code
  /\ j_error_message r = Some (slice message 0 2000).

Definition exhausted_or_retry (cfg : WorkerConfig) (c r : IngestionJob) (code message : pystr)
    (available : datetime) : Prop :=
  if wc_max_attempts cfg <=? j_attempt_count c
  then failed_with r code (message ++ py " (attempts exhausted)")
  else requeued_with r code message available.

Definition settled_after (cfg : WorkerConfig) (c r : IngestionJob) (err : ingest_exn)
    (available : datetime) : Prop :=
  match err with
  | DeterministicIngestError code message => failed_with r code message
  | TransientIngestError code message => exhausted_or_retry cfg c r code message available
  | UnexpectedError e => exhausted_or_retry cfg c r (py "executor_error") (exn_text e) available
  end.

(** No output of the job is left. *)
Definition outputs_gone (w : World) (id : uuid) : Prop :=
  chunk_set (w_db w) id []
  /\ fs_get (canonical_key_for id) (w_fs w) = (Raise FileNotFoundError, w_fs w)
  /\ fs_get (result_key_for id) (w_fs w) = (Raise FileNotFoundError, w_fs w).

(** A transaction that deletes the chunks and settles a job its worker holds. *)
Lemma settle_run cfg c f t w :
  ingestion_jobs (w_db w) !! j_id c = Some c -> j_status c = I_RUNNING ->
  j_worker_id c = Some (wc_worker_id cfg) -> job_check (f c) = true ->
  (forall db, t db = (delete_for_job (j_id c) ;; update_owned_job (j_id c) (wc_worker_id cfg) f) db) ->
  exists w', txn t w = (Ok (Some (f c)), w') /\ w_fs w' = w_fs w
  /\ w_claims w' = w_claims w /\ w_failed w' = w_failed w /\ w_retried w' = w_retried w
  /\ ingestion_jobs (w_db w') !! j_id c = Some (f c)
  /\ chunk_set (w_db w') (j_id c) [].
Proof.
  intros Hk Hst Hw Hck Ht. unfold txn. rewrite Ht, run_bind, delete_for_job_run.
  destruct (update_owned_job_run (j_id c) (wc_worker_id cfg) f
    (set_document_chunks (without_job (j_id c) (document_chunks (w_db w))) (w_db w)))
    as [(r & Hr & _ & _ & ->)|[_ Hno]]; [|exfalso; by apply (Hno c)].
  change (ingestion_jobs (w_db w) !! j_id c = Some r) in Hr. rewrite Hk in Hr. injection Hr as <-.
  rewrite Hck. eexists. split; [reflexivity|]. split_and!; try done; [cbn; apply lookup_insert_eq|].
  intros k r. cbn. rewrite without_job_lookup. unfold of_job. rewrite bool_decide_eq_false. set_solver.
Qed.

Lemma cleanup_world id w :
  exists w', on_store (E := exn) (cleanup_partial_result id) w = (Ok tt, w') /\ w_db w' = w_db w
  /\ fs_get (canonical_key_for id) (w_fs w') = (Raise FileNotFoundError, w_fs w')
  /\ fs_get (result_key_for id) (w_fs w') = (Raise FileNotFoundError, w_fs w').
Proof.
  destruct (cleanup_run id (w_fs w)) as (fs' & Hrun & H1 & H2). unfold on_store, zoom. rewrite Hrun.
  eexists. split; [reflexivity|]. split; [done|]. cbn.
  split; eapply fs_get_missing; [apply canonical_key_path|done|apply result_key_path|done].
Qed.

Lemma settle_failed_run cfg now c code message w :
  ingestion_jobs (w_db w) !! j_id c = Some c -> j_status c = I_RUNNING ->
  j_worker_id c = Some (wc_worker_id cfg) -> job_check c = true ->
  exists w' r, settle_failed cfg now (j_id c) code message w = (Ok tt, w')
  /\ ingestion_jobs (w_db w') !! j_id c = Some r /\ failed_with r code message /\ outputs_gone w' (j_id c).
Proof.
  intros Hk Hst Hw Hck. unfold settle_failed. rewrite run_bind.
  destruct (settle_run cfg c (fun r =>
      r <| j_status := I_FAILED |> <| j_completed_at := Some now |> <| j_updated_at := now |>
        <| j_error_code := Some code |> <| j_error_message := Some (slice message 0 2000) |>)
      (fail_txn now (j_id c) (wc_worker_id cfg) code message) w)
    as (w1 & -> & _ & _ & _ & _ & Hj & Hc); [done..|exact Hck|reflexivity|].
  rewrite run_bind. destruct (cleanup_world (j_id c) w1) as (w2 & -> & Hdb & H1 & H2).
  eexists _, _. split; [reflexivity|].
  split; [exact (eq_trans (f_equal (fun d => ingestion_jobs d !! j_id c) Hdb) Hj)|].
  split; [repeat split|]. split; [|exact (conj H1 H2)].
  intros k r. exact (eq_ind_r (fun d => document_chunks d !! k = Some r /\ _ <-> _) (Hc k r) Hdb).
Qed.

Lemma handle_retryable_run cfg now c code message av w :
  ingestion_jobs (w_db w) !! j_id c = Some c -> j_status c = I_RUNNING ->
  j_worker_id c = Some (wc_worker_id cfg) -> job_check c = true ->
  available_after now (wc_retry_delay cfg) = Some av ->
  exists w' r, handle_retryable cfg now c code message w = (Ok tt, w')
  /\ ingestion_jobs (w_db w') !! j_id c = Some r /\ exhausted_or_retry cfg c r code message av
  /\ outputs_gone w' (j_id c).
Proof.
  intros Hk Hst Hw Hck Hav. unfold handle_retryable, exhausted_or_retry.
  destruct (wc_max_attempts cfg <=? j_attempt_count c); [by apply settle_failed_run|].
  rewrite run_bind.
  destruct (settle_run cfg c (fun r =>
      r <| j_status := I_QUEUED |> <| j_worker_id := None |> <| j_started_at := None |>
        <| j_available_at := av |> <| j_updated_at := now |>
        <| j_error_code := Some code |> <| j_error_message := Some (slice message 0 2000) |>)
      (retry_txn now (j_id c) (wc_worker_id cfg) code message (wc_retry_delay cfg)) w)
    as (w1 & -> & _ & _ & _ & _ & Hj & Hc); [done..|exact Hck| |].
  { intros db. unfold retry_txn, release_job_for_retry. by rewrite Hav. }
  rewrite run_bind. destruct (cleanup_world (j_id c) w1) as (w2 & -> & Hdb & H1 & H2).
  eexists _, _. split; [reflexivity|].
  split; [exact (eq_trans (f_equal (fun d => ingestion_jobs d !! j_id c) Hdb) Hj)|].
  split; [repeat split|]. split; [|exact (conj H1 H2)].
  intros k r. exact (eq_ind_r (fun d => document_chunks d !! k = Some r /\ _ <-> _) (Hc k r) Hdb).
Qed.

(** What the worker does with the error of the stages. *)
Lemma process_claimed_error cfg env c err fs' w :
  process_artifact (ev_mtime env) (j_id c) (j_artifact_key c) (j_attempt_count c)
    (wc_chunk_max_chars cfg) CHUNKER_VERSION (w_fs w) = (Raise err, fs') ->
  process_claimed cfg env c w
  = ((match err with
      | DeterministicIngestError code message => settle_failed cfg (ev_settle_now env) (j_id c) code message
      | TransientIngestError code message => handle_retryable cfg (ev_settle_now env) c code message
      | UnexpectedError e => handle_retryable cfg (ev_settle_now env) c (py "executor_error") (exn_text e)
      end) ;; mret true) (w <| w_fs := fs' |>).
Proof. intros Hproc. unfold process_claimed, on_store, zoom. rewrite Hproc. by destruct err. Qed.

(** C19 Every error of the stages settles the claimed job, on every branch: a
    deterministic error fails it with its code, a transient or unexpected one
    puts it back in the queue with the retry delay, or fails it when its
    attempts are used up; the message is cut at 2000 characters, and no chunk
    row and no output file of the job is left. *)
Theorem run_once_failure (cfg : WorkerConfig) (env : WorkerEnv) (w : World) (c : IngestionJob)
    (db1 : Db) (err : ingest_exn) (fs' : Fs) (av : datetime) :
  jobs_wf (w_db w) ->
  claim_next_job (ev_locked env) (ev_claim_now env) (wc_worker_id cfg) (w_db w) = (Ok (Some c), db1) ->
  wc_crash_after_claim cfg = false ->
  process_artifact (ev_mtime env) (j_id c) (j_artifact_key c) (j_attempt_count c)
    (wc_chunk_max_chars cfg) CHUNKER_VERSION (w_fs w) = (Raise err, fs') ->
  available_after (ev_settle_now env) (wc_retry_delay cfg) = Some av ->
  exists w' r, run_once cfg env w = (Ok true, w')
  /\ ingestion_jobs (w_db w') !! j_id c = Some r
  /\ settled_after cfg c r err av /\ outputs_gone w' (j_id c).
Proof.
  intros Hwf Hclaim Hc1 Hproc Hav.
  destruct (claim_next_job_run (ev_locked env) (ev_claim_now env) (wc_worker_id cfg) (w_db w) Hwf)
    as [[Hrun _]|(r & Hk & Hst & _ & _ & Hrun & _)]; rewrite Hrun in Hclaim; [done|].
  injection Hclaim as <- <-. set (c := claimed_job _ _ r) in *. destruct (Hwf _ _ Hk) as (_ & Hck & _).
  set (w0 := count_claim (w <| w_db := set_ingestion_jobs (<[j_id r := c]> (ingestion_jobs (w_db w))) (w_db w) |>)).
  set (w1 := w0 <| w_fs := fs' |>).
  assert (ingestion_jobs (w_db w1) !! j_id c = Some c) as Hk1 by apply lookup_insert_eq.
  assert (job_check c = true) as Hck1 by (unfold job_check in *; cbn; zify_bool; lia).
  assert (run_once cfg env w = process_claimed cfg env c w0) as ->.
  { unfold run_once. rewrite run_bind. unfold txn. rewrite Hrun, run_bind. unfold modify_st.
    rewrite run_bind, Hc1. reflexivity. }
  rewrite (process_claimed_error cfg env c err fs' w0 Hproc). fold w1. rewrite run_bind.
  destruct err as [code message|code message|e].
  - destruct (settle_failed_run cfg (ev_settle_now env) c code message w1 Hk1 eq_refl eq_refl Hck1)
      as (w' & r' & -> & Hrest). by exists w', r'.
  - destruct (handle_retryable_run cfg (ev_settle_now env) c code message av w1 Hk1 eq_refl eq_refl Hck1 Hav)
      as (w' & r' & -> & Hrest). by exists w', r'.
  - destruct (handle_retryable_run cfg (ev_settle_now env) c (py "executor_error") (exn_text e) av w1
      Hk1 eq_refl eq_refl Hck1 Hav) as (w' & r' & -> & Hrest). by exists w', r'.
Qed.
End Worker.

(** * A fleet of workers

    Workers with different names share the queue.  Each holds at most one
    claimed job, as it was when it claimed it, and settles it with a transaction
    of its own; in between the others claim, settle, recover and clean up as
    they like, and a worker may die with its job. *)
Record Fleet := mkFleet { fl_db : Db; fl_held : gmap pystr IngestionJob }.

(** The transactions that settle the claimed job [c]: a retry only while
    attempts are left, as [handle_retryable] chooses. *)
Definition settles (max_attempts : Z) (w : pystr) (c : IngestionJob) (a : IngestAction) : Prop :=
  match a with
  | ISucceed _ _ j w' _ _ _ _ => j = c /\ w' = w
  | IFail _ j w' _ _ => j = j_id c /\ w' = w
  | IRetry _ j w' _ _ _ => j = j_id c /\ w' = w /\ j_attempt_count c < max_attempts
  | _ => False
  end.

Definition background (max_attempts : Z) (a : IngestAction) : Prop :=
  match a with
  | IEnqueue _ _ _ _ | ICleanup _ | IPersist _ _ _ _ _ _ => True
  | IRecover _ _ m => m = max_attempts
  | _ => False
  end.

Inductive fleet_step (max_attempts : Z) : Fleet -> Fleet -> Prop :=
| fleet_claim db held w locked now c db' :
    held !! w = None -> claim_next_job locked now w db = (Ok (Some c), db') ->
    fleet_step max_attempts (mkFleet db held) (mkFleet db' (<[w := c]> held))
| fleet_settle db held w c a :
    held !! w = Some c -> settles max_attempts w c a ->
    fleet_step max_attempts (mkFleet db held) (mkFleet (ingest_step db a) (delete w held))
| fleet_background db held a :
    background max_attempts a ->
    fleet_step max_attempts (mkFleet db held) (mkFleet (ingest_step db a) held)
| fleet_die db held w :
    fleet_step max_attempts (mkFleet db held) (mkFleet db (delete w held)).

Definition attempts_ok (m : Z) (db : Db) : Prop :=
  forall k r, ingestion_jobs db !! k = Some r ->
    j_attempt_count r <= m /\ (j_status r = I_QUEUED -> j_attempt_count r < m).

(** What a worker remembers of a job it still owns is right. *)
Definition held_ok (db : Db) (held : gmap pystr IngestionJob) : Prop :=
  forall w c r, held !! w = Some c -> ingestion_jobs db !! j_id c = Some r ->
    j_status r = I_RUNNING -> j_worker_id r = Some w -> j_attempt_count r = j_attempt_count c.

Definition held_known (db : Db) (held : gmap pystr IngestionJob) : Prop :=
  forall w c, held !! w = Some c -> is_Some (ingestion_jobs db !! j_id c).

Definition fleet_ok (m : Z) (f : Fleet) : Prop :=
  jobs_wf (fl_db f) /\ attempts_ok m (fl_db f) /\ held_ok (fl_db f) (fl_held f)
  /\ held_known (fl_db f) (fl_held f).

(** What a transaction other than a claim does to one job: it stays, or ends its
    run without counting an attempt. *)
Lemma completion_lookup j w f db o db' k r' :
  update_owned_job j w f db = (o, db') -> ingestion_jobs db' !! k = Some r' ->
  ingestion_jobs db !! k = Some r'
  \/ exists r, ingestion_jobs db !! k = Some r /\ k = j /\ j_status r = I_RUNNING
     /\ j_worker_id r = Some w /\ r' = f r.
Proof.
  intros E Hk. destruct (update_owned_job_run j w f db) as [(r & Hr & Hst & Hw & Hrun)|[Hrun _]];
    rewrite Hrun in E.
  - destruct (job_check (f r)); injection E as <- <-; [|auto]. cbn in Hk.
    apply lookup_insert_Some in Hk as [[<- <-]|[_ Hk]]; [right; eauto 10|auto].
  - injection E as <- <-. auto.
Qed.

Definition quiet_job (m : Z) (r r' : IngestionJob) : Prop :=
  r' = r \/ (j_status r = I_RUNNING /\ j_status r' <> I_RUNNING /\ j_attempt_count r' = j_attempt_count r
             /\ (j_status r' = I_QUEUED -> j_attempt_count r < m)).

(** The jobs after a transaction that claims nothing. *)
Definition quiet_jobs (m : Z) (db db' : Db) : Prop :=
  forall k r', ingestion_jobs db' !! k = Some r' ->
    (ingestion_jobs db !! k = None /\ j_status r' = I_QUEUED /\ j_attempt_count r' = 0)
    \/ exists r, ingestion_jobs db !! k = Some r /\ quiet_job m r r'.

Lemma quiet_jobs_same m db db' : ingestion_jobs db' = ingestion_jobs db -> quiet_jobs m db db'.
Proof. intros Heq k r' Hk. rewrite Heq in Hk. right. exists r'. split; [done|by left]. Qed.

Lemma quiet_completion m j w f db o db' :
  (forall r, j_status r = I_RUNNING -> j_worker_id r = Some w -> ingestion_jobs db !! j = Some r ->
     j_status (f r) <> I_RUNNING /\ j_attempt_count (f r) = j_attempt_count r
     /\ (j_status (f r) = I_QUEUED -> j_attempt_count r < m)) ->
  update_owned_job j w f db = (o, db') -> quiet_jobs m db db'.
Proof.
  intros Hf E k r' Hk. right.
  destruct (completion_lookup _ _ _ _ _ _ _ _ E Hk) as [Hk0|(r & Hk0 & -> & Hst & Hw & ->)].
  - exists r'. split; [done|by left].
  - exists r. split; [done|]. right. split; [done|]. by apply Hf.
Qed.

Lemma quiet_delete m j db o db' (c : M exn Db (option IngestionJob)) :
  (forall db0 o db', ingestion_jobs db0 = ingestion_jobs db -> c db0 = (o, db') -> quiet_jobs m db0 db') ->
  (delete_for_job j ;; c) db = (o, db') -> quiet_jobs m db db'.
Proof.
  intros Hc E. rewrite run_bind, delete_for_job_run in E. apply Hc in E; [|done]. exact E.
Qed.

Lemma quiet_step m db held a :
  jobs_wf db -> held_ok db held ->
  ((exists w c, held !! w = Some c /\ settles m w c a) \/ background m a) ->
  quiet_jobs m db (ingest_step db a).
Proof.
  intros Hwf Hheld Ha. unfold ingest_step.
  destruct (perform_ingest a db) as [[[]|e] db'] eqn:E; [|by apply quiet_jobs_same].
  destruct a; cbn [perform_ingest] in E; apply bind_Ok_inv in E as (o & s1 & E & [= <-]).
  - destruct (enqueue_run fresh now submission_id artifact_key db) as [(r & Hrun & Hf & (_ & H1 & H2) & _)|(e & Hrun)];
      rewrite Hrun in E; [|done]. injection E as <- <-. intros k r' Hk. cbn in Hk.
    apply lookup_insert_Some in Hk as [[<- <-]|[_ Hk]]; [by left|right; exists r'; split; [done|by left]].
  - destruct Ha as [(w & c & _ & [])|[]].
  - unfold succeed_txn in E. rewrite run_bind in E.
    destruct (replace_for_job_run fresh now claimed parser_version chunker_version chunks db)
      as [[Hrun _]|(e & db1 & Hrun)]; rewrite Hrun in E; [|done].
    eapply (quiet_completion m _ _ _ (set_document_chunks _ db)) in E; [exact E|done].
  - destruct (replace_for_job_run fresh now claimed parser_version chunker_version chunks db)
      as [[Hrun _]|(e & db1 & Hrun)]; rewrite Hrun in E; [|done]. injection E as <- <-.
    by apply quiet_jobs_same.
  - eapply quiet_delete in E; [exact E|]. intros db0 o' db'' _ E'. by eapply quiet_completion in E'.
  - unfold retry_txn, release_job_for_retry in E. destruct (available_after now delay) as [av|]; [|done].
    eapply quiet_delete in E; [exact E|]. intros db0 o' db'' Heq E'.
    eapply quiet_completion in E'; [exact E'|]. intros r Hst Hw Hk. cbn. split; [done|]. split; [done|].
    intros _. destruct Ha as [(w & c & Hh & (-> & -> & Hlt))|[]].
    rewrite (Hheld w c r Hh) by congruence. done.
  - destruct Ha as [(w & c & _ & [])|Hm]. cbn in Hm. subst max_attempts.
    pose proof (recover_evolves now stale_before m db Hwf) as Hev. pose proof (f_equal snd E) as Hs1.
    cbn [snd] in Hs1. rewrite Hs1 in Hev. intros k r' Hk.
    destruct (ingestion_jobs db !! k) as [r|] eqn:Hr.
    + right. exists r. split; [done|].
      pose proof (recover_stale_jobs_lookup now stale_before m db k r Hwf Hr) as Hlook.
      rewrite Hs1, Hk in Hlook. injection Hlook as ->. destruct (stale_job stale_before r) eqn:Hst; [|by left].
      apply andb_true_iff in Hst as [Hst%job_status_true _]. right. split; [done|].
      unfold recover_job. destruct (Z.leb_spec m (j_attempt_count r)); cbn; done.
    + left. specialize (Hev k). rewrite Hr, Hk in Hev. by destruct Hev as (_ & ? & ?).
  - rewrite delete_for_job_run in E. injection E as <- <-. by apply quiet_jobs_same.
Qed.

Lemma fleet_step_ok m f f' : 1 <= m -> fleet_ok m f -> fleet_step m f f' -> fleet_ok m f'.
Proof.
  intros Hm (Hwf & Hatt & Hheld & Hknown) Hstep.
  assert (forall db held a, jobs_wf db -> attempts_ok m db -> held_ok db held -> held_known db held ->
            ((exists w c, held !! w = Some c /\ settles m w c a) \/ background m a) ->
            jobs_wf (ingest_step db a) /\ attempts_ok m (ingest_step db a)
            /\ held_ok (ingest_step db a) held /\ held_known (ingest_step db a) held) as Hquiet.
  { clear -Hm. intros db held a Hwf Hatt Hheld Hknown Ha. pose proof (quiet_step m db held a Hwf Hheld Ha) as Hq.
    pose proof (ingest_step_ok a db Hwf) as (Hev & _).
    split; [by apply ingest_step_wf|]. split; [|split].
    - intros k r' Hk. destruct (Hq k r' Hk) as [(_ & H1 & H2)|(r & Hr & [->|(H1 & H2 & H3 & H4)])].
      + rewrite H2. lia.
      + by apply (Hatt k).
      + destruct (Hatt k r Hr). rewrite H3. split; [done|]. intros Hst. by apply H4.
    - intros w c r' Hw Hk Hst Hww. destruct (Hq _ r' Hk) as [(_ & H1 & H2)|(r & Hr & [->|(H1 & H2 & H3 & H4)])];
        [congruence|by eapply Hheld|congruence].
    - intros w c Hw. destruct (Hknown w c Hw) as [r Hr]. specialize (Hev (j_id c)). rewrite Hr in Hev.
      destruct (ingestion_jobs (ingest_step db a) !! j_id c); [by eexists|done]. }
  assert (forall db held w, held_ok db held -> held_known db held ->
            held_ok db (delete w held) /\ held_known db (delete w held)) as Hdel.
  { clear. intros db held w H1 H2. split.
    - intros w' c r [_ Hw]%lookup_delete_Some. by apply (H1 w').
    - intros w' c [_ Hw]%lookup_delete_Some. by apply (H2 w'). }
  destruct Hstep as [db held w locked now c db' Hnone Hclaim|db held w c a Hw Ha|db held a Ha|db held w];
    cbn [fl_db fl_held] in *.
  - destruct (claim_next_job_run locked now w db Hwf) as [[Hrun _]|(r & Hk & Hst & _ & _ & Hrun & _)];
      rewrite Hrun in Hclaim; [done|]. injection Hclaim as <- <-.
    pose proof (ingest_step_wf (IClaim locked now w) db Hwf) as Hwf'.
    unfold ingest_step, perform_ingest in Hwf'. rewrite run_bind, Hrun in Hwf'. split; [exact Hwf'|].
    destruct (Hatt _ _ Hk) as [Hle Hlt]. specialize (Hlt Hst). split; [|split].
    + intros k r' Hk'. cbn in Hk'. apply lookup_insert_Some in Hk' as [[<- <-]|[_ Hk']]; [|by apply (Hatt k)].
      cbn. split; [lia|done].
    + intros w' c r' Hw' Hk' Hst' Hww. cbn in Hw', Hk'.
      apply lookup_insert_Some in Hw' as [[<- <-]|[Hne Hw']].
      * cbn in Hk'. rewrite lookup_insert_eq in Hk'. by injection Hk' as <-.
      * apply lookup_insert_Some in Hk' as [[_ <-]|[_ Hk']]; [cbn in Hww; congruence|].
        by eapply Hheld.
    + intros w' c Hw'. cbn in Hw' |- *. apply lookup_insert_is_Some'.
      apply lookup_insert_Some in Hw' as [[<- <-]|[Hne Hw']]; [by left|right; by apply (Hknown w')].
  - destruct (Hquiet db held a) as (H1 & H2 & H3 & H4); eauto 6. destruct (Hdel _ held w H3 H4). by split_and!.
  - destruct (Hquiet db held a) as (H1 & H2 & H3 & H4); eauto 6. by split_and!.
  - destruct (Hdel db held w); [done..|]. by split_and!.
Qed.

(** C22 No job is attempted more often than [ingestion_max_attempts], in any
    history of any number of workers that claim, settle, recover stale jobs,
    clean up and die: every job has been claimed at most that many times, and a
    job waiting in the queue has an attempt left. *)
Theorem attempts_bounded (m : Z) (f f' : Fleet) :
  1 <= m -> jobs_wf (fl_db f) -> attempts_ok m (fl_db f) -> fl_held f = ∅ ->
  rtc (fleet_step m) f f' -> attempts_ok m (fl_db f') /\ jobs_wf (fl_db f').
Proof.
  intros Hm Hwf Hatt H0 Hrun. assert (fleet_ok m f) as Hok.
  { split; [done|]. split; [done|]. rewrite H0. split; intros w c *; by rewrite lookup_empty. }
  clear Hwf Hatt H0. induction Hrun as [f|f1 f2 f3 Hstep _ IH].
  - destruct Hok as (? & ? & _). done.
  - apply IH. by eapply fleet_step_ok.
Qed.

(** What a worker that has lost its job can still do: the transaction of its
    late failure or retry, and the cleanup after a recovery, leave the job as
    its present owner or its success left it, but delete all its chunk rows. *)
Theorem late_settlement_erases_chunks (db : Db) (id : uuid) (r : IngestionJob) (w : pystr) (a : IngestAction) :
  match a with
  | IFail _ j w' _ _ => j = id /\ w' = w
  | IRetry now j w' _ _ delay => j = id /\ w' = w /\ is_Some (available_after now delay)
  | ICleanup j => j = id
  | _ => False
  end ->
  ingestion_jobs db !! id = Some r -> ~ (j_status r = I_RUNNING /\ j_worker_id r = Some w) ->
  ingestion_jobs (ingest_step db a) !! id = Some r /\ chunk_set (ingest_step db a) id [].
Proof.
  intros Ha Hk Hno.
  enough (ingest_step db a = set_document_chunks (without_job id (document_chunks db)) db) as ->.
  { split; [exact Hk|]. intros k d. cbn. rewrite without_job_lookup. unfold of_job.
    rewrite bool_decide_eq_false. set_solver. }
  assert (forall f, update_owned_job id w f (set_document_chunks (without_job id (document_chunks db)) db)
            = (Ok None, set_document_chunks (without_job id (document_chunks db)) db)) as Hnone.
  { intros f. destruct (update_owned_job_run id w f (set_document_chunks (without_job id (document_chunks db)) db))
      as [(r' & Hk' & Hst & Hw & _)|[-> _]]; [|done]. exfalso. cbn in Hk'. rewrite Hk in Hk'. simplify_eq. tauto. }
  unfold ingest_step. destruct a; try done; cbn [perform_ingest].
  - destruct Ha as [-> ->]. unfold fail_txn, mark_job_failed. rewrite !run_bind, delete_for_job_run, Hnone. done.
  - destruct Ha as (-> & -> & [av Hav]). unfold retry_txn, release_job_for_retry. rewrite Hav.
    rewrite !run_bind, delete_for_job_run, Hnone. done.
  - cbn in Ha. subst. rewrite run_bind, delete_for_job_run. done.
Qed.

Module WorkerSample.
Import IngestionSample.
Definition sha : Sha256 := fun _ => py "00".
Definition repr : FloatRepr := fun _ => [].
Definition cfg : WorkerConfig := mkWorkerConfig (py "w1") 3 fzero 30 1200 false false false.
Definition env : WorkerEnv := mkEnv ∅ 10 20 (of_Z 7) (fun i => 100 + Z.of_nat i).
Definition artifact (b : bytes) : Fs := mkFs {[ [py "submissions"; py "a"] := mkFile b (of_Z 1) ]}.
Definition world (b : bytes) : World := mkWorld queued_db (artifact b) 0 0 0 0.
Definition claimed_sample : IngestionJob := claimed_job 10 (py "w1") (job I_QUEUED None None 0).

Lemma sample_layout b : layout_ok (artifact b).
Proof.
  intros q f Hq. change (({[ [py "submissions"; py "a"] := mkFile b (of_Z 1) ]} : gmap path File) !! q = Some f) in Hq.
  apply lookup_singleton_Some in Hq as [<- _]. discriminate.
Qed.

Lemma sample_fresh b : fresh_ok env (w_db (world b)).
Proof. split; [intros i; apply lookup_empty|]. cbn. lia. Qed.

Lemma sample_claim :
  claim_next_job (ev_locked env) (ev_claim_now env) (wc_worker_id cfg) queued_db
  = (Ok (Some claimed_sample), snd (claim_next_job ∅ 10 (py "w1") queued_db)).
Proof. vm_compute. reflexivity. Qed.
End WorkerSample.

Lemma run_once_durable_witness :
  exists w', run_once (H := WorkerSample.sha) (H0 := WorkerSample.repr) WorkerSample.cfg WorkerSample.env
               (WorkerSample.world (py "hello")) = (Ok true, w')
  /\ durable_success (H := WorkerSample.sha) (H0 := WorkerSample.repr) w' WorkerSample.claimed_sample
       WorkerSample.env (py "hello") 1200
  /\ w_claims w' = 1 /\ w_succeeded w' = 1.
Proof.
  apply (run_once_durable (H := WorkerSample.sha) (H0 := WorkerSample.repr) WorkerSample.cfg WorkerSample.env
           (WorkerSample.world (py "hello")) WorkerSample.claimed_sample _ (py "hello") (py "hello")
           IngestionSample.sample_queued_wf (WorkerSample.sample_layout _) (WorkerSample.sample_fresh _)
           WorkerSample.sample_claim).
  - vm_compute. eexists. reflexivity.
  - reflexivity.
  - vm_compute. reflexivity.
  - vm_compute. reflexivity.
  - vm_compute. reflexivity.
  - left. vm_compute. reflexivity.
  - cbn. lia.
Defined.

Lemma run_once_failure_witness :
  exists w' r, run_once (H := WorkerSample.sha) (H0 := WorkerSample.repr) WorkerSample.cfg WorkerSample.env
                 (WorkerSample.world (py "cf_ingest_transient")) = (Ok true, w')
  /\ ingestion_jobs (w_db w') !! 1 = Some r
  /\ requeued_with r (py "transient_backend")
       (py "Synthetic transient failure (retryable until attempt>=2).") 20
  /\ outputs_gone w' 1.
Proof.
  apply (run_once_failure (H := WorkerSample.sha) (H0 := WorkerSample.repr) WorkerSample.cfg WorkerSample.env
           (WorkerSample.world (py "cf_ingest_transient")) WorkerSample.claimed_sample _
           (TransientIngestError (py "transient_backend")
              (py "Synthetic transient failure (retryable until attempt>=2)."))
           (WorkerSample.artifact (py "cf_ingest_transient")) 20
           IngestionSample.sample_queued_wf WorkerSample.sample_claim).
  - reflexivity.
  - vm_compute. reflexivity.
  - vm_compute. reflexivity.
Defined.

Lemma attempts_bounded_witness :
  attempts_ok 3 (ingest_step (ingest_step IngestionSample.queued_db (IClaim ∅ 10 (py "w1"))) (IRecover 50 20 3)).
Proof.
  apply (attempts_bounded 3 (mkFleet IngestionSample.queued_db ∅)
    (mkFleet (ingest_step (ingest_step IngestionSample.queued_db (IClaim ∅ 10 (py "w1"))) (IRecover 50 20 3))
       (<[py "w1" := WorkerSample.claimed_sample]> ∅))).
  - lia.
  - exact IngestionSample.sample_queued_wf.
  - intros k r Hk. change (({[1 := IngestionSample.job I_QUEUED None None 0]} : gmap uuid IngestionJob) !! k = Some r) in Hk.
    apply lookup_singleton_Some in Hk as [_ <-]. cbn. split; [lia|]. intros _. lia.
  - reflexivity.
  - eapply rtc_l; [|eapply rtc_l; [|apply rtc_refl]].
    + apply (fleet_claim 3 _ ∅ (py "w1") ∅ 10 WorkerSample.claimed_sample
        (ingest_step IngestionSample.queued_db (IClaim ∅ 10 (py "w1")))); [reflexivity|vm_compute; reflexivity].
    + by apply fleet_background.
Defined.

Lemma late_settlement_erases_chunks_witness :
  let db := set_document_chunks
    {[ 100 := chunk_row 100 11 1 9 (py "submissions/a") PARSER_VERSION CHUNKER_VERSION IngestionSample.draft ]}
    (IngestionSample.with_job
       (IngestionSample.job I_SUCCEEDED (Some (py "w2")) (Some 10) 2 <| j_result_key := Some (py "r") |>)) in
  j_status <$> ingestion_jobs (ingest_step db (IFail 30 1 (py "w1") (py "missing_artifact") [])) !! 1 = Some I_SUCCEEDED
  /\ chunk_set (ingest_step db (IFail 30 1 (py "w1") (py "missing_artifact") [])) 1 [].
Proof.
  intros db.
  destruct (late_settlement_erases_chunks db 1
    (IngestionSample.job I_SUCCEEDED (Some (py "w2")) (Some 10) 2 <| j_result_key := Some (py "r") |>)
    (py "w1") (IFail 30 1 (py "w1") (py "missing_artifact") [])) as [H1 H2].
  - by split.
  - reflexivity.
  - intros [H _]. discriminate H.
  - exact (conj (f_equal (fmap j_status) H1) H2).
Defined.
