(* ===== verification/Ownership.v ===== *)
(** Execution ownership: the identity of one operating-system execution, its
    encoding in the evaluation's metadata, and the containment of an orphaned
    execution (src/challengeforge/execution/ownership.py).

    What [psutil] reports about processes is outside the repository: an
    [OsView] gives the answers one recovery pass gets from it. *)
From Stdlib Require Import ZArith Lia String.
From stdpp Require Import prelude strings gmap.
From S2P Require Import Prelude PyFloat PyStr Domain.

(** The answers of the operating system during one containment: which pids are
    alive (existing, running, not a zombie) before and after the signals, the
    descendants of a pid, the pids the signals reached, which paths exist. *)
Record OsView := mkOsView {
  alive_before : Z -> bool;
  alive_after : Z -> bool;
  descendants : Z -> list Z;
  signalled : list Z;
  path_exists : pystr -> bool;
}.

(** [execution/ownership.py:15-27 ExecutionAttempt] (without the monotonic
    start time, which no function reads). *)
Record ExecutionAttempt := mkAttempt {
  at_execution_attempt_id : pystr;
  at_evaluation_id : pystr;
  at_worker_id : pystr;
  at_workload : pystr;
  at_root_pid : option Z;
  at_pgid : option Z;
  at_workspace : option pystr;
  at_ownership : pystr;
}.
#[export] Instance ExecutionAttempt_eta : Eta ExecutionAttempt := fun a =>
  mkAttempt (at_execution_attempt_id a) (at_evaluation_id a) (at_worker_id a) (at_workload a)
    (at_root_pid a) (at_pgid a) (at_workspace a) (at_ownership a).

Definition json_of_int (o : option Z) : json :=
  match o with Some z => JInt z | None => JNull end.
Definition json_of_str (o : option pystr) : json :=
  match o with Some s => JStr s | None => JNull end.
Definition int_of_json (v : json) : option Z :=
  match v with JInt z => Some z | _ => None end.
Definition str_of_json (v : json) : option pystr :=
  match v with JStr s => Some s | _ => None end.

(** [execution/ownership.py:29-39 ExecutionAttempt.to_metadata] *)
Definition to_metadata (a : ExecutionAttempt) : dict :=
  [(py "execution_attempt_id", JStr (at_execution_attempt_id a));
   (py "evaluation_id", JStr (at_evaluation_id a));
   (py "worker_id", JStr (at_worker_id a));
   (py "workload", JStr (at_workload a));
   (py "root_pid", json_of_int (at_root_pid a));
   (py "pgid", json_of_int (at_pgid a));
   (py "workspace", json_of_str (at_workspace a));
   (py "ownership", JStr (at_ownership a))].

Section FromMetadata.
Context `{PyRepr}.

(** [str(attempt.get(key) or d)] *)
Definition get_text (d : dict) (key dflt : pystr) : pystr :=
  let v := dget_null d key in if truthy v then json_str v else dflt.

(** [execution/ownership.py:41-60 ExecutionAttempt.from_metadata].  The pid,
    group and workspace columns hold what [to_metadata] wrote, an integer or
    text, or nothing. *)
Definition from_metadata (data : dict) : option ExecutionAttempt :=
  let attempt :=
    match dget data (py "execution_attempt") with
    | Some (JObj o) => Some o
    | _ => match dget data (py "execution_attempt_id") with
           | Some _ => Some data
           | None => None
           end
    end in
  match attempt with
  | None => None
  | Some d =>
      let id := dget_null d (py "execution_attempt_id") in
      if truthy id then
        Some (mkAttempt (json_str id)
                (get_text d (py "evaluation_id") [])
                (get_text d (py "worker_id") [])
                (get_text d (py "workload") [])
                (int_of_json (dget_null d (py "root_pid")))
                (int_of_json (dget_null d (py "pgid")))
                (str_of_json (dget_null d (py "workspace")))
                (get_text d (py "ownership") (py "pid_tracking_only")))
      else None
  end.
End FromMetadata.

(** [execution/ownership.py:63-76 new_attempt], given the fresh identifier. *)
Definition new_attempt (fresh : uuid) (evaluation_id worker_id workload ownership : pystr)
    : ExecutionAttempt :=
  mkAttempt (uuid_str fresh) evaluation_id worker_id workload None None None ownership.

(** [execution/ownership.py:79-88 pid_alive] *)
Definition pid_alive (alive : Z -> bool) (pid : option Z) : bool :=
  match pid with
  | None => false
  | Some p => if p <=? 0 then false else alive p
  end.

(** [execution/ownership.py:91-104 collect_tree_pids] *)
Definition collect_tree_pids (os : OsView) (root_pid : option Z) : list Z :=
  match root_pid with
  | Some p => if pid_alive (alive_before os) root_pid then p :: descendants os p else []
  | None => []
  end.

(** What recovery reads from a containment report, with the text stored in the
    evaluation's metadata. *)
Record ContainmentReport := mkReport {
  cr_was_alive : bool;
  cr_killed_pids : list Z;
  cr_still_alive : list Z;
  cr_workspace_exists : bool;
  cr_contained : bool;
}.

(** [execution/ownership.py:107-175 contain_attempt] *)
Definition contain_attempt (os : OsView) (attempt : ExecutionAttempt) : ContainmentReport :=
  let was_alive := pid_alive (alive_before os) (at_root_pid attempt) in
  let ws := match at_workspace attempt with
            | Some w => nonempty w && path_exists os w
            | None => false
            end in
  if negb was_alive && bool_decide (at_root_pid attempt = None)
  then mkReport was_alive [] [] ws true
  else
    let pids := collect_tree_pids os (at_root_pid attempt) in
    let pids := match at_root_pid attempt with
                | Some p => if negb (p =? 0) && negb (bool_decide (p ∈ pids))
                               && pid_alive (alive_before os) (Some p)
                            then pids ++ [p] else pids
                | None => pids
                end in
    let still := List.filter (fun p => pid_alive (alive_after os) (Some p)) pids in
    mkReport was_alive (signalled os) still ws (bool_decide (still = [])).

(** [execution/ownership.py:178-181 orphan_suspected] *)
Definition orphan_suspected (os : OsView) (attempt : option ExecutionAttempt) : bool :=
  match attempt with
  | None => false
  | Some a => pid_alive (alive_before os) (at_root_pid a)
  end.

(** The report as the JSON value recovery stores under [ownership_recovery]. *)
Definition report_json (a : ExecutionAttempt) (r : ContainmentReport) : json :=
  JObj [(py "execution_attempt_id", JStr (at_execution_attempt_id a));
        (py "root_pid", json_of_int (at_root_pid a));
        (py "was_alive", JBool (cr_was_alive r));
        (py "killed_pids", JList (JInt <$> cr_killed_pids r));
        (py "still_alive", JList (JInt <$> cr_still_alive r));
        (py "workspace_exists", JBool (cr_workspace_exists r));
        (py "contained", JBool (cr_contained r))].

(** * Properties *)

(** The orphan test looks at the pid the containment will signal. *)
Lemma orphan_suspected_pid os a :
  orphan_suspected os (Some a) = true ->
  exists p, at_root_pid a = Some p /\ 0 < p /\ alive_before os p = true.
Proof.
  cbn. unfold pid_alive. destruct (at_root_pid a) as [p|]; [|done].
  destruct (Z.leb_spec p 0); [done|]. eauto.
Qed.

(** A suspected orphan's whole process tree is examined: it counts as contained
    exactly when neither its root nor any descendant survived the signals. *)
Lemma contain_attempt_covers os a p :
  at_root_pid a = Some p -> 0 < p -> alive_before os p = true ->
  cr_contained (contain_attempt os a) = true <->
  Forall (fun q => pid_alive (alive_after os) (Some q) = false) (p :: descendants os p).
Proof.
  intros Hp Hpos Halive.
  assert (pid_alive (alive_before os) (Some p) = true) as Hal.
  { cbn. destruct (Z.leb_spec p 0); [lia|done]. }
  unfold contain_attempt, collect_tree_pids. rewrite Hp, Hal.
  rewrite (bool_decide_eq_true_2 (p ∈ _)) by left. cbn [negb andb]. rewrite andb_false_r.
  cbn [negb andb cr_contained]. rewrite bool_decide_eq_true.
  generalize (p :: descendants os p) as l.
  induction l as [|q l IH]; [split; [constructor|done]|].
  rewrite Forall_cons, <-IH. cbn [List.filter].
  destruct (pid_alive (alive_after os) (Some q)); [|by split; [split|intros []]].
  split; [done|by intros []].
Qed.

Lemma int_of_json_of_int o : int_of_json (json_of_int o) = o.
Proof. by destruct o. Qed.

Lemma str_of_json_of_str o : str_of_json (json_of_str o) = o.
Proof. by destruct o. Qed.

Section RoundTrip.
Context `{PyRepr}.

Lemma get_text_str d key s :
  dget d key = Some (JStr s) -> get_text d key [] = s.
Proof. unfold get_text, dget_null. intros ->. by destruct s. Qed.

Lemma get_text_nonempty d key s dflt :
  dget d key = Some (JStr s) -> s <> [] -> get_text d key dflt = s.
Proof. unfold get_text, dget_null. intros -> Hs. by destruct s. Qed.

(** An execution attempt survives its encoding: reading the metadata that
    [begin_execution_attempt] stored under [execution_attempt] gives the
    attempt back, pid, process group and workspace included, whatever else
    the metadata holds; so recovery sees the execution the worker started. *)
Theorem from_metadata_to_metadata (a : ExecutionAttempt) (meta : dict) :
  at_execution_attempt_id a <> [] -> at_ownership a <> [] ->
  from_metadata (dset meta (py "execution_attempt") (JObj (to_metadata a))) = Some a.
Proof.
  intros Hid Hown. unfold from_metadata. rewrite dget_dset.
  rewrite bool_decide_eq_true_2 by done. cbv zeta.
  rewrite (get_text_str _ (py "evaluation_id") (at_evaluation_id a)) by done.
  rewrite (get_text_str _ (py "worker_id") (at_worker_id a)) by done.
  rewrite (get_text_str _ (py "workload") (at_workload a)) by done.
  rewrite (get_text_nonempty _ (py "ownership") (at_ownership a)) by done.
  unfold dget_null.
  replace (dget (to_metadata a) (py "execution_attempt_id"))
    with (Some (JStr (at_execution_attempt_id a))) by done.
  replace (dget (to_metadata a) (py "root_pid")) with (Some (json_of_int (at_root_pid a))) by done.
  replace (dget (to_metadata a) (py "pgid")) with (Some (json_of_int (at_pgid a))) by done.
  replace (dget (to_metadata a) (py "workspace"))
    with (Some (json_of_str (at_workspace a))) by done.
  cbn [default from_option id]. rewrite !int_of_json_of_int, str_of_json_of_str.
  destruct a as [[|c id] ev w wl pid pg ws own]; done.
Qed.
End RoundTrip.

Lemma from_metadata_to_metadata_witness :
  let repr : PyRepr := fun _ => [] in
  let a := mkAttempt (py "a1") (py "e1") (py "w1") (py "cpu") (Some 42) None (Some (py "/tmp/x"))
             (py "pid_tracking_only") in
  from_metadata (dset [(py "evaluator", JStr (py "v1"))] (py "execution_attempt")
                   (JObj (to_metadata a))) = Some a.
Proof. intros repr a. apply (from_metadata_to_metadata a); discriminate. Defined.
