(* ===== verification/EvaluationQueue.v ===== *)
(** The evaluation queue: the repository behind the evaluation workers
    (class EvaluationRepository of src/challengeforge/persistence/repositories.py).

    Every operation is a computation over the database; the current time and
    fresh identifiers are arguments.  [Action], [perform] and [run_action] put
    the operations together as the transactions of the workers and the API; a
    claim that finds nothing is rolled back, as [process_one] of the worker does. *)
From Stdlib Require Import ZArith Lia String.
From stdpp Require Import prelude strings gmap sorting.
From S2P Require Import Prelude PyFloat PyStr Domain Database Ownership.

Module EvaluationRepository.

(** * Queries *)

Definition has_status (st : EvaluationStatus) (r : Evaluation) : bool :=
  bool_decide (e_status r = st).

Definition is_heavy (r : Evaluation) : bool := bool_decide (e_workload_class r = W_HEAVY).

Definition running_heavy_row (r : Evaluation) : bool := has_status E_RUNNING r && is_heavy r.

(** [select count() where status = st] *)
Definition count_status (st : EvaluationStatus) (db : Db) : Z :=
  countb (has_status st) (evaluations db).

(** [select count() where status = 'running' and workload_class = 'heavy'] *)
Definition count_running_heavy (db : Db) : Z := countb running_heavy_row (evaluations db).

(** [select where status = 'queued' order by created_at, id] *)
Definition queued_fifo (db : Db) : list Evaluation :=
  order_by_created e_created_at e_id (rows_where (has_status E_QUEUED) (evaluations db)).

(** [persistence/repositories.py:323-325 EvaluationRepository.get] *)
Definition get (evaluation_id : uuid) : M exn Db (option Evaluation) :=
  gets_st (fun db => evaluations db !! evaluation_id).

(** [persistence/repositories.py:327-331 EvaluationRepository.get_by_submission] *)
Definition get_by_submission (submission_id : uuid) : M exn Db (option Evaluation) :=
  db ← get_st;
  match rows_where (fun r => bool_decide (e_submission_id r = submission_id)) (evaluations db) with
  | [] => mret None
  | [r] => mret (Some r)
  | _ => raise (OtherError "MultipleResultsFound")
  end.

(** * Commands *)

(** [persistence/repositories.py:333-362 EvaluationRepository.create_queued] *)
Definition create_queued (fresh : uuid) (now : datetime) (submission_id : uuid)
    (workload_class : WorkloadClass) (evaluation_mode : EvaluationMode)
    (deadline_at : option datetime) (current_stage : Z) : M exn Db Evaluation :=
  let row := mkEvaluation fresh submission_id E_QUEUED now None None 0 None None [] None
               workload_class current_stage evaluation_mode deadline_at in
  insert_evaluation row ;;
  mret row.

(** [UPDATE ... WHERE id = .. AND status = 'running' AND worker_id = ..
    RETURNING], the statement all completions of a running row share. *)
Definition update_owned (evaluation_id : uuid) (worker_id : pystr)
    (values : Evaluation -> Evaluation) : M exn Db (option Evaluation) :=
  found ← get evaluation_id;
  match found with
  | Some r =>
      if has_status E_RUNNING r && bool_decide (e_worker_id r = Some worker_id) then
        update_evaluation evaluation_id (values r) ;;
        mret (Some (values r))
      else mret None
  | None => mret None
  end.

(** [persistence/repositories.py:364-394 EvaluationRepository.defer_escalation] *)
Definition defer_escalation (evaluation_id : uuid) (worker_id : pystr) (next_stage : Z)
    (workload_class : WorkloadClass) (result_metadata : dict) : M exn Db (option Evaluation) :=
  update_owned evaluation_id worker_id (fun r =>
    r <| e_status := E_QUEUED |> <| e_started_at := None |> <| e_worker_id := None |>
      <| e_current_stage := next_stage |> <| e_workload_class := workload_class |>
      <| e_result_metadata := result_metadata |> <| e_failure_reason := None |>).

(** [persistence/repositories.py:396-423 EvaluationRepository.release_for_retry] *)
Definition release_for_retry (evaluation_id : uuid) (worker_id : pystr)
    (result_metadata : dict) (failure_reason : pystr) : M exn Db (option Evaluation) :=
  update_owned evaluation_id worker_id (fun r =>
    r <| e_status := E_QUEUED |> <| e_started_at := None |> <| e_worker_id := None |>
      <| e_result_metadata := result_metadata |> <| e_failure_reason := Some failure_reason |>).

(** The singleton row, inserted with the given values unless it is there. *)
Definition ensure_scheduler_state (values : SchedulerState) : M exn Db unit :=
  modify_st (fun db => match scheduler_state db with
                       | Some _ => db
                       | None => set_scheduler_state (Some values) db
                       end).

(** [select ... where id = 1 for update], with [scalar_one]. *)
Definition lock_scheduler_state : M exn Db SchedulerState :=
  db ← get_st;
  match scheduler_state db with
  | Some s => mret s
  | None => raise (OtherError "NoResultFound")
  end.

Definition save_scheduler_state (s : SchedulerState) : M exn Db unit :=
  guard_or (scheduler_check s) (IntegrityError "evaluation_scheduler_state") ;;
  modify_st (set_scheduler_state (Some s)).

Definition default_scheduler_state : SchedulerState := mkSched None 0 "normal" None None 0 None.

(** The values [claim_next] writes to the row it takes. *)
Definition claimed (now : datetime) (worker_id : pystr) (row : Evaluation) : Evaluation :=
  row <| e_status := E_RUNNING |> <| e_started_at := Some now |>
      <| e_attempt_count := e_attempt_count row + 1 |> <| e_worker_id := Some worker_id |>
      <| e_failure_reason := None |>.

Definition take_row (now : datetime) (worker_id : pystr) (row : Evaluation)
    : M exn Db (option Evaluation) :=
  let row' := claimed now worker_id row in
  update_evaluation (e_id row) row' ;;
  mret (Some row').

(** [state.blocked_heavy_id = None; state.light_bypass_count = 0] *)
Definition unblock (s : SchedulerState) : SchedulerState :=
  s <| sch_blocked_heavy_id := None |> <| sch_light_bypass_count := 0 |>.

(** [if state.blocked_heavy_id != oldest.id: ...] *)
Definition block_on (heavy_id : uuid) (s : SchedulerState) : SchedulerState :=
  if bool_decide (sch_blocked_heavy_id s = Some heavy_id) then s
  else s <| sch_blocked_heavy_id := Some heavy_id |> <| sch_light_bypass_count := 0 |>.

(** [persistence/repositories.py:425-553 EvaluationRepository.claim_next] *)
Definition claim_next (now : datetime) (worker_id : pystr) (scheduling_policy : string)
    (max_workers max_concurrent_heavy light_bypass_limit : Z) : M exn Db (option Evaluation) :=
  let max_workers := Z.max 1 max_workers in
  let max_concurrent_heavy := Z.max 0 (Z.min max_concurrent_heavy max_workers) in
  let light_bypass_limit := Z.max 0 light_bypass_limit in
  let scheduling_policy :=
    if String.eqb scheduling_policy "resource_aware" then "bounded_light_bypass"%string
    else scheduling_policy in
  ensure_scheduler_state default_scheduler_state ;;
  state ← lock_scheduler_state;
  running ← gets_st (count_status E_RUNNING);
  if max_workers <=? running then mret None else
  queued ← gets_st queued_fifo;
  match queued with
  | [] => save_scheduler_state (unblock state) ;; mret None
  | oldest :: rest =>
      let bounded_policy := String.eqb scheduling_policy "bounded_light_bypass" in
      if is_heavy oldest then
        active_heavy ← gets_st count_running_heavy;
        let heavy_is_blocked := max_concurrent_heavy <=? active_heavy in
        if heavy_is_blocked || (max_concurrent_heavy =? 0) then
          if negb bounded_policy then mret None else
          let state := block_on (e_id oldest) state in
          if light_bypass_limit <=? sch_light_bypass_count state then
            save_scheduler_state state ;; mret None
          else
            match rest with
            | successor :: _ =>
                if bool_decide (e_workload_class successor = W_LIGHT) then
                  save_scheduler_state
                    (state <| sch_light_bypass_count := sch_light_bypass_count state + 1 |>) ;;
                  take_row now worker_id successor
                else save_scheduler_state state ;; mret None
            | [] => save_scheduler_state state ;; mret None
            end
        else
          save_scheduler_state (unblock state) ;;
          take_row now worker_id oldest
      else
        save_scheduler_state (unblock state) ;;
        take_row now worker_id oldest
  end.

(** [persistence/repositories.py:555-580 EvaluationRepository.persist_runtime_state] *)
Definition persist_runtime_state (pressure_state : string) (adaptive_max_workers : Z)
    : M exn Db unit :=
  ensure_scheduler_state (mkSched None 0 pressure_state (Some adaptive_max_workers) None 0 None) ;;
  state ← lock_scheduler_state;
  save_scheduler_state
    (state <| sch_pressure_state := pressure_state |>
           <| sch_adaptive_max_workers := Some adaptive_max_workers |>).

(** [persistence/repositories.py:582-615 EvaluationRepository.persist_interactive_hint] *)
Definition persist_interactive_hint (interactive_p95_ms : option float) (sample_count : Z)
    (pool_wait_p95_ms : option float) : M exn Db unit :=
  ensure_scheduler_state
    (mkSched None 0 "normal" None interactive_p95_ms (Z.max 0 sample_count) pool_wait_p95_ms) ;;
  state ← lock_scheduler_state;
  save_scheduler_state
    (state <| sch_interactive_p95_ms := interactive_p95_ms |>
           <| sch_interactive_sample_count := Z.max 0 sample_count |>
           <| sch_pool_wait_p95_ms := pool_wait_p95_ms |>).

(** [persistence/repositories.py:617-641 EvaluationRepository.read_runtime_state]:
    the fields of the returned dict, as a row without its bypass columns. *)
Definition read_runtime_state : M exn Db SchedulerState :=
  db ← get_st;
  match scheduler_state db with
  | None => mret (mkSched None 0 "normal" None None 0 None)
  | Some row =>
      mret (mkSched None 0
              (if String.eqb (sch_pressure_state row) "" then "normal"
               else sch_pressure_state row)
              (sch_adaptive_max_workers row) (sch_interactive_p95_ms row)
              (sch_interactive_sample_count row) (sch_pool_wait_p95_ms row))
  end.

(** The test "queued, and before [row] in FIFO order" of [queue_position]. *)
Definition ahead_of (row r : Evaluation) : bool :=
  has_status E_QUEUED r
  && ((e_created_at r <? e_created_at row)
      || ((e_created_at r =? e_created_at row) && (e_id r <? e_id row))).

(** [persistence/repositories.py:643-671 EvaluationRepository.queue_position] *)
Definition queue_position (evaluation_id : uuid) : M exn Db (option Z) :=
  found ← get evaluation_id;
  match found with
  | None => mret None
  | Some row =>
      if negb (has_status E_QUEUED row) then mret None
      else ahead ← gets_st (fun db => countb (ahead_of row) (evaluations db));
           mret (Some ahead)
  end.

(** [persistence/repositories.py:673-681 EvaluationRepository.list_queued_fifo] *)
Definition list_queued_fifo (limit : nat) : M exn Db (list Evaluation) :=
  gets_st (fun db => take limit (queued_fifo db)).

(** [persistence/repositories.py:683-711 EvaluationRepository.mark_succeeded] *)
Definition mark_succeeded (now : datetime) (evaluation_id : uuid) (score : Z)
    (result_metadata : dict) (worker_id : pystr) : M exn Db (option Evaluation) :=
  update_owned evaluation_id worker_id (fun r =>
    r <| e_status := E_SUCCEEDED |> <| e_completed_at := Some now |> <| e_score := Some score |>
      <| e_result_metadata := result_metadata |> <| e_failure_reason := None |>).

(** [worker/__init__.py:567-583 EvaluationWorker._run_progressive], the statements of
    its last transaction: the success, then the stage the row ends at. *)
Definition finish_at_stage (now : datetime) (evaluation_id : uuid) (score : Z)
    (result_metadata : dict) (worker_id : pystr) (next_stage : Z) : M exn Db (option Evaluation) :=
  result ← mark_succeeded now evaluation_id score result_metadata worker_id;
  match result with
  | Some r => update_evaluation evaluation_id (r <| e_current_stage := next_stage |>) ;; mret result
  | None => mret None
  end.

(** [persistence/repositories.py:713-743 EvaluationRepository.mark_failed] *)
Definition mark_failed (now : datetime) (evaluation_id : uuid) (failure_reason : pystr)
    (result_metadata : option dict) (worker_id : pystr) : M exn Db (option Evaluation) :=
  update_owned evaluation_id worker_id (fun r =>
    r <| e_status := E_FAILED |> <| e_completed_at := Some now |>
      <| e_failure_reason := Some failure_reason |> <| e_score := None |>
      <| e_result_metadata := default (e_result_metadata r) result_metadata |>).

(** [persistence/repositories.py:745-771 EvaluationRepository.begin_execution_attempt] *)
Definition begin_execution_attempt (evaluation_id : uuid) (worker_id : pystr)
    (execution_attempt : dict) : M exn Db (option Evaluation) :=
  update_owned evaluation_id worker_id (fun r =>
    let meta := dset (e_result_metadata r) (py "execution_attempt") (JObj execution_attempt) in
    let evaluator := dget_null meta (py "evaluator") in
    let meta := dset meta (py "evaluator")
                  (if truthy evaluator then evaluator else JStr (py "synthetic_execution_v1")) in
    r <| e_result_metadata := meta |>).

(** [persistence/repositories.py:856-884 EvaluationRepository.plane_snapshot] *)
Record Plane := mkPlane {
  pl_queued : Z;
  pl_running : Z;
  pl_running_heavy : Z;
  pl_oldest_workload_class : option WorkloadClass;
}.

(** [persistence/repositories.py:886-891 EvaluationRepository.count_by_status]: a
    status without rows has no entry. *)
Definition count_by_status (db : Db) (st : EvaluationStatus) : option Z :=
  let n := count_status st db in if n =? 0 then None else Some n.

(** [persistence/repositories.py:856-884 EvaluationRepository.plane_snapshot] *)
Definition plane_snapshot : M exn Db Plane :=
  gets_st (fun db =>
    mkPlane (default 0 (count_by_status db E_QUEUED)) (default 0 (count_by_status db E_RUNNING))
      (count_running_heavy db) (e_workload_class <$> head (queued_fifo db))).

(** [persistence/repositories.py:893-940 EvaluationRepository.queue_snapshot] *)
Record QueueSnapshot := mkSnapshot {
  sn_queued : Z;
  sn_running : Z;
  sn_succeeded : Z;
  sn_failed : Z;
  sn_oldest_queued_at : option datetime;
  sn_oldest_queue_age_seconds : option float;
  sn_recent_completed_count : Z;
  sn_light_queued : Z;
  sn_medium_queued : Z;
  sn_heavy_queued : Z;
}.

(** [select min(created_at)] *)
Definition min_created (l : list Evaluation) : option datetime :=
  match e_created_at <$> l with
  | [] => None
  | t :: ts => Some (foldl Z.min t ts)
  end.

Definition recently_completed (window_start : datetime) (r : Evaluation) : bool :=
  (has_status E_SUCCEEDED r || has_status E_FAILED r)
  && match e_completed_at r with
     | Some t => window_start <=? t
     | None => false
     end.

Definition queued_of_class (c : WorkloadClass) (r : Evaluation) : bool :=
  has_status E_QUEUED r && bool_decide (e_workload_class r = c).

(** [persistence/repositories.py:893-940 EvaluationRepository.queue_snapshot], the
    window given in microseconds. *)
Definition queue_snapshot (now : datetime) (window : Z) : M exn Db QueueSnapshot :=
  gets_st (fun db =>
    let rows := evaluations db in
    let oldest := min_created (rows_where (has_status E_QUEUED) rows) in
    mkSnapshot
      (default 0 (count_by_status db E_QUEUED)) (default 0 (count_by_status db E_RUNNING))
      (default 0 (count_by_status db E_SUCCEEDED)) (default 0 (count_by_status db E_FAILED))
      oldest
      ((fun t => fmax fzero (total_seconds (now - t))) <$> oldest)
      (countb (recently_completed (now - window)) rows)
      (countb (queued_of_class W_LIGHT) rows) (countb (queued_of_class W_MEDIUM) rows)
      (countb (queued_of_class W_HEAVY) rows)).

Definition queued_for_challenge (db : Db) (challenge_id : uuid) (r : Evaluation) : bool :=
  has_status E_QUEUED r
  && match submissions db !! e_submission_id r with
     | Some s => bool_decide (s_challenge_id s = challenge_id)
     | None => false
     end.

(** [persistence/repositories.py:942-953 EvaluationRepository.count_queued_by_challenge]:
    the count of each challenge, none for a challenge without queued rows. *)
Definition count_queued_by_challenge (db : Db) (challenge_id : uuid) : option Z :=
  let n := countb (queued_for_challenge db challenge_id) (evaluations db) in
  if n =? 0 then None else Some n.

Definition created_at_le (a b : Evaluation) : Prop := e_created_at a <= e_created_at b.
#[export] Instance created_at_le_dec a b : Decision (created_at_le a b).
Proof. unfold created_at_le. apply _. Defined.

(** [persistence/repositories.py:955-958 EvaluationRepository.list_all] *)
Definition list_all : M exn Db (list Evaluation) :=
  gets_st (fun db => merge_sort created_at_le (map_to_list (evaluations db)).*2).

(** * Recovery of stale running rows *)

Section Recovery.
Context `{PyRepr} (os_of : uuid -> OsView) (now : datetime).

(** The values recovery writes to one stale row: quarantined when its
    execution survives the containment, failed when its attempts are used up,
    queued again otherwise. *)
Definition orphan_reason : pystr :=
  py "orphan_suspected: prior execution still alive after containment; refused duplicate requeue".
Definition abandoned_reason (max_attempts : Z) : pystr :=
  py "Abandoned after " ++ int_str max_attempts
  ++ py " attempt(s) without completion (worker crash / stale RUNNING).".
Definition requeued_reason : pystr :=
  py "Requeued after stale RUNNING (worker crash recovery; prior execution contained).".

Definition fail_row (reason : pystr) (row : Evaluation) : Evaluation :=
  row <| e_status := E_FAILED |> <| e_completed_at := Some now |>
      <| e_failure_reason := Some reason |> <| e_worker_id := None |>.

Definition settle_row (max_attempts : Z) (row : Evaluation) : Evaluation :=
  if max_attempts <=? e_attempt_count row then
    fail_row (abandoned_reason max_attempts) row
  else
    row <| e_status := E_QUEUED |> <| e_started_at := None |> <| e_worker_id := None |>
        <| e_failure_reason := Some requeued_reason |>.

(** [persistence/repositories.py:805-851 EvaluationRepository.recover_stale_running],
    the body of its loop. *)
Definition recover_row (max_attempts : Z) (row : Evaluation) : Evaluation :=
  let meta := e_result_metadata row in
  let os := os_of (e_id row) in
  let attempt := from_metadata meta in
  match attempt with
  | None => settle_row max_attempts row
  | Some a =>
      if orphan_suspected os attempt then
        let containment := contain_attempt os a in
        let meta := dset meta (py "ownership_recovery") (report_json a containment) in
        if nonempty (cr_still_alive containment) then
          fail_row orphan_reason
            (row <| e_result_metadata := dset meta (py "orphan_suspected") (JBool true) |>)
        else
          settle_row max_attempts
            (row <| e_result_metadata := dset meta (py "orphan_suspected") (JBool false) |>)
      else
        settle_row max_attempts
          (row <| e_result_metadata :=
             dset meta (py "ownership_recovery")
               (JObj [(py "execution_attempt_id", JStr (at_execution_attempt_id a));
                      (py "root_pid", json_of_int (at_root_pid a));
                      (py "was_alive", JBool false);
                      (py "contained", JBool true)]) |>)
  end.

Definition is_stale (stale_before : datetime) (r : Evaluation) : bool :=
  has_status E_RUNNING r
  && match e_started_at r with Some t => t <? stale_before | None => false end.

(** [persistence/repositories.py:773-854 EvaluationRepository.recover_stale_running] *)
Definition recover_stale_running (stale_before : datetime) (max_attempts : Z)
    : M exn Db (list Evaluation) :=
  stale_rows ← gets_st (fun db => rows_where (is_stale stale_before) (evaluations db));
  mapM (fun row =>
          let row' := recover_row max_attempts row in
          update_evaluation (e_id row) row' ;;
          mret row') stale_rows.
End Recovery.

(** * The transactions of the system *)

(** One committed or rolled back transaction on the queue, with what the
    environment supplies. *)
Inductive Action :=
| ACreate (fresh : uuid) (now : datetime) (submission_id : uuid) (c : WorkloadClass)
    (m : EvaluationMode) (deadline : option datetime) (stage : Z)
| AClaim (now : datetime) (worker_id : pystr) (policy : string) (max_workers max_heavy limit : Z)
| ADefer (id : uuid) (worker_id : pystr) (next_stage : Z) (c : WorkloadClass) (meta : dict)
| ARelease (id : uuid) (worker_id : pystr) (meta : dict) (reason : pystr)
| ASucceed (now : datetime) (id : uuid) (score : Z) (meta : dict) (worker_id : pystr)
| AFinish (now : datetime) (id : uuid) (score : Z) (meta : dict) (worker_id : pystr) (stage : Z)
| AFail (now : datetime) (id : uuid) (reason : pystr) (meta : option dict) (worker_id : pystr)
| ABegin (id : uuid) (worker_id : pystr) (attempt : dict)
| ARecover (os_of : uuid -> OsView) (now stale_before : datetime) (max_attempts : Z)
| ARuntime (pressure : string) (workers : Z)
| AHint (p95 : option float) (samples : Z) (wait : option float).

Section Actions.
Context `{PyRepr}.

(** The rows a transaction returns, and the state it leaves before its commit. *)
Definition perform (a : Action) : M exn Db (list Evaluation) :=
  match a with
  | ACreate f now s c m d st => r ← create_queued f now s c m d st; mret [r]
  | AClaim now w p mw mh l => o ← claim_next now w p mw mh l; mret (option_list o)
  | ADefer i w st c meta => o ← defer_escalation i w st c meta; mret (option_list o)
  | ARelease i w meta rs => o ← release_for_retry i w meta rs; mret (option_list o)
  | ASucceed now i sc meta w => o ← mark_succeeded now i sc meta w; mret (option_list o)
  | AFinish now i sc meta w st =>
      o ← finish_at_stage now i sc meta w st; mret (option_list o)
  | AFail now i rs meta w => o ← mark_failed now i rs meta w; mret (option_list o)
  | ABegin i w att => o ← begin_execution_attempt i w att; mret (option_list o)
  | ARecover os now sb ma => recover_stale_running os now sb ma
  | ARuntime p w => persist_runtime_state p w ;; mret []
  | AHint p n w => persist_interactive_hint p n w ;; mret []
  end.

(** Claims, recoveries and finishes that changed nothing are rolled back. *)
Definition rolled_back (a : Action) (rows : list Evaluation) : bool :=
  match a with
  | AClaim _ _ _ _ _ _ | ARecover _ _ _ _ | AFinish _ _ _ _ _ _ => negb (nonempty rows)
  | _ => false
  end.

Definition run_action (a : Action) (db : Db) : list Evaluation * Db :=
  match perform a db with
  | (Ok rows, db') => if rolled_back a rows then ([], db) else (rows, db')
  | (Raise _, _) => ([], db)
  end.

Definition step (db : Db) (a : Action) : Db := snd (run_action a db).
Definition steps (db : Db) (l : list Action) : Db := foldl step db l.
End Actions.

End EvaluationRepository.
