(* ===== verification/EvaluationQueueFacts.v ===== *)
(** Facts about the evaluation queue that its properties, the worker's and the
    system's share: the row invariant and its preservation by every transaction,
    runs of the commands, the outcomes of a claim, and recovery. *)
From Stdlib Require Import ZArith Lia String.
From stdpp Require Import prelude strings gmap sorting.
From S2P Require Import Prelude PyFloat PyStr Domain Database Ownership EvaluationQueue.
Import EvaluationRepository.

(** * The invariant *)

(** The columns a status determines. *)
Definition status_columns (r : Evaluation) : Prop :=
  match e_status r with
  | E_QUEUED => e_worker_id r = None /\ e_started_at r = None
                /\ e_completed_at r = None /\ e_score r = None
  | E_RUNNING => is_Some (e_worker_id r) /\ is_Some (e_started_at r)
                 /\ e_completed_at r = None /\ e_score r = None /\ 1 <= e_attempt_count r
  | E_SUCCEEDED => is_Some (e_completed_at r) /\ is_Some (e_score r)
                   /\ e_failure_reason r = None /\ 1 <= e_attempt_count r
  | E_FAILED => is_Some (e_completed_at r) /\ e_score r = None
                /\ is_Some (e_failure_reason r) /\ 1 <= e_attempt_count r
  end.

Definition row_wf (k : uuid) (r : Evaluation) : Prop :=
  e_id r = k /\ evaluation_check r = true /\ status_columns r.

(** Every row is stored under its identifier, satisfies the CHECK constraints,
    and has the columns its status calls for; the bypass counter is counted
    from zero. *)
Definition queue_wf (db : Db) : Prop :=
  (forall k r, evaluations db !! k = Some r -> row_wf k r)
  /\ (forall s, scheduler_state db = Some s -> 0 <= sch_light_bypass_count s).

(** What a transaction may do to one row. *)
Definition same_job (r r' : Evaluation) : Prop :=
  e_id r' = e_id r /\ e_submission_id r' = e_submission_id r
  /\ e_created_at r' = e_created_at r /\ e_evaluation_mode r' = e_evaluation_mode r
  /\ e_deadline_at r' = e_deadline_at r.

Inductive row_change : Evaluation -> Evaluation -> Prop :=
| rc_claim now w r :
    e_status r = E_QUEUED -> row_change r (claimed now w r)
| rc_running r r' :
    e_status r = E_RUNNING -> same_job r r' -> e_attempt_count r' = e_attempt_count r ->
    evaluation_check r' = true -> status_columns r' ->
    (e_status r' = E_RUNNING -> e_worker_id r' = e_worker_id r
                                /\ e_workload_class r' = e_workload_class r) ->
    row_change r r'.

Definition new_row (k : uuid) (r : Evaluation) : Prop :=
  row_wf k r /\ e_status r = E_QUEUED /\ e_attempt_count r = 0.

(** [rows_evolve old new]: the evaluations table changed by changes of rows and
    new queued rows only. *)
Definition rows_evolve (old new : gmap uuid Evaluation) : Prop :=
  forall k, match old !! k, new !! k with
            | Some r, Some r' => r' = r \/ row_change r r'
            | None, Some r' => new_row k r'
            | None, None => True
            | Some _, None => False
            end.

Lemma has_status_true st r : has_status st r = true <-> e_status r = st.
Proof. unfold has_status. by rewrite bool_decide_eq_true. Qed.

Lemma has_status_false st r : has_status st r = false <-> e_status r <> st.
Proof. unfold has_status. by rewrite bool_decide_eq_false. Qed.

Lemma rows_evolve_refl t : rows_evolve t t.
Proof. intros k. destruct (t !! k); auto. Qed.

Lemma rows_evolve_insert t k r r' :
  t !! k = Some r -> row_change r r' -> rows_evolve t (<[k := r']> t).
Proof.
  intros Hk Hc k'. destruct (decide (k' = k)) as [->|Hne].
  - rewrite Hk, lookup_insert_eq. auto.
  - rewrite lookup_insert_ne by done. apply rows_evolve_refl.
Qed.

Lemma rows_evolve_new t k r' : t !! k = None -> new_row k r' -> rows_evolve t (<[k := r']> t).
Proof.
  intros Hk Hc k'. destruct (decide (k' = k)) as [->|Hne].
  - by rewrite Hk, lookup_insert_eq.
  - rewrite lookup_insert_ne by done. apply rows_evolve_refl.
Qed.

Lemma claimed_check now w r : evaluation_check r = true -> evaluation_check (claimed now w r) = true.
Proof. unfold evaluation_check. destruct r, e_score; cbn. all: zify_bool; lia. Qed.

Lemma row_change_wf k r r' : row_wf k r -> row_change r r' -> row_wf k r'.
Proof.
  intros (Hid & Hck & Hcol) Hc. destruct Hc as [now w r Hst | r r' Hst Hsame Hatt Hck' Hcol' _].
  - split; [done|]. split; [by apply claimed_check|].
    unfold status_columns in *. rewrite Hst in Hcol. cbn.
    unfold evaluation_check in Hck. zify_bool. destruct Hcol as (? & ? & ? & ?).
    repeat split; try done; lia.
  - destruct Hsame as [Hid' _]. split; [congruence|done].
Qed.

Lemma rows_evolve_wf old new :
  rows_evolve old new ->
  (forall k r, old !! k = Some r -> row_wf k r) -> (forall k r, new !! k = Some r -> row_wf k r).
Proof.
  intros Hev Hold k r' Hr'. specialize (Hev k). rewrite Hr' in Hev.
  destruct (old !! k) as [r|] eqn:Hk; [|apply Hev].
  destruct Hev as [->|Hc]; [by apply Hold|]. eapply row_change_wf; [by apply Hold|done].
Qed.

(** * Runs of the commands *)

Lemma update_owned_run id w f db :
  (exists r, evaluations db !! id = Some r /\ e_status r = E_RUNNING /\ e_worker_id r = Some w
     /\ evaluation_check (f r) = true
     /\ update_owned id w f db
        = (Ok (Some (f r)), set_evaluations (<[id := f r]> (evaluations db)) db))
  \/ (exists e, update_owned id w f db = (Raise e, db))
  \/ update_owned id w f db = (Ok None, db)
     /\ forall r, evaluations db !! id = Some r ->
          ~ (e_status r = E_RUNNING /\ e_worker_id r = Some w).
Proof.
  unfold update_owned, get, gets_st. rewrite run_bind.
  destruct (evaluations db !! id) as [r|] eqn:Hid; [|right; right; naive_solver].
  destruct (has_status E_RUNNING r) eqn:Hst; cbn [andb]; cycle 1.
  { right; right. split; [done|]. apply has_status_false in Hst. naive_solver. }
  case_bool_decide as Hw; cycle 1.
  { right; right. split; [done|]. naive_solver. }
  apply has_status_true in Hst. rewrite run_bind. unfold update_evaluation.
  rewrite update_row_run. destruct (evaluation_check (f r)) eqn:Hck.
  - left. exists r. done.
  - right; left. eauto.
Qed.

Lemma update_owned_ok id w f db r :
  evaluations db !! id = Some r -> e_status r = E_RUNNING -> e_worker_id r = Some w ->
  evaluation_check (f r) = true ->
  update_owned id w f db = (Ok (Some (f r)), set_evaluations (<[id := f r]> (evaluations db)) db).
Proof.
  intros Hk Hst Hw Hck. unfold update_owned, get, gets_st. rewrite run_bind, Hk.
  rewrite (proj2 (has_status_true _ _) Hst), (bool_decide_eq_true_2 _ Hw). cbn [andb].
  rewrite run_bind. unfold update_evaluation. by rewrite update_row_run, Hck.
Qed.

Lemma create_queued_run f now s c m d st db :
  (exists r, create_queued f now s c m d st db
             = (Ok r, set_evaluations (<[f := r]> (evaluations db)) db)
     /\ evaluations db !! f = None /\ new_row f r)
  \/ exists e, create_queued f now s c m d st db = (Raise e, db).
Proof.
  unfold create_queued. rewrite run_bind.
  destruct (insert_evaluation _ db) as [[[]|e] db'] eqn:E.
  - apply insert_row_Ok in E as (Hk & Hok & ->). left. eexists. split; [done|]. split; [done|].
    split; [|done]. zify_bool. split; [done|]. split; [apply Hok|done].
  - apply insert_row_Raise in E as ->. eauto.
Qed.

Lemma take_row_run now w r db :
  evaluation_check r = true ->
  take_row now w r db =
  (Ok (Some (claimed now w r)),
   set_evaluations (<[e_id r := claimed now w r]> (evaluations db)) db).
Proof.
  intros Hck. unfold take_row, update_evaluation. rewrite run_bind, update_row_run.
  by rewrite (claimed_check now w r Hck).
Qed.

Lemma save_scheduler_run s db :
  0 <= sch_light_bypass_count s ->
  save_scheduler_state s db = (Ok tt, set_scheduler_state (Some s) db).
Proof.
  intros Hs. unfold save_scheduler_state, scheduler_check.
  by rewrite (proj2 (Z.leb_le _ _) Hs).
Qed.

(** * The claim policy

    The specification of a claim: which queued row it takes, if any, from the
    FIFO queue, the running rows and the number of bypasses already granted
    against the blocked HEAVY head. *)
Definition bypasses_used (heavy_id : uuid) (db : Db) : Z :=
  match scheduler_state db with
  | Some s => if bool_decide (sch_blocked_heavy_id s = Some heavy_id)
              then sch_light_bypass_count s else 0
  | None => 0
  end.

Definition bounded_policy (p : string) : bool :=
  String.eqb p "resource_aware" || String.eqb p "bounded_light_bypass".
Definition worker_cap (max_workers : Z) : Z := Z.max 1 max_workers.
Definition heavy_cap (max_workers max_heavy : Z) : Z :=
  Z.max 0 (Z.min max_heavy (worker_cap max_workers)).

Inductive claim_outcome (policy : string) (mw mh limit : Z) (db : Db)
    : option Evaluation -> Prop :=
| co_at_capacity :
    worker_cap mw <= count_status E_RUNNING db ->
    claim_outcome policy mw mh limit db None
| co_empty :
    count_status E_RUNNING db < worker_cap mw -> queued_fifo db = [] ->
    claim_outcome policy mw mh limit db None
| co_head r rest :
    count_status E_RUNNING db < worker_cap mw -> queued_fifo db = r :: rest ->
    (e_workload_class r = W_HEAVY -> count_running_heavy db < heavy_cap mw mh) ->
    claim_outcome policy mw mh limit db (Some r)
| co_bypass h r rest :
    count_status E_RUNNING db < worker_cap mw -> queued_fifo db = h :: r :: rest ->
    e_workload_class h = W_HEAVY -> heavy_cap mw mh <= count_running_heavy db ->
    bounded_policy policy = true -> bypasses_used (e_id h) db < Z.max 0 limit ->
    e_workload_class r = W_LIGHT ->
    claim_outcome policy mw mh limit db (Some r)
| co_hold h rest :
    count_status E_RUNNING db < worker_cap mw -> queued_fifo db = h :: rest ->
    e_workload_class h = W_HEAVY -> heavy_cap mw mh <= count_running_heavy db ->
    (bounded_policy policy = false \/ Z.max 0 limit <= bypasses_used (e_id h) db
     \/ forall r rest', rest = r :: rest' -> e_workload_class r <> W_LIGHT) ->
    claim_outcome policy mw mh limit db None.

(** What a claim leaves behind when it took [r]. *)
Definition claim_writes (now : datetime) (w : pystr) (db : Db) (o : option Evaluation) (db' : Db)
    : Prop :=
  hackathons db' = hackathons db /\ users db' = users db /\ challenges db' = challenges db
  /\ submissions db' = submissions db /\ ingestion_jobs db' = ingestion_jobs db
  /\ document_chunks db' = document_chunks db
  /\ evaluations db' = match o with
                       | Some r => <[e_id r := claimed now w r]> (evaluations db)
                       | None => evaluations db
                       end.

(** The bypass account after a claim: a bypass of the head adds one, taking the
    head clears it. *)
Definition bypass_account (db : Db) (o : option Evaluation) (db' : Db) : Prop :=
  (exists s, scheduler_state db' = Some s /\ 0 <= sch_light_bypass_count s)
  /\ forall r, o = Some r -> forall h rest, queued_fifo db = h :: rest -> e_id r <> e_id h ->
     bypasses_used (e_id h) db' = bypasses_used (e_id h) db + 1.

Lemma is_heavy_true r : is_heavy r = true <-> e_workload_class r = W_HEAVY.
Proof. unfold is_heavy. by rewrite bool_decide_eq_true. Qed.

Lemma is_heavy_false r : is_heavy r = false <-> e_workload_class r <> W_HEAVY.
Proof. unfold is_heavy. by rewrite bool_decide_eq_false. Qed.

Lemma elem_of_queued_fifo db r :
  r ∈ queued_fifo db <-> (exists k, evaluations db !! k = Some r) /\ e_status r = E_QUEUED.
Proof.
  unfold queued_fifo. rewrite elem_of_order_by_created, elem_of_rows_where.
  by rewrite has_status_true.
Qed.

Lemma block_on_count h s : 0 <= sch_light_bypass_count s -> 0 <= sch_light_bypass_count (block_on h s).
Proof. unfold block_on. case_bool_decide; cbn; lia. Qed.

(** The state a claim works on: the row is there and the database otherwise
    unchanged. *)
Lemma ensure_lock_run values db :
  (forall s, scheduler_state db = Some s -> 0 <= sch_light_bypass_count s) ->
  sch_blocked_heavy_id values = None -> sch_light_bypass_count values = 0 ->
  exists s, 0 <= sch_light_bypass_count s
  /\ (forall h, (if bool_decide (sch_blocked_heavy_id s = Some h)
                 then sch_light_bypass_count s else 0) = bypasses_used h db)
  /\ ensure_scheduler_state values db = (Ok tt, set_scheduler_state (Some s) db)
  /\ lock_scheduler_state (set_scheduler_state (Some s) db)
     = (Ok s, set_scheduler_state (Some s) db).
Proof.
  intros Hwf Hb Hc. unfold ensure_scheduler_state, modify_st, bypasses_used.
  destruct (scheduler_state db) as [s|] eqn:Hs.
  - exists s. split_and!; try done; [by apply Hwf|].
    destruct db; cbn in *; by subst.
  - exists values. split_and!; try done; [by rewrite Hc|].
    intros h. by rewrite Hb.
Qed.

Lemma bypasses_used_block_on h s db :
  bypasses_used h (set_scheduler_state (Some (block_on h s)) db)
  = if bool_decide (sch_blocked_heavy_id s = Some h) then sch_light_bypass_count s else 0.
Proof.
  unfold bypasses_used, block_on; cbn.
  destruct (decide (sch_blocked_heavy_id s = Some h)) as [Hb|Hb].
  - by rewrite !(bool_decide_eq_true_2 _ Hb).
  - rewrite !(bool_decide_eq_false_2 _ Hb); cbn. by rewrite bool_decide_eq_true_2.
Qed.

(** The claims that take nothing, take the head, or let its successor pass. *)
Lemma claim_none_writes now w db s :
  0 <= sch_light_bypass_count s ->
  claim_writes now w db None (set_scheduler_state (Some s) db)
  /\ bypass_account db None (set_scheduler_state (Some s) db).
Proof. intros Hs. split; [done|]. split; [by exists s|done]. Qed.

Lemma claim_head_writes now w db s r rest :
  0 <= sch_light_bypass_count s -> evaluation_check r = true -> queued_fifo db = r :: rest ->
  let db1 := set_scheduler_state (Some s) db in
  exists db', take_row now w r db1 = (Ok (Some (claimed now w r)), db')
  /\ claim_writes now w db (Some r) db' /\ bypass_account db (Some r) db'.
Proof.
  intros Hs Hck Hq db1. eexists. rewrite take_row_run by done. split; [done|]. split; [done|].
  split; [by exists s|]. intros ? [= <-] h rest' Hq'. rewrite Hq in Hq'. by simplify_eq.
Qed.

Lemma claim_bypass_writes now w db s h r rest :
  0 <= sch_light_bypass_count s -> evaluation_check r = true -> queued_fifo db = h :: rest ->
  sch_blocked_heavy_id s = Some (e_id h) ->
  sch_light_bypass_count s = bypasses_used (e_id h) db + 1 ->
  let db1 := set_scheduler_state (Some s) db in
  exists db', take_row now w r db1 = (Ok (Some (claimed now w r)), db')
  /\ claim_writes now w db (Some r) db' /\ bypass_account db (Some r) db'.
Proof.
  intros Hs Hck Hq Hb Hc db1. eexists. rewrite take_row_run by done.
  split; [done|]. split; [done|]. split; [by exists s|].
  intros ? [= <-] h' rest' Hq' _. rewrite Hq in Hq'. simplify_eq.
  unfold bypasses_used at 1; cbn. by rewrite (bool_decide_eq_true_2 _ Hb).
Qed.

Lemma blocked_after_block_on h s : sch_blocked_heavy_id (block_on h s) = Some h.
Proof. unfold block_on. by case_bool_decide. Qed.

Lemma count_after_block_on h s :
  sch_light_bypass_count (block_on h s)
  = if bool_decide (sch_blocked_heavy_id s = Some h) then sch_light_bypass_count s else 0.
Proof. unfold block_on. by case_bool_decide. Qed.

Lemma save_scheduler_again s s' db :
  0 <= sch_light_bypass_count s' ->
  save_scheduler_state s' (set_scheduler_state (Some s) db)
  = (Ok tt, set_scheduler_state (Some s') db).
Proof. intros. by rewrite save_scheduler_run. Qed.

Section ClaimCases.
Context (now : datetime) (w : pystr) (policy : string) (mw mh limit : Z) (db : Db)
        (s : SchedulerState).
Hypothesis Hs : 0 <= sch_light_bypass_count s.
Hypothesis Hused : forall h, (if bool_decide (sch_blocked_heavy_id s = Some h)
                              then sch_light_bypass_count s else 0) = bypasses_used h db.
Hypothesis Hcap : count_status E_RUNNING db < worker_cap mw.

(** The claim [c], run on the database with the scheduler row [s], does what
    the policy says. *)
Definition claim_meets (c : M exn Db (option Evaluation)) : Prop :=
  exists o db', c (set_scheduler_state (Some s) db) = (Ok (claimed now w <$> o), db')
  /\ claim_outcome policy mw mh limit db o /\ claim_writes now w db o db'
  /\ bypass_account db o db'.

Lemma claim_meets_head h rest :
  queued_fifo db = h :: rest -> evaluation_check h = true ->
  (e_workload_class h = W_HEAVY -> count_running_heavy db < heavy_cap mw mh) ->
  claim_meets (save_scheduler_state (unblock s) ;; take_row now w h).
Proof using Hs Hcap.
  intros Hq Hck Hfree. exists (Some h). rewrite run_bind, save_scheduler_again by (cbn; lia).
  destruct (claim_head_writes now w db (unblock s) h rest) as (db' & Ht & ?);
    [cbn; lia|done|done|].
  exists db'. split; [exact Ht|]. split; [by eapply co_head|done].
Qed.

Lemma claim_meets_none s' :
  0 <= sch_light_bypass_count s' -> claim_outcome policy mw mh limit db None ->
  claim_meets (save_scheduler_state s' ;; mret None).
Proof using.
  intros Hs' Ho. exists None. rewrite run_bind, save_scheduler_again by done.
  eexists. split; [done|]. split; [done|]. by apply claim_none_writes.
Qed.

Lemma claim_meets_blocked h rest :
  queued_fifo db = h :: rest -> (forall r, r ∈ rest -> evaluation_check r = true) ->
  e_workload_class h = W_HEAVY -> heavy_cap mw mh <= count_running_heavy db ->
  bounded_policy policy = true ->
  claim_meets
    (let state := block_on (e_id h) s in
     if Z.max 0 limit <=? sch_light_bypass_count state then
       save_scheduler_state state ;; mret None
     else
       match rest with
       | successor :: _ =>
           if bool_decide (e_workload_class successor = W_LIGHT) then
             save_scheduler_state
               (state <| sch_light_bypass_count := sch_light_bypass_count state + 1 |>) ;;
             take_row now w successor
           else save_scheduler_state state ;; mret None
       | [] => save_scheduler_state state ;; mret None
       end).
Proof using Hs Hused Hcap.
  intros Hq Hck Hheavy Hfull Hpol. cbv zeta. set (state := block_on (e_id h) s).
  assert (sch_light_bypass_count state = bypasses_used (e_id h) db) as Hc
    by (unfold state; by rewrite count_after_block_on, Hused).
  assert (0 <= sch_light_bypass_count state) as Hs' by (by apply block_on_count).
  destruct (Z.leb_spec (Z.max 0 limit) (sch_light_bypass_count state)) as [Hl|Hl].
  { apply claim_meets_none; [done|]. eapply co_hold; eauto. right; left. lia. }
  destruct rest as [|r rest].
  { apply claim_meets_none; [done|]. eapply co_hold; eauto; naive_solver. }
  case_bool_decide as Hlight; cycle 1.
  { apply claim_meets_none; [done|]. eapply co_hold; eauto; naive_solver. }
  exists (Some r). rewrite run_bind, save_scheduler_again by (cbn; lia).
  edestruct (claim_bypass_writes now w db
    (state <| sch_light_bypass_count := sch_light_bypass_count state + 1 |>) h r)
    as (db' & Ht & ?); [cbn; lia|by apply Hck; left|done| |cbn; lia|].
  { apply blocked_after_block_on. }
  exists db'. split; [exact Ht|]. split; [|done]. eapply co_bypass; eauto. lia.
Qed.
End ClaimCases.

(** A claim always returns, what it takes is what the policy says, and it
    changes the row it takes, the scheduler row, and nothing else. *)
Lemma claim_next_run now w policy mw mh limit db :
  queue_wf db ->
  exists o db', claim_next now w policy mw mh limit db = (Ok (claimed now w <$> o), db')
  /\ claim_outcome policy mw mh limit db o /\ claim_writes now w db o db'
  /\ bypass_account db o db'.
Proof.
  intros [Hrows Hsched].
  assert (forall r, r ∈ queued_fifo db -> evaluation_check r = true) as Hck.
  { intros r [[k Hk] _]%elem_of_queued_fifo. by destruct (Hrows k r Hk) as (_ & ? & _). }
  destruct (ensure_lock_run default_scheduler_state db Hsched eq_refl eq_refl)
    as (s & Hs0 & Hused & Hens & Hlock).
  unfold claim_next. rewrite run_bind, Hens, run_bind, Hlock, run_bind. unfold gets_st at 1.
  fold (worker_cap mw). fold (heavy_cap mw mh).
  change (count_status E_RUNNING (set_scheduler_state (Some s) db)) with (count_status E_RUNNING db).
  destruct (Z.leb_spec (worker_cap mw) (count_status E_RUNNING db)) as [Hcap|Hcap].
  { exists None. eexists. split; [done|]. split; [by apply co_at_capacity|].
    by apply claim_none_writes. }
  rewrite run_bind. unfold gets_st at 1.
  change (queued_fifo (set_scheduler_state (Some s) db)) with (queued_fifo db).
  destruct (queued_fifo db) as [|h rest] eqn:Hq.
  { apply claim_meets_none; [cbn; lia|by apply co_empty]. }
  assert (evaluation_check h = true) as Hckh by (apply Hck; left).
  destruct (is_heavy h) eqn:Hheavy; cycle 1.
  { apply claim_meets_head with rest; try done. by apply is_heavy_false in Hheavy. }
  apply is_heavy_true in Hheavy. rewrite run_bind. unfold gets_st at 1.
  change (count_running_heavy (set_scheduler_state (Some s) db)) with (count_running_heavy db).
  pose proof (countb_nonneg running_heavy_row (evaluations db)) as H0.
  fold (count_running_heavy db) in H0.
  destruct (Z.leb_spec (heavy_cap mw mh) (count_running_heavy db)) as [Hfull|Hfree]; cycle 1.
  { rewrite (proj2 (Z.eqb_neq (heavy_cap mw mh) 0)) by lia.
    by apply claim_meets_head with rest. }
  cbn [orb].
  assert (String.eqb (if String.eqb policy "resource_aware" then "bounded_light_bypass"%string
                      else policy) "bounded_light_bypass" = bounded_policy policy) as ->.
  { unfold bounded_policy. by destruct (String.eqb policy "resource_aware"). }
  destruct (bounded_policy policy) eqn:Hpol; cbn [negb]; cycle 1.
  { exists None. eexists. split; [done|]. split; [by eapply co_hold; eauto|].
    by apply claim_none_writes. }
  apply claim_meets_blocked; try done. intros r Hr. apply Hck. by right.
Qed.

(** * Recovery *)

Lemma mapM_update_run f l db :
  (forall r, r ∈ l -> evaluation_check (f r) = true) ->
  mapM (fun row => update_evaluation (e_id row) (f row) ;; mret (f row)) l db
  = (Ok (f <$> l), set_evaluations (replace_rows e_id f l (evaluations db)) db).
Proof.
  intros Hck. by apply (mapM_update_rows e_id f evaluations set_evaluations evaluation_check); [intros []|..].
Qed.

Section RecoveryFacts.
Context `{PyRepr} (os_of : uuid -> OsView) (now : datetime).

Notation recover := (recover_row os_of now).

(** What recovery decides for a row, whatever it records in the metadata. *)
Definition survivors (row : Evaluation) : list Z :=
  match from_metadata (e_result_metadata row) with
  | Some a => if orphan_suspected (os_of (e_id row)) (Some a)
              then cr_still_alive (contain_attempt (os_of (e_id row)) a) else []
  | None => []
  end.

Lemma recover_row_cases max_attempts row :
  let row' := recover max_attempts row in
  same_job row row' /\ e_attempt_count row' = e_attempt_count row /\ e_score row' = e_score row
  /\ e_current_stage row' = e_current_stage row
  /\ e_workload_class row' = e_workload_class row /\ e_worker_id row' = None
  /\ if nonempty (survivors row) || (max_attempts <=? e_attempt_count row)
     then e_status row' = E_FAILED /\ e_completed_at row' = Some now
          /\ is_Some (e_failure_reason row')
     else e_status row' = E_QUEUED /\ e_started_at row' = None
          /\ e_completed_at row' = e_completed_at row.
Proof.
  assert (forall meta, let r' := settle_row now max_attempts (row <| e_result_metadata := meta |>) in
    same_job row r' /\ e_attempt_count r' = e_attempt_count row /\ e_score r' = e_score row
    /\ e_current_stage r' = e_current_stage row
    /\ e_workload_class r' = e_workload_class row /\ e_worker_id r' = None
    /\ if max_attempts <=? e_attempt_count row
       then e_status r' = E_FAILED /\ e_completed_at r' = Some now
            /\ is_Some (e_failure_reason r')
       else e_status r' = E_QUEUED /\ e_started_at r' = None
            /\ e_completed_at r' = e_completed_at row) as Hsettle.
  { intros meta. unfold settle_row. cbn. by destruct (max_attempts <=? e_attempt_count row). }
  intros row'. unfold row', recover_row, survivors.
  destruct (from_metadata (e_result_metadata row)) as [a|].
  2: { specialize (Hsettle (e_result_metadata row)). by destruct row. }
  destruct (orphan_suspected _ _); [|by apply Hsettle].
  destruct (nonempty _); [done|]. apply Hsettle.
Qed.

Lemma recover_row_check max_attempts row :
  evaluation_check (recover max_attempts row) = evaluation_check row.
Proof.
  destruct (recover_row_cases max_attempts row) as (_ & Ha & Hs & Hc & _).
  unfold evaluation_check. by rewrite Ha, Hs, Hc.
Qed.

Lemma recover_row_change k max_attempts row :
  row_wf k row -> e_status row = E_RUNNING -> row_change row (recover max_attempts row).
Proof.
  intros (Hid & Hck & Hcol) Hst.
  pose proof (recover_row_check max_attempts row) as Hck'.
  destruct (recover_row_cases max_attempts row) as (Hsame & Ha & Hs & _ & _ & Hw & Hout).
  unfold status_columns in Hcol. rewrite Hst in Hcol. destruct Hcol as (_ & _ & Hcomp & Hsc & Hatt).
  apply rc_running; [done..|congruence| |].
  - unfold status_columns. destruct (nonempty _ || _); destruct Hout as (-> & H1 & H2).
    + rewrite H1, Hs, Hsc. split_and!; try done. lia.
    + rewrite H2, Hs, Hsc, Hw, H1, Hcomp. done.
  - destruct (nonempty _ || _); destruct Hout as (-> & _); done.
Qed.

Lemma recover_stale_run stale_before max_attempts db :
  queue_wf db ->
  let l := rows_where (is_stale stale_before) (evaluations db) in
  NoDup (e_id <$> l)
  /\ recover_stale_running os_of now stale_before max_attempts db
     = (Ok (recover max_attempts <$> l),
        set_evaluations (replace_rows e_id (recover max_attempts) l (evaluations db)) db).
Proof.
  intros [Hrows _] l. split; [apply rows_where_ids_NoDup; naive_solver|].
  unfold recover_stale_running. rewrite run_bind. unfold gets_st at 1. apply mapM_update_run.
  intros r [[k Hk] _]%elem_of_rows_where. rewrite recover_row_check.
  by destruct (Hrows k r Hk) as (_ & ? & _).
Qed.

Lemma recover_stale_lookup stale_before max_attempts db k r :
  queue_wf db -> evaluations db !! k = Some r ->
  replace_rows e_id (recover max_attempts) (rows_where (is_stale stale_before) (evaluations db))
    (evaluations db) !! k
  = Some (if is_stale stale_before r then recover max_attempts r else r).
Proof.
  intros Hwf Hk. destruct (recover_stale_run stale_before max_attempts db Hwf) as [Hnd _].
  destruct Hwf as [Hrows _]. assert (e_id r = k) as <- by (by apply Hrows).
  destruct (is_stale stale_before r) eqn:Hst.
  - apply replace_rows_in; [done|]. apply elem_of_rows_where. eauto.
  - rewrite replace_rows_notin; [done|].
    intros (r' & Hid & [[k' Hk'] Hst']%elem_of_rows_where)%list_elem_of_fmap.
    assert (e_id r' = k') by (by apply Hrows). congruence.
Qed.

Lemma recover_stale_none stale_before max_attempts db k :
  queue_wf db -> evaluations db !! k = None ->
  replace_rows e_id (recover max_attempts) (rows_where (is_stale stale_before) (evaluations db))
    (evaluations db) !! k = None.
Proof.
  intros [Hrows _] Hk. rewrite replace_rows_notin; [done|].
  intros (r' & Hid & [[k' Hk'] _]%elem_of_rows_where)%list_elem_of_fmap.
  assert (e_id r' = k') by (by apply Hrows). congruence.
Qed.

Lemma recover_stale_evolve stale_before max_attempts db :
  queue_wf db ->
  rows_evolve (evaluations db)
    (replace_rows e_id (recover max_attempts) (rows_where (is_stale stale_before) (evaluations db))
       (evaluations db)).
Proof.
  intros Hwf k. destruct (evaluations db !! k) as [r|] eqn:Hk.
  - rewrite (recover_stale_lookup _ _ _ _ _ Hwf Hk).
    destruct (is_stale stale_before r) eqn:Hst; [right|by left].
    unfold is_stale in Hst. zify_bool. destruct Hst as [Hst%has_status_true _].
    eapply recover_row_change; [by apply Hwf|done].
  - by rewrite recover_stale_none.
Qed.
End RecoveryFacts.

(** * One transaction *)

(** Every transaction but a claim: rows evolve, none starts running, and the
    bypass account stays. *)
Definition runs_only (old new : gmap uuid Evaluation) : Prop :=
  forall k r', new !! k = Some r' -> e_status r' = E_RUNNING ->
  exists r, old !! k = Some r /\ e_status r = E_RUNNING
            /\ e_workload_class r' = e_workload_class r.

Definition quiet (db db' : Db) : Prop :=
  rows_evolve (evaluations db) (evaluations db')
  /\ runs_only (evaluations db) (evaluations db')
  /\ (forall s, scheduler_state db' = Some s -> 0 <= sch_light_bypass_count s)
  /\ forall h, bypasses_used h db' = bypasses_used h db.

Definition is_claim (a : Action) : bool :=
  match a with AClaim _ _ _ _ _ _ => true | _ => false end.

Lemma runs_only_refl t : runs_only t t.
Proof. intros k r Hk Hr. eauto. Qed.

Lemma quiet_refl db : queue_wf db -> quiet db db.
Proof. intros Hwf. split; [apply rows_evolve_refl|]. split; [apply runs_only_refl|]. split; [apply Hwf|done]. Qed.

Lemma quiet_rows db t :
  queue_wf db -> rows_evolve (evaluations db) t -> runs_only (evaluations db) t ->
  quiet db (set_evaluations t db).
Proof. intros Hwf He Hr. split_and!; [done..|apply Hwf|done]. Qed.

Lemma row_change_runs_only t k r r' :
  t !! k = Some r -> e_status r = E_RUNNING -> row_change r r' -> runs_only t (<[k := r']> t).
Proof.
  intros Hk Hst Hc k' r1 Hk' Hr1. destruct (decide (k' = k)) as [->|Hne].
  - rewrite lookup_insert_eq in Hk'. simplify_eq. exists r. split_and!; [done..|].
    destruct Hc as [|? ? _ _ _ _ _ Hrun]; [congruence|]. by apply Hrun.
  - rewrite lookup_insert_ne in Hk' by done. eauto.
Qed.

(** A running row's update by its owner. *)
Definition owner_update (w : pystr) (f : Evaluation -> Evaluation) : Prop :=
  forall k r, row_wf k r -> e_status r = E_RUNNING -> e_worker_id r = Some w ->
  evaluation_check (f r) = true -> row_change r (f r).

Lemma owner_update_quiet id w f db o db' :
  queue_wf db -> owner_update w f -> update_owned id w f db = (Ok o, db') -> quiet db db'.
Proof.
  intros Hwf Hf Hrun.
  destruct (update_owned_run id w f db) as [(r & Hk & Hst & Hw & Hck & E)|[[e E]|[E _]]];
    rewrite E in Hrun; simplify_eq; [|by apply quiet_refl].
  pose proof Hwf as [Hrows _].
  assert (row_change r (f r)) as Hc by (eapply Hf; eauto).
  apply quiet_rows; [done|by eapply rows_evolve_insert|by eapply row_change_runs_only].
Qed.

Ltac owner_update_tac :=
  intros k r (Hid & Hck & Hcol) Hst Hw Hck'; apply rc_running; try done;
  unfold status_columns in *; rewrite Hst in Hcol; cbn in *; naive_solver.

Lemma defer_update w st c meta :
  owner_update w (fun r =>
    r <| e_status := E_QUEUED |> <| e_started_at := None |> <| e_worker_id := None |>
      <| e_current_stage := st |> <| e_workload_class := c |>
      <| e_result_metadata := meta |> <| e_failure_reason := None |>).
Proof. owner_update_tac. Qed.

Lemma release_update w meta reason :
  owner_update w (fun r =>
    r <| e_status := E_QUEUED |> <| e_started_at := None |> <| e_worker_id := None |>
      <| e_result_metadata := meta |> <| e_failure_reason := Some reason |>).
Proof. owner_update_tac. Qed.

Lemma succeed_update w now sc meta :
  owner_update w (fun r =>
    r <| e_status := E_SUCCEEDED |> <| e_completed_at := Some now |> <| e_score := Some sc |>
      <| e_result_metadata := meta |> <| e_failure_reason := None |>).
Proof. owner_update_tac. Qed.

Lemma fail_update w now reason meta :
  owner_update w (fun r =>
    r <| e_status := E_FAILED |> <| e_completed_at := Some now |>
      <| e_failure_reason := Some reason |> <| e_score := None |>
      <| e_result_metadata := default (e_result_metadata r) meta |>).
Proof. owner_update_tac. Qed.

Lemma finish_update w now sc meta st :
  owner_update w (fun r =>
    r <| e_status := E_SUCCEEDED |> <| e_completed_at := Some now |> <| e_score := Some sc |>
      <| e_result_metadata := meta |> <| e_failure_reason := None |> <| e_current_stage := st |>).
Proof. owner_update_tac. Qed.

(** The two statements of a success at a stage are one update by the owner, or
    the transaction fails, or nothing happens. *)
Lemma finish_at_stage_run now id sc meta w st db :
  (exists r, evaluations db !! id = Some r /\ e_status r = E_RUNNING /\ e_worker_id r = Some w
     /\ let r' := r <| e_status := E_SUCCEEDED |> <| e_completed_at := Some now |>
                    <| e_score := Some sc |> <| e_result_metadata := meta |>
                    <| e_failure_reason := None |> in
        evaluation_check (r' <| e_current_stage := st |>) = true
        /\ finish_at_stage now id sc meta w st db
           = (Ok (Some r'),
              set_evaluations (<[id := r' <| e_current_stage := st |>]> (evaluations db)) db))
  \/ (exists e db', finish_at_stage now id sc meta w st db = (Raise e, db'))
  \/ finish_at_stage now id sc meta w st db = (Ok None, db)
     /\ forall r, evaluations db !! id = Some r ->
          ~ (e_status r = E_RUNNING /\ e_worker_id r = Some w).
Proof.
  unfold finish_at_stage, mark_succeeded. rewrite run_bind.
  match goal with |- context [update_owned id w ?f db] =>
    destruct (update_owned_run id w f db) as [(r & Hk & Hst & Hw & _ & ->)|[[e ->]|[-> Hno]]] end;
    [|by eauto|by auto].
  rewrite run_bind. unfold update_evaluation at 1 2 3. rewrite update_row_run.
  destruct (evaluation_check _) eqn:Hck; [left|by eauto].
  exists r. do 4 (split; [done|]). cbn -[set_evaluations]. f_equal.
  unfold set_evaluations. cbn. by rewrite insert_insert_eq.
Qed.

Lemma metadata_update w g : owner_update w (fun r => r <| e_result_metadata := g r |>).
Proof.
  intros k r (Hid & Hck & Hcol) Hst Hw Hck'. apply rc_running; try done.
Qed.

Section Transactions.
Context `{PyRepr}.

Lemma run_action_bind {A} (c : M exn Db A) (k : A -> list Evaluation) a db :
  perform a = (o ← c; mret (k o)) ->
  run_action a db = match c db with
                    | (Ok o, db') => if rolled_back a (k o) then ([], db) else (k o, db')
                    | (Raise _, _) => ([], db)
                    end.
Proof.
  intros Ha. unfold run_action. rewrite Ha, run_bind. by destruct (c db) as [[o|e] db'].
Qed.

(** An owner's update, as a transaction. *)
Lemma owner_step_quiet id w f a db :
  queue_wf db -> owner_update w f -> rolled_back a = (fun _ => false) ->
  perform a = (o ← update_owned id w f; mret (option_list o)) -> quiet db (step db a).
Proof.
  intros Hwf Hf Hrb Ha. unfold step. rewrite (run_action_bind _ _ _ _ Ha), Hrb.
  destruct (update_owned id w f db) as [[o|e] db'] eqn:E; [|by apply quiet_refl].
  by eapply owner_update_quiet.
Qed.

Lemma bypasses_used_values s s' db :
  sch_blocked_heavy_id s' = sch_blocked_heavy_id s ->
  sch_light_bypass_count s' = sch_light_bypass_count s ->
  forall h, bypasses_used h (set_scheduler_state (Some s') db)
            = bypasses_used h (set_scheduler_state (Some s) db).
Proof. intros H1 H2 h. unfold bypasses_used; cbn. by rewrite H1, H2. Qed.

Lemma finish_quiet now id sc meta w st db :
  queue_wf db -> quiet db (step db (AFinish now id sc meta w st)).
Proof.
  intros Hwf. unfold step. rewrite (run_action_bind (finish_at_stage now id sc meta w st)
    option_list) by done.
  destruct (finish_at_stage_run now id sc meta w st db)
    as [(r & Hk & Hst & Hw & Hck & ->)|[(e & db' & ->)|[-> _]]]; [|by apply quiet_refl..].
  cbn [rolled_back snd]. pose proof Hwf as [Hrows _].
  assert (row_change r _) as Hc by (eapply finish_update; eauto).
  apply quiet_rows; [done|by eapply rows_evolve_insert|by eapply row_change_runs_only].
Qed.

(** Publishing observability columns keeps the claim policy's columns. *)
Lemma publish_quiet values g db :
  queue_wf db -> sch_blocked_heavy_id values = None -> sch_light_bypass_count values = 0 ->
  (forall s, sch_blocked_heavy_id (g s) = sch_blocked_heavy_id s
             /\ sch_light_bypass_count (g s) = sch_light_bypass_count s) ->
  quiet db (snd ((ensure_scheduler_state values ;; state ← lock_scheduler_state;
                  save_scheduler_state (g state)) db)).
Proof.
  intros [Hrows Hsched] Hv1 Hv2 Hg.
  destruct (ensure_lock_run values db Hsched Hv1 Hv2) as (s & Hs0 & Hused & Hens & Hlock).
  destruct (Hg s) as [Hb Hc].
  rewrite run_bind, Hens, run_bind, Hlock, save_scheduler_again by lia. cbn [snd].
  split; [apply rows_evolve_refl|]. split; [apply runs_only_refl|]. split.
  - intros s' [= <-]. lia.
  - intros h. rewrite (bypasses_used_values s (g s) db Hb Hc). apply Hused.
Qed.

Lemma recover_quiet os now sb ma db :
  queue_wf db -> quiet db (step db (ARecover os now sb ma)).
Proof.
  intros Hwf. unfold step, run_action; cbn [perform].
  destruct (recover_stale_run os now sb ma db Hwf) as [_ ->].
  destruct (rolled_back _ _); [by apply quiet_refl|]. cbn [snd].
  apply quiet_rows; [done|by apply recover_stale_evolve|].
  intros k r' Hk Hr'. destruct (evaluations db !! k) as [r|] eqn:Hr.
  2: { by rewrite recover_stale_none in Hk. }
  rewrite (recover_stale_lookup _ _ _ _ _ _ _ Hwf Hr) in Hk. simplify_eq.
  destruct (is_stale sb r) eqn:Hst; [|eauto].
  destruct (recover_row_cases os now ma r) as (_ & _ & _ & _ & _ & _ & Hout).
  destruct (nonempty _ || _); destruct Hout as (Hq & _); congruence.
Qed.

Lemma create_quiet f now s c m d st db :
  queue_wf db -> quiet db (step db (ACreate f now s c m d st)).
Proof.
  intros Hwf. unfold step. rewrite (run_action_bind (create_queued f now s c m d st)
    (fun r => [r]) (ACreate f now s c m d st)) by done.
  destruct (create_queued_run f now s c m d st db) as [(r & -> & Hk & Hnew)|[e ->]];
    [|by apply quiet_refl].
  cbn [rolled_back snd]. apply quiet_rows; [done|by apply rows_evolve_new|].
  intros k r' Hk' Hr'. destruct (decide (k = f)) as [->|Hne].
  - rewrite lookup_insert_eq in Hk'. simplify_eq. destruct Hnew as (_ & Hq & _). congruence.
  - rewrite lookup_insert_ne in Hk' by done. eauto.
Qed.

Lemma step_quiet a db : queue_wf db -> is_claim a = false -> quiet db (step db a).
Proof.
  intros Hwf Ha. destruct a; try done.
  - by apply create_quiet.
  - eapply owner_step_quiet; [done|apply defer_update|done|done].
  - eapply owner_step_quiet; [done|apply release_update|done|done].
  - eapply owner_step_quiet; [done|apply succeed_update|done|done].
  - by apply finish_quiet.
  - eapply owner_step_quiet; [done|apply fail_update|done|done].
  - eapply owner_step_quiet; [done|apply metadata_update|done|done].
  - by apply recover_quiet.
  - unfold step.
    rewrite (run_action_bind (persist_runtime_state pressure workers) (fun _ => [])) by done.
    assert (quiet db (snd (persist_runtime_state pressure workers db))) as Hp
      by (apply publish_quiet; done).
    destruct (persist_runtime_state pressure workers db) as [[u|e] db'];
      [exact Hp|by apply quiet_refl].
  - unfold step.
    rewrite (run_action_bind (persist_interactive_hint p95 samples wait) (fun _ => [])) by done.
    assert (quiet db (snd (persist_interactive_hint p95 samples wait db))) as Hp
      by (apply (publish_quiet (mkSched None 0 "normal" None p95 (Z.max 0 samples) wait)); done).
    destruct (persist_interactive_hint p95 samples wait db) as [[u|e] db'];
      [exact Hp|by apply quiet_refl].
Qed.

(** A claim's transaction: nothing happens, or a queued row is taken. *)
Lemma step_claim now w p mw mh l db :
  queue_wf db ->
  exists o db', claim_outcome p mw mh l db o
  /\ run_action (AClaim now w p mw mh l) db = (option_list (claimed now w <$> o), db')
  /\ (o = None -> db' = db)
  /\ forall r, o = Some r ->
       claim_writes now w db (Some r) db' /\ bypass_account db (Some r) db'.
Proof.
  intros Hwf. destruct (claim_next_run now w p mw mh l db Hwf) as (o & db' & E & Ho & Hw & Hb).
  rewrite (run_action_bind (claim_next now w p mw mh l) option_list) by done. rewrite E.
  destruct o as [r|]; [exists (Some r), db'|exists None, db]; cbn; naive_solver.
Qed.

Lemma claim_outcome_queued p mw mh l db r :
  claim_outcome p mw mh l db (Some r) -> r ∈ queued_fifo db.
Proof. inversion 1 as [| |? ? _ Hq|? ? ? _ Hq|]; subst; rewrite Hq; [left|right; left]. Qed.

Lemma step_claim_rows a db :
  queue_wf db -> is_claim a = true ->
  evaluations (step db a) = evaluations db /\ step db a = db
  \/ exists r now w, r ∈ queued_fifo db /\ evaluations db !! e_id r = Some r
       /\ e_status r = E_QUEUED /\ row_change r (claimed now w r)
       /\ evaluations (step db a) = <[e_id r := claimed now w r]> (evaluations db).
Proof.
  intros Hwf Ha. destruct a as [|now w p mw mh l| | | | | | | | |]; try done.
  destruct (step_claim now w p mw mh l db Hwf) as (o & db' & Ho & E & Hn & Hs).
  unfold step. rewrite E. cbn [snd]. destruct o as [r|]; [|rewrite Hn by done; by left].
  right. destruct (Hs r eq_refl) as [Hw _]. pose proof (claim_outcome_queued _ _ _ _ _ _ Ho) as Hr.
  exists r, now, w. apply elem_of_queued_fifo in Hr as Hr'. destruct Hr' as [[k Hk] Hq].
  destruct Hwf as [Hrows _]. destruct (Hrows k r Hk) as (<- & _).
  split_and!; [done..|by constructor|apply Hw].
Qed.

Lemma step_evolve a db :
  queue_wf db -> rows_evolve (evaluations db) (evaluations (step db a)).
Proof.
  intros Hwf. destruct (is_claim a) eqn:Ha; [|by apply step_quiet].
  destruct (step_claim_rows a db Hwf Ha) as [[-> _]|(r & now & w & _ & Hk & _ & Hc & ->)].
  - apply rows_evolve_refl.
  - by eapply rows_evolve_insert.
Qed.

Lemma step_sched a db :
  queue_wf db ->
  forall s, scheduler_state (step db a) = Some s -> 0 <= sch_light_bypass_count s.
Proof.
  intros Hwf s Hs. destruct (is_claim a) eqn:Ha; [|by eapply step_quiet].
  destruct a as [|now w p mw mh l| | | | | | | | |]; try done.
  destruct (step_claim now w p mw mh l db Hwf) as (o & db' & Ho & E & Hn & Hr).
  unfold step in Hs. rewrite E in Hs. cbn [snd] in Hs. destruct o as [r|].
  - destruct (Hr r eq_refl) as [_ [(s' & Hs' & ?) _]]. congruence.
  - rewrite Hn in Hs by done. by apply Hwf.
Qed.

Lemma step_wf a db : queue_wf db -> queue_wf (step db a).
Proof.
  intros Hwf. split; [|by apply step_sched].
  eapply rows_evolve_wf; [by apply step_evolve|apply Hwf].
Qed.

Lemma steps_wf l db : queue_wf db -> queue_wf (steps db l).
Proof. revert db. induction l as [|a l IH]; intros db Hwf; [done|]. by apply IH, step_wf. Qed.
End Transactions.

(** A finished row survives a transaction unchanged. *)
Definition finished (r : Evaluation) : Prop :=
  e_status r = E_SUCCEEDED \/ e_status r = E_FAILED.

Lemma step_keeps_finished `{PyRepr} a db id r :
  queue_wf db -> evaluations db !! id = Some r -> finished r ->
  evaluations (step db a) !! id = Some r.
Proof.
  intros Hwf Hk Hst. pose proof (step_evolve a db Hwf id) as Hev. rewrite Hk in Hev.
  destruct (evaluations (step db a) !! id) as [r'|]; [|done].
  destruct Hev as [->|Hc]; [done|]. destruct Hc; destruct Hst; congruence.
Qed.
