(* ===== verification/EvaluationQueueSpec.v ===== *)
(** The properties of the evaluation queue: the job lifecycle it implements, its
    concurrency bounds, its claim policy with the bounded bypass, queue
    positions, stale-row recovery and draining. *)
From Stdlib Require Import ZArith Lia String.
From stdpp Require Import prelude strings gmap sorting.
From S2P Require Import Prelude PyFloat PyStr Domain Database Ownership EvaluationQueue.
From S2P Require Import EvaluationQueueFacts.
Import EvaluationRepository.

(** * The lifecycle of a job

    The contract of the queue, without columns or queries: a job waits, is
    owned by one worker while it runs, and ends scored or failed; every claim
    is one more attempt. *)
Inductive Phase :=
| Waiting (attempts : Z)
| Owned (worker : pystr) (attempts : Z)
| Scored (score : Z) (attempts : Z)
| Failed (attempts : Z).

Inductive lifecycle : Phase -> Phase -> Prop :=
| lc_claim n w : lifecycle (Waiting n) (Owned w (n + 1))
| lc_release w n : lifecycle (Owned w n) (Waiting n)
| lc_succeed w n s : 0 <= s <= 100 -> lifecycle (Owned w n) (Scored s n)
| lc_fail w n : lifecycle (Owned w n) (Failed n).

Definition phase_of (r : Evaluation) : option Phase :=
  let n := e_attempt_count r in
  match e_status r with
  | E_QUEUED => Some (Waiting n)
  | E_RUNNING => (fun w => Owned w n) <$> e_worker_id r
  | E_SUCCEEDED => (fun s => Scored s n) <$> e_score r
  | E_FAILED => Some (Failed n)
  end.

(** The phase of the job stored under an identifier. *)
Definition job_phase (db : Db) (id : uuid) : option Phase := evaluations db !! id ≫= phase_of.

Lemma phase_defined k r : row_wf k r -> is_Some (phase_of r).
Proof.
  intros (_ & _ & Hcol). unfold status_columns, phase_of in *. destruct (e_status r).
  - done.
  - destruct Hcol as ([w ->] & _). done.
  - destruct Hcol as (_ & [s ->] & _). done.
  - done.
Qed.

Lemma row_change_phase k r r' p p' :
  row_wf k r -> row_change r r' -> phase_of r = Some p -> phase_of r' = Some p' ->
  p' = p \/ lifecycle p p'.
Proof.
  intros (_ & Hck & Hcol) Hc. destruct Hc as [now w r Hst | r r' Hst _ Hatt Hck' Hcol' Hrun].
  - unfold phase_of. rewrite Hst. cbn. intros [= <-] [= <-]. right. constructor.
  - unfold phase_of at 1. rewrite Hst. destruct (e_worker_id r) as [w|] eqn:Hw; [|done].
    cbn. intros [= <-]. unfold phase_of, status_columns in *. rewrite Hatt.
    destruct (e_status r') eqn:Hst'.
    + intros [= <-]. right. constructor.
    + destruct (Hrun eq_refl) as [-> _]. cbn. intros [= <-]. by left.
    + destruct Hcol' as (_ & [s Hs] & _). rewrite Hs. cbn. intros [= <-]. right.
      constructor. unfold evaluation_check in Hck'. rewrite Hs in Hck'. zify_bool. lia.
    + intros [= <-]. right. constructor.
Qed.

Section Lifecycle.
Context `{PyRepr}.

(** C3 The queue implements the job lifecycle: in every transaction (a
    creation, a claim, a deferral, a retry, a completion, a recovery, an
    observability write, committed or rolled back) each stored job keeps its
    phase or takes one step of the lifecycle, and a job that appears is
    waiting with no attempts; in particular no job disappears. *)
Theorem step_refines_lifecycle (a : Action) (db : Db) (id : uuid) :
  queue_wf db ->
  match job_phase db id, job_phase (step db a) id with
  | Some p, Some p' => p' = p \/ lifecycle p p'
  | None, Some p' => p' = Waiting 0
  | None, None => evaluations (step db a) !! id = None
  | Some _, None => False
  end.
Proof.
  intros Hwf. pose proof (step_evolve a db Hwf id) as Hev.
  pose proof (step_wf a db Hwf) as [Hrows' _]. destruct Hwf as [Hrows _].
  unfold job_phase. destruct (evaluations db !! id) as [r|] eqn:Hk; cbn.
  - destruct (evaluations (step db a) !! id) as [r'|] eqn:Hk'; [|done]. cbn.
    destruct (phase_defined id r (Hrows id r Hk)) as [p Hp].
    destruct (phase_defined id r' (Hrows' id r' Hk')) as [p' Hp'].
    rewrite Hp, Hp'. destruct Hev as [->|Hc]; [left; congruence|].
    by eapply row_change_phase; [apply Hrows|..].
  - destruct (evaluations (step db a) !! id) as [r'|] eqn:Hk'; [|done]. cbn.
    destruct Hev as (_ & Hq & Ha). unfold phase_of. by rewrite Hq, Ha.
Qed.

(** A finished evaluation is final: once a job has succeeded or failed, no
    sequence of transactions changes any column of its row. *)
Theorem finished_rows_are_final (l : list Action) (db : Db) (id : uuid) (r : Evaluation) :
  queue_wf db -> evaluations db !! id = Some r ->
  e_status r = E_SUCCEEDED \/ e_status r = E_FAILED ->
  evaluations (steps db l) !! id = Some r.
Proof.
  revert db. induction l as [|a l IH]; intros db Hwf Hk Hst; [done|].
  apply IH; [by apply step_wf| |done]. by apply step_keeps_finished.
Qed.

(** Only the owner completes: a deferral, a retry release, a success, a
    failure or an ownership record by a worker that does not own the job, or
    of a job that is not running, returns nothing and changes nothing. *)
Theorem stale_completion_is_noop (a : Action) (id : uuid) (w : pystr) (db : Db) :
  match a with
  | ADefer i w' _ _ _ | ARelease i w' _ _ | ASucceed _ i _ _ w' | AFail _ i _ _ w'
  | ABegin i w' _ | AFinish _ i _ _ w' _ => i = id /\ w' = w
  | _ => False
  end ->
  (forall r, evaluations db !! id = Some r -> ~ (e_status r = E_RUNNING /\ e_worker_id r = Some w)) ->
  perform a db = (Ok [], db).
Proof.
  intros Ha Hno.
  assert (forall f, update_owned id w f db = (Ok None, db)) as Hnone.
  { intros f. destruct (update_owned_run id w f db)
      as [(r & Hk & Hst & Hw & _)|[[e E]|[E _]]]; [naive_solver| |done].
    unfold update_owned, get, gets_st in E |- *. rewrite run_bind in E |- *.
    destruct (evaluations db !! id) as [r|] eqn:Hk; [|done].
    destruct (has_status E_RUNNING r) eqn:Hs; [|done]. apply has_status_true in Hs.
    cbn [andb]. case_bool_decide; [naive_solver|done]. }
  destruct a; try done; destruct Ha as [-> ->]; cbn [perform]; rewrite run_bind;
    [unfold defer_escalation|unfold release_for_retry|unfold mark_succeeded
    |unfold finish_at_stage, mark_succeeded; rewrite run_bind
    |unfold mark_failed|unfold begin_execution_attempt]; by rewrite Hnone.
Qed.
End Lifecycle.

(** * Concurrency bounds *)

(** Every claim of the trace runs with at most [N] workers and [H] heavy slots
    after the clamping [claim_next] applies. *)
Definition claims_within (N Hv : Z) (a : Action) : Prop :=
  match a with
  | AClaim _ _ _ mw mh _ => worker_cap mw <= N /\ heavy_cap mw mh <= Hv
  | _ => True
  end.

Lemma quiet_counts db db' :
  quiet db db' ->
  count_status E_RUNNING db' <= count_status E_RUNNING db
  /\ count_running_heavy db' <= count_running_heavy db.
Proof.
  intros (_ & Hruns & _). split; apply countb_mono; intros k r' Hk Hf.
  - apply has_status_true in Hf. destruct (Hruns k r' Hk Hf) as (r & Hr & Hst & _).
    exists r. by rewrite has_status_true.
  - unfold running_heavy_row in Hf. zify_bool. destruct Hf as [Hf Hh].
    apply has_status_true in Hf. apply is_heavy_true in Hh.
    destruct (Hruns k r' Hk Hf) as (r & Hr & Hst & Hcl). exists r. split; [done|].
    unfold running_heavy_row. zify_bool. rewrite has_status_true, is_heavy_true. split; congruence.
Qed.

Lemma claim_counts now w db r t :
  evaluations db !! e_id r = Some r -> e_status r = E_QUEUED ->
  t = <[e_id r := claimed now w r]> (evaluations db) ->
  countb (has_status E_RUNNING) t = count_status E_RUNNING db + 1
  /\ countb running_heavy_row t = count_running_heavy db + b2z (is_heavy r).
Proof.
  intros Hk Hq ->. unfold count_status, count_running_heavy.
  rewrite !(countb_insert _ _ _ r) by done.
  assert (has_status E_RUNNING r = false) as H1 by (rewrite has_status_false; congruence).
  unfold running_heavy_row. rewrite H1.
  change (has_status E_RUNNING (claimed now w r)) with true.
  change (is_heavy (claimed now w r)) with (is_heavy r).
  cbn [andb b2z]. split; lia.
Qed.

Section Bounds.
Context `{PyRepr}.

Lemma step_bounds N Hv a db :
  queue_wf db -> claims_within N Hv a ->
  count_status E_RUNNING db <= N -> count_running_heavy db <= Hv ->
  count_status E_RUNNING (step db a) <= N /\ count_running_heavy (step db a) <= Hv.
Proof.
  intros Hwf Hin HN HH. destruct (is_claim a) eqn:Ha.
  2: { pose proof (quiet_counts _ _ (step_quiet a db Hwf Ha)). lia. }
  destruct a as [|now w p mw mh l| | | | | | | | |]; try done. destruct Hin as [Hin1 Hin2].
  destruct (step_claim now w p mw mh l db Hwf) as (o & db' & Ho & E & Hn & Hs).
  unfold step. rewrite E. cbn [snd]. destruct o as [r|]; [|by rewrite Hn].
  destruct (Hs r eq_refl) as [(_ & _ & _ & _ & _ & _ & Hev) _].
  pose proof (claim_outcome_queued _ _ _ _ _ _ Ho) as Hr.
  apply elem_of_queued_fifo in Hr as [[k Hk] Hq].
  pose proof Hwf as [Hrows _]. assert (e_id r = k) as <- by (by apply Hrows).
  destruct (claim_counts now w db r _ Hk Hq Hev) as [Hc1 Hc2].
  unfold count_status at 1, count_running_heavy at 1. rewrite Hc1, Hc2. clear Hwf Hs Hrows.
  inversion Ho as [| |? rest Hcap Hqq Hfree|h ? rest Hcap Hqq Hh Hfull Hp Hu Hl|]; subst.
  - unfold b2z. destruct (is_heavy r) eqn:Hhv; [|lia].
    apply is_heavy_true in Hhv. specialize (Hfree Hhv). lia.
  - assert (is_heavy r = false) as -> by (rewrite is_heavy_false; congruence). cbn. lia.
Qed.

(** C6 Bounded concurrency: whatever the interleaving of transactions of any
    number of workers and API processes, as long as every claim uses at most
    [N] workers and [H] heavy slots, never more than [N] evaluations run at
    once and never more than [H] HEAVY ones. *)
Theorem concurrency_bounded (l : list Action) (db : Db) (N Hv : Z) :
  queue_wf db -> Forall (claims_within N Hv) l ->
  count_status E_RUNNING db <= N -> count_running_heavy db <= Hv ->
  count_status E_RUNNING (steps db l) <= N /\ count_running_heavy (steps db l) <= Hv.
Proof.
  revert db. induction l as [|a l IH]; intros db Hwf Hall HN HH; [done|].
  apply Forall_cons in Hall as [Ha Hall].
  destruct (step_bounds N Hv a db Hwf Ha HN HH). apply IH; try done. by apply step_wf.
Qed.
End Bounds.

(** * The bounded bypass *)

Definition head_heavy (h : uuid) (db : Db) : Prop :=
  exists r rest, queued_fifo db = r :: rest /\ e_id r = h /\ e_workload_class r = W_HEAVY.

Definition limit_within (L : Z) (a : Action) : Prop :=
  match a with AClaim _ _ _ _ _ limit => limit <= L | _ => True end.

Section Bypass.
Context `{PyRepr}.

(** How many claims of the trace took another job than [h]. *)
Fixpoint passed_over (h : uuid) (db : Db) (l : list Action) : Z :=
  match l with
  | [] => 0
  | a :: l' =>
      (if is_claim a
       then zlen (List.filter (fun r => negb (bool_decide (e_id r = h))) (fst (run_action a db)))
       else 0)
      + passed_over h (step db a) l'
  end.

(** [h] is the HEAVY head of the queue before every transaction of the trace. *)
Fixpoint stays_head (h : uuid) (db : Db) (l : list Action) : Prop :=
  match l with
  | [] => True
  | a :: l' => head_heavy h db /\ stays_head h (step db a) l'
  end.

Lemma claim_pays h a db L :
  queue_wf db -> head_heavy h db -> is_claim a = true -> limit_within L a ->
  let n := zlen (List.filter (fun r => negb (bool_decide (e_id r = h))) (fst (run_action a db))) in
  n = 1 /\ bypasses_used h (step db a) = bypasses_used h db + 1 /\ bypasses_used h db < Z.max 0 L
  \/ n = 0 /\ (step db a = db \/ ~ head_heavy h (step db a)).
Proof.
  intros Hwf (hr & rest0 & Hq & <- & Hheavy) Ha HL. destruct a as [|now w p mw mh lim| | | | | | | | |]; try done.
  destruct (step_claim now w p mw mh lim db Hwf) as (o & db' & Ho & E & Hn & Hs).
  unfold step. rewrite E. cbn [fst snd]. destruct o as [r|]; cycle 1.
  { right. rewrite Hn by done. auto. }
  destruct (Hs r eq_refl) as [(_ & _ & _ & _ & _ & _ & Hev) [_ Hacc]].
  specialize (Hacc r eq_refl hr rest0 Hq).
  assert (forall x, x ∈ queued_fifo db -> evaluations db !! e_id x = Some x) as Hid.
  { intros x [[k Hk] _]%elem_of_queued_fifo. destruct Hwf as [Hrows _].
    by destruct (Hrows k x Hk) as (-> & _). }
  change (option_list (claimed now w <$> Some r)) with [claimed now w r]. cbn [List.filter].
  change (e_id (claimed now w r)) with (e_id r).
  case_bool_decide as Hid'; cbn [negb].
  - right. split; [done|]. right. intros (x & rx & Hqx & Hidx & _).
    assert (x ∈ queued_fifo db') as [[k Hk] Hxq]%elem_of_queued_fifo by (rewrite Hqx; left).
    rewrite Hev in Hk. destruct (decide (k = e_id r)) as [->|Hne].
    + rewrite lookup_insert_eq in Hk. simplify_eq.
    + rewrite lookup_insert_ne in Hk by done. destruct Hwf as [Hrows _].
      destruct (Hrows k x Hk) as (<- & _). congruence.
  - left. split; [done|]. split; [by apply Hacc|].
    inversion Ho as [| |? rest Hcap Hqq Hfree|h' ? rest Hcap Hqq Hh Hfull Hp Hu Hl|]; subst.
    + rewrite Hq in Hqq. simplify_eq.
    + rewrite Hq in Hqq. simplify_eq. cbn in HL. lia.
Qed.

Lemma passed_over_bound h l L : forall db,
  queue_wf db -> Forall (limit_within L) l -> stays_head h db l ->
  passed_over h db l <= Z.max 0 (Z.max 0 L - bypasses_used h db).
Proof.
  induction l as [|a l IH]; intros db Hwf Hall Hhead; cbn [passed_over]; [lia|].
  apply Forall_cons in Hall as [HL Hall]. destruct Hhead as [Hh Hhead].
  specialize (IH (step db a) (step_wf a db Hwf) Hall Hhead).
  destruct (is_claim a) eqn:Ha.
  - destruct (claim_pays h a db L Hwf Hh Ha HL) as [(-> & Hused & Hlt)|(-> & [Heq|Hno])].
    + rewrite Hused in IH. lia.
    + rewrite Heq in IH |- *. lia.
    + destruct l as [|a' l]; [cbn; lia|]. by destruct Hhead as [Hh' _].
  - destruct (step_quiet a db Hwf Ha) as (_ & _ & _ & Hused). rewrite Hused in IH. lia.
Qed.

(** C5 The bypass is bounded: while one HEAVY job stays at the head of the
    queue, however many claims, completions, recoveries and submissions
    happen meanwhile, at most [light_bypass_limit] other jobs are claimed
    before it. *)
Theorem bypass_bounded (h : uuid) (l : list Action) (L : Z) (db : Db) :
  queue_wf db -> 0 <= L -> Forall (limit_within L) l -> stays_head h db l ->
  passed_over h db l <= L.
Proof.
  intros Hwf HL Hall Hhead. pose proof (passed_over_bound h l L db Hwf Hall Hhead).
  enough (0 <= bypasses_used h db) by lia.
  unfold bypasses_used. destruct (scheduler_state db) as [s|] eqn:Hs; [|lia].
  destruct Hwf as [_ Hsched]. specialize (Hsched s Hs). case_bool_decide; lia.
Qed.

(** C4 The claim policy: a claim always returns; below the worker cap it takes
    the head of the FIFO queue, or, when the head is a HEAVY job without a
    free heavy slot, under the bounded policy and with bypasses left, its
    immediate successor when that is LIGHT, and nothing otherwise; the row it
    takes becomes running under the claimer with one more attempt and a fresh
    start time, and no other row and no other table changes. *)
Theorem claim_next_policy now w policy mw mh limit (db : Db) :
  queue_wf db ->
  exists o db',
    claim_next now w policy mw mh limit db = (Ok (claimed now w <$> o), db')
    /\ claim_outcome policy mw mh limit db o
    /\ claim_writes now w db o db'.
Proof.
  intros Hwf. destruct (claim_next_run now w policy mw mh limit db Hwf) as (o & db' & ? & ? & ? & _).
  eauto.
Qed.
End Bypass.

(** * Queue order *)

(** "queued before", the order [queue_position] counts in. *)
Definition before (a b : Evaluation) : bool :=
  (e_created_at a <? e_created_at b)
  || ((e_created_at a =? e_created_at b) && (e_id a <? e_id b)).

Lemma before_le a b : created_le e_created_at e_id a b -> e_id a <> e_id b -> before a b = true.
Proof. unfold created_le, before. zify_bool. lia. Qed.

Lemma not_before a b : created_le e_created_at e_id a b -> before b a = false.
Proof. unfold created_le, before. intros H. apply not_true_iff_false. zify_bool. lia. Qed.

Lemma queued_fifo_ids db :
  queue_wf db -> NoDup (e_id <$> queued_fifo db).
Proof.
  intros [Hrows _]. unfold queued_fifo. rewrite order_by_created_perm.
  apply rows_where_ids_NoDup. intros k r Hk. by apply Hrows.
Qed.

(** In a sorted list without repeated identifiers the elements before the
    [i]-th are the [i] first ones. *)
Lemma count_before l i r :
  StronglySorted (created_le e_created_at e_id) l -> NoDup (e_id <$> l) -> l !! i = Some r ->
  length (List.filter (fun x => before x r) l) = i.
Proof.
  intros Hs Hnd Hi. pose proof (take_drop_middle l i r Hi) as Hl. rewrite <-Hl in Hs, Hnd |- *.
  assert (i <= length l)%nat as Hlen by (apply lookup_lt_Some in Hi; lia).
  rewrite fmap_app, fmap_cons in Hnd. apply NoDup_app in Hnd as (_ & Hdis & _).
  apply StronglySorted_app in Hs as (Hle & _ & Hr).
  apply StronglySorted_cons in Hr as (Hr & _).
  rewrite List.filter_app. cbn [List.filter].
  rewrite (filterb_all _ (take i l)), (filterb_none _ (drop (S i) l)).
  - assert (before r r = false) as -> by (apply not_before; right; lia).
    rewrite app_nil_r, length_take. lia.
  - intros x Hx. apply not_before. by eapply Forall_forall in Hr.
  - intros x Hx. apply before_le; [apply Hle; [done|left]|].
    intros Heq. apply (Hdis (e_id x)); [by apply list_elem_of_fmap_2|].
    rewrite Heq. left.
Qed.

(** The published position is exact at its instant: the job at place [i] of
    the FIFO queue is told that [i] jobs are ahead of it; a job that is not
    queued, or does not exist, has no position; asking changes nothing. *)
Theorem queue_position_is_index (db : Db) (id : uuid) :
  queue_wf db ->
  exists pos, queue_position id db = (Ok pos, db)
  /\ (forall i r, queued_fifo db !! i = Some r -> e_id r = id -> pos = Some (Z.of_nat i))
  /\ ((forall r, r ∈ queued_fifo db -> e_id r <> id) -> pos = None).
Proof.
  intros Hwf. unfold queue_position, get, gets_st. rewrite run_bind.
  assert (forall i r, queued_fifo db !! i = Some r -> e_id r = id ->
    evaluations db !! id = Some r /\ e_status r = E_QUEUED) as Hin.
  { intros i r Hi <-. apply list_elem_of_lookup_2, elem_of_queued_fifo in Hi as [[k Hk] Hq].
    destruct Hwf as [Hrows _]. by destruct (Hrows k r Hk) as (-> & _). }
  destruct (evaluations db !! id) as [row|] eqn:Hk; cycle 1.
  { exists None. split; [done|]. split; [|done]. intros i r Hi Hid. by destruct (Hin i r Hi Hid). }
  destruct (has_status E_QUEUED row) eqn:Hst; cbn [negb]; cycle 1.
  { exists None. split; [done|]. split; [|done]. intros i r Hi Hid.
    apply has_status_false in Hst. by destruct (Hin i r Hi Hid) as [[= ->] ?]. }
  eexists. split; [done|]. split.
  - intros i r Hi Hid. destruct (Hin i r Hi Hid) as [[= ->] _]. f_equal.
    rewrite <-zlen_rows_where. unfold zlen. f_equal.
    rewrite <-(count_before (queued_fifo db) i r); [| | by apply queued_fifo_ids | done].
    2: { apply order_by_created_sorted. }
    apply Permutation_length. unfold queued_fifo. rewrite order_by_created_perm.
    unfold rows_where. by rewrite filterb_andb.
  - intros Hno. destruct Hwf as [Hrows _]. apply has_status_true in Hst.
    destruct (Hno row); [|by apply Hrows]. apply elem_of_queued_fifo. eauto.
Qed.

(** * Recovery *)

Section RecoverySpec.
Context `{PyRepr} (os_of : uuid -> OsView) (now : datetime).

(** Recovery settles every stale row and touches no other: a row running
    since before the threshold loses its owner and, keeping its attempts,
    fails when its execution survived the containment or its attempts are
    used up, and is queued again otherwise; every other row is unchanged. *)
Theorem recover_stale_settles stale_before max_attempts (db : Db) :
  queue_wf db ->
  exists rows db', recover_stale_running os_of now stale_before max_attempts db = (Ok rows, db')
  /\ forall k r, evaluations db !! k = Some r -> exists r',
     evaluations db' !! k = Some r'
     /\ if is_stale stale_before r then
          r' ∈ rows /\ e_worker_id r' = None /\ e_attempt_count r' = e_attempt_count r
          /\ e_status r' = (if nonempty (survivors os_of r) || (max_attempts <=? e_attempt_count r)
                            then E_FAILED else E_QUEUED)
        else r' = r.
Proof.
  intros Hwf. destruct (recover_stale_run os_of now stale_before max_attempts db Hwf) as [_ E].
  eexists _, _. split; [exact E|]. intros k r Hk. eexists.
  split; [exact (recover_stale_lookup _ _ _ _ _ _ _ Hwf Hk)|].
  destruct (is_stale stale_before r) eqn:Hst; [|done].
  destruct (recover_row_cases os_of now max_attempts r) as (_ & Ha & _ & _ & _ & Hw & Hout).
  split_and!; try done.
  - apply list_elem_of_fmap_2, elem_of_rows_where. eauto.
  - destruct (nonempty _ || _); apply Hout.
Qed.

(** C7 Recovery never starts a duplicate execution: when a stale row is queued
    again although the operating-system process its attempt recorded was
    alive, that process and every descendant of it are dead by then. *)
Theorem requeued_execution_is_dead stale_before max_attempts (db db' : Db) rows k r r' a p :
  queue_wf db ->
  recover_stale_running os_of now stale_before max_attempts db = (Ok rows, db') ->
  evaluations db !! k = Some r -> e_status r = E_RUNNING ->
  evaluations db' !! k = Some r' -> e_status r' = E_QUEUED ->
  from_metadata (e_result_metadata r) = Some a -> at_root_pid a = Some p -> 0 < p ->
  alive_before (os_of k) p = true ->
  Forall (fun q => pid_alive (alive_after (os_of k)) (Some q) = false)
    (p :: descendants (os_of k) p).
Proof.
  intros Hwf Hrun Hk Hst Hk' Hst' Ha Hp Hpos Halive.
  destruct (recover_stale_run os_of now stale_before max_attempts db Hwf) as [_ E].
  rewrite E in Hrun. simplify_eq. cbn in Hk'.
  rewrite (recover_stale_lookup _ _ _ _ _ _ _ Hwf Hk) in Hk'. simplify_eq.
  destruct (is_stale stale_before r); [|congruence].
  destruct (recover_row_cases os_of now max_attempts r) as (_ & _ & _ & _ & _ & _ & Hout).
  destruct Hwf as [Hrows _]. destruct (Hrows k r Hk) as (Hid & _).
  apply (contain_attempt_covers _ a); [done..|].
  destruct (nonempty (survivors os_of r)) eqn:Hsv; [cbn in Hout; destruct Hout as [? _]; congruence|].
  unfold survivors in Hsv. rewrite Ha, Hid in Hsv. unfold orphan_suspected in Hsv. rewrite Hp in Hsv.
  assert (pid_alive (alive_before (os_of k)) (Some p) = true) as Hal.
  { cbn. destruct (Z.leb_spec p 0); [lia|done]. }
  rewrite Hal in Hsv. unfold contain_attempt in Hsv |- *. rewrite Hp, Hal in Hsv |- *.
  cbn [negb andb] in Hsv |- *. cbn [cr_still_alive cr_contained] in Hsv |- *.
  apply bool_decide_eq_true. by destruct (List.filter _ _).
Qed.
End RecoverySpec.

(** * Draining *)

Lemma StronglySorted_filterb {A} (R : relation A) f l :
  StronglySorted R l -> StronglySorted R (List.filter f l).
Proof.
  induction 1 as [|x l Hl IH Hx]; cbn; [constructor|]. destruct (f x); [|done].
  constructor; [done|]. apply Forall_forall. intros y [Hy _]%elem_of_filterb.
  by eapply Forall_forall in Hx.
Qed.

(** Changing the queued row [r] into a row that is not queued takes it, and
    only it, out of the queue. *)
Lemma queued_fifo_remove db db' r r' :
  queue_wf db -> evaluations db !! e_id r = Some r -> e_status r' <> E_QUEUED ->
  evaluations db' = <[e_id r := r']> (evaluations db) -> e_id r' = e_id r ->
  queued_fifo db' = List.filter (fun x => negb (bool_decide (e_id x = e_id r))) (queued_fifo db).
Proof.
  intros Hwf Hk Hq' Hev Hid'.
  assert (forall k x, evaluations db' !! k = Some x -> e_id x = k) as Hkey'.
  { intros k x Hx. rewrite Hev in Hx. destruct (decide (k = e_id r)) as [->|Hne].
    - rewrite lookup_insert_eq in Hx. by simplify_eq.
    - rewrite lookup_insert_ne in Hx by done. by apply Hwf. }
  assert (forall x, x ∈ queued_fifo db' <-> x ∈ queued_fifo db /\ e_id x <> e_id r) as Hmem.
  { intros x. rewrite !elem_of_queued_fifo, Hev. split.
    - intros [[k Hx] Hq]. destruct (decide (k = e_id r)) as [->|Hne].
      + rewrite lookup_insert_eq in Hx. by simplify_eq.
      + rewrite lookup_insert_ne in Hx by done. destruct (proj1 Hwf k x Hx) as (<- & _).
        split; [|done]. eauto.
    - intros [[[k Hx] Hq] Hne]. destruct (proj1 Hwf k x Hx) as (<- & _). split; [|done].
      exists (e_id x). by rewrite lookup_insert_ne. }
  assert (NoDup (e_id <$> queued_fifo db')) as Hnd'.
  { unfold queued_fifo. rewrite order_by_created_perm. by apply rows_where_ids_NoDup. }
  pose proof (queued_fifo_ids db Hwf) as Hnd.
  assert (forall x y, x ∈ queued_fifo db -> y ∈ queued_fifo db -> e_id x = e_id y -> x = y) as Hinj.
  { intros x y [[k Hx] _]%elem_of_queued_fifo [[k' Hy] _]%elem_of_queued_fifo Heq.
    destruct (proj1 Hwf k x Hx) as (<- & _). destruct (proj1 Hwf k' y Hy) as (<- & _). congruence. }
  apply (StronglySorted_unique_strong (created_le e_created_at e_id)).
  - intros x y [Hx _]%Hmem [Hy _]%elem_of_filterb Hxy Hyx. apply Hinj; [done..|].
    unfold created_le in *. lia.
  - apply order_by_created_sorted.
  - apply StronglySorted_filterb, order_by_created_sorted.
  - apply NoDup_Permutation; [by eapply NoDup_fmap_1| |].
    + apply (sublist_NoDup _ (queued_fifo db)); [by eapply NoDup_fmap_1|apply filterb_sublist].
    + intros x. rewrite Hmem, elem_of_filterb, negb_true_iff, bool_decide_eq_false. done.
Qed.

Section Drain.
Context `{PyRepr} (now : datetime) (w : pystr) (policy : string) (mw mh limit : Z)
        (score : Z) (meta : dict).

(** One round of a lone worker: a claim and the success of what it took. *)
Definition work_one (db : Db) : list uuid * Db :=
  let (rows, db1) := run_action (AClaim now w policy mw mh limit) db in
  (e_id <$> rows, foldl (fun d r => step d (ASucceed now (e_id r) score meta w)) db1 rows).

Fixpoint drain (rounds : nat) (db : Db) : list uuid * Db :=
  match rounds with
  | O => ([], db)
  | S n => let (ids, db1) := work_one db in
           let (ids', db2) := drain n db1 in (ids ++ ids', db2)
  end.

Definition succeeded (r : Evaluation) : Evaluation :=
  claimed now w r <| e_status := E_SUCCEEDED |> <| e_completed_at := Some now |>
    <| e_score := Some score |> <| e_result_metadata := meta |> <| e_failure_reason := None |>.

Lemma work_one_head db h rest :
  queue_wf db -> count_status E_RUNNING db = 0 -> 1 <= mh -> 0 <= score <= 100 ->
  queued_fifo db = h :: rest ->
  exists db', work_one db = ([e_id h], db') /\ queue_wf db' /\ count_status E_RUNNING db' = 0
  /\ queued_fifo db' = rest /\ evaluations db' = <[e_id h := succeeded h]> (evaluations db).
Proof.
  intros Hwf Hrun Hmh Hsc Hq. unfold work_one.
  destruct (step_claim now w policy mw mh limit db Hwf) as (o & db1 & Ho & E & Hn & Hs).
  pose proof (step_wf (AClaim now w policy mw mh limit) db Hwf) as Hwf1.
  unfold step in Hwf1. rewrite E in Hwf1 |- *. cbn [snd] in Hwf1.
  assert (count_running_heavy db = 0) as Hrh.
  { pose proof (countb_nonneg running_heavy_row (evaluations db)).
    enough (count_running_heavy db <= count_status E_RUNNING db)
      by (unfold count_running_heavy in *; lia).
    apply countb_le. intros k v _. unfold running_heavy_row. zify_bool. naive_solver. }
  assert (1 <= worker_cap mw) as Hwc by (unfold worker_cap; lia).
  assert (o = Some h) as ->.
  { assert (1 <= heavy_cap mw mh) by (unfold heavy_cap; lia). clear Hs Hn E.
    destruct Ho as [?|? Hq'|r ? ? Hq'|? ? ? ? Hq' ? ?|? ? ? Hq' ? ?]; try lia;
      rewrite Hq in Hq'; by simplify_eq. }
  destruct (Hs h eq_refl) as [(_ & _ & _ & _ & _ & _ & Hev) _].
  assert (h ∈ queued_fifo db) as [[k Hk] Hst]%elem_of_queued_fifo by (rewrite Hq; left).
  destruct (proj1 Hwf k h Hk) as (<- & Hck & Hcol).
  change (option_list (claimed now w <$> Some h)) with [claimed now w h]. cbn [foldl].
  change (e_id (claimed now w h)) with (e_id h).
  assert (evaluations (step db1 (ASucceed now (e_id h) score meta w))
          = <[e_id h := succeeded h]> (evaluations db)) as Hev2.
  { unfold step. rewrite (run_action_bind (mark_succeeded now (e_id h) score meta w) option_list)
      by done. unfold mark_succeeded.
    rewrite (update_owned_ok _ _ _ _ (claimed now w h)); [| |done..|].
    - cbn. rewrite Hev. by rewrite insert_insert_eq.
    - rewrite Hev. apply lookup_insert_eq.
    - unfold evaluation_check in Hck |- *. cbn. zify_bool. lia. }
  eexists. split; [done|]. split; [by apply step_wf|]. split; [|split; [|done]].
  - unfold count_status in Hrun |- *. rewrite Hev2, (countb_insert _ _ _ h) by done. cbn.
    rewrite Hrun. rewrite (proj2 (has_status_false _ _)) by congruence. done.
  - rewrite (queued_fifo_remove db _ h (succeeded h)); [|done..].
    pose proof (queued_fifo_ids db Hwf) as Hnd. rewrite Hq in Hnd |- *.
    apply NoDup_cons in Hnd as [Hno _]. cbn [List.filter].
    rewrite bool_decide_eq_true_2 by done. cbn [negb]. apply filterb_all.
    intros x Hx. apply negb_true_iff, bool_decide_eq_false. intros Heq. apply Hno.
    rewrite <-Heq. by apply list_elem_of_fmap_2.
Qed.

Lemma work_one_keeps_finished db id r :
  queue_wf db -> evaluations db !! id = Some r -> finished r ->
  queue_wf (snd (work_one db)) /\ evaluations (snd (work_one db)) !! id = Some r.
Proof.
  intros Hwf Hk Hf. unfold work_one.
  pose proof (step_wf (AClaim now w policy mw mh limit) db Hwf) as Hwf1.
  pose proof (step_keeps_finished (AClaim now w policy mw mh limit) db id r Hwf Hk Hf) as Hk1.
  unfold step in Hwf1, Hk1. destruct (run_action _ db) as [rows db1]. cbn [snd] in *.
  revert db1 Hwf1 Hk1. induction rows as [|x rows IH]; intros db1 Hwf1 Hk1; [done|].
  apply IH; [by apply step_wf|by apply step_keeps_finished].
Qed.

Lemma drain_keeps_finished n db id r :
  queue_wf db -> evaluations db !! id = Some r -> finished r ->
  evaluations (snd (drain n db)) !! id = Some r.
Proof.
  revert db. induction n as [|n IH]; intros db Hwf Hk Hf; [done|].
  cbn [drain]. destruct (work_one_keeps_finished db id r Hwf Hk Hf) as [Hwf1 Hk1].
  destruct (work_one db) as [ids db1]. specialize (IH db1 Hwf1 Hk1 Hf).
  by destruct (drain n db1).
Qed.

(** C8 A lone worker drains the queue in order: with nothing else running, as
    many rounds of claim and success as there are queued jobs take every
    queued job exactly once, in creation order, whatever their classes and
    the bypass limit, and leave the queue empty with each of them succeeded. *)
Theorem drain_in_fifo_order (db : Db) :
  queue_wf db -> count_status E_RUNNING db = 0 -> 1 <= mh -> 0 <= score <= 100 ->
  exists db', drain (length (queued_fifo db)) db = (e_id <$> queued_fifo db, db')
  /\ queued_fifo db' = [] /\ count_status E_RUNNING db' = 0
  /\ forall r, r ∈ queued_fifo db -> evaluations db' !! e_id r = Some (succeeded r).
Proof.
  intros Hwf Hrun Hmh Hsc. remember (queued_fifo db) as q eqn:Hq. symmetry in Hq.
  revert db Hwf Hrun Hq. induction q as [|h rest IH]; intros db Hwf Hrun Hq.
  { exists db. split_and!; try done. intros r Hr. by apply elem_of_nil in Hr. }
  destruct (work_one_head db h rest Hwf Hrun Hmh Hsc Hq) as (db1 & E & Hwf1 & Hrun1 & Hq1 & Hev1).
  destruct (IH db1 Hwf1 Hrun1 Hq1) as (db' & E' & Hq' & Hrun' & Hdone).
  exists db'. cbn [length drain]. rewrite E, E'. split_and!; [done..|].
  intros r [->|Hr]%elem_of_cons; [|by apply Hdone].
  assert (evaluations db1 !! e_id h = Some (succeeded h)) as Hfin
    by (rewrite Hev1; apply lookup_insert_eq).
  replace db' with (snd (drain (length rest) db1)) by (by rewrite E').
  apply drain_keeps_finished; [done..|by left].
Qed.
End Drain.

(** * A concrete queue

    Three submissions, evaluated as HEAVY, HEAVY and LIGHT; the first one is
    running on worker [w1]. *)
Module Sample.
#[local] Instance no_repr : PyRepr := fun _ => [].

Definition submission (id : uuid) : Submission :=
  mkSubmission id 1 2 S_SUBMITTED [] None None None 0 0 None.
Definition db0 : Db :=
  empty_db <| submissions := {[1 := submission 1; 2 := submission 2; 3 := submission 3]} |>.
Definition creates : list Action :=
  [ACreate 11 100 1 W_HEAVY M_LEGACY None 0; ACreate 12 101 2 W_HEAVY M_LEGACY None 0;
   ACreate 13 102 3 W_LIGHT M_LEGACY None 0].
Definition w1 : pystr := py "w1".
Definition w2 : pystr := py "w2".
Definition claim (w : pystr) : Action := AClaim 200 w "bounded_light_bypass" 2 1 2.
Definition queued : Db := steps db0 creates.
Definition running : Db := step queued (claim w1).
Definition idle : OsView := mkOsView (fun p => p =? 42) (fun _ => false) (fun _ => [43]) [42; 43] (fun _ => false).
Definition att : ExecutionAttempt :=
  mkAttempt (py "a") (py "e") w1 (py "cpu") (Some 42) None None (py "pid_tracking_only").
Definition owned : Db := step running (ABegin 11 w1 (to_metadata att)).

Lemma db0_wf : queue_wf db0.
Proof. split; [intros k r Hk; cbn in Hk; by rewrite lookup_empty in Hk|done]. Qed.
Lemma queued_wf : queue_wf queued.
Proof. apply steps_wf, db0_wf. Qed.
Lemma running_wf : queue_wf running.
Proof. apply step_wf, queued_wf. Qed.
Lemma owned_wf : queue_wf owned.
Proof. apply step_wf, running_wf. Qed.

Lemma step_refines_lifecycle_witness :
  job_phase queued 11 = Some (Waiting 0) /\ job_phase running 11 = Some (Owned w1 1)
  /\ (Owned w1 1 = Waiting 0 \/ lifecycle (Waiting 0) (Owned w1 1)).
Proof.
  assert (job_phase queued 11 = Some (Waiting 0)) as Hq by (vm_compute; reflexivity).
  assert (job_phase running 11 = Some (Owned w1 1)) as Hr by (vm_compute; reflexivity).
  pose proof (step_refines_lifecycle (claim w1) queued 11 queued_wf) as H.
  fold running in H. rewrite Hq, Hr in H. done.
Defined.

Definition done_db : Db := step running (ASucceed 300 11 77 [] w1).
Lemma finished_rows_are_final_witness :
  exists r, e_score r = Some 77
  /\ evaluations (steps done_db [AFail 400 11 (py "x") None w1; claim w2]) !! 11 = Some r.
Proof.
  assert (exists r, evaluations done_db !! 11 = Some r /\ e_status r = E_SUCCEEDED
                    /\ e_score r = Some 77) as (r & Hr & Hst & Hsc)
    by (eexists; split; [vm_compute; reflexivity|done]).
  exists r. split; [done|].
  apply (finished_rows_are_final [AFail 400 11 (py "x") None w1; claim w2] done_db 11 r).
  - apply step_wf, running_wf.
  - exact Hr.
  - by left.
Defined.

Lemma stale_completion_is_noop_witness :
  perform (ASucceed 300 11 77 [] w2) running = (Ok [], running).
Proof.
  apply (stale_completion_is_noop (ASucceed 300 11 77 [] w2) 11 w2 running); [done|].
  assert (exists r, evaluations running !! 11 = Some r /\ e_worker_id r = Some w1)
    as (r0 & Hr0 & Hw) by (eexists; split; [vm_compute; reflexivity|done]).
  intros r Hr [_ Hw2]. pose proof (eq_trans (eq_sym Hr) Hr0) as [= ->].
  rewrite Hw in Hw2. done.
Defined.

Lemma concurrency_bounded_witness :
  count_status E_RUNNING (steps running [claim w2; claim w2]) = 2
  /\ count_status E_RUNNING (steps running [claim w2; claim w2]) <= 2
     /\ count_running_heavy (steps running [claim w2; claim w2]) <= 1.
Proof.
  split; [vm_compute; reflexivity|].
  apply (concurrency_bounded [claim w2; claim w2] running 2 1).
  - apply running_wf.
  - repeat constructor; vm_compute; congruence.
  - vm_compute; congruence.
  - vm_compute; congruence.
Defined.

Lemma bypass_bounded_witness :
  passed_over 12 running [claim w2] = 1 /\ passed_over 12 running [claim w2] <= 2.
Proof.
  split; [vm_compute; reflexivity|].
  apply (bypass_bounded 12 [claim w2] 2 running).
  - apply running_wf.
  - lia.
  - repeat constructor. vm_compute; congruence.
  - split; [|done]. eexists _, _. split; [vm_compute; reflexivity|]. done.
Defined.

Lemma claim_next_policy_witness :
  exists o db', claim_next 250 w2 "bounded_light_bypass" 2 1 2 running = (Ok (claimed 250 w2 <$> o), db')
  /\ claim_outcome "bounded_light_bypass" 2 1 2 running o /\ claim_writes 250 w2 running o db'.
Proof. apply (claim_next_policy 250 w2 "bounded_light_bypass" 2 1 2 running running_wf). Defined.

Lemma queue_position_is_index_witness :
  exists pos, queue_position 13 running = (Ok pos, running)
  /\ (forall i r, queued_fifo running !! i = Some r -> e_id r = 13 -> pos = Some (Z.of_nat i))
  /\ ((forall r, r ∈ queued_fifo running -> e_id r <> 13) -> pos = None).
Proof. apply (queue_position_is_index running 13 running_wf). Defined.

Lemma recover_stale_settles_witness :
  exists rows db', recover_stale_running (fun _ => idle) 500 300 3 owned = (Ok rows, db')
  /\ forall k r, evaluations owned !! k = Some r -> exists r',
       evaluations db' !! k = Some r'
       /\ if is_stale 300 r then
            r' ∈ rows /\ e_worker_id r' = None /\ e_attempt_count r' = e_attempt_count r
            /\ e_status r' = (if nonempty (survivors (fun _ => idle) r) || (3 <=? e_attempt_count r)
                              then E_FAILED else E_QUEUED)
          else r' = r.
Proof. apply (recover_stale_settles (fun _ => idle) 500 300 3 owned owned_wf). Defined.

Lemma requeued_execution_is_dead_witness :
  Forall (fun q => pid_alive (alive_after idle) (Some q) = false) [42; 43].
Proof.
  eapply (requeued_execution_is_dead (fun _ => idle) 500 300 3 owned _ _ 11 _ _ att 42 owned_wf);
    try (vm_compute; reflexivity).
Defined.

Lemma drain_in_fifo_order_witness :
  exists db', drain 600 w1 "fifo" 1 1 0 90 [] (length (queued_fifo queued)) queued
              = (e_id <$> queued_fifo queued, db')
  /\ queued_fifo db' = [] /\ count_status E_RUNNING db' = 0
  /\ forall r, r ∈ queued_fifo queued -> evaluations db' !! e_id r = Some (succeeded 600 w1 90 [] r).
Proof.
  apply (drain_in_fifo_order 600 w1 "fifo" 1 1 0 90 [] queued queued_wf);
    [vm_compute; reflexivity|lia|lia].
Defined.

Example drained_ids :
  fst (drain 600 w1 "fifo" 1 1 0 90 [] 3 queued) = [11; 12; 13].
Proof. by vm_compute. Qed.
End Sample.
