(* ===== verification/Catalog.v ===== *)
(** The catalogue: hackathons and challenges, their repositories
    (src/challengeforge/persistence/repositories.py) and the services organizers
    and participants call (application/hackathons.py, application/challenges.py). *)
From Stdlib Require Import ZArith Lia String.
From stdpp Require Import prelude strings gmap sorting.
From S2P Require Import Prelude PyFloat PyStr Domain Database Json.

(** [ORDER BY created_at DESC]: ties in the order of the table. *)
Definition newest_first {V} (created : V -> datetime) (a b : V) : Prop := created b <= created a.
#[export] Instance newest_first_dec {V} (created : V -> datetime) a b :
  Decision (newest_first created a b).
Proof. unfold newest_first. apply _. Defined.

Module UserRepository.

(** [persistence/repositories.py:50-52 UserRepository.get] *)
Definition get (user_id : uuid) : M exn Db (option User) := gets_st (fun db => users db !! user_id).

Definition by_name (a b : User) : Prop := str_leb (u_display_name a) (u_display_name b) = true.
#[export] Instance by_name_dec a b : Decision (by_name a b).
Proof. unfold by_name. apply _. Defined.

(** [persistence/repositories.py:54-56 UserRepository.list_all] *)
Definition list_all : M exn Db (list User) :=
  gets_st (fun db => merge_sort by_name (map_to_list (users db)).*2).

End UserRepository.

Module HackathonRepository.

(** [persistence/repositories.py:63-65 HackathonRepository.get] *)
Definition get (hackathon_id : uuid) : M exn Db (option Hackathon) :=
  gets_st (fun db => hackathons db !! hackathon_id).

(** [persistence/repositories.py:67-72 HackathonRepository.list_visible] *)
Definition list_visible (include_unpublished : bool) : M exn Db (list Hackathon) :=
  gets_st (fun db =>
    merge_sort (newest_first h_created_at)
      (rows_where (fun h => include_unpublished || bool_decide (h_status h = H_PUBLISHED))
         (hackathons db))).

(** [persistence/repositories.py:74-89 HackathonRepository.add] *)
Definition add (fresh : uuid) (now : datetime) (title description : pystr) (organizer_id : uuid)
    : M exn Db Hackathon :=
  let row := mkHackathon fresh title description H_DRAFT organizer_id now now in
  insert_hackathon row ;;
  mret row.

(** [persistence/repositories.py:91-97 HackathonRepository.save_status] *)
Definition save_status (now : datetime) (hackathon_id : uuid) (status : HackathonStatus)
    : M exn Db Hackathon :=
  found ← get hackathon_id;
  match found with
  | None => raise AssertionError
  | Some row =>
      let row' := row <| h_status := status |> <| h_updated_at := now |> in
      update_row hackathons set_hackathons hackathon_id row' true "hackathons" ;;
      mret row'
  end.

End HackathonRepository.

Module ChallengeRepository.

(** [persistence/repositories.py:109-117 ChallengeRepository.get] *)
Definition get (challenge_id : uuid) : M exn Db (option Challenge) :=
  gets_st (fun db => challenges db !! challenge_id).

(** [persistence/repositories.py:119-135 ChallengeRepository.get_for_submission_acceptance]:
    the shared lock makes the row stable until the commit. *)
Definition get_for_submission_acceptance := get.

(** [persistence/repositories.py:137-147 ChallengeRepository.get_for_close]: the
    exclusive lock. *)
Definition get_for_close := get.

(** [persistence/repositories.py:149-156 ChallengeRepository.get_row] *)
Definition get_row := get.

(** [persistence/repositories.py:158-170 ChallengeRepository.list_for_hackathon] *)
Definition list_for_hackathon (hackathon_id : uuid) (include_unpublished : bool)
    : M exn Db (list Challenge) :=
  gets_st (fun db =>
    merge_sort (newest_first c_created_at)
      (rows_where (fun c => bool_decide (c_hackathon_id c = hackathon_id)
                            && (include_unpublished || bool_decide (c_status c = C_PUBLISHED)))
         (challenges db))).

Definition criterion_by_name (a b : EvaluationCriterion) : Prop :=
  str_leb (crit_name a) (crit_name b) = true.
#[export] Instance criterion_by_name_dec a b : Decision (criterion_by_name a b).
Proof. unfold criterion_by_name. apply _. Defined.

(** [persistence/repositories.py:172-209 ChallengeRepository.add]; the criteria
    come back sorted by name. *)
Definition add (fresh : uuid) (fresh_criteria : list uuid) (now : datetime) (hackathon_id : uuid)
    (title description constraints specification_body : pystr)
    (criteria : list (pystr * pystr * Z)) : M exn Db Challenge :=
  let rows := zip_with (fun id '(name, description_, weight) =>
                          mkCriterion id name description_ weight) fresh_criteria criteria in
  let row := mkChallenge fresh hackathon_id title description constraints C_DRAFT
               (mkSpec specification_body now now) (merge_sort criterion_by_name rows) now now in
  insert_challenge row ;;
  mret row.

(** [persistence/repositories.py:211-217 ChallengeRepository.save_status] *)
Definition save_status (now : datetime) (challenge_id : uuid) (status : ChallengeStatus)
    : M exn Db Challenge :=
  found ← get_row challenge_id;
  match found with
  | None => raise AssertionError
  | Some row =>
      let row' := row <| c_status := status |> <| c_updated_at := now |> in
      update_row challenges set_challenges challenge_id row' true "challenges" ;;
      mret row'
  end.

End ChallengeRepository.

Definition not_found {S A} (m : string) : M exn S A := raise (DomainExn NotFoundError m).
Definition denied (m : string) : exn := DomainExn PermissionDenied m.
Definition invalid (m : string) : exn := DomainExn ValidationFailed m.

(** [if row is None: raise NotFoundError(m)] *)
Definition found_or {S A} (o : option A) (m : string) : M exn S A :=
  match o with Some a => mret a | None => not_found m end.

Module HackathonService.

(** [application/hackathons.py:14-15 HackathonService.list_hackathons] *)
Definition list_hackathons (actor : CurrentUser) : M exn Session (list Hackathon) :=
  in_db (HackathonRepository.list_visible (is_organizer actor)).

(** [application/hackathons.py:17-26 HackathonService.get_hackathon] *)
Definition get_hackathon (actor : CurrentUser) (hackathon_id : uuid) : M exn Session Hackathon :=
  found ← in_db (HackathonRepository.get hackathon_id);
  hackathon ← found_or found "Hackathon not found.";
  if negb (bool_decide (h_status hackathon = H_PUBLISHED)) && negb (is_organizer actor)
  then not_found "Hackathon not found."
  else mret hackathon.

(** [application/hackathons.py:28-38 HackathonService.create_hackathon] *)
Definition create_hackathon (fresh : uuid) (now : datetime) (actor : CurrentUser)
    (title description : pystr) : M exn Session Hackathon :=
  require_organizer actor ;;
  title ← require_non_empty title "title";
  description ← require_non_empty description "description";
  hackathon ← in_db (HackathonRepository.add fresh now title description (cu_id actor));
  commit ;;
  mret hackathon.

(** [application/hackathons.py:40-55 HackathonService.publish_hackathon]; the row is
    read without a lock, and [others] commit between its checks and the write of
    its status. *)
Definition publish_hackathon (now : datetime) (others : Db -> Db) (actor : CurrentUser)
    (hackathon_id : uuid) : M exn Session Hackathon :=
  require_organizer actor ;;
  found ← in_db (HackathonRepository.get hackathon_id);
  hackathon ← found_or found "Hackathon not found.";
  guard_or (bool_decide (h_organizer_id hackathon = cu_id actor))
    (denied "Only the creating organizer may publish this hackathon.") ;;
  if bool_decide (h_status hackathon = H_PUBLISHED) then mret hackathon else
  guard_or (bool_decide (h_status hackathon = H_DRAFT))
    (invalid "Only draft hackathons can be published.") ;;
  others_commit others ;;
  published ← in_db (HackathonRepository.save_status now hackathon_id H_PUBLISHED);
  commit ;;
  mret published.

End HackathonService.

Module ChallengeService.

(** [application/challenges.py:14-24 ChallengeService.list_for_hackathon] *)
Definition list_for_hackathon (actor : CurrentUser) (hackathon_id : uuid)
    : M exn Session (list Challenge) :=
  found ← in_db (HackathonRepository.get hackathon_id);
  hackathon ← found_or found "Hackathon not found.";
  if negb (bool_decide (h_status hackathon = H_PUBLISHED)) && negb (is_organizer actor)
  then not_found "Hackathon not found."
  else in_db (ChallengeRepository.list_for_hackathon hackathon_id (is_organizer actor)).

(** [application/challenges.py:26-38 ChallengeService.get_challenge] *)
Definition get_challenge (actor : CurrentUser) (challenge_id : uuid) : M exn Session Challenge :=
  found ← in_db (ChallengeRepository.get challenge_id);
  challenge ← found_or found "Challenge not found.";
  hackathon ← in_db (HackathonRepository.get (c_hackathon_id challenge));
  let visible_to_participant :=
    match hackathon with
    | Some h => bool_decide (h_status h = H_PUBLISHED) && bool_decide (c_status challenge = C_PUBLISHED)
    | None => false
    end in
  if negb visible_to_participant && negb (is_organizer actor)
  then not_found "Challenge not found."
  else mret challenge.

(** The loop over the criteria of [create_challenge]. *)
Fixpoint parse_criteria (criteria : list (pystr * pystr * Z))
    : M exn Session (list (pystr * pystr * Z)) :=
  match criteria with
  | [] => mret []
  | (name, criterion_description, weight) :: rest =>
      guard_or (negb (weight <? 1)) (invalid "Evaluation criterion weight must be >= 1.") ;;
      name ← require_non_empty name "criterion name";
      criterion_description ← require_non_empty criterion_description "criterion description";
      parsed ← parse_criteria rest;
      mret ((name, criterion_description, weight) :: parsed)
  end.

(** [application/challenges.py:40-80 ChallengeService.create_challenge] *)
Definition create_challenge (fresh : uuid) (fresh_criteria : list uuid) (now : datetime)
    (actor : CurrentUser) (hackathon_id : uuid)
    (title description constraints specification_body : pystr)
    (criteria : list (pystr * pystr * Z)) : M exn Session Challenge :=
  require_organizer actor ;;
  found ← in_db (HackathonRepository.get hackathon_id);
  hackathon ← found_or found "Hackathon not found.";
  guard_or (bool_decide (h_organizer_id hackathon = cu_id actor))
    (denied "Only the creating organizer may add challenges.") ;;
  title ← require_non_empty title "title";
  description ← require_non_empty description "description";
  specification_body ← require_non_empty specification_body "specification";
  parsed ← parse_criteria criteria;
  challenge ← in_db (ChallengeRepository.add fresh fresh_criteria now hackathon_id title
                       description constraints specification_body parsed);
  commit ;;
  mret challenge.

(** [if hackathon is None or hackathon.organizer_id != actor.id: raise] *)
Definition owned_by (actor : CurrentUser) (hackathon : option Hackathon) : bool :=
  match hackathon with
  | Some h => bool_decide (h_organizer_id h = cu_id actor)
  | None => false
  end.

(** [application/challenges.py:82-102 ChallengeService.publish_challenge]; the row is
    read without a lock, and [others] commit between its checks and the write of
    its status. *)
Definition publish_challenge (now : datetime) (others : Db -> Db) (actor : CurrentUser)
    (challenge_id : uuid) : M exn Session Challenge :=
  require_organizer actor ;;
  found ← in_db (ChallengeRepository.get challenge_id);
  challenge ← found_or found "Challenge not found.";
  hackathon ← in_db (HackathonRepository.get (c_hackathon_id challenge));
  guard_or (owned_by actor hackathon)
    (denied "Only the creating organizer may publish this challenge.") ;;
  if bool_decide (c_status challenge = C_PUBLISHED) then mret challenge else
  guard_or (bool_decide (c_status challenge = C_DRAFT))
    (invalid "Only draft challenges can be published.") ;;
  guard_or (is_publishable challenge)
    (invalid "A challenge needs a specification and at least one evaluation criterion before publish.") ;;
  others_commit others ;;
  published ← in_db (ChallengeRepository.save_status now challenge_id C_PUBLISHED);
  commit ;;
  mret published.

(** [application/challenges.py:104-124 ChallengeService.close_challenge]; its first
    read locks the row, so that its status stays what was checked. *)
Definition close_challenge (now : datetime) (actor : CurrentUser) (challenge_id : uuid)
    : M exn Session Challenge :=
  require_organizer actor ;;
  found ← in_db (ChallengeRepository.get_for_close challenge_id);
  challenge ← found_or found "Challenge not found.";
  hackathon ← in_db (HackathonRepository.get (c_hackathon_id challenge));
  guard_or (owned_by actor hackathon)
    (denied "Only the creating organizer may close this challenge.") ;;
  if bool_decide (c_status challenge = C_CLOSED) then mret challenge else
  guard_or (bool_decide (c_status challenge = C_PUBLISHED))
    (invalid "Only published challenges can be closed.") ;;
  closed ← in_db (ChallengeRepository.save_status now challenge_id C_CLOSED);
  commit ;;
  mret closed.

Definition list_submissions_rows (challenge_id : uuid) : M exn Db (list Submission) :=
  gets_st (fun db =>
    merge_sort (newest_first s_created_at)
      (rows_where (fun s => bool_decide (s_challenge_id s = challenge_id)) (submissions db))).

(** [application/challenges.py:126-136 ChallengeService.list_submissions] *)
Definition list_submissions (actor : CurrentUser) (challenge_id : uuid)
    : M exn Session (list Submission) :=
  require_organizer actor ;;
  found ← in_db (ChallengeRepository.get challenge_id);
  challenge ← found_or found "Challenge not found.";
  hackathon ← in_db (HackathonRepository.get (c_hackathon_id challenge));
  guard_or (owned_by actor hackathon)
    (denied "Only the creating organizer may list these submissions.") ;;
  in_db (list_submissions_rows challenge_id).

End ChallengeService.

(** * Requests

    One call of a service, in a session of its own on the committed database;
    what it committed is what remains. *)
Definition serve {A} (c : M exn Session A) (db : Db) : result exn A * Db :=
  let (r, s) := c (begin db []) in (r, committed s).

(** A state-changing request on the catalogue. *)
Inductive CatalogRequest :=
| CreateHackathon (fresh : uuid) (now : datetime) (actor : CurrentUser) (title description : pystr)
| PublishHackathon (now : datetime) (actor : CurrentUser) (hackathon_id : uuid)
| CreateChallenge (fresh : uuid) (fresh_criteria : list uuid) (now : datetime) (actor : CurrentUser)
    (hackathon_id : uuid) (title description constraints specification : pystr)
    (criteria : list (pystr * pystr * Z))
| PublishChallenge (now : datetime) (actor : CurrentUser) (challenge_id : uuid)
| CloseChallenge (now : datetime) (actor : CurrentUser) (challenge_id : uuid).

(** The database a request leaves, [others] committing in the middle of a
    publication.  The other requests check columns that nothing changes, or hold
    the row they check. *)
Definition handle (others : Db -> Db) (q : CatalogRequest) : Db -> Db :=
  match q with
  | CreateHackathon f n a t d => fun db => snd (serve (HackathonService.create_hackathon f n a t d) db)
  | PublishHackathon n a h =>
      fun db => snd (serve (HackathonService.publish_hackathon n others a h) db)
  | CreateChallenge f fc n a h t d c s cr =>
      fun db => snd (serve (ChallengeService.create_challenge f fc n a h t d c s cr) db)
  | PublishChallenge n a c =>
      fun db => snd (serve (ChallengeService.publish_challenge n others a c) db)
  | CloseChallenge n a c => fun db => snd (serve (ChallengeService.close_challenge n a c) db)
  end.

Definition actor_of (q : CatalogRequest) : CurrentUser :=
  match q with
  | CreateHackathon _ _ a _ _ | PublishHackathon _ a _ | CreateChallenge _ _ _ a _ _ _ _ _ _
  | PublishChallenge _ a _ | CloseChallenge _ a _ => a
  end.
