(* ===== verification/CatalogSpec.v ===== *)
(** The properties of the catalogue: its lifecycle and authorization as a
    refinement of a small transition system, the publishability invariant, and
    what participants can see. *)
From Stdlib Require Import ZArith Lia String.
From stdpp Require Import prelude strings gmap sorting.
From S2P Require Import Prelude PyFloat PyStr Domain Database Json Catalog.

(** The contract: the only changes a caller [u] can make to the database [db],
    having checked the database [read].  The two differ only for a publication:
    its checks are made on the row it read, and the row it sets to published is
    the one it finds when it writes. *)
Inductive catalog_step (u : CurrentUser) (read db : Db) : Db -> Prop :=
| cs_hackathon h :
    is_organizer u = true -> h_organizer_id h = cu_id u -> h_status h = H_DRAFT ->
    blank (h_title h) = false -> blank (h_description h) = false ->
    hackathons db !! h_id h = None ->
    catalog_step u read db (set_hackathons (<[h_id h := h]> (hackathons db)) db)
| cs_publish_hackathon id h0 h now :
    is_organizer u = true -> hackathons read !! id = Some h0 -> h_organizer_id h0 = cu_id u ->
    h_status h0 = H_DRAFT -> hackathons db !! id = Some h ->
    catalog_step u read db (set_hackathons
      (<[id := h <| h_status := H_PUBLISHED |> <| h_updated_at := now |>]> (hackathons db)) db)
| cs_challenge c h :
    is_organizer u = true -> hackathons db !! c_hackathon_id c = Some h ->
    h_organizer_id h = cu_id u -> c_status c = C_DRAFT ->
    blank (spec_body (c_specification c)) = false ->
    forallb criterion_check (c_evaluation_criteria c) = true ->
    challenges db !! c_id c = None ->
    catalog_step u read db (set_challenges (<[c_id c := c]> (challenges db)) db)
| cs_publish_challenge id c0 c h now :
    is_organizer u = true -> challenges read !! id = Some c0 ->
    hackathons read !! c_hackathon_id c0 = Some h -> h_organizer_id h = cu_id u ->
    c_status c0 = C_DRAFT -> is_publishable c0 = true -> challenges db !! id = Some c ->
    catalog_step u read db (set_challenges
      (<[id := c <| c_status := C_PUBLISHED |> <| c_updated_at := now |>]> (challenges db)) db)
| cs_close_challenge id c h now :
    is_organizer u = true -> challenges db !! id = Some c ->
    hackathons db !! c_hackathon_id c = Some h -> h_organizer_id h = cu_id u ->
    c_status c = C_PUBLISHED ->
    catalog_step u read db (set_challenges
      (<[id := c <| c_status := C_CLOSED |> <| c_updated_at := now |>]> (challenges db)) db).

(** Running a service symbolically. *)
Ltac run_service :=
  unfold serve, begin, in_db, zoom, found_or, not_found, raise, guard_or, gets_st, get_st,
    modify_st, mret, M_ret, mbind, M_bind in *; cbn in *.

Lemma guard_run {S} b e (s : S) :
  guard_or (E := exn) b e s = if b then (Ok tt, s) else (Raise e, s).
Proof. by destruct b. Qed.

Lemma require_non_empty_run {S} v f (s : S) :
  require_non_empty v f s
  = if blank v then (Raise (DomainExn ValidationFailed (f +:+ " must not be empty.")), s)
    else (Ok (strip v), s).
Proof.
  unfold require_non_empty. rewrite strip_idemp_nonempty. by destruct (blank v).
Qed.

Lemma found_or_run {S A} (o : option A) m (s : S) :
  found_or o m s = match o with Some a => (Ok a, s) | None => (Raise (DomainExn NotFoundError m), s) end.
Proof. by destruct o. Qed.

(** Reads and the successful commit of a fresh session. *)
Lemma in_db_gets {A} (f : Db -> A) s : in_db (gets_st f) s = (Ok (f (working s)), s).
Proof. by destruct s. Qed.

Lemma commit_fresh s : commits s = [] -> commit s = (Ok tt, mkSession (working s) (working s) []).
Proof. apply run_commit_ok. Qed.

(** What a request that checked [read] leaves of [db]: the same database, or one
    step of the contract. *)
Definition lawful (u : CurrentUser) (read db db' : Db) : Prop :=
  db' = db \/ catalog_step u read db db'.

Section Effects.
Context (u : CurrentUser) (db : Db) (others : Db -> Db).

(** What a request leaves of the database it began with or, when others committed
    in its middle, of theirs. *)
Definition request_lawful (db' : Db) : Prop := lawful u db db db' \/ lawful u db (others db) db'.

Lemma create_hackathon_lawful fresh now t d :
  lawful u db db (snd (serve (HackathonService.create_hackathon fresh now u t d) db)).
Proof.
  unfold serve, HackathonService.create_hackathon, require_organizer.
  rewrite run_bind, guard_run. destruct (is_organizer u) eqn:Hu; [|by left].
  rewrite run_bind, require_non_empty_run. destruct (blank t) eqn:Ht; [by left|].
  rewrite run_bind, require_non_empty_run. destruct (blank d) eqn:Hd; [by left|].
  rewrite run_bind, in_db_run. unfold HackathonRepository.add. rewrite run_bind. cbn [working begin].
  destruct (insert_hackathon _ db) as [[[]|e] db'] eqn:E; [|by left].
  apply insert_row_Ok in E as (Hk & _ & ->). right. cbn.
  apply (cs_hackathon u db db (mkHackathon fresh (strip t) (strip d) H_DRAFT (cu_id u) now now));
    try done; cbn -[blank strip]; by rewrite blank_strip.
Qed.

Lemma publish_hackathon_lawful now id :
  let db' := snd (serve (HackathonService.publish_hackathon now others u id) db) in
  db' = db \/ lawful u db (others db) db'.
Proof.
  cbv zeta. unfold serve, HackathonService.publish_hackathon, require_organizer.
  rewrite run_bind, guard_run. destruct (is_organizer u) eqn:Hu; [|by left].
  rewrite run_bind. unfold HackathonRepository.get. rewrite in_db_gets. cbn [working begin].
  rewrite run_bind, found_or_run. destruct (hackathons db !! id) as [h|] eqn:Hid; [|by left].
  rewrite run_bind, guard_run. case_bool_decide as Ho; [|by left].
  case_bool_decide as Hp; [by left|].
  rewrite run_bind, guard_run. case_bool_decide as Hd; [|by left].
  unfold HackathonRepository.save_status, HackathonRepository.get. right.
  rewrite run_bind. unfold others_commit, modify_st. cbn [begin committed working commits].
  rewrite run_bind, in_db_run, run_bind. cbn.
  destruct (hackathons (others db) !! id) as [h'|] eqn:Hid'; [|by left]. right.
  by eapply cs_publish_hackathon.
Qed.

Lemma parse_criteria_run cr s r s' :
  ChallengeService.parse_criteria cr s = (r, s') ->
  s' = s /\ forall l, r = Ok l -> forallb (fun x => 1 <=? x.2) l = true /\ length l = length cr.
Proof.
  revert r s'. induction cr as [|[[n d] w] cr IH]; intros r s'; cbn [ChallengeService.parse_criteria].
  { intros [= <- <-]. split; [done|]. by intros l [= <-]. }
  rewrite run_bind, guard_run. destruct (Z.ltb_spec w 1); cbn [negb]; [by intros [= <- <-]|].
  rewrite run_bind, require_non_empty_run. destruct (blank n); [by intros [= <- <-]|].
  rewrite run_bind, require_non_empty_run. destruct (blank d); [by intros [= <- <-]|].
  rewrite run_bind. destruct (ChallengeService.parse_criteria cr s) as [[l|e] s1] eqn:E;
    destruct (IH _ _ eq_refl) as [-> Hl]; intros [= <- <-]; [|done].
  split; [done|]. intros ? [= <-]. destruct (Hl l eq_refl) as [H1 H2]. cbn.
  rewrite (proj2 (Z.leb_le 1 w)), H1, H2 by lia. done.
Qed.

Lemma create_challenge_lawful fresh fc now h t d c sp cr :
  lawful u db db (snd (serve (ChallengeService.create_challenge fresh fc now u h t d c sp cr) db)).
Proof.
  unfold serve, ChallengeService.create_challenge, require_organizer.
  rewrite run_bind, guard_run. destruct (is_organizer u) eqn:Hu; [|by left].
  rewrite run_bind. unfold HackathonRepository.get. rewrite in_db_gets. cbn [working begin].
  rewrite run_bind, found_or_run. destruct (hackathons db !! h) as [hk|] eqn:Hid; [|by left].
  rewrite run_bind, guard_run. case_bool_decide as Ho; [|by left].
  rewrite run_bind, require_non_empty_run. destruct (blank t) eqn:Ht; [by left|].
  rewrite run_bind, require_non_empty_run. destruct (blank d) eqn:Hd; [by left|].
  rewrite run_bind, require_non_empty_run. destruct (blank sp) eqn:Hs; [by left|].
  rewrite run_bind. destruct (ChallengeService.parse_criteria cr _) as [[l|e] s1] eqn:E;
    apply parse_criteria_run in E as [-> Hl]; [|by left].
  rewrite run_bind, in_db_run. unfold ChallengeRepository.add. rewrite run_bind. cbn [working begin].
  destruct (insert_challenge _ db) as [[[]|e] db'] eqn:E; [|by left].
  apply insert_row_Ok in E as (Hk & Hok & ->). right. cbn. rewrite !andb_true_iff in Hok. destruct Hok as [[Hok _] _].
  eapply (cs_challenge u db db (mkChallenge fresh h _ _ _ C_DRAFT (mkSpec _ now now) _ now now));
    try done. cbn -[blank strip]. by rewrite blank_strip.
Qed.

Lemma owned_by_true h : ChallengeService.owned_by u h = true ->
  exists hk, h = Some hk /\ h_organizer_id hk = cu_id u.
Proof. unfold ChallengeService.owned_by. destruct h; [|done]. rewrite bool_decide_eq_true. eauto. Qed.

Lemma publish_challenge_lawful now id :
  let db' := snd (serve (ChallengeService.publish_challenge now others u id) db) in
  db' = db \/ lawful u db (others db) db'.
Proof.
  cbv zeta. unfold serve, ChallengeService.publish_challenge, require_organizer.
  rewrite run_bind, guard_run. destruct (is_organizer u) eqn:Hu; [|by left].
  rewrite run_bind. unfold ChallengeRepository.get. rewrite in_db_gets. cbn [working begin].
  rewrite run_bind, found_or_run. destruct (challenges db !! id) as [c|] eqn:Hid; [|by left].
  rewrite run_bind. unfold HackathonRepository.get. rewrite in_db_gets. cbn [working begin].
  rewrite run_bind, guard_run.
  destruct (ChallengeService.owned_by u _) eqn:Ho; [apply owned_by_true in Ho as (hk & Hh & Ho)|by left].
  case_bool_decide as Hp; [by left|].
  rewrite run_bind, guard_run. case_bool_decide as Hd; [|by left].
  rewrite run_bind, guard_run. destruct (is_publishable c) eqn:Hpub; [|by left].
  unfold ChallengeRepository.save_status, ChallengeRepository.get_row, ChallengeRepository.get. right.
  rewrite run_bind. unfold others_commit, modify_st. cbn [begin committed working commits].
  rewrite run_bind, in_db_run, run_bind. cbn.
  destruct (challenges (others db) !! id) as [c'|] eqn:Hid'; [|by left]. right.
  by eapply cs_publish_challenge.
Qed.

Lemma close_challenge_lawful now id :
  lawful u db db (snd (serve (ChallengeService.close_challenge now u id) db)).
Proof.
  unfold serve, ChallengeService.close_challenge, require_organizer.
  rewrite run_bind, guard_run. destruct (is_organizer u) eqn:Hu; [|by left].
  rewrite run_bind. unfold ChallengeRepository.get_for_close, ChallengeRepository.get.
  rewrite in_db_gets. cbn [working begin].
  rewrite run_bind, found_or_run. destruct (challenges db !! id) as [c|] eqn:Hid; [|by left].
  rewrite run_bind. unfold HackathonRepository.get. rewrite in_db_gets. cbn [working begin].
  rewrite run_bind, guard_run.
  destruct (ChallengeService.owned_by u _) eqn:Ho; [apply owned_by_true in Ho as (hk & Hh & Ho)|by left].
  case_bool_decide as Hp; [by left|].
  rewrite run_bind, guard_run. case_bool_decide as Hd; [|by left].
  unfold ChallengeRepository.save_status, ChallengeRepository.get_row, ChallengeRepository.get.
  rewrite run_bind, in_db_run, run_bind. cbn. rewrite Hid. cbn. right.
  by eapply cs_close_challenge.
Qed.
End Effects.

Lemma handle_lawful others q db : request_lawful (actor_of q) db others (handle others q db).
Proof.
  unfold request_lawful. destruct q; cbn [actor_of handle].
  - left. apply create_hackathon_lawful.
  - destruct (publish_hackathon_lawful actor db others now hackathon_id) as [->|H]; [left; by left|by right].
  - left. apply create_challenge_lawful.
  - destruct (publish_challenge_lawful actor db others now challenge_id) as [->|H]; [left; by left|by right].
  - left. apply close_challenge_lawful.
Qed.

(** One version of a challenge and the next: the same, published, or closed. *)
Inductive challenge_moves : Challenge -> Challenge -> Prop :=
| cm_same c : challenge_moves c c
| cm_publish c now : c_status c = C_DRAFT ->
    challenge_moves c (c <| c_status := C_PUBLISHED |> <| c_updated_at := now |>)
| cm_close c now : c_status c = C_PUBLISHED ->
    challenge_moves c (c <| c_status := C_CLOSED |> <| c_updated_at := now |>).

(** A publication that is overtaken: the draft it read is no longer what it writes
    on, and it publishes that, whatever its status. *)
Definition overtaken (read db db' : Db) (id : uuid) : Prop :=
  exists c0 c now, challenges read !! id = Some c0 /\ c_status c0 = C_DRAFT
    /\ challenges db !! id = Some c /\ c <> c0
    /\ challenges db' !! id = Some (c <| c_status := C_PUBLISHED |> <| c_updated_at := now |>).

Lemma catalog_step_moves u read db db' id c :
  catalog_step u read db db' -> challenges db !! id = Some c ->
  exists c', challenges db' !! id = Some c'
    /\ (challenge_moves c c' \/ overtaken read db db' id).
Proof.
  intros Hst Hc.
  destruct Hst as [h|i h0 h now|c1 h _ _ _ _ _ _ Hnone|i c0 c1 h now _ Hr _ _ Hd _ Hw|i c1 h now _ Hw _ _ Hp];
    cbn; try (exists c; split; [exact Hc|left; apply cm_same]).
  - rewrite lookup_insert_ne by congruence. exists c. split; [exact Hc|left; apply cm_same].
  - destruct (decide (id = i)) as [->|Hne]; cycle 1.
    { rewrite lookup_insert_ne by done. exists c. split; [exact Hc|left; apply cm_same]. }
    rewrite lookup_insert_eq. assert (c1 = c) as -> by congruence. eexists. split; [done|].
    destruct (decide (c_status c = C_DRAFT)) as [Hcd|Hcd]; [left; by apply cm_publish|right].
    exists c0, c, now. split_and!; try done; [congruence|]. cbn. apply lookup_insert_eq.
  - destruct (decide (id = i)) as [->|Hne]; cycle 1.
    { rewrite lookup_insert_ne by done. exists c. split; [exact Hc|left; apply cm_same]. }
    rewrite lookup_insert_eq. assert (c1 = c) as -> by congruence. eexists. split; [done|].
    left. by apply cm_close.
Qed.

(** C31 The catalogue implements its contract, whatever other transactions commit
    in the middle of a request: whatever it asks for, by whomever, the committed
    database is the one the request or the others left, or that database after
    one step of the contract: a new draft by an organizer, a publication of a
    challenge or hackathon that was a draft when it was read, or the closing of a
    published challenge, each by the organizer who owns the hackathon.  Nothing is
    ever deleted, and a challenge only goes from draft to published and from
    published to closed, but for a publication that is overtaken: it does not
    hold the row it checked, and when others change the challenge before it
    writes, it sets to published what they left, be it closed. *)
Theorem catalog_refines (q : CatalogRequest) (others : Db -> Db) (db : Db) :
  let db' := handle others q db in
  exists w, (w = db \/ w = others db)
    /\ (db' = w \/ catalog_step (actor_of q) db w db')
    /\ forall id c, challenges w !! id = Some c ->
         exists c', challenges db' !! id = Some c'
           /\ (challenge_moves c c' \/ w = others db /\ overtaken db w db' id).
Proof.
  intros db'. assert (exists w, (w = db \/ w = others db) /\ lawful (actor_of q) db w db') as (w & Hw & Hl)
    by (destruct (handle_lawful others q db); eauto).
  exists w. split; [done|]. split; [exact Hl|]. intros id c Hc. destruct Hl as [->|Hst].
  { exists c. split; [done|left; apply cm_same]. }
  destruct (catalog_step_moves _ _ _ _ id c Hst Hc) as (c' & Hc' & Hm). exists c'. split; [done|].
  destruct Hm as [Hm|Ho]; [by left|]. destruct Hw as [->|Hw]; [|by right].
  destruct Ho as (c0 & c1 & now & H0 & _ & H1 & Hne & _). congruence.
Qed.

(** Every challenge that is or was open has a specification and criteria. *)
Definition published_complete (db : Db) : Prop :=
  forall id c, challenges db !! id = Some c -> c_status c <> C_DRAFT -> is_publishable c = true.

(** What makes a challenge publishable does not change between reading and writing. *)
Definition same_material (read db : Db) : Prop :=
  forall id c0 c, challenges read !! id = Some c0 -> challenges db !! id = Some c ->
    is_publishable c0 = true -> is_publishable c = true.

Lemma step_published_complete u read db db' :
  same_material read db -> catalog_step u read db db' -> published_complete db -> published_complete db'.
Proof.
  intros Hm Hst Hpc. destruct Hst as [| |c h _ _ _ Hdraft _ _ _|id c0 c h now _ Hr _ _ _ Hpub Hid|id c h now _ Hid _ _ Hp];
    intros id' c' Hc' Hst'; try by eapply Hpc.
  - cbn in Hc'. destruct (decide (id' = c_id c)) as [->|Hne].
    + rewrite lookup_insert_eq in Hc'. by simplify_eq.
    + rewrite lookup_insert_ne in Hc' by done. by eapply Hpc.
  - cbn in Hc'. destruct (decide (id' = id)) as [->|Hne].
    + rewrite lookup_insert_eq in Hc'. simplify_eq. exact (Hm _ _ _ Hr Hid Hpub).
    + rewrite lookup_insert_ne in Hc' by done. by eapply Hpc.
  - cbn in Hc'. destruct (decide (id' = id)) as [->|Hne].
    + rewrite lookup_insert_eq in Hc'. simplify_eq. apply (Hpc _ _ Hid). congruence.
    + rewrite lookup_insert_ne in Hc' by done. by eapply Hpc.
Qed.

(** No incomplete challenge is ever open: in every database reached from the
    empty catalogue by any sequence of requests, one after the other, a challenge
    that is published or closed has a specification that is not blank and at least
    one criterion. *)
Theorem published_challenges_complete (l : list CatalogRequest) (db : Db) :
  challenges db = ∅ -> published_complete (foldl (fun d q => handle (fun d => d) q d) db l).
Proof.
  intros Hempty.
  assert (forall db, published_complete db ->
            published_complete (foldl (fun d q => handle (fun d => d) q d) db l)) as H.
  { induction l as [|q l IH]; intros d Hd; [done|]. apply IH.
    assert (same_material d d) as Hm by (intros id c0 c H0 H1 ?; by simplify_eq).
    destruct (handle_lawful (fun d => d) q d) as [[->|Hst]|[->|Hst]];
      try done; by eapply step_published_complete. }
  apply H. intros id c Hc. by rewrite Hempty, lookup_empty in Hc.
Qed.

(** C32 Participants see published material only: what a caller who is not an
    organizer gets from the catalogue, as a hackathon, a challenge or a listing
    of either, is published, and a challenge is shown only inside a published
    hackathon. *)
Theorem participants_see_published (u : CurrentUser) (db : Db) :
  is_organizer u = false ->
  (forall id h db', serve (HackathonService.get_hackathon u id) db = (Ok h, db') ->
     h_status h = H_PUBLISHED)
  /\ (forall l db', serve (HackathonService.list_hackathons u) db = (Ok l, db') ->
       Forall (fun h => h_status h = H_PUBLISHED) l)
  /\ (forall id c db', serve (ChallengeService.get_challenge u id) db = (Ok c, db') ->
       c_status c = C_PUBLISHED
       /\ exists h, hackathons db !! c_hackathon_id c = Some h /\ h_status h = H_PUBLISHED)
  /\ (forall id l db', serve (ChallengeService.list_for_hackathon u id) db = (Ok l, db') ->
       (exists h, hackathons db !! id = Some h /\ h_status h = H_PUBLISHED)
       /\ Forall (fun c => c_status c = C_PUBLISHED /\ c_hackathon_id c = id) l).
Proof.
  intros Hu. split_and!.
  - intros id h db'. unfold serve, HackathonService.get_hackathon, HackathonRepository.get.
    rewrite run_bind, in_db_gets, run_bind, found_or_run. cbn [working begin].
    destruct (hackathons db !! id) as [h'|]; [|done]. rewrite Hu. case_bool_decide; [|done].
    by intros [= <- <-].
  - intros l db'. unfold serve, HackathonService.list_hackathons, HackathonRepository.list_visible.
    rewrite in_db_gets, Hu. cbn [working begin]. intros [= <- <-]. apply Forall_forall. intros h Hh.
    rewrite merge_sort_Permutation, elem_of_rows_where in Hh. destruct Hh as [_ Hh].
    by apply bool_decide_eq_true in Hh.
  - intros id c db'. unfold serve, ChallengeService.get_challenge, ChallengeRepository.get, HackathonRepository.get.
    rewrite run_bind, in_db_gets, run_bind, found_or_run. cbn [working begin].
    destruct (challenges db !! id) as [c'|]; [|done].
    rewrite run_bind, in_db_gets. cbn [working begin]. rewrite Hu.
    destruct (hackathons db !! c_hackathon_id c') as [h|] eqn:Hh; [|done].
    case_bool_decide as H1; [|done]. case_bool_decide as H2; [|done].
    intros [= <- <-]. eauto.
  - intros id l db'. unfold serve, ChallengeService.list_for_hackathon, HackathonRepository.get.
    rewrite run_bind, in_db_gets, run_bind, found_or_run. cbn [working begin].
    destruct (hackathons db !! id) as [h|] eqn:Hh; [|done]. rewrite Hu.
    case_bool_decide as Hp; [|done]. cbn [negb andb].
    unfold ChallengeRepository.list_for_hackathon. rewrite in_db_gets. cbn [working begin].
    intros [= <- <-]. split; [eauto|]. apply Forall_forall. intros c Hc.
    rewrite merge_sort_Permutation, elem_of_rows_where in Hc. destruct Hc as [_ Hc].
    apply andb_true_iff in Hc as [H1 H2]. split; [by apply bool_decide_eq_true in H2|].
    by apply bool_decide_eq_true in H1.
Qed.

Module CatalogSample.
Definition ada : CurrentUser := mkCurrentUser ORGANIZER_ID (py "Ada") ORGANIZER.
Definition pat : CurrentUser := mkCurrentUser PARTICIPANT_ID (py "Pat") PARTICIPANT.
Definition db0 : Db :=
  empty_db <| users := {[ORGANIZER_ID := mkUser ORGANIZER_ID (py "Ada") ORGANIZER 0]} |>.
Definition requests : list CatalogRequest :=
  [CreateHackathon 7 1 ada (py "Hack") (py "All"); PublishHackathon 2 ada 7;
   CreateChallenge 8 [9] 3 ada 7 (py "C") (py "d") [] (py "spec") [(py "n", py "d", 1)];
   PublishChallenge 4 ada 8; CloseChallenge 5 pat 8].

Example challenge_open :
  c_status <$> challenges (foldl (fun d q => handle (fun d => d) q d) db0 requests) !! 8 = Some C_PUBLISHED.
Proof. vm_compute. reflexivity. Qed.

Lemma published_challenges_complete_witness :
  published_complete (foldl (fun d q => handle (fun d => d) q d) db0 requests).
Proof. apply (published_challenges_complete requests db0). reflexivity. Defined.

Definition served : Db := foldl (fun d q => handle (fun d => d) q d) db0 requests.

(** The race of a publication that is overtaken: in its middle the challenge is
    published and closed, and it ends up open again. *)
Definition drafted : Db := foldl (fun d q => handle (fun d => d) q d) db0 (take 3 requests).
Definition published_and_closed (db : Db) : Db :=
  handle (fun d => d) (CloseChallenge 6 ada 8) (handle (fun d => d) (PublishChallenge 5 ada 8) db).

Example publish_race_reopens :
  (c_status <$> challenges (published_and_closed drafted) !! 8,
   c_status <$> challenges (handle published_and_closed (PublishChallenge 7 ada 8) drafted) !! 8)
  = (Some C_CLOSED, Some C_PUBLISHED).
Proof. vm_compute. reflexivity. Qed.

Lemma participants_see_published_witness :
  exists h db', serve (HackathonService.get_hackathon pat 7) served = (Ok h, db')
  /\ h_status h = H_PUBLISHED.
Proof.
  destruct (serve (HackathonService.get_hackathon pat 7) served) as [[h|e] db'] eqn:Hs.
  - exists h, db'. split; [done|].
    exact (proj1 (participants_see_published pat served eq_refl) 7 h db' Hs).
  - exfalso. revert Hs. vm_compute. intros [=].
Defined.
End CatalogSample.
