(* ===== verification/Submissions.v ===== *)
(** Submissions: their repository (src/challengeforge/persistence/repositories.py),
    the request fingerprint (application/idempotency.py) and the service of the
    participants (application/submissions.py).

    A request runs in a session of its own beside the artifact store.  The fate
    of its commits is the session's plan.  Other transactions may commit between
    two statements of a request; where the code depends on it, the change they
    make to the committed database is an argument ([others]). *)
From Stdlib Require Import ZArith Lia String.
From stdpp Require Import prelude strings gmap sorting.
From S2P Require Import Prelude PyFloat PyStr Domain Database Json Evaluator Storage Config Catalog.
From S2P Require Import EvaluationQueue IngestionQueue.
Import EvaluationRepository IngestionJobRepository.

(** [float(text)]: [None] is [ValueError]. *)
Class FloatParse := float_parse : pystr -> option float.

Module SubmissionRepository.

(** [persistence/repositories.py:224-226 SubmissionRepository.get] *)
Definition get_submission (submission_id : uuid) : M exn Db (option Submission) :=
  gets_st (fun db => submissions db !! submission_id).

(** [persistence/repositories.py:228-229 SubmissionRepository.get_row] *)
Definition get_submission_row := get_submission.

(** [persistence/repositories.py:231-240 SubmissionRepository.find_by_idempotency] *)
Definition find_by_idempotency (participant_id : uuid) (idempotency_key : pystr)
    : M exn Db (option Submission) :=
  db ← get_st;
  match rows_where (idem_match participant_id idempotency_key) (submissions db) with
  | [] => mret None
  | [r] => mret (Some r)
  | _ => raise (OtherError "MultipleResultsFound")
  end.

(** [persistence/repositories.py:242-249 SubmissionRepository.list_for_participant] *)
Definition list_for_participant (participant_id : uuid) : M exn Db (list Submission) :=
  gets_st (fun db =>
    merge_sort (newest_first s_created_at)
      (rows_where (fun s => bool_decide (s_participant_id s = participant_id)) (submissions db))).

(** [persistence/repositories.py:251-258 SubmissionRepository.list_for_challenge] *)
Definition list_for_challenge (challenge_id : uuid) : M exn Db (list Submission) :=
  gets_st (fun db =>
    merge_sort (newest_first s_created_at)
      (rows_where (fun s => bool_decide (s_challenge_id s = challenge_id)) (submissions db))).

(** [persistence/repositories.py:260-266 SubmissionRepository.list_artifact_keys] *)
Definition list_artifact_keys : M exn Db (list pystr) :=
  gets_st (fun db =>
    List.filter nonempty (omap s_artifact_key (map_to_list (submissions db)).*2)).

(** [persistence/repositories.py:268-293 SubmissionRepository.add] *)
Definition add_submission (fresh : uuid) (now : datetime) (challenge_id participant_id : uuid)
    (metadata : dict) (artifact_key idempotency_key request_fingerprint : option pystr)
    : M exn Db Submission :=
  let row := mkSubmission fresh challenge_id participant_id S_CREATED metadata artifact_key
               idempotency_key request_fingerprint now now None in
  insert_submission row ;;
  mret row.

(** [persistence/repositories.py:295-316 SubmissionRepository.transition_if_created] *)
Definition transition_if_created (submission_id participant_id : uuid)
    (target_status : SubmissionStatus) (updated_at : datetime) : M exn Db (option Submission) :=
  found ← get_submission submission_id;
  match found with
  | Some r =>
      if bool_decide (s_participant_id r = participant_id) && bool_decide (s_status r = S_CREATED) then
        let r' := r <| s_status := target_status |> <| s_updated_at := updated_at |> in
        update_row submissions set_submissions submission_id r' (submission_check r') "submissions" ;;
        mret (Some r')
      else mret None
  | None => mret None
  end.
End SubmissionRepository.
Import SubmissionRepository.

(** * Fingerprints *)

Section Fingerprint.
Context `{Sha256} `{FloatRepr}.

Definition fingerprint_payload (challenge_id : uuid) (metadata : dict) : json :=
  JObj [(py "challenge_id", JStr (uuid_str challenge_id)); (py "metadata", JObj metadata)].

(** [application/idempotency.py:11-34 submission_request_fingerprint] *)
Definition submission_request_fingerprint (challenge_id : uuid) (metadata : dict)
    : result exn pystr :=
  let payload := fingerprint_payload challenge_id metadata in
  match (if has_nan payload then None else utf8 (dumps false true payload)) with
  | Some canonical => Ok (sha256_hex canonical)
  | None => Raise (invalid "Submission metadata must have a stable JSON representation.")
  end.
End Fingerprint.

(** * The service *)

(** A request's session and the artifact store beside it. *)
Record Uow (St : Type) := mkUow { uow_session : Session; uow_store : St }.
Arguments mkUow {St}. Arguments uow_session {St}. Arguments uow_store {St}.
#[export] Instance Uow_eta St : Eta (Uow St) := fun u => mkUow (uow_session u) (uow_store u).

Section Service.
Context {St : Type} `{ArtifactStorage St} `{Sha256} `{FloatRepr} `{FloatParse} `{PyRepr}.
Context (settings : Settings).

Definition in_session {A} (c : M exn Session A) : M exn (Uow St) A :=
  zoom uow_session (fun s u => u <| uow_session := s |>) c.
Definition in_database {A} (c : M exn Db A) : M exn (Uow St) A := in_session (in_db c).
Definition in_store {A} (c : M exn St A) : M exn (Uow St) A :=
  zoom uow_store (fun s u => u <| uow_store := s |>) c.

(** Other transactions commit; this one has written nothing yet. *)
Definition interfere (others : Db -> Db) : M exn (Uow St) unit :=
  in_session (others_commit others).

Definition lift_result {A} (r : result exn A) : M exn (Uow St) A :=
  match r with Ok a => mret a | Raise e => raise e end.

(** [application/submissions.py:28-31 SubmissionCreateResult] *)
Record SubmissionCreateResult := mkCreated { cr_submission : Submission; cr_replayed : bool }.

(** [application/submissions.py:34-39 SubmissionSubmitResult] *)
Record SubmissionSubmitResult := mkSubmitted { sr_submission : Submission; sr_evaluation : Evaluation }.

(** [application/submissions.py:46-53 SubmissionService._validate_metadata] *)
Definition validate_metadata (metadata : json) : M exn (Uow St) dict :=
  let payload := if truthy metadata then metadata else JObj [] in
  match payload with
  | JObj d =>
      match utf8 (dumps true false payload) with
      | Some encoded =>
          guard_or (zlen encoded <=? metadata_max_bytes settings)
            (invalid "Submission metadata exceeds the size limit.") ;;
          mret d
      | None => raise (ValueError "surrogates not allowed")
      end
  | _ => raise (invalid "Submission metadata must be a JSON object.")
  end.

(** [application/submissions.py:55-70 SubmissionService._lock_open_challenge] *)
Definition lock_open_challenge (challenge_id : uuid) : M exn (Uow St) Challenge :=
  found ← in_database (ChallengeRepository.get_for_submission_acceptance challenge_id);
  challenge ← found_or found "Challenge not found.";
  guard_or (negb (bool_decide (c_status challenge = C_CLOSED)))
    (DomainExn ConflictError "Challenge is closed and no longer accepts submissions.") ;;
  hackathon ← in_database (HackathonRepository.get (c_hackathon_id challenge));
  guard_or
    (match hackathon with
     | Some h => bool_decide (h_status h = H_PUBLISHED) && bool_decide (c_status challenge = C_PUBLISHED)
     | None => false
     end)
    (DomainExn NotFoundError "Challenge not found.") ;;
  mret challenge.

(** [application/submissions.py:72-86 SubmissionService._replay_or_conflict] *)
Definition replay_or_conflict (existing : Submission) (request_fingerprint : pystr)
    : M exn (Uow St) SubmissionCreateResult :=
  stored ← match s_request_fingerprint existing with
           | Some ((_ :: _) as f) => mret f
           | _ => lift_result (submission_request_fingerprint (s_challenge_id existing) (s_metadata existing))
           end;
  guard_or (bool_decide (stored = request_fingerprint))
    (DomainExn ConflictError
       "Idempotency-Key is already associated with a different submission request.") ;;
  mret (mkCreated existing true).

(** The suffix of the artifact key. *)
Definition key_suffix (filename : option pystr) : pystr :=
  match filename with
  | Some f => match reverse (split_on 46 f) with
              | ext :: _ :: _ => py "." ++ lower ext
              | _ => []
              end
  | None => []
  end.

(** [f"submissions/{challenge_id}/{actor.id}/{uuid4()}{suffix}"] *)
Definition artifact_key_for (challenge_id actor_id fresh : uuid) (filename : option pystr) : pystr :=
  py "submissions/" ++ uuid_str challenge_id ++ py "/" ++ uuid_str actor_id ++ py "/"
  ++ uuid_str fresh ++ key_suffix filename.

Definition content_type_or (content_type : option pystr) : pystr :=
  match content_type with Some ((_ :: _) as t) => t | _ => py "application/octet-stream" end.

(** An uploaded artifact: its bytes, content type and file name. *)
Record ArtifactInput := mkArtifact {
  ai_bytes : bytes;
  ai_content_type : option pystr;
  ai_filename : option pystr;
}.

(** Stores the artifact under a fresh key, after the size check. *)
Definition store_artifact (mtime : float) (challenge_id actor_id fresh : uuid) (a : ArtifactInput)
    : M exn (Uow St) pystr :=
  guard_or (zlen (ai_bytes a) <=? artifact_max_bytes settings)
    (invalid "Artifact exceeds the size limit.") ;;
  let key := artifact_key_for challenge_id actor_id fresh (ai_filename a) in
  in_store (put mtime key (ai_bytes a) (content_type_or (ai_content_type a))) ;;
  mret key.

(** [if artifact_key is not None and ingestion_enabled: enqueue; commit] *)
Definition enqueue_ingestion (fresh : uuid) (now : datetime) (submission_id : uuid)
    (artifact_key : option pystr) : M exn (Uow St) unit :=
  match artifact_key with
  | Some k =>
      if ingestion_enabled settings then
        in_database (enqueue fresh now submission_id k) ;;
        in_session commit
      else mret tt
  | None => mret tt
  end.

(** What the environment supplies to a request: fresh identifiers and clocks. *)
Record RequestEnv := mkRequestEnv {
  re_fresh_row : uuid;
  re_fresh_key : uuid;
  re_fresh_job : uuid;
  re_now : datetime;
  re_mtime : float;
}.

(** [application/submissions.py:88-159 SubmissionService.create]; [others] commit
    between the lookup of the key and the INSERT. *)
Definition create (env : RequestEnv) (others : Db -> Db) (actor : CurrentUser) (challenge_id : uuid)
    (metadata : json) (idempotency_key : option pystr) (artifact : option ArtifactInput)
    : M exn (Uow St) SubmissionCreateResult :=
  require_participant actor ;;
  payload ← validate_metadata metadata;
  let stripped := strip (default [] idempotency_key) in
  let key := if nonempty stripped then Some stripped else None in
  request_fingerprint ←
    match key with
    | Some _ => f ← lift_result (submission_request_fingerprint challenge_id payload); mret (Some f)
    | None => mret None
    end;
  existing ← match key with
             | Some k => in_database (find_by_idempotency (cu_id actor) k)
             | None => mret None
             end;
  match existing, request_fingerprint with
  | Some e, Some f => replay_or_conflict e f
  | Some _, None => raise AssertionError
  | None, _ =>
      interfere others ;;
      lock_open_challenge challenge_id ;;
      artifact_key ← match artifact with
                     | Some a => k ← store_artifact (re_mtime env) challenge_id (cu_id actor)
                                       (re_fresh_key env) a;
                                 mret (Some k)
                     | None => mret None
                     end;
      submission ←
        catch
          (s ← in_database (add_submission (re_fresh_row env) (re_now env) challenge_id (cu_id actor)
                              payload artifact_key key request_fingerprint);
           in_session commit ;;
           mret (mkCreated s false))
          (fun e =>
             in_session rollback ;;
             in_store (compensate_delete artifact_key) ;;
             match e, key, request_fingerprint with
             | IntegrityError _, Some k, Some f =>
                 existing ← in_database (find_by_idempotency (cu_id actor) k);
                 match existing with
                 | Some x => replay_or_conflict x f
                 | None => raise e
                 end
             | _, _, _ => raise e
             end);
      if cr_replayed submission then mret submission
      else
        enqueue_ingestion (re_fresh_job env) (re_now env) (s_id (cr_submission submission)) artifact_key ;;
        mret submission
  end.

(** [application/submissions.py:161-174 SubmissionService.get] *)
Definition get_for (actor : CurrentUser) (submission_id : uuid) : M exn (Uow St) Submission :=
  found ← in_database (get_submission submission_id);
  submission ← found_or found "Submission not found.";
  let own := bool_decide (s_participant_id submission = cu_id actor) in
  guard_or (own || is_organizer actor) (denied "You cannot view this submission.") ;;
  if is_organizer actor && negb own then
    challenge ← in_database (ChallengeRepository.get (s_challenge_id submission));
    challenge ← found_or challenge "Submission not found.";
    hackathon ← in_database (HackathonRepository.get (c_hackathon_id challenge));
    guard_or (match hackathon with
              | Some h => bool_decide (h_organizer_id h = cu_id actor)
              | None => false
              end) (denied "You cannot view this submission.") ;;
    mret submission
  else mret submission.

(** [application/submissions.py:176-182 SubmissionService.list_for_user] *)
Definition list_for_user (actor : CurrentUser) (user_id : uuid) : M exn (Uow St) (list Submission) :=
  guard_or (bool_decide (cu_id actor = user_id) || is_organizer actor)
    (denied "You cannot list another participant's submissions.") ;;
  target ← in_database (UserRepository.get user_id);
  target ← found_or target "User not found.";
  in_database (list_for_participant user_id).

(** [application/submissions.py:194-200 SubmissionService.update_created], the checks
    on the row it reads; the same as in attach_incoming. *)
Definition own_created_row (actor : CurrentUser) (submission_id : uuid) : M exn (Uow St) Submission :=
  found ← in_database (get_submission_row submission_id);
  row ← found_or found "Submission not found.";
  guard_or (bool_decide (s_participant_id row = cu_id actor))
    (denied "You cannot modify this submission.") ;;
  guard_or (bool_decide (s_status row = S_CREATED))
    (invalid "Only submissions in CREATED can be updated.") ;;
  mret row.

(** The flush of a changed row: an UPDATE of the changed columns by primary key. *)
Definition flush_columns (submission_id : uuid) (f : Submission -> Submission) : M exn Db unit :=
  found ← get_submission submission_id;
  match found with
  | Some r => update_row submissions set_submissions submission_id (f r) (submission_check (f r)) "submissions"
  | None => raise (OtherError "StaleDataError")
  end.

(** [application/submissions.py:286-291 SubmissionService.attach_incoming], the commit
    with its compensation; the same as in update_created. *)
Definition commit_or_compensate (submission_id : uuid) (f : Submission -> Submission)
    (new_key : option pystr) : M exn (Uow St) unit :=
  catch (in_database (flush_columns submission_id f) ;; in_session commit)
    (fun e => in_session rollback ;; in_store (compensate_delete new_key) ;; raise e).

(** The previous blob, dropped after a replacement. *)
Definition drop_previous (previous : option pystr) (new_key : option pystr) : M exn (Uow St) unit :=
  match new_key, previous with
  | Some n, Some ((_ :: _) as p) =>
      if bool_decide (p = n) then mret tt else in_store (compensate_delete (Some p)) ;; mret tt
  | _, _ => mret tt
  end.

(** [application/submissions.py:184-244 SubmissionService.update_created]; [others]
    commit between the status check and the UPDATE.  The submission returned is
    the session's own copy: the row it read, with its changes. *)
Definition update_created (env : RequestEnv) (others : Db -> Db) (actor : CurrentUser)
    (submission_id : uuid) (metadata : option json) (artifact : option ArtifactInput)
    : M exn (Uow St) Submission :=
  row ← own_created_row actor submission_id;
  interfere others ;;
  new_metadata ← match metadata with
                 | Some m => d ← validate_metadata m; mret (Some d)
                 | None => mret None
                 end;
  new_key ← match artifact with
            | Some a => k ← store_artifact (re_mtime env) (s_challenge_id row) (cu_id actor)
                              (re_fresh_key env) a;
                        mret (Some k)
            | None => mret None
            end;
  let changes r :=
    let r := match new_metadata with Some d => r <| s_metadata := d |> | None => r end in
    let r := match new_key with Some k => r <| s_artifact_key := Some k |> | None => r end in
    r <| s_updated_at := re_now env |> in
  commit_or_compensate submission_id changes new_key ;;
  drop_previous (s_artifact_key row) new_key ;;
  enqueue_ingestion (re_fresh_job env) (re_now env) submission_id new_key ;;
  mret (changes row).

(** * Submitting *)

(** [float(v)] of a JSON value: [None] is a [TypeError] or [ValueError],
    [Some None] an [OverflowError]. *)
Definition float_of_json (v : json) : option (option float) :=
  match v with
  | JBool b => Some (Some (of_Z (if b then 1 else 0)))
  | JInt z => match of_Z z with
              | SpecFloat.S754_infinity _ => Some None
              | f => Some (Some f)
              end
  | JFloat f => Some (Some f)
  | JStr s => Some <$> float_parse s
  | JNull | JList _ | JObj _ => None
  end.

(** The deadline of the evaluation: [None] when there is none or it does not
    parse, an [OverflowError] when it is out of range. *)
Definition deadline_of (now : datetime) (raw : json) : result exn (option datetime) :=
  match raw with
  | JNull => Ok None
  | _ =>
      match float_of_json raw with
      | None => Ok None
      | Some None => Raise (OtherError "OverflowError")
      | Some (Some f) =>
          match timedelta_seconds f with
          | None => Ok None
          | Some None => Raise (OtherError "OverflowError")
          | Some (Some d) =>
              match datetime_add now d with
              | Some t => Ok (Some t)
              | None => Raise (OtherError "OverflowError")
              end
          end
      end
  end.

Definition mode_of (metadata : dict) : EvaluationMode :=
  match dget_null metadata (py "evaluation_mode") with
  | JStr s => default (evaluation_progressive_mode settings) (of_text s)
  | _ => evaluation_progressive_mode settings
  end.

Definition wrong_state (current : Submission) (target : SubmissionStatus) : exn :=
  DomainExn InvalidStateTransition
    ("Cannot transition submission from " +:+ value (s_status current) +:+ " to "
     +:+ value target +:+ ".").

(** [application/submissions.py:304-368 SubmissionService.submit] *)
Definition submit (env : RequestEnv) (actor : CurrentUser) (submission_id : uuid)
    : M exn (Uow St) SubmissionSubmitResult :=
  require_participant actor ;;
  transitioned ← in_database (transition_if_created submission_id (cu_id actor) S_SUBMITTED (re_now env));
  match transitioned with
  | Some t =>
      let workload := parse_workload_class (dget_null (s_metadata t) (py "workload_class")) in
      let mode := mode_of (s_metadata t) in
      deadline_at ← lift_result (deadline_of (re_now env)
                       (dget_null (s_metadata t) (py "evaluation_deadline_seconds")));
      evaluation ← in_database (create_queued (re_fresh_row env) (re_now env) (s_id t) workload mode
                                  deadline_at 0);
      in_session commit ;;
      mret (mkSubmitted t evaluation)
  | None =>
      found ← in_database (get_submission submission_id);
      current ← found_or found "Submission not found.";
      guard_or (bool_decide (s_participant_id current = cu_id actor))
        (denied "You cannot change this submission.") ;;
      if bool_decide (s_status current = S_SUBMITTED) then
        evaluation ← in_database (get_by_submission submission_id);
        match evaluation with
        | Some e => mret (mkSubmitted current e)
        | None => raise (DomainExn ConflictError
            "Submission is submitted but has no evaluation; this violates the product invariant.")
        end
      else raise (wrong_state current S_SUBMITTED)
  end.

(** [application/submissions.py:373-393 SubmissionService._transition] *)
Definition transition_to (env : RequestEnv) (actor : CurrentUser) (submission_id : uuid)
    (target : SubmissionStatus) : M exn (Uow St) Submission :=
  transitioned ← in_database (transition_if_created submission_id (cu_id actor) target (re_now env));
  match transitioned with
  | Some t => in_session commit ;; mret t
  | None =>
      found ← in_database (get_submission submission_id);
      current ← found_or found "Submission not found.";
      guard_or (bool_decide (s_participant_id current = cu_id actor))
        (denied "You cannot change this submission.") ;;
      raise (wrong_state current target)
  end.

(** [application/submissions.py:370-371 SubmissionService.cancel] *)
Definition cancel (env : RequestEnv) (actor : CurrentUser) (submission_id : uuid)
    : M exn (Uow St) Submission :=
  transition_to env actor submission_id S_CANCELLED.
End Service.

(** * Attaching a staged upload *)

(** The store with the upload the caller staged in it. *)
Record Staged := mkStaged { st_fs : Fs; st_upload : IncomingUpload }.
#[export] Instance Staged_eta : Eta Staged := fun s => mkStaged (st_fs s) (st_upload s).

Definition in_fs {A} (c : M exn Fs A) : M exn Staged A :=
  zoom st_fs (fun f s => s <| st_fs := f |>) c.

#[export] Instance staged_storage : ArtifactStorage Staged := {|
  put now k d c := in_fs (fs_put now k d c);
  Storage.get k := in_fs (fs_get k);
  exists_ k := in_fs (fs_exists k);
  delete_blob k := in_fs (fs_delete k);
  blob s k := fs_blob (st_fs s) k;
  apart := fs_apart;
|}.

Section Attach.
Context (settings : Settings).

(** [application/submissions.py:246-302 SubmissionService.attach_incoming]; [others]
    commit between the status check and the UPDATE. *)
Definition attach_incoming (env : RequestEnv) (others : Db -> Db) (actor : CurrentUser)
    (submission_id : uuid) (filename : option pystr) : M exn (Uow Staged) Submission :=
  row ← own_created_row actor submission_id;
  interfere others ;;
  incoming ← in_store (gets_st st_upload);
  guard_or (iu_size incoming <=? artifact_max_bytes settings)
    (invalid "Artifact exceeds the size limit.") ;;
  let new_key := artifact_key_for (s_challenge_id row) (cu_id actor) (re_fresh_key env) filename in
  in_store (in_fs (fs_put_from_path (re_mtime env) new_key (iu_staging_path incoming)
                     (iu_content_type incoming))) ;;
  in_store (modify_st (fun s => s <| st_upload := mark_finalized (st_upload s) |>)) ;;
  let changes r := r <| s_artifact_key := Some new_key |> <| s_updated_at := re_now env |> in
  commit_or_compensate submission_id changes (Some new_key) ;;
  drop_previous (s_artifact_key row) (Some new_key) ;;
  enqueue_ingestion settings (re_fresh_job env) (re_now env) submission_id (Some new_key) ;;
  mret (changes row).
End Attach.
