(* ===== verification/SubmissionsSpec.v ===== *)
(** The properties of submissions: idempotent creation, the consistency of rows
    and blobs whatever commit fails, the link between accepted submissions and
    their evaluations, idempotent submit, and who may read. *)
From Stdlib Require Import ZArith Lia String.
From stdpp Require Import prelude strings gmap sorting.
From S2P Require Import Prelude PyFloat PyStr Domain Database Json Storage StorageSpec Config Catalog CatalogSpec Evaluator.
From S2P Require Import EvaluationQueue EvaluationQueueFacts IngestionQueue IngestionQueueSpec Submissions.
Import EvaluationRepository IngestionJobRepository SubmissionRepository.

Section Runs.
Context {St : Type} `{ArtifactStorage St} `{Sha256} `{FloatRepr} `{FloatParse} `{PyRepr}.
Context (settings : Settings).
Implicit Types u : Uow St.

(** * Runs of the parts *)

Lemma uow_eta u : mkUow (uow_session u) (uow_store u) = u.
Proof. by destruct u. Qed.

Lemma session_run {A} (c : M exn Session A) u :
  in_session c u = (fst (c (uow_session u)), mkUow (snd (c (uow_session u))) (uow_store u)).
Proof. unfold in_session, zoom. by destruct (c (uow_session u)). Qed.

Lemma store_run {A} (c : M exn St A) u :
  in_store c u = (fst (c (uow_store u)), mkUow (uow_session u) (snd (c (uow_store u)))).
Proof. unfold in_store, zoom. by destruct (c (uow_store u)). Qed.

Lemma database_run {A} (c : M exn Db A) u :
  in_database c u
  = (fst (c (working (uow_session u))),
     mkUow (uow_session u <| working := snd (c (working (uow_session u))) |>) (uow_store u)).
Proof. unfold in_database. rewrite session_run, in_db_run. by destruct (c (working (uow_session u))). Qed.

(** A query changes nothing. *)
Lemma query_run {A} (c : M exn Db A) u :
  (forall db, snd (c db) = db) -> in_database c u = (fst (c (working (uow_session u))), u).
Proof. intros Hc. rewrite database_run, Hc. by destruct u as [[] ?]. Qed.

Lemma found_or_uow {A} (o : option A) m u :
  found_or o m u = match o with Some a => (Ok a, u) | None => (Raise (DomainExn NotFoundError m), u) end.
Proof. apply found_or_run. Qed.

Lemma validate_metadata_run m u : snd (validate_metadata settings m u) = u.
Proof.
  unfold validate_metadata. destruct (if truthy m then m else JObj []); try done.
  destruct (utf8 _); [|done]. rewrite run_bind, guard_run. by destruct (_ <=? _).
Qed.

Lemma lift_result_run {A} (r : result exn A) u : lift_result r u = (r, u).
Proof. by destruct r. Qed.

(** The fingerprint a row is compared by: the stored one, or that of its content. *)
Definition stored_fingerprint (e : Submission) : result exn pystr :=
  match s_request_fingerprint e with
  | Some ((_ :: _) as f) => Ok f
  | _ => submission_request_fingerprint (s_challenge_id e) (s_metadata e)
  end.

Lemma replay_run e f u :
  replay_or_conflict e f u
  = (match stored_fingerprint e with
     | Ok stored =>
         if bool_decide (stored = f) then Ok (mkCreated e true)
         else Raise (DomainExn ConflictError
                "Idempotency-Key is already associated with a different submission request.")
     | Raise x => Raise x
     end, u).
Proof.
  unfold replay_or_conflict, stored_fingerprint. rewrite run_bind.
  assert (match s_request_fingerprint e with
     | Some ((_ :: _) as f) => mret f
     | _ => lift_result (submission_request_fingerprint (s_challenge_id e) (s_metadata e))
     end u = (match s_request_fingerprint e with
     | Some ((_ :: _) as f) => Ok f
     | _ => submission_request_fingerprint (s_challenge_id e) (s_metadata e)
     end, u)) as ->.
  { destruct (s_request_fingerprint e) as [[|]|]; try apply lift_result_run. done. }
  destruct (match s_request_fingerprint e with Some ((_ :: _) as f) => _ | _ => _ end) as [stored|x]; [|done].
  rewrite run_bind, guard_run. by case_bool_decide.
Qed.

Lemma lookup_run p k db : snd (find_by_idempotency p k db) = db.
Proof. unfold find_by_idempotency. rewrite run_bind. cbn. by repeat case_match. Qed.

Lemma lock_challenge_run id u : snd (lock_open_challenge id u) = u.
Proof.
  unfold lock_open_challenge. rewrite run_bind. rewrite query_run by done. cbn [fst gets_st
    ChallengeRepository.get_for_submission_acceptance ChallengeRepository.get].
  rewrite run_bind, found_or_uow. destruct (challenges _ !! id) as [c|]; [|done].
  rewrite run_bind, guard_run. destruct (negb _); [|done].
  rewrite run_bind. rewrite query_run by done. cbn [fst gets_st HackathonRepository.get].
  rewrite run_bind, guard_run. destruct (hackathons _ !! _) as [h|]; [|done]. by destruct (_ && _).
Qed.

(** * What a creation leaves *)

(** The result replays a stored submission of the actor with this key and
    fingerprint. *)
Definition replays (db : Db) (actor : CurrentUser) (key fp : option pystr) (c : SubmissionCreateResult) : Prop :=
  cr_replayed c = true
  /\ exists i f, submissions db !! i = Some (cr_submission c)
     /\ s_participant_id (cr_submission c) = cu_id actor
     /\ s_idempotency_key (cr_submission c) = key /\ is_Some key
     /\ fp = Some f /\ stored_fingerprint (cr_submission c) = Ok f.

Lemma find_by_idempotency_found p k db x :
  fst (find_by_idempotency p k db) = Ok (Some x) ->
  exists i, submissions db !! i = Some x /\ s_participant_id x = p /\ s_idempotency_key x = Some k.
Proof.
  unfold find_by_idempotency. rewrite run_bind. cbn.
  destruct (rows_where (idem_match p k) (submissions db)) as [|r [|]] eqn:E; try done. intros [= ->].
  assert (x ∈ rows_where (idem_match p k) (submissions db)) as ((i & Hi) & Hm)%elem_of_rows_where
    by (rewrite E; left).
  unfold idem_match in Hm. rewrite andb_true_iff, !bool_decide_eq_true in Hm. destruct Hm. eauto.
Qed.

Lemma replay_replays db actor k f x u c :
  fst (find_by_idempotency (cu_id actor) k db) = Ok (Some x) ->
  fst (replay_or_conflict x f u) = Ok c -> replays db actor (Some k) (Some f) c.
Proof.
  intros (i & Hi & Hp & Hk)%find_by_idempotency_found Hr. rewrite replay_run in Hr. cbn [fst] in Hr.
  destruct (stored_fingerprint x) as [g|] eqn:Eg; [|done]. case_bool_decide as Hg; [|done]. injection Hr as <-.
  subst g. split; [done|]. cbn. exists i, f. split_and!; done.
Qed.

(** A session between statements, with nothing uncommitted. *)
Definition clean_at (db : Db) (s : Session) : Prop := committed s = db /\ working s = db.

(** [INSERT] and commit, or the compensation. *)
Definition insert_or_compensate (env : RequestEnv) (actor : CurrentUser) (challenge_id : uuid)
    (payload : dict) (akey key fp : option pystr) : M exn (Uow St) SubmissionCreateResult :=
  catch
    (s ← in_database (add_submission (re_fresh_row env) (re_now env) challenge_id (cu_id actor)
                        payload akey key fp);
     in_session commit ;;
     mret (mkCreated s false))
    (fun e =>
       in_session rollback ;;
       in_store (compensate_delete akey) ;;
       match e, key, fp with
       | IntegrityError _, Some k, Some f =>
           existing ← in_database (find_by_idempotency (cu_id actor) k);
           match existing with
           | Some x => replay_or_conflict x f
           | None => raise e
           end
       | _, _, _ => raise e
       end).

Definition new_submission (env : RequestEnv) (actor : CurrentUser) (challenge_id : uuid)
    (payload : dict) (akey key fp : option pystr) : Submission :=
  mkSubmission (re_fresh_row env) challenge_id (cu_id actor) S_CREATED payload akey key fp
    (re_now env) (re_now env) None.

Definition with_submission (row : Submission) (db : Db) : Db :=
  set_submissions (<[s_id row := row]> (submissions db)) db.

Definition compensated (akey : option pystr) (st : St) : St := snd (compensate_delete akey st).

Lemma clean_commits db s plan : clean_at db s -> clean_at db (s <| commits := plan |>).
Proof. done. Qed.

Lemma compensate_ok akey (st : St) : exists b, fst (compensate_delete akey st) = Ok b.
Proof.
  unfold compensate_delete, catch. destruct akey as [[|c k]|]; try by eexists.
  destruct (delete_blob (c :: k) st) as [[b|e] st']; by eexists.
Qed.

Lemma commit_cases s r s' :
  commit s = (r, s') ->
  working s' = working s
  /\ ((r = Ok tt /\ committed s' = working s) \/ (exists e, r = Raise e /\ committed s' = committed s)).
Proof. unfold commit. destruct (commits s) as [|[e|] plan]; intros [= <- <-]; cbn; eauto. Qed.

Lemma insert_or_compensate_run env actor cid payload akey key fp db u r u' :
  clean_at db (uow_session u) ->
  insert_or_compensate env actor cid payload akey key fp u = (r, u') ->
  (let row := new_submission env actor cid payload akey key fp in
   r = Ok (mkCreated row false) /\ clean_at (with_submission row db) (uow_session u')
   /\ uow_store u' = uow_store u
   /\ exists d, insert_submission row db = (Ok tt, d))
  \/ ((forall c, r = Ok c -> replays db actor key fp c) /\ clean_at db (uow_session u')
     /\ uow_store u' = compensated akey (uow_store u)).
Proof.
  intros [Hc Hw] E. unfold insert_or_compensate, catch in E.
  destruct ((s ← _; in_session commit ;; mret (mkCreated s false)) u) as [[x|e] u1] eqn:E1.
  - injection E as <- <-. left.
    apply bind_Ok_inv in E1 as (s & u2 & Hadd & Hk). rewrite database_run, Hw in Hadd.
    unfold add_submission in Hadd. rewrite run_bind in Hadd.
    fold (new_submission env actor cid payload akey key fp) in Hadd.
    destruct (insert_submission (new_submission env actor cid payload akey key fp) db) as [[[]|e] d] eqn:Ei; [|done].
    cbn in Hadd. injection Hadd as <- <-.
    apply bind_Ok_inv in Hk as (u3 & u4 & Hcommit & [= <- <-]).
    rewrite session_run in Hcommit.
    destruct (commit _) as [rc sc] eqn:Ec in Hcommit. apply commit_cases in Ec as [Hw' [[-> Hc']|(e & -> & _)]];
      [|done]. injection Hcommit as _ <-. pose proof Ei as (_ & _ & Hd)%insert_row_Ok.
    split; [done|]. split; [|by eauto]. cbn in Hc', Hw'. split; cbn; [rewrite Hc'|rewrite Hw']; exact Hd.
  - right.
    assert (committed (uow_session u1) = db /\ uow_store u1 = uow_store u) as [Hc1 Hst1].
    { rewrite run_bind in E1. rewrite database_run in E1.
      destruct (fst (add_submission _ _ _ _ _ _ _ _ _)) as [s|e2]; [|injection E1 as <- <-; by split].
      rewrite run_bind, session_run in E1. destruct (commit _) as [rc sc] eqn:Ec in E1.
      apply commit_cases in Ec as [_ [[-> _]|(e3 & -> & Hc')]]; [done|]. injection E1 as <- <-.
      split; [|done]. cbn. by rewrite Hc'. }
    rewrite run_bind, session_run in E. cbn in E. rewrite run_bind, store_run in E.
    destruct (compensate_ok akey (uow_store u1)) as [b Hb]. cbn [uow_store uow_session] in E. rewrite Hb in E.
    set (u2 := mkUow (uow_session u1 <| working := committed (uow_session u1) |>)
                     (snd (compensate_delete akey (uow_store u1)))) in *.
    assert (snd (r, u') = u2 /\ forall c, fst (r, u') = Ok c -> replays db actor key fp c) as [Hu2 Hr].
    { rewrite <-E. destruct e, key as [k|], fp as [f|]; try done.
      rewrite run_bind. rewrite query_run by apply lookup_run.
      destruct (fst (find_by_idempotency _ _ _)) as [[x|]|] eqn:Ef; try done.
      split; [by rewrite replay_run|]. intros c. cbn in Ef. rewrite Hc1 in Ef. by apply (replay_replays db actor k f x). }
    cbn in Hu2, Hr. subst u'. split; [done|]. split; [by split|]. cbn. unfold compensated. by rewrite Hst1.
Qed.

(** The same, but for one new job of a submission. *)
Definition jobs_apart (db db' : Db) : Prop :=
  exists t, db' = set_ingestion_jobs t db
    /\ (t = ingestion_jobs db
        \/ exists f j, ingestion_jobs db !! f = None /\ new_job f j
             /\ is_Some (submissions db !! j_submission_id j) /\ t = <[f := j]> (ingestion_jobs db)).

Lemma jobs_apart_refl db : jobs_apart db db.
Proof. exists (ingestion_jobs db). split; [by destruct db|by left]. Qed.

Lemma enqueue_ingestion_run fresh now sid k db u r u' :
  clean_at db (uow_session u) -> enqueue_ingestion settings fresh now sid k u = (r, u') ->
  uow_store u' = uow_store u /\ jobs_apart db (committed (uow_session u')).
Proof.
  intros [Hc Hw] E. unfold enqueue_ingestion in E.
  assert (forall x : Uow St, x = u -> uow_store x = uow_store u /\ jobs_apart db (committed (uow_session x))) as Hsame.
  { intros x ->. split; [done|]. rewrite Hc. apply jobs_apart_refl. }
  destruct k as [k|]; [|injection E as _ <-; by apply Hsame].
  destruct (ingestion_enabled settings); [|injection E as _ <-; by apply Hsame].
  rewrite run_bind, database_run, Hw in E.
  destruct (enqueue_run fresh now sid k db) as [(j & Hrun & Hfree & Hnew & Hsub)|(e & Hrun)]; rewrite Hrun in E; cbn [fst snd] in E.
  - rewrite session_run in E. destruct (commit _) as [rc sc] eqn:Ec in E.
    apply commit_cases in Ec as [_ Hcase]. injection E as _ <-. split; [done|]. cbn.
    destruct Hcase as [[_ ->]|(e & _ & ->)].
    { eexists. split; [done|]. right. by exists fresh, j. }
    cbn. rewrite Hc. apply jobs_apart_refl.
  - injection E as _ <-. split; [done|]. cbn. rewrite Hc. apply jobs_apart_refl.
Qed.

(** What a creation request leaves: nothing of its own, its blob when the row
    could not be written and the store failed, or its row with its blob. *)
Inductive create_effect (env : RequestEnv) (others : Db -> Db) (actor : CurrentUser) (cid : uuid)
    (artifact : option ArtifactInput) (key fp : option pystr) (db : Db) (st : St) :
    result exn SubmissionCreateResult -> Db -> St -> Prop :=
| ce_nothing r db' :
    db' = db \/ db' = others db -> (forall c, r = Ok c -> replays db' actor key fp c) ->
    create_effect env others actor cid artifact key fp db st r db' st
| ce_put_failed r a st1 e akey :
    artifact = Some a -> akey = artifact_key_for cid (cu_id actor) (re_fresh_key env) (ai_filename a) ->
    put (re_mtime env) akey (ai_bytes a) (content_type_or (ai_content_type a)) st = (Raise e, st1) ->
    (forall c, r <> Ok c) ->
    create_effect env others actor cid artifact key fp db st r (others db) st1
| ce_compensated r a st1 k akey :
    artifact = Some a -> akey = artifact_key_for cid (cu_id actor) (re_fresh_key env) (ai_filename a) ->
    put (re_mtime env) akey (ai_bytes a) (content_type_or (ai_content_type a)) st = (Ok k, st1) ->
    (forall c, r = Ok c -> replays (others db) actor key fp c) ->
    create_effect env others actor cid artifact key fp db st r (others db) (compensated (Some akey) st1)
| ce_created r payload akey st1 db' d :
    match artifact with
    | None => akey = None /\ st1 = st
    | Some a => exists k, akey = Some (artifact_key_for cid (cu_id actor) (re_fresh_key env) (ai_filename a))
        /\ put (re_mtime env) (default [] akey) (ai_bytes a) (content_type_or (ai_content_type a)) st = (Ok k, st1)
    end ->
    let row := new_submission env actor cid payload akey key fp in
    insert_submission row (others db) = (Ok tt, d) ->
    jobs_apart (with_submission row (others db)) db' ->
    (r = Ok (mkCreated row false) \/ exists e, r = Raise e) ->
    create_effect env others actor cid artifact key fp db st r db' st1.

(** The tail of [create], from the lock on the challenge. *)
Definition create_tail (env : RequestEnv) (actor : CurrentUser) (cid : uuid) (payload : dict)
    (key fp : option pystr) (artifact : option ArtifactInput) : M exn (Uow St) SubmissionCreateResult :=
  lock_open_challenge cid ;;
  akey ← match artifact with
         | Some a => k ← store_artifact settings (re_mtime env) cid (cu_id actor) (re_fresh_key env) a;
                     mret (Some k)
         | None => mret None
         end;
  submission ← insert_or_compensate env actor cid payload akey key fp;
  if cr_replayed submission then mret submission
  else
    enqueue_ingestion settings (re_fresh_job env) (re_now env) (s_id (cr_submission submission)) akey ;;
    mret submission.

Lemma after_insert_effect env actor cid payload akey key fp db u r u' :
  clean_at db (uow_session u) ->
  (submission ← insert_or_compensate env actor cid payload akey key fp;
   if cr_replayed submission then mret submission
   else
     enqueue_ingestion settings (re_fresh_job env) (re_now env) (s_id (cr_submission submission)) akey ;;
     mret submission) u = (r, u') ->
  (let row := new_submission env actor cid payload akey key fp in
   (exists d, insert_submission row db = (Ok tt, d))
   /\ jobs_apart (with_submission row db) (committed (uow_session u')) /\ uow_store u' = uow_store u
   /\ (r = Ok (mkCreated row false) \/ exists e, r = Raise e))
  \/ ((forall c, r = Ok c -> replays db actor key fp c) /\ committed (uow_session u') = db
     /\ uow_store u' = compensated akey (uow_store u)).
Proof.
  intros Hclean E. rewrite run_bind in E.
  destruct (insert_or_compensate env actor cid payload akey key fp u) as [r1 u1] eqn:E1.
  destruct (insert_or_compensate_run env actor cid payload akey key fp db u r1 u1 Hclean E1)
    as [(-> & Hclean1 & Hst & Hins)|(Hrep & [Hc _] & Hst)].
  - left. cbn [cr_replayed] in E. rewrite run_bind in E.
    destruct (enqueue_ingestion _ _ _ _ _ u1) as [r2 u2] eqn:E2.
    destruct (enqueue_ingestion_run _ _ _ _ _ u1 r2 u2 Hclean1 E2) as [Hst2 Hjobs].
    destruct r2 as [[]|e]; injection E as <- <-; (split; [done|]); (split; [done|]); (split; [congruence|]); eauto.
  - right. destruct r1 as [c|e].
    + rewrite (proj1 (Hrep c eq_refl)) in E. injection E as <- <-. by split_and!.
    + injection E as <- <-. by split_and!.
Qed.

Lemma store_artifact_run mtime cid aid fresh a u :
  store_artifact settings mtime cid aid fresh a u
  = if zlen (ai_bytes a) <=? artifact_max_bytes settings then
      let key := artifact_key_for cid aid fresh (ai_filename a) in
      let out := put mtime key (ai_bytes a) (content_type_or (ai_content_type a)) (uow_store u) in
      (match fst out with Ok _ => Ok key | Raise e => Raise e end, mkUow (uow_session u) (snd out))
    else (Raise (invalid "Artifact exceeds the size limit."), u).
Proof.
  unfold store_artifact. rewrite run_bind, guard_run. destruct (_ <=? _); [|done].
  rewrite run_bind, store_run. by destruct (fst _).
Qed.

Lemma create_tail_effect env others actor cid payload key fp artifact db st u r u' :
  clean_at (others db) (uow_session u) -> uow_store u = st ->
  create_tail env actor cid payload key fp artifact u = (r, u') ->
  create_effect env others actor cid artifact key fp db st r (committed (uow_session u')) (uow_store u').
Proof.
  intros Hclean Hst E. unfold create_tail in E. rewrite run_bind in E.
  assert (snd (lock_open_challenge cid u) = u) as Hlock by apply lock_challenge_run.
  destruct (lock_open_challenge cid u) as [[ch|e] u1]; cbn in Hlock; subst u1.
  2: { injection E as <- <-. rewrite Hst, (proj1 Hclean). apply ce_nothing; [by right|done]. }
  rewrite run_bind in E. destruct artifact as [a|].
  - rewrite run_bind, store_artifact_run in E.
    destruct (_ <=? _); cbn zeta in E.
    2: { injection E as <- <-. rewrite Hst, (proj1 Hclean). apply ce_nothing; [by right|done]. }
    set (k0 := artifact_key_for cid (cu_id actor) (re_fresh_key env) (ai_filename a)) in *.
    destruct (put _ k0 _ _ (uow_store u)) as [[k|e] st1] eqn:Eput; cbn [fst snd] in E.
    + destruct (after_insert_effect env actor cid payload (Some k0) key fp (others db) (mkUow (uow_session u) st1) r u' Hclean E)
        as [((d & Hins) & Hjobs & Hst' & Hr)|(Hr & Hc & Hst')].
      * cbn in Hst'. rewrite Hst'. eapply (ce_created _ _ _ _ _ _ _ _ _ r payload (Some k0)); [|exact Hins|done|done].
        exists k. cbn. rewrite <-Hst. done.
      * rewrite Hc, Hst'. cbn. eapply ce_compensated; [done|done|rewrite <-Hst; exact Eput|done].
    + injection E as <- <-. cbn. rewrite (proj1 Hclean).
      eapply ce_put_failed; [done|done|rewrite <-Hst; exact Eput|done].
  - rewrite run_ret in E.
    destruct (after_insert_effect env actor cid payload None key fp (others db) u r u' Hclean E)
      as [((d & Hins) & Hjobs & Hst' & Hr)|(Hr & Hc & Hst')].
    + eapply (ce_created _ _ _ _ _ _ _ _ _ r payload None); [|exact Hins|done|done]. by rewrite Hst', Hst.
    + rewrite Hc. assert (uow_store u' = st) as -> by (by rewrite Hst', Hst). apply ce_nothing; [by right|done].
Qed.

(** The key and the payload of a request. *)
Definition request_key (ikey : option pystr) : option pystr :=
  let stripped := strip (default [] ikey) in if nonempty stripped then Some stripped else None.

Definition payload_of (metadata : json) : dict :=
  match (if truthy metadata then metadata else JObj []) with JObj d => d | _ => [] end.

Lemma validate_metadata_payload m u d : fst (validate_metadata settings m u) = Ok d -> d = payload_of m.
Proof.
  unfold validate_metadata, payload_of. destruct (if truthy m then m else JObj []); try done.
  destruct (utf8 _); [|done]. rewrite run_bind, guard_run. destruct (_ <=? _); [|done]. by intros [= <-].
Qed.

Definition request_fingerprint (cid : uuid) (metadata : json) (key : option pystr) : option pystr :=
  match key with
  | Some _ => match submission_request_fingerprint cid (payload_of metadata) with Ok f => Some f | Raise _ => None end
  | None => None
  end.

Lemma create_run env others actor cid metadata ikey artifact db u r u' :
  clean_at db (uow_session u) ->
  create settings env others actor cid metadata ikey artifact u = (r, u') ->
  create_effect env others actor cid artifact (request_key ikey)
    (request_fingerprint cid metadata (request_key ikey)) db (uow_store u) r
    (committed (uow_session u')) (uow_store u').
Proof.
  intros Hclean E. set (fp0 := request_fingerprint cid metadata (request_key ikey)).
  assert (forall r', (forall c, r' = Ok c -> replays db actor (request_key ikey) fp0 c) -> (r', u) = (r, u') ->
            create_effect env others actor cid artifact (request_key ikey) fp0 db (uow_store u) r
              (committed (uow_session u')) (uow_store u')) as Hsame.
  { intros r' Hr' [= <- <-]. apply ce_nothing; rewrite (proj1 Hclean); [by left|done]. }
  unfold create, require_participant in E. rewrite run_bind, guard_run in E.
  destruct (is_participant actor); [|by eapply Hsame in E].
  rewrite run_bind in E. pose proof (validate_metadata_run metadata u) as Hv.
  destruct (validate_metadata settings metadata u) as [[payload|e] u1] eqn:Ev; cbn in Hv; subst u1; [|by eapply Hsame in E].
  pose proof (validate_metadata_payload metadata u payload) as Hpay. rewrite Ev in Hpay. specialize (Hpay eq_refl).
  cbv zeta in E. fold (request_key ikey) in E.
  rewrite run_bind in E.
  assert (exists fp, (match request_key ikey with
    | Some _ => f ← lift_result (submission_request_fingerprint cid payload); mret (Some f)
    | None => mret None end) u = (fp, u) /\ forall f, fp = Ok f -> f = fp0) as (fp & Hfp & Hf).
  { unfold fp0, request_fingerprint. destruct (request_key ikey); [|eexists; split; [done|by intros f [= <-]]].
    rewrite run_bind, lift_result_run, <-Hpay.
    destruct (submission_request_fingerprint cid payload); eexists; split; try done. by intros f [= <-]. }
  rewrite Hfp in E. destruct fp as [fp|e]; [|by eapply Hsame in E]. rewrite (Hf fp eq_refl) in E. clear Hf Hfp.
  rewrite run_bind in E.
  destruct (request_key ikey) as [k|] eqn:Ek.
  - rewrite query_run in E by apply lookup_run. rewrite (proj2 Hclean) in E.
    destruct (fst (find_by_idempotency (cu_id actor) k db)) as [[x|]|e] eqn:Ex; [| |by eapply Hsame in E].
    + destruct fp0 as [f|] eqn:Ef; [|by eapply Hsame in E]. rewrite replay_run in E.
      eapply Hsame; [|exact E]. intros c Hc. eapply (replay_replays db actor k f x u); [done|by rewrite replay_run].
    + change ((interfere others ;; create_tail env actor cid payload (Some k) fp0 artifact) u = (r, u')) in E.
      rewrite run_bind in E. unfold interfere, others_commit in E. rewrite session_run in E. cbn [fst snd modify_st] in E.
      eapply create_tail_effect; [| |exact E]; [|done]. destruct Hclean as [-> ->]. by split.
  - change ((interfere others ;; create_tail env actor cid payload None fp0 artifact) u = (r, u')) in E.
    rewrite run_bind in E. unfold interfere, others_commit in E. rewrite session_run in E. cbn [fst snd modify_st] in E.
    eapply create_tail_effect; [| |exact E]; [|done]. destruct Hclean as [-> ->]. by split.
Qed.

(** * Creation: idempotency and blobs *)

(** At most one submission of a participant carries a key. *)
Definition keys_unique (db : Db) : Prop :=
  forall i j s t, submissions db !! i = Some s -> submissions db !! j = Some t ->
    s_participant_id s = s_participant_id t -> s_idempotency_key s = s_idempotency_key t ->
    is_Some (s_idempotency_key s) -> i = j.

Lemma keys_unique_insert row db d :
  keys_unique db -> insert_submission row db = (Ok tt, d) -> keys_unique (with_submission row db).
Proof.
  intros Hu (Hfree & Hok & _)%insert_row_Ok.
  rewrite !andb_true_iff in Hok. destruct Hok as (((_ & Hun) & _) & _).
  assert (forall j t, submissions db !! j = Some t -> s_participant_id t = s_participant_id row ->
            s_idempotency_key t = s_idempotency_key row -> is_Some (s_idempotency_key t) -> False) as Hno.
  { intros j t Ht Hp Hk [k Hs]. unfold submission_unique in Hun. rewrite <-Hk, Hs in Hun.
    apply negb_true_iff in Hun. pose proof (proj1 (rows_where_empty _ _) Hun j t Ht) as Hm.
    unfold idem_match in Hm. rewrite Hp, Hs, !bool_decide_eq_true_2 in Hm by done. done. }
  intros i j s t. cbn. intros [[<- <-]|[Hi Hs]]%lookup_insert_Some [[<- <-]|[Hj Ht]]%lookup_insert_Some Hp Hk Hsome; try done.
  - exfalso. apply (Hno j t Ht); [done|done|by rewrite <-Hk].
  - exfalso. by apply (Hno i s Hs).
  - by eapply Hu.
Qed.

Lemma keys_unique_jobs db db' : jobs_apart db db' -> keys_unique db -> keys_unique db'.
Proof. intros (t & -> & _) Hu. exact Hu. Qed.

(** C25 Idempotent creation: whatever other transactions commit in between and
    whichever commit fails, a participant has at most one submission per
    idempotency key, and every creation with that key that succeeds returns
    that very submission, stored, with the fingerprint of the request; a
    request with another fingerprint never succeeds. *)
Theorem create_idempotent env others actor cid metadata ikey artifact db u r u' k :
  clean_at db (uow_session u) -> keys_unique db -> keys_unique (others db) ->
  request_key ikey = Some k ->
  create settings env others actor cid metadata ikey artifact u = (r, u') ->
  keys_unique (committed (uow_session u'))
  /\ forall c, r = Ok c ->
     exists i, submissions (committed (uow_session u')) !! i = Some (cr_submission c)
     /\ s_participant_id (cr_submission c) = cu_id actor
     /\ s_idempotency_key (cr_submission c) = Some k
     /\ if cr_replayed c
        then exists f, stored_fingerprint (cr_submission c) = Ok f
                       /\ submission_request_fingerprint cid (payload_of metadata) = Ok f
        else s_request_fingerprint (cr_submission c) = request_fingerprint cid metadata (Some k).
Proof.
  intros Hclean Hu Hu2 Hk E. apply (create_run _ _ _ _ _ _ _ _ _ _ _ Hclean) in E. rewrite Hk in E.
  assert (forall db' c, replays db' actor (Some k) (request_fingerprint cid metadata (Some k)) c ->
    exists i, submissions db' !! i = Some (cr_submission c)
     /\ s_participant_id (cr_submission c) = cu_id actor
     /\ s_idempotency_key (cr_submission c) = Some k
     /\ if cr_replayed c
        then exists f, stored_fingerprint (cr_submission c) = Ok f
                       /\ submission_request_fingerprint cid (payload_of metadata) = Ok f
        else s_request_fingerprint (cr_submission c) = request_fingerprint cid metadata (Some k)) as Hrep.
  { intros db' c (Hc & i & f & H1' & H2' & H3' & _ & H4' & H5'). exists i. rewrite Hc. split_and!; try done.
    exists f. split; [done|]. unfold request_fingerprint in H4'.
    destruct (submission_request_fingerprint _ _); congruence. }
  destruct E as [r db' Hdb Hr|r a st1 e akey _ _ _ Hr|r a st1 k' akey _ _ _ Hr|r payload akey st1 db' d _ row Hins Hjobs Hr].
  - split; [by destruct Hdb as [-> | ->]|]. intros c ->. by apply Hrep, Hr.
  - split; [done|]. intros c ->. by destruct (Hr c).
  - split; [done|]. intros c ->. by apply Hrep, Hr.
  - split; [eapply keys_unique_jobs; [done|by eapply keys_unique_insert]|].
    intros c ->. destruct Hr as [[= ->]|[e [=]]]. destruct Hjobs as (t & -> & _).
    exists (re_fresh_row env). split_and!; try done. cbn. apply lookup_insert_eq.
Qed.

(** The blob of every committed submission is in the store. *)
Definition refs_ok (db : Db) (st : St) : Prop :=
  forall i s k, submissions db !! i = Some s -> s_artifact_key s = Some k -> is_Some (blob st k).

(** A key that no submission has, and that cannot disturb the blobs of those
    that have one. *)
Definition key_fresh (db : Db) (key : pystr) : Prop :=
  forall i s k, submissions db !! i = Some s -> s_artifact_key s = Some k -> k <> key /\ apart key k.

Lemma refs_ok_frame db st st' key :
  refs_ok db st -> key_fresh db key -> (forall k, apart key k -> blob st' k = blob st k) -> refs_ok db st'.
Proof. intros Hrefs Hfresh Hframe i s k Hs Hk. rewrite Hframe; [by eapply Hrefs|]. by eapply Hfresh. Qed.

Context {laws : ArtifactStorageLaws St}.

Lemma compensated_frame key st k : apart key k -> blob (compensated (Some key) st) k = blob st k.
Proof using laws.
  intros Ha. unfold compensated, compensate_delete. destruct key as [|c key]; [done|].
  unfold catch. destruct (delete_blob (c :: key) st) as [[b|e] st'] eqn:Ed; cbn; by eapply delete_frame.
Qed.

Lemma compensated_gone key st :
  key <> [] -> blob (compensated (Some key) st) key = None \/ exists e st', delete_blob key st = (Raise e, st').
Proof using laws.
  intros Hne. unfold compensated, compensate_delete. destruct key as [|c key]; [done|].
  unfold catch. destruct (delete_blob (c :: key) st) as [[b|e] st'] eqn:Ed; cbn; [left|right; eauto].
  by eapply delete_removes.
Qed.

(** Blob before row: whichever commit fails and whatever other transactions
    commit meanwhile, no committed submission refers to a missing blob; a
    creation that succeeds with an artifact has stored exactly its bytes, and
    one that leaves no row of its own leaves no blob either, unless the store
    itself failed. *)
Theorem create_blob_first env others actor cid metadata ikey a db u r u' :
  clean_at db (uow_session u) -> refs_ok db (uow_store u) -> refs_ok (others db) (uow_store u) ->
  let key := artifact_key_for cid (cu_id actor) (re_fresh_key env) (ai_filename a) in
  key_fresh (others db) key ->
  create settings env others actor cid metadata ikey (Some a) u = (r, u') ->
  refs_ok (committed (uow_session u')) (uow_store u')
  /\ ((exists row, submissions (committed (uow_session u')) !! re_fresh_row env = Some row
        /\ s_artifact_key row = Some key /\ blob (uow_store u') key = Some (ai_bytes a)
        /\ (r = Ok (mkCreated row false) \/ exists e, r = Raise e))
      \/ ((forall c, r = Ok c -> cr_replayed c = true)
          /\ (blob (uow_store u') key = blob (uow_store u) key \/ blob (uow_store u') key = None
              \/ (exists e st, put (re_mtime env) key (ai_bytes a) (content_type_or (ai_content_type a)) (uow_store u)
                               = (Raise e, st))
              \/ exists e st st', delete_blob key st = (Raise e, st')))).
Proof using laws.
  intros Hclean Hrefs Hrefs2 key Hfresh E. apply (create_run _ _ _ _ _ _ _ _ _ _ _ Hclean) in E.
  assert (key <> []) as Hne by done.
  remember (Some a) as art eqn:Hart.
  destruct E as [r db' Hdb Hr|r a' st1 e akey Ha Hkey Hput Hr|r a' st1 k' akey Ha Hkey Hput Hr
    |r payload akey st1 db' d Hput row Hins Hjobs Hr].
  - split; [by destruct Hdb as [-> | ->]|]. right. split; [|by left]. intros c Hc. by destruct (Hr c Hc).
  - rewrite Hart in Ha. injection Ha as <-. fold key in Hkey. subst akey. split.
    + eapply refs_ok_frame; [exact Hrefs2|exact Hfresh|]. intros k Hk. by eapply put_frame.
    + right. split; [intros c Hc; by destruct (Hr c)|]. right. right. left. eauto.
  - rewrite Hart in Ha. injection Ha as <-. fold key in Hkey. subst akey. split.
    + eapply refs_ok_frame; [exact Hrefs2|exact Hfresh|]. intros k Hk.
      rewrite compensated_frame by done. by eapply put_frame.
    + right. split; [intros c Hc; by destruct (Hr c Hc)|].
      destruct (compensated_gone key st1 Hne) as [?|(e & st' & ?)]; eauto 10.
  - rewrite Hart in Hput. destruct Hput as (k & Hak & Hput). fold key in Hak. subst akey. cbn in Hput.
    apply insert_row_Ok in Hins as (_ & _ & _). destruct Hjobs as (t & -> & _).
    destruct (put_stores _ _ _ _ _ _ _ Hput) as [-> Hblob]. split.
    + intros i s k0. cbn. intros [[<- <-]|[Hne' Hs]]%lookup_insert_Some Hk0.
      * cbn in Hk0. injection Hk0 as <-. by eexists.
      * erewrite put_frame; [by eapply Hrefs2|done|]. by eapply Hfresh.
    + left. exists row. split; [cbn; apply lookup_insert_eq|]. by split_and!.
Qed.
End Runs.

(** * Accepted submissions and their evaluations *)

Section Link.
Context {St : Type} `{ArtifactStorage St} `{Sha256} `{FloatRepr} `{FloatParse} `{PyRepr}.
Context (settings : Settings).
Implicit Types u : Uow St.

(** Every accepted submission has exactly one evaluation, and only accepted
    ones have any. *)
Definition link_ok (db : Db) : Prop :=
  (forall i s, submissions db !! i = Some s -> s_id s = i)
  /\ (forall i s, submissions db !! i = Some s -> s_status s = S_SUBMITTED ->
       exists j e, evaluations db !! j = Some e /\ e_submission_id e = i)
  /\ (forall j e, evaluations db !! j = Some e ->
       exists s, submissions db !! e_submission_id e = Some s /\ s_status s = S_SUBMITTED)
  /\ (forall j1 j2 e1 e2, evaluations db !! j1 = Some e1 -> evaluations db !! j2 = Some e2 ->
       e_submission_id e1 = e_submission_id e2 -> j1 = j2).

(** Changing a row without accepting it, or adding one that is not accepted. *)
Lemma link_ok_row db i r' :
  link_ok db -> s_id r' = i ->
  match submissions db !! i with
  | Some r => s_status r' = s_status r \/ (s_status r <> S_SUBMITTED /\ s_status r' <> S_SUBMITTED)
  | None => s_status r' <> S_SUBMITTED
  end ->
  link_ok (set_submissions (<[i := r']> (submissions db)) db).
Proof.
  intros (H1' & H2' & H3' & H4') Hid Hst. split_and!; cbn.
  - intros j s [[<- <-]|[_ Hj]]%lookup_insert_Some; [done|by apply H1'].
  - intros j s [[<- <-]|[_ Hj]]%lookup_insert_Some Hs; [|by apply (H2' j s)].
    destruct (submissions db !! i) as [r|] eqn:Hr; [|done].
    destruct Hst as [Heq|[_ Hno]]; [|done]. apply (H2' i r Hr). congruence.
  - intros j e He. destruct (H3' j e He) as (s & Hs & Hss).
    destruct (decide (i = e_submission_id e)) as [->|Hne].
    + rewrite lookup_insert_eq. rewrite Hs in Hst. eexists. split; [done|].
      destruct Hst as [->|[Hno _]]; done.
    + rewrite lookup_insert_ne by done. eauto.
  - exact H4'.
Qed.

Lemma link_ok_jobs db db' : jobs_apart db db' -> link_ok db -> link_ok db'.
Proof. intros (t & -> & _) Hl. exact Hl. Qed.

(** Accepting a submission together with its evaluation. *)
Lemma link_ok_accept db i s e fresh :
  link_ok db -> submissions db !! i = Some s -> s_status s = S_CREATED ->
  e_submission_id e = i -> evaluations db !! fresh = None ->
  forall t, s_id t = i -> s_status t = S_SUBMITTED ->
  link_ok (set_evaluations (<[fresh := e]> (evaluations db)) (set_submissions (<[i := t]> (submissions db)) db)).
Proof.
  intros (H1' & H2' & H3' & H4') Hs Hst He Hfree t Hid Ht.
  assert (forall j e', evaluations db !! j = Some e' -> e_submission_id e' <> i) as Hnone.
  { intros j e' He' Heq. destruct (H3' j e' He') as (s' & Hs' & Hst'). rewrite Heq in Hs'. congruence. }
  split_and!; cbn.
  - intros j s' [[<- <-]|[_ Hj]]%lookup_insert_Some; [done|by apply H1'].
  - intros j s' [[<- <-]|[Hne Hj]]%lookup_insert_Some Hs'.
    + exists fresh, e. by rewrite lookup_insert_eq.
    + destruct (H2' j s' Hj Hs') as (j' & e' & He' & Heq). exists j', e'. split; [|done].
      rewrite lookup_insert_ne; [done|]. intros <-. by rewrite Hfree in He'.
  - intros j e' [[<- <-]|[_ Hj]]%lookup_insert_Some.
    + rewrite He, lookup_insert_eq. eauto.
    + destruct (H3' j e' Hj) as (s' & Hs' & Hst'). rewrite lookup_insert_ne; [eauto|].
      intros Heq. by apply (Hnone j e' Hj).
  - intros j1 j2 e1 e2 [[<- <-]|[_ Hj1]]%lookup_insert_Some [[<- <-]|[_ Hj2]]%lookup_insert_Some Heq; try done.
    + exfalso. apply (Hnone j2 e2 Hj2). congruence.
    + exfalso. apply (Hnone j1 e1 Hj1). congruence.
    + by eapply H4'.
Qed.

Lemma transition_run id p target now db :
  (exists s, submissions db !! id = Some s /\ s_participant_id s = p /\ s_status s = S_CREATED
     /\ transition_if_created id p target now db
        = let t := s <| s_status := target |> <| s_updated_at := now |> in
          if submission_check s then (Ok (Some t), set_submissions (<[id := t]> (submissions db)) db)
          else (Raise (IntegrityError "submissions"), db))
  \/ (transition_if_created id p target now db = (Ok None, db)
     /\ forall s, submissions db !! id = Some s -> s_participant_id s = p -> s_status s <> S_CREATED).
Proof.
  unfold transition_if_created, get_submission, gets_st. rewrite run_bind.
  destruct (submissions db !! id) as [s|] eqn:Hs; [|right; naive_solver].
  case_bool_decide as Hp; cbn [andb]; [|right; naive_solver].
  case_bool_decide as Hst; [|right; naive_solver]. left. exists s. split_and!; try done.
  rewrite run_bind, update_row_run. change (submission_check _) with (submission_check s).
  by destruct (submission_check s).
Qed.

(** What a submit leaves: the submission accepted and its evaluation queued, in
    one commit, or nothing. *)
Definition accepted (env : RequestEnv) (id : uuid) (s : Submission) (deadline : option datetime) (db : Db)
    : SubmissionSubmitResult * Db :=
  let t := s <| s_status := S_SUBMITTED |> <| s_updated_at := re_now env |> in
  let e := mkEvaluation (re_fresh_row env) (s_id t) E_QUEUED (re_now env) None None 0 None None [] None
             (parse_workload_class (dget_null (s_metadata s) (py "workload_class"))) 0
             (mode_of settings (s_metadata s)) deadline in
  (mkSubmitted t e,
   set_evaluations (<[re_fresh_row env := e]> (evaluations db)) (set_submissions (<[id := t]> (submissions db)) db)).

Lemma submit_run env actor id db u r u' :
  clean_at db (uow_session u) -> submit settings env actor id u = (r, u') ->
  uow_store u' = uow_store u
  /\ ((committed (uow_session u') = db
       /\ forall x, r = Ok x -> s_status (sr_submission x) = S_SUBMITTED
            /\ submissions db !! id = Some (sr_submission x) /\ s_participant_id (sr_submission x) = cu_id actor
            /\ exists j, evaluations db !! j = Some (sr_evaluation x) /\ e_submission_id (sr_evaluation x) = id)
      \/ exists s deadline, submissions db !! id = Some s /\ s_status s = S_CREATED
         /\ s_participant_id s = cu_id actor /\ evaluations db !! re_fresh_row env = None
         /\ deadline_of (re_now env) (dget_null (s_metadata s) (py "evaluation_deadline_seconds")) = Ok deadline
         /\ r = Ok (fst (accepted env id s deadline db))
         /\ committed (uow_session u') = snd (accepted env id s deadline db)).
Proof.
  intros [Hc Hw] E. unfold submit, require_participant in E. rewrite run_bind, guard_run in E.
  destruct (is_participant actor); [|injection E as <- <-; split; [done|left; by split]].
  rewrite run_bind, database_run, Hw in E.
  destruct (transition_run id (cu_id actor) S_SUBMITTED (re_now env) db)
    as [(s & Hs & Hp & Hst & Hrun)|[Hrun Hno]]; rewrite Hrun in E; cbn [fst snd] in E.
  - cbv zeta in E. destruct (submission_check s); cbn [fst snd] in E;
      [|injection E as <- <-; split; [done|left; split; [exact Hc|done]]].
    set (t := s <| s_status := S_SUBMITTED |> <| s_updated_at := re_now env |>) in *.
    rewrite run_bind, lift_result_run in E.
    change (dget_null (s_metadata t)) with (dget_null (s_metadata s)) in E.
    destruct (deadline_of (re_now env) (dget_null (s_metadata s) (py "evaluation_deadline_seconds"))) as [dl|e] eqn:Edl;
      [|injection E as <- <-; split; [done|left; split; [exact Hc|done]]].
    rewrite run_bind, database_run in E. cbn [uow_session working setf eta Session_eta Uow_eta] in E.
    set (db1 := set_submissions (<[id := t]> (submissions db)) db) in *.
    unfold create_queued in E. rewrite run_bind in E.
    set (ev := mkEvaluation _ _ _ _ _ _ _ _ _ _ _ _ _ _ _) in E.
    destruct (insert_evaluation ev db1) as [[[]|e] db2] eqn:Eins; cbn [fst snd] in E;
      [|injection E as <- <-; split; [done|left; split; [exact Hc|done]]].
    apply insert_row_Ok in Eins as (Hfree & _ & ->).
    rewrite run_ret in E. cbn [fst snd] in E.
    rewrite run_bind, session_run in E. destruct (commit _) as [rc sc] eqn:Ec in E.
    apply commit_cases in Ec as [_ [[-> Hc']|(e & -> & Hc')]]; injection E as <- <-; (split; [done|]).
    + right. exists s, dl. split_and!; try done.
    + left. split; [|done]. cbn. rewrite Hc'. exact Hc.
  - rewrite run_bind in E. rewrite query_run in E by done. cbn [uow_session working setf eta Session_eta Uow_eta fst get_submission gets_st] in E.
    rewrite run_bind, found_or_uow in E.
    destruct (submissions db !! id) as [cur|] eqn:Hs; [|injection E as <- <-; split; [done|left; by split]].
    rewrite run_bind, guard_run in E. case_bool_decide as Hp; [|injection E as <- <-; split; [done|left; by split]].
    case_bool_decide as Hst; [|injection E as <- <-; split; [done|left; by split]].
    rewrite run_bind in E. rewrite query_run in E by (intros db0; unfold get_by_submission; rewrite run_bind; cbn; by repeat case_match).
    unfold get_by_submission in E. rewrite run_bind in E. cbn [get_st uow_session working setf eta Session_eta Uow_eta] in E.
    destruct (rows_where _ (evaluations db)) as [|e [|]] eqn:Erow; cbn [fst] in E;
      injection E as <- <-; (split; [done|left; split; [done|]]); try done.
    intros x [= <-]. cbn. split_and!; try done.
    assert (e ∈ rows_where (fun r => bool_decide (e_submission_id r = id)) (evaluations db)) as ((j & Hj) & Hb)%elem_of_rows_where
      by (rewrite Erow; left).
    exists j. split; [done|]. by apply bool_decide_eq_true in Hb.
Qed.

Lemma cancel_run env actor id db u r u' :
  clean_at db (uow_session u) -> cancel env actor id u = (r, u') ->
  uow_store u' = uow_store u
  /\ (committed (uow_session u') = db
      \/ exists s, submissions db !! id = Some s /\ s_participant_id s = cu_id actor
         /\ s_status s = S_CREATED
         /\ committed (uow_session u')
            = set_submissions (<[id := s <| s_status := S_CANCELLED |> <| s_updated_at := re_now env |>]>
                                 (submissions db)) db).
Proof.
  intros [Hc Hw] E. unfold cancel, transition_to in E. rewrite run_bind, database_run, Hw in E.
  destruct (transition_run id (cu_id actor) S_CANCELLED (re_now env) db)
    as [(s & Hs & Hp & Hst & Hrun)|[Hrun _]]; rewrite Hrun in E; cbn [fst snd] in E.
  - cbv zeta in E. destruct (submission_check s); cbn [fst snd] in E;
      [|injection E as <- <-; split; [done|left; exact Hc]].
    rewrite run_bind, session_run in E. destruct (commit _) as [rc sc] eqn:Ec in E.
    apply commit_cases in Ec as [_ [[-> Hc']|(e & -> & Hc')]]; injection E as <- <-; (split; [done|]).
    + right. exists s. by split_and!.
    + left. cbn. rewrite Hc'. exact Hc.
  - rewrite run_bind in E. rewrite query_run in E by done.
    cbn [uow_session working setf eta Session_eta Uow_eta fst get_submission gets_st] in E.
    rewrite run_bind, found_or_uow in E.
    assert (forall e : exn, (Raise e : result exn Submission, mkUow (uow_session u <| working := db |>) (uow_store u)) = (r, u') ->
      uow_store u' = uow_store u /\ committed (uow_session u') = db) as Hend.
    { intros e [= <- <-]. by split. }
    enough (uow_store u' = uow_store u /\ committed (uow_session u') = db) as [? ?] by auto.
    destruct (submissions db !! id); [|by eapply Hend].
    rewrite run_bind, guard_run in E. case_bool_decide; by eapply Hend.
Qed.

(** The flush of an update, its commit or its compensation. *)
Lemma commit_or_compensate_run id f key db u r u' :
  clean_at db (uow_session u) -> commit_or_compensate id f key u = (r, u') ->
  (r = Ok tt /\ uow_store u' = uow_store u
   /\ exists s, submissions db !! id = Some s
      /\ clean_at (set_submissions (<[id := f s]> (submissions db)) db) (uow_session u'))
  \/ (exists e, r = Raise e) /\ clean_at db (uow_session u') /\ uow_store u' = compensated key (uow_store u).
Proof.
  intros [Hc Hw] E. unfold commit_or_compensate, catch in E.
  destruct ((in_database (flush_columns id f) ;; in_session commit) u) as [[[]|e] u1] eqn:E1.
  - left. injection E as <- <-. split; [done|]. apply bind_Ok_inv in E1 as ([] & u2 & Hf & Hcm).
    rewrite database_run, Hw in Hf. unfold flush_columns, get_submission, gets_st in Hf. rewrite run_bind in Hf.
    destruct (submissions db !! id) as [s|]; [|done]. rewrite update_row_run in Hf.
    destruct (submission_check (f s)); cbn [fst snd] in Hf; [|done]. injection Hf as <-.
    rewrite session_run in Hcm. destruct (commit _) as [rc sc] eqn:Ec in Hcm.
    apply commit_cases in Ec as [Hw' [[-> Hc']|(e & -> & _)]]; [|done]. injection Hcm as <-.
    split; [done|]. exists s. split; [done|]. by split.
  - right. assert (committed (uow_session u1) = db /\ uow_store u1 = uow_store u) as [Hc1 Hst1].
    { rewrite run_bind, database_run in E1. destruct (fst (flush_columns id f _)) as [[]|e2]; [|by injection E1 as <- <-].
      rewrite session_run in E1. destruct (commit _) as [rc sc] eqn:Ec in E1.
      apply commit_cases in Ec as [_ [[-> _]|(e3 & -> & Hc')]]; [done|]. injection E1 as <- <-. split; [|done].
      cbn. by rewrite Hc'. }
    rewrite run_bind, session_run in E. cbn [fst snd rollback modify_st] in E. rewrite run_bind, store_run in E.
    cbn [uow_store uow_session] in E. destruct (compensate_ok key (uow_store u1)) as [b Hb]. rewrite Hb in E.
    injection E as <- <-. split; [by eexists|]. split; [by split|]. cbn. unfold compensated. by rewrite Hst1.
Qed.

Lemma own_created_row_run actor id u :
  own_created_row actor id u
  = (match submissions (working (uow_session u)) !! id with
     | Some s => if bool_decide (s_participant_id s = cu_id actor) then
                   if bool_decide (s_status s = S_CREATED) then Ok s
                   else Raise (invalid "Only submissions in CREATED can be updated.")
                 else Raise (denied "You cannot modify this submission.")
     | None => Raise (DomainExn NotFoundError "Submission not found.")
     end, u).
Proof.
  unfold own_created_row. rewrite run_bind. rewrite query_run by done.
  cbn [fst get_submission_row get_submission gets_st]. rewrite run_bind, found_or_uow.
  destruct (submissions _ !! id); [|done]. rewrite run_bind, guard_run. case_bool_decide; [|done].
  rewrite run_bind, guard_run. by case_bool_decide.
Qed.

(** What an update leaves in the database: nothing of its own, or one change of
    columns that keeps the identity and status of the row as it is then. *)
Lemma update_run env others actor id metadata artifact db u r u' :
  clean_at db (uow_session u) ->
  update_created settings env others actor id metadata artifact u = (r, u') ->
  committed (uow_session u') = db \/ committed (uow_session u') = others db
  \/ exists s t db', submissions (others db) !! id = Some s /\ s_id t = s_id s
     /\ s_participant_id t = s_participant_id s /\ s_status t = s_status s
     /\ (s_challenge_id t = s_challenge_id s /\ s_idempotency_key t = s_idempotency_key s
         /\ s_request_fingerprint t = s_request_fingerprint s)
     /\ db' = set_submissions (<[id := t]> (submissions (others db))) (others db)
     /\ jobs_apart db' (committed (uow_session u')).
Proof.
  intros Hclean E. unfold update_created in E. rewrite run_bind, own_created_row_run in E.
  assert (forall (e : exn), (Raise e, u) = (r, u') -> committed (uow_session u') = db) as Hearly
    by (intros e [= <- <-]; apply Hclean).
  destruct (match submissions _ !! id with Some s => _ | None => _ end) as [row|e]; [|left; by eapply Hearly].
  rewrite run_bind in E. unfold interfere, others_commit in E. rewrite session_run in E. cbn [fst snd modify_st] in E.
  set (u1 := mkUow _ (uow_store u)) in E.
  assert (clean_at (others db) (uow_session u1)) as Hclean1 by (destruct Hclean as [H1' H2']; split; cbn; congruence).
  clearbody u1. right. rewrite run_bind in E.
  destruct ((match metadata with Some m => d ← validate_metadata settings m; mret (Some d) | None => mret None end) u1)
    as [nm u2] eqn:Em.
  assert (u2 = u1) as ->.
  { destruct metadata as [m|]; [|by injection Em]. rewrite run_bind in Em.
    pose proof (validate_metadata_run settings m u1) as Hv.
    destruct (validate_metadata settings m u1) as [[d|e] u3]; cbn in Hv; by injection Em; congruence. }
  destruct nm as [nm|e]; [|left; injection E as <- <-; apply Hclean1].
  rewrite run_bind in E.
  destruct ((match artifact with
     | Some a => k ← store_artifact settings (re_mtime env) (s_challenge_id row) (cu_id actor) (re_fresh_key env) a; mret (Some k)
     | None => mret None end) u1) as [nk u2] eqn:Ek.
  assert (uow_session u2 = uow_session u1) as Hs2.
  { destruct artifact as [a|]; [|by injection Ek as <- <-]. rewrite run_bind, store_artifact_run in Ek.
    destruct (_ <=? _); [|by injection Ek as <- <-]. cbn zeta in Ek.
    destruct (fst (put _ _ _ _ _)); by injection Ek as <- <-. }
  assert (clean_at (others db) (uow_session u2)) as Hclean2 by (by rewrite Hs2).
  destruct nk as [nk|e]; [|left; injection E as <- <-; apply Hclean2].
  cbv zeta in E. rewrite run_bind in E.
  set (f := fun r0 : Submission => _ <| s_updated_at := re_now env |>) in E.
  assert (forall s, s_id (f s) = s_id s /\ s_participant_id (f s) = s_participant_id s
            /\ s_status (f s) = s_status s
            /\ (s_challenge_id (f s) = s_challenge_id s /\ s_idempotency_key (f s) = s_idempotency_key s
                /\ s_request_fingerprint (f s) = s_request_fingerprint s)) as Hf
    by (intros s; unfold f; by destruct nm, nk).
  clearbody f. destruct (commit_or_compensate id f nk u2) as [r3 u3] eqn:E3.
  destruct (commit_or_compensate_run id f nk _ u2 r3 u3 Hclean2 E3)
    as [(-> & _ & s & Hs & Hclean3)|([e ->] & Hclean3 & _)]; [|left; injection E as <- <-; apply Hclean3].
  right. exists s, (f s), (set_submissions (<[id := f s]> (submissions (others db))) (others db)).
  split; [done|]. do 4 (split; [apply Hf|]). split; [done|].
  rewrite run_bind in E.
  assert (exists u4, drop_previous (s_artifact_key row) nk u3 = (Ok tt, u4) /\ uow_session u4 = uow_session u3) as (u4 & E4 & Hs4).
  { unfold drop_previous. destruct nk as [n|]; [|by eexists]. destruct (s_artifact_key row) as [[|c p]|]; try by eexists.
    case_bool_decide; [by eexists|]. rewrite run_bind, store_run.
    destruct (compensate_ok (@Some pystr (c :: p)) (uow_store u3)) as [b ->]. by eexists. }
  rewrite E4 in E. rewrite run_bind in E. rewrite <-Hs4 in Hclean3.
  destruct (enqueue_ingestion settings _ _ id nk u4) as [r5 u5] eqn:E5.
  destruct (enqueue_ingestion_run settings _ _ _ _ _ u4 r5 u5 Hclean3 E5) as [_ Hj].
  by destruct r5; injection E as <- <-.
Qed.

Lemma submit_link env actor id db u :
  link_ok db -> clean_at db (uow_session u) -> link_ok (committed (uow_session (snd (submit settings env actor id u)))).
Proof.
  intros Hl Hclean. destruct (submit settings env actor id u) as [r u'] eqn:E. cbn [snd].
  destruct (submit_run _ _ _ _ _ _ _ Hclean E) as [_ [[-> _]|(s & dl & Hs & Hst & _ & Hfree & _ & _ & ->)]]; [done|].
  apply (link_ok_accept db id s); try done; exact (proj1 Hl id s Hs).
Qed.

(** One request of a participant, with what its environment supplies: the fate
    of its commits and what other transactions commit in its middle. *)
Inductive SubmissionRequest :=
| RCreate (env : RequestEnv) (others : Db -> Db) (actor : CurrentUser) (challenge_id : uuid)
    (metadata : json) (ikey : option pystr) (artifact : option ArtifactInput)
| RUpdate (env : RequestEnv) (others : Db -> Db) (actor : CurrentUser) (id : uuid)
    (metadata : option json) (artifact : option ArtifactInput)
| RSubmit (env : RequestEnv) (actor : CurrentUser) (id : uuid)
| RCancel (env : RequestEnv) (actor : CurrentUser) (id : uuid).

Definition serve_submission (q : SubmissionRequest) (plan : list (option exn)) (db : Db) (st : St) : Db * St :=
  let u := mkUow (begin db plan) st in
  let after {A} (c : M exn (Uow St) A) := let u' := snd (c u) in (committed (uow_session u'), uow_store u') in
  match q with
  | RCreate env others a c m k art => after (create settings env others a c m k art)
  | RUpdate env others a i m art => after (update_created settings env others a i m art)
  | RSubmit env a i => after (submit settings env a i)
  | RCancel env a i => after (cancel env a i)
  end.

Definition others_of (q : SubmissionRequest) : Db -> Db :=
  match q with
  | RCreate _ others _ _ _ _ _ | RUpdate _ others _ _ _ _ => others
  | _ => fun db => db
  end.

(** C24 Accepted if and only if evaluated: after any creation, update, submit or
    cancel, whatever commit fails and whatever other requests commit in its
    middle, every accepted submission has exactly one evaluation and no other
    submission has any; neither half of the acceptance is ever visible without
    the other. *)
Theorem accepted_iff_evaluated (q : SubmissionRequest) (plan : list (option exn)) (db : Db) (st : St) :
  link_ok db -> link_ok (others_of q db) -> link_ok (fst (serve_submission q plan db st)).
Proof.
  intros Hl Hl2. assert (clean_at db (uow_session (mkUow (begin db plan) st))) as Hclean by done.
  destruct q as [env others a cid m k art|env others a id m art|env a id|env a id]; cbn [others_of] in Hl2;
    unfold serve_submission; cbn [fst].
  - destruct (create settings env others a cid m k art _) as [r u'] eqn:E.
    apply (create_run settings _ _ _ _ _ _ _ _ _ _ _ Hclean) in E. cbn [snd].
    destruct E as [r db' Hdb _|r a' st1 e akey _ _ _ _|r a' st1 k' akey _ _ _ _|r payload akey st1 db' d _ row Hins Hjobs _].
    + by destruct Hdb as [-> | ->].
    + done.
    + done.
    + eapply link_ok_jobs; [done|]. apply insert_row_Ok in Hins as (Hfree & _).
      apply link_ok_row; [done|done|]. by rewrite Hfree.
  - destruct (update_created settings env others a id m art _) as [r u'] eqn:E. cbn [snd].
    destruct (update_run _ _ _ _ _ _ _ _ _ _ Hclean E) as [-> |[-> |(s & t & db' & Hs & Hid & _ & Hst & _ & -> & Hj)]]; try done.
    eapply link_ok_jobs; [done|]. apply link_ok_row; [done| |].
    + rewrite Hid. exact (proj1 Hl2 id s Hs).
    + rewrite Hs. by left.
  - by apply submit_link with db.
  - destruct (cancel env a id _) as [r u'] eqn:E. cbn [snd].
    destruct (cancel_run _ _ _ _ _ _ _ Hclean E) as [_ [-> |(s & Hs & _ & Hst & ->)]]; [done|].
    apply link_ok_row; [done|exact (proj1 Hl id s Hs)|]. rewrite Hs. right. cbn. by rewrite Hst.
Qed.

(** Submitting is idempotent: a submit that succeeds returns an accepted
    submission of the caller and its evaluation; submitting again, by a retry
    after a lost response, returns the same pair and changes nothing, even if
    every later commit fails. *)
Theorem submit_idempotent env env2 actor id db plan plan2 st x u' :
  link_ok db -> submit settings env actor id (mkUow (begin db plan) st) = (Ok x, u') ->
  let db' := committed (uow_session u') in
  s_status (sr_submission x) = S_SUBMITTED /\ s_participant_id (sr_submission x) = cu_id actor
  /\ e_submission_id (sr_evaluation x) = id
  /\ fst (submit settings env2 actor id (mkUow (begin db' plan2) st)) = Ok x
  /\ committed (uow_session (snd (submit settings env2 actor id (mkUow (begin db' plan2) st)))) = db'.
Proof.
  intros Hl E db'. assert (clean_at db (uow_session (mkUow (begin db plan) st))) as Hclean by done.
  assert (is_participant actor = true) as Hpart.
  { unfold submit, require_participant in E. rewrite run_bind, guard_run in E. by destruct (is_participant actor). }
  assert (link_ok db') as Hl'.
  { pose proof (submit_link env actor id db _ Hl Hclean) as Hfin. by rewrite E in Hfin. }
  assert (submissions db' !! id = Some (sr_submission x) /\ s_status (sr_submission x) = S_SUBMITTED
    /\ s_participant_id (sr_submission x) = cu_id actor
    /\ exists j, evaluations db' !! j = Some (sr_evaluation x) /\ e_submission_id (sr_evaluation x) = id)
    as (Hs & Hst & Hp & j & Hj & He).
  { destruct (submit_run _ _ _ _ _ _ _ Hclean E) as [_ [[Hc Hx]|(s & dl & Hs & Hst & Hp & Hfree & _ & Hr & Hc)]].
    - destruct (Hx x eq_refl) as (H1' & H2' & H3' & j & H4'). unfold db'. rewrite Hc. split_and!; eauto.
    - injection Hr as ->. unfold db'. rewrite Hc. cbn. rewrite !lookup_insert_eq. split_and!; try done.
      exists (re_fresh_row env). rewrite lookup_insert_eq. split; [done|]. exact (proj1 Hl id s Hs). }
  split; [done|]. split; [done|]. split; [done|].
  unfold submit, require_participant. rewrite run_bind, guard_run, Hpart, run_bind, database_run.
  cbn [uow_session working begin].
  destruct (transition_run id (cu_id actor) S_SUBMITTED (re_now env2) db') as [(s & Hs' & _ & Hst' & _)|[-> _]];
    [congruence|].
  cbn [fst snd uow_session working begin setf eta Session_eta Uow_eta]. rewrite run_bind. rewrite query_run by done.
  cbn [fst get_submission gets_st uow_session working begin]. rewrite run_bind, found_or_uow, Hs.
  rewrite run_bind, guard_run, (bool_decide_eq_true_2 _ Hp), (bool_decide_eq_true_2 _ Hst), run_bind.
  rewrite query_run by (intros db0; unfold get_by_submission; rewrite run_bind; cbn; by repeat case_match).
  unfold get_by_submission. rewrite run_bind. cbn [get_st uow_session working begin].
  assert (rows_where (fun r => bool_decide (e_submission_id r = id)) (evaluations db') = [sr_evaluation x]) as ->.
  { apply (rows_where_singleton _ _ j); [exact Hj|by apply bool_decide_eq_true_2|].
    intros j' e' He' Hb%bool_decide_eq_true_1. destruct Hl' as (_ & _ & _ & Huniq).
    eapply Huniq; [exact He'|exact Hj|congruence]. }
  cbn. split; [by destruct x|done].
Qed.

(** Who may read a submission: the participant it belongs to, and the
    organizer of the hackathon of its challenge, nobody else; the reader gets
    the stored row and reading changes nothing. *)
Theorem submission_visible_iff actor id u :
  snd (get_for actor id u) = u
  /\ forall s, fst (get_for actor id u) = Ok s <->
     let db := working (uow_session u) in
     submissions db !! id = Some s
     /\ (s_participant_id s = cu_id actor
         \/ (is_organizer actor = true
            /\ exists c h, challenges db !! s_challenge_id s = Some c
               /\ hackathons db !! c_hackathon_id c = Some h /\ h_organizer_id h = cu_id actor)).
Proof.
  unfold get_for. rewrite run_bind. rewrite query_run by done. cbn [fst get_submission gets_st].
  rewrite run_bind, found_or_uow. destruct (submissions _ !! id) as [s0|] eqn:Hs; [|split; [done|naive_solver]].
  rewrite run_bind, guard_run.
  destruct (decide (s_participant_id s0 = cu_id actor)) as [Hp|Hp].
  { rewrite bool_decide_eq_true_2 by done. cbn [orb negb]. rewrite andb_false_r. split; [done|]. naive_solver. }
  rewrite bool_decide_eq_false_2 by done. cbn [orb negb]. rewrite andb_true_r.
  destruct (is_organizer actor) eqn:Ho; [|split; [done|naive_solver]].
  rewrite run_bind. rewrite query_run by done. cbn [fst ChallengeRepository.get gets_st].
  rewrite run_bind, found_or_uow. destruct (challenges _ !! _) as [c|] eqn:Hc; [|split; [done|naive_solver]].
  rewrite run_bind. rewrite query_run by done. cbn [fst HackathonRepository.get gets_st].
  rewrite run_bind, guard_run. destruct (hackathons _ !! _) as [h|] eqn:Hh; [|split; [done|naive_solver]].
  case_bool_decide; split; try done; naive_solver.
Qed.
End Link.

Module SubmissionSample.
Definition sha : Sha256 := fun _ => py "f".
Definition repr : FloatRepr := fun _ => [].
Definition parse : FloatParse := fun _ => None.
Definition prepr : PyRepr := fun _ => [].
Definition actor : CurrentUser := mkCurrentUser 2 (py "Pat") PARTICIPANT.
Definition env : RequestEnv := mkRequestEnv 100 101 102 50 (of_Z 9).
Definition hackathon : Hackathon := mkHackathon 5 (py "H") (py "d") H_PUBLISHED 1 0 0.
Definition challenge : Challenge :=
  mkChallenge 7 5 (py "C") (py "d") [] C_PUBLISHED (mkSpec (py "s") 0 0) [] 0 0.
Definition open_db : Db :=
  mkDb {[2 := mkUser 2 (py "Pat") PARTICIPANT 0]} {[5 := hackathon]} {[7 := challenge]} ∅ ∅ None ∅ ∅.
Definition created : Submission := mkSubmission 100 7 2 S_CREATED [] None None None 0 0 None.
Definition created_db : Db := set_submissions {[100 := created]} open_db.
Definition fs0 : Fs := mkFs ∅.
Definition upload : ArtifactInput := mkArtifact (py "bytes") None (Some (py "a.TXT")).
Definition u0 : Uow Fs := mkUow (begin open_db []) fs0.
Definition u1 : Uow Fs := mkUow (begin created_db []) fs0.
Definition run_create (artifact : option ArtifactInput) (plan : list (option exn)) :=
  create (H := LocalFilesystemStorage) (H0 := sha) (H1 := repr) default_settings env id actor 7
    (JObj []) (Some (py " k ")) artifact (mkUow (begin open_db plan) fs0).

Lemma no_submissions : submissions open_db = ∅.
Proof. reflexivity. Qed.

Lemma created_link : link_ok created_db.
Proof.
  assert (forall i s, submissions created_db !! i = Some s -> i = 100 /\ s = created) as Hone.
  { intros i s Hs. change (({[100 := created]} : gmap uuid Submission) !! i = Some s) in Hs.
    by apply lookup_singleton_Some in Hs as [<- <-]. }
  split_and!.
  - intros i s [-> ->]%Hone. reflexivity.
  - intros i s [-> ->]%Hone. discriminate.
  - intros j e He. change ((∅ : gmap uuid Evaluation) !! j = Some e) in He. by rewrite lookup_empty in He.
  - intros j1 j2 e1 e2 He. change ((∅ : gmap uuid Evaluation) !! j1 = Some e1) in He. by rewrite lookup_empty in He.
Qed.

Lemma empty_unique db : submissions db = ∅ -> keys_unique db.
Proof. intros H0 i j s t Hs. by rewrite H0, lookup_empty in Hs. Qed.
End SubmissionSample.

Lemma create_idempotent_witness :
  cr_replayed <$> (match fst (SubmissionSample.run_create None []) with Ok c => Some c | Raise _ => None end) = Some false
  /\ keys_unique (committed (uow_session (snd (SubmissionSample.run_create None [])))).
Proof.
  split; [vm_compute; reflexivity|].
  apply (create_idempotent (H := LocalFilesystemStorage) (H0 := SubmissionSample.sha) (H1 := SubmissionSample.repr)
           default_settings SubmissionSample.env id SubmissionSample.actor 7 (JObj []) (Some (py " k ")) None
           SubmissionSample.open_db SubmissionSample.u0 (fst (SubmissionSample.run_create None [])) _ (py "k")).
  - by split.
  - by apply SubmissionSample.empty_unique.
  - by apply SubmissionSample.empty_unique.
  - vm_compute. reflexivity.
  - exact (surjective_pairing (SubmissionSample.run_create None [])).
Defined.

Lemma create_blob_first_witness :
  refs_ok (H := LocalFilesystemStorage)
    (committed (uow_session (snd (SubmissionSample.run_create (Some SubmissionSample.upload) [Some (OtherError "connection")]))))
    (uow_store (snd (SubmissionSample.run_create (Some SubmissionSample.upload) [Some (OtherError "connection")]))).
Proof.
  apply (create_blob_first (H := LocalFilesystemStorage) (H0 := SubmissionSample.sha) (H1 := SubmissionSample.repr)
           default_settings (laws := LocalFilesystemStorage_laws) SubmissionSample.env id SubmissionSample.actor 7
           (JObj []) (Some (py " k ")) SubmissionSample.upload SubmissionSample.open_db
           (mkUow (begin SubmissionSample.open_db [Some (OtherError "connection")]) SubmissionSample.fs0)
           (fst (SubmissionSample.run_create (Some SubmissionSample.upload) [Some (OtherError "connection")]))).
  - by split.
  - intros i s k Hs. change ((∅ : gmap uuid Submission) !! i = Some s) in Hs. by rewrite lookup_empty in Hs.
  - intros i s k Hs. change ((∅ : gmap uuid Submission) !! i = Some s) in Hs. by rewrite lookup_empty in Hs.
  - intros i s k Hs. change ((∅ : gmap uuid Submission) !! i = Some s) in Hs. by rewrite lookup_empty in Hs.
  - exact (surjective_pairing (SubmissionSample.run_create (Some SubmissionSample.upload) [Some (OtherError "connection")])).
Defined.

Lemma accepted_iff_evaluated_witness :
  link_ok (fst (serve_submission (H := LocalFilesystemStorage) (H0 := SubmissionSample.sha) (H1 := SubmissionSample.repr)
    (H2 := SubmissionSample.parse) (H3 := SubmissionSample.prepr) default_settings
    (RSubmit SubmissionSample.env SubmissionSample.actor 100) [] SubmissionSample.created_db SubmissionSample.fs0)).
Proof.
  apply (accepted_iff_evaluated (H := LocalFilesystemStorage) (H0 := SubmissionSample.sha) (H1 := SubmissionSample.repr)
    (H2 := SubmissionSample.parse) (H3 := SubmissionSample.prepr) default_settings
    (RSubmit SubmissionSample.env SubmissionSample.actor 100) [] SubmissionSample.created_db SubmissionSample.fs0);
    exact SubmissionSample.created_link.
Defined.

Lemma submit_idempotent_witness :
  let out := submit (H2 := SubmissionSample.parse) (H3 := SubmissionSample.prepr) default_settings
               SubmissionSample.env SubmissionSample.actor 100 SubmissionSample.u1 in
  exists x, fst out = Ok x /\ e_submission_id (sr_evaluation x) = 100.
Proof.
  intros out.
  assert (exists x, out = (Ok x, snd out)) as [x Hx] by (eexists; vm_compute; reflexivity).
  exists x. split; [by rewrite Hx|].
  apply (submit_idempotent (H2 := SubmissionSample.parse) (H3 := SubmissionSample.prepr) default_settings
    SubmissionSample.env SubmissionSample.env SubmissionSample.actor 100 SubmissionSample.created_db [] []
    SubmissionSample.fs0 x (snd out) SubmissionSample.created_link Hx).
Defined.
