(* ===== verification/Runtime.v ===== *)
(** The resource-aware runtime of the evaluation plane
    (src/challengeforge/runtime): budgets, the observer, the pressure
    classifier, the interactive latency signal with its hysteresis controller,
    the adaptive concurrency controller, admission, and the tick that wires
    them together.

    Clocks and the measurements of psutil are arguments.  The controllers are
    mutable objects of the code: their updates are computations over their
    state. *)
From Stdlib Require Import ZArith Lia String.
From stdpp Require Import prelude strings gmap sorting.
From S2P Require Import Prelude PyFloat PyStr Domain Config.

(** * Enumerations *)

(** [runtime/pressure.py:11-14 PressureState] *)
Inductive PressureState := NORMAL | PRESSURED | DEGRADED.
#[export] Instance PressureState_eq_dec : EqDecision PressureState.
Proof. solve_decision. Defined.
#[export] Instance PressureState_enum : StrEnum PressureState := {|
  value s := match s with
             | NORMAL => "normal" | PRESSURED => "pressured" | DEGRADED => "degraded"
             end;
  members := [NORMAL; PRESSURED; DEGRADED];
|}.
#[export] Instance PressureState_ok : StrEnumOk PressureState.
Proof. split; [by intros []; set_solver | by intros [] []]. Qed.

(** [runtime/interactive_signal.py:24-27 InteractiveLevel] *)
Inductive InteractiveLevel := HEALTHY | WARN | CRITICAL.
#[export] Instance InteractiveLevel_eq_dec : EqDecision InteractiveLevel.
Proof. solve_decision. Defined.
#[export] Instance InteractiveLevel_enum : StrEnum InteractiveLevel := {|
  value s := match s with HEALTHY => "healthy" | WARN => "warn" | CRITICAL => "critical" end;
  members := [HEALTHY; WARN; CRITICAL];
|}.
#[export] Instance InteractiveLevel_ok : StrEnumOk InteractiveLevel.
Proof. split; [by intros []; set_solver | by intros [] []]. Qed.

(** * Budgets *)

(** [runtime/budgets.py:14-40 ResourceBudget] *)
Record ResourceBudget := mkBudget {
  min_evaluation_concurrency : Z;
  max_evaluation_concurrency : Z;
  max_concurrent_heavy : Z;
  max_queued_evaluations_soft : Z;
  max_queued_evaluations_hard : Z;
  cpu_low_percent : float;
  cpu_high_percent : float;
  memory_soft_mb : float;
  memory_hard_mb : float;
  adjust_cooldown_seconds : float;
  interactive_p95_warn_ms : float;
  interactive_p95_critical_ms : float;
  interactive_p95_recovery_ms : float;
  interactive_min_samples : Z;
  interactive_sustain_seconds : float;
  interactive_critical_hold_all : bool;
}.

(** [runtime/budgets.py:42-65 ResourceBudget.from_settings] *)
Definition from_settings (s : Settings) : ResourceBudget :=
  let max_conc := Z.max 1 (evaluation_max_workers s) in
  let min_conc := Z.max 1 (Z.min (evaluation_min_workers s) max_conc) in
  {| min_evaluation_concurrency := min_conc;
     max_evaluation_concurrency := max_conc;
     max_concurrent_heavy := Z.max 0 (Z.min (evaluation_max_concurrent_heavy s) max_conc);
     max_queued_evaluations_soft := evaluation_busy_queue_depth s;
     max_queued_evaluations_hard := evaluation_saturated_queue_depth s;
     cpu_low_percent := resource_cpu_low_percent s;
     cpu_high_percent := resource_cpu_high_percent s;
     memory_soft_mb := resource_memory_soft_mb s;
     memory_hard_mb := resource_memory_hard_mb s;
     adjust_cooldown_seconds := resource_adjust_cooldown_seconds s;
     interactive_p95_warn_ms := resource_interactive_p95_warn_ms s;
     interactive_p95_critical_ms := resource_interactive_p95_critical_ms s;
     interactive_p95_recovery_ms := resource_interactive_p95_recovery_ms s;
     interactive_min_samples := resource_interactive_min_samples s;
     interactive_sustain_seconds := resource_interactive_sustain_seconds s;
     interactive_critical_hold_all := resource_interactive_critical_hold_all s |}.

(** [runtime/budgets.py:67-71 ResourceBudget.clamp_concurrency] *)
Definition clamp_concurrency (b : ResourceBudget) (v : Z) : Z :=
  Z.max (min_evaluation_concurrency b) (Z.min (max_evaluation_concurrency b) v).

(** * Observation *)

(** [runtime/observer.py:9-16 ResourceSnapshot] *)
Record ResourceSnapshot := mkResourceSnapshot {
  rs_cpu_percent : option float;
  rs_rss_mb : option float;
  rs_queued_evaluations : Z;
  rs_running_evaluations : Z;
  rs_interactive_p95_ms : option float;
  rs_sampled_at : float;
}.

(** What psutil answers for this process: a CPU percentage and a resident set
    size in bytes, [None] where the call raises. *)
Record HostView := mkHost {
  hv_cpu_percent : option float;
  hv_rss_bytes : option Z;
}.

(** [runtime/observer.py:25-56 ResourceObserver.sample]; the state is [_primed]. *)
Definition sample (host : HostView) (wall : float) (queued running : Z)
    (interactive_p95_ms : option float) : M exn bool ResourceSnapshot := fun primed =>
  let snapshot cpu rss :=
    mkResourceSnapshot cpu rss (Z.max 0 queued) (Z.max 0 running) interactive_p95_ms wall in
  match hv_cpu_percent host with
  | None => (Ok (snapshot None None), primed)
  | Some measured =>
      match hv_rss_bytes host with
      | None => (Ok (snapshot None None), true)
      | Some bytes =>
          (Ok (snapshot (Some (if primed then measured else fzero))
                 (Some (fround 2 (int_truediv bytes (1024 * 1024))))), true)
      end
  end.

(** * Pressure *)

(** [x is not None and x >= limit] *)
Definition reaches (x : option float) (limit : float) : bool :=
  match x with Some v => fge v limit | None => false end.

(** [runtime/pressure.py:20-50 PressureClassifier.classify] *)
Definition classify (s : ResourceSnapshot) (b : ResourceBudget) : PressureState :=
  let cpu := rs_cpu_percent s in
  let rss := rs_rss_mb s in
  let queued := rs_queued_evaluations s in
  let interactive := rs_interactive_p95_ms s in
  let hard_cpu := reaches cpu (cpu_high_percent b) in
  let hard_mem := reaches rss (memory_hard_mb b) in
  let hard_queue := max_queued_evaluations_hard b <=? queued in
  let hard_interactive :=
    fgt (interactive_p95_critical_ms b) fzero
    && reaches interactive (interactive_p95_critical_ms b) in
  if hard_cpu || hard_mem || hard_queue || hard_interactive then DEGRADED
  else
    let soft_cpu :=
      reaches cpu (fdiv (fadd (cpu_low_percent b) (cpu_high_percent b)) (of_Z 2)) in
    let soft_mem := reaches rss (memory_soft_mb b) in
    let soft_queue := max_queued_evaluations_soft b <=? queued in
    let soft_interactive :=
      fgt (interactive_p95_warn_ms b) fzero
      && reaches interactive (interactive_p95_warn_ms b) in
    if soft_cpu || soft_mem || soft_queue || soft_interactive then PRESSURED
    else NORMAL.

(** * The interactive latency signal *)

(** [runtime/interactive_signal.py:35-52 is_interactive_control_path] *)
Definition is_interactive_control_path (method path : pystr) : bool :=
  let m := upper method in
  let method_is s := bool_decide (m = py s) in
  if negb (method_is "GET" || method_is "POST")%string then false
  else if negb (startswith path (py "/api/v1/")) then false
  else if startswith path (py "/api/v1/challenges/") && method_is "GET"%string then true
  else if contains path (py "/submissions") && method_is "POST"%string then true
  else if startswith path (py "/api/v1/users/") && contains path (py "/submissions")
          && method_is "GET"%string then true
  else if startswith path (py "/api/v1/submissions/") && endswith path (py "/evaluation")
          && method_is "GET"%string then true
  else false.

Definition float_le (a b : float) : Prop := fle a b = true.
#[export] Instance float_le_dec a b : Decision (float_le a b).
Proof. unfold float_le. apply _. Defined.

(** [sorted(values)] *)
Definition sorted_floats (values : list float) : list float := merge_sort float_le values.

(** [min(len(ordered) - 1, max(0, math.ceil(len(ordered) * fraction) - 1))]: the
    index, with [math.ceil] of a product that is neither infinite nor a NaN. *)
Definition percentile_index (n : Z) (fraction : float) : Z :=
  Z.min (n - 1) (Z.max 0 (default 0 (fceil (fmul (of_Z n) fraction)) - 1)).

(** [runtime/interactive_signal.py:55-60 percentile] *)
Definition percentile (values : list float) (fraction : float) : float :=
  match values with
  | [] => fzero
  | _ =>
      let ordered := sorted_floats values in
      default fzero (ordered !! Z.to_nat (percentile_index (zlen ordered) fraction))
  end.

(** [runtime/interactive_signal.py:63-69 RollingLatencyWindow] *)
Record RollingLatencyWindow := mkWindow {
  window_seconds : float;
  max_samples : Z;
  samples : list (float * float);
}.
#[export] Instance RollingLatencyWindow_eta : Eta RollingLatencyWindow := fun w =>
  mkWindow (window_seconds w) (max_samples w) (samples w).

(** [while self._samples and self._samples[0][0] < cutoff: popleft()] *)
Fixpoint drop_old (cutoff : float) (l : list (float * float)) : list (float * float) :=
  match l with
  | [] => []
  | (t, v) :: l' => if flt t cutoff then drop_old cutoff l' else l
  end.

(** [while len(self._samples) > self.max_samples: popleft()]; the deque of a
    negative limit is emptied, where the code raises [IndexError]. *)
Fixpoint drop_excess (limit : Z) (l : list (float * float)) : list (float * float) :=
  match l with
  | [] => []
  | _ :: l' => if limit <? zlen l then drop_excess limit l' else l
  end.

(** [runtime/interactive_signal.py:76-81 RollingLatencyWindow._trim] *)
Definition trim (now : float) (w : RollingLatencyWindow) : RollingLatencyWindow :=
  let cutoff := fsub now (window_seconds w) in
  w <| samples := drop_excess (max_samples w) (drop_old cutoff (samples w)) |>.

(** [runtime/interactive_signal.py:71-74 RollingLatencyWindow.record] *)
Definition record_latency (latency_ms now : float) : M exn RollingLatencyWindow unit :=
  modify_st (fun w => trim now (w <| samples := samples w ++ [(now, latency_ms)] |>)).

(** [runtime/interactive_signal.py:83-86 RollingLatencyWindow.sample_count] *)
Definition sample_count (now : float) : M exn RollingLatencyWindow Z :=
  modify_st (trim now) ;;
  gets_st (fun w => zlen (samples w)).

(** [runtime/interactive_signal.py:88-93 RollingLatencyWindow.p95_ms] *)
Definition p95_ms (now : float) : M exn RollingLatencyWindow (option float) :=
  modify_st (trim now) ;;
  gets_st (fun w => match samples w with
                    | [] => None
                    | l => Some (percentile l.*2 (lit 95 100))
                    end).

(** * The hysteresis controller *)

(** One entry of [history]. *)
Record LevelChange := mkLevelChange {
  lc_at : float;
  lc_from : InteractiveLevel;
  lc_to : InteractiveLevel;
  lc_p95_ms : float;
  lc_sample_count : Z;
}.

(** [runtime/interactive_signal.py:108-131 InteractiveFeedbackController] *)
Record Feedback := mkFeedback {
  warn_ms : float;
  critical_ms : float;
  recovery_ms : float;
  min_samples : Z;
  sustain_seconds : float;
  cooldown_seconds : float;
  level : InteractiveLevel;
  candidate : option InteractiveLevel;
  candidate_since : option float;
  last_change_at : option float;
  fb_history : list LevelChange;
}.
#[export] Instance Feedback_eta : Eta Feedback := fun f =>
  mkFeedback (warn_ms f) (critical_ms f) (recovery_ms f) (min_samples f) (sustain_seconds f)
    (cooldown_seconds f) (level f) (candidate f) (candidate_since f) (last_change_at f)
    (fb_history f).

(** [runtime/interactive_signal.py:133-135 InteractiveFeedbackController.enabled] *)
Definition fb_enabled (f : Feedback) : bool :=
  fgt (warn_ms f) fzero && fgt (critical_ms f) fzero.

(** [runtime/interactive_signal.py:137-142 InteractiveFeedbackController.effective_recovery_ms] *)
Definition effective_recovery_ms (f : Feedback) : float :=
  if fgt (recovery_ms f) fzero then recovery_ms f
  else if fgt (warn_ms f) fzero then fmul (warn_ms f) (lit 8 10)
  else fzero.

(** [runtime/interactive_signal.py:196-217 InteractiveFeedbackController._desired_level] *)
Definition desired_level (f : Feedback) (p95 : float) : InteractiveLevel :=
  let recovery := effective_recovery_ms f in
  match level f with
  | CRITICAL =>
      if fle p95 recovery then HEALTHY
      else if fge p95 (critical_ms f) then CRITICAL
      else if fge p95 (warn_ms f) then WARN
      else HEALTHY
  | WARN =>
      if fle p95 recovery then HEALTHY
      else if fge p95 (critical_ms f) then CRITICAL
      else WARN
  | HEALTHY =>
      if fge p95 (critical_ms f) then CRITICAL
      else if fge p95 (warn_ms f) then WARN
      else HEALTHY
  end.

(** [t is not None and now - t < d] *)
Definition within (now : float) (t : option float) (d : float) : bool :=
  match t with Some t => flt (fsub now t) d | None => false end.

(** [self._candidate = None; self._candidate_since = None] *)
Definition no_candidate (f : Feedback) : Feedback :=
  f <| candidate := None |> <| candidate_since := None |>.

(** [runtime/interactive_signal.py:144-194 InteractiveFeedbackController.update] *)
Definition update (p95 : option float) (count : Z) (now : float) : M exn Feedback InteractiveLevel :=
  f ← get_st;
  if negb (fb_enabled f) then
    put_st (f <| level := HEALTHY |>) ;; mret HEALTHY
  else
    match p95 with
    | None => mret (level f)
    | Some p =>
        if count <? min_samples f then mret (level f)
        else
          let desired := desired_level f p in
          if bool_decide (desired = level f) then
            put_st (no_candidate f) ;; mret (level f)
          else if within now (last_change_at f) (cooldown_seconds f) then mret (level f)
          else if negb (bool_decide (candidate f = Some desired)) then
            put_st (f <| candidate := Some desired |> <| candidate_since := Some now |>) ;;
            mret (level f)
          else
            match candidate_since f with
            | None => raise AssertionError
            | Some since =>
                if flt (fsub now since) (sustain_seconds f) then mret (level f)
                else
                  put_st (no_candidate f <| level := desired |> <| last_change_at := Some now |>
                            <| fb_history := fb_history f
                                 ++ [mkLevelChange now (level f) desired p count] |>) ;;
                  mret desired
            end
    end.

Definition pressure_order (s : string) : Z :=
  if String.eqb s (value NORMAL) then 0
  else if String.eqb s (value PRESSURED) then 1
  else if String.eqb s (value DEGRADED) then 2
  else 0.

Definition interactive_as (l : InteractiveLevel) : PressureState :=
  match l with HEALTHY => NORMAL | WARN => PRESSURED | CRITICAL => DEGRADED end.

(** [runtime/interactive_signal.py:220-236 merge_pressure] *)
Definition merge_pressure (resource : string) (interactive : InteractiveLevel) : string :=
  let as_ := value (interactive_as interactive) in
  if pressure_order resource <=? pressure_order as_ then as_ else resource.

(** * The adaptive concurrency controller *)

(** One entry of [history]. *)
Record Adjustment := mkAdjustment {
  ad_at : float;
  ad_from : Z;
  ad_to : Z;
  ad_reason : string;
  ad_pressure : PressureState;
  ad_queued : Z;
  ad_cpu_percent : option float;
  ad_rss_mb : option float;
}.

(** [runtime/controller.py:16-21 AdaptiveConcurrencyController] *)
Record Controller := mkController {
  ct_budget : ResourceBudget;
  effective_max_workers : option Z;
  last_adjust_at : option float;
  ct_history : list Adjustment;
}.
#[export] Instance Controller_eta : Eta Controller := fun c =>
  mkController (ct_budget c) (effective_max_workers c) (last_adjust_at c) (ct_history c).

(** [runtime/controller.py:23-30 AdaptiveConcurrencyController.__post_init__] *)
Definition new_controller (b : ResourceBudget) (effective : option Z) : Controller :=
  mkController b
    (Some match effective with
          | None => min_evaluation_concurrency b
          | Some n => clamp_concurrency b n
          end) None [].

(** [n or d] on an optional integer. *)
Definition int_or (n : option Z) (d : Z) : Z :=
  match n with
  | Some n => if n =? 0 then d else n
  | None => d
  end.

(** [x is None or x <= limit] *)
Definition at_most (x : option float) (limit : float) : bool :=
  match x with Some v => fle v limit | None => true end.

(** The target of one adjustment with its reason. *)
Definition adjust_target (b : ResourceBudget) (pressure : PressureState) (s : ResourceSnapshot)
    (current : Z) : Z * string :=
  match pressure with
  | DEGRADED =>
      if min_evaluation_concurrency b <? current then (current - 1, "degraded_decrease"%string)
      else (current, "hold"%string)
  | PRESSURED =>
      if min_evaluation_concurrency b + 1 <? current then
        (current - 1, "pressured_decrease"%string)
      else (current, "pressured_hold"%string)
  | NORMAL =>
      let cpu_ok := at_most (rs_cpu_percent s) (cpu_low_percent b) in
      let mem_ok := at_most (rs_rss_mb s) (memory_soft_mb b) in
      if (0 <? rs_queued_evaluations s) && cpu_ok && mem_ok
         && (current <? max_evaluation_concurrency b)
      then (current + 1, "normal_backlog_increase"%string)
      else (current, "normal_hold"%string)
  end.

(** [runtime/controller.py:32-96 AdaptiveConcurrencyController.adjust] *)
Definition adjust (pressure : PressureState) (s : ResourceSnapshot) (now : float)
    : M exn Controller Z :=
  c ← get_st;
  let b := ct_budget c in
  let current := clamp_concurrency b (int_or (effective_max_workers c) 1) in
  if within now (last_adjust_at c) (adjust_cooldown_seconds b) then mret current
  else
    let '(target, reason) := adjust_target b pressure s current in
    let target := clamp_concurrency b target in
    if bool_decide (target = current) then mret (int_or (effective_max_workers c) target)
    else
      put_st (c <| last_adjust_at := Some now |> <| effective_max_workers := Some target |>
                <| ct_history := ct_history c
                     ++ [mkAdjustment now current target reason pressure
                           (rs_queued_evaluations s) (rs_cpu_percent s) (rs_rss_mb s)] |>) ;;
      mret (int_or (Some target) target).

(** * Admission *)

(** [runtime/admission.py:14-18 AdmissionDecision] *)
Record AdmissionDecision := mkDecision {
  allowed : bool;
  ad_dec_reason : string;
  ad_dec_pressure : PressureState;
}.

(** [runtime/admission.py:30-61 ExpensiveAdmission.decide] *)
Definition decide_admission (pressure : PressureState) (b : ResourceBudget) (s : ResourceSnapshot)
    (effective : Z) (interactive_level : InteractiveLevel) (critical_hold_all : bool)
    : AdmissionDecision :=
  if Z.max 1 effective <=? rs_running_evaluations s then
    mkDecision false "global_concurrency_full" pressure
  else if critical_hold_all && bool_decide (interactive_level = CRITICAL) then
    mkDecision false "interactive_critical_hold_all" pressure
  else if bool_decide (pressure = DEGRADED) && reaches (rs_rss_mb s) (memory_hard_mb b)
          && (0 <? rs_running_evaluations s) then
    mkDecision false "degraded_memory_hold" pressure
  else mkDecision true "admitted" pressure.

(** * The runtime *)

(** [runtime/runtime.py:21-34 ResourceAwareRuntime] *)
Record Runtime := mkRuntime {
  rt_budget : ResourceBudget;
  rt_enabled : bool;
  rt_primed : bool;
  rt_controller : Controller;
  rt_feedback : Feedback;
  rt_last_snapshot : option ResourceSnapshot;
  rt_last_pressure : PressureState;
  rt_last_level : InteractiveLevel;
  rt_interactive_p95_ms : option float;
  rt_interactive_sample_count : Z;
}.
#[export] Instance Runtime_eta : Eta Runtime := fun r =>
  mkRuntime (rt_budget r) (rt_enabled r) (rt_primed r) (rt_controller r) (rt_feedback r)
    (rt_last_snapshot r) (rt_last_pressure r) (rt_last_level r) (rt_interactive_p95_ms r)
    (rt_interactive_sample_count r).

(** [runtime/runtime.py:36-47 ResourceAwareRuntime.__post_init__] *)
Definition new_runtime (b : ResourceBudget) (enabled : bool) : Runtime :=
  mkRuntime b enabled false (new_controller b None)
    (mkFeedback (interactive_p95_warn_ms b) (interactive_p95_critical_ms b)
       (interactive_p95_recovery_ms b) (interactive_min_samples b)
       (interactive_sustain_seconds b) (fmax (lit 5 10) (adjust_cooldown_seconds b))
       HEALTHY None None None [])
    None NORMAL HEALTHY None 0.

(** [runtime/runtime.py:49-53 ResourceAwareRuntime.set_interactive_p95_ms] *)
Definition set_interactive_p95_ms (v : option float) (count : Z) : M exn Runtime unit :=
  modify_st (fun r => r <| rt_interactive_p95_ms := v |>
                        <| rt_interactive_sample_count := Z.max 0 count |>).

(** The entries of the returned dict the worker reads. *)
Record TickResult := mkTick {
  tk_enabled : bool;
  tk_pressure : PressureState;
  tk_level : InteractiveLevel;
  tk_effective_max_workers : Z;
  tk_effective_max_heavy : Z;
  tk_admission : AdmissionDecision;
  tk_snapshot : option ResourceSnapshot;
}.

(** The clocks and the host at one tick: [now] is the optional argument. *)
Record TickEnv := mkTickEnv {
  te_now : option float;
  te_monotonic : float;
  te_wall : float;
  te_host : HostView;
}.

Definition on_feedback {A} (c : M exn Feedback A) : M exn Runtime A :=
  zoom rt_feedback (fun f r => r <| rt_feedback := f |>) c.
Definition on_controller {A} (c : M exn Controller A) : M exn Runtime A :=
  zoom rt_controller (fun c r => r <| rt_controller := c |>) c.
Definition on_observer {A} (c : M exn bool A) : M exn Runtime A :=
  zoom rt_primed (fun p r => r <| rt_primed := p |>) c.

(** [PressureState(merge_pressure(resource.value, level))] *)
Definition merged (resource : PressureState) (l : InteractiveLevel) : M exn Runtime PressureState :=
  match of_value (merge_pressure (value resource) l) with
  | Some p => mret p
  | None => raise (ValueError "not a valid PressureState")
  end.

(** [runtime/runtime.py:55-136 ResourceAwareRuntime.tick] *)
Definition tick (env : TickEnv) (queued running : Z) : M exn Runtime TickResult :=
  r ← get_st;
  let b := rt_budget r in
  if negb (rt_enabled r) then
    mret (mkTick false NORMAL HEALTHY (max_evaluation_concurrency b) (max_concurrent_heavy b)
            (mkDecision true "runtime_disabled" NORMAL) None)
  else
    let use_feedback := fb_enabled (rt_feedback r) in
    lvl ← on_feedback (update (rt_interactive_p95_ms r) (rt_interactive_sample_count r)
                         (default (te_monotonic env) (te_now env)));
    modify_st (fun r => r <| rt_last_level := lvl |>) ;;
    snapshot ← on_observer (sample (te_host env) (te_wall env) queued running
                              (if use_feedback then None else rt_interactive_p95_ms r));
    let resource_pressure := classify snapshot b in
    pressure ← (if use_feedback then merged resource_pressure lvl else mret resource_pressure);
    effective ← on_controller (adjust pressure snapshot (default (te_wall env) (te_now env)));
    let effective_max_heavy :=
      if bool_decide (pressure = DEGRADED) || bool_decide (lvl = CRITICAL) then 0
      else max_concurrent_heavy b in
    let decision := decide_admission pressure b snapshot effective lvl
                      (interactive_critical_hold_all b) in
    modify_st (fun r => r <| rt_last_snapshot := Some snapshot |>
                          <| rt_last_pressure := pressure |>) ;;
    mret (mkTick true pressure lvl effective effective_max_heavy decision (Some snapshot)).
