(* ===== verification/RuntimeSpec.v ===== *)
(** The properties of the resource-aware runtime: what one tick promises, the
    bounds and the pace of the adaptive worker cap over any history, and the
    hysteresis of the interactive level. *)
From Stdlib Require Import ZArith Lia String.
From stdpp Require Import prelude strings gmap sorting.
From S2P Require Import Prelude PyFloat PyStr Domain Config Runtime.

(** * Budgets *)

Definition budget_ok (b : ResourceBudget) : Prop :=
  1 <= min_evaluation_concurrency b <= max_evaluation_concurrency b.

Lemma from_settings_ok s : budget_ok (from_settings s).
Proof. unfold budget_ok, from_settings. cbn. lia. Qed.

Lemma clamp_bounds b v :
  budget_ok b ->
  min_evaluation_concurrency b <= clamp_concurrency b v <= max_evaluation_concurrency b.
Proof. unfold budget_ok, clamp_concurrency. lia. Qed.

Lemma clamp_id b v :
  min_evaluation_concurrency b <= v <= max_evaluation_concurrency b -> clamp_concurrency b v = v.
Proof. unfold clamp_concurrency. lia. Qed.

(** * The adaptive controller *)

(** A step of the controller from the cap [n] to [n']: one down under
    pressure, one up under a backlog without pressure. *)
Definition adjustment_ok (b : ResourceBudget) (a : Adjustment) : Prop :=
  min_evaluation_concurrency b <= ad_to a <= max_evaluation_concurrency b
  /\ ((ad_to a = ad_from a - 1 /\ ad_pressure a <> NORMAL)
      \/ (ad_to a = ad_from a + 1 /\ ad_pressure a = NORMAL /\ 0 < ad_queued a
          /\ at_most (ad_cpu_percent a) (cpu_low_percent b) = true
          /\ at_most (ad_rss_mb a) (memory_soft_mb b) = true)).

(** The history leads from cap to cap, its entries a cooldown apart. *)
Fixpoint paced (b : ResourceBudget) (n : Z) (last : option float) (l : list Adjustment)
    (n' : Z) (last' : option float) : Prop :=
  match l with
  | [] => n = n' /\ last = last'
  | a :: l' =>
      ad_from a = n /\ within (ad_at a) last (adjust_cooldown_seconds b) = false
      /\ adjustment_ok b a /\ paced b (ad_to a) (Some (ad_at a)) l' n' last'
  end.

Lemma paced_snoc b n last l a n1 last1 :
  paced b n last l n1 last1 ->
  ad_from a = n1 -> within (ad_at a) last1 (adjust_cooldown_seconds b) = false ->
  adjustment_ok b a -> paced b n last (l ++ [a]) (ad_to a) (Some (ad_at a)).
Proof.
  revert n last. induction l as [|x l IH]; intros n last; cbn.
  - by intros [-> ->].
  - intros (? & ? & ? & ?) ???. split_and!; try done. by apply IH.
Qed.

(** The state of the controller agrees with its history. *)
Definition controller_ok (b : ResourceBudget) (c : Controller) : Prop :=
  ct_budget c = b
  /\ exists n, effective_max_workers c = Some n
     /\ min_evaluation_concurrency b <= n <= max_evaluation_concurrency b
     /\ paced b (min_evaluation_concurrency b) None (ct_history c) n (last_adjust_at c).

Lemma new_controller_ok b : budget_ok b -> controller_ok b (new_controller b None).
Proof.
  intros Hb. split; [done|]. exists (min_evaluation_concurrency b).
  unfold budget_ok in Hb. split_and!; cbn; try done; lia.
Qed.

(** The outcome of one adjustment: the cap it returns is the cap it keeps, and a
    changed cap is one step away, for the reason the pressure gives. *)
Definition adjust_outcome (b : ResourceBudget) (p : PressureState) (s : ResourceSnapshot)
    (now : float) (c : Controller) (n' : Z) : Prop :=
  forall n, effective_max_workers c = Some n ->
    n' = n \/ (within now (last_adjust_at c) (adjust_cooldown_seconds b) = false
               /\ ((n' = n - 1 /\ p <> NORMAL)
                   \/ (n' = n + 1 /\ p = NORMAL /\ 0 < rs_queued_evaluations s
                       /\ at_most (rs_cpu_percent s) (cpu_low_percent b) = true
                       /\ at_most (rs_rss_mb s) (memory_soft_mb b) = true))).

Lemma adjust_target_cases b p s n :
  budget_ok b -> min_evaluation_concurrency b <= n <= max_evaluation_concurrency b ->
  let t := (adjust_target b p s n).1 in
  min_evaluation_concurrency b <= t <= max_evaluation_concurrency b
  /\ (t = n \/ (t = n - 1 /\ p <> NORMAL)
      \/ (t = n + 1 /\ p = NORMAL /\ 0 < rs_queued_evaluations s
          /\ at_most (rs_cpu_percent s) (cpu_low_percent b) = true
          /\ at_most (rs_rss_mb s) (memory_soft_mb b) = true)).
Proof.
  intros Hb Hn. unfold adjust_target. destruct p.
  - destruct (_ && _) eqn:E; cbn; [|split; [done|by left]].
    apply andb_true_iff in E as [[[E1 E2]%andb_true_iff E3]%andb_true_iff E4]. zify_bool.
    split; [lia|]. auto 10.
  - destruct (_ <? _) eqn:E; cbn; zify_bool; split; auto; lia.
  - destruct (_ <? _) eqn:E; cbn; zify_bool; split; auto; lia.
Qed.

Lemma adjust_run b p s now c :
  budget_ok b -> controller_ok b c ->
  exists n' c', adjust p s now c = (Ok n', c') /\ controller_ok b c'
  /\ effective_max_workers c' = Some n' /\ adjust_outcome b p s now c n'.
Proof.
  intros Hb Hc. pose proof Hc as (<- & n & Hn & Hrange & Hp). pose proof Hb as Hb'. unfold budget_ok in Hb'.
  unfold adjust, get_st. rewrite run_bind. cbn [fst snd].
  assert (int_or (effective_max_workers c) 1 = n) as ->.
  { rewrite Hn. cbn. destruct (n =? 0) eqn:E; [zify_bool; lia|done]. }
  rewrite (clamp_id _ n Hrange).
  destruct (within now _ _) eqn:Hw.
  { exists n, c. do 3 (split; [done|]). intros m Hm. left. congruence. }
  destruct (adjust_target_cases (ct_budget c) p s n Hb Hrange) as [Ht Hcases].
  destruct (adjust_target (ct_budget c) p s n) as [t reason]. cbn in Ht, Hcases |- *.
  rewrite (clamp_id _ t Ht). case_bool_decide as Heq.
  { subst t. exists n, c. split.
    - rewrite Hn. cbn. destruct (n =? 0) eqn:E; [zify_bool; lia|done].
    - do 2 (split; [done|]). intros m Hm. left. congruence. }
  destruct Hcases as [?|Hcases]; [done|].
  eexists t, _. split; [|split; [|split]].
  - cbn. destruct (t =? 0) eqn:E; [zify_bool; lia|reflexivity].
  - split; [done|]. exists t. do 2 (split; [done|]).
    exact (paced_snoc (ct_budget c) _ _ (ct_history c)
             (mkAdjustment now n t reason p (rs_queued_evaluations s) (rs_cpu_percent s)
                (rs_rss_mb s)) n _ Hp eq_refl Hw (conj Ht Hcases)).
  - done.
  - intros m Hm. assert (m = n) as -> by congruence. auto.
Qed.

(** * The interactive level *)

(** One observation of the latency signal. *)
Record Observation := mkObservation {
  ob_p95 : option float;
  ob_count : Z;
  ob_now : float;
}.

Definition observe (f : Feedback) (u : Observation) : Feedback :=
  snd (update (ob_p95 u) (ob_count u) (ob_now u) f).
Definition observes (f : Feedback) (l : list Observation) : Feedback := foldl observe f l.

(** The observation [u] asks a controller in state [f] for the level [d]. *)
Definition asks (f : Feedback) (u : Observation) (d : InteractiveLevel) : Prop :=
  exists p, ob_p95 u = Some p /\ min_samples f <= ob_count u /\ desired_level f p = d.

(** The observation does not count: too few samples, no percentile, or a level
    changed less than a cooldown ago. *)
Definition ignored (f : Feedback) (u : Observation) : Prop :=
  ob_p95 u = None \/ ob_count u < min_samples f
  \/ within (ob_now u) (last_change_at f) (cooldown_seconds f) = true.

(** The settings of the controller, which no update changes. *)
Definition same_settings (f g : Feedback) : Prop :=
  warn_ms f = warn_ms g /\ critical_ms f = critical_ms g /\ recovery_ms f = recovery_ms g
  /\ min_samples f = min_samples g /\ sustain_seconds f = sustain_seconds g
  /\ cooldown_seconds f = cooldown_seconds g.

#[export] Instance same_settings_equivalence : Equivalence same_settings.
Proof.
  split.
  - intros f. by repeat split.
  - intros f g (? & ? & ? & ? & ? & ?). by repeat split.
  - intros f g h (? & ? & ? & ? & ? & ?) (? & ? & ? & ? & ? & ?). repeat split; congruence.
Qed.

#[export] Instance fb_enabled_proper : Proper (same_settings ==> eq) fb_enabled.
Proof. intros f g (H1 & H2 & _). unfold fb_enabled. by rewrite H1, H2. Qed.

(** A candidate always has the time it was first seen. *)
Definition feedback_ok (f : Feedback) : Prop :=
  is_Some (candidate f) -> is_Some (candidate_since f).

(** The cases of one update of an enabled controller. *)
Inductive updated (f : Feedback) (u : Observation) : Feedback -> Prop :=
| up_ignored : ignored f u -> updated f u f
| up_settled : asks f u (level f) -> updated f u (no_candidate f)
| up_candidate d :
    asks f u d -> d <> level f -> candidate f <> Some d -> ~ ignored f u ->
    updated f u (f <| candidate := Some d |> <| candidate_since := Some (ob_now u) |>)
| up_waiting d : asks f u d -> d <> level f -> candidate f = Some d -> updated f u f
| up_changed d since e :
    asks f u d -> d <> level f -> candidate f = Some d -> candidate_since f = Some since ->
    flt (fsub (ob_now u) since) (sustain_seconds f) = false ->
    within (ob_now u) (last_change_at f) (cooldown_seconds f) = false ->
    updated f u (no_candidate f <| level := d |> <| last_change_at := Some (ob_now u) |>
                   <| fb_history := fb_history f ++ [e] |>).

Lemma level_update_run f u :
  fb_enabled f = true -> feedback_ok f ->
  exists f', update (ob_p95 u) (ob_count u) (ob_now u) f = (Ok (level f'), f') /\ updated f u f'.
Proof.
  intros Hen Hok. unfold update, get_st. rewrite run_bind. rewrite Hen. cbn [negb].
  destruct (ob_p95 u) as [p|] eqn:Hp.
  2:{ exists f. split; [done|]. apply up_ignored. by left. }
  destruct (ob_count u <? min_samples f) eqn:Hc; zify_bool.
  { exists f. split; [done|]. apply up_ignored. unfold ignored. auto. }
  assert (asks f u (desired_level f p)) as Hasks by (exists p; eauto).
  case_bool_decide as Hd.
  { exists (no_candidate f). split; [done|]. apply up_settled. by rewrite Hd in Hasks. }
  destruct (within _ _ _) eqn:Hw.
  { exists f. split; [done|]. apply up_ignored. unfold ignored. auto. }
  case_bool_decide as Hcand; cbn [negb].
  2:{ exists (f <| candidate := Some (desired_level f p) |> <| candidate_since := Some (ob_now u) |>).
      split; [done|]. apply up_candidate; try done.
      unfold ignored. rewrite Hp, Hw. intros [?|[?|?]]; [done|lia|done]. }
  destruct (candidate_since f) as [since|] eqn:Hs.
  2:{ exfalso. destruct (Hok ltac:(by rewrite Hcand)). congruence. }
  destruct (flt _ _) eqn:Hsus.
  { exists f. split; [done|]. by eapply up_waiting. }
  exists (no_candidate f <| level := desired_level f p |> <| last_change_at := Some (ob_now u) |>
            <| fb_history := fb_history f
                 ++ [mkLevelChange (ob_now u) (level f) (desired_level f p) p (ob_count u)] |>).
  split; [done|]. by eapply up_changed.
Qed.

Lemma updated_settings f u f' : updated f u f' -> same_settings f f' /\ (feedback_ok f -> feedback_ok f').
Proof.
  intros []; (split; [by repeat split|]); try done.
  - intros _ [? [=]].
  - intros _ _. by eexists.
  - intros _ [? [=]].
Qed.

Lemma observe_updated f u :
  fb_enabled f = true -> feedback_ok f -> updated f u (observe f u).
Proof. intros Hen Hok. unfold observe. by destruct (level_update_run f u Hen Hok) as (f' & -> & ?). Qed.

Lemma observes_snoc f l u : observes f (l ++ [u]) = observe (observes f l) u.
Proof. unfold observes. by rewrite foldl_app. Qed.

Lemma observes_ok f l :
  fb_enabled f = true -> feedback_ok f ->
  same_settings f (observes f l) /\ feedback_ok (observes f l)
  /\ fb_enabled (observes f l) = true.
Proof.
  intros Hen Hok. induction l as [|u l IH] using rev_ind; [by repeat split|].
  destruct IH as (Hset & Hok' & Hen'). rewrite observes_snoc.
  destruct (updated_settings _ _ _ (observe_updated _ u Hen' Hok')) as [Hs Hk].
  assert (same_settings f (observe (observes f l) u)) as Hsame by (etrans; eassumption).
  split_and!; [done|by apply Hk|]. by rewrite <-Hsame.
Qed.

(** From the observation [j] of [l] on, every observation that counts asks for
    the level [d], and the level stays what it was. *)
Definition sustained (f : Feedback) (l : list Observation) (j : nat) (d : InteractiveLevel) : Prop :=
  forall k u, (j <= k)%nat -> l !! k = Some u ->
    level (observes f (take k l)) = level (observes f l)
    /\ (ignored (observes f (take k l)) u \/ asks (observes f (take k l)) u d).

Lemma sustained_snoc f l u j d :
  sustained f l j d -> level (observe (observes f l) u) = level (observes f l) ->
  ignored (observes f l) u \/ asks (observes f l) u d -> sustained f (l ++ [u]) j d.
Proof.
  intros Hs Hl Hu k w Hj Hk. rewrite observes_snoc, Hl.
  apply lookup_app_Some in Hk as [Hk|[Hlen Hk]].
  - rewrite take_app_le by (apply lookup_lt_Some in Hk; lia). by apply Hs.
  - apply list_lookup_singleton_Some in Hk as [Hk <-].
    assert (k = length l) as -> by lia. by rewrite take_app_length.
Qed.

(** The candidate level was asked for when it was first seen and ever since. *)
Lemma candidate_sustained f l d :
  fb_enabled f = true -> candidate f = None -> candidate (observes f l) = Some d ->
  exists j v, l !! j = Some v /\ candidate_since (observes f l) = Some (ob_now v)
  /\ asks (observes f (take j l)) v d /\ sustained f l j d.
Proof.
  intros Hen Hnone. assert (feedback_ok f) as Hok by (intros [? ?]; congruence).
  revert d. induction l as [|u l IH] using rev_ind; intros d; [cbn; congruence|].
  destruct (observes_ok f l Hen Hok) as (_ & Hok' & Hen').
  pose proof (observe_updated _ u Hen' Hok') as Hup. rewrite observes_snoc.
  assert (forall d',
    candidate (observes f l) = Some d' -> observe (observes f l) u = observes f l ->
    ignored (observes f l) u \/ asks (observes f l) u d' ->
    exists j v, (l ++ [u]) !! j = Some v /\ candidate_since (observes f l) = Some (ob_now v)
      /\ asks (observes f (take j (l ++ [u]))) v d' /\ sustained f (l ++ [u]) j d') as Hkeep.
  { intros d' Hc Heq Hu. destruct (IH d' Hc) as (j & v & Hj & Hs & Ha & Hsus).
    exists j, v. split; [by apply lookup_app_l_Some|]. split; [done|].
    rewrite take_app_le by (apply lookup_lt_Some in Hj; lia). split; [done|].
    apply sustained_snoc; [done|congruence|done]. }
  inversion Hup as [Hi Heq|Ha Heq|d' Ha Hd Hc Hi Heq|d' Ha Hd Hc Heq|d' since e Ha Hd Hc Hs Hsus Hw Heq].
  - intros Hd. apply Hkeep; auto.
  - done.
  - cbn. intros [= <-]. exists (length l), u.
    split; [by apply list_lookup_middle|]. split; [done|]. rewrite take_app_length.
    split; [done|]. intros k w Hk Hw.
    rewrite lookup_app_r in Hw by done. apply list_lookup_singleton_Some in Hw as [Hw <-].
    assert (k = length l) as -> by lia. rewrite take_app_length, observes_snoc, <-Heq.
    split; [done|by right].
  - intros Hd'. assert (d' = d) as -> by congruence. apply Hkeep; auto.
  - done.
Qed.

(** The thresholds a percentile crosses when it asks to go from one level to
    another. *)
Definition crosses (f : Feedback) (from to : InteractiveLevel) (p : float) : Prop :=
  match from, to with
  | _, CRITICAL => fge p (critical_ms f) = true
  | HEALTHY, WARN => fge p (warn_ms f) = true /\ fge p (critical_ms f) = false
  | CRITICAL, WARN => fge p (warn_ms f) = true /\ fge p (critical_ms f) = false
                      /\ fle p (effective_recovery_ms f) = false
  | WARN, HEALTHY => fle p (effective_recovery_ms f) = true
  | CRITICAL, HEALTHY => fle p (effective_recovery_ms f) = true \/ fge p (warn_ms f) = false
  | _, _ => True
  end.

Lemma desired_crosses f p : crosses f (level f) (desired_level f p) p.
Proof.
  unfold crosses, desired_level. destruct (level f).
  - destruct (fge p (critical_ms f)) eqn:?; [done|]. by destruct (fge p (warn_ms f)) eqn:?.
  - destruct (fle p _) eqn:?; [done|]. by destruct (fge p (critical_ms f)) eqn:?.
  - destruct (fle p _) eqn:?; [by left|]. destruct (fge p (critical_ms f)) eqn:?; [done|].
    destruct (fge p (warn_ms f)) eqn:?; [done|by right].
Qed.

(** Hysteresis of the interactive level: an update of an enabled controller
    never raises; when it changes the level, its percentile crosses the
    threshold between the two levels, the last change is at least a cooldown
    old, and the new level was asked for by an earlier observation at least the
    sustain time ago and by every observation that counted since, during which
    the level did not change. *)
Theorem interactive_hysteresis (f0 : Feedback) (l : list Observation) (u : Observation) :
  fb_enabled f0 = true -> candidate f0 = None ->
  let f := observes f0 l in
  exists f', update (ob_p95 u) (ob_count u) (ob_now u) f = (Ok (level f'), f')
  /\ (level f' <> level f ->
      within (ob_now u) (last_change_at f) (cooldown_seconds f0) = false
      /\ last_change_at f' = Some (ob_now u)
      /\ (exists p, ob_p95 u = Some p /\ min_samples f0 <= ob_count u
                    /\ crosses f0 (level f) (level f') p)
      /\ exists j v, l !! j = Some v
         /\ flt (fsub (ob_now u) (ob_now v)) (sustain_seconds f0) = false
         /\ asks (observes f0 (take j l)) v (level f')
         /\ sustained f0 l j (level f')).
Proof.
  intros Hen Hnone f. assert (feedback_ok f0) as Hok by (intros [? ?]; congruence).
  destruct (observes_ok f0 l Hen Hok) as ((Hw & Hc & Hr & Hm & Hs & Hcd) & Hok' & Hen').
  destruct (level_update_run f u Hen' Hok') as (f' & Hrun & Hup). exists f'. split; [done|].
  destruct Hup as [Hi|Ha|d Ha Hd Hca Hi|d Ha Hd Hca|d since e Ha Hd Hca Hsi Hsus Hwi]; try done.
  intros _. cbn [level setf no_candidate]. rewrite Hcd, Hs. split; [done|]. split; [done|]. split.
  - destruct Ha as (p & Hp & Hn & <-). exists p. rewrite Hm. split_and!; [done..|].
    pose proof (desired_crosses f p) as Hx. unfold crosses, effective_recovery_ms in Hx |- *.
    by rewrite Hw, Hc, Hr.
  - destruct (candidate_sustained f0 l d Hen Hnone Hca) as (j & v & Hj & Hsv & Hav & Hsu).
    exists j, v. assert (since = ob_now v) as <- by (unfold f in Hsi; congruence). done.
Qed.

(** * The tick *)

(** The order of pressure states, and the stronger of two. *)
Definition severity (p : PressureState) : Z :=
  match p with NORMAL => 0 | PRESSURED => 1 | DEGRADED => 2 end.

Definition stronger (a b : PressureState) : PressureState :=
  if severity a <=? severity b then b else a.

(** The pressure text is the value of the stronger state: the interactive level
    raises the pressure and never lowers it. *)
Lemma merge_pressure_stronger p l : merge_pressure (value p) l = value (stronger p (interactive_as l)).
Proof. by destruct p, l. Qed.

Lemma merged_run p l r : merged p l r = (Ok (stronger p (interactive_as l)), r).
Proof. unfold merged. by rewrite merge_pressure_stronger, of_value_value. Qed.

Lemma feedback_run f p n now :
  feedback_ok f ->
  exists f', update p n now f = (Ok (level f'), f') /\ same_settings f f' /\ feedback_ok f'
  /\ (fb_enabled f = false -> level f' = HEALTHY).
Proof.
  intros Hok. destruct (fb_enabled f) eqn:Hen.
  - destruct (level_update_run f (mkObservation p n now) Hen Hok) as (f' & Hrun & Hup).
    destruct (updated_settings _ _ _ Hup) as [Hs Hk]. exists f'. split; [done|]. split; [done|].
    split; [by apply Hk|done].
  - exists (f <| level := HEALTHY |>). unfold update, get_st. rewrite run_bind, Hen. by repeat split.
Qed.

(** One poll of the worker: it passes on the published latency and ticks. *)
Record Poll := mkPoll {
  pl_env : TickEnv;
  pl_queued : Z;
  pl_running : Z;
  pl_p95 : option float;
  pl_count : Z;
}.

Definition poll (q : Poll) : M exn Runtime TickResult :=
  set_interactive_p95_ms (pl_p95 q) (pl_count q) ;;
  tick (pl_env q) (pl_queued q) (pl_running q).

Definition polls (r : Runtime) (l : list Poll) : Runtime := foldl (fun r q => snd (poll q r)) r l.

(** What one tick decides, from the snapshot it took. *)
Definition tick_outcome (b : ResourceBudget) (r : Runtime) (q : Poll) (t : TickResult) : Prop :=
  exists s, tk_snapshot t = Some s
  /\ rs_queued_evaluations s = Z.max 0 (pl_queued q)
  /\ rs_running_evaluations s = Z.max 0 (pl_running q)
  /\ tk_pressure t = stronger (classify s b) (interactive_as (tk_level t))
  /\ min_evaluation_concurrency b <= tk_effective_max_workers t <= max_evaluation_concurrency b
  /\ adjust_outcome b (tk_pressure t) s (default (te_wall (pl_env q)) (te_now (pl_env q)))
       (rt_controller r) (tk_effective_max_workers t)
  /\ tk_effective_max_heavy t
     = (if bool_decide (tk_pressure t = DEGRADED) then 0 else max_concurrent_heavy b)
  /\ (allowed (tk_admission t) = true <->
      pl_running q < tk_effective_max_workers t
      /\ ~ (interactive_critical_hold_all b = true /\ tk_level t = CRITICAL)
      /\ ~ (tk_pressure t = DEGRADED /\ reaches (rs_rss_mb s) (memory_hard_mb b) = true
            /\ 0 < pl_running q)).

Definition runtime_ok (b : ResourceBudget) (r : Runtime) : Prop :=
  rt_budget r = b /\ rt_enabled r = true /\ controller_ok b (rt_controller r)
  /\ feedback_ok (rt_feedback r).

Lemma decide_allowed p b s n l hold :
  1 <= n ->
  allowed (decide_admission p b s n l hold) = true <->
  rs_running_evaluations s < n /\ ~ (hold = true /\ l = CRITICAL)
  /\ ~ (p = DEGRADED /\ reaches (rs_rss_mb s) (memory_hard_mb b) = true
        /\ 0 < rs_running_evaluations s).
Proof.
  intros Hn. unfold decide_admission. rewrite Z.max_r by done.
  destruct (n <=? _) eqn:E1; zify_bool; cbn.
  { split; [done|]. intros [? _]. lia. }
  destruct (hold && _) eqn:E2; cbn.
  { apply andb_true_iff in E2 as [-> E2%bool_decide_eq_true]. naive_solver. }
  destruct (bool_decide (p = DEGRADED) && _ && _) eqn:E3; cbn.
  { apply andb_true_iff in E3 as [[E3%bool_decide_eq_true E4]%andb_true_iff E5].
    zify_bool. naive_solver. }
  split; [|done]. intros _. split; [done|]. split.
  - intros [-> ->]. cbn in E2. done.
  - intros (-> & E4 & E5). apply Z.ltb_lt in E5. rewrite E4, E5 in E3. done.
Qed.

Lemma sample_run host wall queued running p95 primed :
  exists s primed', sample host wall queued running p95 primed = (Ok s, primed')
  /\ rs_queued_evaluations s = Z.max 0 queued /\ rs_running_evaluations s = Z.max 0 running.
Proof.
  unfold sample. destruct (hv_cpu_percent host); [destruct (hv_rss_bytes host)|]; eauto 10.
Qed.

(** Computes the state of the runtime between two calls of the tick. *)
Ltac run_tick :=
  cbn -[update sample classify merged adjust decide_admission fb_enabled stronger Z.max].

Lemma tick_run b r q :
  budget_ok b -> runtime_ok b r ->
  exists t r', poll q r = (Ok t, r') /\ runtime_ok b r' /\ tick_outcome b r q t
  /\ effective_max_workers (rt_controller r') = Some (tk_effective_max_workers t).
Proof.
  intros Hb. destruct r as [b0 en primed c f snap lp ll p95 count].
  intros (Hbud & Hen & Hctl & Hfb). cbn in Hbud, Hen, Hctl, Hfb. subst b0 en.
  unfold poll, set_interactive_p95_ms, tick, modify_st, get_st, on_feedback, on_observer,
    on_controller, zoom, mbind, M_bind, mret, M_ret.
  run_tick.
  destruct (feedback_run f (pl_p95 q) (Z.max 0 (pl_count q))
              (default (te_monotonic (pl_env q)) (te_now (pl_env q))) Hfb)
    as (f' & -> & Hset & Hfb' & Hdis). run_tick.
  destruct (sample_run (te_host (pl_env q)) (te_wall (pl_env q)) (pl_queued q) (pl_running q)
              (if fb_enabled f then None else pl_p95 q) primed)
    as (s & primed' & -> & Hq & Hr). run_tick.
  assert (forall r0 : Runtime,
      (if fb_enabled f then merged (classify s b) (level f') else fun r0 => (Ok (classify s b), r0)) r0
    = (Ok (stronger (classify s b) (interactive_as (level f'))), r0)) as Hmerge.
  { intros r0. destruct (fb_enabled f); [by rewrite merged_run|].
    rewrite (Hdis eq_refl). by destruct (classify s b). }
  rewrite Hmerge. run_tick.
  set (p := stronger _ _).
  destruct (adjust_run b p s (default (te_wall (pl_env q)) (te_now (pl_env q))) c Hb Hctl)
    as (n & c' & -> & Hctl' & Hn & Hadj). run_tick.
  assert (min_evaluation_concurrency b <= n <= max_evaluation_concurrency b) as Hrange.
  { destruct Hctl' as (_ & n' & Hn' & ? & _). by simplify_eq. }
  eexists _, _. split; [reflexivity|]. split; [done|]. split; [|done].
  exists s. split; [done|]. split; [done|]. split; [done|]. split; [done|]. split; [done|].
  split; [done|]. cbn [tk_effective_max_heavy tk_pressure tk_admission tk_level tk_effective_max_workers].
  split.
  - assert (level f' = CRITICAL -> p = DEGRADED) as Hcrit.
    { intros E. unfold p. rewrite E. by destruct (classify s b). }
    destruct (decide (p = DEGRADED)) as [E|E].
    + by rewrite (bool_decide_true (p = DEGRADED)).
    + rewrite (bool_decide_false (level f' = CRITICAL)) by auto.
      by rewrite (bool_decide_false (p = DEGRADED)).
  - rewrite decide_allowed by (unfold budget_ok in Hb; lia). rewrite Hr.
    unfold budget_ok in Hb. intuition lia.
Qed.

Lemma new_runtime_ok b : budget_ok b -> runtime_ok b (new_runtime b true).
Proof.
  intros Hb. split; [done|]. split; [done|]. split; [by apply new_controller_ok|].
  intros [? [=]].
Qed.

Lemma polls_ok b r l : budget_ok b -> runtime_ok b r -> runtime_ok b (polls r l).
Proof.
  intros Hb. revert r. induction l as [|q l IH]; intros r Hr; [done|]. cbn. apply IH.
  by destruct (tick_run b r q Hb Hr) as (t & r' & -> & Hr' & _).
Qed.

(** C12 The tick of the runtime, after any number of polls, always returns; its
    pressure is the stronger of what the resources and the interactive level
    ask for; the worker cap stays between the minimum and the maximum of the
    budget and moves by at most one, never within a cooldown, down only under
    pressure and up only with a backlog and spare resources; no heavy job is
    admitted when degraded; and execution is admitted exactly below the cap,
    unless a critical level holds everything or a degraded host is out of
    memory. *)
Theorem tick_policy (cfg : Settings) (l : list Poll) (q : Poll) :
  let b := from_settings cfg in
  let r := polls (new_runtime b true) l in
  exists t r', poll q r = (Ok t, r') /\ tick_outcome b r q t
  /\ effective_max_workers (rt_controller r') = Some (tk_effective_max_workers t).
Proof.
  intros b r. pose proof (from_settings_ok cfg) as Hb.
  destruct (tick_run b r q Hb (polls_ok b _ l Hb (new_runtime_ok b Hb))) as (t & r' & ? & _ & ? & ?).
  eauto.
Qed.

(** The adaptive cap over any history of polls: the recorded adjustments lead
    from the minimum to the current cap in steps of one, inside the bounds,
    each at least a cooldown after the one before. *)
Theorem adjustments_paced (cfg : Settings) (l : list Poll) :
  let b := from_settings cfg in
  let c := rt_controller (polls (new_runtime b true) l) in
  exists n, effective_max_workers c = Some n
  /\ min_evaluation_concurrency b <= n <= max_evaluation_concurrency b
  /\ paced b (min_evaluation_concurrency b) None (ct_history c) n (last_adjust_at c).
Proof.
  intros b c. pose proof (from_settings_ok cfg) as Hb.
  destruct (polls_ok b _ l Hb (new_runtime_ok b Hb)) as (_ & _ & (_ & n & H) & _). eauto.
Qed.

Module RuntimeSample.
(** A controller with a warning at 100 ms, a critical threshold at 200 ms and
    recovery at 80 ms, that wants a second of evidence. *)
Definition fresh : Feedback :=
  mkFeedback (of_Z 100) (of_Z 200) (of_Z 80) 8 (of_Z 1) (of_Z 2) HEALTHY None None None [].
Definition slow (ms t : Z) : Observation := mkObservation (Some (of_Z ms)) 10 (of_Z t).

Example goes_critical : level (observes fresh [slow 250 0; slow 260 1]) = CRITICAL.
Proof. vm_compute. reflexivity. Qed.

(** From the critical level a percentile between recovery and warning is enough
    to be healthy again; from the warning level it is not. *)
Example critical_recovers_early :
  level (observes fresh [slow 250 0; slow 260 1; slow 90 4; slow 90 5]) = HEALTHY
  /\ level (observes fresh [slow 150 0; slow 150 1; slow 90 4; slow 90 5]) = WARN.
Proof. split; vm_compute; reflexivity. Qed.

Lemma interactive_hysteresis_witness :
  level (observe (observes fresh [slow 150 0]) (slow 150 1)) = WARN
  /\ exists j v, [slow 150 0] !! j = Some v
     /\ flt (fsub (of_Z 1) (ob_now v)) (of_Z 1) = false
     /\ sustained fresh [slow 150 0] j WARN.
Proof.
  split; [vm_compute; reflexivity|].
  destruct (interactive_hysteresis fresh [slow 150 0] (slow 150 1) eq_refl eq_refl)
    as (f' & Hrun & Hchange).
  assert (f' = observe (observes fresh [slow 150 0]) (slow 150 1)) as ->
    by (unfold observe; by rewrite Hrun).
  destruct (Hchange ltac:(vm_compute; discriminate)) as (_ & _ & _ & j & v & Hj & Hsus & _ & Hs).
  exists j, v. exact (conj Hj (conj Hsus Hs)).
Defined.

End RuntimeSample.
