(* ===== verification/Progressive.v ===== *)
(** Progressive evaluation (src/challengeforge/evaluation): the plan of stages,
    the synthetic workloads with their ground truth, one stage, the escalation
    policy, the evaluator that runs stages until it finishes or defers, and the
    comparison with the ground truth.

    Elapsed times and the current time are arguments; SHA-256, [repr] and the
    text of floats are parameters. *)
From Stdlib Require Import ZArith Lia String.
From stdpp Require Import prelude strings.
From S2P Require Import Prelude PyFloat PyStr Domain Json Evaluator Runtime.

(** * Plans *)

(** [evaluation/plan.py:22-30 StageSpec] *)
Record StageSpec := mkStage {
  stage_name : string;
  stage_workload_class : WorkloadClass;
  estimated_cpu_cost : float;
  estimated_memory_mb : float;
  estimated_duration_ms : Z;
  quality_contribution : float;
  cost_units : Z;
}.

(** [evaluation/plan.py:33-41 CHEAP] *)
Definition CHEAP : StageSpec := mkStage "cheap" W_LIGHT (of_Z 1) (of_Z 1) 20 (lit 4 10) 1.
(** [evaluation/plan.py:42-50 MEDIUM] *)
Definition MEDIUM : StageSpec := mkStage "medium" W_MEDIUM (of_Z 3) (of_Z 8) 80 (lit 3 10) 3.
(** [evaluation/plan.py:51-59 HEAVY] *)
Definition HEAVY : StageSpec := mkStage "heavy" W_HEAVY (of_Z 9) (of_Z 32) 200 (lit 3 10) 9.

(** [evaluation/plan.py:61-61 ALWAYS_EXPENSIVE_COST_UNITS] *)
Definition ALWAYS_EXPENSIVE_COST_UNITS : Z := cost_units CHEAP + cost_units MEDIUM + cost_units HEAVY.

(** [evaluation/plan.py:63-66 EvaluationPlan] *)
Definition EvaluationPlan : Type := list StageSpec.

(** [evaluation/plan.py:68-71 EvaluationPlan.stage_at] *)
Definition stage_at (plan : EvaluationPlan) (index : Z) : option StageSpec :=
  if (index <? 0) || (zlen plan <=? index) then None else plan !! Z.to_nat index.

(** [evaluation/plan.py:74-74 DEFAULT_PLAN] *)
Definition DEFAULT_PLAN : EvaluationPlan := [CHEAP; MEDIUM; HEAVY].

(** [evaluation/confidence.py:8-11 StageConfidence] *)
Inductive StageConfidence := PASS_CONFIDENT | FAIL_CONFIDENT | UNCERTAIN.
#[export] Instance StageConfidence_eq_dec : EqDecision StageConfidence.
Proof. solve_decision. Defined.
#[export] Instance StageConfidence_enum : StrEnum StageConfidence := {|
  value c := match c with
             | PASS_CONFIDENT => "pass_confident" | FAIL_CONFIDENT => "fail_confident"
             | UNCERTAIN => "uncertain"
             end;
  members := [PASS_CONFIDENT; FAIL_CONFIDENT; UNCERTAIN];
|}.
#[export] Instance StageConfidence_ok : StrEnumOk StageConfidence.
Proof. split; [by intros []; set_solver | by intros [] []]. Qed.

(** * Synthetic workloads and their truth *)

(** [evaluation/workload_v3.py:17-27 WorkloadKind] *)
Inductive WorkloadKind :=
| EASY_PASS | EASY_FAIL | AMBIGUOUS_PASS | AMBIGUOUS_FAIL | HARD_PASS | HARD_FAIL
| ADVERSARIAL_PASS | ADVERSARIAL_FAIL.
#[export] Instance WorkloadKind_eq_dec : EqDecision WorkloadKind.
Proof. solve_decision. Defined.
#[export] Instance WorkloadKind_enum : StrEnum WorkloadKind := {|
  value k := match k with
             | EASY_PASS => "easy_pass" | EASY_FAIL => "easy_fail"
             | AMBIGUOUS_PASS => "ambiguous_pass" | AMBIGUOUS_FAIL => "ambiguous_fail"
             | HARD_PASS => "hard_pass" | HARD_FAIL => "hard_fail"
             | ADVERSARIAL_PASS => "adversarial_pass" | ADVERSARIAL_FAIL => "adversarial_fail"
             end;
  members := [EASY_PASS; EASY_FAIL; AMBIGUOUS_PASS; AMBIGUOUS_FAIL; HARD_PASS; HARD_FAIL;
              ADVERSARIAL_PASS; ADVERSARIAL_FAIL];
|}.
#[export] Instance WorkloadKind_ok : StrEnumOk WorkloadKind.
Proof. split; [by intros []; set_solver | by intros [] []]. Qed.

(** [evaluation/workload_v3.py:30-32 Decision] *)
Inductive Verdict := PASS | FAIL.
#[export] Instance Verdict_eq_dec : EqDecision Verdict.
Proof. solve_decision. Defined.

(** [evaluation/workload_v3.py:35-35 PASS_THRESHOLD] *)
Definition PASS_THRESHOLD : Z := 60.

(** [evaluation/workload_v3.py:38-43 GroundTruth] *)
Record GroundTruth := mkTruth {
  gt_decision : Verdict;
  gt_kind : WorkloadKind;
  truth_score : Z;
}.

(** [evaluation/workload_v3.py:46-55 StageEvidence] *)
Record StageEvidence := mkEvidence {
  se_confidence : StageConfidence;
  se_safe_to_terminate : bool;
  se_provisional_decision : option Verdict;
  se_score : Z;
  se_kind : option WorkloadKind;
  se_notes : string;
}.

(** [raw.strip().lower()] of the first truthy of the two labels, when it is text. *)
Definition workload_label (metadata : dict) : option pystr :=
  let first := dget_null metadata (py "workload_kind") in
  let raw := if truthy first then first else dget_null metadata (py "adaptive_scenario") in
  match raw with
  | JStr s => Some (lower (strip s))
  | _ => None
  end.

Definition legacy_kind (key : pystr) : option WorkloadKind :=
  if bool_decide (key = py "pass_confident") then Some EASY_PASS
  else if bool_decide (key = py "fail_confident") then Some EASY_FAIL
  else if bool_decide (key = py "uncertain") then Some AMBIGUOUS_PASS
  else if bool_decide (key = py "requires_expensive") then Some HARD_PASS
  else None.

(** [evaluation/workload_v3.py:58-75 parse_workload_kind] *)
Definition parse_workload_kind (metadata : dict) : option WorkloadKind :=
  match workload_label metadata with
  | None => None
  | Some key =>
      match legacy_kind key with
      | Some k => Some k
      | None => of_text key
      end
  end.

Section Stages.
Context `{Sha256} `{FloatRepr} `{PyRepr}.

(** [evaluation/workload_v3.py:78-87 ground_truth_for] *)
Definition ground_truth_for (kind : WorkloadKind) (submission_id : uuid) : GroundTruth :=
  let decision := if endswith (py (value kind)) (py "_pass") then PASS else FAIL in
  let hex := sha256_hex (py "truth:" ++ py (value kind) ++ py ":" ++ uuid_str submission_id) in
  let jitter := int16 (slice hex 0 4) mod 15 in
  mkTruth decision kind (match decision with PASS => 70 + jitter | FAIL => 10 + jitter end).

(** [evaluation/workload_v3.py:90-91 decision_from_score] *)
Definition decision_from_score (score : Z) : Verdict :=
  if PASS_THRESHOLD <=? score then PASS else FAIL.

Definition confident_in (d : Verdict) : StageConfidence :=
  match d with PASS => PASS_CONFIDENT | FAIL => FAIL_CONFIDENT end.

(** [evaluation/workload_v3.py:94-142 cheap_evidence] *)
Definition cheap_evidence (kind : WorkloadKind) (submission_id : uuid) : StageEvidence :=
  let truth := ground_truth_for kind submission_id in
  match kind with
  | EASY_PASS | EASY_FAIL =>
      mkEvidence (confident_in (gt_decision truth)) true (Some (gt_decision truth))
        (truth_score truth) (Some kind) "easy: cheap evidence matches ground truth"
  | ADVERSARIAL_PASS | ADVERSARIAL_FAIL =>
      let wrong := match gt_decision truth with PASS => FAIL | FAIL => PASS end in
      mkEvidence (confident_in wrong) false (Some wrong)
        (match wrong with PASS => 95 | FAIL => 5 end) (Some kind)
        "adversarial: cheap confident signal disagrees with truth"
  | _ => mkEvidence UNCERTAIN false None 50 (Some kind) "insufficient cheap evidence"
  end.

(** [evaluation/workload_v3.py:145-172 medium_evidence] *)
Definition medium_evidence (kind : WorkloadKind) (submission_id : uuid) : StageEvidence :=
  let truth := ground_truth_for kind submission_id in
  match kind with
  | AMBIGUOUS_PASS | AMBIGUOUS_FAIL =>
      mkEvidence (confident_in (gt_decision truth)) true (Some (gt_decision truth))
        (truth_score truth) (Some kind) "ambiguous: medium sufficient"
  | _ => mkEvidence UNCERTAIN false None 50 (Some kind) "medium insufficient; need heavy"
  end.

(** [evaluation/workload_v3.py:175-189 heavy_evidence] *)
Definition heavy_evidence (kind : WorkloadKind) (submission_id : uuid) : StageEvidence :=
  let truth := ground_truth_for kind submission_id in
  mkEvidence (confident_in (gt_decision truth)) true (Some (gt_decision truth))
    (truth_score truth) (Some kind) "heavy establishes ground truth".

(** [evaluation/workload_v3.py:192-199 evidence_for_stage] *)
Definition evidence_for_stage (name : string) (kind : WorkloadKind) (submission_id : uuid)
    : StageEvidence :=
  if String.eqb name "cheap" then cheap_evidence kind submission_id
  else if String.eqb name "medium" then medium_evidence kind submission_id
  else heavy_evidence kind submission_id.

(** * One stage *)

(** [evaluation/stages.py:26-34 StageOutcome] *)
Record StageOutcome := mkStageOutcome {
  so_stage : StageSpec;
  so_confidence : StageConfidence;
  so_score : Z;
  so_execution_cpu_ms : float;
  so_peak_alloc_bytes : Z;
  so_evidence : json;
  so_safe_to_terminate : bool;
}.

(** [evaluation/stages.py:37-56 _legacy_scenario_confidence] *)
Definition legacy_scenario_confidence (metadata : dict) (submission_id : uuid) : StageConfidence :=
  let mapped :=
    match dget metadata (py "adaptive_scenario") with
    | Some (JStr s) =>
        let key := lower (strip s) in
        if bool_decide (key = py "pass_confident") then Some PASS_CONFIDENT
        else if bool_decide (key = py "fail_confident") then Some FAIL_CONFIDENT
        else if bool_decide (key = py "uncertain") then Some UNCERTAIN
        else if bool_decide (key = py "requires_expensive") then Some UNCERTAIN
        else None
    | _ => None
    end in
  match mapped with
  | Some c => c
  | None =>
      let bucket := int16 (slice (sha256_hex (uuid_str submission_id)) 0 8) mod 100 in
      if bucket <? 25 then PASS_CONFIDENT
      else if bucket <? 50 then FAIL_CONFIDENT
      else UNCERTAIN
  end.

(** [str(metadata.get("adaptive_scenario", "")).strip().lower()] *)
Definition scenario_text (metadata : dict) : pystr :=
  lower (strip (json_str (default (JStr []) (dget metadata (py "adaptive_scenario"))))).

Definition needs_expensive (metadata : dict) (name : string) : bool :=
  bool_decide (scenario_text metadata = py "requires_expensive") && negb (String.eqb name "heavy").

(** [confidence in (PASS_CONFIDENT, FAIL_CONFIDENT)] *)
Definition is_confident (c : StageConfidence) : bool :=
  match c with UNCERTAIN => false | _ => true end.

(** [evaluation/stages.py:59-69 _legacy_safe_to_terminate] *)
Definition legacy_safe_to_terminate (c : StageConfidence) (metadata : dict) (name : string) : bool :=
  if needs_expensive metadata name then false else is_confident c.

(** [force_stage is not None and str(force_stage).strip().lower() == stage.name] *)
Definition stage_failure_forced (metadata : dict) (stage : StageSpec) : bool :=
  match dget_null metadata (py "force_stage_failure") with
  | JNull => false
  | v => bool_decide (lower (strip (json_str v)) = py (stage_name stage))
  end.

(** What a stage observed: confidence, score, whether it is safe to stop, the
    notes, and the fingerprint. *)
Record StageSignal := mkSignal {
  sg_confidence : StageConfidence;
  sg_score : Z;
  sg_safe : bool;
  sg_notes : string;
  sg_fingerprint : pystr;
}.

(** The branch of [run_stage] for a workload of a known kind. *)
Definition kind_signal (stage : StageSpec) (kind : WorkloadKind) (submission_id : uuid)
    : StageSignal :=
  let e := evidence_for_stage (stage_name stage) kind submission_id in
  mkSignal (se_confidence e) (se_score e) (se_safe_to_terminate e) (se_notes e)
    (slice (sha256_hex (uuid_str submission_id ++ py ":" ++ py (stage_name stage) ++ py ":"
                        ++ py (value kind) ++ py ":" ++ int_str (se_score e))) 0 16).

(** The branch of [run_stage] for the older scenario labels. *)
Definition legacy_signal (stage : StageSpec) (submission_id : uuid) (metadata : dict)
    (artifact_key : option pystr) (stage_index : Z) (token : pystr) : result eval_exn StageSignal :=
  let confidence := if needs_expensive metadata (stage_name stage) then UNCERTAIN
                    else legacy_scenario_confidence metadata submission_id in
  match canonical_bytes (JObj [(py "submission_id", JStr (uuid_str submission_id));
                               (py "stage", JStr (py (stage_name stage)));
                               (py "stage_index", JInt stage_index);
                               (py "metadata", JObj metadata);
                               (py "artifact_key", json_of_text artifact_key)]) with
  | Raise e => Raise e
  | Ok canonical =>
      let hex := sha256_hex (canonical ++ token) in
      let base_score := int16 (slice hex 0 8) mod 101 in
      let score :=
        if bool_decide (confidence = PASS_CONFIDENT) && (stage_index =? 0) then
          90 + base_score mod 11
        else if bool_decide (confidence = FAIL_CONFIDENT) && (stage_index =? 0) then
          base_score mod 20
        else 40 + base_score mod 41 in
      Ok (mkSignal confidence score (legacy_safe_to_terminate confidence metadata (stage_name stage))
            "legacy_adaptive_scenario" (slice hex 0 16))
  end.

(** [int(x)] of a finite float. *)
Definition int_of (x : float) : Z := default 0 (ftrunc x).

(** [evaluation/stages.py:72-163 run_stage], the elapsed time given. *)
Definition run_stage (cpu_ms : float) (stage : StageSpec) (submission_id : uuid) (metadata : dict)
    (artifact_key : option pystr) (stage_index : Z) : result eval_exn StageOutcome :=
  if is_true (dget metadata (py "force_evaluation_failure")) then
    Raise (EvaluationFailed (py "Forced evaluation failure via submission metadata."))
  else if stage_failure_forced metadata stage then
    Raise (EvaluationFailed (py "Forced stage failure at " ++ py (stage_name stage) ++ py "."))
  else
    let peak := bounded_memory_work
                  (int_of (fmul (fmul (estimated_memory_mb stage) (of_Z 1024)) (of_Z 1024))) in
    let iterations := int_of (fmul (of_Z 25000) (estimated_cpu_cost stage)) in
    let token := bounded_cpu_work iterations
                   (uuid_str submission_id ++ py ":" ++ py (stage_name stage) ++ py ":"
                    ++ int_str stage_index) in
    let kind := parse_workload_kind metadata in
    match (match kind with
           | Some k => Ok (kind_signal stage k submission_id)
           | None => legacy_signal stage submission_id metadata artifact_key stage_index token
           end) with
    | Raise e => Raise e
    | Ok g =>
        Ok (mkStageOutcome stage (sg_confidence g) (Z.min 100 (Z.max 0 (sg_score g)))
              (fround 3 cpu_ms) peak
              (JObj [(py "stage", JStr (py (stage_name stage)));
                     (py "stage_index", JInt stage_index);
                     (py "confidence", JStr (py (value (sg_confidence g))));
                     (py "safe_to_terminate", JBool (sg_safe g));
                     (py "fingerprint", JStr (sg_fingerprint g));
                     (py "cost_units", JInt (cost_units stage));
                     (py "workload_class", JStr (py (value (stage_workload_class stage))));
                     (py "workload_kind", json_of_text ((fun k => py (value k)) <$> kind));
                     (py "notes", JStr (py (sg_notes g)))])
              (sg_safe g))
    end.

(** * The policy *)

(** [evaluation/policy.py:17-20 EscalationAction] *)
Inductive EscalationAction := FINISH | CONTINUE | DEFER.
#[export] Instance EscalationAction_eq_dec : EqDecision EscalationAction.
Proof. solve_decision. Defined.

(** [evaluation/policy.py:23-26 EscalationDecision] *)
Record EscalationDecision := mkEscalation { es_action : EscalationAction; es_reason : string }.

(** [(deadline_at - now).total_seconds() <= 30.0] *)
Definition deadline_near (deadline_at : option datetime) (now : datetime) : bool :=
  match deadline_at with
  | Some d => fle (total_seconds (d - now)) (of_Z 30)
  | None => false
  end.

(** [evaluation/policy.py:33-89 ProgressivePolicy.decide] *)
Definition decide_escalation (mode : EvaluationMode) (confidence : StageConfidence)
    (next_stage_exists : bool) (pressure : PressureState) (deadline_at : option datetime)
    (now : datetime) (next_stage_cost_units : Z) (safe_to_terminate : bool) : EscalationDecision :=
  if bool_decide (mode = M_ALWAYS_EXPENSIVE) then
    if next_stage_exists then mkEscalation CONTINUE "always_expensive"
    else mkEscalation FINISH "plan_exhausted"
  else
    let confident := is_confident confidence in
    if confident && safe_to_terminate then
      mkEscalation FINISH ("safe_early_exit_" +:+ value confidence)
    else if confident && negb safe_to_terminate then
      if next_stage_exists then mkEscalation CONTINUE "unsafe_confident_escalate"
      else mkEscalation FINISH "plan_exhausted_unsafe_confident"
    else if negb next_stage_exists then mkEscalation FINISH "plan_exhausted_uncertain"
    else if bool_decide (mode = M_FIXED_PROGRESSIVE) then mkEscalation CONTINUE "uncertain_escalate"
    else if negb (bool_decide (mode = M_RESOURCE_AWARE_ADAPTIVE)) then
      mkEscalation FINISH "unsupported_mode_finish"
    else
      let near := deadline_near deadline_at now in
      if bool_decide (pressure = DEGRADED) && (9 <=? next_stage_cost_units) && negb near then
        mkEscalation DEFER "degraded_defer_heavy"
      else if bool_decide (pressure = PRESSURED) && (9 <=? next_stage_cost_units) && negb near then
        mkEscalation DEFER "pressured_defer_heavy"
      else if near then mkEscalation CONTINUE "deadline_near_escalate"
      else mkEscalation CONTINUE "uncertain_escalate".

(** * The evaluator *)

(** [evaluation/progressive.py:26-41 ProgressiveResult] *)
Record ProgressiveResult := mkProgressive {
  pr_finished : bool;
  pr_score : option Z;
  pr_next_stage : Z;
  pr_early_exit_reason : option string;
  pr_defer_reason : option string;
  pr_stages : list json;
  pr_actual_cost_units : Z;
  pr_peak_alloc_bytes : Z;
  pr_execution_cpu_ms : float;
  pr_final_tier : option string;
  pr_confidence : option StageConfidence;
  pr_result_metadata : dict;
}.

Definition json_of_string (t : option string) : json :=
  match t with Some s => JStr (py s) | None => JNull end.

(** [round(1.0 - cost / ALWAYS_EXPENSIVE_COST_UNITS, 4)] *)
Definition compute_savings (cost : Z) : float :=
  fround 4 (fsub (of_Z 1) (int_truediv cost ALWAYS_EXPENSIVE_COST_UNITS)).

(** [evaluation/progressive.py:182-213 ProgressiveEvaluator._meta] *)
Definition progressive_meta (mode : EvaluationMode) (stages : list json) (cost peak : Z)
    (cpu_ms : float) (final_tier early_exit defer : option string)
    (confidence : option StageConfidence) : dict :=
  [(py "evaluator", JStr (py "progressive_synthetic_v1"));
   (py "progressive", JObj
      [(py "mode", JStr (py (value mode)));
       (py "stages_attempted", JInt (zlen stages));
       (py "stages_completed", JList stages);
       (py "actual_cost_units", JInt cost);
       (py "always_expensive_cost_units", JInt ALWAYS_EXPENSIVE_COST_UNITS);
       (py "compute_savings", JFloat (compute_savings cost));
       (py "execution_cpu_ms", JFloat (fround 3 cpu_ms));
       (py "peak_alloc_bytes", JInt peak);
       (py "final_tier", json_of_string final_tier);
       (py "early_exit_reason", json_of_string early_exit);
       (py "defer_reason", json_of_string defer);
       (py "confidence", json_of_string (value <$> confidence))])].

(** What [run] has accumulated: the log, CPU time, peak, cost, score and the last
    confidence and tier. *)
Record Progress := mkProgress {
  pg_stages : list json;
  pg_cpu : float;
  pg_peak : Z;
  pg_cost : Z;
  pg_score : Z;
  pg_confidence : option StageConfidence;
  pg_tier : option string;
}.

Definition no_progress : Progress := mkProgress [] fzero 0 0 0 None None.

(** [evaluation/progressive.py:91-96 ProgressiveEvaluator.run], the totals after a stage. *)
Definition after_stage (p : Progress) (stage : StageSpec) (o : StageOutcome) : Progress :=
  mkProgress (pg_stages p ++ [so_evidence o]) (fadd (pg_cpu p) (so_execution_cpu_ms o))
    (Z.max (pg_peak p) (so_peak_alloc_bytes o)) (pg_cost p + cost_units stage) (so_score o)
    (Some (so_confidence o)) (Some (stage_name stage)).

(** The result that a progress gives. *)
Definition conclude (mode : EvaluationMode) (finished : bool) (next : Z)
    (early_exit defer : option string) (p : Progress) : ProgressiveResult :=
  mkProgressive finished (Some (pg_score p)) next early_exit defer (pg_stages p) (pg_cost p)
    (pg_peak p) (fround 3 (pg_cpu p)) (pg_tier p) (pg_confidence p)
    (progressive_meta mode (pg_stages p) (pg_cost p) (pg_peak p) (pg_cpu p) (pg_tier p)
       early_exit defer (pg_confidence p)).

(** One claim's circumstances: the mode, the pressure, the deadline, the current
    time at each decision and the elapsed time of each stage. *)
Record Circumstances := mkCirc {
  cc_mode : EvaluationMode;
  cc_pressure : PressureState;
  cc_deadline : option datetime;
  cc_now : Z -> datetime;
  cc_cpu_ms : Z -> float;
}.

(** [evaluation/progressive.py:79-180 ProgressiveEvaluator.run], the loop from a stage
    on; [None] when the fuel does not last. *)
Fixpoint run_from (fuel : nat) (plan : EvaluationPlan) (cc : Circumstances) (submission_id : uuid)
    (metadata : dict) (artifact_key : option pystr) (index : Z) (p : Progress)
    : option (result eval_exn ProgressiveResult) :=
  match fuel with
  | O => None
  | S fuel =>
      match stage_at plan index with
      | None => Some (Ok (conclude (cc_mode cc) true index (Some "plan_exhausted"%string) None p))
      | Some stage =>
          match run_stage (cc_cpu_ms cc index) stage submission_id metadata artifact_key index with
          | Raise e => Some (Raise e)
          | Ok o =>
              let p := after_stage p stage o in
              let next_stage := stage_at plan (index + 1) in
              let decision := decide_escalation (cc_mode cc) (so_confidence o)
                                (bool_decide (is_Some next_stage)) (cc_pressure cc)
                                (cc_deadline cc) (cc_now cc index)
                                (match next_stage with Some s => cost_units s | None => 0 end)
                                (so_safe_to_terminate o) in
              match es_action decision with
              | FINISH => Some (Ok (conclude (cc_mode cc) true (index + 1)
                                      (Some (es_reason decision)) None p))
              | DEFER => Some (Ok (conclude (cc_mode cc) false (index + 1) None
                                     (Some (es_reason decision)) p))
              | CONTINUE =>
                  run_from fuel plan cc submission_id metadata artifact_key (index + 1) p
              end
          end
      end
  end.

(** [evaluation/progressive.py:62-180 ProgressiveEvaluator.run], with fuel for every
    stage of the plan and the test that ends the loop. *)
Definition run_progressive (plan : EvaluationPlan) (cc : Circumstances) (submission_id : uuid)
    (metadata : dict) (artifact_key : option pystr) (start_stage : Z)
    : option (result eval_exn ProgressiveResult) :=
  run_from (S (length plan)) plan cc submission_id metadata artifact_key (Z.max 0 start_stage)
    no_progress.

(** * Quality *)

(** [evaluation/quality.py:21-31 QualityComparison] *)
Record QualityComparison := mkQuality {
  qc_kind : WorkloadKind;
  qc_ground_truth : Verdict;
  qc_progressive_decision : Verdict;
  qc_agreement : bool;
  qc_false_early_pass : bool;
  qc_false_early_fail : bool;
  qc_early_exit : bool;
  qc_actual_cost_units : Z;
  qc_stages : Z;
}.

(** The loop that resumes deferred runs under normal pressure, at most [guard]
    times: the last result, the total cost, the stages and the last reason. *)
Fixpoint resume_deferred (guard : nat) (cc : Circumstances) (submission_id : uuid) (metadata : dict)
    (r : ProgressiveResult) (cost : Z) (stages : list json) (reason : option string)
    : option (result eval_exn (ProgressiveResult * Z * list json * option string)) :=
  match guard with
  | O => Some (Ok (r, cost, stages, reason))
  | S guard =>
      if pr_finished r then Some (Ok (r, cost, stages, reason))
      else
        match run_progressive DEFAULT_PLAN (mkCirc (cc_mode cc) NORMAL None (cc_now cc) (cc_cpu_ms cc))
                submission_id metadata None (pr_next_stage r) with
        | None => None
        | Some (Raise e) => Some (Raise e)
        | Some (Ok r') =>
            resume_deferred guard cc submission_id metadata r' (cost + pr_actual_cost_units r')
              (stages ++ pr_stages r')
              (match pr_early_exit_reason r' with
               | Some s => if String.eqb s "" then reason else Some s
               | None => reason
               end)
        end
  end.

(** [evaluation/quality.py:34-98 compare_to_ground_truth] *)
Definition compare_to_ground_truth (cc : Circumstances) (submission_id : uuid) (metadata : dict)
    : option (result eval_exn QualityComparison) :=
  match parse_workload_kind metadata with
  | None => Some (Raise (EvalRaised (ValueError
      "metadata must include workload_kind for quality comparison")))
  | Some kind =>
      let truth := ground_truth_for kind submission_id in
      match run_progressive DEFAULT_PLAN
              (mkCirc (cc_mode cc) (cc_pressure cc) None (cc_now cc) (cc_cpu_ms cc))
              submission_id metadata None 0 with
      | None => None
      | Some (Raise e) => Some (Raise e)
      | Some (Ok r) =>
          match resume_deferred 5 cc submission_id metadata r (pr_actual_cost_units r) (pr_stages r)
                  (pr_early_exit_reason r) with
          | None => None
          | Some (Raise e) => Some (Raise e)
          | Some (Ok (r, total_cost, total_stages, early_reason)) =>
              let decision := decision_from_score (default 0 (pr_score r)) in
              let early := match early_reason with
                           | Some s => startswith (py s) (py "safe_early_exit")
                           | None => false
                           end && (zlen total_stages <? 3) in
              Some (Ok (mkQuality kind (gt_decision truth) decision
                (bool_decide (decision = gt_decision truth))
                (early && bool_decide (decision = PASS) && bool_decide (gt_decision truth = FAIL))
                (early && bool_decide (decision = FAIL) && bool_decide (gt_decision truth = PASS))
                early total_cost (zlen total_stages)))
          end
      end
  end.
End Stages.
