(* ===== verification/ProgressiveSpec.v ===== *)
(** The properties of progressive evaluation: it terminates and accounts for its
    stages, and on the synthetic workloads it decides what the always-expensive
    evaluation decides. *)
From Stdlib Require Import ZArith Lia String.
From stdpp Require Import prelude strings.
From S2P Require Import Prelude PyFloat PyStr Domain Json Evaluator Runtime Progressive.

Section Progressive.
Context `{Sha256} `{FloatRepr} `{PyRepr}.

(** * Termination and accounting *)

Lemma stage_at_lookup plan i s :
  stage_at plan i = Some s -> 0 <= i < zlen plan /\ plan !! Z.to_nat i = Some s.
Proof.
  unfold stage_at. destruct (_ || _) eqn:E; [done|]. intros Hs. zify_bool.
  destruct E. split; [lia|done].
Qed.

Lemma stage_at_None plan i : 0 <= i -> stage_at plan i = None -> zlen plan <= i.
Proof.
  unfold stage_at, zlen. intros Hi. destruct (_ || _) eqn:E; [zify_bool; lia|].
  intros Hn%lookup_ge_None. zify_bool. lia.
Qed.

(** The cost of the stages from [i] on, [n] of them. *)
Definition cost_of (plan : EvaluationPlan) (i : Z) (n : nat) : Z :=
  foldr Z.add 0 (cost_units <$> take n (drop (Z.to_nat i) plan)).

Lemma cost_of_0 plan i : cost_of plan i 0 = 0.
Proof. reflexivity. Qed.

Lemma cost_of_S plan i s n :
  0 <= i -> plan !! Z.to_nat i = Some s -> cost_of plan i (S n) = cost_units s + cost_of plan (i + 1) n.
Proof.
  intros Hi Hs. unfold cost_of. rewrite (drop_S plan s (Z.to_nat i) Hs). cbn.
  by replace (S (Z.to_nat i)) with (Z.to_nat (i + 1)) by lia.
Qed.

(** What a result of the loop entered at stage [i] with progress [p] accounts for. *)
Definition accounted (plan : EvaluationPlan) (cc : Circumstances) (i : Z) (p : Progress)
    (r : ProgressiveResult) : Prop :=
  exists n : nat,
    pr_next_stage r = i + Z.of_nat n
    /\ zlen (pr_stages r) = zlen (pg_stages p) + Z.of_nat n
    /\ pr_actual_cost_units r = pg_cost p + cost_of plan i n
    /\ pr_next_stage r <= Z.max i (zlen plan)
    /\ (pr_finished r = false ->
        cc_mode cc = M_RESOURCE_AWARE_ADAPTIVE /\ cc_pressure cc <> NORMAL
        /\ exists s, stage_at plan (pr_next_stage r) = Some s /\ 9 <= cost_units s).

Lemma defer_cases mode c nx p d now u safe :
  es_action (decide_escalation mode c nx p d now u safe) = DEFER ->
  mode = M_RESOURCE_AWARE_ADAPTIVE /\ p <> NORMAL /\ 9 <= u /\ deadline_near d now = false
  /\ c = UNCERTAIN /\ nx = true.
Proof.
  unfold decide_escalation. repeat case_match; try done; zify_bool; intros _;
    repeat match goal with
    | E : _ /\ _ |- _ => destruct E
    | E : bool_decide _ = true |- _ => apply bool_decide_eq_true in E
    | E : bool_decide _ = false |- _ => apply bool_decide_eq_false in E
    end; destruct c, safe; naive_solver.
Qed.

Lemma run_from_total plan cc id meta key : forall fuel i p,
  0 <= i -> Z.max 0 (zlen plan - i) < Z.of_nat fuel ->
  exists res, (forall fuel', (fuel <= fuel')%nat ->
                 run_from fuel' plan cc id meta key i p = Some res)
  /\ forall r, res = Ok r -> accounted plan cc i p r.
Proof.
  induction fuel as [|fuel IH]; intros i p Hi Hfuel; [lia|].
  destruct (stage_at plan i) as [s|] eqn:Hs; cycle 1.
  { eexists. split; [intros [|f'] Hf; [lia|cbn; by rewrite Hs]|].
    intros r [= <-]. exists O.
    rewrite cost_of_0. cbn. split_and!; try lia; try done. }
  destruct (stage_at_lookup _ _ _ Hs) as [Hrange Hlook].
  destruct (run_stage (cc_cpu_ms cc i) s id meta key i) as [o|e] eqn:Ho; cycle 1.
  { exists (Raise e). split; [|done]. intros [|f'] Hf; [lia|]. cbn. by rewrite Hs, Ho. }
  set (p' := after_stage p s o).
  set (d := decide_escalation (cc_mode cc) (so_confidence o)
              (bool_decide (is_Some (stage_at plan (i + 1)))) (cc_pressure cc) (cc_deadline cc)
              (cc_now cc i) (match stage_at plan (i + 1) with Some s => cost_units s | None => 0 end)
              (so_safe_to_terminate o)).
  assert (forall f', run_from (S f') plan cc id meta key i p
    = match es_action d with
      | FINISH => Some (Ok (conclude (cc_mode cc) true (i + 1) (Some (es_reason d)) None p'))
      | DEFER => Some (Ok (conclude (cc_mode cc) false (i + 1) None (Some (es_reason d)) p'))
      | CONTINUE => run_from f' plan cc id meta key (i + 1) p'
      end) as Hunfold by (intros f'; cbn; by rewrite Hs, Ho).
  assert (zlen (pg_stages p') = zlen (pg_stages p) + 1) as Hlen
    by (unfold p', after_stage; cbn; by rewrite zlen_app).
  assert (pg_cost p' = pg_cost p + cost_units s) as Hcost by done.
  clearbody p'.
  destruct (es_action d) eqn:Hd.
  - eexists. split; [intros [|f'] Hf; [lia|apply Hunfold]|]. intros r [= <-]. exists 1%nat.
    rewrite (cost_of_S plan i s 0 Hi Hlook), cost_of_0. cbn. split_and!; lia || done.
  - destruct (IH (i + 1) p') as (res & Hres & Hacc); [lia..|].
    exists res. split; [intros [|f'] Hf; [lia|]; rewrite Hunfold; apply Hres; lia|].
    intros r Hr. destruct (Hacc r Hr) as (n & ? & ? & Hc & ? & ?). exists (S n).
    rewrite (cost_of_S plan i s n Hi Hlook). split_and!; lia || done.
  - eexists. split; [intros [|f'] Hf; [lia|apply Hunfold]|]. intros r [= <-]. exists 1%nat.
    rewrite (cost_of_S plan i s 0 Hi Hlook), cost_of_0. cbn. split_and!; try lia. intros _.
    destruct (defer_cases _ _ _ _ _ _ _ _ Hd) as (? & ? & Hu & _ & _ & Hnx).
    split_and!; [done..|]. apply bool_decide_eq_true in Hnx as [s' Hs'].
    rewrite Hs' in Hu. by exists s'.
Qed.

(** A stage's score is a percentage, whatever it observed. *)
Lemma run_stage_score cpu s id meta key i o :
  run_stage cpu s id meta key i = Ok o -> 0 <= so_score o <= 100.
Proof.
  unfold run_stage. destruct (is_true _); [done|]. destruct (stage_failure_forced _ _); [done|].
  cbv zeta. destruct (match parse_workload_kind meta with Some _ => _ | None => _ end); [|done].
  intros [= <-]. cbn [so_score]. lia.
Qed.

Lemma run_from_percentage plan cc id meta key : forall fuel i p r,
  0 <= i -> 0 <= pg_score p <= 100 -> run_from fuel plan cc id meta key i p = Some (Ok r) ->
  0 <= default 0 (pr_score r) <= 100 /\ 0 <= pr_next_stage r.
Proof.
  induction fuel as [|fuel IH]; intros i p r Hi Hp; [done|]. cbn [run_from].
  destruct (stage_at plan i) as [s|]; [|intros [= <-]; cbn; lia].
  destruct (run_stage _ s id meta key i) as [o|e] eqn:Ho; [|done].
  pose proof (run_stage_score _ _ _ _ _ _ _ Ho) as Hs.
  destruct (es_action _); [intros [= <-]; cbn; lia| |intros [= <-]; cbn; lia].
  intros Hr. apply IH in Hr; [done|lia|done].
Qed.

(** C13 A progressive evaluation of any plan terminates within its fuel, from any
    start stage; its result accounts for the stages it ran: as many log entries
    as stages, their summed cost, a next stage inside the plan; and it defers
    only in the resource-aware mode under pressure, before a stage that costs at
    least nine units. *)
Theorem run_progressive_total plan cc id meta key start :
  exists res, run_progressive plan cc id meta key start = Some res
  /\ (forall fuel, (S (length plan) <= fuel)%nat ->
        run_from fuel plan cc id meta key (Z.max 0 start) no_progress = Some res)
  /\ forall r, res = Ok r -> accounted plan cc (Z.max 0 start) no_progress r.
Proof.
  destruct (run_from_total plan cc id meta key (S (length plan)) (Z.max 0 start) no_progress)
    as (res & Hres & Hacc); [lia|unfold zlen; lia|].
  exists res. unfold run_progressive. auto.
Qed.

(** * Deferral and resumption *)

(** The result [r] adds the stages [l] and the cost [c] to the progress [p]. *)
Definition adds (p : Progress) (r : ProgressiveResult) (l : list json) (c : Z) : Prop :=
  pr_stages r = pg_stages p ++ l /\ pr_actual_cost_units r = pg_cost p + c.

(** Two progresses with the same last stage. *)
Definition alike (p q : Progress) : Prop :=
  pg_score p = pg_score q /\ pg_confidence p = pg_confidence q /\ pg_tier p = pg_tier q.

(** Two runs that end the same way. *)
Definition same_end (r r' : ProgressiveResult) : Prop :=
  pr_finished r = pr_finished r' /\ pr_score r = pr_score r'
  /\ pr_next_stage r = pr_next_stage r' /\ pr_early_exit_reason r = pr_early_exit_reason r'
  /\ pr_defer_reason r = pr_defer_reason r' /\ pr_final_tier r = pr_final_tier r'
  /\ pr_confidence r = pr_confidence r'.

(** Without pressure the policy finishes where it would have finished, and goes on
    everywhere else. *)
Lemma decide_normal mode c nx p d now d' now' u safe :
  let d1 := decide_escalation mode c nx p d now u safe in
  let d0 := decide_escalation mode c nx NORMAL d' now' u safe in
  (es_action d1 = FINISH /\ d0 = d1) \/ (es_action d1 <> FINISH /\ es_action d0 = CONTINUE).
Proof.
  unfold decide_escalation. destruct mode, c, nx, safe; cbn; auto.
  all: destruct p, (deadline_near d now), (deadline_near d' now'), (9 <=? u); cbn; auto.
Qed.

(** What a stage observes does not depend on the time it took. *)
Lemma run_stage_timeless cpu cpu' s id meta key i :
  match run_stage cpu s id meta key i, run_stage cpu' s id meta key i with
  | Raise e, Raise e' => e = e'
  | Ok o, Ok o' => so_confidence o = so_confidence o' /\ so_score o = so_score o'
                   /\ so_evidence o = so_evidence o'
                   /\ so_safe_to_terminate o = so_safe_to_terminate o'
  | _, _ => False
  end.
Proof.
  unfold run_stage. destruct (is_true _); [done|]. destruct (stage_failure_forced _ _); [done|].
  cbv zeta. by destruct (match parse_workload_kind meta with Some _ => _ | None => _ end).
Qed.

(** A run compared with one without pressure in the same mode: both fail alike;
    where it finishes the other finishes alike; where it defers the other goes
    on, with the same stages behind it. *)
Lemma run_from_alike plan cc cc0 id meta key :
  cc_mode cc = cc_mode cc0 -> cc_pressure cc0 = NORMAL ->
  forall fuel i p p0 res, alike p p0 \/ is_Some (stage_at plan i) ->
  run_from fuel plan cc id meta key i p = Some res ->
  match res with
  | Raise e => run_from fuel plan cc0 id meta key i p0 = Some (Raise e)
  | Ok r =>
      exists l c, adds p r l c
      /\ if pr_finished r then
           exists r0, run_from fuel plan cc0 id meta key i p0 = Some (Ok r0) /\ adds p0 r0 l c
                      /\ same_end r r0
         else
           exists fuel' q, run_from fuel plan cc0 id meta key i p0
                           = run_from fuel' plan cc0 id meta key (pr_next_stage r) q
           /\ Z.of_nat fuel' + pr_next_stage r = Z.of_nat fuel + i
           /\ pg_stages q = pg_stages p0 ++ l /\ pg_cost q = pg_cost p0 + c
           /\ l <> [] /\ is_Some (stage_at plan (pr_next_stage r))
  end.
Proof.
  intros Hmode Hnormal. induction fuel as [|fuel IH]; intros i p p0 res Hal Hrun; [done|].
  cbn [run_from] in Hrun |- *. destruct (stage_at plan i) as [s|] eqn:Hs; cycle 1.
  { destruct Hal as [(Ha1 & Ha2 & Ha3)|[? ?]]; [|done]. simplify_eq. exists [], 0.
    split; [split; cbn; [by rewrite app_nil_r|lia]|]. cbn. eexists. split; [reflexivity|].
    split; [split; cbn; [by rewrite app_nil_r|lia]|]. unfold same_end. cbn. by rewrite Ha1, Ha2, Ha3. }
  pose proof (run_stage_timeless (cc_cpu_ms cc i) (cc_cpu_ms cc0 i) s id meta key i) as Ht.
  destruct (run_stage (cc_cpu_ms cc i) s id meta key i) as [o|e],
    (run_stage (cc_cpu_ms cc0 i) s id meta key i) as [o0|e0]; try done; [|by simplify_eq].
  destruct Ht as (Hc & Hsc & Hev & Hsafe). rewrite <-Hc, <-Hsafe, <-Hmode, Hnormal.
  set (nx := bool_decide _) in *. set (u := match stage_at plan (i + 1) with Some _ => _ | None => _ end) in *.
  set (p' := after_stage p s o) in *. set (p0' := after_stage p0 s o0).
  assert (alike p' p0') as Hal' by (unfold alike, p', p0'; cbn; by rewrite Hsc, Hc).
  assert (pg_stages p' = pg_stages p ++ [so_evidence o] /\ pg_cost p' = pg_cost p + cost_units s) as [Hp1 Hp2] by done.
  assert (pg_stages p0' = pg_stages p0 ++ [so_evidence o] /\ pg_cost p0' = pg_cost p0 + cost_units s)
    as [Hq1 Hq2] by (unfold p0'; cbn; by rewrite Hev).
  pose proof (decide_normal (cc_mode cc) (so_confidence o) nx (cc_pressure cc) (cc_deadline cc)
                (cc_now cc i) (cc_deadline cc0) (cc_now cc0 i) u (so_safe_to_terminate o)) as Hd.
  cbv zeta in Hd. set (d := decide_escalation _ _ _ (cc_pressure cc) _ _ _ _) in *.
  set (d0 := decide_escalation _ _ _ NORMAL _ _ _ _) in *.
  clearbody p' p0'. destruct (es_action d) eqn:Ha.
  - destruct Hd as [[_ ->]|[? _]]; [|done]. rewrite Ha. simplify_eq.
    exists [so_evidence o], (cost_units s). split; [by split|]. cbn [conclude pr_finished].
    eexists. split; [reflexivity|]. split; [by split|].
    destruct Hal' as (Ha1 & Ha2 & Ha3). unfold same_end. cbn. by rewrite Ha1, Ha2, Ha3.
  - destruct Hd as [[? _]|[_ ->]]; [done|].
    pose proof (IH (i + 1) p' p0' res (or_introl Hal') Hrun) as HIH.
    destruct res as [r|e]; [|done]. destruct HIH as (l & c & [Hr1 Hr2] & HIH).
    exists (so_evidence o :: l), (cost_units s + c).
    split; [split; [by rewrite Hr1, Hp1, <-app_assoc|lia]|]. destruct (pr_finished r).
    + destruct HIH as (r0 & Hr0 & [H01 H02] & Hend). exists r0. split; [done|]. split; [|done].
      split; [by rewrite H01, Hq1, <-app_assoc|lia].
    + destruct HIH as (f' & q & Hq & Hf & H01 & H02 & _ & Hnext). exists f', q. split; [done|].
      split; [lia|]. split; [by rewrite H01, Hq1, <-app_assoc|]. split; [lia|]. by split.
  - destruct Hd as [[? _]|[_ ->]]; [done|]. simplify_eq.
    exists [so_evidence o], (cost_units s). split; [by split|]. cbn [conclude pr_finished pr_next_stage].
    exists fuel, p0'. split; [done|]. split; [lia|]. split; [done|]. split; [done|]. split; [done|].
    destruct (defer_cases _ _ _ _ _ _ _ _ Ha) as (_ & _ & _ & _ & _ & Hnx).
    by apply bool_decide_eq_true in Hnx.
Qed.

(** The metadata of a result is made of its other fields. *)
Lemma run_from_meta plan cc id meta key : forall fuel i p r,
  run_from fuel plan cc id meta key i p = Some (Ok r) ->
  exists cpu, pr_result_metadata r
    = progressive_meta (cc_mode cc) (pr_stages r) (pr_actual_cost_units r) (pr_peak_alloc_bytes r)
        cpu (pr_final_tier r) (pr_early_exit_reason r) (pr_defer_reason r) (pr_confidence r).
Proof.
  induction fuel as [|fuel IH]; intros i p r; [done|]. cbn [run_from].
  destruct (stage_at plan i); [|intros [= <-]; by eexists].
  destruct (run_stage _ _ _ _ _ _); [|done].
  destruct (es_action _); [intros [= <-]; by eexists|apply IH|intros [= <-]; by eexists].
Qed.

(** A run that defers, then resumes without pressure, beside one that never met
    pressure. *)
Lemma resume_alike cc1 cc2 cc0 id meta key r1 :
  cc_mode cc1 = cc_mode cc0 -> cc_mode cc2 = cc_mode cc0 ->
  cc_pressure cc2 = NORMAL -> cc_pressure cc0 = NORMAL ->
  run_progressive DEFAULT_PLAN cc1 id meta key 0 = Some (Ok r1) -> pr_finished r1 = false ->
  pr_stages r1 <> []
  /\ match run_progressive DEFAULT_PLAN cc2 id meta key (pr_next_stage r1),
           run_progressive DEFAULT_PLAN cc0 id meta key 0 with
     | Some (Raise e2), Some (Raise e0) => e2 = e0
     | Some (Ok r2), Some (Ok r0) =>
         pr_finished r2 = true /\ same_end r2 r0
         /\ pr_stages r0 = pr_stages r1 ++ pr_stages r2
         /\ pr_actual_cost_units r0 = pr_actual_cost_units r1 + pr_actual_cost_units r2
     | _, _ => False
     end.
Proof.
  intros Hm1 Hm2 Hn2 Hn0 Hrun1 Hdef.
  destruct (run_from_alike DEFAULT_PLAN cc1 cc0 id meta key Hm1 Hn0 _ _ _ no_progress _
              (or_introl (conj eq_refl (conj eq_refl eq_refl))) Hrun1) as (l & c & [Hs1 Hc1] & Hal).
  rewrite Hdef in Hal. destruct Hal as (f' & q & Hq & Hf & Hqs & Hqc & Hl & Hnext).
  cbn in Hs1, Hc1, Hqs, Hqc. destruct Hnext as [s Hs].
  destruct (stage_at_lookup _ _ _ Hs) as [Hrange _].
  split; [by rewrite Hs1|].
  destruct (run_from_total DEFAULT_PLAN cc2 id meta key f' (pr_next_stage r1) no_progress)
    as (res & Hres & Hacc); [lia|unfold zlen in *; cbn in *; lia|].
  assert (run_progressive DEFAULT_PLAN cc2 id meta key (pr_next_stage r1) = Some res) as ->.
  { unfold run_progressive. rewrite Z.max_r by lia. apply Hres. cbn in *; lia. }
  unfold run_progressive. change (Z.max 0 0) with 0 in *. rewrite Hq.
  pose proof (run_from_alike DEFAULT_PLAN cc2 cc0 id meta key Hm2 Hn0 _ _ _ q _
                (or_intror (ex_intro _ s Hs)) (Hres f' (le_n _))) as Hal.
  destruct res as [r2|e]; [|by rewrite Hal].
  destruct Hal as (l2 & c2 & [Hs2 Hc2] & Hal). cbn in Hs2, Hc2. destruct (pr_finished r2) eqn:Hfin; cycle 1.
  { exfalso. destruct (Hacc r2 eq_refl) as (_ & _ & _ & _ & _ & Hno). naive_solver. }
  destruct Hal as (r0 & -> & [Hs0 Hc0] & Hend). split; [done|]. split; [done|].
  split; [by rewrite Hs0, Hqs, Hs1, Hs2|lia].
Qed.

(** * Agreement with the ground truth *)

(** Nothing in the metadata forces a failure. *)
Definition failure_free (meta : dict) : Prop :=
  is_true (dget meta (py "force_evaluation_failure")) = false
  /\ Forall (fun s => stage_failure_forced meta s = false) DEFAULT_PLAN.

Definition progressive_mode (m : EvaluationMode) : Prop :=
  m = M_ALWAYS_EXPENSIVE \/ m = M_FIXED_PROGRESSIVE \/ m = M_RESOURCE_AWARE_ADAPTIVE.

Lemma truth_score_bounds kind id :
  match gt_decision (ground_truth_for kind id) with
  | PASS => 70 <= truth_score (ground_truth_for kind id) <= 84
  | FAIL => 10 <= truth_score (ground_truth_for kind id) <= 24
  end.
Proof.
  unfold ground_truth_for. cbn [gt_decision truth_score].
  match goal with |- context [?x mod 15] => pose proof (Z.mod_pos_bound x 15 eq_refl) end.
  destruct (endswith _ _); lia.
Qed.

Lemma truth_score_clamped kind id :
  Z.min 100 (Z.max 0 (truth_score (ground_truth_for kind id))) = truth_score (ground_truth_for kind id).
Proof. pose proof (truth_score_bounds kind id). destruct (gt_decision _); lia. Qed.

Lemma decision_of_truth kind id :
  decision_from_score (truth_score (ground_truth_for kind id)) = gt_decision (ground_truth_for kind id).
Proof.
  pose proof (truth_score_bounds kind id) as Hb. unfold decision_from_score, PASS_THRESHOLD.
  destruct (gt_decision _), (_ <=? _) eqn:E; zify_bool; try done; lia.
Qed.

(** A stage of the plan on a workload of a known kind. *)
Lemma run_stage_kind cpu s id meta key i kind :
  failure_free meta -> parse_workload_kind meta = Some kind -> s ∈ DEFAULT_PLAN ->
  let e := evidence_for_stage (stage_name s) kind id in
  exists o, run_stage cpu s id meta key i = Ok o
  /\ so_confidence o = se_confidence e /\ so_safe_to_terminate o = se_safe_to_terminate e
  /\ so_score o = Z.min 100 (Z.max 0 (se_score e)).
Proof.
  intros [Hf Hs] Hk Hin e. unfold run_stage. rewrite Hf.
  rewrite Forall_forall in Hs. rewrite (Hs s Hin), Hk. eexists. split; [reflexivity|]. done.
Qed.
Lemma run_step fuel plan cc id meta key i p s o :
  stage_at plan i = Some s -> run_stage (cc_cpu_ms cc i) s id meta key i = Ok o ->
  let d := decide_escalation (cc_mode cc) (so_confidence o)
             (bool_decide (is_Some (stage_at plan (i + 1)))) (cc_pressure cc) (cc_deadline cc)
             (cc_now cc i) (match stage_at plan (i + 1) with Some s => cost_units s | None => 0 end)
             (so_safe_to_terminate o) in
  run_from (S fuel) plan cc id meta key i p
  = match es_action d with
    | FINISH => Some (Ok (conclude (cc_mode cc) true (i + 1) (Some (es_reason d)) None (after_stage p s o)))
    | DEFER => Some (Ok (conclude (cc_mode cc) false (i + 1) None (Some (es_reason d)) (after_stage p s o)))
    | CONTINUE => run_from fuel plan cc id meta key (i + 1) (after_stage p s o)
    end.
Proof. intros Hs Ho d. cbn [run_from]. by rewrite Hs, Ho. Qed.

Section KnownKind.
Context (id : uuid) (meta : dict) (key : option pystr) (kind : WorkloadKind).
Context (Hfree : failure_free meta) (Hkind : parse_workload_kind meta = Some kind).

Lemma is_confident_in d : is_confident (confident_in d) = true.
Proof. by destruct d. Qed.

Definition truth : Z := truth_score (ground_truth_for kind id).

(** The result is the truth, [n] stages and [c] units after the progress [p]. *)
Definition settled (p : Progress) (n c : Z) (r : ProgressiveResult) : Prop :=
  pr_finished r = true /\ pr_score r = Some truth
  /\ pr_actual_cost_units r = pg_cost p + c /\ zlen (pr_stages r) = zlen (pg_stages p) + n.

(** The result waits for the heavy stage. *)
Definition deferred (cc : Circumstances) (p : Progress) (n c : Z) (r : ProgressiveResult) : Prop :=
  pr_finished r = false /\ pr_next_stage r = 2
  /\ pr_actual_cost_units r = pg_cost p + c /\ zlen (pr_stages r) = zlen (pg_stages p) + n
  /\ cc_mode cc = M_RESOURCE_AWARE_ADAPTIVE /\ cc_pressure cc <> NORMAL.

(** What an evidence does to a stage that has a successor. *)
Lemma decide_with_next mode e p d now u :
  progressive_mode mode ->
  let dec := decide_escalation mode (se_confidence e) true p d now u (se_safe_to_terminate e) in
  (es_action dec = FINISH /\ mode <> M_ALWAYS_EXPENSIVE /\ is_confident (se_confidence e) = true
   /\ se_safe_to_terminate e = true)
  \/ es_action dec = CONTINUE
  \/ (es_action dec = DEFER /\ mode = M_RESOURCE_AWARE_ADAPTIVE /\ p <> NORMAL /\ 9 <= u).
Proof.
  intros Hmode dec. destruct (es_action dec) eqn:Hd; [|by right; left|].
  - left. unfold dec, decide_escalation in Hd.
    destruct Hmode as [-> | [-> | ->]]; cbn in Hd;
      destruct (is_confident (se_confidence e)), (se_safe_to_terminate e); cbn in Hd; try done;
      repeat case_match; done.
  - right; right. by destruct (defer_cases _ _ _ _ _ _ _ _ Hd) as (-> & ? & ? & _).
Qed.

(** The heavy stage decides the truth in every mode. *)
Lemma heavy_finishes fuel cc p :
  exists r, run_from (S fuel) DEFAULT_PLAN cc id meta key 2 p = Some (Ok r) /\ settled p 1 9 r.
Proof using Hfree Hkind.
  destruct (run_stage_kind (cc_cpu_ms cc 2) HEAVY id meta key 2 kind Hfree Hkind ltac:(set_solver))
    as (o & Ho & Hc & Hsafe & Hscore).
  rewrite (run_step fuel DEFAULT_PLAN cc id meta key 2 p HEAVY o eq_refl Ho).
  change (evidence_for_stage (stage_name HEAVY) kind id) with (heavy_evidence kind id) in *.
  unfold heavy_evidence in Hc, Hsafe, Hscore.
  cbn [se_confidence se_safe_to_terminate se_score] in Hc, Hsafe, Hscore.
  rewrite truth_score_clamped in Hscore. rewrite Hc, Hsafe. unfold decide_escalation.
  change (bool_decide (is_Some (stage_at DEFAULT_PLAN (2 + 1)))) with false.
  rewrite is_confident_in. destruct (bool_decide (cc_mode cc = M_ALWAYS_EXPENSIVE)); cbn.
  all: eexists; split; [reflexivity|]; unfold settled; cbn; rewrite Hscore, zlen_app; done.
Qed.

(** Confident and safe evidence is the truth, at every stage. *)
Lemma safe_evidence_true name :
  let e := evidence_for_stage name kind id in
  is_confident (se_confidence e) = true -> se_safe_to_terminate e = true -> se_score e = truth.
Proof.
  unfold evidence_for_stage. destruct (String.eqb name "cheap"); [|destruct (String.eqb name "medium")].
  all: cbv zeta; unfold cheap_evidence, medium_evidence, heavy_evidence, truth; clear Hkind; destruct kind;
    cbn [se_confidence se_safe_to_terminate se_score]; congruence.
Qed.

Lemma medium_settles fuel cc p :
  progressive_mode (cc_mode cc) ->
  exists r, run_from (S (S fuel)) DEFAULT_PLAN cc id meta key 1 p = Some (Ok r)
  /\ (cc_mode cc <> M_ALWAYS_EXPENSIVE /\ settled p 1 3 r \/ settled p 2 12 r \/ deferred cc p 1 3 r).
Proof using Hfree Hkind.
  intros Hmode.
  destruct (run_stage_kind (cc_cpu_ms cc 1) MEDIUM id meta key 1 kind Hfree Hkind ltac:(set_solver))
    as (o & Ho & Hc & Hsafe & Hscore).
  rewrite (run_step (S fuel) DEFAULT_PLAN cc id meta key 1 p MEDIUM o eq_refl Ho). cbv zeta.
  change (bool_decide (is_Some (stage_at DEFAULT_PLAN (1 + 1)))) with true.
  rewrite Hc, Hsafe.
  destruct (decide_with_next (cc_mode cc) (evidence_for_stage (stage_name MEDIUM) kind id)
              (cc_pressure cc) (cc_deadline cc) (cc_now cc 1)
              (match stage_at DEFAULT_PLAN (1 + 1) with Some s => cost_units s | None => 0 end) Hmode)
    as [(-> & Hm & Hconf & Hs)|[->|(-> & Hm & Hp & _)]].
  - eexists. split; [reflexivity|]. left. split; [done|].
    rewrite (safe_evidence_true _ Hconf Hs) in Hscore. unfold truth in Hscore.
    rewrite truth_score_clamped in Hscore. unfold settled. cbn. by rewrite Hscore, zlen_app.
  - destruct (heavy_finishes fuel cc (after_stage p MEDIUM o)) as (r & Hr & Hf & Hsc & Hco & Hn).
    exists r. split; [exact Hr|]. right; left. unfold settled. rewrite Hco, Hn. cbn.
    rewrite zlen_app. split_and!; [done..|lia|]. unfold zlen. cbn. lia.
  - eexists. split; [reflexivity|]. right; right. unfold deferred. cbn. by rewrite zlen_app.
Qed.

Lemma cheap_settles fuel cc p :
  progressive_mode (cc_mode cc) ->
  exists r, run_from (S (S (S fuel))) DEFAULT_PLAN cc id meta key 0 p = Some (Ok r)
  /\ (cc_mode cc <> M_ALWAYS_EXPENSIVE /\ (settled p 1 1 r \/ settled p 2 4 r)
      \/ settled p 3 13 r \/ deferred cc p 2 4 r).
Proof using Hfree Hkind.
  intros Hmode.
  destruct (run_stage_kind (cc_cpu_ms cc 0) CHEAP id meta key 0 kind Hfree Hkind ltac:(set_solver))
    as (o & Ho & Hc & Hsafe & Hscore).
  rewrite (run_step (S (S fuel)) DEFAULT_PLAN cc id meta key 0 p CHEAP o eq_refl Ho). cbv zeta.
  change (bool_decide (is_Some (stage_at DEFAULT_PLAN (0 + 1)))) with true.
  rewrite Hc, Hsafe.
  destruct (decide_with_next (cc_mode cc) (evidence_for_stage (stage_name CHEAP) kind id)
              (cc_pressure cc) (cc_deadline cc) (cc_now cc 0)
              (match stage_at DEFAULT_PLAN (0 + 1) with Some s => cost_units s | None => 0 end) Hmode)
    as [(-> & Hm & Hconf & Hs)|[->|(-> & _ & _ & Hu)]]; [| |by cbn in Hu].
  - eexists. split; [reflexivity|]. left. split; [done|]. left.
    rewrite (safe_evidence_true _ Hconf Hs) in Hscore. unfold truth in Hscore.
    rewrite truth_score_clamped in Hscore. unfold settled. cbn. by rewrite Hscore, zlen_app.
  - destruct (medium_settles fuel cc (after_stage p CHEAP o) Hmode) as (r & Hr & Hout).
    exists r. split; [exact Hr|].
    assert (pg_cost (after_stage p CHEAP o) = pg_cost p + 1) as Hco by done.
    assert (zlen (pg_stages (after_stage p CHEAP o)) = zlen (pg_stages p) + 1) as Hn
      by (cbn; by rewrite zlen_app).
    unfold settled, deferred in Hout |- *. rewrite Hco, Hn in Hout.
    destruct Hout as [(? & ? & ? & ? & ?)|[(? & ? & ? & ?)|(? & ? & ? & ? & ? & ?)]];
      [left; split; [done|]; right|right; left|right; right]; split_and!; done || lia.
Qed.
End KnownKind.

(** C14 Progressive evaluation decides what the always-expensive evaluation
    decides: on a synthetic workload without forced failures, in every
    progressive mode and under any pressure and deadline, it ends with the score
    of the evaluation that runs all three stages, which is the ground truth, at
    no higher cost; or it defers once, before the heavy stage, and its
    resumption, whatever the circumstances then, ends with that score at the
    cost of the whole plan. *)
Theorem progressive_equals_expensive (id : uuid) meta key kind (cc later : Circumstances) :
  failure_free meta -> parse_workload_kind meta = Some kind -> progressive_mode (cc_mode cc) ->
  exists expensive r,
    run_progressive DEFAULT_PLAN
      (mkCirc M_ALWAYS_EXPENSIVE (cc_pressure cc) (cc_deadline cc) (cc_now cc) (cc_cpu_ms cc))
      id meta key 0 = Some (Ok expensive)
    /\ pr_finished expensive = true /\ pr_score expensive = Some (truth id kind)
    /\ pr_actual_cost_units expensive = ALWAYS_EXPENSIVE_COST_UNITS
    /\ run_progressive DEFAULT_PLAN cc id meta key 0 = Some (Ok r)
    /\ ((pr_finished r = true /\ pr_score r = pr_score expensive
         /\ pr_actual_cost_units r <= ALWAYS_EXPENSIVE_COST_UNITS)
        \/ (pr_finished r = false /\ cc_mode cc = M_RESOURCE_AWARE_ADAPTIVE
            /\ cc_pressure cc <> NORMAL
            /\ exists r', run_progressive DEFAULT_PLAN later id meta key (pr_next_stage r) = Some (Ok r')
               /\ pr_finished r' = true /\ pr_score r' = pr_score expensive
               /\ pr_actual_cost_units r + pr_actual_cost_units r' = ALWAYS_EXPENSIVE_COST_UNITS)).
Proof.
  intros Hfree Hkind Hmode.
  destruct (cheap_settles id meta key kind Hfree Hkind 1
              (mkCirc M_ALWAYS_EXPENSIVE (cc_pressure cc) (cc_deadline cc) (cc_now cc) (cc_cpu_ms cc))
              no_progress (or_introl eq_refl)) as (re & Hre & Hout).
  destruct Hout as [[? _]|[(Hfe & Hse & Hce & _)|(_ & _ & _ & _ & ? & _)]]; [done| |done].
  destruct (cheap_settles id meta key kind Hfree Hkind 1 cc no_progress Hmode) as (r & Hr & Hout).
  exists re, r. do 3 (split; [done|]). split; [exact Hce|]. split; [exact Hr|]. rewrite Hse.
  unfold ALWAYS_EXPENSIVE_COST_UNITS.
  destruct Hout as [[_ [(Hf & Hs & Hc & _)|(Hf & Hs & Hc & _)]]
                   |[(Hf & Hs & Hc & _)|(Hf & Hn & Hc & _ & Hm & Hp)]]; cbn in Hc |- *.
  1-3: left; split_and!; [done..|lia].
  right. split_and!; [done..|].
  destruct (heavy_finishes id meta key kind Hfree Hkind 3 later no_progress) as (r' & Hr' & Hf' & Hs' & Hc' & _).
  exists r'. rewrite Hn. split; [exact Hr'|]. cbn in Hc'. split_and!; [done..|lia].
Qed.

Lemma resume_finished guard cc id meta r cost stages reason :
  pr_finished r = true ->
  resume_deferred guard cc id meta r cost stages reason = Some (Ok (r, cost, stages, reason)).
Proof. intros Hf. destruct guard; cbn; [done|]. by rewrite Hf. Qed.

Lemma resume_once guard cc id meta r cost stages reason r' :
  pr_finished r = false ->
  run_progressive DEFAULT_PLAN (mkCirc (cc_mode cc) NORMAL None (cc_now cc) (cc_cpu_ms cc))
    id meta None (pr_next_stage r) = Some (Ok r') ->
  pr_finished r' = true ->
  exists reason', resume_deferred (S guard) cc id meta r cost stages reason
    = Some (Ok (r', cost + pr_actual_cost_units r', stages ++ pr_stages r', reason')).
Proof.
  intros Hf Hr Hf'. cbn [resume_deferred]. rewrite Hf, Hr, resume_finished by done. eauto.
Qed.

(** An early exit is never wrong: the comparison of a progressive evaluation
    with the ground truth, deferred runs resumed, always returns, its decision
    agrees with the truth, it reports neither a false early pass nor a false
    early fail, and its total cost is at most that of the whole plan. *)
Theorem no_false_early_exit (cc : Circumstances) (id : uuid) meta kind :
  failure_free meta -> parse_workload_kind meta = Some kind -> progressive_mode (cc_mode cc) ->
  exists q, compare_to_ground_truth cc id meta = Some (Ok q)
  /\ qc_kind q = kind /\ qc_progressive_decision q = gt_decision (ground_truth_for kind id)
  /\ qc_agreement q = true /\ qc_false_early_pass q = false /\ qc_false_early_fail q = false
  /\ qc_actual_cost_units q <= ALWAYS_EXPENSIVE_COST_UNITS /\ 1 <= qc_stages q <= 3.
Proof.
  intros Hfree Hkind Hmode. unfold compare_to_ground_truth. rewrite Hkind.
  destruct (cheap_settles id meta None kind Hfree Hkind 1
              (mkCirc (cc_mode cc) (cc_pressure cc) None (cc_now cc) (cc_cpu_ms cc))
              no_progress Hmode) as (r & Hr & Hout).
  change (run_progressive DEFAULT_PLAN
            (mkCirc (cc_mode cc) (cc_pressure cc) None (cc_now cc) (cc_cpu_ms cc)) id meta None 0)
    with (run_from 4 DEFAULT_PLAN
            (mkCirc (cc_mode cc) (cc_pressure cc) None (cc_now cc) (cc_cpu_ms cc)) id meta None 0
            no_progress).
  rewrite Hr.
  assert (exists r' cost stages reason,
    resume_deferred 5 cc id meta r (pr_actual_cost_units r) (pr_stages r) (pr_early_exit_reason r)
    = Some (Ok (r', cost, stages, reason))
    /\ pr_score r' = Some (truth id kind) /\ cost <= ALWAYS_EXPENSIVE_COST_UNITS
    /\ 1 <= zlen stages <= 3) as (r' & cost & stages & reason & Hres & Hs & Hc & Hn).
  { assert (pr_finished r = true /\ pr_score r = Some (truth id kind)
            /\ pr_actual_cost_units r <= 13 /\ 1 <= zlen (pr_stages r) <= 3
            \/ deferred (mkCirc (cc_mode cc) (cc_pressure cc) None (cc_now cc) (cc_cpu_ms cc))
                 no_progress 2 4 r) as [(Hf & Hs & Hc & Hn)|(Hf & Hnx & Hc & Hn & _)].
    { unfold settled in Hout. change (zlen (pg_stages no_progress)) with 0 in Hout.
      change (pg_cost no_progress) with 0 in Hout.
      destruct Hout as [[_ [(?&?&?&?)|(?&?&?&?)]]|[(?&?&?&?)|?]]; [left; split_and!; done || lia..|by right]. }
    - rewrite (resume_finished _ _ _ _ _ _ _ _ Hf). eauto 10.
    - destruct (heavy_finishes id meta None kind Hfree Hkind 3
                  (mkCirc (cc_mode cc) NORMAL None (cc_now cc) (cc_cpu_ms cc)) no_progress)
        as (r' & Hr' & Hf' & Hs' & Hc' & Hn').
      destruct (resume_once 4 cc id meta r (pr_actual_cost_units r) (pr_stages r)
                  (pr_early_exit_reason r) r' Hf) as [reason' E]; [by rewrite Hnx|done|].
      exists r', (pr_actual_cost_units r + pr_actual_cost_units r'), (pr_stages r ++ pr_stages r'), reason'.
      split; [exact E|]. rewrite zlen_app.
      change (zlen (pg_stages no_progress)) with 0 in Hn, Hn'.
      change (pg_cost no_progress) with 0 in Hc, Hc'. unfold ALWAYS_EXPENSIVE_COST_UNITS. cbn.
      split_and!; done || lia. }
  rewrite Hres. eexists. split; [reflexivity|].
  cbn [qc_kind qc_progressive_decision qc_agreement qc_false_early_pass qc_false_early_fail
       qc_actual_cost_units qc_stages]. rewrite Hs. cbn [default Datatypes.id]. unfold truth.
  rewrite decision_of_truth.
  split; [done|]. split; [done|]. split; [by apply bool_decide_eq_true|].
  split_and!; try lia; destruct (gt_decision _); by rewrite ?andb_false_r.
Qed.
End Progressive.

Module ProgressiveSample.
Definition sha : Sha256 := fun _ => py "0a0b0c0d".
Definition frepr : FloatRepr := fun _ => [].
Definition repr : PyRepr := fun _ => [].
Definition hard : dict := [(py "workload_kind", JStr (py "Hard_Fail"))].
Definition pressed : Circumstances :=
  mkCirc M_RESOURCE_AWARE_ADAPTIVE DEGRADED None (fun _ => 0) (fun _ => fzero).

Lemma hard_free : failure_free (H1 := repr) hard.
Proof. split; [reflexivity|]. repeat constructor. Qed.
Lemma hard_kind : parse_workload_kind hard = Some HARD_FAIL.
Proof. vm_compute. reflexivity. Qed.
End ProgressiveSample.

Lemma progressive_equals_expensive_witness :
  exists r, run_progressive (H := ProgressiveSample.sha) (H0 := ProgressiveSample.frepr)
              (H1 := ProgressiveSample.repr) DEFAULT_PLAN
              (mkCirc M_ALWAYS_EXPENSIVE DEGRADED None (fun _ => 0) (fun _ => fzero))
              7 ProgressiveSample.hard None 0 = Some (Ok r)
  /\ pr_score r = Some (truth (H := ProgressiveSample.sha) 7 HARD_FAIL)
  /\ pr_actual_cost_units r = 13.
Proof.
  destruct (progressive_equals_expensive (H := ProgressiveSample.sha) (H0 := ProgressiveSample.frepr)
    (H1 := ProgressiveSample.repr) 7 ProgressiveSample.hard None HARD_FAIL ProgressiveSample.pressed
    ProgressiveSample.pressed ProgressiveSample.hard_free ProgressiveSample.hard_kind
    (or_intror (or_intror eq_refl))) as (r & _ & Hr & _ & Hs & Hc & _).
  exists r. exact (conj Hr (conj Hs Hc)).
Defined.

Lemma no_false_early_exit_witness :
  exists q, compare_to_ground_truth (H := ProgressiveSample.sha) (H0 := ProgressiveSample.frepr)
              (H1 := ProgressiveSample.repr) ProgressiveSample.pressed 7 ProgressiveSample.hard
            = Some (Ok q)
  /\ qc_agreement q = true.
Proof.
  destruct (no_false_early_exit (H := ProgressiveSample.sha) (H0 := ProgressiveSample.frepr)
    (H1 := ProgressiveSample.repr) ProgressiveSample.pressed 7 ProgressiveSample.hard HARD_FAIL
    ProgressiveSample.hard_free ProgressiveSample.hard_kind
    (or_intror (or_intror eq_refl))) as (q & Hq & _ & _ & Ha & _).
  exists q. exact (conj Hq Ha).
Defined.
