(* ===== verification/ExecutionContract.v ===== *)
(** The execution contract (src/challengeforge/execution): resource budgets, the
    allow-listed environment of a child process, and the mapping from what a
    process did to what becomes of its evaluation. *)
From Stdlib Require Import ZArith Lia String.
From stdpp Require Import prelude strings gmap.
From S2P Require Import Prelude PyFloat PyStr Domain Json.

(** * Budgets *)

(** [execution/limits.py:16-78 ExecutionLimits] *)
Record ExecutionLimits := mkLimits {
  wall_timeout_seconds : float;
  max_stdout_bytes : Z;
  max_stderr_bytes : Z;
  max_process_count : option Z;
  max_job_memory_mb : option float;
  max_rss_mb : option float;
  rss_poll_interval_seconds : float;
  max_cpu_seconds : option float;
  cpu_rate_percent : option float;
  max_workspace_bytes : option Z;
  workspace_poll_interval_seconds : float;
  grace_terminate_seconds : float;
  cleanup_deadline_seconds : float;
  workspace_retain_on_failure : bool;
}.

(** [execution/limits.py:16-78 ExecutionLimits], the defaults around the three
    fields the worker sets. *)
Definition limits_with (wall : float) (stdout stderr : Z) : ExecutionLimits :=
  mkLimits wall stdout stderr None None None (lit 1 10) None None None (lit 15 100) (lit 5 10)
    (of_Z 5) false.

Definition default_limits : ExecutionLimits := limits_with (of_Z 5) (256 * 1024) (256 * 1024).

Definition json_opt {A} (f : A -> json) (o : option A) : json :=
  match o with Some a => f a | None => JNull end.

(** [execution/limits.py:80-81 ExecutionLimits.to_dict] *)
Definition limits_dict (l : ExecutionLimits) : dict :=
  [(py "wall_timeout_seconds", JFloat (wall_timeout_seconds l));
   (py "max_stdout_bytes", JInt (max_stdout_bytes l));
   (py "max_stderr_bytes", JInt (max_stderr_bytes l));
   (py "max_process_count", json_opt JInt (max_process_count l));
   (py "max_job_memory_mb", json_opt JFloat (max_job_memory_mb l));
   (py "max_rss_mb", json_opt JFloat (max_rss_mb l));
   (py "rss_poll_interval_seconds", JFloat (rss_poll_interval_seconds l));
   (py "max_cpu_seconds", json_opt JFloat (max_cpu_seconds l));
   (py "cpu_rate_percent", json_opt JFloat (cpu_rate_percent l));
   (py "max_workspace_bytes", json_opt JInt (max_workspace_bytes l));
   (py "workspace_poll_interval_seconds", JFloat (workspace_poll_interval_seconds l));
   (py "grace_terminate_seconds", JFloat (grace_terminate_seconds l));
   (py "cleanup_deadline_seconds", JFloat (cleanup_deadline_seconds l));
   (py "workspace_retain_on_failure", JBool (workspace_retain_on_failure l))].

(** [execution/limits.py:84-106 budget_enforcement_matrix] *)
Definition budget_enforcement_matrix (job_objects : bool) : list (string * string) :=
  let enforced_or other := (if job_objects then "ENFORCED" else other)%string in
  [("wall_timeout", "ENFORCED"); ("stdout_cap", "ENFORCED"); ("stderr_cap", "ENFORCED");
   ("process_count", enforced_or "OBSERVED"); ("job_memory", enforced_or "NOT_ENFORCED");
   ("rss_soft_watch", "ENFORCED"); ("peak_rss", "OBSERVED");
   ("cpu_user_time", enforced_or "NOT_ENFORCED");
   ("cpu_rate", if job_objects then "ENFORCED_THROTTLE" else "NOT_ENFORCED");
   ("cpu_accounting", "OBSERVED"); ("workspace_bytes", "ENFORCED");
   ("process_tree_cleanup", "ENFORCED"); ("workspace_cleanup", "ENFORCED");
   ("scrubbed_env", "ENFORCED"); ("kill_on_job_close", enforced_or "NOT_ENFORCED");
   ("network_deny", "NOT_ENFORCED"); ("cgroup_cpu_quota", "NOT_ENFORCED");
   ("cgroup_memory", "NOT_ENFORCED"); ("filesystem_jail", "NOT_ENFORCED")]%string.

(** * The environment of a child *)

(** [execution/execution_environment.py:16-26 OS_ALLOWLIST] *)
Definition OS_ALLOWLIST : list pystr :=
  py <$> ["PATH"; "SYSTEMROOT"; "WINDIR"; "PATHEXT"; "COMSPEC"; "LANG"; "LC_ALL"]%string.

(** [execution/execution_environment.py:29-42 CF_INJECTED] *)
Definition CF_INJECTED : list pystr :=
  py <$> ["CF_WORKSPACE"; "CF_EXECUTION_ATTEMPT_ID"; "CF_FORBIDDEN_PROBE"; "TMPDIR"; "TEMP"; "TMP";
          "PYTHONUNBUFFERED"; "PYTHONPATH"; "CF_PROCESS_HEAVY_N"; "CF_DISK_HEAVY_MB"]%string.

(** [execution/execution_environment.py:45-64 FORBIDDEN_SECRET_NAMES] *)
Definition FORBIDDEN_SECRET_NAMES : list pystr :=
  py <$> ["DATABASE_URL"; "TEST_DATABASE_URL"; "ADMIN_DATABASE_URL"; "EXPERIMENT_DATABASE_URL";
          "AWS_SECRET_ACCESS_KEY"; "AWS_ACCESS_KEY_ID"; "AZURE_CLIENT_SECRET";
          "GOOGLE_APPLICATION_CREDENTIALS"; "OPENAI_API_KEY"; "ANTHROPIC_API_KEY"; "GITHUB_TOKEN";
          "GH_TOKEN"; "SSH_AUTH_SOCK"; "CF_API_SECRET"; "SECRET_KEY"; "POSTGRES_PASSWORD"]%string.

Definition environ : Type := gmap pystr pystr.

(** [env[key] = value] *)
Definition env_set (key value : pystr) (env : environ) : environ := <[key := value]> env.

Lemma env_set_lookup key value (env : environ) (k : pystr) :
  env_set key value env !! k = if bool_decide (k = key) then Some value else env !! k.
Proof.
  unfold env_set. case_bool_decide as Hk.
  - subst. apply lookup_insert_eq.
  - apply lookup_insert_ne. congruence.
Qed.

Definition is_forbidden (k : pystr) : bool := bool_decide (k ∈ FORBIDDEN_SECRET_NAMES).

(** [for key in OS_ALLOWLIST: if key in host and host[key]: env[key] = host[key]] *)
Fixpoint copy_allowed (keys : list pystr) (host env : environ) : environ :=
  match keys with
  | [] => env
  | key :: keys =>
      copy_allowed keys host
        (match host !! key with
         | Some v => if nonempty v then env_set key v env else env
         | None => env
         end)
  end.

(** [for k, v in extra.items()], forbidden names skipped. *)
Fixpoint add_extra (extra : list (pystr * pystr)) (env : environ) : environ :=
  match extra with
  | [] => env
  | (k, v) :: extra => add_extra extra (if is_forbidden k then env else env_set k v env)
  end.

(** [for bad in FORBIDDEN_SECRET_NAMES: env.pop(bad, None)] *)
Fixpoint strip_names (names : list pystr) (env : environ) : environ :=
  match names with
  | [] => env
  | bad :: names => strip_names names (delete bad env)
  end.

(** [execution/execution_environment.py:67-107 build_execution_env]; [platform_src]
    is the package root of the installation. *)
Definition build_execution_env (platform_src work_dir : pystr) (host : environ)
    (extra : list (pystr * pystr)) (include_platform_pythonpath : bool)
    (execution_attempt_id : option pystr) : environ :=
  let env := copy_allowed OS_ALLOWLIST host ∅ in
  let env := env_set (py "CF_WORKSPACE") work_dir env in
  let env := env_set (py "TMPDIR") work_dir env in
  let env := env_set (py "TEMP") work_dir env in
  let env := env_set (py "TMP") work_dir env in
  let env := env_set (py "PYTHONUNBUFFERED") (py "1") env in
  let env := match execution_attempt_id with
             | Some a => if nonempty a then env_set (py "CF_EXECUTION_ATTEMPT_ID") a env else env
             | None => env
             end in
  let env := if include_platform_pythonpath then env_set (py "PYTHONPATH") platform_src env else env in
  strip_names FORBIDDEN_SECRET_NAMES (add_extra extra env).

(** [execution/execution_environment.py:110-112 assert_no_forbidden_secrets]: the
    forbidden names present. *)
Definition forbidden_present (env : environ) : list pystr :=
  List.filter (fun k => bool_decide (is_Some (env !! k))) FORBIDDEN_SECRET_NAMES.

(** * From process outcomes to evaluations *)

(** [execution/contract.py:19-34 ExecutionOutcome] *)
Inductive ExecutionOutcome :=
| X_SUCCESS | X_NONZERO_EXIT | X_TIMEOUT | X_OUTPUT_LIMIT | X_PROCESS_LIMIT | X_MEMORY_LIMIT
| X_CPU_LIMIT | X_WORKSPACE_LIMIT | X_RESOURCE_LIMIT | X_START_FAILURE | X_EXECUTOR_ERROR
| X_CLEANUP_ERROR | X_ORPHAN_SUSPECTED.
#[export] Instance ExecutionOutcome_eq_dec : EqDecision ExecutionOutcome.
Proof. solve_decision. Defined.
#[export] Instance ExecutionOutcome_enum : StrEnum ExecutionOutcome := {|
  value o := match o with
             | X_SUCCESS => "SUCCESS" | X_NONZERO_EXIT => "NONZERO_EXIT" | X_TIMEOUT => "TIMEOUT"
             | X_OUTPUT_LIMIT => "OUTPUT_LIMIT" | X_PROCESS_LIMIT => "PROCESS_LIMIT"
             | X_MEMORY_LIMIT => "MEMORY_LIMIT" | X_CPU_LIMIT => "CPU_LIMIT"
             | X_WORKSPACE_LIMIT => "WORKSPACE_LIMIT" | X_RESOURCE_LIMIT => "RESOURCE_LIMIT"
             | X_START_FAILURE => "START_FAILURE" | X_EXECUTOR_ERROR => "EXECUTOR_ERROR"
             | X_CLEANUP_ERROR => "CLEANUP_ERROR" | X_ORPHAN_SUSPECTED => "ORPHAN_SUSPECTED"
             end;
  members := [X_SUCCESS; X_NONZERO_EXIT; X_TIMEOUT; X_OUTPUT_LIMIT; X_PROCESS_LIMIT; X_MEMORY_LIMIT;
              X_CPU_LIMIT; X_WORKSPACE_LIMIT; X_RESOURCE_LIMIT; X_START_FAILURE; X_EXECUTOR_ERROR;
              X_CLEANUP_ERROR; X_ORPHAN_SUSPECTED];
|}.
#[export] Instance ExecutionOutcome_ok : StrEnumOk ExecutionOutcome.
Proof. split; [by intros []; set_solver | by intros [] []]. Qed.

(** [execution/workloads.py:16-30 WORKLOAD_NAMES] *)
Definition WORKLOAD_NAMES : list pystr :=
  py <$> ["LIGHT"; "CPU_HEAVY"; "MEMORY_HEAVY"; "SLEEP"; "LARGE_OUTPUT"; "CHILD_PROCESS"; "TIMEOUT";
          "MANY_FILES"; "FAILURE"; "PROCESS_HEAVY"; "DISK_HEAVY"; "MEMORY_GROW";
          "BOUNDARY_PROBE"]%string.

(** [execution/contract.py:38-52 TRUSTED_CORPUS] *)
Definition TRUSTED_CORPUS : list (pystr * ExecutionOutcome) :=
  (fun kv => (py kv.1, kv.2)) <$>
  [("LIGHT", X_SUCCESS); ("CPU_HEAVY", X_SUCCESS); ("MEMORY_HEAVY", X_SUCCESS);
   ("MEMORY_GROW", X_SUCCESS); ("SLEEP", X_SUCCESS); ("LARGE_OUTPUT", X_OUTPUT_LIMIT);
   ("CHILD_PROCESS", X_SUCCESS); ("PROCESS_HEAVY", X_SUCCESS); ("TIMEOUT", X_TIMEOUT);
   ("MANY_FILES", X_SUCCESS); ("DISK_HEAVY", X_SUCCESS); ("BOUNDARY_PROBE", X_SUCCESS);
   ("FAILURE", X_NONZERO_EXIT)]%string.

(** [execution/contract.py:54-69 CORPUS_ALIASES] *)
Definition CORPUS_ALIASES : list (pystr * pystr) :=
  (fun kv => (py kv.1, py kv.2)) <$>
  [("light_success", "LIGHT"); ("cpu_heavy_success", "CPU_HEAVY"); ("sleep_timeout", "TIMEOUT");
   ("large_stdout", "LARGE_OUTPUT"); ("large_stderr", "LARGE_OUTPUT");
   ("child_process", "CHILD_PROCESS"); ("process_heavy", "PROCESS_HEAVY");
   ("nonzero_exit", "FAILURE"); ("many_files", "MANY_FILES"); ("disk_heavy", "DISK_HEAVY");
   ("boundary_probe", "BOUNDARY_PROBE"); ("memory_heavy", "MEMORY_HEAVY");
   ("memory_grow", "MEMORY_GROW"); ("sleep_ok", "SLEEP")]%string.

(** [d.get(key)] of a constant table. *)
Definition assoc {A} (table : list (pystr * A)) (key : pystr) : option A :=
  snd <$> List.find (fun kv => bool_decide (kv.1 = key)) table.

Definition known_workload (key : pystr) : bool := bool_decide (key ∈ WORKLOAD_NAMES).

(** [execution/contract.py:90-109 resolve_workload], on the JSON value of the
    metadata and the class of the evaluation. *)
Definition resolve_workload (raw : json) (workload_class : pystr) : result exn pystr :=
  let by_class := default (py "LIGHT")
    (assoc [(py "light", py "LIGHT"); (py "medium", py "SLEEP"); (py "heavy", py "CPU_HEAVY")]
       workload_class) in
  match raw with
  | JStr s =>
      let key := strip s in
      if nonempty key then
        if known_workload key then Ok key
        else
          match assoc CORPUS_ALIASES key, assoc CORPUS_ALIASES (lower key) with
          | Some a, _ => Ok a
          | None, Some a => Ok a
          | None, None =>
              if known_workload (upper key) then Ok (upper key)
              else Raise (ValueError "untrusted or unknown execution_workload")
          end
      else Ok by_class
  | _ => Ok by_class
  end.

(** [execution/contract.py:112-123 _STATUS_TO_OUTCOME] *)
Definition STATUS_TO_OUTCOME (status : string) : option ExecutionOutcome :=
  snd <$> List.find (fun kv => String.eqb kv.1 status)
    [("succeeded", X_SUCCESS); ("failed", X_NONZERO_EXIT); ("timeout", X_TIMEOUT);
     ("output_limit", X_OUTPUT_LIMIT); ("process_limit", X_PROCESS_LIMIT);
     ("memory_limit", X_MEMORY_LIMIT); ("cpu_limit", X_CPU_LIMIT);
     ("workspace_limit", X_WORKSPACE_LIMIT); ("rss_limit", X_MEMORY_LIMIT);
     ("error", X_START_FAILURE)]%string.

(** [execution/contract.py:126-132 outcome_from_result], from the status and the
    processes left after the cleanup. *)
Definition outcome_from_result (status : string) (leaked_pids : list Z) : ExecutionOutcome :=
  if String.eqb status "succeeded" then
    if nonempty leaked_pids then X_CLEANUP_ERROR else X_SUCCESS
  else default X_EXECUTOR_ERROR (STATUS_TO_OUTCOME status).

(** [execution/contract.py:135-145 _DETERMINISTIC_FAIL] *)
Definition deterministic_fail (o : ExecutionOutcome) : bool :=
  match o with
  | X_NONZERO_EXIT | X_TIMEOUT | X_OUTPUT_LIMIT | X_PROCESS_LIMIT | X_MEMORY_LIMIT | X_CPU_LIMIT
  | X_WORKSPACE_LIMIT | X_RESOURCE_LIMIT | X_ORPHAN_SUSPECTED => true
  | _ => false
  end.

(** [succeeded | failed | requeue] *)
Inductive Terminal := T_succeeded | T_failed | T_requeue.
#[export] Instance Terminal_eq_dec : EqDecision Terminal.
Proof. solve_decision. Defined.

(** The tuple [disposition] returns. *)
Record Disposition := mkDisposition {
  di_terminal : Terminal;
  di_retryable : bool;
  di_score : option Z;
  di_reason : option pystr;
}.

(** [f"execution_{outcome.value.lower()}"] *)
Definition outcome_reason (o : ExecutionOutcome) (suffix : string) : pystr :=
  py "execution_" ++ lower (py (value o)) ++ py suffix.

(** [execution/contract.py:148-162 disposition] *)
Definition disposition (o : ExecutionOutcome) (attempt_count max_attempts : Z) : Disposition :=
  if bool_decide (o = X_SUCCESS) then mkDisposition T_succeeded false (Some 100) None
  else if bool_decide (o = X_CLEANUP_ERROR) then
    mkDisposition T_failed false None (Some (py "execution_cleanup_incomplete"))
  else if deterministic_fail o then
    mkDisposition T_failed false None (Some (outcome_reason o ""))
  else if bool_decide (o = X_START_FAILURE) || bool_decide (o = X_EXECUTOR_ERROR) then
    if attempt_count <? max_attempts then
      mkDisposition T_requeue true None (Some (outcome_reason o "_retry"))
    else mkDisposition T_failed false None (Some (outcome_reason o "_exhausted"))
  else mkDisposition T_failed false None (Some (outcome_reason o "")).

(** [matrix[key]] *)
Definition matrix_at (m : list (string * string)) (key : string) : string :=
  default "" (snd <$> List.find (fun kv => String.eqb kv.1 key) m).

(** [execution/contract.py:165-188 budget_labels] *)
Definition budget_labels (job_objects : bool) : dict :=
  let m := budget_enforcement_matrix job_objects in
  ((fun k => (py k, JStr (py (matrix_at m k)))) <$>
     ["wall_timeout"; "stdout_cap"; "stderr_cap"; "process_tree_cleanup"; "workspace_cleanup";
      "scrubbed_env"; "peak_rss"; "process_count"; "job_memory"; "cpu_user_time"; "cpu_rate";
      "cpu_accounting"; "workspace_bytes"; "kill_on_job_close"]%string)
  ++ ((fun k => (py k, JStr (py "NOT ENFORCED"))) <$>
     ["network_deny"; "cgroup_cpu_quota"; "cgroup_memory"; "filesystem_jail"]%string).

(** * Laws *)

Lemma strip_names_lookup names (env : environ) (k : pystr) :
  strip_names names env !! k = if bool_decide (k ∈ names) then None else env !! k.
Proof.
  revert env. induction names as [|n names IH]; intros env; cbn [strip_names].
  - by rewrite bool_decide_false by set_solver.
  - rewrite IH. destruct (decide (k ∈ names)) as [Hin|Hout].
    + rewrite !bool_decide_true by set_solver. done.
    + rewrite (bool_decide_false (k ∈ names)) by done. destruct (decide (k = n)) as [->|Hn].
      * rewrite bool_decide_true by set_solver. apply lookup_delete_eq.
      * rewrite bool_decide_false by set_solver. apply lookup_delete_ne. congruence.
Qed.

Lemma copy_allowed_lookup keys (host env : environ) (k v : pystr) :
  copy_allowed keys host env !! k = Some v ->
  (k ∈ keys /\ host !! k = Some v) \/ env !! k = Some v.
Proof.
  revert env. induction keys as [|key keys IH]; intros env; cbn [copy_allowed]; [by right|].
  intros [[Hin Hh]|He]%IH; [left; split; [by right|done]|].
  destruct (host !! key) as [w|] eqn:Hw; [|by right]. destruct (nonempty w); [|by right].
  rewrite env_set_lookup in He. case_bool_decide as Hk; [|by right].
  subst k. left. split; [by left|]. exact (eq_trans Hw He).
Qed.

Lemma add_extra_lookup extra (env : environ) (k v : pystr) :
  add_extra extra env !! k = Some v ->
  ((k, v) ∈ extra /\ is_forbidden k = false) \/ env !! k = Some v.
Proof.
  revert env. induction extra as [|[k' v'] extra IH]; intros env; cbn [add_extra]; [by right|].
  intros [[Hin Hh]|He]%IH; [left; split; [by right|done]|].
  destruct (is_forbidden k') eqn:Hf; [by right|].
  rewrite env_set_lookup in He. case_bool_decide as Hk; [|by right].
  left. injection He as ->. subst k. split; [by left|done].
Qed.

(** No secret reaches a child process: whatever the host environment and the
    extra variables are, the environment has no forbidden name, and every
    variable in it is an allow-listed variable of the host, one the executor
    injects, or one of the extra ones. *)
Theorem env_is_allowlisted src work host extra incl attempt (k v : pystr) :
  build_execution_env src work host extra incl attempt !! k = Some v ->
  (k ∉ FORBIDDEN_SECRET_NAMES)
  /\ ((k ∈ OS_ALLOWLIST /\ host !! k = Some v) \/ (k ∈ CF_INJECTED) \/ (k, v) ∈ extra).
Proof.
  unfold build_execution_env. rewrite strip_names_lookup. case_bool_decide as Hf; [done|].
  intros [[Hin _]|He]%add_extra_lookup; split; try done; [by right; right|].
  destruct (decide (k ∈ CF_INJECTED)) as [Hi|Hi]; [by right; left|]. left.
  assert (forall n w (env : environ), bool_decide (py n ∈ CF_INJECTED) = true -> env_set (py n) w env !! k = env !! k) as Hskip.
  { intros n w env Hn%bool_decide_eq_true. by rewrite env_set_lookup, bool_decide_false by congruence. }
  destruct incl; [rewrite Hskip in He by reflexivity|];
    (destruct attempt as [a|]; [destruct (nonempty a); [rewrite Hskip in He by reflexivity|]|]);
    rewrite !Hskip in He by reflexivity;
    apply copy_allowed_lookup in He as [He|He]; done.
Qed.

Lemma no_forbidden_present src work host extra incl attempt :
  forbidden_present (build_execution_env src work host extra incl attempt) = [].
Proof.
  apply filterb_none. intros k Hk. apply bool_decide_eq_false. unfold build_execution_env.
  rewrite strip_names_lookup, bool_decide_true by done. by intros [? ?].
Qed.

Lemma assoc_in {A} (table : list (pystr * A)) k a : assoc table k = Some a -> (k, a) ∈ table.
Proof.
  unfold assoc. destruct (List.find _ table) as [[k' a']|] eqn:E; [|done]. cbn. intros [= <-].
  apply List.find_some in E as [Hin E]. apply bool_decide_eq_true in E. cbn in E. subst k'.
  by apply list_elem_of_In.
Qed.

Lemma aliases_known : Forall (fun kv => kv.2 ∈ WORKLOAD_NAMES) CORPUS_ALIASES.
Proof. decide_closed. Qed.

Lemma class_workload_known cls :
  default (py "LIGHT") (assoc [(py "light", py "LIGHT"); (py "medium", py "SLEEP");
    (py "heavy", py "CPU_HEAVY")] cls) ∈ WORKLOAD_NAMES.
Proof.
  destruct (assoc _ cls) as [w|] eqn:E; [|decide_closed].
  apply assoc_in in E. cbn [default id]. rewrite !elem_of_cons in E.
  destruct E as [[= _ ->]|[[= _ ->]|[[= _ ->]|E]]]; [decide_closed..|]. by apply elem_of_nil in E.
Qed.

Lemma alias_known k a : assoc CORPUS_ALIASES k = Some a -> a ∈ WORKLOAD_NAMES.
Proof.
  intros Hka%assoc_in. pose proof aliases_known as Hall. rewrite Forall_forall in Hall.
  by apply (Hall (k, a)).
Qed.

Lemma resolve_workload_known raw cls w : resolve_workload raw cls = Ok w -> w ∈ WORKLOAD_NAMES.
Proof.
  unfold resolve_workload, known_workload. pose proof (class_workload_known cls).
  destruct raw; try by intros [= <-].
  destruct (nonempty (strip s)); [|by intros [= <-]]. case_bool_decide; [by intros [= <-]|].
  destruct (assoc CORPUS_ALIASES (strip s)) eqn:E1; [intros [= <-]; by eapply alias_known|].
  destruct (assoc CORPUS_ALIASES (lower (strip s))) eqn:E2; [intros [= <-]; by eapply alias_known|].
  case_bool_decide; [by intros [= <-]|done].
Qed.

(** Only the trusted corpus runs: whatever the metadata asks for, a resolved
    workload is one of the corpus, which the contract knows an outcome for; an
    unknown name is refused with [ValueError], and a missing or blank one falls
    back on the class of the evaluation. *)
Theorem resolve_workload_trusted raw cls :
  match resolve_workload raw cls with
  | Ok w => (w ∈ WORKLOAD_NAMES) /\ is_Some (assoc TRUSTED_CORPUS w)
  | Raise e => e = ValueError "untrusted or unknown execution_workload"
               /\ exists s, raw = JStr s /\ nonempty (strip s) = true
                  /\ (strip s ∉ WORKLOAD_NAMES) /\ (upper (strip s) ∉ WORKLOAD_NAMES)
                  /\ assoc CORPUS_ALIASES (lower (strip s)) = None
  end.
Proof.
  pose proof (resolve_workload_known raw cls) as Hk.
  destruct (resolve_workload raw cls) as [w|e] eqn:E.
  - specialize (Hk w eq_refl). split; [done|]. clear E. revert w Hk. apply Forall_forall.
    repeat (constructor; [vm_compute; eauto|]). constructor.
  - revert E. unfold resolve_workload, known_workload. destruct raw; try done.
    repeat (case_match || case_bool_decide); try done. intros [= <-]. eauto 10.
Qed.

(** A success is a clean process with exit status zero. *)
Lemma outcome_success status leaked :
  outcome_from_result status leaked = X_SUCCESS <-> status = "succeeded"%string /\ leaked = [].
Proof.
  unfold outcome_from_result. destruct (String.eqb_spec status "succeeded") as [->|Hn].
  - destruct leaked; cbn; [|naive_solver]. split; done.
  - split; [|naive_solver]. unfold STATUS_TO_OUTCOME. cbn [List.find fst].
    destruct (String.eqb_spec "succeeded" status); [congruence|].
    repeat case_match; try done. 
Qed.

(** What becomes of an evaluation: it succeeds, with the full score, exactly
    when its process succeeded and left no process behind; it is requeued
    exactly when the executor could not run it and attempts remain; in every
    other case it fails, with a reason and without a score. *)
Theorem disposition_policy status leaked attempts max_attempts :
  let o := outcome_from_result status leaked in
  let d := disposition o attempts max_attempts in
  (di_terminal d = T_succeeded <-> status = "succeeded"%string /\ leaked = [])
  /\ (di_terminal d = T_requeue <->
      (o = X_START_FAILURE \/ o = X_EXECUTOR_ERROR) /\ attempts < max_attempts)
  /\ di_retryable d = bool_decide (di_terminal d = T_requeue)
  /\ di_score d = (if bool_decide (di_terminal d = T_succeeded) then Some 100 else None)
  /\ (di_reason d = None <-> di_terminal d = T_succeeded).
Proof.
  intros o d. rewrite <-outcome_success. fold o. unfold d, disposition.
  clearbody o. destruct o, (Z.ltb_spec attempts max_attempts); cbn -[outcome_reason];
    split_and!; try done; split; intuition (discriminate || lia).
Qed.

Module ContractSample.
Definition host : environ :=
  {[py "PATH" := py "/bin"; py "DATABASE_URL" := py "postgres://"; py "HOME" := py "/root"]}.
Definition extra : list (pystr * pystr) :=
  [(py "OPENAI_API_KEY", py "k"); (py "CF_PROCESS_HEAVY_N", py "3")].
Definition child : environ := build_execution_env (py "/src") (py "/work") host extra true None.

Lemma env_is_allowlisted_witness :
  child !! py "PATH" = Some (py "/bin") /\ (py "PATH" ∉ FORBIDDEN_SECRET_NAMES)
  /\ child !! py "HOME" = None /\ child !! py "DATABASE_URL" = None.
Proof.
  assert (child !! py "PATH" = Some (py "/bin")) as Hp by (vm_compute; reflexivity).
  destruct (env_is_allowlisted (py "/src") (py "/work") host extra true None (py "PATH")
              (py "/bin") Hp) as [Hf _].
  split; [exact Hp|]. split; [exact Hf|]. split; vm_compute; reflexivity.
Defined.
End ContractSample.
