(* ===== verification/JobObject.v ===== *)
(** Windows job objects (src/challengeforge/execution/job_object.py) and their use
    by the executor (src/challengeforge/execution/process_executor.py): the limits
    written at the width of the kernel's structures, the handles that are opened
    and closed, and the ownership an execution reports.

    What the kernel answers to each call is the record [JobHost]; the state is the
    kernel's: open handles, the limits set on a job, its members. *)
From Stdlib Require Import ZArith Lia String SpecFloat.
From stdpp Require Import prelude strings.
From S2P Require Import Prelude PyFloat PyStr Domain Json ExecutionContract.
Local Open Scope Z_scope.

(** * Structures of the kernel *)

Definition JOB_OBJECT_LIMIT_JOB_TIME : Z := 0x4.
Definition JOB_OBJECT_LIMIT_ACTIVE_PROCESS : Z := 0x8.
Definition JOB_OBJECT_LIMIT_JOB_MEMORY : Z := 0x200.
Definition JOB_OBJECT_LIMIT_KILL_ON_JOB_CLOSE : Z := 0x2000.
Definition JOB_OBJECT_CPU_RATE_CONTROL_ENABLE : Z := 0x1.
Definition JOB_OBJECT_CPU_RATE_CONTROL_HARD_CAP : Z := 0x4.

(** A ctypes field keeps the low bits of the integer it is given: [DWORD],
    [c_size_t] and the signed [c_longlong]. *)
Definition dword (z : Z) : Z := z mod 2 ^ 32.
Definition size_t (z : Z) : Z := z mod 2 ^ 64.
Definition longlong (z : Z) : Z := (z + 2 ^ 63) mod 2 ^ 64 - 2 ^ 63.

(** [execution/job_object.py:54-76 JOBOBJECT_EXTENDED_LIMIT_INFORMATION], the fields
    the program writes; the others stay zero. *)
Record ExtendedLimit := mkExtendedLimit {
  xl_PerJobUserTimeLimit : Z;
  xl_LimitFlags : Z;
  xl_ActiveProcessLimit : Z;
  xl_JobMemoryLimit : Z;
}.
#[export] Instance ExtendedLimit_eta : Eta ExtendedLimit := fun x =>
  mkExtendedLimit (xl_PerJobUserTimeLimit x) (xl_LimitFlags x) (xl_ActiveProcessLimit x)
    (xl_JobMemoryLimit x).

(** [execution/job_object.py:79-83 JOBOBJECT_CPU_RATE_CONTROL_INFORMATION] *)
Record CpuRateControl := mkCpuRate { cr_ControlFlags : Z; cr_CpuRate : Z }.

(** [execution/job_object.py:86-93 JobResourceLimits] *)
Record JobResourceLimits := mkJobLimits {
  jl_max_active_processes : option Z;
  jl_max_job_memory_bytes : option Z;
  jl_max_cpu_seconds : option float;
  jl_cpu_rate_percent : option float;
}.

(** What the kernel answers; a handle is zero when the call failed. *)
Record JobHost := mkJobHost {
  jh_windows : bool;
  jh_job_objects : bool;
  jh_process_groups : bool;
  jh_create : Z;
  jh_set_limits : bool;
  jh_set_cpu_rate : bool;
  jh_open_process : Z;
  jh_assign : bool;
  jh_peak_memory : option Z;
  jh_last_error : Z;
}.

(** The kernel's side: open handles, what is set on a job and who belongs to it. *)
Record Kernel := mkKernel {
  k_open : list Z;
  k_limits : list (Z * ExtendedLimit);
  k_rates : list (Z * CpuRateControl);
  k_members : list (Z * Z);
}.
#[export] Instance Kernel_eta : Eta Kernel := fun k =>
  mkKernel (k_open k) (k_limits k) (k_rates k) (k_members k).

Inductive job_exn :=
| OSError (message : pystr)
| RuntimeError (message : string)
| OverflowError
| ValueError.

Definition K : Type -> Type := M job_exn Kernel.

Section Jobs.
Variable h : JobHost.

Definition os_error (what : pystr) : job_exn := OSError (what ++ int_str (jh_last_error h)).

(** A call that opens a handle: zero opens nothing. *)
Definition open_handle (handle : Z) : K unit :=
  modify_st (fun k => if handle =? 0 then k else k <| k_open := handle :: k_open k |>).

(** [kernel32.CloseHandle(handle)] *)
Definition CloseHandle (handle : Z) : K unit :=
  modify_st (fun k => k <| k_open := List.filter (fun x => negb (x =? handle)) (k_open k) |>).

(** * Job objects *)

(** [execution/job_object.py:96-109 JobObjectHandle] *)
Record JobObjectHandle := mkJob { jo_handle : Z; jo_applied : dict; jo_closed : bool }.

(** [execution/job_object.py:156-157 job_objects_available] *)
Definition job_objects_available : bool := jh_windows h && jh_job_objects h.

(** [execution/job_object.py:239-244 ownership_mechanism] *)
Definition ownership_mechanism : pystr :=
  if job_objects_available then py "windows_job_object_kill_on_close"
  else if jh_process_groups h then py "posix_process_group"
  else py "pid_tracking_only".

(** [x is not None and x > 0] *)
Definition positiveZ (o : option Z) : option Z :=
  match o with Some n => if 0 <? n then Some n else None | None => None end.
Definition positiveF (o : option float) : option float :=
  match o with Some x => if fgt x fzero then Some x else None | None => None end.

(** [execution/job_object.py:197-201 create_job]: the limit in units of 100 ns. *)
Definition user_time (seconds : float) : option Z := ftrunc (fmul seconds (of_Z 10000000)).

(** [execution/job_object.py:180-204 create_job]: the structure and what is reported
    of it; [None] is the [OverflowError] of an infinite time. *)
Definition limits_of (r : JobResourceLimits) : option (ExtendedLimit * dict) :=
  let flags := JOB_OBJECT_LIMIT_KILL_ON_JOB_CLOSE in
  let applied := [(py "kill_on_job_close", JBool true)] in
  let '(flags, active, applied) :=
    match positiveZ (jl_max_active_processes r) with
    | Some n => (Z.lor flags JOB_OBJECT_LIMIT_ACTIVE_PROCESS, dword n,
                 dset applied (py "max_active_processes") (JInt n))
    | None => (flags, 0, applied)
    end in
  let '(flags, memory, applied) :=
    match positiveZ (jl_max_job_memory_bytes r) with
    | Some n => (Z.lor flags JOB_OBJECT_LIMIT_JOB_MEMORY, size_t n,
                 dset applied (py "max_job_memory_bytes") (JInt n))
    | None => (flags, 0, applied)
    end in
  match positiveF (jl_max_cpu_seconds r) with
  | Some s =>
      match user_time s with
      | Some t => Some (mkExtendedLimit (longlong t) (dword (Z.lor flags JOB_OBJECT_LIMIT_JOB_TIME))
                          active memory, dset applied (py "max_cpu_seconds") (JFloat s))
      | None => None
      end
  | None => Some (mkExtendedLimit 0 (dword flags) active memory, applied)
  end.

(** [execution/job_object.py:216-223 create_job]: [max(1, min(100, float(percent)))],
    with the integers where they are chosen, and the cycles in 10,000. *)
Definition cpu_rate (percent : float) : json * option Z :=
  if flt percent (of_Z 100) then
    if fgt percent (of_Z 1) then (JFloat percent, ftrunc (fmul percent (of_Z 100)))
    else (JInt 1, Some 100)
  else (JInt 100, Some 10000).

(** [execution/job_object.py:216-234 create_job]: the rate is optional, its failure
    is only reported. *)
Definition apply_cpu_rate (handle : Z) (r : JobResourceLimits) (applied : dict) : K dict :=
  match positiveF (jl_cpu_rate_percent r) with
  | None => mret applied
  | Some p =>
      match (cpu_rate p).2 with
      | None => raise OverflowError
      | Some cycles =>
          if jh_set_cpu_rate h then
            modify_st (fun k => k <| k_rates :=
              (handle, mkCpuRate (dword (Z.lor JOB_OBJECT_CPU_RATE_CONTROL_ENABLE
                                            JOB_OBJECT_CPU_RATE_CONTROL_HARD_CAP))
                         (dword cycles)) :: k_rates k |>) ;;
            mret (dset applied (py "cpu_rate_percent") (cpu_rate p).1)
          else mret (dset applied (py "cpu_rate_error") (JInt (jh_last_error h)))
      end
  end.

(** [execution/job_object.py:165-236 create_job] *)
Definition create_job (r : JobResourceLimits) : K (option JobObjectHandle) :=
  if negb job_objects_available then mret None else
  let handle := jh_create h in
  open_handle handle ;;
  guard_or (negb (handle =? 0)) (os_error (py "CreateJobObjectW failed: ")) ;;
  match limits_of r with
  | None => raise OverflowError
  | Some (info, applied) =>
      if jh_set_limits h then
        modify_st (fun k => k <| k_limits := (handle, info) :: k_limits k |>) ;;
        applied ← apply_cpu_rate handle r applied;
        mret (Some (mkJob handle applied false))
      else
        CloseHandle handle ;;
        raise (os_error (py "SetInformationJobObject(extended) failed: "))
  end.

(** [execution/job_object.py:111-125 JobObjectHandle.assign] *)
Definition assign (j : JobObjectHandle) (pid : Z) : K unit :=
  guard_or (negb (jo_closed j)) (RuntimeError "job already closed") ;;
  let proc := jh_open_process h in
  open_handle proc ;;
  guard_or (negb (proc =? 0)) (os_error (py "OpenProcess(" ++ int_str pid ++ py ") failed: ")) ;;
  if jh_assign h then
    modify_st (fun k => k <| k_members := (jo_handle j, pid) :: k_members k |>) ;; CloseHandle proc
  else CloseHandle proc ;; raise (os_error (py "AssignProcessToJobObject failed: ")).

(** [execution/job_object.py:127-141 JobObjectHandle.query_peak_job_memory] *)
Definition query_peak_job_memory (j : JobObjectHandle) : option Z :=
  if jo_closed j then None else jh_peak_memory h.

(** [execution/job_object.py:143-147 JobObjectHandle.close] *)
Definition close (j : JobObjectHandle) : K JobObjectHandle :=
  if jo_closed j then mret j
  else CloseHandle (jo_handle j) ;; mret (mkJob (jo_handle j) (jo_applied j) true).

(** * The job of an execution *)

(** The local variables [job], [ownership] and [job_applied]. *)
Record Ownership := mkOwnership {
  ow_job : option JobObjectHandle;
  ow_text : pystr;
  ow_applied : dict;
}.

Definition untracked : pystr := py "pid_tracking_only".

(** [int(limits.max_job_memory_mb * 1024 * 1024)], which raises [OverflowError] on
    an infinity and [ValueError] on a NaN. *)
Definition memory_bytes (mb : float) : result job_exn Z :=
  let x := fmul (fmul mb (of_Z 1024)) (of_Z 1024) in
  match ftrunc x with
  | Some n => Ok n
  | None => Raise (if is_nan x then ValueError else OverflowError)
  end.

(** [execution/process_executor.py:187-196 ProcessExecutor.run] *)
Definition resources_of (l : ExecutionLimits) : result job_exn JobResourceLimits :=
  match max_job_memory_mb l with
  | None => Ok (mkJobLimits (max_process_count l) None (max_cpu_seconds l) (cpu_rate_percent l))
  | Some mb =>
      match memory_bytes mb with
      | Ok n => Ok (mkJobLimits (max_process_count l) (Some n) (max_cpu_seconds l) (cpu_rate_percent l))
      | Raise e => Raise e
      end
  end.

(** [execution/process_executor.py:182-206 ProcessExecutor.run]: only an [OSError] is
    caught. *)
Definition prepare_job (use_os_ownership : bool) (l : ExecutionLimits) : K Ownership :=
  if use_os_ownership && job_objects_available then
    catch
      (match resources_of l with
       | Raise e => raise e
       | Ok r =>
           job ← create_job r;
           mret (mkOwnership job ownership_mechanism
                   match job with Some j => jo_applied j | None => [] end)
       end)
      (fun e => match e with
                | OSError m => mret (mkOwnership None untracked [(py "create_error", JStr m)])
                | e => raise e
                end)
  else if use_os_ownership then mret (mkOwnership None ownership_mechanism [])
  else mret (mkOwnership None untracked []).

(** [execution/process_executor.py:235-243 ProcessExecutor.run], with the error of
    the assignment. *)
Definition attach_job (o : Ownership) (pid : Z) : K (Ownership * option pystr) :=
  match ow_job o with
  | None => mret (o, None)
  | Some j =>
      catch (assign j pid ;; mret (o, None))
        (fun e => match e with
                  | OSError m => close j ;; mret (mkOwnership None untracked (ow_applied o), Some m)
                  | e => raise e
                  end)
  end.

(** [execution/process_executor.py:353-364 ProcessExecutor.run], on every way out of
    the monitoring loop. *)
Definition release_job (o : Ownership) : K (option Z) :=
  match ow_job o with
  | None => mret None
  | Some j => close j ;; mret (query_peak_job_memory j)
  end.

(** [execution/process_executor.py:182-364 ProcessExecutor.run], the calls on the job:
    [pid] is [None] when the process could not be started.  The answer is the
    ownership and the assignment error that [on_started] and the result report. *)
Definition job_session (use_os_ownership : bool) (l : ExecutionLimits) (pid : option Z)
    : K (Ownership * option pystr) :=
  o ← prepare_job use_os_ownership l;
  match pid with
  | None =>
      match ow_job o with
      | Some j => close j ;; mret (o, None)
      | None => mret (o, None)
      end
  | Some pid =>
      started ← attach_job o pid;
      release_job started.1 ;;
      mret started
  end.
End Jobs.

(** * Properties *)

Lemma dword_exact z : 0 <= z < 2 ^ 32 -> dword z = z.
Proof. apply Z.mod_small. Qed.
Lemma size_t_exact z : 0 <= z < 2 ^ 64 -> size_t z = z.
Proof. apply Z.mod_small. Qed.
Lemma longlong_exact z : - 2 ^ 63 <= z < 2 ^ 63 -> longlong z = z.
Proof. intros. unfold longlong. rewrite Z.mod_small; lia. Qed.

(** The structure says what was asked for: members die with the last handle, each
    limit is flagged exactly when it is given and positive, and its field holds it
    exactly as long as it fits the field's width; what is not limited stays zero. *)
Theorem limits_exact (r : JobResourceLimits) (x : ExtendedLimit) (applied : dict) :
  limits_of r = Some (x, applied) ->
  Z.testbit (xl_LimitFlags x) 13 = true
  /\ Z.testbit (xl_LimitFlags x) 3 = bool_decide (is_Some (positiveZ (jl_max_active_processes r)))
  /\ Z.testbit (xl_LimitFlags x) 9 = bool_decide (is_Some (positiveZ (jl_max_job_memory_bytes r)))
  /\ Z.testbit (xl_LimitFlags x) 2 = bool_decide (is_Some (positiveF (jl_max_cpu_seconds r)))
  /\ xl_ActiveProcessLimit x = dword (default 0 (positiveZ (jl_max_active_processes r)))
  /\ xl_JobMemoryLimit x = size_t (default 0 (positiveZ (jl_max_job_memory_bytes r)))
  /\ xl_PerJobUserTimeLimit x = longlong (default 0 (positiveF (jl_max_cpu_seconds r) ≫= user_time))
  /\ dget applied (py "kill_on_job_close") = Some (JBool true).
Proof.
  unfold limits_of. intros Hl.
  destruct (positiveZ (jl_max_active_processes r)), (positiveZ (jl_max_job_memory_bytes r)),
    (positiveF (jl_max_cpu_seconds r)) as [s|]; try (destruct (user_time s) as [t|] eqn:Ht; [|done]);
    injection Hl as <- <-; cbn [mbind option_bind default]; rewrite ?Ht; split_and!; reflexivity.
Qed.

(** * Handles *)

Section Sessions.
Variables (h : JobHost) (l : ExecutionLimits).

(** The kernel hands out fresh handles. *)
Definition fresh_handles (k : Kernel) : Prop :=
  jh_create h ∉ k_open k /\ jh_open_process h ∉ jh_create h :: k_open k.

(** The time and the rate are finite. *)
Definition finite_limits : Prop :=
  (forall s, positiveF (max_cpu_seconds l) = Some s -> is_Some (user_time s))
  /\ (forall p, positiveF (cpu_rate_percent l) = Some p -> is_Some (cpu_rate p).2).

Lemma close_fresh x (k : list Z) : x ∉ k -> List.filter (fun y => negb (y =? x)) k = k.
Proof.
  intros Hx. apply filterb_all. intros y Hy. apply negb_true_iff, Z.eqb_neq. by intros ->.
Qed.

Lemma close_opened x (k : list Z) : x ∉ k -> List.filter (fun y => negb (y =? x)) (x :: k) = k.
Proof. intros Hx. cbn. rewrite Z.eqb_refl. cbn. by apply close_fresh. Qed.

(** The job that [create_job] returns: limits that kill on close are set on it. *)
Definition kills_on_close (handle : Z) (k : Kernel) : Prop :=
  exists x, (handle, x) ∈ k_limits k /\ Z.testbit (xl_LimitFlags x) 13 = true.

(** Where [prepare_job] leaves the kernel: with a job, exactly its handle is new. *)
Definition prepared (open_ : list Z) (o : Ownership) (k : Kernel) : Prop :=
  match ow_job o with
  | Some j => j = mkJob (jh_create h) (jo_applied j) false /\ k_open k = jh_create h :: open_
              /\ kills_on_close (jh_create h) k
  | None => k_open k = open_ /\ ow_text o <> py "windows_job_object_kill_on_close"
  end.

Lemma limits_kill r x applied : limits_of r = Some (x, applied) -> Z.testbit (xl_LimitFlags x) 13 = true.
Proof.
  unfold limits_of. intros Hl.
  destruct (positiveZ (jl_max_active_processes r)), (positiveZ (jl_max_job_memory_bytes r)),
    (positiveF (jl_max_cpu_seconds r)) as [s|]; try (destruct (user_time s) as [t|] eqn:Ht; [|done]);
    injection Hl as <- <-; reflexivity.
Qed.

Lemma limits_finite r :
  (forall s, positiveF (jl_max_cpu_seconds r) = Some s -> is_Some (user_time s)) ->
  is_Some (limits_of r).
Proof.
  intros Hf. unfold limits_of.
  destruct (positiveZ (jl_max_active_processes r)), (positiveZ (jl_max_job_memory_bytes r)),
    (positiveF (jl_max_cpu_seconds r)) as [s|]; try (by eexists);
    destruct (Hf s eq_refl) as [t Ht]; rewrite Ht; by eexists.
Qed.

(** What creating a job leads to. *)
Definition created (open_ : list Z) (r : result job_exn (option JobObjectHandle) * Kernel) : Prop :=
  match r with
  | (Ok (Some j), k) => j = mkJob (jh_create h) (jo_applied j) false /\ k_open k = jh_create h :: open_
                        /\ kills_on_close (jh_create h) k
  | (Ok None, k) => k_open k = open_ /\ job_objects_available h = false
  | (Raise (OSError _), k) => k_open k = open_
  | (Raise _, _) => False
  end.

Lemma create_job_created r k :
  jh_create h ∉ k_open k ->
  (forall s, positiveF (jl_max_cpu_seconds r) = Some s -> is_Some (user_time s)) ->
  (forall p, positiveF (jl_cpu_rate_percent r) = Some p -> is_Some (cpu_rate p).2) ->
  created (k_open k) (create_job h r k).
Proof.
  intros Hfresh Ht Hr. unfold create_job. destruct (job_objects_available h) eqn:Ha; cbn [negb]; [|done].
  destruct (limits_finite r Ht) as [[x applied] Hl]. pose proof (limits_kill r x applied Hl) as Hk.
  unfold open_handle, guard_or. cbn. destruct (jh_create h =? 0); cbn; [done|]. rewrite Hl.
  destruct (jh_set_limits h); cbn; [|exact (close_opened _ _ Hfresh)].
  unfold apply_cpu_rate.
  destruct (positiveF (jl_cpu_rate_percent r)) as [p|] eqn:Ep; cbn.
  - destruct (Hr p eq_refl) as [n ->]. destruct (jh_set_cpu_rate h); cbn;
      (split_and!; [done..|]; exists x; split; [apply list_elem_of_here|done]).
  - split_and!; [done..|]. exists x. split; [apply list_elem_of_here|done].
Qed.

Lemma untracked_text : untracked <> py "windows_job_object_kill_on_close".
Proof. done. Qed.

Lemma mechanism_text :
  job_objects_available h = false -> ownership_mechanism h <> py "windows_job_object_kill_on_close".
Proof. intros Ha. unfold ownership_mechanism. rewrite Ha. by destruct (jh_process_groups h). Qed.

Lemma prepare_job_prepared use k :
  fresh_handles k -> finite_limits -> (exists r, resources_of l = Ok r) ->
  exists o k', prepare_job h use l k = (Ok o, k') /\ prepared (k_open k) o k'.
Proof.
  intros [Hc _] [Ht Hr] [r Hres]. unfold prepare_job.
  destruct (use && job_objects_available h) eqn:Hu.
  - unfold catch. rewrite Hres.
    assert (jl_max_cpu_seconds r = max_cpu_seconds l /\ jl_cpu_rate_percent r = cpu_rate_percent l) as [E1 E2].
    { revert Hres. unfold resources_of. repeat case_match; by intros [= <-]. }
    pose proof (create_job_created r k Hc) as Hcr. rewrite E1, E2 in Hcr. specialize (Hcr Ht Hr).
    unfold mbind, M_bind. destruct (create_job h r k) as [[[j|]|[m| | |]] k']; cbn in Hcr; try done.
    + eexists _, _. split; [reflexivity|]. exact Hcr.
    + destruct Hcr as [_ Hcr]. by rewrite Hcr, andb_false_r in Hu.
    + eexists _, _. split; [reflexivity|]. done.
  - destruct use; cbn in Hu |- *; (eexists _, _; split; [reflexivity|]; split; [done|]).
    + by apply mechanism_text.
    + apply untracked_text.
Qed.

(** What attaching a process to a prepared job leads to. *)
Lemma attach_job_attached open_ o k pid :
  jh_create h ∉ open_ -> jh_open_process h ∉ jh_create h :: open_ -> prepared open_ o k ->
  exists o' err k', attach_job h o pid k = (Ok (o', err), k') /\ prepared open_ o' k'
  /\ (ow_text o' = py "windows_job_object_kill_on_close" -> (jh_create h, pid) ∈ k_members k'
      /\ kills_on_close (jh_create h) k').
Proof.
  intros Hc Hp Ho. unfold attach_job, prepared in *. destruct (ow_job o) as [j|] eqn:Ej.
  2:{ eexists _, _, _. split; [reflexivity|]. rewrite Ej. tauto. }
  destruct Ho as (Hj & Hopen & Hkill). set (applied := jo_applied j) in *. clearbody applied. subst j.
  unfold catch, assign, guard_or, open_handle. cbn.
  destruct (jh_open_process h =? 0) eqn:Ez; cbn.
  { eexists _, _, _. split; [reflexivity|]. cbn. split; [|done]. split; [|done].
    rewrite Hopen. by apply close_opened. }
  pose proof (close_opened (jh_open_process h) (jh_create h :: open_) Hp) as Hproc.
  rewrite <-Hopen in Hproc. destruct (jh_assign h).
  - eexists _, _, _. split; [reflexivity|]. rewrite Ej. cbn -[List.filter]. split.
    + split; [done|]. split; [|done]. etrans; [exact Hproc|done].
    + intros _. split; [apply list_elem_of_here|done].
  - eexists _, _, _. split; [reflexivity|]. cbn -[List.filter]. split; [|done]. split; [|done].
    etrans; [exact (f_equal (List.filter _) Hproc)|]. rewrite Hopen. by apply close_opened.
Qed.

Lemma release_job_closes open_ o k :
  jh_create h ∉ open_ -> prepared open_ o k ->
  exists m k', release_job h o k = (Ok m, k') /\ k_open k' = open_ /\ k_members k' = k_members k
  /\ k_limits k' = k_limits k.
Proof.
  intros Hc Ho. unfold release_job, prepared in *. destruct (ow_job o) as [j|].
  - destruct Ho as (Hj & Hopen & _). unfold close. rewrite Hj. cbn. eexists _, _. split; [reflexivity|]. cbn.
    rewrite Hopen. split; [by apply close_opened|done].
  - eexists _, _. split; [reflexivity|]. by destruct Ho.
Qed.

(** An execution returns every handle it opened, and owns what it says it owns:
    whatever the kernel refuses, with finite limits the calls of an execution on
    its job raise nothing and leave the handles as they were; and a started process
    reported under a job object is a member of a job that kills it when the last
    handle closes. *)
Theorem job_session_safe (use_os_ownership : bool) (pid : option Z) (k : Kernel) :
  fresh_handles k -> finite_limits -> (exists r, resources_of l = Ok r) ->
  exists o err k', job_session h use_os_ownership l pid k = (Ok (o, err), k')
  /\ k_open k' = k_open k
  /\ forall p, pid = Some p -> ow_text o = py "windows_job_object_kill_on_close" ->
       (jh_create h, p) ∈ k_members k' /\ kills_on_close (jh_create h) k'.
Proof.
  intros Hf Hfin Hres. pose proof Hf as [Hc Hp]. unfold job_session.
  destruct (prepare_job_prepared use_os_ownership k Hf Hfin Hres) as (o & k1 & Hprep & Ho).
  unfold mbind, M_bind. rewrite Hprep. destruct pid as [p|].
  - destruct (attach_job_attached (k_open k) o k1 p Hc Hp Ho) as (o' & err & k2 & -> & Ho' & Hown).
    destruct (release_job_closes (k_open k) o' k2 Hc Ho') as (m & k3 & Hrel & Hopen & Hmem & Hlim). cbn.
    rewrite Hrel. eexists _, _, _. split; [reflexivity|]. split; [done|]. intros p' [= <-] Ht.
    unfold kills_on_close. rewrite Hmem, Hlim. by apply Hown.
  - unfold prepared in Ho. destruct (ow_job o) as [j|].
    + destruct Ho as (Hj & Hopen & _). unfold close. rewrite Hj. cbn. eexists _, _, _. split; [reflexivity|].
      split; [|done]. cbn. rewrite Hopen. by apply close_opened.
    + destruct Ho as [Hopen _]. eexists _, _, _. by split; [reflexivity|].
Qed.
End Sessions.

Module JobSample.
(** A Windows host that refuses the assignment of the process. *)
Definition refuses : JobHost := mkJobHost true true false 17 true true 23 false (Some 4096) 5.
Definition accepts : JobHost := mkJobHost true true false 17 true true 23 true (Some 4096) 0.
Definition limits : ExecutionLimits :=
  mkLimits (of_Z 5) 1024 1024 (Some 4) (Some (of_Z 64)) None (lit 1 10) (Some (of_Z 2)) (Some (of_Z 50))
    None (lit 15 100) (lit 5 10) (of_Z 5) false.
Definition kernel : Kernel := mkKernel [3] [] [] [].

Lemma job_session_safe_witness :
  exists o err k', job_session accepts true limits (Some 99) kernel = (Ok (o, err), k')
  /\ k_open k' = [3] /\ (17, 99) ∈ k_members k'.
Proof.
  destruct (job_session_safe accepts limits true (Some 99) kernel) as (o & err & k' & Hs & Hopen & Hown).
  - split; decide_closed.
  - split; intros x [= <-]; eexists; vm_compute; reflexivity.
  - eexists. reflexivity.
  - exists o, err, k'. split; [exact Hs|]. split; [exact Hopen|].
    apply (Hown 99 eq_refl). revert Hs. vm_compute. by intros [= <- _ _].
Defined.

Example refused : (job_session refuses true limits (Some 99) kernel).2 =
  mkKernel [3] [(17, mkExtendedLimit 20000000 0x220c 4 67108864)] [(17, mkCpuRate 5 5000)] [].
Proof. vm_compute. reflexivity. Qed.

(** A limit of [2 ^ 32] processes is reported as applied; the field is zero. *)
Example active_limit_wraps :
  (fun p => (xl_ActiveProcessLimit p.1, dget p.2 (py "max_active_processes")))
    <$> limits_of (mkJobLimits (Some (2 ^ 32)) None None None) = Some (0, Some (JInt (2 ^ 32))).
Proof. vm_compute. reflexivity. Qed.

(** An infinite CPU time raises after the job was created: its handle stays open. *)
Example infinite_time_leaks :
  let l := mkLimits (of_Z 5) 0 0 None None None (lit 1 10) (Some (S754_infinity false)) None None
             (lit 15 100) (lit 5 10) (of_Z 5) false in
  let r := job_session accepts true l (Some 99) kernel in
  r.1 = Raise OverflowError /\ k_open r.2 = [17; 3].
Proof. vm_compute. done. Qed.
End JobSample.
