(* ===== verification/Executor.v ===== *)
(** The process executor and the synthetic execution of an evaluation
    (src/challengeforge/execution/process_executor.py, src/challengeforge/
    evaluation/synthetic_execution.py): capped output streams, the monitoring
    loop with its limits, the classification of what happened, and the record an
    evaluation gets.

    What the operating system answers is an argument: one [PollView] for every
    turn of the monitoring loop, with the output read since the last one, and
    one [EndView] for the cleanup.  Job objects, which exist on Windows only,
    appear as the ownership text and the settings they report. *)
From Stdlib Require Import ZArith Lia String.
From stdpp Require Import prelude strings gmap.
From S2P Require Import Prelude PyFloat PyStr Domain Json Utf8 Ownership ExecutionContract.

(** * Capped streams *)

(** [execution/process_executor.py:78-89 _StreamCap] *)
Record StreamCap := mkCap {
  cap_max_bytes : Z;
  cap_buf : list Z;
  cap_truncated : bool;
}.
#[export] Instance StreamCap_eta : Eta StreamCap := fun c =>
  mkCap (cap_max_bytes c) (cap_buf c) (cap_truncated c).

Definition new_cap (max_bytes : Z) : StreamCap := mkCap max_bytes [] false.

(** One turn of [_run]: a chunk, not empty, is kept up to the limit. *)
Definition feed (c : StreamCap) (chunk : list Z) : StreamCap :=
  let remaining := cap_max_bytes c - zlen (cap_buf c) in
  if remaining <=? 0 then c <| cap_truncated := true |>
  else if remaining <? zlen chunk then
    c <| cap_buf := cap_buf c ++ take (Z.to_nat remaining) chunk |> <| cap_truncated := true |>
  else c <| cap_buf := cap_buf c ++ chunk |>.

(** [execution/process_executor.py:94-112 _StreamCap._run] *)
Definition read_chunks (c : StreamCap) (chunks : list (list Z)) : StreamCap :=
  foldl (fun c chunk => if nonempty chunk then feed c chunk else c) c chunks.

(** [execution/process_executor.py:117-119 _StreamCap.limit_hit] *)
Definition limit_hit (c : StreamCap) : bool := cap_truncated c.

(** * The monitoring loop *)

(** What one turn of the loop sees. *)
Record PollView := mkPollView {
  pv_now : float;
  pv_out : list (list Z);
  pv_err : list (list Z);
  pv_exit : option (Z * list (list Z) * list (list Z));
  pv_children : option Z;
  pv_rss : option float;
  pv_workspace : Z;
}.

(** [succeeded | failed | timeout | output_limit | process_limit | memory_limit |
    cpu_limit | workspace_limit | error] *)
Definition status : Type := string.

(** The local variables of the loop. *)
Record Monitor := mkMonitor {
  mo_out : StreamCap;
  mo_err : StreamCap;
  mo_peak_rss : option float;
  mo_peak_procs : Z;
  mo_peak_workspace : Z;
  mo_last_rss_poll : float;
  mo_last_ws_poll : float;
}.
#[export] Instance Monitor_eta : Eta Monitor := fun m =>
  mkMonitor (mo_out m) (mo_err m) (mo_peak_rss m) (mo_peak_procs m) (mo_peak_workspace m)
    (mo_last_rss_poll m) (mo_last_ws_poll m).

Definition new_monitor (l : ExecutionLimits) : Monitor :=
  mkMonitor (new_cap (max_stdout_bytes l)) (new_cap (max_stderr_bytes l)) None 1 0 fzero fzero.

(** Why the loop ended: a status with its reason. *)
Record Ended := mkEnded { en_status : status; en_reason : option string }.

(** [execution/process_executor.py:438-447 ProcessExecutor._classify_resource_exit] *)
Definition classify_resource_exit (rc : Z) (l : ExecutionLimits) : option Ended :=
  match max_cpu_seconds l with
  | Some _ => if 1000 <? Z.abs rc then Some (mkEnded "cpu_limit" (Some "job_user_time"%string))
              else None
  | None => None
  end.

Definition read_more (out err : list (list Z)) (m : Monitor) : Monitor :=
  m <| mo_out := read_chunks (mo_out m) out |> <| mo_err := read_chunks (mo_err m) err |>.

(** ["stdout" if out_cap... else "stderr"] *)
Definition which_stream (m : Monitor) : option string :=
  Some (if cap_truncated (mo_out m) then "stdout" else "stderr")%string.

Definition output_exceeded (m : Monitor) : bool := limit_hit (mo_out m) || limit_hit (mo_err m).

(** [execution/process_executor.py:294-308 ProcessExecutor.run], the branch of a
    process that has exited. *)
Definition exited (l : ExecutionLimits) (rc : Z) (m : Monitor) : Ended :=
  if output_exceeded m then mkEnded "output_limit" (which_stream m)
  else match classify_resource_exit rc l with
       | Some e => e
       | None => if rc =? 0 then mkEnded "succeeded" None else mkEnded "failed" None
       end.

(** [execution/process_executor.py:310-322 ProcessExecutor.run], the process
    count of one turn; psutil may fail. *)
Definition count_processes (l : ExecutionLimits) (v : PollView) (m : Monitor) : option Ended * Monitor :=
  match pv_children v with
  | None => (None, m)
  | Some n =>
      let nprocs := 1 + n in
      (match max_process_count l with
       | Some limit => if limit <=? nprocs
                       then Some (mkEnded "process_limit" (Some "active_process_limit"%string))
                       else None
       | None => None
       end, m <| mo_peak_procs := Z.max (mo_peak_procs m) nprocs |>)
  end.

(** [execution/process_executor.py:324-335 ProcessExecutor.run], the memory of
    the process tree, every poll interval. *)
Definition watch_memory (l : ExecutionLimits) (v : PollView) (m : Monitor) : option Ended * Monitor :=
  if fge (fsub (pv_now v) (mo_last_rss_poll m)) (rss_poll_interval_seconds l) then
    let m := m <| mo_last_rss_poll := pv_now v |> in
    match pv_rss v with
    | None => (None, m)
    | Some rss =>
        (match max_rss_mb l with
         | Some limit => if fgt rss limit
                         then Some (mkEnded "memory_limit" (Some "rss_soft_watch"%string)) else None
         | None => None
         end,
         m <| mo_peak_rss := Some (match mo_peak_rss m with
                                   | None => rss
                                   | Some p => fmax p rss
                                   end) |>)
    end
  else (None, m).

(** [execution/process_executor.py:337-347 ProcessExecutor.run], the size of the
    workspace, every poll interval when it is limited. *)
Definition watch_workspace (l : ExecutionLimits) (v : PollView) (m : Monitor) : option Ended * Monitor :=
  match max_workspace_bytes l with
  | None => (None, m)
  | Some limit =>
      if fge (fsub (pv_now v) (mo_last_ws_poll m)) (workspace_poll_interval_seconds l) then
        (if limit <? pv_workspace v
         then Some (mkEnded "workspace_limit" (Some "workspace_bytes"%string)) else None,
         m <| mo_last_ws_poll := pv_now v |>
           <| mo_peak_workspace := Z.max (mo_peak_workspace m) (pv_workspace v) |>)
      else (None, m)
  end.

(** The checks of a running process, in order; the first limit ends the loop. *)
Definition watch_limits (l : ExecutionLimits) (v : PollView) (m : Monitor) : option Ended * Monitor :=
  match count_processes l v m with
  | (Some e, m) => (Some e, m)
  | (None, m) =>
      match watch_memory l v m with
      | (Some e, m) => (Some e, m)
      | (None, m) => watch_workspace l v m
      end
  end.

(** [execution/process_executor.py:283-349 ProcessExecutor.run], one turn of the
    loop. *)
Definition poll_once (l : ExecutionLimits) (deadline : float) (v : PollView) (m : Monitor)
    : option Ended * Monitor :=
  let m := read_more (pv_out v) (pv_err v) m in
  if fge (pv_now v) deadline then (Some (mkEnded "timeout" (Some "wall_timeout"%string)), m)
  else if output_exceeded m then (Some (mkEnded "output_limit" (which_stream m)), m)
  else
    match pv_exit v with
    | Some (rc, out, err) => let m := read_more out err m in (Some (exited l rc m), m)
    | None => watch_limits l v m
    end.

(** [execution/process_executor.py:283-349 ProcessExecutor.run], the loop; [None]
    when it has not ended after the given turns. *)
Fixpoint monitor (l : ExecutionLimits) (deadline : float) (views : list PollView) (m : Monitor)
    : option (Ended * Monitor) :=
  match views with
  | [] => None
  | v :: views =>
      match poll_once l deadline v m with
      | (Some e, m) => Some (e, m)
      | (None, m) => monitor l deadline views m
      end
  end.

(** * Results *)

(** [execution/process_executor.py:28-50 ExecutionResult] *)
Record ExecutionResult := mkResult {
  xr_workload : pystr;
  xr_status : status;
  xr_exit_code : option Z;
  xr_wall_ms : float;
  xr_startup_ms : float;
  xr_cleanup_ms : float;
  xr_stdout_bytes : Z;
  xr_stderr_bytes : Z;
  xr_stdout_truncated : bool;
  xr_stderr_truncated : bool;
  xr_peak_rss_mb : option float;
  xr_process_count_peak : Z;
  xr_peak_workspace_bytes : option Z;
  xr_leaked_pids_after_cleanup : list Z;
  xr_workspace : option pystr;
  xr_workspace_cleaned : bool;
  xr_root_pid : option Z;
  xr_ownership : pystr;
  xr_evidence : dict;
}.

(** [execution/process_executor.py:52-75 ExecutionResult.to_dict] *)
Definition result_dict (r : ExecutionResult) : dict :=
  [(py "workload", JStr (xr_workload r));
   (py "status", JStr (py (xr_status r)));
   (py "exit_code", json_opt JInt (xr_exit_code r));
   (py "wall_ms", JFloat (fround 3 (xr_wall_ms r)));
   (py "startup_ms", JFloat (fround 3 (xr_startup_ms r)));
   (py "cleanup_ms", JFloat (fround 3 (xr_cleanup_ms r)));
   (py "stdout_bytes", JInt (xr_stdout_bytes r));
   (py "stderr_bytes", JInt (xr_stderr_bytes r));
   (py "stdout_truncated", JBool (xr_stdout_truncated r));
   (py "stderr_truncated", JBool (xr_stderr_truncated r));
   (py "peak_rss_mb", json_opt (fun x => JFloat (fround 3 x)) (xr_peak_rss_mb r));
   (py "process_count_peak", JInt (xr_process_count_peak r));
   (py "peak_workspace_bytes", json_opt JInt (xr_peak_workspace_bytes r));
   (py "leaked_pids_after_cleanup", JList (JInt <$> xr_leaked_pids_after_cleanup r));
   (py "workspace", json_opt JStr (xr_workspace r));
   (py "workspace_cleaned", JBool (xr_workspace_cleaned r));
   (py "root_pid", json_opt JInt (xr_root_pid r));
   (py "ownership", JStr (xr_ownership r));
   (py "evidence", JObj (xr_evidence r))].

(** What the cleanup of a finished process sees. *)
Record EndView := mkEndView {
  nv_out : list (list Z);
  nv_err : list (list Z);
  nv_leaked : list Z;
  nv_exit_code : option Z;
  nv_rss : option float;
  nv_workspace : option Z;
  nv_removed : bool;
  nv_peak_job_memory : option Z;
  nv_wall_ms : float;
  nv_cleanup_ms : float;
}.

(** One start of a process: the error of [Popen], or its pid and what follows. *)
Record StartView := mkStartView {
  sv_work_dir : pystr;
  sv_ownership : pystr;
  sv_job_applied : dict;
  sv_error : option pystr;
  sv_assign_error : option pystr;
  sv_pid : Z;
  sv_pgid : option Z;
  sv_started : float;
  sv_wall_ms : float;
  sv_startup_ms : float;
}.

(** [execution/process_executor.py:380-383 ProcessExecutor.run], the status after the
    forced termination. *)
Definition reclassify (l : ExecutionLimits) (exit_code : option Z) (e : Ended) : Ended :=
  if String.eqb (en_status e) "succeeded" && bool_decide (is_Some (max_cpu_seconds l)) then
    match exit_code with
    | Some rc => if negb (rc =? 0) && (1000 <? Z.abs rc)
                 then mkEnded "cpu_limit" (Some "job_user_time"%string) else e
    | None => e
    end
  else e.

(** [execution/process_executor.py:393-403 ProcessExecutor.run], the signals of the
    workload itself. *)
Definition workload_signal (combined : pystr) (e : Ended) : Ended :=
  let reason := Some (default "workload_signal"%string (en_reason e)) in
  if String.eqb (en_status e) "succeeded" || String.eqb (en_status e) "failed" then
    if contains combined (py "cf_process_limit") then mkEnded "process_limit" reason
    else if contains combined (py "cf_memory_limit") then mkEnded "memory_limit" reason
    else if contains combined (py "cf_workspace_limit") then mkEnded "workspace_limit" reason
    else e
  else e.

(** [execution/process_executor.py:211-232 ProcessExecutor.run], a process that could
    not be started. *)
Definition start_failure (workload : pystr) (s : StartView) (error : pystr) : ExecutionResult :=
  mkResult workload "error" None (sv_wall_ms s) fzero fzero 0 0 false false None 0 None []
    (Some (sv_work_dir s)) true None (sv_ownership s)
    [(py "error", JStr error); (py "job_applied", JObj (sv_job_applied s))].

(** [n or None] *)
Definition or_none (n : Z) : option Z := if n =? 0 then None else Some n.

(** [execution/process_executor.py:350-436 ProcessExecutor.run], from the end of the
    loop to the result. *)
Definition conclude_run (l : ExecutionLimits) (workload : pystr) (s : StartView) (n : EndView)
    (e : Ended) (m : Monitor) : ExecutionResult :=
  let m := read_more (nv_out n) (nv_err n) m in
  let peak_rss := match mo_peak_rss m with Some p => Some p | None => nv_rss n end in
  let peak_workspace :=
    if mo_peak_workspace m =? 0 then default (mo_peak_workspace m) (nv_workspace n)
    else mo_peak_workspace m in
  let e := reclassify l (nv_exit_code n) e in
  let keep := workspace_retain_on_failure l && negb (String.eqb (en_status e) "succeeded") in
  let cleaned := if keep then false else nv_removed n in
  let out := cap_buf (mo_out m) in
  let err := cap_buf (mo_err m) in
  let e := workload_signal (decode_replace (out ++ err)) e in
  let evidence :=
    [(py "stdout_preview", JStr (decode_replace (take 2048 out)));
     (py "stderr_preview", JStr (decode_replace (take 512 err)));
     (py "pgid", json_opt JInt (sv_pgid s));
     (py "job_applied", JObj (sv_job_applied s));
     (py "limit_reason", json_opt (fun r => JStr (py r)) (en_reason e));
     (py "peak_job_memory_bytes", json_opt JInt (nv_peak_job_memory n));
     (py "budgets", JObj (limits_dict l))]
    ++ match sv_assign_error s with
       | Some t => if nonempty t then [(py "job_assign_error", JStr t)] else []
       | None => []
       end in
  mkResult workload (en_status e) (nv_exit_code n) (nv_wall_ms n) (sv_startup_ms s)
    (nv_cleanup_ms n) (zlen out) (zlen err) (cap_truncated (mo_out m)) (cap_truncated (mo_err m))
    peak_rss (mo_peak_procs m) (or_none peak_workspace) (nv_leaked n) (Some (sv_work_dir s)) cleaned
    (Some (sv_pid s)) (sv_ownership s) evidence.

(** [execution/process_executor.py:276-276 ProcessExecutor.run] *)
Definition deadline_of_start (l : ExecutionLimits) (s : StartView) : float :=
  fadd (sv_started s) (fmax (lit 5 100) (wall_timeout_seconds l)).

(** One execution as the operating system plays it. *)
Record RunView := mkRunView {
  rv_start : StartView;
  rv_polls : list PollView;
  rv_end : EndView;
}.

(** [execution/process_executor.py:208-349 ProcessExecutor.run]; [None] while the
    process is still being monitored after the given turns. *)
Definition run_executor (l : ExecutionLimits) (workload : pystr) (rv : RunView)
    : option ExecutionResult :=
  let s := rv_start rv in
  match sv_error s with
  | Some error => Some (start_failure workload s error)
  | None =>
      match monitor l (deadline_of_start l s) (rv_polls rv) (new_monitor l) with
      | Some (e, m) => Some (conclude_run l workload s (rv_end rv) e m)
      | None => None
      end
  end.

(** * Synthetic execution *)

(** [execution/contract.py:79-87 EvaluationExecutionRecord] *)
Record EvaluationExecutionRecord := mkRecord {
  er_outcome : ExecutionOutcome;
  er_execution : ExecutionResult;
  er_terminal : Terminal;
  er_retryable : bool;
  er_score : option Z;
  er_failure_reason : option pystr;
  er_result_metadata : dict;
}.

(** [evaluation/synthetic_execution.py:57-61 run_synthetic_execution._started]: the
    fields of the started process. *)
Definition started_attempt (a : ExecutionAttempt) (s : StartView) : ExecutionAttempt :=
  mkAttempt (at_execution_attempt_id a) (at_evaluation_id a) (at_worker_id a) (at_workload a)
    (Some (sv_pid s)) (sv_pgid s) (Some (sv_work_dir s))
    (if nonempty (sv_ownership s) then sv_ownership s else at_ownership a).

(** [evaluation/synthetic_execution.py:79-82 run_synthetic_execution]: the attempt of an
    execution that never started. *)
Definition unstarted_attempt (a : ExecutionAttempt) (r : ExecutionResult) : ExecutionAttempt :=
  mkAttempt (at_execution_attempt_id a) (at_evaluation_id a) (at_worker_id a) (at_workload a)
    (xr_root_pid r) (at_pgid a) (xr_workspace r) (xr_ownership r).

(** [evaluation/synthetic_execution.py:26-108 run_synthetic_execution]: the record,
    and what [on_started] was called with.  [mechanism] is the host's ownership
    mechanism and [job_objects] whether it has job objects. *)
Definition run_synthetic_execution (fresh : uuid) (mechanism : pystr) (job_objects : bool)
    (rv : RunView) (evaluation_id submission_id : uuid) (metadata : dict) (workload_class : pystr)
    (attempt_count max_attempts : Z) (worker_id : pystr) (l : ExecutionLimits)
    : option (result exn (EvaluationExecutionRecord * option dict)) :=
  match resolve_workload (dget_null metadata (py "execution_workload")) workload_class with
  | Raise e => Some (Raise e)
  | Ok workload =>
      let attempt := new_attempt fresh (uuid_str evaluation_id) worker_id workload mechanism in
      match run_executor l workload rv with
      | None => None
      | Some r =>
          let started := match sv_error (rv_start rv) with
                         | None => Some (started_attempt attempt (rv_start rv))
                         | Some _ => None
                         end in
          let attempt := default (unstarted_attempt attempt r) started in
          let outcome := outcome_from_result (xr_status r) (xr_leaked_pids_after_cleanup r) in
          let d := disposition outcome attempt_count max_attempts in
          Some (Ok (mkRecord outcome r (di_terminal d) (di_retryable d) (di_score d) (di_reason d)
                      [(py "evaluator", JStr (py "synthetic_execution_v1"));
                       (py "submission_id", JStr (uuid_str submission_id));
                       (py "execution_workload", JStr workload);
                       (py "execution_outcome", JStr (py (value outcome)));
                       (py "execution", JObj (result_dict r));
                       (py "execution_attempt", JObj (to_metadata attempt));
                       (py "retryable", JBool (di_retryable d));
                       (py "budgets", JObj (limits_dict l));
                       (py "budget_labels", JObj (budget_labels job_objects))],
                    to_metadata <$> started))
      end
  end.
