(* ===== verification/ExecutorSpec.v ===== *)
(** The properties of the executor: its streams are capped, its loop ends by the
    deadline with a status the contract knows, and an evaluation that succeeds
    had a process that really did. *)
From Stdlib Require Import ZArith Lia String.
From stdpp Require Import prelude strings gmap.
From S2P Require Import Prelude PyFloat PyStr Domain Json Utf8 Ownership ExecutionContract Executor.

(** * Streams *)

(** The cap after the bytes [data] went through it. *)
Definition capped (max : Z) (data : list Z) (c : StreamCap) : Prop :=
  cap_max_bytes c = max /\ cap_buf c = take (Z.to_nat max) data
  /\ cap_truncated c = (max <? zlen data).

Lemma zlen_take {A} (n : Z) (l : list A) : 0 <= n -> zlen (take (Z.to_nat n) l) = Z.min n (zlen l).
Proof. intros. unfold zlen. rewrite length_take. lia. Qed.

Lemma feed_capped max data chunk c :
  0 <= max -> chunk <> [] -> capped max data c -> capped max (data ++ chunk) (feed c chunk).
Proof.
  intros Hmax Hne (Hm & Hb & Ht). unfold feed. rewrite Hm, Hb, zlen_take by done.
  assert (0 < zlen chunk) as Hpos by (destruct chunk; [done|unfold zlen; cbn; lia]).
  destruct (max - Z.min max (zlen data) <=? 0) eqn:E1; zify_bool.
  { repeat split; cbn; [done| |rewrite zlen_app; symmetry; apply Z.ltb_lt; lia].
    rewrite Hb. rewrite take_app_le; [done|]. unfold zlen in E1. lia. }
  rewrite take_ge in Hb |- * by (unfold zlen in E1; lia).
  destruct (_ <? zlen chunk) eqn:E2; zify_bool.
  - repeat split; cbn; [done| |rewrite zlen_app; symmetry; apply Z.ltb_lt; lia].
    rewrite take_app_ge by (unfold zlen in E1; lia). do 2 f_equal. unfold zlen. lia.
  - repeat split; cbn; [done| |].
    + rewrite take_ge; [done|]. rewrite length_app. unfold zlen in *. lia.
    + rewrite Ht, zlen_app. destruct (max <? _) eqn:E3; symmetry; zify_bool; [lia|].
      apply Z.ltb_ge. lia.
Qed.

Lemma read_chunks_capped max data chunks c :
  0 <= max -> capped max data c -> capped max (data ++ mjoin chunks) (read_chunks c chunks).
Proof.
  intros Hmax. revert data c. induction chunks as [|chunk chunks IH]; intros data c Hc.
  - cbn. by rewrite app_nil_r.
  - cbn [mjoin list_join read_chunks foldl]. rewrite app_assoc. apply IH.
    destruct chunk as [|b chunk]; cbn [nonempty]; [by rewrite app_nil_r|].
    by apply feed_capped.
Qed.

Lemma new_cap_capped max : 0 <= max -> capped max [] (new_cap max).
Proof.
  intros. repeat split; cbn; [by rewrite take_nil|]. rewrite zlen_nil. symmetry. apply Z.ltb_ge. lia.
Qed.

Lemma stream_capped max chunks :
  0 <= max -> capped max (mjoin chunks) (read_chunks (new_cap max) chunks).
Proof.
  intros Hmax. exact (read_chunks_capped max [] chunks (new_cap max) Hmax (new_cap_capped max Hmax)).
Qed.

Lemma capped_within max chunks :
  0 <= max -> limit_hit (read_chunks (new_cap max) chunks) = false -> zlen (mjoin chunks) <= max.
Proof.
  intros Hmax. destruct (stream_capped max chunks Hmax) as (_ & _ & Ht).
  unfold limit_hit. rewrite Ht. apply Z.ltb_ge.
Qed.

(** A capped stream keeps exactly the first bytes up to its limit, whatever the
    chunks they arrive in, and reports truncation exactly when there were more. *)
Theorem stream_cap_exact (max : Z) (chunks : list (list Z)) :
  0 <= max ->
  let c := read_chunks (new_cap max) chunks in
  cap_buf c = take (Z.to_nat max) (mjoin chunks)
  /\ (limit_hit c = true <-> max < zlen (mjoin chunks)) /\ zlen (cap_buf c) <= max.
Proof.
  intros Hmax c.
  destruct (stream_capped max chunks Hmax) as (_ & Hb & Ht). fold c in Hb, Ht.
  unfold limit_hit. rewrite Hb, Ht, Z.ltb_lt, zlen_take by done. split_and!; [done..|lia].
Qed.

(** * The loop *)

(** A status the contract has an outcome for. *)
Definition known_status (s : status) : Prop := is_Some (STATUS_TO_OUTCOME s).

(** The watches of a running process touch no stream and never report success. *)
Definition watched (m : Monitor) (r : option Ended * Monitor) : Prop :=
  mo_out r.2 = mo_out m /\ mo_err r.2 = mo_err m
  /\ forall e, r.1 = Some e -> known_status (en_status e) /\ en_status e <> "succeeded"%string.

Lemma count_processes_watched l v m : watched m (count_processes l v m).
Proof.
  unfold count_processes, watched. repeat case_match; cbn; split_and!; try done;
    intros e [= <-]; (split; [by eexists|done]).
Qed.

Lemma watch_memory_watched l v m : watched m (watch_memory l v m).
Proof.
  unfold watch_memory, watched. repeat case_match; cbn; split_and!; try done;
    intros e [= <-]; (split; [by eexists|done]).
Qed.

Lemma watch_workspace_watched l v m : watched m (watch_workspace l v m).
Proof.
  unfold watch_workspace, watched. repeat case_match; cbn; split_and!; try done;
    intros e [= <-]; (split; [by eexists|done]).
Qed.

Lemma watch_limits_watched l v m : watched m (watch_limits l v m).
Proof.
  unfold watch_limits.
  pose proof (count_processes_watched l v m) as (H1 & H2 & H3).
  destruct (count_processes l v m) as [[e|] m1]; cbn in H1, H2, H3; [split_and!; done|].
  pose proof (watch_memory_watched l v m1) as (H4 & H5 & H6).
  destruct (watch_memory l v m1) as [[e|] m2]; cbn in H4, H5, H6; [split_and!; cbn; congruence || done|].
  destruct (watch_workspace_watched l v m2) as (H7 & H8 & H9). split_and!; [congruence..|done].
Qed.

Lemma exited_known l rc m : known_status (en_status (exited l rc m)).
Proof. unfold exited, classify_resource_exit. repeat case_match; simplify_eq; by eexists. Qed.

Lemma poll_once_known l d v m e m' :
  poll_once l d v m = (Some e, m') -> known_status (en_status e).
Proof.
  unfold poll_once. destruct (fge _ _); [intros [= <- _]; by eexists|].
  destruct (output_exceeded _); [intros [= <- _]; by eexists|].
  destruct (pv_exit v) as [[[rc out] err]|].
  - intros [= <- _]. apply exited_known.
  - intros E. pose proof (watch_limits_watched l v (read_more (pv_out v) (pv_err v) m)) as (_ & _ & Hk).
    rewrite E in Hk. by destruct (Hk e eq_refl).
Qed.

(** C16 The monitoring loop ends by the wall-clock deadline: when one of its turns
    is at or after the deadline, the execution has a result, and whatever ended
    it, an error to start included, the contract knows its status: it is never
    an executor error. *)
Theorem executor_ends_by_deadline (l : ExecutionLimits) (w : pystr) (rv : RunView) :
  Exists (fun v => fge (pv_now v) (deadline_of_start l (rv_start rv)) = true) (rv_polls rv) ->
  exists r, run_executor l w rv = Some r /\ known_status (xr_status r)
  /\ outcome_from_result (xr_status r) (xr_leaked_pids_after_cleanup r) <> X_EXECUTOR_ERROR.
Proof.
  intros Hex. unfold run_executor.
  assert (forall s leaked, known_status s -> outcome_from_result s leaked <> X_EXECUTOR_ERROR) as Hne.
  { intros s leaked [o Ho]. unfold outcome_from_result. destruct (String.eqb s "succeeded").
    - by destruct (nonempty leaked).
    - rewrite Ho. cbn. revert Ho. unfold STATUS_TO_OUTCOME. cbn [List.find fst].
      repeat case_match; cbn; congruence. }
  destruct (sv_error (rv_start rv)) as [t|].
  { eexists. split; [reflexivity|]. cbn. split; [by eexists|done]. }
  assert (exists e m', monitor l (deadline_of_start l (rv_start rv)) (rv_polls rv) (new_monitor l)
                       = Some (e, m') /\ known_status (en_status e)) as (e & m' & -> & Hk).
  { generalize (new_monitor l). induction Hex as [v vs Hv|v vs _ IH]; intros m; cbn [monitor].
    - destruct (poll_once _ _ v m) as [[e|] m1] eqn:E.
      + exists e, m1. split; [done|]. by eapply poll_once_known.
      + exfalso. unfold poll_once in E. by rewrite Hv in E.
    - destruct (poll_once _ _ v m) as [[e|] m1] eqn:E; [|apply IH].
      exists e, m1. split; [done|]. by eapply poll_once_known. }
  eexists. split; [reflexivity|].
  assert (known_status (xr_status (conclude_run l w (rv_start rv) (rv_end rv) e m'))) as Hr.
  { cbn. set (e1 := reclassify l _ e).
    assert (known_status (en_status e1)) as Hk1.
    { unfold e1, reclassify. repeat case_match; try done; by eexists. }
    unfold workload_signal. repeat case_match; try done; by eexists. }
  split; [done|]. by apply Hne.
Qed.

(** * Success *)

(** A turn that ends the loop in success: the process had exited with status
    zero, before the deadline, and its output stayed under the caps. *)
Definition clean_exit (l : ExecutionLimits) (d : float) (v : PollView) (m m' : Monitor) : Prop :=
  exists out err, pv_exit v = Some (0, out, err) /\ fge (pv_now v) d = false
  /\ m' = read_more out err (read_more (pv_out v) (pv_err v) m)
  /\ limit_hit (mo_out m') = false /\ limit_hit (mo_err m') = false.

Lemma poll_once_success l d v m e m' :
  poll_once l d v m = (Some e, m') -> en_status e = "succeeded"%string -> clean_exit l d v m m'.
Proof.
  unfold poll_once. destruct (fge (pv_now v) d) eqn:Hd; [by intros [= <- _]|].
  destruct (output_exceeded _); [by intros [= <- _]|].
  destruct (pv_exit v) as [[[rc out] err]|] eqn:Hx.
  - intros [= <- <-]. unfold exited. destruct (output_exceeded _) eqn:Ho; [done|].
    apply orb_false_iff in Ho as [Ho1 Ho2].
    destruct (classify_resource_exit rc l) as [e|] eqn:Hc.
    + unfold classify_resource_exit in Hc. repeat case_match; simplify_eq. done.
    + destruct (rc =? 0) eqn:Hrc; [|done]. intros _. zify_bool. subst rc. by exists out, err.
  - intros E Hs. pose proof (watch_limits_watched l v (read_more (pv_out v) (pv_err v) m)) as (_ & _ & Hk).
    rewrite E in Hk. by destruct (Hk e eq_refl) as [_ ?].
Qed.

(** The bytes of a stream read up to and in the turn [v]. *)
Definition read_until (sel : PollView -> list (list Z)) (vs : list PollView) : list (list Z) :=
  vs ≫= sel.

Lemma poll_once_continues l d v m m' :
  poll_once l d v m = (None, m') ->
  mo_out m' = read_chunks (mo_out m) (pv_out v) /\ mo_err m' = read_chunks (mo_err m) (pv_err v).
Proof.
  unfold poll_once. destruct (fge _ _); [done|]. destruct (output_exceeded _); [done|].
  destruct (pv_exit v) as [[[rc out] err]|]; [done|]. intros E.
  pose proof (watch_limits_watched l v (read_more (pv_out v) (pv_err v) m)) as (H1 & H2 & _).
  rewrite E in H1, H2. done.
Qed.

Lemma read_chunks_app c a b : read_chunks c (a ++ b) = read_chunks (read_chunks c a) b.
Proof. unfold read_chunks. by rewrite foldl_app. Qed.

Lemma monitor_success l d vs m e m' :
  monitor l d vs m = Some (e, m') -> en_status e = "succeeded"%string ->
  exists pre v post out err, vs = pre ++ v :: post /\ pv_exit v = Some (0, out, err)
  /\ fge (pv_now v) d = false
  /\ mo_out m' = read_chunks (mo_out m) (read_until pv_out (pre ++ [v]) ++ out)
  /\ mo_err m' = read_chunks (mo_err m) (read_until pv_err (pre ++ [v]) ++ err)
  /\ limit_hit (mo_out m') = false /\ limit_hit (mo_err m') = false.
Proof.
  revert m. induction vs as [|v vs IH]; intros m; cbn [monitor]; [done|].
  destruct (poll_once l d v m) as [[e1|] m1] eqn:E.
  - intros [= -> ->] Hs. destruct (poll_once_success _ _ _ _ _ _ E Hs) as (out & err & ? & ? & -> & ? & ?).
    exists [], v, vs, out, err. unfold read_until. cbn [app mbind list_bind]. rewrite !app_nil_r.
    split_and!; try done; cbn; by rewrite read_chunks_app.
  - intros Hm Hs. destruct (poll_once_continues _ _ _ _ _ E) as [Ho He].
    destruct (IH m1 Hm Hs) as (pre & w & post & out & err & -> & ? & ? & Hout & Herr & ? & ?).
    exists (v :: pre), w, post, out, err. unfold read_until in *. cbn [app mbind list_bind].
    split_and!; try done.
    + by rewrite Hout, Ho, <-read_chunks_app, app_assoc.
    + by rewrite Herr, He, <-read_chunks_app, app_assoc.
Qed.

Lemma disposition_success o n k : di_terminal (disposition o n k) = T_succeeded -> o = X_SUCCESS.
Proof. unfold disposition. destruct o; cbn -[outcome_reason]; try done; by destruct (_ <? _). Qed.

(** C15 A success is real: when a synthetic execution gives its evaluation the full
    score, one of the trusted workloads was started and its process exited with
    status zero, seen before the deadline, after writing no more than the caps
    allow, and left no process behind. *)
Theorem execution_success_sound fresh mech jo rv eid sid meta cls n k w l rec started :
  0 <= max_stdout_bytes l -> 0 <= max_stderr_bytes l ->
  run_synthetic_execution fresh mech jo rv eid sid meta cls n k w l = Some (Ok (rec, started)) ->
  er_terminal rec = T_succeeded ->
  er_score rec = Some 100 /\ is_Some started /\ xr_leaked_pids_after_cleanup (er_execution rec) = []
  /\ xr_workload (er_execution rec) ∈ WORKLOAD_NAMES
  /\ exists pre v post out err,
       rv_polls rv = pre ++ v :: post /\ pv_exit v = Some (0, out, err)
       /\ fge (pv_now v) (deadline_of_start l (rv_start rv)) = false
       /\ zlen (mjoin (read_until pv_out (pre ++ [v]) ++ out)) <= max_stdout_bytes l
       /\ zlen (mjoin (read_until pv_err (pre ++ [v]) ++ err)) <= max_stderr_bytes l.
Proof.
  intros Hso Hse. unfold run_synthetic_execution.
  destruct (resolve_workload _ _) as [wl|] eqn:Hwk; [|done]. apply resolve_workload_known in Hwk.
  unfold run_executor. destruct (sv_error (rv_start rv)) as [t|] eqn:Herr.
  { intros [= <- <-] Ht. cbn [er_terminal] in Ht. apply disposition_success in Ht. discriminate Ht. }
  destruct (monitor _ _ _ _) as [[e m]|] eqn:Hm; [|done].
  intros [= <- <-]. set (r := conclude_run _ _ _ _ _ _).
  intros Ht. cbn [er_terminal er_score er_execution] in *.
  pose proof (disposition_success _ _ _ Ht) as Ho.
  rewrite Ho. apply outcome_success in Ho as [Hs Hl].
  do 4 (split; [done || by eexists|]).
  assert (en_status e = "succeeded"%string) as He.
  { revert Hs. unfold r. cbn [conclude_run xr_status].
    unfold workload_signal, reclassify. repeat case_match; cbn in *; try done;
      intros E; rewrite ?E in *; done || by apply String.eqb_eq. }
  destruct (monitor_success _ _ _ _ _ _ Hm He)
    as (pre & v & post & out & err & Hp & Hx & Hd & Hout & Herr' & Hl1 & Hl2).
  exists pre, v, post, out, err. split_and!; [done..| |].
  - rewrite Hout in Hl1. eapply capped_within; [exact Hso|exact Hl1].
  - rewrite Herr' in Hl2. eapply capped_within; [exact Hse|exact Hl2].
Qed.

Module ExecutorSample.
(** A process that writes two bytes and exits with status zero. *)
Definition started : StartView :=
  mkStartView (py "/tmp/w") (py "process_group") [] None None 42 None fzero fzero fzero.
Definition clean_end : EndView := mkEndView [] [] [] (Some 0) None None true None fzero fzero.
Definition exits : PollView := mkPollView (of_Z 1) [[104; 105]] [] (Some (0, [], [])) None None 0.
Definition clean_run : RunView := mkRunView started [exits] clean_end.
(** A process that never exits: its second turn is after the deadline. *)
Definition waits (now : Z) : PollView := mkPollView (of_Z now) [] [] None None None 0.
Definition endless : RunView := mkRunView started [waits 1; waits 6] clean_end.

Lemma stream_cap_exact_witness :
  cap_buf (read_chunks (new_cap 3) [[1; 2]; []; [3; 4]]) = [1; 2; 3]
  /\ limit_hit (read_chunks (new_cap 3) [[1; 2]; []; [3; 4]]) = true.
Proof.
  destruct (stream_cap_exact 3 [[1; 2]; []; [3; 4]] ltac:(lia)) as (Hb & Ht & _).
  split; [exact Hb|apply Ht; reflexivity].
Defined.

Lemma executor_ends_by_deadline_witness :
  exists r, run_executor default_limits (py "SLEEP") endless = Some r
  /\ xr_status r = "timeout"%string.
Proof.
  destruct (executor_ends_by_deadline default_limits (py "SLEEP") endless) as (r & Hr & _).
  - apply Exists_cons_tl, Exists_cons_hd. vm_compute. reflexivity.
  - exists r. split; [exact Hr|].
    assert (xr_status <$> run_executor default_limits (py "SLEEP") endless = Some "timeout"%string) as Hs
      by (vm_compute; reflexivity).
    rewrite Hr in Hs. cbn in Hs. congruence.
Defined.

Lemma execution_success_sound_witness :
  exists rec started', run_synthetic_execution 7 (py "process_group") false clean_run 1 2 [] (py "light")
                         1 3 (py "w") default_limits = Some (Ok (rec, started'))
  /\ er_score rec = Some 100 /\ is_Some started' /\ xr_leaked_pids_after_cleanup (er_execution rec) = [].
Proof.
  assert (exists rec started', run_synthetic_execution 7 (py "process_group") false clean_run 1 2 []
            (py "light") 1 3 (py "w") default_limits = Some (Ok (rec, started'))
          /\ er_terminal rec = T_succeeded) as (rec & started' & Hrun & Ht)
    by (eexists _, _; split; [vm_compute; reflexivity|reflexivity]).
  assert (0 <= 256 * 1024) as Hcap by lia.
  destruct (execution_success_sound _ _ _ _ _ _ _ _ _ _ _ default_limits _ _ Hcap Hcap Hrun Ht) as (Hs & Hi & Hl & _).
  exists rec, started'. exact (conj Hrun (conj Hs (conj Hi Hl))).
Defined.
End ExecutorSample.
