(* ===== verification/ProcessTree.v ===== *)
(** The end of an execution (src/challengeforge/execution/process_executor.py): the
    termination of the process tree with its report of leaked processes, the
    removal of the workspace, and the measurements of both.

    Processes belong to psutil and the operating system, the workspace to
    [shutil]: the classes [ProcessOs] and [WorkspaceOs] name what the executor asks
    of them, each call a function of the state it finds.  An exception the code
    swallows is a call without an answer ([None]), or one whose outcome is not
    looked at. *)
From Stdlib Require Import ZArith Lia String.
From stdpp Require Import prelude strings gmap sets.
From S2P Require Import Prelude PyFloat PyStr Domain Json Ownership ExecutionContract Executor.

(** What the executor asks of the processes: [running] is [p.is_running() and
    p.status() != STATUS_ZOMBIE]; [close_job] closes the handle of the job object,
    when there is one. *)
Class ProcessOs (S : Type) := {
  is_nt : bool;
  children : Z -> S -> option (list Z);
  memory_info_rss : Z -> S -> option Z;
  terminate : Z -> S -> S;
  taskkill : Z -> float -> S -> S;
  wait_procs : list Z -> float -> S -> list Z * S;
  kill : Z -> S -> S;
  proc_wait : float -> S -> bool * S;
  pid_exists : Z -> S -> bool;
  running : Z -> S -> option bool;
  close_job : S -> S;
  sleep : float -> S -> S;
}.

(** What it asks of the workspace: [rmtree] answers whether it raised. *)
Class WorkspaceOs (S : Type) := {
  ws_exists : S -> bool;
  rmtree : bool -> S -> bool * S;
  ws_sleep : float -> S -> S;
}.

Section Termination.
Context {S : Type} `{ProcessOs S}.
Implicit Types (s : S) (pids : list Z).

(** [execution/process_executor.py:460-470 ProcessExecutor._tree_rss_mb] *)
Definition _tree_rss_mb (parent : Z) (s : S) : option float :=
  match memory_info_rss parent s, children parent s with
  | Some rss, Some l =>
      Some (int_truediv (foldl (fun total child => total + default 0 (memory_info_rss child s)) rss l)
              (1024 * 1024))
  | _, _ => None
  end.

(** The processes that are terminated: the descendants, then the parent. *)
Definition targets_of (parent : Z) (s : S) : list Z := default [] (children parent s) ++ [parent].

Definition kill_all pids s : S := foldl (fun s p => kill p s) s pids.

(** [execution/process_executor.py:479-499 ProcessExecutor._terminate_tree]: every
    process is asked to end; Windows is asked again for the whole tree. *)
Definition terminate_all (parent : Z) (grace : float) pids s : S :=
  let s := foldl (fun s p => terminate p s) s pids in
  if is_nt && negb (parent =? 0) then taskkill parent (fmax (of_Z 1) (fadd grace (of_Z 1))) s else s.

(** [execution/process_executor.py:500-512 ProcessExecutor._terminate_tree]: what is
    left is killed. *)
Definition kill_survivors (parent : Z) (grace : float) pids s : S :=
  let (alive, s) := wait_procs pids (fmax (lit 5 100) grace) s in
  let s := kill_all alive s in
  let (ended, s) := proc_wait (fmax (lit 5 100) grace) s in
  if ended then s else kill parent s.

(** [execution/process_executor.py:515-529 ProcessExecutor._terminate_tree]: a process
    that still runs is killed once more, and reported when it runs on. *)
Definition settle_pid (pid : Z) (s : S) : bool * S :=
  if negb (pid_exists pid s) then (false, s)
  else match running pid s with
       | Some true =>
           let s := sleep (lit 2 100) (kill pid s) in
           (bool_decide (running pid s = Some true), s)
       | _ => (false, s)
       end.

Fixpoint settle_pids pids s : list Z * S :=
  match pids with
  | [] => ([], s)
  | pid :: pids =>
      let (leaks, s) := settle_pid pid s in
      let (leaked, s) := settle_pids pids s in
      (if leaks then pid :: leaked else leaked, s)
  end.

(** [execution/process_executor.py:472-530 ProcessExecutor._terminate_tree] *)
Definition _terminate_tree (parent : Z) (grace : float) (s : S) : list Z * S :=
  let pids := targets_of parent s in
  let s := terminate_all parent grace pids s in
  let s := kill_survivors parent grace pids s in
  settle_pids pids (sleep (lit 5 100) s).

(** ** What is reported *)

Lemma settle_pids_sublist pids s : (settle_pids pids s).1 `sublist_of` pids.
Proof.
  revert s. induction pids as [|pid pids IH]; intros s; cbn [settle_pids]; [done|].
  destruct (settle_pid pid s) as [leaks s1]. specialize (IH s1).
  destruct (settle_pids pids s1) as [leaked s2]. cbn in *. by destruct leaks; constructor.
Qed.

(** A process that has ended stays ended, whatever is done to the others: process
    identifiers are not reused during the clean-up. *)
Class EndedStaysEnded := {
  kill_keeps : forall p q s, running p s <> Some true -> running p (kill q s) <> Some true;
  sleep_keeps : forall p t s, running p s <> Some true -> running p (sleep t s) <> Some true;
  absent_ended : forall p s, pid_exists p s = false -> running p s <> Some true;
}.

Section Reports.
Context `{!EndedStaysEnded}.

Lemma settle_pid_keeps p pid s : running p s <> Some true -> running p (settle_pid pid s).2 <> Some true.
Proof using Type*.
  intros Hp. unfold settle_pid. destruct (pid_exists pid s); [|done]. cbn [negb].
  destruct (running pid s) as [[]|]; [|done..]. by apply sleep_keeps, kill_keeps.
Qed.

Lemma settle_pids_keep p pids s : running p s <> Some true -> running p (settle_pids pids s).2 <> Some true.
Proof using Type*.
  revert s. induction pids as [|pid pids IH]; intros s Hp; cbn [settle_pids]; [done|].
  pose proof (settle_pid_keeps p pid s Hp) as Hp'. destruct (settle_pid pid s) as [leaks s1].
  specialize (IH s1 Hp'). by destruct (settle_pids pids s1).
Qed.

(** A process is passed over only when it has ended. *)
Lemma settle_pid_ended pid s : (settle_pid pid s).1 = false -> running pid (settle_pid pid s).2 <> Some true.
Proof using Type*.
  unfold settle_pid. destruct (pid_exists pid s) eqn:E; cbn [negb]; [|intros _; by apply absent_ended].
  destruct (running pid s) as [[]|] eqn:Er; cbn; [|congruence..]. by case_bool_decide.
Qed.

Lemma settle_pids_report p pids s :
  p ∈ pids -> running p (settle_pids pids s).2 = Some true -> p ∈ (settle_pids pids s).1.
Proof using Type*.
  revert s. induction pids as [|pid pids IH]; intros s; cbn [settle_pids]; [by intros ?%elem_of_nil|].
  pose proof (settle_pid_ended pid s) as Hended. destruct (settle_pid pid s) as [leaks s1]. cbn in Hended.
  specialize (IH s1). pose proof (settle_pids_keep pid pids s1) as Hkeep.
  destruct (settle_pids pids s1) as [leaked s2]. cbn in *.
  intros [->|Hp]%elem_of_cons Hrun.
  - destruct leaks; [by left|]. exfalso. by apply Hkeep; [apply Hended|].
  - destruct leaks; [right|]; by apply IH.
Qed.

(** No leak goes unreported: a process of the tree that still runs when the
    termination is over is in the report, and the report names processes of the
    tree only, in its order.  Nothing is left when a killed process ends. *)
Theorem leaks_are_reported (parent : Z) (grace : float) s :
  let (leaked, s') := _terminate_tree parent grace s in
  leaked `sublist_of` targets_of parent s
  /\ (forall p, p ∈ targets_of parent s -> running p s' = Some true -> p ∈ leaked)
  /\ ((forall p t s, running p (sleep t (kill p s)) <> Some true) ->
      leaked = [] /\ forall p, p ∈ targets_of parent s -> running p s' <> Some true).
Proof using Type*.
  unfold _terminate_tree. set (pids := targets_of parent s). generalize (sleep (lit 5 100)
    (kill_survivors parent grace pids (terminate_all parent grace pids s))). intros s0.
  pose proof (settle_pids_sublist pids s0) as Hsub.
  pose proof (fun p => settle_pids_report p pids s0) as Hrep.
  assert ((forall p t s, running p (sleep t (kill p s)) <> Some true) -> (settle_pids pids s0).1 = []) as Hnone.
  { intros Hkill. clear Hsub Hrep. revert s0. induction pids as [|pid pids' IH]; intros s0; cbn [settle_pids]; [done|].
    assert ((settle_pid pid s0).1 = false) as Hf.
    { unfold settle_pid. destruct (pid_exists pid s0); [|done]. cbn [negb].
      destruct (running pid s0) as [[]|]; [|done..]. by apply bool_decide_eq_false_2. }
    destruct (settle_pid pid s0) as [leaks s1]. cbn in Hf. subst leaks. specialize (IH s1).
    by destruct (settle_pids pids' s1). }
  destruct (settle_pids pids s0) as [leaked s']. cbn in *. split_and!; [done|done|].
  intros Hkill. specialize (Hnone Hkill). subst leaked. split; [done|]. intros p Hp Hrun.
  by apply (Hrep p Hp), elem_of_nil in Hrun.
Qed.
End Reports.
End Termination.

(** * The workspace *)

(** [execution/process_executor.py:122-133 _dir_size_bytes]: [walk] is what [os.walk]
    lists, a directory at a time, with the size of each file that can be asked. *)
Definition _dir_size_bytes (walk : list (list (option Z))) : Z :=
  foldl (fun total filenames => foldl (fun total size => total + default 0 size) total filenames) 0 walk.

Section Workspace.
Context {S : Type} `{WorkspaceOs S}.
Implicit Types s : S.

(** One removal: a strict one, and one that ignores errors after a failure. *)
Definition remove_once (s : S) : S :=
  let (raised, s) := rmtree false s in
  if raised : bool then snd (rmtree true s) else s.

(** [execution/process_executor.py:537-546 ProcessExecutor._cleanup_workspace], the
    attempts that are left from the given one on. *)
Fixpoint remove_attempts (attempts : nat) (attempt : Z) (s : S) : bool * S :=
  match attempts with
  | O => let s := snd (rmtree true s) in (negb (ws_exists s), s)
  | Datatypes.S attempts =>
      let s := remove_once s in
      if negb (ws_exists s) then (true, s)
      else remove_attempts attempts (attempt + 1) (ws_sleep (fmul (lit 5 100) (of_Z (attempt + 1))) s)
  end.

(** [execution/process_executor.py:532-546 ProcessExecutor._cleanup_workspace] *)
Definition _cleanup_workspace (keep : bool) (s : S) : bool * S :=
  if keep then (false, s)
  else if negb (ws_exists s) then (true, s)
  else remove_attempts 5 0 s.

(** [execution/process_executor.py:449-451 ProcessExecutor.cleanup_only] *)
Definition cleanup_only (s : S) : bool * S := _cleanup_workspace false s.

Lemma remove_attempts_answer n i s : (remove_attempts n i s).1 = negb (ws_exists (remove_attempts n i s).2).
Proof.
  revert i s. induction n as [|n IH]; intros i s; cbn [remove_attempts]; [done|].
  destruct (ws_exists (remove_once s)) eqn:E; cbn [negb]; [apply IH|]. cbn. by rewrite E.
Qed.

(** The removal of a workspace answers whether it is gone; once it is, another
    removal changes nothing; a workspace that is kept is not touched. *)
Theorem cleanup_answers_truth s :
  (cleanup_only s).1 = negb (ws_exists (cleanup_only s).2)
  /\ ((cleanup_only s).1 = true -> cleanup_only (cleanup_only s).2 = (true, (cleanup_only s).2))
  /\ _cleanup_workspace true s = (false, s).
Proof.
  assert ((cleanup_only s).1 = negb (ws_exists (cleanup_only s).2)) as Ha.
  { unfold cleanup_only, _cleanup_workspace. destruct (ws_exists s) eqn:E; cbn [negb];
      [apply remove_attempts_answer|cbn; by rewrite E]. }
  split_and!; [done| |done]. intros Ht. rewrite Ha in Ht.
  unfold cleanup_only at 1, _cleanup_workspace. by rewrite Ht.
Qed.

(** A removal that ignores errors and works is enough: the workspace is gone. *)
Lemma quiet_removal_suffices s :
  (forall s, ws_exists (snd (rmtree true s)) = false) -> (cleanup_only s).1 = true.
Proof.
  intros Hq. unfold cleanup_only, _cleanup_workspace. destruct (ws_exists s); cbn [negb]; [|done].
  generalize 5%nat, 0. intros n. revert s. induction n as [|n IH]; intros s i; cbn [remove_attempts].
  - cbn. by rewrite Hq.
  - by destruct (ws_exists (remove_once s)); cbn [negb].
Qed.
End Workspace.

(** * The result of an execution *)

Section Finish.
Context {S : Type} `{ProcessOs S, WorkspaceOs S}.
Implicit Types s : S.

(** [execution/process_executor.py:350-436 ProcessExecutor.run], what the clean-up does
    and the result it leads to; the other observations of [n] are as given. *)
Definition finish_run (l : ExecutionLimits) (workload : pystr) (sv : StartView) (n : EndView) (e : Ended)
    (m : Monitor) (s : S) : ExecutionResult * S :=
  let (leaked, s) := _terminate_tree (sv_pid sv) (grace_terminate_seconds l) s in
  let s := sleep (lit 15 100) (close_job s) in
  let keep := workspace_retain_on_failure l
              && negb (String.eqb (en_status (reclassify l (nv_exit_code n) e)) "succeeded") in
  let (cleaned, s) := _cleanup_workspace keep s in
  (conclude_run l workload sv
     (mkEndView (nv_out n) (nv_err n) leaked (nv_exit_code n) (nv_rss n) (nv_workspace n) cleaned
        (nv_peak_job_memory n) (nv_wall_ms n) (nv_cleanup_ms n)) e m, s).

(** [execution/process_executor.py:211-232 ProcessExecutor.run], a start that failed:
    the answer of the removal is not looked at. *)
Definition finish_failed_start (workload : pystr) (sv : StartView) (error : pystr) (s : S)
    : ExecutionResult * S :=
  let s := snd (_cleanup_workspace false (close_job s)) in
  (start_failure workload sv error, s).

(** The result of a process that ran reports what the clean-up left: the workspace is
    called clean exactly when it was to be removed and is gone, an execution that
    retains it leaves it as it is, and the leaked processes are those the termination
    reported. *)
Theorem result_reports_cleanup l workload sv n e m s :
  let (r, s') := finish_run l workload sv n e m s in
  let ended := sleep (lit 15 100) (close_job (_terminate_tree (sv_pid sv) (grace_terminate_seconds l) s).2) in
  let keep := workspace_retain_on_failure l
              && negb (String.eqb (en_status (reclassify l (nv_exit_code n) e)) "succeeded") in
  xr_workspace_cleaned r = negb keep && negb (ws_exists s')
  /\ (keep = true -> s' = ended)
  /\ xr_leaked_pids_after_cleanup r = (_terminate_tree (sv_pid sv) (grace_terminate_seconds l) s).1.
Proof.
  unfold finish_run. destruct (_terminate_tree _ _ s) as [leaked s1]. cbn [snd fst].
  set (keep := workspace_retain_on_failure l && _). set (s2 := sleep _ _).
  pose proof (cleanup_answers_truth s2) as (Ha & _ & Hk).
  destruct keep eqn:Ek.
  - rewrite Hk. unfold conclude_run. cbn. fold keep. by rewrite Ek.
  - unfold cleanup_only in Ha. destruct (_cleanup_workspace false s2) as [cleaned s3]. cbn in Ha.
    unfold conclude_run. cbn. fold keep. by rewrite Ek.
Qed.
End Finish.

(** * A small system *)

Module ProcessSample.
(** Processes with their descendants, where some cannot be killed; a workspace that
    may be held open. *)
Record Host := mkHost {
  ho_procs : gmap Z (list Z * bool);
  ho_workspace : bool;
  ho_held : bool;
}.

Definition end_process (p : Z) (h : Host) : Host :=
  match ho_procs h !! p with
  | Some (_, true) => h
  | _ => mkHost (delete p (ho_procs h)) (ho_workspace h) (ho_held h)
  end.
Definition alive (p : Z) (h : Host) : bool := bool_decide (is_Some (ho_procs h !! p)).

#[export] Instance host_processes : ProcessOs Host := {
  is_nt := false;
  children p h := fst <$> ho_procs h !! p;
  memory_info_rss p h := (fun _ => 1048576) <$> ho_procs h !! p;
  terminate _ h := h;
  taskkill _ _ h := h;
  wait_procs l _ h := (List.filter (fun p => alive p h) l, h);
  kill := end_process;
  proc_wait _ h := (true, h);
  pid_exists := alive;
  running p h := Some (alive p h);
  close_job h := h;
  sleep _ h := h;
}.
#[export] Instance host_workspace : WorkspaceOs Host := {
  ws_exists := ho_workspace;
  rmtree _ h := (ho_held h, mkHost (ho_procs h) (ho_held h && ho_workspace h) (ho_held h));
  ws_sleep _ h := h;
}.

#[export] Instance host_ended : EndedStaysEnded (S := Host).
Proof.
  split; cbn.
  - intros p q h Hp Hr. apply Hp. injection Hr as Hr%bool_decide_eq_true. f_equal.
    apply bool_decide_eq_true_2. unfold end_process in Hr.
    destruct (ho_procs h !! q) as [[l []]|]; [done|..]; cbn in Hr; by apply lookup_delete_is_Some in Hr as [_ ?].
  - done.
  - intros p h -> [=].
Qed.

(** Process 7 with the descendants 8 and 9, of which 9 cannot be killed. *)
Definition tree : gmap Z (list Z * bool) :=
  <[7 := ([8; 9], false)]> (<[8 := ([], false)]> {[9 := ([], true)]}).
Definition host (held : bool) : Host := mkHost tree true held.

Example stubborn_process_leaks : (_terminate_tree 7 (of_Z 1) (host false)).1 = [9].
Proof. vm_compute. reflexivity. Qed.

Example tree_memory : _tree_rss_mb 7 (host false) = Some (of_Z 3) /\ _tree_rss_mb 6 (host false) = None.
Proof. split; vm_compute; reflexivity. Qed.

Example held_workspace_stays : (cleanup_only (host true)).1 = false /\ (cleanup_only (host false)).1 = true.
Proof. split; vm_compute; reflexivity. Qed.

(** An execution that could not start reports a clean workspace, whatever became of it. *)
Example failed_start_claims_clean (sv : StartView) (error : pystr) :
  let (r, h) := finish_failed_start (py "LIGHT") sv error (host true) in
  xr_workspace_cleaned r = true /\ ws_exists h = true.
Proof. split; vm_compute; reflexivity. Qed.
End ProcessSample.
Import ProcessSample.

Lemma leaks_are_reported_witness :
  let (leaked, s') := _terminate_tree 7 (of_Z 1) (ProcessSample.host false) in
  running 9 s' = Some true /\ 9 ∈ leaked /\ leaked `sublist_of` targets_of 7 (ProcessSample.host false).
Proof.
  pose proof (leaks_are_reported 7 (of_Z 1) (ProcessSample.host false)) as Hl.
  assert (running 9 (_terminate_tree 7 (of_Z 1) (ProcessSample.host false)).2 = Some true) as Hr
    by (vm_compute; reflexivity).
  assert (9 ∈ targets_of 7 (ProcessSample.host false)) as Ht by decide_closed.
  destruct (_terminate_tree 7 _ _) as [leaked s']. destruct Hl as (Hs & Hin & _).
  exact (conj Hr (conj (Hin 9 Ht Hr) Hs)).
Defined.
