(* ===== verification/Workloads.v ===== *)
(** The trusted corpus (src/challengeforge/execution/workloads.py): what each
    synthetic workload writes and returns, on every branch.

    The program runs in the child process.  What the operating system answers to
    it is the record [Host]; its state is the two streams it writes and the bytes
    it leaves in the workspace.  An uncaught exception is raised with its traceback
    as text.  Sleeping, and the contents of buffers that are never read, leave no
    trace. *)
From Stdlib Require Import ZArith NArith Lia String.
From stdpp Require Import prelude strings gmap.
From S2P Require Import Prelude PyFloat PyStr Domain Json ExecutionContract.

(** * The host of a workload *)

(** What reading the forbidden file gives: the characters read, an [OSError] by its
    name and number, or any other exception, which is not caught. *)
Inductive ReadAnswer :=
| Read (n : Z)
| ReadOSError (name : pystr) (errno : option Z)
| ReadCrash (traceback : list Z).

(** What the connection to a closed local port gives. *)
Inductive ConnectAnswer := Connected | Refused | ConnectOSError (name : pystr).

Record Host := mkHost {
  h_windows : bool;
  h_environ : environ;
  h_pid : Z;
  h_big_buffer : option (list Z);
  h_grow : nat -> bool;
  h_child : option (list Z);
  h_spawn : nat -> Z + option Z * list Z;
  h_path : pystr -> string -> list Z;
  h_mkdir : string -> option (list Z);
  h_write : nat -> option (list Z);
  h_cwd : pystr;
  h_forbidden : pystr -> ReadAnswer;
  h_parent : pystr -> pystr + Z;
  h_connect : ConnectAnswer;
  h_resolve : option pystr;
  h_import : option pystr;
}.

(** The streams, latest write first, and the bytes left in the workspace. *)
Record Streams := mkStreams {
  st_out : list (list Z);
  st_err : list (list Z);
  st_disk : Z;
}.
#[export] Instance Streams_eta : Eta Streams := fun s =>
  mkStreams (st_out s) (st_err s) (st_disk s).

Definition no_streams : Streams := mkStreams [] [] 0.

(** A workload in progress; what it raises is a traceback. *)
Definition W : Type -> Type := M (list Z) Streams.

Definition write_out (b : list Z) : W unit := modify_st (fun s => s <| st_out := b :: st_out s |>).
Definition write_err (b : list Z) : W unit := modify_st (fun s => s <| st_err := b :: st_err s |>).
Definition store (n : Z) : W unit := modify_st (fun s => s <| st_disk := st_disk s + n |>).

(** A call that fails with the given traceback. *)
Definition may_fail (fault : option (list Z)) : W unit :=
  match fault with Some traceback => raise traceback | None => mret tt end.

(** [for i in range(n)], on one variable. *)
Definition for_range {A} (n : N) (body : Z -> A -> A) (a : A) : A :=
  snd (N.iter n (fun p => (p.1 + 1, body p.1 p.2)) (0, a)).

(** * Numbers from the environment *)

(** The value of a decimal digit. *)
Definition digit_value (c : Z) : option Z :=
  (fun z => c - z) <$> List.find (fun z => (z <=? c) && (c <=? z + 9)) digit_zeros.

(** The digits of [int(text)], single underscores between them; [need] says that
    a digit must come next. *)
Fixpoint decimal (need : bool) (acc : Z) (s : pystr) : option Z :=
  match s with
  | [] => if need then None else Some acc
  | c :: s' =>
      if c =? 95 then (if need then None else decimal true acc s')
      else match digit_value c with
           | Some d => decimal false (10 * acc + d) s'
           | None => None
           end
  end.

(** [int(text)]; [None] is [ValueError], more than 4300 digits included. *)
Definition int_of_text (s : pystr) : option Z :=
  let s := strip s in
  let negative := startswith s (py "-") in
  let s := if negative || startswith s (py "+") then drop 1 s else s in
  if 4300 <? zlen (List.filter is_digit s) then None
  else (fun z => if negative then - z else z) <$> decimal true 0 s.

Example int_of_text_ex :
  int_of_text <$> [py " 20 "; py "-1_0"; py "+7"; py "_1"; py "1__0"; py ""; [1633; 50]]
  = [Some 20; Some (-10); Some 7; None; None; None; Some 12].
Proof. vm_compute. reflexivity. Qed.

Section Workloads.
Context `{FloatRepr}.
(** The traceback of a number that does not parse. *)
Variable value_error : pystr -> list Z.
Variable h : Host.

Definition linesep : list Z := if h_windows h then [13; 10] else [10].

(** [print(text, flush=True)] of text in ASCII. *)
Definition print_line (t : list Z) : W unit := write_out (t ++ linesep).
Definition print_err (t : list Z) : W unit := write_err (t ++ linesep).

(** [int(os.environ.get(key, default))] *)
Definition int_env (key : string) (d : Z) : W Z :=
  match h_environ h !! py key with
  | None => mret d
  | Some t => match int_of_text t with Some z => mret z | None => raise (value_error t) end
  end.

(** * The workloads

    Each returns its exit status, [None] when it never returns. *)

(** [execution/workloads.py:34-36 _light] *)
Definition light_checksum : Z := for_range 50000 (fun i x => Z.lxor x (i * i)) 0.

(** [execution/workloads.py:33-38 _light] *)
Definition light : W (option Z) :=
  print_line (py "light_ok checksum=" ++ int_str light_checksum) ;; mret (Some 0).

(** [execution/workloads.py:42-44 _cpu_heavy], after [n] turns. *)
Definition cpu_checksum (n : N) : Z :=
  for_range n (fun i x => Z.land (x + i * i) 0xFFFFFFFF) 0.

(** [execution/workloads.py:41-46 _cpu_heavy] *)
Definition cpu_heavy : W (option Z) :=
  print_line (py "cpu_heavy_ok checksum=" ++ int_str (cpu_checksum 3000000)) ;; mret (Some 0).

(** [execution/workloads.py:49-56 _memory_heavy] *)
Definition memory_heavy : W (option Z) :=
  let size := 32 * 1024 * 1024 in
  may_fail (h_big_buffer h) ;;
  print_line (py "memory_heavy_ok bytes=" ++ int_str size) ;;
  mret (Some 0).

(** [execution/workloads.py:63-75 _memory_grow], the steps left; [n] chunks are held. *)
Fixpoint grow_steps (todo n : nat) : W (option Z) :=
  match todo with
  | O => print_line (py "memory_grow_done chunks=" ++ int_str (Z.of_nat n)) ;; mret (Some 0)
  | S todo =>
      if h_grow h n then
        print_line (py "memory_grow step=" ++ int_str (Z.of_nat n) ++ py " total_mb="
                    ++ int_str ((Z.of_nat n + 1) * 4)) ;;
        grow_steps todo (S n)
      else print_line (py "cf_memory_limit") ;; mret (Some 76)
  end.

(** [execution/workloads.py:59-75 _memory_grow] *)
Definition memory_grow : W (option Z) := grow_steps 64 0.

(** [execution/workloads.py:78-81 _sleep] *)
Definition sleep : W (option Z) := print_line (py "sleep_ok") ;; mret (Some 0).

(** [execution/workloads.py:84-89 _large_output] *)
Definition large_output : W (option Z) :=
  let chunk := replicate 1024 120 in
  modify_st (for_range 10000 (fun _ s => s <| st_out := chunk :: st_out s |>)) ;;
  mret (Some 0).

(** [execution/workloads.py:92-115 _child_process]; [Popen] or [fork] may fail. *)
Definition child_process : W (option Z) :=
  may_fail (h_child h) ;;
  print_line (py "child_spawned parent=" ++ int_str (h_pid h)) ;;
  mret (Some 0).

(** [execution/workloads.py:125-148 _process_heavy], the children left to start. *)
Fixpoint spawn_children (todo i : nat) (spawned : Z) : W (option Z) :=
  match todo with
  | O => print_line (py "process_heavy_ok spawned=" ++ int_str spawned) ;; mret (Some 0)
  | S todo =>
      match h_spawn h i with
      | inl pid =>
          print_line (py "spawned " ++ int_str (Z.of_nat i) ++ py " pid=" ++ int_str pid) ;;
          spawn_children todo (S i) (spawned + 1)
      | inr (win, err) =>
          print_line (py "cf_process_limit spawned=" ++ int_str spawned ++ py " winerror="
                      ++ match win with Some w => int_str w | None => py "None" end
                      ++ py " err=" ++ err) ;;
          mret (Some 75)
      end
  end.

(** [execution/workloads.py:118-148 _process_heavy] *)
Definition process_heavy : W (option Z) :=
  target ← int_env "CF_PROCESS_HEAVY_N" 20;
  spawn_children (Z.to_nat target) 0 0.

(** [execution/workloads.py:151-153 _timeout] *)
Definition timeout : W (option Z) := mret None.

(** [Path(os.environ.get("CF_WORKSPACE", "."))], as text. *)
Definition workspace_env : pystr := default (py ".") (h_environ h !! py "CF_WORKSPACE").

(** [for i in range(50): (d / f"f{i}.txt").write_text("x" * 64)], the files left. *)
Fixpoint write_texts (todo i : nat) : W unit :=
  match todo with
  | O => mret tt
  | S todo => may_fail (h_write h i) ;; store 64 ;; write_texts todo (S i)
  end.

(** [execution/workloads.py:156-163 _many_files] *)
Definition many_files : W (option Z) :=
  may_fail (h_mkdir h "many") ;;
  write_texts 50 0 ;;
  print_line (py "many_files_ok n=50 dir=" ++ h_path h workspace_env "many") ;;
  mret (Some 0).

Definition mib : Z := 1024 * 1024.

(** [execution/workloads.py:175-185 _disk_heavy], the loop with fuel; [None] when the
    fuel runs out. *)
Fixpoint write_blobs (fuel : nat) (target_mb written : Z) (n : nat) : W (option Z) :=
  if written <? target_mb * mib then
    match fuel with
    | O => mret None
    | S fuel =>
        may_fail (h_write h n) ;;
        store (16 * (64 * 1024)) ;;
        let written := written + 16 * (64 * 1024) in
        print_line (py "disk_heavy written_mb=" ++ int_str (written / mib) ++ py " files="
                    ++ int_str (Z.of_nat (S n))) ;;
        write_blobs fuel target_mb written (S n)
    end
  else print_line (py "disk_heavy_ok bytes=" ++ int_str written) ;; mret (Some 0).

(** [execution/workloads.py:166-185 _disk_heavy]; a file holds one mebibyte, so the
    loop takes as many turns as the target has mebibytes. *)
Definition disk_heavy : W (option Z) :=
  may_fail (h_mkdir h "disk") ;;
  target_mb ← int_env "CF_DISK_HEAVY_MB" 8;
  write_blobs (Z.to_nat target_mb) target_mb 0 0.

(** [execution/workloads.py:188-190 _failure] *)
Definition failure : W (option Z) := print_err (py "failure_expected") ;; mret (Some 7).

(** [bool(os.environ.get(key))] *)
Definition env_truthy (key : string) : bool :=
  match h_environ h !! py key with Some v => nonempty v | None => false end.

Definition env_has (key : string) : bool := bool_decide (is_Some (h_environ h !! py key)).

(** [execution/workloads.py:198-208 _boundary_probe], what the environment shows. *)
Definition environment_report : dict :=
  [(py "cwd", JStr (h_cwd h));
   (py "pid", JInt (h_pid h));
   (py "env_key_count", JInt (Z.of_nat (size (h_environ h))));
   (py "has_database_url", JBool (env_has "DATABASE_URL"));
   (py "has_aws_secret", JBool (env_has "AWS_SECRET_ACCESS_KEY"));
   (py "has_pythonpath", JBool (env_has "PYTHONPATH"));
   (py "pythonpath_set", JBool (env_truthy "PYTHONPATH"));
   (py "workspace", json_opt JStr (h_environ h !! py "CF_WORKSPACE"));
   (py "attempt_id_set", JBool (env_truthy "CF_EXECUTION_ATTEMPT_ID"))].

(** [report[key] = value], in turn. *)
Definition dset_all (d : dict) (l : dict) : dict := foldl (fun d kv => dset d kv.1 kv.2) d l.

(** [execution/workloads.py:210-221 _boundary_probe], the forbidden file. *)
Definition probe_forbidden (report : dict) : W dict :=
  let forbidden := default [] (h_environ h !! py "CF_FORBIDDEN_PROBE") in
  let report := dset_all report
    [(py "forbidden_probe_configured", JBool (nonempty forbidden));
     (py "forbidden_readable", JBool false); (py "forbidden_error", JNull)] in
  if nonempty forbidden then
    match h_forbidden h forbidden with
    | Read n => mret (dset_all report [(py "forbidden_readable", JBool true);
                                       (py "forbidden_len", JInt n)])
    | ReadOSError name errno =>
        mret (dset report (py "forbidden_error")
                (JStr (name ++ py ":" ++ match errno with Some e => int_str e | None => py "None" end)))
    | ReadCrash traceback => raise traceback
    end
  else mret report.

(** [execution/workloads.py:223-231 _boundary_probe], the parent of the workspace. *)
Definition probe_parent (report : dict) : dict :=
  let ws := match h_environ h !! py "CF_WORKSPACE" with
            | Some w => if nonempty w then w else py "."
            | None => py "."
            end in
  let report := dset report (py "parent_listable") (JBool false) in
  match h_parent h ws with
  | inr n => dset_all report [(py "parent_listable", JBool true); (py "parent_entry_count", JInt n)]
  | inl name => dset report (py "parent_list_error") (JStr name)
  end.

(** [execution/workloads.py:233-257 _boundary_probe], the network. *)
Definition probe_network (report : dict) : dict :=
  let report := dset_all report [(py "loopback_socket_attempted", JBool true);
                                 (py "loopback_reachable_stack", JBool false)] in
  let reachable k := [(py "loopback_reachable_stack", JBool true); (py "loopback_connected", JBool k)] in
  let report := dset_all report
    match h_connect h with
    | Connected => reachable true
    | Refused => reachable false
    | ConnectOSError name => [(py "loopback_error", JStr name)]
    end in
  let report := dset_all report [(py "dns_resolve_attempted", JBool true); (py "dns_resolved", JBool false)] in
  let report := match h_resolve h with
                | None => dset report (py "dns_resolved") (JBool true)
                | Some name => dset report (py "dns_error") (JStr name)
                end in
  dset report (py "network_stack_usable")
    (JBool (truthy (dget_null report (py "loopback_reachable_stack"))
            || truthy (dget_null report (py "dns_resolved")))).

(** [execution/workloads.py:258-265 _boundary_probe], the import of the platform. *)
Definition probe_import (report : dict) : dict :=
  let report := dset report (py "can_import_challengeforge") (JBool false) in
  match h_import h with
  | None => dset report (py "can_import_challengeforge") (JBool true)
  | Some name => dset report (py "import_error") (JStr name)
  end.

(** [execution/workloads.py:193-268 _boundary_probe] *)
Definition boundary_probe : W (option Z) :=
  report ← probe_forbidden environment_report;
  let report := probe_import (probe_network (probe_parent report)) in
  print_line (py "cf_boundary_probe " ++ dumps_spaced true false (JObj report)) ;;
  mret (Some 0).

(** [execution/workloads.py:271-285 HANDLERS] *)
Definition HANDLERS : list (pystr * W (option Z)) :=
  (fun kv => (py kv.1, kv.2)) <$>
  [("LIGHT", light); ("CPU_HEAVY", cpu_heavy); ("MEMORY_HEAVY", memory_heavy);
   ("MEMORY_GROW", memory_grow); ("SLEEP", sleep); ("LARGE_OUTPUT", large_output);
   ("CHILD_PROCESS", child_process); ("PROCESS_HEAVY", process_heavy); ("TIMEOUT", timeout);
   ("MANY_FILES", many_files); ("DISK_HEAVY", disk_heavy); ("FAILURE", failure);
   ("BOUNDARY_PROBE", boundary_probe)]%string.

(** [execution/workloads.py:288-296 main], on the arguments of the command. *)
Definition main (args : list pystr) : W (option Z) :=
  let usage := print_err (py "usage: workloads NAME; known=" ++ join (py ",") WORKLOAD_NAMES) ;;
               mret (Some 2) in
  match args with
  | [] => usage
  | name :: _ => match assoc HANDLERS name with Some handler => handler | None => usage end
  end.

(** What the process shows: two streams and an exit status, or two streams and no
    end. *)
Inductive Behaviour :=
| Returns (out err : list Z) (code : Z)
| Forever (out err : list Z).

Definition bytes_of (writes : list (list Z)) : list Z := mjoin (reverse writes).

(** [execution/workloads.py:299-300 main]: [raise SystemExit(main())]; the interpreter
    writes a traceback to the error stream and exits with status one. *)
Definition behaviour (args : list pystr) : Behaviour :=
  match main args no_streams with
  | (Ok (Some code), s) => Returns (bytes_of (st_out s)) (bytes_of (st_err s)) code
  | (Ok None, s) => Forever (bytes_of (st_out s)) (bytes_of (st_err s))
  | (Raise traceback, s) => Returns (bytes_of (st_out s)) (bytes_of (st_err s) ++ traceback) 1
  end.
End Workloads.
