(* ===== verification/WorkloadsSpec.v ===== *)
(** The trusted corpus under the executor: the checksums, the loops that end, and
    the outcome of every workload the contract declares. *)
From Stdlib Require Import ZArith NArith Lia String.
From stdpp Require Import prelude strings gmap.
From S2P Require Import Prelude PyFloat PyStr Domain Json Utf8 ExecutionContract Executor ExecutorSpec Workloads.

(** * Ranges *)

Lemma for_range_index {A} n (body : Z -> A -> A) (a : A) :
  (N.iter n (fun p => (p.1 + 1, body p.1 p.2)) (0, a)).1 = Z.of_N n.
Proof. induction n as [|n IH] using N.peano_ind; [done|]. rewrite N.iter_succ. cbn. lia. Qed.

Lemma for_range_succ {A} n (body : Z -> A -> A) (a : A) :
  for_range (N.succ n) body a = body (Z.of_N n) (for_range n body a).
Proof. unfold for_range. rewrite N.iter_succ. cbn. by rewrite for_range_index. Qed.

(** Six times the sum of the first squares. *)
Lemma squares_divide n : exists k, n * (n - 1) * (2 * n - 1) = 6 * k.
Proof.
  enough ((n * (n - 1) * (2 * n - 1)) mod 6 = 0) as Hm.
  { apply Z.mod_divide in Hm as [k Hk]; [|done]. exists k. lia. }
  rewrite Z.mul_mod, (Z.mul_mod n), (Zminus_mod n), (Zminus_mod (2 * n)), (Z.mul_mod 2) by done.
  pose proof (Z.mod_pos_bound n 6 ltac:(lia)) as Hb.
  assert (n mod 6 = 0 \/ n mod 6 = 1 \/ n mod 6 = 2 \/ n mod 6 = 3 \/ n mod 6 = 4 \/ n mod 6 = 5) as Hc by lia.
  by destruct Hc as [->|[->|[->|[->|[->| ->]]]]].
Qed.

(** The checksum of the CPU workload, kept in 32 bits in each of its three million
    turns, is the sum of the squares modulo [2 ^ 32]. *)
Theorem cpu_checksum_closed (n : N) :
  let m := Z.of_N n in cpu_checksum n = (m * (m - 1) * (2 * m - 1) / 6) mod 2 ^ 32.
Proof.
  unfold cpu_checksum. induction n as [|n IH] using N.peano_ind; [done|].
  rewrite for_range_succ, IH. change 0xFFFFFFFF with (Z.ones 32). rewrite Z.land_ones by lia.
  rewrite Zplus_mod_idemp_l. f_equal. set (m := Z.of_N n). rewrite N2Z.inj_succ. fold m.
  destruct (squares_divide m) as [k Hk]. rewrite Hk, Z.mul_comm, Z.div_mul by done.
  replace (Z.succ m * (Z.succ m - 1) * (2 * Z.succ m - 1)) with ((k + m * m) * 6) by nia.
  by rewrite Z.div_mul.
Qed.

(** * Texts without a limit signal *)

Lemma contains_elem s p c : contains s p = true -> c ∈ p -> c ∈ s.
Proof.
  intros Hs Hc. induction s as [|d s IH]; cbn [contains] in Hs; apply orb_true_iff in Hs as [Hp|Hs];
    try done; try (apply startswith_prefix in Hp as [t Ht]; rewrite Ht; set_solver).
  right. by apply IH.
Qed.

(** A text starts at none of the characters before its first one. *)
Lemma contains_skip c a b p : head p = Some c -> c ∉ a -> contains (a ++ b) p = contains b p.
Proof.
  destruct p as [|c' p]; intros [= ->] Hc. induction a as [|d a IH]; [done|]. cbn [contains app startswith].
  rewrite (proj2 (Z.eqb_neq c d)) by set_solver. apply IH. set_solver.
Qed.

Lemma startswith_contains a p b : contains (a ++ p ++ b) p = true.
Proof.
  induction a as [|d a IH]; cbn [app].
  - destruct (p ++ b) eqn:E; cbn [contains]; rewrite <-E, startswith_app; done.
  - cbn [contains]. rewrite IH. apply orb_true_r.
Qed.

(** The text is ASCII and without [c]. *)
Definition plain (c : Z) (t : list Z) : bool :=
  forallb (fun b => (0 <=? b) && (b <? 128) && negb (b =? c)) t.

Lemma plain_app c a b : plain c (a ++ b) = plain c a && plain c b.
Proof. unfold plain. apply List.forallb_app. Qed.

Lemma plain_not_in c t : plain c t = true -> c ∉ t.
Proof.
  unfold plain. rewrite forallb_forall. intros Ht Hc. apply list_elem_of_In in Hc.
  specialize (Ht c Hc). by rewrite Z.eqb_refl, andb_false_r in Ht.
Qed.

Lemma plain_ascii c t : plain c t = true -> Forall ascii t.
Proof.
  unfold plain. rewrite forallb_forall, Forall_forall. intros Ht b Hb. apply list_elem_of_In in Hb.
  specialize (Ht b Hb). unfold ascii. zify_bool. lia.
Qed.

Lemma plain_mjoin c ls : forallb (plain c) ls = true -> plain c (mjoin ls) = true.
Proof.
  induction ls as [|l ls IH]; [done|]. cbn. intros [Hl Hls]%andb_true_iff.
  change (plain c (l ++ mjoin ls) = true). by rewrite plain_app, Hl, IH.
Qed.

Lemma decode_replace_app t u : Forall ascii t -> decode_replace (t ++ u) = t ++ decode_replace u.
Proof.
  unfold decode_replace. induction 1 as [|b t Hb Ht IH]; [done|].
  cbn [length decode_replace_loop app]. unfold utf8_first. unfold ascii in Hb.
  rewrite (proj2 (Z.ltb_lt b 128)), (proj2 (Z.leb_le 0 b)) by lia. cbn. by rewrite IH.
Qed.

Lemma decode_replace_ascii t : Forall ascii t -> decode_replace t = t.
Proof.
  intros Ht. pose proof (decode_replace_app t [] Ht) as Hd. by rewrite !app_nil_r in Hd.
Qed.

Lemma plain_one c d : 0 <= d < 128 -> d <> c -> plain c [d] = true.
Proof. intros Hd Hc. cbn. zify_bool. lia. Qed.

Lemma dec_digits_plain c fuel v :
  0 <= v -> (c <? 48) || (57 <? c) = true -> plain c (dec_digits fuel v) = true.
Proof.
  intros Hv Hc. revert v Hv. induction fuel as [|f IH]; intros v Hv; [done|]. cbn [dec_digits].
  rewrite plain_app. apply andb_true_iff. split.
  - destruct (v <? 10); [done|]. apply IH. apply Z.div_pos; lia.
  - pose proof (Z.mod_pos_bound v 10 ltac:(lia)). zify_bool. apply plain_one; lia.
Qed.

Lemma int_str_plain c z : (c <? 45) || (57 <? c) = true -> plain c (int_str z) = true.
Proof.
  intros Hc. unfold int_str. rewrite plain_app. apply andb_true_iff. split.
  - destruct (z <? 0); [|done]. change (py "-") with [45]. zify_bool. apply plain_one; lia.
  - apply dec_digits_plain; [lia|]. zify_bool. lia.
Qed.

(** * What the workloads write *)

Lemma run_W {A B} (c : W A) (k : A -> W B) (s : Streams) :
  (c ≫= k) s = match c s with (Ok a, s') => k a s' | (Raise e, s') => (Raise e, s') end.
Proof. reflexivity. Qed.

Section Corpus.
Context `{FloatRepr}.
Variable value_error : pystr -> list Z.
Variable h : Host.

(** A variable that is unset or reads as a number. *)
Definition numeric (key : string) : Prop :=
  forall t, h_environ h !! py key = Some t -> is_Some (int_of_text t).

(** A host that refuses nothing. *)
Record generous : Prop := {
  gh_buffer : h_big_buffer h = None;
  gh_grow : forall n, h_grow h n = true;
  gh_child : h_child h = None;
  gh_spawn : forall i, exists pid, h_spawn h i = inl pid;
  gh_mkdir : forall d, h_mkdir h d = None;
  gh_write : forall n, h_write h n = None;
  gh_forbidden : forall p, match h_forbidden h p with ReadCrash _ => False | _ => True end;
  gh_processes : numeric "CF_PROCESS_HEAVY_N";
  gh_megabytes : numeric "CF_DISK_HEAVY_MB";
}.

(** Everything written so far is ASCII without [c], on the standard output. *)
Definition quiet (c : Z) (s : Streams) : Prop := forallb (plain c) (st_out s) = true /\ st_err s = [].

(** The workload returns [code] and has written quietly. *)
Definition returns (c : Z) (code : Z) (w : W (option Z)) : Prop :=
  triple (quiet c) w (fun r s => r = Some code /\ quiet c s) (fun _ _ => False).

(** A letter no number and no line break holds. *)
Definition letter (c : Z) : Prop := 57 < c.

Lemma print_quiet c t :
  letter c -> plain c t = true ->
  triple (quiet c) (print_line h t) (fun _ => quiet c) (fun _ _ => False).
Proof.
  intros Hc Ht. apply triple_modify. intros s [Ho He]. split; [|done]. cbn. rewrite Ho, andb_true_r.
  rewrite plain_app, Ht. unfold linesep, letter in *.
  destruct (h_windows h); cbn [andb].
  - change [13; 10] with ([13] ++ [10]). rewrite plain_app, !plain_one by lia. done.
  - apply plain_one; lia.
Qed.

Lemma numbers_plain c z : letter c -> plain c (int_str z) = true.
Proof. intros Hc. apply int_str_plain. unfold letter in Hc. zify_bool. lia. Qed.

Lemma print_and_return c t code :
  letter c -> plain c t = true -> returns c code (print_line h t ;; mret (Some code)).
Proof.
  intros Hc Ht. eapply triple_seq; [by apply print_quiet|]. by apply triple_ret.
Qed.

Lemma no_fault_then {A} c fault (k : W A) Q :
  fault = None -> triple (quiet c) k Q (fun _ _ => False) ->
  triple (quiet c) (may_fail fault ;; k) Q (fun _ _ => False).
Proof. intros -> Hk. exact Hk. Qed.

Lemma print_then {A} c t (k : W A) Q :
  letter c -> plain c t = true -> triple (quiet c) k Q (fun _ _ => False) ->
  triple (quiet c) (print_line h t ;; k) Q (fun _ _ => False).
Proof. intros Hc Ht Hk. eapply triple_seq; [by apply print_quiet|done]. Qed.

Lemma int_env_then {A} c key d (k : Z -> W A) Q :
  numeric key -> (forall z, triple (quiet c) (k z) Q (fun _ _ => False)) ->
  triple (quiet c) (int_env value_error h key d ≫= k) Q (fun _ _ => False).
Proof.
  intros Hn Hk. unfold int_env. destruct (h_environ h !! py key) as [t|] eqn:E; [|apply Hk].
  destruct (Hn t E) as [z ->]. apply Hk.
Qed.

(** A text made of literals and numbers. *)
Ltac plain_text :=
  rewrite ?plain_app, ?numbers_plain by (unfold letter; lia); vm_compute; reflexivity.

Lemma grow_returns todo n : (forall i, h_grow h i = true) -> returns 102 0 (grow_steps h todo n).
Proof.
  intros Hg. revert n. induction todo as [|todo IH]; intros n; cbn [grow_steps].
  - apply print_and_return; [done|plain_text].
  - rewrite Hg. apply print_then; [done|plain_text|apply IH].
Qed.

Lemma spawn_returns todo i k :
  (forall i, exists pid, h_spawn h i = inl pid) -> returns 102 0 (spawn_children h todo i k).
Proof.
  intros Hs. revert i k. induction todo as [|todo IH]; intros i k; cbn [spawn_children].
  - apply print_and_return; [done|plain_text].
  - destruct (Hs i) as [pid ->]. apply print_then; [done|plain_text|apply IH].
Qed.

Lemma store_quiet c n : triple (quiet c) (store n) (fun _ => quiet c) (fun _ _ => False).
Proof. apply triple_modify. done. Qed.

(** The loop of [DISK_HEAVY] ends: its fuel is the mebibytes that are missing. *)
Lemma blobs_return fuel target n :
  (forall i, h_write h i = None) -> target <= Z.of_nat n + Z.of_nat fuel ->
  returns 99 0 (write_blobs h fuel target (Z.of_nat n * mib) n).
Proof.
  intros Hw. revert n. induction fuel as [|fuel IH]; intros n Hf; cbn [write_blobs].
  - replace (Z.of_nat n * mib <? target * mib) with false
      by (symmetry; apply Z.ltb_ge; unfold mib; lia).
    apply print_and_return; [done|plain_text].
  - destruct (_ <? _); [|apply print_and_return; [done|plain_text]].
    apply no_fault_then; [apply Hw|]. eapply triple_seq; [apply store_quiet|].
    apply print_then; [done|plain_text|].
    replace (Z.of_nat n * mib + 16 * (64 * 1024)) with (Z.of_nat (S n) * mib)
      by (unfold mib; lia).
    apply IH. lia.
Qed.

(** The workloads that end in success on a generous host and print no path, each
    with a letter it never writes. *)
Definition silent_letter : list (pystr * Z) :=
  (fun kv => (py kv.1, kv.2)) <$>
  [("LIGHT", 102); ("CPU_HEAVY", 102); ("MEMORY_HEAVY", 102); ("MEMORY_GROW", 102); ("SLEEP", 102);
   ("CHILD_PROCESS", 102); ("PROCESS_HEAVY", 102); ("DISK_HEAVY", 99)]%string.

Lemma silent_returns w c :
  generous -> (w, c) ∈ silent_letter ->
  exists handler, assoc (HANDLERS value_error h) w = Some handler /\ returns c 0 handler.
Proof.
  intros Hg Hw. apply list_elem_of_fmap in Hw as ([name c'] & [= -> ->] & Hin).
  repeat (apply elem_of_cons in Hin as [[= -> ->]|Hin];
          [eexists; split; [reflexivity|]|]); [..|by apply not_elem_of_nil in Hin].
  - apply print_and_return; [done|plain_text].
  - apply print_and_return; [done|plain_text].
  - apply no_fault_then; [apply Hg|]. apply print_and_return; [done|plain_text].
  - apply grow_returns, Hg.
  - apply print_and_return; [done|plain_text].
  - apply no_fault_then; [apply Hg|]. apply print_and_return; [done|plain_text].
  - apply int_env_then; [apply Hg|]. intros z. apply spawn_returns, Hg.
  - apply no_fault_then; [apply Hg|]. apply int_env_then; [apply Hg|]. intros z.
    apply (blobs_return _ z 0); [apply Hg|]. lia.
Qed.

(** The host refuses the child number [i + n], the first one refused. *)
Lemma spawn_refused n todo i k s win err :
  quiet 102 s -> (n < todo)%nat ->
  (forall j, (j < n)%nat -> exists pid, h_spawn h (i + j) = inl pid) ->
  h_spawn h (i + n) = inr (win, err) ->
  exists s' rest earlier, spawn_children h todo i k s = (Ok (Some 75), s')
  /\ st_out s' = (py "cf_process_limit" ++ rest) :: earlier /\ forallb (plain 102) earlier = true
  /\ st_err s' = [].
Proof.
  revert todo i k s. induction n as [|n IH]; intros [|todo] i k s Hs Hn Hok Hno; try lia; cbn [spawn_children].
  - rewrite Nat.add_0_r in Hno. rewrite Hno. rewrite run_W. cbn [print_line write_out modify_st mret M_ret].
    eexists _, _, _. split; [reflexivity|]. cbn. rewrite <-app_assoc. cbn. split; [reflexivity|]. apply Hs.
  - destruct (Hok 0%nat ltac:(lia)) as [pid Hpid]. rewrite Nat.add_0_r in Hpid. rewrite Hpid. rewrite run_W.
    pose proof (print_quiet 102 (py "spawned " ++ int_str (Z.of_nat i) ++ py " pid=" ++ int_str pid)
                  ltac:(done) ltac:(plain_text) s Hs) as Hp.
    cbn [print_line write_out modify_st] in *.
    apply IH; [exact Hp|lia| |]; [|by rewrite Nat.add_succ_comm].
    intros j Hj. rewrite Nat.add_succ_comm. apply Hok. lia.
Qed.

(** The host has no memory for the step [i + n], the first one it refuses. *)
Lemma grow_refused n todo i s :
  quiet 99 s -> (n < todo)%nat -> (forall j, (j < n)%nat -> h_grow h (i + j) = true) ->
  h_grow h (i + n) = false ->
  exists s' earlier, grow_steps h todo i s = (Ok (Some 76), s')
  /\ st_out s' = (py "cf_memory_limit" ++ linesep h) :: earlier /\ forallb (plain 99) earlier = true
  /\ st_err s' = [].
Proof.
  revert todo i s. induction n as [|n IH]; intros [|todo] i s Hs Hn Hok Hno; try lia; cbn [grow_steps].
  - rewrite Nat.add_0_r in Hno. rewrite Hno. eexists _, _. split; [reflexivity|]. split; [reflexivity|]. apply Hs.
  - pose proof (Hok 0%nat ltac:(lia)) as H0. rewrite Nat.add_0_r in H0. rewrite H0. rewrite run_W.
    pose proof (print_quiet 99 (py "memory_grow step=" ++ int_str (Z.of_nat i) ++ py " total_mb="
                  ++ int_str ((Z.of_nat i + 1) * 4)) ltac:(done) ltac:(plain_text) s Hs) as Hp.
    cbn [print_line write_out modify_st] in *.
    apply IH; [exact Hp|lia| |]; [|by rewrite Nat.add_succ_comm].
    intros j Hj. rewrite Nat.add_succ_comm. apply Hok. lia.
Qed.

(** The text holds none of the markers the executor takes for a limit. *)
Definition no_signal (t : pystr) : Prop :=
  contains t (py "cf_process_limit") = false /\ contains t (py "cf_memory_limit") = false
  /\ contains t (py "cf_workspace_limit") = false.

Lemma plain_no_signal c t : c = 102 \/ c = 99 -> plain c t = true -> no_signal (decode_replace t).
Proof.
  intros Hc Ht. rewrite decode_replace_ascii by by eapply plain_ascii. apply plain_not_in in Ht.
  repeat split; apply not_true_iff_false; intros Hs; apply Ht; eapply (contains_elem _ _ c Hs);
    destruct Hc as [-> | ->]; decide_closed.
Qed.

Lemma quiet_bytes c s : quiet c s -> plain c (bytes_of (st_out s)) = true.
Proof. intros [Ho _]. apply plain_mjoin. by rewrite forallb_reverse. Qed.

(** The workloads that print a path of the host. *)
Definition prints_path (w : pystr) : Prop := w = py "MANY_FILES" \/ w = py "BOUNDARY_PROBE".

Lemma returns_behaviour w handler c :
  assoc (HANDLERS value_error h) w = Some handler -> returns c 0 handler ->
  exists out, behaviour value_error h [w] = Returns out [] 0 /\ plain c out = true.
Proof.
  intros Hw Hr. unfold behaviour, main. rewrite Hw.
  specialize (Hr no_streams (conj eq_refl eq_refl)).
  destruct (handler no_streams) as [[r|tb] s]; [|done]. destruct Hr as [-> Hq].
  exists (bytes_of (st_out s)). destruct Hq as [Ho He]. rewrite He. split; [done|]. by apply quiet_bytes.
Qed.

Lemma write_texts_err todo i s :
  (forall i, h_write h i = None) -> exists s', write_texts h todo i s = (Ok tt, s')
  /\ st_out s' = st_out s /\ st_err s' = st_err s /\ st_disk s' = st_disk s + 64 * Z.of_nat todo.
Proof.
  intros Hw. revert i s. induction todo as [|todo IH]; intros i s; cbn [write_texts].
  - exists s. split_and!; try done. lia.
  - rewrite Hw.
    rewrite run_W. cbn [may_fail mret M_ret].
    rewrite run_W. cbn [store modify_st].
    destruct (IH (S i) (s <| st_disk := st_disk s + 64 |>)) as (s' & -> & Ho & He & Hd).
    exists s'. cbn in Ho, He, Hd. split_and!; try done. lia.
Qed.

Lemma many_files_behaviour :
  generous -> exists out, behaviour value_error h [py "MANY_FILES"] = Returns out [] 0.
Proof.
  intros Hg. unfold behaviour, main. change (assoc _ _) with (Some (many_files h)). unfold many_files.
  rewrite (gh_mkdir Hg). rewrite run_W. cbn [may_fail mret M_ret]. rewrite run_W.
  destruct (write_texts_err 50 0 no_streams (gh_write Hg)) as (s' & -> & Ho & He & _).
  rewrite run_W. cbn. rewrite He. by eexists.
Qed.

Lemma boundary_probe_behaviour :
  generous -> exists out, behaviour value_error h [py "BOUNDARY_PROBE"] = Returns out [] 0.
Proof.
  intros Hg. unfold behaviour, main. change (assoc _ _) with (Some (boundary_probe h)). unfold boundary_probe.
  assert (exists d, probe_forbidden h (environment_report h) no_streams = (Ok d, no_streams)) as [d Hd].
  { unfold probe_forbidden. set (f := default _ _). pose proof (gh_forbidden Hg f) as Hf.
    destruct (nonempty f); [|by eexists]. destruct (h_forbidden h f); [by eexists..|done]. }
  rewrite run_W, Hd. rewrite run_W. cbn. by eexists.
Qed.

Lemma large_output_behaviour :
  exists out, behaviour value_error h [py "LARGE_OUTPUT"] = Returns out [] 0 /\ zlen out = 10240000.
Proof.
  unfold behaviour, main. change (assoc _ _) with (Some large_output). unfold large_output.
  rewrite run_W. cbn [modify_st mret M_ret]. set (body := fun (_ : Z) (s : Streams) => _).
  assert (forall n, st_err (for_range n body no_streams) = []
                    /\ zlen (bytes_of (st_out (for_range n body no_streams))) = 1024 * Z.of_N n) as Hn.
  { intros n. induction n as [|n [He Ho]] using N.peano_ind; [done|]. rewrite for_range_succ.
    split; [exact He|]. unfold bytes_of in *. set (t := for_range n body no_streams) in *.
    change (st_out (body (Z.of_N n) t)) with (replicate 1024 120 :: st_out t).
    rewrite reverse_cons, list.join_app, zlen_app, Ho. unfold zlen. cbn [mjoin list_join].
    rewrite app_nil_r, length_replicate. lia. }
  destruct (Hn 10000%N) as [He Ho]. rewrite He. eexists. split; [reflexivity|]. exact Ho.
Qed.
End Corpus.

(** * The executor watching a workload *)

(** A turn in which the process runs, in time, within its limits. *)
Record quiet_turn (l : ExecutionLimits) (d : float) (v : PollView) : Prop := {
  qt_now : fge (pv_now v) d = false;
  qt_exit : pv_exit v = None;
  qt_children : forall n k, pv_children v = Some n -> max_process_count l = Some k -> 1 + n < k;
  qt_rss : forall r k, pv_rss v = Some r -> max_rss_mb l = Some k -> fgt r k = false;
  qt_workspace : forall k, max_workspace_bytes l = Some k -> pv_workspace v <= k;
}.

Lemma quiet_count l d v m : quiet_turn l d v -> (count_processes l v m).1 = None.
Proof.
  intros Hq. unfold count_processes. destruct (pv_children v) as [n|] eqn:En; [|done].
  destruct (max_process_count l) as [k|] eqn:Ek; [|done]. pose proof (qt_children _ _ _ Hq n k En Ek).
  cbn. by rewrite (proj2 (Z.leb_gt k (1 + n))) by lia.
Qed.

Lemma quiet_memory l d v m : quiet_turn l d v -> (watch_memory l v m).1 = None.
Proof.
  intros Hq. unfold watch_memory. destruct (fge _ _); [|done].
  destruct (pv_rss v) as [r|] eqn:Er; [|done]. cbn.
  destruct (max_rss_mb l) as [k|] eqn:Ek; [|done]. by rewrite (qt_rss _ _ _ Hq r k Er Ek).
Qed.

Lemma quiet_workspace l d v m : quiet_turn l d v -> (watch_workspace l v m).1 = None.
Proof.
  intros Hq. unfold watch_workspace. destruct (max_workspace_bytes l) as [k|] eqn:Ek; [|done].
  destruct (fge _ _); [|done]. pose proof (qt_workspace _ _ _ Hq k Ek). cbn.
  by rewrite (proj2 (Z.ltb_ge k (pv_workspace v))) by lia.
Qed.

Lemma quiet_watch l d v m : quiet_turn l d v -> (watch_limits l v m).1 = None.
Proof.
  intros Hq. unfold watch_limits. pose proof (quiet_count l d v m Hq) as H1.
  destruct (count_processes l v m) as [o m1]. cbn in H1. subst o.
  pose proof (quiet_memory l d v m1 Hq) as H2. destruct (watch_memory l v m1) as [o m2].
  cbn in H2. subst o. by eapply quiet_workspace.
Qed.

(** The streams hold what the limits allow of the bytes [out] and [err]. *)
Definition holds (l : ExecutionLimits) (out err : list Z) (m : Monitor) : Prop :=
  capped (max_stdout_bytes l) out (mo_out m) /\ capped (max_stderr_bytes l) err (mo_err m).

Definition within_caps (l : ExecutionLimits) (out err : list Z) : Prop :=
  zlen out <= max_stdout_bytes l /\ zlen err <= max_stderr_bytes l.

#[export] Instance within_caps_dec l out err : Decision (within_caps l out err).
Proof. unfold within_caps. apply _. Defined.

Lemma within_caps_app l a b c d : within_caps l (a ++ b) (c ++ d) -> within_caps l a c.
Proof.
  unfold within_caps. rewrite !zlen_app. pose proof (zlen_nonneg b). pose proof (zlen_nonneg d). lia.
Qed.

Lemma holds_exceeded l out err m :
  holds l out err m -> output_exceeded m = bool_decide (~ within_caps l out err).
Proof.
  intros [(_ & _ & Ho) (_ & _ & He)]. unfold output_exceeded, limit_hit. rewrite Ho, He.
  unfold within_caps. case_bool_decide as Hd; [apply orb_true_iff|apply orb_false_iff];
    rewrite ?Z.ltb_lt, ?Z.ltb_ge; lia.
Qed.

Section Watching.
Variables (l : ExecutionLimits) (d : float).
Hypothesis caps : 0 <= max_stdout_bytes l /\ 0 <= max_stderr_bytes l.

Lemma holds_read o e out err m :
  holds l out err m -> holds l (out ++ mjoin o) (err ++ mjoin e) (read_more o e m).
Proof using caps. intros [Ho He]. destruct caps. split; by apply read_chunks_capped. Qed.

Lemma holds_start : holds l [] [] (new_monitor l).
Proof using caps. destruct caps. split; by apply new_cap_capped. Qed.

(** Quiet turns only read, until more is read than the caps allow. *)
Lemma monitor_quiet pre vs m out err :
  holds l out err m -> Forall (quiet_turn l d) pre ->
  let out' := out ++ mjoin (read_until pv_out pre) in
  let err' := err ++ mjoin (read_until pv_err pre) in
  (exists m', monitor l d (pre ++ vs) m = monitor l d vs m' /\ holds l out' err' m')
  \/ (~ within_caps l out' err'
      /\ exists e m', monitor l d (pre ++ vs) m = Some (e, m') /\ en_status e = "output_limit"%string).
Proof using caps.
  intros Hm Hpre. revert m out err Hm. induction Hpre as [|v pre Hv Hpre IH]; intros m out err Hm; cbn.
  { left. exists m. by rewrite !app_nil_r. }
  unfold read_until in *. cbn [mbind list_bind]. rewrite !list.join_app, !app_assoc.
  unfold poll_once. rewrite (qt_now _ _ _ Hv), (qt_exit _ _ _ Hv).
  pose proof (holds_read (pv_out v) (pv_err v) _ _ _ Hm) as Hr. set (m1 := read_more _ _ m) in *.
  rewrite (holds_exceeded _ _ _ _ Hr). case_bool_decide as Hc.
  - right. split; [|by eexists _, _]. intros Hw. apply Hc. by eapply within_caps_app.
  - pose proof (quiet_watch l d v m1 Hv) as Hw. pose proof (watch_limits_watched l v m1) as (Ho & He & _).
    destruct (watch_limits l v m1) as [o m2]. cbn in Hw, Ho, He. subst o. apply IH.
    destruct Hr as [Hr1 Hr2]. split; [by rewrite Ho|by rewrite He].
Qed.
End Watching.

(** The turns a process would show the executor, if nothing stopped it: it runs
    quietly and exits in time with everything written, or is still running at the
    deadline.  The executor reads them only until it ends. *)
Definition plays (l : ExecutionLimits) (d : float) (b : Behaviour) (polls : list PollView) : Prop :=
  match b with
  | Returns out err code =>
      exists pre v post o e, polls = pre ++ v :: post /\ Forall (quiet_turn l d) pre
      /\ fge (pv_now v) d = false /\ pv_exit v = Some (code, o, e)
      /\ mjoin (read_until pv_out (pre ++ [v]) ++ o) = out
      /\ mjoin (read_until pv_err (pre ++ [v]) ++ e) = err
  | Forever out err =>
      exists pre v post, polls = pre ++ v :: post /\ Forall (quiet_turn l d) pre
      /\ fge (pv_now v) d = true
      /\ mjoin (read_until pv_out pre) `prefix_of` out /\ mjoin (read_until pv_err pre) `prefix_of` err
  end.

(** A process that ended by itself leaves nothing. *)
Record clean_end (n : EndView) (code : Z) : Prop := {
  ce_out : mjoin (nv_out n) = [];
  ce_err : mjoin (nv_err n) = [];
  ce_code : nv_exit_code n = Some code;
  ce_leaked : nv_leaked n = [];
}.

(** The status of a process that ended by itself. *)
Definition exit_status (code : Z) : status := if code =? 0 then "succeeded"%string else "failed"%string.

Section Running.
Variables (l : ExecutionLimits) (w : pystr) (rv : RunView).
Let d := deadline_of_start l (rv_start rv).
Hypothesis caps : 0 <= max_stdout_bytes l /\ 0 <= max_stderr_bytes l.
Hypothesis starts : sv_error (rv_start rv) = None.

(** The status of a result whose loop ended in [e] and that no later check changes. *)
Lemma run_status e m :
  monitor l d (rv_polls rv) (new_monitor l) = Some (e, m) ->
  en_status e = "output_limit"%string \/ en_status e = "timeout"%string ->
  exists r, run_executor l w rv = Some r /\ xr_status r = en_status e.
Proof using starts.
  intros Hm He. unfold run_executor. rewrite starts. fold d. rewrite Hm. eexists. split; [reflexivity|].
  destruct e as [st rs]. cbn [en_status] in He. unfold conclude_run. cbn [xr_status].
  by destruct He as [-> | ->].
Qed.

Lemma run_overflow out err code :
  plays l d (Returns out err code) (rv_polls rv) -> ~ within_caps l out err ->
  exists r, run_executor l w rv = Some r /\ xr_status r = "output_limit"%string.
Proof using caps starts.
  intros (pre & v & post & o & e & Hp & Hq & Hn & Hx & <- & <-) Hw.
  enough (exists e m, monitor l d (rv_polls rv) (new_monitor l) = Some (e, m)
                      /\ en_status e = "output_limit"%string) as (e1 & m & Hm & He).
  { destruct (run_status e1 m Hm (or_introl He)) as (r & Hr & Hs). exists r. by rewrite Hs. }
  rewrite Hp. destruct (monitor_quiet l d caps pre (v :: post) _ [] [] (holds_start l caps) Hq)
    as [(m & -> & Hm)|(_ & e1 & m & Hm & He)]; [|by exists e1, m].
  cbn [monitor]. unfold poll_once. rewrite Hn, Hx. unfold exited.
  pose proof (holds_read l caps (pv_out v) (pv_err v) _ _ _ Hm) as Hr1.
  rewrite (holds_exceeded _ _ _ _ Hr1). case_bool_decide; [by eexists _, _|].
  pose proof (holds_read l caps o e _ _ _ Hr1) as Hr2.
  rewrite (holds_exceeded _ _ _ _ Hr2), bool_decide_true; [by eexists _, _|].
  intros Hw'. apply Hw. unfold read_until in *. rewrite !bind_app, !list.join_app. cbn [mbind list_bind].
  rewrite !app_nil_r. cbn [app] in Hw'. exact Hw'.
Qed.

Lemma run_exits out err code :
  plays l d (Returns out err code) (rv_polls rv) -> within_caps l out err -> Z.abs code <= 1000 ->
  clean_end (rv_end rv) code ->
  exists r, run_executor l w rv = Some r /\ xr_leaked_pids_after_cleanup r = []
  /\ xr_status r = en_status (workload_signal (decode_replace (out ++ err))
                     (mkEnded (exit_status code) None)).
Proof using caps starts.
  intros (pre & v & post & o & e & Hp & Hq & Hn & Hx & Ho & He) Hw Hc Hend.
  assert (exists m, monitor l d (rv_polls rv) (new_monitor l)
                    = Some (mkEnded (exit_status code) None, m)
                    /\ holds l out err m) as (m & Hm & Hh).
  { rewrite Hp. destruct (monitor_quiet l d caps pre (v :: post) _ [] [] (holds_start l caps) Hq)
      as [(m & -> & Hm)|(Hno & _)].
    - cbn [monitor]. unfold poll_once. rewrite Hn, Hx.
      pose proof (holds_read l caps (pv_out v) (pv_err v) _ _ _ Hm) as Hr1.
      pose proof (holds_read l caps o e _ _ _ Hr1) as Hr2.
      revert Hr1 Hr2. unfold read_until in *. rewrite !bind_app, !list.join_app in Ho, He.
      cbn [mbind list_bind] in Ho, He. rewrite !app_nil_r in Ho, He. cbn [app]. intros Hr1 Hr2.
      rewrite Ho, He in Hr2. rewrite (holds_exceeded _ _ _ _ Hr1), bool_decide_false.
      + eexists. split; [|exact Hr2]. unfold exited. rewrite (holds_exceeded _ _ _ _ Hr2).
        rewrite bool_decide_false by tauto. unfold classify_resource_exit.
        rewrite (proj2 (Z.ltb_ge 1000 (Z.abs code))) by lia. unfold exit_status. by destruct (max_cpu_seconds l), (code =? 0).
      + intros Hno. apply Hno. rewrite <-Ho, <-He in Hw. by eapply within_caps_app.
    - exfalso. apply Hno. rewrite <-Ho, <-He in Hw. unfold read_until in *.
      rewrite !bind_app, !list.join_app, <-!app_assoc in Hw. by eapply within_caps_app. }
  unfold run_executor. rewrite starts. fold d. rewrite Hm. eexists. split; [reflexivity|].
  unfold conclude_run. cbn [xr_status xr_leaked_pids_after_cleanup]. split; [apply Hend|].
  assert (holds l out err (read_more (nv_out (rv_end rv)) (nv_err (rv_end rv)) m)) as [(_ & Hbo & _) (_ & Hbe & _)].
  { pose proof (holds_read l caps (nv_out (rv_end rv)) (nv_err (rv_end rv)) _ _ _ Hh) as Hr.
    by rewrite (ce_out _ _ Hend), (ce_err _ _ Hend), !app_nil_r in Hr. }
  destruct Hw as [Hwo Hwe]. unfold zlen in Hwo, Hwe.
  rewrite Hbo, Hbe, !take_ge by lia. rewrite (ce_code _ _ Hend). unfold reclassify, exit_status. cbn [en_status].
  destruct (code =? 0) eqn:E; cbn [String.eqb Ascii.eqb Bool.eqb andb]; [|done].
  zify_bool. subst code. by destruct (bool_decide _).
Qed.

Lemma run_forever out err :
  plays l d (Forever out err) (rv_polls rv) -> within_caps l out err ->
  exists r, run_executor l w rv = Some r /\ xr_status r = "timeout"%string.
Proof using caps starts.
  intros (pre & v & post & Hp & Hq & Hn & [ko Ho] & [ke He]) Hw.
  enough (exists e m, monitor l d (rv_polls rv) (new_monitor l) = Some (e, m)
                      /\ en_status e = "timeout"%string) as (e1 & m & Hm & He1).
  { destruct (run_status e1 m Hm (or_intror He1)) as (r & Hr & Hs). exists r. by rewrite Hs. }
  rewrite Hp. destruct (monitor_quiet l d caps pre (v :: post) _ [] [] (holds_start l caps) Hq)
    as [(m & -> & _)|(Hno & _)].
  - cbn [monitor]. unfold poll_once. rewrite Hn. by eexists _, _.
  - exfalso. apply Hno. rewrite Ho, He in Hw. by eapply within_caps_app.
Qed.
End Running.

(** * Outcomes *)

(** Running the workload [w] on a host, as the executor sees it: started, quiet
    and, when its output fits, ending by itself. *)
Record fair_run `{FloatRepr} (value_error : pystr -> list Z) (h : Host) (l : ExecutionLimits)
    (w : pystr) (rv : RunView) : Prop := {
  fr_caps : 0 <= max_stdout_bytes l /\ 0 <= max_stderr_bytes l;
  fr_started : sv_error (rv_start rv) = None;
  fr_plays : plays l (deadline_of_start l (rv_start rv)) (behaviour value_error h [w]) (rv_polls rv);
  fr_fits : forall out err code, behaviour value_error h [w] = Returns out err code ->
    if decide (w = py "LARGE_OUTPUT") then max_stdout_bytes l < 10240000
    else within_caps l out err /\ clean_end (rv_end rv) code
         /\ (prints_path w -> no_signal (decode_replace out));
}.

Lemma no_signal_status t e : no_signal t -> en_status (workload_signal t e) = en_status e.
Proof. intros (H1 & H2 & H3). unfold workload_signal. rewrite H1, H2, H3. by destruct (_ || _). Qed.

Lemma workload_succeeds `{FloatRepr} ve h l w rv out :
  fair_run ve h l w rv -> w <> py "LARGE_OUTPUT" -> behaviour ve h [w] = Returns out [] 0 ->
  (prints_path w \/ no_signal (decode_replace out)) ->
  exists r, run_executor l w rv = Some r
  /\ outcome_from_result (xr_status r) (xr_leaked_pids_after_cleanup r) = X_SUCCESS.
Proof.
  intros [Hc Hs Hp Hf] Hw Hb Hn. specialize (Hf _ _ _ Hb). rewrite decide_False in Hf by done.
  destruct Hf as (Hfits & Hend & Hpath). rewrite Hb in Hp.
  destruct (run_exits l w rv Hc Hs _ _ _ Hp Hfits ltac:(lia) Hend) as (r & Hr & Hl & Hst).
  exists r. split; [done|]. rewrite Hst, Hl, app_nil_r, no_signal_status; [done|].
  destruct Hn as [Hn|Hn]; [by apply Hpath|done].
Qed.

(** C17 The corpus does what the contract says: on a host that refuses nothing, a
    quiet run of any workload of the trusted corpus, watched by the executor, has
    the outcome the contract declares for it. *)
Theorem corpus_outcomes `{FloatRepr} (value_error : pystr -> list Z) (h : Host) (l : ExecutionLimits)
    (w : pystr) (o : ExecutionOutcome) (rv : RunView) :
  generous h -> (w, o) ∈ TRUSTED_CORPUS -> fair_run value_error h l w rv ->
  exists r, run_executor l w rv = Some r
  /\ outcome_from_result (xr_status r) (xr_leaked_pids_after_cleanup r) = o.
Proof.
  intros Hg Hw Hf.
  assert (forall c, (w, c) ∈ silent_letter -> w <> py "LARGE_OUTPUT" -> c = 102 \/ c = 99 ->
            exists r, run_executor l w rv = Some r
            /\ outcome_from_result (xr_status r) (xr_leaked_pids_after_cleanup r) = X_SUCCESS) as Hsilent.
  { intros c Hin Hne Hc. destruct (silent_returns value_error h w c Hg Hin) as (handler & Ha & Hr).
    destruct (returns_behaviour value_error h w handler c Ha Hr) as (out & Hb & Hpl).
    eapply workload_succeeds; [done..|]. right. by eapply plain_no_signal. }
  apply list_elem_of_fmap in Hw as ([name o'] & [= -> ->] & Hin).
  repeat (apply elem_of_cons in Hin as [[= -> ->]|Hin]); [..|by apply not_elem_of_nil in Hin].
  all: try (apply (Hsilent 102); [decide_closed|done|by left]).
  - destruct (large_output_behaviour value_error h) as (out & Hb & Hlen). destruct Hf as [Hc Hs Hp Hf].
    specialize (Hf _ _ _ Hb). rewrite decide_True in Hf by done. rewrite Hb in Hp.
    assert (~ within_caps l out []) as Hover by (unfold within_caps; lia).
    destruct (run_overflow l (py "LARGE_OUTPUT") rv Hc Hs _ _ _ Hp Hover) as (r & Hr & Hst).
    exists r. split; [done|]. by rewrite Hst.
  - destruct Hf as [Hc Hs Hp _]. assert (within_caps l [] []) as Hcaps by done.
    destruct (run_forever l (py "TIMEOUT") rv Hc Hs _ _ Hp Hcaps) as (r & Hr & Hst).
    exists r. split; [done|]. by rewrite Hst.
  - destruct (many_files_behaviour value_error h Hg) as (out & Hb).
    eapply workload_succeeds; [done..|]. left. by left.
  - apply (Hsilent 99); [decide_closed|done|by right].
  - destruct (boundary_probe_behaviour value_error h Hg) as (out & Hb).
    eapply workload_succeeds; [done..|]. left. by right.
  - destruct Hf as [Hc Hs Hp Hf]. specialize (Hf _ _ _ eq_refl). rewrite decide_False in Hf by done.
    destruct Hf as (Hfits & Hend & _).
    destruct (run_exits l (py "FAILURE") rv Hc Hs _ _ _ Hp Hfits ltac:(lia) Hend) as (r & Hr & Hl & Hst).
    exists r. split; [done|]. rewrite Hst, no_signal_status; [done|].
    unfold no_signal, linesep. destruct (h_windows h); vm_compute; done.
Qed.

(** A refused resource is reported as itself: when the host refuses [PROCESS_HEAVY]
    one of its children, or [MEMORY_GROW] memory for one of its steps, the
    execution ends in the outcome of that limit, whatever the error said and however
    far the workload came. *)
Theorem refusals_reported `{FloatRepr} (value_error : pystr -> list Z) (h : Host)
    (l : ExecutionLimits) (rv : RunView) (n : nat) :
  (forall target win err, int_env value_error h "CF_PROCESS_HEAVY_N" 20 no_streams = (Ok target, no_streams) ->
     Z.of_nat n < target -> (forall j, (j < n)%nat -> exists pid, h_spawn h j = inl pid) ->
     h_spawn h n = inr (win, err) -> fair_run value_error h l (py "PROCESS_HEAVY") rv ->
     exists r, run_executor l (py "PROCESS_HEAVY") rv = Some r
     /\ outcome_from_result (xr_status r) (xr_leaked_pids_after_cleanup r) = X_PROCESS_LIMIT)
  /\ ((n < 64)%nat -> (forall j, (j < n)%nat -> h_grow h j = true) -> h_grow h n = false ->
     fair_run value_error h l (py "MEMORY_GROW") rv ->
     exists r, run_executor l (py "MEMORY_GROW") rv = Some r
     /\ outcome_from_result (xr_status r) (xr_leaked_pids_after_cleanup r) = X_MEMORY_LIMIT).
Proof.
  split.
  - intros target win err Ht Hn Hok Hno [Hc Hs Hp Hf].
    destruct (spawn_refused h n (Z.to_nat target) 0 0 no_streams win err ltac:(done) ltac:(lia) Hok Hno)
      as (s & rest & earlier & Hrun & Ho & He & Herr).
    assert (behaviour value_error h [py "PROCESS_HEAVY"] = Returns (bytes_of (st_out s)) [] 75) as Hb.
    { unfold behaviour, main. change (assoc _ _) with (Some (process_heavy value_error h)).
      unfold process_heavy. rewrite run_W, Ht, Hrun. by rewrite Herr. }
    specialize (Hf _ _ _ Hb). rewrite decide_False in Hf by done. destruct Hf as (Hfits & Hend & _).
    rewrite Hb in Hp.
    destruct (run_exits l (py "PROCESS_HEAVY") rv Hc Hs _ _ _ Hp Hfits ltac:(lia) Hend) as (r & Hr & Hl & Hst).
    exists r. split; [done|]. rewrite Hst, Ho, app_nil_r. unfold bytes_of.
    rewrite reverse_cons, list.join_app. cbn [mjoin list_join]. rewrite app_nil_r.
    rewrite <-forallb_reverse in He. apply plain_mjoin, plain_ascii in He.
    rewrite decode_replace_app by done.
    rewrite decode_replace_app by (apply (plain_ascii 0); vm_compute; reflexivity).
    unfold workload_signal. by rewrite startswith_contains.
  - intros Hn Hok Hno [Hc Hs Hp Hf].
    destruct (grow_refused h n 64 0 no_streams ltac:(done) Hn Hok Hno) as (s & earlier & Hrun & Ho & He & Herr).
    assert (behaviour value_error h [py "MEMORY_GROW"] = Returns (bytes_of (st_out s)) [] 76) as Hb.
    { unfold behaviour, main. change (assoc _ _) with (Some (memory_grow h)).
      unfold memory_grow. rewrite Hrun. by rewrite Herr. }
    specialize (Hf _ _ _ Hb). rewrite decide_False in Hf by done. destruct Hf as (Hfits & Hend & _).
    rewrite Hb in Hp.
    destruct (run_exits l (py "MEMORY_GROW") rv Hc Hs _ _ _ Hp Hfits ltac:(lia) Hend) as (r & Hr & Hl & Hst).
    exists r. split; [done|]. rewrite Hst, Ho, app_nil_r. unfold bytes_of.
    rewrite reverse_cons, list.join_app. cbn [mjoin list_join]. rewrite app_nil_r.
    rewrite <-forallb_reverse in He. apply plain_mjoin in He.
    rewrite decode_replace_app by by eapply plain_ascii. apply plain_not_in in He.
    unfold workload_signal, linesep. rewrite !(contains_skip 99) by done.
    destruct (h_windows h); reflexivity.
Qed.

(** [DISK_HEAVY] ends on every host that lets it write, and leaves in the
    workspace exactly the mebibytes it was asked for. *)
Theorem disk_heavy_writes `{FloatRepr} (value_error : pystr -> list Z) (h : Host) (target : Z) :
  h_mkdir h "disk" = None -> (forall i, h_write h i = None) ->
  int_env value_error h "CF_DISK_HEAVY_MB" 8 no_streams = (Ok target, no_streams) ->
  exists s, disk_heavy value_error h no_streams = (Ok (Some 0), s) /\ st_disk s = Z.max 0 target * mib.
Proof.
  intros Hd Hw Ht. unfold disk_heavy. rewrite Hd, run_W. cbn [may_fail mret M_ret]. rewrite run_W, Ht.
  enough (forall fuel n s, target <= Z.of_nat n + Z.of_nat fuel ->
            exists s', write_blobs h fuel target (Z.of_nat n * mib) n s = (Ok (Some 0), s')
            /\ st_disk s' = st_disk s + Z.max 0 (target - Z.of_nat n) * mib) as Hall.
  { destruct (Hall (Z.to_nat target) 0%nat no_streams ltac:(lia)) as (s & Hs & Hk).
    exists s. split; [exact Hs|]. rewrite Hk. cbn. by rewrite Z.sub_0_r. }
  intros fuel. induction fuel as [|fuel IH]; intros n s Hf; cbn [write_blobs].
  - rewrite (proj2 (Z.ltb_ge (Z.of_nat n * mib) (target * mib))) by (unfold mib; lia).
    eexists. split; [reflexivity|]. cbn. lia.
  - destruct (_ <? _) eqn:E; zify_bool.
    + rewrite Hw, run_W. cbn [may_fail mret M_ret]. rewrite !run_W.
      cbn [store print_line write_out modify_st].
      replace (Z.of_nat n * mib + 16 * (64 * 1024)) with (Z.of_nat (S n) * mib) by (unfold mib; lia).
      edestruct (IH (S n)) as (s' & Hs & Hk); [lia|]. exists s'. split; [exact Hs|]. rewrite Hk. cbn [st_disk setf].
      assert (Z.of_nat n < target) by (unfold mib in E; lia). cbn. unfold mib. lia.
    + eexists. split; [reflexivity|]. cbn. unfold mib in *. lia.
Qed.

Module CorpusSample.
#[local] Instance repr : FloatRepr := fun _ => [].

(** A host that refuses the children from the second on when [strict], nothing
    otherwise. *)
Definition sample_host (strict : bool) : Host :=
  mkHost false {[py "CF_PROCESS_HEAVY_N" := py "3"]} 40 None (fun n => negb strict || (n <? 2)%nat) None
    (fun i => if strict && (1 <=? i)%nat then inr (Some 1816, [195; 169]) else inl (100 + Z.of_nat i))
    (fun _ _ => py "/w") (fun _ => None) (fun _ => None) (py "/w") (fun _ => Read 3) (fun _ => inr 2)
    Refused None None.

Definition no_text : pystr -> list Z := fun _ => [].

(** A run that shows the whole behaviour in one turn. *)
Definition run_of (b : Behaviour) : RunView :=
  match b with
  | Returns out err code =>
      mkRunView ExecutorSample.started
        [mkPollView (of_Z 1) [out] [err] (Some (code, [], [])) None None 0]
        (mkEndView [] [] [] (Some code) None None true None fzero fzero)
  | Forever _ _ => ExecutorSample.endless
  end.

Lemma sample_fair h w handler s code :
  assoc (HANDLERS no_text h) w = Some handler -> handler no_streams = (Ok (Some code), s) -> w <> py "LARGE_OUTPUT" -> ~ prints_path w ->
  within_caps default_limits (bytes_of (st_out s)) (bytes_of (st_err s)) ->
  fair_run no_text h default_limits w (run_of (behaviour no_text h [w])).
Proof.
  intros Ha Hh Hw Hp Hc. set (out := bytes_of (st_out s)) in *. set (err := bytes_of (st_err s)) in *.
  assert (behaviour no_text h [w] = Returns out err code) as Hb by (unfold behaviour, main; by rewrite Ha, Hh).
  split.
  - split; done.
  - by rewrite Hb.
  - rewrite Hb. exists [], (mkPollView (of_Z 1) [out] [err] (Some (code, [], [])) None None 0), [], [], [].
    cbn. rewrite !app_nil_r. done.
  - intros out' err' code' Hb'. rewrite Hb in Hb'. injection Hb' as <- <- <-.
    rewrite decide_False, Hb by done. split; [done|]. split; [by split|tauto].
Qed.

Lemma not_path w : bool_decide (w = py "MANY_FILES" \/ w = py "BOUNDARY_PROBE") = false -> ~ prints_path w.
Proof. intros Hw. by apply bool_decide_eq_false in Hw. Qed.

Lemma sample_generous : generous (sample_host false).
Proof.
  split; try done.
  - intros i. by eexists.
  - intros t Ht.
    assert (h_environ (sample_host false) !! py "CF_PROCESS_HEAVY_N" = Some (py "3")) as He by reflexivity.
    rewrite He in Ht. injection Ht as <-. exists 3. reflexivity.
Qed.

Definition outcome_of (r : option ExecutionResult) : option ExecutionOutcome :=
  (fun r => outcome_from_result (xr_status r) (xr_leaked_pids_after_cleanup r)) <$> r.

Lemma corpus_outcomes_witness :
  outcome_of (run_executor default_limits (py "PROCESS_HEAVY")
                (run_of (behaviour no_text (sample_host false) [py "PROCESS_HEAVY"]))) = Some X_SUCCESS.
Proof.
  destruct (corpus_outcomes no_text (sample_host false) default_limits (py "PROCESS_HEAVY") X_SUCCESS
              (run_of (behaviour no_text (sample_host false) [py "PROCESS_HEAVY"]))) as (r & Hr & Ho).
  - exact sample_generous.
  - decide_closed.
  - eapply sample_fair; [reflexivity|vm_compute; reflexivity|done|by apply not_path|decide_closed].
  - rewrite Hr. cbn [outcome_of fmap option_fmap option_map]. by rewrite Ho.
Defined.

Lemma refusals_reported_witness :
  outcome_of (run_executor default_limits (py "PROCESS_HEAVY")
                (run_of (behaviour no_text (sample_host true) [py "PROCESS_HEAVY"]))) = Some X_PROCESS_LIMIT.
Proof.
  destruct (refusals_reported no_text (sample_host true) default_limits
              (run_of (behaviour no_text (sample_host true) [py "PROCESS_HEAVY"])) 1) as [Hp _].
  destruct (Hp 3 (Some 1816) [195; 169]) as (r & Hr & Ho).
  - vm_compute. reflexivity.
  - lia.
  - intros j Hj. assert (j = 0%nat) as -> by lia. by eexists.
  - reflexivity.
  - eapply sample_fair; [reflexivity|vm_compute; reflexivity|done|by apply not_path|decide_closed].
  - rewrite Hr. cbn [outcome_of fmap option_fmap option_map]. by rewrite Ho.
Defined.

End CorpusSample.
