(* ===== verification/EvaluationWorker.v ===== *)
(** The evaluation worker (src/challengeforge/worker/__init__.py): one pass of
    the worker polls the queue through the resource-aware runtime, claims one
    job, evaluates it in the mode of its row, and settles it.

    The worker acts on a [World], the shared database with the worker's own
    counters and runtime.  Between any two of its transactions other processes
    act: [we_other] is what they do to the database.  The evaluators' clocks,
    the host and the execution the operating system plays are in the
    environment of a pass. *)
From Stdlib Require Import ZArith Lia String.
From stdpp Require Import prelude strings gmap.
From S2P Require Import Prelude PyFloat PyStr Domain Database Json Utf8 Config Ownership Evaluator.
From S2P Require Import EvaluationQueue Submissions Runtime Progressive ExecutionContract Executor.
Import EvaluationRepository.

Module EvaluationWorker.

(** [int(text)]: [None] is [ValueError]. *)
Class IntParse := int_parse : pystr -> option Z.

(** * State *)

(** One entry of [resource_samples]. *)
Record ResourceSample := mkSample {
  sa_active_evaluations : Z;
  sa_completed : Z;
  sa_failed : Z;
  sa_claims : Z;
  sa_timestamp : float;
  sa_cpu_percent : option float;
  sa_rss_mb : option float;
}.

(** [worker/__init__.py:46-70 EvaluationWorker.__init__], the attributes that change. *)
Record Worker := mkWorker {
  wk_runtime : Runtime;
  wk_stop : bool;
  wk_jobs_completed : Z;
  wk_jobs_failed : Z;
  wk_claims : Z;
  wk_poll_attempts : Z;
  wk_empty_polls : Z;
  wk_admission_holds : Z;
  wk_active_evaluations : Z;
  wk_peak_active : Z;
  wk_resource_samples : list ResourceSample;
}.
#[export] Instance Worker_eta : Eta Worker := fun w =>
  mkWorker (wk_runtime w) (wk_stop w) (wk_jobs_completed w) (wk_jobs_failed w) (wk_claims w)
    (wk_poll_attempts w) (wk_empty_polls w) (wk_admission_holds w) (wk_active_evaluations w)
    (wk_peak_active w) (wk_resource_samples w).

(** [worker/__init__.py:46-70 EvaluationWorker.__init__] without a runtime given. *)
Definition new_worker (cfg : Settings) : Worker :=
  mkWorker (new_runtime (from_settings cfg) (resource_aware_runtime_enabled cfg))
    false 0 0 0 0 0 0 0 0 [].

(** The database the processes share, and the worker. *)
Record World := mkWorld { wd_db : Db; wd_worker : Worker }.

(** A statement on the worker's attributes. *)
Definition attrs (f : Worker -> Worker) : M exn World unit :=
  modify_st (fun w => mkWorld (wd_db w) (f (wd_worker w))).

Definition on_runtime {A} (c : M exn Runtime A) : M exn World A :=
  zoom (fun w => wk_runtime (wd_worker w))
       (fun r w => mkWorld (wd_db w) (wd_worker w <| wk_runtime := r |>)) c.

(** One transaction, committed when [keep] says so of its result, rolled back
    otherwise and when its body raises. *)
Definition session {A} (keep : A -> bool) (c : M exn Db A) : M exn World A := fun w =>
  match c (wd_db w) with
  | (Ok a, d) => (Ok a, if keep a then mkWorld d (wd_worker w) else w)
  | (Raise e, _) => (Raise e, w)
  end.

Definition committed {A} : M exn Db A -> M exn World A := session (fun _ => true).
Definition read_only {A} : M exn Db A -> M exn World A := session (fun _ => false).

Definition taken {A} (o : option A) : bool := match o with Some _ => true | None => false end.

(** [try: c finally: fin] *)
Definition finally {A} (c : M exn World A) (fin : M exn World unit) : M exn World A := fun w =>
  let (r, w) := c w in
  match fin w with
  | (Ok _, w) => (r, w)
  | (Raise e, w) => (Raise e, w)
  end.

(** * The environment of one pass *)

(** What psutil and the clock answer to one sample. *)
Record SampleView := mkSampleView {
  sm_timestamp : float;
  sm_usage : option (float * Z);
}.

Record PassEnv := mkPassEnv {
  we_tick : TickEnv;
  we_claim_now : datetime;
  we_settle_now : datetime;
  we_sample_start : SampleView;
  we_sample_end : SampleView;
  (** the evaluators: elapsed times, and the time at each decision *)
  we_legacy_cpu_ms : float;
  we_stage_cpu_ms : Z -> float;
  we_stage_now : Z -> datetime;
  (** the execution: a fresh identifier, the host, what the system plays, and
      whether the started attempt was recorded before the execution's end *)
  we_fresh_attempt : uuid;
  we_mechanism : pystr;
  we_job_objects : bool;
  we_run : RunView;
  we_persisted : bool;
  (** the other processes, between two transactions of the worker: before the
      runtime is published (0), the claim (1), the submission is read (2), the
      attempt is recorded (3) and the job is settled (4) *)
  we_other : nat -> Db -> Db;
}.

(** * JSON arithmetic on earlier metadata *)

Section Metadata.
Context `{IntParse}.

(** [list(v or [])] *)
Definition py_list (v : json) : result exn (list json) :=
  if negb (truthy v) then Ok []
  else match v with
       | JList l => Ok l
       | JStr s => Ok ((fun c => JStr [c]) <$> s)
       | JObj o => Ok (JStr <$> o.*1)
       | _ => Raise (OtherError "TypeError")
       end.

(** [int(v or 0)] *)
Definition py_int (v : json) : result exn Z :=
  if negb (truthy v) then Ok 0
  else match v with
       | JInt z => Ok z
       | JBool b => Ok (Z.b2z b)
       | JFloat f => match ftrunc f with
                     | Some z => Ok z
                     | None => Raise (OtherError "cannot convert float to integer")
                     end
       | JStr s => match int_parse s with
                   | Some z => Ok z
                   | None => Raise (ValueError "invalid literal for int()")
                   end
       | _ => Raise (OtherError "TypeError")
       end.

(** [text or default] *)
Definition or_text (t : option pystr) (d : pystr) : pystr :=
  match t with Some s => if nonempty s then s else d | None => d end.

(** [worker/__init__.py:549-554 EvaluationWorker._run_progressive]: the stages and
    the cost of a run together with those of the runs before it. *)
Definition with_prior (stages : list json) (cost : Z) (prior : dict) (p : dict) : result exn dict :=
  match py_list (dget_null prior (py "stages_completed")) with
  | Raise e => Raise e
  | Ok done =>
      match py_int (dget_null prior (py "actual_cost_units")) with
      | Raise e => Raise e
      | Ok paid =>
          Ok (dset (dset p (py "stages_completed") (JList (done ++ stages)))
                (py "actual_cost_units") (JInt (paid + cost)))
      end
  end.

(** [worker/__init__.py:517-525 EvaluationWorker._run_progressive]: the metadata of a
    deferred run. *)
Definition deferred_metadata (before : dict) (r : ProgressiveResult) : result exn dict :=
  let prior := match dget before (py "progressive") with Some (JObj p) => p | _ => [] end in
  match dget (pr_result_metadata r) (py "progressive") with
  | Some (JObj p) =>
      match with_prior (pr_stages r) (pr_actual_cost_units r) prior p with
      | Raise e => Raise e
      | Ok p' => Ok (dset (pr_result_metadata r) (py "progressive") (JObj p'))
      end
  | _ => Raise (OtherError "KeyError")
  end.

(** [round(1.0 - units / ALWAYS_EXPENSIVE_COST_UNITS, 4)] of the accumulated cost. *)
Definition with_savings (p : dict) : dict :=
  match dget p (py "actual_cost_units") with
  | Some (JInt n) => dset p (py "compute_savings") (JFloat (compute_savings n))
  | _ => p
  end.

(** [worker/__init__.py:545-564 EvaluationWorker._run_progressive]: the metadata of a
    finished run, accumulated when earlier stages are on record. *)
Definition finished_metadata (before : dict) (r : ProgressiveResult) : result exn dict :=
  match dget before (py "progressive") with
  | Some (JObj prior) =>
      if truthy (dget_null prior (py "stages_completed")) then
        match dget (pr_result_metadata r) (py "progressive") with
        | Some (JObj p) =>
            match with_prior (pr_stages r) (pr_actual_cost_units r) prior p with
            | Raise e => Raise e
            | Ok p' => Ok (dset (pr_result_metadata r) (py "progressive") (JObj (with_savings p')))
            end
        | _ => Raise (OtherError "KeyError")
        end
      else Ok (pr_result_metadata r)
  | _ => Ok (pr_result_metadata r)
  end.
End Metadata.

(** * One pass *)

Definition count_failed (w : Worker) : Worker := w <| wk_jobs_failed := wk_jobs_failed w + 1 |>.
Definition count_completed (w : Worker) : Worker :=
  w <| wk_jobs_completed := wk_jobs_completed w + 1 |>.

(** [worker/__init__.py:78-97 EvaluationWorker._sample_resources]: without the usage
    when psutil fails. *)
Definition sample_resources (v : SampleView) (w : Worker) : Worker :=
  w <| wk_resource_samples := wk_resource_samples w
       ++ [mkSample (wk_active_evaluations w) (wk_jobs_completed w) (wk_jobs_failed w)
             (wk_claims w) (sm_timestamp v) (fst <$> sm_usage v)
             ((fun u => fround 2 (int_truediv (snd u) (1024 * 1024))) <$> sm_usage v)] |>.

(** The other processes, between two transactions. *)
Definition others (env : PassEnv) (n : nat) : M exn World unit :=
  modify_st (fun w => mkWorld (we_other env n (wd_db w)) (wd_worker w)).

Section Pass.
Context `{PyRepr} `{Sha256} `{FloatRepr} `{IntParse}.
Context (cfg : Settings) (worker_id : pystr).

(** A failure, in a session of its own. *)
Definition settle_failed (env : PassEnv) (id : uuid) (reason : pystr) (meta : option dict)
    : M exn World unit :=
  others env 4 ;;
  committed (mark_failed (we_settle_now env) id reason meta worker_id) ;;
  attrs count_failed.

(** The metadata of a failed evaluation. *)
Definition failure_meta (evaluator : string) (c : WorkloadClass) : dict :=
  [(py "evaluator", JStr (py evaluator)); (py "workload_class", JStr (py (value c)))].

(** [worker/__init__.py:265-327 EvaluationWorker._run_legacy] *)
Definition run_legacy (env : PassEnv) (claimed : Evaluation) (submission : Submission)
    : M exn World (option bool) :=
  match evaluate_submission (we_legacy_cpu_ms env) (s_id submission) (s_metadata submission)
          (s_artifact_key submission) (Some (e_workload_class claimed)) with
  | Raise (EvaluationFailed reason) =>
      settle_failed env (e_id claimed) reason
        (Some (failure_meta "deterministic_placeholder_v2" (e_workload_class claimed))) ;;
      mret (Some true)
  | Raise (EvalRaised e) => raise e
  | Ok outcome =>
      others env 4 ;;
      result ← committed (mark_succeeded (we_settle_now env) (e_id claimed) (ev_score outcome)
                            (ev_result_metadata outcome) worker_id);
      match result with
      | None => mret (Some true)
      | Some _ => attrs count_completed ;; mret (Some true)
      end
  end.

(** [worker/__init__.py:353-364 EvaluationWorker._run_synthetic_execution.persist_started]:
    the attempt the execution reported, when its record was written in time. *)
Definition persist_started (env : PassEnv) (claimed : Evaluation) (info : option dict)
    : M exn World unit :=
  match info with
  | Some info =>
      if we_persisted env then
        others env 3 ;;
        committed (begin_execution_attempt (e_id claimed) worker_id info) ;;
        mret tt
      else mret tt
  | None => mret tt
  end.

(** [worker/__init__.py:403-463 EvaluationWorker._run_synthetic_execution], what becomes
    of the evaluation after its execution. *)
Definition settle_execution (env : PassEnv) (claimed : Evaluation) (record : EvaluationExecutionRecord)
    : M exn World (option bool) :=
  match er_terminal record with
  | T_requeue =>
      others env 4 ;;
      committed (release_for_retry (e_id claimed) worker_id (er_result_metadata record)
                   (or_text (er_failure_reason record) (py "execution_retry"))) ;;
      mret (Some true)
  | T_succeeded =>
      others env 4 ;;
      result ← committed (mark_succeeded (we_settle_now env) (e_id claimed)
                            (default 0 (er_score record)) (er_result_metadata record) worker_id);
      match result with
      | None => mret (Some true)
      | Some _ => attrs count_completed ;; mret (Some true)
      end
  | T_failed =>
      settle_failed env (e_id claimed)
        (or_text (er_failure_reason record) (py "execution_failed"))
        (Some (er_result_metadata record)) ;;
      mret (Some true)
  end.

(** [worker/__init__.py:329-463 EvaluationWorker._run_synthetic_execution]; no result
    while the execution is still being monitored. *)
Definition run_synthetic (env : PassEnv) (claimed : Evaluation) (submission : Submission)
    : M exn World (option bool) :=
  let limits := limits_with (execution_wall_timeout_seconds cfg) (execution_max_stdout_bytes cfg)
                  (execution_max_stderr_bytes cfg) in
  match run_synthetic_execution (we_fresh_attempt env) (we_mechanism env) (we_job_objects env)
          (we_run env) (e_id claimed) (s_id submission) (s_metadata submission)
          (py (value (e_workload_class claimed))) (e_attempt_count claimed)
          (evaluation_max_attempts cfg) worker_id limits with
  | None => mret None
  | Some (Raise (ValueError t)) =>
      settle_failed env (e_id claimed) (py "invalid_execution_workload: " ++ py t)
        (Some [(py "evaluator", JStr (py "synthetic_execution_v1")); (py "error", JStr (py t))]) ;;
      mret (Some true)
  | Some (Raise e) => raise e
  | Some (Ok (record, info)) =>
      persist_started env claimed info ;;
      settle_execution env claimed record
  end.

(** [worker/__init__.py:512-515 EvaluationWorker._run_progressive], the class a deferred
    job waits with. *)
Definition next_class (next_stage : Z) : WorkloadClass :=
  match stage_at DEFAULT_PLAN next_stage with
  | Some spec => stage_workload_class spec
  | None => W_HEAVY
  end.

(** [worker/__init__.py:465-609 EvaluationWorker._run_progressive] *)
Definition run_progressively (env : PassEnv) (claimed : Evaluation) (submission : Submission)
    (mode : EvaluationMode) (pressure : PressureState) : M exn World (option bool) :=
  let cc := mkCirc mode pressure (e_deadline_at claimed) (we_stage_now env) (we_stage_cpu_ms env) in
  match run_progressive DEFAULT_PLAN cc (s_id submission) (s_metadata submission)
          (s_artifact_key submission) (e_current_stage claimed) with
  | None => mret None
  | Some (Raise (EvaluationFailed reason)) =>
      settle_failed env (e_id claimed) reason
        (Some (failure_meta "progressive_synthetic_v1" (e_workload_class claimed))) ;;
      mret (Some true)
  | Some (Raise (EvalRaised e)) => raise e
  | Some (Ok progressive) =>
      if negb (pr_finished progressive) then
        match deferred_metadata (e_result_metadata claimed) progressive with
        | Raise e => raise e
        | Ok meta =>
            others env 4 ;;
            committed (defer_escalation (e_id claimed) worker_id (pr_next_stage progressive)
                         (next_class (pr_next_stage progressive)) meta) ;;
            mret (Some true)
        end
      else
        match finished_metadata (e_result_metadata claimed) progressive with
        | Raise e => raise e
        | Ok meta =>
            others env 4 ;;
            result ← session taken
                       (finish_at_stage (we_settle_now env) (e_id claimed)
                          (default 0 (pr_score progressive)) meta worker_id
                          (pr_next_stage progressive));
            match result with
            | None => mret (Some true)
            | Some _ => attrs count_completed ;; mret (Some true)
            end
        end
  end.

(** [worker/__init__.py:244-260 EvaluationWorker.process_one], the evaluation of a
    claimed job in the mode of its row. *)
Definition evaluate_claimed (env : PassEnv) (pressure : PressureState) (claimed : Evaluation)
    (submission : Submission) : M exn World (option bool) :=
  match e_evaluation_mode claimed with
  | M_LEGACY => run_legacy env claimed submission
  | M_SYNTHETIC_EXECUTION => run_synthetic env claimed submission
  | mode => run_progressively env claimed submission mode pressure
  end.

(** [worker/__init__.py:204-263 EvaluationWorker.process_one], from the claim on. *)
Definition process_claimed (crash_after_claim : bool) (env : PassEnv) (pressure : PressureState)
    (claimed : Evaluation) : M exn World (option bool) :=
  if crash_after_claim then attrs (fun w => w <| wk_stop := true |>) ;; mret (Some true)
  else
    others env 2 ;;
    found ← read_only (SubmissionRepository.get_submission (e_submission_id claimed));
    match found with
    | None =>
        settle_failed env (e_id claimed) (py "Submission missing at evaluation time.") None ;;
        mret (Some true)
    | Some submission =>
        attrs (fun w =>
          let n := wk_active_evaluations w + 1 in
          w <| wk_active_evaluations := n |> <| wk_peak_active := Z.max (wk_peak_active w) n |>) ;;
        attrs (sample_resources (we_sample_start env)) ;;
        finally (evaluate_claimed env pressure claimed submission)
          (attrs (fun w => w <| wk_active_evaluations := Z.max 0 (wk_active_evaluations w - 1) |>) ;;
           attrs (sample_resources (we_sample_end env)))
    end.

(** [worker/__init__.py:126-263 EvaluationWorker.process_one]: whether work was done,
    or no result while an execution is still being monitored. *)
Definition process_one (crash_after_claim : bool) (env : PassEnv) : M exn World (option bool) :=
  attrs (fun w => w <| wk_poll_attempts := wk_poll_attempts w + 1 |>) ;;
  plane ← read_only plane_snapshot;
  runtime_hint ← read_only read_runtime_state;
  on_runtime (set_interactive_p95_ms (sch_interactive_p95_ms runtime_hint)
                (sch_interactive_sample_count runtime_hint)) ;;
  t ← on_runtime (tick (we_tick env) (pl_queued plane) (pl_running plane));
  others env 0 ;;
  committed (persist_runtime_state (value (tk_pressure t)) (tk_effective_max_workers t)) ;;
  if negb (allowed (tk_admission t)) then
    attrs (fun w => w <| wk_admission_holds := wk_admission_holds w + 1 |>) ;;
    mret (Some false)
  else
    others env 1 ;;
    claimed ← session taken
                (claim_next (we_claim_now env) worker_id (evaluation_scheduling_policy cfg)
                   (tk_effective_max_workers t) (tk_effective_max_heavy t)
                   (evaluation_light_bypass_limit cfg));
    match claimed with
    | None =>
        attrs (fun w => w <| wk_empty_polls := wk_empty_polls w + 1 |>) ;;
        mret (Some false)
    | Some job =>
        attrs (fun w => w <| wk_claims := wk_claims w + 1 |>) ;;
        process_claimed crash_after_claim env (tk_pressure t) job
    end.

(** [worker/__init__.py:99-124 EvaluationWorker.recover_stale], the current time read
    here and again by the repository. *)
Definition recover_stale (os_of : uuid -> OsView) (now now' : datetime) : M exn World Z :=
  recovered ← session nonempty
                (recover_stale_running os_of now'
                   (now - seconds (evaluation_stale_after_seconds cfg))
                   (evaluation_max_attempts cfg));
  mret (zlen recovered).

(** One turn of the worker's loops: the recovery, then the pass, other processes
    acting before each. *)
Record Turn := mkTurn {
  tu_in_time : bool;
  tu_os_of : uuid -> OsView;
  tu_now : datetime;
  tu_now' : datetime;
  tu_before : Db -> Db;
  tu_env : PassEnv;
}.

Definition turn (crash_after_claim : bool) (u : Turn) : M exn World (option bool) :=
  modify_st (fun w => mkWorld (tu_before u (wd_db w)) (wd_worker w)) ;;
  recover_stale (tu_os_of u) (tu_now u) (tu_now' u) ;;
  process_one crash_after_claim (tu_env u).

(** [worker/__init__.py:611-617 EvaluationWorker.run_forever], over the turns given,
    until the worker is stopped or an execution has not ended. *)
Fixpoint run_forever (crash_after_claim : bool) (turns : list Turn) : M exn World unit :=
  match turns with
  | [] => mret tt
  | u :: rest =>
      stop ← gets_st (fun w => wk_stop (wd_worker w));
      if (stop : bool) then mret tt
      else
        did_work ← turn crash_after_claim u;
        match did_work with
        | None => mret tt
        | Some _ => run_forever crash_after_claim rest
        end
  end.

(** [worker/__init__.py:626-637 EvaluationWorker.drain], over the turns given; a turn
    says whether the deadline has been reached before it. *)
Fixpoint drain (crash_after_claim : bool) (max_idle_rounds idle : Z) (turns : list Turn)
    : M exn World unit :=
  match turns with
  | [] => mret tt
  | u :: rest =>
      stop ← gets_st (fun w => wk_stop (wd_worker w));
      if (idle <? max_idle_rounds) && tu_in_time u && negb stop then
        did_work ← turn crash_after_claim u;
        match did_work with
        | None => mret tt
        | Some true => drain crash_after_claim max_idle_rounds 0 rest
        | Some false => drain crash_after_claim max_idle_rounds (idle + 1) rest
        end
      else mret tt
  end.
End Pass.

End EvaluationWorker.
