(* ===== verification/EvaluationWorkerSpec.v ===== *)
(** The properties of the evaluation worker: its passes are runs of the queue's
    transactions inside the budget, a pass settles the job it claimed, and a
    deferred progressive evaluation resumes to what an undeferred one gives. *)
From Stdlib Require Import ZArith Lia String.
From stdpp Require Import prelude strings gmap.
From S2P Require Import Prelude PyFloat PyStr Domain Database Json Utf8 Config Ownership Evaluator.
From S2P Require Import EvaluationQueue EvaluationQueueFacts EvaluationQueueSpec Submissions.
From S2P Require Import Runtime RuntimeSpec Progressive ProgressiveSpec ExecutionContract Executor.
From S2P Require Import EvaluationWorker.
Import EvaluationRepository EvaluationWorker.

(** * Runs of the queue *)

(** The databases that transactions satisfying [ok] reach, while statements on
    other tables come between. *)
Inductive queue_run `{PyRepr} (ok : Action -> Prop) : Db -> Db -> Prop :=
| qr_done db : queue_run ok db db
| qr_step a db db' : ok a -> queue_run ok (step db a) db' -> queue_run ok db db'
| qr_elsewhere db db1 db' :
    evaluations db1 = evaluations db -> scheduler_state db1 = scheduler_state db ->
    queue_run ok db1 db' -> queue_run ok db db'.

(** No job but [s] runs under the worker's identifier. *)
Definition owns (worker_id : pystr) (s : option uuid) (db : Db) : Prop :=
  forall k r, evaluations db !! k = Some r -> e_status r = E_RUNNING ->
  e_worker_id r = Some worker_id -> s = Some k.

(** A transaction of another worker within the budget. *)
Definition foreign (N Hv : Z) (worker_id : pystr) (a : Action) : Prop :=
  claims_within N Hv a
  /\ match a with AClaim _ w _ _ _ _ => w <> worker_id | _ => True end.

Section QueueRuns.
Context `{PyRepr}.

Lemma queue_run_trans ok a b c : queue_run ok a b -> queue_run ok b c -> queue_run ok a c.
Proof. induction 1; eauto using queue_run. Qed.

Lemma queue_run_mono (ok ok' : Action -> Prop) a b :
  (forall x, ok x -> ok' x) -> queue_run ok a b -> queue_run ok' a b.
Proof. intros Hok. induction 1; eauto using queue_run. Qed.

Lemma queue_run_one (ok : Action -> Prop) a db : ok a -> queue_run ok db (step db a).
Proof. intros. eapply qr_step; [done|apply qr_done]. Qed.

(** An invariant of the two tables that every transaction keeps. *)
Lemma queue_run_ind_inv ok (P : Db -> Prop) :
  (forall db a, queue_wf db -> ok a -> P db -> P (step db a)) ->
  (forall db db1, evaluations db1 = evaluations db -> P db -> P db1) ->
  forall a b, queue_run ok a b -> queue_wf a -> P a -> queue_wf b /\ P b.
Proof.
  intros Hstep Helse a b. induction 1 as [|x db db' Hx _ IH|db db1 db' He Hs _ IH]; intros Hwf HP.
  - done.
  - apply IH; [by apply step_wf|by apply Hstep].
  - apply IH; [|by apply (Helse db)]. unfold queue_wf. by rewrite He, Hs.
Qed.

Lemma queue_run_wf ok a b : queue_run ok a b -> queue_wf a -> queue_wf b.
Proof. intros Hr Hwf. by apply (queue_run_ind_inv ok (fun _ => True)) with a. Qed.

Lemma queue_run_counts N Hv a b :
  queue_run (claims_within N Hv) a b -> queue_wf a ->
  count_status E_RUNNING a <= N -> count_running_heavy a <= Hv ->
  count_status E_RUNNING b <= N /\ count_running_heavy b <= Hv.
Proof.
  intros Hr Hwf HN HH.
  apply (queue_run_ind_inv (claims_within N Hv)
           (fun db => count_status E_RUNNING db <= N /\ count_running_heavy db <= Hv)) with a; auto.
  - intros db x Hw Hx [? ?]. by apply step_bounds.
  - intros db db1 He. unfold count_status, count_running_heavy. by rewrite He.
Qed.

(** Only the worker's own claims give it a job. *)
Lemma step_owns w s a db :
  queue_wf db -> match a with AClaim _ w' _ _ _ _ => w' <> w | _ => True end ->
  owns w s db -> owns w s (step db a).
Proof.
  intros Hwf Ha Ho k r' Hk Hst Hw. destruct (is_claim a) eqn:Hc.
  - destruct a as [|now w' p mw mh l| | | | | | | | |]; try done.
    destruct (step_claim now w' p mw mh l db Hwf) as (o & db' & _ & E & Hn & Hs).
    unfold step in Hk. rewrite E in Hk. cbn [snd] in Hk. destruct o as [r|].
    + destruct (Hs r eq_refl) as [(_ & _ & _ & _ & _ & _ & Hev) _]. rewrite Hev in Hk.
      destruct (decide (k = e_id r)) as [->|Hne].
      * rewrite lookup_insert_eq in Hk. simplify_eq. cbn in Hw. congruence.
      * rewrite lookup_insert_ne in Hk by done. by eapply Ho.
    + rewrite Hn in Hk by done. by eapply Ho.
  - destruct (step_quiet a db Hwf Hc) as (Hev & Hruns & _).
    destruct (Hruns k r' Hk Hst) as (r & Hr & Hrun & _). specialize (Hev k). rewrite Hr, Hk in Hev.
    destruct Hev as [->|Hch]; [by eapply Ho|].
    destruct Hch as [|r r' _ _ _ _ _ Hkeep]; [congruence|]. destruct (Hkeep Hst) as [E _].
    eapply Ho; [exact Hr|done|congruence].
Qed.

Lemma queue_run_owns N Hv w s a b :
  queue_run (foreign N Hv w) a b -> queue_wf a -> owns w s a -> owns w s b.
Proof.
  intros Hr Hwf Ho. apply (queue_run_ind_inv (foreign N Hv w) (owns w s)) with a; auto.
  - intros db x Hw [_ Hx] Hs. by apply step_owns.
  - intros db db1 He Hs k r. rewrite He. apply Hs.
Qed.
End QueueRuns.

(** * Executions *)

Lemma disposition_score o n k : 0 <= default 0 (di_score (disposition o n k)) <= 100.
Proof.
  unfold disposition. destruct (n <? k), o; vm_compute; split; discriminate.
Qed.

Section Executions.
Context (fresh : uuid) (mech : pystr) (jo : bool) (rv : RunView) (eid sid : uuid) (meta : dict)
        (cls : pystr) (n k : Z) (w : pystr) (l : ExecutionLimits).

Abbreviation execution := (run_synthetic_execution fresh mech jo rv eid sid meta cls n k w l).

Lemma execution_score rec info :
  execution = Some (Ok (rec, info)) -> 0 <= default 0 (er_score rec) <= 100.
Proof.
  unfold run_synthetic_execution. destruct (resolve_workload _ _); [|done].
  destruct (run_executor _ _ _); [|done]. intros [= <- _]. apply disposition_score.
Qed.

Lemma execution_raises e : execution = Some (Raise e) -> exists t, e = ValueError t.
Proof.
  unfold run_synthetic_execution. destruct (resolve_workload _ _) as [x|e'] eqn:E.
  - by destruct (run_executor _ _ _).
  - intros [= ->]. revert E. unfold resolve_workload. repeat case_match; naive_solver.
Qed.

Lemma execution_unfinished : execution = None -> exists l' x, run_executor l' x rv = None.
Proof.
  unfold run_synthetic_execution. destruct (resolve_workload _ _) as [x|]; [|done].
  destruct (run_executor _ _ _) eqn:E; [done|eauto].
Qed.
End Executions.

(** * Settling a job *)

(** The computation [c] on the queue, committed when [keep] says so, always
    returns, and afterwards the worker has no job. *)
Definition settles {A} (w : pystr) (id : uuid) (keep : A -> bool) (c : M exn Db A) : Prop :=
  forall db, queue_wf db -> owns w (Some id) db ->
  exists o db', c db = (Ok o, db') /\ owns w None (if keep o then db' else db).

Lemma owns_insert w id r db :
  owns w (Some id) db -> e_status r <> E_RUNNING ->
  owns w None (set_evaluations (<[id := r]> (evaluations db)) db).
Proof.
  intros Ho Hst k r' Hk Hr Hw. cbn in Hk. destruct (decide (k = id)) as [->|Hne].
  - rewrite lookup_insert_eq in Hk. congruence.
  - rewrite lookup_insert_ne in Hk by done. specialize (Ho k r' Hk Hr Hw). congruence.
Qed.

Lemma owns_nothing w id db :
  owns w (Some id) db ->
  (forall r, evaluations db !! id = Some r -> ~ (e_status r = E_RUNNING /\ e_worker_id r = Some w)) ->
  owns w None db.
Proof.
  intros Ho Hno k r Hk Hst Hw. specialize (Ho k r Hk Hst Hw). simplify_eq. naive_solver.
Qed.

(** An owner's update whose values satisfy the constraints returns. *)
Lemma update_owned_total id w f db :
  (forall r, evaluations db !! id = Some r -> evaluation_check (f r) = true) ->
  (exists r, evaluations db !! id = Some r /\ e_status r = E_RUNNING /\ e_worker_id r = Some w
     /\ update_owned id w f db
        = (Ok (Some (f r)), set_evaluations (<[id := f r]> (evaluations db)) db))
  \/ update_owned id w f db = (Ok None, db)
     /\ forall r, evaluations db !! id = Some r ->
          ~ (e_status r = E_RUNNING /\ e_worker_id r = Some w).
Proof.
  intros Hf. unfold update_owned, get, gets_st. rewrite run_bind.
  destruct (evaluations db !! id) as [r|] eqn:Hk; [|right; split; [done|congruence]].
  destruct (has_status E_RUNNING r) eqn:Hst; cbn [andb]; cycle 1.
  { right. split; [done|]. apply has_status_false in Hst. naive_solver. }
  case_bool_decide as Hw; [left|right; naive_solver]. apply has_status_true in Hst.
  exists r. rewrite run_bind. unfold update_evaluation. by rewrite update_row_run, (Hf r eq_refl).
Qed.

Lemma wf_check db k r : queue_wf db -> evaluations db !! k = Some r -> evaluation_check r = true.
Proof. intros [Hrows _] Hk. by destruct (Hrows k r Hk) as (_ & ? & _). Qed.

(** An owner's update that passes the row's constraints and ends its run. *)
Lemma update_owned_settles w id f :
  (forall r, evaluation_check r = true -> evaluation_check (f r) = true /\ e_status (f r) <> E_RUNNING) ->
  settles w id (fun _ => true) (update_owned id w f).
Proof.
  intros Hf db Hwf Ho.
  destruct (update_owned_total id w f db) as [(r & Hk & Hst & Hw & E)|[E Hno]].
  - intros r Hk. apply Hf. by eapply wf_check.
  - eexists _, _. split; [exact E|]. apply owns_insert; [done|]. apply Hf. by eapply wf_check.
  - eexists _, _. split; [exact E|]. by eapply owns_nothing.
Qed.

Ltac check_tac :=
  intros r Hck; split; [|done]; unfold evaluation_check in *; destruct r, e_score;
  cbn in *; zify_bool; lia.

Lemma defer_settles w id st c meta :
  0 <= st -> settles w id (fun _ => true) (defer_escalation id w st c meta).
Proof. intros. apply update_owned_settles. check_tac. Qed.

Lemma release_settles w id meta reason :
  settles w id (fun _ => true) (release_for_retry id w meta reason).
Proof. apply update_owned_settles. check_tac. Qed.

Lemma succeed_settles now w id sc meta :
  0 <= sc <= 100 -> settles w id (fun _ => true) (mark_succeeded now id sc meta w).
Proof. intros. apply update_owned_settles. check_tac. Qed.

Lemma fail_settles now w id reason meta :
  settles w id (fun _ => true) (mark_failed now id reason meta w).
Proof. apply update_owned_settles. check_tac. Qed.

Lemma finish_settles now w id sc meta st :
  0 <= sc <= 100 -> 0 <= st -> settles w id taken (finish_at_stage now id sc meta w st).
Proof.
  intros Hsc Hst db Hwf Ho. unfold finish_at_stage, mark_succeeded. rewrite run_bind.
  match goal with |- context [update_owned id w ?f db] =>
    destruct (update_owned_total id w f db) as [(r & Hk & Hrun & Hw & ->)|[-> Hno]] end.
  - intros r Hk. pose proof (wf_check db id r Hwf Hk) as Hck.
    unfold evaluation_check in *. destruct r, e_score; cbn in *; zify_bool; lia.
  - pose proof (wf_check db id r Hwf Hk) as Hck. rewrite run_bind. unfold update_evaluation.
    rewrite update_row_run. match goal with |- context [evaluation_check ?x] =>
      assert (evaluation_check x = true) as -> end.
    { unfold evaluation_check in *. destruct r, e_score; cbn in *; zify_bool; lia. }
    eexists _, _. split; [reflexivity|]. cbn [taken].
    intros k r' Hk'. cbn in Hk'. rewrite insert_insert_eq in Hk'. revert k r' Hk'.
    by apply (owns_insert w id _ db Ho).
  - eexists _, _. split; [reflexivity|]. cbn [taken]. by eapply owns_nothing.
Qed.

(** * The worker's invariant *)

(** The runtime keeps its budget; when enabled, all that its ticks rely on. *)
Definition worker_ok (b : ResourceBudget) (w : Worker) : Prop :=
  rt_budget (wk_runtime w) = b
  /\ (rt_enabled (wk_runtime w) = true -> runtime_ok b (wk_runtime w)).

Lemma new_worker_ok cfg : worker_ok (from_settings cfg) (new_worker cfg).
Proof.
  split; [done|]. cbn. intros ->. apply new_runtime_ok, from_settings_ok.
Qed.

(** What a tick promises to the claim that follows it. *)
Definition tick_within (b : ResourceBudget) (t : TickResult) : Prop :=
  worker_cap (tk_effective_max_workers t) <= max_evaluation_concurrency b
  /\ tk_effective_max_heavy t <= max_concurrent_heavy b.

Lemma tick_stays b env q n v count r :
  budget_ok b -> 0 <= max_concurrent_heavy b -> rt_budget r = b ->
  (rt_enabled r = true -> runtime_ok b r) ->
  exists t r', (set_interactive_p95_ms v count ;; tick env q n) r = (Ok t, r')
  /\ rt_budget r' = b /\ (rt_enabled r' = true -> runtime_ok b r') /\ tick_within b t.
Proof.
  intros Hb Hh Hbud Hok. destruct (rt_enabled r) eqn:Hen.
  - destruct (tick_run b r (mkPoll env q n v count) Hb (Hok eq_refl))
      as (t & r' & E & Hok' & (s & _ & _ & _ & _ & Hrange & _ & Hheavy & _) & _).
    exists t, r'. split; [exact E|]. split; [apply Hok'|]. split; [done|].
    unfold tick_within, worker_cap, budget_ok in *. rewrite Hheavy.
    split; [lia|]. case_bool_decide; lia.
  - destruct r; cbn in Hbud, Hen; subst. eexists _, _. split; [reflexivity|].
    split; [done|]. split; [done|].
    unfold tick_within, worker_cap, budget_ok in *. cbn. lia.
Qed.

Section Passes.
Context `{PyRepr} `{Sha256} `{FloatRepr} `{IntParse}.
Context (cfg : Settings) (worker_id : pystr).

Let b := from_settings cfg.
Let N := max_evaluation_concurrency b.
Let Hv := max_concurrent_heavy b.

(** The other processes act by transactions of other workers. *)
Definition other_processes (f : Db -> Db) : Prop :=
  forall db, queue_run (foreign N Hv worker_id) db (f db).

Definition env_ok (env : PassEnv) : Prop := forall n, other_processes (we_other env n).

(** From [db0] the queue has run within the budget, and the worker has at most the
    job [s]. *)
Record pass_inv (db0 : Db) (s : option uuid) (w : World) : Prop := {
  pi_run : queue_run (claims_within N Hv) db0 (wd_db w);
  pi_owns : owns worker_id s (wd_db w);
  pi_worker : worker_ok b (wd_worker w);
}.

Section Triples.
Context (db0 : Db) (Hwf0 : queue_wf db0) (X : exn -> World -> Prop).

Abbreviation inv := (pass_inv db0).

Lemma inv_wf s w : inv s w -> queue_wf (wd_db w).
Proof using Hwf0. intros [Hr _ _]. by eapply queue_run_wf. Qed.

Lemma attrs_triple s f :
  (forall w, wk_runtime (f w) = wk_runtime w) ->
  triple (inv s) (attrs f) (fun _ => inv s) X.
Proof. intros Hf w [Hr Ho Hw]. split; [done..|]. unfold worker_ok. cbn. by rewrite Hf. Qed.

Lemma foreign_within db db' :
  queue_run (foreign N Hv worker_id) db db' -> queue_run (claims_within N Hv) db db'.
Proof. apply queue_run_mono. by intros x [? _]. Qed.

Lemma others_act f s w : other_processes f -> inv s w -> inv s (mkWorld (f (wd_db w)) (wd_worker w)).
Proof using Hwf0.
  intros Hf Hi. pose proof (inv_wf _ _ Hi) as Hwf. destruct Hi as [Hr Ho Hw]. specialize (Hf (wd_db w)).
  split; [|by eapply queue_run_owns|done].
  eapply queue_run_trans; [done|by apply foreign_within].
Qed.

Lemma others_triple s env n : env_ok env -> triple (inv s) (others env n) (fun _ => inv s) X.
Proof using Hwf0. intros He w Hi. by apply others_act. Qed.

Lemma read_only_triple {A} s (f : Db -> A) (Q : A -> World -> Prop) :
  (forall w, inv s w -> Q (f (wd_db w)) w) -> triple (inv s) (read_only (gets_st f)) Q X.
Proof. intros HQ w Hi. by apply HQ. Qed.

(** A session that carries out the transaction [a]. *)
Lemma session_step {A} (keep : A -> bool) (c : M exn Db A) (k : A -> list Evaluation) a w o d :
  (forall db, perform a db = (x ← c; mret (k x)) db) -> (forall x, rolled_back a (k x) = negb (keep x)) ->
  c (wd_db w) = (Ok o, d) ->
  session keep c w = (Ok o, mkWorld (step (wd_db w) a) (wd_worker w))
  /\ step (wd_db w) a = (if keep o then d else wd_db w).
Proof.
  intros Ha Hk E. unfold step, run_action. rewrite Ha, run_bind, E. cbn. unfold session. rewrite E, Hk. destruct (keep o); cbn [negb snd]; [done|]. by destruct w.
Qed.

(** A transaction that is not a claim keeps the invariant. *)
Lemma session_triple {A} s (keep : A -> bool) (c : M exn Db A) (k : A -> list Evaluation) a :
  (forall db, perform a db = (x ← c; mret (k x)) db) -> (forall x, rolled_back a (k x) = negb (keep x)) ->
  is_claim a = false -> (forall db, queue_wf db -> exists o d, c db = (Ok o, d)) ->
  triple (inv s) (session keep c) (fun _ => inv s) X.
Proof using Hwf0.
  intros Ha Hk Hc Hok w Hi. pose proof (inv_wf _ _ Hi) as Hwf.
  destruct (Hok (wd_db w) Hwf) as (o & d & E).
  destruct (session_step keep c k a w o d Ha Hk E) as [-> _]. destruct Hi as [Hr Ho Hw].
  assert (claims_within N Hv a) as Hin by (destruct a; done).
  split; [|apply step_owns; [done|by destruct a|done]|done].
  eapply queue_run_trans; [done|by apply queue_run_one].
Qed.

(** A settlement leaves the worker without a job. *)
Lemma settle_triple {A} id (keep : A -> bool) (c : M exn Db A) (k : A -> list Evaluation) a :
  settles worker_id id keep c ->
  (forall db, perform a db = (x ← c; mret (k x)) db) -> (forall x, rolled_back a (k x) = negb (keep x)) ->
  is_claim a = false -> triple (inv (Some id)) (session keep c) (fun _ => inv None) X.
Proof using Hwf0.
  intros Hs Ha Hk Hc w Hi. pose proof (inv_wf _ _ Hi) as Hwf. destruct Hi as [Hr Ho Hw].
  destruct (Hs (wd_db w) Hwf Ho) as (o & d & E & Hnone).
  destruct (session_step keep c k a w o d Ha Hk E) as [-> Estep].
  assert (claims_within N Hv a) as Hin by (destruct a; done).
  split; [|cbn; by rewrite Estep|done].
  eapply queue_run_trans; [done|by apply queue_run_one].
Qed.

(** * One pass *)

(** What an evaluator raises through the pass: metadata that cannot be written as
    JSON, or earlier progress that cannot be added to. *)
Definition evaluator_raises (env : PassEnv) (p : PressureState) (job : Evaluation)
    (sub : Submission) (e : exn) : Prop :=
  match e_evaluation_mode job with
  | M_LEGACY =>
      evaluate_submission (we_legacy_cpu_ms env) (s_id sub) (s_metadata sub) (s_artifact_key sub)
        (Some (e_workload_class job)) = Raise (EvalRaised e)
  | M_SYNTHETIC_EXECUTION => False
  | mode =>
      let cc := mkCirc mode p (e_deadline_at job) (we_stage_now env) (we_stage_cpu_ms env) in
      match run_progressive DEFAULT_PLAN cc (s_id sub) (s_metadata sub) (s_artifact_key sub)
              (e_current_stage job) with
      | Some (Raise (EvalRaised e')) => e' = e
      | Some (Ok r) => (if pr_finished r then finished_metadata (e_result_metadata job) r
                        else deferred_metadata (e_result_metadata job) r) = Raise e
      | _ => False
      end
  end.

(** The execution of a job is still being monitored. *)
Definition unfinished (env : PassEnv) (job : Evaluation) : Prop :=
  e_evaluation_mode job = M_SYNTHETIC_EXECUTION
  /\ exists l workload, run_executor l workload (we_run env) = None.

(** The ways a pass ends: idle again, in a monitored execution, or with what an
    evaluator raised; in the last two the claimed job is still the worker's. *)
Definition pass_done (env : PassEnv) (r : option bool) (w : World) : Prop :=
  match r with
  | Some _ => inv None w
  | None => exists job, inv (Some (e_id job)) w /\ unfinished env job
  end.

Definition pass_raised (env : PassEnv) (e : exn) (w : World) : Prop :=
  exists job sub p, inv (Some (e_id job)) w /\ evaluator_raises env p job sub e.
End Triples.

Section OnePass.
Context (db0 : Db) (Hwf0 : queue_wf db0) (env : PassEnv) (Henv : env_ok env).

Abbreviation inv := (pass_inv db0).
Abbreviation done_ := (pass_done db0 env).
Abbreviation raised := (pass_raised db0 env).

Lemma settle_failed_triple id reason meta :
  triple (inv (Some id)) (settle_failed worker_id env id reason meta) (fun _ => inv None) raised.
Proof using Hwf0 Henv.
  eapply triple_seq; [by apply others_triple|].
  eapply triple_seq.
  - apply (settle_triple db0 Hwf0 raised id (fun _ => true) _ option_list
             (AFail (we_settle_now env) id reason meta worker_id)); try done. apply fail_settles.
  - by apply attrs_triple.
Qed.

(** A settlement that counts the job when it was still the worker's. *)
Lemma settle_counted_triple id (keep : option Evaluation -> bool) c a :
  settles worker_id id keep c -> (forall db, perform a db = (x ← c; mret (option_list x)) db) ->
  (forall x, rolled_back a (option_list x) = negb (keep x)) -> is_claim a = false ->
  triple (inv (Some id))
    (others env 4 ;; result ← session keep c;
     match result with
     | None => mret (Some true)
     | Some _ => attrs count_completed ;; mret (Some true)
     end) done_ raised.
Proof using Hwf0 Henv.
  intros Hs Ha Hk Hc. eapply triple_seq; [by apply others_triple|].
  eapply triple_bind; [by eapply settle_triple|]. intros [r|]; [|by apply triple_ret].
  eapply triple_seq; [by apply attrs_triple|]. by apply triple_ret.
Qed.

(** A settlement of any other kind. *)
Lemma settle_plain_triple id c a :
  settles worker_id id (fun _ => true) c -> (forall db, perform a db = (x ← c; mret (option_list x)) db) ->
  rolled_back a = (fun _ => false) -> is_claim a = false ->
  triple (inv (Some id)) (others env 4 ;; committed c ;; mret (Some true)) done_ raised.
Proof using Hwf0 Henv.
  intros Hs Ha Hk Hc. eapply triple_seq; [by apply others_triple|].
  eapply triple_seq; [|by apply triple_ret].
  eapply settle_triple; [done..| |done]. intros x. by rewrite Hk.
Qed.

Lemma settle_failed_done id reason meta :
  triple (inv (Some id)) (settle_failed worker_id env id reason meta ;; mret (Some true)) done_ raised.
Proof using Hwf0 Henv.
  eapply triple_seq; [apply settle_failed_triple|]. by apply triple_ret.
Qed.

Lemma run_legacy_triple (p : PressureState) job sub :
  e_evaluation_mode job = M_LEGACY ->
  triple (inv (Some (e_id job))) (run_legacy worker_id env job sub) done_ raised.
Proof using Hwf0 Henv.
  intros Hm. unfold run_legacy.
  destruct (evaluate_submission _ _ _ _ _) as [o|[reason|e]] eqn:E.
  - apply settle_counted_triple with
      (ASucceed (we_settle_now env) (e_id job) (ev_score o) (ev_result_metadata o) worker_id); try done.
    apply succeed_settles. by eapply evaluate_score.
  - apply settle_failed_done.
  - apply triple_raise. intros w Hi. exists job, sub, p. split; [done|].
    unfold evaluator_raises. by rewrite Hm.
Qed.

Lemma run_progressively_triple p job sub mode :
  e_evaluation_mode job = mode -> mode <> M_LEGACY -> mode <> M_SYNTHETIC_EXECUTION ->
  triple (inv (Some (e_id job))) (run_progressively worker_id env job sub mode p) done_ raised.
Proof using Hwf0 Henv.
  intros Hm Hnl Hns. unfold run_progressively. set (cc := mkCirc _ _ _ _ _).
  assert (forall e, (match run_progressive DEFAULT_PLAN cc (s_id sub) (s_metadata sub)
                             (s_artifact_key sub) (e_current_stage job) with
                     | Some (Raise (EvalRaised e')) => e' = e
                     | Some (Ok r) => (if pr_finished r then finished_metadata (e_result_metadata job) r
                                       else deferred_metadata (e_result_metadata job) r) = Raise e
                     | _ => False
                     end) ->
          triple (inv (Some (e_id job))) (raise e) done_ raised) as Hraise.
  { intros e He. apply triple_raise. intros w Hi. exists job, sub, p. split; [done|].
    unfold evaluator_raises. rewrite Hm. by destruct mode. }
  destruct (run_from_total DEFAULT_PLAN cc (s_id sub) (s_metadata sub) (s_artifact_key sub)
              (S (length DEFAULT_PLAN)) (Z.max 0 (e_current_stage job)) no_progress)
    as (res & Hres & _); [lia|unfold zlen; cbn; lia|].
  specialize (Hres _ (le_n _)). fold (run_progressive DEFAULT_PLAN cc (s_id sub) (s_metadata sub)
    (s_artifact_key sub) (e_current_stage job)) in Hres.
  rewrite Hres in Hraise |- *. destruct res as [r|[reason|e]]; [|apply settle_failed_done|by apply Hraise].
  assert (0 <= default 0 (pr_score r) <= 100 /\ 0 <= pr_next_stage r) as [Hsc Hst].
  { eapply run_from_percentage; [| |exact Hres]; cbn; lia. }
  destruct (pr_finished r); cbn [negb].
  - destruct (finished_metadata _ _) as [meta|e]; [|by apply Hraise].
    apply settle_counted_triple with
      (AFinish (we_settle_now env) (e_id job) (default 0 (pr_score r)) meta worker_id
         (pr_next_stage r)); try done.
    + by apply finish_settles.
    + by intros [].
  - destruct (deferred_metadata _ _) as [meta|e]; [|by apply Hraise].
    apply settle_plain_triple with
      (ADefer (e_id job) worker_id (pr_next_stage r) (next_class (pr_next_stage r)) meta); try done.
    by apply defer_settles.
Qed.

Lemma persist_started_triple job info :
  triple (inv (Some (e_id job))) (persist_started worker_id env job info)
    (fun _ => inv (Some (e_id job))) raised.
Proof using Hwf0 Henv.
  destruct info as [info|]; [|by apply triple_ret]. cbn [persist_started].
  destruct (we_persisted env); [|by apply triple_ret].
  eapply triple_seq; [by apply others_triple|]. eapply triple_seq; [|by apply triple_ret].
  eapply (session_triple db0 Hwf0 raised (Some (e_id job)) (fun _ => true) _ option_list
            (ABegin (e_id job) worker_id info)); try done.
  intros db Hwf. unfold begin_execution_attempt.
  match goal with |- context [update_owned ?id ?w ?f db] =>
    destruct (update_owned_total id w f db) as [(r & _ & _ & _ & ->)|[-> _]] end; [|by eauto..].
  intros r Hk. pose proof (wf_check _ _ _ Hwf Hk) as Hck.
  unfold evaluation_check in *. by destruct r.
Qed.

Lemma run_synthetic_triple job sub :
  e_evaluation_mode job = M_SYNTHETIC_EXECUTION ->
  triple (inv (Some (e_id job))) (run_synthetic cfg worker_id env job sub) done_ raised.
Proof using Hwf0 Henv.
  intros Hm. unfold run_synthetic. cbv zeta. set (l := limits_with _ _ _).
  destruct (run_synthetic_execution _ _ _ _ _ _ _ _ _ _ _ _) as [[[rec info]|e]|] eqn:E.
  - eapply triple_seq; [apply persist_started_triple|]. unfold settle_execution.
    destruct (er_terminal rec) eqn:Ht.
    + apply settle_counted_triple with
        (ASucceed (we_settle_now env) (e_id job) (default 0 (er_score rec))
           (er_result_metadata rec) worker_id); try done.
      apply succeed_settles. by eapply execution_score.
    + apply settle_failed_done.
    + apply settle_plain_triple with
        (ARelease (e_id job) worker_id (er_result_metadata rec)
           (or_text (er_failure_reason rec) (py "execution_retry"))); try done.
      apply release_settles.
  - destruct (execution_raises _ _ _ _ _ _ _ _ _ _ _ _ _ E) as [t ->]. apply settle_failed_done.
  - apply triple_ret. intros w Hi. exists job. split; [done|]. split; [done|].
    by eapply execution_unfinished.
Qed.

Lemma evaluate_claimed_triple p job sub :
  triple (inv (Some (e_id job))) (evaluate_claimed cfg worker_id env p job sub) done_ raised.
Proof using Hwf0 Henv.
  unfold evaluate_claimed. destruct (e_evaluation_mode job) eqn:Hm.
  all: first [by apply (run_legacy_triple p)|by apply run_synthetic_triple
             |by apply run_progressively_triple].
Qed.

(** The statements that end an evaluation keep what it reached. *)
Lemma finally_triple id c f :
  triple (inv (Some id)) c done_ raised -> (forall w, wk_runtime (f w) = wk_runtime w) ->
  triple (inv (Some id)) (finally c (attrs f)) done_ raised.
Proof.
  intros Hc Hf w Hi. unfold finally. specialize (Hc w Hi).
  assert (forall s w', inv s w' -> inv s (mkWorld (wd_db w') (f (wd_worker w')))) as Hk.
  { intros s w' Hi'. by apply (attrs_triple db0 (fun _ _ => True) s f Hf w'). }
  destruct (c w) as [[[r|]|e] w']; cbn.
  - by apply Hk.
  - destruct Hc as (job & ? & ?). exists job. split; [by apply Hk|done].
  - destruct Hc as (job & sub & p & ? & ?). exists job, sub, p. split; [by apply Hk|done].
Qed.

Lemma process_claimed_triple p job :
  triple (inv (Some (e_id job))) (process_claimed cfg worker_id false env p job) done_ raised.
Proof using Hwf0 Henv.
  unfold process_claimed. eapply triple_seq; [by apply others_triple|].
  eapply triple_bind; [by apply (read_only_triple db0 _ _ _ (fun _ => inv (Some (e_id job))))|].
  intros [sub|]; [|apply settle_failed_done].
  eapply triple_seq; [by apply attrs_triple|]. eapply triple_seq; [by apply attrs_triple|].
  apply (finally_triple _ _ (fun w => sample_resources (we_sample_end env)
    (w <| wk_active_evaluations := Z.max 0 (wk_active_evaluations w - 1) |>))); [|done].
  apply evaluate_claimed_triple.
Qed.

(** A claim within the tick's caps gives the worker the row it returns. *)
Lemma claim_triple now policy limit t :
  tick_within b t ->
  triple (inv None)
    (session taken (claim_next now worker_id policy (tk_effective_max_workers t)
                      (tk_effective_max_heavy t) limit))
    (fun o => inv (e_id <$> o)) raised.
Proof using Hwf0.
  intros [Hw Hh] w Hi. pose proof (inv_wf db0 Hwf0 _ _ Hi) as Hwf. destruct Hi as [Hr Ho Hok].
  destruct (claim_next_run now worker_id policy (tk_effective_max_workers t)
              (tk_effective_max_heavy t) limit (wd_db w) Hwf)
    as (o & db' & E & Hout & (_ & _ & _ & _ & _ & _ & Hev) & _).
  set (a := AClaim now worker_id policy (tk_effective_max_workers t) (tk_effective_max_heavy t) limit).
  destruct (session_step taken _ option_list a w _ _ ltac:(done) ltac:(by intros []) E)
    as [-> Estep].
  assert (claims_within N Hv a) as Hin.
  { pose proof (from_settings_ok cfg) as Hb. unfold budget_ok in Hb. fold b in Hb.
    split; [exact Hw|]. unfold heavy_cap. unfold Hv, b, from_settings in *. cbn in *. lia. }
  split; [eapply queue_run_trans; [exact Hr|by apply queue_run_one]| |done].
  cbn [wd_db]. rewrite Estep. destruct o as [r|]; cbn [fmap option_fmap option_map taken]; [|done].
  intros k r' Hk Hst Hwk. rewrite Hev in Hk. destruct (decide (k = e_id r)) as [->|Hne]; [done|].
  rewrite lookup_insert_ne in Hk by done. by specialize (Ho k r' Hk Hst Hwk).
Qed.

Lemma publish_triple p n :
  triple (inv None) (committed (persist_runtime_state p n)) (fun _ => inv None) raised.
Proof using Hwf0.
  apply (session_triple db0 Hwf0 raised None (fun _ => true) _ (fun _ => []) (ARuntime p n)); try done.
  intros db [_ Hsched]. unfold persist_runtime_state.
  destruct (ensure_lock_run (mkSched None 0 p (Some n) None 0 None) db Hsched eq_refl eq_refl)
    as (s & Hs0 & _ & Hens & Hlock).
  rewrite run_bind, Hens, run_bind, Hlock, save_scheduler_again by (cbn; lia). eauto.
Qed.

(** The runtime is told the latency and ticks. *)
Lemma tick_triple {B} te q n v count (k : TickResult -> M exn World B) Q :
  (forall t, tick_within b t -> triple (inv None) (k t) Q raised) ->
  triple (inv None) (on_runtime (set_interactive_p95_ms v count) ;;
                     t ← on_runtime (tick te q n); k t) Q raised.
Proof.
  intros Hk w Hi. destruct Hi as [Hr Ho [Hbud Hok]].
  pose proof (from_settings_ok cfg) as Hb. fold b in Hb.
  assert (0 <= max_concurrent_heavy b) as Hh by (unfold b, from_settings; cbn; lia).
  destruct (tick_stays b te q n v count _ Hb Hh Hbud Hok) as (t & r' & E & Hbud' & Hok' & Ht).
  rewrite run_bind in E. rewrite run_bind. unfold on_runtime at 1, zoom.
  unfold set_interactive_p95_ms, modify_st in E |- *. cbn [wd_db wd_worker].
  rewrite run_bind. unfold on_runtime, zoom. cbn [wd_db wd_worker].
  change (wk_runtime (wd_worker w <| wk_runtime := ?x |>)) with x.
  rewrite E. apply Hk; [done|]. by split.
Qed.

Lemma process_one_triple :
  triple (inv None) (process_one cfg worker_id false env) done_ raised.
Proof using Hwf0 Henv.
  unfold process_one. eapply triple_seq; [by apply attrs_triple|].
  eapply triple_bind; [by apply (read_only_triple db0 _ _ _ (fun _ => inv None))|intros plane].
  eapply triple_bind.
  { instantiate (1 := fun _ => inv None). intros w Hi. unfold read_only, session, read_runtime_state.
    unfold get_st. rewrite run_bind. by destruct (scheduler_state (wd_db w)). }
  intros hint. apply tick_triple. intros t Ht.
  eapply triple_seq; [by apply others_triple|]. eapply triple_seq; [apply publish_triple|].
  destruct (allowed _); cbn [negb]; cycle 1.
  { eapply triple_seq; [by apply attrs_triple|]. by apply triple_ret. }
  eapply triple_seq; [by apply others_triple|].
  eapply triple_bind; [by apply claim_triple|]. intros [job|]; cbn [fmap option_fmap option_map].
  - eapply triple_seq; [by apply attrs_triple|]. apply process_claimed_triple.
  - eapply triple_seq; [by apply attrs_triple|]. by apply triple_ret.
Qed.

Lemma recover_stale_triple os now now' :
  triple (inv None) (recover_stale cfg os now now') (fun _ => inv None) raised.
Proof using Hwf0.
  unfold recover_stale. eapply (triple_bind _ _ _ _ (fun _ => inv None));
    [|intros l; by apply triple_ret].
  apply (session_triple db0 Hwf0 raised None nonempty _ id
           (ARecover os now' (now - seconds (evaluation_stale_after_seconds cfg))
              (evaluation_max_attempts cfg))); try done.
  - intros db. rewrite run_bind. cbn [perform]. by destruct (recover_stale_running _ _ _ _ db) as [[]].
  - intros db Hwf. destruct (recover_stale_run os now'
      (now - seconds (evaluation_stale_after_seconds cfg)) (evaluation_max_attempts cfg) db Hwf)
      as [_ E]. rewrite E. eauto.
Qed.
End OnePass.

(** C10 A pass settles what it claims: from a well-formed queue in which the worker
    has no job, and whatever the other workers do between its transactions, a
    pass either returns, and then no job runs under the worker's identifier; or
    is still monitoring the execution of the one job it has; or passes on what
    an evaluator raised about that job (no statement on the database fails). *)
Theorem pass_settles_claim (env : PassEnv) (w : World) :
  queue_wf (wd_db w) -> worker_ok b (wd_worker w) -> owns worker_id None (wd_db w) -> env_ok env ->
  let (r, w') := process_one cfg worker_id false env w in
  queue_wf (wd_db w')
  /\ match r with
     | Ok (Some _) => owns worker_id None (wd_db w')
     | Ok None => exists job, owns worker_id (Some (e_id job)) (wd_db w') /\ unfinished env job
     | Raise e => exists job sub p, owns worker_id (Some (e_id job)) (wd_db w')
                  /\ evaluator_raises env p job sub e
     end.
Proof.
  intros Hwf Hok Ho He.
  assert (pass_inv (wd_db w) None w) as Hi by (split; [apply qr_done|done|done]).
  pose proof (process_one_triple (wd_db w) Hwf env He w Hi) as Hp.
  destruct (process_one cfg worker_id false env w) as [[[r|]|e] w'].
  - split; [by apply (inv_wf _ Hwf _ _ Hp)|apply Hp].
  - destruct Hp as (job & Hj & Hu). split; [by apply (inv_wf _ Hwf _ _ Hj)|].
    exists job. split; [apply Hj|done].
  - destruct Hp as (job & sub & p & Hj & Hu). split; [by apply (inv_wf _ Hwf _ _ Hj)|].
    exists job, sub, p. split; [apply Hj|done].
Qed.

(** * The loop *)

Definition turn_ok (u : Turn) : Prop := other_processes (tu_before u) /\ env_ok (tu_env u).

Lemma turn_triple db0 u :
  queue_wf db0 -> turn_ok u ->
  triple (pass_inv db0 None) (turn cfg worker_id false u) (pass_done db0 (tu_env u))
    (pass_raised db0 (tu_env u)).
Proof.
  intros Hwf [Hb He]. unfold turn. eapply triple_seq.
  - apply triple_modify with (Q := fun _ => pass_inv db0 None). intros w Hi.
    by apply (others_act db0 Hwf).
  - eapply (triple_bind _ _ _ _ (fun _ => pass_inv db0 None)); [by apply recover_stale_triple|].
    intros _. by apply process_one_triple.
Qed.

Lemma run_forever_triple db0 turns :
  queue_wf db0 -> Forall turn_ok turns ->
  triple (pass_inv db0 None) (run_forever cfg worker_id false turns)
    (fun _ w => exists s, pass_inv db0 s w) (fun _ w => exists s, pass_inv db0 s w).
Proof.
  intros Hwf. induction turns as [|u turns IH]; intros Hall; cbn [run_forever].
  - apply triple_ret. eauto.
  - apply Forall_cons in Hall as [Hu Hall].
    eapply triple_bind; [by apply (triple_gets _ _ _ (fun _ => pass_inv db0 None))|].
    intros []; [apply triple_ret; eauto|].
    eapply triple_bind with (pass_done db0 (tu_env u)).
    + eapply triple_conseq; [by apply turn_triple|done|done|].
      intros e w (job & sub & p & Hi & _). eauto.
    + intros [r|]; [by apply IH|]. apply triple_ret. intros w (job & Hi & _). eauto.
Qed.

(** C9 A worker keeps the budget: over any number of turns of its loop, interleaved
    with other workers that claim within the same caps, everything that happens
    to the queue is a sequence of the repository's transactions, every claim
    within the budget's caps; the queue stays well-formed and never more jobs,
    or HEAVY jobs, run than the settings allow. *)
Theorem worker_within_budget (turns : list Turn) (w : World) :
  queue_wf (wd_db w) -> worker_ok b (wd_worker w) -> owns worker_id None (wd_db w) ->
  Forall turn_ok turns ->
  count_status E_RUNNING (wd_db w) <= Z.max 1 (evaluation_max_workers cfg) ->
  count_running_heavy (wd_db w) <= Z.max 0 (Z.min (evaluation_max_concurrent_heavy cfg)
                                              (Z.max 1 (evaluation_max_workers cfg))) ->
  let w' := snd (run_forever cfg worker_id false turns w) in
  queue_run (claims_within N Hv) (wd_db w) (wd_db w')
  /\ queue_wf (wd_db w')
  /\ count_status E_RUNNING (wd_db w') <= Z.max 1 (evaluation_max_workers cfg)
  /\ count_running_heavy (wd_db w') <= Z.max 0 (Z.min (evaluation_max_concurrent_heavy cfg)
                                                  (Z.max 1 (evaluation_max_workers cfg))).
Proof.
  intros Hwf Hok Ho Hall Hn Hh w'.
  assert (pass_inv (wd_db w) None w) as Hi by (split; [apply qr_done|done|done]).
  pose proof (run_forever_triple (wd_db w) turns Hwf Hall w Hi) as Ht. unfold w'.
  assert (exists s, pass_inv (wd_db w) s (snd (run_forever cfg worker_id false turns w)))
    as [s [Hr _ _]] by (destruct (run_forever _ _ _ _ w) as [[|] ?]; exact Ht).
  split; [exact Hr|]. split; [by eapply queue_run_wf|]. by eapply queue_run_counts.
Qed.
End Passes.

(** * Deferral and resumption *)

Section Resumption.
Context `{Sha256} `{FloatRepr} `{PyRepr} `{IntParse}.

(** The entry of the metadata that reports a progressive run. *)
Definition progressive_entry (meta : dict) : option dict :=
  match dget meta (py "progressive") with Some (JObj p) => Some p | _ => None end.

(** The fields of the report that add up over the runs of one evaluation. *)
Definition cumulative : list pystr :=
  py <$> ["mode"; "stages_completed"; "actual_cost_units"; "always_expensive_cost_units";
          "compute_savings"; "final_tier"; "early_exit_reason"; "defer_reason"; "confidence"]%string.

(** A run's report is in its metadata. *)
Lemma run_report plan cc id meta key fuel i p r :
  run_from fuel plan cc id meta key i p = Some (Ok r) ->
  exists cpu e, pr_result_metadata r
    = progressive_meta (cc_mode cc) (pr_stages r) (pr_actual_cost_units r) (pr_peak_alloc_bytes r)
        cpu (pr_final_tier r) (pr_early_exit_reason r) (pr_defer_reason r) (pr_confidence r)
  /\ progressive_entry (pr_result_metadata r) = Some e.
Proof.
  intros Hr. destruct (run_from_meta _ _ _ _ _ _ _ _ _ Hr) as [cpu Hm].
  eexists cpu, _. split; [exact Hm|]. by rewrite Hm.
Qed.

Lemma progressive_entry_dset meta p :
  progressive_entry (dset meta (py "progressive") (JObj p)) = Some p.
Proof. unfold progressive_entry. by rewrite dget_dset, bool_decide_true. Qed.

Lemma with_prior_fresh stages cost p :
  with_prior stages cost [] p
  = Ok (dset (dset p (py "stages_completed") (JList stages)) (py "actual_cost_units") (JInt (0 + cost))).
Proof. reflexivity. Qed.

Lemma with_prior_runs stages cost prior p done paid :
  dget prior (py "stages_completed") = Some (JList done) ->
  dget prior (py "actual_cost_units") = Some (JInt paid) ->
  with_prior stages cost prior p
  = Ok (dset (dset p (py "stages_completed") (JList (done ++ stages)))
          (py "actual_cost_units") (JInt (paid + cost))).
Proof.
  intros Hs Hc. unfold with_prior, dget_null. rewrite Hs, Hc.
  assert (py_list (JList done) = Ok done) as Hl by by destruct done.
  assert (py_int (JInt paid) = Ok paid) as Hi.
  { unfold py_int. cbn [truthy]. destruct (paid =? 0) eqn:E; [|done]. zify_bool. by subst. }
  cbn [default from_option]. unfold default, from_option, id. by rewrite Hl, Hi.
Qed.

(** The report of a run that another run came before. *)
Definition accumulated (p : dict) (stages : list json) (cost : Z) : dict :=
  dset (dset p (py "stages_completed") (JList stages)) (py "actual_cost_units") (JInt cost).

Lemma dget_accumulated_stages p stages cost :
  dget (accumulated p stages cost) (py "stages_completed") = Some (JList stages).
Proof.
  unfold accumulated. rewrite !dget_dset.
  rewrite bool_decide_false by (vm_compute; discriminate). by rewrite bool_decide_true.
Qed.

(** Accumulating the stages and the cost, and the savings with them, gives the
    report of one run with these stages and this cost. *)
Lemma accumulated_report mode stages cost peak cpu tier early defer conf stages' cost' peak' cpu' p p' :
  progressive_entry (progressive_meta mode stages cost peak cpu tier early defer conf) = Some p ->
  progressive_entry (progressive_meta mode stages' cost' peak' cpu' tier early defer conf) = Some p' ->
  Forall (fun k => dget (with_savings (accumulated p stages' cost')) k = dget p' k) cumulative.
Proof.
  intros Hp Hp'. unfold progressive_entry, progressive_meta in Hp, Hp'. cbn -[py] in Hp, Hp'.
  injection Hp as <-. injection Hp' as <-.
  repeat (apply Forall_cons; split; [reflexivity|]). apply Forall_nil. done.
Qed.

(** The metadata a deferral stores, and what a run after it makes of it. *)
Lemma deferred_metadata_fresh before r p :
  progressive_entry before = None -> progressive_entry (pr_result_metadata r) = Some p ->
  deferred_metadata before r
  = Ok (dset (pr_result_metadata r) (py "progressive")
          (JObj (accumulated p (pr_stages r) (pr_actual_cost_units r)))).
Proof.
  unfold progressive_entry, deferred_metadata. intros Hb Hp.
  destruct (dget (pr_result_metadata r) _) as [[]|]; simplify_eq.
  assert ((match dget before (py "progressive") with Some (JObj p0) => p0 | _ => [] end) = []) as ->
    by (by destruct (dget before _) as [[]|]).
  by rewrite with_prior_fresh.
Qed.

Lemma finished_metadata_resumed meta1 prior done paid r p :
  progressive_entry meta1 = Some prior -> progressive_entry (pr_result_metadata r) = Some p ->
  dget prior (py "stages_completed") = Some (JList done) -> done <> [] ->
  dget prior (py "actual_cost_units") = Some (JInt paid) ->
  finished_metadata meta1 r
  = Ok (dset (pr_result_metadata r) (py "progressive")
          (JObj (with_savings (accumulated p (done ++ pr_stages r) (paid + pr_actual_cost_units r))))).
Proof.
  unfold progressive_entry, finished_metadata. intros Hm Hp Hs Hne Hc.
  destruct (dget meta1 _) as [[]|]; simplify_eq.
  destruct (dget (pr_result_metadata r) _) as [[]|]; simplify_eq.
  rewrite (with_prior_runs _ _ _ _ done paid Hs Hc). unfold dget_null. rewrite Hs.
  by destruct done.
Qed.

(** C11 Deferral is transparent: an evaluation that deferred its expensive stage
    under pressure and resumes without pressure ends exactly as one that never
    met pressure: same failure, or same score, tier, confidence and reason, and a
    stored report whose stages, cost and savings are those of the single run. *)
Theorem deferral_is_transparent (cc1 cc2 cc0 : Circumstances) id meta key before r1 :
  cc_mode cc1 = cc_mode cc0 -> cc_mode cc2 = cc_mode cc0 ->
  cc_pressure cc2 = NORMAL -> cc_pressure cc0 = NORMAL ->
  run_progressive DEFAULT_PLAN cc1 id meta key 0 = Some (Ok r1) -> pr_finished r1 = false ->
  progressive_entry before = None ->
  exists meta1, deferred_metadata before r1 = Ok meta1
  /\ match run_progressive DEFAULT_PLAN cc2 id meta key (pr_next_stage r1),
           run_progressive DEFAULT_PLAN cc0 id meta key 0 with
     | Some (Raise e2), Some (Raise e0) => e2 = e0
     | Some (Ok r2), Some (Ok r0) =>
         pr_finished r2 = true /\ same_end r2 r0
         /\ exists meta2 p2 p0, finished_metadata meta1 r2 = Ok meta2
            /\ progressive_entry meta2 = Some p2
            /\ progressive_entry (pr_result_metadata r0) = Some p0
            /\ Forall (fun k => dget p2 k = dget p0 k) cumulative
     | _, _ => False
     end.
Proof.
  intros Hm1 Hm2 Hn2 Hn0 Hrun1 Hdef Hb.
  destruct (run_report _ _ _ _ _ _ _ _ _ Hrun1) as (_ & p1 & _ & Hp1).
  eexists. split; [by apply deferred_metadata_fresh|].
  destruct (resume_alike cc1 cc2 cc0 id meta key r1 Hm1 Hm2 Hn2 Hn0 Hrun1 Hdef) as [Hne Hres].
  destruct (run_progressive _ cc2 _ _ _ _) as [[r2|e2]|] eqn:Hrun2; [| |done];
    destruct (run_progressive _ cc0 _ _ _ _) as [[r0|e0]|] eqn:Hrun0; try done.
  destruct Hres as (Hfin & Hend & Hstages & Hcost). split; [done|]. split; [done|].
  destruct (run_report _ _ _ _ _ _ _ _ _ Hrun2) as (cpu2 & p2 & Hmeta2 & Hp2).
  destruct (run_report _ _ _ _ _ _ _ _ _ Hrun0) as (cpu0 & p0 & Hmeta0 & Hp0).
  destruct Hend as (_ & _ & _ & He & Hd & Ht & Hc). rewrite Hm2, He, Hd, Ht, Hc in Hmeta2.
  set (prior := accumulated p1 (pr_stages r1) (pr_actual_cost_units r1)).
  eexists _, _, p0. split.
  { apply finished_metadata_resumed with (prior := prior) (p := p2);
      [by apply progressive_entry_dset|done|apply dget_accumulated_stages|done|].
    unfold prior, accumulated. by rewrite dget_dset, bool_decide_true. }
  split; [by apply progressive_entry_dset|]. split; [done|]. rewrite <-Hstages, <-Hcost.
  rewrite Hmeta2 in Hp2. rewrite Hmeta0 in Hp0. by eapply accumulated_report.
Qed.
End Resumption.

Module WorkerSample.
#[local] Instance sha : Sha256 := fun _ => py "0a0b0c0d".
#[local] Instance frepr : FloatRepr := fun _ => [].
#[local] Instance no_repr : PyRepr := fun _ => [].
#[local] Instance no_int : IntParse := fun _ => None.

(** Two jobs that are made to fail, and a worker of the default settings. *)
Definition submission (id : uuid) : Submission :=
  mkSubmission id 1 2 S_SUBMITTED [(py "force_evaluation_failure", JBool true)] None None None 0 0
    None.
Definition db0 : Db := empty_db <| submissions := {[1 := submission 1; 2 := submission 2]} |>.
Definition queued : Db :=
  steps db0 [ACreate 11 100 1 W_LIGHT M_LEGACY None 0; ACreate 12 101 2 W_LIGHT M_LEGACY None 0].
Definition world : World := mkWorld queued (new_worker default_settings).
Definition me : pystr := py "worker-1".
Definition not_started : StartView :=
  mkStartView []  [] [] (Some (py "no interpreter")) None 0 None fzero fzero fzero.
Definition ended : EndView := mkEndView [] [] [] None None None true None fzero fzero.
Definition env : PassEnv :=
  mkPassEnv (mkTickEnv None fzero fzero (mkHost None None)) 200 300 (mkSampleView fzero None)
    (mkSampleView fzero None) fzero (fun _ => fzero) (fun _ => 0) 7 (py "pid_tracking_only") false
    (mkRunView not_started [] ended) false (fun _ db => db).
Definition loop_turn : Turn :=
  mkTurn true (fun _ => mkOsView (fun _ => false) (fun _ => false) (fun _ => []) [] (fun _ => false))
    0 0 (fun db => db) env.

Lemma sample_queue_wf : queue_wf queued.
Proof.
  apply steps_wf. split; [intros k r Hk; cbn in Hk; by rewrite lookup_empty in Hk|done].
Qed.

Lemma nothing_runs : count_status E_RUNNING queued = 0 /\ count_running_heavy queued = 0.
Proof. split; vm_compute; reflexivity. Qed.

Lemma nothing_owned : owns me None queued.
Proof.
  assert (rows_where (has_status E_RUNNING) (evaluations queued) = []) as Hnone
    by (vm_compute; reflexivity).
  intros k r Hk Hst. assert (r ∈ rows_where (has_status E_RUNNING) (evaluations queued)) as Hin.
  { apply elem_of_rows_where. split; [eauto|by apply has_status_true]. }
  rewrite Hnone in Hin. by apply not_elem_of_nil in Hin.
Qed.

Lemma env_is_ok : env_ok default_settings me env.
Proof. intros n db. apply qr_done. Qed.

Lemma turn_is_ok : turn_ok default_settings me loop_turn.
Proof. split; [intros db; apply qr_done|apply env_is_ok]. Qed.

Lemma pass_settles_claim_witness :
  exists w', process_one default_settings me false env world = (Ok (Some true), w')
  /\ queue_wf (wd_db w') /\ owns me None (wd_db w')
  /\ (e_status <$> (evaluations (wd_db w') !! 11)) = Some E_FAILED.
Proof.
  pose proof (pass_settles_claim default_settings me env world sample_queue_wf
                (new_worker_ok default_settings) nothing_owned env_is_ok) as Hp.
  assert (fst (process_one default_settings me false env world) = Ok (Some true)) as Hr
    by (vm_compute; reflexivity).
  assert ((e_status <$> (evaluations (wd_db (snd (process_one default_settings me false env world)))
                           !! 11)) = Some E_FAILED) as Hf by (vm_compute; reflexivity).
  destruct (process_one default_settings me false env world) as [r w']. cbn [fst snd] in Hr, Hf.
  subst r. destruct Hp as [Hwf Ho]. exists w'. exact (conj eq_refl (conj Hwf (conj Ho Hf))).
Defined.

Lemma worker_within_budget_witness :
  let w' := snd (run_forever default_settings me false [loop_turn; loop_turn] world) in
  wk_claims (wd_worker w') = 2 /\ queue_wf (wd_db w') /\ count_status E_RUNNING (wd_db w') <= 1.
Proof.
  destruct nothing_runs as [Hn Hh].
  destruct (worker_within_budget default_settings me [loop_turn; loop_turn] world sample_queue_wf
              (new_worker_ok default_settings) nothing_owned
              (Forall_cons_2 _ _ _ turn_is_ok (Forall_cons_2 _ _ _ turn_is_ok (Forall_nil_2 _)))
              ltac:(change (wd_db world) with queued; rewrite Hn; vm_compute; discriminate)
              ltac:(change (wd_db world) with queued; rewrite Hh; vm_compute; discriminate))
    as (_ & Hwf & Hc & _).
  split; [vm_compute; reflexivity|]. exact (conj Hwf Hc).
Defined.

Definition hard : dict := [(py "workload_kind", JStr (py "hard_pass"))].
Definition under (p : PressureState) : Circumstances :=
  mkCirc M_RESOURCE_AWARE_ADAPTIVE p None (fun _ => 0) (fun _ => fzero).

(** A hard job deferred under pressure: the resumed run accounts for its three
    stages, but counts only its own as attempted. *)
Definition resumed : option dict :=
  match run_progressive DEFAULT_PLAN (under DEGRADED) 7 hard None 0 with
  | Some (Ok r1) =>
      match deferred_metadata [] r1, run_progressive DEFAULT_PLAN (under NORMAL) 7 hard None (pr_next_stage r1) with
      | Ok meta1, Some (Ok r2) =>
          match finished_metadata meta1 r2 with Ok m => progressive_entry m | Raise _ => None end
      | _, _ => None
      end
  | _ => None
  end.

Example resumed_stages_attempted :
  exists p, resumed = Some p /\ dget p (py "stages_attempted") = Some (JInt 1)
  /\ dget p (py "actual_cost_units") = Some (JInt 13)
  /\ match dget p (py "stages_completed") with Some (JList l) => zlen l = 3 | _ => False end.
Proof. eexists. split; [lazy; reflexivity|]. lazy. auto. Qed.

Lemma deferral_is_transparent_witness :
  exists r1 meta1 r2 r0,
    run_progressive DEFAULT_PLAN (under DEGRADED) 7 hard None 0 = Some (Ok r1)
    /\ pr_finished r1 = false /\ deferred_metadata [] r1 = Ok meta1
    /\ run_progressive DEFAULT_PLAN (under NORMAL) 7 hard None (pr_next_stage r1) = Some (Ok r2)
    /\ run_progressive DEFAULT_PLAN (under NORMAL) 7 hard None 0 = Some (Ok r0)
    /\ same_end r2 r0.
Proof.
  assert (exists r1 r2 r0,
    run_progressive DEFAULT_PLAN (under DEGRADED) 7 hard None 0 = Some (Ok r1)
    /\ pr_finished r1 = false
    /\ run_progressive DEFAULT_PLAN (under NORMAL) 7 hard None (pr_next_stage r1) = Some (Ok r2)
    /\ run_progressive DEFAULT_PLAN (under NORMAL) 7 hard None 0 = Some (Ok r0))
    as (r1 & r2 & r0 & H1 & Hf & H2 & H0)
    by (eexists _, _, _; split; [lazy; reflexivity|]; split; [reflexivity|];
        split; lazy; reflexivity).
  destruct (deferral_is_transparent (under DEGRADED) (under NORMAL) (under NORMAL) 7 hard None [] r1
              eq_refl eq_refl eq_refl eq_refl H1 Hf eq_refl) as (meta1 & Hm & Hres).
  rewrite H2, H0 in Hres. destruct Hres as (_ & Hend & _).
  exists r1, meta1, r2, r0. exact (conj H1 (conj Hf (conj Hm (conj H2 (conj H0 Hend))))).
Defined.
End WorkerSample.
