(* ===== verification/Coalescing.v ===== *)
(** Request coalescing (src/challengeforge/runtime/coalescing.py): concurrent
    calls with one key share one computation.

    The tasks of one event loop interleave at their awaits.  An [Event] is what
    happens between two awaits: a call of [do] up to its first await, the end of
    the leader's computation, a waiter that resumes, a waiter that is cancelled.
    The values computed are of any type. *)
From Stdlib Require Import ZArith Lia String.
From stdpp Require Import prelude strings gmap.
From S2P Require Import Prelude PyStr Domain.

(** * State *)

(** [runtime/coalescing.py:18-23 CoalescingStats] *)
Record CoalescingStats := mkStats {
  submissions_count : Z;
  computations_count : Z;
  joins_count : Z;
  failures_count : Z;
}.

Section Coalescer.
Context {V : Type}.

(** A future: pending, with a result, or with an exception. *)
Inductive Future := Pending | Resolved (v : V) | Excepted (e : exn).

(** How a call of [do] ends: a value, an exception, or its own cancellation. *)
Inductive CallEnd := Gave (v : V) | Threw (e : exn) | WasCancelled.

(** A call of [do]: the leader of the future [f], awaiting its computation for
    [key]; a waiter on [f]; or ended. *)
Inductive Call :=
| Leading (key : pystr) (f : nat)
| Joined (f : nat)
| Ended (f : nat) (r : CallEnd).

(** [runtime/coalescing.py:26-31 InProcessCoalescer], with the futures and the calls of
    the event loop in order of creation. *)
Record InProcessCoalescer := mkCoalescer {
  inflight : gmap pystr nat;
  stats : CoalescingStats;
  futures : list Future;
  calls : list Call;
}.

(** A fresh coalescer. *)
Definition new_coalescer : InProcessCoalescer := mkCoalescer ∅ (mkStats 0 0 0 0) [] [].

(** * Steps *)

(** [runtime/coalescing.py:33-45 InProcessCoalescer.do], up to its first await. *)
Definition call_do (key : pystr) (s : InProcessCoalescer) : InProcessCoalescer :=
  let st := stats s in
  match inflight s !! key with
  | Some existing =>
      mkCoalescer (inflight s)
        (mkStats (submissions_count st + 1) (computations_count st) (joins_count st + 1)
           (failures_count st))
        (futures s) (calls s ++ [Joined existing])
  | None =>
      let fut := length (futures s) in
      mkCoalescer (<[key := fut]> (inflight s))
        (mkStats (submissions_count st + 1) (computations_count st + 1) (joins_count st)
           (failures_count st))
        (futures s ++ [Pending]) (calls s ++ [Leading key fut])
  end.

(** [runtime/coalescing.py:46-55 InProcessCoalescer.do], the end of the computation:
    [WasCancelled] is [CancelledError], which [except Exception] does not
    handle. *)
Definition compute_ended (t : nat) (r : CallEnd) (s : InProcessCoalescer) : option InProcessCoalescer :=
  match calls s !! t with
  | Some (Leading key fut) =>
      let st := stats s in
      Some (mkCoalescer (delete key (inflight s))
              (match r with
               | Threw _ => mkStats (submissions_count st) (computations_count st) (joins_count st)
                              (failures_count st + 1)
               | _ => st
               end)
              (match r with
               | Gave v => <[fut := Resolved v]> (futures s)
               | Threw e => <[fut := Excepted e]> (futures s)
               | WasCancelled => futures s
               end)
              (<[t := Ended fut r]> (calls s)))
  | _ => None
  end.

(** [runtime/coalescing.py:36-39 InProcessCoalescer.do], the await of a waiter: it ends
    when the future has. *)
Definition waiter_resumes (t : nat) (s : InProcessCoalescer) : option InProcessCoalescer :=
  match calls s !! t with
  | Some (Joined fut) =>
      match futures s !! fut with
      | Some (Resolved v) =>
          Some (mkCoalescer (inflight s) (stats s) (futures s) (<[t := Ended fut (Gave v)]> (calls s)))
      | Some (Excepted e) =>
          Some (mkCoalescer (inflight s) (stats s) (futures s) (<[t := Ended fut (Threw e)]> (calls s)))
      | _ => None
      end
  | _ => None
  end.

(** A waiter that is cancelled: [shield] keeps the future. *)
Definition waiter_cancelled (t : nat) (s : InProcessCoalescer) : option InProcessCoalescer :=
  match calls s !! t with
  | Some (Joined fut) =>
      Some (mkCoalescer (inflight s) (stats s) (futures s) (<[t := Ended fut WasCancelled]> (calls s)))
  | _ => None
  end.

Inductive Event :=
| Called (key : pystr)
| Computed (t : nat) (r : CallEnd)
| Resumes (t : nat)
| Cancelled (t : nat).

Definition event_step (s : InProcessCoalescer) (e : Event) : option InProcessCoalescer :=
  match e with
  | Called key => Some (call_do key s)
  | Computed t r => compute_ended t r s
  | Resumes t => waiter_resumes t s
  | Cancelled t => waiter_cancelled t s
  end.

(** The states the event loop reaches by the events [l]. *)
Inductive loop_run : InProcessCoalescer -> list Event -> InProcessCoalescer -> Prop :=
| lr_nil s : loop_run s [] s
| lr_snoc s l e s1 s2 : loop_run s l s1 -> event_step s1 e = Some s2 -> loop_run s (l ++ [e]) s2.

(** * The invariant *)

(** Every key in flight has one leader, which holds the key's pending future;
    every call's future exists, and a call that ended on its future's value or
    exception ended as the future did. *)
Record co_inv (s : InProcessCoalescer) : Prop := {
  ci_leader : forall key f, inflight s !! key = Some f -> exists t, calls s !! t = Some (Leading key f);
  ci_flight : forall t key f, calls s !! t = Some (Leading key f) ->
    inflight s !! key = Some f /\ futures s !! f = Some Pending;
  ci_once : forall t t' key f key' f', calls s !! t = Some (Leading key f) ->
    calls s !! t' = Some (Leading key' f') -> (key = key' \/ f = f') -> t = t';
  ci_joined : forall t f, calls s !! t = Some (Joined f) -> (f < length (futures s))%nat;
  ci_ended : forall t f r, calls s !! t = Some (Ended f r) ->
    match r with
    | Gave v => futures s !! f = Some (Resolved v)
    | Threw e => futures s !! f = Some (Excepted e)
    | WasCancelled => True
    end;
  ci_submissions : submissions_count (stats s) = zlen (calls s);
  ci_sum : computations_count (stats s) + joins_count (stats s) = submissions_count (stats s);
  ci_computations : computations_count (stats s) = zlen (futures s);
}.
End Coalescer.
Arguments Future V : clear implicits.
Arguments CallEnd V : clear implicits.
Arguments InProcessCoalescer V : clear implicits.
Arguments Event V : clear implicits.

Section Laws.
Context {V : Type}.
Implicit Types (s : InProcessCoalescer V) (l : list (Event V)).

Lemma lookup_snoc_inv {A} (l : list A) x i y :
  (l ++ [x]) !! i = Some y -> l !! i = Some y \/ (i = length l /\ y = x).
Proof.
  intros [Hi|[Hlen Hi]]%lookup_app_Some; [by left|].
  apply list_lookup_singleton_Some in Hi as [Hi <-]. right. split; [lia|done].
Qed.

Lemma lookup_insert_inv {A} (l : list A) i x j y :
  <[i := x]> l !! j = Some y -> (j = i /\ y = x) \/ (j <> i /\ l !! j = Some y).
Proof.
  destruct (decide (j = i)) as [->|Hne].
  - intros Hj. left. split; [done|].
    assert (i < length l)%nat as Hlt by (apply lookup_lt_Some in Hj; by rewrite length_insert in Hj).
    rewrite list_lookup_insert_eq in Hj by done. congruence.
  - rewrite list_lookup_insert_ne by done. auto.
Qed.

Lemma new_coalescer_inv : co_inv (new_coalescer (V := V)).
Proof. split; cbn; intros *; rewrite ?lookup_empty, ?lookup_nil; done. Qed.

Lemma leader_future s t key f :
  co_inv s -> calls s !! t = Some (Leading key f) -> (f < length (futures s))%nat.
Proof. intros Hi Ht. destruct (ci_flight s Hi _ _ _ Ht) as [_ Hf]. by apply lookup_lt_Some in Hf. Qed.

Lemma call_join_inv key f s :
  co_inv s -> inflight s !! key = Some f -> co_inv (call_do key s).
Proof.
  intros Hi Hk. unfold call_do. rewrite Hk.
  split; cbn.
  - intros k g Hg. destruct (ci_leader s Hi k g Hg) as [t Ht]. exists t. by apply lookup_app_l_Some.
  - intros t k g [Ht|[_ ?]]%lookup_snoc_inv; [by eapply ci_flight|done].
  - intros t t' k g k' g' [Ht|[_ ?]]%lookup_snoc_inv [Ht'|[_ ?]]%lookup_snoc_inv; try done.
    by eapply ci_once.
  - intros t g [Ht|[_ [= ->]]]%lookup_snoc_inv; [by eapply ci_joined|].
    destruct (ci_leader s Hi key f Hk) as [t0 Ht0]. by eapply leader_future.
  - intros t g r [Ht|[_ ?]]%lookup_snoc_inv; [by eapply ci_ended|done].
  - rewrite zlen_app, (ci_submissions s Hi). done.
  - pose proof (ci_sum s Hi). lia.
  - apply (ci_computations s Hi).
Qed.

Lemma call_lead_inv key s : co_inv s -> inflight s !! key = None -> co_inv (call_do key s).
Proof.
  intros Hi Hk. unfold call_do. rewrite Hk.
  assert (forall f x, futures s !! f = Some x -> (futures s ++ [Pending]) !! f = Some x) as Hold
    by (intros; by apply lookup_app_l_Some).
  assert (forall t k f, calls s !! t = Some (Leading k f) -> k <> key) as Hfresh.
  { intros t k f Ht ->. destruct (ci_flight s Hi _ _ _ Ht). congruence. }
  split; cbn.
  - intros k g Hg. destruct (decide (k = key)) as [->|Hne].
    + rewrite lookup_insert_eq in Hg. simplify_eq. exists (length (calls s)).
      by apply list_lookup_middle.
    + rewrite lookup_insert_ne in Hg by done. destruct (ci_leader s Hi k g Hg) as [t Ht].
      exists t. by apply lookup_app_l_Some.
  - intros t k g [Ht|[_ [= -> ->]]]%lookup_snoc_inv.
    + rewrite lookup_insert_ne by (intros ->; by eapply Hfresh).
      destruct (ci_flight s Hi _ _ _ Ht). auto.
    + rewrite lookup_insert_eq. split; [done|]. by apply list_lookup_middle.
  - intros t t' k g k' g' [Ht|[Ht [= -> ->]]]%lookup_snoc_inv [Ht'|[Ht' [= -> ->]]]%lookup_snoc_inv Hor;
      [by eapply ci_once| | |congruence]; exfalso.
    + pose proof (leader_future _ _ _ _ Hi Ht). pose proof (Hfresh _ _ _ Ht). destruct Hor; [done|lia].
    + pose proof (leader_future _ _ _ _ Hi Ht'). pose proof (Hfresh _ _ _ Ht').
      destruct Hor; [congruence|lia].
  - intros t g [Ht|[_ ?]]%lookup_snoc_inv; [|done]. rewrite length_app. cbn.
    pose proof (ci_joined s Hi t g Ht). lia.
  - intros t g r [Ht|[_ ?]]%lookup_snoc_inv; [|done].
    pose proof (ci_ended s Hi t g r Ht). destruct r; auto.
  - rewrite zlen_app, (ci_submissions s Hi). done.
  - pose proof (ci_sum s Hi). lia.
  - rewrite zlen_app, (ci_computations s Hi). done.
Qed.

Lemma call_do_inv key s : co_inv s -> co_inv (call_do key s).
Proof.
  intros Hi. destruct (inflight s !! key) eqn:Hk; [by eapply call_join_inv|by apply call_lead_inv].
Qed.

Lemma compute_ended_inv t r s s' : co_inv s -> compute_ended t r s = Some s' -> co_inv s'.
Proof.
  intros Hi. unfold compute_ended. destruct (calls s !! t) as [[key fut| |]|] eqn:Ht; try done.
  intros [= <-]. destruct (ci_flight s Hi _ _ _ Ht) as [Hk Hf].
  pose proof (leader_future _ _ _ _ Hi Ht) as Hlen.
  pose proof (lookup_lt_Some _ _ _ Ht) as Hlt.
  assert (forall t' k g, t' <> t -> calls s !! t' = Some (Leading k g) -> k <> key /\ g <> fut) as Hother.
  { intros t' k g Hne Ht'. split; intros ->; apply Hne; eapply (ci_once s Hi); eauto. }
  set (fs := match r with Gave v => <[fut := Resolved v]> (futures s)
             | Threw e => <[fut := Excepted e]> (futures s) | WasCancelled => futures s end).
  assert (length fs = length (futures s)) as Hfl by (unfold fs; destruct r; by rewrite ?length_insert).
  assert (forall g, g <> fut -> fs !! g = futures s !! g) as Hfs.
  { intros g Hne. unfold fs. destruct r; by rewrite ?list_lookup_insert_ne by done. }
  split; cbn.
  - intros k g [Hne Hg]%lookup_delete_Some. destruct (ci_leader s Hi k g Hg) as [t' Ht'].
    exists t'. rewrite list_lookup_insert_ne; [done|]. intros ->. congruence.
  - intros t' k g [[_ ?]|[Hne Ht']]%lookup_insert_inv; [done|].
    destruct (Hother t' k g Hne Ht') as [Hk' Hg']. destruct (ci_flight s Hi _ _ _ Ht') as [H1 H2].
    fold fs. by rewrite lookup_delete_ne, Hfs by done.
  - intros t1 t2 k g k' g' [[_ ?]|[_ H1]]%lookup_insert_inv [[_ ?]|[_ H2]]%lookup_insert_inv; try done.
    by eapply (ci_once s Hi).
  - intros t' g [[_ ?]|[_ Ht']]%lookup_insert_inv; [done|]. fold fs. rewrite Hfl. by eapply ci_joined.
  - intros t' g r' [[-> [= -> ->]]|[_ Ht']]%lookup_insert_inv; fold fs.
    + unfold fs. destruct r; [by rewrite list_lookup_insert_eq..|done].
    + pose proof (ci_ended s Hi t' g r' Ht') as He. destruct (decide (g = fut)) as [->|Hne].
      * destruct r'; [congruence|congruence|done].
      * destruct r'; [by rewrite Hfs..|done].
  - unfold zlen. rewrite length_insert. fold (zlen (calls s)). rewrite <-(ci_submissions s Hi).
    by destruct r.
  - pose proof (ci_sum s Hi). by destruct r.
  - fold fs. unfold zlen. rewrite Hfl. fold (zlen (futures s)). rewrite <-(ci_computations s Hi).
    by destruct r.
Qed.

(** A waiter that ends leaves everything but its own call as it is. *)
Lemma waiter_ended_inv t fut r s :
  co_inv s -> calls s !! t = Some (Joined fut) ->
  match r with
  | Gave v => futures s !! fut = Some (Resolved v)
  | Threw e => futures s !! fut = Some (Excepted e)
  | WasCancelled => True
  end ->
  co_inv (mkCoalescer (inflight s) (stats s) (futures s) (<[t := Ended fut r]> (calls s))).
Proof.
  intros Hi Ht Hr. split; cbn.
  - intros k g Hg. destruct (ci_leader s Hi k g Hg) as [t' Ht']. exists t'.
    rewrite list_lookup_insert_ne; [done|]. intros ->. congruence.
  - intros t' k g [[_ ?]|[_ Ht']]%lookup_insert_inv; [done|]. by eapply ci_flight.
  - intros t1 t2 k g k' g' [[_ ?]|[_ H1]]%lookup_insert_inv [[_ ?]|[_ H2]]%lookup_insert_inv; try done.
    by eapply (ci_once s Hi).
  - intros t' g [[_ ?]|[_ Ht']]%lookup_insert_inv; [done|]. by eapply ci_joined.
  - intros t' g r' [[_ [= -> ->]]|[_ Ht']]%lookup_insert_inv; [done|]. by eapply ci_ended.
  - unfold zlen. rewrite length_insert. apply (ci_submissions s Hi).
  - apply (ci_sum s Hi).
  - apply (ci_computations s Hi).
Qed.

Lemma event_step_inv s e s' : co_inv s -> event_step s e = Some s' -> co_inv s'.
Proof.
  intros Hi. destruct e as [key|t r|t|t]; cbn [event_step].
  - intros [= <-]. by apply call_do_inv.
  - by apply compute_ended_inv.
  - unfold waiter_resumes. destruct (calls s !! t) as [[|f|]|] eqn:Ht; try done.
    destruct (futures s !! f) as [[]|] eqn:Hf; try done; intros [= <-]; by apply waiter_ended_inv.
  - unfold waiter_cancelled. destruct (calls s !! t) as [[|f|]|] eqn:Ht; try done.
    intros [= <-]. by apply waiter_ended_inv.
Qed.

Lemma loop_run_inv s l s' : co_inv s -> loop_run s l s' -> co_inv s'.
Proof. intros Hi. induction 1; [done|]. by eapply event_step_inv; [apply IHloop_run|]. Qed.

(** C33 Single flight: in every state the event loop reaches, at most one
    computation runs for a key and at most one for a future; a call made while
    the key is computed waits on the leader's future and starts nothing; calls
    that ended on one future, cancelled calls apart, all ended the same way; and
    every call is counted once, as a computation or as a join. *)
Theorem single_flight l s :
  loop_run new_coalescer l s ->
  (forall t t' key f key' f', calls s !! t = Some (Leading key f) ->
     calls s !! t' = Some (Leading key' f') -> key = key' \/ f = f' -> t = t')
  /\ (forall t key f, calls s !! t = Some (Leading key f) ->
        futures (call_do key s) = futures s /\ calls (call_do key s) = calls s ++ [Joined f])
  /\ (forall t t' f r r', calls s !! t = Some (Ended f r) -> calls s !! t' = Some (Ended f r') ->
        r <> WasCancelled -> r' <> WasCancelled -> r = r')
  /\ computations_count (stats s) + joins_count (stats s) = zlen (calls s).
Proof.
  intros Hrun. pose proof (loop_run_inv _ _ _ new_coalescer_inv Hrun) as Hi.
  split; [apply (ci_once s Hi)|]. split.
  { intros t key f Ht. destruct (ci_flight s Hi _ _ _ Ht) as [Hk _]. unfold call_do. by rewrite Hk. }
  split; [|by rewrite (ci_sum s Hi), (ci_submissions s Hi)].
  intros t t' f r r' Ht Ht' Hr Hr'.
  pose proof (ci_ended s Hi _ _ _ Ht) as H1. pose proof (ci_ended s Hi _ _ _ Ht') as H2.
  destruct r, r'; congruence.
Qed.

(** No computation of the events was cancelled. *)
Definition uncancelled (e : Event V) : Prop :=
  match e with Computed _ WasCancelled => False | _ => True end.

(** A pending future is being computed. *)
Definition attended s : Prop :=
  forall f, futures s !! f = Some Pending -> exists t key, calls s !! t = Some (Leading key f).

Lemma event_step_attended s e s' :
  co_inv s -> uncancelled e -> event_step s e = Some s' -> attended s -> attended s'.
Proof.
  intros Hi Hu He Ha f. destruct e as [key|t r|t|t]; cbn [event_step] in He.
  - injection He as <-. unfold call_do. destruct (inflight s !! key); cbn.
    + intros Hf. destruct (Ha f Hf) as (t & k & Ht). exists t, k. by apply lookup_app_l_Some.
    + intros [Hf|[-> _]]%lookup_snoc_inv.
      * destruct (Ha f Hf) as (t & k & Ht). exists t, k. by apply lookup_app_l_Some.
      * exists (length (calls s)), key. by apply list_lookup_middle.
  - unfold compute_ended in He. destruct (calls s !! t) as [[key fut| |]|] eqn:Ht; try done.
    injection He as <-. cbn. intros Hf.
    assert (f <> fut /\ futures s !! f = Some Pending) as [Hne Hf'].
    { destruct r; [| |done]; apply lookup_insert_inv in Hf as [[_ ?]|[? ?]]; done. }
    destruct (Ha f Hf') as (t' & k & Ht'). exists t', k.
    rewrite list_lookup_insert_ne; [done|]. intros ->. congruence.
  - unfold waiter_resumes in He. destruct (calls s !! t) as [[|g|]|] eqn:Ht; try done.
    destruct (futures s !! g) as [[]|]; try done; injection He as <-; cbn; intros Hf;
      destruct (Ha f Hf) as (t' & k & Ht'); exists t', k;
      (rewrite list_lookup_insert_ne; [done|]; intros ->; congruence).
  - unfold waiter_cancelled in He. destruct (calls s !! t) as [[|g|]|] eqn:Ht; try done.
    injection He as <-. cbn. intros Hf. destruct (Ha f Hf) as (t' & k & Ht'). exists t', k.
    rewrite list_lookup_insert_ne; [done|]. intros ->. congruence.
Qed.

(** Waiters make progress as long as no leader is cancelled: in every state so
    reached, a waiting call either has a leader computing its future, or can
    resume at once. *)
Theorem waiters_progress l s t f :
  Forall uncancelled l -> loop_run new_coalescer l s -> calls s !! t = Some (Joined f) ->
  (exists t' key, calls s !! t' = Some (Leading key f)) \/ is_Some (waiter_resumes t s).
Proof.
  intros Hall Hrun Ht. pose proof (loop_run_inv _ _ _ new_coalescer_inv Hrun) as Hi.
  assert (attended s) as Ha.
  { remember (new_coalescer (V := V)) as s0 eqn:E. clear Ht Hi.
    induction Hrun as [s|s0 l e s1 s2 Hrun IH Hstep]; [by subst; intros g|].
    apply Forall_app in Hall as [Hall [He _]%Forall_cons].
    eapply event_step_attended; [|done|done|by apply IH].
    subst. by eapply loop_run_inv; [apply new_coalescer_inv|]. }
  destruct (lookup_lt_is_Some_2 (futures s) f (ci_joined s Hi t f Ht)) as [x Hx].
  unfold waiter_resumes. rewrite Ht, Hx. destruct x; [left; by apply Ha|right; by eexists..].
Qed.

(** The waiter [t] of the future [f], which is pending and which nobody computes. *)
Definition stranded t f s : Prop :=
  calls s !! t = Some (Joined f) /\ futures s !! f = Some Pending
  /\ forall t' key, calls s !! t' <> Some (Leading key f).

Lemma event_step_stranded t f s e s' :
  event_step s e = Some s' -> e <> Cancelled t -> stranded t f s -> stranded t f s'.
Proof.
  intros He Hne (Ht & Hf & Hno).
  pose proof (lookup_lt_Some _ _ _ Hf) as Hlen.
  assert (forall u x, u <> t -> (forall key, x <> Leading key f) ->
    <[u := x]> (calls s) !! t = Some (Joined f)
    /\ forall t' key, <[u := x]> (calls s) !! t' <> Some (Leading key f)) as Hset.
  { intros u x Hu Hx. split; [by rewrite list_lookup_insert_ne by done|].
    intros t' key [[_ E]|[_ E]]%lookup_insert_inv; [by eapply Hx|by eapply Hno]. }
  destruct e as [key|u r|u|u]; cbn [event_step] in He.
  - injection He as <-. unfold call_do. destruct (inflight s !! key); (split; [by apply lookup_app_l_Some|]).
    + split; [done|]. intros t' k [E|[_ E]]%lookup_snoc_inv; [by eapply Hno|done].
    + split; [by apply lookup_app_l_Some|]. intros t' k [E|[_ [= -> E]]]%lookup_snoc_inv;
        [by eapply Hno|lia].
  - unfold compute_ended in He. destruct (calls s !! u) as [[key fut| |]|] eqn:Hu; try done.
    injection He as <-. assert (u <> t) as Hut by congruence.
    assert (fut <> f) as Hff by (intros ->; by eapply Hno).
    destruct (Hset u (Ended fut r) Hut ltac:(done)) as [H1 H2]. split; [done|]. split; [|done].
    cbn. destruct r; [by rewrite list_lookup_insert_ne by done..|done].
  - unfold waiter_resumes in He. destruct (calls s !! u) as [[|g|]|] eqn:Hu; try done.
    destruct (futures s !! g) as [[]|] eqn:Hg; try done; injection He as <-;
      (assert (u <> t) as Hut by congruence);
      (split; [by apply Hset|]; split; [done|]; by apply Hset).
  - unfold waiter_cancelled in He. destruct (calls s !! u) as [[|g|]|] eqn:Hu; try done.
    injection He as <-. assert (u <> t) as Hut by congruence.
    split; [by apply Hset|]. split; [done|]. by apply Hset.
Qed.

(** A cancelled leader strands its waiters: its future is never completed, since
    cancellation is no [Exception], and its key is forgotten, so that whatever
    happens later, a waiter of it waits for ever unless it is cancelled itself. *)
Theorem cancelled_leader_strands_waiters l0 s t t' key f s1 l s2 :
  loop_run new_coalescer l0 s -> calls s !! t = Some (Leading key f) ->
  calls s !! t' = Some (Joined f) -> compute_ended t WasCancelled s = Some s1 ->
  loop_run s1 l s2 -> (Cancelled t' ∉ l) ->
  inflight s1 !! key = None /\ calls s2 !! t' = Some (Joined f) /\ waiter_resumes t' s2 = None.
Proof.
  intros Hrun0 Ht Ht' Hend Hrun Hno.
  pose proof (loop_run_inv _ _ _ new_coalescer_inv Hrun0) as Hi.
  destruct (ci_flight s Hi _ _ _ Ht) as [_ Hf]. unfold compute_ended in Hend. rewrite Ht in Hend.
  injection Hend as E1.
  assert (stranded t' f s1) as Hs.
  { subst s1. split; [cbn; rewrite list_lookup_insert_ne; [done|]; intros ->; congruence|].
    split; [done|]. cbn. intros u k [[_ E]|[Hu E]]%lookup_insert_inv; [done|].
    apply Hu. by eapply (ci_once s Hi); eauto. }
  split; [subst s1; cbn; by rewrite lookup_delete_eq|].
  assert (stranded t' f s2) as (H1 & H2 & _).
  { clear E1 Ht Hf. induction Hrun as [s'|s' l e s3 s4 Hrun IH Hstep]; [done|].
    apply not_elem_of_app in Hno as [Hno He]. eapply event_step_stranded; [exact Hstep| |by apply IH].
    intros ->. apply He. by left. }
  split; [done|]. unfold waiter_resumes. by rewrite H1, H2.
Qed.
End Laws.

Module CoalescingSample.
Section Runs.
Context {V : Type}.

(** The state after the events, when each of them can happen. *)
Fixpoint run_events (s : InProcessCoalescer V) (l : list (Event V)) : option (InProcessCoalescer V) :=
  match l with
  | [] => Some s
  | e :: l => event_step s e ≫= fun s' => run_events s' l
  end.

Lemma loop_run_cons (s s1 s' : InProcessCoalescer V) e l :
  event_step s e = Some s1 -> loop_run s1 l s' -> loop_run s (e :: l) s'.
Proof.
  intros He Hrun. induction Hrun as [s1|s1 l e' s2 s3 _ IH Hs].
  - eapply (lr_snoc s [] e); [apply lr_nil|done].
  - rewrite app_comm_cons. eapply lr_snoc; [by apply IH|done].
Qed.

Lemma run_events_sound l : forall s s' : InProcessCoalescer V,
  run_events s l = Some s' -> loop_run s l s'.
Proof.
  induction l as [|e l IH]; intros s s'; cbn; [intros [= <-]; apply lr_nil|].
  destruct (event_step s e) as [s1|] eqn:E; [|done]. cbn. intros H.
  eapply loop_run_cons; [done|by apply IH].
Qed.
End Runs.

Definition k : pystr := py "k".
Definition shared : list (Event Z) := [Called k; Called k; Computed 0 (Gave 5); Resumes 1].

Lemma single_flight_witness :
  exists s, run_events new_coalescer shared = Some s
  /\ calls s = [Ended 0 (Gave 5); Ended 0 (Gave 5)]
  /\ computations_count (stats s) + joins_count (stats s) = zlen (calls s).
Proof.
  assert (exists s, run_events new_coalescer shared = Some s
          /\ calls s = [Ended 0 (Gave 5); Ended 0 (Gave 5)]) as (s & Hs & Hc)
    by (eexists; split; [vm_compute; reflexivity|reflexivity]).
  destruct (single_flight shared s (run_events_sound shared _ s Hs)) as (_ & _ & _ & Hsum).
  exists s. exact (conj Hs (conj Hc Hsum)).
Defined.

Lemma waiters_progress_witness :
  exists s, run_events new_coalescer (take 3 shared) = Some s /\ is_Some (waiter_resumes 1 s).
Proof.
  assert (exists s, run_events new_coalescer (take 3 shared) = Some s
          /\ calls s = [Ended 0 (Gave 5); Joined 0]) as (s & Hs & Hc)
    by (eexists; split; [vm_compute; reflexivity|reflexivity]).
  exists s. split; [exact Hs|].
  destruct (waiters_progress (take 3 shared) s 1 0) as [(t & key & Ht)|Hr].
  - repeat constructor.
  - exact (run_events_sound _ _ s Hs).
  - by rewrite Hc.
  - exfalso. rewrite Hc in Ht. destruct t as [|[|t]]; discriminate Ht.
  - exact Hr.
Defined.

Lemma cancelled_leader_strands_waiters_witness :
  exists s2, run_events new_coalescer
               ([Called k; Called k] ++ [Computed 0 WasCancelled; Called k; Computed 2 (Gave 5)])
             = Some s2
  /\ calls s2 !! 1%nat = Some (Joined 0) /\ waiter_resumes (V := Z) 1 s2 = None.
Proof.
  assert (exists s s1 s2,
      run_events (V := Z) new_coalescer [Called k; Called k] = Some s
      /\ calls s = [Leading k 0; Joined 0] /\ compute_ended 0 WasCancelled s = Some s1
      /\ run_events s1 [Called k; Computed 2 (Gave 5)] = Some s2
      /\ run_events new_coalescer
           ([Called k; Called k] ++ [Computed 0 WasCancelled; Called k; Computed 2 (Gave 5)]) = Some s2)
    as (s & s1 & s2 & Hs & Hc & H1 & H2 & Hall)
    by (eexists _, _, _; split; [vm_compute; reflexivity|]; split; [reflexivity|];
        split; [vm_compute; reflexivity|]; split; vm_compute; reflexivity).
  destruct (cancelled_leader_strands_waiters [Called k; Called k] s 0 1 k 0 s1
              [Called k; Computed 2 (Gave 5)] s2) as (_ & Hj & Hw).
  - exact (run_events_sound _ _ s Hs).
  - by rewrite Hc.
  - by rewrite Hc.
  - exact H1.
  - exact (run_events_sound _ _ s2 H2).
  - intros [E|[E|E]%elem_of_cons]%elem_of_cons; [discriminate E|discriminate E|].
    by apply elem_of_nil in E.
  - exists s2. exact (conj Hall (conj Hj Hw)).
Defined.
End CoalescingSample.
