(* ===== verification/EvaluationViews.v ===== *)
(** Evaluation views (src/challengeforge/application/evaluations.py): the state of
    an evaluation as a participant sees it, and the health of the backlog.  The
    service only reads: every operation is a computation over the database. *)
From Stdlib Require Import ZArith Lia String.
From stdpp Require Import prelude strings gmap.
From S2P Require Import Prelude PyFloat PyStr Domain Database Json Config Catalog EvaluationQueue.
From S2P Require Import Submissions.

Module EvaluationService.

(** [application/evaluations.py:17-21 EvaluationHealth] *)
Inductive EvaluationHealth := HEALTH_NORMAL | HEALTH_BUSY | HEALTH_SATURATED | HEALTH_CRITICAL.
#[export] Instance EvaluationHealth_eq_dec : EqDecision EvaluationHealth.
Proof. solve_decision. Defined.
#[export] Instance EvaluationHealth_enum : StrEnum EvaluationHealth := {|
  value h := match h with
             | HEALTH_NORMAL => "normal" | HEALTH_BUSY => "busy"
             | HEALTH_SATURATED => "saturated" | HEALTH_CRITICAL => "critical"
             end;
  members := [HEALTH_NORMAL; HEALTH_BUSY; HEALTH_SATURATED; HEALTH_CRITICAL];
|}.
#[export] Instance EvaluationHealth_ok : StrEnumOk EvaluationHealth.
Proof. split; [by intros []; set_solver | by intros [] []]. Qed.

(** [application/evaluations.py:24-43 EvaluationBacklogStatus] *)
Record EvaluationBacklogStatus := mkBacklog {
  bl_health : EvaluationHealth;
  bl_queued_count : Z;
  bl_running_count : Z;
  bl_succeeded_count : Z;
  bl_failed_count : Z;
  bl_oldest_queue_age_seconds : option float;
  bl_estimated_wait_seconds : option float;
  bl_recent_service_rate_per_second : option float;
  bl_message : string;
  bl_submissions_accepted : bool;
  bl_estimate_is_approximate : bool;
  bl_light_queued_count : Z;
  bl_medium_queued_count : Z;
  bl_heavy_queued_count : Z;
  bl_worker_capacity : Z;
  bl_pressure_state : string;
  bl_adaptive_max_workers : option Z;
  bl_resource_runtime_enabled : bool;
}.

(** [application/evaluations.py:46-62 ParticipantEvaluationView] *)
Record ParticipantEvaluationView := mkView {
  pv_id : uuid;
  pv_submission_id : uuid;
  pv_status : EvaluationStatus;
  pv_estimated_jobs_ahead : option Z;
  pv_estimated_wait_seconds : option float;
  pv_estimate_is_approximate : bool;
  pv_score : option Z;
  pv_failure_message : option string;
  pv_created_at : datetime;
  pv_started_at : option datetime;
  pv_completed_at : option datetime;
  pv_submission_accepted : bool;
  pv_message : string;
}.

(** [application/evaluations.py:264-274 EvaluationService._authorize_view] *)
Definition authorize_view (actor : CurrentUser) (submission : Submission) : M exn Db unit :=
  if bool_decide (s_participant_id submission = cu_id actor) then mret tt
  else
    guard_or (is_organizer actor) (denied "You cannot view this evaluation.") ;;
    challenge ← ChallengeRepository.get (s_challenge_id submission);
    challenge ← found_or challenge "Submission not found.";
    hackathon ← HackathonRepository.get (c_hackathon_id challenge);
    guard_or (match hackathon with
              | Some h => bool_decide (h_organizer_id h = cu_id actor)
              | None => false
              end) (denied "You cannot view this evaluation.").

(** [application/evaluations.py:69-79 EvaluationService.get_for_submission] *)
Definition get_for_submission (actor : CurrentUser) (submission_id : uuid) : M exn Db Evaluation :=
  found ← SubmissionRepository.get_submission submission_id;
  submission ← found_or found "Submission not found.";
  authorize_view actor submission ;;
  evaluation ← EvaluationRepository.get_by_submission submission_id;
  found_or evaluation "Evaluation not found for this submission.".

(** [application/evaluations.py:168-184 EvaluationService._friendly_failure] *)
Definition friendly_failure (reason : option pystr) : string :=
  match reason with
  | None => "Evaluation could not complete. Your submission remains on record."
  | Some r =>
      if negb (nonempty r) then "Evaluation could not complete. Your submission remains on record."
      else if contains r (py "Forced evaluation failure") then
        "Evaluation could not complete for this submission. Your submission remains on record."
      else if contains r (py "Abandoned after") || contains (lower r) (py "stale") then
        "Evaluation could not finish after several attempts. Your submission remains on record."
      else "Evaluation could not complete. Your submission remains on record."
  end%string.

(** [application/evaluations.py:104-117 EvaluationService._to_participant_view], the
    messages. *)
Definition status_message (s : EvaluationStatus) : string :=
  match s with
  | E_QUEUED => "Your submission was accepted. Evaluation is waiting in the queue."
  | E_RUNNING => "Your submission was accepted. Evaluation is in progress."
  | E_SUCCEEDED => "Your submission was accepted and evaluation completed."
  | E_FAILED => "Your submission was accepted, but evaluation could not complete."
  end%string.

(** [application/evaluations.py:87-146 EvaluationService._to_participant_view] *)
Definition to_participant_view (e : Evaluation) : M exn Db ParticipantEvaluationView :=
  ahead ← (match e_status e with
           | E_QUEUED => EvaluationRepository.queue_position (e_id e)
           | _ => mret None
           end);
  mret (mkView (e_id e) (e_submission_id e) (e_status e) ahead None true
    (match e_status e with E_SUCCEEDED => e_score e | _ => None end)
    (match e_status e with E_FAILED => Some (friendly_failure (e_failure_reason e)) | _ => None end)
    (e_created_at e)
    (match e_status e with E_QUEUED => None | _ => e_started_at e end)
    (match e_status e with E_SUCCEEDED | E_FAILED => e_completed_at e | _ => None end)
    true (status_message (e_status e))).

(** [application/evaluations.py:81-85 EvaluationService.get_participant_view] *)
Definition get_participant_view (actor : CurrentUser) (submission_id : uuid)
    : M exn Db ParticipantEvaluationView :=
  evaluation ← get_for_submission actor submission_id;
  to_participant_view evaluation.

(** * The backlog *)

Section Backlog.
Context (settings : Settings).

(** The snapshot over the service-rate window, with the exceptions of its
    duration and of the start of the window. *)
Definition window_snapshot (now : datetime) : M exn Db EvaluationRepository.QueueSnapshot :=
  match timedelta_seconds (evaluation_service_rate_window_seconds settings) with
  | None => raise (ValueError "cannot convert float NaN to integer")
  | Some None => raise (OtherError "OverflowError")
  | Some (Some window) =>
      match datetime_add now (- window) with
      | None => raise (OtherError "OverflowError")
      | Some _ => EvaluationRepository.queue_snapshot now window
      end
  end.

(** [application/evaluations.py:148-166 EvaluationService._estimate_wait_for_position] *)
Definition estimate_wait_for_position (now : datetime) (position : option Z) : M exn Db (option float) :=
  match position with
  | None => mret None
  | Some p =>
      if p <? 1 then mret None
      else
        snap ← window_snapshot now;
        let window := evaluation_service_rate_window_seconds settings in
        let recent := EvaluationRepository.sn_recent_completed_count snap in
        if fle window fzero || (recent <? 3) then mret None
        else
          let service_rate := fdiv (of_Z recent) window in
          if fle service_rate fzero then mret None
          else mret (Some (fround 1 (fdiv (of_Z p) service_rate)))
  end.

(** [age is not None and age >= limit] *)
Definition aged (age : option float) (limit : float) : bool :=
  match age with Some a => fge a limit | None => false end.

(** [application/evaluations.py:202-216 EvaluationService.get_backlog_status], the health
    of a queue of the given length and oldest age. *)
Definition health_of (queued : Z) (oldest : option float) : EvaluationHealth :=
  if (evaluation_critical_queue_depth settings <=? queued)
     || aged oldest (fmul (evaluation_saturated_oldest_age_seconds settings) (of_Z 5))
  then HEALTH_CRITICAL
  else if (evaluation_saturated_queue_depth settings <=? queued)
          || aged oldest (evaluation_saturated_oldest_age_seconds settings)
  then HEALTH_SATURATED
  else if (evaluation_busy_queue_depth settings <=? queued)
          || aged oldest (evaluation_busy_oldest_age_seconds settings)
  then HEALTH_BUSY
  else HEALTH_NORMAL.

(** [application/evaluations.py:218-234 EvaluationService.get_backlog_status], the
    messages. *)
Definition health_message (h : EvaluationHealth) : string :=
  match h with
  | HEALTH_NORMAL =>
      "Evaluation capacity looks healthy. Your score should appear shortly after submit."
  | HEALTH_BUSY => "Your submission was accepted. Evaluation is delayed — the queue is busy."
  | HEALTH_SATURATED =>
      "Your submission was accepted and queued. Evaluation is significantly delayed."
  | HEALTH_CRITICAL =>
      "Your submission was accepted. Evaluation backlog is very large; scoring may take a long time, but your submission is durable."
  end%string.

(** [application/evaluations.py:186-258 EvaluationService.get_backlog_status] *)
Definition get_backlog_status (now : datetime) : M exn Db EvaluationBacklogStatus :=
  snap ← window_snapshot now;
  let queued := EvaluationRepository.sn_queued snap in
  let oldest := EvaluationRepository.sn_oldest_queue_age_seconds snap in
  let window := evaluation_service_rate_window_seconds settings in
  let recent := EvaluationRepository.sn_recent_completed_count snap in
  let service_rate := if fgt window fzero then Some (fdiv (of_Z recent) window) else None in
  let estimated_wait :=
    match service_rate with
    | Some rate => if (0 <? queued) && fgt rate fzero && (3 <=? recent)
                   then Some (fround 1 (fdiv (of_Z queued) rate)) else None
    | None => None
    end in
  let health := health_of queued oldest in
  runtime ← EvaluationRepository.read_runtime_state;
  mret {| bl_health := health;
          bl_queued_count := queued;
          bl_running_count := EvaluationRepository.sn_running snap;
          bl_succeeded_count := EvaluationRepository.sn_succeeded snap;
          bl_failed_count := EvaluationRepository.sn_failed snap;
          bl_oldest_queue_age_seconds := fround 3 <$> oldest;
          bl_estimated_wait_seconds := estimated_wait;
          bl_recent_service_rate_per_second := fround 3 <$> service_rate;
          bl_message := health_message health;
          bl_submissions_accepted := true;
          bl_estimate_is_approximate := true;
          bl_light_queued_count := EvaluationRepository.sn_light_queued snap;
          bl_medium_queued_count := EvaluationRepository.sn_medium_queued snap;
          bl_heavy_queued_count := EvaluationRepository.sn_heavy_queued snap;
          bl_worker_capacity := evaluation_max_workers settings;
          bl_pressure_state :=
            (if String.eqb (sch_pressure_state runtime) "" then "normal"
             else sch_pressure_state runtime);
          bl_adaptive_max_workers := sch_adaptive_max_workers runtime;
          bl_resource_runtime_enabled := resource_aware_runtime_enabled settings |}.

(** [application/evaluations.py:260-262 EvaluationService.get_organizer_queue] *)
Definition get_organizer_queue (actor : CurrentUser) (now : datetime)
    : M exn Db EvaluationBacklogStatus :=
  require_organizer actor ;;
  get_backlog_status now.
End Backlog.
End EvaluationService.
