(* ===== verification/EvaluationViewsSpec.v ===== *)
(** The properties of the evaluation views: who sees an evaluation and what the
    view says in each state, and the order of the backlog's health levels. *)
From Stdlib Require Import ZArith Lia String.
From stdpp Require Import prelude strings gmap.
From S2P Require Import Prelude PyFloat PyStr Domain Database Json Config Catalog EvaluationQueue.
From S2P Require Import EvaluationQueueFacts EvaluationQueueSpec Submissions EvaluationViews.
Import EvaluationRepository EvaluationService.

(** * Authorization *)

(** The participant who submitted, or the organizer of the hackathon. *)
Definition may_view (db : Db) (actor : CurrentUser) (s : Submission) : Prop :=
  s_participant_id s = cu_id actor
  \/ (is_organizer actor = true /\ exists c h, challenges db !! s_challenge_id s = Some c
      /\ hackathons db !! c_hackathon_id c = Some h /\ h_organizer_id h = cu_id actor).

Lemma authorize_view_run actor s db :
  (may_view db actor s /\ authorize_view actor s db = (Ok tt, db))
  \/ (~ may_view db actor s
      /\ exists c m, (c = PermissionDenied \/ c = NotFoundError)
         /\ authorize_view actor s db = (Raise (DomainExn c m), db)).
Proof.
  unfold authorize_view, may_view. case_bool_decide as Ho; [left; auto|].
  unfold guard_or. destruct (is_organizer actor); cycle 1.
  { right. split; [intros [?|[? _]]; done|]. eexists _, _. split; [by left|reflexivity]. }
  unfold ChallengeRepository.get, HackathonRepository.get, found_or, not_found, raise, gets_st, mret,
    M_ret, mbind, M_bind. cbn.
  destruct (challenges db !! s_challenge_id s) as [c|] eqn:Hc; cycle 1.
  { right. split; [intros [?|(_ & ? & ? & ? & _)]; done|]. eexists _, _. split; [by right|reflexivity]. }
  destruct (hackathons db !! c_hackathon_id c) as [h|] eqn:Hh; cycle 1.
  { right. split; [intros [?|(_ & ? & ? & ? & ? & _)]; [done|congruence]|].
    eexists _, _. split; [by left|reflexivity]. }
  case_bool_decide as Hid; [left; split; [right; eauto 10|done]|right].
  split; [intros [?|(_ & c' & h' & ? & ? & ?)]; [done|congruence]|].
  eexists _, _. split; [by left|reflexivity].
Qed.

(** * Views *)

(** What a view says of the evaluation [e], and nothing more. *)
Definition view_of (db : Db) (e : Evaluation) (v : ParticipantEvaluationView) : Prop :=
  pv_id v = e_id e /\ pv_submission_id v = e_submission_id e /\ pv_status v = e_status e
  /\ match e_status e with
     | E_QUEUED =>
         (exists i, queued_fifo db !! i = Some e /\ pv_estimated_jobs_ahead v = Some (Z.of_nat i))
         /\ pv_score v = None /\ pv_failure_message v = None
         /\ pv_started_at v = None /\ pv_completed_at v = None
     | E_RUNNING =>
         pv_estimated_jobs_ahead v = None /\ pv_score v = None /\ pv_failure_message v = None
         /\ is_Some (pv_started_at v) /\ pv_completed_at v = None
     | E_SUCCEEDED =>
         pv_estimated_jobs_ahead v = None /\ (exists n, pv_score v = Some n /\ 0 <= n <= 100)
         /\ pv_failure_message v = None /\ is_Some (pv_completed_at v)
     | E_FAILED =>
         pv_estimated_jobs_ahead v = None /\ pv_score v = None
         /\ pv_failure_message v = Some (friendly_failure (e_failure_reason e))
         /\ is_Some (pv_completed_at v)
     end.

Lemma to_participant_view_run db k e :
  queue_wf db -> evaluations db !! k = Some e ->
  exists v, to_participant_view e db = (Ok v, db) /\ view_of db e v.
Proof.
  intros Hwf Hk. pose proof Hwf as [Hrows _]. destruct (Hrows k e Hk) as (<- & Hck & Hcol).
  unfold to_participant_view. rewrite run_bind. destruct (e_status e) eqn:Hst.
  - destruct (queue_position_is_index db (e_id e) Hwf) as (pos & -> & Hpos & _).
    assert (e ∈ queued_fifo db) as [i Hi]%list_elem_of_lookup_1 by (apply elem_of_queued_fifo; eauto).
    eexists. split; [reflexivity|]. unfold view_of. rewrite Hst. cbn. rewrite (Hpos i e Hi eq_refl).
    repeat (split; [done || by eauto|]). done.
  - eexists. split; [reflexivity|]. unfold view_of, status_columns in *. rewrite Hst in Hcol |- *. cbn.
    destruct Hcol as (_ & Hs & _). by repeat split.
  - eexists. split; [reflexivity|]. unfold view_of, status_columns in *. rewrite Hst in Hcol |- *. cbn.
    destruct Hcol as (Hc & [n Hn] & _). repeat (split; [done|]). split; [|by split].
    exists n. split; [done|]. unfold evaluation_check in Hck. rewrite Hn in Hck. zify_bool. lia.
  - eexists. split; [reflexivity|]. unfold view_of, status_columns in *. rewrite Hst in Hcol |- *. cbn.
    destruct Hcol as (Hc & _). by repeat split.
Qed.

(** C34 A participant's view: asking changes nothing; an answer is given only to the
    participant who submitted and to the organizer of the hackathon, and shows
    the stored evaluation of that submission as its state calls for: the exact
    number of jobs ahead while it is queued, a score between 0 and 100 only when
    it succeeded, and for a failure one of the fixed messages, never the recorded
    reason; a refusal of someone who may view means that there is no single
    evaluation. *)
Theorem participant_view_faithful (db : Db) (actor : CurrentUser) (submission_id : uuid) :
  queue_wf db ->
  let (r, db') := get_participant_view actor submission_id db in
  db' = db
  /\ match r with
     | Ok v => exists s e k, submissions db !! submission_id = Some s /\ may_view db actor s
               /\ evaluations db !! k = Some e /\ e_submission_id e = submission_id /\ view_of db e v
     | Raise e => forall s, submissions db !! submission_id = Some s -> may_view db actor s ->
         forall r, rows_where (fun r => bool_decide (e_submission_id r = submission_id))
                     (evaluations db) <> [r]
     end.
Proof.
  intros Hwf. unfold get_participant_view, get_for_submission, SubmissionRepository.get_submission,
    get_by_submission, get_st, gets_st, mbind, M_bind, mret, M_ret.
  destruct (submissions db !! submission_id) as [s|] eqn:Hs; [|by split].
  cbn -[authorize_view to_participant_view rows_where].
  destruct (authorize_view_run actor s db) as [[Hm ->]|(Hno & c & m & _ & ->)]; cycle 1.
  { split; [done|]. intros s' [= <-] Hm. by destruct Hno. }
  set (rows := rows_where _ _). destruct rows as [|e [|e' rest]] eqn:Hrows; cbn -[to_participant_view].
  - by split.
  - assert (e ∈ rows) as [[k Hk] Hsub%bool_decide_eq_true]%elem_of_rows_where by (rewrite Hrows; left).
    destruct (to_participant_view_run db k e Hwf Hk) as (v & -> & Hv).
    split; [done|]. exists s, e, k. exact (conj eq_refl (conj Hm (conj Hk (conj Hsub Hv)))).
  - by split.
Qed.

(** * The health of the backlog *)

Definition health_severity (h : EvaluationHealth) : Z :=
  match h with
  | HEALTH_NORMAL => 0 | HEALTH_BUSY => 1 | HEALTH_SATURATED => 2 | HEALTH_CRITICAL => 3
  end.

(** The age [a'] is at least the age [a]; no age is the least. *)
Definition age_le (a a' : option float) : Prop :=
  match a, a' with
  | None, _ => True
  | Some x, Some y => fle x y = true
  | Some _, None => False
  end.

Lemma aged_mono a a' limit : age_le a a' -> aged a limit = true -> aged a' limit = true.
Proof. destruct a, a'; cbn; try done. intros Hle Hge. by eapply fle_trans. Qed.

Lemma depth_or_age_mono d q q' a a' limit :
  q <= q' -> age_le a a' -> (d <=? q) || aged a limit = true -> (d <=? q') || aged a' limit = true.
Proof.
  intros Hq Ha [H|H]%orb_true_iff; apply orb_true_iff; [left; zify_bool; lia|right].
  by eapply aged_mono.
Qed.

(** The health of the backlog never improves as the queue grows or its oldest
    job ages, whatever the order of the configured thresholds. *)
Theorem health_monotone (cfg : Settings) (q q' : Z) (a a' : option float) :
  q <= q' -> age_le a a' ->
  health_severity (health_of cfg q a) <= health_severity (health_of cfg q' a').
Proof.
  intros Hq Ha. unfold health_of.
  destruct (_ || aged a (fmul _ _)) eqn:E3.
  { by rewrite (depth_or_age_mono _ _ _ _ _ _ Hq Ha E3). }
  destruct (_ || aged a (evaluation_saturated_oldest_age_seconds cfg)) eqn:E2.
  { destruct (_ || aged a' (fmul _ _)); [cbn; lia|]. by rewrite (depth_or_age_mono _ _ _ _ _ _ Hq Ha E2). }
  destruct (_ || aged a (evaluation_busy_oldest_age_seconds cfg)) eqn:E1.
  - destruct (_ || aged a' (fmul _ _)); [cbn; lia|]. destruct (_ || aged a' _); [cbn; lia|].
    by rewrite (depth_or_age_mono _ _ _ _ _ _ Hq Ha E1).
  - repeat case_match; cbn; lia.
Qed.

Module ViewsSample.
(** A queue of three jobs whose second belongs to the participant 2. *)
Definition participant : CurrentUser := mkCurrentUser 2 (py "Pat") PARTICIPANT.
Lemma participant_view_faithful_witness :
  exists v, get_participant_view participant 2 Sample.queued = (Ok v, Sample.queued)
  /\ pv_estimated_jobs_ahead v = Some 1 /\ pv_score v = None.
Proof.
  pose proof (participant_view_faithful Sample.queued participant 2 Sample.queued_wf) as H.
  assert (exists v, fst (get_participant_view participant 2 Sample.queued) = Ok v
          /\ pv_estimated_jobs_ahead v = Some 1 /\ pv_score v = None) as (v & Hv & Ha & Hs)
    by (eexists; split; [vm_compute; reflexivity|split; reflexivity]).
  destruct (get_participant_view participant 2 Sample.queued) as [r db']. cbn [fst] in Hv.
  destruct H as [-> _]. exists v. subst r. exact (conj eq_refl (conj Ha Hs)).
Defined.

Lemma health_monotone_witness :
  health_severity (health_of default_settings 20 None)
  <= health_severity (health_of default_settings 20 (Some (of_Z 31))).
Proof. apply (health_monotone default_settings 20 20 None (Some (of_Z 31))); [lia|exact I]. Defined.
End ViewsSample.
