(* ===== verification/InteractiveMetrics.v ===== *)
(** The interactive latency hint (src/challengeforge/api/interactive_metrics.py and
    the recording of src/challengeforge/api/middleware.py): requests update
    rolling windows in memory, and a publisher writes their percentiles to the
    scheduler row the evaluation workers read.

    A write awaits the database, and other requests of the process run
    meanwhile: [during] is what they do to the publisher.  The clocks are
    arguments, one for each of the two windows. *)
From Stdlib Require Import ZArith Lia String.
From stdpp Require Import prelude strings gmap.
From S2P Require Import Prelude PyFloat PyStr Domain Database Config EvaluationQueue EvaluationQueueFacts Runtime.

(** * Snapshots *)

(** [runtime/interactive_signal.py:95-105 RollingLatencyWindow.snapshot], its result
    without the window's own setting. *)
Record WindowSnapshot := mkWindowSnapshot {
  ws_sample_count : Z;
  ws_p50_ms : option float;
  ws_p95_ms : option float;
  ws_p99_ms : option float;
}.

(** [runtime/interactive_signal.py:95-105 RollingLatencyWindow.snapshot], after its
    trimming. *)
Definition window_values (w : RollingLatencyWindow) : WindowSnapshot :=
  let values := (samples w).*2 in
  let at_ fraction := if nonempty values then Some (percentile values fraction) else None in
  mkWindowSnapshot (zlen values) (at_ (lit 50 100)) (at_ (lit 95 100)) (at_ (lit 99 100)).

(** * The publisher *)

(** The entries of a snapshot that are published or compared. *)
Record Hint := mkHint {
  hi_sample_count : Z;
  hi_p95_ms : option float;
  hi_pool_wait_p95_ms : option float;
}.

(** [api/interactive_metrics.py:28-45 InteractiveMetricsPublisher]; an empty
    [_last_published] is [None], and the task is the event loop's. *)
Record InteractiveMetricsPublisher := mkPublisher {
  pb_window : RollingLatencyWindow;
  pb_pool_wait_window : RollingLatencyWindow;
  pb_publish_mode : PublishMode;
  pb_publish_interval_ms : float;
  pb_publish_min_delta_ms : float;
  pb_persist_every_samples : Z;
  pb_dirty : bool;
  pb_generation : Z;
  pb_samples_since_sync : Z;
  pb_in_flight : Z;
  pb_peak_in_flight : Z;
  pb_publish_writes : Z;
  pb_publish_failures : Z;
  pb_last_published : option Hint;
}.
#[export] Instance InteractiveMetricsPublisher_eta : Eta InteractiveMetricsPublisher := fun p =>
  mkPublisher (pb_window p) (pb_pool_wait_window p) (pb_publish_mode p) (pb_publish_interval_ms p)
    (pb_publish_min_delta_ms p) (pb_persist_every_samples p) (pb_dirty p) (pb_generation p)
    (pb_samples_since_sync p) (pb_in_flight p) (pb_peak_in_flight p) (pb_publish_writes p)
    (pb_publish_failures p) (pb_last_published p).

(** [api/interactive_metrics.py:182-205 get_or_create_publisher], a new publisher. *)
Definition new_publisher (cfg : Settings) : InteractiveMetricsPublisher :=
  let window := mkWindow (resource_interactive_window_seconds cfg) 2000 [] in
  mkPublisher window window (resource_interactive_publish_mode cfg)
    (resource_interactive_publish_interval_ms cfg) (resource_interactive_publish_min_delta_ms cfg)
    (resource_interactive_persist_every_samples cfg) false 0 0 0 0 0 0 None.

(** The trimming that reading a snapshot does. *)
Definition trim_windows (now now_pool : float) (p : InteractiveMetricsPublisher)
    : InteractiveMetricsPublisher :=
  p <| pb_window := trim now (pb_window p) |>
    <| pb_pool_wait_window := trim now_pool (pb_pool_wait_window p) |>.

(** [api/interactive_metrics.py:65-84 InteractiveMetricsPublisher.snapshot], the entries
    the publisher uses. *)
Definition hint_of (p : InteractiveMetricsPublisher) : Hint :=
  mkHint (ws_sample_count (window_values (pb_window p))) (ws_p95_ms (window_values (pb_window p)))
    (ws_p95_ms (window_values (pb_pool_wait_window p))).

Definition add_sample (now ms : float) (w : RollingLatencyWindow) : RollingLatencyWindow :=
  trim now (w <| samples := samples w ++ [(now, ms)] |>).

(** [api/interactive_metrics.py:47-55 InteractiveMetricsPublisher.record_wall]: every
    recording and the snapshot at the end read their clocks anew; these are the
    last readings. *)
Definition record_wall (latency_ms : float) (pool_wait_ms : option float) (now now_pool : float)
    (p : InteractiveMetricsPublisher) : InteractiveMetricsPublisher :=
  let p := p <| pb_window := add_sample now latency_ms (pb_window p) |> in
  let p := match pool_wait_ms with
           | Some ms => if fge ms fzero
                        then p <| pb_pool_wait_window := add_sample now_pool ms (pb_pool_wait_window p) |>
                        else p
           | None => p
           end in
  trim_windows now now_pool
    (p <| pb_dirty := true |> <| pb_generation := pb_generation p + 1 |>
       <| pb_samples_since_sync := pb_samples_since_sync p + 1 |>).

(** [api/interactive_metrics.py:57-60 InteractiveMetricsPublisher.begin_request] *)
Definition begin_request (p : InteractiveMetricsPublisher) : InteractiveMetricsPublisher :=
  let n := pb_in_flight p + 1 in
  p <| pb_in_flight := n |> <| pb_peak_in_flight := Z.max (pb_peak_in_flight p) n |>.

(** [api/interactive_metrics.py:62-63 InteractiveMetricsPublisher.end_request] *)
Definition end_request (p : InteractiveMetricsPublisher) : InteractiveMetricsPublisher :=
  p <| pb_in_flight := Z.max 0 (pb_in_flight p - 1) |>.

(** [api/interactive_metrics.py:94-95 InteractiveMetricsPublisher.should_persist_sync] *)
Definition should_persist_sync (p : InteractiveMetricsPublisher) : bool :=
  Z.max 1 (pb_persist_every_samples p) <=? pb_samples_since_sync p.

(** [abs(cur - prev) >= delta] *)
Definition moved (delta cur prev : float) : bool := fge (fabs (fsub cur prev)) delta.

(** [api/interactive_metrics.py:97-115 InteractiveMetricsPublisher.material_change] *)
Definition material_change (snap : Hint) (p : InteractiveMetricsPublisher) : bool :=
  let delta := pb_publish_min_delta_ms p in
  match pb_last_published p with
  | None => true
  | Some last =>
      match hi_p95_ms last, hi_p95_ms snap with
      | None, Some _ => true
      | _, None => false
      | Some prev, Some cur =>
          if moved delta cur prev then true
          else match hi_pool_wait_p95_ms last, hi_pool_wait_p95_ms snap with
               | None, Some _ => true
               | Some prev_pw, Some cur_pw => moved delta cur_pw prev_pw
               | _, None => false
               end
      end
  end.

(** The process: its publisher, and the database it shares. *)
Record Process := mkProcess { ps_db : Db; ps_publisher : InteractiveMetricsPublisher }.

(** One call of [persist_now]: its clocks, what other requests do to the publisher
    while the transaction is awaited, and whether the transaction fails. *)
Record PublishEnv := mkPublishEnv {
  pe_now : float;
  pe_now_pool : float;
  pe_during : InteractiveMetricsPublisher -> InteractiveMetricsPublisher;
  pe_fails : bool;
}.

(** [self._last_published = dict(snap); self._dirty = False; ...] *)
Definition published (snap : Hint) (p : InteractiveMetricsPublisher) : InteractiveMetricsPublisher :=
  p <| pb_last_published := Some snap |> <| pb_dirty := false |> <| pb_samples_since_sync := 0 |>
    <| pb_publish_writes := pb_publish_writes p + 1 |>.

Definition publish_failed (p : InteractiveMetricsPublisher) : InteractiveMetricsPublisher :=
  p <| pb_publish_failures := pb_publish_failures p + 1 |>.

(** [api/interactive_metrics.py:117-146 InteractiveMetricsPublisher.persist_now]: whether
    a hint was written. *)
Definition persist_now (env : PublishEnv) (s : Process) : bool * Process :=
  let p := trim_windows (pe_now env) (pe_now_pool env) (ps_publisher s) in
  let snap := hint_of p in
  let keep p := mkProcess (ps_db s) p in
  if negb (pb_dirty p) && bool_decide (is_Some (pb_last_published p)) then (false, keep p)
  else if bool_decide (is_Some (pb_last_published p)) && negb (material_change snap p) then
    (false, keep (p <| pb_dirty := false |> <| pb_samples_since_sync := 0 |>))
  else
    let p := pe_during env p in
    if pe_fails env then (false, keep (publish_failed p))
    else
      match EvaluationRepository.persist_interactive_hint (hi_p95_ms snap) (hi_sample_count snap)
              (hi_pool_wait_p95_ms snap) (ps_db s) with
      | (Ok _, db) => (true, mkProcess db (published snap p))
      | (Raise _, _) => (false, keep (publish_failed p))
      end.

(** [api/interactive_metrics.py:148-158 InteractiveMetricsPublisher.run_publisher], over
    the turns given: the requests between two publications, then one
    publication in the asynchronous mode. *)
Fixpoint run_publisher
    (turns : list ((InteractiveMetricsPublisher -> InteractiveMetricsPublisher) * PublishEnv))
    (s : Process) : Process :=
  match turns with
  | [] => s
  | (requests, env) :: rest =>
      let s := mkProcess (ps_db s) (requests (ps_publisher s)) in
      match pb_publish_mode (ps_publisher s) with
      | PublishAsync => run_publisher rest (snd (persist_now env s))
      | PublishSync => run_publisher rest s
      end
  end.

(** [api/interactive_metrics.py:168-179 InteractiveMetricsPublisher.stop_background], its
    final flush. *)
Definition stop_background (env : PublishEnv) (s : Process) : Process :=
  if pb_dirty (ps_publisher s) then snd (persist_now env s) else s.

(** * Recording a request *)

(** [api/middleware.py:46-58 RequestContextMiddleware.__call__]: whether the wall time of
    the request is observed. *)
Definition track_interactive (cfg : Settings) (profiling : bool) (method path : pystr) : bool :=
  let feedback_enabled := fgt (resource_interactive_p95_warn_ms cfg) fzero
                          && fgt (resource_interactive_p95_critical_ms cfg) fzero in
  (feedback_enabled || profiling) && is_interactive_control_path method path.

(** [api/middleware.py:102-115 RequestContextMiddleware._record_interactive] *)
Definition record_interactive (total_ms : float) (pool_wait_ms : option float) (now now_pool : float)
    (env : PublishEnv) (s : Process) : Process :=
  let s := mkProcess (ps_db s) (record_wall total_ms pool_wait_ms now now_pool (ps_publisher s)) in
  let s := match pb_publish_mode (ps_publisher s) with
           | PublishSync => if should_persist_sync (ps_publisher s) then snd (persist_now env s) else s
           | PublishAsync => s
           end in
  mkProcess (ps_db s) (end_request (ps_publisher s)).

(** * Laws *)

Lemma persist_hint_run p95 n wait db :
  queue_wf db ->
  exists row, EvaluationRepository.persist_interactive_hint p95 n wait db
              = (Ok tt, set_scheduler_state (Some row) db)
  /\ sch_interactive_p95_ms row = p95 /\ sch_interactive_sample_count row = Z.max 0 n
  /\ sch_pool_wait_p95_ms row = wait
  /\ forall h, bypasses_used h (set_scheduler_state (Some row) db) = bypasses_used h db.
Proof.
  intros [_ Hsched]. unfold EvaluationRepository.persist_interactive_hint.
  destruct (ensure_lock_run (mkSched None 0 "normal" None p95 (Z.max 0 n) wait) db Hsched eq_refl eq_refl)
    as (s & Hs0 & Hused & Hens & Hlock).
  rewrite run_bind, Hens, run_bind, Hlock, save_scheduler_again by (cbn; lia).
  eexists. split; [reflexivity|]. do 3 (split; [done|]). intros h. rewrite <-(Hused h). reflexivity.
Qed.

(** A publication is all or nothing: when it reports a write, the row the workers
    read holds the percentiles of the snapshot taken when it began, whatever
    requests ran meanwhile, and nothing else that the queue depends on has
    changed; when it does not, the database is as it was. *)
Theorem publication_writes_snapshot (env : PublishEnv) (s : Process) :
  queue_wf (ps_db s) ->
  let snap := hint_of (trim_windows (pe_now env) (pe_now_pool env) (ps_publisher s)) in
  let (written, s') := persist_now env s in
  if written then
    pe_fails env = false /\ pb_last_published (ps_publisher s') = Some snap
    /\ evaluations (ps_db s') = evaluations (ps_db s)
    /\ (forall h, bypasses_used h (ps_db s') = bypasses_used h (ps_db s))
    /\ exists row, scheduler_state (ps_db s') = Some row
       /\ sch_interactive_p95_ms row = hi_p95_ms snap
       /\ sch_interactive_sample_count row = hi_sample_count snap
       /\ sch_pool_wait_p95_ms row = hi_pool_wait_p95_ms snap
  else ps_db s' = ps_db s.
Proof.
  intros Hwf snap. unfold persist_now. cbv zeta. fold snap.
  destruct (negb _ && _); [done|]. destruct (bool_decide _ && _); [done|].
  destruct (pe_fails env) eqn:Hf; [done|].
  destruct (persist_hint_run (hi_p95_ms snap) (hi_sample_count snap) (hi_pool_wait_p95_ms snap) _ Hwf)
    as (row & -> & H1 & H2 & H3 & H4).
  cbn [ps_db ps_publisher]. split; [done|]. split; [done|]. split; [done|]. split; [exact H4|].
  exists row. split; [done|]. split; [done|]. split; [|done]. rewrite H2.
  assert (0 <= hi_sample_count snap) as Hn by (unfold snap, hint_of, window_values, zlen; cbn; lia). lia.
Qed.

(** Samples recorded during a write are not published: once a write has
    succeeded the publisher counts as clean, whatever requests recorded while it
    was awaited, so that without a new request neither a later publication nor
    the flush at the end writes them. *)
Theorem late_samples_not_flushed (env later : PublishEnv) (s s' : Process) :
  persist_now env s = (true, s') ->
  pb_dirty (ps_publisher s') = false
  /\ fst (persist_now later s') = false /\ ps_db (snd (persist_now later s')) = ps_db s'
  /\ stop_background later s' = s'.
Proof.
  intros Hrun.
  assert (exists snap p, ps_publisher s' = published snap p) as (snap & p & Hp).
  { revert Hrun. unfold persist_now. cbv zeta. destruct (negb _ && _); [done|].
    destruct (bool_decide _ && _); [done|]. destruct (pe_fails env); [done|].
    destruct (EvaluationRepository.persist_interactive_hint _ _ _ _) as [[[]|] db]; [|done].
    intros [= <-]. eauto. }
  assert (pb_dirty (ps_publisher s') = false) as Hd by (by rewrite Hp).
  split; [done|]. unfold stop_background. rewrite Hd. unfold persist_now. cbv zeta.
  assert (pb_dirty (trim_windows (pe_now later) (pe_now_pool later) (ps_publisher s')) = false) as ->
    by exact Hd.
  assert (pb_last_published (trim_windows (pe_now later) (pe_now_pool later) (ps_publisher s')) = Some snap)
    as -> by (by rewrite Hp).
  by rewrite (bool_decide_eq_true_2 (is_Some (Some snap))) by done.
Qed.

Module MetricsSample.
(** A publisher with one fast request; a slow one ends during the write. *)
Definition publisher : InteractiveMetricsPublisher :=
  record_wall (of_Z 10) None (of_Z 1) (of_Z 1) (new_publisher default_settings).
Definition slow : InteractiveMetricsPublisher -> InteractiveMetricsPublisher :=
  record_wall (of_Z 900) None (of_Z 2) (of_Z 2).
Definition start : Process := mkProcess empty_db publisher.
Definition env : PublishEnv := mkPublishEnv (of_Z 2) (of_Z 2) slow false.

Lemma empty_wf : queue_wf empty_db.
Proof. split; [intros k r Hk; cbn in Hk; by rewrite lookup_empty in Hk|done]. Qed.

Lemma publication_writes_snapshot_witness :
  exists s', persist_now env start = (true, s')
  /\ exists row, scheduler_state (ps_db s') = Some row
     /\ sch_interactive_p95_ms row = Some (of_Z 10) /\ sch_interactive_sample_count row = 1.
Proof.
  pose proof (publication_writes_snapshot env start empty_wf) as H.
  assert (fst (persist_now env start) = true) as Hb by (vm_compute; reflexivity).
  destruct (persist_now env start) as [b s']. cbn [fst] in Hb. subst b.
  destruct H as (_ & _ & _ & _ & row & Hrow & H1 & H2 & _). exists s'. split; [reflexivity|].
  exists row. split; [exact Hrow|]. split; [rewrite H1|rewrite H2]; vm_compute; reflexivity.
Defined.

(** The lost sample is a material change. *)
Lemma late_samples_not_flushed_witness :
  exists s', persist_now env start = (true, s') /\ stop_background env s' = s'
  /\ material_change (hint_of (ps_publisher s')) (ps_publisher s') = true.
Proof.
  assert (exists s', persist_now env start = (true, s')
          /\ material_change (hint_of (ps_publisher s')) (ps_publisher s') = true) as (s' & Hs & Hm)
    by (eexists; split; [vm_compute; reflexivity|vm_compute; reflexivity]).
  destruct (late_samples_not_flushed env env start s' Hs) as (_ & _ & _ & Hstop).
  exists s'. exact (conj Hs (conj Hstop Hm)).
Defined.
End MetricsSample.
