(* ===== verification/Retrieval.v ===== *)
(** Lexical retrieval (src/challengeforge/retrieval/): the three versions of the
    query over the chunks of succeeded ingestion jobs, and the metrics a
    retrieval run is judged by.

    The full-text functions of PostgreSQL are the class [FullText]; the
    filtering, the scores, their order and the limit are the statements' own. *)
From Stdlib Require Import ZArith Lia String.
From stdpp Require Import prelude strings gmap sorting.
From S2P Require Import Prelude PyFloat PyStr Domain Database.

(** * The statements *)

(** What the statements use of PostgreSQL: text search with its [tsvector] and
    [tsquery] types, [ILIKE], and the text of a JSONB array of strings. *)
Class FullText := {
  tsvector : Type;
  tsquery : Type;
  to_tsvector : string -> pystr -> tsvector;
  setweight : tsvector -> string -> tsvector;
  tsvector_concat : tsvector -> tsvector -> tsvector;
  websearch_to_tsquery : string -> pystr -> tsquery;
  plainto_tsquery : string -> pystr -> tsquery;
  ts_matches : tsvector -> tsquery -> bool;
  ts_rank_cd : tsvector -> tsquery -> float;
  ilike : pystr -> pystr -> bool;
  jsonb_text : list pystr -> pystr;
}.

(** [retrieval/lexical.py:22-22 RETRIEVAL_VERSION_FTS] *)
Definition RETRIEVAL_VERSION_FTS : pystr := py "cf-lex-fts-1".
(** [retrieval/lexical.py:23-23 RETRIEVAL_VERSION_SIMPLE] *)
Definition RETRIEVAL_VERSION_SIMPLE : pystr := py "cf-lex-fts-simple-1".
(** [retrieval/lexical.py:24-24 RETRIEVAL_VERSION_STRUCT] *)
Definition RETRIEVAL_VERSION_STRUCT : pystr := py "cf-lex-fts-struct-1".

(** [retrieval/lexical.py:33-39 RetrievalFilters] *)
Record RetrievalFilters := mkFilters {
  rf_submission_id : option uuid;
  rf_artifact_key : option pystr;
  rf_ingestion_job_id : option uuid;
}.
Definition no_filters : RetrievalFilters := mkFilters None None None.

(** [retrieval/lexical.py:42-60 RetrievedChunk] *)
Record RetrievedChunk := mkRetrieved {
  rc_chunk_id : uuid;
  rc_ingestion_job_id : uuid;
  rc_submission_id : uuid;
  rc_artifact_key : pystr;
  rc_ordinal : Z;
  rc_content : pystr;
  rc_score : float;
  rc_char_start : Z;
  rc_char_end : Z;
  rc_line_start : Z;
  rc_line_end : Z;
  rc_block_type : pystr;
  rc_heading_path : list pystr;
  rc_parser_version : pystr;
  rc_chunker_version : pystr;
  rc_retrieval_version : pystr;
  rc_content_sha256 : pystr;
}.

(** [retrieval/lexical.py:63-65 normalize_query] *)
Definition normalize_query (query : pystr) : pystr := join (py " ") (words (strip query)).

(** [retrieval/lexical.py:98-109 _filter_clauses] *)
Definition _filter_clauses (filters : RetrievalFilters) (c : DocumentChunk) : bool :=
  match rf_submission_id filters with
  | None => true
  | Some i => bool_decide (dc_submission_id c = i)
  end
  && match rf_artifact_key filters with
     | None => true
     | Some k => bool_decide (dc_artifact_key c = k)
     end
  && match rf_ingestion_job_id filters with
     | None => true
     | Some i => bool_decide (dc_ingestion_job_id c = i)
     end.

(** [retrieval/lexical.py:112-139 _rows_to_results], one row with its score. *)
Definition row_to_result (retrieval_version : pystr) (row : float * DocumentChunk)
    : RetrievedChunk :=
  let (score, c) := row in
  mkRetrieved (dc_id c) (dc_ingestion_job_id c) (dc_submission_id c) (dc_artifact_key c)
    (dc_ordinal c) (dc_content c) score (dc_char_start c) (dc_char_end c) (dc_line_start c)
    (dc_line_end c) (dc_block_type c) (dc_heading_path c) (dc_parser_version c)
    (dc_chunker_version c) retrieval_version (dc_content_sha256 c).

(** [JOIN ingestion_jobs j ON j.id = c.ingestion_job_id WHERE j.status = 'succeeded'] *)
Definition job_succeeded (db : Db) (c : DocumentChunk) : bool :=
  match ingestion_jobs db !! dc_ingestion_job_id c with
  | Some j => bool_decide (j_status j = I_SUCCEEDED)
  | None => false
  end.

(** [>=] of [double precision] in a sort: a NaN is greater than every number. *)
Definition pg_ge (a b : float) : bool := is_nan a || (negb (is_nan b) && fle b a).

(** [ORDER BY score DESC, c.id ASC] *)
Definition ranks_before (a b : float * DocumentChunk) : Prop :=
  pg_ge a.1 b.1 = true /\ (pg_ge b.1 a.1 = true -> dc_id a.2 <= dc_id b.2).
#[export] Instance ranks_before_dec a b : Decision (ranks_before a b).
Proof. unfold ranks_before. apply _. Defined.

(** The rows of a statement: those of succeeded jobs that match and pass the
    filters, scored, ordered and limited. *)
Definition select_chunks (matches : DocumentChunk -> bool) (score : DocumentChunk -> float)
    (filters : RetrievalFilters) (top_k : Z) (db : Db) : list (float * DocumentChunk) :=
  take (Z.to_nat top_k)
    (merge_sort ranks_before
       ((fun c => (score c, c)) <$>
        rows_where (fun c => job_succeeded db c && matches c && _filter_clauses filters c)
          (document_chunks db))).

Section Statements.
Context `{FullText}.

(** [retrieval/schema.py:16-21 _ENSURE_SQL], the generated column [search_tsv]. *)
Definition search_tsv (c : DocumentChunk) : tsvector :=
  tsvector_concat
    (setweight (to_tsvector "english" (jsonb_text (dc_heading_path c))) "A")
    (setweight (to_tsvector "english" (dc_content c)) "B").

(** [retrieval/schema.py:35-39 _ENSURE_SQL], the generated column [search_tsv_simple]. *)
Definition search_tsv_simple (c : DocumentChunk) : tsvector :=
  to_tsvector "simple" (dc_content c).

(** [retrieval/lexical.py:142-184 _retrieve_fts] *)
Definition _retrieve_fts (query : pystr) (top_k : Z) (filters : RetrievalFilters) (db : Db)
    : list RetrievedChunk :=
  let tsq := websearch_to_tsquery "english" query in
  row_to_result RETRIEVAL_VERSION_FTS <$>
    select_chunks (fun c => ts_matches (search_tsv c) tsq)
      (fun c => ts_rank_cd (search_tsv c) tsq) filters top_k db.

(** [retrieval/lexical.py:187-231 _retrieve_simple] *)
Definition _retrieve_simple (query : pystr) (top_k : Z) (filters : RetrievalFilters) (db : Db)
    : list RetrievedChunk :=
  let tsq := plainto_tsquery "simple" query in
  row_to_result RETRIEVAL_VERSION_SIMPLE <$>
    select_chunks (fun c => ts_matches (search_tsv_simple c) tsq)
      (fun c => ts_rank_cd (search_tsv_simple c) tsq) filters top_k db.

(** [('%%' || :q || '%%')] *)
Definition like_pattern (query : pystr) : pystr := py "%%" ++ query ++ py "%%".

(** [retrieval/lexical.py:266-281 _retrieve_struct], the score with its boosts. *)
Definition struct_score (query : pystr) (c : DocumentChunk) : float :=
  let pattern := like_pattern query in
  let in_heading := ilike (jsonb_text (dc_heading_path c)) pattern in
  let in_content := ilike (dc_content c) pattern in
  let is_code := bool_decide (dc_block_type c ∈ [py "code"; py "code_fence"]) in
  fadd
    (fadd
       (fadd (ts_rank_cd (search_tsv c) (websearch_to_tsquery "english" query))
             (if in_heading then lit 15 100 else fzero))
       (if in_content then lit 10 100 else fzero))
    (if is_code && in_content then lit 5 100 else fzero).

(** [retrieval/lexical.py:286-290 _retrieve_struct], the condition. *)
Definition struct_matches (query : pystr) (c : DocumentChunk) : bool :=
  ts_matches (search_tsv c) (websearch_to_tsquery "english" query)
  || ilike (dc_content c) (like_pattern query)
  || ilike (jsonb_text (dc_heading_path c)) (like_pattern query).

(** [retrieval/lexical.py:234-299 _retrieve_struct] *)
Definition _retrieve_struct (query : pystr) (top_k : Z) (filters : RetrievalFilters) (db : Db)
    : list RetrievedChunk :=
  row_to_result RETRIEVAL_VERSION_STRUCT <$>
    select_chunks (struct_matches query) (struct_score query) filters top_k db.

(** [retrieval/lexical.py:68-95 retrieve] *)
Definition retrieve (query : pystr) (top_k : Z) (filters : option RetrievalFilters)
    (retrieval_version : pystr) (db : Db) : result exn (list RetrievedChunk) :=
  if top_k <? 1 then Raise (ValueError "top_k must be >= 1") else
  let q := normalize_query query in
  if negb (nonempty q) then Ok [] else
  let filters := default no_filters filters in
  if bool_decide (retrieval_version = RETRIEVAL_VERSION_SIMPLE)
  then Ok (_retrieve_simple q top_k filters db)
  else if bool_decide (retrieval_version = RETRIEVAL_VERSION_STRUCT)
  then Ok (_retrieve_struct q top_k filters db)
  else if bool_decide (retrieval_version = RETRIEVAL_VERSION_FTS)
  then Ok (_retrieve_fts q top_k filters db)
  else Raise (ValueError "Unknown retrieval_version").
End Statements.

(** * Metrics

    Identifiers are values of any countable type; a Python [set] of them is a
    [gset], a [dict] keyed by cut-offs a [gmap]. *)

(** [retrieval/metrics.py:24-32 QueryMetrics] *)
Record QueryMetrics := mkQueryMetrics {
  qm_query_id : pystr;
  recall_at : gmap Z float;
  precision_at : gmap Z float;
  mrr : float;
  qm_first_relevant_rank : option Z;
  zero_hit : bool;
  retrieved_relevant : Z;
}.

(** The ratios and averages a report shows, [None] when there is no query. *)
Record MacroAverage := mkMacro {
  ma_n_queries : Z;
  ma_recall_at : gmap Z (option float);
  ma_precision_at : gmap Z (option float);
  ma_mrr : option float;
  ma_zero_hit_rate : option float;
}.

Section Metrics.
Context {A : Type} `{Countable A}.
Implicit Types (ranked_ids : list A) (relevant : gset A).

(** [set(l)] *)
Definition as_set (l : list A) : gset A := list_to_set l.

(** [retrieval/metrics.py:35-41 recall_at_k] *)
Definition recall_at_k ranked_ids relevant (k : Z) : result exn float :=
  if bool_decide (relevant = ∅)
  then Raise (ValueError "relevant set must be non-empty for Recall@K")
  else
    let top := as_set (slice ranked_ids 0 k) in
    Ok (int_truediv (Z.of_nat (size (top ∩ relevant))) (Z.of_nat (size relevant))).

(** How many of a list's items are relevant, each occurrence counted. *)
Definition hits relevant (l : list A) : Z := zlen (List.filter (fun x => bool_decide (x ∈ relevant)) l).

(** [retrieval/metrics.py:44-50 precision_at_k] *)
Definition precision_at_k ranked_ids relevant (k : Z) : result exn float :=
  if k <? 1 then Raise (ValueError "k must be >= 1")
  else Ok (int_truediv (hits relevant (slice ranked_ids 0 k)) k).

(** [for i, item in enumerate(l, start=i)], up to the first relevant item. *)
Fixpoint rank_from (i : Z) ranked_ids relevant : option Z :=
  match ranked_ids with
  | [] => None
  | item :: rest => if bool_decide (item ∈ relevant) then Some i else rank_from (i + 1) rest relevant
  end.

(** [retrieval/metrics.py:53-59 reciprocal_rank] *)
Definition reciprocal_rank ranked_ids relevant : float :=
  match rank_from 1 ranked_ids relevant with
  | Some i => fdiv (of_Z 1) (of_Z i)
  | None => fzero
  end.

(** [retrieval/metrics.py:62-68 first_relevant_rank] *)
Definition first_relevant_rank ranked_ids relevant : option Z := rank_from 1 ranked_ids relevant.

(** [{k: f(k) for k in ks}], [f] raising on some keys. *)
Fixpoint dict_of (f : Z -> result exn float) (ks : list Z) (acc : gmap Z float)
    : result exn (gmap Z float) :=
  match ks with
  | [] => Ok acc
  | k :: ks' =>
      match f k with
      | Ok v => dict_of f ks' (<[k := v]> acc)
      | Raise e => Raise e
      end
  end.

(** [retrieval/metrics.py:71-94 evaluate_query] *)
Definition evaluate_query (query_id : pystr) ranked_ids relevant (ks : list Z)
    : result exn QueryMetrics :=
  if bool_decide (relevant = ∅) then Raise (ValueError "query has empty relevant set")
  else
    match dict_of (recall_at_k ranked_ids relevant) ks ∅ with
    | Raise e => Raise e
    | Ok recall =>
        match dict_of (precision_at_k ranked_ids relevant) ks ∅ with
        | Raise e => Raise e
        | Ok precision =>
            let rr := reciprocal_rank ranked_ids relevant in
            let fr := first_relevant_rank ranked_ids relevant in
            let retrieved := Z.of_nat (size (as_set ranked_ids ∩ relevant)) in
            Ok (mkQueryMetrics query_id recall precision rr fr (bool_decide (fr = None)) retrieved)
        end
    end.
End Metrics.

(** [sum(values)] of floats: it starts from the integer zero and adds
    from left to right, as Python 3.11 does (3.12 compensates the rounding). *)
Definition sum_floats (l : list float) : float := foldl fadd fzero l.

(** [sum(m[k] for m in ms)], a [KeyError] when a dict has no [k]. *)
Definition sum_at (field : QueryMetrics -> gmap Z float) (metrics : list QueryMetrics) (k : Z)
    : result exn float :=
  match mapM (fun m => field m !! k) metrics with
  | Some l => Ok (sum_floats l)
  | None => Raise (OtherError "KeyError")
  end.

(** [round(s / n, 4)] *)
Definition mean4 (n : Z) (s : float) : float := fround 4 (fdiv s (of_Z n)).

(** [retrieval/metrics.py:97-117 macro_average]; the dicts of the result keep
    the averages as [Some]. *)
Definition macro_average (metrics : list QueryMetrics) (ks : list Z) : result exn MacroAverage :=
  let none_at : gmap Z (option float) := list_to_map ((fun k => (k, None)) <$> ks) in
  if negb (nonempty metrics) then Ok (mkMacro 0 none_at none_at None None)
  else
    let n := zlen metrics in
    let averages field :=
      dict_of (fun k => match sum_at field metrics k with
                        | Ok s => Ok (mean4 n s)
                        | Raise e => Raise e
                        end) ks ∅ in
    match averages recall_at with
    | Raise e => Raise e
    | Ok recall =>
        match averages precision_at with
        | Raise e => Raise e
        | Ok precision =>
            Ok (mkMacro n (Some <$> recall) (Some <$> precision)
                  (Some (mean4 n (sum_floats (mrr <$> metrics))))
                  (Some (fround 4 (int_truediv (zlen (List.filter zero_hit metrics)) n))))
        end
    end.

(** [retrieval/metrics.py:120-121 as_id_set], of identifiers that are UUIDs. *)
Definition as_id_set (ids : list uuid) : gset pystr := list_to_set (uuid_str <$> ids).

(** * What a query returns *)

Section Contract.
Context `{FullText}.

(** Which chunks a version of the query matches, and their scores. *)
Definition version_matches (version q : pystr) (c : DocumentChunk) : bool :=
  if bool_decide (version = RETRIEVAL_VERSION_SIMPLE)
  then ts_matches (search_tsv_simple c) (plainto_tsquery "simple" q)
  else if bool_decide (version = RETRIEVAL_VERSION_STRUCT) then struct_matches q c
  else ts_matches (search_tsv c) (websearch_to_tsquery "english" q).

Definition version_score (version q : pystr) (c : DocumentChunk) : float :=
  if bool_decide (version = RETRIEVAL_VERSION_SIMPLE)
  then ts_rank_cd (search_tsv_simple c) (plainto_tsquery "simple" q)
  else if bool_decide (version = RETRIEVAL_VERSION_STRUCT) then struct_score q c
  else ts_rank_cd (search_tsv c) (websearch_to_tsquery "english" q).

(** The chunks a query may return. *)
Definition eligible (version q : pystr) (filters : RetrievalFilters) (db : Db) (c : DocumentChunk)
    : bool :=
  job_succeeded db c && version_matches version q c && _filter_clauses filters c.

Definition versions : list pystr :=
  [RETRIEVAL_VERSION_FTS; RETRIEVAL_VERSION_SIMPLE; RETRIEVAL_VERSION_STRUCT].

(** The hit made of a chunk. *)
Definition hit_of (version q : pystr) (c : DocumentChunk) : RetrievedChunk :=
  row_to_result version (version_score version q c, c).
End Contract.

(** [a] comes no later than [b]: a better score, or the same and a lower identifier. *)
Definition hit_before (a b : RetrievedChunk) : Prop :=
  pg_ge (rc_score a) (rc_score b) = true
  /\ (pg_ge (rc_score b) (rc_score a) = true -> rc_chunk_id a <= rc_chunk_id b).

Lemma pg_ge_total a b : pg_ge a b = false -> pg_ge b a = true.
Proof.
  unfold pg_ge. destruct (is_nan a) eqn:Ha; [done|]. destruct (is_nan b) eqn:Hb; [done|]. cbn.
  intros Hba. destruct (flt b a) eqn:Hlt; [by rewrite (flt_fle _ _ Hlt) in Hba|by apply fle_total].
Qed.

Lemma pg_ge_trans a b c : pg_ge a b = true -> pg_ge b c = true -> pg_ge a c = true.
Proof.
  unfold pg_ge. destruct (is_nan a) eqn:Ha; [done|]. destruct (is_nan b) eqn:Hb; [done|].
  destruct (is_nan c) eqn:Hc; [done|]. cbn. eauto using fle_trans.
Qed.

#[export] Instance ranks_before_trans : Transitive ranks_before.
Proof.
  intros [a c1] [b c2] [d c3] [Hab Iab] [Hbd Ibd]. cbn in *. split; [by eapply pg_ge_trans|].
  intros Hda. cbn in *.
  pose proof (pg_ge_trans _ _ _ Hda Hab). pose proof (pg_ge_trans _ _ _ Hbd Hda).
  etrans; [by apply Iab|by apply Ibd].
Qed.

#[export] Instance ranks_before_total : Total ranks_before.
Proof.
  intros [a c1] [b c2]. unfold ranks_before. cbn.
  destruct (pg_ge a b) eqn:Hab, (pg_ge b a) eqn:Hba;
    try (pose proof (pg_ge_total _ _ Hab)); try (pose proof (pg_ge_total _ _ Hba));
    try congruence; destruct (decide (dc_id c1 <= dc_id c2)); (left + right); split; lia || done.
Qed.

Section TopRows.
Context {A : Type} (R : A -> A -> Prop) `{!forall a b, Decision (R a b), !Transitive R, !Total R}.

(** The first rows of an ordered query: what is left out comes after them. *)
Lemma top_rows (l : list A) (n : nat) x :
  x ∈ l -> x ∈ take n (merge_sort R l)
           \/ length (take n (merge_sort R l)) = n /\ forall y, y ∈ take n (merge_sort R l) -> R y x.
Proof using Type*.
  intros Hx. rewrite <-(merge_sort_Permutation R l) in Hx.
  pose proof (StronglySorted_merge_sort R l) as Hs.
  rewrite <-(take_drop n (merge_sort R l)) in Hx, Hs.
  apply elem_of_app in Hx as [Hx|Hx]; [by left|right].
  split; [|intros y Hy; by eapply StronglySorted_app_1_elem_of].
  rewrite length_take. apply list_elem_of_lookup in Hx as (i & Hi).
  rewrite lookup_drop in Hi. apply lookup_lt_Some in Hi. lia.
Qed.

Lemma top_rows_sorted (l : list A) (n : nat) : StronglySorted R (take n (merge_sort R l)).
Proof using Type*.
  pose proof (StronglySorted_merge_sort R l) as Hs. rewrite <-(take_drop n (merge_sort R l)) in Hs.
  by eapply StronglySorted_app_1_l.
Qed.
End TopRows.

Section Facts.
Context `{FullText}.
Implicit Types version q query : pystr.

Lemma select_chunks_elem (ms : DocumentChunk -> bool) sc filters top_k db row :
  row ∈ select_chunks ms sc filters top_k db ->
  row.1 = sc row.2 /\ (exists k, document_chunks db !! k = Some row.2)
  /\ job_succeeded db row.2 && ms row.2 && _filter_clauses filters row.2 = true.
Proof.
  unfold select_chunks. intros (i & Hi & _)%elem_of_take.
  apply list_elem_of_lookup_2 in Hi as Hin. rewrite merge_sort_Permutation in Hin.
  apply list_elem_of_fmap in Hin as (c & -> & Hc%elem_of_rows_where). tauto.
Qed.

Lemma select_chunks_length (ms : DocumentChunk -> bool) sc filters top_k db :
  0 <= top_k -> zlen (select_chunks ms sc filters top_k db) <= top_k.
Proof. intros Hk. unfold zlen, select_chunks. rewrite length_take. lia. Qed.

Lemma select_chunks_NoDup (ms : DocumentChunk -> bool) sc filters top_k db :
  (forall k c, document_chunks db !! k = Some c -> dc_id c = k) ->
  NoDup ((fun row => dc_id row.2) <$> select_chunks ms sc filters top_k db).
Proof.
  intros Hkey. unfold select_chunks.
  eapply sublist_NoDup; [|apply fmap_sublist, sublist_take].
  rewrite merge_sort_Permutation, <-list_fmap_compose.
  by apply rows_where_ids_NoDup.
Qed.

(** What [retrieve] answers, by cases. *)
Lemma retrieve_run query top_k filters version db :
  retrieve query top_k filters version db =
  if top_k <? 1 then Raise (ValueError "top_k must be >= 1")
  else if negb (nonempty (normalize_query query)) then Ok []
  else if bool_decide (version ∈ versions)
  then let q := normalize_query query in
       Ok (row_to_result version <$>
             select_chunks (version_matches version q) (version_score version q)
               (default no_filters filters) top_k db)
  else Raise (ValueError "Unknown retrieval_version").
Proof.
  unfold retrieve. do 2 (case_match; [done|]).
  unfold version_matches, version_score.
  destruct (decide (version = RETRIEVAL_VERSION_SIMPLE)) as [->|Hsi].
  { rewrite !bool_decide_eq_true_2 by (done || by repeat constructor). done. }
  rewrite (bool_decide_eq_false_2 _ Hsi).
  destruct (decide (version = RETRIEVAL_VERSION_STRUCT)) as [->|Hst].
  { rewrite !bool_decide_eq_true_2 by (done || by repeat constructor). done. }
  rewrite (bool_decide_eq_false_2 _ Hst).
  destruct (decide (version = RETRIEVAL_VERSION_FTS)) as [->|Hft].
  { rewrite !bool_decide_eq_true_2 by (done || by repeat constructor). done. }
  rewrite (bool_decide_eq_false_2 _ Hft), bool_decide_eq_false_2; [done|].
  unfold versions. rewrite !elem_of_cons, elem_of_nil. by intros [?|[?|[?|?]]].
Qed.

Lemma StronglySorted_hits version l :
  StronglySorted ranks_before l -> StronglySorted hit_before (row_to_result version <$> l).
Proof.
  induction 1 as [|r l Hs IH Hr]; cbn; constructor; [done|].
  apply Forall_fmap. eapply Forall_impl; [done|]. intros [??]. by destruct r.
Qed.

(** C35 A query of a known version answers with the chunks of succeeded jobs that
    match it and pass its filters, each once, at most [top_k] of them, by
    descending score and then by identifier; a matching chunk is left out only
    when [top_k] chunks that come before it are returned.  A query of white
    space has no hits, and the errors are a [top_k] below one and an unknown
    version. *)
Theorem retrieve_top_k query top_k filters version db :
  (forall k c, document_chunks db !! k = Some c -> dc_id c = k) ->
  let q := normalize_query query in
  match retrieve query top_k filters version db with
  | Raise _ => top_k < 1 \/ (q <> [] /\ (version ∉ versions))
  | Ok l =>
      zlen l <= top_k
      /\ NoDup (rc_chunk_id <$> l)
      /\ StronglySorted hit_before l
      /\ (forall r, r ∈ l -> exists c,
            document_chunks db !! rc_chunk_id r = Some c
            /\ r = hit_of version q c
            /\ eligible version q (default no_filters filters) db c = true)
      /\ (q <> [] -> forall k c, document_chunks db !! k = Some c ->
            eligible version q (default no_filters filters) db c = true ->
            hit_of version q c ∈ l
            \/ zlen l = top_k /\ forall r, r ∈ l -> hit_before r (hit_of version q c))
  end.
Proof.
  intros Hkey q. rewrite retrieve_run. fold q. destruct (Z.ltb_spec top_k 1); [by left|].
  destruct (nonempty q) eqn:Hq; cbn [negb]; cycle 1.
  { assert (q = []) as -> by (by destruct q). rewrite zlen_nil. split_and!; [lia|constructor..| |done].
    by intros r ?%elem_of_nil. }
  case_bool_decide as Hv; [|right; by destruct q]. cbv zeta.
  set (rows := select_chunks _ _ _ _ _). split_and!.
  - unfold zlen. rewrite length_fmap. apply select_chunks_length. lia.
  - rewrite <-list_fmap_compose. rewrite (list_fmap_ext _ (fun row => dc_id row.2)).
    + by apply select_chunks_NoDup.
    + by intros i [??] _.
  - apply StronglySorted_hits, top_rows_sorted; apply _.
  - intros r ([s c] & -> & (Hs & [k Hk] & Hc)%select_chunks_elem)%list_elem_of_fmap. cbn in *.
    exists c. rewrite (Hkey _ _ Hk), Hs. by split_and!.
  - intros _ k c Hk Hc.
    destruct (top_rows ranks_before
                ((fun c => (version_score version q c, c)) <$>
                   rows_where (eligible version q (default no_filters filters) db) (document_chunks db))
                (Z.to_nat top_k) (version_score version q c, c)) as [Hin|[Hlen Hall]].
    + apply list_elem_of_fmap. exists c. split; [done|]. apply elem_of_rows_where. eauto.
    + left. apply list_elem_of_fmap. by exists (version_score version q c, c).
    + right. split.
      * unfold zlen. rewrite length_fmap.
        assert (length rows = Z.to_nat top_k) as -> by exact Hlen. lia.
      * intros r ([s c'] & -> & Hin)%list_elem_of_fmap. apply (Hall _ Hin).
Qed.
End Facts.

(** * What the metrics measure *)

Section MetricFacts.
Context {A : Type} `{Countable A}.
Implicit Types (ranked_ids : list A) (relevant : gset A).

Lemma rank_from_Some i ranked_ids relevant r :
  rank_from i ranked_ids relevant = Some r ->
  exists n x, r = i + Z.of_nat n /\ ranked_ids !! n = Some x /\ x ∈ relevant
    /\ forall m y, (m < n)%nat -> ranked_ids !! m = Some y -> y ∉ relevant.
Proof.
  revert i. induction ranked_ids as [|x l IH]; intros i; [done|]. cbn.
  case_bool_decide as Hx.
  - intros [= <-]. exists 0%nat, x. split_and!; [lia|done..|lia].
  - intros (n & y & -> & Hn & Hy & Hlt)%IH. exists (S n), y. split_and!; [lia|done..|].
    intros [|m] z Hm; cbn; [by intros [= <-]|apply Hlt; lia].
Qed.

Lemma rank_from_None i ranked_ids relevant :
  rank_from i ranked_ids relevant = None -> forall x, x ∈ ranked_ids -> x ∉ relevant.
Proof.
  revert i. induction ranked_ids as [|x l IH]; intros i; cbn; [by intros _ x ?%elem_of_nil|].
  case_bool_decide as Hx; [done|]. intros Hn y [->|Hy]%elem_of_cons; [done|by eapply IH].
Qed.

Lemma dict_of_spec (f : Z -> result exn float) ks acc :
  match dict_of f ks acc with
  | Ok d => (forall k, k ∈ ks -> exists v, f k = Ok v /\ d !! k = Some v)
            /\ forall k, k ∉ ks -> d !! k = acc !! k
  | Raise e => exists k, k ∈ ks /\ f k = Raise e
  end.
Proof.
  revert acc. induction ks as [|k ks IH]; intros acc; cbn.
  { split; [by intros k ?%elem_of_nil|done]. }
  destruct (f k) as [v|e] eqn:Hk; [|exists k; split; [left|done]].
  specialize (IH (<[k := v]> acc)). destruct (dict_of f ks _) as [d|e].
  - destruct IH as [Hin Hout]. split.
    + intros k' [->|Hk']%elem_of_cons; [|by apply Hin].
      destruct (decide (k ∈ ks)) as [Hk'|Hk']; [by apply Hin|].
      exists v. split; [done|]. rewrite Hout by done. apply lookup_insert_eq.
    + intros k' [Hne Hk']%not_elem_of_cons. rewrite Hout by done. by apply lookup_insert_ne.
  - destruct IH as (k' & Hk' & He). exists k'. split; [by right|done].
Qed.

Lemma slice_0_take ranked_ids k : 1 <= k -> slice ranked_ids 0 k = take (Z.to_nat k) ranked_ids.
Proof. intros. rewrite slice_in_range by lia. by rewrite drop_0, Z.sub_0_r. Qed.

Lemma truediv_zero n : 0 < n -> int_truediv 0 n = fzero.
Proof. by destruct n. Qed.

Lemma no_hits relevant (l : list A) : (forall x, x ∈ l -> x ∉ relevant) -> hits relevant l = 0.
Proof.
  intros Hl. unfold hits. rewrite filterb_none; [done|]. intros x Hx.
  by apply bool_decide_eq_false_2, Hl.
Qed.

Lemma no_overlap relevant (l : list A) :
  (forall x, x ∈ l -> x ∉ relevant) -> Z.of_nat (size (as_set l ∩ relevant)) = 0.
Proof.
  intros Hl. enough (as_set l ∩ relevant = ∅) as -> by done. unfold as_set.
  apply set_eq. intros x. rewrite elem_of_intersection, elem_of_list_to_set, elem_of_empty.
  naive_solver.
Qed.

(** The cut-offs of a query's metrics: its recall and precision at [k] count the
    relevant items among the first [k]. *)
Definition cutoffs ranked_ids relevant (ks : list Z) (m : QueryMetrics) : Prop :=
  forall k, k ∈ ks -> 1 <= k
    /\ recall_at m !! k =
         Some (int_truediv (Z.of_nat (size (as_set (take (Z.to_nat k) ranked_ids) ∩ relevant)))
                 (Z.of_nat (size relevant)))
    /\ precision_at m !! k = Some (int_truediv (hits relevant (take (Z.to_nat k) ranked_ids)) k).

Lemma evaluate_query_run query_id ranked_ids relevant ks :
  match evaluate_query query_id ranked_ids relevant ks with
  | Raise _ => relevant = ∅ \/ exists k, k ∈ ks /\ k < 1
  | Ok m =>
      relevant <> ∅ /\ cutoffs ranked_ids relevant ks m
      /\ qm_first_relevant_rank m = rank_from 1 ranked_ids relevant
      /\ zero_hit m = bool_decide (qm_first_relevant_rank m = None)
      /\ mrr m = reciprocal_rank ranked_ids relevant
      /\ retrieved_relevant m = Z.of_nat (size (as_set ranked_ids ∩ relevant))
  end.
Proof.
  unfold evaluate_query. case_bool_decide as Hr; [by left|].
  pose proof (dict_of_spec (recall_at_k ranked_ids relevant) ks ∅) as Hrec.
  destruct (dict_of (recall_at_k _ _) _ _) as [rec|e]; cycle 1.
  { destruct Hrec as (k & _ & Hk). unfold recall_at_k in Hk. by rewrite bool_decide_eq_false_2 in Hk. }
  pose proof (dict_of_spec (precision_at_k ranked_ids relevant) ks ∅) as Hpre.
  destruct (dict_of (precision_at_k _ _) _ _) as [pre|e]; cycle 1.
  { destruct Hpre as (k & Hin & Hk). right. exists k. split; [done|]. unfold precision_at_k in Hk.
    by destruct (Z.ltb_spec k 1). }
  split_and!; try done. intros k Hk.
  destruct Hrec as [(v & Hv & Hrk)%(fun f => f k Hk) _], Hpre as [(w & Hw & Hpk)%(fun f => f k Hk) _].
  unfold recall_at_k in Hv. rewrite bool_decide_eq_false_2 in Hv by done.
  unfold precision_at_k in Hw. destruct (Z.ltb_spec k 1); [done|].
  rewrite slice_0_take in Hv, Hw by done. injection Hv as <-. injection Hw as <-.
  by split_and!.
Qed.

Lemma cutoffs_below ranked_ids relevant ks m k :
  relevant <> ∅ -> cutoffs ranked_ids relevant ks m -> k ∈ ks ->
  (forall x, x ∈ take (Z.to_nat k) ranked_ids -> x ∉ relevant) ->
  recall_at m !! k = Some fzero /\ precision_at m !! k = Some fzero.
Proof.
  intros Hr Hc Hk Hno. destruct (Hc k Hk) as (Hk1 & -> & ->).
  assert (size relevant <> 0%nat) by (by intros ?%size_empty_inv%leibniz_equiv).
  rewrite no_overlap, no_hits, !truediv_zero by (done || lia). done.
Qed.

(** The metrics of one query: recall and precision at every cut-off count the
    relevant items among the first ones; the first relevant rank is the place of
    a relevant item with none before it, its inverse is the reciprocal rank, and
    every cut-off before it scores zero; a query is a zero hit exactly when no
    relevant item was retrieved, and then every metric is zero.  The errors are
    an empty relevant set and a cut-off below one. *)
Theorem evaluate_query_spec query_id ranked_ids relevant ks :
  match evaluate_query query_id ranked_ids relevant ks with
  | Raise _ => relevant = ∅ \/ exists k, k ∈ ks /\ k < 1
  | Ok m =>
      relevant <> ∅ /\ cutoffs ranked_ids relevant ks m /\
      match qm_first_relevant_rank m with
      | Some i =>
          zero_hit m = false /\ 0 < retrieved_relevant m
          /\ mrr m = fdiv (of_Z 1) (of_Z i) /\ 1 <= i
          /\ (exists x, ranked_ids !! Z.to_nat (i - 1) = Some x /\ x ∈ relevant)
          /\ (forall x, x ∈ take (Z.to_nat (i - 1)) ranked_ids -> x ∉ relevant)
          /\ (forall k, k ∈ ks -> k < i ->
                recall_at m !! k = Some fzero /\ precision_at m !! k = Some fzero)
      | None =>
          zero_hit m = true /\ retrieved_relevant m = 0 /\ mrr m = fzero
          /\ (forall x, x ∈ ranked_ids -> x ∉ relevant)
          /\ (forall k, k ∈ ks ->
                recall_at m !! k = Some fzero /\ precision_at m !! k = Some fzero)
      end
  end.
Proof.
  pose proof (evaluate_query_run query_id ranked_ids relevant ks) as Hrun.
  destruct (evaluate_query _ _ _ _) as [m|e]; [|done].
  destruct Hrun as (Hr & Hc & Hfr & -> & Hmrr & Hret). split_and!; [done..|].
  unfold reciprocal_rank in Hmrr. rewrite Hfr.
  destruct (rank_from 1 ranked_ids relevant) as [i|] eqn:Hi.
  - apply rank_from_Some in Hi as (n & x & -> & Hn & Hx & Hlt).
    replace (Z.to_nat (1 + Z.of_nat n - 1)) with n by lia.
    assert (forall x, x ∈ take n ranked_ids -> x ∉ relevant) as Hbefore.
    { intros y (j & Hy & Hj)%elem_of_take. by eapply Hlt. }
    split_and!; [done| |done|lia|eauto|done|].
    + rewrite Hret. apply Z.lt_le_trans with 1; [lia|].
      enough (size (as_set ranked_ids ∩ relevant) <> 0%nat) by lia.
      intros He%size_empty_inv. apply list_elem_of_lookup_2 in Hn. unfold as_set in He. set_solver.
    + intros k Hk Hki. eapply cutoffs_below; [done..|]. intros y Hy. apply Hbefore.
      apply elem_of_take in Hy as (j & Hy & Hj). apply elem_of_take. exists j. split; [done|lia].
  - pose proof (rank_from_None _ _ _ Hi) as Hno. split_and!; [done| |done..|].
    + rewrite Hret. by apply no_overlap.
    + intros k Hk. eapply cutoffs_below; [done..|]. intros y (j & Hy & _)%elem_of_take.
      by eapply Hno, list_elem_of_lookup_2.
Qed.
End MetricFacts.

(** * A sample corpus *)

Module RetrievalSample.
(** A toy text search: a document matches when it contains the query, and a
    longer document scores less. *)
#[local] Instance toy_search : FullText := {
  tsvector := pystr;
  tsquery := pystr;
  to_tsvector _ s := lower s;
  setweight v _ := v;
  tsvector_concat a b := a ++ b;
  websearch_to_tsquery _ q := lower q;
  plainto_tsquery _ q := lower q;
  ts_matches v q := contains v q;
  ts_rank_cd v q := int_truediv 1 (1 + zlen v);
  ilike s p := contains (lower s) (lower (List.filter (fun c => negb (c =? 37)) p));
  jsonb_text path := join (py ", ") path;
}.

Definition job (id : uuid) (status : IngestionStatus) : IngestionJob :=
  mkJob id 7 (py "key") status 1 0 0 0 None None None None None None.

Definition chunk (id jid ordinal : Z) (content : pystr) (heading : list pystr) : DocumentChunk :=
  mkChunk id jid 7 (py "key") (py "p") (py "c") ordinal content [] 0 1 1 1 (py "paragraph")
    heading false 0.

Definition corpus : Db :=
  empty_db <| ingestion_jobs := {[ 1 := job 1 I_SUCCEEDED; 2 := job 2 I_FAILED ]} |>
    <| document_chunks :=
         {[ 10 := chunk 10 1 0 (py "worker crash recovery") [];
            11 := chunk 11 1 1 (py "worker pools and their limits") [py "Worker"];
            12 := chunk 12 1 2 (py "worker crash recovery") [];
            13 := chunk 13 2 0 (py "worker crash") [] ]} |>.

(** The two equal chunks tie, in the order of their identifiers; the chunk of the
    failed job is not there. *)
Example hits_order :
  rc_chunk_id <$> or_else
    match retrieve (py "  Crash   recovery ") 5 None RETRIEVAL_VERSION_FTS corpus with
    | Ok l => Some l | Raise _ => None
    end [] = [10; 12].
Proof. vm_compute. reflexivity. Qed.

(** The boost of the heading puts the longer chunk first. *)
Example struct_boost :
  rc_chunk_id <$> or_else
    match retrieve (py "worker") 2 None RETRIEVAL_VERSION_STRUCT corpus with
    | Ok l => Some l | Raise _ => None
    end [] = [11; 10].
Proof. vm_compute. reflexivity. Qed.

Lemma retrieve_top_k_witness :
  match retrieve (py "worker") 2 None RETRIEVAL_VERSION_FTS corpus with
  | Raise _ => False
  | Ok l => zlen l = 2 /\ StronglySorted hit_before l
  end.
Proof.
  assert (forall k c, document_chunks corpus !! k = Some c -> dc_id c = k) as Hkey.
  { change (map_Forall (fun k c => dc_id c = k) (document_chunks corpus)). decide_closed. }
  pose proof (retrieve_top_k (py "worker") 2 None RETRIEVAL_VERSION_FTS corpus Hkey) as Hr.
  assert (exists l, retrieve (py "worker") 2 None RETRIEVAL_VERSION_FTS corpus = Ok l
            /\ zlen l = 2) as (l & Hl & Hn) by (eexists; split; [vm_compute; reflexivity|reflexivity]).
  rewrite Hl in Hr |- *. split; [done|]. by destruct Hr as (_ & _ & Hs & _).
Defined.
End RetrievalSample.
