(* ===== verification/Http.v ===== *)
(** The HTTP interface (src/challengeforge/api/): the identity of the caller, the
    answers to errors, the bodies of the responses, and the routes as
    compositions of the services over one session and the artifact store.

    FastAPI's parsing and validation of a request come before a route: a route
    receives its path parameters and its payload typed. *)
From Stdlib Require Import ZArith Lia String Ascii.
From stdpp Require Import prelude strings gmap sorting.
From S2P Require Import Prelude PyFloat PyStr Domain Database Json Evaluator Storage Config Catalog.
From S2P Require Import EvaluationQueue IngestionQueue Submissions EvaluationViews.

(** * Identifiers in text *)

(** [s.replace(p, "")] of a nonempty [p]: [skip] characters of a match are left. *)
Fixpoint remove_all (skip : nat) (p s : pystr) : pystr :=
  match s with
  | [] => []
  | c :: s' =>
      match skip with
      | S k => remove_all k p s'
      | O => if startswith s p then remove_all (length p - 1) p s' else c :: remove_all 0 p s'
      end
  end.

Definition hex_value (c : Z) : option Z :=
  if (48 <=? c) && (c <=? 57) then Some (c - 48)
  else if (97 <=? c) && (c <=? 102) then Some (c - 87)
  else if (65 <=? c) && (c <=? 70) then Some (c - 55)
  else None.

(** The digits of [int(text, 16)], single underscores between them; [need] says
    that a digit must come next. *)
Fixpoint hex_number (need : bool) (acc : Z) (s : pystr) : option Z :=
  match s with
  | [] => if need then None else Some acc
  | c :: s' =>
      if c =? 95 then (if need then None else hex_number true acc s')
      else match hex_value c with
           | Some d => hex_number false (16 * acc + d) s'
           | None => None
           end
  end.

(** [int(text, 16)] of text in Latin-1 without a minus sign; [None] is [ValueError]. *)
Definition int16 (s : pystr) : option Z :=
  let s := strip s in
  let s := if startswith s (py "+") then drop 1 s else s in
  if startswith s (py "0x") || startswith s (py "0X")
  then let s := drop 2 s in
       hex_number true 0 (if startswith s (py "_") then drop 1 s else s)
  else hex_number true 0 s.

(** [UUID(raw)]; [None] is [ValueError]. *)
Definition parse_uuid (raw : pystr) : option uuid :=
  let hex := remove_all 0 (py "uuid:") (remove_all 0 (py "urn:") raw) in
  let brace c := (c =? 123) || (c =? 125) in
  let hex := remove_all 0 (py "-") (rstrip_by brace (lstrip_by brace hex)) in
  if zlen hex =? 32 then int16 hex else None.

Example parse_uuid_ex :
  parse_uuid (py "{urn:uuid:11111111-1111-4111-8111-111111111111}") = Some ORGANIZER_ID.
Proof. vm_compute. reflexivity. Qed.
Example parse_uuid_odd : parse_uuid (py "  +0x_1_2_3_4_5_6_7_8_9_a_b_c_d ") = Some 0x123456789abcd.
Proof. vm_compute. reflexivity. Qed.

(** * Requests and answers *)

(** What the interface reads of a request beside its route, and the request
    identifier it would make. *)
Record HttpRequest := mkHttpRequest {
  rq_request_id : option pystr;
  rq_user_header : option pystr;
  rq_user_cookie : option pystr;
  rq_fresh_id : pystr;
}.

(** [a or b] on optional texts. *)
Definition text_or (a b : option pystr) : option pystr :=
  match a with Some s => if nonempty s then Some s else b | None => b end.

(** [api/middleware.py:35-35 RequestContextMiddleware.__call__] *)
Definition request_id_of (rq : HttpRequest) : pystr :=
  default (rq_fresh_id rq) (text_or (rq_request_id rq) None).

(** [api/errors.py:13-20 error_body] *)
Record ErrorBody := mkErrorBody {
  er_code : string;
  er_message : string;
  er_request_id : pystr;
}.

(** A status with a body, or an error status with the error. *)
Inductive Response (A : Type) :=
| Reply (status : Z) (body : A)
| Failure (status : Z) (error : ErrorBody).
Arguments Reply {A}.
Arguments Failure {A}.

Definition status_of {A} (r : Response A) : Z :=
  match r with Reply s _ => s | Failure s _ => s end.

(** [api/errors.py:23-66 register_error_handlers], the answers to the exceptions a
    route raises. *)
Definition error_response {A} (rq : HttpRequest) (e : exn) : Response A :=
  match e with
  | DomainExn c m => Failure (http_status c) (mkErrorBody (error_code c) m (request_id_of rq))
  | _ => Failure 500 (mkErrorBody "internal_error" "An unexpected error occurred." (request_id_of rq))
  end.

(** [api/errors.py:38-43 register_error_handlers.validation_handler] *)
Definition validation_response {A} (rq : HttpRequest) (errors : string) : Response A :=
  Failure 422 (mkErrorBody "request_validation_failed" errors (request_id_of rq)).

(** [api/errors.py:45-59 register_error_handlers.http_exception_handler] *)
Definition http_exception_response {A} (rq : HttpRequest) (status : Z) (detail : string) : Response A :=
  let code :=
    (if (status =? 401)%Z then "unauthenticated"
     else if (status =? 403)%Z then "permission_denied"
     else if (status =? 404)%Z then "not_found"
     else "http_error")%string in
  Failure status (mkErrorBody code detail (request_id_of rq)).

(** [api/deps.py:55-73 get_current_user] *)
Definition get_current_user (rq : HttpRequest) : M exn Db CurrentUser :=
  match text_or (text_or (rq_user_header rq) (rq_user_cookie rq)) None with
  | None => raise (DomainExn Unauthenticated "Missing development identity. Send X-User-Id.")
  | Some raw =>
      match parse_uuid raw with
      | None => raise (DomainExn Unauthenticated "Invalid X-User-Id.")
      | Some user_id =>
          user ← UserRepository.get user_id;
          match user with
          | None => raise (DomainExn Unauthenticated "Unknown development user.")
          | Some u => mret (from_user u)
          end
      end
  end.

(** * Bodies *)

#[local] Existing Instance EvaluationService.EvaluationHealth_enum.

(** [api/schemas.py:13-20 HackathonResponse] *)
Record HackathonResponse := mkHackathonResponse {
  hr_id : uuid;
  hr_title : pystr;
  hr_description : pystr;
  hr_status : string;
  hr_organizer_id : uuid;
  hr_created_at : datetime;
  hr_updated_at : datetime;
}.

(** [api/schemas.py:41-45 EvaluationCriterionResponse] *)
Record EvaluationCriterionResponse := mkCriterionResponse {
  cr_id : uuid;
  cr_name : pystr;
  cr_description : pystr;
  cr_weight : Z;
}.

(** [api/schemas.py:48-51 ChallengeSpecificationResponse] *)
Record ChallengeSpecificationResponse := mkSpecResponse {
  csr_body : pystr;
  csr_created_at : datetime;
  csr_updated_at : datetime;
}.

(** [api/schemas.py:54-64 ChallengeResponse] *)
Record ChallengeResponse := mkChallengeResponse {
  chr_id : uuid;
  chr_hackathon_id : uuid;
  chr_title : pystr;
  chr_description : pystr;
  chr_constraints : pystr;
  chr_status : string;
  chr_specification : ChallengeSpecificationResponse;
  chr_evaluation_criteria : list EvaluationCriterionResponse;
  chr_created_at : datetime;
  chr_updated_at : datetime;
}.

(** [api/schemas.py:75-92 SubmissionResponse] *)
Record SubmissionResponse := mkSubmissionResponse {
  sbr_id : uuid;
  sbr_challenge_id : uuid;
  sbr_participant_id : uuid;
  sbr_status : string;
  sbr_metadata : dict;
  sbr_artifact_key : option pystr;
  sbr_created_at : datetime;
  sbr_updated_at : datetime;
  sbr_failure_reason : option pystr;
  sbr_idempotent_replay : option bool;
  sbr_evaluation_id : option uuid;
  sbr_evaluation_status : option string;
  sbr_evaluation_async : option bool;
  sbr_evaluation_health : option string;
  sbr_evaluation_message : option string;
  sbr_estimated_wait_seconds : option float;
}.

(** [api/schemas.py:95-110 EvaluationResponse] *)
Record EvaluationResponse := mkEvaluationResponse {
  evr_id : uuid;
  evr_submission_id : uuid;
  evr_status : string;
  evr_estimated_jobs_ahead : option Z;
  evr_estimated_wait_seconds : option float;
  evr_estimate_is_approximate : bool;
  evr_score : option Z;
  evr_failure_message : option string;
  evr_created_at : datetime;
  evr_started_at : option datetime;
  evr_completed_at : option datetime;
  evr_submission_accepted : bool;
  evr_message : string;
}.

(** [api/schemas.py:113-127 EvaluationBacklogResponse] *)
Record EvaluationBacklogResponse := mkBacklogResponse {
  blr_health : string;
  blr_queued_count : Z;
  blr_running_count : Z;
  blr_succeeded_count : Z;
  blr_failed_count : Z;
  blr_oldest_queue_age_seconds : option float;
  blr_estimated_wait_seconds : option float;
  blr_recent_service_rate_per_second : option float;
  blr_message : string;
  blr_submissions_accepted : bool;
  blr_estimate_is_approximate : bool;
  blr_pressure_state : string;
  blr_adaptive_max_workers : option Z;
  blr_resource_runtime_enabled : bool;
}.

(** [api/schemas.py:130-134 OrganizerEvaluationQueueResponse] *)
Record OrganizerEvaluationQueueResponse := mkQueueResponse {
  oq_base : EvaluationBacklogResponse;
  oq_light_queued_count : Z;
  oq_medium_queued_count : Z;
  oq_heavy_queued_count : Z;
  oq_worker_capacity : Z;
}.

(** [api/schemas.py:137-140 UserResponse] *)
Record UserResponse := mkUserResponse { ur_id : uuid; ur_display_name : pystr; ur_role : string }.

(** [api/routes/hackathons.py:22-31 serialize_hackathon] *)
Definition serialize_hackathon (item : Hackathon) : HackathonResponse :=
  mkHackathonResponse (h_id item) (h_title item) (h_description item) (value (h_status item))
    (h_organizer_id item) (h_created_at item) (h_updated_at item).

(** [api/routes/hackathons.py:34-55 serialize_challenge] *)
Definition serialize_challenge (item : Challenge) : ChallengeResponse :=
  mkChallengeResponse (c_id item) (c_hackathon_id item) (c_title item) (c_description item)
    (c_constraints item) (value (c_status item))
    (mkSpecResponse (spec_body (c_specification item)) (spec_created_at (c_specification item))
       (spec_updated_at (c_specification item)))
    ((fun c => mkCriterionResponse (crit_id c) (crit_name c) (crit_description c) (crit_weight c))
       <$> c_evaluation_criteria item)
    (c_created_at item) (c_updated_at item).

(** [api/routes/challenges.py:38-72 serialize_submission] *)
Definition serialize_submission (item : Submission) (replayed : option bool)
    (evaluation : option Evaluation) (backlog : option EvaluationService.EvaluationBacklogStatus)
    : SubmissionResponse :=
  mkSubmissionResponse (s_id item) (s_challenge_id item) (s_participant_id item)
    (value (s_status item)) (s_metadata item) (s_artifact_key item) (s_created_at item)
    (s_updated_at item) (s_failure_reason item) replayed
    (e_id <$> evaluation)
    ((fun e => value (e_status e)) <$> evaluation)
    (match evaluation with Some _ => Some true | None => None end)
    ((fun b => value (EvaluationService.bl_health b)) <$> backlog)
    (match backlog with
     | Some b => Some (EvaluationService.bl_message b)
     | None =>
         match evaluation with
         | Some _ => Some "Your submission was accepted. Evaluation happens asynchronously."%string
         | None => None
         end
     end)
    None.

(** [api/routes/challenges.py:75-90 serialize_evaluation] *)
Definition serialize_evaluation (view : EvaluationService.ParticipantEvaluationView)
    : EvaluationResponse :=
  {| evr_id := EvaluationService.pv_id view;
     evr_submission_id := EvaluationService.pv_submission_id view;
     evr_status := value (EvaluationService.pv_status view);
     evr_estimated_jobs_ahead := EvaluationService.pv_estimated_jobs_ahead view;
     evr_estimated_wait_seconds := EvaluationService.pv_estimated_wait_seconds view;
     evr_estimate_is_approximate := EvaluationService.pv_estimate_is_approximate view;
     evr_score := EvaluationService.pv_score view;
     evr_failure_message := EvaluationService.pv_failure_message view;
     evr_created_at := EvaluationService.pv_created_at view;
     evr_started_at := EvaluationService.pv_started_at view;
     evr_completed_at := EvaluationService.pv_completed_at view;
     evr_submission_accepted := EvaluationService.pv_submission_accepted view;
     evr_message := EvaluationService.pv_message view |}.

(** [api/routes/challenges.py:93-109 serialize_backlog] *)
Definition serialize_backlog (item : EvaluationService.EvaluationBacklogStatus)
    : EvaluationBacklogResponse :=
  {| blr_health := value (EvaluationService.bl_health item);
     blr_queued_count := EvaluationService.bl_queued_count item;
     blr_running_count := EvaluationService.bl_running_count item;
     blr_succeeded_count := EvaluationService.bl_succeeded_count item;
     blr_failed_count := EvaluationService.bl_failed_count item;
     blr_oldest_queue_age_seconds := EvaluationService.bl_oldest_queue_age_seconds item;
     blr_estimated_wait_seconds := EvaluationService.bl_estimated_wait_seconds item;
     blr_recent_service_rate_per_second := EvaluationService.bl_recent_service_rate_per_second item;
     blr_message := EvaluationService.bl_message item;
     blr_submissions_accepted := EvaluationService.bl_submissions_accepted item;
     blr_estimate_is_approximate := EvaluationService.bl_estimate_is_approximate item;
     blr_pressure_state := EvaluationService.bl_pressure_state item;
     blr_adaptive_max_workers := EvaluationService.bl_adaptive_max_workers item;
     blr_resource_runtime_enabled := EvaluationService.bl_resource_runtime_enabled item |}.

(** [api/routes/challenges.py:112-122 serialize_organizer_queue] *)
Definition serialize_organizer_queue (item : EvaluationService.EvaluationBacklogStatus)
    : OrganizerEvaluationQueueResponse :=
  mkQueueResponse (serialize_backlog item) (EvaluationService.bl_light_queued_count item)
    (EvaluationService.bl_medium_queued_count item) (EvaluationService.bl_heavy_queued_count item)
    (EvaluationService.bl_worker_capacity item).

(** * Seeding *)

(** [persistence/mapping.py:166-172 new_user_row] *)
Definition new_user_row (now : datetime) (user_id : uuid) (display_name : pystr) (role : UserRole)
    : User :=
  mkUser user_id display_name role now.

Definition set_users (t : gmap uuid User) (d : Db) : Db := d <| users := t |>.

(** The loop of [seed_dev_users], one clock reading for each row. *)
Fixpoint seed_users (clock : uuid -> datetime) (l : list (uuid * pystr * UserRole)) : M exn Db unit :=
  match l with
  | [] => mret tt
  | (user_id, display_name, role) :: rest =>
      existing ← UserRepository.get user_id;
      match existing with
      | None =>
          insert_row users set_users user_id (new_user_row (clock user_id) user_id display_name role)
            (fun _ => true) "users" ;;
          seed_users clock rest
      | Some _ => seed_users clock rest
      end
  end.

(** [persistence/seed.py:8-13 seed_dev_users] *)
Definition seed_dev_users (clock : uuid -> datetime) : M exn Session unit :=
  in_db (seed_users clock SEEDED_USERS) ;; commit.

(** * Routes *)

(** An uploaded file: the blocks its reads return and its headers. *)
Record UploadFile := mkUploadFile {
  uf_blocks : list bytes;
  uf_content_type : option pystr;
  uf_filename : option pystr;
  uf_content_sha256 : option pystr;
}.

(** [api/schemas.py:33-38 ChallengeCreateRequest] *)
Record ChallengeCreateRequest := mkChallengeRequest {
  ccq_title : pystr;
  ccq_description : pystr;
  ccq_constraints : pystr;
  ccq_specification : pystr;
  ccq_evaluation_criteria : list (pystr * pystr * Z);
}.

(** What the environment supplies to a route: the service's identifiers and clocks,
    those of the criteria and of the staged file, the time of the sweep, the time
    of the views, and the transactions that commit meanwhile. *)
Record RouteEnv := mkRouteEnv {
  rn_request : RequestEnv;
  rn_fresh_criteria : list uuid;
  rn_fresh_upload : uuid;
  rn_staging_mtime : float;
  rn_sweep_clock : float;
  rn_view_now : datetime;
  rn_others : Db -> Db;
}.

Section Routes.
Context `{Sha256} `{FloatRepr} `{FloatParse} `{PyRepr}.
Context (settings : Settings) (env : RouteEnv).
Abbreviation Served := (M exn (Uow Fs)).
Abbreviation now := (re_now (rn_request env)).

(** [api/routes/identity.py:11-13 me] *)
Definition me (actor : CurrentUser) : Served UserResponse :=
  mret (mkUserResponse (cu_id actor) (cu_display_name actor) (value (cu_role actor))).

(** [api/routes/identity.py:16-22 list_dev_users] *)
Definition list_dev_users : Served (list UserResponse) :=
  users ← in_database UserRepository.list_all;
  mret ((fun u => mkUserResponse (u_id u) (u_display_name u) (value (u_role u))) <$> users).

(** [api/routes/hackathons.py:58-64 list_hackathons] *)
Definition list_hackathons (actor : CurrentUser) : Served (list HackathonResponse) :=
  items ← in_session (HackathonService.list_hackathons actor);
  mret (serialize_hackathon <$> items).

(** [api/routes/hackathons.py:67-78 create_hackathon] *)
Definition create_hackathon (actor : CurrentUser) (title description : pystr)
    : Served HackathonResponse :=
  item ← in_session (HackathonService.create_hackathon (re_fresh_row (rn_request env)) now actor
                       title description);
  mret (serialize_hackathon item).

(** [api/routes/hackathons.py:81-88 get_hackathon] *)
Definition get_hackathon (actor : CurrentUser) (hackathon_id : uuid) : Served HackathonResponse :=
  item ← in_session (HackathonService.get_hackathon actor hackathon_id);
  mret (serialize_hackathon item).

(** [api/routes/hackathons.py:91-98 publish_hackathon] *)
Definition publish_hackathon (actor : CurrentUser) (hackathon_id : uuid) : Served HackathonResponse :=
  item ← in_session (HackathonService.publish_hackathon now (rn_others env) actor hackathon_id);
  mret (serialize_hackathon item).

(** [api/routes/hackathons.py:101-108 list_challenges] *)
Definition list_challenges (actor : CurrentUser) (hackathon_id : uuid)
    : Served (list ChallengeResponse) :=
  items ← in_session (ChallengeService.list_for_hackathon actor hackathon_id);
  mret (serialize_challenge <$> items).

(** [api/routes/hackathons.py:111-133 create_challenge] *)
Definition create_challenge (actor : CurrentUser) (hackathon_id : uuid)
    (payload : ChallengeCreateRequest) : Served ChallengeResponse :=
  item ← in_session (ChallengeService.create_challenge (re_fresh_row (rn_request env))
           (rn_fresh_criteria env) now actor hackathon_id (ccq_title payload)
           (ccq_description payload) (ccq_constraints payload) (ccq_specification payload)
           (ccq_evaluation_criteria payload));
  mret (serialize_challenge item).

(** [api/routes/challenges.py:125-132 get_challenge] *)
Definition get_challenge (actor : CurrentUser) (challenge_id : uuid) : Served ChallengeResponse :=
  item ← in_session (ChallengeService.get_challenge actor challenge_id);
  mret (serialize_challenge item).

(** [api/routes/challenges.py:135-142 publish_challenge] *)
Definition publish_challenge (actor : CurrentUser) (challenge_id : uuid) : Served ChallengeResponse :=
  item ← in_session (ChallengeService.publish_challenge now (rn_others env) actor challenge_id);
  mret (serialize_challenge item).

(** [api/routes/challenges.py:145-152 close_challenge] *)
Definition close_challenge (actor : CurrentUser) (challenge_id : uuid) : Served ChallengeResponse :=
  item ← in_session (ChallengeService.close_challenge now actor challenge_id);
  mret (serialize_challenge item).

(** A submission on its own, as most routes answer with. *)
Definition plain_submission (item : Submission) : SubmissionResponse :=
  serialize_submission item None None None.

(** [api/routes/challenges.py:155-162 list_challenge_submissions] *)
Definition list_challenge_submissions (actor : CurrentUser) (challenge_id : uuid)
    : Served (list SubmissionResponse) :=
  items ← in_session (ChallengeService.list_submissions actor challenge_id);
  mret (plain_submission <$> items).

(** [api/routes/challenges.py:165-186 create_submission]: the status and the body. *)
Definition create_submission (actor : CurrentUser) (challenge_id : uuid) (metadata : dict)
    (idempotency_key : option pystr) : Served (Z * SubmissionResponse) :=
  result ← create settings (rn_request env) (rn_others env) actor challenge_id (JObj metadata)
             idempotency_key None;
  mret (if cr_replayed result then 200 else 201,
        serialize_submission (cr_submission result) (Some (cr_replayed result)) None None).

(** [api/routes/challenges.py:189-196 get_submission] *)
Definition get_submission (actor : CurrentUser) (submission_id : uuid) : Served SubmissionResponse :=
  item ← get_for actor submission_id;
  mret (plain_submission item).

(** [api/routes/challenges.py:199-209 update_submission] *)
Definition update_submission (actor : CurrentUser) (submission_id : uuid) (metadata : dict)
    : Served SubmissionResponse :=
  item ← update_created settings (rn_request env) (rn_others env) actor submission_id
           (Some (JObj metadata)) None;
  mret (plain_submission item).

(** Runs the attachment on the staged upload and gives the upload back. *)
Definition with_upload {A} (u : IncomingUpload) (c : M exn (Uow Staged) A)
    : Served (result exn A * IncomingUpload) := fun w =>
  let (r, w') := c (mkUow (uow_session w) (mkStaged (uow_store w) u)) in
  (Ok (r, st_upload (uow_store w')), mkUow (uow_session w') (st_fs (uow_store w'))).

(** [try: ... finally: cleanup_incoming(...)], the sweep's own failure ignored. *)
Definition finally_sweep {A} (c : Served A) : Served A := fun w =>
  let (r, w1) := c w in
  let (_, w2) := in_store (cleanup_incoming (rn_sweep_clock env) (of_Z 3600)) w1 in
  (r, w2).

(** [api/routes/challenges.py:212-257 attach_artifact] *)
Definition attach_artifact (actor : CurrentUser) (submission_id : uuid) (file : UploadFile)
    : Served SubmissionResponse :=
  finally_sweep (
    incoming ← in_store (stream_to_incoming (rn_staging_mtime env) (rn_fresh_upload env)
                 (iter_upload_file (uf_blocks file)) (artifact_max_bytes settings)
                 (default (py "application/octet-stream") (text_or (uf_content_type file) None))
                 (uf_content_sha256 file));
    '(attached, incoming) ← with_upload incoming
       (attach_incoming settings (rn_request env) (rn_others env) actor submission_id
          (uf_filename file));
    match attached with
    | Ok item => mret (plain_submission item)
    | Raise e => in_store (abort incoming) ;; raise e
    end).

(** [api/routes/challenges.py:260-271 submit_submission] *)
Definition submit_submission (actor : CurrentUser) (submission_id : uuid)
    : Served SubmissionResponse :=
  result ← submit settings (rn_request env) actor submission_id;
  backlog ← in_database (EvaluationService.get_backlog_status settings (rn_view_now env));
  mret (serialize_submission (sr_submission result) None (Some (sr_evaluation result)) (Some backlog)).

(** [api/routes/challenges.py:274-281 cancel_submission] *)
Definition cancel_submission (actor : CurrentUser) (submission_id : uuid)
    : Served SubmissionResponse :=
  item ← cancel (rn_request env) actor submission_id;
  mret (plain_submission item).

(** [api/routes/challenges.py:284-294 get_submission_evaluation] *)
Definition get_submission_evaluation (actor : CurrentUser) (submission_id : uuid)
    : Served EvaluationResponse :=
  view ← in_database (EvaluationService.get_participant_view actor submission_id);
  mret (serialize_evaluation view).

(** [api/routes/challenges.py:297-304 get_evaluation_backlog] *)
Definition get_evaluation_backlog : Served EvaluationBacklogResponse :=
  item ← in_database (EvaluationService.get_backlog_status settings (rn_view_now env));
  mret (serialize_backlog item).

(** [api/routes/challenges.py:307-316 get_organizer_evaluation_queue] *)
Definition get_organizer_evaluation_queue (actor : CurrentUser)
    : Served OrganizerEvaluationQueueResponse :=
  item ← in_database (EvaluationService.get_organizer_queue settings actor (rn_view_now env));
  mret (serialize_organizer_queue item).

(** [api/routes/challenges.py:319-326 list_user_submissions] *)
Definition list_user_submissions (actor : CurrentUser) (user_id : uuid)
    : Served (list SubmissionResponse) :=
  items ← list_for_user actor user_id;
  mret (plain_submission <$> items).

(** * Dispatch *)

(** The routes, by method and path. *)
Inductive Route :=
| GET_health
| GET_ready
| GET_dev_users
| GET_me
| GET_hackathons
| POST_hackathons (title description : pystr)
| GET_hackathon (hackathon_id : uuid)
| POST_hackathon_publish (hackathon_id : uuid)
| GET_hackathon_challenges (hackathon_id : uuid)
| POST_hackathon_challenges (hackathon_id : uuid) (payload : ChallengeCreateRequest)
| GET_challenge (challenge_id : uuid)
| POST_challenge_publish (challenge_id : uuid)
| POST_challenge_close (challenge_id : uuid)
| GET_challenge_submissions (challenge_id : uuid)
| POST_challenge_submissions (challenge_id : uuid) (metadata : dict) (idempotency_key : option pystr)
| GET_submission (submission_id : uuid)
| PATCH_submission (submission_id : uuid) (metadata : dict)
| POST_submission_artifact (submission_id : uuid) (file : UploadFile)
| POST_submission_submit (submission_id : uuid)
| POST_submission_cancel (submission_id : uuid)
| GET_submission_evaluation (submission_id : uuid)
| GET_evaluations_backlog
| GET_organizer_queue
| GET_user_submissions (user_id : uuid).

Inductive Body :=
| B_status (s : string)
| B_user (u : UserResponse)
| B_users (l : list UserResponse)
| B_hackathon (h : HackathonResponse)
| B_hackathons (l : list HackathonResponse)
| B_challenge (c : ChallengeResponse)
| B_challenges (l : list ChallengeResponse)
| B_submission (s : SubmissionResponse)
| B_submissions (l : list SubmissionResponse)
| B_evaluation (e : EvaluationResponse)
| B_backlog (b : EvaluationBacklogResponse)
| B_queue (q : OrganizerEvaluationQueueResponse).

(** Whether the route asks for the caller, by its [Depends(get_current_user)]. *)
Definition needs_user (route : Route) : bool :=
  match route with GET_health | GET_ready | GET_dev_users => false | _ => true end.

(** A route that answers with a fixed status. *)
Definition answers {A} (status : Z) (body : A -> Body) (c : Served A) : Served (Z * Body) :=
  a ← c; mret (status, body a).

(** The function of a route, for the caller. *)
Definition endpoint (route : Route) (actor : CurrentUser) : Served (Z * Body) :=
  match route with
  | GET_health => mret (200, B_status "ok")
  | GET_ready => mret (200, B_status "ready")
  | GET_dev_users => answers 200 B_users list_dev_users
  | GET_me => answers 200 B_user (me actor)
  | GET_hackathons => answers 200 B_hackathons (list_hackathons actor)
  | POST_hackathons t d => answers 201 B_hackathon (create_hackathon actor t d)
  | GET_hackathon i => answers 200 B_hackathon (get_hackathon actor i)
  | POST_hackathon_publish i => answers 200 B_hackathon (publish_hackathon actor i)
  | GET_hackathon_challenges i => answers 200 B_challenges (list_challenges actor i)
  | POST_hackathon_challenges i p => answers 201 B_challenge (create_challenge actor i p)
  | GET_challenge i => answers 200 B_challenge (get_challenge actor i)
  | POST_challenge_publish i => answers 200 B_challenge (publish_challenge actor i)
  | POST_challenge_close i => answers 200 B_challenge (close_challenge actor i)
  | GET_challenge_submissions i => answers 200 B_submissions (list_challenge_submissions actor i)
  | POST_challenge_submissions i m k =>
      '(status, body) ← create_submission actor i m k;
      mret (status, B_submission body)
  | GET_submission i => answers 200 B_submission (get_submission actor i)
  | PATCH_submission i m => answers 200 B_submission (update_submission actor i m)
  | POST_submission_artifact i f => answers 200 B_submission (attach_artifact actor i f)
  | POST_submission_submit i => answers 200 B_submission (submit_submission actor i)
  | POST_submission_cancel i => answers 200 B_submission (cancel_submission actor i)
  | GET_submission_evaluation i => answers 200 B_evaluation (get_submission_evaluation actor i)
  | GET_evaluations_backlog => answers 200 B_backlog get_evaluation_backlog
  | GET_organizer_queue => answers 200 B_queue (get_organizer_evaluation_queue actor)
  | GET_user_submissions i => answers 200 B_submissions (list_user_submissions actor i)
  end.

(** Nobody: the caller of a route that does not ask for one. *)
Definition nobody : CurrentUser := mkCurrentUser 0 [] PARTICIPANT.

Definition dispatch (rq : HttpRequest) (route : Route) : Served (Z * Body) :=
  if needs_user route
  then actor ← in_database (get_current_user rq); endpoint route actor
  else endpoint route nobody.

(** One request in a session of its own: the answer, what is committed and the
    store it leaves. *)
Definition answer_with (rq : HttpRequest) (c : Served (Z * Body)) (plan : list (option exn))
    (db : Db) (fs : Fs) : Response Body * (Db * Fs) :=
  let (r, w) := c (mkUow (begin db plan) fs) in
  (match r with Ok (status, body) => Reply status body | Raise e => error_response rq e end,
   (committed (uow_session w), uow_store w)).

Definition answer (rq : HttpRequest) (route : Route) : list (option exn) -> Db -> Fs ->
    Response Body * (Db * Fs) :=
  answer_with rq (dispatch rq route).
End Routes.
