(* ===== verification/HttpSpec.v ===== *)
(** The properties of the HTTP interface: who a request is made as, the safety of
    its reads, what a request can change for its caller, and the fate of an
    upload. *)
From Stdlib Require Import ZArith Lia String.
From stdpp Require Import prelude strings gmap sorting.
From S2P Require Import Prelude PyFloat PyStr Domain Database Json Evaluator Storage StorageSpec Config.
From S2P Require Import Catalog CatalogSpec EvaluationQueue IngestionQueue Submissions SubmissionsSpec.
From S2P Require Import EvaluationViews Http.
Import SubmissionRepository.

(** Whose request it is: the user the header names, else the cookie. *)
Definition identity (rq : HttpRequest) (db : Db) : option User :=
  raw ← text_or (text_or (rq_user_header rq) (rq_user_cookie rq)) None;
  user_id ← parse_uuid raw;
  users db !! user_id.

(** The routes that only read. *)
Definition is_read (route : Route) : bool :=
  match route with
  | GET_health | GET_ready | GET_dev_users | GET_me | GET_hackathons | GET_hackathon _
  | GET_hackathon_challenges _ | GET_challenge _ | GET_challenge_submissions _ | GET_submission _
  | GET_submission_evaluation _ | GET_evaluations_backlog | GET_organizer_queue
  | GET_user_submissions _ => true
  | _ => false
  end.

(** * Computations that change nothing *)

Definition inert {S A} (c : M exn S A) : Prop := forall s, snd (c s) = s.

Section Inert.
Context {S : Type}.

Lemma inert_ret {A} (a : A) : inert (mret a : M exn S A).
Proof. done. Qed.
Lemma inert_raise {A} (e : exn) : inert (raise e : M exn S A).
Proof. done. Qed.
Lemma inert_gets {A} (f : S -> A) : inert (gets_st f : M exn S A).
Proof. done. Qed.
Lemma inert_get : inert (get_st : M exn S S).
Proof. done. Qed.
Lemma inert_guard (b : bool) (e : exn) : inert (guard_or b e : M exn S unit).
Proof. intros s. by destruct b. Qed.
Lemma inert_bind {A B} (c : M exn S A) (k : A -> M exn S B) :
  inert c -> (forall a, inert (k a)) -> inert (c ≫= k).
Proof.
  intros Hc Hk s. rewrite run_bind. specialize (Hc s). destruct (c s) as [[a|e] s']; cbn in Hc; subst s'.
  - apply Hk.
  - done.
Qed.
Lemma inert_if {A} (b : bool) (c d : M exn S A) : inert c -> inert d -> inert (if b then c else d).
Proof. by destruct b. Qed.
Lemma inert_found {A} (o : option A) m : inert (found_or o m : M exn S A).
Proof. by destruct o. Qed.
End Inert.

Lemma inert_in_db {A} (c : M exn Db A) : inert c -> inert (in_db c).
Proof. intros Hc s. rewrite in_db_run. specialize (Hc (working s)). destruct (c _) as [r d]; cbn in *. subst. by destruct s. Qed.

Lemma inert_session {A} (c : M exn Session A) : inert c -> inert (in_session (St := Fs) c).
Proof. intros Hc w. rewrite session_run, Hc. apply uow_eta. Qed.

#[export] Hint Resolve inert_ret inert_raise inert_gets inert_get inert_guard
  inert_found : cf.

(** Shows a composition of reads inert. *)
Ltac inert_tac :=
  repeat first
    [ solve [auto with cf]
    | apply inert_bind; [|intro]
    | apply inert_in_db | apply inert_session
    | match goal with
      | |- inert (match ?x with _ => _ end) => destruct x
      | |- inert (let '(_, _) := ?x in _) => destruct x
      end ].

Lemma require_organizer_inert {S} u : inert (require_organizer u : M exn S unit).
Proof. unfold require_organizer. auto with cf. Qed.
#[export] Hint Resolve require_organizer_inert : cf.

Section Reads.
Context `{Sha256} `{FloatRepr} `{FloatParse} `{PyRepr}.
Context (settings : Settings).

Lemma get_by_submission_inert i : inert (EvaluationRepository.get_by_submission i).
Proof. unfold EvaluationRepository.get_by_submission. inert_tac. Qed.

Lemma queue_position_inert i : inert (EvaluationRepository.queue_position i).
Proof. unfold EvaluationRepository.queue_position, EvaluationRepository.get. inert_tac. Qed.

Lemma participant_view_inert u i : inert (EvaluationService.get_participant_view u i).
Proof.
  unfold EvaluationService.get_participant_view, EvaluationService.get_for_submission,
    EvaluationService.authorize_view, EvaluationService.to_participant_view, ChallengeRepository.get,
    HackathonRepository.get, get_submission.
  pose proof get_by_submission_inert. pose proof queue_position_inert. inert_tac.
Qed.

Lemma backlog_inert t : inert (EvaluationService.get_backlog_status settings t).
Proof.
  unfold EvaluationService.get_backlog_status, EvaluationService.window_snapshot,
    EvaluationRepository.queue_snapshot, EvaluationRepository.read_runtime_state. inert_tac.
Qed.

(** Every reading route, for every caller. *)
Lemma endpoint_inert env route u : is_read route = true -> inert (endpoint settings env route u).
Proof.
  pose proof participant_view_inert. pose proof backlog_inert.
  destruct route; intros Hr; try done; cbn [endpoint]; unfold answers;
    unfold list_dev_users, me, list_hackathons, HackathonService.list_hackathons, get_hackathon,
      HackathonService.get_hackathon, list_challenges, ChallengeService.list_for_hackathon,
      get_challenge, ChallengeService.get_challenge, list_challenge_submissions,
      ChallengeService.list_submissions, Http.get_submission, get_for, get_submission_evaluation,
      get_evaluation_backlog, get_organizer_evaluation_queue, EvaluationService.get_organizer_queue,
      list_user_submissions, list_for_user, in_database, not_found,
      UserRepository.list_all, UserRepository.get, HackathonRepository.list_visible,
      HackathonRepository.get, ChallengeRepository.get, ChallengeRepository.list_for_hackathon,
      ChallengeService.list_submissions_rows, get_submission, list_for_participant; inert_tac.
Qed.

Lemma get_current_user_run rq db :
  get_current_user rq db
  = (match identity rq db with
     | Some u => Ok (from_user u)
     | None => Raise (DomainExn Unauthenticated
         match text_or (text_or (rq_user_header rq) (rq_user_cookie rq)) None with
         | None => "Missing development identity. Send X-User-Id."
         | Some raw => match parse_uuid raw with
                       | None => "Invalid X-User-Id."
                       | Some _ => "Unknown development user."
                       end
         end)
     end, db).
Proof.
  unfold get_current_user, identity. destruct (text_or _ None) as [raw|]; [|done]. cbn.
  destruct (parse_uuid raw) as [i|]; [|done]. unfold UserRepository.get, gets_st. rewrite run_bind. cbn.
  by destruct (users db !! i).
Qed.


Lemma answer_inert rq (c : M exn (Uow Fs) (Z * Body)) plan db fs :
  inert c -> snd (answer_with rq c plan db fs) = (db, fs).
Proof.
  intros Hc. unfold answer_with. specialize (Hc (mkUow (begin db plan) fs)).
  destruct (c _) as [r w]. cbn in Hc. by subst w.
Qed.

(** A route that asks for its caller, by cases on the caller. *)
Lemma answer_run env rq route plan db fs :
  needs_user route = true ->
  match identity rq db with
  | Some u => answer settings env rq route plan db fs
              = answer_with rq (endpoint settings env route (from_user u)) plan db fs
  | None => exists m, answer settings env rq route plan db fs
              = (Failure 401 (mkErrorBody "unauthenticated" m (request_id_of rq)), (db, fs))
  end.
Proof.
  intros Hneeds. unfold answer, answer_with, dispatch. rewrite Hneeds, !run_bind.
  rewrite query_run by (intros d; by rewrite get_current_user_run). cbn [uow_session working begin].
  rewrite get_current_user_run. destruct (identity rq db); cbn [fst]; [done|by eexists].
Qed.

(** Reads are safe: whoever asks and whatever the answer, a [GET] changes
    neither the database nor the store. *)
Theorem reads_are_safe env rq route plan db fs :
  is_read route = true -> snd (answer settings env rq route plan db fs) = (db, fs).
Proof.
  intros Hr. destruct (needs_user route) eqn:Hn.
  - pose proof (answer_run env rq route plan db fs Hn) as Ha. destruct (identity rq db).
    + rewrite Ha. by apply answer_inert, endpoint_inert.
    + destruct Ha as [m ->]. done.
  - unfold answer, dispatch. rewrite Hn. by apply answer_inert, endpoint_inert.
Qed.
End Reads.

(** * Commits that fail

    A service of the catalogue commits once, at its end, and others commit at most
    once before it writes: whatever the fate of its commit, it leaves what it
    found, what the others left, or what it leaves when commits succeed. *)
Definition same_view (s1 s2 : Session) : Prop :=
  committed s1 = committed s2 /\ working s1 = working s2 /\ commits s2 = [].

Definition query_ok {A} (c : M exn Session A) : Prop := forall s1 s2, same_view s1 s2 ->
  fst (c s1) = fst (c s2) /\ same_view (snd (c s1)) (snd (c s2)) /\ committed (snd (c s1)) = committed s1.

Definition commits_once {A} (others : Db -> Db) (c : M exn Session A) : Prop :=
  forall s1 s2, same_view s1 s2 ->
    committed (snd (c s1)) = committed s1 \/ committed (snd (c s1)) = others (committed s1)
    \/ committed (snd (c s1)) = committed (snd (c s2)).

Lemma query_pure {A} (c : M exn Session A) r : (forall s, c s = (r, s)) -> query_ok c.
Proof. intros Hc s1 s2 Hs. by rewrite !Hc. Qed.

Lemma query_in_db {A} (c : M exn Db A) : query_ok (in_db c).
Proof. intros s1 s2 (Hc & Hw & Hp). rewrite !in_db_run, Hw. by destruct (c (working s2)). Qed.

Lemma query_bind {A B} (c : M exn Session A) (k : A -> M exn Session B) :
  query_ok c -> (forall a, query_ok (k a)) -> query_ok (c ≫= k).
Proof.
  intros Hc Hk s1 s2 Hs. rewrite !run_bind. destruct (Hc s1 s2 Hs) as (Hf & Hs' & Hcm).
  destruct (c s1) as [r1 s1'], (c s2) as [r2 s2']. cbn in Hf, Hs', Hcm. subst r2.
  destruct r1 as [a|e]; [|done]. rewrite <-Hcm. by apply Hk.
Qed.

Section CommitsOnce.
Context (others : Db -> Db).

Lemma commits_once_bind {A B} (c : M exn Session A) (k : A -> M exn Session B) :
  query_ok c -> (forall a, commits_once others (k a)) -> commits_once others (c ≫= k).
Proof using Type*.
  intros Hc Hk s1 s2 Hs. rewrite !run_bind. destruct (Hc s1 s2 Hs) as (Hf & Hs' & Hcm).
  destruct (c s1) as [r1 s1'], (c s2) as [r2 s2']. cbn in Hf, Hs', Hcm. subst r2.
  destruct r1 as [a|e]; [|by left]. rewrite <-Hcm. by apply Hk.
Qed.

Lemma commits_once_query {A} (c : M exn Session A) : query_ok c -> commits_once others c.
Proof using Type*. intros Hc s1 s2 Hs. left. by destruct (Hc s1 s2 Hs) as (_ & _ & ?). Qed.

Lemma commits_once_commit {A} (a : A) : commits_once others (commit ;; mret a).
Proof using Type*.
  intros s1 s2 (Hc & Hw & Hp). rewrite !run_bind, (run_commit_ok s2 Hp).
  destruct (commit s1) as [r s'] eqn:E. apply commit_cases in E as [_ [[-> Hcm]|(e & -> & Hcm)]]; cbn.
  - right. right. by rewrite Hcm.
  - by left.
Qed.

Lemma commits_once_others {B} (k : M exn Session B) :
  commits_once (fun d => d) k -> commits_once others (others_commit others ;; k).
Proof using Type*.
  intros Hk s1 s2 (Hc & Hw & Hp). rewrite !run_bind. unfold others_commit, modify_st. right.
  destruct (Hk (mkSession (others (committed s1)) (others (working s1)) (commits s1))
               (mkSession (others (committed s2)) (others (working s2)) (commits s2))) as [H|[H|H]];
    [split_and!; cbn; congruence|auto..].
Qed.
End CommitsOnce.

Lemma query_guard (b : bool) (e : exn) : query_ok (guard_or b e).
Proof. intros s1 s2 Hs. rewrite !guard_run. by destruct b. Qed.
Lemma query_found {A} (o : option A) m : query_ok (found_or o m).
Proof. intros s1 s2 Hs. rewrite !found_or_run. by destruct o. Qed.
Lemma query_ret {A} (a : A) : query_ok (mret a).
Proof. by eapply query_pure. Qed.
Lemma query_raise {A} (e : exn) : query_ok (raise e : M exn Session A).
Proof. by eapply query_pure. Qed.
Lemma query_non_empty v f : query_ok (require_non_empty v f).
Proof. intros s1 s2 Hs. rewrite !require_non_empty_run. by destruct (blank v). Qed.
Lemma query_organizer u : query_ok (require_organizer u).
Proof. apply query_guard. Qed.

#[export] Hint Resolve query_in_db query_guard query_found query_ret query_raise query_non_empty
  query_organizer commits_once_commit : cf.

Lemma query_criteria l : query_ok (ChallengeService.parse_criteria l).
Proof.
  induction l as [|[[n d] w] l IH]; cbn; [auto with cf|].
  repeat first [solve [auto with cf] | apply query_bind; [|intro]].
Qed.
#[export] Hint Resolve query_criteria : cf.

Ltac commits_once_tac :=
  repeat first
    [ solve [auto with cf]
    | solve [apply commits_once_query; auto with cf]
    | apply commits_once_others
    | apply commits_once_bind; [|intro]
    | match goal with |- commits_once _ (match ?x with _ => _ end) => destruct x end ].

Ltac commits_once_service :=
  unfold HackathonService.create_hackathon, HackathonService.publish_hackathon,
    ChallengeService.create_challenge, ChallengeService.publish_challenge,
    ChallengeService.close_challenge, not_found; commits_once_tac.

(** A state-changing request of the catalogue, whatever the fate of its commits. *)
Lemma catalog_any_plan {A} others (c : M exn Session A) plan db :
  commits_once others c ->
  committed (snd (c (begin db plan))) = db
  \/ committed (snd (c (begin db plan))) = others db
  \/ committed (snd (c (begin db plan))) = snd (serve c db).
Proof.
  intros Hc. destruct (Hc (begin db plan) (begin db [])) as [H|[H|H]]; [done|by left|right; by left|right; right].
  rewrite H. unfold serve. by destruct (c (begin db [])).
Qed.

(** * Attaching an upload *)

Section Attaching.
Context (settings : Settings).

(** The store after the previous blob is dropped. *)
Definition dropped (previous : option pystr) (key : pystr) (st : Staged) : Staged :=
  match previous with
  | Some ((_ :: _) as p) => if bool_decide (p = key) then st else compensated (Some p) st
  | _ => st
  end.

(** The row of an attachment: its new key and the time of its change. *)
Definition attached_row (now : datetime) (key : pystr) (s : Submission) : Submission :=
  s <| s_artifact_key := Some key |> <| s_updated_at := now |>.

(** What an attachment leaves: nothing of its own; the staged file when the blob
    could not be put in its place; the blob deleted again when the row could not
    be changed; or the row with its blob, the previous blob dropped. *)
Inductive attach_effect (env : RequestEnv) (others : Db -> Db) (actor : CurrentUser) (id : uuid)
    (filename : option pystr) (db : Db) (st : Staged) : result exn Submission -> Db -> Staged -> Prop :=
| ae_nothing e db' :
    db' = db \/ db' = others db ->
    attach_effect env others actor id filename db st (Raise e) db' st
| ae_put_failed e s key fs' :
    submissions db !! id = Some s ->
    key = artifact_key_for (s_challenge_id s) (cu_id actor) (re_fresh_key env) filename ->
    fs_put_from_path (re_mtime env) key (iu_staging_path (st_upload st))
      (iu_content_type (st_upload st)) (st_fs st) = (Raise e, fs') ->
    attach_effect env others actor id filename db st (Raise e) (others db) (mkStaged fs' (st_upload st))
| ae_compensated e s key fs' :
    submissions db !! id = Some s ->
    key = artifact_key_for (s_challenge_id s) (cu_id actor) (re_fresh_key env) filename ->
    fs_put_from_path (re_mtime env) key (iu_staging_path (st_upload st))
      (iu_content_type (st_upload st)) (st_fs st) = (Ok key, fs') ->
    attach_effect env others actor id filename db st (Raise e) (others db)
      (compensated (Some key) (mkStaged fs' (mark_finalized (st_upload st))))
| ae_attached r s s' key fs' db' st' :
    submissions db !! id = Some s -> s_participant_id s = cu_id actor -> s_status s = S_CREATED ->
    submissions (others db) !! id = Some s' ->
    iu_size (st_upload st) <= artifact_max_bytes settings ->
    key = artifact_key_for (s_challenge_id s) (cu_id actor) (re_fresh_key env) filename ->
    fs_put_from_path (re_mtime env) key (iu_staging_path (st_upload st))
      (iu_content_type (st_upload st)) (st_fs st) = (Ok key, fs') ->
    jobs_apart (set_submissions (<[id := attached_row (re_now env) key s']> (submissions (others db)))
                  (others db)) db' ->
    st' = dropped (s_artifact_key s) key (mkStaged fs' (mark_finalized (st_upload st))) ->
    attach_effect env others actor id filename db st r db' st'.

Lemma drop_previous_run previous key (w : Uow Staged) :
  drop_previous previous (Some key) w
  = (Ok tt, mkUow (uow_session w) (dropped previous key (uow_store w))).
Proof.
  unfold drop_previous, dropped. destruct previous as [[|c p]|]; try by rewrite uow_eta.
  case_bool_decide; [by rewrite uow_eta|]. rewrite run_bind, store_run.
  by destruct (compensate_ok (@Some pystr (c :: p)) (uow_store w)) as [b ->].
Qed.

Lemma put_from_path_key now key source ct fs k fs' :
  fs_put_from_path now key source ct fs = (Ok k, fs') -> k = key.
Proof.
  unfold fs_put_from_path, resolved. destruct (resolve key) as [p|]; [|done].
  rewrite run_bind. cbn [get_st]. destruct (negb (parents_ok fs p)); [done|].
  destruct (negb (is_file fs source)); [done|]. destruct (negb (nonempty p)); [done|].
  destruct (is_dir fs _); [done|].
  intros (x1 & s1 & _ & (x2 & s2 & _ & (x3 & s3 & _ & (x4 & s4 & _ & (x5 & s5 & _ & [= <- _])%bind_Ok_inv)
    %bind_Ok_inv)%bind_Ok_inv)%bind_Ok_inv)%bind_Ok_inv.
  done.
Qed.

Lemma staged_fs_run {A} (c : M exn Fs A) ss fs up :
  in_store (in_fs c) (mkUow ss (mkStaged fs up))
  = (fst (c fs), mkUow ss (mkStaged (snd (c fs)) up)).
Proof. unfold in_store, in_fs, zoom. cbn. by destruct (c fs). Qed.

Lemma staged_finalize_run ss fs up :
  in_store (modify_st (fun s : Staged => s <| st_upload := mark_finalized (st_upload s) |>))
    (mkUow ss (mkStaged fs up))
  = (Ok tt, mkUow ss (mkStaged fs (mark_finalized up))).
Proof. done. Qed.

Lemma attach_run env others actor id filename db (w : Uow Staged) r w' :
  clean_at db (uow_session w) ->
  attach_incoming settings env others actor id filename w = (r, w') ->
  attach_effect env others actor id filename db (uow_store w) r
    (committed (uow_session w')) (uow_store w').
Proof.
  intros [Hc Hw] E. unfold attach_incoming in E. rewrite run_bind, own_created_row_run, Hw in E.
  destruct (submissions db !! id) as [s|] eqn:Hs;
    [|injection E as <- <-; apply ae_nothing; by left].
  case_bool_decide as Hp; [|injection E as <- <-; apply ae_nothing; by left].
  case_bool_decide as Hst; [|injection E as <- <-; apply ae_nothing; by left].
  rewrite run_bind in E. unfold interfere, others_commit in E. rewrite session_run in E. cbn [fst snd modify_st] in E.
  rewrite Hc, Hw in E.
  rewrite run_bind, store_run in E. cbn [gets_st fst snd uow_store uow_session] in E.
  rewrite run_bind, guard_run in E.
  destruct (Z.leb_spec (iu_size (st_upload (uow_store w))) (artifact_max_bytes settings)) as [Hsize|];
    [|injection E as <- <-; apply ae_nothing; by right].
  cbv zeta in E.
  remember (artifact_key_for (s_challenge_id s) (cu_id actor) (re_fresh_key env) filename) as key eqn:Hkey.
  set (f := fun r0 : Submission => r0 <| s_artifact_key := Some key |> <| s_updated_at := re_now env |>) in E.
  assert (forall r0, f r0 = attached_row (re_now env) key r0) as Hf by done. clearbody f.
  destruct (uow_store w) as [fs up] eqn:Estore. cbn [st_fs st_upload] in *.
  rewrite run_bind, staged_fs_run in E.
  destruct (fs_put_from_path _ key _ _ fs) as [[k|e] fs'] eqn:Eput;
    cbn [fst snd] in E; [|injection E as <- <-; by eapply ae_put_failed].
  assert (k = key) as -> by (by eapply put_from_path_key).
  rewrite run_bind, staged_finalize_run in E.
  rewrite run_bind in E.
  destruct (commit_or_compensate id f (Some key) _) as [rc w1] eqn:Ecc in E.
  eapply (commit_or_compensate_run _ _ _ (others db)) in Ecc; [|by split].
  destruct Ecc as [(-> & Hst1 & s' & Hs' & Hclean)|([e ->] & [Hc1 _] & Hst1)]; cycle 1.
  { injection E as <- <-. rewrite Hc1, Hst1. by eapply ae_compensated. }
  rewrite run_bind, drop_previous_run in E. rewrite run_bind in E.
  destruct (enqueue_ingestion _ _ _ _ _ _) as [re w2] eqn:Ee in E.
  eapply (enqueue_ingestion_run settings) in Ee as [Hst2 Hjobs]; [|exact Hclean].
  cbn [uow_store] in Hst2.
  assert (uow_store w' = uow_store w2 /\ committed (uow_session w') = committed (uow_session w2)) as [-> ->]
    by (by destruct re; injection E as <- <-).
  rewrite Hf in Hjobs. eapply ae_attached; [done..|exact Hjobs|]. by rewrite Hst2, Hst1.
Qed.
End Attaching.

Section Requests.
Context `{Sha256} `{FloatRepr} `{FloatParse} `{PyRepr}.
Context (settings : Settings).

(** The store after the opportunistic sweep of a request. *)
Definition swept_by (env : RouteEnv) (fs : Fs) : Fs :=
  snd (cleanup_incoming (rn_sweep_clock env) (of_Z 3600) fs).

(** The staging of a file, as the upload route does it. *)
Definition stage (env : RouteEnv) (file : UploadFile) : M exn Fs IncomingUpload :=
  stream_to_incoming (rn_staging_mtime env) (rn_fresh_upload env) (iter_upload_file (uf_blocks file))
    (artifact_max_bytes settings)
    (default (py "application/octet-stream") (text_or (uf_content_type file) None))
    (uf_content_sha256 file).

(** What an upload leaves: a rejected body nothing but the sweep; a staged one the
    effect of its attachment, aborted when the attachment failed, and the sweep. *)
Lemma attach_artifact_run env actor id file plan db fs r w' :
  attach_artifact settings env actor id file (mkUow (begin db plan) fs) = (r, w') ->
  (exists e fs1, stage env file fs = (Raise e, fs1) /\ r = Raise e
     /\ committed (uow_session w') = db /\ uow_store w' = swept_by env fs1)
  \/ exists u fs1 r0 st', stage env file fs = (Ok u, fs1)
     /\ attach_effect settings (rn_request env) (rn_others env) actor id (uf_filename file) db
          (mkStaged fs1 u) r0 (committed (uow_session w')) st'
     /\ is_ok r = is_ok r0
     /\ uow_store w' = swept_by env (match r0 with
                                     | Ok _ => st_fs st'
                                     | Raise _ => snd (abort (st_upload st') (st_fs st'))
                                     end).
Proof.
  unfold attach_artifact, finally_sweep. fold (stage env file). rewrite run_bind, store_run.
  cbn [uow_store uow_session]. destruct (stage env file fs) as [[u|e] fs1]; cbn [fst snd]; cycle 1.
  { rewrite store_run. intros [= <- <-]. left. by exists e, fs1. }
  rewrite run_bind. unfold with_upload. cbn [uow_store uow_session].
  destruct (attach_incoming _ _ _ _ _ _ _) as [r0 w0] eqn:E0.
  apply (attach_run settings _ _ _ _ _ db) in E0; [|done]. cbn [uow_store] in E0.
  destruct r0 as [item|e].
  - rewrite run_ret, store_run. intros [= <- <-]. right. by exists u, fs1, (Ok item), (uow_store w0).
  - rewrite run_bind, store_run. cbn [uow_store uow_session].
    assert (fst (abort (st_upload (uow_store w0)) (st_fs (uow_store w0))) = Ok tt) as ->
      by (unfold abort; by destruct (iu_finalized _)).
    unfold raise at 1. cbv beta iota. rewrite store_run. intros [= <- <-]. right. by exists u, fs1, (Raise e), (uow_store w0).
Qed.

(** * What a request can change *)

(** A version of a submission with the same parties and key. *)
Definition same_parties (s t : Submission) : Prop :=
  s_id t = s_id s /\ s_participant_id t = s_participant_id s /\ s_challenge_id t = s_challenge_id s
  /\ s_idempotency_key t = s_idempotency_key s /\ s_request_fingerprint t = s_request_fingerprint s.

(** What a request made as [u], having checked the database [read], does to the
    database [d] it writes on: nothing, a step of the catalogue's contract, a new
    draft, a change of a draft's columns or its cancellation, each with an
    ingestion job at most, or an acceptance with its evaluation. *)
Inductive request_change (u : CurrentUser) (read d : Db) : Db -> Prop :=
| rq_same : request_change u read d d
| rq_catalog d' : catalog_step u read d d' -> request_change u read d d'
| rq_create row x d' :
    insert_submission row d = (Ok tt, x) -> s_participant_id row = cu_id u -> s_status row = S_CREATED ->
    jobs_apart (with_submission row d) d' -> request_change u read d d'
| rq_update i s0 s t d' :
    submissions read !! i = Some s0 -> s_participant_id s0 = cu_id u -> s_status s0 = S_CREATED ->
    submissions d !! i = Some s -> same_parties s t ->
    s_status t = s_status s \/ (s_status s = S_CREATED /\ s_status t = S_CANCELLED) ->
    jobs_apart (set_submissions (<[i := t]> (submissions d)) d) d' -> request_change u read d d'
| rq_accept settings env i s dl :
    submissions read !! i = Some s -> submissions d !! i = Some s ->
    s_participant_id s = cu_id u -> s_status s = S_CREATED ->
    evaluations d !! re_fresh_row env = None ->
    request_change u read d (snd (accepted settings env i s dl d)).

(** The routes whose checks and whose write others can come between; the others
    lock the row they check, or check what never changes. *)
Definition overlaps (route : Route) : bool :=
  match route with
  | POST_hackathon_publish _ | POST_challenge_publish _ | POST_challenge_submissions _ _ _
  | PATCH_submission _ _ | POST_submission_artifact _ _ => true
  | _ => false
  end.

(** A request that began with [db] commits nothing, a change of the database the
    others left in its middle or, when none come between, a change of [db]. *)
Definition served_as (env : RouteEnv) (route : Route) (u : CurrentUser) (db db' : Db) : Prop :=
  db' = db \/ request_change u db (rn_others env db) db'
  \/ overlaps route = false /\ request_change u db db db'.

Lemma served_nothing env route u db : served_as env route u db db.
Proof. by left. Qed.
Lemma served_others env route u db : served_as env route u db (rn_others env db).
Proof. right. left. apply rq_same. Qed.
#[local] Hint Resolve served_nothing served_others : cf.

(** Either the caller is drafting the submission, or nothing of it may change. *)
Lemma own_draft (actor : CurrentUser) (id : uuid) (db : Db) :
  (exists s, submissions db !! id = Some s /\ s_participant_id s = cu_id actor /\ s_status s = S_CREATED)
  \/ forall s, submissions db !! id = Some s ->
       s_participant_id s <> cu_id actor \/ s_status s <> S_CREATED.
Proof.
  destruct (submissions db !! id) as [s|]; [|by right].
  destruct (decide (s_participant_id s = cu_id actor)); [|right; intros ? [= <-]; by left].
  destruct (decide (s_status s = S_CREATED)); [left; by exists s|right; intros ? [= <-]; by right].
Qed.

(** An update of a row the caller may not change does nothing. *)
Lemma update_denied env others actor id metadata artifact (w : Uow Fs) :
  (forall s, submissions (working (uow_session w)) !! id = Some s ->
     s_participant_id s <> cu_id actor \/ s_status s <> S_CREATED) ->
  snd (update_created settings env others actor id metadata artifact w) = w.
Proof.
  intros Hno. unfold update_created. rewrite run_bind, own_created_row_run.
  destruct (submissions _ !! id) as [s|]; [|done]. destruct (Hno s eq_refl).
  - by rewrite bool_decide_eq_false_2.
  - case_bool_decide; [|done]. by rewrite bool_decide_eq_false_2.
Qed.

Lemma upload_change env route actor id file plan db fs r w' :
  attach_artifact settings env actor id file (mkUow (begin db plan) fs) = (r, w') ->
  served_as env route actor db (committed (uow_session w')).
Proof.
  intros [(e & fs1 & _ & _ & -> & _)|(u & fs1 & r0 & st' & _ & Heff & _)]%attach_artifact_run; [auto with cf|].
  destruct Heff as [e db' [->| ->]|e s key fs' _ _ _|e s key fs' _ _ _
    |r0 s s' key fs' db' st' Hs Hp Hst Hs' _ _ _ Hjobs _]; auto with cf.
  right. left. eapply rq_update; [exact Hs|done|done|exact Hs'|..|exact Hjobs]; [done|by left].
Qed.

Lemma creation_change env route actor cid metadata ikey plan db (fs : Fs) r w' :
  create settings (rn_request env) (rn_others env) actor cid metadata ikey None (mkUow (begin db plan) fs)
  = (r, w') ->
  served_as env route actor db (committed (uow_session w')).
Proof.
  intros E. eapply (create_run settings _ _ _ _ _ _ _ db) in E; [|by split].
  destruct E as [r db' Hdb _|r a st1 e akey Ha|r a st1 k akey Ha|r payload akey st1 db' d _ row Hins Hjobs _];
    auto with cf.
  - destruct Hdb as [-> | ->]; auto with cf.
  - right. left. by eapply rq_create.
Qed.

Lemma update_change env route actor id metadata plan db (fs : Fs) r w' :
  update_created settings (rn_request env) (rn_others env) actor id metadata None
    (mkUow (begin db plan) fs) = (r, w') ->
  served_as env route actor db (committed (uow_session w')).
Proof.
  intros E. assert (snd (r, w') = snd (r, w')) as Hw by done. rewrite <-E in Hw at 1.
  destruct (own_draft actor id db) as [(s & Hs & Hp & Hst)|Hno].
  - eapply (update_run settings _ _ _ _ _ _ db) in E; [|by split].
    destruct E as [-> |[-> |(s' & t & db' & Hs' & Hid & Hpt & Hst' & (Hc & Hk & Hf) & -> & Hjobs)]]; auto with cf.
    right. left. eapply rq_update; [exact Hs|done|done|exact Hs'|..|exact Hjobs]; [done|by left].
  - rewrite update_denied in Hw by exact Hno. cbn in Hw. subst w'. auto with cf.
Qed.

Lemma submission_change env route actor id plan db fs r w' :
  overlaps route = false ->
  submit_submission settings env actor id (mkUow (begin db plan) fs) = (r, w') ->
  served_as env route actor db (committed (uow_session w')).
Proof.
  intros Hat. unfold submit_submission. rewrite run_bind.
  destruct (submit settings (rn_request env) actor id _) as [rs ws] eqn:E.
  eapply (submit_run settings _ _ _ db) in E; [|by split]. destruct E as [_ Heff].
  intros Hr. assert (committed (uow_session w') = committed (uow_session ws)) as ->.
  { destruct rs; [|by injection Hr as <- <-]. rewrite run_bind in Hr.
    rewrite query_run in Hr by apply backlog_inert. destruct (fst _); by injection Hr as <- <-. }
  destruct Heff as [[-> _]|(s & dl & Hs & Hst & Hp & Hfree & _ & _ & ->)]; [auto with cf|].
  right. right. split; [done|]. by apply rq_accept.
Qed.

Lemma cancellation_change env route actor id plan db (fs : Fs) r w' :
  overlaps route = false ->
  cancel (rn_request env) actor id (mkUow (begin db plan) fs) = (r, w') ->
  served_as env route actor db (committed (uow_session w')).
Proof.
  intros Hat E. eapply (cancel_run _ _ _ db) in E; [|by split].
  destruct E as [_ [-> |(s & Hs & Hp & Hst & ->)]]; [auto with cf|].
  right. right. split; [done|]. eapply rq_update; [exact Hs|done|done|exact Hs|..|apply jobs_apart_refl]; [done|by right].
Qed.

(** The requests of the catalogue: undisturbed, or publications. *)
Lemma catalog_change {A} (c : M exn Session A) env route u plan db (fs : Fs) :
  overlaps route = false -> commits_once (fun d => d) c -> lawful u db db (snd (serve c db)) ->
  served_as env route u db (committed (uow_session (snd (in_session c (mkUow (begin db plan) fs))))).
Proof.
  intros Hat Hc Hl. rewrite session_run. cbn.
  destruct (catalog_any_plan _ c plan db Hc) as [-> |[-> | ->]]; [auto with cf..|].
  destruct Hl as [->|Hl]; [auto with cf|]. right. right. split; [done|]. by apply rq_catalog.
Qed.

Lemma publication_change {A} (c : M exn Session A) env route u plan db (fs : Fs) :
  commits_once (rn_others env) c ->
  snd (serve c db) = db \/ lawful u db (rn_others env db) (snd (serve c db)) ->
  served_as env route u db (committed (uow_session (snd (in_session c (mkUow (begin db plan) fs))))).
Proof.
  intros Hc Hl. rewrite session_run. cbn.
  destruct (catalog_any_plan _ c plan db Hc) as [-> |[-> | ->]]; [auto with cf..|].
  destruct Hl as [->|[->|Hl]]; [auto with cf..|]. right. left. by apply rq_catalog.
Qed.

(** A body made of what a computation returns leaves what the computation leaves. *)
Lemma bind_ret_state {S A B} (c : M exn S A) (f : A -> B) s :
  snd ((a ← c; mret (f a)) s) = snd (c s).
Proof. rewrite run_bind. by destruct (c s) as [[a|e] s']. Qed.

Lemma endpoint_change env route u plan db fs :
  is_read route = false ->
  served_as env route u db
    (committed (uow_session (snd (endpoint settings env route u (mkUow (begin db plan) fs))))).
Proof.
  intros Hr. destruct route; try done; cbn [endpoint]; unfold answers; rewrite ?bind_ret_state.
  - unfold create_hackathon. rewrite bind_ret_state.
    apply catalog_change; [done|commits_once_service|apply create_hackathon_lawful].
  - unfold publish_hackathon. rewrite bind_ret_state.
    apply publication_change; [commits_once_service|apply publish_hackathon_lawful].
  - unfold create_challenge. rewrite bind_ret_state.
    apply catalog_change; [done|commits_once_service|apply create_challenge_lawful].
  - unfold publish_challenge. rewrite bind_ret_state.
    apply publication_change; [commits_once_service|apply publish_challenge_lawful].
  - unfold close_challenge. rewrite bind_ret_state.
    apply catalog_change; [done|commits_once_service|apply close_challenge_lawful].
  - rewrite run_bind. unfold create_submission. rewrite run_bind.
    destruct (create settings _ _ _ _ _ _ _ _) as [r w'] eqn:E.
    eapply creation_change in E. by destruct r as [[]|].
  - unfold update_submission. rewrite bind_ret_state.
    destruct (update_created settings _ _ _ _ _ _ _) as [r w'] eqn:E. by eapply update_change in E.
  - destruct (attach_artifact settings env u submission_id file _) as [r w'] eqn:E. by eapply upload_change in E.
  - destruct (submit_submission settings env u submission_id _) as [r w'] eqn:E. by eapply submission_change in E.
  - unfold cancel_submission. rewrite bind_ret_state.
    destruct (cancel _ _ _ _) as [r w'] eqn:E. by eapply cancellation_change in E.
Qed.

(** Every request, by its caller. *)
Lemma answer_change env rq route plan db fs :
  let db' := fst (snd (answer settings env rq route plan db fs)) in
  match identity rq db with
  | Some user => served_as env route (from_user user) db db'
  | None => db' = db
  end.
Proof.
  cbv zeta. destruct (needs_user route) eqn:Hn; cycle 1.
  { assert (snd (answer settings env rq route plan db fs) = (db, fs)) as ->.
    { unfold answer, dispatch. rewrite Hn. apply answer_inert, endpoint_inert. by destruct route. }
    destruct (identity rq db); [auto with cf|done]. }
  pose proof (answer_run settings env rq route plan db fs Hn) as Ha.
  destruct (identity rq db) as [user|]; [|by destruct Ha as [m ->]]. rewrite Ha.
  destruct (is_read route) eqn:Hr.
  - rewrite answer_inert by (by apply endpoint_inert). auto with cf.
  - pose proof (endpoint_change env route (from_user user) plan db fs Hr) as He.
    unfold answer_with. by destruct (endpoint settings env route (from_user user) _) as [r w].
Qed.

(** What may happen to one row of the submissions: it was absent and is a draft of
    the caller's; or it was the caller's draft when the request read it, and it
    keeps its parties, its key and its status, or a draft is accepted or
    cancelled. *)
Inductive row_effect (u : CurrentUser) (read before after : option Submission) : Prop :=
| re_same : after = before -> row_effect u read before after
| re_new t :
    before = None -> after = Some t -> s_participant_id t = cu_id u -> s_status t = S_CREATED ->
    row_effect u read before after
| re_draft s0 s t :
    read = Some s0 -> s_participant_id s0 = cu_id u -> s_status s0 = S_CREATED ->
    before = Some s -> after = Some t -> same_parties s t ->
    s_status t = s_status s \/ (s_status s = S_CREATED /\ (s_status t = S_SUBMITTED \/ s_status t = S_CANCELLED)) ->
    row_effect u read before after.

(** All a request changes that is made as [u] and checked the database [read], of
    the database [db] it writes on: no user and no column of the scheduler; of the
    catalogue at most one step of its contract; at most one row of the
    submissions, and no evaluation that exists. *)
Record http_effect (u : CurrentUser) (read db db' : Db) : Prop := mkEffect {
  he_users : users db' = users db;
  he_scheduler : scheduler_state db' = scheduler_state db;
  he_catalog : hackathons db' = hackathons db /\ challenges db' = challenges db \/ catalog_step u read db db';
  he_submissions : exists i, (forall j, j <> i -> submissions db' !! j = submissions db !! j)
    /\ row_effect u (submissions read !! i) (submissions db !! i) (submissions db' !! i);
  he_evaluations : evaluations db ⊆ evaluations db';
}.

Lemma effect_refl u read db : http_effect u read db db.
Proof. split; auto. exists 0. split; [done|by apply re_same]. Qed.

Lemma effect_row u read db i t db' :
  row_effect u (submissions read !! i) (submissions db !! i) (Some t) ->
  users db' = users db -> scheduler_state db' = scheduler_state db ->
  hackathons db' = hackathons db -> challenges db' = challenges db ->
  submissions db' = <[i := t]> (submissions db) -> evaluations db ⊆ evaluations db' ->
  http_effect u read db db'.
Proof.
  intros Hrow Hu Hsc Hh Hc Hs He. split; auto. exists i. rewrite Hs, lookup_insert_eq. split; [|done].
  intros j Hj. by rewrite lookup_insert_ne.
Qed.

Lemma request_change_effect u read db db' : request_change u read db db' -> http_effect u read db db'.
Proof.
  intros [|d' Hst|row x d' Hins Hp Hst (jobs & -> & _)|i s0 s t d' Hr Hp Hst Hs Hsame Ht (jobs & -> & _)
    |settings0 env i s dl Hr Hs Hp Hst Hfree].
  - apply effect_refl.
  - split; try (by destruct Hst; auto); [by right|]. exists 0. destruct Hst; split; try done; by apply re_same.
  - apply insert_row_Ok in Hins as (Hnone & _). eapply (effect_row _ _ _ (s_id row) row); try done. by eapply re_new.
  - eapply (effect_row _ _ _ i t); try done. eapply re_draft; try done. naive_solver.
  - eapply (effect_row _ _ _ i); [|done..|cbn; by apply insert_subseteq].
    eapply re_draft; try done. right. split; [done|by left].
Qed.

(** C36 A request acts for its caller only: whatever the route, its answer, the fate
    of its commits and the transactions of others in its middle, a request without
    a known user changes nothing, and one made as a user makes, of the database it
    began with or of the one the others left, at most one step of the catalogue's
    contract as that user, and changes or adds at most one submission: a new draft
    of the caller's, or one that was the caller's draft when the request read it,
    which keeps its parties and its key.  A submission of another participant and
    one that was accepted or cancelled when the request began are never changed,
    nor is any user or any evaluation that exists; an acceptance that commits
    between the check of an update and its write does not stop the write, which
    then changes the metadata or the artifact of an accepted submission, and never
    its status. *)
Theorem requests_act_for_caller env rq route plan db fs :
  let db' := fst (snd (answer settings env rq route plan db fs)) in
  match identity rq db with
  | Some user => exists w, (w = db \/ w = rn_others env db) /\ http_effect (from_user user) db w db'
  | None => db' = db
  end.
Proof.
  cbv zeta. pose proof (answer_change env rq route plan db fs) as Ha. cbv zeta in Ha.
  destruct (identity rq db) as [user|]; [|done]. destruct Ha as [->|[Hch|[_ Hch]]].
  - exists db. split; [by left|apply effect_refl].
  - exists (rn_others env db). split; [by right|by apply request_change_effect].
  - exists db. split; [by left|by apply request_change_effect].
Qed.
End Requests.

(** * A participant's requests on a small database *)

Module HttpSample.
#[local] Instance sha : Sha256 := SubmissionSample.sha.
#[local] Instance repr : FloatRepr := SubmissionSample.repr.
#[local] Instance parse : FloatParse := SubmissionSample.parse.
#[local] Instance prepr : PyRepr := SubmissionSample.prepr.

Definition env : RouteEnv := mkRouteEnv SubmissionSample.env [] 77 (of_Z 5) (of_Z 6) 60 id.
Definition by_header (user_id : uuid) : HttpRequest := mkHttpRequest None (Some (uuid_str user_id)) None (py "r1").
Definition db : Db := SubmissionSample.created_db.
Definition fs : Fs := mkFs ∅.

Definition served (user_id : uuid) (route : Route) : Response Body * (Db * Fs) :=
  answer default_settings env (by_header user_id) route [] db fs.

(** The participant submits the draft: accepted, with a queued evaluation. *)
Example submit_answers :
  match served 2 (POST_submission_submit 100) with
  | (Reply 200 (B_submission s), (db', _)) =>
      (sbr_status s, sbr_evaluation_status s, s_status <$> submissions db' !! 100)
      = ("submitted"%string, Some "queued"%string, Some S_SUBMITTED)
  | _ => False
  end.
Proof. vm_compute. reflexivity. Qed.

(** A stranger is refused. *)
Example stranger_is_refused : status_of (fst (served 3 (GET_submission 100))) = 401.
Proof. vm_compute. reflexivity. Qed.

Lemma reads_are_safe_witness :
  status_of (fst (served 2 (GET_submission 100))) = 200
  /\ snd (served 2 (GET_submission 100)) = (db, fs).
Proof.
  split; [vm_compute; reflexivity|].
  exact (reads_are_safe default_settings env (by_header 2) (GET_submission 100) [] db fs eq_refl).
Defined.

Lemma requests_act_for_caller_witness :
  status_of (fst (served 2 (POST_submission_submit 100))) = 200
  /\ exists user, identity (by_header 2) db = Some user
     /\ exists w, (w = db \/ w = rn_others env db)
        /\ http_effect (from_user user) db w (fst (snd (served 2 (POST_submission_submit 100)))).
Proof.
  split; [vm_compute; reflexivity|]. exists (mkUser 2 (py "Pat") PARTICIPANT 0).
  assert (identity (by_header 2) db = Some (mkUser 2 (py "Pat") PARTICIPANT 0)) as Hid
    by (vm_compute; reflexivity).
  split; [exact Hid|].
  pose proof (requests_act_for_caller default_settings env (by_header 2) (POST_submission_submit 100)
                [] db fs) as He.
  rewrite Hid in He. exact He.
Defined.
End HttpSample.
