(* ===== verification/UploadSpec.v ===== *)
(** The fate of an upload: what the artifact route leaves in the store and in the
    database, from the staging of the body to the sweep after the answer. *)
From Stdlib Require Import ZArith Lia String.
From stdpp Require Import prelude strings gmap.
From S2P Require Import Prelude PyFloat PyStr Domain Database Json Storage StorageSpec Config.
From S2P Require Import CatalogSpec Submissions SubmissionsSpec Http HttpSpec.

(** * Paths *)





(** * The steps on the store *)





Section Staging.
Context `{Sha256}.

End Staging.

Section Uploads.
Context `{Sha256} `{FloatRepr} `{FloatParse} `{PyRepr}.
Context (settings : Settings) (env : RouteEnv).


(** The key an attachment of the file to a submission is stored under. *)
Abbreviation upload_key actor file s :=
  (artifact_key_for (s_challenge_id s) (cu_id actor) (re_fresh_key (rn_request env)) (uf_filename file)).















End Uploads.

Module UploadSample.
Import HttpSample.
#[local] Existing Instances HttpSample.sha HttpSample.repr HttpSample.parse HttpSample.prepr.

Definition text_file : UploadFile :=
  mkUploadFile [py "hello "; py "world"; []; py "never read"] None (Some (py "notes.TXT")) None.

Definition posted : Response Body * (Db * Fs) :=
  answer default_settings env (by_header 2) (POST_submission_artifact 100 text_file) [] db fs.

(** The upload is accepted; the blob holds the blocks up to the first empty one. *)
Example upload_stored :
  status_of (fst posted) = 200
  /\ (s ← submissions (fst (snd posted)) !! 100; k ← s_artifact_key s; fs_blob (snd (snd posted)) k)
     = Some (py "hello world").
Proof. vm_compute. done. Qed.

(** When the commit fails, the blob is deleted again. *)
Example upload_compensated :
  let '(r, (db', fs')) := answer default_settings env (by_header 2)
    (POST_submission_artifact 100 text_file) [Some (OtherError "connection lost")] db fs in
  (status_of r, s_artifact_key <$> submissions db' !! 100, map_to_list (files fs'))
  = (500, Some None, []).
Proof. vm_compute. done. Qed.

(** When the description of the blob cannot be written, the blob stays. *)
Example upload_undescribed :
  let file := mkUploadFile (uf_blocks text_file) (Some [55296]) (uf_filename text_file) None in
  let '(r, (db', fs')) := answer default_settings env (by_header 2)
    (POST_submission_artifact 100 file) [] db fs in
  (status_of r, s_artifact_key <$> submissions db' !! 100, f_bytes <$> (map_to_list (files fs')).*2)
  = (500, Some None, [[]; py "hello world"]).
Proof. vm_compute. done. Qed.

End UploadSample.
