(* ===== verification/Schema.v ===== *)
(** The relational schema: tables, constraints and indexes as values, the data
    definition operations on them, and the schema the declarative models describe
    (src/challengeforge/persistence/models.py), which [create_all] builds.

    A schema has no rows here: a constraint is added whatever the rows.  Columns
    and constraints are looked up by name, so that the order in which they were
    declared plays no role. *)
From Stdlib Require Import ZArith Lia String.
From stdpp Require Import prelude strings gmap.
From S2P Require Import Prelude Domain.
Local Open Scope string_scope.

(** * Values *)

Inductive SqlType := T_Uuid | T_Text | T_Integer | T_Float | T_Boolean | T_DateTime | T_Jsonb | T_Tsvector.
#[export] Instance SqlType_eq_dec : EqDecision SqlType.
Proof. solve_decision. Defined.

(** Expressions of CHECK constraints, partial indexes and generated columns. *)
Inductive expr :=
| EVar (column : string)
| EText (s : string)
| EInt (z : Z)
| EIn (column : string) (values : list string)
| EIsNull (column : string)
| EIsNotNull (column : string)
| ELe (a b : expr)
| EEq (a b : expr)
| EAnd (a b : expr)
| EOr (a b : expr)
| ECast (a : expr) (to : string)
| ECall (f : string) (a b : expr).
#[export] Instance expr_eq_dec : EqDecision expr.
Proof. solve_decision. Defined.

Fixpoint mentions (c : string) (e : expr) : bool :=
  match e with
  | EVar d | EIn d _ | EIsNull d | EIsNotNull d => bool_decide (c = d)
  | EText _ | EInt _ => false
  | ELe a b | EEq a b | EAnd a b | EOr a b | ECall _ a b => mentions c a || mentions c b
  | ECast a _ => mentions c a
  end.

Record Column := mkColumn {
  col_type : SqlType;
  col_nullable : bool;
  col_default : option string;
  col_generated : option expr;
}.
#[export] Instance Column_eq_dec : EqDecision Column.
Proof. solve_decision. Defined.

Record ForeignKey := mkForeignKey { fk_table : string; fk_column : string; fk_ondelete : string }.
#[export] Instance ForeignKey_eq_dec : EqDecision ForeignKey.
Proof. solve_decision. Defined.

(** Foreign keys have one column each and are kept by it. *)
Record Table := mkTable {
  columns : gmap string Column;
  primary_key : list string;
  foreign_keys : gmap string ForeignKey;
  uniques : gmap (list string) string;
  checks : gmap string expr;
}.
#[export] Instance Table_eta : Eta Table := fun t =>
  mkTable (columns t) (primary_key t) (foreign_keys t) (uniques t) (checks t).
#[export] Instance Table_eq_dec : EqDecision Table.
Proof. solve_decision. Defined.

Record Index := mkIndex {
  ix_table : string;
  ix_columns : list string;
  ix_unique : bool;
  ix_where : option expr;
  ix_using : string;
}.
#[export] Instance Index_eq_dec : EqDecision Index.
Proof. solve_decision. Defined.

Record Schema := mkSchema { tables : gmap string Table; indexes : gmap string Index }.
#[export] Instance Schema_eta : Eta Schema := fun s => mkSchema (tables s) (indexes s).
#[export] Instance Schema_eq_dec : EqDecision Schema.
Proof. solve_decision. Defined.

Definition empty_schema : Schema := mkSchema ∅ ∅.

(** * Operations *)

Definition DDL : Type -> Type := M exn Schema.

Definition ddl_error (message : string) : exn := OtherError message.

Definition with_table (name : string) (k : Table -> DDL unit) : DDL unit := fun s =>
  match tables s !! name with
  | Some t => k t s
  | None => (Raise (ddl_error "UndefinedTable"), s)
  end.

Definition set_table (name : string) (t : Table) : DDL unit :=
  modify_st (fun s => s <| tables := <[name := t]> (tables s) |>).

(** The elements a table is declared with. *)
Inductive element :=
| Col (name : string) (c : Column)
| Check_ (name : string) (e : expr)
| ForeignKey_ (column table target ondelete : string)
| PrimaryKey (cols : list string)
| Unique (name : string) (cols : list string).

Definition add_element (t : Table) (e : element) : Table :=
  match e with
  | Col n c => t <| columns := <[n := c]> (columns t) |>
  | Check_ n c => t <| checks := <[n := c]> (checks t) |>
  | ForeignKey_ c r rc d => t <| foreign_keys := <[c := mkForeignKey r rc d]> (foreign_keys t) |>
  | PrimaryKey cs => t <| primary_key := cs |>
  | Unique n cs => t <| uniques := <[cs := n]> (uniques t) |>
  end.

Definition build_table (l : list element) : Table := foldl add_element (mkTable ∅ [] ∅ ∅ ∅) l.

(** The table a foreign key refers to exists and has the column. *)
Definition target_ok (s : Schema) (fk : ForeignKey) : bool :=
  match tables s !! fk_table fk with
  | Some t => bool_decide (is_Some (columns t !! fk_column fk))
  | None => false
  end.

(** [CREATE TABLE] *)
Definition create_table (name : string) (l : list element) : DDL unit := fun s =>
  let t := build_table l in
  if bool_decide (is_Some (tables s !! name)) then (Raise (ddl_error "DuplicateTable"), s)
  else if negb (forallb (fun kv => target_ok s kv.2) (map_to_list (foreign_keys t)))
  then (Raise (ddl_error "UndefinedTable"), s)
  else set_table name t s.

(** [DROP TABLE], which takes the table's indexes with it and fails while another
    table refers to it. *)
Definition drop_table (name : string) : DDL unit := fun s =>
  let refers kv := negb (bool_decide (kv.1 = name))
                   && existsb (fun fk => bool_decide (fk_table fk.2 = name))
                        (map_to_list (foreign_keys kv.2)) in
  if negb (bool_decide (is_Some (tables s !! name))) then (Raise (ddl_error "UndefinedTable"), s)
  else if existsb refers (map_to_list (tables s))
  then (Raise (ddl_error "DependentObjectsStillExist"), s)
  else (Ok tt, mkSchema (delete name (tables s))
                 (filter (fun kv => ix_table kv.2 <> name) (indexes s))).

(** [ALTER TABLE .. ADD COLUMN] *)
Definition add_column (table name : string) (c : Column) : DDL unit :=
  with_table table (fun t =>
    if bool_decide (is_Some (columns t !! name)) then raise (ddl_error "DuplicateColumn")
    else set_table table (t <| columns := <[name := c]> (columns t) |>)).

(** [ALTER TABLE .. DROP COLUMN]: the constraints and indexes on the column go
    with it; a column another one is generated from stays. *)
Definition drop_column (table name : string) : DDL unit :=
  with_table table (fun t =>
    if negb (bool_decide (is_Some (columns t !! name))) then raise (ddl_error "UndefinedColumn")
    else if existsb (fun kv => match col_generated kv.2 with Some e => mentions name e | None => false end)
              (map_to_list (columns t))
    then raise (ddl_error "DependentObjectsStillExist")
    else
      set_table table
        (t <| columns := delete name (columns t) |>
           <| primary_key := if bool_decide (name ∈ primary_key t) then [] else primary_key t |>
           <| foreign_keys := delete name (foreign_keys t) |>
           <| uniques := filter (fun kv => name ∉ kv.1) (uniques t) |>
           <| checks := filter (fun kv => mentions name kv.2 = false) (checks t) |>) ;;
      modify_st (fun s => s <| indexes :=
        filter (fun kv => ~ (ix_table kv.2 = table /\ name ∈ ix_columns kv.2)) (indexes s) |>)).

(** [ALTER TABLE .. ADD CONSTRAINT .. CHECK] *)
Definition create_check_constraint (name table : string) (e : expr) : DDL unit :=
  with_table table (fun t =>
    if bool_decide (is_Some (checks t !! name)) then raise (ddl_error "DuplicateObject")
    else set_table table (t <| checks := <[name := e]> (checks t) |>)).

(** [ALTER TABLE .. DROP CONSTRAINT] of a CHECK. *)
Definition drop_check_constraint (name table : string) : DDL unit :=
  with_table table (fun t =>
    if bool_decide (is_Some (checks t !! name))
    then set_table table (t <| checks := delete name (checks t) |>)
    else raise (ddl_error "UndefinedObject")).

(** [CREATE INDEX] *)
Definition create_index_using (meth name table : string) (cols : list string) (unique : bool)
    (where_ : option expr) : DDL unit :=
  with_table table (fun t s =>
    if bool_decide (is_Some (indexes s !! name)) then (Raise (ddl_error "DuplicateTable"), s)
    else if negb (forallb (fun c => bool_decide (is_Some (columns t !! c))) cols)
    then (Raise (ddl_error "UndefinedColumn"), s)
    else (Ok tt, s <| indexes := <[name := mkIndex table cols unique where_ meth]> (indexes s) |>)).

Definition create_index (name table : string) (cols : list string) : DDL unit :=
  create_index_using "btree" name table cols false None.

(** [DROP INDEX] *)
Definition drop_index (name : string) : DDL unit := fun s =>
  if bool_decide (is_Some (indexes s !! name))
  then (Ok tt, s <| indexes := delete name (indexes s) |>)
  else (Raise (ddl_error "UndefinedObject"), s).

(** [DROP INDEX IF EXISTS] *)
Definition drop_index_if_exists (name : string) : DDL unit :=
  modify_st (fun s => s <| indexes := delete name (indexes s) |>).

(** [ALTER TABLE .. DROP COLUMN IF EXISTS] *)
Definition drop_column_if_exists (table name : string) : DDL unit :=
  with_table table (fun t =>
    if bool_decide (is_Some (columns t !! name)) then drop_column table name else mret tt).

(** * Declarations *)

(** [Mapped[..] = mapped_column(type, nullable=.., server_default=..)] and
    [sa.Column(..)]. *)
Definition col (name : string) (ty : SqlType) (nullable : bool) : element :=
  Col name (mkColumn ty nullable None None).
Definition col_def (name : string) (ty : SqlType) (default : string) : element :=
  Col name (mkColumn ty false (Some default) None).

Definition one_of (column : string) (values : list string) : expr := EIn column values.
Definition at_least (column : string) (n : Z) : expr := ELe (EInt n) (EVar column).

(** [(a IS NULL AND b IS NULL) OR (a IS NOT NULL AND b IS NOT NULL)] *)
Definition both_or_none (a b : string) : expr :=
  EOr (EAnd (EIsNull a) (EIsNull b)) (EAnd (EIsNotNull a) (EIsNotNull b)).

(** A declared table: its name, its elements and its indexes. *)
Record Declared := mkDeclared { d_name : string; d_elements : list element; d_indexes : list (DDL unit) }.

(** [persistence/models.py:27-36 UserRow] *)
Definition UserRow : Declared := mkDeclared "users"
  [ Check_ "ck_users_role" (one_of "role" ["organizer"; "participant"]);
    col "id" T_Uuid false; PrimaryKey ["id"];
    col "display_name" T_Text false;
    col "role" T_Text false;
    col "created_at" T_DateTime false ]
  [].

(** [persistence/models.py:39-57 HackathonRow] *)
Definition HackathonRow : Declared := mkDeclared "hackathons"
  [ Check_ "ck_hackathons_status" (one_of "status" ["draft"; "published"; "closed"]);
    col "id" T_Uuid false; PrimaryKey ["id"];
    col "title" T_Text false;
    col "description" T_Text false;
    col "status" T_Text false;
    col "organizer_id" T_Uuid false; ForeignKey_ "organizer_id" "users" "id" "";
    col "created_at" T_DateTime false;
    col "updated_at" T_DateTime false ]
  [ create_index "ix_hackathons_organizer_id" "hackathons" ["organizer_id"] ].

(** [persistence/models.py:60-85 ChallengeRow] *)
Definition ChallengeRow : Declared := mkDeclared "challenges"
  [ Check_ "ck_challenges_status" (one_of "status" ["draft"; "published"; "closed"]);
    col "id" T_Uuid false; PrimaryKey ["id"];
    col "hackathon_id" T_Uuid false; ForeignKey_ "hackathon_id" "hackathons" "id" "CASCADE";
    col "title" T_Text false;
    col "description" T_Text false;
    col "constraints" T_Text false;
    col "status" T_Text false;
    col "created_at" T_DateTime false;
    col "updated_at" T_DateTime false ]
  [ create_index "ix_challenges_hackathon_id" "challenges" ["hackathon_id"] ].

(** [persistence/models.py:88-98 ChallengeSpecificationRow] *)
Definition ChallengeSpecificationRow : Declared := mkDeclared "challenge_specifications"
  [ col "challenge_id" T_Uuid false; PrimaryKey ["challenge_id"];
    ForeignKey_ "challenge_id" "challenges" "id" "CASCADE";
    col "body" T_Text false;
    col "created_at" T_DateTime false;
    col "updated_at" T_DateTime false ]
  [].

(** [persistence/models.py:101-115 EvaluationCriterionRow] *)
Definition EvaluationCriterionRow : Declared := mkDeclared "evaluation_criteria"
  [ Check_ "ck_evaluation_criteria_weight" (at_least "weight" 1);
    col "id" T_Uuid false; PrimaryKey ["id"];
    col "challenge_id" T_Uuid false; ForeignKey_ "challenge_id" "challenges" "id" "CASCADE";
    col "name" T_Text false;
    col "description" T_Text false;
    col "weight" T_Integer false ]
  [ create_index "ix_evaluation_criteria_challenge_id" "evaluation_criteria" ["challenge_id"] ].

(** [persistence/models.py:118-164 SubmissionRow] *)
Definition SubmissionRow : Declared := mkDeclared "submissions"
  [ Check_ "ck_submissions_status" (one_of "status" ["created"; "submitted"; "cancelled"; "failed"]);
    Check_ "ck_submissions_idempotency_fingerprint" (both_or_none "idempotency_key" "request_fingerprint");
    col "id" T_Uuid false; PrimaryKey ["id"];
    col "challenge_id" T_Uuid false; ForeignKey_ "challenge_id" "challenges" "id" "CASCADE";
    col "participant_id" T_Uuid false; ForeignKey_ "participant_id" "users" "id" "";
    col "status" T_Text false;
    col_def "metadata" T_Jsonb "'{}'::jsonb";
    col "artifact_key" T_Text true;
    col "idempotency_key" T_Text true;
    col "request_fingerprint" T_Text true;
    col "failure_reason" T_Text true;
    col "created_at" T_DateTime false;
    col "updated_at" T_DateTime false ]
  [ create_index "ix_submissions_participant_created" "submissions" ["participant_id"; "created_at"];
    create_index "ix_submissions_challenge_created" "submissions" ["challenge_id"; "created_at"];
    create_index_using "btree" "uq_submissions_participant_idempotency" "submissions"
      ["participant_id"; "idempotency_key"] true (Some (EIsNotNull "idempotency_key")) ].

(** [persistence/models.py:167-231 EvaluationRow] *)
Definition EvaluationRow : Declared := mkDeclared "evaluations"
  [ Check_ "ck_evaluations_status" (one_of "status" ["queued"; "running"; "succeeded"; "failed"]);
    Check_ "ck_evaluations_attempt_count" (at_least "attempt_count" 0);
    Check_ "ck_evaluations_score"
      (EOr (EIsNull "score") (EAnd (at_least "score" 0) (ELe (EVar "score") (EInt 100))));
    Check_ "ck_evaluations_workload_class" (one_of "workload_class" ["light"; "medium"; "heavy"]);
    Check_ "ck_evaluations_current_stage" (at_least "current_stage" 0);
    Check_ "ck_evaluations_evaluation_mode"
      (one_of "evaluation_mode" ["legacy"; "always_expensive"; "fixed_progressive";
                                 "resource_aware_adaptive"; "synthetic_execution"]);
    col "id" T_Uuid false; PrimaryKey ["id"];
    col "submission_id" T_Uuid false; ForeignKey_ "submission_id" "submissions" "id" "CASCADE";
    Unique "" ["submission_id"];
    col "status" T_Text false;
    col_def "workload_class" T_Text "'light'";
    col_def "current_stage" T_Integer "0";
    col_def "evaluation_mode" T_Text "'legacy'";
    col "deadline_at" T_DateTime true;
    col "created_at" T_DateTime false;
    col "started_at" T_DateTime true;
    col "completed_at" T_DateTime true;
    col "attempt_count" T_Integer false;
    col "failure_reason" T_Text true;
    col "score" T_Integer true;
    col_def "result_metadata" T_Jsonb "'{}'::jsonb";
    col "worker_id" T_Text true ]
  [ create_index "ix_evaluations_status_created" "evaluations" ["status"; "created_at"];
    create_index "ix_evaluations_running_started" "evaluations" ["status"; "started_at"] ].

(** [persistence/models.py:234-261 EvaluationSchedulerStateRow] *)
Definition EvaluationSchedulerStateRow : Declared := mkDeclared "evaluation_scheduler_state"
  [ Check_ "ck_evaluation_scheduler_state_singleton" (EEq (EVar "id") (EInt 1));
    Check_ "ck_evaluation_scheduler_state_bypass_count" (at_least "light_bypass_count" 0);
    col "id" T_Integer false; PrimaryKey ["id"];
    col "blocked_heavy_id" T_Uuid true; ForeignKey_ "blocked_heavy_id" "evaluations" "id" "SET NULL";
    col_def "light_bypass_count" T_Integer "0";
    col_def "pressure_state" T_Text "'normal'";
    col "adaptive_max_workers" T_Integer true;
    col "interactive_p95_ms" T_Float true;
    col_def "interactive_sample_count" T_Integer "0";
    col "pool_wait_p95_ms" T_Float true ]
  [].

(** [persistence/models.py:264-299 IngestionJobRow] *)
Definition IngestionJobRow : Declared := mkDeclared "ingestion_jobs"
  [ Check_ "ck_ingestion_jobs_status" (one_of "status" ["queued"; "running"; "succeeded"; "failed"]);
    Check_ "ck_ingestion_jobs_attempts" (at_least "attempt_count" 0);
    col "id" T_Uuid false; PrimaryKey ["id"];
    col "submission_id" T_Uuid false; ForeignKey_ "submission_id" "submissions" "id" "CASCADE";
    col "artifact_key" T_Text false;
    col "status" T_Text false;
    col_def "attempt_count" T_Integer "0";
    col "worker_id" T_Text true;
    col "available_at" T_DateTime false;
    col "started_at" T_DateTime true;
    col "completed_at" T_DateTime true;
    col "error_code" T_Text true;
    col "error_message" T_Text true;
    col "result_key" T_Text true;
    col "created_at" T_DateTime false;
    col "updated_at" T_DateTime false ]
  [ create_index "ix_ingestion_jobs_claim" "ingestion_jobs" ["status"; "available_at"; "created_at"];
    create_index "ix_ingestion_jobs_submission_id" "ingestion_jobs" ["submission_id"] ].

(** [persistence/models.py:302-350 DocumentChunkRow] *)
Definition DocumentChunkRow : Declared := mkDeclared "document_chunks"
  [ Check_ "ck_document_chunks_ordinal" (at_least "ordinal" 0);
    Check_ "ck_document_chunks_chars"
      (EAnd (at_least "char_start" 0) (ELe (EVar "char_start") (EVar "char_end")));
    Check_ "ck_document_chunks_lines"
      (EAnd (at_least "line_start" 1) (ELe (EVar "line_start") (EVar "line_end")));
    Unique "uq_document_chunks_job_ordinal" ["ingestion_job_id"; "ordinal"];
    col "id" T_Uuid false; PrimaryKey ["id"];
    col "ingestion_job_id" T_Uuid false; ForeignKey_ "ingestion_job_id" "ingestion_jobs" "id" "CASCADE";
    col "submission_id" T_Uuid false; ForeignKey_ "submission_id" "submissions" "id" "CASCADE";
    col "artifact_key" T_Text false;
    col "parser_version" T_Text false;
    col "chunker_version" T_Text false;
    col "ordinal" T_Integer false;
    col "content" T_Text false;
    col "content_sha256" T_Text false;
    col "char_start" T_Integer false;
    col "char_end" T_Integer false;
    col "line_start" T_Integer false;
    col "line_end" T_Integer false;
    col "block_type" T_Text false;
    col_def "heading_path" T_Jsonb "'[]'::jsonb";
    col_def "oversized_split" T_Boolean "false";
    col "created_at" T_DateTime false ]
  [ create_index "ix_document_chunks_artifact_key" "document_chunks" ["artifact_key"];
    create_index "ix_document_chunks_job" "document_chunks" ["ingestion_job_id"];
    create_index "ix_document_chunks_versions" "document_chunks" ["parser_version"; "chunker_version"] ].

(** [Base.metadata.sorted_tables], each after the tables it refers to. *)
Definition metadata : list Declared :=
  [UserRow; HackathonRow; ChallengeRow; ChallengeSpecificationRow; EvaluationCriterionRow;
   SubmissionRow; EvaluationRow; EvaluationSchedulerStateRow; IngestionJobRow; DocumentChunkRow].

Fixpoint run_all (l : list (DDL unit)) : DDL unit :=
  match l with
  | [] => mret tt
  | op :: l' => op ;; run_all l'
  end.

Definition declare (d : Declared) : DDL unit :=
  create_table (d_name d) (d_elements d) ;; run_all (d_indexes d).

(** [Base.metadata.create_all(..)] on an empty database. *)
Definition create_all : DDL unit := run_all (declare <$> metadata).

(** The generated search columns. *)
Definition english_vector (text_ : expr) (weight : string) : expr :=
  ECall "setweight" (ECall "to_tsvector" (EText "english") (ECall "coalesce" text_ (EText "")))
    (EText weight).
Definition search_tsv_expr : expr :=
  ECall "||" (english_vector (ECast (EVar "heading_path") "text") "A")
    (english_vector (EVar "content") "B").
Definition search_tsv_simple_expr : expr :=
  ECall "to_tsvector" (EText "simple") (ECall "coalesce" (EVar "content") (EText "")).

Definition generated (e : expr) : Column := mkColumn T_Tsvector true None (Some e).

Definition unless_column (table name : string) (op : DDL unit) : DDL unit := fun s =>
  match tables s !! table with
  | Some t => if bool_decide (is_Some (columns t !! name)) then (Ok tt, s) else op s
  | None => op s
  end.

Definition unless_index (name : string) (op : DDL unit) : DDL unit := fun s =>
  if bool_decide (is_Some (indexes s !! name)) then (Ok tt, s) else op s.

(** [retrieval/schema.py:9-59 ensure_lexical_search_schema] *)
Definition ensure_lexical_search_schema : DDL unit :=
  unless_column "document_chunks" "search_tsv"
    (add_column "document_chunks" "search_tsv" (generated search_tsv_expr)) ;;
  unless_index "ix_document_chunks_search_tsv"
    (create_index_using "gin" "ix_document_chunks_search_tsv" "document_chunks" ["search_tsv"]
       false None) ;;
  unless_column "document_chunks" "search_tsv_simple"
    (add_column "document_chunks" "search_tsv_simple" (generated search_tsv_simple_expr)) ;;
  unless_index "ix_document_chunks_search_tsv_simple"
    (create_index_using "gin" "ix_document_chunks_search_tsv_simple" "document_chunks"
       ["search_tsv_simple"] false None).

(** What a database made from the models looks like. *)
Definition declared_schema : Schema := snd ((create_all ;; ensure_lexical_search_schema) empty_schema).

Example declared_ok : is_ok (fst ((create_all ;; ensure_lexical_search_schema) empty_schema)) = true.
Proof. vm_compute. reflexivity. Qed.

(** A foreign key to a table that is missing, and a table created twice. *)
Example chunks_need_jobs :
  is_ok (fst (declare DocumentChunkRow empty_schema)) = false.
Proof. vm_compute. reflexivity. Qed.
Example no_table_twice : is_ok (fst ((declare UserRow ;; declare UserRow) empty_schema)) = false.
Proof. vm_compute. reflexivity. Qed.
