(* ===== verification/Migrations.v ===== *)
(** The migrations (src/alembic/versions/): each revision as its upgrade and its
    downgrade on schemas, the chain they form, and the backfill of request
    fingerprints.

    The one row the fifth revision inserts is in [scheduler_row]; the rows a
    constraint is checked against are looked at for the backfill only. *)
From Stdlib Require Import ZArith Lia String.
From stdpp Require Import prelude strings gmap.
From S2P Require Import Prelude PyFloat PyStr Domain Database Json Storage Config Catalog Submissions Schema.
Local Open Scope string_scope.

Module R0001.
(** [alembic/versions/0001_initial.py:20-132 upgrade] *)
Definition upgrade : DDL unit :=
  create_table "users"
    [ col "id" T_Uuid false;
      col "display_name" T_Text false;
      col "role" T_Text false;
      col "created_at" T_DateTime false;
      Check_ "ck_users_role" (one_of "role" ["organizer"; "participant"]);
      PrimaryKey ["id"] ] ;;
  create_table "hackathons"
    [ col "id" T_Uuid false;
      col "title" T_Text false;
      col "description" T_Text false;
      col "status" T_Text false;
      col "organizer_id" T_Uuid false;
      col "created_at" T_DateTime false;
      col "updated_at" T_DateTime false;
      Check_ "ck_hackathons_status" (one_of "status" ["draft"; "published"; "closed"]);
      ForeignKey_ "organizer_id" "users" "id" "";
      PrimaryKey ["id"] ] ;;
  create_index "ix_hackathons_organizer_id" "hackathons" ["organizer_id"] ;;
  create_table "challenges"
    [ col "id" T_Uuid false;
      col "hackathon_id" T_Uuid false;
      col "title" T_Text false;
      col "description" T_Text false;
      col "constraints" T_Text false;
      col "status" T_Text false;
      col "created_at" T_DateTime false;
      col "updated_at" T_DateTime false;
      Check_ "ck_challenges_status" (one_of "status" ["draft"; "published"; "closed"]);
      ForeignKey_ "hackathon_id" "hackathons" "id" "CASCADE";
      PrimaryKey ["id"] ] ;;
  create_index "ix_challenges_hackathon_id" "challenges" ["hackathon_id"] ;;
  create_table "challenge_specifications"
    [ col "challenge_id" T_Uuid false;
      col "body" T_Text false;
      col "created_at" T_DateTime false;
      col "updated_at" T_DateTime false;
      ForeignKey_ "challenge_id" "challenges" "id" "CASCADE";
      PrimaryKey ["challenge_id"] ] ;;
  create_table "evaluation_criteria"
    [ col "id" T_Uuid false;
      col "challenge_id" T_Uuid false;
      col "name" T_Text false;
      col "description" T_Text false;
      col "weight" T_Integer false;
      Check_ "ck_evaluation_criteria_weight" (at_least "weight" 1);
      ForeignKey_ "challenge_id" "challenges" "id" "CASCADE";
      PrimaryKey ["id"] ] ;;
  create_index "ix_evaluation_criteria_challenge_id" "evaluation_criteria" ["challenge_id"] ;;
  create_table "submissions"
    [ col "id" T_Uuid false;
      col "challenge_id" T_Uuid false;
      col "participant_id" T_Uuid false;
      col "status" T_Text false;
      col_def "metadata" T_Jsonb "'{}'::jsonb";
      col "artifact_key" T_Text true;
      col "idempotency_key" T_Text true;
      col "failure_reason" T_Text true;
      col "created_at" T_DateTime false;
      col "updated_at" T_DateTime false;
      Check_ "ck_submissions_status" (one_of "status" ["created"; "submitted"; "cancelled"; "failed"]);
      ForeignKey_ "challenge_id" "challenges" "id" "CASCADE";
      ForeignKey_ "participant_id" "users" "id" "";
      PrimaryKey ["id"] ] ;;
  create_index "ix_submissions_participant_created" "submissions" ["participant_id"; "created_at"] ;;
  create_index "ix_submissions_challenge_created" "submissions" ["challenge_id"; "created_at"] ;;
  create_index_using "btree" "uq_submissions_participant_idempotency" "submissions"
    ["participant_id"; "idempotency_key"] true (Some (EIsNotNull "idempotency_key")).

(** [alembic/versions/0001_initial.py:135-147 downgrade] *)
Definition downgrade : DDL unit :=
  drop_index "uq_submissions_participant_idempotency" ;;
  drop_index "ix_submissions_challenge_created" ;;
  drop_index "ix_submissions_participant_created" ;;
  drop_table "submissions" ;;
  drop_index "ix_evaluation_criteria_challenge_id" ;;
  drop_table "evaluation_criteria" ;;
  drop_table "challenge_specifications" ;;
  drop_index "ix_challenges_hackathon_id" ;;
  drop_table "challenges" ;;
  drop_index "ix_hackathons_organizer_id" ;;
  drop_table "hackathons" ;;
  drop_table "users".
End R0001.

Module R0002.
(** [alembic/versions/0002_concurrency_correctness.py:37-79 upgrade], on the schema. *)
Definition upgrade : DDL unit :=
  add_column "submissions" "request_fingerprint" (mkColumn T_Text true None None) ;;
  create_check_constraint "ck_submissions_idempotency_fingerprint" "submissions"
    (both_or_none "idempotency_key" "request_fingerprint").

(** [alembic/versions/0002_concurrency_correctness.py:82-88 downgrade] *)
Definition downgrade : DDL unit :=
  drop_check_constraint "ck_submissions_idempotency_fingerprint" "submissions" ;;
  drop_column "submissions" "request_fingerprint".

Section Backfill.
Context `{Sha256} `{FloatRepr}.

(** [alembic/versions/0002_concurrency_correctness.py:23-34 _fingerprint]: a missing
    or empty [metadata] is an empty object. *)
Definition fingerprint (challenge_id : uuid) (metadata : json) : result exn pystr :=
  let payload := JObj [(py "challenge_id", JStr (uuid_str challenge_id));
                       (py "metadata", if truthy metadata then metadata else JObj [])] in
  if has_nan payload then Raise (ValueError "Out of range float values are not JSON compliant")
  else match utf8 (dumps false true payload) with
       | Some canonical => Ok (sha256_hex canonical)
       | None => Raise (ValueError "surrogates not allowed")
       end.

(** [alembic/versions/0002_concurrency_correctness.py:43-69 upgrade], the loop over the
    rows with a key; no fingerprint column means none is set. *)
Fixpoint backfill (rows : list Submission) : M exn (gmap uuid Submission) unit :=
  match rows with
  | [] => mret tt
  | row :: rest =>
      match fingerprint (s_challenge_id row) (JObj (s_metadata row)) with
      | Ok f => modify_st (alter (fun r => r <| s_request_fingerprint := Some f |>) (s_id row))
      | Raise e => raise e
      end ;;
      backfill rest
  end.

Definition has_key (r : Submission) : bool := bool_decide (is_Some (s_idempotency_key r)).

Definition backfill_table : M exn (gmap uuid Submission) unit := fun t =>
  backfill (rows_where has_key t) t.
End Backfill.
End R0002.

Module R0003.
(** [alembic/versions/0003_evaluation_pipeline.py:22-65 upgrade] *)
Definition upgrade : DDL unit :=
  create_table "evaluations"
    [ col "id" T_Uuid false;
      col "submission_id" T_Uuid false;
      col "status" T_Text false;
      col "created_at" T_DateTime false;
      col "started_at" T_DateTime true;
      col "completed_at" T_DateTime true;
      col_def "attempt_count" T_Integer "0";
      col "failure_reason" T_Text true;
      col "score" T_Integer true;
      col_def "result_metadata" T_Jsonb "'{}'::jsonb";
      col "worker_id" T_Text true;
      Check_ "ck_evaluations_status" (one_of "status" ["queued"; "running"; "succeeded"; "failed"]);
      Check_ "ck_evaluations_attempt_count" (at_least "attempt_count" 0);
      Check_ "ck_evaluations_score"
        (EOr (EIsNull "score") (EAnd (at_least "score" 0) (ELe (EVar "score") (EInt 100))));
      ForeignKey_ "submission_id" "submissions" "id" "CASCADE";
      PrimaryKey ["id"];
      Unique "" ["submission_id"] ] ;;
  create_index "ix_evaluations_status_created" "evaluations" ["status"; "created_at"] ;;
  create_index "ix_evaluations_running_started" "evaluations" ["status"; "started_at"].

(** [alembic/versions/0003_evaluation_pipeline.py:68-71 downgrade] *)
Definition downgrade : DDL unit :=
  drop_index "ix_evaluations_running_started" ;;
  drop_index "ix_evaluations_status_created" ;;
  drop_table "evaluations".
End R0003.

Module R0004.
(** [alembic/versions/0004_evaluation_workload_class.py:21-35 upgrade] *)
Definition upgrade : DDL unit :=
  add_column "evaluations" "workload_class" (mkColumn T_Text false (Some "'light'") None) ;;
  create_check_constraint "ck_evaluations_workload_class" "evaluations"
    (one_of "workload_class" ["light"; "medium"; "heavy"]).

(** [alembic/versions/0004_evaluation_workload_class.py:38-40 downgrade] *)
Definition downgrade : DDL unit :=
  drop_check_constraint "ck_evaluations_workload_class" "evaluations" ;;
  drop_column "evaluations" "workload_class".
End R0004.

Module R0005.
(** [alembic/versions/0005_bounded_light_bypass.py:21-47 upgrade] *)
Definition upgrade : DDL unit :=
  create_table "evaluation_scheduler_state"
    [ col "id" T_Integer false;
      col "blocked_heavy_id" T_Uuid true;
      col_def "light_bypass_count" T_Integer "0";
      Check_ "ck_evaluation_scheduler_state_singleton" (EEq (EVar "id") (EInt 1));
      Check_ "ck_evaluation_scheduler_state_bypass_count" (at_least "light_bypass_count" 0);
      ForeignKey_ "blocked_heavy_id" "evaluations" "id" "SET NULL";
      PrimaryKey ["id"] ].

(** [alembic/versions/0005_bounded_light_bypass.py:44-47 upgrade], the row it inserts,
    with the defaults of the columns the later revisions add. *)
Definition scheduler_row : SchedulerState := mkSched None 0 "normal" None None 0 None.

(** [alembic/versions/0005_bounded_light_bypass.py:50-51 downgrade] *)
Definition downgrade : DDL unit := drop_table "evaluation_scheduler_state".
End R0005.

Module R0006.
(** [alembic/versions/0006_resource_aware_runtime.py:21-34 upgrade] *)
Definition upgrade : DDL unit :=
  add_column "evaluation_scheduler_state" "pressure_state" (mkColumn T_Text false (Some "'normal'") None) ;;
  add_column "evaluation_scheduler_state" "adaptive_max_workers" (mkColumn T_Integer true None None).

(** [alembic/versions/0006_resource_aware_runtime.py:37-39 downgrade] *)
Definition downgrade : DDL unit :=
  drop_column "evaluation_scheduler_state" "adaptive_max_workers" ;;
  drop_column "evaluation_scheduler_state" "pressure_state".
End R0006.

Module R0007.
(** [alembic/versions/0007_adaptive_evaluation_v2.py:21-55 upgrade] *)
Definition upgrade : DDL unit :=
  add_column "evaluations" "current_stage" (mkColumn T_Integer false (Some "0") None) ;;
  add_column "evaluations" "evaluation_mode" (mkColumn T_Text false (Some "'legacy'") None) ;;
  add_column "evaluations" "deadline_at" (mkColumn T_DateTime true None None) ;;
  create_check_constraint "ck_evaluations_current_stage" "evaluations" (at_least "current_stage" 0) ;;
  create_check_constraint "ck_evaluations_evaluation_mode" "evaluations"
    (one_of "evaluation_mode"
       ["legacy"; "always_expensive"; "fixed_progressive"; "resource_aware_adaptive"]).

(** [alembic/versions/0007_adaptive_evaluation_v2.py:58-63 downgrade] *)
Definition downgrade : DDL unit :=
  drop_check_constraint "ck_evaluations_evaluation_mode" "evaluations" ;;
  drop_check_constraint "ck_evaluations_current_stage" "evaluations" ;;
  drop_column "evaluations" "deadline_at" ;;
  drop_column "evaluations" "evaluation_mode" ;;
  drop_column "evaluations" "current_stage".
End R0007.

Module R0008.
(** [alembic/versions/0008_interactive_feedback.py:21-34 upgrade] *)
Definition upgrade : DDL unit :=
  add_column "evaluation_scheduler_state" "interactive_p95_ms" (mkColumn T_Float true None None) ;;
  add_column "evaluation_scheduler_state" "interactive_sample_count"
    (mkColumn T_Integer false (Some "0") None).

(** [alembic/versions/0008_interactive_feedback.py:37-39 downgrade] *)
Definition downgrade : DDL unit :=
  drop_column "evaluation_scheduler_state" "interactive_sample_count" ;;
  drop_column "evaluation_scheduler_state" "interactive_p95_ms".
End R0008.

Module R0009.
(** [alembic/versions/0009_interactive_hint_pool_wait.py:21-25 upgrade] *)
Definition upgrade : DDL unit :=
  add_column "evaluation_scheduler_state" "pool_wait_p95_ms" (mkColumn T_Float true None None).

(** [alembic/versions/0009_interactive_hint_pool_wait.py:28-29 downgrade] *)
Definition downgrade : DDL unit := drop_column "evaluation_scheduler_state" "pool_wait_p95_ms".
End R0009.

Module R0010.
(** [alembic/versions/0010_synthetic_execution_mode.py:21-30 upgrade] *)
Definition upgrade : DDL unit :=
  drop_check_constraint "ck_evaluations_evaluation_mode" "evaluations" ;;
  create_check_constraint "ck_evaluations_evaluation_mode" "evaluations"
    (one_of "evaluation_mode"
       ["legacy"; "always_expensive"; "fixed_progressive"; "resource_aware_adaptive"; "synthetic_execution"]).

(** [alembic/versions/0010_synthetic_execution_mode.py:33-41 downgrade] *)
Definition downgrade : DDL unit :=
  drop_check_constraint "ck_evaluations_evaluation_mode" "evaluations" ;;
  create_check_constraint "ck_evaluations_evaluation_mode" "evaluations"
    (one_of "evaluation_mode"
       ["legacy"; "always_expensive"; "fixed_progressive"; "resource_aware_adaptive"]).
End R0010.

Module R0011.
(** [alembic/versions/0011_ingestion_jobs.py:22-59 upgrade] *)
Definition upgrade : DDL unit :=
  create_table "ingestion_jobs"
    [ col "id" T_Uuid false; PrimaryKey ["id"];
      col "submission_id" T_Uuid false; ForeignKey_ "submission_id" "submissions" "id" "CASCADE";
      col "artifact_key" T_Text false;
      col "status" T_Text false;
      col_def "attempt_count" T_Integer "0";
      col "worker_id" T_Text true;
      col "available_at" T_DateTime false;
      col "started_at" T_DateTime true;
      col "completed_at" T_DateTime true;
      col "error_code" T_Text true;
      col "error_message" T_Text true;
      col "result_key" T_Text true;
      col "created_at" T_DateTime false;
      col "updated_at" T_DateTime false;
      Check_ "ck_ingestion_jobs_status" (one_of "status" ["queued"; "running"; "succeeded"; "failed"]);
      Check_ "ck_ingestion_jobs_attempts" (at_least "attempt_count" 0) ] ;;
  create_index "ix_ingestion_jobs_claim" "ingestion_jobs" ["status"; "available_at"; "created_at"] ;;
  create_index "ix_ingestion_jobs_submission_id" "ingestion_jobs" ["submission_id"].

(** [alembic/versions/0011_ingestion_jobs.py:62-65 downgrade] *)
Definition downgrade : DDL unit :=
  drop_index "ix_ingestion_jobs_submission_id" ;;
  drop_index "ix_ingestion_jobs_claim" ;;
  drop_table "ingestion_jobs".
End R0011.

Module R0012.
(** [alembic/versions/0012_document_chunks.py:22-91 upgrade] *)
Definition upgrade : DDL unit :=
  create_table "document_chunks"
    [ col "id" T_Uuid false; PrimaryKey ["id"];
      col "ingestion_job_id" T_Uuid false; ForeignKey_ "ingestion_job_id" "ingestion_jobs" "id" "CASCADE";
      col "submission_id" T_Uuid false; ForeignKey_ "submission_id" "submissions" "id" "CASCADE";
      col "artifact_key" T_Text false;
      col "parser_version" T_Text false;
      col "chunker_version" T_Text false;
      col "ordinal" T_Integer false;
      col "content" T_Text false;
      col "content_sha256" T_Text false;
      col "char_start" T_Integer false;
      col "char_end" T_Integer false;
      col "line_start" T_Integer false;
      col "line_end" T_Integer false;
      col "block_type" T_Text false;
      col_def "heading_path" T_Jsonb "'[]'::jsonb";
      col_def "oversized_split" T_Boolean "false";
      col "created_at" T_DateTime false;
      Check_ "ck_document_chunks_ordinal" (at_least "ordinal" 0);
      Check_ "ck_document_chunks_chars"
        (EAnd (at_least "char_start" 0) (ELe (EVar "char_start") (EVar "char_end")));
      Check_ "ck_document_chunks_lines"
        (EAnd (at_least "line_start" 1) (ELe (EVar "line_start") (EVar "line_end")));
      Unique "uq_document_chunks_job_ordinal" ["ingestion_job_id"; "ordinal"] ] ;;
  create_index "ix_document_chunks_artifact_key" "document_chunks" ["artifact_key"] ;;
  create_index "ix_document_chunks_job" "document_chunks" ["ingestion_job_id"] ;;
  create_index "ix_document_chunks_versions" "document_chunks" ["parser_version"; "chunker_version"].

(** [alembic/versions/0012_document_chunks.py:94-98 downgrade] *)
Definition downgrade : DDL unit :=
  drop_index "ix_document_chunks_versions" ;;
  drop_index "ix_document_chunks_job" ;;
  drop_index "ix_document_chunks_artifact_key" ;;
  drop_table "document_chunks".
End R0012.

Module R0013.
(** [alembic/versions/0013_lexical_retrieval.py:24-76 upgrade] *)
Definition upgrade : DDL unit :=
  add_column "document_chunks" "search_tsv" (generated search_tsv_expr) ;;
  create_index_using "gin" "ix_document_chunks_search_tsv" "document_chunks" ["search_tsv"] false None ;;
  add_column "document_chunks" "search_tsv_simple" (generated search_tsv_simple_expr) ;;
  create_index_using "gin" "ix_document_chunks_search_tsv_simple" "document_chunks"
    ["search_tsv_simple"] false None.

(** [alembic/versions/0013_lexical_retrieval.py:79-85 downgrade] *)
Definition downgrade : DDL unit :=
  drop_index_if_exists "ix_document_chunks_search_tsv_simple" ;;
  drop_column_if_exists "document_chunks" "search_tsv_simple" ;;
  drop_index_if_exists "ix_document_chunks_search_tsv" ;;
  drop_column_if_exists "document_chunks" "search_tsv".
End R0013.

(** * The chain *)

(** A revision with its identifier and that of the revision it comes after. *)
Record Revision := mkRevision {
  revision : string;
  down_revision : option string;
  rev_upgrade : DDL unit;
  rev_downgrade : DDL unit;
}.

(** [alembic/versions/0001_initial.py:14-17 revision] and those of the others. *)
Definition revisions : list Revision :=
  [ mkRevision "0001_initial" None R0001.upgrade R0001.downgrade;
    mkRevision "0002_concurrency_correctness" (Some "0001_initial") R0002.upgrade R0002.downgrade;
    mkRevision "0003_evaluation_pipeline" (Some "0002_concurrency_correctness") R0003.upgrade R0003.downgrade;
    mkRevision "0004_evaluation_workload_class" (Some "0003_evaluation_pipeline") R0004.upgrade R0004.downgrade;
    mkRevision "0005_bounded_light_bypass" (Some "0004_evaluation_workload_class") R0005.upgrade R0005.downgrade;
    mkRevision "0006_resource_aware_runtime" (Some "0005_bounded_light_bypass") R0006.upgrade R0006.downgrade;
    mkRevision "0007_adaptive_evaluation_v2" (Some "0006_resource_aware_runtime") R0007.upgrade R0007.downgrade;
    mkRevision "0008_interactive_feedback" (Some "0007_adaptive_evaluation_v2") R0008.upgrade R0008.downgrade;
    mkRevision "0009_interactive_hint_pool_wait" (Some "0008_interactive_feedback") R0009.upgrade R0009.downgrade;
    mkRevision "0010_synthetic_execution_mode" (Some "0009_interactive_hint_pool_wait") R0010.upgrade R0010.downgrade;
    mkRevision "0011_ingestion_jobs" (Some "0010_synthetic_execution_mode") R0011.upgrade R0011.downgrade;
    mkRevision "0012_document_chunks" (Some "0011_ingestion_jobs") R0012.upgrade R0012.downgrade;
    mkRevision "0013_lexical_retrieval" (Some "0012_document_chunks") R0013.upgrade R0013.downgrade ].

(** The revision a database is at ([alembic_version], none at base) with its schema. *)
Record Migrated := mkMigrated { at_revision : option string; schema : Schema }.

Definition find_revision (p : Revision -> bool) : option Revision := List.find p revisions.

(** A step of [alembic upgrade]: the revision that comes after the current one. *)
Definition upgrade_one (m : Migrated) : option (result exn Migrated) :=
  r ← find_revision (fun r => bool_decide (down_revision r = at_revision m));
  Some (match rev_upgrade r (schema m) with
        | (Ok _, s) => Ok (mkMigrated (Some (revision r)) s)
        | (Raise e, _) => Raise e
        end).

(** A step of [alembic downgrade]: the current revision undone. *)
Definition downgrade_one (m : Migrated) : option (result exn Migrated) :=
  r ← find_revision (fun r => bool_decide (Some (revision r) = at_revision m));
  Some (match rev_downgrade r (schema m) with
        | (Ok _, s) => Ok (mkMigrated (down_revision r) s)
        | (Raise e, _) => Raise e
        end).

Definition base : Migrated := mkMigrated None empty_schema.

Fixpoint upgrade_n (n : nat) (m : Migrated) : option (result exn Migrated) :=
  match n with
  | O => Some (Ok m)
  | S n' => r ← upgrade_one m; match r with Ok m' => upgrade_n n' m' | Raise e => Some (Raise e) end
  end.
