(* ===== verification/MigrationsSpec.v ===== *)
(** The properties of the migrations: they lead to the schema of the models, every
    walk up and down the chain is safe, and the backfilled fingerprints are those
    of the service. *)
From Stdlib Require Import ZArith Lia String.
From stdpp Require Import prelude strings gmap.
From S2P Require Import Prelude PyFloat PyStr Domain Database Json Storage Config Catalog Submissions Schema Migrations.
Local Open Scope string_scope.

#[export] Instance Migrated_eq_dec : EqDecision Migrated.
Proof. solve_decision. Defined.

(** * The chain of schemas *)

(** The states the upgrades lead through, from the base. *)
Fixpoint states_from (n : nat) (m : Migrated) : list Migrated :=
  match n with
  | O => [m]
  | S n' => m :: match upgrade_one m with Some (Ok m') => states_from n' m' | _ => [] end
  end.

Definition chain : list Migrated := states_from (length revisions) base.

Definition leads (o : option (result exn Migrated)) (m : Migrated) : bool :=
  match o with Some (Ok m') => bool_decide (m' = m) | _ => false end.

(** Consecutive states are an upgrade and a downgrade apart. *)
Fixpoint linked (l : list Migrated) : bool :=
  match l with
  | m :: ((m' :: _) as l') => leads (upgrade_one m) m' && leads (downgrade_one m') m && linked l'
  | _ => true
  end.

Lemma leads_spec o m : leads o m = true <-> o = Some (Ok m).
Proof.
  unfold leads. destruct o as [[m'|e]|]; [|split; [done|by intros [= ?]]..].
  rewrite bool_decide_eq_true. naive_solver.
Qed.

Lemma linked_lookup l k m m' :
  linked l = true -> l !! k = Some m -> l !! S k = Some m' ->
  upgrade_one m = Some (Ok m') /\ downgrade_one m' = Some (Ok m).
Proof.
  revert k. induction l as [|m0 [|m1 l] IH]; intros k Hl Hk HSk; [done|by destruct k|].
  cbn in Hl. rewrite !andb_true_iff, !leads_spec in Hl. destruct Hl as [[Hu Hd] Hl].
  destruct k as [|k]; cbn in Hk, HSk.
  - injection Hk as <-. injection HSk as <-. done.
  - by eapply IH.
Qed.

Lemma chain_linked : linked chain = true.
Proof. vm_compute. reflexivity. Qed.

Lemma chain_length : length chain = 14%nat.
Proof. vm_compute. reflexivity. Qed.

(** Where the chain starts and ends, and that no revision occurs twice. *)
Definition chain_shape (l : list Migrated) : bool :=
  match l !! 0%nat, l !! 13%nat with
  | Some m0, Some m =>
      bool_decide (m0 = base)
      && match downgrade_one m0 with None => true | Some _ => false end
      && match upgrade_one m with None => true | Some _ => false end
      && bool_decide (at_revision m = Some "0013_lexical_retrieval")
  | _, _ => false
  end
  && bool_decide (NoDup (at_revision <$> l)).

Lemma chain_has_shape : chain_shape chain = true.
Proof. vm_compute. reflexivity. Qed.

Definition with_default (table column : string) (d : option string) (s : Schema) : Schema :=
  s <| tables := alter (fun t => t <| columns :=
         alter (fun c => mkColumn (col_type c) (col_nullable c) d (col_generated c)) column (columns t) |>)
       table (tables s) |>.

(** C39 The migrations and the models agree: upgrading an empty database to the
    head succeeds and gives the schema that [create_all] and the search columns
    make of the declarative models, but for one server default, that of the
    attempt count of an evaluation, which the models leave to the application. *)
Theorem migrations_agree_with_models :
  upgrade_n (length revisions) base
  = Some (Ok (mkMigrated (Some "0013_lexical_retrieval")
       (with_default "evaluations" "attempt_count" (Some "0") declared_schema))).
Proof. apply leads_spec. vm_compute. reflexivity. Qed.

(** From here on the facts above are all that is known of the chain. *)
#[local] Opaque chain base upgrade_one downgrade_one.

Lemma chain_facts :
  chain !! 0%nat = Some base /\ downgrade_one base = None
  /\ (exists m, chain !! 13%nat = Some m /\ upgrade_one m = None
        /\ at_revision m = Some "0013_lexical_retrieval")
  /\ NoDup (at_revision <$> chain).
Proof.
  pose proof chain_has_shape as Hs. unfold chain_shape in Hs.
  apply andb_true_iff in Hs as [Hs Hnd%bool_decide_eq_true].
  destruct (chain !! 0%nat) as [m0|]; [|discriminate].
  destruct (chain !! 13%nat) as [m|]; [|discriminate].
  rewrite !andb_true_iff, !bool_decide_eq_true in Hs. destruct Hs as [[[-> Hd] Hu] Hr].
  destruct (downgrade_one base); [discriminate|]. destruct (upgrade_one m) eqn:Hm; [discriminate|].
  split; [reflexivity|]. split; [reflexivity|]. split; [|assumption].
  exists m. split; [reflexivity|]. split; assumption.
Qed.

Lemma chain_start : chain !! 0%nat = Some base.
Proof. apply chain_facts. Qed.

Lemma chain_ends m :
  chain !! 13%nat = Some m -> upgrade_one m = None /\ at_revision m = Some "0013_lexical_retrieval".
Proof.
  destruct chain_facts as (_ & _ & (m1 & Hm1 & Hu & Hr) & _). intros Hm.
  rewrite Hm1 in Hm. injection Hm as <-. split; assumption.
Qed.

Lemma base_is_first : downgrade_one base = None.
Proof. apply chain_facts. Qed.

Lemma chain_revisions : NoDup (at_revision <$> chain).
Proof. apply chain_facts. Qed.

Lemma chain_bound k m : chain !! k = Some m -> (k < 14)%nat.
Proof. intros Hk%lookup_lt_Some. by rewrite chain_length in Hk. Qed.

Lemma chain_step k m : chain !! k = Some m -> (k < 13)%nat ->
  exists m', chain !! S k = Some m' /\ upgrade_one m = Some (Ok m') /\ downgrade_one m' = Some (Ok m).
Proof.
  intros Hm Hk. destruct (lookup_lt_is_Some_2 chain (S k)) as [m' Hm']; [rewrite chain_length; lia|].
  exists m'. split; [done|]. eapply linked_lookup; [apply chain_linked|done..].
Qed.

(** * Walks *)

(** The states [alembic upgrade] and [alembic downgrade] reach from an empty
    database, in any order. *)
Inductive walk : Migrated -> Prop :=
| walk_base : walk base
| walk_up m m' : walk m -> upgrade_one m = Some (Ok m') -> walk m'
| walk_down m m' : walk m -> downgrade_one m = Some (Ok m') -> walk m'.

Lemma walk_on_chain m : walk m -> exists k, chain !! k = Some m.
Proof.
  induction 1 as [|m m' _ [k Hk] Hup|m m' _ [k Hk] Hdown].
  - exists 0%nat. apply chain_start.
  - pose proof (chain_bound k m Hk). destruct (decide (k = 13%nat)) as [->|Hne].
    + destruct (chain_ends m Hk) as [He _]. congruence.
    + destruct (chain_step k m Hk) as (m2 & Hm2 & Hu & _); [lia|]. exists (S k). congruence.
  - destruct k as [|k].
    + rewrite chain_start in Hk. injection Hk as <-. by rewrite base_is_first in Hdown.
    + pose proof (chain_bound _ _ Hk).
      destruct (lookup_lt_is_Some_2 chain k) as [m0 Hm0]; [rewrite chain_length; lia|].
      destruct (chain_step k m0 Hm0) as (m2 & Hm2 & _ & Hd); [lia|]. exists k. congruence.
Qed.

(** C38 Every walk up and down the migrations is safe: from an empty database no
    upgrade and no downgrade ever fails, a downgrade leads back to the very state
    the upgrade started from, and a database at a revision has one schema,
    whichever way it got there. *)
Theorem migrations_reversible m :
  walk m ->
  match upgrade_one m with
  | Some (Ok m') => downgrade_one m' = Some (Ok m)
  | Some (Raise _) => False
  | None => at_revision m = Some "0013_lexical_retrieval"
  end
  /\ match downgrade_one m with
     | Some (Ok m') => upgrade_one m' = Some (Ok m)
     | Some (Raise _) => False
     | None => m = base
     end
  /\ forall m2, walk m2 -> at_revision m2 = at_revision m -> schema m2 = schema m.
Proof.
  intros [k Hk]%walk_on_chain. split_and!.
  - pose proof (chain_bound k m Hk). destruct (decide (k = 13%nat)) as [->|Hne].
    + by destruct (chain_ends m Hk) as [-> ?].
    + destruct (chain_step k m Hk) as (m' & _ & -> & Hd); [lia|done].
  - destruct k as [|k].
    + rewrite chain_start in Hk. injection Hk as <-. by rewrite base_is_first.
    + pose proof (chain_bound _ _ Hk).
      destruct (lookup_lt_is_Some_2 chain k) as [m0 Hm0]; [rewrite chain_length; lia|].
      destruct (chain_step k m0 Hm0) as (m' & Hm' & Hu & Hd); [lia|].
      assert (m' = m) as -> by congruence. by rewrite Hd.
  - intros m2 [k2 Hk2]%walk_on_chain Hrev.
    assert (k2 = k) as ->.
    { eapply NoDup_lookup; [apply chain_revisions| |]; rewrite list_lookup_fmap.
      - by rewrite Hk2.
      - rewrite Hk. cbn. by rewrite Hrev. }
    congruence.
Qed.

(** * The backfill *)

Section Backfill.
Context `{Sha256} `{FloatRepr}.

(** The migration's own fingerprint is the service's, errors apart. *)
Lemma fingerprint_agrees c d f :
  R0002.fingerprint c (JObj d) = Ok f <-> submission_request_fingerprint c d = Ok f.
Proof.
  unfold R0002.fingerprint, submission_request_fingerprint, fingerprint_payload.
  assert ((if truthy (JObj d) then JObj d else JObj []) = JObj d) as -> by (by destruct d).
  cbv zeta. destruct (has_nan _); [done|]. by destruct (utf8 _).
Qed.

Lemma backfill_spec rows t :
  NoDup (s_id <$> rows) -> (forall r, r ∈ rows -> t !! s_id r = Some r) ->
  match R0002.backfill rows t with
  | (Ok _, t') =>
      (forall r, r ∈ rows -> exists f,
         R0002.fingerprint (s_challenge_id r) (JObj (s_metadata r)) = Ok f
         /\ t' !! s_id r = Some (r <| s_request_fingerprint := Some f |>))
      /\ forall i, i ∉ s_id <$> rows -> t' !! i = t !! i
  | (Raise e, _) => exists r, r ∈ rows
      /\ R0002.fingerprint (s_challenge_id r) (JObj (s_metadata r)) = Raise e
  end.
Proof.
  revert t. induction rows as [|row rest IH]; intros t Hnd Hin.
  { cbn. split; [by intros r ?%elem_of_nil|done]. }
  apply NoDup_cons in Hnd as [Hnew Hnd]. cbn [R0002.backfill]. rewrite run_bind.
  destruct (R0002.fingerprint _ _) as [f|e] eqn:Hf; [|exists row; split; [left|done]].
  cbn [modify_st]. set (t1 := alter _ _ t).
  assert (forall i, i <> s_id row -> t1 !! i = t !! i) as Hother
    by (intros i Hi; by apply lookup_alter_ne).
  assert (t1 !! s_id row = Some (row <| s_request_fingerprint := Some f |>)) as Hrow.
  { unfold t1. rewrite lookup_alter_eq, Hin by left. done. }
  assert (forall r, r ∈ rest -> s_id r <> s_id row) as Hdiff.
  { intros r Hr Heq. apply Hnew, list_elem_of_fmap. by exists r. }
  specialize (IH t1 Hnd). destruct (R0002.backfill rest t1) as [[u|e] t'].
  - destruct IH as [Hdone Hsame].
    { intros r Hr. rewrite Hother by auto. apply Hin. by right. }
    split.
    + intros r [->|Hr]%elem_of_cons; [|by apply Hdone]. exists f. split; [done|].
      by rewrite Hsame.
    + intros i [Hi Hrest]%not_elem_of_cons. rewrite Hsame by done. by apply Hother.
  - destruct IH as (r & Hr & He).
    { intros r Hr. rewrite Hother by auto. apply Hin. by right. }
    exists r. split; [by right|done].
Qed.

(** The backfill gives old submissions the fingerprint of the service, so that a
    retry across the migration replays: on a table no row of which has a
    fingerprint yet, a row with an idempotency key gets the fingerprint its
    creation request has today, a row without a key is untouched, and every row
    meets the constraint the revision then adds; it fails only on a row whose
    request the service would refuse. *)
Theorem backfill_matches_service (t : gmap uuid Submission) :
  (forall i r, t !! i = Some r -> s_id r = i /\ s_request_fingerprint r = None) ->
  match R0002.backfill_table t with
  | (Ok _, t') => forall i r, t !! i = Some r -> exists r',
      t' !! i = Some r' /\ submission_check r' = true
      /\ match s_idempotency_key r with
         | Some _ => exists f, submission_request_fingerprint (s_challenge_id r) (s_metadata r) = Ok f
                       /\ r' = r <| s_request_fingerprint := Some f |>
         | None => r' = r
         end
  | (Raise _, _) => exists i r, t !! i = Some r /\ is_Some (s_idempotency_key r)
      /\ is_ok (submission_request_fingerprint (s_challenge_id r) (s_metadata r)) = false
  end.
Proof.
  intros Hwf. unfold R0002.backfill_table.
  assert (NoDup (s_id <$> rows_where R0002.has_key t)) as Hnd
    by (apply rows_where_ids_NoDup; intros i r Hi; apply (Hwf i r Hi)).
  assert (forall r, r ∈ rows_where R0002.has_key t -> t !! s_id r = Some r) as Hin.
  { intros r [[i Hi] _]%elem_of_rows_where. by rewrite (proj1 (Hwf i r Hi)). }
  pose proof (backfill_spec _ t Hnd Hin) as Hspec.
  destruct (R0002.backfill _ t) as [[u|e] t'].
  - destruct Hspec as [Hdone Hsame]. intros i r Hi. destruct (Hwf i r Hi) as [<- Hnone].
    destruct (s_idempotency_key r) as [k|] eqn:Hk.
    + destruct (Hdone r) as (f & Hf%fingerprint_agrees & Ht').
      { apply elem_of_rows_where. split; [by eexists|]. unfold R0002.has_key. by rewrite Hk. }
      eexists. split; [exact Ht'|]. split; [|by exists f]. unfold submission_check. cbn. by rewrite Hk.
    + exists r. split_and!; [|by unfold submission_check; rewrite Hk, Hnone|done].
      rewrite Hsame; [done|]. intros (r2 & Heq & [[j Hj] Hkey]%elem_of_rows_where)%list_elem_of_fmap.
      assert (j = s_id r) as -> by (rewrite Heq; symmetry; apply (Hwf j r2 Hj)).
      assert (r2 = r) as -> by congruence. unfold R0002.has_key in Hkey. by rewrite Hk in Hkey.
  - destruct Hspec as (r & [[i Hi] Hkey]%elem_of_rows_where & He). exists i, r. split; [done|].
    unfold R0002.has_key in Hkey. apply bool_decide_eq_true in Hkey. split; [done|].
    destruct (submission_request_fingerprint _ _) as [f|] eqn:Hf; [|done].
    apply fingerprint_agrees in Hf. congruence.
Qed.
End Backfill.

(** * Witnesses *)

Module MigrationSample.
Definition sha : Sha256 := fun _ => py "f".
Definition repr : FloatRepr := fun _ => [].
Definition keyed : Submission := mkSubmission 100 7 2 S_SUBMITTED [] None (Some (py "k")) None 0 0 None.
Definition plain : Submission := mkSubmission 101 7 2 S_CREATED [] None None None 0 0 None.
Definition table : gmap uuid Submission := {[100 := keyed; 101 := plain]}.

Lemma table_rows i r : table !! i = Some r -> s_id r = i /\ s_request_fingerprint r = None.
Proof.
  unfold table. rewrite lookup_insert_Some, lookup_singleton_Some.
  by intros [[<- <-]|[_ [<- <-]]].
Qed.

Example keyed_is_filled :
  s_request_fingerprint <$> (snd (R0002.backfill_table (H := sha) (H0 := repr) table) !! 100)
  = Some (Some (py "f")).
Proof. vm_compute. reflexivity. Qed.
End MigrationSample.

Lemma chain_walk k m : chain !! k = Some m -> walk m.
Proof.
  revert m. induction k as [|k IH]; intros m Hm.
  - rewrite chain_start in Hm. injection Hm as <-. apply walk_base.
  - pose proof (chain_bound _ _ Hm). destruct (lookup_lt_is_Some_2 chain k) as [m0 Hm0]; [rewrite chain_length; lia|].
    destruct (chain_step k m0 Hm0) as (m' & Hm' & Hu & _); [lia|]. assert (m' = m) as -> by congruence.
    eapply walk_up; [by apply IH|exact Hu].
Qed.

(** At the head of the chain: it is reached, and its downgrade is undone. *)
Lemma migrations_reversible_witness :
  exists head before, walk head /\ at_revision head = Some "0013_lexical_retrieval"
  /\ downgrade_one head = Some (Ok before) /\ upgrade_one before = Some (Ok head).
Proof.
  destruct (lookup_lt_is_Some_2 chain 13) as [head Hhead]; [rewrite chain_length; lia|].
  pose proof (chain_walk 13 head Hhead) as Hwalk. destruct (chain_ends head Hhead) as [_ Hrev].
  destruct (migrations_reversible head Hwalk) as (_ & Hdown & _).
  destruct (downgrade_one head) as [[before|e]|] eqn:Hd; [|destruct Hdown|].
  - exists head, before. repeat split; assumption.
  - exfalso. subst head. pose proof (NoDup_lookup (at_revision <$> chain) 0 13 (at_revision base) chain_revisions) as Hne.
    rewrite !list_lookup_fmap, chain_start, Hhead in Hne. discriminate (Hne eq_refl eq_refl).
Defined.

Lemma backfill_matches_service_witness :
  match R0002.backfill_table (H := MigrationSample.sha) (H0 := MigrationSample.repr) MigrationSample.table with
  | (Ok _, t') => exists r', t' !! 101 = Some r' /\ r' = MigrationSample.plain
  | (Raise _, _) => False
  end.
Proof.
  pose proof (backfill_matches_service (H := MigrationSample.sha) (H0 := MigrationSample.repr)
                MigrationSample.table MigrationSample.table_rows) as Hb.
  destruct (R0002.backfill_table MigrationSample.table) as [[u|e] t'] eqn:Hrun.
  - destruct (Hb 101 MigrationSample.plain eq_refl) as (r' & Hr' & _ & Heq). by exists r'.
  - assert (is_ok (fst (R0002.backfill_table (H := MigrationSample.sha) (H0 := MigrationSample.repr)
                          MigrationSample.table)) = true) as Hok by (vm_compute; reflexivity).
    rewrite Hrun in Hok. discriminate.
Defined.
