(* ===== verification/Mapping.v ===== *)
(** Rows and entities (src/challengeforge/persistence/mapping.py): SQL values, the
    typing of a row by its declared table, CHECK constraints in the three-valued
    logic of SQL, and the mappers from rows to entities.

    The tables of [Database] hold entities; MappingSpec says which row an entity
    stands for. *)
From Stdlib Require Import ZArith Lia String.
From stdpp Require Import prelude strings gmap sorting.
From S2P Require Import Prelude PyFloat PyStr Domain Database Json Evaluator Catalog Schema.
Local Open Scope string_scope.

(** * Values and rows *)

Inductive SqlValue :=
| VNull
| VUuid (u : uuid)
| VText (s : pystr)
| VInt (z : Z)
| VFloat (f : float)
| VBool (b : bool)
| VTime (t : datetime)
| VJson (j : json).

(** A nullable column. *)
Definition nullable {A} (f : A -> SqlValue) (o : option A) : SqlValue :=
  match o with Some a => f a | None => VNull end.

(** The columns of a row in the order of its table. *)
Definition Row : Type := list (string * SqlValue).

Fixpoint attr (r : Row) (name : string) : option SqlValue :=
  match r with
  | [] => None
  | (n, v) :: r' => if String.eqb n name then Some v else attr r' name
  end.

(** * Typing *)

(** The columns a table declares. *)
Definition declared_columns (d : Declared) : list (string * Column) :=
  omap (fun e => match e with Col n c => Some (n, c) | _ => None end) (d_elements d).

(** A value of a column's type. *)
Definition fits (c : Column) (v : SqlValue) : bool :=
  match v, col_type c with
  | VNull, _ => col_nullable c
  | VUuid _, T_Uuid | VText _, T_Text | VInt _, T_Integer | VFloat _, T_Float
  | VBool _, T_Boolean | VTime _, T_DateTime | VJson _, T_Jsonb => true
  | _, _ => false
  end.

Fixpoint typed_columns (cs : list (string * Column)) (r : Row) : bool :=
  match cs, r with
  | [], [] => true
  | (n, c) :: cs', (m, v) :: r' => String.eqb n m && fits c v && typed_columns cs' r'
  | _, _ => false
  end.

(** A row of the table: a value of its type in every declared column. *)
Definition typed (d : Declared) (r : Row) : bool := typed_columns (declared_columns d) r.

(** * CHECK constraints *)

Definition int_term (r : Row) (e : expr) : option Z :=
  match e with
  | EInt z => Some z
  | EVar c => match attr r c with Some (VInt z) => Some z | _ => None end
  | _ => None
  end.

Definition is_null (r : Row) (c : string) : bool :=
  match attr r c with Some VNull | None => true | _ => false end.

(** [NULL] is the third truth value. *)
Definition sql_and (a b : option bool) : option bool :=
  match a, b with
  | Some false, _ | _, Some false => Some false
  | Some true, Some true => Some true
  | _, _ => None
  end.
Definition sql_or (a b : option bool) : option bool :=
  match a, b with
  | Some true, _ | _, Some true => Some true
  | Some false, Some false => Some false
  | _, _ => None
  end.

Fixpoint holds (r : Row) (e : expr) : option bool :=
  match e with
  | EIn c vs => match attr r c with
                | Some (VText s) => Some (existsb (fun v => bool_decide (py v = s)) vs)
                | _ => None
                end
  | EIsNull c => Some (is_null r c)
  | EIsNotNull c => Some (negb (is_null r c))
  | ELe a b => match int_term r a, int_term r b with Some x, Some y => Some (x <=? y)%Z | _, _ => None end
  | EEq a b => match int_term r a, int_term r b with Some x, Some y => Some (x =? y)%Z | _, _ => None end
  | EAnd a b => sql_and (holds r a) (holds r b)
  | EOr a b => sql_or (holds r a) (holds r b)
  | EVar _ | EText _ | EInt _ | ECast _ _ | ECall _ _ _ => None
  end.

(** A constraint is violated when it is false: unknown is no violation. *)
Definition checks_hold (d : Declared) (r : Row) : bool :=
  forallb (fun e => match e with
                    | Check_ _ c => match holds r c with Some false => false | _ => true end
                    | _ => true
                    end) (d_elements d).

(** * Mappers *)

#[local] Instance result_bind : MBind (result exn) := fun A B k c =>
  match c with Ok a => k a | Raise e => Raise e end.
#[local] Instance result_ret : MRet (result exn) := fun A a => Ok a.

(** [row.name], a value of the column's type. *)
Section Reading.
Context (r : Row) (name : string).
Definition mistyped : exn := OtherError "TypeError".
Definition uuid_at : result exn uuid :=
  match attr r name with Some (VUuid u) => Ok u | _ => Raise mistyped end.
Definition text_at : result exn pystr :=
  match attr r name with Some (VText s) => Ok s | _ => Raise mistyped end.
Definition int_at : result exn Z :=
  match attr r name with Some (VInt z) => Ok z | _ => Raise mistyped end.
Definition bool_at : result exn bool :=
  match attr r name with Some (VBool b) => Ok b | _ => Raise mistyped end.
Definition time_at : result exn datetime :=
  match attr r name with Some (VTime t) => Ok t | _ => Raise mistyped end.
Definition opt_text_at : result exn (option pystr) :=
  match attr r name with Some (VText s) => Ok (Some s) | Some VNull => Ok None | _ => Raise mistyped end.
Definition opt_int_at : result exn (option Z) :=
  match attr r name with Some (VInt z) => Ok (Some z) | Some VNull => Ok None | _ => Raise mistyped end.
Definition opt_time_at : result exn (option datetime) :=
  match attr r name with Some (VTime t) => Ok (Some t) | Some VNull => Ok None | _ => Raise mistyped end.

(** [Cls(row.name)] *)
Definition enum_at {A} `{StrEnum A} : result exn A :=
  s ← text_at;
  match of_text s with Some a => Ok a | None => Raise (ValueError "is not a valid member") end.

(** [dict(row.name or {})]; the pairs of a nonempty array, which [dict] would take as
    well, are never stored. *)
Definition dict_at : result exn dict :=
  match attr r name with
  | Some (VJson j) => if truthy j then match j with JObj o => Ok o | _ => Raise mistyped end else Ok []
  | Some VNull => Ok []
  | _ => Raise mistyped
  end.

(** [tuple(str(x) for x in row.name or [])] *)
Definition texts_at `{PyRepr} : result exn (list pystr) :=
  match attr r name with
  | Some (VJson j) =>
      if truthy j then
        match j with
        | JList l => Ok (json_str <$> l)
        | JObj o => Ok o.*1
        | JStr s => Ok ((fun c => [c]) <$> s)
        | _ => Raise mistyped
        end
      else Ok []
  | Some VNull => Ok []
  | _ => Raise mistyped
  end.
End Reading.

(** [persistence/mapping.py:39-45 user_to_domain] *)
Definition user_to_domain (row : Row) : result exn User :=
  id ← uuid_at row "id";
  display_name ← text_at row "display_name";
  role ← enum_at row "role";
  created_at ← time_at row "created_at";
  mret (mkUser id display_name role created_at).

(** [persistence/mapping.py:48-57 hackathon_to_domain] *)
Definition hackathon_to_domain (row : Row) : result exn Hackathon :=
  id ← uuid_at row "id";
  title ← text_at row "title";
  description ← text_at row "description";
  status ← enum_at row "status";
  organizer_id ← uuid_at row "organizer_id";
  created_at ← time_at row "created_at";
  updated_at ← time_at row "updated_at";
  mret (mkHackathon id title description status organizer_id created_at updated_at).

(** A challenge with the rows its relationships load. *)
Record ChallengeRows := mkChallengeRows {
  cr_row : Row;
  cr_specification : option Row;
  cr_criteria : list Row;
}.

(** [persistence/mapping.py:74-82 challenge_to_domain], one criterion. *)
Definition criterion_to_domain (c : Row) : result exn EvaluationCriterion :=
  id ← uuid_at c "id";
  name ← text_at c "name";
  description ← text_at c "description";
  weight ← int_at c "weight";
  mret (mkCriterion id name description weight).

Fixpoint map_result {A B} (f : A -> result exn B) (l : list A) : result exn (list B) :=
  match l with
  | [] => Ok []
  | x :: l' => y ← f x; k ← map_result f l'; mret (y :: k)
  end.

(** [persistence/mapping.py:69-73 challenge_to_domain], the specification. *)
Definition specification_to_domain (created_at updated_at : datetime) (spec : option Row)
    : result exn ChallengeSpecification :=
  match spec with
  | Some spec =>
      body ← text_at spec "body";
      spec_created ← time_at spec "created_at";
      spec_updated ← time_at spec "updated_at";
      mret (mkSpec body spec_created spec_updated)
  | None => mret (mkSpec [] created_at updated_at)
  end.

#[local] Existing Instance ChallengeRepository.criterion_by_name_dec.

(** [persistence/mapping.py:60-85 challenge_to_domain] *)
Definition challenge_to_domain (rows : ChallengeRows) : result exn Challenge :=
  let row := cr_row rows in
  id ← uuid_at row "id";
  hackathon_id ← uuid_at row "hackathon_id";
  title ← text_at row "title";
  description ← text_at row "description";
  constraints ← text_at row "constraints";
  status ← enum_at row "status";
  created_at ← time_at row "created_at";
  updated_at ← time_at row "updated_at";
  specification ← specification_to_domain created_at updated_at (cr_specification rows);
  criteria ← map_result criterion_to_domain (cr_criteria rows);
  mret (mkChallenge id hackathon_id title description constraints status specification
          (merge_sort ChallengeRepository.criterion_by_name criteria) created_at updated_at).

(** [persistence/mapping.py:88-101 submission_to_domain] *)
Definition submission_to_domain (row : Row) : result exn Submission :=
  id ← uuid_at row "id";
  challenge_id ← uuid_at row "challenge_id";
  participant_id ← uuid_at row "participant_id";
  status ← enum_at row "status";
  metadata ← dict_at row "metadata";
  artifact_key ← opt_text_at row "artifact_key";
  idempotency_key ← opt_text_at row "idempotency_key";
  request_fingerprint ← opt_text_at row "request_fingerprint";
  created_at ← time_at row "created_at";
  updated_at ← time_at row "updated_at";
  failure_reason ← opt_text_at row "failure_reason";
  mret (mkSubmission id challenge_id participant_id status metadata artifact_key
          idempotency_key request_fingerprint created_at updated_at failure_reason).

(** [WorkloadClass(row.workload_class or WorkloadClass.LIGHT.value)] *)
Definition workload_class_at (row : Row) : result exn WorkloadClass :=
  text ← opt_text_at row "workload_class";
  match of_text (match text with Some ((_ :: _) as s) => s | _ => py (value W_LIGHT) end) with
  | Some c => Ok c
  | None => Raise (ValueError "is not a valid WorkloadClass")
  end.

(** [str(getattr(row, 'evaluation_mode', None) or 'legacy')], as the member its CHECK
    constraint makes it. *)
Definition evaluation_mode_at (row : Row) : result exn EvaluationMode :=
  text ← opt_text_at row "evaluation_mode";
  mret (default M_LEGACY (text ≫= of_text)).

(** [persistence/mapping.py:104-121 evaluation_to_domain] *)
Definition evaluation_to_domain (row : Row) : result exn Evaluation :=
  id ← uuid_at row "id";
  submission_id ← uuid_at row "submission_id";
  status ← enum_at row "status";
  created_at ← time_at row "created_at";
  started_at ← opt_time_at row "started_at";
  completed_at ← opt_time_at row "completed_at";
  attempt_count ← int_at row "attempt_count";
  failure_reason ← opt_text_at row "failure_reason";
  score ← opt_int_at row "score";
  result_metadata ← dict_at row "result_metadata";
  worker_id ← opt_text_at row "worker_id";
  workload_class ← workload_class_at row;
  current_stage ← opt_int_at row "current_stage";
  evaluation_mode ← evaluation_mode_at row;
  deadline_at ← opt_time_at row "deadline_at";
  mret (mkEvaluation id submission_id status created_at started_at completed_at attempt_count
          failure_reason score result_metadata worker_id workload_class (default 0 current_stage)
          evaluation_mode deadline_at).

(** [persistence/mapping.py:124-140 ingestion_to_domain] *)
Definition ingestion_to_domain (row : Row) : result exn IngestionJob :=
  id ← uuid_at row "id";
  submission_id ← uuid_at row "submission_id";
  artifact_key ← text_at row "artifact_key";
  status ← enum_at row "status";
  attempt_count ← int_at row "attempt_count";
  available_at ← time_at row "available_at";
  created_at ← time_at row "created_at";
  updated_at ← time_at row "updated_at";
  worker_id ← opt_text_at row "worker_id";
  started_at ← opt_time_at row "started_at";
  completed_at ← opt_time_at row "completed_at";
  error_code ← opt_text_at row "error_code";
  error_message ← opt_text_at row "error_message";
  result_key ← opt_text_at row "result_key";
  mret (mkJob id submission_id artifact_key status attempt_count available_at created_at
          updated_at worker_id started_at completed_at error_code error_message result_key).

(** [persistence/mapping.py:143-163 chunk_to_domain] *)
Definition chunk_to_domain `{PyRepr} (row : Row) : result exn DocumentChunk :=
  heading_path ← texts_at row "heading_path";
  id ← uuid_at row "id";
  ingestion_job_id ← uuid_at row "ingestion_job_id";
  submission_id ← uuid_at row "submission_id";
  artifact_key ← text_at row "artifact_key";
  parser_version ← text_at row "parser_version";
  chunker_version ← text_at row "chunker_version";
  ordinal ← int_at row "ordinal";
  content ← text_at row "content";
  content_sha256 ← text_at row "content_sha256";
  char_start ← int_at row "char_start";
  char_end ← int_at row "char_end";
  line_start ← int_at row "line_start";
  line_end ← int_at row "line_end";
  block_type ← text_at row "block_type";
  oversized_split ← bool_at row "oversized_split";
  created_at ← time_at row "created_at";
  mret (mkChunk id ingestion_job_id submission_id artifact_key parser_version chunker_version
          ordinal content content_sha256 char_start char_end line_start line_end block_type
          heading_path oversized_split created_at).
