(* ===== verification/MappingSpec.v ===== *)
(** The properties of the mappers: rows that the declared tables admit and entities
    that the model's checks admit correspond one to one. *)
From Stdlib Require Import ZArith Lia String Ascii.
From stdpp Require Import prelude strings gmap sorting.
From S2P Require Import Prelude PyFloat PyStr Domain Database Json Evaluator Catalog Schema Mapping.
Local Open Scope string_scope.

(** * The row of an entity *)

Definition enum_text {A} `{StrEnum A} (a : A) : SqlValue := VText (py (value a)).

Definition user_row (u : User) : Row :=
  [("id", VUuid (u_id u)); ("display_name", VText (u_display_name u));
   ("role", enum_text (u_role u)); ("created_at", VTime (u_created_at u))].

Definition hackathon_row (h : Hackathon) : Row :=
  [("id", VUuid (h_id h)); ("title", VText (h_title h)); ("description", VText (h_description h));
   ("status", enum_text (h_status h)); ("organizer_id", VUuid (h_organizer_id h));
   ("created_at", VTime (h_created_at h)); ("updated_at", VTime (h_updated_at h))].

Definition criterion_row (challenge_id : uuid) (c : EvaluationCriterion) : Row :=
  [("id", VUuid (crit_id c)); ("challenge_id", VUuid challenge_id); ("name", VText (crit_name c));
   ("description", VText (crit_description c)); ("weight", VInt (crit_weight c))].

Definition specification_row (challenge_id : uuid) (s : ChallengeSpecification) : Row :=
  [("challenge_id", VUuid challenge_id); ("body", VText (spec_body s));
   ("created_at", VTime (spec_created_at s)); ("updated_at", VTime (spec_updated_at s))].

Definition challenge_rows (c : Challenge) : ChallengeRows :=
  mkChallengeRows
    [("id", VUuid (c_id c)); ("hackathon_id", VUuid (c_hackathon_id c)); ("title", VText (c_title c));
     ("description", VText (c_description c)); ("constraints", VText (c_constraints c));
     ("status", enum_text (c_status c)); ("created_at", VTime (c_created_at c));
     ("updated_at", VTime (c_updated_at c))]
    (Some (specification_row (c_id c) (c_specification c)))
    (criterion_row (c_id c) <$> c_evaluation_criteria c).

Definition submission_row (s : Submission) : Row :=
  [("id", VUuid (s_id s)); ("challenge_id", VUuid (s_challenge_id s));
   ("participant_id", VUuid (s_participant_id s)); ("status", enum_text (s_status s));
   ("metadata", VJson (JObj (s_metadata s))); ("artifact_key", nullable VText (s_artifact_key s));
   ("idempotency_key", nullable VText (s_idempotency_key s));
   ("request_fingerprint", nullable VText (s_request_fingerprint s));
   ("failure_reason", nullable VText (s_failure_reason s)); ("created_at", VTime (s_created_at s));
   ("updated_at", VTime (s_updated_at s))].

Definition evaluation_row (e : Evaluation) : Row :=
  [("id", VUuid (e_id e)); ("submission_id", VUuid (e_submission_id e)); ("status", enum_text (e_status e));
   ("workload_class", enum_text (e_workload_class e)); ("current_stage", VInt (e_current_stage e));
   ("evaluation_mode", enum_text (e_evaluation_mode e)); ("deadline_at", nullable VTime (e_deadline_at e));
   ("created_at", VTime (e_created_at e)); ("started_at", nullable VTime (e_started_at e));
   ("completed_at", nullable VTime (e_completed_at e)); ("attempt_count", VInt (e_attempt_count e));
   ("failure_reason", nullable VText (e_failure_reason e)); ("score", nullable VInt (e_score e));
   ("result_metadata", VJson (JObj (e_result_metadata e))); ("worker_id", nullable VText (e_worker_id e))].

Definition ingestion_row (j : IngestionJob) : Row :=
  [("id", VUuid (j_id j)); ("submission_id", VUuid (j_submission_id j));
   ("artifact_key", VText (j_artifact_key j)); ("status", enum_text (j_status j));
   ("attempt_count", VInt (j_attempt_count j)); ("worker_id", nullable VText (j_worker_id j));
   ("available_at", VTime (j_available_at j)); ("started_at", nullable VTime (j_started_at j));
   ("completed_at", nullable VTime (j_completed_at j)); ("error_code", nullable VText (j_error_code j));
   ("error_message", nullable VText (j_error_message j)); ("result_key", nullable VText (j_result_key j));
   ("created_at", VTime (j_created_at j)); ("updated_at", VTime (j_updated_at j))].

Definition document_chunk_row (c : DocumentChunk) : Row :=
  [("id", VUuid (dc_id c)); ("ingestion_job_id", VUuid (dc_ingestion_job_id c));
   ("submission_id", VUuid (dc_submission_id c)); ("artifact_key", VText (dc_artifact_key c));
   ("parser_version", VText (dc_parser_version c)); ("chunker_version", VText (dc_chunker_version c));
   ("ordinal", VInt (dc_ordinal c)); ("content", VText (dc_content c));
   ("content_sha256", VText (dc_content_sha256 c)); ("char_start", VInt (dc_char_start c));
   ("char_end", VInt (dc_char_end c)); ("line_start", VInt (dc_line_start c));
   ("line_end", VInt (dc_line_end c)); ("block_type", VText (dc_block_type c));
   ("heading_path", VJson (JList (JStr <$> dc_heading_path c)));
   ("oversized_split", VBool (dc_oversized_split c)); ("created_at", VTime (dc_created_at c))].

(** What the program keeps in its JSON columns: an object, and texts in a heading
    path. *)
Definition is_text (j : json) : bool := match j with JStr _ => true | _ => false end.
Definition shaped_value (name : string) (v : SqlValue) : bool :=
  match v with
  | VJson (JObj _) => negb (String.eqb name "heading_path")
  | VJson (JList l) => String.eqb name "heading_path" && forallb is_text l
  | VJson _ => false
  | _ => true
  end.
Definition shaped (r : Row) : bool := forallb (fun kv => shaped_value kv.1 kv.2) r.

(** Rows of a table and entities correspond: the row of an entity has the declared
    columns and meets the declared constraints exactly when the entity meets its
    check, and reads back as the entity; and every row the table admits is the row
    of the entity it reads as. *)
Definition corresponds {E} (d : Declared) (row_of : E -> Row) (to_domain : Row -> result exn E)
    (check : E -> bool) : Prop :=
  (forall e, typed d (row_of e) = true /\ shaped (row_of e) = true
             /\ checks_hold d (row_of e) = check e /\ to_domain (row_of e) = Ok e)
  /\ (forall r, typed d r = true -> shaped r = true -> checks_hold d r = true ->
        exists e, to_domain r = Ok e /\ row_of e = r).

(** * Texts of enumerations *)

Lemma py_inj a b : py a = py b -> a = b.
Proof.
  revert b. induction a as [|x a IH]; intros [|y b]; try done. unfold py. cbn. intros [= Hxy Hab].
  f_equal; [|by apply IH]. apply N2Z.inj in Hxy.
  by rewrite <-(ascii_N_embedding x), <-(ascii_N_embedding y), Hxy.
Qed.

Section Enums.
Context {A : Type} `{StrEnumOk A}.

Lemma of_text_value (a : A) : of_text (py (value a)) = Some a.
Proof using Type*.
  unfold of_text. destruct (List.find _ _) as [b|] eqn:Hf.
  - apply List.find_some in Hf as [_ Hb%bool_decide_eq_true]. f_equal. by apply value_inj, py_inj.
  - eapply List.find_none in Hf; [|apply list_elem_of_In, (members_complete a)].
    by apply bool_decide_eq_false in Hf.
Qed.

(** A text that a CHECK constraint over all members admits is the text of one. *)
Lemma admitted_text vs s :
  vs = value <$> (members : list A) -> existsb (fun v => bool_decide (py v = s)) vs = true ->
  exists a : A, s = py (value a).
Proof.
  intros -> (v & Hv & Hs%bool_decide_eq_true)%existsb_exists.
  apply list_elem_of_In, list_elem_of_fmap in Hv as (a & -> & _). by exists a.
Qed.

Lemma value_admitted vs (a : A) :
  vs = value <$> (members : list A) -> existsb (fun v => bool_decide (py v = py (value a))) vs = true.
Proof using Type*.
  intros ->. apply existsb_exists. exists (value a). split; [|by apply bool_decide_eq_true].
  apply list_elem_of_In, list_elem_of_fmap. exists a. split; [done|apply members_complete].
Qed.

End Enums.

(** * Columns *)

Lemma fits_nullable_text o d g : fits (mkColumn T_Text true d g) (nullable VText o) = true.
Proof. by destruct o. Qed.
Lemma fits_nullable_time o d g : fits (mkColumn T_DateTime true d g) (nullable VTime o) = true.
Proof. by destruct o. Qed.
Lemma fits_nullable_int o d g : fits (mkColumn T_Integer true d g) (nullable VInt o) = true.
Proof. by destruct o. Qed.
Create HintDb columns.
#[export] Hint Rewrite fits_nullable_text fits_nullable_time fits_nullable_int : columns.

Lemma shaped_nullable_text n o : shaped_value n (nullable VText o) = true.
Proof. by destruct o. Qed.
Lemma shaped_nullable_time n o : shaped_value n (nullable VTime o) = true.
Proof. by destruct o. Qed.
Lemma shaped_nullable_int n o : shaped_value n (nullable VInt o) = true.
Proof. by destruct o. Qed.
#[export] Hint Rewrite shaped_nullable_text shaped_nullable_time shaped_nullable_int : columns.

Section Reads.
Context (r : Row) (n : string).

Lemma uuid_read u : attr r n = Some (VUuid u) -> uuid_at r n = Ok u.
Proof. unfold uuid_at. by intros ->. Qed.
Lemma text_read u : attr r n = Some (VText u) -> text_at r n = Ok u.
Proof. unfold text_at. by intros ->. Qed.
Lemma int_read u : attr r n = Some (VInt u) -> int_at r n = Ok u.
Proof. unfold int_at. by intros ->. Qed.
Lemma bool_read u : attr r n = Some (VBool u) -> bool_at r n = Ok u.
Proof. unfold bool_at. by intros ->. Qed.
Lemma time_read u : attr r n = Some (VTime u) -> time_at r n = Ok u.
Proof. unfold time_at. by intros ->. Qed.
Lemma opt_text_read o : attr r n = Some (nullable VText o) -> opt_text_at r n = Ok o.
Proof. unfold opt_text_at. intros ->. by destruct o. Qed.
Lemma opt_time_read o : attr r n = Some (nullable VTime o) -> opt_time_at r n = Ok o.
Proof. unfold opt_time_at. intros ->. by destruct o. Qed.
Lemma opt_int_read o : attr r n = Some (nullable VInt o) -> opt_int_at r n = Ok o.
Proof. unfold opt_int_at. intros ->. by destruct o. Qed.
Lemma opt_int_read_some z : attr r n = Some (VInt z) -> opt_int_at r n = Ok (Some z).
Proof. unfold opt_int_at. by intros ->. Qed.
Lemma dict_read o : attr r n = Some (VJson (JObj o)) -> dict_at r n = Ok o.
Proof. unfold dict_at. intros ->. by destruct o. Qed.
Lemma enum_read `{StrEnumOk A} (a : A) : attr r n = Some (enum_text a) -> enum_at r n = Ok a.
Proof.
  intros Ha. unfold enum_at. rewrite (text_read (py (value a))) by exact Ha. cbn. by rewrite of_text_value.
Qed.
Lemma texts_read `{PyRepr} l : attr r n = Some (VJson (JList (JStr <$> l))) -> texts_at r n = Ok l.
Proof.
  unfold texts_at. intros ->. destruct l as [|x l]; [done|]. cbn [truthy nonempty fmap list_fmap].
  f_equal. cbn. f_equal. induction l as [|y l IH]; [done|]. cbn. by f_equal.
Qed.
End Reads.

Lemma workload_class_read r (c : WorkloadClass) :
  attr r "workload_class" = Some (enum_text c) -> workload_class_at r = Ok c.
Proof.
  intros Hc. unfold workload_class_at. rewrite (opt_text_read _ _ (Some (py (value c)))) by exact Hc.
  by destruct c.
Qed.

Lemma evaluation_mode_read r (m : EvaluationMode) :
  attr r "evaluation_mode" = Some (enum_text m) -> evaluation_mode_at r = Ok m.
Proof.
  intros Hm. unfold evaluation_mode_at. rewrite (opt_text_read _ _ (Some (py (value m)))) by exact Hm.
  by destruct m.
Qed.

(** Reads the columns of a row one after the other. *)
Ltac read_columns :=
  repeat first
    [ erewrite uuid_read by reflexivity | erewrite time_read by reflexivity
    | erewrite int_read by reflexivity | erewrite bool_read by reflexivity
    | erewrite opt_text_read by reflexivity | erewrite opt_time_read by reflexivity
    | erewrite opt_int_read by reflexivity | erewrite opt_int_read_some by reflexivity
    | erewrite dict_read by reflexivity | erewrite texts_read by reflexivity
    | erewrite workload_class_read by reflexivity | erewrite evaluation_mode_read by reflexivity
    | match goal with |- context [@enum_at ?r ?n ?A ?E] => erewrite (enum_read (A := A) r n) by reflexivity end
    | erewrite text_read by reflexivity
    | progress cbn [mbind result_bind mret result_ret default] ].

(** The row a typed row of known columns is. *)
Lemma typed_cons n c cs r :
  typed_columns ((n, c) :: cs) r = true ->
  exists v r', r = (n, v) :: r' /\ fits c v = true /\ typed_columns cs r' = true.
Proof.
  destruct r as [|[m v] r]; [done|]. cbn. rewrite !andb_true_iff, String.eqb_eq.
  intros [[-> Hv] Hr]. by exists v, r.
Qed.
Lemma typed_nil r : typed_columns [] r = true -> r = [].
Proof. by destruct r. Qed.

Section Fits.
Context (d : option string) (g : option expr) (v : SqlValue).
Lemma fits_uuid : fits (mkColumn T_Uuid false d g) v = true -> exists u, v = VUuid u.
Proof. destruct v; try done. by eexists. Qed.
Lemma fits_text : fits (mkColumn T_Text false d g) v = true -> exists u, v = VText u.
Proof. destruct v; try done. by eexists. Qed.
Lemma fits_int : fits (mkColumn T_Integer false d g) v = true -> exists u, v = VInt u.
Proof. destruct v; try done. by eexists. Qed.
Lemma fits_bool : fits (mkColumn T_Boolean false d g) v = true -> exists u, v = VBool u.
Proof. destruct v; try done. by eexists. Qed.
Lemma fits_time : fits (mkColumn T_DateTime false d g) v = true -> exists u, v = VTime u.
Proof. destruct v; try done. by eexists. Qed.
Lemma fits_json : fits (mkColumn T_Jsonb false d g) v = true -> exists u, v = VJson u.
Proof. destruct v; try done. by eexists. Qed.
Lemma fits_opt_text : fits (mkColumn T_Text true d g) v = true -> exists o, v = nullable VText o.
Proof. destruct v; try done; [by exists None|by eexists (Some _)]. Qed.
Lemma fits_opt_int : fits (mkColumn T_Integer true d g) v = true -> exists o, v = nullable VInt o.
Proof. destruct v; try done; [by exists None|by eexists (Some _)]. Qed.
Lemma fits_opt_time : fits (mkColumn T_DateTime true d g) v = true -> exists o, v = nullable VTime o.
Proof. destruct v; try done; [by exists None|by eexists (Some _)]. Qed.
End Fits.

Ltac column_value H :=
  first [ apply fits_uuid in H as [? ->] | apply fits_text in H as [? ->] | apply fits_int in H as [? ->]
        | apply fits_bool in H as [? ->] | apply fits_time in H as [? ->] | apply fits_json in H as [? ->]
        | apply fits_opt_text in H as [? ->] | apply fits_opt_int in H as [? ->]
        | apply fits_opt_time in H as [? ->] ].

(** Takes a typed row apart. *)
Ltac open_row H :=
  unfold typed in H;
  match type of H with typed_columns (declared_columns ?d) _ = _ =>
    let cs := eval vm_compute in (declared_columns d) in
    let E := fresh in assert (declared_columns d = cs) as E by (vm_compute; reflexivity); rewrite E in H; clear E
  end;
  repeat (let v := fresh "v" in let r := fresh "r" in let Hv := fresh "Hv" in
          apply typed_cons in H as (v & r & -> & Hv & H); column_value Hv);
  apply typed_nil in H as ->.

Lemma check_text {A} `{StrEnumOk A} d r n c s :
  checks_hold d r = true ->
  Check_ n (EIn c (value <$> (members : list A))) ∈ d_elements d -> attr r c = Some (VText s) ->
  exists a : A, s = py (value a).
Proof.
  intros Hc Hin Hs. unfold checks_hold in Hc. rewrite forallb_forall in Hc.
  apply list_elem_of_In in Hin. specialize (Hc _ Hin). cbn [holds] in Hc. rewrite Hs in Hc.
  destruct (existsb _ _) eqn:He; [|done]. by eapply admitted_text.
Qed.

Lemma shaped_in r n v : shaped r = true -> (n, v) ∈ r -> shaped_value n v = true.
Proof.
  unfold shaped. rewrite forallb_forall. intros Hs Hin%list_elem_of_In. exact (Hs _ Hin).
Qed.

Lemma texts_of l : forallb is_text l = true -> exists ts, l = JStr <$> ts.
Proof.
  induction l as [|j l IH]; [by exists []|]. cbn. rewrite andb_true_iff. intros [Hj Hl].
  destruct (IH Hl) as [ts ->]. destruct j as [| | | |s| |]; try done. by exists (s :: ts).
Qed.

Lemma all_texts ts : forallb is_text (JStr <$> ts) = true.
Proof. by induction ts. Qed.

Ltac in_elements := apply list_elem_of_In; cbn; tauto.

(** The member an enumerated column holds. *)
Ltac member A Hc :=
  let a := fresh "a" in
  destruct (check_text (A := A) _ _ _ _ _ Hc ltac:(in_elements) eq_refl) as [a ->].

(** The declared columns and the shape of the row of an entity. *)
Ltac row_typed :=
  unfold typed;
  match goal with |- context [declared_columns ?d] =>
    let cs := eval vm_compute in (declared_columns d) in
    let E := fresh in assert (declared_columns d = cs) as E by (vm_compute; reflexivity); rewrite E; clear E
  end;
  cbn -[fits nullable]; autorewrite with columns; reflexivity.
Ltac row_shaped := unfold shaped; cbn -[shaped_value nullable]; autorewrite with columns;
  cbn -[nullable]; rewrite ?all_texts; reflexivity.

Lemma user_corresponds : corresponds UserRow user_row user_to_domain (fun _ => true).
Proof.
  split.
  - intros [? ? [] ?]; repeat split; reflexivity.
  - intros r Ht Hs Hc. open_row Ht. member UserRole Hc.
    eexists. split; [unfold user_to_domain; read_columns; reflexivity|reflexivity].
Qed.

Lemma hackathon_corresponds : corresponds HackathonRow hackathon_row hackathon_to_domain (fun _ => true).
Proof.
  split.
  - intros [? ? ? [] ? ? ?]; repeat split; reflexivity.
  - intros r Ht Hs Hc. open_row Ht. member HackathonStatus Hc.
    eexists. split; [unfold hackathon_to_domain; read_columns; reflexivity|reflexivity].
Qed.

Lemma submission_corresponds :
  corresponds SubmissionRow submission_row submission_to_domain submission_check.
Proof.
  split.
  - intros s. split_and!; [row_typed|row_shaped| |].
    + destruct s as [? ? ? [] ? ? [] [] ? ? ?]; reflexivity.
    + unfold submission_to_domain. read_columns. by destruct s.
  - intros r Ht Hs Hc. open_row Ht. member SubmissionStatus Hc.
    match goal with j : json |- _ =>
      assert (shaped_value "metadata" (VJson j) = true) as Hj
        by (eapply shaped_in; [exact Hs|in_elements]); destruct j; try done end.
    eexists. split; [unfold submission_to_domain; read_columns; reflexivity|reflexivity].
Qed.

Lemma evaluation_corresponds :
  corresponds EvaluationRow evaluation_row evaluation_to_domain evaluation_check.
Proof.
  split.
  - intros e. split_and!; [row_typed|row_shaped| |].
    + unfold evaluation_check, checks_hold. cbn -[Z.leb existsb value py nullable].
      rewrite (value_admitted ["queued"; "running"; "succeeded"; "failed"] (e_status e)) by reflexivity.
      rewrite (value_admitted ["light"; "medium"; "heavy"] (e_workload_class e)) by reflexivity.
      rewrite (value_admitted ["legacy"; "always_expensive"; "fixed_progressive";
                 "resource_aware_adaptive"; "synthetic_execution"] (e_evaluation_mode e)) by reflexivity.
      destruct (e_score e) as [z|], (0 <=? e_attempt_count e)%Z, (0 <=? e_current_stage e)%Z;
        cbn -[Z.leb]; try destruct (0 <=? z)%Z, (z <=? 100)%Z; reflexivity.
    + unfold evaluation_to_domain. read_columns. by destruct e.
  - intros r Ht Hs Hc. open_row Ht.
    member EvaluationStatus Hc. member WorkloadClass Hc. member EvaluationMode Hc.
    match goal with j : json |- _ =>
      assert (shaped_value "result_metadata" (VJson j) = true) as Hj
        by (eapply shaped_in; [exact Hs|in_elements]); destruct j; try done end.
    eexists. split; [unfold evaluation_to_domain; read_columns; reflexivity|reflexivity].
Qed.

Lemma ingestion_corresponds :
  corresponds IngestionJobRow ingestion_row ingestion_to_domain job_check.
Proof.
  split.
  - intros j. split_and!; [row_typed|row_shaped| |].
    + unfold job_check, checks_hold. cbn -[Z.leb existsb value py nullable].
      rewrite (value_admitted ["queued"; "running"; "succeeded"; "failed"] (j_status j)) by reflexivity.
      by destruct (0 <=? j_attempt_count j)%Z.
    + unfold ingestion_to_domain. read_columns. by destruct j.
  - intros r Ht Hs Hc. open_row Ht. member IngestionStatus Hc.
    eexists. split; [unfold ingestion_to_domain; read_columns; reflexivity|reflexivity].
Qed.

Lemma chunk_corresponds `{PyRepr} :
  corresponds DocumentChunkRow document_chunk_row chunk_to_domain chunk_check.
Proof.
  split.
  - intros c. split_and!; [row_typed|row_shaped| |].
    + unfold chunk_check, checks_hold. cbn -[Z.leb nullable].
      by destruct (0 <=? dc_ordinal c)%Z, (0 <=? dc_char_start c)%Z, (dc_char_start c <=? dc_char_end c)%Z,
        (1 <=? dc_line_start c)%Z, (dc_line_start c <=? dc_line_end c)%Z.
    + unfold chunk_to_domain. read_columns. by destruct c.
  - intros r Ht Hs Hc. open_row Ht.
    match goal with j : json |- _ =>
      assert (shaped_value "heading_path" (VJson j) = true) as Hj
        by (eapply shaped_in; [exact Hs|in_elements]); destruct j as [| | | | |l|]; try done end.
    destruct (texts_of l Hj) as [ts ->].
    eexists. split; [unfold chunk_to_domain; read_columns; reflexivity|reflexivity].
Qed.

(** * Challenges and the rows of their relationships *)

#[local] Existing Instance ChallengeRepository.criterion_by_name_dec.

Definition challenge_typed (rows : ChallengeRows) : bool :=
  typed ChallengeRow (cr_row rows) && checks_hold ChallengeRow (cr_row rows)
  && match cr_specification rows with Some r => typed ChallengeSpecificationRow r | None => true end
  && forallb (typed EvaluationCriterionRow) (cr_criteria rows).

Definition sorted_criteria (c : Challenge) : Challenge :=
  c <| c_evaluation_criteria := merge_sort ChallengeRepository.criterion_by_name (c_evaluation_criteria c) |>.

Lemma criterion_reads r :
  typed EvaluationCriterionRow r = true ->
  exists c i, r = criterion_row i c /\ criterion_to_domain r = Ok c
              /\ checks_hold EvaluationCriterionRow r = criterion_check c.
Proof.
  intros Ht. open_row Ht. eexists (mkCriterion _ _ _ _), _. split; [reflexivity|]. split.
  - unfold criterion_to_domain. read_columns. reflexivity.
  - unfold criterion_check, checks_hold. cbn -[Z.leb]. by destruct (1 <=? _)%Z.
Qed.

Lemma criteria_read l :
  forallb (typed EvaluationCriterionRow) l = true -> exists cs, map_result criterion_to_domain l = Ok cs.
Proof.
  induction l as [|r l IH]; [by exists []|]. cbn [forallb]. rewrite andb_true_iff. intros [Hr Hl].
  destruct (criterion_reads r Hr) as (c & i & _ & Hc & _), (IH Hl) as [cs Hcs].
  exists (c :: cs). cbn [map_result]. rewrite Hc. cbn. by rewrite Hcs.
Qed.

Lemma criterion_row_typed i c : typed EvaluationCriterionRow (criterion_row i c) = true.
Proof. reflexivity. Qed.

Lemma criteria_rows_read i cs : map_result criterion_to_domain (criterion_row i <$> cs) = Ok cs.
Proof. induction cs as [|[] cs IH]; [done|]. cbn [fmap list_fmap map_result] in *. rewrite IH. reflexivity. Qed.

Lemma challenge_rows_read c :
  challenge_typed (challenge_rows c) = true
  /\ forallb (checks_hold EvaluationCriterionRow) (cr_criteria (challenge_rows c))
     = forallb criterion_check (c_evaluation_criteria c)
  /\ challenge_to_domain (challenge_rows c) = Ok (sorted_criteria c).
Proof.
  split_and!.
  - unfold challenge_typed. rewrite !andb_true_iff. split_and!; [reflexivity|by destruct c as [? ? ? ? ? []]|reflexivity|].
    cbn [challenge_rows cr_criteria]. by induction (c_evaluation_criteria c).
  - cbn [challenge_rows cr_criteria]. induction (c_evaluation_criteria c) as [|x l IH]; [done|].
    cbn [fmap list_fmap forallb]. rewrite IH. f_equal. unfold criterion_check, checks_hold. cbn -[Z.leb].
    by destruct (1 <=? crit_weight x)%Z.
  - unfold challenge_to_domain. cbn [challenge_rows cr_row cr_specification cr_criteria]. read_columns.
    unfold specification_to_domain, specification_row. read_columns. rewrite criteria_rows_read.
    by destruct c as [? ? ? ? ? ? [] ? ? ?].
Qed.

Lemma challenge_reads rows :
  challenge_typed rows = true -> exists c, challenge_to_domain rows = Ok c.
Proof.
  destruct rows as [row spec criteria]. unfold challenge_typed. rewrite !andb_true_iff.
  cbn [cr_row cr_specification cr_criteria]. intros [[[Hr Hc] Hs] Hcr%criteria_read].
  destruct Hcr as [cs Hcs]. open_row Hr. member ChallengeStatus Hc.
  unfold challenge_to_domain. cbn [cr_row cr_specification cr_criteria]. read_columns. rewrite Hcs.
  destruct spec as [s|]; [|by eexists]. open_row Hs. unfold specification_to_domain. read_columns. by eexists.
Qed.

(** C40 Rows and entities correspond: for users, hackathons, submissions,
    evaluations, ingestion jobs and chunks, the row of an entity has exactly the
    declared columns with values of their types, violates no declared CHECK
    constraint exactly when the entity meets the check of the model, and reads
    back as the entity; and every row the declared table admits, its JSON columns
    of the program's shape, is the row of the entity it reads as, without an
    error.  A challenge reads back from its own row and those of its
    relationships with the criteria sorted by name. *)
Theorem rows_are_entities `{PyRepr} :
  corresponds UserRow user_row user_to_domain (fun _ => true)
  /\ corresponds HackathonRow hackathon_row hackathon_to_domain (fun _ => true)
  /\ corresponds SubmissionRow submission_row submission_to_domain submission_check
  /\ corresponds EvaluationRow evaluation_row evaluation_to_domain evaluation_check
  /\ corresponds IngestionJobRow ingestion_row ingestion_to_domain job_check
  /\ corresponds DocumentChunkRow document_chunk_row chunk_to_domain chunk_check
  /\ (forall c, challenge_typed (challenge_rows c) = true
        /\ forallb (checks_hold EvaluationCriterionRow) (cr_criteria (challenge_rows c))
           = forallb criterion_check (c_evaluation_criteria c)
        /\ challenge_to_domain (challenge_rows c) = Ok (sorted_criteria c))
  /\ (forall rows, challenge_typed rows = true -> exists c, challenge_to_domain rows = Ok c).
Proof.
  split_and!; auto using user_corresponds, hackathon_corresponds, submission_corresponds,
    evaluation_corresponds, ingestion_corresponds, chunk_corresponds, challenge_reads, challenge_rows_read.
Qed.
