(* ===== verification/RuntimeStatus.v ===== *)
(** What the runtime reports (src/challengeforge/runtime/runtime.py) and the
    declaration of future expensive work (src/challengeforge/runtime/
    expensive_work.py). *)
From Stdlib Require Import ZArith Lia String.
From stdpp Require Import prelude strings.
From S2P Require Import Prelude PyFloat PyStr Domain Json Config Runtime RuntimeSpec ExecutionContract.

(** [runtime/runtime.py:147-157 ResourceAwareRuntime.status_dict], the budget. *)
Definition budget_dict (b : ResourceBudget) : dict :=
  [(py "min_evaluation_concurrency", JInt (min_evaluation_concurrency b));
   (py "max_evaluation_concurrency", JInt (max_evaluation_concurrency b));
   (py "max_concurrent_heavy", JInt (max_concurrent_heavy b));
   (py "cpu_low_percent", JFloat (cpu_low_percent b));
   (py "cpu_high_percent", JFloat (cpu_high_percent b));
   (py "memory_soft_mb", JFloat (memory_soft_mb b));
   (py "memory_hard_mb", JFloat (memory_hard_mb b));
   (py "interactive_p95_warn_ms", JFloat (interactive_p95_warn_ms b));
   (py "interactive_p95_critical_ms", JFloat (interactive_p95_critical_ms b))].

(** [runtime/runtime.py:160-166 ResourceAwareRuntime.status_dict], the snapshot. *)
Definition snapshot_dict (s : ResourceSnapshot) : dict :=
  [(py "cpu_percent", json_opt JFloat (rs_cpu_percent s));
   (py "rss_mb", json_opt JFloat (rs_rss_mb s));
   (py "queued_evaluations", JInt (rs_queued_evaluations s));
   (py "running_evaluations", JInt (rs_running_evaluations s));
   (py "interactive_p95_ms", json_opt JFloat (rs_interactive_p95_ms s))].

(** [runtime/runtime.py:138-167 ResourceAwareRuntime.status_dict] *)
Definition status_dict (r : Runtime) : dict :=
  [(py "enabled", JBool (rt_enabled r));
   (py "pressure", JStr (py (value (rt_last_pressure r))));
   (py "interactive_level", JStr (py (value (rt_last_level r))));
   (py "effective_max_workers", json_opt JInt (effective_max_workers (rt_controller r)));
   (py "budget", JObj (budget_dict (rt_budget r)));
   (py "snapshot", match rt_last_snapshot r with
                   | Some s => JObj (snapshot_dict s)
                   | None => JNull
                   end)].

(** * Expensive work to come *)

(** [runtime/expensive_work.py:13-16 WorkCostClass] *)
Inductive WorkCostClass := WC_LIGHT | WC_MEDIUM | WC_HEAVY.
#[export] Instance WorkCostClass_eq_dec : EqDecision WorkCostClass.
Proof. solve_decision. Defined.
#[export] Instance WorkCostClass_enum : StrEnum WorkCostClass := {|
  value c := match c with WC_LIGHT => "light" | WC_MEDIUM => "medium" | WC_HEAVY => "heavy" end;
  members := [WC_LIGHT; WC_MEDIUM; WC_HEAVY];
|}.
#[export] Instance WorkCostClass_ok : StrEnumOk WorkCostClass.
Proof. split; [by intros []; set_solver | by intros [] []]. Qed.

(** [runtime/expensive_work.py:20-30 ExpensiveWorkSpec] *)
Record ExpensiveWorkSpec := mkWorkSpec {
  ws_name : pystr;
  ws_cost_class : WorkCostClass;
  ws_estimated_cpu_weight : float;
  ws_estimated_memory_mb : float;
  ws_max_concurrency : Z;
  ws_retry_max : Z;
  ws_deadline_seconds : option float;
  ws_priority : Z;
}.

(** [runtime/expensive_work.py:20-30 ExpensiveWorkSpec], the defaults. *)
Definition declare_work (name : pystr) (c : WorkCostClass) : ExpensiveWorkSpec :=
  mkWorkSpec name c (of_Z 1) (of_Z 1) 1 3 None 100.

(** * Properties *)

(** What a tick leaves behind is what it answered. *)
Lemma tick_records env queued running r t r' :
  rt_enabled r = true -> tick env queued running r = (Ok t, r') ->
  rt_last_pressure r' = tk_pressure t /\ rt_last_level r' = tk_level t
  /\ rt_last_snapshot r' = tk_snapshot t.
Proof.
  destruct r as [b en primed c f snap lp ll p95 count]. cbn [rt_enabled]. intros -> Ht.
  unfold tick, modify_st, get_st, on_feedback, on_observer, on_controller, zoom, mbind, M_bind, mret, M_ret in Ht.
  cbn -[update sample classify merged adjust decide_admission fb_enabled] in Ht.
  destruct (update _ _ _ f) as [[lvl|e] f1]; [|done].
  cbn -[update sample classify merged adjust decide_admission fb_enabled] in Ht.
  destruct (sample _ _ _ _ _ primed) as [[s|e] primed1]; [|done].
  cbn -[update sample classify merged adjust decide_admission fb_enabled] in Ht.
  rewrite ?merged_run in Ht.
  destruct (fb_enabled f); rewrite ?merged_run in Ht;
    cbn -[update sample classify merged adjust decide_admission fb_enabled] in Ht;
    (destruct (adjust _ _ _ c) as [[n|e] c1]; [|done]);
    cbn -[update sample classify merged adjust decide_admission fb_enabled] in Ht;
    by injection Ht as <- <-.
Qed.

(** The status is that of the last tick: after any polls of a worker, the dictionary
    it logs shows the pressure, the level, the concurrency and the snapshot the last
    tick decided, and the budget that bounds them. *)
Theorem status_reports_tick (cfg : Settings) (l : list Poll) (q : Poll) :
  let b := from_settings cfg in
  exists t r', poll q (polls (new_runtime b true) l) = (Ok t, r')
  /\ dget (status_dict r') (py "enabled") = Some (JBool true)
  /\ dget (status_dict r') (py "pressure") = Some (JStr (py (value (tk_pressure t))))
  /\ dget (status_dict r') (py "interactive_level") = Some (JStr (py (value (tk_level t))))
  /\ dget (status_dict r') (py "effective_max_workers") = Some (JInt (tk_effective_max_workers t))
  /\ dget (status_dict r') (py "budget") = Some (JObj (budget_dict b))
  /\ exists s, tk_snapshot t = Some s
     /\ dget (status_dict r') (py "snapshot") = Some (JObj (snapshot_dict s)).
Proof.
  intros b. pose proof (from_settings_ok cfg) as Hb. pose proof (polls_ok b _ l Hb (new_runtime_ok b Hb)) as Hok.
  destruct (tick_run b _ q Hb Hok) as (t & r' & Hp & (Hb' & He' & _) & (s & Hs & _) & Heff).
  exists t, r'. split; [done|]. pose proof Hp as Ht. unfold poll in Ht. rewrite run_bind in Ht.
  apply tick_records in Ht as (H1 & H2 & H3); [|by apply Hok].
  unfold status_dict. rewrite H1, H2, H3, Heff, Hb', He', Hs. split_and!; try reflexivity. by exists s.
Qed.
