(* ===== verification/RequestProfile.v ===== *)
(** Request profiling (src/challengeforge/request_profile.py): the stage timings of
    one request, the samples of its statements by category, and their summary.
    The readings of [perf_counter] are arguments. *)
From Stdlib Require Import ZArith Lia String.
From stdpp Require Import prelude strings.
From S2P Require Import Prelude PyFloat PyStr Domain Json.
Local Open Scope string_scope.
Local Open Scope list_scope.

(** [request_profile.py:23-26 SqlSample] *)
Record SqlSample := mkSample {
  sm_category : string;
  sm_duration_ms : float;
  sm_rowcount : option Z;
}.

(** [request_profile.py:30-39 RequestProfile] *)
Record RequestProfile := mkProfileState {
  rp_started_at : float;
  rp_pool_wait_ms : float;
  rp_identity_ms : float;
  rp_app_ms : float;
  rp_serialize_ms : float;
  rp_queue_position_ms : float;
  rp_sql_samples : list SqlSample;
  rp_sql_started : option float;
  rp_sql_category : string;
}.
#[export] Instance RequestProfile_eta : Eta RequestProfile := fun p =>
  mkProfileState (rp_started_at p) (rp_pool_wait_ms p) (rp_identity_ms p) (rp_app_ms p)
    (rp_serialize_ms p) (rp_queue_position_ms p) (rp_sql_samples p) (rp_sql_started p)
    (rp_sql_category p).

(** [request_profile.py:110-113 start_profile] *)
Definition start_profile (now : float) : RequestProfile :=
  mkProfileState now fzero fzero fzero fzero fzero [] None "sql".

(** [request_profile.py:43-57 RequestProfile.mark_sql_start], the category. *)
Definition sql_category (statement : pystr) : string :=
  let text := lower (join (py " ") (words statement)) in
  if contains text (py "from users") then "identity"
  else if contains text (py "from evaluations") && contains text (py "count(") then "queue_position"
  else if contains text (py "from evaluations") then "evaluation"
  else if contains text (py "from submissions") then "submission"
  else if contains text (py "from challenges") then "challenge"
  else if contains text (py "from hackathons") then "hackathon"
  else "sql".

(** [request_profile.py:41-57 RequestProfile.mark_sql_start] *)
Definition mark_sql_start (now : float) (statement : pystr) (p : RequestProfile) : RequestProfile :=
  p <| rp_sql_started := Some now |> <| rp_sql_category := sql_category statement |>.

(** [(b - a) * 1000.0] *)
Definition elapsed_ms (a b : float) : float := fmul (fsub b a) (of_Z 1000).

(** [request_profile.py:59-70 RequestProfile.mark_sql_end] *)
Definition mark_sql_end (now : float) (rowcount : option Z) (p : RequestProfile) : RequestProfile :=
  match rp_sql_started p with
  | None => p
  | Some started =>
      p <| rp_sql_samples := rp_sql_samples p
             ++ [mkSample (rp_sql_category p) (fround 3 (elapsed_ms started now)) rowcount] |>
        <| rp_sql_started := None |>
  end.

(** [request_profile.py:120-138 timed_stage], on leaving the block. *)
Definition timed_stage (stage : string) (started now : float) (p : RequestProfile) : RequestProfile :=
  let elapsed := elapsed_ms started now in
  if String.eqb stage "identity" then p <| rp_identity_ms := fadd (rp_identity_ms p) elapsed |>
  else if String.eqb stage "serialize" then p <| rp_serialize_ms := fadd (rp_serialize_ms p) elapsed |>
  else if String.eqb stage "queue_position"
  then p <| rp_queue_position_ms := fadd (rp_queue_position_ms p) elapsed |>
  else p <| rp_app_ms := fadd (rp_app_ms p) elapsed |>.

(** [api/deps.py:29-37 get_db_session], the wait for a connection. *)
Definition pool_checkout (started now : float) (p : RequestProfile) : RequestProfile :=
  p <| rp_pool_wait_ms := fadd (rp_pool_wait_ms p) (elapsed_ms started now) |>.

(** The entry of a category: its count and its total. *)
Definition Totals : Type := list (string * (Z * float)).

(** [by_category.setdefault(category, {"count": 0, "total_ms": 0.0})] and the two
    updates of the entry. *)
Fixpoint count_sample (s : SqlSample) (t : Totals) : Totals :=
  match t with
  | [] => [(sm_category s, (1, fround 3 (fadd fzero (sm_duration_ms s))))]
  | (c, (n, total)) :: t' =>
      if String.eqb c (sm_category s) then (c, (n + 1, fround 3 (fadd total (sm_duration_ms s)))) :: t'
      else (c, (n, total)) :: count_sample s t'
  end.

(** [request_profile.py:74-80 RequestProfile.summary], the loop. *)
Definition by_category (samples : list SqlSample) : Totals :=
  foldl (fun t s => count_sample s t) [] samples.

Definition accounting_note : pystr :=
  py "pool_wait_ms and sql_ms are exclusive; identity/queue_position/serialize/app are inclusive stage walls that may include SQL".

(** [request_profile.py:72-100 RequestProfile.summary]; [sum] of floats starts at the
    integer zero and adds from left to right, as Python 3.11 does (the project
    requires 3.11 or later; 3.12 compensates the rounding). *)
Definition summary (now : float) (p : RequestProfile) : dict :=
  let sql_ms := foldl fadd fzero (sm_duration_ms <$> rp_sql_samples p) in
  let total_ms := elapsed_ms (rp_started_at p) now in
  let exclusive := fadd (rp_pool_wait_ms p) sql_ms in
  let ms v := JFloat (fround 3 v) in
  [(py "total_ms", ms total_ms);
   (py "pool_wait_ms", ms (rp_pool_wait_ms p));
   (py "sql_ms", if nonempty (rp_sql_samples p) then ms sql_ms else JInt 0);
   (py "query_count", JInt (zlen (rp_sql_samples p)));
   (py "sql_by_category",
      JObj ((fun e => (py e.1, JObj [(py "count", JInt e.2.1); (py "total_ms", JFloat e.2.2)]))
              <$> by_category (rp_sql_samples p)));
   (py "identity_ms", ms (rp_identity_ms p));
   (py "queue_position_ms", ms (rp_queue_position_ms p));
   (py "app_ms", ms (rp_app_ms p));
   (py "serialize_ms", ms (rp_serialize_ms p));
   (py "non_db_ms", ms (fmax fzero (fsub total_ms exclusive)));
   (py "accounting_note", JStr accounting_note)].

(** * Statements of a request *)

(** What the cursor events report. *)
Inductive CursorEvent :=
| BeforeExecute (now : float) (statement : pystr)
| AfterExecute (now : float) (rowcount : option Z).

(** [request_profile.py:141-179 install_sqlalchemy_events], the two listeners. *)
Definition on_cursor (p : RequestProfile) (e : CursorEvent) : RequestProfile :=
  match e with
  | BeforeExecute now statement => mark_sql_start now statement p
  | AfterExecute now rowcount => mark_sql_end now rowcount p
  end.

(** The statements that were started and ended, each with its category. *)
Fixpoint finished_statements (open_ : option string) (l : list CursorEvent) : list string :=
  match l with
  | [] => []
  | BeforeExecute _ statement :: l' => finished_statements (Some (sql_category statement)) l'
  | AfterExecute _ _ :: l' =>
      match open_ with
      | Some c => c :: finished_statements None l'
      | None => finished_statements None l'
      end
  end.

Definition count_of (c : string) (t : Totals) : Z :=
  match List.find (fun e => String.eqb e.1 c) t with Some e => e.2.1 | None => 0 end.

Lemma count_sample_of s t c :
  count_of c (count_sample s t) = count_of c t + (if String.eqb (sm_category s) c then 1 else 0).
Proof.
  induction t as [|[c0 [n total]] t IH]; unfold count_of in *; cbn.
  - by destruct (String.eqb (sm_category s) c).
  - destruct (String.eqb c0 (sm_category s)) eqn:E; cbn.
    + apply String.eqb_eq in E as ->. destruct (String.eqb (sm_category s) c); [done|lia].
    + destruct (String.eqb c0 c) eqn:Ec; [|exact IH]. apply String.eqb_eq in Ec as ->.
      rewrite String.eqb_sym, E. cbn. lia.
Qed.

Lemma count_sample_names s t :
  (count_sample s t).*1 = t.*1 ++ (if decide (sm_category s ∈ t.*1) then [] else [sm_category s]).
Proof.
  induction t as [|[c0 [n total]] t IH]; [done|]. cbn [count_sample].
  destruct (String.eqb c0 (sm_category s)) eqn:E.
  - apply String.eqb_eq in E as ->. cbn. rewrite decide_True by left. by rewrite app_nil_r.
  - apply String.eqb_neq in E. cbn [fmap list_fmap fst app]. rewrite IH. f_equal. f_equal.
    destruct (decide (sm_category s ∈ t.*1)) as [Hin|Hout].
    + by rewrite decide_True by (by right).
    + rewrite decide_False; [done|]. intros [?|?]%elem_of_cons; congruence.
Qed.

Lemma by_category_count samples t c :
  count_of c (foldl (fun t s => count_sample s t) t samples)
  = count_of c t + zlen (List.filter (fun s => String.eqb (sm_category s) c) samples).
Proof.
  revert t. induction samples as [|s l IH]; intros t; cbn; [unfold zlen; cbn; lia|].
  rewrite IH, count_sample_of. destruct (String.eqb (sm_category s) c); rewrite ?zlen_cons; lia.
Qed.

Lemma by_category_NoDup samples t :
  NoDup t.*1 -> NoDup (foldl (fun t s => count_sample s t) t samples).*1.
Proof.
  revert t. induction samples as [|s l IH]; intros t Ht; [done|]. apply IH. rewrite count_sample_names.
  case_decide; [by rewrite app_nil_r|]. apply NoDup_app. split; [done|]. split; [set_solver|apply NoDup_singleton].
Qed.

Lemma on_cursor_samples l p :
  sm_category <$> rp_sql_samples (foldl on_cursor p l)
  = (sm_category <$> rp_sql_samples p)
    ++ finished_statements (match rp_sql_started p with Some _ => Some (rp_sql_category p) | None => None end) l.
Proof.
  revert p. induction l as [|e l IH]; intros p; cbn [foldl finished_statements]; [by rewrite app_nil_r|].
  rewrite IH. destruct e as [now st|now n]; cbn [on_cursor]; [done|]. unfold mark_sql_end.
  destruct (rp_sql_started p) as [t|] eqn:Ht; [|by rewrite Ht]. cbn. rewrite fmap_app. cbn.
  by rewrite <-app_assoc.
Qed.

(** The profile accounts for every statement once: after any cursor events of a
    request, each statement that was started and ended has one sample under its
    category, in order; the summary counts all of them, and each category, listed
    once, those of its own. *)
Theorem profile_accounts (start now : float) (l : list CursorEvent) :
  let p := foldl on_cursor (start_profile start) l in
  let t := by_category (rp_sql_samples p) in
  sm_category <$> rp_sql_samples p = finished_statements None l
  /\ dget (summary now p) (py "query_count") = Some (JInt (zlen (finished_statements None l)))
  /\ NoDup t.*1
  /\ forall c, count_of c t = zlen (List.filter (fun c' => String.eqb c' c) (finished_statements None l)).
Proof.
  intros p t. assert (sm_category <$> rp_sql_samples p = finished_statements None l) as Hs
    by (unfold p; by rewrite on_cursor_samples).
  split_and!.
  - done.
  - rewrite <-Hs. cbn. unfold zlen. by rewrite length_fmap.
  - apply by_category_NoDup, NoDup_nil_2.
  - intros c. unfold t, by_category. rewrite by_category_count, <-Hs. cbn. clearbody p. clear.
    induction (rp_sql_samples p) as [|s k IH]; [done|]. cbn.
    destruct (String.eqb (sm_category s) c); rewrite ?zlen_cons; [|exact IH]. lia.
Qed.

Example statements_of_a_view :
  let p := foldl on_cursor (start_profile fzero)
    [BeforeExecute (of_Z 1) (py "SELECT * FROM  users"); AfterExecute (of_Z 2) (Some 1);
     BeforeExecute (of_Z 3) (py "select COUNT(*) from evaluations"); AfterExecute (of_Z 3) None;
     AfterExecute (of_Z 4) None] in
  (fun e => (e.1, e.2.1)) <$> by_category (rp_sql_samples p) = [("identity", 1); ("queue_position", 1)].
Proof. vm_compute. reflexivity. Qed.
