(* ===== verification/Middleware.v ===== *)
(** The request middleware (src/challengeforge/api/middleware.py): every HTTP
    request gets an identifier, may be profiled, and its wall time may be recorded
    for the workers; and the start and end of the server (src/challengeforge/
    main.py) with the pages it serves (src/challengeforge/web/routes.py).

    The application below the middleware is what it does in turn: messages it
    sends, work on its profile, and what other requests of the process do
    meanwhile; at the end it returns or raises.  Logging is left out. *)
From Stdlib Require Import ZArith Lia String.
From stdpp Require Import prelude strings gmap.
From S2P Require Import Prelude PyFloat PyStr Domain Json Database Config Sessions Catalog Runtime InteractiveMetrics RequestProfile Http.
Local Open Scope list_scope.

(** * Messages *)

Definition header : Type := pystr * pystr.

(** An ASGI message of a response; [MessageOther] is any other type. *)
Inductive Message :=
| ResponseStart (status : Z) (headers : list header)
| ResponseBody (body : list Z) (more : bool)
| MessageOther (type : pystr).

(** What the middleware reads of a connection, with the identifier it would make.
    Headers are Latin-1 texts, in the order received. *)
Record Scope_ := mkScope {
  sc_type : pystr;
  sc_method : pystr;
  sc_path : pystr;
  sc_headers : list header;
  sc_fresh_id : pystr;
}.

(** One thing the application does. *)
Inductive AppEvent :=
| AppSend (m : Message) (now : float)
| AppProfile (f : RequestProfile -> RequestProfile)
| AppOthers (f : Process -> Process).

(** The process as one request sees it: the shared state, its own profile, and the
    messages passed on. *)
Record Serving := mkServing {
  sv_process : Process;
  sv_profile : option RequestProfile;
  sv_sent : list Message;
}.
#[export] Instance Serving_eta : Eta Serving := fun s =>
  mkServing (sv_process s) (sv_profile s) (sv_sent s).

(** The clocks of a request: its start by [perf_counter], its end, the clocks of the
    two windows, and its publication in the synchronous mode. *)
Record Timing := mkTiming {
  ti_profile_started : float;
  ti_started : float;
  ti_ended : float;
  ti_window : float;
  ti_window_pool : float;
  ti_publish : PublishEnv;
}.

Section Middleware.
Context `{FloatRepr}.
Variable cfg : Settings.

(** [{key.lower(): value for ...}.get(name)]: the last header of the name. *)
Definition header_value (name : pystr) (headers : list header) : option pystr :=
  snd <$> last (List.filter (fun kv => bool_decide (lower kv.1 = name)) headers).

(** [api/middleware.py:31-37 RequestContextMiddleware.__call__] *)
Definition request_id (sc : Scope_) : pystr :=
  default (sc_fresh_id sc) (text_or (header_value (py "x-request-id") (sc_headers sc)) None).

(** [request_profile.py:102-103 RequestProfile.header_value] *)
Definition profile_header (now : float) (p : RequestProfile) : pystr :=
  dumps true false (JObj (summary now p)).

(** [api/middleware.py:73-87 RequestContextMiddleware.__call__.send_wrapper] *)
Definition send_wrapper (sc : Scope_) (profiling : bool) (now : float) (profile : option RequestProfile)
    (m : Message) : Message :=
  match m with
  | ResponseStart status headers =>
      let headers := headers ++ [(py "x-request-id", request_id sc)] in
      ResponseStart status
        (match profile with
         | Some p => if profiling then headers ++ [(py "x-cf-profile", profile_header now p)] else headers
         | None => headers
         end)
  | m => m
  end.

(** The application under the middleware: what it sends goes through [wrap]. *)
Fixpoint run_app (wrap : float -> option RequestProfile -> Message -> Message) (events : list AppEvent)
    (s : Serving) : Serving :=
  match events with
  | [] => s
  | AppSend m now :: events =>
      run_app wrap events (s <| sv_sent := sv_sent s ++ [wrap now (sv_profile s) m] |>)
  | AppProfile f :: events => run_app wrap events (s <| sv_profile := f <$> sv_profile s |>)
  | AppOthers f :: events => run_app wrap events (s <| sv_process := f (sv_process s) |>)
  end.

Definition on_publisher (f : InteractiveMetricsPublisher -> InteractiveMetricsPublisher) (p : Process)
    : Process := mkProcess (ps_db p) (f (ps_publisher p)).

(** [api/middleware.py:25-100 RequestContextMiddleware.__call__]: the process
    afterwards; what the application raised is raised again. *)
Definition call (sc : Scope_) (t : Timing) (events : list AppEvent) (raised : option exn) (s : Serving)
    : result exn unit * Serving :=
  let answer := match raised with Some e => Raise e | None => Ok tt end in
  if negb (bool_decide (sc_type sc = py "http")) then
    (answer, run_app (fun _ _ m => m) events s)
  else
    let profiling := request_profiling_enabled cfg in
    let tracked := track_interactive cfg profiling (sc_method sc) (sc_path sc) in
    let s := if tracked then s <| sv_process := on_publisher begin_request (sv_process s) |> else s in
    let s := if profiling then s <| sv_profile := Some (start_profile (ti_profile_started t)) |> else s in
    let s := run_app (send_wrapper sc profiling) events s in
    let s :=
      if tracked then
        s <| sv_process := record_interactive (elapsed_ms (ti_started t) (ti_ended t))
               (rp_pool_wait_ms <$> sv_profile s) (ti_window t) (ti_window_pool t) (ti_publish t)
               (sv_process s) |>
      else s in
    (answer, if profiling then s <| sv_profile := None |> else s).

(** * The debug route *)

(** [api/interactive_metrics.py:65-84 InteractiveMetricsPublisher.snapshot], all its
    entries, after the trimming. *)
Definition snapshot (p : InteractiveMetricsPublisher) : dict :=
  let ms (o : option float) := match o with Some v => JFloat v | None => JNull end in
  let wall := window_values (pb_window p) in
  let pool := window_values (pb_pool_wait_window p) in
  [(py "sample_count", JInt (ws_sample_count wall));
   (py "p50_ms", ms (ws_p50_ms wall)); (py "p95_ms", ms (ws_p95_ms wall)); (py "p99_ms", ms (ws_p99_ms wall));
   (py "pool_wait_p50_ms", ms (ws_p50_ms pool)); (py "pool_wait_p95_ms", ms (ws_p95_ms pool));
   (py "pool_wait_p99_ms", ms (ws_p99_ms pool));
   (py "pool_wait_sample_count", JInt (ws_sample_count pool));
   (py "in_flight", JInt (pb_in_flight p)); (py "peak_in_flight", JInt (pb_peak_in_flight p));
   (py "generation", JInt (pb_generation p)); (py "dirty", JBool (pb_dirty p));
   (py "publish_writes", JInt (pb_publish_writes p)); (py "publish_failures", JInt (pb_publish_failures p));
   (py "publish_mode", JStr (py (match pb_publish_mode p with PublishAsync => "async" | PublishSync => "sync" end)))].

(** [api/routes/health.py:20-28 interactive_metrics]: the answer, and the windows
    trimmed by reading them. *)
Definition interactive_metrics (now now_pool : float) (publisher : option InteractiveMetricsPublisher)
    : dict * option InteractiveMetricsPublisher :=
  match publisher with
  | None => ([(py "available", JBool false)], None)
  | Some p =>
      let p := trim_windows now now_pool p in
      (snapshot p ++ [(py "available", JBool true)], Some p)
  end.

(** * Start and end of the server *)

(** The program outside a request: the engine's module, the database, and the
    application's state: its publisher, once made, and whether the publisher's
    task is running. *)
Record Server := mkServer {
  se_module : ModuleState;
  se_db : Db;
  se_interactive_metrics : option InteractiveMetricsPublisher;
  se_task : bool;
}.
#[export] Instance Server_eta : Eta Server := fun s =>
  mkServer (se_module s) (se_db s) (se_interactive_metrics s) (se_task s).

(** What happens while the server serves: requests and publications on the process,
    and requests that ask for a session. *)
Inductive ServeEvent := ServeProcess (f : Process -> Process) | ServeFactory.

(** What one life of the server depends on. *)
Record LifeEnv := mkLifeEnv {
  le_clock : uuid -> datetime;
  le_commits : list (option exn);
  le_events : list ServeEvent;
  le_exit : result exn unit;
  le_flush : PublishEnv;
}.

(** [api/interactive_metrics.py:182-205 get_or_create_publisher] *)
Definition get_or_create_publisher (existing : option InteractiveMetricsPublisher)
    : InteractiveMetricsPublisher := default (new_publisher cfg) existing.

(** [api/interactive_metrics.py:160-166 InteractiveMetricsPublisher.start_background]:
    whether the task runs afterwards. *)
Definition start_background (task : bool) (p : InteractiveMetricsPublisher) : bool :=
  match pb_publish_mode p with PublishAsync => true | PublishSync => task end.

Definition serve_event (e : ServeEvent) (s : ModuleState * Process) : ModuleState * Process :=
  match e with
  | ServeProcess f => (s.1, f s.2)
  | ServeFactory => (snd (get_session_factory cfg s.1), s.2)
  end.

(** [main.py:34-42 lifespan]: whatever ends the serving, the publisher is stopped and
    the engine disposed of. *)
Definition serve (env : LifeEnv) (s : Server) : result exn unit * Server :=
  let publisher := get_or_create_publisher (se_interactive_metrics s) in
  let s := s <| se_task := start_background (se_task s) publisher |> in
  let (m, p) := foldl (fun st e => serve_event e st) (se_module s, mkProcess (se_db s) publisher)
                  (le_events env) in
  let p := stop_background (le_flush env) p in
  (le_exit env, mkServer (snd (dispose_engine m)) (ps_db p) (Some (ps_publisher p)) false).

(** The engine and the factory of the start. *)
Definition started (m : ModuleState) : ModuleState :=
  snd (get_session_factory cfg (snd (init_engine cfg (Some cfg) m))).

(** [main.py:25-42 lifespan]: an exception before the [try] ends the start.  The
    session of the seeding is closed with what it committed.  Making the directory
    of the store, and logging, are left out. *)
Definition lifespan (env : LifeEnv) (s : Server) : result exn unit * Server :=
  let (r, session) := seed_dev_users (le_clock env) (begin (se_db s) (le_commits env)) in
  let s := s <| se_module := started (se_module s) |> <| se_db := committed session |> in
  match r with
  | Raise e => (Raise e, s)
  | Ok _ => serve env s
  end.
End Middleware.

(** * Pages *)

(** [web/routes.py:8-44 router]: the pages, each with the path parameter it takes. *)
Inductive Page :=
| home
| hackathon_page (hackathon_id : pystr)
| challenge_page (challenge_id : pystr)
| submission_page (submission_id : pystr)
| organizer_page
| my_submissions_page.

(** [web/routes.py:15-44 router], the paths. *)
Definition page_path (p : Page) : pystr :=
  match p with
  | home => py "/"
  | hackathon_page i => py "/hackathons/" ++ i
  | challenge_page i => py "/challenges/" ++ i
  | submission_page i => py "/submissions/" ++ i
  | organizer_page => py "/organizer"
  | my_submissions_page => py "/my-submissions"
  end.

(** [web/routes.py:11-44 router], the template and its context without the request. *)
Definition render (p : Page) : string * dict :=
  match p with
  | home => ("hackathons.html", [(py "page", JStr (py "hackathons"))])
  | hackathon_page i => ("hackathon.html", [(py "page", JStr (py "hackathon")); (py "hackathon_id", JStr i)])
  | challenge_page i => ("challenge.html", [(py "page", JStr (py "challenge")); (py "challenge_id", JStr i)])
  | submission_page i => ("submission.html", [(py "page", JStr (py "submission")); (py "submission_id", JStr i)])
  | organizer_page => ("organizer.html", [(py "page", JStr (py "organizer"))])
  | my_submissions_page => ("my_submissions.html", [(py "page", JStr (py "my-submissions"))])
  end%string.

(** A parameter of a path is a segment: not empty, and without a slash (47). *)
Definition segment (i : pystr) : bool := nonempty i && forallb (fun c => negb (c =? 47)) i.

(** A pattern that ends in a parameter. *)
Definition match_page (prefix : string) (page : pystr -> Page) (path : pystr) : option Page :=
  let i := drop (length (py prefix)) path in
  if startswith path (py prefix) && segment i then Some (page i) else None.

(** The page of a path, as the router's patterns match it. *)
Definition page_of (path : pystr) : option Page :=
  if bool_decide (path = py "/") then Some home
  else if bool_decide (path = py "/organizer") then Some organizer_page
  else if bool_decide (path = py "/my-submissions") then Some my_submissions_page
  else union (match_page "/hackathons/" hackathon_page path)
         (union (match_page "/challenges/" challenge_page path)
                (match_page "/submissions/" submission_page path)).

(** * The middleware is transparent *)

(** The messages the application sends. *)
Fixpoint app_messages (events : list AppEvent) : list Message :=
  match events with
  | [] => []
  | AppSend m _ :: events => m :: app_messages events
  | _ :: events => app_messages events
  end.

(** A message as it is passed on: a start of an HTTP response gains its identifier,
    and perhaps its profile, after the headers the application gave it. *)
Definition passed_on (sc : Scope_) (profiling : bool) (m m' : Message) : Prop :=
  match m with
  | ResponseStart status headers =>
      if negb (bool_decide (sc_type sc = py "http")) then m' = m else
      exists extra, m' = ResponseStart status (headers ++ (py "x-request-id", request_id sc) :: extra)
      /\ (extra = [] \/ profiling = true /\ exists text, extra = [(py "x-cf-profile", text)])
  | m => m' = m
  end.

(** What other requests do in the meantime, to the count of requests in flight: each
    of their steps begins some and ends some, and they end only what they began,
    so that from [k] of them in flight there are [k'] at the end. *)
Definition shifts (f : InteractiveMetricsPublisher -> InteractiveMetricsPublisher) (d : Z) : Prop :=
  forall q, 0 <= pb_in_flight q + d -> pb_in_flight (f q) = pb_in_flight q + d.

Inductive others_in_flight : Z -> list AppEvent -> Z -> Prop :=
| of_nil k : others_in_flight k [] k
| of_send k m now l k' : others_in_flight k l k' -> others_in_flight k (AppSend m now :: l) k'
| of_profile k f l k' : others_in_flight k l k' -> others_in_flight k (AppProfile f :: l) k'
| of_others k f d l k' :
    0 <= k + d ->
    (forall p, 0 <= pb_in_flight (ps_publisher p) + d ->
       pb_in_flight (ps_publisher (f p)) = pb_in_flight (ps_publisher p) + d) ->
    others_in_flight (k + d) l k' -> others_in_flight k (AppOthers f :: l) k'.

(** The same request, with other requests doing [g] while its observation is
    published. *)
Definition publishing (g : InteractiveMetricsPublisher -> InteractiveMetricsPublisher) (t : Timing) : Timing :=
  mkTiming (ti_profile_started t) (ti_started t) (ti_ended t) (ti_window t) (ti_window_pool t)
    (mkPublishEnv (pe_now (ti_publish t)) (pe_now_pool (ti_publish t)) g (pe_fails (ti_publish t))).

Section Transparent.
Context `{FloatRepr}.
Variable cfg : Settings.

Lemma send_wrapper_passed_on sc profiling now profile m :
  sc_type sc = py "http" -> passed_on sc profiling m (send_wrapper sc profiling now profile m).
Proof.
  intros Hhttp. destruct m as [status headers|body more|type]; [|done..]. unfold passed_on, send_wrapper.
  rewrite bool_decide_eq_true_2 by done. cbn [negb].
  generalize (request_id sc). intros rid.
  destruct profile as [p|]; [destruct profiling|]; [|by exists []; split; [|left]..].
  generalize (profile_header now p). intros text. exists [(py "x-cf-profile", text)].
  split; [by rewrite <-app_assoc|]. right. eauto.
Qed.

Lemma run_app_sent wrap (P : Message -> Message -> Prop) events s :
  (forall now profile m, P m (wrap now profile m)) ->
  exists added, sv_sent (run_app wrap events s) = sv_sent s ++ added
  /\ Forall2 P (app_messages events) added.
Proof.
  intros HP. revert s. induction events as [|[m now|f|f] events IH]; intros s; cbn.
  - exists []. by rewrite app_nil_r.
  - edestruct IH as (added & E & Hall). eexists (_ :: added).
    rewrite E. cbn. rewrite <-app_assoc. split; [reflexivity|]. by constructor.
  - exact (IH (mkServing (sv_process s) (f <$> sv_profile s) (sv_sent s))).
  - exact (IH (mkServing (f (sv_process s)) (sv_profile s) (sv_sent s))).
Qed.

Lemma run_app_app wrap l1 l2 s : run_app wrap (l1 ++ l2) s = run_app wrap l2 (run_app wrap l1 s).
Proof. revert s. induction l1 as [|[m now|f|f] l1 IH]; intros s; cbn; auto. Qed.

Lemma others_in_flight_nonneg k l k' : others_in_flight k l k' -> 0 <= k -> 0 <= k'.
Proof. induction 1; auto. Qed.

(** The others' requests and [own] of this one. *)
Lemma run_app_in_flight wrap own k events k' s :
  others_in_flight k events k' -> 0 <= own -> pb_in_flight (ps_publisher (sv_process s)) = k + own ->
  pb_in_flight (ps_publisher (sv_process (run_app wrap events s))) = k' + own.
Proof.
  intros Hc Hown. revert s. induction Hc as [k|k m now l k' _ IH|k f l k' _ IH|k f d l k' Hd Hf _ IH]; intros s Hs;
    cbn; [done|by apply IH..|].
  apply IH. cbn. rewrite Hf; lia.
Qed.

Lemma trim_windows_in_flight now now_pool p : pb_in_flight (trim_windows now now_pool p) = pb_in_flight p.
Proof. done. Qed.

Lemma persist_now_in_flight env p d :
  shifts (pe_during env) d -> 0 <= pb_in_flight (ps_publisher p) + d ->
  let n := pb_in_flight (ps_publisher (snd (persist_now env p))) in
  n = pb_in_flight (ps_publisher p) \/ n = pb_in_flight (ps_publisher p) + d.
Proof.
  intros Hd Hn. unfold persist_now. cbv zeta.
  repeat case_match; cbn; rewrite ?Hd by (by rewrite trim_windows_in_flight); auto.
Qed.

Lemma record_wall_in_flight ms wait now now_pool p :
  pb_in_flight (record_wall ms wait now now_pool p) = pb_in_flight p.
Proof. unfold record_wall. by repeat case_match. Qed.

Lemma record_interactive_in_flight ms wait now now_pool env p d :
  shifts (pe_during env) d -> 0 <= pb_in_flight (ps_publisher p) + d ->
  let n := pb_in_flight (ps_publisher (record_interactive ms wait now now_pool env p)) in
  n = Z.max 0 (pb_in_flight (ps_publisher p) - 1) \/ n = Z.max 0 (pb_in_flight (ps_publisher p) + d - 1).
Proof.
  intros Hd Hn. pose proof (record_wall_in_flight ms wait now now_pool (ps_publisher p)) as Hw.
  unfold record_interactive. revert Hw Hn. generalize (record_wall ms wait now now_pool (ps_publisher p)).
  intros q <- Hn. cbv zeta. destruct (pb_publish_mode _); [|by left]. cbn [ps_publisher].
  destruct (should_persist_sync _); [|by left].
  destruct (persist_now_in_flight env (mkProcess (ps_db p) q) d Hd Hn) as [E|E]; cbn in *; rewrite E; auto.
Qed.

(** What the others find when they step in while the observation is published. *)
Lemma record_interactive_during ms wait now now_pool env p :
  exists q, pb_in_flight q = pb_in_flight (ps_publisher p)
  /\ forall g, let with_ g := mkPublishEnv (pe_now env) (pe_now_pool env) g (pe_fails env) in
       record_interactive ms wait now now_pool (with_ g) p
       = record_interactive ms wait now now_pool (with_ (fun _ => g q)) p.
Proof.
  exists (trim_windows (pe_now env) (pe_now_pool env) (record_wall ms wait now now_pool (ps_publisher p))).
  split; [by rewrite trim_windows_in_flight, record_wall_in_flight|]. intros g. cbv zeta.
  unfold record_interactive, persist_now. cbn [pe_now pe_now_pool pe_during pe_fails ps_publisher ps_db]. reflexivity.
Qed.

Lemma run_app_profile wrap events s :
  sv_profile s = None -> sv_profile (run_app wrap events s) = None.
Proof.
  revert s. induction events as [|[m now|f|f] events IH]; intros s Hs; cbn; [done|..];
    rewrite IH; cbn; by rewrite ?Hs.
Qed.

(** Whether a request is counted. *)
Definition counted (sc : Scope_) : Z :=
  if bool_decide (sc_type sc = py "http")
     && track_interactive cfg (request_profiling_enabled cfg) (sc_method sc) (sc_path sc)
  then 1 else 0.

(** A request of HTTP, after its begin and before its end. *)
Lemma call_http sc t raised s :
  sc_type sc = py "http" ->
  let profiling := request_profiling_enabled cfg in
  exists s2, sv_sent s2 = sv_sent s
  /\ pb_in_flight (ps_publisher (sv_process s2)) = pb_in_flight (ps_publisher (sv_process s)) + counted sc
  /\ (profiling = false -> sv_profile s2 = sv_profile s)
  /\ forall l t', ti_profile_started t' = ti_profile_started t ->
       call cfg sc t' l raised s
       = let s3 := run_app (send_wrapper sc profiling) l s2 in
         let s4 := if counted sc =? 1
                   then s3 <| sv_process := record_interactive (elapsed_ms (ti_started t') (ti_ended t'))
                              (rp_pool_wait_ms <$> sv_profile s3) (ti_window t') (ti_window_pool t')
                              (ti_publish t') (sv_process s3) |>
                   else s3 in
         (match raised with Some e => Raise e | None => Ok tt end,
          if profiling then s4 <| sv_profile := None |> else s4).
Proof.
  intros Hh profiling. unfold call, counted. rewrite bool_decide_eq_true_2 by done. cbn [negb andb].
  fold profiling. set (tracked := track_interactive _ _ _ _).
  exists (let s1 := if tracked then s <| sv_process := on_publisher begin_request (sv_process s) |> else s in
          if profiling then s1 <| sv_profile := Some (start_profile (ti_profile_started t)) |> else s1).
  split_and!.
  - by destruct profiling, tracked.
  - destruct profiling, tracked; cbn; lia.
  - intros ->. by destruct tracked.
  - intros l t' ->. by destruct tracked.
Qed.

(** C26 The middleware is transparent: the client sees the application's messages, all
    of them and in order, changed only by the request's identifier (and profile) at
    the end of a response's headers; what the application raises is raised again;
    and no profile outlives its request.  A request whose time is observed is
    counted in flight exactly while it runs: whenever other requests step in, while
    the application runs or while the observation is published, they find the
    others in flight and this one, and afterwards it is counted no more, whatever
    it answered or raised.  Other requests may begin and end in between; they are
    only assumed to end what they began, and the request to begin without a
    profile. *)
Theorem middleware_transparent sc t events raised s k d :
  sv_profile s = None -> 0 <= pb_in_flight (ps_publisher (sv_process s)) ->
  others_in_flight (pb_in_flight (ps_publisher (sv_process s))) events k ->
  0 <= k + d -> shifts (pe_during (ti_publish t)) d ->
  let (r, s') := call cfg sc t events raised s in
  r = match raised with Some e => Raise e | None => Ok tt end
  /\ (exists added, sv_sent s' = sv_sent s ++ added
      /\ Forall2 (passed_on sc (request_profiling_enabled cfg)) (app_messages events) added)
  /\ sv_profile s' = None
  /\ (pb_in_flight (ps_publisher (sv_process s')) = k \/ pb_in_flight (ps_publisher (sv_process s')) = k + d)
  /\ (forall l1 g l2 k1, events = l1 ++ AppOthers g :: l2 ->
       others_in_flight (pb_in_flight (ps_publisher (sv_process s))) l1 k1 ->
       exists p, pb_in_flight (ps_publisher p) = k1 + counted sc
         /\ forall g, call cfg sc t (l1 ++ AppOthers g :: l2) raised s
                      = call cfg sc t (l1 ++ AppOthers (fun _ => g p) :: l2) raised s)
  /\ (exists q, pb_in_flight q = k + counted sc
       /\ forall g, call cfg sc (publishing g t) events raised s
                    = call cfg sc (publishing (fun _ => g q) t) events raised s).
Proof.
  intros Hp Hn Hk Hkd Hd. pose proof (others_in_flight_nonneg _ _ _ Hk Hn) as Hk0.
  assert (0 <= counted sc) as Hown by (unfold counted; by case_match).
  destruct (decide (sc_type sc = py "http")) as [Hh|Hh].
  - destruct (call_http sc t raised s Hh) as (s2 & H1 & H2 & H3 & Hcall). cbv zeta in Hcall.
    set (profiling := request_profiling_enabled cfg) in *.
    destruct (run_app_sent (send_wrapper sc profiling) (passed_on sc profiling) events s2) as (added & E & Hall);
      [intros; by apply send_wrapper_passed_on|].
    pose proof (run_app_in_flight (send_wrapper sc profiling) (counted sc) _ events k s2 Hk Hown H2) as Hin.
    rewrite (Hcall events t eq_refl). cbv zeta. split; [done|]. rewrite <-H1. split_and!.
    + exists added. by destruct (counted sc =? 1), profiling.
    + destruct profiling; [done|]. pose proof (run_app_profile (send_wrapper sc false) events s2) as Hpr.
      rewrite H3 in Hpr by done. destruct (counted sc =? 1); by apply Hpr.
    + set (s3 := run_app _ events s2) in *. destruct (Z.eqb_spec (counted sc) 1) as [Hc|Hc].
      * destruct (record_interactive_in_flight (elapsed_ms (ti_started t) (ti_ended t))
          (rp_pool_wait_ms <$> sv_profile s3) (ti_window t) (ti_window_pool t) (ti_publish t) (sv_process s3) d Hd)
          as [Hr|Hr]; [lia|left|right]; destruct profiling; cbn -[record_interactive]; rewrite Hr; lia.
      * left. assert (counted sc = 0) as Hc0 by (revert Hc; unfold counted; destruct (_ && _); [congruence|done]).
        destruct profiling; cbn; lia.
    + intros l1 g0 l2 k1 -> Hk1. exists (sv_process (run_app (send_wrapper sc profiling) l1 s2)).
      split; [by eapply run_app_in_flight|]. intros g. rewrite !Hcall by done. cbv zeta.
      by rewrite !run_app_app.
    + set (s3 := run_app (send_wrapper sc profiling) events s2) in *.
      destruct (record_interactive_during (elapsed_ms (ti_started t) (ti_ended t))
        (rp_pool_wait_ms <$> sv_profile s3) (ti_window t) (ti_window_pool t) (ti_publish t) (sv_process s3))
        as (q & Hq & Hsame). exists q. split; [lia|]. intros g. rewrite !Hcall by done. cbv zeta. fold s3.
      cbn [publishing ti_started ti_ended ti_window ti_window_pool ti_publish]. cbv zeta in Hsame.
      by rewrite (Hsame g).
  - assert (counted sc = 0) as Hc by (unfold counted; by rewrite bool_decide_eq_false_2).
    assert (forall t l, call cfg sc t l raised s
              = (match raised with Some e => Raise e | None => Ok tt end, run_app (fun _ _ m => m) l s)) as Hcall
      by (intros t' l; unfold call; by rewrite bool_decide_eq_false_2).
    destruct (run_app_sent (fun _ _ m => m) (passed_on sc (request_profiling_enabled cfg)) events s)
      as (added & E & Hall).
    { intros _ _ m. destruct m; [|done..]. cbn. by rewrite bool_decide_eq_false_2. }
    rewrite Hcall, Hc. split; [done|]. split; [eauto|]. split; [by apply run_app_profile|]. split_and!.
    + left. rewrite (run_app_in_flight _ 0 _ events k s Hk); lia.
    + intros l1 g0 l2 k1 -> Hk1. exists (sv_process (run_app (fun _ _ m => m) l1 s)).
      split; [apply (run_app_in_flight _ 0 _ l1 k1 s Hk1); lia|]. intros g. by rewrite !Hcall, !run_app_app.
    + exists (ps_publisher (sv_process s) <| pb_in_flight := k |>). split; [cbn; lia|]. intros g. by rewrite !Hcall.
Qed.
End Transparent.

(** * The life of the server *)

(** The first entry of a list of users under an identifier. *)
Definition listed (l : list (uuid * pystr * UserRole)) (i : uuid) : option (pystr * UserRole) :=
  (fun e => (e.1.2, e.2)) <$> List.find (fun e => e.1.1 =? i) l.

Lemma seed_users_run clock l db :
  exists db', seed_users clock l db = (Ok tt, db')
  /\ (forall i, users db' !! i
        = match users db !! i with
          | Some u => Some u
          | None => (fun e => new_user_row (clock i) i e.1 e.2) <$> listed l i
          end)
  /\ hackathons db' = hackathons db /\ challenges db' = challenges db /\ submissions db' = submissions db
  /\ evaluations db' = evaluations db.
Proof.
  revert db. induction l as [|[[id name] role] l IH]; intros db.
  { exists db. split; [done|]. split; [|done]. intros i. cbn. by destruct (users db !! i). }
  cbn [seed_users]. rewrite run_bind. cbn. destruct (users db !! id) as [u|] eqn:Hid.
  - destruct (IH db) as (db' & -> & Hu & Hrest). exists db'. split; [done|]. split; [|done].
    intros i. rewrite Hu. destruct (users db !! i) eqn:Hi; [done|]. unfold listed. cbn.
    destruct (id =? i) eqn:E; [|done]. apply Z.eqb_eq in E as ->. congruence.
  - rewrite run_bind. unfold insert_row. rewrite Hid.
    edestruct IH as (db' & Hrun & Hu & Hrest). exists db'. split; [exact Hrun|]. split; [|exact Hrest].
    intros i. rewrite Hu. cbn. unfold listed. cbn. destruct (Z.eqb_spec id i) as [->|Hne].
    + by rewrite lookup_insert_eq, Hid.
    + by rewrite lookup_insert_ne by done.
Qed.

Section Life.
Context `{FloatRepr}.
Variable cfg : Settings.

(** What serving does to the process. *)
Definition serve_process (events : list ServeEvent) (p : Process) : Process :=
  foldl (fun p e => match e with ServeProcess f => f p | ServeFactory => p end) p events.

(** Every engine's number is below the next one. *)
Definition numbered (m : ModuleState) : Prop := Forall (fun e => (eg_id e < ms_next m)%nat) (ms_open m).

(** Whatever is served, the engine is the one of the start. *)
Lemma serve_module events m p :
  is_Some (ms_session_factory m) ->
  foldl (fun st e => serve_event cfg e st) (m, p) events = (m, serve_process events p).
Proof.
  intros [f Hf]. revert p. induction events as [|[g|] events IH]; intros p; [done|apply IH|].
  cbn [foldl]. unfold serve_event at 2. cbn [fst snd].
  assert (snd (get_session_factory cfg m) = m) as ->; [|apply IH].
  unfold get_session_factory, mbind, M_bind, get_st. rewrite Hf. cbn. by rewrite Hf.
Qed.

Lemma started_then_disposed m :
  numbered m ->
  is_Some (ms_session_factory (started cfg m))
  /\ ms_open (snd (dispose_engine (started cfg m))) = ms_open m
  /\ ms_engine (snd (dispose_engine (started cfg m))) = None
  /\ ms_session_factory (snd (dispose_engine (started cfg m))) = None
  /\ exists e, ms_engine (started cfg m) = Some e /\ In (eg_id e) (eg_id <$> ms_open (started cfg m))
     /\ ~ In (eg_id e) (eg_id <$> ms_open m).
Proof.
  intros Hm. unfold numbered in Hm. rewrite Forall_forall in Hm.
  unfold started, init_engine, create_engine, get_session_factory, mbind, M_bind, get_st. cbn.
  assert (List.filter (fun x => negb (eg_id x =? ms_next m)%nat) (ms_open m) = ms_open m) as Hkeep.
  { apply filterb_all. intros x Hx. specialize (Hm x Hx).
    destruct (Nat.eqb_spec (eg_id x) (ms_next m)); [lia|done]. }
  split; [by destruct (request_profiling_enabled cfg)|].
  destruct (request_profiling_enabled cfg); cbn; rewrite Nat.eqb_refl; cbn; rewrite Hkeep;
    (split_and!; [done..|]); eexists; (split; [done|]); (split; [by left|]);
    intros (x & Hx1 & Hx2)%in_map_iff; apply list_elem_of_In in Hx2; specialize (Hm x Hx2); cbn in Hx1; lia.
Qed.

(** The life of the server is clean: once the development users are seeded (each
    one exactly when its row was missing, no row changed), whatever is served and
    however the serving ends, the outcome is the serving's, no engine stays open that
    was not open before, no factory is left, and the publisher's task has stopped;
    the publisher kept for the next life is the one the process ended with.  When
    the seeding fails the engine of the start stays open. *)
Theorem server_life_is_clean (env : LifeEnv) (s : Server) :
  numbered (se_module s) ->
  let (r, s') := lifespan cfg env s in
  match hd None (le_commits env) with
  | Some e =>
      r = Raise e /\ se_db s' = se_db s
      /\ exists eng, ms_engine (se_module s') = Some eng
         /\ In (eg_id eng) (eg_id <$> ms_open (se_module s'))
         /\ ~ In (eg_id eng) (eg_id <$> ms_open (se_module s))
  | None =>
      r = le_exit env /\ se_task s' = false
      /\ ms_open (se_module s') = ms_open (se_module s)
      /\ ms_engine (se_module s') = None /\ ms_session_factory (se_module s') = None
      /\ exists db,
           (forall i, users db !! i
              = match users (se_db s) !! i with
                | Some u => Some u
                | None => (fun e => new_user_row (le_clock env i) i e.1 e.2) <$> listed SEEDED_USERS i
                end)
           /\ submissions db = submissions (se_db s) /\ evaluations db = evaluations (se_db s)
           /\ let p := stop_background (le_flush env) (serve_process (le_events env)
                         (mkProcess db (get_or_create_publisher cfg (se_interactive_metrics s)))) in
              se_db s' = ps_db p /\ se_interactive_metrics s' = Some (ps_publisher p)
  end.
Proof.
  intros Hm. destruct (started_then_disposed _ Hm) as (Hf & Hopen & He & Hsf & Heng).
  unfold lifespan, seed_dev_users. rewrite run_bind, in_db_run. cbn [begin working].
  destruct (seed_users_run (le_clock env) SEEDED_USERS (se_db s)) as (db & -> & Hu & _ & _ & Hsub & Hev).
  assert (forall plan, hd None (le_commits env) = None ->
            commit (mkSession (se_db s) db (le_commits env)) = plan ->
            fst plan = Ok tt /\ committed (snd plan) = db) as Hc.
  { intros plan Hnone <-. unfold commit. by destruct (le_commits env) as [|[e|] l]. }
  destruct (hd None (le_commits env)) as [e|] eqn:Hhd.
  - destruct (le_commits env) as [|[e'|] l]; try done. injection Hhd as ->. done.
  - destruct (commit (mkSession (se_db s) db (le_commits env))) as [r session] eqn:E.
    destruct (Hc _ eq_refl eq_refl) as [Hr Hdb]. cbn in Hr, Hdb. 
    change (_ <| working := db |>) with (mkSession (se_db s) db (le_commits env)). rewrite E, Hr.
    unfold serve. cbn [se_module se_db se_interactive_metrics]. rewrite serve_module by done.
    cbn [se_task se_module se_db se_interactive_metrics]. do 5 (split; [done|]).
    exists db. rewrite Hdb. done.
Qed.
End Life.

(** * Pages *)

(** The parameter of a page is a segment. *)
Definition page_ok (p : Page) : bool :=
  match p with
  | hackathon_page i | challenge_page i | submission_page i => segment i
  | _ => true
  end.

Lemma match_page_Some prefix page path p :
  match_page prefix page path = Some p <->
  exists i, path = py prefix ++ i /\ segment i = true /\ p = page i.
Proof.
  unfold match_page. split.
  - destruct (startswith path (py prefix)) eqn:E; [|done]. cbn [andb].
    apply startswith_prefix in E as [i ->]. rewrite drop_app_length.
    destruct (segment i) eqn:Es; [|done]. intros [= <-]. eauto.
  - intros (i & -> & Hi & ->). by rewrite startswith_app, drop_app_length, Hi.
Qed.

(** Pages and paths correspond: the router finds a page for exactly the paths of the
    pages whose parameter is one non-empty segment, and it finds that page. *)
Theorem page_of_path path p :
  page_of path = Some p <-> path = page_path p /\ page_ok p = true.
Proof.
  split.
  - unfold page_of. repeat (case_bool_decide; [by intros [= <-]|]).
    intros [E|[_ [E|[_ E]]%union_Some]]%union_Some;
      apply match_page_Some in E as (i & -> & Hi & ->); done.
  - intros [-> Hok]. destruct p; try reflexivity; unfold page_of; cbn [page_path];
      rewrite !bool_decide_eq_false_2 by (cbn; congruence); apply union_Some;
      cbn [page_ok] in Hok.
    + left. apply match_page_Some. eauto.
    + right. split; [done|]. apply union_Some. left. apply match_page_Some. eauto.
    + right. split; [done|]. apply union_Some. right. split; [done|]. apply match_page_Some. eauto.
Qed.

Module ServerSample.
#[local] Instance repr : FloatRepr := fun _ => [].

(** A poll of an evaluation, under the default settings, and a second request that
    begins and ends in between. *)
Definition scope : Scope_ :=
  mkScope (py "http") (py "GET") (py "/api/v1/challenges/1") [(py "X-Request-ID", py "abc")] (py "fresh").
Definition events : list AppEvent :=
  [AppSend (ResponseStart 200 [(py "content-type", py "text/html")]) fzero;
   AppOthers (fun p => on_publisher end_request (on_publisher begin_request p));
   AppSend (ResponseBody [1] false) fzero].
Definition timing : Timing :=
  mkTiming fzero (of_Z 1) (of_Z 2) (of_Z 2) (of_Z 2) (mkPublishEnv (of_Z 2) (of_Z 2) id false).
Definition settings : Settings :=
  default_settings <| resource_interactive_p95_warn_ms := of_Z 100 |>
                   <| resource_interactive_p95_critical_ms := of_Z 200 |>.
Definition idle : Serving := mkServing (mkProcess empty_db (new_publisher settings)) None [].

Example poll_is_observed :
  let s' := snd (call settings scope timing events None idle) in
  sv_sent s' = [ResponseStart 200 [(py "content-type", py "text/html"); (py "x-request-id", py "abc")];
                ResponseBody [1] false]
  /\ pb_generation (ps_publisher (sv_process s')) = 1 /\ pb_peak_in_flight (ps_publisher (sv_process s')) = 2
  /\ pb_in_flight (ps_publisher (sv_process s')) = 0.
Proof. vm_compute. split_and!; reflexivity. Qed.

(** The second request, as the first sees it: one more, and one less. *)
Lemma others_of_events : others_in_flight 0 events 0.
Proof.
  apply of_send, (of_others _ _ 0); [done| |apply of_send, of_nil].
  intros p Hp. cbn. lia.
Qed.

Lemma middleware_transparent_witness :
  (let (r, s') := call settings scope timing events (Some (RuntimeError "boom")) idle in
   r = Raise (RuntimeError "boom") /\ pb_in_flight (ps_publisher (sv_process s')) = 0)
  /\ exists p, pb_in_flight (ps_publisher p) = 1
     /\ forall g, let seen g := [AppSend (ResponseStart 200 [(py "content-type", py "text/html")]) fzero;
                                 AppOthers g; AppSend (ResponseBody [1] false) fzero] in
          call settings scope timing (seen g) (Some (RuntimeError "boom")) idle
          = call settings scope timing (seen (fun _ => g p)) (Some (RuntimeError "boom")) idle.
Proof.
  pose proof (middleware_transparent settings scope timing events (Some (RuntimeError "boom")) idle 0 0) as H.
  destruct (call _ _ _ _ _ _) as [r s'].
  destruct H as (Hr & _ & _ & Hin & Hseen & _);
    [reflexivity|done|exact others_of_events|done|intros q _; cbn; lia|].
  split; [split; [exact Hr|by destruct Hin]|].
  destruct (Hseen [AppSend (ResponseStart 200 [(py "content-type", py "text/html")]) fzero]
              (fun p => on_publisher end_request (on_publisher begin_request p))
              [AppSend (ResponseBody [1] false) fzero] 0 eq_refl) as (p & Hp & Hall);
    [apply of_send, of_nil|].
  exists p. split; [exact Hp|exact Hall].
Defined.

(** Two lives of one application: the second finds the users of the first. *)
Definition life (commits : list (option exn)) : LifeEnv :=
  mkLifeEnv (fun i => i) commits [ServeFactory] (Ok tt) (mkPublishEnv fzero fzero id false).
Definition off : Server := mkServer module_start empty_db None false.

Lemma server_life_is_clean_witness :
  let s' := snd (lifespan default_settings (life []) off) in
  ms_open (se_module s') = [] /\ fst (lifespan default_settings (life []) off) = Ok tt
  /\ (u_role <$> users (se_db s') !! ORGANIZER_ID) = Some ORGANIZER.
Proof.
  pose proof (server_life_is_clean default_settings (life []) off (Forall_nil_2 _)) as H. cbv zeta.
  destruct (lifespan default_settings (life []) off) as [r s'] eqn:E.
  destruct H as (Hr & _ & Hopen & _). split; [exact Hopen|]. split; [exact Hr|].
  apply (f_equal snd) in E. cbn [snd] in E |- *. rewrite <-E. vm_compute. reflexivity.
Defined.

Example failed_start_keeps_engine :
  let (r, s') := lifespan default_settings (life [Some (RuntimeError "no database")]) off in
  r = Raise (RuntimeError "no database") /\ length (ms_open (se_module s')) = 1%nat.
Proof. vm_compute. split; reflexivity. Qed.
End ServerSample.
