(* ===== verification/System.v ===== *)
(** The whole system: HTTP requests, transactions of evaluation workers and
    transactions of ingestion workers interleaved on one database, the invariant
    of every state they reach, and what no step of any of them undoes. *)
From Stdlib Require Import ZArith Lia String.
From stdpp Require Import prelude strings gmap sorting.
From S2P Require Import Prelude PyFloat PyStr Domain Database Json Evaluator Storage Config.
From S2P Require Import Catalog CatalogSpec EvaluationQueue EvaluationQueueFacts IngestionQueue IngestionQueueSpec.
From S2P Require Import Submissions SubmissionsSpec EvaluationViews Http HttpSpec.

(** * The invariant *)

(** Chunks are stored under their identifiers, satisfy their constraints, belong to
    a job, and no two of a job have one ordinal. *)
Definition chunks_ok (db : Db) : Prop :=
  (forall k r, document_chunks db !! k = Some r ->
     dc_id r = k /\ chunk_check r = true /\ is_Some (ingestion_jobs db !! dc_ingestion_job_id r))
  /\ (forall k1 k2 r1 r2, document_chunks db !! k1 = Some r1 -> document_chunks db !! k2 = Some r2 ->
        dc_ingestion_job_id r1 = dc_ingestion_job_id r2 -> dc_ordinal r1 = dc_ordinal r2 -> k1 = k2).

(** Every table keyed by its identifiers, every constraint satisfied, every
    reference resolved, open challenges complete, no hackathon closed (nothing in
    the program closes one), at most one submission for a key, the accepted
    submissions exactly the evaluated ones, and the columns of jobs and
    evaluations as their status calls for. *)
Record db_ok (db : Db) : Prop := mkDbOk {
  ok_users : forall i u, users db !! i = Some u -> u_id u = i;
  ok_hackathons : forall i h, hackathons db !! i = Some h ->
    h_id h = i /\ is_Some (users db !! h_organizer_id h) /\ h_status h <> H_CLOSED;
  ok_challenges : forall i c, challenges db !! i = Some c ->
    c_id c = i /\ forallb criterion_check (c_evaluation_criteria c) = true
    /\ is_Some (hackathons db !! c_hackathon_id c);
  ok_published : published_complete db;
  ok_submissions : forall i s, submissions db !! i = Some s ->
    submission_check s = true /\ is_Some (challenges db !! s_challenge_id s)
    /\ is_Some (users db !! s_participant_id s);
  ok_keys : keys_unique db;
  ok_link : link_ok db;
  ok_queue : queue_wf db;
  ok_jobs : jobs_wf db;
  ok_job_submissions : forall i j, ingestion_jobs db !! i = Some j -> is_Some (submissions db !! j_submission_id j);
  ok_chunks : chunks_ok db;
}.

(** [Some] rows of a table stay when another is written. *)
Lemma is_Some_insert {V} (t : gmap uuid V) i k v : is_Some (t !! i) -> is_Some (<[k := v]> t !! i).
Proof. rewrite lookup_insert_is_Some. destruct (decide (k = i)); auto. Qed.
#[export] Hint Resolve is_Some_insert : cf.

Lemma empty_ok : db_ok empty_db.
Proof.
  assert (forall {V} (i : uuid) (v : V) (P : Prop), (∅ : gmap uuid V) !! i = Some v -> P) as Hno
    by (intros V i v P Hi; by rewrite lookup_empty in Hi).
  split; try (intros i x Hi; by apply (Hno _ _ _ _ Hi)).
  - intros i j s t Hi. by apply (Hno _ _ _ _ Hi).
  - split_and!; [intros i s Hi|intros i s Hi|intros i s Hi|intros i j s t Hi]; by apply (Hno _ _ _ _ Hi).
  - split; [intros i s Hi; by apply (Hno _ _ _ _ Hi)|done].
  - split; [intros i s Hi|intros i j s t Hi]; by apply (Hno _ _ _ _ Hi).
Qed.

(** * What is kept *)

Definition hackathon_rank (st : HackathonStatus) : Z :=
  match st with H_DRAFT => 0 | H_PUBLISHED => 1 | H_CLOSED => 2 end.
Definition challenge_rank (st : ChallengeStatus) : Z :=
  match st with C_DRAFT => 0 | C_PUBLISHED => 1 | C_CLOSED => 2 end.
Definition job_finished (j : IngestionJob) : Prop := j_status j = I_SUCCEEDED \/ j_status j = I_FAILED.

(** Nothing disappears, nothing is unpublished, made a draft again or moved to other
    parties, what was accepted or cancelled stays so, and what was finished stays
    as it is. *)
Record kept (db db' : Db) : Prop := mkKept {
  kept_users : users db ⊆ users db';
  kept_hackathons : forall i h, hackathons db !! i = Some h -> exists h', hackathons db' !! i = Some h'
    /\ h_organizer_id h' = h_organizer_id h /\ hackathon_rank (h_status h) <= hackathon_rank (h_status h');
  kept_challenges : forall i c, challenges db !! i = Some c -> exists c', challenges db' !! i = Some c'
    /\ c_hackathon_id c' = c_hackathon_id c /\ c_specification c' = c_specification c
    /\ c_evaluation_criteria c' = c_evaluation_criteria c
    /\ (c_status c = C_DRAFT \/ c_status c' <> C_DRAFT);
  kept_submissions : forall i s, submissions db !! i = Some s -> exists s', submissions db' !! i = Some s'
    /\ s_participant_id s' = s_participant_id s /\ s_challenge_id s' = s_challenge_id s
    /\ s_idempotency_key s' = s_idempotency_key s /\ s_request_fingerprint s' = s_request_fingerprint s
    /\ (s_status s = S_CREATED \/ s_status s' = s_status s);
  kept_evaluations : forall i e, evaluations db !! i = Some e -> exists e', evaluations db' !! i = Some e'
    /\ same_job e e' /\ e_attempt_count e <= e_attempt_count e' /\ (finished e -> e' = e);
  kept_jobs : forall i j, ingestion_jobs db !! i = Some j -> exists j', ingestion_jobs db' !! i = Some j'
    /\ j_submission_id j' = j_submission_id j /\ j_artifact_key j' = j_artifact_key j
    /\ j_attempt_count j <= j_attempt_count j' /\ (job_finished j -> j' = j);
}.

(** No challenge goes back: neither to a draft nor from closed to open. *)
Definition never_reopened (db db' : Db) : Prop :=
  forall i c c', challenges db !! i = Some c -> challenges db' !! i = Some c' ->
    challenge_rank (c_status c) <= challenge_rank (c_status c').

Lemma draft_or_not st : st = C_DRAFT \/ st <> C_DRAFT.
Proof. destruct st; auto. Qed.
#[export] Hint Resolve draft_or_not : cf.

Lemma same_job_refl e : same_job e e.
Proof. done. Qed.
#[export] Hint Resolve same_job_refl Z.le_refl : cf.

#[export] Instance kept_refl : Reflexive kept.
Proof.
  intros db. split; [done|..]; intros i x Hx; exists x; split_and!; auto with cf.
Qed.

#[export] Instance kept_trans : Transitive kept.
Proof.
  intros d1 d2 d3 [U1 H1 C1 S1 E1 J1] [U2 H2 C2 S2 E2 J2]. split.
  - by etrans.
  - intros i h Hh. destruct (H1 i h Hh) as (h2 & Hh2 & ? & ?), (H2 i h2 Hh2) as (h3 & ? & ? & ?).
    exists h3. split_and!; [done|congruence|lia].
  - intros i c Hc. destruct (C1 i c Hc) as (c2 & Hc2 & ? & ? & ? & ?), (C2 i c2 Hc2) as (c3 & ? & ? & ? & ? & ?).
    exists c3. split_and!; [done|congruence..|]. intuition congruence.
  - intros i s Hs. destruct (S1 i s Hs) as (s2 & Hs2 & ? & ? & ? & ? & Hst2), (S2 i s2 Hs2) as (s3 & ? & ? & ? & ? & ? & Hst3).
    exists s3. split_and!; [done|congruence..|]. destruct Hst2 as [?|Hst2]; [by left|]. rewrite <-Hst2.
    destruct Hst3 as [Hst3|?]; [left; congruence|by right].
  - intros i e He. destruct (E1 i e He) as (e2 & He2 & (? & ? & ? & ? & ?) & ? & Hf2),
      (E2 i e2 He2) as (e3 & ? & (? & ? & ? & ? & ?) & ? & Hf3).
    exists e3. split; [done|]. split; [split_and!; congruence|]. split; [lia|]. intros Hf.
    rewrite Hf3, Hf2; [done..|]. by rewrite Hf2.
  - intros i j Hj. destruct (J1 i j Hj) as (j2 & Hj2 & ? & ? & ? & Hf2), (J2 i j2 Hj2) as (j3 & ? & ? & ? & ? & Hf3).
    exists j3. split_and!; [done|congruence..|lia|]. intros Hf. rewrite Hf3, Hf2; [done..|]. by rewrite Hf2.
Qed.

(** A row kept as it is, under the insertion of another or of a new version. *)
Lemma kept_row {V} (t : gmap uuid V) k v (R : V -> V -> Prop) :
  (forall x, R x x) -> (forall x, t !! k = Some x -> R x v) ->
  forall i x, t !! i = Some x -> exists x', <[k := v]> t !! i = Some x' /\ R x x'.
Proof.
  intros Hrefl Hk i x Hx. destruct (decide (k = i)) as [->|Hne].
  - rewrite lookup_insert_eq. eauto.
  - rewrite lookup_insert_ne by done. eauto.
Qed.

Lemma kept_same {V} (t : gmap uuid V) (R : V -> V -> Prop) :
  (forall x, R x x) -> forall i x, t !! i = Some x -> exists x', t !! i = Some x' /\ R x x'.
Proof. eauto. Qed.

(** Closes the tables a step leaves alone. *)
Ltac kept_tac :=
  split; cbn; try done;
  try (apply kept_same; intros; split_and!; auto with cf; fail).

Lemma jobs_apart_kept db db' : jobs_apart db db' -> kept db db'.
Proof.
  intros (t & -> & Ht). kept_tac. destruct Ht as [->|(f & j & Hfree & _ & _ & ->)].
  - apply kept_same. intros x. split_and!; auto with cf.
  - apply kept_row; [intros x; split_and!; auto with cf|]. intros x Hx. congruence.
Qed.

Lemma submission_row_kept db i t :
  (forall s, submissions db !! i = Some s ->
     s_participant_id t = s_participant_id s /\ s_challenge_id t = s_challenge_id s
     /\ s_idempotency_key t = s_idempotency_key s /\ s_request_fingerprint t = s_request_fingerprint s
     /\ (s_status s = S_CREATED \/ s_status t = s_status s)) ->
  kept db (set_submissions (<[i := t]> (submissions db)) db).
Proof. intros Ht. kept_tac. apply kept_row; [intros x; split_and!; auto with cf|exact Ht]. Qed.

(** * Requests *)

Lemma keys_unique_row db i s t :
  keys_unique db -> submissions db !! i = Some s -> s_participant_id t = s_participant_id s ->
  s_idempotency_key t = s_idempotency_key s ->
  keys_unique (set_submissions (<[i := t]> (submissions db)) db).
Proof.
  intros Hu Hs Hp Hk.
  assert (forall j x, submissions (set_submissions (<[i := t]> (submissions db)) db) !! j = Some x ->
            exists y, submissions db !! j = Some y /\ s_participant_id x = s_participant_id y
                      /\ s_idempotency_key x = s_idempotency_key y) as Hold.
  { intros j x. cbn. intros [[<- <-]|[_ Hj]]%lookup_insert_Some; [by exists s|by exists x]. }
  intros j1 j2 x1 x2 (y1 & Hy1 & Hp1 & Hk1)%Hold (y2 & Hy2 & Hp2 & Hk2)%Hold Hpp Hkk Hsome.
  apply (Hu j1 j2 y1 y2 Hy1 Hy2); congruence.
Qed.

Lemma kept_material read db : kept read db -> same_material read db.
Proof.
  intros Hk i c0 c Hr Hc. destruct (kept_challenges _ _ Hk i c0 Hr) as (c' & Hc' & _ & Hs & He & _).
  assert (c' = c) as -> by congruence. unfold is_publishable. by rewrite Hs, He.
Qed.

Section Effects.
Context (db : Db) (Hok : db_ok db).

(** The catalogue's steps. *)
Lemma catalog_step_ok u read db' :
  kept read db -> is_Some (users db !! cu_id u) -> catalog_step u read db db' -> db_ok db'.
Proof using Type*.
  intros Hk Hu Hstep.
  pose proof (step_published_complete u read db db' (kept_material _ _ Hk) Hstep (ok_published _ Hok)) as Hpub.
  destruct Hok as [H1 H2 H3 _ H5 H6 H7 H8 H9 H10 H11].
  destruct Hstep as [h _ Ho Hd _ _ Hfree|id h0 h now _ _ _ _ Hh|c h _ Hh _ _ _ Hcr Hfree
    |id c0 c h now _ _ _ _ _ _ Hc|id c h now _ Hc Hh _ _];
    split; cbn; try assumption.
  - intros i h' [[<- <-]|[_ Hi]]%lookup_insert_Some; [|by apply H2]. cbn. rewrite Ho, Hd. done.
  - intros i c Hi. destruct (H3 i c Hi) as (? & ? & ?). cbn. auto with cf.
  - intros i h' [[<- <-]|[_ Hi]]%lookup_insert_Some; [|by apply H2].
    destruct (H2 id h Hh) as (? & ? & _). done.
  - intros i c Hi. destruct (H3 i c Hi) as (? & ? & ?). cbn. auto with cf.
  - intros i c' [[<- <-]|[_ Hi]]%lookup_insert_Some; [|by apply H3]. split_and!; [done..|]. by exists h.
  - intros i s Hi. destruct (H5 i s Hi) as (? & ? & ?). cbn. auto with cf.
  - intros i c' [[<- <-]|[_ Hi]]%lookup_insert_Some; [|by apply H3]. exact (H3 id c Hc).
  - intros i s Hi. destruct (H5 i s Hi) as (? & ? & ?). cbn. auto with cf.
  - intros i c' [[<- <-]|[_ Hi]]%lookup_insert_Some; [|by apply H3]. exact (H3 id c Hc).
  - intros i s Hi. destruct (H5 i s Hi) as (? & ? & ?). cbn. auto with cf.
Qed.

(** A new submission. *)
Lemma new_submission_ok row d :
  insert_submission row db = (Ok tt, d) -> s_status row = S_CREATED -> db_ok (with_submission row db).
Proof using Type*.
  intros Hins Hst. pose proof (keys_unique_insert row db d (ok_keys _ Hok) Hins) as Hkeys.
  apply insert_row_Ok in Hins as (Hfree & Hrow & _). rewrite !andb_true_iff, !bool_decide_eq_true in Hrow.
  destruct Hrow as [[[Hck _] Hch] Hus].
  assert (link_ok (with_submission row db)) as Hlink.
  { apply link_ok_row; [apply Hok|done|]. rewrite Hfree. by rewrite Hst. }
  destruct Hok as [H1 H2 H3 H4 H5 H6 H7 H8 H9 H10 H11]. split; cbn; try assumption.
  - intros i s [[<- <-]|[_ Hi]]%lookup_insert_Some; [done|exact (H5 i s Hi)].
  - intros i j Hi. apply is_Some_insert. by apply (H10 i).
Qed.

(** A submission whose columns change but for its identity, its parties, its key
    and its acceptance. *)
Lemma changed_submission_ok i s t :
  submissions db !! i = Some s -> s_id t = s_id s -> s_participant_id t = s_participant_id s ->
  s_challenge_id t = s_challenge_id s -> s_idempotency_key t = s_idempotency_key s ->
  s_request_fingerprint t = s_request_fingerprint s ->
  s_status t = s_status s \/ (s_status s <> S_SUBMITTED /\ s_status t <> S_SUBMITTED) ->
  db_ok (set_submissions (<[i := t]> (submissions db)) db).
Proof using Type*.
  intros Hs Hid Hp Hc Hk Hf Hst.
  assert (link_ok (set_submissions (<[i := t]> (submissions db)) db)) as Hlink.
  { apply link_ok_row; [apply Hok| |by rewrite Hs]. rewrite Hid. by apply (proj1 (ok_link _ Hok)). }
  destruct Hok as [H1 H2 H3 H4 H5 H6 H7 H8 H9 H10 H11]. split; cbn; try assumption.
  - intros j s' [[<- <-]|[_ Hj]]%lookup_insert_Some; [|exact (H5 j s' Hj)].
    unfold submission_check. rewrite Hk, Hf, Hc, Hp. exact (H5 i s Hs).
  - by apply (keys_unique_row db i s t).
  - intros j x Hj. apply is_Some_insert. by apply (H10 j).
Qed.

(** A job enqueued with it. *)
Lemma jobs_apart_ok db' : jobs_apart db db' -> db_ok db'.
Proof using Type*.
  intros (t & -> & [->|(f & j & Hfree & (Hwf & _) & Hsub & ->)]); [by destruct db|].
  destruct Hok as [H1 H2 H3 H4 H5 H6 H7 H8 H9 H10 [H11 H12]]. split; cbn; try assumption.
  - intros k r. cbn. intros [[<- <-]|[_ Hk]]%lookup_insert_Some; [done|by apply H9].
  - intros k r [[<- <-]|[_ Hk]]%lookup_insert_Some; [done|by apply (H10 k)].
  - split; [|exact H12]. cbn. intros k r Hk. destruct (H11 k r Hk) as (? & ? & ?). cbn. auto with cf.
Qed.

(** An acceptance with its evaluation. *)
Lemma accepted_ok `{PyRepr} settings env i s dl :
  submissions db !! i = Some s -> s_status s = S_CREATED -> evaluations db !! re_fresh_row env = None ->
  db_ok (snd (accepted settings env i s dl db)).
Proof using Type*.
  intros Hs Hst Hfree. assert (s_id s = i) as Hid by (by apply (proj1 (ok_link _ Hok))).
  unfold accepted. set (t := s <| s_status := S_SUBMITTED |> <| s_updated_at := re_now env |>).
  cbn [snd]. set (e := mkEvaluation _ _ _ _ _ _ _ _ _ _ _ _ _ _ _).
  assert (link_ok (set_evaluations (<[re_fresh_row env := e]> (evaluations db))
                     (set_submissions (<[i := t]> (submissions db)) db))) as Hlink
    by (by apply (link_ok_accept db i s); [apply Hok|..]).
  destruct Hok as [H1 H2 H3 H4 H5 H6 H7 H8 H9 H10 H11]. split; cbn; try assumption.
  - intros j s' [[<- <-]|[_ Hj]]%lookup_insert_Some; [exact (H5 i s Hs)|exact (H5 j s' Hj)].
  - by apply (keys_unique_row db i s t).
  - destruct H8 as [H8 H8']. split; [|exact H8'].
    cbn. intros k r [[<- <-]|[_ Hk]]%lookup_insert_Some; [|by apply H8]. done.
  - intros j x Hj. apply is_Some_insert. by apply (H10 j).
Qed.
End Effects.

Section RequestChanges.
Context `{PyRepr} (u : CurrentUser) (read d d' : Db) (Hch : request_change u read d d').
Context (Hok : db_ok d) (Hkept : kept read d).

Lemma request_change_ok : is_Some (users d !! cu_id u) -> db_ok d'.
Proof using Type*.
  intros Hu. destruct Hch as [|d' Hstep|row x d' Hins _ Hst Hjobs|i s0 s t d' _ _ _ Hs (Hid & Hp & Hc & Hk & Hf) Hst Hjobs
    |settings env i s dl _ Hs _ Hst Hfree].
  - done.
  - exact (catalog_step_ok d Hok u read d' Hkept Hu Hstep).
  - eapply jobs_apart_ok; [|exact Hjobs]. by eapply new_submission_ok.
  - eapply jobs_apart_ok; [|exact Hjobs]. apply (changed_submission_ok d Hok i s t); try done.
    destruct Hst as [?|[Hst Hst']]; [by left|right]. by rewrite Hst, Hst'.
  - by apply accepted_ok.
Qed.

Lemma request_change_kept : kept d d'.
Proof using Type*.
  destruct Hch as [|d' Hstep|row x d' Hins _ Hst Hjobs|i s0 s t d' _ _ _ Hs (Hid & Hp & Hc & Hk & Hf) Hst Hjobs
    |settings env i s dl _ Hs _ Hst Hfree].
  - reflexivity.
  - destruct Hstep as [h _ _ _ _ _ Hfree|id h0 h now _ _ _ _ Hh|c h _ _ _ _ _ _ Hfree
      |id c0 c h now _ _ _ _ _ _ Hc|id c h now _ Hc _ _ Hst];
      kept_tac; (apply kept_row; [intros y; split_and!; auto with cf|]); intros y Hy; try congruence;
      [assert (y = h) as -> by congruence|assert (y = c) as -> by congruence..];
      cbn; split_and!; auto. destruct (ok_hackathons _ Hok id h Hh) as (_ & _ & Hncl). by destruct (h_status h).
  - etrans; [|by apply jobs_apart_kept]. apply insert_row_Ok in Hins as (Hfree & _).
    apply submission_row_kept. intros s Hs. congruence.
  - etrans; [|by apply jobs_apart_kept]. apply submission_row_kept. intros s' Hs'.
    assert (s' = s) as -> by congruence. split_and!; try done. destruct Hst as [->|[? _]]; auto.
  - unfold accepted. cbn [snd].
    etrans; [apply (submission_row_kept d i (s <| s_status := S_SUBMITTED |> <| s_updated_at := re_now env |>))|].
    + intros s' Hs'. assert (s' = s) as -> by congruence. split_and!; try done. by left.
    + kept_tac. apply kept_row; [intros y; split_and!; auto with cf|]. intros y Hy. congruence.
Qed.

(** A request that began after [start] reopens nothing of [start]. *)
Lemma request_change_reopens start :
  kept start d -> never_reopened start read -> never_reopened start d -> never_reopened start d'.
Proof using Hch.
  intros Hks Hread Hd. assert (challenges d' = challenges d -> never_reopened start d') as Hsame
    by (intros Heq i c c'; rewrite Heq; apply Hd).
  destruct Hch as [|d' Hstep|row x d' _ _ _ (t & -> & _)|i s0 s t d' _ _ _ _ _ _ (t' & -> & _)
    |settings env i s dl _ _ _ _ _]; try exact (Hsame eq_refl).
  destruct Hstep as [h _ _ _ _ _ _|id h0 h now _ _ _ _ _|c1 h _ _ _ _ _ _ Hfree
      |id c0 c1 h now _ Hr _ _ Hdr _ Hc1|id c1 h now _ Hc1 _ _ Hst]; try exact (Hsame eq_refl);
    intros i c c' Hc; cbn; intros [[<- <-]|[_ Hi]]%lookup_insert_Some; try by eapply Hd.
  - destruct (kept_challenges _ _ Hks _ _ Hc) as (c2 & Hc2 & _). congruence.
  - pose proof (Hread id c c0 Hc Hr) as Hle. rewrite Hdr in Hle. cbn in *. lia.
  - pose proof (Hd id c c1 Hc Hc1) as Hle. rewrite Hst in Hle. cbn in *. lia.
Qed.
End RequestChanges.

(** * Workers *)

Import EvaluationRepository.

(** Only the evaluations and the scheduler row differ. *)
Definition queue_only (db0 db : Db) : Prop :=
  db = db0 <| evaluations := evaluations db |> <| scheduler_state := scheduler_state db |>.

Lemma preserves_mapM {E S A B} (P : S -> Prop) (f : A -> M E S B) l :
  (forall x, preserves P (f x)) -> preserves P (mapM f l).
Proof.
  intros Hf. induction l as [|x l IH]; [intros s Hs; exact Hs|].
  change (mapM f (x :: l)) with (y ← f x; k ← mapM f l; mret (y :: k)).
  apply preserves_bind; [done|]. intros y. apply preserves_bind; [done|]. intros k. apply preserves_ret.
Qed.

(** Shows that a composition of statements keeps a predicate. *)
Ltac preserves_tac :=
  repeat first
    [ solve [auto with cf]
    | apply preserves_bind; [|intro]
    | apply preserves_mapM; intro
    | match goal with |- preserves _ (match ?x with _ => _ end) => destruct x end ].

Section QueueFrame.
Context (db0 : Db).

Lemma queue_evaluations t d : queue_only db0 d -> queue_only db0 (set_evaluations t d).
Proof. unfold queue_only. intros Hd. rewrite Hd. by destruct db0. Qed.
Lemma queue_scheduler t d : queue_only db0 d -> queue_only db0 (set_scheduler_state t d).
Proof. unfold queue_only. intros Hd. rewrite Hd. by destruct db0. Qed.

Lemma keeps_insert r : preserves (queue_only db0) (insert_evaluation r).
Proof.
  intros d Hd. unfold insert_evaluation, insert_row. destruct (evaluations d !! _); [done|].
  destruct (_ && _); [|done]. by apply queue_evaluations.
Qed.
Lemma keeps_update i r : preserves (queue_only db0) (update_evaluation i r).
Proof.
  intros d Hd. unfold update_evaluation. rewrite update_row_run. destruct (evaluation_check r); [|done].
  by apply queue_evaluations.
Qed.
Lemma keeps_ensure v : preserves (queue_only db0) (ensure_scheduler_state v).
Proof. intros d Hd. cbn. destruct (scheduler_state d); [done|]. by apply queue_scheduler. Qed.
Lemma keeps_lock : preserves (queue_only db0) lock_scheduler_state.
Proof. intros d Hd. unfold lock_scheduler_state, get_st. rewrite run_bind. by destruct (scheduler_state d). Qed.
Lemma keeps_save s : preserves (queue_only db0) (save_scheduler_state s).
Proof.
  intros d Hd. unfold save_scheduler_state. rewrite run_bind. destruct (scheduler_check s); [|done].
  by apply queue_scheduler.
Qed.
#[local] Hint Resolve keeps_insert keeps_update keeps_ensure keeps_lock keeps_save : cf.

Lemma perform_frame `{PyRepr} a : preserves (queue_only db0) (perform a).
Proof.
  destruct a; cbn [perform];
    unfold create_queued, claim_next, defer_escalation, release_for_retry, finish_at_stage, mark_succeeded,
      mark_failed, begin_execution_attempt, recover_stale_running, persist_runtime_state,
      persist_interactive_hint, update_owned, EvaluationRepository.get, take_row; preserves_tac.
Qed.
End QueueFrame.

Lemma step_frame `{PyRepr} a db : queue_only db (step db a).
Proof.
  assert (queue_only db db) as Hdb by (by destruct db).
  pose proof (perform_frame db a db Hdb) as Hp. unfold step, run_action.
  destruct (perform a db) as [[rows|e] db']; [|done]. by destruct (rolled_back a rows).
Qed.

(** Only a creation adds an evaluation. *)
Definition is_create (a : Action) : bool := match a with ACreate _ _ _ _ _ _ _ => true | _ => false end.

Section NoNewRow.
Context `{PyRepr} (db : Db) (k : uuid).

Lemma owner_step_absent id w f a :
  evaluations db !! k = None -> rolled_back a = (fun _ => false) ->
  perform a = (o ← update_owned id w f; mret (option_list o)) ->
  evaluations (step db a) !! k = None.
Proof.
  intros Hk Hrb Ha. unfold step. rewrite (run_action_bind _ _ _ _ Ha), Hrb.
  destruct (update_owned_run id w f db) as [(r & Hr & _ & _ & _ & ->)|[[e ->]|[-> _]]]; try done.
  cbn. rewrite lookup_insert_ne; [done|]. intros ->. congruence.
Qed.

(** The observability columns are written next to the queue. *)
Lemma observed_absent a :
  match a with ARuntime _ _ | AHint _ _ _ => True | _ => False end ->
  evaluations db !! k = None -> evaluations (step db a) !! k = None.
Proof.
  intros Ha Hk. enough (evaluations (step db a) = evaluations db) as -> by done.
  assert (forall v g, preserves (fun d => evaluations d = evaluations db)
            (ensure_scheduler_state v ;; state ← lock_scheduler_state; save_scheduler_state (g state))) as Hpub.
  { intros v g. apply preserves_bind; [|intros _; apply preserves_bind; [|intros st]]; intros d Hd.
    - cbn. by destruct (scheduler_state d).
    - unfold lock_scheduler_state, get_st. rewrite run_bind. by destruct (scheduler_state d).
    - unfold save_scheduler_state. rewrite run_bind. by destruct (scheduler_check _). }
  assert (preserves (fun d => evaluations d = evaluations db) (perform a)) as Hp.
  { destruct a; try done; cbn [perform]; (apply preserves_bind; [apply Hpub|intros _; apply preserves_ret]). }
  specialize (Hp db eq_refl). unfold step, run_action.
  destruct (perform a db) as [[rows|e] db']; [|done]. by destruct (rolled_back a rows).
Qed.

Lemma step_absent a :
  queue_wf db -> is_create a = false -> evaluations db !! k = None -> evaluations (step db a) !! k = None.
Proof.
  intros Hwf Ha Hk. destruct a; try done.
  - destruct (step_claim_rows (AClaim now worker_id policy max_workers max_heavy limit) db Hwf eq_refl)
      as [[-> _]|(r & t & w & _ & Hr & _ & _ & ->)]; [done|].
    rewrite lookup_insert_ne; [done|]. intros <-. congruence.
  - by eapply owner_step_absent.
  - by eapply owner_step_absent.
  - by eapply owner_step_absent.
  - unfold step. rewrite (run_action_bind (finish_at_stage now id score meta worker_id stage) option_list) by done.
    destruct (finish_at_stage_run now id score meta worker_id stage db)
      as [(r & Hr & _ & _ & _ & ->)|[(e & d & ->)|[-> _]]]; try done.
    cbn. rewrite lookup_insert_ne; [done|]. intros ->. congruence.
  - by eapply owner_step_absent.
  - by eapply owner_step_absent.
  - unfold step, run_action. cbn [perform].
    destruct (recover_stale_run os_of now stale_before max_attempts db Hwf) as [_ ->].
    destruct (rolled_back _ _); [done|]. cbn [snd]. by apply recover_stale_none.
  - by apply observed_absent.
  - by apply observed_absent.
Qed.
End NoNewRow.

Lemma row_change_submission r r' : row_change r r' -> e_submission_id r' = e_submission_id r.
Proof. destruct 1 as [|r r' _ (_ & Hs & _)]; done. Qed.

(** A transaction of an evaluation worker. *)
Lemma evaluation_step_ok `{PyRepr} a db : db_ok db -> is_create a = false -> db_ok (step db a).
Proof.
  intros Hok Ha. pose proof (ok_queue _ Hok) as Hwf.
  pose proof (step_wf a db Hwf) as Hwf'. pose proof (step_evolve a db Hwf) as Hev.
  pose proof (fun k => step_absent db k a Hwf Ha) as Habs. pose proof (step_frame a db) as Hf.
  assert (forall j e', evaluations (step db a) !! j = Some e' ->
            exists e, evaluations db !! j = Some e /\ e_submission_id e' = e_submission_id e) as Hback.
  { intros j e' He'. specialize (Hev j). rewrite He' in Hev. destruct (evaluations db !! j) as [e|] eqn:He.
    - exists e. split; [done|]. destruct Hev as [->|Hc]; [done|]. by apply row_change_submission.
    - rewrite Habs in He' by done. done. }
  assert (forall j e, evaluations db !! j = Some e ->
            exists e', evaluations (step db a) !! j = Some e' /\ e_submission_id e' = e_submission_id e) as Hforth.
  { intros j e He. specialize (Hev j). rewrite He in Hev. destruct (evaluations (step db a) !! j) as [e'|]; [|done].
    exists e'. split; [done|]. destruct Hev as [->|Hc]; [done|]. by apply row_change_submission. }
  destruct Hok as [H1 H2 H3 H4 H5 H6 (L1 & L2 & L3 & L4) H8 H9 H10 H11].
  unfold queue_only in Hf. generalize dependent (step db a). intros db' Hwf' _ _ Hf Hback Hforth. rewrite Hf in *.
  split; try done. split_and!; try done.
  - intros i s Hi Hst. destruct (L2 i s Hi Hst) as (j & e & He & Hs).
    destruct (Hforth j e He) as (e' & He' & Hs'). exists j, e'. split; [done|]. congruence.
  - intros j e' He'. destruct (Hback j e' He') as (e & He & Hs). rewrite Hs. exact (L3 j e He).
  - intros j1 j2 e1 e2 (e3 & He3 & Hs3)%Hback (e4 & He4 & Hs4)%Hback Heq.
    apply (L4 j1 j2 e3 e4 He3 He4). congruence.
Qed.

(** A transaction of an ingestion worker. *)
Definition is_enqueue (a : IngestAction) : bool := match a with IEnqueue _ _ _ _ => true | _ => false end.

Section IngestFrame.
Import IngestionJobRepository DocumentChunkRepository.

Lemma chunks_delete j : preserves chunks_ok (delete_for_job j).
Proof.
  intros db [Hrow Huniq]. rewrite delete_for_job_run. split; cbn.
  - intros k r [Hk _]%without_job_lookup. by apply Hrow.
  - intros k1 k2 r1 r2 [Hk1 _]%without_job_lookup [Hk2 _]%without_job_lookup. by apply Huniq.
Qed.

Lemma chunks_insert r : preserves chunks_ok (insert_chunk r).
Proof.
  intros db [Hrow Huniq]. unfold insert_chunk. destruct (insert_row _ _ _ _ _ _ db) as [[u|e] db'] eqn:E;
    [|by rewrite (insert_row_Raise _ _ _ _ _ _ _ _ _ E)].
  apply insert_row_Ok in E as (Hfree & Hck & ->). cbn.
  rewrite !andb_true_iff, !bool_decide_eq_true, negb_true_iff in Hck. destruct Hck as [[[Hc Hnone] Hj] _].
  assert (forall k r', document_chunks db !! k = Some r' -> dc_ingestion_job_id r' = dc_ingestion_job_id r ->
            dc_ordinal r' = dc_ordinal r -> False) as Hno.
  { intros k r' Hk Hjob Ho. pose proof (proj1 (rows_where_empty _ _) Hnone k r' Hk) as Hm. cbn in Hm.
    by rewrite Hjob, Ho, !bool_decide_eq_true_2 in Hm. }
  split; cbn.
  - intros k r' [[<- <-]|[_ Hk]]%lookup_insert_Some; [done|by apply Hrow].
  - intros k1 k2 r1 r2 [[<- <-]|[_ Hk1]]%lookup_insert_Some [[<- <-]|[_ Hk2]]%lookup_insert_Some He Ho; try done.
    + exfalso. by apply (Hno k2 r2).
    + exfalso. by apply (Hno k1 r1).
    + by apply (Huniq k1 k2 r1 r2).
Qed.

Lemma chunks_update i r : preserves chunks_ok (update_job i r).
Proof.
  intros db [Hrow Huniq]. unfold update_job. rewrite update_row_run. destruct (job_check r); [|done].
  split; cbn; [|exact Huniq]. intros k c Hk. destruct (Hrow k c Hk) as (? & ? & ?). auto with cf.
Qed.

Lemma chunks_job_insert r : preserves chunks_ok (insert_job r).
Proof.
  intros db [Hrow Huniq]. unfold insert_job. destruct (insert_row _ _ _ _ _ _ db) as [[u|e] db'] eqn:E;
    [|by rewrite (insert_row_Raise _ _ _ _ _ _ _ _ _ E)].
  apply insert_row_Ok in E as (_ & _ & ->). split; cbn; [|exact Huniq].
  intros k c Hk. destruct (Hrow k c Hk) as (? & ? & ?). auto with cf.
Qed.
#[local] Hint Resolve chunks_delete chunks_insert chunks_update chunks_job_insert : cf.

Lemma ingest_chunks a : preserves chunks_ok (perform_ingest a).
Proof.
  destruct a; cbn [perform_ingest];
    unfold enqueue, claim_next_job, succeed_txn, fail_txn, retry_txn, recover_stale_jobs, replace_for_job,
      mark_job_succeeded, mark_job_failed, release_job_for_retry, update_owned_job, get_job; preserves_tac.
Qed.

(** Only a request adds a job. *)
Section NoNewJob.
Context (db : Db) (k : uuid).
Definition absent (d : Db) : Prop := ingestion_jobs d !! k = None.

Lemma absent_delete j : preserves absent (delete_for_job j).
Proof. intros d Hd. by rewrite delete_for_job_run. Qed.
Lemma absent_chunk r : preserves absent (insert_chunk r).
Proof.
  intros d Hd. unfold insert_chunk. destruct (insert_row _ _ _ _ _ _ d) as [[u|e] d'] eqn:E;
    [|by rewrite (insert_row_Raise _ _ _ _ _ _ _ _ _ E)].
  by apply insert_row_Ok in E as (_ & _ & ->).
Qed.
Lemma absent_owned j w f : preserves absent (update_owned_job j w f).
Proof.
  intros d Hd. destruct (update_owned_job_run j w f d) as [(r & Hr & _ & _ & ->)|[-> _]]; [|done].
  destruct (job_check (f r)); [|done]. unfold absent in *. cbn. rewrite lookup_insert_ne; [done|].
  intros ->. congruence.
Qed.
#[local] Hint Resolve absent_delete absent_chunk absent_owned : cf.

Lemma ingest_absent a :
  jobs_wf db -> is_enqueue a = false -> absent db -> absent (ingest_step db a).
Proof.
  intros Hwf Ha Hk. unfold ingest_step.
  assert (match a with IClaim _ _ _ | IRecover _ _ _ => True | _ => preserves absent (perform_ingest a) end) as Hp
    by (destruct a; try done; cbn [perform_ingest]; unfold succeed_txn, fail_txn, retry_txn, replace_for_job,
          mark_job_succeeded, mark_job_failed, release_job_for_retry; preserves_tac).
  destruct a as [| locked now w| | | | |now sb ma|]; try done;
    try (specialize (Hp db Hk); by destruct (perform_ingest _ db) as [[u|e] d]).
  - cbn [perform_ingest]. rewrite run_bind.
    destruct (claim_next_job_run locked now w db Hwf) as [[-> _]|(r & Hr & _ & _ & _ & -> & _)]; [done|].
    cbn. unfold absent in *. cbn. rewrite lookup_insert_ne; [done|]. intros <-. congruence.
  - cbn [perform_ingest]. rewrite run_bind. destruct (recover_stale_jobs_run now sb ma db Hwf) as [-> _].
    unfold absent in *. cbn. rewrite replace_rows_notin; [done|].
    rewrite list_elem_of_fmap. intros (r & -> & ((k2 & Hk2) & _)%elem_of_stale).
    destruct (Hwf k2 r Hk2) as (Hid & _). congruence.
Qed.
End NoNewJob.
End IngestFrame.

Lemma ingestion_step_ok a db : db_ok db -> is_enqueue a = false -> db_ok (ingest_step db a).
Proof.
  intros Hok Ha. pose proof (ok_jobs _ Hok) as Hwf. pose proof (ingest_step_wf a db Hwf) as Hwf'.
  destruct (ingest_step_ok a db Hwf) as (Hev & Hf & _).
  assert (chunks_ok (ingest_step db a)) as Hchunks.
  { pose proof (ingest_chunks a db (ok_chunks _ Hok)) as Hc. unfold ingest_step.
    destruct (perform_ingest a db) as [[u|e] d]; [exact Hc|apply Hok]. }
  assert (forall i j, ingestion_jobs (ingest_step db a) !! i = Some j ->
            is_Some (submissions db !! j_submission_id j)) as Hrefs.
  { intros i j Hj. specialize (Hev i). rewrite Hj in Hev.
    destruct (ingestion_jobs db !! i) as [j0|] eqn:Hj0.
    - pose proof (ok_job_submissions _ Hok i j0 Hj0) as Hs. destruct Hev as [->|Hc]; [done|].
      destruct Hc as (_ & Hsub & _). by rewrite Hsub.
    - rewrite (ingest_absent db i a Hwf Ha Hj0) in Hj. done. }
  destruct Hok as [H1 H2 H3 H4 H5 H6 H7 H8 H9 H10 H11]. unfold keeps_rest in Hf.
  generalize dependent (ingest_step db a). intros db' Hwf' _ Hf Hchunks Hrefs. rewrite Hf in *.
  by split.
Qed.

Lemma row_change_kept r r' : row_change r r' -> same_job r r' /\ e_attempt_count r <= e_attempt_count r' /\ ~ finished r.
Proof.
  destruct 1 as [now w r Hst|r r' Hst Hsame Hatt _ _ _].
  - split; [done|]. split; [cbn; lia|]. intros [?|?]; congruence.
  - split; [done|]. split; [lia|]. intros [?|?]; congruence.
Qed.

Lemma evaluation_step_kept `{PyRepr} a db : queue_wf db -> kept db (step db a).
Proof.
  intros Hwf. pose proof (step_evolve a db Hwf) as Hev. pose proof (step_frame a db) as Hf.
  unfold queue_only in Hf. generalize dependent (step db a). intros db' Hev Hf. rewrite Hf in *. kept_tac.
  intros i e He. specialize (Hev i). cbn in Hev. rewrite He in Hev.
  destruct (evaluations db' !! i) as [e'|]; [|done]. exists e'. split; [done|].
  destruct Hev as [->|Hc]; [split_and!; auto with cf|].
  destruct (row_change_kept _ _ Hc) as (? & ? & ?). split_and!; done.
Qed.

Lemma job_change_kept j j' : job_change j j' ->
  j_submission_id j' = j_submission_id j /\ j_artifact_key j' = j_artifact_key j
  /\ j_attempt_count j <= j_attempt_count j' /\ ~ job_finished j.
Proof.
  intros (_ & Hs & Hk & _ & Htr & Hatt & _). split_and!; try done.
  - case_bool_decide; lia.
  - intros [Hst|Hst]; rewrite Hst in Htr; by destruct (j_status j').
Qed.

Lemma ingestion_step_kept a db : jobs_wf db -> kept db (ingest_step db a).
Proof.
  intros Hwf. destruct (ingest_step_ok a db Hwf) as (Hev & Hf & _). unfold keeps_rest in Hf.
  generalize dependent (ingest_step db a). intros db' Hev Hf. rewrite Hf in *. kept_tac.
  intros i j Hj. specialize (Hev i). cbn in Hev. rewrite Hj in Hev.
  destruct (ingestion_jobs db' !! i) as [j'|]; [|done]. exists j'. split; [done|].
  destruct Hev as [->|Hc]; [split_and!; auto with cf|].
  destruct (job_change_kept _ _ Hc) as (? & ? & ? & ?). split_and!; done.
Qed.

(** * Interleavings *)

Section Runs.
Context `{Sha256} `{FloatRepr} `{FloatParse} `{PyRepr}.

(** The states a system goes through from [start], the latest first, and the one it
    is in.  A request completes on the present state [db], having begun, and made
    its checks, on that state or on an earlier one, [begun]: what was committed in
    between is what others commit in its middle.  A route whose rows are locked or
    whose checks cannot be overtaken, and a request that commits nothing of its
    own, begin where they complete.  Between requests come the transactions of
    evaluation and ingestion workers, whatever they know. *)
Inductive history (start : Db) : list Db -> Db -> Prop :=
| run_nothing : history start [] start
| run_request past db begun settings env rq route plan fs db' :
    history start past db -> begun ∈ db :: past -> rn_others env begun = db ->
    db' = fst (snd (answer settings env rq route plan begun fs)) ->
    begun = db \/ overlaps route = true /\ db' <> begun ->
    history start (db :: past) db'
| run_evaluation past db a :
    history start past db -> is_create a = false -> history start (db :: past) (step db a)
| run_ingestion past db a :
    history start past db -> is_enqueue a = false -> history start (db :: past) (ingest_step db a).

(** The states reached. *)
Definition system_run (start db : Db) : Prop := exists past, history start past db.

Lemma history_app start past1 past2 db1 db2 :
  history start past1 db1 -> history db1 past2 db2 -> history start (past2 ++ past1) db2.
Proof.
  intros H1'. induction 1 as [|past db begun settings env rq route plan fs db' _ IH Hb Ho Ha Hwhen
    |past db a _ IH Ha|past db a _ IH Ha]; [done|..].
  - eapply run_request; [exact IH| |exact Ho|exact Ha|exact Hwhen].
    apply elem_of_cons in Hb as [->|Hb]; [left|right]. apply elem_of_app. by left.
  - by apply (run_evaluation start (past ++ past1)).
  - by apply (run_ingestion start (past ++ past1)).
Qed.

#[export] Instance system_run_refl : Reflexive system_run.
Proof. intros db. exists []. apply run_nothing. Qed.
#[export] Instance system_run_trans : Transitive system_run.
Proof. intros d1 d2 d3 [p1 H1'] [p2 H2']. exists (p2 ++ p1). by eapply history_app. Qed.

Lemma extend_history (start : Db) (past : list Db) (db db' : Db) :
  db_ok db -> kept start db -> (forall d, d ∈ past -> db_ok d /\ kept start d /\ kept d db) ->
  db_ok db' -> kept db db' ->
  db_ok db' /\ kept start db' /\ forall d, d ∈ db :: past -> db_ok d /\ kept start d /\ kept d db'.
Proof.
  intros Hok Hk Hpast Hok' Hk'. split_and!; [done|by etrans|].
  intros d [->|Hd]%elem_of_cons; [done|]. destruct (Hpast d Hd) as (? & ? & ?). split_and!; [done..|by etrans].
Qed.

(** The database the application starts from. *)
Definition seeded (clock : uuid -> datetime) : Db :=
  committed (snd (seed_dev_users clock (begin empty_db []))).

Lemma seed_users_ok clock l : preserves db_ok (seed_users clock l).
Proof.
  induction l as [|[[i n] r] l IH]; [apply preserves_ret|]. cbn [seed_users].
  apply preserves_bind; [intros d Hd; exact Hd|]. intros [u|]; [exact IH|].
  apply preserves_bind; [|intros _; exact IH]. intros db Hok.
  destruct (insert_row _ _ _ _ _ _ db) as [[u|e] d] eqn:E; [|by rewrite (insert_row_Raise _ _ _ _ _ _ _ _ _ E)].
  apply insert_row_Ok in E as (_ & _ & ->). cbn [snd].
  destruct Hok as [K1 K2 K3 K4 K5 K6 K7 K8 K9 K10 K11]. split; cbn; try assumption.
  - intros j u' [[<- <-]|[_ Hj]]%lookup_insert_Some; [done|by apply K1].
  - intros j h Hj. destruct (K2 j h Hj) as (? & ? & ?). auto with cf.
  - intros j s Hj. destruct (K5 j s Hj) as (? & ? & ?). auto with cf.
Qed.

Lemma seeded_ok clock : db_ok (seeded clock).
Proof.
  unfold seeded, seed_dev_users. rewrite run_bind, in_db_run. cbn [begin working].
  pose proof (seed_users_ok clock SEEDED_USERS empty_db empty_ok) as Hok.
  destruct (seed_users clock SEEDED_USERS empty_db) as [[u|e] d]; [exact Hok|apply empty_ok].
Qed.

(** A request that completes a history: what it changes of the present state. *)
Lemma request_completes settings env rq route plan begun fs :
  let db := rn_others env begun in
  let db' := fst (snd (answer settings env rq route plan begun fs)) in
  db_ok begun -> kept begun db -> begun = db \/ overlaps route = true /\ db' <> begun ->
  exists u, request_change u begun db db' /\ (db' = db \/ is_Some (users db !! cu_id u)).
Proof.
  intros db db' Hok Hk Hwhen. pose proof (answer_change settings env rq route plan begun fs) as Ha.
  cbv zeta in Ha. fold db' in Ha. unfold identity in Ha.
  destruct (text_or _ None ≫= _) as [user|] eqn:Hid; cycle 1.
  { exists nobody. destruct Hwhen as [Heq|[_ Hne]]; [|done]. rewrite Ha, Heq. split; [apply rq_same|by left]. }
  exists (from_user user). split; [|right].
  - destruct Ha as [Ha|[Ha|[Hno Ha]]]; [|exact Ha|].
    + destruct Hwhen as [Heq|[_ Hne]]; [|done]. rewrite Ha, Heq. apply rq_same.
    + destruct Hwhen as [Heq|[Hover _]]; [|congruence]. by rewrite <-Heq.
  - destruct (text_or _ None) as [raw|]; [|done]. cbn in Hid. destruct (parse_uuid raw) as [i|]; [|done]. cbn in *.
    rewrite (ok_users _ Hok i user Hid). exists user. by eapply lookup_weaken, kept_users.
Qed.

(** Every history keeps the invariant and what there is. *)
Lemma history_sound start past db :
  history start past db -> db_ok start ->
  db_ok db /\ kept start db /\ forall d, d ∈ past -> db_ok d /\ kept start d /\ kept d db.
Proof.
  intros Hh Hstart. induction Hh as [|past db begun settings env rq route plan fs db' _ IH Hb Ho -> Hwhen
    |past db a _ IH Ha|past db a _ IH Ha].
  - split_and!; [done|reflexivity|]. intros d Hd. by apply elem_of_nil in Hd.
  - destruct IH as (Hok & Hk & Hpast).
    assert (db_ok begun /\ kept begun db) as [Hokb Hkb]
      by (apply elem_of_cons in Hb as [->|Hb]; [by split|destruct (Hpast begun Hb) as (? & _ & ?); by split]).
    subst db. destruct (request_completes settings env rq route plan begun fs Hokb Hkb Hwhen) as (u & Hch & Hu).
    apply (extend_history start past); try done; [|by eapply request_change_kept].
    destruct Hu as [->|Hu]; [done|by eapply request_change_ok].
  - destruct IH as (Hok & Hk & Hp).
    apply (extend_history start past db _ Hok Hk Hp); [by apply evaluation_step_ok|apply evaluation_step_kept, Hok].
  - destruct IH as (Hok & Hk & Hp).
    apply (extend_history start past db _ Hok Hk Hp); [by apply ingestion_step_ok|apply ingestion_step_kept, Hok].
Qed.

Lemma run_sound db db' : system_run db db' -> db_ok db -> db_ok db' /\ kept db db'.
Proof. intros [past Hh] Hok. destruct (history_sound _ _ _ Hh Hok) as (? & ? & _). by split. Qed.

(** What only requests that began since [start] do reopens nothing of [start]. *)
Lemma history_reopens start past db :
  history start past db -> db_ok start ->
  never_reopened start db /\ forall d, d ∈ past -> never_reopened start d.
Proof.
  intros Hh Hstart. induction Hh as [|past db begun settings env rq route plan fs db' Hh IH Hb Ho -> Hwhen
    |past db a Hh IH Ha|past db a Hh IH Ha].
  - split; [|intros d Hd; by apply elem_of_nil in Hd]. intros i c c' Hc Hc'. assert (c' = c) as -> by congruence. lia.
  - destruct IH as [IHd IHp], (history_sound _ _ _ Hh Hstart) as (Hok & Hk & Hpast).
    assert (db_ok begun /\ kept begun db /\ never_reopened start begun) as (Hokb & Hkb & Hrb)
      by (apply elem_of_cons in Hb as [->|Hb]; [by split|destruct (Hpast begun Hb) as (? & _ & ?); auto]).
    subst db. destruct (request_completes settings env rq route plan begun fs Hokb Hkb Hwhen) as (u & Hch & _).
    split; [by eapply request_change_reopens|]. intros d [->|Hd]%elem_of_cons; auto.
  - destruct IH as [IHd IHp]. split; [|intros d [->|Hd]%elem_of_cons; auto]. intros i c c'. rewrite (step_frame a db). apply IHd.
  - destruct IH as [IHd IHp]. split; [|intros d [->|Hd]%elem_of_cons; auto]. intros i c c'.
    destruct (ingest_step_ok a db (ok_jobs _ (proj1 (history_sound _ _ _ Hh Hstart)))) as (_ & Hf & _).
    unfold keeps_rest in Hf. rewrite Hf. apply IHd.
Qed.

(** C1 The database is well-formed in every state the system reaches, from the
    seeded database on, whatever requests, by whomever and with whatever commit
    failures, and whatever transactions of evaluation and ingestion workers are
    interleaved, also in the middle of requests: each table is keyed by its
    identifiers, every row satisfies its constraints and has the columns its
    status calls for, every reference is resolved, open challenges are complete,
    a key identifies one submission of a participant, chunk ordinals do not
    repeat, and the accepted submissions are exactly the evaluated ones, each
    with one evaluation. *)
Theorem database_well_formed clock db : system_run (seeded clock) db -> db_ok db.
Proof. intros Hrun. apply (run_sound _ _ Hrun), seeded_ok. Qed.

(** C2 Nothing is lost: in every interleaving of requests, evaluation workers and
    ingestion workers from the seeded database on, no user, hackathon, challenge,
    submission, evaluation or job of an earlier state has disappeared or changed
    hands, nothing that was published is a draft again, accepted submissions are
    still accepted and cancelled ones cancelled, no attempt is forgotten, and
    finished evaluations and jobs have kept their outcome.  A closed challenge can
    be reopened only by a request that was already under way when it was closed:
    whatever requests that begin later do, in any interleaving, no challenge goes
    from closed to open. *)
Theorem nothing_is_lost clock past db :
  history (seeded clock) past db ->
  (forall d, d ∈ past -> kept d db)
  /\ forall db', system_run db db' -> kept db db' /\ never_reopened db db'.
Proof.
  intros Hh. destruct (history_sound _ _ _ Hh (seeded_ok clock)) as (Hok & _ & Hpast).
  split; [intros d Hd; by apply Hpast|]. intros db' Hrun. split; [exact (proj2 (run_sound _ _ Hrun Hok))|].
  destruct Hrun as [past' Hh']. exact (proj1 (history_reopens _ _ _ Hh' Hok)).
Qed.
End Runs.

(** * A small run *)

Module SystemSample.
#[local] Existing Instances HttpSample.sha HttpSample.repr HttpSample.parse HttpSample.prepr.
Definition clock : uuid -> datetime := fun _ => 5.
Definition env (others : Db -> Db) : RouteEnv :=
  mkRouteEnv SubmissionSample.env [9] 77 (of_Z 5) (of_Z 6) 60 others.

(** A request of the organizer that began with [begun] and completes on [db]. *)
Definition post_on (db : Db) (route : Route) (begun : Db) : Db :=
  fst (snd (answer default_settings (env (fun _ => db)) (HttpSample.by_header ORGANIZER_ID) route [] begun (mkFs ∅))).
Definition post (route : Route) (db : Db) : Db := post_on db route db.

Definition start : Db := seeded clock.
Definition created : Db := post (POST_hackathons (py "H") (py "d")) start.
Definition published : Db := post (POST_hackathon_publish 100) created.
Definition drafted : Db :=
  post (POST_hackathon_challenges 100
          (mkChallengeRequest (py "C") (py "d") [] (py "spec") [(py "n", py "d", 1)])) published.
Definition opened : Db := post (POST_challenge_publish 100) drafted.
Definition closed : Db := post (POST_challenge_close 100) opened.
(** The publication that began with the draft. *)
Definition reopened : Db := post_on closed (POST_challenge_publish 100) drafted.

Example created_and_published :
  (h_status <$> hackathons created !! 100, h_status <$> hackathons published !! 100)
  = (Some H_DRAFT, Some H_PUBLISHED).
Proof. vm_compute. reflexivity. Qed.

Example closed_and_reopened :
  (c_status <$> challenges drafted !! 100, c_status <$> challenges opened !! 100,
   c_status <$> challenges closed !! 100, c_status <$> challenges reopened !! 100)
  = (Some C_DRAFT, Some C_PUBLISHED, Some C_CLOSED, Some C_PUBLISHED).
Proof. vm_compute. reflexivity. Qed.

Lemma post_history from past route db :
  history from past db -> history from (db :: past) (post route db).
Proof.
  intros Hh. apply (run_request from past db db default_settings (env (fun _ => db))
                      (HttpSample.by_header ORGANIZER_ID) route [] (mkFs ∅) _ Hh); [left|done|done|by left].
Qed.

(** A request that others overtake. *)
Lemma post_on_history past route db begun :
  history start past db -> begun ∈ past -> overlaps route = true -> post_on db route begun <> begun ->
  history start (db :: past) (post_on db route begun).
Proof.
  intros Hh Hb Hover Hne. apply (run_request start past db begun default_settings (env (fun _ => db))
      (HttpSample.by_header ORGANIZER_ID) route [] (mkFs ∅) _ Hh); [by right|done|done|by right].
Qed.

Lemma created_history : history start [start] created.
Proof. exact (post_history _ [] _ start (run_nothing start)). Qed.
Lemma published_history : history start [created; start] published.
Proof. exact (post_history _ _ _ created created_history). Qed.
Lemma drafted_history : history start [published; created; start] drafted.
Proof. exact (post_history _ _ _ published published_history). Qed.
Lemma opened_history : history start [drafted; published; created; start] opened.
Proof. exact (post_history _ _ _ drafted drafted_history). Qed.
Lemma closed_history : history start [opened; drafted; published; created; start] closed.
Proof. exact (post_history _ _ _ opened opened_history). Qed.

Lemma created_run : system_run start created.
Proof. eexists. apply created_history. Qed.
Lemma published_run : system_run created published.
Proof.
  exists [created]. exact (post_history created [] _ created (run_nothing created)).
Qed.

Lemma reopened_is_new : reopened <> drafted.
Proof.
  intros Heq%(f_equal (fun d => c_status <$> challenges d !! 100)). revert Heq. vm_compute. discriminate.
Qed.

(** An overtaken publication reopens what was closed after it began. *)
Lemma reopening_history :
  history start [closed; opened; drafted; published; created; start] reopened.
Proof.
  apply (post_on_history _ (POST_challenge_publish 100) closed drafted closed_history);
    [right; left|done|exact reopened_is_new].
Qed.
End SystemSample.

Lemma database_well_formed_witness :
  hackathons SystemSample.created !! 100 <> None /\ db_ok SystemSample.created.
Proof.
  split; [vm_compute; discriminate|].
  exact (database_well_formed SystemSample.clock SystemSample.created SystemSample.created_run).
Defined.

Lemma nothing_is_lost_witness :
  hackathons SystemSample.published !! 100 <> None
  /\ kept SystemSample.start SystemSample.created
  /\ kept SystemSample.created SystemSample.published
  /\ never_reopened SystemSample.created SystemSample.published.
Proof.
  split; [vm_compute; discriminate|].
  destruct (nothing_is_lost SystemSample.clock [SystemSample.start] SystemSample.created
              SystemSample.created_history) as [Hpast Hnext].
  split; [apply Hpast; left|]. exact (Hnext SystemSample.published SystemSample.published_run).
Defined.
