(* ===== verification/Measurements.v ===== *)
(** The measuring code of the experiments (src/scripts/): order statistics of
    latencies, the trend of a queue, the exact tracking of pool checkouts, the mixes
    of workloads a scenario submits, the traffic mix of its command line and the
    summary of its requests.

    Times are floats in milliseconds; a generator of random numbers is the
    numbers it draws. *)
From Stdlib Require Import ZArith Lia String SpecFloat.
From stdpp Require Import prelude strings sorting.
From S2P Require Import Prelude PyFloat PyStr Domain Runtime Workloads.
Local Open Scope string_scope.
Local Open Scope Z_scope.
Local Open Scope list_scope.

(** * Latencies *)

(** [values[i]] for an index that may count from the end. *)
Definition py_nth {A} (l : list A) (i : Z) : option A :=
  l !! Z.to_nat (if i <? 0 then i + zlen l else i).

(** [math.ceil(len(ordered) * fraction)], where it is a number. *)
Definition ceil_share (n : Z) (fraction : float) : Z := default 0 (fceil (fmul (of_Z n) fraction)).

(** [scripts/concurrency_experiment.py:54-59 percentile] *)
Definition sample_percentile (values : list float) (fraction : float) : float :=
  match values with
  | [] => fzero
  | _ =>
      let ordered := sorted_floats values in
      let index := Z.min (zlen ordered - 1) (ceil_share (zlen ordered) fraction - 1) in
      fround 2 (default fzero (py_nth ordered index))
  end.

(** [min(values)], [max(values)] and [sum(values)] of floats. *)
Definition list_min (values : list float) : float :=
  match values with [] => fzero | v :: values => foldl fmin v values end.
Definition list_max (values : list float) : float :=
  match values with [] => fzero | v :: values => foldl fmax v values end.
Definition list_mean (values : list float) : float :=
  fdiv (foldl fadd fzero values) (of_Z (zlen values)).

(** [round(f(values), 2) if values else 0.0] *)
Definition rounded (f : list float -> float) (values : list float) : float :=
  if nonempty values then fround 2 (f values) else fzero.

(** [scripts/capacity_experiment.py:59-66 latency] *)
Definition latency (values : list float) : list (string * float) :=
  [("min_ms", rounded list_min values);
   ("mean_ms", rounded list_mean values);
   ("p50_ms", sample_percentile values (lit 50 100));
   ("p95_ms", sample_percentile values (lit 95 100));
   ("max_ms", rounded list_max values)].

(** [scripts/interactive_capacity_experiment.py:93-100 latency] *)
Definition interactive_latency (values : list float) : list (string * float) :=
  [("mean_ms", rounded list_mean values);
   ("p50_ms", sample_percentile values (lit 50 100));
   ("p95_ms", sample_percentile values (lit 95 100));
   ("p99_ms", sample_percentile values (lit 99 100));
   ("max_ms", rounded list_max values)].

(** [scripts/hard_mix_pressure_experiment.py:134-141 latency] *)
Definition mix_latency (values : list float) : list (string * float) :=
  [("p50_ms", sample_percentile values (lit 50 100));
   ("p95_ms", sample_percentile values (lit 95 100));
   ("p99_ms", sample_percentile values (lit 99 100));
   ("mean_ms", rounded list_mean values);
   ("max_ms", rounded list_max values)].

(** * The trend of a queue *)

(** [sum(values)] of integers. *)
Definition zsum (l : list Z) : Z := foldr Z.add 0 l.

(** [scripts/capacity_experiment.py:69-78 classify_queue_trend]; [-len(depths) // 3]
    is the floor of minus a third. *)
Definition classify_queue_trend (depths : list Z) : string :=
  if zlen depths <? 4 then "insufficient_samples"
  else
    let third := zlen depths / 3 in
    let early := int_truediv (zsum (slice depths 0 third)) (Z.max 1 third) in
    let late := int_truediv (zsum (slice depths ((- zlen depths) / 3) (zlen depths)))
                  (Z.max 1 third) in
    if fgt late (fmul early (lit 125 100)) && fge (fsub late early) (of_Z 5) then "growing"
    else if flt late (fmul early (lit 75 100)) && fge (fsub early late) (of_Z 5) then "draining"
    else "stable".

(** A queue that does not move is not always stable: the last part is the last third
    rounded up, and its sum is divided by the third rounded down. *)
Example constant_queue_grows :
  classify_queue_trend <$> [replicate 4 40; replicate 5 40; replicate 8 40; replicate 11 40; replicate 12 40]
  = ["growing"; "growing"; "growing"; "growing"; "stable"].
Proof. vm_compute. reflexivity. Qed.

(** * Tracking the pool *)

(** [scripts/concurrency_experiment.py:129-136 PoolTracker] *)
Record PoolTracker := mkPool { pt_current : Z; pt_peak : Z; pt_total_checkouts : Z }.

(** [scripts/concurrency_experiment.py:129-158 PoolTracker], its events, each under the
    lock. *)
Inductive PoolEvent := Checkout | Checkin | Reset.

(** [scripts/concurrency_experiment.py:138-151 PoolTracker] *)
Definition pool_event (t : PoolTracker) (e : PoolEvent) : PoolTracker :=
  match e with
  | Checkout => let n := pt_current t + 1 in mkPool n (Z.max (pt_peak t) n) (pt_total_checkouts t + 1)
  | Checkin => mkPool (pt_current t - 1) (pt_peak t) (pt_total_checkouts t)
  | Reset => mkPool (pt_current t) (pt_current t) 0
  end.

Definition pool_run (events : list PoolEvent) (t : PoolTracker) : PoolTracker := foldl pool_event t events.

(** [scripts/concurrency_experiment.py:153-158 PoolTracker.snapshot] *)
Definition pool_snapshot (t : PoolTracker) : list (string * Z) :=
  [("exact_peak_pool_checked_out", pt_peak t); ("pool_checkouts", pt_total_checkouts t)].

(** The connections out after each of some checkouts and checkins, from [n] on. *)
Fixpoint levels (n : Z) (events : list PoolEvent) : list Z :=
  match events with
  | [] => []
  | Checkout :: events => (n + 1) :: levels (n + 1) events
  | Checkin :: events => (n - 1) :: levels (n - 1) events
  | Reset :: events => n :: levels n events
  end.

Definition is_checkout (e : PoolEvent) : bool := match e with Checkout => true | _ => false end.
Definition is_reset (e : PoolEvent) : bool := match e with Reset => true | _ => false end.

Lemma foldr_max_base a b l : foldr Z.max (Z.max a b) l = Z.max b (foldr Z.max a l).
Proof. induction l as [|x l IH]; cbn; lia. Qed.

Lemma foldr_max_above a l : a <= foldr Z.max a l.
Proof. induction l as [|x l IH]; cbn; lia. Qed.

Lemma pool_run_levels events t :
  forallb (fun e => negb (is_reset e)) events = true -> pt_current t <= pt_peak t ->
  pt_peak (pool_run events t) = foldr Z.max (pt_peak t) (levels (pt_current t) events)
  /\ pt_total_checkouts (pool_run events t)
     = pt_total_checkouts t + zlen (List.filter is_checkout events).
Proof.
  revert t. induction events as [|e events IH]; intros t Hev Hle; cbn in *; [unfold zlen; cbn; lia|].
  apply andb_true_iff in Hev as [He Hev]. unfold pool_run in *. cbn [foldl].
  destruct e; [| |done]; cbn [is_checkout];
    (edestruct IH as [-> ->]; [done|cbn; lia|]); cbn [pool_event pt_current pt_peak pt_total_checkouts].
  - rewrite foldr_max_base, zlen_cons. cbn [levels foldr]. lia.
  - pose proof (foldr_max_above (pt_peak t) (levels (pt_current t - 1) events)). cbn [levels foldr]. lia.
Qed.

Lemma pool_run_app a b t : pool_run (a ++ b) t = pool_run b (pool_run a t).
Proof. apply foldl_app. Qed.

(** Short checkouts are not missed: after a reset, whatever checkouts and checkins
    follow and however short they are, the peak reported is the largest number of
    connections ever out since, and the count is the number of checkouts. *)
Theorem peak_is_exact (before events : list PoolEvent) (t : PoolTracker) :
  forallb (fun e => negb (is_reset e)) events = true ->
  let n := pt_current (pool_run before t) in
  pool_snapshot (pool_run (before ++ Reset :: events) t)
  = [("exact_peak_pool_checked_out", foldr Z.max n (levels n events));
     ("pool_checkouts", zlen (List.filter is_checkout events))].
Proof.
  intros Hev n. rewrite pool_run_app. change (Reset :: events) with ([Reset] ++ events).
  rewrite pool_run_app.
  destruct (pool_run_levels events (pool_run [Reset] (pool_run before t)) Hev) as [H1 H2];
    [cbn; lia|].
  unfold pool_snapshot. by rewrite H1, H2.
Qed.

Lemma peak_is_exact_witness :
  pool_snapshot (pool_run [Checkout; Reset; Checkout; Checkout; Checkin; Checkin] (mkPool 0 0 0))
  = [("exact_peak_pool_checked_out", 3); ("pool_checkouts", 2)].
Proof. exact (peak_is_exact [Checkout] [Checkout; Checkout; Checkin; Checkin] (mkPool 0 0 0) eq_refl). Defined.

(** * Mixes of workloads *)

(** [scripts/hard_mix_pressure_experiment.py:69-122 MIX_WEIGHTS] *)
Definition MIX_WEIGHTS : list (string * list (string * Z)) :=
  [("mostly_easy",
    [("easy_pass", 4); ("easy_fail", 4); ("ambiguous_pass", 1); ("ambiguous_fail", 1)]);
   ("balanced",
    [("easy_pass", 2); ("easy_fail", 2); ("ambiguous_pass", 2); ("ambiguous_fail", 1); ("hard_pass", 2);
     ("hard_fail", 1)]);
   ("difficult",
    [("easy_pass", 1); ("easy_fail", 1); ("ambiguous_pass", 2); ("ambiguous_fail", 2); ("hard_pass", 2);
     ("hard_fail", 2)]);
   ("adversarial",
    [("adversarial_pass", 3); ("adversarial_fail", 3); ("hard_pass", 2); ("hard_fail", 2)]);
   ("heavy_dominated",
    [("easy_pass", 1); ("easy_fail", 0); ("ambiguous_pass", 1); ("ambiguous_fail", 1); ("hard_pass", 4);
     ("hard_fail", 3)]);
   ("hard_70",
    [("easy_pass", 1); ("easy_fail", 1); ("ambiguous_pass", 1); ("hard_pass", 2); ("hard_fail", 2);
     ("adversarial_pass", 2); ("adversarial_fail", 1)]);
   ("hard_90",
    [("easy_pass", 1); ("hard_pass", 3); ("hard_fail", 2); ("adversarial_pass", 2); ("adversarial_fail", 2)])].

(** [scripts/hard_mix_pressure_experiment.py:62-62 MAX_EVALS_PER_SCENARIO] *)
Definition MAX_EVALS_PER_SCENARIO : Z := 24.

(** [scripts/hard_mix_pressure_experiment.py:144-150 kind_to_workload_class] *)
Definition kind_to_workload_class (kind : pystr) : WorkloadClass :=
  let key := lower kind in
  if startswith key (py "easy") then W_LIGHT
  else if startswith key (py "ambiguous") then W_MEDIUM
  else W_HEAVY.

(** [round(x)] to an integer, where it is a number. *)
Definition round_int (x : float) : Z :=
  match x with
  | S754_finite s m e => let (n, d) := frac m e in round_half_even (if s then - n else n) d
  | _ => 0
  end.

(** [scripts/hard_mix_pressure_experiment.py:161-168 expand_mix], the loop. *)
Fixpoint mix_counts (total weight_sum assigned : Z) (weights : list (string * Z)) : list (string * Z) :=
  match weights with
  | [] => []
  | [(kind, _)] => [(kind, Z.max 0 (total - assigned))]
  | (kind, w) :: weights =>
      let n := Z.max 0 (round_int (int_truediv (total * w) weight_sum)) in
      (kind, n) :: mix_counts total weight_sum (assigned + n) weights
  end.

(** [counts[-1] = (kind, max(0, n + drift))] *)
Fixpoint add_drift (drift : Z) (counts : list (string * Z)) : list (string * Z) :=
  match counts with
  | [] => []
  | [(kind, n)] => [(kind, Z.max 0 (n + drift))]
  | c :: counts => c :: add_drift drift counts
  end.

(** [x[i], x[j] = x[j], x[i]] *)
Definition swap {A} (i j : nat) (l : list A) : list A :=
  match l !! i, l !! j with
  | Some a, Some b => <[i := b]> (<[j := a]> l)
  | _, _ => l
  end.

(** [random.shuffle(x)]: from the last index down to one, with the index drawn for
    each. *)
Fixpoint shuffle_from {A} (draw : nat -> nat) (i : nat) (l : list A) : list A :=
  match i with
  | O => l
  | S i' => shuffle_from draw i' (swap i (draw i) l)
  end.
Definition shuffle {A} (draw : nat -> nat) (l : list A) : list A := shuffle_from draw (length l - 1) l.

(** [scripts/hard_mix_pressure_experiment.py:153-179 expand_mix]; the seed is the
    numbers it draws. *)
Definition expand_mix (mix_name : string) (total : Z) (draw : nat -> nat) : result exn (list string) :=
  match snd <$> List.find (fun m => String.eqb m.1 mix_name) MIX_WEIGHTS with
  | None => Raise (ValueError ("unknown mix: " +:+ mix_name))
  | Some weights =>
      let total := Z.max 1 (Z.min total MAX_EVALS_PER_SCENARIO) in
      let weight_sum := match zsum weights.*2 with 0 => 1 | s => s end in
      let counts := mix_counts total weight_sum 0 weights in
      let drift := total - zsum counts.*2 in
      let counts := if drift =? 0 then counts else add_drift drift counts in
      let kinds := counts ≫= (fun c => replicate (Z.to_nat c.2) c.1) in
      Ok (take (Z.to_nat total) (shuffle draw kinds))
  end.

(** Every kind but the last has at least its share of weight, the last at least one. *)
Fixpoint weights_ok (weights : list (string * Z)) : bool :=
  match weights with
  | [] => false
  | [(_, w)] => 0 <? w
  | (_, w) :: weights => (0 <=? w) && weights_ok weights
  end.

Lemma mixes_ok name weights :
  snd <$> List.find (fun m => String.eqb m.1 name) MIX_WEIGHTS = Some weights -> weights_ok weights = true.
Proof.
  unfold MIX_WEIGHTS. cbn [List.find fst]. repeat (case_match; [intros [= <-]; vm_compute; done|]). done.
Qed.

(** The counts: never negative, at least the total together, and none for a kind
    without weight. *)
Definition counts_ok (weights : list (string * Z)) (least : Z) (counts : list (string * Z)) : Prop :=
  least <= zsum counts.*2 /\ Forall (fun c => 0 <= c.2 /\ (0 < c.2 -> exists w, c.1 = w.1 /\ w ∈ weights /\ 0 < w.2)) counts.

Lemma zero_share b : int_truediv 0 b = S754_zero (match b with Zneg _ => true | _ => false end)
                     \/ int_truediv 0 b = S754_nan.
Proof. destruct b; cbn; auto. Qed.

Lemma mix_counts_ok total weight_sum assigned weights :
  weights_ok weights = true ->
  counts_ok weights (total - assigned) (mix_counts total weight_sum assigned weights).
Proof.
  revert assigned. induction weights as [|[kind w] weights IH]; intros assigned Hw; [done|].
  cbn [mix_counts]. cbn [weights_ok] in Hw. destruct weights as [|w' weights].
  - split; cbn; [lia|]. constructor; [|done]. cbn. split; [lia|]. intros _. exists (kind, w).
    repeat split; [by left|]. cbn. lia.
  - apply andb_true_iff in Hw as [Hw0 Hw]. set (n := Z.max 0 _).
    destruct (IH (assigned + n) Hw) as [Hsum Hall]. split.
    + cbn. unfold zsum in Hsum |- *. cbn in Hsum. lia.
    + constructor.
      * cbn. split; [lia|]. intros Hn. exists (kind, w). repeat split; [by left|]. cbn.
        destruct (decide (w = 0)) as [->|Hne]; [|lia]. exfalso. revert Hn. unfold n.
        rewrite Z.mul_0_r. by destruct (zero_share weight_sum) as [-> | ->].
      * eapply Forall_impl; [exact Hall|]. intros c [H1 H2]. split; [done|]. intros Hc.
        destruct (H2 Hc) as (x & ? & ? & ?). exists x. repeat split; [done|by right|done].
Qed.

Lemma add_drift_ok weights least counts drift :
  drift <= 0 -> counts_ok weights least counts -> counts_ok weights (least + drift) (add_drift drift counts).
Proof.
  intros Hd. revert least. induction counts as [|c counts IH]; intros least [Hsum Hall].
  - split; [|done]. cbn in *. lia.
  - apply Forall_cons in Hall as [[Hc Hc'] Hall]. destruct counts as [|c' counts].
    + destruct c as [kind n]. cbn in *. split; cbn; [lia|]. constructor; [|done]. cbn. split; [lia|].
      intros Hn. apply Hc'. lia.
    + destruct (IH (least - c.2)) as [Hs Ha]; [split; [cbn in *; lia|exact Hall]|].
      assert (add_drift drift (c :: c' :: counts) = c :: add_drift drift (c' :: counts)) as -> by (by destruct c).
      split; [cbn [fmap list_fmap] in *; unfold zsum in *; cbn [foldr]; lia|]. by constructor.
Qed.

Lemma swap_perm {A} i j (l : list A) : swap i j l ≡ₚ l.
Proof.
  unfold swap. destruct (l !! i) as [a|] eqn:Hi; [|done]. destruct (l !! j) as [b|] eqn:Hj; [|done].
  by apply Permutation_insert_swap.
Qed.

Lemma shuffle_perm {A} draw (l : list A) : shuffle draw l ≡ₚ l.
Proof.
  unfold shuffle. generalize (length l - 1)%nat. intros n. revert l.
  induction n as [|n IH]; intros l; [done|]. cbn [shuffle_from]. by rewrite IH, swap_perm.
Qed.

Lemma expand_counts counts :
  Forall (fun c => 0 <= c.2) counts ->
  zlen (counts ≫= (fun c : string * Z => replicate (Z.to_nat c.2) c.1)) = zsum counts.*2.
Proof.
  induction 1 as [|c counts Hc _ IH]; [done|]. cbn. rewrite zlen_app, IH.
  unfold zlen. rewrite length_replicate. unfold zsum. cbn. lia.
Qed.

(** A scenario submits exactly the evaluations it was asked for, within the cap:
    whatever total is asked for and whatever the generator draws, an unknown mix is
    refused, and a known one expands to between one and 24 kinds, exactly the total
    in that range, every one of them a kind of the mix with positive weight: the
    rounding of the shares, the correction of the drift and the shuffle neither
    lose nor invent a kind. *)
Theorem expand_mix_exact (name : string) (total : Z) (draw : nat -> nat) :
  match snd <$> List.find (fun m => String.eqb m.1 name) MIX_WEIGHTS with
  | None => expand_mix name total draw = Raise (ValueError ("unknown mix: " +:+ name))
  | Some weights =>
      exists kinds, expand_mix name total draw = Ok kinds
      /\ zlen kinds = Z.max 1 (Z.min total MAX_EVALS_PER_SCENARIO)
      /\ forall kind, kind ∈ kinds -> exists w, (kind, w) ∈ weights /\ 0 < w
  end.
Proof.
  unfold expand_mix. destruct (snd <$> _) as [weights|] eqn:Hfind; [|done]. cbv zeta.
  set (n := Z.max 1 _). set (ws := match zsum _ with 0 => 1 | _ => _ end).
  set (counts0 := mix_counts n ws 0 weights). set (drift := n - zsum counts0.*2).
  pose proof (mix_counts_ok n ws 0 weights (mixes_ok _ _ Hfind)) as H0. fold counts0 in H0.
  rewrite Z.sub_0_r in H0.
  assert (counts_ok weights n (if drift =? 0 then counts0 else add_drift drift counts0)) as Hok.
  { destruct (Z.eqb_spec drift 0); [done|]. destruct H0 as [Hs Ha].
    replace n with (zsum counts0.*2 + drift) by (unfold drift; lia).
    apply add_drift_ok; [unfold drift; lia|]. by split. }
  revert Hok. generalize (if drift =? 0 then counts0 else add_drift drift counts0). intros counts Hok. destruct Hok as [Hs Ha].
  set (kinds := counts ≫= _). eexists. split; [reflexivity|]. split.
  - assert (zlen kinds = zsum counts.*2) as Hlen.
    { apply expand_counts. eapply Forall_impl; [exact Ha|]. cbn. tauto. }
    pose proof (Permutation_length (shuffle_perm draw kinds)) as Hp. unfold zlen in *.
    rewrite length_take. lia.
  - intros kind Hk. apply elem_of_take in Hk as (i & Hi & _). apply list_elem_of_lookup_2 in Hi.
    rewrite shuffle_perm in Hi. apply list_elem_of_bind in Hi as (c & Hc & Hcin).
    apply elem_of_replicate in Hc as [-> Hpos].
    rewrite Forall_forall in Ha. destruct (Ha c Hcin) as (Hnn & Hw).
    destruct Hw as ([k w] & Hkw & Hin & Hpw); [lia|]. exists w. cbn in Hkw. by rewrite Hkw.
Qed.

Example expand_mix_ex :
  expand_mix "heavy_dominated" 7 (fun i => 0%nat)
  = Ok ["ambiguous_pass"; "ambiguous_fail"; "hard_pass"; "hard_pass"; "hard_pass"; "hard_fail"; "easy_pass"].
Proof. vm_compute. reflexivity. Qed.

(** * Counting and grouping *)

Section Grouping.
Context {A K : Type} `{EqDecision K}.

(** [groups[key(x)].append(x)] for each, in a [defaultdict] of lists. *)
Fixpoint group_add (k : K) (x : A) (groups : list (K * list A)) : list (K * list A) :=
  match groups with
  | [] => [(k, [x])]
  | (k', xs) :: groups =>
      if bool_decide (k = k') then (k', xs ++ [x]) :: groups else (k', xs) :: group_add k x groups
  end.
Definition group_by (key : A -> K) (l : list A) : list (K * list A) :=
  foldl (fun groups x => group_add (key x) x groups) [] l.

Lemma group_add_lengths k x groups :
  zsum (zlen <$> (group_add k x groups).*2) = zsum (zlen <$> groups.*2) + 1.
Proof.
  induction groups as [|[k' xs] groups IH]; [done|]. cbn. case_bool_decide; cbn; [rewrite zlen_app|];
    unfold zsum, zlen in *; cbn in *; lia.
Qed.

(** Nothing is lost: the groups have the length of the list together. *)
Lemma group_by_lengths key l : zsum (zlen <$> (group_by key l).*2) = zlen l.
Proof.
  unfold group_by. assert (forall g, zsum (zlen <$> (foldl (fun gs x => group_add (key x) x gs) g l).*2)
                                     = zsum (zlen <$> g.*2) + zlen l) as H.
  { induction l as [|x l IH]; intros g; cbn [foldl]; [unfold zlen; cbn; lia|].
    rewrite IH, group_add_lengths, zlen_cons. lia. }
  rewrite H. done.
Qed.

(** Every member of a group has its key. *)
Lemma group_by_keys key l k xs : (k, xs) ∈ group_by key l -> Forall (fun x => key x = k) xs.
Proof.
  unfold group_by. assert (forall g : list (K * list A),
    (forall k xs, (k, xs) ∈ g -> Forall (fun x => key x = k) xs) ->
    forall k xs, (k, xs) ∈ foldl (fun gs x => group_add (key x) x gs) g l ->
    Forall (fun x => key x = k) xs) as H.
  { induction l as [|x l IH]; intros g Hg; [done|]. cbn [foldl]. apply IH. clear IH.
    induction g as [|[k1 ys] g IHg]; cbn; intros k2 zs.
    - intros [[= -> ->]|Hin]%elem_of_cons; [by constructor|by apply not_elem_of_nil in Hin].
    - case_bool_decide as Hk; (intros [[= -> ->]|Hin]%elem_of_cons).
      + apply Forall_app. split; [apply Hg; by left|by constructor].
      + apply Hg. by right.
      + apply Hg. by left.
      + apply IHg; [|done]. intros k3 ws Hw. apply Hg. by right. }
  intros Hin. eapply H; [|exact Hin]. intros ? ? []%not_elem_of_nil.
Qed.
End Grouping.

(** [Counter(values)] *)
Definition counter {K} `{EqDecision K} (values : list K) : list (K * Z) :=
  (fun g => (g.1, zlen g.2)) <$> group_by id values.

Lemma counter_total {K} `{EqDecision K} (values : list K) : zsum (counter values).*2 = zlen values.
Proof.
  rewrite <-(group_by_lengths id values). unfold counter. rewrite <-!list_fmap_compose. f_equal.
Qed.

(** [scripts/hard_mix_pressure_experiment.py:186-187 mix_summary.share], by the prefixes of
    the kinds. *)
Definition share (kinds : list string) (prefixes : list string) : float :=
  let counts := counter kinds in
  let n := if nonempty kinds then zlen kinds else 1 in
  fround 4 (int_truediv
    (zsum (snd <$> List.filter (fun c => existsb (fun p => String.prefix p c.1) prefixes) counts)) n).

(** [scripts/hard_mix_pressure_experiment.py:182-197 mix_summary] *)
Definition mix_summary (kinds : list string) : list (string * Z) * Z * list (string * float) :=
  (counter kinds, zlen kinds,
   [("easy_share", share kinds ["easy"]);
    ("ambiguous_share", share kinds ["ambiguous"]);
    ("hard_share", share kinds ["hard"]);
    ("adversarial_share", share kinds ["adversarial"]);
    ("hard_or_adversarial_share", share kinds ["hard"; "adversarial"])]).

(** * The requests of a scenario *)

(** [scripts/interactive_capacity_experiment.py:147-152 InteractiveObservation] *)
Record InteractiveObservation := mkObservation {
  io_category : string;
  io_status : option Z;
  io_latency_ms : float;
  io_timed_out : bool;
  io_error : option string;
}.
#[export] Instance InteractiveObservation_eq_dec : EqDecision InteractiveObservation.
Proof. solve_decision. Defined.

(** [o.status is not None and 200 <= o.status < 300] *)
Definition ok_status (o : InteractiveObservation) : bool :=
  match io_status o with Some s => (200 <=? s) && (s <? 300) | None => false end.

Definition timeouts (l : list InteractiveObservation) : Z := zlen (List.filter io_timed_out l).

(** [round(100 * a / n, 3) if n else 0.0] *)
Definition percent (a n : Z) : float := if n =? 0 then fzero else fround 3 (int_truediv (100 * a) n).

Record CategorySummary := mkCategory {
  cs_requests : Z;
  cs_success_rate_percent : float;
  cs_timeouts : Z;
  cs_latency : list (string * float);
}.

(** [scripts/interactive_capacity_experiment.py:417-426 summarize_interactive.category_summary] *)
Definition category_summary (items : list InteractiveObservation) : CategorySummary :=
  let ok := List.filter ok_status items in
  mkCategory (zlen items) (percent (zlen ok) (zlen items)) (timeouts items)
    (interactive_latency (io_latency_ms <$> items)).

Record InteractiveSummary := mkSummary {
  is_attempted : Z;
  is_successful : Z;
  is_errors : Z;
  is_timeouts : Z;
  is_success_rate_percent : float;
  is_error_rate_percent : float;
  is_elapsed_seconds : float;
  is_achieved_requests_per_second : float;
  is_latency : list (string * float);
  is_status_codes : list (option Z * Z);
  is_error_types : list (string * Z);
  is_by_category : list (string * CategorySummary);
}.

(** [scripts/interactive_capacity_experiment.py:408-451 summarize_interactive]; an error
    is an observation that is not among the successful ones. *)
Definition summarize_interactive (observations : list InteractiveObservation) (elapsed : float)
    : InteractiveSummary :=
  let successful := List.filter ok_status observations in
  let errors := List.filter (fun o => negb (bool_decide (o ∈ successful))) observations in
  let n := zlen observations in
  mkSummary n (zlen successful) (zlen errors) (timeouts observations)
    (percent (zlen successful) n) (percent (zlen errors) n) (fround 3 elapsed)
    (fround 3 (if feqb elapsed fzero then fzero else fdiv (of_Z n) elapsed))
    (interactive_latency (io_latency_ms <$> observations))
    (counter (io_status <$> observations))
    (counter (List.filter (fun e => negb (String.eqb e "")) (omap io_error errors)))
    ((fun g => (g.1, category_summary g.2)) <$> group_by io_category observations).

(** The books balance: every request is counted once as a success or an error, once
    by its status and once in its category, and the categories' requests add up to
    the requests made. *)
Theorem summary_accounts (observations : list InteractiveObservation) (elapsed : float) :
  let s := summarize_interactive observations elapsed in
  is_attempted s = is_successful s + is_errors s
  /\ is_errors s = zlen (List.filter (fun o => negb (ok_status o)) observations)
  /\ zsum (is_status_codes s).*2 = is_attempted s
  /\ zsum ((fun c => cs_requests c.2) <$> is_by_category s) = is_attempted s.
Proof.
  cbv zeta. unfold summarize_interactive. cbn [is_attempted is_successful is_errors is_status_codes is_by_category].
  assert (forall l, (forall o, o ∈ l -> o ∈ observations) ->
            List.filter (fun o => negb (bool_decide (o ∈ List.filter ok_status observations))) l
            = List.filter (fun o => negb (ok_status o)) l) as Hf.
  { induction l as [|o l IH]; intros Hin; [done|]. cbn. rewrite IH by (intros; apply Hin; by right).
    f_equal. assert (bool_decide (o ∈ List.filter ok_status observations) = ok_status o) as ->; [|done].
    destruct (ok_status o) eqn:E; [apply bool_decide_eq_true_2|apply bool_decide_eq_false_2];
      rewrite elem_of_filterb; [|by intros [_ ?]; congruence]. split; [apply Hin; by left|done]. }
  rewrite (Hf observations) by done. split_and!; [|done|..].
  - clear Hf. induction observations as [|o l IH]; [done|].
    cbn. destruct (ok_status o); cbn; rewrite !zlen_cons; lia.
  - rewrite counter_total. unfold zlen. by rewrite length_fmap.
  - rewrite <-(group_by_lengths io_category observations), <-!list_fmap_compose. f_equal.
Qed.

Lemma summary_accounts_sample :
  let s := summarize_interactive
             [mkObservation "challenge_reads" (Some 200) (of_Z 10) false None;
              mkObservation "evaluation_status" (Some 500) (of_Z 30) false None;
              mkObservation "challenge_reads" None (of_Z 5000) true (Some "ReadTimeout")] (of_Z 2) in
  is_status_codes s = [(Some 200, 1); (Some 500, 1); (None, 1)] /\ is_error_types s = [("ReadTimeout", 1)]
  /\ is_achieved_requests_per_second s = lit 15 10.
Proof. vm_compute. split; [|split]; reflexivity. Qed.

(** * Arguments *)

(** [scripts/interactive_capacity_experiment.py:56-62 DEFAULT_MIX] *)
Definition DEFAULT_MIX : list (pystr * Z) :=
  [(py "challenge_reads", 60); (py "evaluation_status", 15); (py "participant_history", 10);
   (py "submission_creation", 10); (py "organizer_operations", 5)].

Definition categories : list pystr := DEFAULT_MIX.*1.

(** [d[k] = v] *)
Fixpoint dict_put (k : pystr) (v : Z) (d : list (pystr * Z)) : list (pystr * Z) :=
  match d with
  | [] => [(k, v)]
  | (k', v') :: d => if bool_decide (k = k') then (k, v) :: d else (k', v') :: dict_put k v d
  end.

(** [name, value = item.split("=", 1)]; without the separator unpacking fails. *)
Definition split_pair (item : pystr) : option (pystr * pystr) :=
  let i := find_char item 61 in
  if i <? 0 then None else Some (slice item 0 i, slice item (i + 1) (zlen item)).

(** [set(mix) == set(DEFAULT_MIX)] *)
Definition same_keys (a b : list pystr) : bool :=
  forallb (fun k => bool_decide (k ∈ b)) a && forallb (fun k => bool_decide (k ∈ a)) b.

(** [scripts/interactive_capacity_experiment.py:107-111 parse_mix], the loop; the messages
    are left out. *)
Fixpoint parse_items (items : list pystr) (supplied : list (pystr * Z)) : option (list (pystr * Z)) :=
  match items with
  | [] => Some supplied
  | item :: items =>
      '(name, v) ← split_pair item;
      if bool_decide (strip name ∈ categories) then
        n ← int_of_text v;
        parse_items items (dict_put (strip name) n supplied)
      else None
  end.

(** [scripts/interactive_capacity_experiment.py:113-118 parse_mix], the checks. *)
Definition check_mix (mix : list (pystr * Z)) : option (list (pystr * Z)) :=
  if negb (same_keys mix.*1 categories) || negb (zsum mix.*2 =? 100) then None
  else if existsb (fun n => n <? 0) mix.*2 then None
  else Some mix.

(** [scripts/interactive_capacity_experiment.py:103-119 parse_mix]; [None] is
    [ValueError]. *)
Definition parse_mix (raw : pystr) : option (list (pystr * Z)) :=
  mix ← (if nonempty raw then parse_items (split_on 44 raw) [] else Some DEFAULT_MIX);
  check_mix mix.

Lemma dict_put_elem k v d x : x ∈ (dict_put k v d).*1 <-> x = k \/ x ∈ d.*1.
Proof.
  induction d as [|[k' v'] d IH]; cbn; [by rewrite !elem_of_cons, !elem_of_nil|].
  case_bool_decide as E; cbn; rewrite !elem_of_cons; [subst; tauto|]. rewrite IH. tauto.
Qed.

Lemma dict_put_nodup k v d : NoDup d.*1 -> NoDup (dict_put k v d).*1.
Proof.
  induction d as [|[k' v'] d IH]; cbn; intros Hd; [repeat constructor; by intros ?%not_elem_of_nil|].
  apply NoDup_cons in Hd as [Hk Hd]. case_bool_decide as E; cbn; [subst; by constructor|].
  constructor; [|by apply IH]. rewrite dict_put_elem. intros [-> |?]; contradiction.
Qed.

Lemma parse_items_keys items supplied mix :
  NoDup supplied.*1 -> (forall k, k ∈ supplied.*1 -> k ∈ categories) ->
  parse_items items supplied = Some mix ->
  NoDup mix.*1 /\ (forall k, k ∈ mix.*1 -> k ∈ categories).
Proof.
  revert supplied. induction items as [|item items IH]; intros supplied Hd Hk; [by intros [= <-]|].
  cbn [parse_items]. destruct (split_pair item) as [[name v]|]; [|done]. cbn.
  case_bool_decide as Hin; [|done]. destruct (int_of_text v) as [n|]; [|done]. cbn.
  apply IH; [by apply dict_put_nodup|]. intros k Hk'. apply dict_put_elem in Hk' as [-> |?]; auto.
Qed.

(** A traffic mix that is accepted can be drawn from: it gives each of the five
    categories exactly one share, none negative, and the shares add up to 100; and
    the default mix is accepted. *)
Theorem parse_mix_ok (raw : pystr) (mix : list (pystr * Z)) :
  parse_mix raw = Some mix ->
  mix.*1 ≡ₚ categories /\ zsum mix.*2 = 100 /\ Forall (fun n => 0 <= n) mix.*2.
Proof.
  unfold parse_mix. destruct (if nonempty raw then _ else _) as [m|] eqn:Hm; [|done].
  change (check_mix m = Some mix -> mix.*1 ≡ₚ categories /\ zsum mix.*2 = 100 /\ Forall (fun n => 0 <= n) mix.*2).
  assert (NoDup categories) as Hdef by (apply (bool_decide_unpack (NoDup categories)); vm_compute; exact I).
  assert (NoDup m.*1) as Hnd.
  { destruct (nonempty raw); [|by injection Hm as <-].
    apply (parse_items_keys _ [] _) in Hm as [? _]; [done|constructor|intros k []%not_elem_of_nil]. }
  clear Hm. unfold check_mix. revert Hdef. generalize categories. intros cats Hdef H.
  destruct (negb (same_keys m.*1 cats) || _) eqn:E; [done|].
  destruct (existsb _ m.*2) eqn:Hneg; [done|]. injection H as ->.
  apply orb_false_iff in E as [Hsame Hsum]. apply negb_false_iff in Hsame, Hsum.
  split_and!.
  - unfold same_keys in Hsame. apply andb_true_iff in Hsame as [H1 H2].
    rewrite forallb_forall in H1, H2. apply NoDup_Permutation; [done..|]. intros k. split; intros Hk.
    + specialize (H1 k). rewrite bool_decide_eq_true in H1. by apply H1, list_elem_of_In.
    + specialize (H2 k). rewrite bool_decide_eq_true in H2. by apply H2, list_elem_of_In.
  - lia.
  - rewrite Forall_forall. intros n Hn. destruct (Z.ltb_spec n 0); [|lia].
    exfalso. apply not_true_iff_false in Hneg. apply Hneg, existsb_exists.
    exists n. split; [by apply list_elem_of_In|lia].
Qed.

Definition mix_text : pystr :=
  py "challenge_reads=50, evaluation_status=25,participant_history=10 ,submission_creation=10,organizer_operations= 5".

Lemma parse_mix_ok_witness : exists mix, parse_mix mix_text = Some mix /\ zsum mix.*2 = 100.
Proof.
  assert (exists mix, parse_mix mix_text = Some mix) as [mix Hm] by (eexists; vm_compute; reflexivity).
  exists mix. split; [exact Hm|]. exact (proj1 (proj2 (parse_mix_ok _ _ Hm))).
Defined.

Example parse_mix_default : parse_mix [] = Some DEFAULT_MIX.
Proof. vm_compute. reflexivity. Qed.

(** [scripts/interactive_isolated_profile.py:55-59 clients_for_rate], with the cap
    [MAX_CLIENTS]. *)
Definition clients_for_rate (rate : float) : Z :=
  if fle rate (of_Z 10) then 8 else Z.min 100 (Z.max 8 (round_int rate)).

(** Why a measurement stops; the numbers of the text are left out. *)
Inductive Saturation := TimeoutRate | ErrorRate | AchievedRate | ClientP95 | ServerP95.

(** [scripts/interactive_isolated_profile.py:62-82 saturation_reason], over the numbers of
    the summary it reads. *)
Definition saturation_reason (attempted error_count timeout_count : Z)
    (achieved client_p95 server_p95 offered : float) : option Saturation :=
  let n := Z.max 1 attempted in
  if fge (int_truediv timeout_count n) (lit 5 100) then Some TimeoutRate
  else if fge (int_truediv error_count n) (lit 5 100) then Some ErrorRate
  else if fge offered (of_Z 10) && flt achieved (fmul (lit 7 10) offered) then Some AchievedRate
  else if fge client_p95 (of_Z 2000) then Some ClientP95
  else if fge server_p95 (of_Z 2000) then Some ServerP95
  else None.
