(* ===== verification/Experiments.v ===== *)
(** Experiments over single components: the comparison of chunking strategies
    (src/scripts/chunking_representation_experiment.py), the consistency scenarios of
    the artifact store (src/scripts/artifact_storage_consistency_experiment.py) and
    the gate of the execution experiment (src/scripts/execution_isolation_experiment.py).
    What each of them reports of the code it runs is proved for every input it could
    be given. *)
From Stdlib Require Import ZArith Lia String.
From stdpp Require Import prelude strings gmap sorting.
From S2P Require Import Prelude PyFloat PyStr Domain Json Canonical Chunking ChunkingSpec Storage ExecutionContract Executor Measurements.
Local Open Scope string_scope.
Local Open Scope Z_scope.
Local Open Scope list_scope.

(** * Chunking strategies *)

Module ChunkingExperiment.
Section Strategies.
Context `{Sha256}.

Record Summary := mkSummary {
  su_n_chunks : Z;
  su_min : option Z;
  su_max : option Z;
  su_oversized_splits : Z;
  su_heading_coverage : Z;
  su_total_chars : option Z;
  su_source_chars : option Z;
}.

Definition sizes (chunks : list ChunkDraft) : list Z := (fun c => zlen (d_content c)) <$> chunks.

(** [scripts/chunking_representation_experiment.py:84-108 summarize], without the mean and
    the median. *)
Definition summarize (chunks : list ChunkDraft) (text_len : Z) : Summary :=
  match sizes chunks with
  | [] => mkSummary 0 None None 0 0 None None
  | z :: l =>
      mkSummary (zlen (z :: l)) (Some (foldl Z.min z l)) (Some (foldl Z.max z l))
        (zlen (List.filter d_oversized_split chunks))
        (zlen (List.filter (fun c => nonempty (d_heading_path c)) chunks))
        (Some (zsum (z :: l))) (Some text_len)
  end.

Record Strategy := mkStrategy {
  sg_summary : Summary;
  sg_provenance_ok : bool;
  sg_bounded : bool;
  sg_no_empty : bool;
  sg_deterministic_repeat : bool;
}.

(** [scripts/chunking_representation_experiment.py:111-134 run_strategy], without the
    latency. *)
Definition run_strategy (fn : CanonicalDocument -> Z -> result exn (list ChunkDraft))
    (doc : CanonicalDocument) (max_chars : Z) : result exn Strategy :=
  match fn doc max_chars with
  | Raise e => Raise e
  | Ok chunks =>
      let prov_ok := forallb (fun c => bool_decide (slice (doc_text doc) (d_char_start c) (d_char_end c) = d_content c)) chunks in
      let bounded := forallb (fun c => zlen (d_content c) <=? max_chars) chunks in
      let no_empty := forallb (fun c => nonempty (strip (d_content c))) chunks in
      match fn doc max_chars with
      | Raise e => Raise e
      | Ok again =>
          let ident c := (d_ordinal c, d_content_sha256 c) in
          Ok (mkStrategy (summarize chunks (zlen (doc_text doc))) prov_ok bounded no_empty
                (bool_decide (ident <$> chunks = ident <$> again)))
      end
  end.

(** The fixed strategy of the experiment, without overlap. *)
Definition fixed (doc : CanonicalDocument) (max_chars : Z) : result exn (list ChunkDraft) :=
  chunk_fixed_chars doc max_chars 0.

(** * The checks *)

(** What the report checks of one chunk, with the order of the chunks. *)
Definition piece (text : pystr) (m : Z) (d : ChunkDraft) : Prop :=
  0 <= d_char_start d <= d_char_end d /\ d_char_end d <= zlen text
  /\ d_content d = slice text (d_char_start d) (d_char_end d)
  /\ zlen (d_content d) <= m /\ blank (d_content d) = false.

Lemma slice_length (text : pystr) a b : 0 <= a <= b -> b <= zlen text -> zlen (slice text a b) = b - a.
Proof.
  intros. rewrite slice_in_range by lia. unfold zlen in *. rewrite length_take, length_drop. lia.
Qed.

Lemma fixed_loop_pieces fuel text m step pos n :
  1 <= m -> m <= step -> 0 <= pos ->
  Forall (piece text m) (fixed_loop fuel text m step pos n)
  /\ drafts_ordered pos n (fixed_loop fuel text m step pos n).
Proof.
  intros Hm Hs. revert pos n. induction fuel as [|f IH]; intros pos n Hpos; [done|].
  cbn [fixed_loop]. destruct (Z.ltb_spec pos (zlen text)) as [Hlt|]; [|done].
  set (e := Z.min (zlen text) (pos + m)).
  assert (forall k, let more := if zlen text <=? e then [] else fixed_loop f text m step (pos + step) k in
            Forall (piece text m) more /\ drafts_ordered e k more) as Hmore.
  { intros k. cbv zeta. destruct (zlen text <=? e); [done|]. destruct (IH (pos + step) k) as [H1 H2]; [lia|].
    split; [done|]. destruct (fixed_loop f text m step (pos + step) k) as [|d ds]; [done|].
    destruct H2 as (? & ? & ?). split; [unfold e in *; lia|done]. }
  destruct (blank (slice text pos e)) eqn:Hb.
  - destruct (Hmore n) as [H1 H2]. split; [done|].
    destruct (if zlen text <=? e then [] else _) as [|d ds]; [done|].
    destruct H2 as (? & ? & ?). split; [unfold e in *; lia|done].
  - destruct (Hmore (n + 1)) as [H1 H2]. split; [constructor; [|done]|].
    + unfold piece. cbn. rewrite slice_length by (unfold e; lia). unfold e.
      repeat split; try done; lia.
    + cbn. repeat split; [lia|]. exact H2.
Qed.

Lemma draft_piece text m d : draft_ok text m d -> piece text m d.
Proof. intros ((? & ?) & ? & ? & ? & ? & _). unfold piece. repeat split; try done; lia. Qed.

(** Chunks in order take no more characters than the text has. *)
Lemma ordered_total text m b n ds :
  Forall (piece text m) ds -> drafts_ordered b n ds -> 0 <= b <= zlen text ->
  zsum (sizes ds) <= zlen text - b.
Proof.
  revert b n. induction ds as [|d ds IH]; intros b n Hp Ho Hb; [cbn; lia|].
  apply Forall_cons in Hp as [((? & ?) & ? & Hc & _ & _) Hp]. destruct Ho as (? & _ & Ho).
  specialize (IH _ _ Hp Ho ltac:(lia)). cbn. rewrite Hc, slice_length by lia.
  unfold sizes, zsum in *. cbn in *. lia.
Qed.

Lemma strategy_sound fn doc m chunks :
  fn doc m = Ok chunks -> Forall (piece (doc_text doc) m) chunks -> drafts_ordered 0 0 chunks ->
  exists s, run_strategy fn doc m = Ok s
  /\ sg_provenance_ok s = true /\ sg_bounded s = true /\ sg_no_empty s = true
  /\ sg_deterministic_repeat s = true /\ su_n_chunks (sg_summary s) = zlen chunks
  /\ default 0 (su_total_chars (sg_summary s)) <= zlen (doc_text doc).
Proof.
  intros Hfn Hp Ho. unfold run_strategy. rewrite Hfn. eexists. split; [reflexivity|].
  cbn [sg_provenance_ok sg_bounded sg_no_empty sg_deterministic_repeat sg_summary].
  rewrite Forall_forall in Hp. split_and!.
  - apply forallb_forall. intros c Hc%list_elem_of_In. apply bool_decide_eq_true.
    destruct (Hp c Hc) as (_ & _ & ? & _). done.
  - apply forallb_forall. intros c Hc%list_elem_of_In. destruct (Hp c Hc) as (_ & _ & _ & ? & _). lia.
  - apply forallb_forall. intros c Hc%list_elem_of_In. destruct (Hp c Hc) as (_ & _ & _ & _ & Hb).
    by rewrite strip_idemp_nonempty, Hb.
  - by apply bool_decide_eq_true.
  - unfold summarize, sizes. destruct chunks as [|c cs]; [done|]. cbn. unfold zlen. cbn.
    by rewrite length_fmap.
  - rewrite <-Forall_forall in Hp. pose proof (ordered_total _ _ 0 0 _ Hp Ho) as Ht.
    unfold summarize. destruct (sizes chunks) as [|z l] eqn:E; cbn [su_total_chars default].
    + unfold zlen. lia.
    + unfold id. unfold zlen in *. lia.
Qed.

(** Both strategies pass every check of the report, on every text and for every
    budget: each chunk is the span of the text it says, within the budget and not
    blank, running them again gives the same chunks, and together they take no more
    characters than the text has. *)
Theorem strategies_pass (raw : pystr) (m : Z) :
  1 <= m ->
  let doc := normalize_to_canonical raw in
  Forall (fun fn => exists s, run_strategy fn doc m = Ok s
            /\ sg_provenance_ok s = true /\ sg_bounded s = true /\ sg_no_empty s = true
            /\ sg_deterministic_repeat s = true
            /\ default 0 (su_total_chars (sg_summary s)) <= zlen (doc_text doc))
    [chunk_hybrid; fixed].
Proof.
  intros Hm doc. constructor; [|constructor; [|constructor]].
  - destruct (chunk_hybrid_spec doc m (canonical_no_trailing raw) (canonical_empty_blank raw) Hm)
      as (ds & Hrun & Hok & Hord & _).
    destruct (strategy_sound chunk_hybrid doc m ds Hrun) as (s & ? & ? & ? & ? & ? & _ & ?); [|done|by exists s].
    eapply Forall_impl; [exact Hok|]. apply draft_piece.
  - assert (exists ds, fixed doc m = Ok ds /\ Forall (piece (doc_text doc) m) ds /\ drafts_ordered 0 0 ds)
      as (ds & Hrun & Hp & Ho).
    { unfold fixed, chunk_fixed_chars. destruct (blank (doc_text doc)); [by exists []|].
      rewrite (proj2 (Z.leb_gt m 0)) by lia. cbn [orb Z.ltb].
      eexists. split; [reflexivity|]. apply fixed_loop_pieces; lia. }
    destruct (strategy_sound fixed doc m ds Hrun Hp Ho) as (s & ? & ? & ? & ? & ? & _ & ?). by exists s.
Qed.
End Strategies.
End ChunkingExperiment.

(** * The artifact store *)

Module ArtifactExperiment.
Section Scenarios.
(** The modification time of the files written, the clock of the sweeps and the
    identifiers drawn. *)
Variable now clock : float.
Variable uuid4 : nat -> uuid.

(** [f"submissions/exp/{uuid4()}.bin"] *)
Definition exp_key (n : nat) : pystr := py "submissions/exp/" ++ uuid_str (uuid4 n) ++ py ".bin".

Definition octets : pystr := py "application/octet-stream".
Definition put (n : nat) (data : bytes) : M exn Fs pystr := fs_put now (exp_key n) data octets.
Definition orphans (referenced : list (option pystr)) (grace : float) (del : bool) : M exn Fs ReconcileReport :=
  reconcile_orphans referenced (py "submissions/") grace clock del.

(** [scripts/artifact_storage_consistency_experiment.py:31-40 scenario_blob_ok_db_fail_without_compensate]:
    whether the blob is an orphan. *)
Definition scenario_blob_ok_db_fail_without_compensate (n : nat) : M exn Fs bool :=
  put n (py "orphan-me") ;; fs_exists (exp_key n).

(** [scripts/artifact_storage_consistency_experiment.py:43-52 scenario_blob_ok_db_fail_with_compensate] *)
Definition scenario_blob_ok_db_fail_with_compensate (n : nat) : M exn Fs bool :=
  put n (py "compensate-me") ;;
  _ ← compensate_delete (Some (exp_key n));
  fs_exists (exp_key n).

(** [scripts/artifact_storage_consistency_experiment.py:55-74 scenario_db_ok_blob_fail]: the
    put fails before it starts; whether the blob exists and the keys referenced. *)
Definition scenario_db_ok_blob_fail (n : nat) : M exn Fs (bool * list pystr) :=
  exists_ ← fs_exists (exp_key n); mret (exists_, []).

(** [scripts/artifact_storage_consistency_experiment.py:77-89 scenario_duplicate_upload_replace] *)
Definition scenario_duplicate_upload_replace (old new : nat) : M exn Fs (bool * bool) :=
  put old (py "v1") ;;
  put new (py "v2") ;;
  _ ← compensate_delete (Some (exp_key old));
  old_exists ← fs_exists (exp_key old);
  new_exists ← fs_exists (exp_key new);
  mret (old_exists, new_exists).

(** [scripts/artifact_storage_consistency_experiment.py:92-106 scenario_same_content_twice] *)
Definition scenario_same_content_twice (a b : nat) : M exn Fs bool :=
  put a (py "identical-bytes") ;;
  put b (py "identical-bytes") ;;
  a_exists ← fs_exists (exp_key a);
  b_exists ← fs_exists (exp_key b);
  mret (a_exists && b_exists).

(** [scripts/artifact_storage_consistency_experiment.py:109-128 scenario_reconcile] *)
Definition scenario_reconcile (live orphan : nat) : M exn Fs bool :=
  put live (py "live") ;;
  put orphan (py "dead") ;;
  _ ← orphans [Some (exp_key live)] fzero true;
  live_exists ← fs_exists (exp_key live);
  orphan_exists ← fs_exists (exp_key orphan);
  mret (live_exists && negb orphan_exists).

(** [scripts/artifact_storage_consistency_experiment.py:131-147 scenario_reconcile_grace] *)
Definition scenario_reconcile_grace (young : nat) : M exn Fs bool :=
  put young (py "inflight") ;;
  report ← orphans [] (of_Z 3600) true;
  young_exists ← fs_exists (exp_key young);
  mret (young_exists && bool_decide (exp_key young ∈ rr_skipped_young report)).

(** [scripts/artifact_storage_consistency_experiment.py:150-161 scenario_reconcile_idempotent] *)
Definition scenario_reconcile_idempotent (orphan : nat) : M exn Fs bool :=
  put orphan (py "x") ;;
  r1 ← orphans [] fzero true;
  r2 ← orphans [] fzero true;
  still ← fs_exists (exp_key orphan);
  mret (bool_decide (exp_key orphan ∈ rr_deleted r1) && negb (bool_decide (exp_key orphan ∈ rr_deleted r2))
        && negb still).

(** [scripts/artifact_storage_consistency_experiment.py:164-178 scenario_missing_referenced] *)
Definition scenario_missing_referenced (missing : nat) : M exn Fs bool :=
  report ← orphans [Some (exp_key missing)] fzero false;
  mret (bool_decide (exp_key missing ∈ rr_missing_referenced report)).

Record Findings := mkFindings {
  fi_compensate_closes_orphan : bool;
  fi_uncompensated_still_orphans : bool;
  fi_reconcile_ok : bool;
  fi_grace_ok : bool;
  fi_reconcile_idempotent : bool;
  fi_replaced : bool;
  fi_missing_detected : bool;
}.

(** [scripts/artifact_storage_consistency_experiment.py:181-205 decide], over the scenarios
    of [main] run one after the other on one store. *)
Definition run_scenarios : M exn Fs Findings :=
  orphan ← scenario_blob_ok_db_fail_without_compensate 0;
  compensated ← scenario_blob_ok_db_fail_with_compensate 1;
  _ ← scenario_db_ok_blob_fail 2;
  '(old_exists, new_exists) ← scenario_duplicate_upload_replace 3 4;
  _ ← scenario_same_content_twice 5 6;
  reconciled ← scenario_reconcile 7 8;
  grace ← scenario_reconcile_grace 9;
  idempotent ← scenario_reconcile_idempotent 10;
  missing ← scenario_missing_referenced 11;
  mret (mkFindings (negb compensated) orphan reconciled grace idempotent (negb old_exists && new_exists) missing).
End Scenarios.

(** The run of the experiment, one second after the files were written. *)
Example scenarios_hold :
  fst (run_scenarios (of_Z 1000) (of_Z 1001) (fun n => Z.of_nat n + 2 ^ 64) (mkFs ∅))
  = Ok (mkFindings true true true true true true true).
Proof. vm_compute. reflexivity. Qed.
End ArtifactExperiment.

(** * Uploads *)

Module UploadExperiment.
Section Failures.
Context `{Sha256}.
Variable now clock : float.
Variable uuid4 : nat -> uuid.

Definition staging (n : nat) : path := incoming_root ++ [uuid_str (uuid4 n)].
Definition upload (n : nat) (data : bytes) (max_bytes : Z) (expected : option pystr) : M exn Fs IncomingUpload :=
  sync_stream_to_incoming now (uuid4 n) [data] max_bytes (py "application/octet-stream") expected.
Definition staged (n : nat) : M exn Fs bool := gets_st (fun fs => is_file fs (staging n)).

(** [except ValidationFailed]: whether the upload was rejected. *)
Definition rejected (c : M exn Fs IncomingUpload) : M exn Fs bool :=
  catch (_ ← c; mret false)
    (fun e => match e with DomainExn ValidationFailed _ => mret true | e => raise e end).

(** The names of the staging files. *)
Definition incoming_names (fs : Fs) : list pystr :=
  (fun kv => default [] (last kv.1))
    <$> List.filter (fun kv => bool_decide (take 1 kv.1 = incoming_root)) (map_to_list (files fs)).

(** [scripts/large_upload_architecture_experiment.py:133-239 failure_matrix]: the invariant
    of each of the six cases. *)
Definition failure_matrix : M exn Fs (list bool) :=
  (* an upload abandoned half way *)
  modify_st (write_file now (staging 0) (py "partial")) ;;
  abort (mkIncoming (staging 0) 7 (py "x") (py "application/octet-stream") false) ;;
  partial ← staged 0;
  (* finalised, then compensated *)
  inc2 ← upload 1 (py "complete-bytes") 1024 None;
  let key := py "submissions/fail/" ++ uuid_str (uuid4 2) ++ py ".bin" in
  _ ← fs_put_from_path now key (iu_staging_path inc2) (iu_content_type inc2);
  _ ← compensate_delete (Some key);
  failed ← fs_exists key;
  (* finalised *)
  inc3 ← upload 3 (py "ok-bytes") 1024 None;
  let key3 := py "submissions/ok/" ++ uuid_str (uuid4 4) ++ py ".bin" in
  _ ← fs_put_from_path now key3 (iu_staging_path inc3) (iu_content_type inc3);
  exists3 ← fs_exists key3;
  gone3 ← staged 3;
  (* a checksum that does not match *)
  mismatch ← rejected (upload 5 (py "abc") 1024 (Some (replicate 64 48)));
  (* an abandoned staging file *)
  modify_st (write_file (fsub clock (of_Z 10000)) (staging 6) (py "abandoned")) ;;
  _ ← cleanup_incoming clock (of_Z 60);
  stale ← staged 6;
  (* too large *)
  before ← gets_st incoming_names;
  oversize ← rejected (upload 7 (replicate 100 120) 10 None);
  after ← gets_st incoming_names;
  let left := oversize && existsb (fun n => negb (bool_decide (n ∈ before))) after in
  mret [negb partial; negb failed; exists3 && negb gone3; mismatch; negb stale; negb left].

(** [scripts/large_upload_architecture_experiment.py:81-130 measure_streaming], the store:
    the payload streamed to a staging file and moved to its key; whether the stored
    blob has the size, and the staging file is gone. *)
Definition measure_streaming (blocks : list bytes) : M exn Fs (bool * bool) :=
  let size := zlen (mjoin blocks) in
  inc ← sync_stream_to_incoming now (uuid4 0) blocks size (py "application/octet-stream") None;
  let key := py "submissions/bench/" ++ uuid_str (uuid4 1) ++ py ".bin" in
  _ ← fs_put_from_path now key (iu_staging_path inc) (iu_content_type inc);
  here ← fs_exists key;
  data ← (if here then fs_get key else mret []);
  left ← gets_st (fun fs => is_file fs (iu_staging_path inc));
  _ ← fs_delete key;
  mret (here && (zlen data =? size), negb left).
End Failures.

Definition sample_sha : Sha256 := fun _ => py "f".

(** Every case of the matrix keeps its invariant. *)
Example matrix_holds :
  fst (failure_matrix (H := sample_sha) (of_Z 20000) (of_Z 20001) (fun n => Z.of_nat n + 2 ^ 64) (mkFs ∅))
  = Ok [true; true; true; true; true; true].
Proof. vm_compute. reflexivity. Qed.

Example streaming_holds :
  fst (measure_streaming (H := sample_sha) (of_Z 20000) (fun n => Z.of_nat n + 2 ^ 64)
         [[1; 2]; [3]] (mkFs ∅)) = Ok (true, true).
Proof. vm_compute. reflexivity. Qed.
End UploadExperiment.

(** * The execution gate *)

Module IsolationExperiment.

(** The results of a suite, by workload. *)
Definition Suite : Type := list (pystr * ExecutionResult).

Definition entry (suite : Suite) (name : string) : option ExecutionResult := assoc suite (py name).
Definition has_status (suite : Suite) (name : string) (s : status) : bool :=
  match entry suite name with Some r => String.eqb (xr_status r) s | None => false end.
Definition leaks_of (suite : Suite) (name : string) : bool :=
  match entry suite name with Some r => nonempty (xr_leaked_pids_after_cleanup r) | None => false end.

(** [scripts/execution_isolation_experiment.py:39-52 run_suite]: every workload in turn. *)
Definition run_suite (run : pystr -> ExecutionResult) : Suite := (fun name => (name, run name)) <$> WORKLOAD_NAMES.

Record Invariants := mkInvariants {
  in_timeout_containment : bool;
  in_process_tree_containment : bool;
  in_output_containment : bool;
  in_filesystem_cleanup : bool;
  in_nonzero_exit_observed : bool;
  in_light_ok : bool;
}.

(** [scripts/execution_isolation_experiment.py:94-105 invariants_from_suite] *)
Definition invariants_from_suite (suite : Suite) : Invariants :=
  mkInvariants
    (has_status suite "TIMEOUT" "timeout" && negb (leaks_of suite "TIMEOUT"))
    (negb (leaks_of suite "CHILD_PROCESS"))
    (has_status suite "LARGE_OUTPUT" "output_limit")
    (match entry suite "MANY_FILES" with Some r => xr_workspace_cleaned r | None => false end)
    (has_status suite "FAILURE" "failed")
    (has_status suite "LIGHT" "succeeded").

(** [scripts/execution_isolation_experiment.py:55-91 capacity_cell], the counts: the runs
    that completed and the processes leaked. *)
Definition capacity_cell (rows : list ExecutionResult) : Z * Z :=
  (zlen (List.filter (fun r => existsb (String.eqb (xr_status r)) ["succeeded"; "failed"; "timeout"; "output_limit"]) rows),
   zsum ((fun r => zlen (xr_leaked_pids_after_cleanup r)) <$> rows)).

(** [scripts/execution_isolation_experiment.py:108-131 decide], the gate. *)
Definition decide (i : Invariants) (capacity : list (Z * Z)) : string :=
  let all_ok := in_timeout_containment i && in_process_tree_containment i && in_output_containment i
                && in_filesystem_cleanup i && in_nonzero_exit_observed i && in_light_ok i in
  if all_ok && (zsum capacity.*2 =? 0) then "KEEP SUBPROCESS" else "EXPERIMENTAL ONLY".

(** What an outcome says of a result. *)
Lemma outcome_status st leaked o :
  outcome_from_result st leaked = o ->
  match o with
  | X_SUCCESS => st = "succeeded" /\ leaked = []
  | X_TIMEOUT => st = "timeout"
  | X_OUTPUT_LIMIT => st = "output_limit"
  | X_NONZERO_EXIT => st = "failed"
  | _ => True
  end.
Proof.
  intros <-. unfold outcome_from_result. destruct (String.eqb_spec st "succeeded") as [->|Hs].
  { by destruct leaked. }
  unfold STATUS_TO_OUTCOME. cbn [List.find fst].
  destruct (String.eqb_spec "succeeded" st); [congruence|].
  repeat match goal with
         | |- context [String.eqb ?a st] =>
             destruct (String.eqb_spec a st) as [<-|]; [cbn; first [reflexivity|exact I]|]
         end.
  exact I.
Qed.

Lemma run_suite_entry run name :
  py name ∈ WORKLOAD_NAMES -> entry (run_suite run) name = Some (run (py name)).
Proof.
  unfold entry, run_suite, assoc. induction WORKLOAD_NAMES as [|n l IH]; [by intros ?%not_elem_of_nil|].
  intros Hin. cbn [fmap list_fmap List.find fst].
  destruct (bool_decide_reflect (n = py name)) as [E|E]; [by rewrite <-E|]. apply IH.
  apply elem_of_cons in Hin as [?|?]; [congruence|done].
Qed.

(** The gate follows from the contract: when every workload of the corpus ends as the
    contract declares, the work directory of the many files is removed, a timeout
    leaves no process and no run of the capacity cells leaks, the experiment keeps
    the executor; one leaked process in a cell, or a timeout that leaks, is enough
    for it not to, although the contract's outcome of a timeout does not look at
    the processes left. *)
Theorem gate_follows_contract (run : pystr -> ExecutionResult) (capacity : list (Z * Z)) :
  let suite := run_suite run in
  (forall w o, (w, o) ∈ TRUSTED_CORPUS ->
     outcome_from_result (xr_status (run w)) (xr_leaked_pids_after_cleanup (run w)) = o) ->
  Forall (fun c => 0 <= c.2) capacity ->
  decide (invariants_from_suite suite) capacity
  = if nonempty (xr_leaked_pids_after_cleanup (run (py "TIMEOUT")))
       || negb (xr_workspace_cleaned (run (py "MANY_FILES")))
       || existsb (fun c => 0 <? c.2) capacity
    then "EXPERIMENTAL ONLY" else "KEEP SUBPROCESS".
Proof.
  intros suite Hrun Hcap. unfold decide, invariants_from_suite, has_status, leaks_of, suite.
  rewrite !run_suite_entry by decide_closed. cbn [in_timeout_containment in_process_tree_containment
    in_output_containment in_filesystem_cleanup in_nonzero_exit_observed in_light_ok].
  pose proof (outcome_status _ _ _ (Hrun (py "TIMEOUT") X_TIMEOUT ltac:(decide_closed))) as ->.
  pose proof (outcome_status _ _ _ (Hrun (py "LARGE_OUTPUT") X_OUTPUT_LIMIT ltac:(decide_closed))) as ->.
  pose proof (outcome_status _ _ _ (Hrun (py "FAILURE") X_NONZERO_EXIT ltac:(decide_closed))) as ->.
  destruct (outcome_status _ _ _ (Hrun (py "LIGHT") X_SUCCESS ltac:(decide_closed))) as [-> _].
  destruct (outcome_status _ _ _ (Hrun (py "CHILD_PROCESS") X_SUCCESS ltac:(decide_closed))) as [_ ->].
  assert ((zsum capacity.*2 =? 0) = negb (existsb (fun c => 0 <? c.2) capacity)) as ->.
  { assert (0 <= zsum capacity.*2 /\ (zsum capacity.*2 = 0 <-> existsb (fun c => 0 <? c.2) capacity = false))
      as [Hn Hz].
    { unfold zsum. induction Hcap as [|[a c] l Hc _ [IH1 IH2]]; [done|]. cbn in *.
      rewrite orb_false_iff, <-IH2. lia. }
    destruct (existsb _ capacity) eqn:E; cbn; [|by apply Z.eqb_eq, Hz].
    apply Z.eqb_neq. rewrite Hz. congruence. }
  rewrite !String.eqb_refl. cbn [nonempty negb andb].
  by destruct (nonempty (xr_leaked_pids_after_cleanup _)), (xr_workspace_cleaned _), (existsb _ capacity).
Qed.
End IsolationExperiment.
