(* ===== verification/Integrity.v ===== *)
(** The queries with which the experiments (src/scripts/) audit and measure a live
    database: the diagnostics of submissions, the integrity check of the mixed
    workload, the counts of a challenge's evaluations and their timings.  On every
    state the system reaches the audits find nothing, and the evaluations counted
    are exactly the submissions accepted. *)
From Stdlib Require Import ZArith Lia String.
From stdpp Require Import prelude strings gmap sorting.
From S2P Require Import Prelude PyFloat PyStr Domain Database Json Evaluator Storage Config EvaluationQueueFacts Submissions SubmissionsSpec Http HttpSpec Measurements System.
Local Open Scope string_scope.
Local Open Scope Z_scope.
Local Open Scope list_scope.

(** [SELECT ... FROM submissions WHERE challenge_id = :challenge_id] *)
Definition challenge_rows (cid : uuid) (db : Db) : list Submission :=
  rows_where (fun s => s_challenge_id s =? cid) (submissions db).

(** [count(DISTINCT column)] *)
Definition count_distinct {A K} `{EqDecision K} (column : A -> K) (rows : list A) : Z :=
  zlen (remove_dups (column <$> rows)).

(** [scripts/concurrency_experiment.py:417-427 Experiment.count_submissions] *)
Definition count_submissions (cid : uuid) (db : Db) : Z := zlen (challenge_rows cid db).

Record SubmissionDiagnostics := mkDiagnostics {
  sd_rows : Z;
  sd_participants : Z;
  sd_distinct_ids : Z;
  sd_duplicate_timestamps : Z;
}.

(** [scripts/concurrency_experiment.py:429-454 Experiment.submission_diagnostics] *)
Definition submission_diagnostics (cid : uuid) (db : Db) : SubmissionDiagnostics :=
  let rows := challenge_rows cid db in
  mkDiagnostics (zlen rows) (count_distinct s_participant_id rows) (count_distinct s_id rows)
    (zlen rows - count_distinct s_created_at rows).

Record IntegrityReport := mkIntegrity {
  ir_broken_foreign_keys : Z;
  ir_illegal_statuses : Z;
  ir_duplicate_key_groups : Z;
}.

(** [scripts/correctness_experiment.py:492-538 CorrectnessExperiment.mixed_workload], the integrity queries: the
    rows whose participant or challenge the outer joins do not find, those whose
    status is none of the four, and the groups of more than one row with one
    participant and key. *)
Definition integrity (cid : uuid) (db : Db) : IntegrityReport :=
  let rows := challenge_rows cid db in
  let broken s := negb (bool_decide (is_Some (users db !! s_participant_id s)))
                  || negb (bool_decide (is_Some (challenges db !! s_challenge_id s))) in
  let illegal s := negb (existsb (String.eqb (value (s_status s))) ["created"; "submitted"; "cancelled"; "failed"]) in
  let keyed := List.filter (fun s => bool_decide (is_Some (s_idempotency_key s))) rows in
  let groups := group_by (fun s => (s_participant_id s, s_idempotency_key s)) keyed in
  mkIntegrity (zlen (List.filter broken rows)) (zlen (List.filter illegal rows))
    (zlen (List.filter (fun g => 1 <? zlen g.2) groups)).

(** * Evaluations of a challenge *)

(** [FROM evaluations e JOIN submissions s ON s.id = e.submission_id
    WHERE s.challenge_id = :cid] *)
Definition challenge_evaluations (cid : uuid) (db : Db) : list Evaluation :=
  rows_where (fun e => match submissions db !! e_submission_id e with
                       | Some s => s_challenge_id s =? cid
                       | None => false
                       end) (evaluations db).

(** [count( * ) FILTER (WHERE e.status = ...)] *)
Definition with_status (st : EvaluationStatus) (rows : list Evaluation) : list Evaluation :=
  List.filter (fun e => bool_decide (e_status e = st)) rows.

Record QueueCounts := mkCounts {
  qc_queued : Z;
  qc_running : Z;
  qc_succeeded : Z;
  qc_failed : Z;
}.

(** [scripts/hard_mix_pressure_experiment.py:318-328 wait_drain], the counts. *)
Definition queue_counts (cid : uuid) (db : Db) : QueueCounts :=
  let rows := challenge_evaluations cid db in
  mkCounts (zlen (with_status E_QUEUED rows)) (zlen (with_status E_RUNNING rows))
    (zlen (with_status E_SUCCEEDED rows)) (zlen (with_status E_FAILED rows)).

(** [scripts/evaluation_scheduling_experiment.py:133-145 run_scenario]: the evaluations not
    finished. *)
Definition remaining (cid : uuid) (db : Db) : Z :=
  zlen (List.filter (fun e => bool_decide (e_status e = E_QUEUED) || bool_decide (e_status e = E_RUNNING))
          (challenge_evaluations cid db)).

(** [scripts/evaluation_experiment.py:376-383 EvaluationExperiment.experiment_f_idempotency] *)
Definition evaluations_of (sid : uuid) (db : Db) : Z :=
  zlen (rows_where (fun e => e_submission_id e =? sid) (evaluations db)).

(** [min(values)] of a query: NULL for no row. *)
Definition sql_min (l : list Z) : option Z :=
  match l with [] => None | z :: l => Some (foldl Z.min z l) end.

(** [scripts/capacity_experiment.py:121-190 CapacityExperiment.queue_snapshot], of one
    challenge or of all, without the connections: the counts, and the age of the
    oldest queued evaluation at [now]. *)
Definition queue_snapshot (challenge : option uuid) (now : datetime) (db : Db) : QueueCounts * option float :=
  let rows := match challenge with
              | Some cid => challenge_evaluations cid db
              | None => rows_where (fun _ => true) (evaluations db)
              end in
  let oldest := sql_min (e_created_at <$> with_status E_QUEUED rows) in
  (mkCounts (zlen (with_status E_QUEUED rows)) (zlen (with_status E_RUNNING rows))
     (zlen (with_status E_SUCCEEDED rows)) (zlen (with_status E_FAILED rows)),
   (fun t => fround 3 (total_seconds (now - t))) <$> oldest).

(** * Timings *)

(** [(b - a).total_seconds() * 1000] *)
Definition ms_between (a b : datetime) : float := fmul (total_seconds (b - a)) (of_Z 1000).

Definition wait_ms (e : Evaluation) : option float := (fun s => ms_between (e_created_at e) s) <$> e_started_at e.
Definition exec_ms (e : Evaluation) : option float :=
  s ← e_started_at e; c ← e_completed_at e; Some (ms_between s c).

Record ClassMetrics := mkClassMetrics {
  cm_count : Z;
  cm_queue_wait_ms : list (string * float);
  cm_execution_ms : list (string * float);
}.
Record EvaluationMetrics := mkMetrics {
  em_count : Z;
  em_completed : Z;
  em_queue_wait_ms : list (string * float);
  em_execution_ms : list (string * float);
  em_by_class : list (string * ClassMetrics);
}.

(** [scripts/resource_capacity_experiment.py:156-211 ResourceExperiment.evaluation_metrics] *)
Definition evaluation_metrics (cid : uuid) (db : Db) : EvaluationMetrics :=
  let rows := order_by_created e_created_at e_id (challenge_evaluations cid db) in
  let timed := List.filter (fun e => bool_decide (is_Some (exec_ms e))) rows in
  let classes := group_by (fun e => value (e_workload_class e)) timed in
  mkMetrics (zlen rows) (zlen (omap exec_ms rows)) (latency (omap wait_ms rows)) (latency (omap exec_ms rows))
    ((fun g => (g.1, mkClassMetrics (zlen (omap exec_ms g.2)) (latency (omap wait_ms g.2))
                       (latency (omap exec_ms g.2)))) <$> classes).

(** * What the audits find *)

Lemma ids_NoDup {V} (idf : V -> uuid) (f : V -> bool) (t : gmap uuid V) :
  (forall k r, t !! k = Some r -> idf r = k) -> NoDup (rows_where f t).
Proof. intros Hk. eapply NoDup_fmap_1, (rows_where_ids_NoDup idf), Hk. Qed.

Lemma count_distinct_inj {A K} `{EqDecision K} (column : A -> K) rows :
  NoDup (column <$> rows) -> count_distinct column rows = zlen rows.
Proof.
  intros Hnd. unfold count_distinct, zlen. f_equal.
  rewrite <-(length_fmap column rows). apply Permutation_length, NoDup_Permutation; [|done|].
  - apply NoDup_remove_dups.
  - intros x. apply elem_of_remove_dups.
Qed.

(** The groups share the rows out: a group is part of them, each row once. *)
Lemma group_member {A K} `{EqDecision K} (key : A -> K) l k xs :
  (k, xs) ∈ group_by key l -> xs ⊆+ l.
Proof.
  unfold group_by.
  assert (forall g, mjoin (foldl (fun gs x => group_add (key x) x gs) g l).*2 ≡ₚ mjoin g.*2 ++ l) as Hall.
  { induction l as [|x l IH]; intros g; [by rewrite app_nil_r|]. cbn [foldl]. rewrite IH.
    assert (mjoin (group_add (key x) x g).*2 ≡ₚ x :: mjoin g.*2) as ->.
    { clear. induction g as [|[k' ys] g IH]; [done|]. cbn. case_bool_decide; cbn.
      - rewrite <-app_assoc. cbn. by rewrite Permutation_middle.
      - rewrite IH. by rewrite Permutation_middle. }
    by rewrite <-Permutation_middle. }
  intros Hin. specialize (Hall []). cbn in Hall. rewrite <-Hall. clear Hall.
  apply (list_elem_of_fmap_2 snd) in Hin. cbn in Hin. revert Hin.
  generalize (foldl (fun gs x => group_add (key x) x gs) [] l).*2. intros gs Hin.
  induction Hin as [xs gs|xs ys gs _ IH]; cbn; [apply submseteq_inserts_r|apply submseteq_inserts_l]; done.
Qed.

Section Audit.
Variable db : Db.
Hypothesis Hok : db_ok db.

Lemma no_duplicate_keys (rows : list Submission) :
  NoDup rows -> (forall s, s ∈ rows -> exists i, submissions db !! i = Some s /\ is_Some (s_idempotency_key s)) ->
  List.filter (fun g => 1 <? zlen g.2)
    (group_by (fun s => (s_participant_id s, s_idempotency_key s)) rows) = [].
Proof using Hok.
  intros Hnd Hrows. apply filterb_none. intros [k xs] Hin. cbn.
  pose proof (group_member _ _ _ _ Hin) as Hsub. apply group_by_keys in Hin.
  destruct xs as [|s [|t xs]]; [done..|]. exfalso.
  rewrite !Forall_cons in Hin. destruct Hin as (Hs & Ht & _).
  destruct (submseteq_Permutation _ _ Hsub) as [rest Hperm]. rewrite Hperm in Hnd.
  apply NoDup_app in Hnd as [[Hne _]%NoDup_cons _].
  destruct (Hrows s) as (i & Hi & Hk); [eapply elem_of_submseteq; [by left|exact Hsub]|].
  destruct (Hrows t) as (j & Hj & _); [eapply elem_of_submseteq; [by right; left|exact Hsub]|].
  assert (i = j) as <- by (eapply (ok_keys _ Hok); try done; congruence).
  assert (s = t) as -> by congruence. apply Hne. by left.
Qed.

Lemma four_statuses rows :
  zlen (with_status E_QUEUED rows) + zlen (with_status E_RUNNING rows) + zlen (with_status E_SUCCEEDED rows)
  + zlen (with_status E_FAILED rows) = zlen rows.
Proof using.
  induction rows as [|e rows IH]; [done|]. unfold with_status in *. cbn.
  destruct (e_status e); repeat case_bool_decide; try done; cbn; rewrite !zlen_cons; lia.
Qed.

(** Accepted submissions and evaluations of a challenge, one for one. *)
Lemma evaluations_match cid :
  e_submission_id <$> challenge_evaluations cid db
  ≡ₚ s_id <$> List.filter (fun s => bool_decide (s_status s = S_SUBMITTED)) (challenge_rows cid db).
Proof using Hok.
  destruct (ok_link _ Hok) as (Hids & Hsub & Hev & Hone).
  apply NoDup_Permutation.
  - apply NoDup_fmap_2_strong.
    + intros e1 e2 [[j1 H1] _]%elem_of_rows_where [[j2 H2] _]%elem_of_rows_where Heq.
      assert (j1 = j2) by (by eapply Hone). congruence.
    + apply (ids_NoDup e_id). intros k e Hk. apply (proj1 (ok_queue _ Hok)) in Hk as Hk'. apply Hk'.
  - unfold challenge_rows, rows_where. rewrite filterb_andb. by apply rows_where_ids_NoDup.
  - intros i. rewrite !list_elem_of_fmap. split.
    + intros (e & -> & [[j He] Hc]%elem_of_rows_where). destruct (Hev j e He) as (s & Hs & Hst).
      rewrite Hs in Hc. exists s. split; [symmetry; by apply Hids|].
      apply elem_of_filterb. split; [|by apply bool_decide_eq_true_2].
      apply elem_of_rows_where. eauto.
    + intros (s & -> & [[[i' Hs] Hc]%elem_of_rows_where Hst]%elem_of_filterb).
      apply bool_decide_eq_true_1 in Hst. destruct (Hsub i' s Hs Hst) as (j & e & He & Hi).
      exists e. rewrite (Hids _ _ Hs). split; [done|]. apply elem_of_rows_where. split; [eauto|].
      by rewrite Hi, Hs.
Qed.

Lemma one_evaluation sid : evaluations_of sid db <= 1.
Proof using Hok.
  destruct (ok_link _ Hok) as (_ & _ & _ & Hone). unfold evaluations_of.
  assert (NoDup (rows_where (fun e => e_submission_id e =? sid) (evaluations db))) as Hnd.
  { apply (ids_NoDup e_id). intros k e Hk. apply (proj1 (ok_queue _ Hok)) in Hk as Hk'. apply Hk'. }
  destruct (rows_where _ (evaluations db)) as [|e1 [|e2 l]] eqn:E; [unfold zlen; cbn; lia..|]. exfalso.
  assert (forall e, e ∈ e1 :: e2 :: l -> exists j, evaluations db !! j = Some e /\ e_submission_id e = sid) as Hin.
  { intros e He. rewrite <-E in He. apply elem_of_rows_where in He as [[j Hj] ?]. exists j. split; [done|lia]. }
  destruct (Hin e1) as (j1 & H1 & Hs1); [by left|]. destruct (Hin e2) as (j2 & H2 & Hs2); [by right; left|].
  assert (j1 = j2) as <- by (eapply Hone; [done..|congruence]). apply NoDup_cons in Hnd as [Hne _].
  assert (e1 = e2) as -> by congruence. apply Hne. by left.
Qed.
End Audit.

Section Audits.
Context `{Sha256} `{FloatRepr} `{FloatParse} `{PyRepr}.

(** C23 The audits of the experiments find nothing, in any state the system reaches:
    no submission of a challenge lacks its participant or challenge, none has an
    unknown status, no two share a participant and key, identifiers are distinct,
    no submission has two evaluations, and the evaluations counted as queued,
    running, succeeded and failed are together exactly the submissions accepted, so
    that a drained queue means every accepted submission has its verdict. *)
Theorem audits_find_nothing clock db cid :
  system_run (seeded clock) db ->
  integrity cid db = mkIntegrity 0 0 0
  /\ sd_distinct_ids (submission_diagnostics cid db) = sd_rows (submission_diagnostics cid db)
  /\ (forall sid, evaluations_of sid db <= 1)
  /\ (let c := queue_counts cid db in
      qc_queued c + qc_running c + qc_succeeded c + qc_failed c
      = zlen (List.filter (fun s => bool_decide (s_status s = S_SUBMITTED)) (challenge_rows cid db)))
  /\ remaining cid db = qc_queued (queue_counts cid db) + qc_running (queue_counts cid db).
Proof.
  intros Hrun. destruct (run_sound _ _ Hrun (seeded_ok clock)) as [Hok _].
  destruct (ok_link _ Hok) as (Hids & _).
  assert (forall s, s ∈ challenge_rows cid db -> exists i, submissions db !! i = Some s) as Hrow.
  { intros s [[i Hi] _]%elem_of_rows_where. eauto. }
  split_and!.
  - unfold integrity. cbv zeta. rewrite (no_duplicate_keys db Hok); [rewrite !filterb_none; [done|..]|..].
    + intros s Hs. by destruct (s_status s).
    + intros s [i Hi]%Hrow. destruct (ok_submissions _ Hok i s Hi) as (_ & Hc & Hu).
      by rewrite !bool_decide_eq_true_2.
    + eapply sublist_NoDup; [|apply filterb_sublist]. by apply (ids_NoDup s_id).
    + intros s [Hs Hk]%elem_of_filterb. destruct (Hrow s Hs) as [i Hi]. exists i.
      by apply bool_decide_eq_true_1 in Hk.
  - unfold submission_diagnostics. cbn. apply count_distinct_inj. by apply rows_where_ids_NoDup.
  - by apply one_evaluation.
  - cbn. rewrite four_statuses. pose proof (Permutation_length (evaluations_match db Hok cid)) as Hlen.
    rewrite !length_fmap in Hlen. unfold zlen. lia.
  - cbn. unfold remaining, with_status. induction (challenge_evaluations cid db) as [|e l IH]; [done|]. cbn.
    destruct (e_status e); repeat case_bool_decide; try done; cbn; rewrite ?zlen_cons; lia.
Qed.
End Audits.

Module IntegritySample.
#[local] Existing Instances HttpSample.sha HttpSample.repr HttpSample.parse HttpSample.prepr.
Definition env : RouteEnv := mkRouteEnv SubmissionSample.env [200] 77 (of_Z 5) (of_Z 6) 60 id.

(** Requests one after the other, each by a user. *)
Definition serve_all (l : list (uuid * Route)) (db : Db) : Db :=
  foldl (fun db r => fst (snd (answer default_settings env (HttpSample.by_header r.1) r.2 [] db (mkFs ∅)))) db l.

Lemma serve_all_run l db : system_run db (serve_all l db).
Proof.
  revert db. induction l as [|r l IH]; intros db; [reflexivity|]. etrans; [|apply IH].
  exists [db]. apply (run_request db [] db db default_settings env (HttpSample.by_header r.1) r.2 [] (mkFs ∅)
                     _ (run_nothing db)); [left|done|done|by left].
Qed.

(** A hackathon with an open challenge, one submission made and accepted. *)
Definition payload : ChallengeCreateRequest :=
  mkChallengeRequest (py "C") (py "d") (py "") (py "s") [(py "quality", py "q", 100)].
Definition db : Db :=
  serve_all [(ORGANIZER_ID, POST_hackathons (py "H") (py "d")); (ORGANIZER_ID, POST_hackathon_publish 100);
             (ORGANIZER_ID, POST_hackathon_challenges 100 payload); (ORGANIZER_ID, POST_challenge_publish 100);
             (PARTICIPANT_ID, POST_challenge_submissions 100 [] (Some (py "key")));
             (PARTICIPANT_ID, POST_submission_submit 100)] (seeded SystemSample.clock).

Lemma audits_find_nothing_witness :
  queue_counts 100 db = mkCounts 1 0 0 0 /\ integrity 100 db = mkIntegrity 0 0 0
  /\ zlen (List.filter (fun s => bool_decide (s_status s = S_SUBMITTED)) (challenge_rows 100 db)) = 1.
Proof.
  assert (queue_counts 100 db = mkCounts 1 0 0 0) as Hq by (vm_compute; reflexivity).
  destruct (audits_find_nothing SystemSample.clock db 100 (serve_all_run _ _)) as (Hi & _ & _ & Hsum & _).
  split; [exact Hq|]. split; [exact Hi|]. cbv zeta in Hsum. rewrite Hq in Hsum. symmetry. exact Hsum.
Defined.

Example snapshot_ex :
  queue_snapshot None 1000000 db = (mkCounts 1 0 0 0, Some (fround 3 (lit 99995 100000))).
Proof. vm_compute. reflexivity. Qed.
End IntegritySample.
