(* ===== verification/Quality.v ===== *)
(** The experiments that judge progressive evaluation: the adversarial mixes of
    src/scripts/adaptive_evaluation_v3_experiment.py, and the verdict that
    src/scripts/hard_mix_pressure_experiment.py draws from the rows of a database.
    Every mix, in every mode and under every pressure, is judged right, at no
    higher cost than the whole plan, and concurrent requests share one
    computation. *)
From Stdlib Require Import ZArith Lia String.
From stdpp Require Import prelude strings gmap sorting.
From S2P Require Import Prelude PyFloat PyStr Domain Json Evaluator Runtime Database Progressive ProgressiveSpec Coalescing Measurements Integrity.
Local Open Scope string_scope.
Local Open Scope Z_scope.
Local Open Scope list_scope.

(** [scripts/adaptive_evaluation_v3_experiment.py:35-67 MIXES] *)
Definition MIXES : list (string * list (WorkloadKind * nat)) :=
  [("easy", [(EASY_PASS, 8); (EASY_FAIL, 8); (AMBIGUOUS_PASS, 2); (AMBIGUOUS_FAIL, 2)]%nat);
   ("balanced",
    [(EASY_PASS, 4); (EASY_FAIL, 4); (AMBIGUOUS_PASS, 3); (AMBIGUOUS_FAIL, 3); (HARD_PASS, 3); (HARD_FAIL, 3)]%nat);
   ("difficult",
    [(EASY_PASS, 2); (EASY_FAIL, 2); (AMBIGUOUS_PASS, 4); (AMBIGUOUS_FAIL, 4); (HARD_PASS, 4); (HARD_FAIL, 4)]%nat);
   ("adversarial", [(ADVERSARIAL_PASS, 6); (ADVERSARIAL_FAIL, 6); (HARD_PASS, 4); (HARD_FAIL, 4)]%nat);
   ("heavy_dominated",
    [(EASY_PASS, 1); (EASY_FAIL, 1); (AMBIGUOUS_PASS, 2); (AMBIGUOUS_FAIL, 2); (HARD_PASS, 7); (HARD_FAIL, 7)]%nat)].

Record MixReport := mkMixReport {
  mr_jobs : Z;
  mr_decision_agreement : float;
  mr_false_early_pass : Z;
  mr_false_early_fail : Z;
  mr_early_exit_rate : float;
  mr_escalation_rate : float;
  mr_actual_cost_units : Z;
  mr_always_expensive_cost_units : Z;
  mr_compute_savings : float;
  mr_kind_counts : list (string * Z);
}.

(** [sum(1 for c in comparisons if p(c))] *)
Definition count_if {A} (p : A -> bool) (l : list A) : Z := zlen (List.filter p l).

(** [round(a / n, 4) if n else 0.0] *)
Definition rate (a n : Z) : float := if n =? 0 then fzero else fround 4 (int_truediv a n).

Section Mix.
Context `{Sha256} `{FloatRepr} `{PyRepr}.

(** What each job is run with: its identifier and its clocks. *)
Variable sid : nat -> uuid.
Variable clock : nat -> Z -> datetime.
Variable cpu_ms : nat -> Z -> float.

Definition mix_jobs (mix : list (WorkloadKind * nat)) : list WorkloadKind :=
  mix ≫= (fun c => replicate c.2 c.1).

(** The loop over the jobs, from the [i]th on; it ends with the first exception. *)
Fixpoint compare_jobs (mode : EvaluationMode) (pressure : PressureState) (i : nat) (jobs : list WorkloadKind)
    : option (result eval_exn (list QualityComparison)) :=
  match jobs with
  | [] => Some (Ok [])
  | kind :: jobs =>
      match compare_to_ground_truth (mkCirc mode pressure None (clock i) (cpu_ms i)) (sid i)
              [(py "workload_kind", JStr (py (value kind)))] with
      | Some (Ok c) =>
          match compare_jobs mode pressure (S i) jobs with
          | Some (Ok cs) => Some (Ok (c :: cs))
          | r => r
          end
      | Some (Raise e) => Some (Raise e)
      | None => None
      end
  end.

(** [scripts/adaptive_evaluation_v3_experiment.py:95-116 run_mix], the report, without the
    elapsed time. *)
Definition mix_report (jobs : list WorkloadKind) (comparisons : list QualityComparison) : MixReport :=
  let n := zlen comparisons in
  let cost := zsum (qc_actual_cost_units <$> comparisons) in
  let always := ALWAYS_EXPENSIVE_COST_UNITS * n in
  mkMixReport n (rate (count_if qc_agreement comparisons) n) (count_if qc_false_early_pass comparisons)
    (count_if qc_false_early_fail comparisons) (rate (count_if qc_early_exit comparisons) n)
    (rate (count_if (fun c => 1 <? qc_stages c) comparisons) n) cost always
    (if always =? 0 then fzero else fround 4 (fsub (of_Z 1) (int_truediv cost always)))
    (counter (value <$> jobs)).

(** [scripts/adaptive_evaluation_v3_experiment.py:70-116 run_mix]; an unknown mix is a
    [KeyError]. *)
Definition run_mix (mix_name : string) (mode : EvaluationMode) (pressure : PressureState)
    : option (result eval_exn MixReport) :=
  match snd <$> List.find (fun m => String.eqb m.1 mix_name) MIXES with
  | None => Some (Raise (EvalRaised (OtherError "KeyError")))
  | Some mix =>
      let jobs := mix_jobs mix in
      match compare_jobs mode pressure 0 jobs with
      | Some (Ok comparisons) => Some (Ok (mix_report jobs comparisons))
      | Some (Raise e) => Some (Raise e)
      | None => None
      end
  end.

(** * The mixes are judged right *)

Lemma kind_metadata kind :
  failure_free [(py "workload_kind", JStr (py (value kind)))]
  /\ parse_workload_kind [(py "workload_kind", JStr (py (value kind)))] = Some kind.
Proof.
  split; [split; [reflexivity|repeat constructor]|]. by destruct kind; vm_compute.
Qed.

Definition judged_right (c : QualityComparison) : Prop :=
  qc_agreement c = true /\ qc_false_early_pass c = false /\ qc_false_early_fail c = false
  /\ qc_actual_cost_units c <= ALWAYS_EXPENSIVE_COST_UNITS.

Lemma compare_jobs_right mode pressure i jobs :
  progressive_mode mode ->
  exists cs, compare_jobs mode pressure i jobs = Some (Ok cs) /\ length cs = length jobs /\ Forall judged_right cs.
Proof.
  intros Hmode. revert i. induction jobs as [|kind jobs IH]; intros i; [by exists []|].
  cbn [compare_jobs]. destruct (kind_metadata kind) as [Hfree Hkind].
  destruct (no_false_early_exit (mkCirc mode pressure None (clock i) (cpu_ms i)) (sid i) _ kind Hfree Hkind Hmode)
    as (q & -> & _ & _ & Ha & Hp & Hf & Hc & _).
  destruct (IH (S i)) as (cs & -> & Hlen & Hall). exists (q :: cs). split; [done|]. split; [cbn; congruence|].
  by constructor.
Qed.

Lemma report_right cs :
  Forall judged_right cs ->
  count_if qc_agreement cs = zlen cs /\ count_if qc_false_early_pass cs = 0 /\ count_if qc_false_early_fail cs = 0
  /\ zsum (qc_actual_cost_units <$> cs) <= ALWAYS_EXPENSIVE_COST_UNITS * zlen cs.
Proof.
  unfold count_if. induction 1 as [|c cs (Ha & Hp & Hf & Hc) _ (IH1 & IH2 & IH3 & IH4)]; [done|].
  cbn [List.filter fmap list_fmap]. rewrite Ha, Hp, Hf, !zlen_cons. unfold zsum in *. cbn [foldr].
  split_and!; lia.
Qed.

(** Progressive evaluation is right on every adversarial mix: for every mix of the
    experiment, every progressive mode and every pressure, and whatever the
    submissions' identifiers and the clocks, the run ends, all of its twenty jobs are
    judged as the ground truth has them (an agreement of exactly 1.0), none passes
    or fails early wrongly, and the units spent are at most those of running all
    stages. *)
Theorem mixes_are_judged_right (mix_name : string) (mode : EvaluationMode) (pressure : PressureState) :
  mix_name ∈ MIXES.*1 -> progressive_mode mode ->
  exists r, run_mix mix_name mode pressure = Some (Ok r)
  /\ mr_jobs r = 20 /\ mr_decision_agreement r = of_Z 1
  /\ mr_false_early_pass r = 0 /\ mr_false_early_fail r = 0
  /\ mr_actual_cost_units r <= mr_always_expensive_cost_units r
  /\ zsum (mr_kind_counts r).*2 = mr_jobs r.
Proof.
  intros Hmix Hmode. unfold run_mix.
  assert (exists mix, snd <$> List.find (fun m => String.eqb m.1 mix_name) MIXES = Some mix
            /\ length (mix_jobs mix) = 20%nat) as (mix & -> & Hlen).
  { unfold MIXES in Hmix |- *. cbn [fmap list_fmap fst] in Hmix. set_unfold in Hmix.
    destruct_or! Hmix; subst mix_name; eexists; split; reflexivity. }
  destruct (compare_jobs_right mode pressure 0 (mix_jobs mix) Hmode) as (cs & -> & Hcs & Hall).
  eexists. split; [reflexivity|].
  destruct (report_right cs Hall) as (Ha & Hp & Hf & Hc).
  assert (zlen cs = 20) as Hn by (unfold zlen; lia).
  unfold mix_report. cbn [mr_jobs mr_decision_agreement mr_false_early_pass mr_false_early_fail
    mr_actual_cost_units mr_always_expensive_cost_units mr_kind_counts].
  rewrite Ha, counter_total. split; [done|]. split; [rewrite Hn; vm_compute; reflexivity|].
  do 3 (split; [done|]). unfold zlen in *. rewrite length_fmap. lia.
Qed.
End Mix.

(** * Coalescing *)

(** The events of [asyncio.gather] of [n] calls: all of them are made before the
    first computation has slept; then it ends and the waiters resume. *)
Definition bench_events {V} (n : nat) (v : V) : list (Event V) :=
  replicate n (Called (py "k")) ++ [Computed 0 (Gave v)] ++ (Resumes <$> seq 1 (n - 1)).

(** [scripts/adaptive_evaluation_v3_experiment.py:119-139 coalescing_bench], one entry:
    the waiters, the computations and the joins. *)
Definition coalescing_bench (n : nat) : option (Z * Z * Z) :=
  s ← CoalescingSample.run_events (V := pystr) new_coalescer (bench_events n (py "ok"));
  Some (Z.of_nat n, computations_count (stats s), joins_count (stats s)).

Lemma run_events_app {V} (s : InProcessCoalescer V) a b :
  CoalescingSample.run_events s (a ++ b) = CoalescingSample.run_events s a ≫= fun s' => CoalescingSample.run_events s' b.
Proof.
  revert s. induction a as [|e a IH]; intros s; [done|]. cbn. destruct (event_step s e); cbn; [apply IH|done].
Qed.

(** After [S n] calls there is one leader, and the others wait on its future. *)
Lemma bench_called {V} (n : nat) (key : pystr) :
  CoalescingSample.run_events (V := V) new_coalescer (replicate (S n) (Called key))
  = Some (mkCoalescer {[key := 0%nat]} (mkStats (Z.of_nat (S n)) 1 (Z.of_nat n) 0) [Pending]
            (Leading key 0 :: replicate n (Joined 0))).
Proof.
  induction n as [|n IH].
  - cbn. unfold call_do. cbn. by rewrite lookup_empty.
  - rewrite replicate_S_end, run_events_app, IH. cbn [CoalescingSample.run_events mbind option_bind event_step].
    unfold call_do. cbn [inflight stats futures calls]. rewrite lookup_singleton_eq.
    cbn [submissions_count computations_count joins_count failures_count].
    do 2 f_equal; [f_equal; lia|]. cbn. by rewrite <-replicate_S_end.
Qed.

(** The waiters resume one after the other. *)
Lemma bench_resumes_one {V} (v : V) st infl a l :
  waiter_resumes a (mkCoalescer infl st [Resolved v] (replicate a (Ended 0 (Gave v)) ++ Joined 0 :: l))
  = Some (mkCoalescer infl st [Resolved v] (replicate (S a) (Ended 0 (Gave v)) ++ l)).
Proof.
  unfold waiter_resumes. cbn [calls futures inflight stats].
  rewrite lookup_app_r by (by rewrite length_replicate). rewrite length_replicate, Nat.sub_diag.
  cbn [lookup list_lookup]. do 2 f_equal.
  rewrite insert_app_r_alt by (by rewrite length_replicate). rewrite length_replicate, Nat.sub_diag.
  by rewrite replicate_S_end, <-app_assoc.
Qed.

Lemma bench_resumes {V} (v : V) st infl a b :
  CoalescingSample.run_events
    (mkCoalescer infl st [Resolved v] (replicate a (Ended 0 (Gave v)) ++ replicate b (Joined 0)))
    (Resumes <$> seq a b)
  = Some (mkCoalescer infl st [Resolved v] (replicate (a + b) (Ended 0 (Gave v)))).
Proof.
  revert a. induction b as [|b IH]; intros a; [by rewrite Nat.add_0_r, app_nil_r|].
  change (replicate (S b) (Joined 0)) with (@Joined V 0 :: replicate b (Joined 0)).
  cbn [seq fmap list_fmap CoalescingSample.run_events event_step]. rewrite bench_resumes_one.
  cbn [mbind option_bind]. rewrite IH. do 3 f_equal. lia.
Qed.

(** A burst of calls for one key computes once, however large the burst. *)
Theorem burst_computes_once (n : nat) :
  coalescing_bench (S n) = Some (Z.of_nat (S n), 1, Z.of_nat n).
Proof.
  unfold coalescing_bench, bench_events. rewrite run_events_app, bench_called.
  cbn [mbind option_bind]. rewrite run_events_app.
  cbn [CoalescingSample.run_events event_step]. unfold compute_ended. cbn [calls lookup list_lookup futures inflight stats].
  cbn [mbind option_bind]. replace (S n - 1)%nat with n by lia.
  pose proof (bench_resumes (py "ok") (mkStats (Z.of_nat (S n)) 1 (Z.of_nat n) 0)
                (delete (py "k") {[py "k" := 0%nat]}) 1 n) as E.
  cbn [replicate app] in E.
  change (<[0%nat:=Resolved (py "ok")]> [Pending]) with [Resolved (py "ok")].
  change (<[0%nat:=Ended 0 (Gave (py "ok"))]> (Leading (py "k") 0 :: replicate n (Joined 0)))
    with (Ended 0 (Gave (py "ok")) :: replicate n (Joined 0)).
  rewrite E. reflexivity.
Qed.

(** * The verdict on a database *)

(** What a row's metadata says of its progressive run: the stages, the cost and the
    reason to stop early; nothing, when there is no such run. *)
Record RunNotes := mkNotes {
  rn_stages_completed : list json;
  rn_actual_cost : Z;
  rn_early_reason : json;
}.

(** [scripts/hard_mix_pressure_experiment.py:442-456 collect_evaluation_quality]; the stages
    are stored as a list and the cost as an integer. *)
Definition run_notes (result_meta : dict) : RunNotes :=
  match dget_null result_meta (py "progressive") with
  | JObj progressive =>
      mkNotes (match dget_null progressive (py "stages_completed") with JList l => l | _ => [] end)
        (match dget_null progressive (py "actual_cost_units") with JInt n => n | _ => 0 end)
        (dget_null progressive (py "early_exit_reason"))
  | _ => mkNotes [] 0 JNull
  end.

(** What one compared row contributes. *)
Record RowVerdict := mkRowVerdict {
  rv_kind : WorkloadKind;
  rv_agree : bool;
  rv_early : bool;
  rv_escalated : bool;
  rv_heavy : bool;
  rv_false_pass : bool;
  rv_false_fail : bool;
  rv_cost : Z;
}.

Record QualityReport := mkQualityReport {
  qr_enqueued : Z;
  qr_completed : Z;
  qr_succeeded : Z;
  qr_failed : Z;
  qr_stranded : Z;
  qr_queue_wait_ms : list (string * float);
  qr_execution_ms : list (string * float);
  qr_compared : Z;
  qr_legacy_skipped : Z;
  qr_decision_agreement : option float;
  qr_false_early_pass : Z;
  qr_false_early_fail : Z;
  qr_early_exit_rate : option float;
  qr_escalation_rate : option float;
  qr_heavy_stage_invocation_rate : option float;
  qr_actual_cost_units : Z;
  qr_always_expensive_cost_units : Z;
  qr_compute_savings : option float;
  qr_by_kind : list (string * (Z * Z));
}.

Section Collect.
Context `{Sha256} `{FloatRepr} `{PyRepr}.

(** [str(s.get("stage") or "")] of an entry, and [str(s)] of another. *)
Definition stage_text (s : json) : pystr :=
  match s with
  | JObj d => let v := dget_null d (py "stage") in if truthy v then json_str v else []
  | v => json_str v
  end.

(** [{1: 1, 2: 4, 3: ALWAYS_EXPENSIVE_COST_UNITS}.get(n, ALWAYS_EXPENSIVE_COST_UNITS)] *)
Definition inferred_cost (n : Z) : Z :=
  if n =? 1 then 1 else if n =? 2 then 4 else ALWAYS_EXPENSIVE_COST_UNITS.

(** [scripts/hard_mix_pressure_experiment.py:437-508 collect_evaluation_quality], the loop's
    body after the counts of times: nothing for a row that is not compared. *)
Definition row_verdict (s : Submission) (e : Evaluation) : option RowVerdict :=
  let notes := run_notes (e_result_metadata e) in
  if bool_decide (e_evaluation_mode e = M_LEGACY) then None
  else
    kind ← parse_workload_kind (s_metadata s);
    score ← (if bool_decide (e_status e = E_SUCCEEDED) then e_score e else None);
    let truth := ground_truth_for kind (s_id s) in
    let decision := decision_from_score score in
    let stages := rn_stages_completed notes in
    let stage_count := if nonempty stages then zlen stages else e_current_stage e in
    let is_early := truthy (rn_early_reason notes)
                    && startswith (json_str (rn_early_reason notes)) (py "safe_early_exit")
                    && (stage_count <? 3) in
    Some (mkRowVerdict kind (bool_decide (decision = gt_decision truth)) is_early (1 <? stage_count)
            ((3 <=? stage_count) || bool_decide (py "heavy" ∈ (stage_text <$> stages)))
            (is_early && bool_decide (decision = PASS) && bool_decide (gt_decision truth = FAIL))
            (is_early && bool_decide (decision = FAIL) && bool_decide (gt_decision truth = PASS))
            (if negb (rn_actual_cost notes =? 0) then rn_actual_cost notes
             else if bool_decide (e_evaluation_mode e = M_ALWAYS_EXPENSIVE) then ALWAYS_EXPENSIVE_COST_UNITS
             else inferred_cost stage_count)).

(** The joined rows of a challenge, [ORDER BY e.created_at, e.id]. *)
Definition quality_rows (cid : uuid) (db : Db) : list (Submission * Evaluation) :=
  omap (fun e => (fun s => (s, e)) <$> submissions db !! e_submission_id e)
    (order_by_created e_created_at e_id (challenge_evaluations cid db)).

Definition opt_rate (a n : Z) : option float := if n =? 0 then None else Some (fround 4 (int_truediv a n)).

(** [scripts/hard_mix_pressure_experiment.py:383-539 collect_evaluation_quality] *)
Definition collect_evaluation_quality (cid : uuid) (db : Db) : QualityReport :=
  let rows := quality_rows cid db in
  let evals := rows.*2 in
  let verdicts := omap (fun r => row_verdict r.1 r.2) rows in
  let compared := zlen verdicts in
  let has st := fun e => bool_decide (e_status e = st) in
  let cost := zsum (rv_cost <$> verdicts) in
  let always := ALWAYS_EXPENSIVE_COST_UNITS * compared in
  mkQualityReport (zlen rows) (count_if (fun e => has E_SUCCEEDED e || has E_FAILED e) evals)
    (count_if (has E_SUCCEEDED) evals) (count_if (has E_FAILED) evals)
    (count_if (fun e => has E_QUEUED e || has E_RUNNING e) evals)
    (mix_latency (omap wait_ms evals)) (mix_latency (omap exec_ms evals))
    compared (count_if (fun e => bool_decide (e_evaluation_mode e = M_LEGACY)) evals)
    (opt_rate (count_if rv_agree verdicts) compared)
    (count_if rv_false_pass verdicts) (count_if rv_false_fail verdicts)
    (opt_rate (count_if rv_early verdicts) compared) (opt_rate (count_if rv_escalated verdicts) compared)
    (opt_rate (count_if rv_heavy verdicts) compared) cost always
    (if always =? 0 then None else Some (fround 4 (fsub (of_Z 1) (int_truediv cost always))))
    ((fun g => (g.1, (zlen g.2, count_if rv_agree g.2))) <$> group_by (fun v => value (rv_kind v)) verdicts).

(** A score that the progressive evaluator gave: at the end of a run from the start,
    or of one resumed at the heavy stage. *)
Inductive progressive_score (meta : dict) (key : option pystr) (id : uuid) : option Z -> Prop :=
| scored_at_once cc r :
    progressive_mode (cc_mode cc) -> run_progressive DEFAULT_PLAN cc id meta key 0 = Some (Ok r) ->
    pr_finished r = true -> progressive_score meta key id (pr_score r)
| scored_later cc r :
    run_progressive DEFAULT_PLAN cc id meta key 2 = Some (Ok r) -> progressive_score meta key id (pr_score r).

(** Every succeeded row outside the legacy mode was scored by the progressive
    evaluator, on metadata that forces no failure. *)
Definition scored_rows (cid : uuid) (db : Db) : Prop :=
  forall s e, (s, e) ∈ quality_rows cid db -> e_evaluation_mode e <> M_LEGACY -> e_status e = E_SUCCEEDED ->
    failure_free (s_metadata s) /\ exists key, progressive_score (s_metadata s) key (s_id s) (e_score e).

Lemma progressive_score_truth meta key id kind o :
  failure_free meta -> parse_workload_kind meta = Some kind -> progressive_score meta key id o ->
  o = Some (truth id kind).
Proof.
  intros Hfree Hkind [cc r Hmode Hr Hf|cc r Hr].
  - destruct (cheap_settles id meta key kind Hfree Hkind 1 cc no_progress Hmode) as (r' & Hr' & Hout).
    change (run_progressive DEFAULT_PLAN cc id meta key 0)
      with (run_from 4 DEFAULT_PLAN cc id meta key 0 no_progress) in Hr.
    rewrite Hr' in Hr. injection Hr as ->. unfold settled, deferred in Hout.
    destruct Hout as [[_ [(_ & ? & _)|(_ & ? & _)]]|[(_ & ? & _)|(? & _)]]; congruence.
  - destruct (heavy_finishes id meta key kind Hfree Hkind 3 cc no_progress) as (r' & Hr' & _ & Hs & _).
    change (run_progressive DEFAULT_PLAN cc id meta key 2)
      with (run_from 4 DEFAULT_PLAN cc id meta key 2 no_progress) in Hr.
    rewrite Hr' in Hr. by injection Hr as ->.
Qed.

Lemma count_if_cons {A} (p : A -> bool) x l : count_if p (x :: l) = b2z (p x) + count_if p l.
Proof. unfold count_if, b2z. cbn. destruct (p x); rewrite ?zlen_cons; lia. Qed.

(** Every evaluation is finished or stranded, and a finished one succeeded or failed. *)
Lemma status_counts (evals : list Evaluation) :
  let has st := fun e => bool_decide (e_status e = st) in
  zlen evals = count_if (fun e => has E_SUCCEEDED e || has E_FAILED e) evals
               + count_if (fun e => has E_QUEUED e || has E_RUNNING e) evals
  /\ count_if (fun e => has E_SUCCEEDED e || has E_FAILED e) evals
     = count_if (has E_SUCCEEDED) evals + count_if (has E_FAILED) evals.
Proof.
  cbv zeta. induction evals as [|e evals [IH1 IH2]]; [done|]. rewrite !count_if_cons, zlen_cons, IH1, IH2.
  destruct (e_status e); repeat case_bool_decide; try done; cbn [orb b2z]; lia.
Qed.

Lemma length_rows {A B} (l : list (A * B)) : zlen l.*2 = zlen l.
Proof. unfold zlen. by rewrite length_fmap. Qed.

(** No decision is two. *)
Lemma never_both b (v w d : Verdict) :
  v <> w -> b && bool_decide (d = v) && bool_decide (d = w) = false.
Proof. intros Hne. rewrite <-andb_assoc. repeat case_bool_decide; subst; by rewrite ?andb_false_r. Qed.

(** The verdict on a database whose scores the progressive evaluator gave is
    favourable: every row compared agrees with the ground truth and none passed or
    failed early wrongly; and in any database the rows add up, by their status and
    by their kind. *)
Theorem verdict_is_favourable (cid : uuid) (db : Db) :
  scored_rows cid db ->
  let q := collect_evaluation_quality cid db in
  qr_false_early_pass q = 0 /\ qr_false_early_fail q = 0
  /\ qr_decision_agreement q = opt_rate (qr_compared q) (qr_compared q)
  /\ qr_enqueued q = qr_completed q + qr_stranded q
  /\ qr_completed q = qr_succeeded q + qr_failed q
  /\ zsum ((fun k => k.2.1) <$> qr_by_kind q) = qr_compared q.
Proof.
  intros Hscored q. unfold q, collect_evaluation_quality. cbv zeta.
  cbn [qr_false_early_pass qr_false_early_fail qr_decision_agreement qr_compared qr_enqueued qr_completed
       qr_stranded qr_succeeded qr_failed qr_by_kind].
  assert (Forall (fun v => rv_agree v = true /\ rv_false_pass v = false /\ rv_false_fail v = false)
            (omap (fun r => row_verdict r.1 r.2) (quality_rows cid db))) as Hall.
  { apply Forall_forall. intros v ([s e] & Hin & Hv)%list_elem_of_omap. cbn [fst snd] in Hv.
    unfold row_verdict in Hv. destruct (bool_decide_reflect (e_evaluation_mode e = M_LEGACY)) as [|Hmode]; [done|].
    destruct (parse_workload_kind (s_metadata s)) as [kind|] eqn:Hkind; [|done]. cbn [mbind option_bind] in Hv.
    destruct (bool_decide_reflect (e_status e = E_SUCCEEDED)) as [Hst|]; [|done]. destruct (Hscored s e Hin Hmode Hst) as (Hfree & key & Hps).
    rewrite (progressive_score_truth _ _ _ _ _ Hfree Hkind Hps) in Hv.
    cbn [mbind option_bind] in Hv. cbv zeta in Hv.
    injection Hv as <-. cbn [rv_agree rv_false_pass rv_false_fail].
    unfold truth. rewrite decision_of_truth. split; [by apply bool_decide_eq_true|].
    split; [apply (never_both _ PASS)|apply (never_both _ FAIL)]; done. }
  assert (forall l, Forall (fun v => rv_agree v = true /\ rv_false_pass v = false /\ rv_false_fail v = false) l ->
            count_if rv_agree l = zlen l /\ count_if rv_false_pass l = 0 /\ count_if rv_false_fail l = 0) as Hcount.
  { intros l. unfold count_if. induction 1 as [|v l (H1' & H2' & H3') _ (IH1 & IH2 & IH3)]; [done|].
    cbn [List.filter]. rewrite H1', H2', H3', !zlen_cons. split_and!; lia. }
  destruct (Hcount _ Hall) as (-> & -> & ->). do 3 (split; [done|]).
  split; [|split].
  - rewrite <-(length_rows (quality_rows cid db)). apply status_counts.
  - apply status_counts.
  - rewrite <-list_fmap_compose.
    rewrite <-(group_by_lengths (fun v => value (rv_kind v)) (omap (fun r => row_verdict r.1 r.2) (quality_rows cid db))).
    rewrite <-list_fmap_compose. done.
Qed.
End Collect.

Module QualitySample.
#[local] Existing Instances ProgressiveSample.sha ProgressiveSample.frepr ProgressiveSample.repr.
Definition adversarial : option (result eval_exn MixReport) :=
  run_mix (fun i => Z.of_nat i) (fun _ _ => 0) (fun _ _ => fzero) "adversarial" M_RESOURCE_AWARE_ADAPTIVE DEGRADED.

Lemma mixes_are_judged_right_witness :
  exists r, adversarial = Some (Ok r) /\ mr_decision_agreement r = of_Z 1 /\ mr_false_early_pass r = 0.
Proof.
  assert ("adversarial" ∈ MIXES.*1) as Hmix by (right; right; right; left).
  destruct (mixes_are_judged_right (fun i => Z.of_nat i) (fun _ _ => 0) (fun _ _ => fzero) "adversarial"
    M_RESOURCE_AWARE_ADAPTIVE DEGRADED Hmix (or_intror (or_intror eq_refl))) as (r & Hr & _ & Ha & Hp & _).
  exists r. exact (conj Hr (conj Ha Hp)).
Defined.

Example coalescing_bench_ex : coalescing_bench <$> [10; 50; 100]%nat = [Some (10, 1, 9); Some (50, 1, 49); Some (100, 1, 99)].
Proof. vm_compute. reflexivity. Qed.
End QualitySample.
