(* ===== verification/LexicalQuality.v ===== *)
(** The evaluation of lexical retrieval on its corpus
    (src/scripts/lexical_retrieval_experiment.py): which chunks a query should find,
    the category of a query that fails, and the run over every query and every
    version of the retrieval.  Latencies are left out of the reports; a query is a
    record with what its JSON object may leave out as a default. *)
From Stdlib Require Import ZArith Lia String.
From stdpp Require Import prelude strings gmap.
From S2P Require Import Prelude PyFloat PyStr Domain Database Retrieval.

(** One entry of [relevant_selectors]; without [contains] every chunk is meant. *)
Record Selector := mkSelector { sel_doc_id : pystr; sel_contains : pystr }.

Record CorpusQuery := mkCorpusQuery {
  cq_id : pystr;
  cq_query : pystr;
  cq_type : pystr;
  cq_relevant_selectors : list Selector;
  cq_expect_lexical_fail : bool;
  cq_allow_empty_relevant : bool;
}.

(** [doc_id -> list[DocumentChunk]] *)
Definition DocChunks : Type := gmap pystr (list DocumentChunk).

(** The chunks one selector names. *)
Definition selected (doc_chunks : DocChunks) (sel : Selector) : list DocumentChunk :=
  List.filter (fun ch => contains (dc_content ch) (sel_contains sel))
    (default [] (doc_chunks !! sel_doc_id sel)).

(** [scripts/lexical_retrieval_experiment.py:153-161 resolve_relevant] *)
Definition resolve_relevant (query : CorpusQuery) (doc_chunks : DocChunks) : gset pystr :=
  list_to_set ((fun ch => uuid_str (dc_id ch)) <$> cq_relevant_selectors query ≫= selected doc_chunks).

(** [set(s.lower().split())] *)
Definition terms (s : pystr) : gset pystr := list_to_set (words (lower s)).

(** [d.get(k, 0)] *)
Definition get_at (d : gmap Z float) (k : Z) : float := default fzero (d !! k).

(** [scripts/lexical_retrieval_experiment.py:164-188 classify_failure] *)
Definition classify_failure (query : CorpusQuery) (metrics : QueryMetrics) (ranked_contents : list pystr)
    : option string :=
  if cq_allow_empty_relevant query && negb (nonempty (cq_relevant_selectors query)) then
    if zero_hit metrics then None else Some "noise"%string
  else if negb (zero_hit metrics) && fge (get_at (recall_at metrics) 5) (of_Z 1) then None
  else if cq_expect_lexical_fail query && bool_decide (cq_type query = py "semantic_paraphrase")
  then Some "semantic_gap"%string
  else if zero_hit metrics then
    let q_terms := terms (cq_query query) in
    if existsb (fun c => negb (bool_decide (q_terms ∩ terms c = ∅))) ranked_contents
    then Some "ranking_failure"%string else Some "vocabulary_mismatch"%string
  else if match qm_first_relevant_rank metrics with Some r => 5 <? r | None => false end
  then Some "ranking_failure"%string
  else if flt (get_at (recall_at metrics) 10) (of_Z 1) then Some "ranking_failure"%string
  else Some "partial"%string.

(** One entry of [per_query]; [qe_metrics] is [None] for the queries whose metrics
    are skipped. *)
Record QueryEntry := mkEntry {
  qe_query_id : pystr;
  qe_type : pystr;
  qe_n_hits : Z;
  qe_zero_hit : bool;
  qe_expect_lexical_fail : bool;
  qe_metrics : option QueryMetrics;
  qe_failure_category : option string;
  qe_relevant_count : Z;
}.

(** The local variables of one version's run. *)
Record VersionRun := mkVersionRun {
  vr_metrics : list QueryMetrics;
  vr_per_query : list QueryEntry;
  vr_failures : gmap string Z;
}.

Record VersionReport := mkVersionReport {
  vp_aggregate : MacroAverage;
  vp_failure_counts : gmap string Z;
  vp_queries : list QueryEntry;
}.

(** [scripts/lexical_retrieval_experiment.py:197-197 run_eval] *)
Definition EVAL_KS : list Z := [1; 3; 5; 10].

(** [failures[fail] = failures.get(fail, 0) + 1], when there is a failure *)
Definition count_failure (fail : option string) (failures : gmap string Z) : gmap string Z :=
  match fail with
  | Some f => <[f := default 0 (failures !! f) + 1]> failures
  | None => failures
  end.

Section Evaluation.
Context `{FullText}.
Implicit Types (version : pystr) (db : Db) (doc_chunks : DocChunks) (q : CorpusQuery) (v : VersionRun).

(** [scripts/lexical_retrieval_experiment.py:205-256 run_eval], one query. *)
Definition eval_query version db doc_chunks q v : result exn VersionRun :=
  let relevant := resolve_relevant q doc_chunks in
  match retrieve (cq_query q) 10 None version db with
  | Raise e => Raise e
  | Ok hits =>
      let ranked_ids := (fun h => uuid_str (rc_chunk_id h)) <$> hits in
      if bool_decide (relevant = ∅) then
        if cq_allow_empty_relevant q then
          Ok (mkVersionRun (vr_metrics v)
                (vr_per_query v ++
                 [mkEntry (cq_id q) (cq_type q) (zlen hits) (zlen hits =? 0) (cq_expect_lexical_fail q)
                    None None 0]) (vr_failures v))
        else Ok v
      else
        match evaluate_query (cq_id q) ranked_ids relevant EVAL_KS with
        | Raise e => Raise e
        | Ok m =>
            let fail := classify_failure q m (rc_content <$> hits) in
            Ok (mkVersionRun (vr_metrics v ++ [m])
                  (vr_per_query v ++
                   [mkEntry (cq_id q) (cq_type q) (zlen hits) (zero_hit m) (cq_expect_lexical_fail q)
                      (Some m) fail (Z.of_nat (size relevant))])
                  (count_failure fail (vr_failures v)))
        end
  end.

Fixpoint eval_queries version db doc_chunks (qs : list CorpusQuery) v : result exn VersionRun :=
  match qs with
  | [] => Ok v
  | q :: qs =>
      match eval_query version db doc_chunks q v with
      | Ok v => eval_queries version db doc_chunks qs v
      | Raise e => Raise e
      end
  end.

(** [scripts/lexical_retrieval_experiment.py:200-261 run_eval], one version. *)
Definition run_version version db doc_chunks (qs : list CorpusQuery) : result exn VersionReport :=
  match eval_queries version db doc_chunks qs (mkVersionRun [] [] ∅) with
  | Raise e => Raise e
  | Ok v =>
      match macro_average (vr_metrics v) EVAL_KS with
      | Raise e => Raise e
      | Ok a => Ok (mkVersionReport a (vr_failures v) (vr_per_query v))
      end
  end.

(** The versions of a run with their reports, up to the first exception. *)
Fixpoint run_versions (vs : list pystr) db doc_chunks (qs : list CorpusQuery)
    : result exn (list (pystr * VersionReport)) :=
  match vs with
  | [] => Ok []
  | version :: vs =>
      match run_version version db doc_chunks qs with
      | Raise e => Raise e
      | Ok r =>
          match run_versions vs db doc_chunks qs with
          | Ok l => Ok ((version, r) :: l)
          | Raise e => Raise e
          end
      end
  end.

(** [scripts/lexical_retrieval_experiment.py:191-263 run_eval] *)
Definition run_eval db doc_chunks (qs : list CorpusQuery) : result exn (list (pystr * VersionReport)) :=
  run_versions versions db doc_chunks qs.

(** [scripts/lexical_retrieval_experiment.py:445-449 run] *)
Definition paraphrase_fails (r : VersionReport) : Z :=
  zlen (List.filter (fun e => bool_decide (qe_type e = py "semantic_paraphrase") && qe_zero_hit e)
          (vp_queries r)).
End Evaluation.

(** * What the evaluation reports *)

Lemma elem_of_resolve q doc_chunks s :
  s ∈ resolve_relevant q doc_chunks <->
  exists sel ch l, sel ∈ cq_relevant_selectors q /\ doc_chunks !! sel_doc_id sel = Some l /\ ch ∈ l
    /\ contains (dc_content ch) (sel_contains sel) = true /\ s = uuid_str (dc_id ch).
Proof.
  unfold resolve_relevant, selected. rewrite elem_of_list_to_set, list_elem_of_fmap.
  setoid_rewrite list_elem_of_bind. setoid_rewrite elem_of_filterb. split.
  - intros (ch & -> & sel & [Hch Hc] & Hsel).
    destruct (doc_chunks !! sel_doc_id sel) as [l|] eqn:E; cbn in Hch; [|by apply elem_of_nil in Hch].
    exists sel, ch, l. by split_and!.
  - intros (sel & ch & l & Hsel & Hl & Hch & Hc & ->). exists ch. split; [done|]. exists sel.
    by rewrite Hl.
Qed.

(** A query with a relevant chunk has no failure exactly when a relevant chunk was
    retrieved and the first five hits hold all of them; "noise" is never its
    category. *)
Lemma classify_relevant q doc_chunks m contents :
  resolve_relevant q doc_chunks <> ∅ ->
  (classify_failure q m contents = None <->
   zero_hit m = false /\ fge (get_at (recall_at m) 5) (of_Z 1) = true)
  /\ classify_failure q m contents <> Some "noise"%string.
Proof.
  intros Hr. unfold classify_failure.
  assert (nonempty (cq_relevant_selectors q) = true) as ->.
  { apply set_choose_L in Hr as [s Hs]. apply elem_of_resolve in Hs as (sel & _ & _ & Hsel & _).
    destruct (cq_relevant_selectors q); [by apply elem_of_nil in Hsel|done]. }
  rewrite andb_false_r.
  destruct (zero_hit m) eqn:Ez, (fge (get_at (recall_at m) 5) (of_Z 1)) eqn:Er; cbn [negb andb];
    (split; [split; [|intros [??]]|]); repeat case_match; (done || congruence || naive_solver).
Qed.

(** What a run has gathered: every entry with metrics was judged against a set of
    relevant chunks, the failures are counted as the entries show them, and the
    metrics are those of the entries. *)
Definition judged (e : QueryEntry) (m : QueryMetrics) : Prop :=
  (forall k, k ∈ EVAL_KS -> is_Some (recall_at m !! k) /\ is_Some (precision_at m !! k))
  /\ (qe_failure_category e = None <-> zero_hit m = false /\ fge (get_at (recall_at m) 5) (of_Z 1) = true)
  /\ qe_failure_category e <> Some "noise"%string.

Definition has_category (f : string) (e : QueryEntry) : bool := bool_decide (qe_failure_category e = Some f).

Record run_ok (v : VersionRun) : Prop := {
  ok_metrics : vr_metrics v = omap qe_metrics (vr_per_query v);
  ok_judged : forall e, e ∈ vr_per_query v ->
    match qe_metrics e with Some m => judged e m | None => qe_failure_category e = None end;
  ok_counts : forall f, default 0 (vr_failures v !! f) = zlen (List.filter (has_category f) (vr_per_query v));
}.

Lemma count_failure_lookup fail failures f :
  default 0 (count_failure fail failures !! f) =
  default 0 (failures !! f) + b2z (bool_decide (fail = Some f)).
Proof.
  unfold count_failure. destruct fail as [g|]; cbn; [|by rewrite Z.add_0_r].
  destruct (decide (g = f)) as [->|Hne].
  - by rewrite lookup_insert_eq, bool_decide_eq_true_2.
  - rewrite lookup_insert_ne, bool_decide_eq_false_2 by congruence. cbn. lia.
Qed.

Lemma filter_app_one {A} (p : A -> bool) l x :
  zlen (List.filter p (l ++ [x])) = zlen (List.filter p l) + b2z (p x).
Proof. rewrite List.filter_app, zlen_app. cbn. by destruct (p x). Qed.

Section Reports.
Context `{FullText}.

Lemma run_ok_skip v e :
  run_ok v -> qe_metrics e = None -> qe_failure_category e = None ->
  run_ok (mkVersionRun (vr_metrics v) (vr_per_query v ++ [e]) (vr_failures v)).
Proof.
  intros Hok Hm Hf. destruct Hok as [H1 H2 H3]. split; cbn [vr_metrics vr_per_query vr_failures].
  - rewrite omap_app, <-H1. cbn. by rewrite Hm, app_nil_r.
  - intros e' [He|He%list_elem_of_singleton]%elem_of_app; [by apply H2|]. by rewrite He, Hm.
  - intros f. rewrite filter_app_one, <-H3. unfold has_category. rewrite Hf, bool_decide_eq_false_2 by done. cbn. lia.
Qed.

Lemma run_ok_entry v e m :
  run_ok v -> qe_metrics e = Some m -> judged e m ->
  run_ok (mkVersionRun (vr_metrics v ++ [m]) (vr_per_query v ++ [e])
            (count_failure (qe_failure_category e) (vr_failures v))).
Proof.
  intros Hok Hm Hj. destruct Hok as [H1 H2 H3]. split; cbn [vr_metrics vr_per_query vr_failures].
  - rewrite omap_app, <-H1. cbn. by rewrite Hm.
  - intros e' [He|He%list_elem_of_singleton]%elem_of_app; [by apply H2|]. by rewrite He, Hm.
  - intros f. by rewrite filter_app_one, <-H3, count_failure_lookup.
Qed.

Lemma eval_query_ok version db doc_chunks q v :
  version ∈ versions -> run_ok v -> exists v', eval_query version db doc_chunks q v = Ok v' /\ run_ok v'.
Proof.
  intros Hv Hok. unfold eval_query.
  assert (exists hits, retrieve (cq_query q) 10 None version db = Ok hits) as [hits ->].
  { rewrite retrieve_run. rewrite (bool_decide_eq_true_2 _ Hv). cbn [Z.ltb Z.compare Pos.compare Pos.compare_cont].
    destruct (negb _); eauto. }
  case_bool_decide as Hr.
  { destruct (cq_allow_empty_relevant q); eexists; (split; [done|]); [by apply run_ok_skip|done]. }
  set (ids := _ <$> hits).
  pose proof (evaluate_query_run (cq_id q) ids (resolve_relevant q doc_chunks) EVAL_KS) as Hrun.
  destruct (evaluate_query _ _ _ _) as [m|e]; cycle 1.
  { exfalso. destruct Hrun as [?|(k & Hk & Hlt)]; [done|].
    unfold EVAL_KS in Hk. rewrite !elem_of_cons, elem_of_nil in Hk. lia. }
  destruct Hrun as (_ & Hcut & _). eexists. split; [done|].
  eapply (run_ok_entry v (mkEntry _ _ _ _ _ _ _ _)); [done|reflexivity|]. split.
  - intros k Hk. destruct (Hcut k Hk) as (_ & -> & ->). by split.
  - by apply (classify_relevant q doc_chunks).
Qed.

Lemma eval_queries_ok version db doc_chunks qs v :
  version ∈ versions -> run_ok v ->
  exists v', eval_queries version db doc_chunks qs v = Ok v' /\ run_ok v'.
Proof.
  intros Hv. revert v. induction qs as [|q qs IH]; intros v Hok; cbn [eval_queries]; [eauto|].
  destruct (eval_query_ok version db doc_chunks q v Hv Hok) as (v' & -> & Hok'). eauto.
Qed.

(** Averages exist when every metric has every cut-off. *)
Lemma macro_average_total metrics ks :
  (forall m, m ∈ metrics -> forall k, k ∈ ks -> is_Some (recall_at m !! k) /\ is_Some (precision_at m !! k)) ->
  exists a, macro_average metrics ks = Ok a /\ ma_n_queries a = zlen metrics.
Proof.
  intros Hall. unfold macro_average. destruct (nonempty metrics) eqn:En; cbn [negb]; cycle 1.
  { eexists. split; [done|]. by destruct metrics. }
  assert (forall field : QueryMetrics -> gmap Z float,
    (forall m, m ∈ metrics -> forall k, k ∈ ks -> is_Some (field m !! k)) ->
    exists d, dict_of (fun k => match sum_at field metrics k with
                                | Ok s => Ok (mean4 (zlen metrics) s)
                                | Raise e => Raise e
                                end) ks ∅ = Ok d) as Havg.
  { intros field Hf. pose proof (dict_of_spec (fun k => match sum_at field metrics k with
      | Ok s => Ok (mean4 (zlen metrics) s) | Raise e => Raise e end) ks ∅) as Hd.
    destruct (dict_of _ ks ∅) as [d|e]; [eauto|]. destruct Hd as (k & Hk & He). exfalso.
    unfold sum_at in He. destruct (mapM _ metrics) eqn:Em; [done|].
    apply mapM_None in Em. apply Exists_exists in Em as (m & Hm & Hn).
    destruct (Hf m Hm k Hk) as [? E]. congruence. }
  destruct (Havg recall_at) as [d ->]; [naive_solver|].
  destruct (Havg precision_at) as [d' ->]; [naive_solver|]. eauto.
Qed.

(** The evaluation always produces its report, for every version of the retrieval:
    the average is over the entries with metrics, every failure is counted under its
    category, a query has no failure exactly when something relevant was retrieved
    and the first five hits hold all of it, and "noise" is never reported. *)
Theorem evaluation_reports version db doc_chunks qs :
  version ∈ versions ->
  exists r, run_version version db doc_chunks qs = Ok r
  /\ ma_n_queries (vp_aggregate r) = zlen (omap qe_metrics (vp_queries r))
  /\ (forall f, default 0 (vp_failure_counts r !! f) = zlen (List.filter (has_category f) (vp_queries r)))
  /\ (forall e m, e ∈ vp_queries r -> qe_metrics e = Some m ->
        (qe_failure_category e = None <->
         zero_hit m = false /\ fge (get_at (recall_at m) 5) (of_Z 1) = true))
  /\ default 0 (vp_failure_counts r !! "noise"%string) = 0.
Proof.
  intros Hv. unfold run_version.
  assert (run_ok (mkVersionRun [] [] ∅)) as H0.
  { split; [done|by intros e ?%elem_of_nil|done]. }
  destruct (eval_queries_ok version db doc_chunks qs _ Hv H0) as (v & -> & [Hm Hj Hc]).
  destruct (macro_average_total (vr_metrics v) EVAL_KS) as (a & -> & Ha).
  { rewrite Hm. intros m (e & He & Hme)%list_elem_of_omap k Hk. specialize (Hj e He). rewrite Hme in Hj.
    by apply Hj. }
  eexists. split; [done|]. cbn. split_and!; [by rewrite Ha, Hm|done| |].
  - intros e m He Hme. specialize (Hj e He). rewrite Hme in Hj. by apply Hj.
  - rewrite Hc, filterb_none; [done|]. intros e He. apply bool_decide_eq_false_2. specialize (Hj e He).
    destruct (qe_metrics e); [by apply Hj|congruence].
Qed.
End Reports.

(** * A run on a small corpus *)

Module LexicalSample.
Import RetrievalSample.
#[local] Existing Instance toy_search.

Definition docs : DocChunks :=
  {[ py "doc_worker" := [chunk 10 1 0 (py "worker crash recovery") [];
                         chunk 11 1 1 (py "worker pools and their limits") [py "Worker"]] ]}.

(** A query that is found, a paraphrase that shares no word, one without an expected
    answer that has a hit, and one whose selector names nothing. *)
Definition queries : list CorpusQuery :=
  [mkCorpusQuery (py "q_crash") (py "crash recovery") (py "exact_phrase")
     [mkSelector (py "doc_worker") (py "crash")] false false;
   mkCorpusQuery (py "q_paraphrase") (py "restart after failure") (py "semantic_paraphrase")
     [mkSelector (py "doc_worker") (py "crash")] true false;
   mkCorpusQuery (py "q_empty") (py "pools") (py "no_result") [] true true;
   mkCorpusQuery (py "q_gone") (py "pools") (py "exact_term") [mkSelector (py "doc_gone") []] false false].

Definition report : result exn VersionReport := run_version RETRIEVAL_VERSION_FTS corpus docs queries.

Example categories :
  match report with
  | Ok r => (fun e => (qe_query_id e, qe_n_hits e, qe_failure_category e)) <$> vp_queries r
  | Raise _ => []
  end = [(py "q_crash", 2, None); (py "q_paraphrase", 0, Some "semantic_gap"%string); (py "q_empty", 1, None)].
Proof. vm_compute. reflexivity. Qed.

Example paraphrases : paraphrase_fails <$> match report with Ok r => Some r | Raise _ => None end = Some 1.
Proof. vm_compute. reflexivity. Qed.

(** The hit of the query that expects none is noise to [classify_failure], which the
    run never asks about it. *)
Example noise_not_asked :
  classify_failure (mkCorpusQuery (py "q_empty") (py "pools") (py "no_result") [] true true)
    (mkQueryMetrics (py "q_empty") ∅ ∅ (of_Z 1) (Some 1) false 1) [py "worker pools"] = Some "noise"%string.
Proof. reflexivity. Qed.

Lemma evaluation_reports_witness :
  exists r, report = Ok r /\ ma_n_queries (vp_aggregate r) = zlen (omap qe_metrics (vp_queries r))
  /\ default 0 (vp_failure_counts r !! "noise"%string) = 0.
Proof.
  destruct (evaluation_reports RETRIEVAL_VERSION_FTS corpus docs queries) as (r & Hr & Hn & _ & _ & Hz);
    [decide_closed|]. exact (ex_intro _ r (conj Hr (conj Hn Hz))).
Defined.
End LexicalSample.
