(* ===== verification/FailureInjection.v ===== *)
(** The failure injection of the ingestion experiment
    (src/scripts/ingestion_pipeline_reliability_experiment.py): documents are
    enqueued, workers crash after a claim or before the settlement, poison and
    transient artifacts arrive, and stale jobs are recovered.  Each cell of the
    experiment is a computation on the world of IngestionWorker.v that answers what
    the script records; the rows above the submissions are those of the world it
    starts from, and every clock and identifier is given. *)
From Stdlib Require Import ZArith Lia String.
From stdpp Require Import prelude strings gmap.
From S2P Require Import Prelude PyFloat PyStr Domain Database Json Utf8 Storage Canonical Chunking.
From S2P Require Import IngestionQueue IngestionWorker Measurements.
Import IngestionJobRepository DocumentChunkRepository.

(** A call on the database inside an open session. *)
Definition on_db {A} (c : M exn Db A) : M exn World A := zoom w_db (fun d w => w <| w_db := d |>) c.

(** [async with factory() as session], with its commit at the end: the rows of a
    session that raises are lost, its files stay. *)
Definition in_session {A} (c : M exn World A) : M exn World A := fun w =>
  match c w with
  | (Ok a, w') => (Ok a, w')
  | (Raise e, w') => (Raise e, w' <| w_db := w_db w |>)
  end.

(** The identifiers and clocks of the enqueued documents. *)
Record EnqueueEnv := mkEnqueueEnv {
  ee_challenge : uuid;
  ee_now : datetime;
  ee_mtime : float;
  ee_submission : nat -> uuid;
  ee_job : nat -> uuid;
  ee_enqueued : nat -> datetime;
}.

(** [f"submissions/{chal.id}/{PARTICIPANT_ID}/{name}.bin"] *)
Definition document_key (challenge : uuid) (name : pystr) : pystr :=
  py "submissions/" ++ uuid_str challenge ++ py "/" ++ uuid_str PARTICIPANT_ID ++ py "/" ++ name
  ++ py ".bin".

(** The row of a submission the experiment makes. *)
Definition document_submission (ee : EnqueueEnv) (i : nat) : Submission :=
  mkSubmission (ee_submission ee i) (ee_challenge ee) PARTICIPANT_ID S_CREATED [] None None None
    (ee_now ee) (ee_now ee) None.

(** One document: its submission, its artifact and its job. *)
Definition enqueue_document (ee : EnqueueEnv) (i : nat) (name : pystr) (body : bytes) : M exn World unit :=
  let key := document_key (ee_challenge ee) name in
  on_db (insert_submission (document_submission ee i)) ;;
  on_store (fs_put (ee_mtime ee) key body (py "text/plain")) ;;
  on_db (enqueue (ee_job ee i) (ee_enqueued ee i) (ee_submission ee i) key) ;;
  mret tt.

Fixpoint enqueue_documents (ee : EnqueueEnv) (i : nat) (docs : list (pystr * bytes)) : M exn World unit :=
  match docs with
  | [] => mret tt
  | (name, body) :: docs => enqueue_document ee i name body ;; enqueue_documents ee (S i) docs
  end.

(** [body if body != b"doc" else f"doc {i}".encode()] *)
Definition document_body (body : bytes) (i : nat) : bytes :=
  if bool_decide (body = py "doc") then py "doc " ++ int_str (Z.of_nat i) else body.

(** [scripts/ingestion_pipeline_reliability_experiment.py:96-113 enqueue_n] *)
Definition enqueue_n (ee : EnqueueEnv) (n : nat) (body : bytes) : M exn World unit :=
  in_session (enqueue_documents ee 0
    ((fun i => (int_str (Z.of_nat i), document_body body i)) <$> seq 0 n)).

(** [scripts/ingestion_pipeline_reliability_experiment.py:134-140 backdate_running] *)
Definition backdate_job (now : datetime) (r : IngestionJob) : IngestionJob :=
  match j_started_at r with
  | Some _ => r <| j_started_at := Some (now - seconds 60) |>
  | None => r
  end.
Definition backdate_running (now : datetime) (w : World) : World :=
  w <| w_db := set_ingestion_jobs (backdate_job now <$> ingestion_jobs (w_db w)) (w_db w) |>.

(** A new worker starts with counters at zero. *)
Definition new_worker (w : World) : World := mkWorld (w_db w) (w_fs w) 0 0 0 0.

(** [scripts/ingestion_pipeline_reliability_experiment.py:215-218 run.reset_world], to the
    rows the next cell starts with; the store is kept. *)
Definition reset_world (base : Db) (w : World) : World := new_worker (w <| w_db := base |>).

(** [scripts/ingestion_pipeline_reliability_experiment.py:220-226 run], settings_fast, with
    the switches of the worker. *)
Definition fast_worker (worker_id : pystr) (after_claim after_process : bool) : WorkerConfig :=
  mkWorkerConfig worker_id 3 fzero 0 1200 after_claim after_process false.

(** [scripts/ingestion_pipeline_reliability_experiment.py:60-66 setup] *)
Definition worker (worker_id : pystr) : WorkerConfig :=
  mkWorkerConfig worker_id 3 fzero 30 1200 false false false.

(** [counts.get(status) == n] *)
Definition count_is (counts : IngestionStatus -> option Z) (st : IngestionStatus) (n : Z) : bool :=
  bool_decide (counts st = Some n).

Definition sum_counts (counts : IngestionStatus -> option Z) : Z :=
  zsum ((fun st => default 0 (counts st)) <$> [I_QUEUED; I_RUNNING; I_SUCCEEDED; I_FAILED]).

Definition counts_now : M exn World (IngestionStatus -> option Z) :=
  gets_st (fun w => count_jobs_by_status (w_db w)).

(** [try: ... except RuntimeError]: whether it was raised. *)
Definition raises_runtime_error {A} (c : M exn World A) : M exn World bool := fun w =>
  match c w with
  | (Ok _, w') => (Ok false, w')
  | (Raise (RuntimeError _), w') => (Ok true, w')
  | (Raise e, w') => (Raise e, w')
  end.

(** A cell: what was counted before and after, and its verdict. *)
Record Cell := mkCell {
  ce_mid : IngestionStatus -> option Z;
  ce_after : IngestionStatus -> option Z;
  ce_ok : bool;
}.

(** What the clocks and identifiers of a cell are: the documents, the passes of the
    workers, the recovery and the time of [backdate_running]. *)
Record CellEnv := mkCellEnv {
  cx_enqueue : EnqueueEnv;
  cx_pass : nat -> WorkerEnv;
  cx_recover : datetime;
  cx_backdate : datetime;
}.

Section Cells.
Context `{Sha256} `{FloatRepr} (x : CellEnv).

(** [scripts/ingestion_pipeline_reliability_experiment.py:228-235 run] *)
Definition job_never_started : M exn World Cell :=
  enqueue_n (cx_enqueue x) 1 (py "doc") ;;
  counts ← counts_now;
  mret (mkCell counts counts (count_is counts I_QUEUED 1 && (sum_counts counts =? 1))).

(** The crashed worker recovers what is stale, a second one makes a pass. *)
Definition recover_and_retry (crashed : WorkerConfig) (worker_id : pystr) : M exn World unit :=
  modify_st (backdate_running (cx_backdate x)) ;;
  recover_stale crashed (cx_recover x) (cx_recover x) ;;
  modify_st new_worker ;;
  run_once (fast_worker worker_id false false) (cx_pass x 1) ;;
  mret tt.

(** [scripts/ingestion_pipeline_reliability_experiment.py:238-272 run] *)
Definition claim_then_die : M exn World Cell :=
  let w1 := fast_worker (py "f-claim") true false in
  enqueue_n (cx_enqueue x) 1 (py "claim-die") ;;
  claim_die_raised ← raises_runtime_error (run_once w1 (cx_pass x 0));
  mid ← counts_now;
  recover_and_retry w1 (py "f-claim-2") ;;
  after ← counts_now;
  mret (mkCell mid after (claim_die_raised && count_is mid I_RUNNING 1 && count_is after I_SUCCEEDED 1)).

(** [rows[0].id], of the rows of a table. *)
Definition first_job : M exn World uuid :=
  w ← get_st;
  match rows_where (fun _ => true) (ingestion_jobs (w_db w)) with
  | r :: _ => mret (j_id r)
  | [] => raise (OtherError "IndexError")
  end.

(** [job is not None and job.result_key is not None and storage.exists(job.result_key)] *)
Definition result_stored (job_id : uuid) : M exn World bool :=
  job ← on_db (get_job job_id);
  match job ≫= j_result_key with
  | Some key => on_store (fs_exists key)
  | None => mret false
  end.

(** [scripts/ingestion_pipeline_reliability_experiment.py:275-320 run] *)
Definition die_after_process_before_ack : M exn World Cell :=
  let w1 := fast_worker (py "f-ack") false true in
  enqueue_n (cx_enqueue x) 1 (py "ack-die content") ;;
  ack_raised ← raises_runtime_error (run_once w1 (cx_pass x 0));
  mid ← counts_now;
  jid ← first_job;
  blob_before ← on_store (fs_exists (result_key_for jid));
  recover_and_retry w1 (py "f-ack-2") ;;
  after ← counts_now;
  stored ← result_stored jid;
  mret (mkCell mid after
          (ack_raised && blob_before && count_is mid I_RUNNING 1 && count_is after I_SUCCEEDED 1 && stored)).

(** [scripts/ingestion_pipeline_reliability_experiment.py:116-131 drain], with one worker:
    its passes from the [i]th on. *)
Fixpoint drain (cfg : WorkerConfig) (rounds i : nat) : M exn World unit :=
  match rounds with
  | O => mret tt
  | S rounds => _ ← run_once cfg (cx_pass x i); drain cfg rounds (S i)
  end.

(** [scripts/ingestion_pipeline_reliability_experiment.py:353-355 run] *)
Definition poison_documents : list (pystr * bytes) :=
  imap (fun i body => (py "p" ++ int_str (Z.of_nat i), body))
    (py "cf_ingest_poison x" :: ((fun i => py "ok " ++ int_str (Z.of_nat i)) <$> seq 0 10)).

(** [scripts/ingestion_pipeline_reliability_experiment.py:352-383 run] *)
Definition poison_isolation : M exn World Cell :=
  in_session (enqueue_documents (cx_enqueue x) 0 poison_documents) ;;
  mid ← counts_now;
  drain (worker (py "poison")) 40 0 ;;
  after ← counts_now;
  mret (mkCell mid after (count_is after I_SUCCEEDED 10 && count_is after I_FAILED 1)).

(** [scripts/ingestion_pipeline_reliability_experiment.py:386-406 run] *)
Definition transient_then_success : M exn World Cell :=
  let cfg := fast_worker (py "f-tr") false false in
  enqueue_n (cx_enqueue x) 1 (py "cf_ingest_transient x") ;;
  run_once cfg (cx_pass x 0) ;;
  mid ← counts_now;
  run_once cfg (cx_pass x 1) ;;
  after ← counts_now;
  w ← get_st;
  mret (mkCell mid after (count_is mid I_QUEUED 1 && count_is after I_SUCCEEDED 1 && (w_retried w =? 1))).

(** [scripts/ingestion_pipeline_reliability_experiment.py:412-413 run], the cells in their
    order, each from a new schema and a new worker. *)
Definition failure_injection (base : Db) : M exn World (list (string * Cell)) :=
  modify_st (reset_world base) ;;
  a ← job_never_started;
  modify_st (reset_world base) ;;
  b ← claim_then_die;
  modify_st (reset_world base) ;;
  c ← die_after_process_before_ack;
  modify_st (reset_world base) ;;
  d ← poison_isolation;
  modify_st (reset_world base) ;;
  e ← transient_then_success;
  mret [("job_never_started", a); ("claim_then_die", b); ("die_after_process_before_ack", c);
        ("poison_isolation", d); ("transient_then_success", e)]%string.

(** [scripts/ingestion_pipeline_reliability_experiment.py:427-427 run], the verdict over
    all cells. *)
Definition failure_cells_ok (cells : list (string * Cell)) : bool := forallb (fun c => ce_ok c.2) cells.
End Cells.

(** * The cells *)

Module FailureSample.
#[local] Instance sha : Sha256 := fun _ => py "00".
#[local] Instance repr : FloatRepr := fun _ => [].

(** The seeded participant and a challenge, which stay through a reset. *)
Definition base : Db :=
  empty_db <| users := {[ PARTICIPANT_ID := mkUser PARTICIPANT_ID (py "P") PARTICIPANT 0 ]} |>
    <| challenges := {[ 5 := mkChallenge 5 4 (py "C") (py "d") [] C_PUBLISHED (mkSpec [] 0 0) [] 0 0 ]} |>.

Definition start : World := mkWorld empty_db (mkFs ∅) 0 0 0 0.

(** The passes are seconds apart, the recovery comes between the first two. *)
Definition env : CellEnv :=
  mkCellEnv
    (mkEnqueueEnv 5 1 (of_Z 1) (fun i => 100 + Z.of_nat i) (fun i => 200 + Z.of_nat i) (fun i => 2 + Z.of_nat i))
    (fun i => mkEnv ∅ (seconds (2 * Z.of_nat i + 1)) (seconds (2 * Z.of_nat i + 1) + 5) (of_Z 7)
                (fun k => 1000 * (1 + Z.of_nat i) + Z.of_nat k))
    (seconds 2) (seconds 2).

Definition cells : result exn (list (string * Cell)) := fst (failure_injection env base start).

(** Every cell of the experiment passes: a job nobody claims stays queued, one whose
    worker died is recovered and succeeds, a result written before the crash is
    written again, a poison artifact fails alone, and a transient failure succeeds at
    the second attempt. *)
Theorem failure_cells_pass :
  match cells with
  | Ok l => failure_cells_ok l = true
            /\ fst <$> l = ["job_never_started"; "claim_then_die"; "die_after_process_before_ack";
                            "poison_isolation"; "transient_then_success"]%string
  | Raise _ => False
  end.
Proof. vm_compute. split; reflexivity. Qed.
End FailureSample.
